(* ===== verification/_CoqProject ===== *)
-Q . S2P
Prelude.v
Machine.v
Debug.v
Pi2c.v
PTime.v
Sensors.v
Padc.v
Bme280.v
DcmiDma.v
OvTables.v
Ov5640.v
Collector.v
ImageFile.v
MainLoop.v
DirScan.v
MemBench.v
MainRun.v
Commands.v
Watchdog.v
UsbCfg.v
FatVol.v
FatTable.v
FatMount.v
FatBitmap.v
FatAlloc.v
FatChain.v
FatFree.v
FatFile.v
FatWrite.v
FatRead.v
FatSync.v
FatOpen.v
FatStore.v
FatUnicode.v
FatName.v
FatDir.v
FatReg.v
FatPath.v
FatNamed.v
FatInfo.v
FatSpec.v
FatDirSpec.v
ImageStore.v
