(* ===== verification/Prelude.v ===== *)
(** * WaferSat flight firmware: verification library

    WaferSat is the firmware of a small satellite on an STM32F429: a ChibiOS
    application that takes pictures with an OV5640 camera, stores them on an SD
    card, and reads a set of sensors.  This library models the firmware's own C
    code (the .c files of src/) and the part of the file system FatFs linked with
    it (src/ext/fatfs) that it uses, and proves their properties; ChibiOS, the
    card and the peripherals are the environment.

    ** The program and the files that model it

    - pi2c.c, a wrapper around the I2C driver, carries every register access of
      the sensors and of the camera: Pi2c.v.
    - tmp100.c, ltr329.c, mpu9250.c (temperature, light, acceleration):
      Sensors.v, one module each.  bme280.c (humidity, temperature, pressure):
      Bme280.v.  padc.c (battery voltage, chip temperature): Padc.v.
    - ptime.c (calendar dates, timestamps, the RTC): PTime.v.
    - collector.c puts the readings of all sensors, the system status and the
      position into a data point: Collector.v.
    - ov5640.c, the camera: its register tables and the fallback image in
      OvTables.v, the driver in Ov5640.v.  It configures the camera over I2C and
      captures through dcmi_dma.c, which moves the image into memory block by
      block from an interrupt routine: DcmiDma.v.
    - main.c: writing images to the card in ImageFile.v; the card monitor, the
      event handlers and a turn of the main loop in MainLoop.v; the start-up and
      the main thread running beside the monitor's timer in MainRun.v; the shell
      commands and the LED threads in Commands.v; the directory listing in
      DirScan.v; the SDRAM in MemBench.v.
    - memcpy_dma.c and membench.c (copying memory by DMA, measuring it):
      MemBench.v.  watchdog.c: Watchdog.v.
    - debug.c and debug.h (trace messages, the ring of the last errors): Debug.v.
      usbcfg.c (descriptors of a serial port over USB): UsbCfg.v.
    - ext/fatfs/src/ff.c, FatFs R0.13 in the configuration of ffconf.h, from the
      driver of the card upwards.  FatVol.v: a volume, its window of one sector,
      sync_window, move_window, sync_fs, clst2sect.  FatTable.v: the entries of
      the allocation table (get_fat, put_fat) in FAT12, FAT16, FAT32 and exFAT.
      FatBitmap.v and FatAlloc.v: the allocation bitmap of exFAT.  FatChain.v:
      create_chain and remove_chain.  FatFree.v: f_getfree.  FatMount.v: check_fs,
      find_volume and f_mount.  FatFile.v: an open file and f_write, f_read, f_sync,
      f_close, whose proofs are in FatWrite.v, FatRead.v and FatSync.v.  FatOpen.v:
      what f_open does once it has found the directory entry.  FatStore.v: a file
      written, closed, opened and read back.  FatSpec.v: the main theorems about
      volumes and files, with a sample card they are run on.
    - The directories of FatFs.  FatUnicode.v: the characters (ff_uni2oem,
      ff_oem2uni and ff_wtoupper of ffunicode.c with their tables).  FatName.v:
      long and short names (create_name, gen_numname, pick_lfn, put_lfn, ...).
      FatDir.v: walking, searching and extending a directory (dir_sdi, dir_next,
      dir_find, dir_alloc, dir_register), with what a directory stands for; FatReg.v:
      the proof that an entry is registered.  FatPath.v: follow_path and f_open.
      FatNamed.v: files stored and fetched by name.  FatInfo.v: f_opendir,
      f_readdir and f_closedir.  FatDirSpec.v: the main theorems about names and
      directories, with a sample root directory they are run on.
    - ImageStore.v puts the two together: write_jpeg of main.c on the model of
      FatFs, which answers its calls by replaying them on a mounted volume.
    - This file holds what they share: machine integers, faults, the monad of
      stateful code with its program logic, and lemmas on bits and arithmetic.
      Machine.v holds the state of the firmware and its environment.  Beside
      total correctness ([wp]) there are two small logics for all runs that
      complete: what a computation leaves alone ([keeps]) and the type of what it
      returns ([returns]).

    ** How the code is modelled

    A C function becomes a definition of the same name in the monad [ST]: it
    takes the state and returns a value and a new state, or a fault.  Faults are
    what the C program must not do: signed overflow, an index outside an array, a
    division by zero, a call through a null pointer, a failed assertion.  So a
    theorem that a call ends in [Ok] says that none of these happens, and every
    theorem about a result is a theorem of total correctness ([wp], [exists s']).
    Unsigned arithmetic wraps, signed arithmetic is checked, narrowing
    conversions reduce.  Output parameters become results.

    The state [world] (Machine.v) has the static variables of the C files and the
    history of the calls to code outside src/, newest first, with their
    arguments.  What such a call answers is a field of a class ([I2cDriver],
    [AdcDriver], [SysTimer], [DmaStream], [FileSystem], ...) and may depend on the
    whole history; what the firmware relies on is stated in a second class of
    laws next to it ([DmaLaws], [TimerLaws], ...), and each theorem that uses laws
    has a witness with concrete instances that satisfy them.  Interrupts and other
    threads act where a thread sleeps ([Background]); for the running capture they
    are the steps of a relation ([DcmiDma.step]), and the theorems hold in every
    reachable state; the main thread and the timer of the card monitor are a
    second such system ([MainRun.step]), whose state also has the pending events.
    MemBench.v works on raw memory and has a state of its own;
    [MainRun.on_memory] runs it on the memory the image buffer lies in.
    UsbCfg.v is pure.

    FatFs has a state of its own, [FatVol.vol]: the FATFS object, with its cached
    sector, and the card as a function from sectors to bytes.  What the driver of
    the card answers is the class [DiskIo]: it may refuse any transfer, and a
    refused transfer may leave anything in the sectors or the buffer it names.  The
    heap the name buffers come from is the class [FfHeap], which may refuse.  A
    sector has 512 bytes (ffconf.h), and an access outside a buffer is a fault.
    The functions of ff.c that are too long for one definition are cut where their
    blocks are, and each part has its name and its lines in the map.

    Loops that are not a plain count run with fuel, and running out is a fault, so
    the theorems include termination.  The fuel is: 138 years and 13 months for a
    32-bit timestamp; the image size divided by 1024 for the cut into blocks; the
    ticks of the time-out plus a few for the waits; the number of bytes left for
    the trimming; a million minus the index for the search of a file name; the
    number of entries for the directory walk.  In FatFs it is: the number of
    clusters and one for the search of a free cluster, twice that number and one
    for the removal of a chain, the number of bytes and one for f_write and
    f_read, the bits of the bitmap and one for its loops, the clusters of the file
    and one for the way to its end, the four places of a partition table for
    the search of a boot sector, and the number of entries of the table for
    f_getfree.  For directories it is: the 65536 entries a directory may have and
    one for a walk, the cluster count for dir_sdi, 257 or 258 for the loops over the
    buffer of 256 characters of a name, the length of the path and one for
    follow_path and create_name, a hundred for the 99 numbered names, 21 for
    the pieces of a long name, and the 8 halvings of the buffer of dir_clear.  The
    endless loops (main, the
    command image, the watchdog thread) are modelled turn by turn.

    ** What the theorems show

    - Captures: the cut into blocks ([dcmi_factoring_spec], [dcmi_init_spec]); in
      every reachable state the stream fills the block it should, inside the
      buffer ([dcmi_capture_invariant], [open_ended_stays_inside]); a capture
      completes ([dcmi_capture_completes]); the whole JPEG and RGB captures with
      interrupts and time-outs end without a fault and with the image they
      promise ([snapshot_jpeg_spec], [snapshot_rgb_spec]); a turn of the command
      image stores exactly the image captured, or the fallback
      ([image_turn_spec]).
    - Camera: the configurations and resolutions send exactly their tables, which
      set the documented output sizes; detection and power-off.
    - Sensors: each driver returns what the registers mean, on every branch, and
      collecting a data point refines a pure function of the sensors' registers,
      whose differences from the documented quantities are stated
      ([getSensors_refines]); the compensation formulas of the BME280 never
      overflow and their float division is exact enough
      ([bme280_measurement_spec]); the error bits of a data point are those of the
      drivers, each in its place ([sys_error_layout]).
    - Time: both conversions are total and inverse to each other on all 32-bit
      timestamps, and agree with the Gregorian calendar before the year 2100, up
      to which the code says they are valid ([timestamp_roundtrip]); the RTC keeps
      a date.
    - Files: names never overwrite an image and are tried in order, the bytes
      written are those of the image, the listing of a directory tree is exact,
      the path buffer's limit included.
    - Control: start-up erases the image buffer and sets the loop up
      ([main_init_spec]); the card monitor debounces; in every interleaving of
      timer and main thread a file system that is ready belongs to a card that was
      connected and mounted successfully once no event is pending ([main_loop_invariant]), and with a prompt
      main thread it is ready exactly while the card is seen
      ([prompt_loop_mounts]; [stale_removal] is a run without promptness); when a
      turn of the main loop faults; how long the watchdog is left alone.
    - Errors: the ring of debug.c keeps the last 32 messages in order
      ([error_ring_spec]), also that of a watchdog that cannot start.
    - Memory: up to which size the DMA copy is memcpy, and what the command
      membench leaves behind ([membench_command_spec]).
    - FatFs, the volume: what is stored in an entry of the table is read back and
      no other entry changes ([put_get_fat_spec]); after sync_fs the card holds
      what the volume shows ([sync_fs_spec]); mounting takes the layout from the
      boot sector of a FAT or exFAT volume and does not refuse a sound one, and a
      FAT volume it accepts is well formed if its boot sector keeps the sums of
      sectors below 2^32 ([f_mount_spec]), which find_volume does not check for
      the size of the tables ([table_size_wraps]); the size bytes of an exFAT boot
      sector are assumed to be ones an int can be shifted by.
    - FatFs, the clusters: a chain grows by a free cluster or says why not
      ([create_chain_spec]); the removal of a chain ends and frees exactly
      its clusters ([remove_chain_spec]); the bits of the exFAT bitmap ([change_bitmap_spec],
      [exfat_first_cluster_spec]).
    - FatFs, files: f_write and f_read on any chain of clusters are an update and
      a read of the bytes the file stands for; when they report an error the
      driver refused a transfer or the table was damaged, and no sector of another
      file is touched ([f_write_spec], [f_read_spec]); closing puts the data and the
      entry on the card and touches no other byte of the directory and no entry
      of the table ([f_close_spec]); and a file written and closed, then opened
      again and read, gives back its bytes ([save_load_roundtrip]).
    - The firmware on FatFs: an image written by write_jpeg goes to the first name
      that is free, and the file of that name reads back as the image; when it is
      not stored, the theorem says what can be the reason ([write_jpeg_stores]).
    - FatFs, directories: what is stored under a new name and fetched by that name
      is the same bytes ([store_fetch_roundtrip]); f_open for a new file opens an empty file under a
      name that no object had, or says why not and leaves the volume as it was
      ([f_open_new_spec]); f_open that overwrites an existing file empties it and
      frees its clusters, and refuses a read-only object or a directory
      ([overwrite_open_spec]); the search finds the first object with the name,
      whatever its case, or says there is none ([dir_find_spec]); registering adds
      one object and keeps the others ([dir_register_spec]); f_readdir lists the
      objects in their order ([list_dir_spec]); long names of up to 253 characters
      pass through their pieces unchanged ([long_name_spec]); create_name cuts the next name off a path or refuses it
      ([create_name_spec]); the free clusters are counted and cached
      ([getfree_spec]).
    - USB: the descriptor tree divides into its parts as its counts say, every
      request for a descriptor is answered within the tables.

    Where the code does not do what it seems to mean (the sign of the TMP100, the
    red of a PPM pixel, the copy of more than 262143 bytes, ...), the definition
    follows the code and the theorem states what it does.

    ** What is not modelled

    In FatFs: the directory entries of exFAT, so that directories and the contents
    of files are those of FAT12, FAT16 and FAT32; f_lseek, f_truncate, f_unlink,
    f_mkdir, f_rename, f_stat, f_chdir, f_utime, f_mkfs and the string functions,
    which the firmware does not call.  The growth of a directory by a cluster
    (dir_next with stretch, dir_clear) is modelled, but the theorems on registering
    are for a directory with room.  The theorems on f_open are for a volume that is
    mounted and may be written: find_volume, which f_open calls first, is in
    FatMount.v.  ImageFile.v and DirScan.v take the answers
    of the file system as classes ([FileSystem], [Directories]), so that they hold
    for any file system; ImageStore.v fills the first with FatFs for the files, and
    leaves mounting to the class.  The other vendored code (wolfSSL, lwIP, the parts of ChibiOS
    under src/ext) is either not called by the firmware or belongs to its
    environment.

    The code of ChibiOS and the hardware, the shell that reads a command
    line included; the text chprintf produces (a call is recorded with its format
    and its arguments) and that of chsnprintf but for the width of a time stamp;
    the time measurement of write_jpeg; BME280_getAltitude and speed_mibps
    (floating-point functions nothing calls); the parts of collector.c that are
    commented out; the SDRAM timings and the configuration headers, which only
    code outside src/ reads. *)

From Stdlib Require Import ZArith Bool String List Lia.
From Stdlib Require Import Classes.RelationClasses.
Import ListNotations.
Local Open Scope Z_scope.

(** ** Machine integers

    The target is a 32-bit Cortex-M4: [int] is 32 bits wide, narrower operands
    are promoted to [int].  A value of an unsigned type of [w] bits is a [Z]
    reduced modulo [2^w]; a conversion to a signed type reduces to the symmetric
    interval (the conversion gcc documents).  Arithmetic on signed operands is
    checked: a result outside the type is a fault ([Overflow]). *)

Definition uwrap (w x : Z) : Z := x mod 2 ^ w.

Definition swrap (w x : Z) : Z := (x + 2 ^ (w - 1)) mod 2 ^ w - 2 ^ (w - 1).

Definition u8 : Z -> Z := uwrap 8.

Definition u16 : Z -> Z := uwrap 16.

Definition u32 : Z -> Z := uwrap 32.

Definition u64 : Z -> Z := uwrap 64.

Definition s8 : Z -> Z := swrap 8.

Definition s16 : Z -> Z := swrap 16.

Definition s32 : Z -> Z := swrap 32.

Definition in_u (w x : Z) : Prop := 0 <= x < 2 ^ w.

Definition in_s (w x : Z) : Prop := - 2 ^ (w - 1) <= x < 2 ^ (w - 1).

Definition in_sb (w x : Z) : bool := (- 2 ^ (w - 1) <=? x) && (x <? 2 ^ (w - 1)).

Definition is_byte (x : Z) : Prop := in_u 8 x.

(** ** Faults and results *)

Inductive fault : Set :=
| Overflow        (* signed arithmetic left its type *)
| OutOfBounds     (* an array index outside the array *)
| DivByZero
| WildCall        (* a call through a pointer that holds no function *)
| Halted          (* osalDbgAssert failed: the kernel is halted *)
| OutOfFuel.      (* the model's bound on a loop was reached *)

Inductive result (A : Type) : Type :=
| Ok (a : A)
| Err (f : fault).

Arguments Ok {A} a.
Arguments Err {A} f.

Definition rbind {A B} (r : result A) (k : A -> result B) : result B :=
  match r with
  | Ok a => k a
  | Err f => Err f
  end.

(** A signed result of 32 (64) bits, or the overflow fault. *)
Definition i32 (x : Z) : result Z := if in_sb 32 x then Ok x else Err Overflow.

Definition i64 (x : Z) : result Z := if in_sb 64 x then Ok x else Err Overflow.

(** Reading [a[i]]. *)
Definition array_get {A} (a : list A) (i : Z) : result A :=
  if (0 <=? i) then
    match nth_error a (Z.to_nat i) with
    | Some x => Ok x
    | None => Err OutOfBounds
    end
  else Err OutOfBounds.

(** Writing entry [i] of an array; nothing happens outside it. *)
Fixpoint list_set {A} (i : nat) (x : A) (l : list A) : list A :=
  match l, i with
  | [], _ => []
  | _ :: l', O => x :: l'
  | y :: l', Datatypes.S i' => y :: list_set i' x l'
  end.

(** Writing [a[i] = x]. *)
Definition array_set {A} (a : list A) (i : Z) (x : A) : result (list A) :=
  if (0 <=? i) && (i <? Z.of_nat (length a)) then Ok (list_set (Z.to_nat i) x a)
  else Err OutOfBounds.

(** ** Stateful code: a state that is threaded, and a fault that stops *)

Definition ST (S A : Type) : Type := S -> result (A * S).

Definition ret {S A} (a : A) : ST S A := fun s => Ok (a, s).

Definition fail {S A} (f : fault) : ST S A := fun _ => Err f.

Definition bind {S A B} (m : ST S A) (k : A -> ST S B) : ST S B :=
  fun s => match m s with
           | Ok (a, s') => k a s'
           | Err f => Err f
           end.

Definition lift {S A} (r : result A) : ST S A :=
  fun s => match r with
           | Ok a => Ok (a, s)
           | Err f => Err f
           end.

Definition gets {S A} (f : S -> A) : ST S A := fun s => Ok (f s, s).

Definition modify {S} (f : S -> S) : ST S unit := fun s => Ok (tt, f s).

Definition when {S} (b : bool) (m : ST S unit) : ST S unit :=
  if b then m else ret tt.

(** A C loop: [body x] either continues with a new loop state or leaves. *)
Fixpoint iter {S X A} (fuel : nat) (body : X -> ST S (X + A)) (x : X) : ST S A :=
  match fuel with
  | O => fail OutOfFuel
  | Datatypes.S n =>
      bind (body x) (fun r => match r with
                              | inl x' => iter n body x'
                              | inr a => ret a
                              end)
  end.

(** [for(i = 0; i < n; i++) body] when the body neither breaks nor returns. *)
Fixpoint repeat_st {S} (n : nat) (body : ST S unit) : ST S unit :=
  match n with
  | O => ret tt
  | Datatypes.S n' => bind body (fun _ => repeat_st n' body)
  end.

(** The same with an element of a list per turn. *)
Fixpoint for_each {S A} (l : list A) (body : A -> ST S unit) : ST S unit :=
  match l with
  | [] => ret tt
  | a :: l' => bind (body a) (fun _ => for_each l' body)
  end.

Declare Scope fw_scope.
Delimit Scope fw_scope with fw.

Notation "x <- m ;; k" := (bind m (fun x => k))
  (at level 61, m at next level, right associativity) : fw_scope.
Notation "' p <- m ;; k" := (bind m (fun p => k))
  (at level 61, p pattern, m at next level, right associativity) : fw_scope.
Notation "m ;; k" := (bind m (fun _ => k))
  (at level 61, right associativity) : fw_scope.
Notation "x <=! r ;; k" := (rbind r (fun x => k))
  (at level 61, r at next level, right associativity) : fw_scope.

Notation "' p <=! r ;; k" := (rbind r (fun p => k))
  (at level 61, p pattern, r at next level, right associativity) : fw_scope.

(** ** A program logic: total correctness

    [wp m Q s]: from [s], [m] runs without a fault and ends in a value and a
    state that satisfy [Q]. *)

Definition wp {S A} (m : ST S A) (Q : A -> S -> Prop) (s : S) : Prop :=
  match m s with
  | Ok (a, s') => Q a s'
  | Err _ => False
  end.

Section WpRules.
Context {S : Type}.

Lemma wp_ret {A} (a : A) (Q : A -> S -> Prop) s : wp (ret a) Q s <-> Q a s.
Proof. reflexivity. Qed.

Lemma wp_bind {A B} (m : ST S A) (k : A -> ST S B) Q s :
  wp (bind m k) Q s <-> wp m (fun a s' => wp (k a) Q s') s.
Proof. unfold wp, bind. destruct (m s) as [[a s']|f]; reflexivity. Qed.

Lemma wp_assoc {A B C} (m : ST S A) (f : A -> ST S B) (g : B -> ST S C) Q s :
  wp (bind m (fun x => bind (f x) g)) Q s <-> wp (bind (bind m f) g) Q s.
Proof. unfold wp, bind. destruct (m s) as [[a s']|e]; reflexivity. Qed.

Lemma wp_gets {A} (f : S -> A) Q s : wp (gets f) Q s <-> Q (f s) s.
Proof. reflexivity. Qed.

Lemma wp_modify (f : S -> S) Q s : wp (modify f) Q s <-> Q tt (f s).
Proof. reflexivity. Qed.

Lemma wp_lift {A} (r : result A) (Q : A -> S -> Prop) s a :
  r = Ok a -> Q a s -> wp (lift r) Q s.
Proof. intros ->. exact (fun H => H). Qed.

Lemma wp_conseq {A} (m : ST S A) (P Q : A -> S -> Prop) s :
  wp m P s -> (forall a s', P a s' -> Q a s') -> wp m Q s.
Proof. unfold wp. destruct (m s) as [[a s']|f]; auto. Qed.

Lemma wp_and {A} (m : ST S A) (P Q : A -> S -> Prop) s :
  wp m P s -> wp m Q s -> wp m (fun a s' => P a s' /\ Q a s') s.
Proof. unfold wp. destruct (m s) as [[a s']|f]; auto. Qed.

(** A run that is known to end: the two views of a computation. *)
Lemma wp_ok {A} (m : ST S A) Q s :
  wp m Q s <-> exists a s', m s = Ok (a, s') /\ Q a s'.
Proof.
  unfold wp. destruct (m s) as [[a s']|f]; split; try tauto.
  - intros H. exists a, s'. auto.
  - intros (a' & s'' & E & H). injection E as -> ->. exact H.
  - intros (a' & s'' & E & _). discriminate E.
Qed.

Lemma wp_when (b : bool) (m : ST S unit) Q s :
  (b = true -> wp m Q s) -> (b = false -> Q tt s) -> wp (when b m) Q s.
Proof. destruct b; cbn; intros; [|apply wp_ret]; auto. Qed.

(** Loop rule: an invariant, and a measure that every continuing turn lowers.
    More fuel than the measure is enough. *)
Lemma wp_iter {X A} (body : X -> ST S (X + A)) (I : X -> S -> Prop)
    (measure : X -> S -> nat) (Q : A -> S -> Prop) :
  (forall x s, I x s ->
     wp (body x) (fun r s' => match r with
                              | inl x' => I x' s' /\ (measure x' s' < measure x s)%nat
                              | inr a => Q a s'
                              end) s) ->
  forall fuel x s, I x s -> (measure x s < fuel)%nat -> wp (iter fuel body x) Q s.
Proof.
  intros Hbody fuel. induction fuel as [|n IH]; intros x s HI Hm; [lia|].
  cbn [iter]. apply wp_bind. eapply wp_conseq; [apply Hbody, HI|].
  intros [x'|a] s' H; [destruct H; apply IH; auto; lia | exact H].
Qed.

Lemma wp_for_each {A} (body : A -> ST S unit) (I : list A -> S -> Prop) (l : list A) :
  (forall a l' s, I (a :: l') s -> wp (body a) (fun _ s' => I l' s') s) ->
  forall s, I l s -> wp (for_each l body) (fun _ s' => I [] s') s.
Proof.
  intros Hb. induction l as [|a l IH]; intros s HI; cbn [for_each]; [exact HI|].
  apply wp_bind. eapply wp_conseq; [apply Hb, HI|]. intros ? s'. apply IH.
Qed.

Lemma wp_repeat (body : ST S unit) (I : nat -> S -> Prop) n :
  (forall k s, I (Datatypes.S k) s -> wp body (fun _ s' => I k s') s) ->
  forall s, I n s -> wp (repeat_st n body) (fun _ s' => I O s') s.
Proof.
  intros Hb. induction n as [|n IH]; intros s HI; cbn [repeat_st]; [exact HI|].
  apply wp_bind. eapply wp_conseq; [apply Hb, HI|]. intros ? s'. apply IH.
Qed.

(** A run that satisfies [wp] and one that is given by its outcome agree. *)
Lemma wp_run {A} (m : ST S A) Q s a s' : wp m Q s -> m s = Ok (a, s') -> Q a s'.
Proof. unfold wp. intros H E. rewrite E in H. exact H. Qed.

End WpRules.

(** [wp_use L]: the next call is described by [L]; continue after it. *)
Tactic Notation "wp_use" uconstr(L) := eapply wp_conseq; [eapply L | cbv beta].

(** Run the straight-line part of a computation. *)
Ltac wp_norm :=
  repeat (lazymatch goal with
          | |- wp (bind _ _) _ _ => apply wp_bind
          | |- wp (ret _) _ _ => apply wp_ret
          | |- wp (gets _) _ _ => apply wp_gets
          | |- wp (modify _) _ _ => apply wp_modify
          end; cbv beta).

(** ** Frames

    [keeps R m]: every completed run of [m] relates its first and its last state
    by the preorder [R]; used for what a computation leaves alone. *)

Definition keeps {S A} (R : S -> S -> Prop) (m : ST S A) : Prop :=
  forall s a s', m s = Ok (a, s') -> R s s'.

Section KeepsRules.
Context {S : Type} (R : S -> S -> Prop) {PR : PreOrder R}.

Lemma keeps_ret {A} (a : A) : keeps R (ret a).
Proof. intros s a' s' [= _ <-]. reflexivity. Qed.

Lemma keeps_gets {A} (f : S -> A) : keeps R (gets f).
Proof. intros s a' s' [= _ <-]. reflexivity. Qed.

Lemma keeps_fail {A} f : keeps R (@fail S A f).
Proof. intros s a s' [=]. Qed.

Lemma keeps_lift {A} (r : result A) : keeps R (lift r).
Proof. intros s a s'. unfold lift. destruct r; [|discriminate]. intros [= _ <-]. reflexivity. Qed.

Lemma keeps_modify f : (forall s, R s (f s)) -> keeps R (modify f).
Proof. intros H s a s' [= _ <-]. apply H. Qed.

Lemma keeps_bind {A B} (m : ST S A) (k : A -> ST S B) :
  keeps R m -> (forall a, keeps R (k a)) -> keeps R (bind m k).
Proof.
  intros Hm Hk s b s'. unfold bind. destruct (m s) as [[a s1]|] eqn:E; [|discriminate].
  intros E'. transitivity s1; [eapply Hm, E | eapply Hk, E'].
Qed.

Lemma keeps_when b m : keeps R m -> keeps R (when b m).
Proof. destruct b; [auto | intros; apply keeps_ret]. Qed.

Lemma keeps_iter {X A} (body : X -> ST S (X + A)) :
  (forall x, keeps R (body x)) -> forall n x, keeps R (iter n body x).
Proof.
  intros H n. induction n as [|n IH]; intros x; cbn [iter]; [apply keeps_fail|].
  apply keeps_bind; [apply H|]. intros [x'|a]; [apply IH | apply keeps_ret].
Qed.

(** A frame strengthens what is known of a run. *)
Lemma wp_keeps {A} (m : ST S A) Q s :
  keeps R m -> wp m Q s -> wp m (fun a s' => Q a s' /\ R s s') s.
Proof.
  intros K W. apply wp_ok in W as (a & s' & E & HQ). apply wp_ok. exists a, s'. split; [exact E|].
  split; [exact HQ | exact (K s a s' E)].
Qed.

End KeepsRules.

(** ** Results

    [returns P m]: every completed run of [m] returns a value in [P]. *)

Definition returns {S A} (P : A -> Prop) (m : ST S A) : Prop :=
  forall s a s', m s = Ok (a, s') -> P a.

Definition yields {A} (P : A -> Prop) (r : result A) : Prop := forall a, r = Ok a -> P a.

Section ReturnsRules.
Context {S : Type}.

Lemma returns_ret {A} (P : A -> Prop) a : P a -> returns P (@ret S A a).
Proof. intros H s a' s' [= <- _]. exact H. Qed.

Lemma returns_lift {A} (P : A -> Prop) r : yields P r -> returns P (@lift S A r).
Proof. intros H s a s'. unfold lift. destruct r as [x|]; [|discriminate]. intros [= -> _]. now apply H. Qed.

Lemma returns_bind {A B} (Q : A -> Prop) (P : B -> Prop) (m : ST S A) k :
  returns Q m -> (forall a, Q a -> returns P (k a)) -> returns P (bind m k).
Proof.
  intros Hm Hk s b s'. unfold bind. destruct (m s) as [[a s1]|] eqn:E; [|discriminate].
  apply (Hk a (Hm s a s1 E)).
Qed.

Lemma returns_then {A B} (P : B -> Prop) (m : ST S A) k :
  (forall a, returns P (k a)) -> returns P (bind m k).
Proof. intros H. apply (returns_bind (fun _ => True)); [intros s a s' _; exact I | auto]. Qed.

End ReturnsRules.

Lemma yields_ok {A} (P : A -> Prop) a : P a -> yields P (Ok a).
Proof. intros H b [= <-]. exact H. Qed.

Lemma yields_rbind {A B} (P : B -> Prop) (r : result A) k :
  (forall a, yields P (k a)) -> yields P (rbind r k).
Proof. intros H b. destruct r as [a|]; [apply H | discriminate]. Qed.

(** Breaks a frame down to the state changes, for which [tac] is run. *)
Ltac keeps_with tac :=
  repeat lazymatch goal with
         | |- keeps _ (bind _ _) => apply keeps_bind; [typeclasses eauto | | intros ?]
         | |- keeps _ (ret _) => apply keeps_ret; typeclasses eauto
         | |- keeps _ (gets _) => apply keeps_gets; typeclasses eauto
         | |- keeps _ (fail _) => apply keeps_fail
         | |- keeps _ (lift _) => apply keeps_lift; typeclasses eauto
         | |- keeps _ (when _ _) => apply keeps_when; [typeclasses eauto |]
         | |- keeps _ (iter _ _ _) => apply keeps_iter; [typeclasses eauto | intros ?]
         | |- keeps _ (if ?b then _ else _) => destruct b
         | |- keeps _ (match ?x with _ => _ end) => destruct x
         | |- keeps _ _ => solve [tac]
         end.

(** Linear arithmetic with division and remainder by constants. *)
Ltac dlia := Z.div_mod_to_equations; lia.

Ltac inv H := inversion H; subst; clear H.

(** Powers of two with constant exponents as numerals. *)
Ltac eval_pow :=
  repeat match goal with
         | |- context [2 ^ ?n] =>
             is_ground n; let v := eval vm_compute in (2 ^ n) in change (2 ^ n) with v
         | H : context [2 ^ ?n] |- _ =>
             is_ground n; let v := eval vm_compute in (2 ^ n) in change (2 ^ n) with v in H
         end.

(** Goals that say that a number fits its type. *)
Ltac in_range := unfold is_byte, in_u, in_s in *; eval_pow; first [lia | dlia].

(** ** Lemmas on machine integers *)

Create HintDb ints.

Lemma in_sb_spec w x : in_sb w x = true <-> in_s w x.
Proof.
  unfold in_sb, in_s. rewrite andb_true_iff, Z.leb_le, Z.ltb_lt. reflexivity.
Qed.

Lemma i32_ok x : in_s 32 x -> i32 x = Ok x.
Proof. intros H. unfold i32. apply in_sb_spec in H. rewrite H. reflexivity. Qed.

Lemma i64_ok x : in_s 64 x -> i64 x = Ok x.
Proof. intros H. unfold i64. apply in_sb_spec in H. rewrite H. reflexivity. Qed.

(** The next checked operation does not overflow. *)
Ltac i32_step := rewrite i32_ok by in_range; cbn [rbind].

Lemma i32_inv x y : i32 x = Ok y -> y = x /\ in_s 32 x.
Proof.
  unfold i32. destruct (in_sb 32 x) eqn:E; intros [=]. subst y.
  split; [reflexivity | now apply in_sb_spec].
Qed.

Lemma uwrap_range w x : 0 <= w -> in_u w (uwrap w x).
Proof. intros Hw. apply Z.mod_pos_bound, Z.pow_pos_nonneg; lia. Qed.

Lemma uwrap_small w x : in_u w x -> uwrap w x = x.
Proof. apply Z.mod_small. Qed.

Lemma uwrap_idem w x : uwrap w (uwrap w x) = uwrap w x.
Proof. unfold uwrap. apply Zmod_mod. Qed.

Lemma pow2_split w : 1 <= w -> 2 ^ w = 2 * 2 ^ (w - 1).
Proof. intros H. rewrite <- Z.pow_succ_r by lia. f_equal. lia. Qed.

Lemma swrap_range w x : 1 <= w -> in_s w (swrap w x).
Proof.
  intros Hw. unfold in_s, swrap. pose proof (pow2_split w Hw).
  assert (0 < 2 ^ (w - 1)) by (apply Z.pow_pos_nonneg; lia).
  pose proof (Z.mod_pos_bound (x + 2 ^ (w - 1)) (2 ^ w)). lia.
Qed.

Lemma swrap_small w x : 1 <= w -> in_s w x -> swrap w x = x.
Proof.
  unfold in_s, swrap. intros Hw H. pose proof (pow2_split w Hw).
  rewrite Z.mod_small; lia.
Qed.

(** Storing a signed value in the unsigned type of its width and reading it
    back, and the other way round, loses nothing. *)
Lemma uwrap_swrap w x : 1 <= w -> uwrap w (swrap w x) = uwrap w x.
Proof.
  intros Hw. unfold uwrap, swrap.
  rewrite Zminus_mod_idemp_l. f_equal. lia.
Qed.

Lemma swrap_uwrap w x : 1 <= w -> swrap w (uwrap w x) = swrap w x.
Proof.
  intros Hw. unfold uwrap, swrap. rewrite Zplus_mod_idemp_l. reflexivity.
Qed.

Lemma swrap_of_u w x : 1 <= w -> in_u w x ->
  swrap w x = if x <? 2 ^ (w - 1) then x else x - 2 ^ w.
Proof.
  intros Hw Hx. unfold in_u in Hx. pose proof (pow2_split w Hw) as E.
  destruct (Z.ltb_spec x (2 ^ (w - 1))).
  - apply swrap_small; unfold in_s; lia.
  - unfold swrap. replace (x + 2 ^ (w - 1)) with (x - 2 ^ (w - 1) + 1 * 2 ^ w) by lia.
    rewrite Z.mod_add by lia. rewrite Z.mod_small; lia.
Qed.

(** Products and sums of values in symmetric intervals. *)
Lemma abs_mul_le a b A B : Z.abs a <= A -> Z.abs b <= B -> Z.abs (a * b) <= A * B.
Proof. intros. rewrite Z.abs_mul. apply Z.mul_le_mono_nonneg; lia. Qed.

Lemma abs_shiftr_le a n A :
  0 <= n -> 1 <= A -> Z.abs a <= A * 2 ^ n -> Z.abs (Z.shiftr a n) <= A.
Proof.
  intros Hn HA H. rewrite Z.shiftr_div_pow2 by lia.
  assert (0 < 2 ^ n) by (apply Z.pow_pos_nonneg; lia).
  assert (- A <= a / 2 ^ n) by (apply Z.div_le_lower_bound; nia).
  assert (a / 2 ^ n < A + 1) by (apply Z.div_lt_upper_bound; nia).
  lia.
Qed.

Lemma abs_add_le a b A B : Z.abs a <= A -> Z.abs b <= B -> Z.abs (a + b) <= A + B.
Proof. lia. Qed.

Lemma abs_sub_le a b A B : Z.abs a <= A -> Z.abs b <= B -> Z.abs (a - b) <= A + B.
Proof. lia. Qed.

(** *** Checked arithmetic on intervals

    [rsat r P]: the computation [r] runs without a fault and its value satisfies
    [P].  [bounded] walks along a chain of checked operations: it computes a
    bound of the next intermediate value from the bounds in the context, shows
    that it fits the type, and leaves the value as a variable with its equation
    and its bound. *)

Definition rsat {A} (r : result A) (P : A -> Prop) : Prop := exists a, r = Ok a /\ P a.

Lemma rsat_i32 {A} x B (k : Z -> result A) P :
  Z.abs x <= B -> B <= 2147483647 ->
  (forall y, y = x -> Z.abs y <= B -> rsat (k y) P) -> rsat (rbind (i32 x) k) P.
Proof.
  intros H L K. rewrite i32_ok by (unfold in_s; cbn; lia). cbn [rbind]. now apply K.
Qed.

Lemma rsat_i64 {A} x B (k : Z -> result A) P :
  Z.abs x <= B -> B <= 9223372036854775807 ->
  (forall y, y = x -> Z.abs y <= B -> rsat (k y) P) -> rsat (rbind (i64 x) k) P.
Proof.
  intros H L K. rewrite i64_ok by (unfold in_s; cbn; lia). cbn [rbind]. now apply K.
Qed.

Ltac bound_of t :=
  lazymatch goal with
  | H : Z.abs t <= ?B |- _ => constr:(B)
  | _ =>
      lazymatch t with
      | ?a * ?b => let A := bound_of a in let B := bound_of b in
                   let r := eval vm_compute in (A * B) in constr:(r)
      | ?a + ?b => let A := bound_of a in let B := bound_of b in
                   let r := eval vm_compute in (A + B) in constr:(r)
      | ?a - ?b => let A := bound_of a in let B := bound_of b in
                   let r := eval vm_compute in (A + B) in constr:(r)
      | Z.shiftr ?a ?n => let A := bound_of a in
                   let r := eval vm_compute in (A / 2 ^ n + 1) in constr:(r)
      | _ => let r := eval vm_compute in (Z.abs t) in constr:(r)
      end
  end.

Ltac prove_bound :=
  lazymatch goal with
  | H : Z.abs ?t <= ?B |- Z.abs ?t <= ?B => exact H
  | |- Z.abs (?a * ?b) <= _ =>
      let A := bound_of a in let B := bound_of b in
      apply (Z.le_trans _ (A * B)); [apply abs_mul_le; prove_bound | vm_compute; discriminate]
  | |- Z.abs (?a + ?b) <= _ =>
      let A := bound_of a in let B := bound_of b in
      apply (Z.le_trans _ (A + B)); [apply abs_add_le; prove_bound | vm_compute; discriminate]
  | |- Z.abs (?a - ?b) <= _ =>
      let A := bound_of a in let B := bound_of b in
      apply (Z.le_trans _ (A + B)); [apply abs_sub_le; prove_bound | vm_compute; discriminate]
  | |- Z.abs (Z.shiftr ?a ?n) <= ?C =>
      let A := bound_of a in
      apply abs_shiftr_le; [lia | lia |
        apply (Z.le_trans _ A); [prove_bound | vm_compute; discriminate]]
  | |- _ => first [eassumption | vm_compute; discriminate]
  end.

Ltac bounded :=
  lazymatch goal with
  | |- rsat (rbind (i32 ?x) _) _ =>
      let B := bound_of x in
      apply (rsat_i32 x B); [prove_bound | vm_compute; discriminate | let y := fresh "v" in intros y ? ?]
  | |- rsat (rbind (i64 ?x) _) _ =>
      let B := bound_of x in
      apply (rsat_i64 x B); [prove_bound | vm_compute; discriminate | let y := fresh "v" in intros y ? ?]
  end.

(** ** Bytes *)

(** A number shifted up and or-ed with a digit below is the two-digit number. *)
Lemma lor_shift hi lo n : 0 <= n -> 0 <= lo < 2 ^ n ->
  Z.lor (Z.shiftl hi n) lo = hi * 2 ^ n + lo.
Proof.
  intros Hn H. rewrite Z.shiftl_mul_pow2 by lia. rewrite <- Z.add_lor_land.
  enough (Z.land (hi * 2 ^ n) lo = 0) by lia.
  apply Z.bits_inj'. intros i Hi. rewrite Z.land_spec, Z.bits_0.
  destruct (Z.ltb_spec i n).
  - rewrite Z.mul_pow2_bits_low by lia. reflexivity.
  - replace (Z.testbit lo i) with false; [apply andb_false_r|].
    symmetry. rewrite <- (Z.mod_small lo (2 ^ n)) by lia.
    apply Z.mod_pow2_bits_high. lia.
Qed.

Lemma lor_shift8 hi lo :
  is_byte lo -> Z.lor (Z.shiftl hi 8) lo = hi * 256 + lo.
Proof. exact (lor_shift hi lo 8 ltac:(lia)). Qed.

Lemma land_255 x : Z.land x 255 = x mod 256.
Proof. change 255 with (Z.ones 8). now rewrite Z.land_ones. Qed.

Lemma land_ones_mod x n : 0 <= n -> Z.land x (2 ^ n - 1) = x mod 2 ^ n.
Proof.
  intros Hn. rewrite <- Z.land_ones by lia. f_equal. rewrite Z.ones_equiv. lia.
Qed.

Lemma byte_mod x : is_byte (x mod 256).
Proof. apply (Z.mod_pos_bound x 256). lia. Qed.

#[export] Hint Resolve byte_mod uwrap_range swrap_range : ints.

(** ** Lists *)

Lemma array_get_ok {A} (a : list A) i x :
  0 <= i -> nth_error a (Z.to_nat i) = Some x -> array_get a i = Ok x.
Proof.
  intros Hi H. unfold array_get. rewrite (proj2 (Z.leb_le 0 i) Hi), H. reflexivity.
Qed.

Lemma array_get_inv {A} (a : list A) i x :
  array_get a i = Ok x -> 0 <= i /\ nth_error a (Z.to_nat i) = Some x.
Proof.
  unfold array_get. destruct (Z.leb_spec 0 i); [|discriminate].
  destruct (nth_error a (Z.to_nat i)); intros [=]; subst; auto.
Qed.

Lemma list_set_length {A} i (x : A) l : length (list_set i x l) = length l.
Proof. revert i. induction l as [|y l IH]; intros [|i]; cbn; auto. Qed.

Lemma list_set_nth {A} i j (x d : A) l : (i < length l)%nat ->
  nth j (list_set i x l) d = if Nat.eqb j i then x else nth j l d.
Proof.
  revert i j. induction l as [|y l IH]; intros [|i] [|j] L; cbn [length list_set nth Nat.eqb] in *;
    try lia; auto.
  apply IH. lia.
Qed.

Lemma list_set_forall {A} (P : A -> Prop) i x l : P x -> Forall P l -> Forall P (list_set i x l).
Proof.
  intros Hx. revert i. induction l as [|y l IH]; intros [|i] F; cbn; auto;
    inv F; constructor; auto.
Qed.

Lemma array_set_ok {A} (a : list A) i x :
  0 <= i < Z.of_nat (length a) -> array_set a i x = Ok (list_set (Z.to_nat i) x a).
Proof.
  intros Hi. unfold array_set.
  now rewrite (proj2 (Z.leb_le 0 i) (proj1 Hi)), (proj2 (Z.ltb_lt i _) (proj2 Hi)).
Qed.

(** Deciding a property of every integer of a range by evaluation. *)
Fixpoint all_below (n : nat) (p : Z -> bool) : bool :=
  match n with
  | O => true
  | Datatypes.S n' => p (Z.of_nat n') && all_below n' p
  end.

Lemma all_below_spec n p :
  all_below n p = true -> forall x, 0 <= x < Z.of_nat n -> p x = true.
Proof.
  induction n as [|n IH]; cbn [all_below]; [lia|].
  rewrite andb_true_iff. intros [Hn Hr] x Hx.
  destruct (Z.eq_dec x (Z.of_nat n)) as [->|]; [exact Hn | apply IH; [exact Hr | lia]].
Qed.
