(* ===== verification/Machine.v ===== *)
(** * The machine the firmware runs on

    The firmware is driven by calls into ChibiOS (kernel and HAL), FatFs and the
    peripherals' registers.  None of that code is modelled: every such call is
    recorded in the history [calls] of the state, newest first, under the name
    the source calls it by, and what a call answers is an argument of the model,
    a field of one of the classes below, which may depend on the whole history.
    What the firmware relies on is stated next to each class as named laws.

    [world] holds the history and the static variables of the translation units,
    one record per unit that has more than one. *)

From Stdlib Require Import ZArith Bool String List Lia.
From S2P Require Import Prelude.
Import ListNotations.
Local Open Scope Z_scope.
Local Open Scope fw_scope.

(** ** Types of the source *)

(** types.h *)
Inductive resolution_t : Set :=
| RES_NONE | RES_QQVGA | RES_QVGA | RES_VGA | RES_VGA_ZOOMED
| RES_XGA | RES_UXGA | RES_5MP | RES_MAX.

(** The status of a kernel operation (the three values the firmware tests). *)
Inductive msg_t : Set := MSG_OK | MSG_TIMEOUT | MSG_RESET.

Definition msg_eqb (a b : msg_t) : bool :=
  match a, b with
  | MSG_OK, MSG_OK | MSG_TIMEOUT, MSG_TIMEOUT | MSG_RESET, MSG_RESET => true
  | _, _ => false
  end.

(** The RTC driver's broken-down time (the fields ptime.c uses). *)
Record RTCDateTime : Set := {
  rtc_year : Z; rtc_month : Z; rtc_day : Z; rtc_millisecond : Z }.

(** Lines and pads the firmware drives. *)
Inductive line : Set :=
| LINE_CAM_EN | LINE_CAM_RESET | LINE_ADC_VIN | LINE_LED_GREEN
| GPIOA_8 | GPIOD_LED_RED | GPIOD_LED_GREEN | GPIOD_LED_BLUE.

Inductive pal_mode : Set :=
| PAL_MODE_INPUT | PAL_MODE_INPUT_ANALOG | PAL_MODE_OUTPUT_PUSHPULL
| PAL_MODE_ALTERNATE (af : Z).

(** The two interrupt routines of dcmi_dma.c, as values of a function pointer. *)
Inductive dma_isr : Set := dcmi_dma_shuffle | dcmi_dma_shuffle_open_ended.

(** The functions the source stores in the DMA callback pointers. *)
Inductive dma_callback : Set := cb_dma_avail | cb_dma_error.

(** The event sources the main thread listens to. *)
Inductive card_event : Set := inserted_event | removed_event | shell_terminated.

(** ** Calls out of the firmware *)

Inductive call : Set :=
| chprintf (fmt : string) (args : list Z)
| chThdSleep (ms : Z)
| chVTGetSystemTime
| i2cAcquireBus
| i2cStart
| i2cMasterTransmitTimeout (addr : Z) (tx : list Z) (rxbytes : Z) (timeout_ms : Z)
| i2cStop
| i2cReleaseBus
| rtcGetTime
| rtcSetTime (t : RTCDateTime)
| palSetLine (l : line)
| palClearLine (l : line)
| palSetLineMode (l : line) (m : pal_mode)
| adcStart
| adcSTM32EnableTSVREFE
| adcStartConversion
| adcStop
| wdgStart (pr rlr : Z)
| wdgReset
| chThdCreateFromHeap (name : string)
| dmaStreamAllocate (isr : dma_isr)
| dmaStreamSetPeripheral (a : Z)
| dmaStreamSetTransactionSize (n : Z)
| dmaStreamSetMode (cr : Z)
| dmaStreamSetFIFO (fcr : Z)
| dmaStreamSetMemory0 (a : Z)
| dmaStreamSetMemory1 (a : Z)
| dmaStreamEnable
| dmaStreamDisable
| dmaStreamClearTCIF (* the interrupt flag of the stream is cleared *)
| dma_block_complete   (* not a call: the stream has filled its current target *)
| RCC_AHB2ENR_write (v : Z)
| DCMI_CR_write (v : Z)
| DCMI_CR_read
| stack_read (n : Z)
| f_open (name : string) (create_always : bool)
| f_write (data : list Z)
| f_close
| f_mount (path : string)
| f_opendir (path : string)
| f_readdir
| f_getfree (path : string)
| chprintf_path (path fname : string) (* the two strings of a listing *)
| chprintf_str (fmt s : string)       (* a format with one string *)
| chMtxObjectInit
| chMtxLock
| chMtxUnlock
| halInit
| chSysInit
| sdStart (port baud : Z) (irda : bool)   (* a baud rate of 0: the default *)
| fsmcSdramInit
| fsmcSdramStart
| sdcStart
| chEvtObjectInit (ev : card_event)
| chEvtRegister (ev : card_event) (id : Z)
| shellInit
| chThdCreateStatic (name : string)
| chRegSetThreadName (name : string)
| sdcConnect
| sdcDisconnect
| chEvtBroadcastI (ev : card_event)
| chVTSetI (ms : Z)
| chThdTerminatedX
| chThdRelease
| NVIC_SystemReset.

(** ** Static variables *)

(** ov5640.c *)
Record camera : Set := {
  lightIntensity : Z;
  cam_error : Z;
  samplingFinished : bool;
  last_res : resolution_t }.

(** dcmi_dma.c *)
Record dcmi : Set := {
  dcmi_dma_buffer : Z;
  dcmi_dma_image_size : Z;
  dcmi_dma_buffer_size : Z;
  dcmi_dma_bytes_received : Z;
  dcmi_dma_done_callback : option dma_callback;
  dcmi_dma_error_callback : option dma_callback;
  blocks_done : Z;
  block_size : Z;
  num_blocks : Z;
  stream_control_register : Z }.

(** main.c *)
Record main_state : Set := {
  image_index : Z;
  fs_ready : bool;
  shelltp : bool;                (* the pointer is not NULL *)
  cnt : Z }.

(** debug.c: the ring of the last errors, the place of the next, and the level *)
Record trace_state : Set := {
  error_list : list string;
  error_counter : Z;
  usb_trace_level : Z }.

Record world : Type := {
  calls : list call;
  pi2c_error : Z;                (* pi2c.c: error *)
  ltr329_error : Z;              (* ltr329.c: error *)
  mpu9250_error : Z;             (* mpu9250.c: error *)
  samples : list Z;              (* padc.c: samples *)
  bme280_error : Z;              (* collector.c: bme280_error *)
  cam : camera;
  dma : dcmi;
  ram_buffer : Z -> Z;           (* main.c: OV5640_ram_buffer *)
  ram_buffer_length : Z;         (* main.c: OV5640_ram_buffer_length *)
  main_vars : main_state;
  trace : trace_state }.

Definition M : Type -> Type := ST world.

(** Field updates. *)
Definition set_calls (c : list call) (w : world) : world :=
  {| calls := c; pi2c_error := pi2c_error w; ltr329_error := ltr329_error w;
     mpu9250_error := mpu9250_error w; samples := samples w;
     bme280_error := bme280_error w; cam := cam w; dma := dma w;
     ram_buffer := ram_buffer w; ram_buffer_length := ram_buffer_length w; main_vars := main_vars w;
     trace := trace w |}.

Definition set_pi2c_error (x : Z) (w : world) : world :=
  {| calls := calls w; pi2c_error := x; ltr329_error := ltr329_error w;
     mpu9250_error := mpu9250_error w; samples := samples w;
     bme280_error := bme280_error w; cam := cam w; dma := dma w;
     ram_buffer := ram_buffer w; ram_buffer_length := ram_buffer_length w; main_vars := main_vars w;
     trace := trace w |}.

Definition set_ltr329_error (x : Z) (w : world) : world :=
  {| calls := calls w; pi2c_error := pi2c_error w; ltr329_error := x;
     mpu9250_error := mpu9250_error w; samples := samples w;
     bme280_error := bme280_error w; cam := cam w; dma := dma w;
     ram_buffer := ram_buffer w; ram_buffer_length := ram_buffer_length w; main_vars := main_vars w;
     trace := trace w |}.

Definition set_mpu9250_error (x : Z) (w : world) : world :=
  {| calls := calls w; pi2c_error := pi2c_error w; ltr329_error := ltr329_error w;
     mpu9250_error := x; samples := samples w;
     bme280_error := bme280_error w; cam := cam w; dma := dma w;
     ram_buffer := ram_buffer w; ram_buffer_length := ram_buffer_length w; main_vars := main_vars w;
     trace := trace w |}.

Definition set_samples (x : list Z) (w : world) : world :=
  {| calls := calls w; pi2c_error := pi2c_error w; ltr329_error := ltr329_error w;
     mpu9250_error := mpu9250_error w; samples := x;
     bme280_error := bme280_error w; cam := cam w; dma := dma w;
     ram_buffer := ram_buffer w; ram_buffer_length := ram_buffer_length w; main_vars := main_vars w;
     trace := trace w |}.

Definition set_bme280_error (x : Z) (w : world) : world :=
  {| calls := calls w; pi2c_error := pi2c_error w; ltr329_error := ltr329_error w;
     mpu9250_error := mpu9250_error w; samples := samples w;
     bme280_error := x; cam := cam w; dma := dma w;
     ram_buffer := ram_buffer w; ram_buffer_length := ram_buffer_length w; main_vars := main_vars w;
     trace := trace w |}.

Definition set_cam (x : camera) (w : world) : world :=
  {| calls := calls w; pi2c_error := pi2c_error w; ltr329_error := ltr329_error w;
     mpu9250_error := mpu9250_error w; samples := samples w;
     bme280_error := bme280_error w; cam := x; dma := dma w;
     ram_buffer := ram_buffer w; ram_buffer_length := ram_buffer_length w; main_vars := main_vars w;
     trace := trace w |}.

Definition set_dma (x : dcmi) (w : world) : world :=
  {| calls := calls w; pi2c_error := pi2c_error w; ltr329_error := ltr329_error w;
     mpu9250_error := mpu9250_error w; samples := samples w;
     bme280_error := bme280_error w; cam := cam w; dma := x;
     ram_buffer := ram_buffer w; ram_buffer_length := ram_buffer_length w; main_vars := main_vars w;
     trace := trace w |}.

Definition set_ram_buffer (x : Z -> Z) (w : world) : world :=
  {| calls := calls w; pi2c_error := pi2c_error w; ltr329_error := ltr329_error w;
     mpu9250_error := mpu9250_error w; samples := samples w;
     bme280_error := bme280_error w; cam := cam w; dma := dma w;
     ram_buffer := x; ram_buffer_length := ram_buffer_length w; main_vars := main_vars w;
     trace := trace w |}.

Definition set_ram_buffer_length (x : Z) (w : world) : world :=
  {| calls := calls w; pi2c_error := pi2c_error w; ltr329_error := ltr329_error w;
     mpu9250_error := mpu9250_error w; samples := samples w;
     bme280_error := bme280_error w; cam := cam w; dma := dma w;
     ram_buffer := ram_buffer w; ram_buffer_length := x; main_vars := main_vars w;
     trace := trace w |}.

Definition set_main (x : main_state) (w : world) : world :=
  {| calls := calls w; pi2c_error := pi2c_error w; ltr329_error := ltr329_error w;
     mpu9250_error := mpu9250_error w; samples := samples w;
     bme280_error := bme280_error w; cam := cam w; dma := dma w;
     ram_buffer := ram_buffer w; ram_buffer_length := ram_buffer_length w; main_vars := x;
     trace := trace w |}.

Definition set_trace (x : trace_state) (w : world) : world :=
  {| calls := calls w; pi2c_error := pi2c_error w; ltr329_error := ltr329_error w;
     mpu9250_error := mpu9250_error w; samples := samples w;
     bme280_error := bme280_error w; cam := cam w; dma := dma w;
     ram_buffer := ram_buffer w; ram_buffer_length := ram_buffer_length w; main_vars := main_vars w;
     trace := x |}.

(** The state at reset: zero-initialised statics, the trace level of debug.c,
    nothing called yet. *)
Definition reset_world : world :=
  {| calls := []; pi2c_error := 0; ltr329_error := 0; mpu9250_error := 0;
     samples := [0; 0; 0; 0]; bme280_error := 0;
     cam := {| lightIntensity := 0; cam_error := 0; samplingFinished := false;
               last_res := RES_NONE |};
     dma := {| dcmi_dma_buffer := 0; dcmi_dma_image_size := 0;
               dcmi_dma_buffer_size := 0; dcmi_dma_bytes_received := 0;
               dcmi_dma_done_callback := None; dcmi_dma_error_callback := None;
               blocks_done := 0; block_size := 0; num_blocks := 0;
               stream_control_register := 0 |};
     ram_buffer := fun _ => 0; ram_buffer_length := 0;
     main_vars := {| image_index := 0; fs_ready := false; shelltp := false; cnt := 0 |};
     trace := {| error_list := repeat EmptyString 32; error_counter := 0; usb_trace_level := 4 |} |}.

(** Making a call whose answer is not used. *)
Definition extern (c : call) : M unit := modify (fun w => set_calls (c :: calls w) w).

(** ** The environment *)

(** The I2C driver: what [i2cMasterTransmitTimeout] answers to the bytes [tx]
    sent to a slave address, when the receive buffer holds [rx] at the call: a
    status and the contents of the receive buffer afterwards. *)
Class I2cDriver := {
  i2c_transfer : list call -> Z -> list Z -> list Z -> msg_t * list Z }.

(** What a local array of [n] bytes holds before it is written. *)
Class StackMemory := { stack_bytes : list call -> nat -> list Z }.

(** The ADC: the sample buffer once the wait after [adcStartConversion] is over. *)
Class AdcDriver := { adc_convert : list call -> list Z -> list Z }.

(** The system tick counter (32 bits are read), and the conversions between ticks,
    milliseconds and seconds. *)
Class SysTimer := {
  system_time : list call -> Z;
  TIME_MS2I : Z -> Z;
  TIME_I2S : Z -> Z }.

(** What the hardware and the interrupts do while a thread sleeps. *)
Class Background := { elapse : world -> world }.

(** Registers of the camera interface and its clock, and the bits of its control
    register. *)
Class DcmiPeriph := {
  dcmi_cr : list call -> Z;
  rcc_ahb2enr : list call -> Z;
  DCMI_CR_CM : Z; DCMI_CR_JPEG : Z; DCMI_CR_ESS : Z; DCMI_CR_PCKPOL : Z;
  DCMI_CR_HSPOL : Z; DCMI_CR_VSPOL : Z; DCMI_CR_FCRC_0 : Z; DCMI_CR_FCRC_1 : Z;
  DCMI_CR_EDM_0 : Z; DCMI_CR_EDM_1 : Z; DCMI_CR_ENABLE : Z; DCMI_CR_CAPTURE : Z }.

(** FatFs and the SD card driver: the status each call answers; a write also
    answers how many bytes it has written. *)
Class FileSystem := {
  f_open_result : list call -> string -> bool -> Z;
  f_write_result : list call -> list Z -> Z * Z;
  f_close_result : list call -> Z;
  f_mount_result : list call -> Z;
  sdcConnect_result : list call -> bool;
  FR_EXIST : Z }.

(** Whether a card is in the slot, whether the shell's thread could be created and
    whether it has ended. *)
Class CardSlot := {
  blkIsInserted : list call -> bool;
  thread_created : list call -> bool;
  thread_terminated : list call -> bool }.

(** Where the linker puts OV5640_ram_buffer. *)
Class Linker := { ram_address : Z }.

(** The RTC driver: its base year, the time it reports, and what the bit-fields
    of its time structure hold after values have been assigned to them. *)
Class RtcDriver := {
  RTC_BASE_YEAR : Z;
  rtc_time : list call -> RTCDateTime;
  rtc_fields : RTCDateTime -> RTCDateTime }.

(** The DMA stream of the camera: the current target bit and the two memory
    address registers as they read back, and the constants of the driver. *)
Class DmaStream := {
  current_target : list call -> Z;
  memory0 : list call -> Z;
  memory1 : list call -> Z;
  ISR_HTIF : Z;
  ISR_TCIF : Z;
  CR_base : Z;        (* CHSEL(1) | DIR_P2M | MINC | PSIZE_WORD | MSIZE_WORD |
                         MBURST_INCR4 | PBURST_SINGLE | TCIE *)
  CR_CT : Z;
  CR_DBM : Z;
  FCR_FTH_FULL : Z }.

(** Laws.  A transfer never changes the size of the receive buffer and delivers
    bytes; so does uninitialised memory. *)
Class I2cDriverLaws `{I2cDriver} : Prop := {
  i2c_transfer_length h a tx rx :
    length (snd (i2c_transfer h a tx rx)) = length rx;
  i2c_transfer_bytes h a tx rx :
    Forall is_byte rx -> Forall is_byte (snd (i2c_transfer h a tx rx)) }.

Class StackMemoryLaws `{StackMemory} : Prop := {
  stack_length h n : length (stack_bytes h n) = n;
  stack_is_bytes h n : Forall is_byte (stack_bytes h n) }.

(** The ADC fills the four channels of the group with 12-bit samples. *)
Class AdcLaws `{AdcDriver} : Prop := {
  adc_length h s : length (adc_convert h s) = 4%nat;
  adc_range h s : Forall (in_u 12) (adc_convert h s) }.

(** Every call but a long sleep. *)
Definition short_call (c : call) : bool :=
  match c with
  | chThdSleep n => n <=? 1000
  | _ => true
  end.

(** Ticks are counted from reset on; the count never goes back, grows during a
    sleep, and by less than 2^20 ticks (100 seconds) during a short call. *)
Class TimerLaws `{SysTimer} : Prop := {
  time_start h : 0 <= system_time h;
  time_forward c h : system_time h <= system_time (c :: h);
  time_sleeps n h : 0 < n -> system_time h < system_time (chThdSleep n :: h);
  time_short c h : short_call c = true -> system_time (c :: h) <= system_time h + 2 ^ 20;
  time_ms n : 0 < n <= 10000 -> 0 < TIME_MS2I n <= 2 ^ 20 }.

(** The control register reads back what was written to it. *)
Class DcmiLaws `{DcmiPeriph} : Prop := {
  dcmi_cr_written v h : dcmi_cr (DCMI_CR_write v :: h) = v }.

(** The buffer and [n] bytes lie in the address space. *)
Class LinkerLaws `{Linker} (n : Z) : Prop := {
  ram_address_range : 0 < ram_address /\ ram_address + n <= 2 ^ 32 }.

(** The time the RTC was last set to. *)
Fixpoint rtc_last_set (h : list call) : option RTCDateTime :=
  match h with
  | [] => None
  | rtcSetTime t :: _ => Some t
  | _ :: h' => rtc_last_set h'
  end.

(** The fields are wide enough for 256 years and the milliseconds of a day; a
    clock that is read at once reports the time it was set to. *)
Class RtcLaws `{RtcDriver} : Prop := {
  rtc_base_range : 0 <= RTC_BASE_YEAR <= 65280;
  rtc_fields_fit t :
    0 <= rtc_year t < 256 -> 0 <= rtc_month t < 16 -> 0 <= rtc_day t < 32 ->
    0 <= rtc_millisecond t < 2 ^ 27 -> rtc_fields t = t;
  rtc_reports h t : rtc_last_set h = Some t -> rtc_time h = t }.

(** ** Reading the machine *)

Definition uninit `{StackMemory} (n : nat) : M (list Z) :=
  w <- gets (fun w => w) ;;
  extern (stack_read (Z.of_nat n)) ;;
  ret (stack_bytes (calls w) n).

Definition get_system_time `{SysTimer} : M Z :=
  w <- gets (fun w => w) ;;
  extern chVTGetSystemTime ;;
  ret (u32 (system_time (calls w))).

(** Sleeping for [ms] milliseconds: the hardware goes on meanwhile. *)
Definition sleep `{Background} (ms : Z) : M unit :=
  extern (chThdSleep ms) ;;
  modify elapse.

(** ** Facts about histories *)

(** The camera's DMA stream, from its history: in double buffer mode the target
    changes each time a block is complete, and starts as the mode word says. *)
Fixpoint target_of `{DmaStream} (h : list call) : Z :=
  match h with
  | [] => 0
  | dma_block_complete :: h' => 1 - target_of h'
  | dmaStreamSetMode cr :: _ => if Z.land cr CR_CT =? 0 then 0 else 1
  | _ :: h' => target_of h'
  end.

Fixpoint memory0_of (h : list call) : Z :=
  match h with
  | [] => 0
  | dmaStreamSetMemory0 a :: _ => a
  | _ :: h' => memory0_of h'
  end.

Fixpoint memory1_of (h : list call) : Z :=
  match h with
  | [] => 0
  | dmaStreamSetMemory1 a :: _ => a
  | _ :: h' => memory1_of h'
  end.

Fixpoint stream_enabled (h : list call) : bool :=
  match h with
  | [] => false
  | dmaStreamEnable :: _ => true
  | dmaStreamDisable :: _ => false
  | _ :: h' => stream_enabled h'
  end.

(** The registers read back what the history says; the target, double-buffer and
    half/complete flags are different bits. *)
Class DmaLaws `{DmaStream} : Prop := {
  target_reads h : current_target h = target_of h;
  memory0_reads h : memory0 h = memory0_of h;
  memory1_reads h : memory1 h = memory1_of h;
  dbm_not_ct : Z.land CR_DBM CR_CT = 0;
  tcif_not_htif : Z.land ISR_TCIF (Z.lnot ISR_HTIF) = ISR_TCIF;
  tcif_some : ISR_TCIF <> 0 }.

(** How often the I2C bus mutex has been taken and not given back. *)
Fixpoint bus_held (h : list call) : Z :=
  match h with
  | [] => 0
  | i2cAcquireBus :: h' => bus_held h' + 1
  | i2cReleaseBus :: h' => bus_held h' - 1
  | _ :: h' => bus_held h'
  end.

(** The (address, bytes) pairs sent on the I2C bus, oldest first. *)
Fixpoint sent (h : list call) : list (Z * list Z) :=
  match h with
  | [] => []
  | i2cMasterTransmitTimeout a tx _ _ :: h' => sent h' ++ [(a, tx)]
  | _ :: h' => sent h'
  end.

(** Running through a sequence of calls. *)
Lemma wp_extern c Q w : Q tt (set_calls (c :: calls w) w) -> wp (extern c) Q w.
Proof. intros K. exact K. Qed.

Lemma wp_extern_next c h Q w : Q tt (set_calls (c :: h) w) -> wp (extern c) Q (set_calls h w).
Proof. intros K. exact K. Qed.

Ltac wp_calls :=
  repeat (lazymatch goal with
          | |- wp (bind _ _) _ _ => apply wp_bind
          | |- wp (extern _) _ (set_calls _ _) => apply wp_extern_next
          | |- wp (extern _) _ _ => apply wp_extern
          | |- wp (ret _) _ _ => apply wp_ret
          | |- wp (gets _) _ _ => apply wp_gets
          | |- wp (modify _) _ _ => apply wp_modify
          end; cbv beta).

(** At most [n] calls later, none of them long. *)
Definition within (n : Z) (w w' : world) : Prop :=
  exists cs, calls w' = cs ++ calls w /\ Z.of_nat (length cs) <= n /\
             forallb short_call cs = true.

Lemma within_refl w : within 0 w w.
Proof. exists []. repeat split. cbn. lia. Qed.

Lemma within_trans n m w1 w2 w3 : within n w1 w2 -> within m w2 w3 -> within (n + m) w1 w3.
Proof.
  intros (a & Ea & La & Sa) (b & Eb & Lb & Sb). exists (b ++ a).
  rewrite Eb, Ea, app_assoc, length_app, forallb_app, Sa, Sb. repeat split. lia.
Qed.

Lemma within_time `{TimerLaws} n w w' : within n w w' ->
  system_time (calls w) <= system_time (calls w') <= system_time (calls w) + n * 2 ^ 20.
Proof.
  intros (cs & -> & L & S). revert n L. induction cs as [|c cs IH]; intros n L; cbn [app].
  - cbn in L. lia.
  - cbn [forallb] in S. apply andb_prop in S as [Sc S].
    specialize (IH S (n - 1)). cbn [length] in L. rewrite Nat2Z.inj_succ in L.
    pose proof (time_forward c (cs ++ calls w)). pose proof (time_short c (cs ++ calls w) Sc). lia.
Qed.
