(* ===== verification/Debug.v ===== *)
(** * debug.c and debug.h: trace messages and the ring of the last errors

    The TRACE macros print through debug_print, under a mutex, when the trace
    level asks for it; TRACE_ERROR also keeps the message, with a time stamp, in
    a ring of 32 entries of 64 characters. *)

From Stdlib Require Import ZArith Bool String List Lia.
From S2P Require Import Prelude Machine.
Import ListNotations.
Local Open Scope Z_scope.
Local Open Scope fw_scope.

(** The text chsnprintf makes of a format and its arguments (strings and numbers
    alike are words on the stack), and what it takes for its first argument when
    it is handed a va_list. *)
Class Formatter := {
  format : string -> list Z -> string;
  va_list_word : list Z -> Z }.

(** A time stamp of less than a hundred million seconds has its fixed width. *)
Class FormatterLaws `{Formatter} : Prop := {
  format_stamp s ms : 0 <= s < 10 ^ 8 -> 0 <= ms < 1000 ->
    String.length (format "[%8d.%03d] " [s; ms]) = 15%nat }.

Definition ERROR_LIST_LENGTH := 64.

Definition ERROR_LIST_SIZE := 32.

Definition TRACE_TIME := false.

Definition TRACE_FILE := false.

(** chconf.h *)
Definition CH_CFG_ST_FREQUENCY := 10000.

Definition upd_trace (f : trace_state -> trace_state) : M unit :=
  modify (fun w => set_trace (f (trace w)) w).

Definition set_error_list (l : list string) (t : trace_state) : trace_state :=
  {| error_list := l; error_counter := error_counter t; usb_trace_level := usb_trace_level t |}.

Definition set_error_counter (c : Z) (t : trace_state) : trace_state :=
  {| error_list := error_list t; error_counter := c; usb_trace_level := usb_trace_level t |}.

(** [chsnprintf(buf, n, ...)] of the text [s]: what a buffer of [n] > 0 bytes
    holds up to its terminating zero. *)
Definition stored (n : Z) (s : string) : string := substring 0 (Z.to_nat (n - 1)) s.

Section Trace.
Context `{Formatter} `{SysTimer}.

Definition debug_init : M unit :=
  extern chMtxObjectInit ;;
  extern (sdStart 1 0 false).

(** The seconds and the milliseconds of a time stamp, from two readings of the
    tick counter. *)
Definition stamp_args (t1 t2 : Z) : list Z :=
  [t1 / CH_CFG_ST_FREQUENCY; u32 (t2 * 1000) / CH_CFG_ST_FREQUENCY mod 1000].

(** The text is formatted with the va_list as its only argument, as written. *)
Definition debug_print (type fmt : string) (args : list Z) : M unit :=
  extern chMtxLock ;;
  let str := stored 256 (format fmt [va_list_word args]) in
  when TRACE_TIME
    (t1 <- get_system_time ;;
     t2 <- get_system_time ;;
     extern (chprintf "[%8d.%03d]" (stamp_args t1 t2))) ;;
  extern (chprintf_str "[%s]" type) ;;
  when TRACE_FILE (extern (chprintf "[%12s %04d]" [])) ;;
  extern (chprintf_str " %s\r\n" str) ;;
  extern chMtxUnlock.

Definition trace_at (level : Z) (type fmt : string) (args : list Z) : M unit :=
  l <- gets (fun w => usb_trace_level (trace w)) ;;
  when (level <? l) (debug_print type fmt args).

Definition TRACE_DEBUG : string -> list Z -> M unit := trace_at 4 "DEBUG".

Definition TRACE_INFO : string -> list Z -> M unit := trace_at 3 "     ".

Definition TRACE_MON : string -> list Z -> M unit := trace_at 2 "     ".

Definition TRACE_WARN : string -> list Z -> M unit := trace_at 1 "WARN ".

(** The two chsnprintf into [error_list[error_counter]]: a stamp of [strcnt]
    characters, then the message in the rest of the entry. *)
Definition error_entry (stamp text : string) : result string :=
  let strcnt := u8 (Z.of_nat (String.length stamp)) in
  if ERROR_LIST_LENGTH <? strcnt then Err OutOfBounds else
  Ok (substring 0 (Z.to_nat strcnt) (stored ERROR_LIST_LENGTH stamp) ++
      stored (ERROR_LIST_LENGTH - strcnt) text)%string.

Definition TRACE_ERROR (fmt : string) (args : list Z) : M unit :=
  trace_at 0 "ERROR" fmt args ;;
  t1 <- get_system_time ;;
  t2 <- get_system_time ;;
  e <- lift (error_entry (format "[%8d.%03d] " (stamp_args t1 t2)) (format fmt args)) ;;
  t <- gets trace ;;
  lift (array_get (error_list t) (error_counter t)) ;;
  upd_trace (set_error_list (list_set (Z.to_nat (error_counter t)) e (error_list t))) ;;
  upd_trace (set_error_counter (u8 ((error_counter t + 1) mod ERROR_LIST_SIZE))).

End Trace.

(** ** The ring against the list of all errors *)

(** [t] keeps the last 32 of the errors [errs], oldest overwritten first. *)
Record ring (errs : list string) (t : trace_state) : Prop := {
  ring_size : length (error_list t) = 32%nat;
  ring_next : error_counter t = Z.of_nat (length errs) mod 32;
  ring_keeps : forall i, (i < length errs)%nat -> (length errs <= i + 32)%nat ->
    nth (i mod 32) (error_list t) EmptyString = nth i errs EmptyString;
  ring_fits : Forall (fun s => (String.length s <= 63)%nat) (error_list t) }.

(** How often the mutex has been taken and not given back. *)
Fixpoint mtx_held (h : list call) : Z :=
  match h with
  | [] => 0
  | chMtxLock :: h' => mtx_held h' + 1
  | chMtxUnlock :: h' => mtx_held h' - 1
  | _ :: h' => mtx_held h'
  end.

Lemma substring_length n s : (String.length (substring 0 n s) <= n)%nat.
Proof. revert s. induction n as [|n IH]; intros [|c s]; cbn; try lia. specialize (IH s). lia. Qed.

Lemma append_length s t : String.length (s ++ t) = (String.length s + String.length t)%nat.
Proof. induction s as [|c s IH]; cbn; [reflexivity | now rewrite IH]. Qed.

(** Storing the next error. *)
Lemma ring_push errs t e : ring errs t -> (String.length e <= 63)%nat ->
  ring (errs ++ [e]) (set_error_counter ((error_counter t + 1) mod 32)
    (set_error_list (list_set (Z.to_nat (error_counter t)) e (error_list t)) t)).
Proof.
  intros [Sz Nx Ke Fi] He.
  assert (Z.to_nat (error_counter t) = (length errs mod 32)%nat) as Ec.
  { rewrite Nx, <- (Nat2Z.id (length errs mod 32)), Nat2Z.inj_mod. reflexivity. }
  pose proof (Nat.mod_upper_bound (length errs) 32 ltac:(lia)) as Ub.
  split; cbn [error_list error_counter set_error_counter set_error_list].
  - now rewrite list_set_length.
  - rewrite Nx, length_app, Nat2Z.inj_add. cbn [length]. rewrite Zplus_mod_idemp_l. reflexivity.
  - intros i Hi Hk. rewrite length_app in Hi, Hk. cbn [length] in Hi, Hk.
    rewrite list_set_nth, Ec by (rewrite Sz, Ec; exact Ub).
    destruct (Nat.eq_dec i (length errs)) as [->|N].
    + rewrite Nat.eqb_refl, app_nth2, Nat.sub_diag by lia. reflexivity.
    + destruct (Nat.eqb_spec (i mod 32) (length errs mod 32)) as [E|_].
      * pose proof (Nat.div_mod_eq i 32). pose proof (Nat.div_mod_eq (length errs) 32). lia.
      * rewrite app_nth1 by lia. apply Ke; lia.
  - now apply list_set_forall.
Qed.

Section Facts.
Context {FM : Formatter} {FL : FormatterLaws} {TI : SysTimer}.

(** The calls tracing makes. *)
Definition trace_call (c : call) : bool :=
  match c with
  | chMtxLock | chMtxUnlock | chprintf_str _ _ | chVTGetSystemTime => true
  | _ => false
  end.

(** What a trace message leaves alone: everything but the history, in which the
    mutex is free again. *)
Definition traced (w w' : world) : Prop :=
  exists cs, w' = set_calls (cs ++ calls w) w /\ forallb trace_call cs = true /\
             mtx_held (cs ++ calls w) = mtx_held (calls w).

Lemma wp_trace_at level type fmt args w :
  wp (trace_at level type fmt args) (fun _ w' => traced w w') w.
Proof.
  unfold trace_at. wp_norm. apply wp_when; intros _.
  - unfold debug_print, extern, TRACE_TIME, TRACE_FILE. cbn [when]. wp_norm.
    eexists [_; _; _; _]. repeat split. cbn. lia.
  - exists []. repeat split. now destruct w.
Qed.

Lemma stamp_ok h1 h2 : exists s ms,
  stamp_args (u32 (system_time h1)) (u32 (system_time h2)) = [s; ms] /\
  0 <= s < 10 ^ 8 /\ 0 <= ms < 1000.
Proof.
  unfold stamp_args, CH_CFG_ST_FREQUENCY, u32. eexists _, _. split; [reflexivity|].
  pose proof (uwrap_range 32 (system_time h1) ltac:(lia)) as R. unfold in_u in R. eval_pow.
  split; [dlia | apply Z.mod_pos_bound; lia].
Qed.

(** The entry of an error: a stamp of 15 characters and the first 48 of the text. *)
Definition is_entry (fmt : string) (args : list Z) (e : string) : Prop :=
  exists stamp, String.length stamp = 15%nat /\
    e = (stamp ++ substring 0 48 (format fmt args))%string.

Lemma substring_all n s : (String.length s <= n)%nat -> substring 0 n s = s.
Proof.
  revert s. induction n as [|n IH]; intros [|c s] L; cbn in *; try lia; auto.
  rewrite IH; [reflexivity | lia].
Qed.

Lemma error_entry_ok stamp text : String.length stamp = 15%nat ->
  error_entry stamp text = Ok (stamp ++ substring 0 48 text)%string.
Proof.
  intros L. unfold error_entry, stored, ERROR_LIST_LENGTH. rewrite L.
  change (u8 (Z.of_nat 15)) with 15. cbn [Z.ltb Z.compare Pos.compare Pos.compare_cont].
  change (Z.to_nat (64 - 1)) with 63%nat. change (Z.to_nat 15) with 15%nat.
  change (Z.to_nat (64 - 15 - 1)) with 48%nat.
  rewrite (substring_all 63), (substring_all 15) by lia. reflexivity.
Qed.

Lemma wp_TRACE_ERROR errs fmt args w : ring errs (trace w) ->
  wp (TRACE_ERROR fmt args) (fun _ w' => exists e, is_entry fmt args e /\
        ring (errs ++ [e]) (trace w') /\ mtx_held (calls w') = mtx_held (calls w) /\
        exists cs t, w' = set_trace t (set_calls (cs ++ calls w) w) /\
                     forallb trace_call cs = true) w.
Proof.
  intros R. unfold TRACE_ERROR. wp_norm. wp_use wp_trace_at.
  intros _ w1 (cs & -> & Tr & Mx). unfold get_system_time, extern. wp_norm. cbn [calls set_calls].
  match goal with |- wp (lift (error_entry (format _ (stamp_args (u32 (system_time ?a))
                                                        (u32 (system_time ?b)))) _)) _ _ =>
    destruct (stamp_ok a b) as (s & ms & Es & Hs & Hm) end.
  rewrite Es. pose proof (format_stamp s ms Hs Hm) as L.
  eapply wp_lift; [apply error_entry_ok, L|]. wp_norm. cbn [trace set_calls].
  destruct R as [Sz Nx Ke Fi].
  assert (0 <= error_counter (trace w) < 32) as Hc by (rewrite Nx; apply Z.mod_pos_bound; lia).
  assert (exists x, nth_error (error_list (trace w)) (Z.to_nat (error_counter (trace w))) = Some x)
    as [x Hx].
  { exists (nth (Z.to_nat (error_counter (trace w))) (error_list (trace w)) EmptyString).
    apply nth_error_nth'. rewrite Sz. lia. }
  eapply wp_lift; [apply array_get_ok; [lia | exact Hx]|]. unfold upd_trace. wp_norm.
  eexists. split; [eexists; split; [exact L | reflexivity]|].
  split; [|split; [exact Mx | eexists (_ :: _ :: cs), _; split; [reflexivity | exact Tr]]].
  cbn [trace set_trace set_calls]. unfold ERROR_LIST_SIZE, u8.
  rewrite uwrap_small by (unfold in_u; eval_pow; pose proof
    (Z.mod_pos_bound (error_counter (trace w) + 1) 32); lia).
  apply ring_push; [now split|]. rewrite append_length, L.
  pose proof (substring_length 48 (format fmt args)). lia.
Qed.

(** C28: the error ring refines the list of all errors.  From a ring that keeps the
    last 32 of the errors [errs], any sequence of TRACE_ERROR runs without fault
    at every trace level; each message becomes an entry of a 15 character time
    stamp and at most the first 48 characters of the text, in its 64 bytes with
    the terminating zero; the ring then keeps the last 32 of the old and the new
    errors together, in order, the oldest overwritten first; and the mutex is
    released as often as it is taken. *)
Theorem error_ring_spec msgs errs w : ring errs (trace w) ->
  exists w' new, for_each msgs (fun m => TRACE_ERROR (fst m) (snd m)) w = Ok (tt, w') /\
    Forall2 (fun m e => is_entry (fst m) (snd m) e /\ (String.length e <= 63)%nat) msgs new /\
    ring (errs ++ new) (trace w') /\ mtx_held (calls w') = mtx_held (calls w).
Proof.
  revert errs w. induction msgs as [|[fmt args] msgs IH]; intros errs w R; cbn [for_each fst snd].
  - exists w, []. rewrite app_nil_r. auto.
  - destruct (proj1 (wp_ok _ _ _) (wp_TRACE_ERROR errs fmt args w R)) as ([] & w1 & E1 & e & Is & R1 & M1 & _).
    destruct (IH _ _ R1) as (w2 & new & E2 & F2 & R2 & M2). exists w2, (e :: new).
    split; [unfold bind; now rewrite E1|]. split.
    + constructor; [|exact F2]. split; [exact Is|]. destruct Is as (st & L & ->).
      rewrite append_length, L. pose proof (substring_length 48 (format fmt args)). lia.
    + rewrite <- app_assoc in R2. split; [exact R2 | congruence].
Qed.

End Facts.

(** A formatter that prints the two numbers of a stamp with leading zeros, and
    every other format as it stands. *)
Fixpoint digits (n : nat) (z : Z) : string :=
  match n with
  | O => EmptyString
  | S n' => digits n' (z / 10) ++ String (Ascii.ascii_of_nat (48 + Z.to_nat (z mod 10))) EmptyString
  end.

Lemma digits_length n z : String.length (digits n z) = n.
Proof. revert z. induction n as [|n IH]; intros z; cbn; [reflexivity|]. rewrite append_length, IH. cbn. lia. Qed.

Definition plain_formatter : Formatter := {|
  format fmt args :=
    if String.eqb fmt "[%8d.%03d] "
    then ("[" ++ digits 8 (nth 0 args 0%Z) ++ "." ++ digits 3 (nth 1 args 0%Z) ++ "] ")%string
    else fmt;
  va_list_word _ := 0 |}.

Lemma plain_formatter_laws : @FormatterLaws plain_formatter.
Proof.
  split. intros s ms _ _. unfold format, plain_formatter. cbn [nth].
  rewrite String.eqb_refl, !append_length, !digits_length. reflexivity.
Defined.

(** A clock that counts the calls made. *)
Definition tick_clock : SysTimer := {|
  system_time h := Z.of_nat (length h); TIME_MS2I n := n; TIME_I2S n := n |}.

Lemma reset_ring : ring [] (trace reset_world).
Proof. split; [reflexivity | reflexivity | cbn; lia | repeat constructor]. Qed.

(** Thirty-three errors: the first one has been overwritten. *)
Definition many_errors : list (string * list Z) :=
  (("first", []) :: repeat ("more", []) 31 ++ [("last", [])])%string.

Lemma error_ring_spec_witness :
  exists w' new, for_each many_errors (fun m => @TRACE_ERROR plain_formatter tick_clock (fst m) (snd m))
                   reset_world = Ok (tt, w') /\
    ring new (trace w') /\ length new = 33%nat /\ mtx_held (calls w') = 0.
Proof.
  destruct (@error_ring_spec plain_formatter plain_formatter_laws tick_clock many_errors []
              reset_world reset_ring) as (w' & new & R & F & Rg & Mx).
  exists w', new. split; [exact R|]. split; [exact Rg|]. split; [|exact Mx].
  rewrite <- (Forall2_length F). reflexivity.
Defined.

Example ring_overwrites :
  (match for_each many_errors (fun m => @TRACE_ERROR plain_formatter tick_clock (fst m) (snd m))
          reset_world with
  | Ok (_, w) => (nth 0 (error_list (trace w)) "", nth 1 (error_list (trace w)) "",
                  error_counter (trace w))
  | Err _ => ("", "", 0)
  end)%string = ("[00000000.019] last", "[00000000.001] more", 1)%string.
Proof. vm_compute. reflexivity. Qed.
