(* ===== verification/Pi2c.v ===== *)
(** * pi2c.c: the I2C wrapper

    Every register access of the sensors and the camera goes through
    [I2C_transmit].  The section [Slaves] states what the drivers of the sensors
    rely on as an interface, [RegisterBus], and shows that pi2c.c provides it
    on a bus whose slaves answer a register read with the register's bytes. *)

From Stdlib Require Import ZArith Bool String List Lia.
From Stdlib Require Import Classes.RelationClasses.
From S2P Require Import Prelude Machine.
Import ListNotations.
Local Open Scope Z_scope.
Local Open Scope fw_scope.

Section Pi2c.
Context `{I2cDriver} `{StackMemory}.

(** Returns the boolean of the source and what the receive buffer holds. *)
Definition I2C_transmit (addr : Z) (txbuf rxbuf : list Z) (timeout : Z) : M (bool * list Z) :=
  extern i2cAcquireBus ;;
  extern i2cStart ;;
  w <- gets (fun w => w) ;;
  extern (i2cMasterTransmitTimeout addr txbuf (Z.of_nat (length rxbuf)) timeout) ;;
  let (i2c_status, rxbuf') := i2c_transfer (calls w) addr txbuf rxbuf in
  extern i2cStop ;;
  extern i2cReleaseBus ;;
  match i2c_status with
  | MSG_TIMEOUT =>
      extern (chprintf "I2C  > TIMEOUT (ADDR 0x%02x)\r\n" [addr]) ;;
      modify (set_pi2c_error 1)
  | MSG_RESET =>
      extern (chprintf "I2C  > RESET (ADDR 0x%02x)\r\n" [addr]) ;;
      modify (set_pi2c_error 0)
  | MSG_OK => modify (set_pi2c_error 0)
  end ;;
  ret (msg_eqb i2c_status MSG_OK, rxbuf').

Definition I2C_Lock : M unit := extern i2cAcquireBus.

Definition I2C_Unlock : M unit := extern i2cReleaseBus.

Definition I2C_write8 (address reg value : Z) : M bool :=
  '(r, _) <- I2C_transmit address [reg; value] [] 100 ;; ret r.

Definition I2C_writeN (address : Z) (txbuf : list Z) : M bool :=
  '(r, _) <- I2C_transmit address txbuf [] 100 ;; ret r.

(** The byte at [i] of a receive buffer. *)
Definition rx (buf : list Z) (i : nat) : Z := nth i buf 0.

(** Returns the boolean and the value stored through the pointer. *)
Definition I2C_read8 (address reg : Z) : M (bool * Z) :=
  rxbuf <- uninit 1 ;;
  '(r, rxbuf) <- I2C_transmit address [reg] rxbuf 100 ;;
  ret (r, rx rxbuf 0).

Definition I2C_read16 (address reg : Z) : M (bool * Z) :=
  rxbuf <- uninit 2 ;;
  '(r, rxbuf) <- I2C_transmit address [reg] rxbuf 100 ;;
  ret (r, u16 (Z.lor (Z.shiftl (rx rxbuf 0) 8) (rx rxbuf 1))).

Definition I2C_read16_LE (address reg : Z) : M (bool * Z) :=
  '(r, val) <- I2C_read16 address reg ;;
  ret (r, u16 (Z.lor (Z.shiftr val 8) (Z.shiftl val 8))).

Definition I2C_read8_16bitreg (address reg : Z) : M (bool * Z) :=
  rxbuf <- uninit 1 ;;
  '(r, rxbuf) <- I2C_transmit address [u8 (Z.shiftr reg 8); Z.land reg 0xFF] rxbuf 100 ;;
  ret (r, rx rxbuf 0).

Definition I2C_write8_16bitreg (address reg value : Z) : M bool :=
  '(r, _) <- I2C_transmit address [u8 (Z.shiftr reg 8); Z.land reg 0xFF; value] [] 100 ;;
  ret r.

Definition I2C_hasError : M Z := gets pi2c_error.

End Pi2c.

(** What a sequence of accesses may change: the history (the bus mutex being
    free again) and pi2c.c's error flag, nothing else. *)
Record quiet (w w' : world) : Prop := {
  quiet_ltr : ltr329_error w' = ltr329_error w;
  quiet_mpu : mpu9250_error w' = mpu9250_error w;
  quiet_samples : samples w' = samples w;
  quiet_bme : bme280_error w' = bme280_error w;
  quiet_cam : cam w' = cam w;
  quiet_dma : dma w' = dma w;
  quiet_ram : ram_buffer w' = ram_buffer w;
  quiet_len : ram_buffer_length w' = ram_buffer_length w;
  quiet_main : main_vars w' = main_vars w;
  quiet_trace : trace w' = trace w;
  quiet_bus : bus_held (calls w') = bus_held (calls w) }.

#[export] Instance quiet_preorder : PreOrder quiet.
Proof.
  split.
  - intros w. split; reflexivity.
  - intros a b c [] []. split; congruence.
Qed.

(** The slaves on the bus: the bytes a slave delivers, one after the other, when
    a register is read from it; [None] where no slave answers. *)
Class Slaves := { slave : Z -> option (Z -> nat -> Z) }.

(** The driver delivers the addressed slave's bytes; an absent slave does not
    acknowledge, and the receive buffer is left as it was. *)
Class SlavesServed `{I2cDriver} `{Slaves} : Prop := {
  served_read h a reg buf :
    i2c_transfer h a [reg] buf =
      match slave a with
      | Some f => (MSG_OK, map (f reg) (seq 0 (length buf)))
      | None => (MSG_RESET, buf)
      end;
  served_bytes a f reg i : slave a = Some f -> is_byte (f reg i) }.

(** What the drivers of the sensors rely on. *)
Class RegisterBus `{I2cDriver} `{StackMemory} `{Slaves} : Prop := {
  bus_read8 a reg w :
    wp (I2C_read8 a reg)
       (fun p w' => quiet w w' /\
          match slave a with
          | Some f => p = (true, f reg 0%nat)
          | None => fst p = false /\ exists h, snd p = rx (stack_bytes h 1) 0
          end) w;
  bus_read16 a reg w :
    wp (I2C_read16 a reg)
       (fun p w' => quiet w w' /\
          match slave a with
          | Some f => p = (true, f reg 0%nat * 256 + f reg 1%nat)
          | None => fst p = false
          end) w;
  bus_read16_LE a reg w :
    wp (I2C_read16_LE a reg)
       (fun p w' => quiet w w' /\
          match slave a with
          | Some f => p = (true, f reg 1%nat * 256 + f reg 0%nat)
          | None => fst p = false
          end) w;
  bus_write8 a reg v w :
    wp (I2C_write8 a reg v) (fun _ w' => quiet w w') w;
  bus_bytes a f reg i : slave a = Some f -> is_byte (f reg i) }.

Ltac quiet_done := split; reflexivity.

Section Pi2cFacts.
Context `{ID : I2cDriver} `{SM : StackMemory}.

(** I2C_transmit.  Whatever the slave and the driver do, the call takes the
    bus, runs exactly one transfer of the given bytes between i2cStart and
    i2cStop, and gives the bus back; it returns true exactly when the driver
    reports MSG_OK, hands out the driver's receive buffer, and leaves the error
    flag set exactly after a timeout. *)
Theorem I2C_transmit_spec addr tx buf timeout w :
  exists st buf' msgs w',
    i2c_transfer (i2cStart :: i2cAcquireBus :: calls w) addr tx buf = (st, buf') /\
    I2C_transmit addr tx buf timeout w = Ok ((msg_eqb st MSG_OK, buf'), w') /\
    calls w' = msgs ++ [i2cReleaseBus; i2cStop;
                        i2cMasterTransmitTimeout addr tx (Z.of_nat (length buf)) timeout;
                        i2cStart; i2cAcquireBus] ++ calls w /\
    (forall c, In c msgs -> exists fmt, c = chprintf fmt [addr]) /\
    pi2c_error w' = (if msg_eqb st MSG_TIMEOUT then 1 else 0) /\
    bus_held (calls w') = bus_held (calls w).
Proof.
  unfold I2C_transmit, bind, extern, modify, gets, ret; cbn.
  destruct (i2c_transfer _ addr tx buf) as [st buf'].
  exists st, buf', (match st with
                    | MSG_TIMEOUT => [chprintf "I2C  > TIMEOUT (ADDR 0x%02x)\r\n" [addr]]
                    | MSG_RESET => [chprintf "I2C  > RESET (ADDR 0x%02x)\r\n" [addr]]
                    | MSG_OK => [] end).
  destruct st; eexists; repeat split; cbn; try lia; try tauto;
    intros c [<-|[]]; eauto.
Qed.

(** The same as a rule: the transfer's outcome, and nothing but the history and
    the flag changes. *)
Lemma wp_transmit addr tx buf timeout w :
  wp (I2C_transmit addr tx buf timeout)
     (fun p w' => quiet w w' /\
        exists h, let r := i2c_transfer h addr tx buf in
                  p = (msg_eqb (fst r) MSG_OK, snd r)) w.
Proof.
  unfold wp, I2C_transmit, bind, extern, modify, gets, ret; cbn.
  destruct (i2c_transfer _ addr tx buf) as [st buf'] eqn:E.
  destruct st; (split;
    [ split; cbn; try reflexivity; lia
    | exists (i2cStart :: i2cAcquireBus :: calls w); rewrite E; reflexivity ]).
Qed.

(** A transfer puts its bytes on the wire once. *)
Lemma wp_transmit_sent addr tx buf timeout w :
  wp (I2C_transmit addr tx buf timeout)
     (fun _ w' => quiet w w' /\ sent (calls w') = sent (calls w) ++ [(addr, tx)]) w.
Proof.
  unfold wp, I2C_transmit, bind, extern, modify, gets, ret; cbn.
  destruct (i2c_transfer _ addr tx buf) as [st buf'].
  destruct st; (split; [split; cbn; try reflexivity; lia | reflexivity]).
Qed.

Lemma wp_uninit n w :
  wp (uninit n) (fun b w' => quiet w w' /\ b = stack_bytes (calls w) n) w.
Proof. split; [quiet_done | reflexivity]. Qed.

Lemma wp_write8 a reg v w : wp (I2C_write8 a reg v) (fun _ w' => quiet w w') w.
Proof.
  unfold I2C_write8. wp_norm. wp_use wp_transmit. intros [r b] w' [Hq _].
  exact Hq.
Qed.

Lemma wp_write8_16 a reg v w :
  wp (I2C_write8_16bitreg a reg v) (fun _ w' => quiet w w') w.
Proof.
  unfold I2C_write8_16bitreg. wp_norm. wp_use wp_transmit. intros [r b] w' [Hq _].
  exact Hq.
Qed.

(** The bytes of a write to a 16-bit register of the camera. *)
Definition wire16 (addr reg v : Z) : Z * list Z :=
  (addr, [u8 (Z.shiftr reg 8); Z.land reg 0xFF; v]).

Lemma wp_write8_16_sent a reg v w :
  wp (I2C_write8_16bitreg a reg v)
     (fun _ w' => quiet w w' /\ sent (calls w') = sent (calls w) ++ [wire16 a reg v]) w.
Proof.
  unfold I2C_write8_16bitreg. wp_norm. wp_use wp_transmit_sent. intros [r b] w' Hq. exact Hq.
Qed.

Lemma read16_LE_swap hi lo :
  is_byte hi -> is_byte lo ->
  u16 (Z.lor (Z.shiftr (hi * 256 + lo) 8) (Z.shiftl (hi * 256 + lo) 8)) = lo * 256 + hi.
Proof.
  intros Hh Hl. rewrite Z.lor_comm. unfold is_byte, in_u in *. cbn in Hh, Hl.
  replace (Z.shiftr (hi * 256 + lo) 8) with hi.
  - rewrite lor_shift8 by (unfold is_byte, in_u; cbn; lia).
    unfold u16, uwrap. cbn. dlia.
  - rewrite Z.shiftr_div_pow2 by lia. cbn. dlia.
Qed.

Section OnSlaves.
Context `{SL : Slaves} `{@SlavesServed ID SL} `{@StackMemoryLaws SM}.

(** A register read: the slave's bytes, or the untouched receive buffer. *)
Lemma wp_register n a reg w :
  wp (b <- uninit n ;; I2C_transmit a [reg] b 100)
     (fun p w' => quiet w w' /\
        match slave a with
        | Some f => p = (true, map (f reg) (seq 0 n))
        | None => exists h, p = (false, stack_bytes h n)
        end) w.
Proof.
  wp_norm. wp_use wp_uninit. intros b w1 [Hq ->].
  wp_use wp_transmit. intros p w2 [Hq2 (h & ->)].
  split; [now transitivity w1|]. rewrite served_read, stack_length.
  destruct (slave a); cbn; eauto.
Qed.

(** A read of [n] bytes followed by a pure decoding of the buffer. *)
Lemma wp_read_with {A} n a reg (dec : bool -> list Z -> A) w :
  wp (b <- uninit n ;; '(r, b') <- I2C_transmit a [reg] b 100 ;; ret (dec r b'))
     (fun v w' => quiet w w' /\
        match slave a with
        | Some f => v = dec true (map (f reg) (seq 0 n))
        | None => exists h, v = dec false (stack_bytes h n)
        end) w.
Proof.
  apply wp_assoc.
  rewrite wp_bind. wp_use wp_register. intros [r b'] w' [Hq Hp]. rewrite wp_ret.
  split; [exact Hq|]. destruct (slave a); [now injection Hp as -> ->|].
  destruct Hp as [h [= -> ->]]. eauto.
Qed.

Lemma bytes16 f a reg : slave a = Some f ->
  u16 (Z.lor (Z.shiftl (f reg 0%nat) 8) (f reg 1%nat)) = f reg 0%nat * 256 + f reg 1%nat.
Proof.
  intros Hs. pose proof (served_bytes a f reg 0 Hs) as B0.
  pose proof (served_bytes a f reg 1 Hs) as B1.
  rewrite lor_shift8 by assumption. apply uwrap_small.
  unfold is_byte, in_u in *. cbn in *. lia.
Qed.

Lemma wp_read16 a reg w :
  wp (I2C_read16 a reg)
     (fun p w' => quiet w w' /\
        match slave a with
        | Some f => p = (true, f reg 0%nat * 256 + f reg 1%nat)
        | None => fst p = false
        end) w.
Proof.
  wp_use (wp_read_with 2 a reg (fun r b => (r, u16 (Z.lor (Z.shiftl (rx b 0) 8) (rx b 1))))).
  intros p w' [Hq Hp]. split; [exact Hq|]. destruct (slave a) eqn:E.
  - rewrite Hp. unfold rx. cbn [map seq nth]. now rewrite (bytes16 _ a).
  - destruct Hp as [h ->]. reflexivity.
Qed.

(** pi2c.c provides the interface of the sensor drivers. *)
#[export] Instance pi2c_register_bus : RegisterBus.
Proof.
  split.
  - intros a reg w.
    wp_use (wp_read_with 1 a reg (fun r b => (r, rx b 0))).
    intros p w' [Hq Hp]. split; [exact Hq|]. destruct (slave a); [exact Hp|].
    destruct Hp as [h ->]. cbn. eauto.
  - exact wp_read16.
  - intros a reg w. unfold I2C_read16_LE. wp_norm. wp_use wp_read16.
    intros [r v] w' [Hq Hp]. rewrite wp_ret. split; [exact Hq|].
    destruct (slave a) eqn:E; [|exact Hp]. injection Hp as -> ->.
    rewrite read16_LE_swap by eauto using served_bytes. reflexivity.
  - exact wp_write8.
  - exact served_bytes.
Qed.

End OnSlaves.
End Pi2cFacts.

(** ** A bus of register files

    The driver of a bus with given slaves: it shows that the laws above can
    hold, and evaluates the firmware on concrete sensors. *)

Definition bus_of (sl : Slaves) : I2cDriver := {|
  i2c_transfer _ a tx buf :=
    match slave a, tx with
    | Some f, [reg] => (MSG_OK, map (f reg) (seq 0 (length buf)))
    | Some _, _ => (MSG_OK, buf)
    | None, _ => (MSG_RESET, buf)
    end |}.

(** Locals that hold [junk] before they are written. *)
Definition stack_of (junk : Z) : StackMemory := {| stack_bytes _ n := repeat junk n |}.

Lemma stack_of_laws junk : is_byte junk -> @StackMemoryLaws (stack_of junk).
Proof.
  intros B. split; cbn; intros h n; [apply repeat_length|].
  induction n; cbn; constructor; auto.
Qed.

Lemma bus_of_served (sl : Slaves) :
  (forall a f reg i, slave a = Some f -> is_byte (f reg i)) ->
  @SlavesServed (bus_of sl) sl.
Proof. intros B. split; [|exact B]. intros h a reg buf. cbn. now destruct (slave a). Qed.

Lemma bus_of_registers (sl : Slaves) junk :
  is_byte junk -> (forall a f reg i, slave a = Some f -> is_byte (f reg i)) ->
  @RegisterBus (bus_of sl) (stack_of junk) sl.
Proof.
  intros J B. pose proof (bus_of_served sl B). pose proof (stack_of_laws junk J).
  apply pi2c_register_bus.
Qed.

(** A slave that answers every register with the same two bytes. *)
Definition two_bytes (hi lo : Z) : Z -> nat -> Z :=
  fun _ i => match i with O => u8 hi | _ => u8 lo end.

Definition only_slave (addr : Z) (f : Z -> nat -> Z) : Slaves :=
  {| slave a := if a =? addr then Some f else None |}.

Lemma only_slave_bus addr hi lo :
  @RegisterBus (bus_of (only_slave addr (two_bytes hi lo))) (stack_of 0)
               (only_slave addr (two_bytes hi lo)).
Proof.
  apply bus_of_registers; [unfold is_byte, in_u; lia|].
  intros a f reg i. cbn. destruct (a =? addr); intros [= <-].
  unfold two_bytes. destruct i; apply uwrap_range; lia.
Qed.
