(* ===== verification/PTime.v ===== *)
(** * ptime.c: calendar dates, UNIX timestamps and the RTC

    [date2UnixTimestamp] and [unixTimestamp2Date] use the Julian leap-year rule
    (every fourth year).  The theorems relate the two conversions to a closed
    form, to each other on the whole range of a 32-bit timestamp, and to the
    Gregorian calendar on the years where the rules agree. *)

From Stdlib Require Import ZArith Bool String List Lia.
From S2P Require Import Prelude Machine Debug.
Import ListNotations.
Local Open Scope Z_scope.
Local Open Scope fw_scope.

(** ** Data *)

Record ptime_t : Set := mk_ptime {
  year : Z; month : Z; day : Z; hour : Z; minute : Z; second : Z }.

Definition nonLeapYear : list Z :=
  [0; 31; 59; 90; 120; 151; 181; 212; 243; 273; 304; 334; 365].

Definition leapYear : list Z :=
  [0; 31; 60; 91; 121; 152; 182; 213; 244; 274; 305; 335; 366].

(** ** Operations *)

(** [for(i = 1970; i < date->year; i++)]: [n] turns are left. *)
Fixpoint add_years (n : nat) (i timeC : Z) : Z :=
  match n with
  | O => timeC
  | S n' =>
      add_years n' (i + 1)
        (u32 (timeC + (if i mod 4 =? 0 then 31622400 else 31536000)))
  end.

Definition date2UnixTimestamp (date : ptime_t) : result Z :=
  let timeC := u32 (second date) in
  let timeC := u32 (timeC + minute date * 60) in
  let timeC := u32 (timeC + hour date * 3600) in
  let timeC := u32 (timeC + (day date - 1) * 86400) in
  d <=! array_get (if year date mod 4 =? 0 then leapYear else nonLeapYear)
                  (month date - 1) ;;
  let timeC := u32 (timeC + d * 86400) in
  Ok (add_years (Z.to_nat (year date - 1970)) 1970 timeC).

(** The [while(true)] loop: the year and the seconds left in it. *)
Fixpoint find_year (fuel : nat) (y time : Z) : result (Z * Z) :=
  match fuel with
  | O => Err OutOfFuel
  | S n =>
      let secondsInThisYear := if y mod 4 =? 0 then 31622400 else 31536000 in
      if secondsInThisYear <=? time
      then find_year n (u16 (y + 1)) (u32 (time - secondsInThisYear))
      else Ok (y, time)
  end.

(** The loop that looks for the month, from [m] on. *)
Fixpoint find_month (fuel : nat) (y m time : Z) : result Z :=
  match fuel with
  | O => Err OutOfFuel
  | S n =>
      d <=! array_get (if y mod 4 =? 0 then leapYear else nonLeapYear) m ;;
      if u32 (d * 86400) <=? time then find_month n y (u8 (m + 1)) time else Ok m
  end.

(** 137 years and 13 months are enough for any 32-bit [time]
    ([unixTimestamp2Date_total]). *)
Definition unixTimestamp2Date (time : Z) : result ptime_t :=
  r <=! find_year 138 1970 time ;;
  let (y, time) := r : Z * Z in
  m <=! find_month 13 y 1 time ;;
  d <=! array_get (if y mod 4 =? 0 then leapYear else nonLeapYear) (m - 1) ;;
  let time := u32 (time - d * 86400) in
  Ok {| year := y; month := m;
        day := u8 (time / 86400 + 1);
        hour := u8 (time mod 86400 / 3600);
        minute := u8 (time mod 3600 / 60);
        second := u8 (time mod 60) |}.

Section Rtc.
Context `{RtcDriver} `{Formatter} `{SysTimer}.

(** The broken-down time of the driver as a date, and back. *)
Definition date_of_rtc (t : RTCDateTime) : ptime_t :=
  {| year := u16 (rtc_year t + RTC_BASE_YEAR);
     month := u8 (rtc_month t);
     day := u8 (rtc_day t);
     hour := u8 (rtc_millisecond t / 3600000);
     minute := u8 (rtc_millisecond t mod 3600000 / 60000);
     second := u8 (rtc_millisecond t / 1000 mod 60) |}.

Definition rtc_of_date (date : ptime_t) : RTCDateTime := rtc_fields
  {| rtc_year := year date - RTC_BASE_YEAR;
     rtc_month := month date;
     rtc_day := day date;
     rtc_millisecond := hour date * 3600000 + minute date * 60000 + second date * 1000 |}.

Definition getTime : M ptime_t :=
  TRACE_INFO "GPS  > Get time from RTC" [] ;;
  w <- gets (fun w => w) ;;
  extern rtcGetTime ;;
  ret (date_of_rtc (rtc_time (calls w))).

Definition setTime (date : ptime_t) : M unit :=
  TRACE_INFO "GPS  > Calibrate RTC" [] ;;
  extern (rtcSetTime (rtc_of_date date)).

End Rtc.

(** ** Specification *)

(** The length of month [m] of the calendar, and the days of the year before it
    (1 to 13). *)
Definition month_days (leap : bool) (m : Z) : Z :=
  if m =? 2 then (if leap then 29 else 28)
  else if (m =? 4) || (m =? 6) || (m =? 9) || (m =? 11) then 30 else 31.

Fixpoint months_days (leap : bool) (n : nat) : Z :=
  match n with
  | O => 0
  | S n' => months_days leap n' + month_days leap (Z.of_nat n)
  end.

Definition days_before (leap : bool) (m : Z) : Z := months_days leap (Z.to_nat (m - 1)).

(** The calendar of the source: every fourth year is a leap year. *)
Definition leap (y : Z) : bool := y mod 4 =? 0.

Definition cum (y m : Z) : Z := days_before (leap y) m.

Definition year_days (y : Z) : Z := if leap y then 366 else 365.

(** Days between 1 January 1970 and 1 January of year [y]. *)
Definition epoch_days (y : Z) : Z := 365 * (y - 1970) + ((y - 1) / 4 - 492).

Definition seconds_of (d : ptime_t) : Z :=
  (epoch_days (year d) + cum (year d) (month d) + (day d - 1)) * 86400
  + hour d * 3600 + minute d * 60 + second d.

(** A date of that calendar.  (It has a 29 February 2100, the Gregorian calendar
    has not.) *)
Definition valid_date (d : ptime_t) : Prop :=
  1970 <= year d /\ 1 <= month d <= 12 /\
  1 <= day d <= cum (year d) (month d + 1) - cum (year d) (month d) /\
  0 <= hour d <= 23 /\ 0 <= minute d <= 59 /\ 0 <= second d <= 59.

(** The lexicographic order of dates. *)
Definition date_key (d : ptime_t) : Z :=
  ((((year d * 13 + month d) * 32 + day d) * 24 + hour d) * 60 + minute d) * 60 + second d.

Definition date_lt (a b : ptime_t) : Prop := date_key a < date_key b.

(** The Gregorian calendar. *)
Definition greg_leap (y : Z) : bool :=
  (y mod 4 =? 0) && (negb (y mod 100 =? 0) || (y mod 400 =? 0)).

Fixpoint greg_years (n : nat) : Z :=
  match n with
  | O => 0
  | S n' => greg_years n' + (if greg_leap (1970 + Z.of_nat n') then 366 else 365)
  end.

Definition greg_date (d : ptime_t) : Prop :=
  1970 <= year d /\ 1 <= month d <= 12 /\ 1 <= day d <= month_days (greg_leap (year d)) (month d) /\
  0 <= hour d <= 23 /\ 0 <= minute d <= 59 /\ 0 <= second d <= 59.

(** The seconds from the beginning of 1970 to a date, days of 86400 seconds. *)
Definition greg_seconds (d : ptime_t) : Z :=
  (greg_years (Z.to_nat (year d - 1970)) + days_before (greg_leap (year d)) (month d) + (day d - 1)) * 86400
  + hour d * 3600 + minute d * 60 + second d.

(** ** Lemmas *)

Lemma leap_spec y : leap y = true /\ y mod 4 = 0 \/ leap y = false /\ y mod 4 <> 0.
Proof. unfold leap. destruct (Z.eqb_spec (y mod 4) 0); auto. Qed.

Lemma epoch_days_succ y : epoch_days (y + 1) = epoch_days y + year_days y.
Proof. unfold epoch_days, year_days. destruct (leap_spec y) as [[-> ?]|[-> ?]]; cbv iota; dlia. Qed.

Lemma epoch_days_mono a b : a <= b -> epoch_days a <= epoch_days b.
Proof. unfold epoch_days. intros. dlia. Qed.

Lemma months m : 1 <= m <= 12 ->
  m = 1 \/ m = 2 \/ m = 3 \/ m = 4 \/ m = 5 \/ m = 6 \/
  m = 7 \/ m = 8 \/ m = 9 \/ m = 10 \/ m = 11 \/ m = 12.
Proof. lia. Qed.

(** Evaluates the table look-ups at constant indices. *)
Ltac eval_tables :=
  repeat match goal with
         | |- context [days_before ?b ?m] =>
             let v := eval vm_compute in (days_before b m) in change (days_before b m) with v
         | H : context [days_before ?b ?m] |- _ =>
             let v := eval vm_compute in (days_before b m) in change (days_before b m) with v in H
         end.

Ltac each_month H :=
  apply months in H; repeat destruct H as [->|H]; [.. | subst].

Lemma cum_step y m : 1 <= m <= 12 ->
  0 <= cum y m < cum y (m + 1) /\ cum y (m + 1) <= year_days y /\
  cum y (m + 1) - cum y m <= 31.
Proof.
  intros H. unfold cum, year_days. destruct (leap y); each_month H; eval_tables; lia.
Qed.

Lemma cum_mono y k : forall m, 1 <= m -> m + Z.of_nat k <= 13 ->
  cum y m <= cum y (m + Z.of_nat k).
Proof.
  induction k as [|k IH]; intros m Hm Hk; [rewrite Z.add_0_r; lia|].
  rewrite Nat2Z.inj_succ in *.
  replace (m + Z.succ (Z.of_nat k)) with (m + Z.of_nat k + 1) by lia.
  pose proof (IH m Hm ltac:(lia)). pose proof (cum_step y (m + Z.of_nat k) ltac:(lia)). lia.
Qed.

Lemma cum_le y m m' : 1 <= m -> m <= m' <= 13 -> cum y m <= cum y m'.
Proof.
  intros. replace m' with (m + Z.of_nat (Z.to_nat (m' - m))) by lia. apply cum_mono; lia.
Qed.

(** The tables of the source hold the days before each month. *)
Lemma cum_get y m : 1 <= m <= 12 ->
  array_get (if y mod 4 =? 0 then leapYear else nonLeapYear) (m - 1) = Ok (cum y m).
Proof.
  intros H. unfold cum, leap. destruct (y mod 4 =? 0); each_month H; reflexivity.
Qed.

Lemma u32_add_l a b : u32 (u32 a + b) = u32 (a + b).
Proof. unfold u32, uwrap. apply Zplus_mod_idemp_l. Qed.

Lemma add_years_spec n : forall i t,
  add_years n i (u32 t) = u32 (t + 86400 * (epoch_days (i + Z.of_nat n) - epoch_days i)).
Proof.
  induction n as [|n IH]; intros i t; cbn [add_years].
  - f_equal. rewrite Z.add_0_r. lia.
  - rewrite u32_add_l, IH. f_equal. rewrite Nat2Z.inj_succ.
    replace (i + 1 + Z.of_nat n) with (i + Z.succ (Z.of_nat n)) by lia.
    pose proof (epoch_days_succ i) as E. unfold year_days, leap in E.
    destruct (i mod 4 =? 0); lia.
Qed.

(** The timestamp is the closed form, modulo 2^32. *)
Lemma date2UnixTimestamp_wraps d :
  1970 <= year d -> 1 <= month d <= 12 ->
  date2UnixTimestamp d = Ok (u32 (seconds_of d)).
Proof.
  intros Hy Hm. unfold date2UnixTimestamp. rewrite cum_get by lia. cbn [rbind].
  rewrite add_years_spec. repeat (rewrite <- ?Z.add_assoc; rewrite u32_add_l).
  do 2 f_equal. unfold seconds_of.
  replace (1970 + Z.of_nat (Z.to_nat (year d - 1970))) with (year d) by lia.
  change (epoch_days 1970) with 0. lia.
Qed.

Lemma seconds_of_year d : valid_date d ->
  86400 * epoch_days (year d) <= seconds_of d < 86400 * epoch_days (year d + 1).
Proof.
  unfold valid_date, seconds_of. intros (? & Hm & ? & ? & ? & ?).
  rewrite epoch_days_succ. pose proof (cum_step (year d) (month d) Hm). lia.
Qed.

(** Later dates have larger timestamps. *)
Lemma seconds_of_mono a b : valid_date a -> valid_date b -> date_lt a b ->
  seconds_of a < seconds_of b.
Proof.
  intros Ha Hb Hlt. pose proof (seconds_of_year a Ha). pose proof (seconds_of_year b Hb).
  destruct Ha as (? & Hma & Hda & ? & ? & ?), Hb as (? & Hmb & Hdb & ? & ? & ?).
  pose proof (cum_step (year a) (month a) Hma). pose proof (cum_step (year b) (month b) Hmb).
  unfold date_lt, date_key in Hlt.
  destruct (Z.lt_trichotomy (year a) (year b)) as [Hy|[Hy|Hy]]; [|rewrite Hy in *|exfalso; lia].
  - pose proof (epoch_days_mono (year a + 1) (year b)). lia.
  - unfold seconds_of in *. rewrite Hy in *.
    destruct (Z.lt_trichotomy (month a) (month b)) as [Hm|[Hm|Hm]]; [|rewrite Hm in *; lia|lia].
    pose proof (cum_le (year b) (month a + 1) (month b)). lia.
Qed.

Lemma seconds_of_inj a b : valid_date a -> valid_date b ->
  seconds_of a = seconds_of b -> a = b.
Proof.
  intros Ha Hb E.
  assert (date_key a = date_key b) as K.
  { destruct (Z.lt_trichotomy (date_key a) (date_key b)) as [L|[L|L]]; [|exact L|].
    - pose proof (seconds_of_mono a b Ha Hb L). lia.
    - pose proof (seconds_of_mono b a Hb Ha L). lia. }
  assert (forall d, valid_date d -> 1 <= day d <= 31) as D.
  { clear. intros d (? & Hm & Hd & _). pose proof (cum_step (year d) (month d) Hm). lia. }
  pose proof (D a Ha). pose proof (D b Hb). clear D E.
  destruct a as [y m dd h mi s], b as [y' m' dd' h' mi' s'].
  unfold date_key, valid_date in *. cbn in *.
  f_equal; lia.
Qed.

Lemma find_year_spec fuel : forall y time,
  1970 <= y -> 0 <= time -> time + 86400 * epoch_days y < 2 ^ 32 ->
  2106 - y < Z.of_nat fuel ->
  exists y' t', find_year fuel y time = Ok (y', t') /\ 1970 <= y' <= 2106 /\
    0 <= t' < 86400 * year_days y' /\
    t' + 86400 * epoch_days y' = time + 86400 * epoch_days y.
Proof.
  change (2 ^ 32) with 4294967296.
  induction fuel as [|n IH]; intros y time Hy Ht Hb Hf.
  { exfalso. unfold epoch_days in Hb. dlia. }
  assert (y <= 2106) as Hy2 by (unfold epoch_days in Hb; dlia).
  cbn [find_year]. pose proof (epoch_days_succ y) as E.
  replace (if y mod 4 =? 0 then 31622400 else 31536000) with (86400 * year_days y)
    by (unfold year_days, leap; now destruct (y mod 4 =? 0)).
  assert (365 <= year_days y <= 366) by (unfold year_days; destruct (leap y); lia).
  destruct (Z.leb_spec (86400 * year_days y) time) as [Hle|Hlt].
  - assert (y + 1 <= 2106) by (unfold epoch_days in *; dlia).
    replace (u16 (y + 1)) with (y + 1) by (symmetry; apply uwrap_small; in_range).
    assert (0 <= epoch_days y) by (unfold epoch_days; dlia).
    replace (u32 (time - 86400 * year_days y)) with (time - 86400 * year_days y)
      by (symmetry; apply uwrap_small; in_range).
    destruct (IH (y + 1) (time - 86400 * year_days y)) as (y' & t' & R & ? & ? & ?); try lia.
    exists y', t'. rewrite R. repeat split; try lia.
  - exists y, time. repeat split; try lia.
Qed.

Lemma find_month_spec y time :
  0 <= time < 86400 * year_days y ->
  exists m, find_month 13 y 1 time = Ok m /\ 1 <= m <= 12 /\
            86400 * cum y m <= time < 86400 * cum y (m + 1).
Proof.
  unfold year_days, cum, leap. intros H.
  destruct (y mod 4 =? 0) eqn:E; cbn [find_month]; rewrite E;
  repeat match goal with
         | |- context [rbind (array_get ?l ?m) _] =>
             let v := eval vm_compute in (array_get l m) in
             change (array_get l m) with v; cbn [rbind]
         | |- context [u32 (?d * 86400) <=? time] =>
             let v := eval vm_compute in (u32 (d * 86400)) in
             change (u32 (d * 86400)) with v; destruct (Z.leb_spec v time)
         | |- context [u8 (?a + 1)] =>
             let v := eval vm_compute in (u8 (a + 1)) in change (u8 (a + 1)) with v
         | |- exists m, Ok ?v = Ok m /\ _ => exists v; eval_tables; repeat split; lia
         end; exfalso; lia.
Qed.

Lemma unixTimestamp2Date_total t : 0 <= t < 2 ^ 32 ->
  exists d, unixTimestamp2Date t = Ok d /\ valid_date d /\ seconds_of d = t.
Proof.
  intros Ht. unfold unixTimestamp2Date.
  destruct (find_year_spec 138 1970 t) as (y & s & -> & Hy & Hs & E); try (cbn; lia).
  change (epoch_days 1970) with 0 in E. cbn [rbind].
  destruct (find_month_spec y s Hs) as (m & -> & Hm & Hms). cbn [rbind].
  rewrite cum_get by lia. cbn [rbind].
  pose proof (cum_step y m Hm) as Hc.
  assert (u32 (s - cum y m * 86400) = s - cum y m * 86400) as ->
    by (apply uwrap_small; unfold in_u; change (2 ^ 32) with 4294967296 in *;
        unfold year_days in *; destruct (leap y); lia).
  set (r := s - cum y m * 86400) in *.
  assert (0 <= r / 86400 < cum y (m + 1) - cum y m) by (subst r; dlia).
  eexists. split; [reflexivity|].
  unfold valid_date, seconds_of, u8. cbn [year month day hour minute second].
  rewrite !uwrap_small by in_range.
  repeat split; try lia; dlia.
Qed.

Lemma date2Unix_exact d : valid_date d -> seconds_of d < 2 ^ 32 ->
  date2UnixTimestamp d = Ok (seconds_of d).
Proof.
  intros Hv Hs. pose proof (seconds_of_year d Hv). pose proof Hv as (Hy & Hm & _).
  rewrite date2UnixTimestamp_wraps by lia. f_equal. apply uwrap_small.
  assert (0 <= epoch_days (year d)) by (unfold epoch_days; dlia).
  unfold in_u. lia.
Qed.

Lemma greg_years_julian n : (n <= 131)%nat ->
  greg_years n = if (n <=? 130)%nat then epoch_days (1970 + Z.of_nat n)
                 else epoch_days (1970 + Z.of_nat n) - 1.
Proof.
  intros H. do 132 (destruct n as [|n]; [reflexivity|]). lia.
Qed.

Lemma greg_leap_julian y : 1970 <= y <= 2099 -> greg_leap y = leap y.
Proof.
  intros H.
  assert (all_below 130 (fun x => Bool.eqb (greg_leap (1970 + x)) (leap (1970 + x))) = true)
    as E by (vm_compute; reflexivity).
  pose proof (all_below_spec _ _ E (y - 1970) ltac:(lia)) as B. cbv beta in B.
  apply Bool.eqb_prop in B. now replace (1970 + (y - 1970)) with y in B by lia.
Qed.

(** ** Theorems *)

(** The two calendars agree before 2100. *)
Lemma gregorian_date d : valid_date d -> year d <= 2099 -> greg_date d /\ greg_seconds d = seconds_of d.
Proof.
  intros (Hy0 & Hm & Hd & Ht) Hy. unfold greg_date, greg_seconds, seconds_of, cum in *.
  rewrite greg_leap_julian by lia. rewrite greg_years_julian by lia.
  destruct (Nat.leb_spec (Z.to_nat (year d - 1970)) 130); [|lia].
  replace (1970 + Z.of_nat (Z.to_nat (year d - 1970))) with (year d) by lia.
  split; [|reflexivity]. repeat (split; [lia || exact Hm|]).
  split; [|exact Ht]. unfold days_before in Hd.
  replace (Z.to_nat (month d + 1 - 1)) with (S (Z.to_nat (month d - 1))) in Hd by lia.
  cbn [months_days] in Hd. replace (Z.of_nat (S (Z.to_nat (month d - 1)))) with (month d) in Hd by lia. lia.
Qed.

(** C15: both conversions on all 32-bit timestamps.  The loops of
    unixTimestamp2Date end, no table is indexed outside its bounds, and
    date2UnixTimestamp maps the date back to the timestamp.  For every timestamp
    before the year 2100, to which the source limits itself, the date is the
    Gregorian one: a date that exists, as many seconds after the beginning of 1970
    as the timestamp says. *)
Theorem timestamp_roundtrip t : 0 <= t < 2 ^ 32 ->
  exists d, unixTimestamp2Date t = Ok d /\ date2UnixTimestamp d = Ok t /\
    (t < 4102444800 -> greg_date d /\ greg_seconds d = t) /\
    greg_seconds (mk_ptime 2100 1 1 0 0 0) = 4102444800.
Proof.
  intros Ht. destruct (unixTimestamp2Date_total t Ht) as (d & Hd & Hv & Hs).
  exists d. split; [exact Hd|]. split; [rewrite date2Unix_exact; rewrite ?Hs; auto; lia|].
  split; [|vm_compute; reflexivity]. intros Lt. rewrite <- Hs. apply gregorian_date; [exact Hv|].
  pose proof (seconds_of_year d Hv) as [Lo _]. rewrite Hs in Lo.
  destruct (Z_le_gt_dec (year d) 2099) as [|G]; [assumption|].
  pose proof (epoch_days_mono 2100 (year d) ltac:(lia)) as M. change (epoch_days 2100) with 47482 in M. lia.
Qed.

Lemma timestamp_roundtrip_witness :
  exists d, unixTimestamp2Date 1542672000 = Ok d /\ date2UnixTimestamp d = Ok 1542672000 /\
    greg_date d /\ greg_seconds d = 1542672000.
Proof.
  destruct (timestamp_roundtrip 1542672000 ltac:(lia)) as (d & E & R & G & _). exists d.
  split; [exact E|]. split; [exact R|]. apply G. lia.
Defined.

(** A date of the calendar with a leap year in every fourth year whose timestamp
    fits 32 bits (any date before 7 February 2106) is converted to the seconds since 1970 without overflow, and
    unixTimestamp2Date gives exactly that date back. *)
Theorem date_roundtrip d : valid_date d -> seconds_of d < 2 ^ 32 ->
  date2UnixTimestamp d = Ok (seconds_of d) /\ unixTimestamp2Date (seconds_of d) = Ok d.
Proof.
  intros Hv Hs. split; [now apply date2Unix_exact|].
  pose proof (seconds_of_year d Hv). pose proof Hv as (Hy & _).
  assert (0 <= epoch_days (year d)) by (unfold epoch_days; dlia).
  destruct (unixTimestamp2Date_total (seconds_of d)) as (d' & E & Hv' & Hs'); [lia|].
  rewrite E. f_equal. now apply seconds_of_inj.
Qed.

Definition launch : ptime_t := mk_ptime 2018 11 20 0 0 0.

(** On valid dates that fit 32 bits, date2UnixTimestamp is strictly monotone
    for the calendar order, so comparing timestamps is comparing dates. *)
Lemma date2Unix_monotone a b ta tb :
  valid_date a -> valid_date b -> seconds_of a < 2 ^ 32 -> seconds_of b < 2 ^ 32 ->
  date2UnixTimestamp a = Ok ta -> date2UnixTimestamp b = Ok tb ->
  (ta < tb <-> date_lt a b).
Proof.
  intros Ha Hb Fa Fb Ea Eb. rewrite date2Unix_exact in Ea, Eb by assumption.
  injection Ea as <-. injection Eb as <-. split; [|now apply seconds_of_mono].
  intros L. destruct (Z.lt_trichotomy (date_key a) (date_key b)) as [K|[K|K]]; [exact K|..];
    exfalso.
  - enough (a = b) by (subst; lia). clear L.
    destruct a, b; unfold date_key, valid_date in *; cbn in *.
    pose proof (cum_step year0 month0 ltac:(lia)). pose proof (cum_step year1 month1 ltac:(lia)).
    f_equal; lia.
  - pose proof (seconds_of_mono b a Hb Ha K). lia.
Qed.


(** Up to the end of 2099 the timestamp is the one of the Gregorian calendar
    (the leap-year rule of the code first differs in 2100, as the comment of the
    source says). *)
Theorem date2Unix_gregorian d : valid_date d -> year d <= 2099 ->
  date2UnixTimestamp d = Ok (greg_seconds d).
Proof.
  intros Hv Hy. pose proof (seconds_of_year d Hv).
  assert (epoch_days (year d + 1) <= 47482) by (unfold epoch_days; dlia).
  rewrite date2Unix_exact by (change (2 ^ 32) with 4294967296; auto; lia).
  now rewrite (proj2 (gregorian_date d Hv Hy)).
Qed.

Section RtcFacts.
Context {RD : RtcDriver} {RL : RtcLaws} {FM : Formatter} {TI : SysTimer}.

(** Tracing does not set the clock. *)
Lemma rtc_last_set_app cs h : forallb trace_call cs = true -> rtc_last_set (cs ++ h) = rtc_last_set h.
Proof.
  induction cs as [|c cs IH]; cbn; [reflexivity|]. intros F. apply andb_prop in F as [Fc F].
  destruct c; try discriminate; auto.
Qed.

(** Setting the RTC with a valid date of the 256 years from its base year on
    and reading it back gives that date: the packing into milliseconds of the
    day and the driver's fields loses nothing. *)
Theorem rtc_roundtrip d w :
  valid_date d -> RTC_BASE_YEAR <= year d < RTC_BASE_YEAR + 256 ->
  exists w', (setTime d ;; getTime) w = Ok (d, w').
Proof.
  intros (? & Hm & Hd & ? & ? & ?) Hy. pose proof rtc_base_range as Hb.
  pose proof (cum_step (year d) (month d) Hm).
  enough (wp (setTime d ;; getTime) (fun p _ => p = d) w) as W
    by (apply wp_ok in W as (p & w' & E & ->); eauto).
  unfold setTime, getTime, TRACE_INFO, extern. wp_norm. wp_use wp_trace_at.
  intros _ w1 _. wp_norm. wp_use wp_trace_at. intros _ w2 (cs & -> & T & _). wp_norm.
  cbn [calls set_calls].
  rewrite (rtc_reports _ (rtc_of_date d)) by 
    (rewrite rtc_last_set_app by exact T; reflexivity).
  unfold rtc_of_date. rewrite rtc_fields_fit by (cbn; lia).
  unfold date_of_rtc. cbn [rtc_year rtc_month rtc_day rtc_millisecond].
  unfold u8, u16. rewrite !uwrap_small by in_range.
  destruct d as [y m dd h mi s]; cbn in *. f_equal; dlia.
Qed.

End RtcFacts.

(** A driver with the documented field widths and a clock that stands still. *)
Definition still_clock : RtcDriver := {|
  RTC_BASE_YEAR := 1980;
  rtc_time h := match rtc_last_set h with
                | Some t => t
                | None => Build_RTCDateTime 0 1 1 0
                end;
  rtc_fields t := Build_RTCDateTime (rtc_year t mod 256) (rtc_month t mod 16)
                                    (rtc_day t mod 32) (rtc_millisecond t mod 2 ^ 27) |}.

Lemma still_clock_laws : @RtcLaws still_clock.
Proof.
  split; cbn.
  - lia.
  - intros [y m d ms]; cbn. intros. rewrite !Z.mod_small by lia. reflexivity.
  - intros h t ->. reflexivity.
Defined.

