(* ===== verification/Sensors.v ===== *)
(** * tmp100.c, ltr329.c, mpu9250.c: the small I2C sensors

    One module per driver.  The theorems are proved against the interface
    [RegisterBus] of Pi2c, for the bytes the addressed slave delivers. *)

From Stdlib Require Import ZArith Bool String List Lia.
From S2P Require Import Prelude Machine Pi2c.
Import ListNotations.
Local Open Scope Z_scope.
Local Open Scope fw_scope.

(** ** TMP100 temperature sensor *)

Module Tmp100.

Definition TMP100_ADDR := 0x48.

Definition TMP100_TEMP_REG := 0x00.

Definition TMP100_CONTR_REG := 0x01.

Definition TMP100_CONSECUTIVE_FAULTS_6 := 0x18.

Definition TMP100_RESOLUTION_12_BIT := 0x60.

Section Driver.
Context `{I2cDriver} `{StackMemory}.

Definition tmp100_address (id : Z) : Z := Z.lor TMP100_ADDR (Z.land id 0x07).

Definition tmp100_get_temperature (id : Z) : M Z :=
  '(ok, val) <- I2C_read16 (tmp100_address id) TMP100_TEMP_REG ;;
  if negb ok then ret 0
  else ret (s16 (Z.quot (Z.shiftr val 4 * 25) 4)).

Definition tmp100_isAvailable (id : Z) : M bool :=
  '(ok, _) <- I2C_read8 (tmp100_address id) TMP100_CONTR_REG ;;
  if (ok : bool) then ret true else ret false.

Definition tmp100_init (id : Z) : M unit :=
  I2C_write8 (tmp100_address id) TMP100_CONTR_REG
    (Z.lor TMP100_CONSECUTIVE_FAULTS_6 TMP100_RESOLUTION_12_BIT) ;;
  ret tt.

End Driver.

(** What the sensor means by the two bytes of its temperature register: a
    12-bit two's complement number of sixteenths of a degree. *)
Definition sixteenths (raw : Z) : Z := swrap 12 (Z.shiftr raw 4).

(** What the driver makes of them: hundredths of a degree. *)
Definition tmp100_reading (f : Z -> nat -> Z) : Z :=
  let raw := f TMP100_TEMP_REG 0%nat * 256 + f TMP100_TEMP_REG 1%nat in
  25 * sixteenths raw / 4 + (if sixteenths raw <? 0 then 25600 else 0).

(** The temperature in hundredths of a degree, rounded down. *)
Definition tmp100_degrees (f : Z -> nat -> Z) : Z :=
  25 * sixteenths (f TMP100_TEMP_REG 0%nat * 256 + f TMP100_TEMP_REG 1%nat) / 4.

Lemma reading_degrees f : tmp100_reading f = tmp100_degrees f + (if tmp100_degrees f <? 0 then 25600 else 0).
Proof.
  unfold tmp100_reading, tmp100_degrees. cbv zeta. set (x := sixteenths _).
  destruct (Z.ltb_spec x 0), (Z.ltb_spec (25 * x / 4) 0); dlia.
Qed.

Lemma conversion raw : in_u 16 raw ->
  s16 (Z.quot (Z.shiftr raw 4 * 25) 4) =
  25 * sixteenths raw / 4 + (if sixteenths raw <? 0 then 25600 else 0).
Proof.
  unfold in_u. change (2 ^ 16) with 65536. intros Hr. unfold sixteenths.
  rewrite Z.shiftr_div_pow2 by lia. change (2 ^ 4) with 16.
  assert (0 <= raw / 16 < 4096) as Hq by dlia. set (q := raw / 16) in *.
  rewrite Z.quot_div_nonneg by lia.
  unfold s16. rewrite swrap_small by in_range.
  rewrite swrap_of_u by in_range.
  change (2 ^ (12 - 1)) with 2048. change (2 ^ 12) with 4096.
  destruct (Z.ltb_spec q 2048).
  - destruct (Z.ltb_spec q 0); [lia|]. rewrite Z.add_0_r. f_equal. lia.
  - destruct (Z.ltb_spec (q - 4096) 0); [|lia]. dlia.
Qed.

Section Facts.
Context `{BUS : RegisterBus}.

Lemma wp_get_temperature id w :
  wp (tmp100_get_temperature id)
     (fun t w' => quiet w w' /\
        t = match slave (tmp100_address id) with
            | Some f => tmp100_reading f
            | None => 0
            end) w.
Proof.
  unfold tmp100_get_temperature. wp_norm. wp_use bus_read16.
  intros [ok val] w' [Hq Hv]. destruct (slave (tmp100_address id)) as [f|] eqn:E.
  - injection Hv as -> ->. cbn [negb]. rewrite wp_ret. split; [exact Hq|].
    apply conversion.
    pose proof (bus_bytes _ f TMP100_TEMP_REG 0 E) as B0.
    pose proof (bus_bytes _ f TMP100_TEMP_REG 1 E) as B1.
    in_range.
  - cbn in Hv. subst ok. cbn [negb]. rewrite wp_ret. auto.
Qed.

Lemma wp_tmp100_isAvailable id w :
  wp (tmp100_isAvailable id)
     (fun b w' => quiet w w' /\
        b = match slave (tmp100_address id) with Some _ => true | None => false end) w.
Proof.
  unfold tmp100_isAvailable. wp_norm. wp_use bus_read8.
  intros [ok val] w' [Hq Hv]. destruct (slave (tmp100_address id)).
  - injection Hv as -> ->. now split.
  - destruct Hv as [Hv _]. cbn in Hv. subst ok. now split.
Qed.

Lemma wp_tmp100_init id w : wp (tmp100_init id) (fun _ w' => quiet w w') w.
Proof.
  unfold tmp100_init. wp_norm. wp_use bus_write8. intros r w' Hq. exact Hq.
Qed.

(** C40: tmp100_get_temperature on a sensor that answers.  For every temperature
    at or above zero the driver returns the sensor's sixteenths of a degree as
    hundredths, rounded down; for every temperature below zero, whose register
    is not sign extended, it returns a value exactly 256 degrees too high. *)
Theorem tmp100_temperature_spec id f w :
  slave (tmp100_address id) = Some f ->
  exists w', tmp100_get_temperature id w = Ok (tmp100_reading f, w') /\ quiet w w' /\
    0 <= tmp100_reading f < 25600.
Proof.
  intros E. pose proof (wp_get_temperature id w) as W. rewrite E in W.
  apply wp_ok in W as (t & w' & R & Hq & ->). exists w'. repeat split; try apply Hq; try exact R.
  all: unfold tmp100_reading; pose proof (swrap_range 12
         (Z.shiftr (f TMP100_TEMP_REG 0%nat * 256 + f TMP100_TEMP_REG 1%nat) 4) ltac:(lia)) as S;
    fold (sixteenths (f TMP100_TEMP_REG 0%nat * 256 + f TMP100_TEMP_REG 1%nat)) in S;
    unfold in_s in S; change (2 ^ (12 - 1)) with 2048 in S;
    destruct (Z.ltb_spec (sixteenths (f TMP100_TEMP_REG 0%nat * 256 + f TMP100_TEMP_REG 1%nat)) 0);
    dlia.
Qed.

End Facts.

Lemma tmp100_temperature_spec_witness :
  let sl := only_slave 0x4A (two_bytes 0x19 0x10) in
  exists w', @tmp100_get_temperature (bus_of sl) (stack_of 0) 2 reset_world = Ok (2506, w') /\
    quiet reset_world w' /\ 0 <= 2506 < 25600.
Proof.
  apply (@tmp100_temperature_spec _ _ _ (only_slave_bus 0x4A 0x19 0x10) 2
           (two_bytes 0x19 0x10) reset_world eq_refl).
Defined.

(** Minus one sixteenth of a degree reads as 255.93 degrees. *)
Example tmp100_below_zero : tmp100_reading (two_bytes 0xFF 0xF0) = 25593.
Proof. reflexivity. Qed.

End Tmp100.

(** ** LTR-329ALS ambient light sensor *)

Module Ltr329.

Definition LTR329_ADDR := 0x29.

Definition LTR329_CONTR_REG := 0x80.

Definition LTR329_MEAS_RATE_REG := 0x85.

Definition LTR329_MANUFAC_ID := 0x87.

Definition LTR329_DATA_CH1_LOW := 0x88.

Definition LTR329_DATA_CH0_LOW := 0x8A.

Definition LTR329_ACTIVE := 0x01.

Definition LTR329_GAIN_1X := Z.shiftl 0x00 2.

Definition LTR329_INT_400 := Z.shiftl 0x03 3.

Definition LTR329_RATE_500 := 0x03.

Section Driver.
Context `{I2cDriver} `{StackMemory}.

(** [error |= x]. *)
Definition or_error (x : Z) : M unit :=
  modify (fun w => set_ltr329_error (u8 (Z.lor (ltr329_error w) x)) w).

(** [(val>>8 & 0xFF) | (val & 0xFF)<<8], returned as int16_t. *)
Definition swap_bytes (val : Z) : Z :=
  s16 (Z.lor (Z.land (Z.shiftr val 8) 0xFF) (Z.shiftl (Z.land val 0xFF) 8)).

Definition ltr329_get_intensity_ch0 : M Z :=
  '(ok, val) <- I2C_read16 LTR329_ADDR LTR329_DATA_CH0_LOW ;;
  if negb ok then or_error 0x1 ;; ret 0
  else ret (swap_bytes val).

Definition ltr329_get_intensity_ch1 : M Z :=
  '(ok, val) <- I2C_read16 LTR329_ADDR LTR329_DATA_CH1_LOW ;;
  if negb ok then or_error 0x1 ;; ret 0
  else ret (swap_bytes val).

Definition ltr329_isAvailable : M bool :=
  '(ok, val) <- I2C_read8 LTR329_ADDR LTR329_MANUFAC_ID ;;
  if (ok : bool) then
    or_error (if val =? 0x05 then 0 else 1) ;;
    ret (val =? 0x05)
  else
    or_error 0x1 ;;
    ret false.

Definition ltr329_init : M unit :=
  I2C_write8 LTR329_ADDR LTR329_CONTR_REG (Z.lor LTR329_GAIN_1X LTR329_ACTIVE) ;;
  I2C_write8 LTR329_ADDR LTR329_MEAS_RATE_REG (Z.lor LTR329_INT_400 LTR329_RATE_500) ;;
  extern (chThdSleep 10).

Definition ltr329_hasError : M Z :=
  w <- gets (fun w => w) ;;
  modify (set_ltr329_error 0x0) ;;
  ret (ltr329_error w).

End Driver.

(** The count of a channel: low byte first. *)
Definition channel (f : Z -> nat -> Z) (reg : Z) : Z := f reg 1%nat * 256 + f reg 0%nat.

Lemma swap_bytes_spec hi lo : is_byte hi -> is_byte lo ->
  u16 (swap_bytes (hi * 256 + lo)) = lo * 256 + hi.
Proof.
  unfold is_byte, in_u. change (2 ^ 8) with 256. intros Hh Hl.
  unfold swap_bytes. rewrite Z.lor_comm, !land_255, Z.shiftr_div_pow2 by lia.
  change (2 ^ 8) with 256.
  replace ((hi * 256 + lo) / 256 mod 256) with hi by dlia.
  replace ((hi * 256 + lo) mod 256) with lo by dlia.
  rewrite lor_shift8 by (unfold is_byte, in_u; cbn; lia).
  unfold u16, s16. rewrite uwrap_swrap by lia.
  apply uwrap_small. in_range.
Qed.

Section Facts.
Context `{BUS : RegisterBus}.

(** Quiet but for the driver's own error flag. *)
Definition quiet_ltr329 (w w' : world) : Prop :=
  quiet (set_ltr329_error (ltr329_error w') w) w'.

Lemma quiet_to_ltr329 w w' : quiet w w' -> quiet_ltr329 w w'.
Proof. intros []. split; cbn; congruence. Qed.

(** Reading a channel: the count the sensor holds, as the collector stores it
    (a uint16_t), or zero and the error flag. *)
Lemma wp_channel reg (w : world) :
  wp ('(ok, val) <- I2C_read16 LTR329_ADDR reg ;;
      if negb ok then or_error 0x1 ;; ret 0 else ret (swap_bytes val))
     (fun v w' => quiet_ltr329 w w' /\
        match slave LTR329_ADDR with
        | Some f => u16 v = channel f reg /\ ltr329_error w' = ltr329_error w
        | None => v = 0 /\ ltr329_error w' = u8 (Z.lor (ltr329_error w) 1)
        end) w.
Proof.
  wp_norm. wp_use bus_read16. intros [ok val] w' [Hq Hv].
  destruct (slave LTR329_ADDR) as [f|] eqn:E.
  - injection Hv as -> ->. cbn [negb]. rewrite wp_ret.
    repeat split; try (destruct Hq; cbn; congruence).
    apply swap_bytes_spec; eauto using bus_bytes.
  - cbn in Hv. subst ok. cbn [negb]. unfold or_error. wp_norm.
    destruct Hq. repeat split; cbn; congruence.
Qed.

Lemma wp_ltr329_isAvailable w :
  wp ltr329_isAvailable
     (fun b w' => quiet_ltr329 w w' /\
        match slave LTR329_ADDR with
        | Some f => b = (f LTR329_MANUFAC_ID 0%nat =? 5)
        | None => b = false
        end /\
        ltr329_error w' = u8 (Z.lor (ltr329_error w) (if b then 0 else 1))) w.
Proof.
  unfold ltr329_isAvailable. wp_norm. wp_use bus_read8. intros [ok val] w' [Hq Hv].
  destruct (slave LTR329_ADDR) as [f|] eqn:E.
  - injection Hv as -> ->. unfold or_error. wp_norm. destruct Hq.
    repeat split; cbn; congruence.
  - destruct Hv as [Hv _]. cbn in Hv. subst ok. unfold or_error. wp_norm. destruct Hq.
    repeat split; cbn; congruence.
Qed.

Lemma wp_ltr329_init w : wp ltr329_init (fun _ w' => quiet w w') w.
Proof.
  unfold ltr329_init. wp_norm. wp_use bus_write8. intros r w1 Q1.
  wp_norm. wp_use bus_write8. intros r' w2 Q2. unfold extern. wp_norm.
  transitivity w1; [exact Q1|]. transitivity w2; [exact Q2|]. quiet_done.
Qed.

(** The two channels of the light sensor.  When the sensor answers, what is
    stored in the uint16_t field of a data point is the channel's 16-bit count,
    low byte first, for every count (the detour over int16_t loses nothing) and
    the error flag is untouched; when it does not, the value is 0 and the flag's
    bit 0 is set. *)
Lemma ltr329_channels_spec w :
  let read (m : M Z) reg :=
    exists v w', m w = Ok (v, w') /\ quiet_ltr329 w w' /\
      match slave LTR329_ADDR with
      | Some f => u16 v = channel f reg /\ ltr329_error w' = ltr329_error w
      | None => v = 0 /\ Z.odd (ltr329_error w') = true
      end in
  read ltr329_get_intensity_ch0 LTR329_DATA_CH0_LOW /\
  read ltr329_get_intensity_ch1 LTR329_DATA_CH1_LOW.
Proof.
  assert (forall x, Z.odd (u8 (Z.lor x 1)) = true) as Odd.
  { intros x. unfold u8, uwrap. rewrite <- Z.bit0_odd, Z.mod_pow2_bits_low by lia.
    rewrite Z.lor_spec. apply orb_true_r. }
  enough (forall (m : M Z) reg,
    wp m (fun v w' => quiet_ltr329 w w' /\
        match slave LTR329_ADDR with
        | Some f => u16 v = channel f reg /\ ltr329_error w' = ltr329_error w
        | None => v = 0 /\ ltr329_error w' = u8 (Z.lor (ltr329_error w) 1)
        end) w ->
    exists v w', m w = Ok (v, w') /\ quiet_ltr329 w w' /\
      match slave LTR329_ADDR with
      | Some f => u16 v = channel f reg /\ ltr329_error w' = ltr329_error w
      | None => v = 0 /\ Z.odd (ltr329_error w') = true
      end) as R
    by (split; apply R; apply wp_channel).
  intros m reg W. apply wp_ok in W as (v & w' & R & Hq & Hv).
  exists v, w'. repeat (split; [assumption|]).
  destruct (slave LTR329_ADDR); [exact Hv|]. destruct Hv as [-> ->]. auto.
Qed.

End Facts.

End Ltr329.

(** ** MPU-9250 accelerometer *)

Module Mpu9250.

Definition MPU9250_ADDR := 0x68.

Definition MPU9250_WHO_AM_I := 0x75.

Definition MPU9250_ACCEL_XOUT_H := 0x3b.

Definition MPU9250_ACCEL_YOUT_H := 0x3d.

Definition MPU9250_ACCEL_ZOUT_H := 0x3f.

Section Driver.
Context `{I2cDriver} `{StackMemory}.

Definition or_mpu_error (x : Z) : M unit :=
  modify (fun w => set_mpu9250_error (u8 (Z.lor (mpu9250_error w) x)) w).

(** [(int16_t)val*1000/16384], through an int32_t, as int16_t. *)
Definition milli_g (val : Z) : result Z :=
  val2 <=! i32 (s16 val * 1000) ;;
  Ok (s16 (Z.quot val2 16384)).

Definition mpu9250_get_x : M Z :=
  '(ok, val) <- I2C_read16 MPU9250_ADDR MPU9250_ACCEL_XOUT_H ;;
  if negb ok then or_mpu_error 0x1 ;; ret 0
  else lift (milli_g val).

Definition mpu9250_get_y : M Z :=
  '(ok, val) <- I2C_read16 MPU9250_ADDR MPU9250_ACCEL_YOUT_H ;;
  if negb ok then or_mpu_error 0x1 ;; ret 0
  else lift (milli_g val).

Definition mpu9250_get_z : M Z :=
  '(ok, val) <- I2C_read16 MPU9250_ADDR MPU9250_ACCEL_ZOUT_H ;;
  if negb ok then or_mpu_error 0x1 ;; ret 0
  else lift (milli_g val).

Definition mpu9250_isAvailable : M bool :=
  '(ok, val) <- I2C_read8 MPU9250_ADDR MPU9250_WHO_AM_I ;;
  if (ok : bool) then
    or_mpu_error (if val =? 0x71 then 0 else 1) ;;
    ret (val =? 0x71)
  else
    or_mpu_error 0x1 ;;
    ret false.

Definition mpu9250_init : M unit := ret tt.

Definition mpu9250_hasError : M Z :=
  w <- gets (fun w => w) ;;
  modify (set_mpu9250_error 0x0) ;;
  ret (mpu9250_error w).

End Driver.

(** The acceleration a register pair holds, in the sensor's units (1/16384 g). *)
Definition axis (f : Z -> nat -> Z) (reg : Z) : Z := s16 (f reg 0%nat * 256 + f reg 1%nat).

Lemma milli_g_spec raw : milli_g raw = Ok (Z.quot (s16 raw * 1000) 16384).
Proof.
  unfold milli_g. pose proof (swrap_range 16 raw ltac:(lia)) as H.
  fold (s16 raw) in H. unfold in_s in H. change (2 ^ (16 - 1)) with 32768 in H.
  i32_step. f_equal. apply swrap_small; [lia|].
  unfold in_s. change (2 ^ (16 - 1)) with 32768.
  pose proof (Z.quot_rem' (s16 raw * 1000) 16384) as E.
  pose proof (Z.rem_bound_abs (s16 raw * 1000) 16384 ltac:(lia)). lia.
Qed.

Section Facts.
Context `{BUS : RegisterBus}.

Definition quiet_mpu9250 (w w' : world) : Prop :=
  quiet (set_mpu9250_error (mpu9250_error w') w) w'.

Lemma wp_axis reg (w : world) :
  wp ('(ok, val) <- I2C_read16 MPU9250_ADDR reg ;;
      if negb ok then or_mpu_error 0x1 ;; ret 0 else lift (milli_g val))
     (fun v w' => quiet_mpu9250 w w' /\
        match slave MPU9250_ADDR with
        | Some f => v = Z.quot (axis f reg * 1000) 16384 /\ mpu9250_error w' = mpu9250_error w
        | None => v = 0 /\ mpu9250_error w' = u8 (Z.lor (mpu9250_error w) 1)
        end) w.
Proof.
  wp_norm. wp_use bus_read16. intros [ok val] w' [Hq Hv].
  destruct (slave MPU9250_ADDR) as [f|] eqn:E.
  - injection Hv as -> ->. cbn [negb]. eapply wp_lift; [apply milli_g_spec|].
    repeat split; destruct Hq; cbn; congruence.
  - cbn in Hv. subst ok. cbn [negb]. unfold or_mpu_error. wp_norm.
    destruct Hq. repeat split; cbn; congruence.
Qed.

Lemma wp_mpu9250_isAvailable w :
  wp mpu9250_isAvailable
     (fun b w' => quiet_mpu9250 w w' /\
        match slave MPU9250_ADDR with
        | Some f => b = (f MPU9250_WHO_AM_I 0%nat =? 0x71)
        | None => b = false
        end /\
        mpu9250_error w' = u8 (Z.lor (mpu9250_error w) (if b then 0 else 1))) w.
Proof.
  unfold mpu9250_isAvailable. wp_norm. wp_use bus_read8. intros [ok val] w' [Hq Hv].
  destruct (slave MPU9250_ADDR) as [f|] eqn:E.
  - injection Hv as -> ->. unfold or_mpu_error. wp_norm. destruct Hq.
    repeat split; cbn; congruence.
  - destruct Hv as [Hv _]. cbn in Hv. subst ok. unfold or_mpu_error. wp_norm. destruct Hq.
    repeat split; cbn; congruence.
Qed.

(** An accelerometer axis.  The driver never overflows; on a sensor that
    answers it returns the signed reading scaled to thousandths of g, truncated
    toward zero: within one unit of the exact value and never beyond 2 g. *)
Theorem mpu9250_axes_spec f w :
  slave MPU9250_ADDR = Some f ->
  let read (m : M Z) reg :=
    exists v w', m w = Ok (v, w') /\ quiet_mpu9250 w w' /\
      mpu9250_error w' = mpu9250_error w /\
      Z.abs (16384 * v - 1000 * axis f reg) < 16384 /\
      Z.abs (16384 * v) <= Z.abs (1000 * axis f reg) /\ -2000 <= v < 2000 in
  read mpu9250_get_x MPU9250_ACCEL_XOUT_H /\
  read mpu9250_get_y MPU9250_ACCEL_YOUT_H /\
  read mpu9250_get_z MPU9250_ACCEL_ZOUT_H.
Proof.
  intros E.
  enough (forall (m : M Z) reg,
    wp m (fun v w' => quiet_mpu9250 w w' /\ v = Z.quot (axis f reg * 1000) 16384 /\
                      mpu9250_error w' = mpu9250_error w) w ->
    exists v w', m w = Ok (v, w') /\ quiet_mpu9250 w w' /\
      mpu9250_error w' = mpu9250_error w /\
      Z.abs (16384 * v - 1000 * axis f reg) < 16384 /\
      Z.abs (16384 * v) <= Z.abs (1000 * axis f reg) /\ -2000 <= v < 2000) as R.
  { repeat split; apply R.
    - pose proof (wp_axis MPU9250_ACCEL_XOUT_H w) as W. rewrite E in W. exact W.
    - pose proof (wp_axis MPU9250_ACCEL_YOUT_H w) as W. rewrite E in W. exact W.
    - pose proof (wp_axis MPU9250_ACCEL_ZOUT_H w) as W. rewrite E in W. exact W. }
  intros m reg W. apply wp_ok in W as (v & w' & R & Hq & Hv & Hm).
  exists v, w'. repeat (split; [assumption|]).
  pose proof (swrap_range 16 (f reg 0%nat * 256 + f reg 1%nat) ltac:(lia)) as B.
  change (swrap 16 _) with (axis f reg) in B. unfold in_s in B.
  change (2 ^ (16 - 1)) with 32768 in B.
  pose proof (Z.quot_rem' (axis f reg * 1000) 16384) as Q. rewrite <- Hv in Q.
  destruct (Z.le_gt_cases 0 (axis f reg)).
  - pose proof (Z.rem_bound_pos (axis f reg * 1000) 16384 ltac:(lia) ltac:(lia)). lia.
  - pose proof (Z.rem_bound_pos_neg (axis f reg * 1000) 16384 ltac:(lia) ltac:(lia)). lia.
Qed.

End Facts.

End Mpu9250.
