(* ===== verification/Padc.v ===== *)
(** * padc.c: battery voltage and chip temperature from the ADC *)

From Stdlib Require Import ZArith Bool String List Lia.
From S2P Require Import Prelude Machine.
Import ListNotations.
Local Open Scope Z_scope.
Local Open Scope fw_scope.

Definition VCC_REF := 3300.

Definition DIVIDER_VIN := 10.

Section Driver.
Context `{AdcDriver}.

Definition initADC : M unit :=
  extern adcStart ;;
  extern adcSTM32EnableTSVREFE ;;
  extern (palSetLineMode LINE_ADC_VIN PAL_MODE_INPUT_ANALOG).

Definition deinitADC : M unit := extern adcStop.

(** The conversion fills [samples] while the thread sleeps. *)
Definition doConversion : M unit :=
  initADC ;;
  extern adcStartConversion ;;
  w <- gets (fun w => w) ;;
  extern (chThdSleep 50) ;;
  modify (set_samples (adc_convert (calls w) (samples w))) ;;
  deinitADC.

Definition stm32_get_vsol : M Z := ret 0.

Definition stm32_get_vusb : M Z := ret 0.

Definition stm32_get_vbat : M Z :=
  doConversion ;;
  w <- gets (fun w => w) ;;
  lift (s <=! array_get (samples w) 1 ;;
        a <=! i32 (s * VCC_REF) ;;
        b <=! i32 (a * DIVIDER_VIN) ;;
        Ok (u16 (Z.quot b 4096))).

Definition stm32_get_temp : M Z :=
  doConversion ;;
  w <- gets (fun w => w) ;;
  lift (s <=! array_get (samples w) 3 ;;
        a <=! i32 (s * 40) ;;
        b <=! i32 (a * VCC_REF) ;;
        c <=! i32 (Z.quot b 4096 - 30400) ;;
        d <=! i32 (c + 2500) ;;
        Ok (u16 d)).

End Driver.

(** What a conversion may change: the history (not the I2C bus) and [samples]. *)
Definition adc_frame (w w' : world) : Prop :=
  exists cs, w' = set_samples (samples w') (set_calls (cs ++ calls w) w) /\
             bus_held (cs ++ calls w) = bus_held (calls w).

Section Facts.
Context `{AdcLaws}.

Definition sample (w : world) (i : nat) : Z := nth i (samples w) 0.

Lemma wp_doConversion w :
  wp doConversion
     (fun _ w' => adc_frame w w' /\
        (forall i, (i < 4)%nat -> array_get (samples w') (Z.of_nat i) = Ok (sample w' i) /\
                                  in_u 12 (sample w' i))) w.
Proof.
  unfold doConversion, initADC, deinitADC, extern. wp_norm. cbn [calls set_calls samples set_samples].
  set (s := adc_convert _ _). split.
  - eexists (_ :: _ :: _ :: _ :: _ :: _ :: []). split; reflexivity.
  - intros i Hi. assert (length s = 4%nat) as L by apply adc_length.
    assert (Forall (in_u 12) s) as R by apply adc_range.
    unfold sample. cbn [samples set_samples set_calls]. fold s.
    destruct (nth_error s i) as [x|] eqn:E.
    + rewrite (nth_error_nth s i 0 E). split.
      * apply array_get_ok; [lia | now rewrite Nat2Z.id].
      * eapply Forall_forall; [exact R | eapply nth_error_In, E].
    + apply nth_error_None in E. lia.
Qed.

Lemma wp_vbat w :
  wp stm32_get_vbat (fun v w' => adc_frame w w' /\ v = 33000 * sample w' 1 / 4096 /\
                                 in_u 12 (sample w' 1)) w.
Proof.
  unfold stm32_get_vbat. wp_norm. wp_use wp_doConversion.
  intros _ w' [Hf Hs]. wp_norm. destruct (Hs 1%nat) as [E R]; [lia|].
  pose proof R as R'. change (Z.of_nat 1) with 1 in E. unfold in_u in R'.
  change (2 ^ 12) with 4096 in R'. unfold VCC_REF, DIVIDER_VIN. rewrite E. cbn [rbind].
  do 2 i32_step.
  eapply wp_lift; [reflexivity|]. rewrite Z.quot_div_nonneg by lia.
  split; [exact Hf|]. split; [|exact R]. unfold u16. rewrite uwrap_small by in_range. f_equal. lia.
Qed.

Lemma wp_temp w :
  wp stm32_get_temp (fun v w' => adc_frame w w' /\ in_u 12 (sample w' 3) /\
                                 s16 v = swrap 16 (132000 * sample w' 3 / 4096 - 27900)) w.
Proof.
  unfold stm32_get_temp. wp_norm. wp_use wp_doConversion.
  intros _ w' [Hf Hs]. wp_norm. destruct (Hs 3%nat) as [E R]; [lia|].
  pose proof R as R'. change (Z.of_nat 3) with 3 in E. unfold in_u in R'.
  change (2 ^ 12) with 4096 in R'.
  set (s := sample w' 3) in *. unfold VCC_REF. rewrite E. cbn [rbind].
  do 2 i32_step.
  rewrite Z.quot_div_nonneg by lia.
  replace (s * 40 * 3300) with (132000 * s) by lia.
  assert (0 <= 132000 * s / 4096 <= 131967) as Q by dlia.
  do 2 i32_step.
  eapply wp_lift; [reflexivity|]. split; [exact Hf|]. split; [exact R|].
  unfold s16, u16. rewrite swrap_uwrap by lia.
  replace (132000 * s / 4096 - 30400 + 2500) with (132000 * s / 4096 - 27900) by lia.
  reflexivity.
Qed.

(** The function stm32_get_vbat returns the divider voltage of sample 1 in millivolts,
    rounded down: no intermediate overflows, the value fits the uint16_t for
    every 12-bit sample and is at most 32991 mV. *)
Lemma vbat_spec w :
  exists v w', stm32_get_vbat w = Ok (v, w') /\ adc_frame w w' /\
    0 <= 33000 * sample w' 1 - 4096 * v < 4096 /\ 0 <= v <= 32991.
Proof.
  pose proof (wp_vbat w) as W. apply wp_ok in W as (v & w' & R & Hf & -> & B).
  exists (33000 * sample w' 1 / 4096), w'. split; [exact R|]. split; [exact Hf|].
  unfold in_u in B. change (2 ^ 12) with 4096 in B. dlia.
Qed.

(** The function stm32_get_temp.  Nothing overflows in the int arithmetic; stored in the
    int16_t field of a data point, the value is the intended temperature
    (hundredths of a degree) exactly when sample 3 is at most 1882; above, the
    passage through 16 bits subtracts 65536 until the value fits. *)
Lemma stm32_temp_spec w :
  exists v w', stm32_get_temp w = Ok (v, w') /\ adc_frame w w' /\
    let t := 132000 * sample w' 3 / 4096 - 27900 in
    s16 v = swrap 16 t /\ (s16 v = t <-> sample w' 3 <= 1882).
Proof.
  pose proof (wp_temp w) as W. apply wp_ok in W as (v & w' & R & Hf & B & E).
  exists v, w'. split; [exact R|]. split; [exact Hf|]. cbv zeta. rewrite E.
  split; [reflexivity|]. unfold in_u in B. change (2 ^ 12) with 4096 in B.
  set (s := sample w' 3) in *.
  pose proof (swrap_range 16 (132000 * s / 4096 - 27900) ltac:(lia)) as W.
  unfold in_s in W. change (2 ^ (16 - 1)) with 32768 in W. split.
  - intros K. rewrite K in W. dlia.
  - intros K. apply swrap_small; [lia|]. in_range.
Qed.

End Facts.

(** An ADC whose four channels hold given samples. *)
Definition adc_of (a b c d : Z) : AdcDriver :=
  {| adc_convert _ _ := [uwrap 12 a; uwrap 12 b; uwrap 12 c; uwrap 12 d] |}.

Lemma adc_of_laws a b c d : @AdcLaws (adc_of a b c d).
Proof.
  split; intros; [reflexivity|]. repeat constructor; apply uwrap_range; lia.
Qed.

