(* ===== verification/Bme280.v ===== *)
(** * bme280.c: humidity, temperature and pressure sensor

    The compensation formulas are written operation by operation: a step of
    32-bit (64-bit) signed arithmetic that leaves its type is a fault, a right
    shift of a negative number is arithmetic and a left shift multiplies (as gcc
    documents), and the final division of the humidity runs in IEEE single
    precision.  [BME280_getAltitude] is not modelled (it needs
    [pow] of the C library; nothing in the firmware calls it). *)

From Stdlib Require Import ZArith Bool String List Lia.
From Stdlib Require Import Floats.SpecFloat.
From S2P Require Import Prelude Machine Pi2c.
Import ListNotations.
Local Open Scope Z_scope.
Local Open Scope fw_scope.

(** ** Registers and data *)

Definition BME280_REGISTER_DIG_T1 := 0x88.

Definition BME280_REGISTER_DIG_T2 := 0x8A.

Definition BME280_REGISTER_DIG_T3 := 0x8C.

Definition BME280_REGISTER_DIG_P1 := 0x8E.

Definition BME280_REGISTER_DIG_P2 := 0x90.

Definition BME280_REGISTER_DIG_P3 := 0x92.

Definition BME280_REGISTER_DIG_P4 := 0x94.

Definition BME280_REGISTER_DIG_P5 := 0x96.

Definition BME280_REGISTER_DIG_P6 := 0x98.

Definition BME280_REGISTER_DIG_P7 := 0x9A.

Definition BME280_REGISTER_DIG_P8 := 0x9C.

Definition BME280_REGISTER_DIG_P9 := 0x9E.

Definition BME280_REGISTER_DIG_H1 := 0xA1.

Definition BME280_REGISTER_DIG_H2 := 0xE1.

Definition BME280_REGISTER_DIG_H3 := 0xE3.

Definition BME280_REGISTER_DIG_H4 := 0xE4.

Definition BME280_REGISTER_DIG_H5 := 0xE5.

Definition BME280_REGISTER_DIG_H6 := 0xE7.

Definition BME280_REGISTER_CHIPID := 0xD0.

Definition BME280_REGISTER_CONTROLHUMID := 0xF2.

Definition BME280_REGISTER_CONTROL := 0xF4.

Definition BME280_REGISTER_PRESSUREDATA := 0xF7.

Definition BME280_REGISTER_TEMPDATA := 0xFA.

Definition BME280_REGISTER_HUMIDDATA := 0xFD.

Definition BME280_I1 := 0x0.

Definition BME280_E1 := 0x1.

Definition BME280_E2 := 0x2.

Record bme280_calib_data_t : Set := {
  dig_T1 : Z; dig_T2 : Z; dig_T3 : Z;
  dig_P1 : Z; dig_P2 : Z; dig_P3 : Z; dig_P4 : Z; dig_P5 : Z;
  dig_P6 : Z; dig_P7 : Z; dig_P8 : Z; dig_P9 : Z;
  dig_H1 : Z; dig_H2 : Z; dig_H3 : Z; dig_H4 : Z; dig_H5 : Z; dig_H6 : Z }.

(** The four function pointers of the handle are always set to the functions of
    pi2c.c and are not kept. *)
Record bme280_t : Set := {
  i2c_address : Z; t_fine : Z; calib : bme280_calib_data_t }.

Definition set_t_fine (x : Z) (h : bme280_t) : bme280_t :=
  {| i2c_address := i2c_address h; t_fine := x; calib := calib h |}.

(** ** Compensation formulas *)

(** The 20-bit value from a 16-bit and an 8-bit read. *)
Definition adc20 (tmp byte : Z) : Z :=
  Z.shiftr (Z.lor (Z.shiftl tmp 8) (Z.land byte 0xFF)) 4.

Definition compensate_t_fine (c : bme280_calib_data_t) (adc_T : Z) : result Z :=
  a <=! i32 (Z.shiftr adc_T 3 - Z.shiftl (dig_T1 c) 1) ;;
  b <=! i32 (a * dig_T2 c) ;;
  let var1 := Z.shiftr b 11 in
  d <=! i32 (Z.shiftr adc_T 4 - dig_T1 c) ;;
  e <=! i32 (d * d) ;;
  f <=! i32 (Z.shiftr e 12 * dig_T3 c) ;;
  let var2 := Z.shiftr f 14 in
  i32 (var1 + var2).

Definition centidegrees (t_fine : Z) : result Z :=
  a <=! i32 (t_fine * 5) ;;
  b <=! i32 (a + 128) ;;
  Ok (s16 (Z.shiftr b 8)).

(** One turn of the loop of BME280_getPressure: [None] is the early return, else
    the 64-bit value that is added to the sum. *)
Definition compensate_pressure (c : bme280_calib_data_t) (tf adc_P : Z) : result (option Z) :=
  let var1 := tf - 128000 in
  sq <=! i64 (var1 * var1) ;;
  var2 <=! i64 (sq * dig_P6 c) ;;
  a <=! i64 (var1 * dig_P5 c) ;;
  a <=! i64 (a * 2 ^ 17) ;;
  var2 <=! i64 (var2 + a) ;;
  a <=! i64 (dig_P4 c * 2 ^ 35) ;;
  var2 <=! i64 (var2 + a) ;;
  a <=! i64 (sq * dig_P3 c) ;;
  b <=! i64 (var1 * dig_P2 c) ;;
  b <=! i64 (b * 2 ^ 12) ;;
  var1 <=! i64 (Z.shiftr a 8 + b) ;;
  a <=! i64 (2 ^ 47 + var1) ;;
  a <=! i64 (a * dig_P1 c) ;;
  let var1 := Z.shiftr a 33 in
  if var1 =? 0 then Ok None else
  p <=! i32 (1048576 - adc_P) ;;
  a <=! i64 (p * 2 ^ 31) ;;
  a <=! i64 (a - var2) ;;
  a <=! i64 (a * 3125) ;;
  p <=! i64 (Z.quot a var1) ;;
  a <=! i64 (dig_P9 c * Z.shiftr p 13) ;;
  a <=! i64 (a * Z.shiftr p 13) ;;
  let var1 := Z.shiftr a 25 in
  a <=! i64 (dig_P8 c * p) ;;
  let var2 := Z.shiftr a 19 in
  a <=! i64 (p + var1) ;;
  a <=! i64 (a + var2) ;;
  b <=! i64 (dig_P7 c * 2 ^ 4) ;;
  r <=! i64 (Z.shiftr a 8 + b) ;;
  Ok (Some r).

(** [sum/(means*26)] as uint32_t. *)
Definition pressure_mean (sum means : Z) : result Z :=
  if means * 26 =? 0 then Err DivByZero else Ok (u32 (sum / (means * 26))).

(** IEEE single precision, for the non-negative normal numbers that occur here:
    [mant * 2^expo].  [fround num den] is the number of 24 significant bits that
    is nearest to [num/den], ties to even. *)
Record float32 : Set := { mant : Z; expo : Z }.

Definition pow2 (e : Z) : Z := 2 ^ Z.max 0 e.

(** The binary exponent of a positive fraction: [2^e <= num/den < 2^(e+1)]. *)
Definition fexp (num den : Z) : Z :=
  let e := Z.log2 num - Z.log2 den in
  if den * pow2 e <=? num * pow2 (- e) then e else e - 1.

Definition fround (num den : Z) : float32 :=
  let e := fexp num den - 23 in
  let n := num * pow2 (- e) in
  let d := den * pow2 e in
  let q := n / d in
  let r := n mod d in
  let up := (d <? 2 * r) || ((2 * r =? d) && Z.odd q) in
  {| mant := if up then q + 1 else q; expo := e |}.

Definition float_of_int (x : Z) : float32 :=
  if x =? 0 then {| mant := 0; expo := 0 |} else fround x 1.

Definition float_div (x y : float32) : float32 :=
  if mant x =? 0 then x
  else let e := expo x - expo y in
       fround (mant x * pow2 e) (mant y * pow2 (- e)).

Definition trunc_of_float (x : float32) : Z := mant x * pow2 (expo x) / pow2 (- expo x).

Definition compensate_humidity (c : bme280_calib_data_t) (tf adc_H : Z) : result Z :=
  v <=! i32 (tf - 76800) ;;
  a <=! i32 (Z.shiftl adc_H 14) ;;
  b <=! i32 (dig_H4 c * 2 ^ 20) ;;
  a <=! i32 (a - b) ;;
  b <=! i32 (dig_H5 c * v) ;;
  a <=! i32 (a - b) ;;
  a <=! i32 (a + 16384) ;;
  let left := Z.shiftr a 15 in
  a <=! i32 (v * dig_H6 c) ;;
  b <=! i32 (v * dig_H3 c) ;;
  b <=! i32 (Z.shiftr b 11 + 32768) ;;
  a <=! i32 (Z.shiftr a 10 * b) ;;
  a <=! i32 (Z.shiftr a 10 + 2097152) ;;
  a <=! i32 (a * dig_H2 c) ;;
  a <=! i32 (a + 8192) ;;
  v <=! i32 (left * Z.shiftr a 14) ;;
  sq <=! i32 (Z.shiftr v 15 * Z.shiftr v 15) ;;
  a <=! i32 (Z.shiftr sq 7 * dig_H1 c) ;;
  v <=! i32 (v - Z.shiftr a 4) ;;
  let v := if v <? 0 then 0 else v in
  let v := if 419430400 <? v then 419430400 else v in
  let h := float_of_int (Z.shiftr v 12) in
  Ok (u8 (trunc_of_float (float_div h (float_of_int 1020)))).

(** ** Driver *)

Section Driver.
Context `{I2cDriver} `{StackMemory}.

Definition BME280_isAvailable (id : Z) : M bool :=
  if id =? BME280_I1 then
    '(_, val) <- I2C_read8 0x77 BME280_REGISTER_CHIPID ;; ret (val =? 0x60)
  else if id =? BME280_E1 then
    '(_, val) <- I2C_read8 0x77 BME280_REGISTER_CHIPID ;; ret (val =? 0x60)
  else if id =? BME280_E2 then
    '(_, val) <- I2C_read8 0x76 BME280_REGISTER_CHIPID ;; ret (val =? 0x60)
  else ret false.

(** The value a read stores through its pointer. *)
Definition read8 (a reg : Z) : M Z := '(_, v) <- I2C_read8 a reg ;; ret v.

Definition read16 (a reg : Z) : M Z := '(_, v) <- I2C_read16 a reg ;; ret v.

Definition read16_LE (a reg : Z) : M Z := '(_, v) <- I2C_read16_LE a reg ;; ret v.

(** A 16-bit and an 8-bit read of three consecutive registers. *)
Definition read_adc20 (a reg : Z) : M Z :=
  tmp <- read16 a reg ;;
  byte <- read8 a (reg + 2) ;;
  ret (adc20 tmp byte).

Definition BME280_getTemperature (handle : bme280_t) : M (Z * bme280_t) :=
  adc_T <- read_adc20 (i2c_address handle) BME280_REGISTER_TEMPDATA ;;
  tf <- lift (compensate_t_fine (calib handle) adc_T) ;;
  t <- lift (centidegrees tf) ;;
  ret (t, set_t_fine tf handle).

Definition BME280_readCalibration (a : Z) : M bme280_calib_data_t :=
  T1 <- read16_LE a BME280_REGISTER_DIG_T1 ;;
  T2 <- read16_LE a BME280_REGISTER_DIG_T2 ;;
  T3 <- read16_LE a BME280_REGISTER_DIG_T3 ;;
  P1 <- read16_LE a BME280_REGISTER_DIG_P1 ;;
  P2 <- read16_LE a BME280_REGISTER_DIG_P2 ;;
  P3 <- read16_LE a BME280_REGISTER_DIG_P3 ;;
  P4 <- read16_LE a BME280_REGISTER_DIG_P4 ;;
  P5 <- read16_LE a BME280_REGISTER_DIG_P5 ;;
  P6 <- read16_LE a BME280_REGISTER_DIG_P6 ;;
  P7 <- read16_LE a BME280_REGISTER_DIG_P7 ;;
  P8 <- read16_LE a BME280_REGISTER_DIG_P8 ;;
  P9 <- read16_LE a BME280_REGISTER_DIG_P9 ;;
  H1 <- read8 a BME280_REGISTER_DIG_H1 ;;
  H2 <- read16_LE a BME280_REGISTER_DIG_H2 ;;
  H3 <- read8 a BME280_REGISTER_DIG_H3 ;;
  tmp1 <- read8 a BME280_REGISTER_DIG_H4 ;;
  tmp2 <- read8 a BME280_REGISTER_DIG_H5 ;;
  let H4 := s16 (Z.lor (Z.shiftl (s8 tmp1) 4) (Z.land tmp2 0x0F)) in
  tmp1 <- read8 a BME280_REGISTER_DIG_H6 ;;
  tmp2 <- read8 a BME280_REGISTER_DIG_H5 ;;
  let H5 := s16 (Z.lor (Z.shiftl (s8 tmp1) 4) (Z.land (Z.shiftr tmp2 4) 0x0F)) in
  H6 <- read8 a BME280_REGISTER_DIG_H6 ;;
  ret {| dig_T1 := T1; dig_T2 := s16 T2; dig_T3 := s16 T3;
         dig_P1 := P1; dig_P2 := s16 P2; dig_P3 := s16 P3; dig_P4 := s16 P4;
         dig_P5 := s16 P5; dig_P6 := s16 P6; dig_P7 := s16 P7; dig_P8 := s16 P8;
         dig_P9 := s16 P9;
         dig_H1 := H1; dig_H2 := s16 H2; dig_H3 := H3; dig_H4 := H4; dig_H5 := H5;
         dig_H6 := s8 H6 |}.

(** The address the switch of BME280_Init selects; for any other id the handle's
    pointers are never set. *)
Definition bme280_address (id : Z) : option Z :=
  if id =? BME280_I1 then Some 0x77
  else if (id =? BME280_E1) || (id =? BME280_E2)
       then Some (if id =? BME280_E1 then 0x77 else 0x76)
  else None.

Definition BME280_Init (id : Z) : M bme280_t :=
  match bme280_address id with
  | None => fail WildCall
  | Some a =>
      c <- BME280_readCalibration a ;;
      I2C_write8 a BME280_REGISTER_CONTROLHUMID 0x03 ;;
      I2C_write8 a BME280_REGISTER_CONTROL 0x3F ;;
      extern (chThdSleep 50) ;;
      '(_, handle) <- BME280_getTemperature {| i2c_address := a; t_fine := 0; calib := c |} ;;
      ret handle
  end.

(** [for(i = 0; i < means; i++)]: [n] turns are left; the early return is [None]. *)
Fixpoint pressure_loop (n : nat) (handle : bme280_t) (sum : Z) : M (option Z) :=
  match n with
  | O => ret (Some sum)
  | S n' =>
      adc_P <- read_adc20 (i2c_address handle) BME280_REGISTER_PRESSUREDATA ;;
      r <- lift (compensate_pressure (calib handle) (t_fine handle) adc_P) ;;
      match r with
      | None => ret None
      | Some q => pressure_loop n' handle (u64 (sum + q))
      end
  end.

Definition BME280_getPressure (handle : bme280_t) (means : Z) : M Z :=
  r <- pressure_loop (Z.to_nat means) handle 0 ;;
  match r with
  | None => ret 0
  | Some sum => lift (pressure_mean sum means)
  end.

Definition BME280_getHumidity (handle : bme280_t) : M Z :=
  adc_H <- read16 (i2c_address handle) BME280_REGISTER_HUMIDDATA ;;
  lift (compensate_humidity (calib handle) (t_fine handle) adc_H).

End Driver.

(** ** The humidity's division is exact after truncation *)

(** [float_div] agrees with the IEEE division of the Standard Library on the
    integers around every multiple of 1020 up to 102400. *)
Definition ieee_quotient (h : Z) : spec_float :=
  SFdiv 24 128 (binary_normalize 24 128 h 0 false) (binary_normalize 24 128 1020 0 false).

Example float_div_ieee :
  forallb (fun k =>
    forallb (fun h =>
      let q := float_div (float_of_int h) (float_of_int 1020) in
      match ieee_quotient h with
      | S754_finite false m e => (mant q =? Zpos m) && (expo q =? e)
      | _ => false
      end) [1020 * Z.of_nat k - 1; 1020 * Z.of_nat k; 1020 * Z.of_nat k + 1])
    (seq 1 100) = true.
Proof. vm_compute. reflexivity. Qed.

Lemma pow2_pos e : 0 < pow2 e.
Proof. apply Z.pow_pos_nonneg; lia. Qed.

Lemma fexp_lower num den : 0 < num -> 0 < den ->
  den * pow2 (fexp num den) <= num * pow2 (- fexp num den).
Proof.
  intros Hn Hd. unfold fexp. set (e := Z.log2 num - Z.log2 den).
  destruct (Z.leb_spec (den * pow2 e) (num * pow2 (- e))) as [L|_]; [exact L|].
  pose proof (Z.log2_spec num Hn) as [Ln _]. pose proof (Z.log2_spec den Hd) as [_ Ld].
  pose proof (Z.log2_nonneg num). pose proof (Z.log2_nonneg den). unfold pow2.
  destruct (Z.le_gt_cases 1 e).
  - rewrite (Z.max_r 0 (e - 1)), (Z.max_l 0 (- (e - 1))) by lia.
    apply Z.le_trans with (2 ^ Z.succ (Z.log2 den) * 2 ^ (e - 1)).
    { apply Z.mul_le_mono_nonneg_r; [apply Z.pow_nonneg|]; lia. }
    rewrite <- Z.pow_add_r by lia.
    replace (Z.succ (Z.log2 den) + (e - 1)) with (Z.log2 num) by lia.
    rewrite Z.pow_0_r. lia.
  - rewrite (Z.max_l 0 (e - 1)), (Z.max_r 0 (- (e - 1))) by lia.
    apply Z.le_trans with (2 ^ Z.log2 num * 2 ^ (- (e - 1))).
    + rewrite <- Z.pow_add_r by lia. rewrite Z.pow_0_r, Z.mul_1_r.
      replace (Z.log2 num + - (e - 1)) with (Z.succ (Z.log2 den)) by lia. lia.
    + apply Z.mul_le_mono_nonneg_r; [apply Z.pow_nonneg; lia | exact Ln].
Qed.

(** Below 128 the result has at least 17 fractional bits. *)
Lemma fexp_small num den : 0 < num < 128 * den -> fexp num den <= 6.
Proof.
  intros H. pose proof (fexp_lower num den ltac:(lia) ltac:(lia)) as L.
  destruct (Z.le_gt_cases (fexp num den) 6) as [|G]; [assumption|].
  unfold pow2 in L. rewrite Z.max_r, Z.max_l in L by lia. rewrite Z.pow_0_r in L.
  assert (2 ^ 7 <= 2 ^ fexp num den) by (apply Z.pow_le_mono_r; lia).
  change (2 ^ 7) with 128 in *. nia.
Qed.

Lemma fround_trunc num den h :
  0 < num < 128 * den -> num * 1020 = h * den -> 0 <= h ->
  trunc_of_float (fround num den) = h / 1020.
Proof.
  intros H E Hh. pose proof (fexp_small num den H) as S.
  unfold trunc_of_float, fround; cbn [mant expo].
  set (k := fexp num den - 23) in *.
  assert (pow2 k = 1) as P1 by (unfold pow2; now rewrite Z.max_l by lia).
  assert (2 ^ 17 <= pow2 (- k)) as P2.
  { unfold pow2. rewrite Z.max_r by lia. apply Z.pow_le_mono_r; lia. }
  change (2 ^ 17) with 131072 in P2.
  rewrite P1, !Z.mul_1_r. set (s := pow2 (- k)) in *.
  pose proof (Z.div_mod (num * s) den ltac:(lia)) as D.
  pose proof (Z.mod_pos_bound (num * s) den ltac:(lia)) as R.
  pose proof (Z.div_mod h 1020 ltac:(lia)) as N.
  pose proof (Z.mod_pos_bound h 1020 ltac:(lia)) as NR.
  set (n := h / 1020) in *. set (q := num * s / den) in *. set (r := (num * s) mod den) in *.
  set (up := (den <? 2 * r) || _).
  assert (if up then den <= 2 * r else True) as U.
  { subst up. destruct (Z.ltb_spec den (2 * r)); cbn [orb]; [lia|].
    destruct (Z.eqb_spec (2 * r) den); cbn [andb]; [destruct (Z.odd q); [lia|exact I]|exact I]. }
  assert (n * den <= num) as L1 by nia.
  assert (num * 1020 <= den * (1020 * n + 1019)) as L2 by nia.
  assert (n * s <= q) as Q1.
  { subst q. apply Z.div_le_lower_bound; nia. }
  assert (2 * den * (if up then q + 1 else q) <= 2 * num * s + den) as Q2.
  { destruct up; nia. }
  set (m := if up then q + 1 else q) in *.
  assert (q <= m) by (subst m; destruct up; lia).
  symmetry. apply Z.div_unique with (m - n * s); [|ring].
  left. split; [lia|].
  assert (1020 * (2 * den * m) <= 1020 * (2 * num * s + den)) by lia.
  assert (2040 * m * den <= (2 * s * (1020 * n + 1019) + 1020) * den) as Q3 by nia.
  apply Z.mul_le_mono_pos_r in Q3; nia.
Qed.

Lemma fround_int x : 0 < x < 2 ^ 24 ->
  mant (fround x 1) = x * pow2 (23 - Z.log2 x) /\ expo (fround x 1) = Z.log2 x - 23.
Proof.
  intros H. assert (fexp x 1 = Z.log2 x) as E.
  { unfold fexp. change (Z.log2 1) with 0. rewrite Z.sub_0_r.
    pose proof (Z.log2_nonneg x). pose proof (Z.log2_spec x ltac:(lia)).
    unfold pow2. rewrite Z.max_r, Z.max_l by lia.
    rewrite Z.pow_0_r. destruct (Z.leb_spec (1 * 2 ^ Z.log2 x) (x * 1)); lia. }
  assert (Z.log2 x < 24) by (apply Z.log2_lt_pow2; lia).
  unfold fround. rewrite E; cbn [mant expo].
  assert (pow2 (Z.log2 x - 23) = 1) as -> by (unfold pow2; now rewrite Z.max_l by lia).
  rewrite Z.mul_1_r, Z.div_1_r, Z.mod_1_r.
  replace (- (Z.log2 x - 23)) with (23 - Z.log2 x) by lia. split; reflexivity.
Qed.

Lemma pow2_diff e : 0 <= e -> pow2 e = 2 ^ e /\ pow2 (- e) = 1.
Proof. intros H. unfold pow2. now rewrite Z.max_r, Z.max_l by lia. Qed.

(** For every humidity value the clamped sum can take, single precision and
    truncation give the integer quotient. *)
Lemma humidity_quotient h : 0 <= h <= 102400 ->
  trunc_of_float (float_div (float_of_int h) (float_of_int 1020)) = h / 1020.
Proof.
  intros H. unfold float_of_int at 1. destruct (Z.eqb_spec h 0) as [->|Hn]; [reflexivity|].
  destruct (fround_int h) as [Em Ee]; [change (2 ^ 24) with 16777216; lia|].
  unfold float_div. rewrite Em, Ee.
  assert (0 <= Z.log2 h <= 16).
  { split; [apply Z.log2_nonneg|]. apply Z.lt_succ_r, Z.log2_lt_pow2; [lia|]. cbn. lia. }
  destruct (pow2_diff (23 - Z.log2 h)) as [-> _]; [lia|].
  assert (0 < 2 ^ (23 - Z.log2 h)) by (apply Z.pow_pos_nonneg; lia).
  destruct (Z.eqb_spec (h * 2 ^ (23 - Z.log2 h)) 0); [nia|].
  change (mant (float_of_int 1020)) with (1020 * 2 ^ 14).
  change (expo (float_of_int 1020)) with (-14).
  replace (Z.log2 h - 23 - -14) with (Z.log2 h - 9) by lia.
  set (l := Z.log2 h) in *.
  assert (h * 2 ^ (23 - l) * pow2 (l - 9) * 1020 = h * (1020 * 2 ^ 14 * pow2 (- (l - 9)))) as E.
  { assert (2 ^ (23 - l) * pow2 (l - 9) = 2 ^ 14 * pow2 (- (l - 9))) as X; [|nia].
    destruct (Z.le_gt_cases 0 (l - 9)).
    - destruct (pow2_diff (l - 9)) as [-> ->]; [lia|]. rewrite <- Z.pow_add_r by lia.
      rewrite Z.mul_1_r. f_equal. lia.
    - destruct (pow2_diff (- (l - 9))) as [-> P]; [lia|]. rewrite Z.opp_involutive in P.
      rewrite P, Z.mul_1_r, <- Z.pow_add_r by lia. f_equal. lia. }
  apply fround_trunc; [|exact E|lia].
  pose proof (pow2_pos (l - 9)). pose proof (pow2_pos (- (l - 9))). split; [nia|].
  change (2 ^ 14) with 16384 in *. nia.
Qed.

(** ** No overflow for a sensor calibrated within the usual spread *)

Record nominal (c : bme280_calib_data_t) : Prop := {
  nom_T1 : 26000 <= dig_T1 c <= 39000;
  nom_T2 : Z.abs (dig_T2 c) <= 27000;
  nom_T3 : Z.abs (dig_T3 c) <= 5000;
  nom_P1 : 30000 <= dig_P1 c <= 50000;
  nom_P2 : Z.abs (dig_P2 c) <= 15000;
  nom_P3 : Z.abs (dig_P3 c) <= 8000;
  nom_P4 : Z.abs (dig_P4 c) <= 10000;
  nom_P5 : Z.abs (dig_P5 c) <= 4000;
  nom_P6 : Z.abs (dig_P6 c) <= 1000;
  nom_P7 : Z.abs (dig_P7 c) <= 32768;
  nom_P8 : Z.abs (dig_P8 c) <= 32768;
  nom_P9 : Z.abs (dig_P9 c) <= 32768;
  nom_H1 : 0 <= dig_H1 c <= 120;
  nom_H2 : Z.abs (dig_H2 c) <= 380;
  nom_H3 : 0 <= dig_H3 c <= 10;
  nom_H4 : 290 <= dig_H4 c <= 450;
  nom_H5 : Z.abs (dig_H5 c) <= 575;
  nom_H6 : Z.abs (dig_H6 c) <= 35 }.

(** The fine temperature, over the integers. *)
Definition t_fine_of (c : bme280_calib_data_t) (adc_T : Z) : Z :=
  (adc_T / 8 - 2 * dig_T1 c) * dig_T2 c / 2 ^ 11 +
  (adc_T / 16 - dig_T1 c) ^ 2 / 2 ^ 12 * dig_T3 c / 2 ^ 14.

Lemma t_fine_ok c adc_T : nominal c -> in_u 20 adc_T ->
  compensate_t_fine c adc_T = Ok (t_fine_of c adc_T) /\ Z.abs (t_fine_of c adc_T) <= 1200000.
Proof.
  intros [T1 T2 T3 _ _ _ _ _ _ _ _ _ _ _ _ _ _ _] A. unfold in_u in A.
  change (2 ^ 20) with 1048576 in A.
  enough (rsat (compensate_t_fine c adc_T)
            (fun t => t = t_fine_of c adc_T /\ Z.abs t <= 1200000)) as (t & -> & -> & B) by auto.
  unfold compensate_t_fine. rewrite Z.shiftl_mul_pow2, !(Z.shiftr_div_pow2 adc_T) by lia.
  change (2 ^ 3) with 8. change (2 ^ 4) with 16. change (2 ^ 1) with 2.
  assert (Z.abs (adc_T / 8 - dig_T1 c * 2) <= 79072) by dlia.
  assert (Z.abs (adc_T / 16 - dig_T1 c) <= 39536) by dlia.
  apply (rsat_i32 _ 79072); [assumption | lia | intros a Ea Ba].
  bounded. apply (rsat_i32 _ 39536); [assumption | lia | intros d Ed Bd].
  do 2 bounded. eexists.
  assert (Z.abs (Z.shiftr v 11 + Z.shiftr v1 14) <= 1200000) as B.
  { eapply Z.le_trans; [apply (abs_add_le _ _ 1060000 120000); prove_bound | lia]. }
  split; [apply i32_ok; unfold in_s; change (2 ^ (32 - 1)) with 2147483648; lia|].
  split; [|exact B].
  unfold t_fine_of. rewrite !Z.shiftr_div_pow2 in * by lia. subst.
  rewrite Z.pow_2_r. do 3 f_equal. lia.
Qed.

Lemma centidegrees_ok tf : Z.abs tf <= 1200000 -> centidegrees tf = Ok ((5 * tf + 128) / 256).
Proof.
  intros B. unfold centidegrees. do 2 i32_step.
  rewrite Z.shiftr_div_pow2 by lia. change (2 ^ 8) with 256.
  unfold s16. rewrite swrap_small by in_range. do 2 f_equal. lia.
Qed.

Lemma quot_abs_le a b A B : Z.abs a <= A -> 0 < B <= b -> Z.abs (Z.quot a b) <= A / B.
Proof.
  intros Ha Hb. rewrite <- Z.quot_abs by lia. rewrite (Z.abs_eq b) by lia.
  rewrite Z.quot_div_nonneg by lia.
  apply Z.div_le_lower_bound; [lia|].
  apply Z.le_trans with (b * (Z.abs a / b)); [|pose proof (Z.mul_div_le (Z.abs a) b); lia].
  apply Z.mul_le_mono_nonneg_r; [apply Z.div_pos|]; lia.
Qed.

(** The range of fine temperatures in which the pressure and the humidity are
    compensated: -30 to 60 degrees. *)
Definition t_fine_range (tf : Z) : Prop := -153200 <= tf <= 306800.

(** The pressure in 1/256 Pa by the formula of the datasheet, over the integers,
    without machine limits: the offset, the sensitivity and the linearised
    pressure, then the corrections of second and first order and the last
    offset. *)
Definition pressure_offset (c : bme280_calib_data_t) (v : Z) : Z :=
  v * v * dig_P6 c + v * dig_P5 c * 2 ^ 17 + dig_P4 c * 2 ^ 35.

Definition pressure_slope (c : bme280_calib_data_t) (v : Z) : Z :=
  (2 ^ 47 + (v * v * dig_P3 c / 2 ^ 8 + v * dig_P2 c * 2 ^ 12)) * dig_P1 c / 2 ^ 33.

Definition pressure_of (c : bme280_calib_data_t) (tf adc_P : Z) : Z :=
  let v := tf - 128000 in
  let p := Z.quot (((2 ^ 20 - adc_P) * 2 ^ 31 - pressure_offset c v) * 3125) (pressure_slope c v) in
  (p + dig_P9 c * (p / 2 ^ 13) * (p / 2 ^ 13) / 2 ^ 25 + dig_P8 c * p / 2 ^ 19) / 2 ^ 8 + dig_P7 c * 2 ^ 4.

Lemma pressure_ok c tf adc_P : nominal c -> t_fine_range tf -> in_u 20 adc_P ->
  rsat (compensate_pressure c tf adc_P)
       (fun r => exists q, r = Some q /\ q = pressure_of c tf adc_P /\ Z.abs q < 2 ^ 28).
Proof.
  intros [_ _ _ P1 P2 P3 P4 P5 P6 P7 P8 P9 _ _ _ _ _ _] T A.
  unfold in_u, t_fine_range in *. change (2 ^ 20) with 1048576 in A.
  assert (Z.abs (dig_P1 c) <= 50000) by lia.
  assert (Z.abs (tf - 128000) <= 338000) as V1 by lia.
  assert (Z.abs (1048576 - adc_P) <= 1048576) by lia.
  unfold compensate_pressure. cbv zeta. set (v1 := tf - 128000) in *.
  do 13 bounded.
  assert (400000000 <= Z.shiftr v12 33) as L.
  { rewrite Z.shiftr_div_pow2 by lia. apply Z.div_le_lower_bound; [reflexivity|].
    apply (Z.le_trans _ (116400643355327 * 30000)); [vm_compute; discriminate|].
    match goal with E : v12 = _, F : v11 = _, B : Z.abs v10 <= _ |- _ =>
      rewrite E, F; clear - B P1; change (2 ^ 47) with 140737488355328 end.
    apply Z.mul_le_mono_nonneg; lia. }
  destruct (Z.eqb_spec (Z.shiftr v12 33) 0) as [Z0|_]; [rewrite Z0 in L; now destruct L|].
  do 4 bounded.
  match goal with |- rsat (rbind (i64 (Z.quot ?a ?b)) _) _ =>
    let A := bound_of a in
    pose proof (quot_abs_le a b A 400000000 ltac:(assumption) (conj eq_refl L)) as Q end.
  match type of Q with _ <= ?x => let y := eval vm_compute in x in change x with y in Q end.
  apply (rsat_i64 _ _ _ _ Q); [discriminate|]. intros p Ep Bp.
  do 7 bounded. eexists. split; [reflexivity|]. eexists. split; [reflexivity|].
  split; [|eapply Z.le_lt_trans; [eassumption | reflexivity]].
  rewrite !Z.shiftr_div_pow2 in * by lia. subst. reflexivity.
Qed.

(** Relative humidity in percent, over the integers, without machine limits and
    without floating point. *)
Definition humidity_of (c : bme280_calib_data_t) (tf adc_H : Z) : Z :=
  let v := tf - 76800 in
  let left := (adc_H * 2 ^ 14 - dig_H4 c * 2 ^ 20 - dig_H5 c * v + 16384) / 2 ^ 15 in
  let slope := v * dig_H6 c / 2 ^ 10 * (v * dig_H3 c / 2 ^ 11 + 32768) / 2 ^ 10 + 2097152 in
  let x := left * ((slope * dig_H2 c + 8192) / 2 ^ 14) in
  let x := x - (x / 2 ^ 15) * (x / 2 ^ 15) / 2 ^ 7 * dig_H1 c / 2 ^ 4 in
  Z.min 419430400 (Z.max 0 x) / 2 ^ 12 / 1020.

Lemma humidity_range c tf adc_H : 0 <= humidity_of c tf adc_H <= 100.
Proof.
  unfold humidity_of. cbv zeta. set (x := Z.min _ _).
  assert (0 <= x <= 419430400) by (subst x; lia). change (2 ^ 12) with 4096. dlia.
Qed.

Lemma clamped_quotient x :
  u8 (trunc_of_float (float_div (float_of_int (Z.shiftr
        (if 419430400 <? (if x <? 0 then 0 else x) then 419430400
         else if x <? 0 then 0 else x) 12)) (float_of_int 1020))) =
  Z.min 419430400 (Z.max 0 x) / 2 ^ 12 / 1020.
Proof.
  replace (if x <? 0 then 0 else x) with (Z.max 0 x) by (destruct (Z.ltb_spec x 0); lia).
  set (y := Z.max 0 x).
  replace (if 419430400 <? y then 419430400 else y) with (Z.min 419430400 y)
    by (destruct (Z.ltb_spec 419430400 y); lia).
  assert (0 <= Z.min 419430400 y <= 419430400) as B by (subst y; lia).
  rewrite Z.shiftr_div_pow2 by lia. change (2 ^ 12) with 4096.
  rewrite humidity_quotient by dlia. apply uwrap_small. in_range.
Qed.

Lemma humidity_ok c tf adc_H : nominal c -> t_fine_range tf -> in_u 16 adc_H ->
  compensate_humidity c tf adc_H = Ok (humidity_of c tf adc_H).
Proof.
  intros [_ _ _ _ _ _ _ _ _ _ _ _ N1 N2 N3 N4 N5 N6] T A.
  unfold in_u, t_fine_range in *. change (2 ^ 16) with 65536 in A.
  enough (rsat (compensate_humidity c tf adc_H) (fun h => h = humidity_of c tf adc_H))
    as (h & -> & ->) by reflexivity.
  assert (Z.abs (dig_H1 c) <= 120) by lia. assert (Z.abs (dig_H3 c) <= 10) by lia.
  assert (Z.abs (dig_H4 c) <= 450) by lia.
  assert (Z.abs (tf - 76800) <= 230000) by lia.
  assert (Z.abs (adc_H * 2 ^ 14) <= 1073725440) by (change (2 ^ 14) with 16384; lia).
  unfold compensate_humidity. rewrite Z.shiftl_mul_pow2 by lia. cbv zeta.
  do 3 bounded.
  assert (Z.abs (v0 - v1) <= 769638400) by (change (2 ^ 14) with 16384 in *;
    change (2 ^ 20) with 1048576 in *; lia).
  do 15 bounded. eexists. split; [reflexivity|].
  rewrite clamped_quotient. unfold humidity_of. cbv zeta.
  rewrite !Z.shiftr_div_pow2 in * by lia. subst. reflexivity.
Qed.

(** ** The sensor on the bus *)

Section Facts.
Context {ID : I2cDriver} {SM : StackMemory} {SL : Slaves} {BUS : RegisterBus}.

Definition le16 (f : Z -> nat -> Z) (reg : Z) : Z := f reg 1%nat * 256 + f reg 0%nat.

(** The 20-bit value of the registers [reg], [reg+1] and [reg+2]. *)
Definition raw20 (f : Z -> nat -> Z) (reg : Z) : Z :=
  (f reg 0%nat * 65536 + f reg 1%nat * 256 + f (reg + 2) 0%nat) / 16.

(** A 12-bit signed number with its upper eight bits in a byte. *)
Definition signed12 (hi lo4 : Z) : Z := 16 * s8 hi + lo4.

(** The calibration as the datasheet lays it out. *)
Definition datasheet_calib (f : Z -> nat -> Z) : bme280_calib_data_t :=
  let b r := f r 0%nat in
  {| dig_T1 := le16 f 0x88; dig_T2 := s16 (le16 f 0x8A); dig_T3 := s16 (le16 f 0x8C);
     dig_P1 := le16 f 0x8E; dig_P2 := s16 (le16 f 0x90); dig_P3 := s16 (le16 f 0x92);
     dig_P4 := s16 (le16 f 0x94); dig_P5 := s16 (le16 f 0x96); dig_P6 := s16 (le16 f 0x98);
     dig_P7 := s16 (le16 f 0x9A); dig_P8 := s16 (le16 f 0x9C); dig_P9 := s16 (le16 f 0x9E);
     dig_H1 := b 0xA1; dig_H2 := s16 (le16 f 0xE1); dig_H3 := b 0xE3;
     dig_H4 := signed12 (b 0xE4) (b 0xE5 mod 16);
     dig_H5 := signed12 (b 0xE6) (b 0xE5 / 16);
     dig_H6 := s8 (b 0xE7) |}.

Definition with_H5 (x : Z) (c : bme280_calib_data_t) : bme280_calib_data_t :=
  {| dig_T1 := dig_T1 c; dig_T2 := dig_T2 c; dig_T3 := dig_T3 c;
     dig_P1 := dig_P1 c; dig_P2 := dig_P2 c; dig_P3 := dig_P3 c; dig_P4 := dig_P4 c; dig_P5 := dig_P5 c;
     dig_P6 := dig_P6 c; dig_P7 := dig_P7 c; dig_P8 := dig_P8 c; dig_P9 := dig_P9 c;
     dig_H1 := dig_H1 c; dig_H2 := dig_H2 c; dig_H3 := dig_H3 c; dig_H4 := dig_H4 c; dig_H5 := x;
     dig_H6 := dig_H6 c |}.

(** The calibration the driver uses: the upper bits of dig_H5 are taken from
    register 0xE7 instead of 0xE6. *)
Definition calib_of (f : Z -> nat -> Z) : bme280_calib_data_t :=
  with_H5 (signed12 (f 0xE7 0%nat) (f 0xE5 0%nat / 16)) (datasheet_calib f).

Lemma signed12_spec hi lo : is_byte hi -> 0 <= lo < 16 ->
  s16 (Z.lor (Z.shiftl (s8 hi) 4) lo) = signed12 hi lo.
Proof.
  intros Hh Hl. pose proof (swrap_range 8 hi ltac:(lia)) as R. fold (s8 hi) in R.
  unfold in_s in R. change (2 ^ (8 - 1)) with 128 in R.
  rewrite lor_shift by (cbn; lia). change (2 ^ 4) with 16.
  unfold s16, signed12. rewrite swrap_small by in_range. lia.
Qed.

Lemma wp_read8' a f reg w : slave a = Some f ->
  wp (read8 a reg) (fun v w' => quiet w w' /\ v = f reg 0%nat) w.
Proof.
  intros E. unfold read8. wp_norm. wp_use bus_read8. intros [r v] w' [Q V].
  rewrite E in V. injection V as -> ->. now split.
Qed.

Lemma wp_read16' a f reg w : slave a = Some f ->
  wp (read16 a reg) (fun v w' => quiet w w' /\ v = f reg 0%nat * 256 + f reg 1%nat) w.
Proof.
  intros E. unfold read16. wp_norm. wp_use bus_read16. intros [r v] w' [Q V].
  rewrite E in V. injection V as -> ->. now split.
Qed.

Lemma wp_read16_LE' a f reg w : slave a = Some f ->
  wp (read16_LE a reg) (fun v w' => quiet w w' /\ v = le16 f reg) w.
Proof.
  intros E. unfold read16_LE. wp_norm. wp_use bus_read16_LE. intros [r v] w' [Q V].
  rewrite E in V. injection V as -> ->. now split.
Qed.

Lemma wp_read_adc20 a f reg w : slave a = Some f ->
  wp (read_adc20 a reg) (fun v w' => quiet w w' /\ v = raw20 f reg /\ in_u 20 v) w.
Proof.
  intros E. unfold read_adc20. wp_norm. wp_use (wp_read16' a f); [exact E|].
  intros t w1 [Q1 ->]. wp_norm. wp_use (wp_read8' a f); [exact E|].
  intros b w2 [Q2 ->]. wp_norm. split; [now transitivity w1|].
  pose proof (bus_bytes a f reg 0 E). pose proof (bus_bytes a f reg 1 E).
  pose proof (bus_bytes a f (reg + 2) 0 E). unfold is_byte, in_u in *.
  change (2 ^ 8) with 256 in *. unfold adc20, raw20.
  rewrite land_255, lor_shift8, Z.shiftr_div_pow2 by (lia || apply byte_mod).
  rewrite (Z.mod_small (f (reg + 2) 0%nat)) by lia. change (2 ^ 4) with 16.
  change (2 ^ 20) with 1048576. split; [f_equal; lia | dlia].
Qed.

(** One read of a present sensor: what follows gets the register's value. *)
Ltac bus_step E :=
  wp_norm;
  eapply wp_conseq;
  [ first [eapply wp_read8'; exact E | eapply wp_read16_LE'; exact E] | cbv beta ];
  let w := fresh "w" in let Q := fresh "Q" in
  intros ? w [Q ->].

Ltac quiet_chain := repeat (first [eassumption | etransitivity; [eassumption|]]).

Lemma wp_readCalibration a f w : slave a = Some f ->
  wp (BME280_readCalibration a) (fun c w' => quiet w w' /\ c = calib_of f) w.
Proof.
  intros E. unfold BME280_readCalibration. cbv zeta. do 20 bus_step E. wp_norm.
  split; [quiet_chain|].
  assert (forall r, is_byte (f r 0%nat)) as B by (intros r; apply (bus_bytes a f r 0 E)).
  assert (0 <= f BME280_REGISTER_DIG_H5 0%nat < 256) as B5 by exact (B _).
  change 0x0F with (2 ^ 4 - 1). rewrite !land_ones_mod, Z.shiftr_div_pow2 by lia.
  change (2 ^ 4) with 16.
  rewrite !signed12_spec by (auto || dlia).
  rewrite (Z.mod_small (f BME280_REGISTER_DIG_H5 0%nat / 16)) by dlia. reflexivity.
Qed.

(** The measurements of a sensor, from its registers. *)
Definition bme_t_fine (f : Z -> nat -> Z) : Z := t_fine_of (calib_of f) (raw20 f 0xFA).

Definition bme_temp (f : Z -> nat -> Z) : Z := (5 * bme_t_fine f + 128) / 256.

Definition bme_hum (f : Z -> nat -> Z) : Z :=
  humidity_of (calib_of f) (bme_t_fine f) (f 0xFD 0%nat * 256 + f 0xFD 1%nat).

(** The pressure in 1/256 Pa, in the unit of the documentation (Pa * 10), and as
    it is reported. *)
Definition bme_q (f : Z -> nat -> Z) : Z := pressure_of (calib_of f) (bme_t_fine f) (raw20 f 0xF7).

Definition bme_pa10 (f : Z -> nat -> Z) : Z := 10 * bme_q f / 256.

Definition bme_press (f : Z -> nat -> Z) : Z := bme_q f / 26.

(** The report is 64/65 of the documented value, to within a unit. *)
Lemma press_low f : Z.abs (65 * bme_press f - 64 * bme_pa10 f) < 65.
Proof. unfold bme_press, bme_pa10. dlia. Qed.

(** A sensor with a nominal calibration that measures inside its range. *)
Record bme_ok (f : Z -> nat -> Z) : Prop := {
  ok_calib : nominal (calib_of f);
  ok_temp : t_fine_range (bme_t_fine f);
  ok_press : 0 <= bme_q f }.

Lemma wp_getTemperature h f w :
  slave (i2c_address h) = Some f -> calib h = calib_of f -> nominal (calib_of f) ->
  wp (BME280_getTemperature h)
     (fun p w' => quiet w w' /\ p = (bme_temp f, set_t_fine (bme_t_fine f) h)) w.
Proof.
  intros E C N. unfold BME280_getTemperature. wp_norm.
  wp_use (wp_read_adc20 _ f); [exact E|]. intros adc w1 (Q & -> & R).
  rewrite C. destruct (t_fine_ok _ _ N R) as [T B].
  wp_norm. eapply wp_lift; [exact T|]. wp_norm. eapply wp_lift; [apply centidegrees_ok, B|].
  wp_norm. auto.
Qed.

(** The address [BME280_isAvailable] probes. *)
Lemma bme280_address_some id : 0 <= id <= 2 ->
  bme280_address id = Some (if id =? 2 then 0x76 else 0x77).
Proof. intros H. assert (id = 0 \/ id = 1 \/ id = 2) as [-> | [-> | ->]] by lia; reflexivity. Qed.

(** The handle of an initialised sensor. *)
Definition bme_handle (a : Z) (f : Z -> nat -> Z) : bme280_t :=
  {| i2c_address := a; t_fine := bme_t_fine f; calib := calib_of f |}.

Lemma wp_Init id a f w :
  bme280_address id = Some a -> slave a = Some f -> nominal (calib_of f) ->
  wp (BME280_Init id) (fun h w' => quiet w w' /\ h = bme_handle a f) w.
Proof.
  intros A E N. unfold BME280_Init. rewrite A. wp_norm.
  wp_use (wp_readCalibration a f); [exact E|]. intros c w1 [Q1 ->]. wp_norm.
  wp_use bus_write8. intros _ w2 Q2. wp_norm. wp_use bus_write8. intros _ w3 Q3.
  unfold extern. wp_norm. set (w4 := set_calls _ _).
  wp_use (wp_getTemperature _ f); [exact E | reflexivity | exact N |].
  intros [t h] w5 [Q5 [= -> ->]]. wp_norm. split; [|reflexivity].
  transitivity w4; [|exact Q5]. transitivity w3; [quiet_chain | split; reflexivity].
Qed.

Lemma wp_pressure_loop n a f w sum : slave a = Some f -> bme_ok f ->
  0 <= sum -> sum + Z.of_nat n * bme_q f < 2 ^ 64 ->
  wp (pressure_loop n (bme_handle a f) sum)
     (fun r w' => quiet w w' /\ r = Some (sum + Z.of_nat n * bme_q f)) w.
Proof.
  intros E [N T P]. revert w sum. induction n as [|n IH]; intros w sum Hs Hb; cbn [pressure_loop].
  - wp_norm. split; [reflexivity|]. f_equal. lia.
  - wp_norm. wp_use (wp_read_adc20 a f); [exact E|]. intros adc w1 (Q & -> & R).
    cbn [bme_handle calib t_fine].
    destruct (pressure_ok _ (bme_t_fine f) (raw20 f BME280_REGISTER_PRESSUREDATA) N T R)
      as (r & Er & q & -> & Eq & _).
    wp_norm. eapply wp_lift; [exact Er|]. cbv iota. change (q = bme_q f) in Eq. subst q.
    assert (u64 (sum + bme_q f) = sum + bme_q f) as -> by (apply uwrap_small; unfold in_u; nia).
    wp_use IH; [lia | lia |]. intros r w2 [Q2 ->]. split; [now transitivity w1|].
    f_equal. lia.
Qed.

Lemma bme_q_bound a f : slave a = Some f -> bme_ok f -> bme_q f < 2 ^ 28.
Proof.
  intros E [N T P].
  assert (in_u 20 (raw20 f 0xF7)) as R.
  { pose proof (bus_bytes a f 0xF7 0 E). pose proof (bus_bytes a f 0xF7 1 E).
    pose proof (bus_bytes a f (0xF7 + 2) 0 E). unfold is_byte, in_u, raw20 in *.
    change (2 ^ 8) with 256 in *. change (2 ^ 20) with 1048576. dlia. }
  destruct (pressure_ok _ _ _ N T R) as (r & _ & q & _ & -> & B). unfold bme_q. lia.
Qed.

Lemma wp_getPressure a f means w : slave a = Some f -> bme_ok f -> 1 <= means < 2 ^ 16 ->
  wp (BME280_getPressure (bme_handle a f) means)
     (fun p w' => quiet w w' /\ p = bme_press f) w.
Proof.
  intros E K M. change (2 ^ 16) with 65536 in M. unfold BME280_getPressure. wp_norm.
  pose proof (ok_press f K) as P. pose proof (bme_q_bound a f E K) as B.
  change (2 ^ 28) with 268435456 in B.
  wp_use (wp_pressure_loop (Z.to_nat means) a f); [exact E | exact K | lia | |].
  { rewrite Z2Nat.id by lia. change (2 ^ 64) with 18446744073709551616. nia. }
  intros r w' [Q ->]. rewrite Z2Nat.id, Z.add_0_l by lia. eapply wp_lift; [|now split].
  unfold pressure_mean. destruct (Z.eqb_spec (means * 26) 0); [lia|].
  rewrite Z.div_mul_cancel_l by lia. f_equal. apply uwrap_small.
  unfold in_u, bme_press. change (2 ^ 32) with 4294967296. dlia.
Qed.

Lemma wp_getHumidity a f w : slave a = Some f -> bme_ok f ->
  wp (BME280_getHumidity (bme_handle a f)) (fun h w' => quiet w w' /\ h = bme_hum f) w.
Proof.
  intros E [N T P]. unfold BME280_getHumidity. wp_norm. wp_use (wp_read16' a f); [exact E|].
  intros v w' [Q ->]. eapply wp_lift; [|now split].
  apply humidity_ok; [exact N | exact T |].
  pose proof (bus_bytes a f BME280_REGISTER_HUMIDDATA 0 E).
  pose proof (bus_bytes a f BME280_REGISTER_HUMIDDATA 1 E). in_range.
Qed.

Lemma wp_isAvailable id a w : bme280_address id = Some a ->
  wp (BME280_isAvailable id)
     (fun b w' => quiet w w' /\
        match slave a with
        | Some f => b = (f 0xD0 0%nat =? 0x60)
        | None => exists h, b = (rx (stack_bytes h 1) 0 =? 0x60)
        end) w.
Proof.
  intros A. assert (BME280_isAvailable id =
    ('(_, val) <- I2C_read8 a BME280_REGISTER_CHIPID ;; ret (val =? 0x60))) as ->.
  { unfold bme280_address, BME280_isAvailable in *.
    destruct (id =? BME280_I1); [now injection A as <-|].
    destruct (id =? BME280_E1); cbn in A; [now injection A as <-|].
    destruct (id =? BME280_E2); [now injection A as <- | discriminate]. }
  wp_norm. wp_use bus_read8. intros [r v] w' [Q V]. rewrite wp_ret. split; [exact Q|].
  destruct (slave a) as [f|]; [now injection V as -> ->|].
  destruct V as [_ [h V]]. cbn [snd] in V. subst v. eauto.
Qed.

(** A whole measurement, in the order the collector takes it. *)
Definition measure (id means : Z) : M (Z * Z * Z) :=
  h <- BME280_Init id ;;
  p <- BME280_getPressure h means ;;
  hum <- BME280_getHumidity h ;;
  '(t, h) <- BME280_getTemperature h ;;
  ret (p, hum, t).

Lemma wp_measure id a f means w :
  bme280_address id = Some a -> slave a = Some f -> bme_ok f -> 1 <= means < 2 ^ 16 ->
  wp (measure id means)
     (fun r w' => quiet w w' /\ r = (bme_press f, bme_hum f, bme_temp f)) w.
Proof.
  intros A E K N. pose proof (ok_calib f K) as C. unfold measure. wp_norm.
  wp_use (wp_Init id a f); [exact A | exact E | exact C |]. intros h w1 [Q1 ->]. wp_norm.
  wp_use (wp_getPressure a f); [exact E | exact K | exact N |]. intros p w2 [Q2 ->]. wp_norm.
  wp_use (wp_getHumidity a f); [exact E | exact K |]. intros u w3 [Q3 ->]. wp_norm.
  wp_use (wp_getTemperature _ f); [exact E | reflexivity | exact C |].
  intros [t h] w4 [Q4 [= -> ->]]. wp_norm. split; [quiet_chain | reflexivity].
Qed.


(** BME280_isAvailable.  A sensor that answers is recognised by its chip id;
    when none answers, the result is whatever the uninitialised local held: no
    sensor is reported exactly when that byte is not 0x60. *)
Theorem bme280_available_spec id a w :
  bme280_address id = Some a ->
  exists b w', BME280_isAvailable id w = Ok (b, w') /\ quiet w w' /\
    match slave a with
    | Some f => b = true <-> f 0xD0 0%nat = 0x60
    | None => exists h, b = true <-> rx (stack_bytes h 1) 0 = 0x60
    end.
Proof.
  intros A. pose proof (wp_isAvailable id a w A) as W.
  apply wp_ok in W as (b & w' & R & Q & V). exists b, w'. split; [exact R|]. split; [exact Q|].
  destruct (slave a); [subst b; apply Z.eqb_eq|].
  destruct V as [h ->]. exists h. apply Z.eqb_eq.
Qed.

End Facts.

(** The compensation of the temperature.  For a nominal calibration and any
    20-bit reading the 32-bit computation does not overflow, equals the formula
    over the integers, and the result fits the int16_t it is returned in. *)
Lemma bme280_temperature_formula c adc_T :
  nominal c -> in_u 20 adc_T ->
  exists t, rbind (compensate_t_fine c adc_T) centidegrees = Ok t /\
    t = (5 * t_fine_of c adc_T + 128) / 256 /\ in_s 16 t.
Proof.
  intros N A. destruct (t_fine_ok c adc_T N A) as [-> B]. cbn [rbind].
  rewrite centidegrees_ok by exact B. eexists. split; [reflexivity|]. split; [reflexivity|].
  unfold in_s. change (2 ^ (16 - 1)) with 32768. dlia.
Qed.

(** ** A concrete sensor: the calibration of the datasheet's example *)

Definition example_bme (reg : Z) (i : nat) : Z :=
  u8 (nth (Z.to_nat (reg + Z.of_nat i - 0x88))
    ([112; 107; 67; 103; 24; 252; 125; 142; 67; 214; 208; 11; 39; 11; 140; 0; 249; 255; 140;
      60; 248; 198; 112; 23; 0; 75] ++ repeat 0 46 ++ [0x60] ++ repeat 0 16 ++
     [0x6B; 0x01; 0; 0x14; 0x2D; 0x03; 0x1E] ++ repeat 0 15 ++
     [0x65; 0x5A; 0xC0; 0x7E; 0xED; 0x00; 0x6E; 0x30]) 0).

Lemma example_bme_bus :
  @RegisterBus (bus_of (only_slave 0x77 example_bme)) (stack_of 0)
               (only_slave 0x77 example_bme).
Proof.
  apply bus_of_registers; [unfold is_byte, in_u; lia|].
  intros a f reg i. cbn. destruct (a =? 0x77); intros [= <-].
  apply uwrap_range. lia.
Qed.

Lemma example_bme_ok : bme_ok example_bme.
Proof.
  split; [split | split |]; try (vm_compute; discriminate);
    (split; vm_compute; discriminate).
Qed.

Lemma example_values :
  bme_press example_bme = 991047 /\ bme_hum example_bme = 30 /\ bme_temp example_bme = 2508.
Proof. vm_compute. repeat split. Qed.


(** The sensor's 100653.2 Pa are reported as 99104.7: the sum is divided by 26
    per sample, not by 25.6. *)
Example bme_press_low : bme_pa10 example_bme = 1006532 /\ bme_press example_bme = 991047.
Proof. vm_compute. split; reflexivity. Qed.

