(* ===== verification/DcmiDma.v ===== *)
(** * dcmi_dma.c: camera data into memory, block by block

    A frame is larger than one DMA transfer, so it is cut into blocks and the
    stream runs in double buffer mode: while it fills one block, the interrupt
    routine gives it the address of the next.  The operations are followed by a
    transition system of the running capture (interrupts, and other threads in
    between) and its invariant. *)

From Stdlib Require Import ZArith Bool String List Lia.
From Stdlib Require Import Relations.Relation_Operators Relations.Operators_Properties.
From S2P Require Import Prelude Machine.
Import ListNotations.
Local Open Scope Z_scope.
Local Open Scope fw_scope.

(** ** Static variables *)

Definition upd_dma (f : dcmi -> dcmi) : M unit := modify (fun w => set_dma (f (dma w)) w).

Definition set_blocks_done (x : Z) (d : dcmi) : dcmi :=
  {| dcmi_dma_buffer := dcmi_dma_buffer d; dcmi_dma_image_size := dcmi_dma_image_size d;
     dcmi_dma_buffer_size := dcmi_dma_buffer_size d;
     dcmi_dma_bytes_received := dcmi_dma_bytes_received d;
     dcmi_dma_done_callback := dcmi_dma_done_callback d;
     dcmi_dma_error_callback := dcmi_dma_error_callback d;
     blocks_done := x; block_size := block_size d; num_blocks := num_blocks d;
     stream_control_register := stream_control_register d |}.

Definition set_geometry (nb bs : Z) (d : dcmi) : dcmi :=
  {| dcmi_dma_buffer := dcmi_dma_buffer d; dcmi_dma_image_size := dcmi_dma_image_size d;
     dcmi_dma_buffer_size := dcmi_dma_buffer_size d;
     dcmi_dma_bytes_received := dcmi_dma_bytes_received d;
     dcmi_dma_done_callback := dcmi_dma_done_callback d;
     dcmi_dma_error_callback := dcmi_dma_error_callback d;
     blocks_done := blocks_done d; block_size := bs; num_blocks := nb;
     stream_control_register := stream_control_register d |}.

Definition set_control (x : Z) (d : dcmi) : dcmi :=
  {| dcmi_dma_buffer := dcmi_dma_buffer d; dcmi_dma_image_size := dcmi_dma_image_size d;
     dcmi_dma_buffer_size := dcmi_dma_buffer_size d;
     dcmi_dma_bytes_received := dcmi_dma_bytes_received d;
     dcmi_dma_done_callback := dcmi_dma_done_callback d;
     dcmi_dma_error_callback := dcmi_dma_error_callback d;
     blocks_done := blocks_done d; block_size := block_size d; num_blocks := num_blocks d;
     stream_control_register := x |}.

Definition set_bytes_received (x : Z) (d : dcmi) : dcmi :=
  {| dcmi_dma_buffer := dcmi_dma_buffer d; dcmi_dma_image_size := dcmi_dma_image_size d;
     dcmi_dma_buffer_size := dcmi_dma_buffer_size d;
     dcmi_dma_bytes_received := x;
     dcmi_dma_done_callback := dcmi_dma_done_callback d;
     dcmi_dma_error_callback := dcmi_dma_error_callback d;
     blocks_done := blocks_done d; block_size := block_size d; num_blocks := num_blocks d;
     stream_control_register := stream_control_register d |}.

(** ** The callbacks (ov5640.c) *)

Definition set_samplingFinished (b : bool) (c : camera) : camera :=
  {| lightIntensity := lightIntensity c; cam_error := cam_error c;
     samplingFinished := b; last_res := last_res c |}.

Definition upd_cam (f : camera -> camera) : M unit := modify (fun w => set_cam (f (cam w)) w).

Definition dma_avail (flags : Z) : M unit := upd_cam (set_samplingFinished true).

(** [osalDbgAssert(FALSE, ...)]: chconf.h enables assertions. *)
Definition dma_error (flags : Z) : M unit := fail Halted.

Definition run_callback (cb : dma_callback) (flags : Z) : M unit :=
  match cb with
  | cb_dma_avail => dma_avail flags
  | cb_dma_error => dma_error flags
  end.

(** A call through a function pointer. *)
Definition call_pointer (p : option dma_callback) (flags : Z) : M unit :=
  match p with
  | Some cb => run_callback cb flags
  | None => fail WildCall
  end.

Definition is_set (p : option dma_callback) : bool :=
  match p with Some _ => true | None => false end.

(** ** Interrupt routines *)

Section Driver.
Context `{DmaStream}.

(** Called when [blocks_done < num_blocks] after the increment: the idle target
    gets the address of block [blocks_done + 1]. *)
Definition set_next_block : M unit :=
  w <- gets (fun w => w) ;;
  let d := dma w in
  let block_addr := u32 (dcmi_dma_buffer d + u32 (block_size d) * u32 (blocks_done d + 1)) in
  if current_target (calls w) =? 0
  then extern (dmaStreamSetMemory1 block_addr)
  else extern (dmaStreamSetMemory0 block_addr).

(** The common text of the two routines; [on_full] is the branch
    [blocks_done == num_blocks], without its final dmaStreamDisable. *)
Definition shuffle (on_full : Z -> M unit) (flags : Z) : M unit :=
  let flags := Z.land flags (Z.lnot ISR_HTIF) in
  if flags =? 0 then ret tt else
  when (negb (flags =? ISR_TCIF))
    (d <- gets dma ;;
     when (is_set (dcmi_dma_error_callback d)) (call_pointer (dcmi_dma_error_callback d) flags) ;;
     extern dmaStreamDisable) ;;
  extern dmaStreamClearTCIF ;;
  d <- gets dma ;;
  n <- lift (i32 (blocks_done d + 1)) ;;
  upd_dma (set_blocks_done n) ;;
  if n =? num_blocks d
  then on_full flags ;; extern dmaStreamDisable
  else set_next_block.

Definition dcmi_dma_shuffle_isr : Z -> M unit :=
  shuffle (fun flags =>
    d <- gets dma ;;
    when (is_set (dcmi_dma_done_callback d)) (call_pointer (dcmi_dma_done_callback d) flags)).

(** The error callback is called when the done callback is set, as written. *)
Definition dcmi_dma_shuffle_isr_open_ended : Z -> M unit :=
  shuffle (fun flags =>
    d <- gets dma ;;
    when (is_set (dcmi_dma_done_callback d)) (call_pointer (dcmi_dma_error_callback d) flags)).

(** ** Initialisation *)

(** [for(int new_num_blocks=1; TRUE; new_num_blocks++)]: the number of blocks and
    the words per block, or [None] for [return -1]. *)
Fixpoint find_blocks (fuel : nat) (image_size new_num_blocks : Z) : result (option (Z * Z)) :=
  match fuel with
  | O => Err OutOfFuel
  | S n =>
      let block_size_words := image_size / new_num_blocks / 4 in
      if block_size_words <? 256 then Ok None
      else if negb (u32 (u32 (4 * block_size_words) * new_num_blocks) =? image_size)
        then find_blocks n image_size (new_num_blocks + 1)
      else if 65535 <? block_size_words
        then find_blocks n image_size (new_num_blocks + 1)
      else Ok (Some (new_num_blocks, block_size_words))
  end.

(** Block counts above [image_size / 1024] make tiny blocks: the loop ends
    before ([find_blocks_spec]). *)
Definition blocks_fuel (image_size : Z) : nat := Z.to_nat (image_size / 1024 + 2).

(** From the message on: the same text in both functions. *)
Definition setup_stream (isr : dma_isr) (size : Z) : M unit :=
  d <- gets dma ;;
  extern (chprintf "CAM  > dcmi_dma: %d byte image, transferring as %d blocks of %d bytes\r\n"
            [size; num_blocks d; block_size d]) ;;
  extern (dmaStreamAllocate isr) ;;
  extern (dmaStreamSetPeripheral 0x50050028) ;;
  extern (dmaStreamSetTransactionSize (Z.quot (block_size d) 4)) ;;
  upd_dma (set_control (Z.land CR_base (Z.lnot CR_CT))) ;;
  extern (dmaStreamSetMode (Z.land CR_base (Z.lnot CR_CT))) ;;
  extern (dmaStreamSetFIFO FCR_FTH_FULL) ;;
  when (1 <? num_blocks d)
    (upd_dma (fun d => set_control (Z.lor (stream_control_register d) CR_DBM) d) ;;
     d <- gets dma ;;
     extern (dmaStreamSetMode (stream_control_register d))).

Definition dcmi_dma_init : M Z :=
  d <- gets dma ;;
  if (dcmi_dma_buffer d =? 0) || (dcmi_dma_image_size d =? 0) then
    extern (chprintf "CAM  > dcmi_dma: failure\r\n" []) ;; ret (-1)
  else
    r <- lift (find_blocks (blocks_fuel (dcmi_dma_image_size d)) (dcmi_dma_image_size d) 1) ;;
    match r with
    | None => ret (-1)
    | Some (n, words) =>
        upd_dma (set_geometry n (4 * words)) ;;
        setup_stream dcmi_dma_shuffle (dcmi_dma_image_size d) ;;
        ret 0
    end.

Definition dcmi_dma_init_open_ended : M Z :=
  d <- gets dma ;;
  if (dcmi_dma_buffer d =? 0) || (dcmi_dma_buffer_size d =? 0) then
    extern (chprintf "CAM  > dcmi_dma: failure\r\n" []) ;; ret (-1)
  else
    let block_size := 4 * 65534 in
    upd_dma (set_geometry (s32 (u32 (dcmi_dma_buffer_size d / block_size - 1))) block_size) ;;
    setup_stream dcmi_dma_shuffle_open_ended (dcmi_dma_buffer_size d) ;;
    ret 0.

(** DCMI_DMA_BYTES_RECEIVED_EXTRA_PADDING_MODE is defined. *)
Definition dcmi_dma_open_ended_stop : M unit :=
  extern dmaStreamDisable ;;
  w <- gets (fun w => w) ;;
  let top_addr := memory0 (calls w) in
  let top_addr_alt := memory1 (calls w) in
  let top_addr := if top_addr <? top_addr_alt then top_addr_alt else top_addr in
  upd_dma (set_bytes_received (u32 (top_addr - dcmi_dma_buffer (dma w)))).

Definition dcmi_dma_arm : M Z :=
  upd_dma (set_blocks_done 0) ;;
  d <- gets dma ;;
  extern (dmaStreamSetMode (stream_control_register d)) ;;
  extern (dmaStreamSetMemory0 (u32 (dcmi_dma_buffer d))) ;;
  extern (dmaStreamSetMemory1 (u32 (dcmi_dma_buffer d + block_size d))) ;;
  extern dmaStreamEnable ;;
  ret 0.

End Driver.

(** ** The cut into blocks *)

(** [n] blocks of [words] words make up [size] bytes, and a block is neither tiny
    nor larger than the stream's 16-bit counter allows. *)
Record valid_split (size n words : Z) : Prop := {
  split_count : 1 <= n;
  split_words : 256 <= words <= 65535;
  split_size : 4 * words * n = size }.

Lemma words_bound size n : 0 <= size -> 1 <= n ->
  0 <= 4 * (size / n / 4) * n <= size.
Proof.
  intros Hs Hn. assert (0 <= size / n) by (apply Z.div_pos; lia).
  pose proof (Z.mul_div_le size n ltac:(lia)). assert (0 <= 4 * (size / n / 4) <= size / n) by dlia.
  nia.
Qed.

Lemma tiny size n : 1 <= n -> size / n / 4 < 256 -> size < 1024 * n.
Proof.
  intros Hn H. assert (size / n < 1024) by dlia.
  pose proof (Z.mul_succ_div_gt size n ltac:(lia)). nia.
Qed.

Lemma split_exact size n words : valid_split size n words -> size / n / 4 = words.
Proof.
  intros [Hn Hw <-]. rewrite Z.div_mul by lia. rewrite Z.mul_comm. apply Z.div_mul. lia.
Qed.

Lemma find_blocks_spec fuel : forall size n0,
  0 < size < 2 ^ 32 -> 1 <= n0 <= size / 1024 + 1 -> size / 1024 + 2 <= n0 + Z.of_nat fuel ->
  exists r, find_blocks fuel size n0 = Ok r /\
    match r with
    | Some (n, words) => valid_split size n words /\ n0 <= n /\
        (forall n' words', n0 <= n' < n -> ~ valid_split size n' words')
    | None => forall n' words', n0 <= n' -> ~ valid_split size n' words'
    end.
Proof.
  induction fuel as [|fuel IH]; intros size n0 Hs Hn Hf; [lia|]. cbn [find_blocks].
  pose proof (words_bound size n0 ltac:(lia) ltac:(lia)) as B.
  assert (0 <= size / n0 / 4) by (apply Z.div_pos; [apply Z.div_pos|]; lia).
  destruct (Z.ltb_spec (size / n0 / 4) 256) as [L|L].
  { exists None. split; [reflexivity|]. intros n' w' Hn' [V1 V2 V3].
    pose proof (tiny size n0 ltac:(lia) L). nia. }
  assert (u32 (u32 (4 * (size / n0 / 4)) * n0) = 4 * (size / n0 / 4) * n0) as ->.
  { unfold u32. rewrite (uwrap_small 32 (4 * _)) by (unfold in_u; nia).
    apply uwrap_small. unfold in_u. lia. }
  assert (n0 + 1 <= size / 1024 + 1) as Hn1.
  { assert (n0 <= size / 1024) by (apply Z.div_le_lower_bound; nia). lia. }
  assert (forall w', valid_split size n0 w' ->
            4 * (size / n0 / 4) * n0 = size /\ size / n0 / 4 <= 65535) as Here.
  { intros w' V. rewrite (split_exact _ _ _ V). destruct V. lia. }
  assert ((forall w', ~ valid_split size n0 w') ->
    exists r, find_blocks fuel size (n0 + 1) = Ok r /\
      match r with
      | Some (n, words) => valid_split size n words /\ n0 <= n /\
          (forall n' words', n0 <= n' < n -> ~ valid_split size n' words')
      | None => forall n' words', n0 <= n' -> ~ valid_split size n' words'
      end) as Next.
  { intros No. destruct (IH size (n0 + 1) Hs ltac:(lia) ltac:(lia)) as (r & -> & R).
    exists r. split; [reflexivity|].
    destruct r as [[n words]|].
    - destruct R as (V & Hle & R). split; [exact V|]. split; [lia|].
      intros n' w' Hn'. destruct (Z.eq_dec n' n0) as [->|]; [apply No | apply R; lia].
    - intros n' w' Hn'. destruct (Z.eq_dec n' n0) as [->|]; [apply No | apply R; lia]. }
  destruct (Z.eqb_spec (4 * (size / n0 / 4) * n0) size) as [E|E]; cbn [negb].
  - destruct (Z.ltb_spec 65535 (size / n0 / 4)) as [G|G].
    + apply Next. intros w' V. apply Here in V. lia.
    + exists (Some (n0, size / n0 / 4)). split; [reflexivity|].
      split; [split; [lia | lia | exact E]|]. split; [lia|]. intros. lia.
  - apply Next. intros w' V. apply Here in V. lia.
Qed.

(** C33: the search of dcmi_dma_init for a cut into blocks.  For every image size
    it terminates; it finds a cut of the whole image into equal blocks of 256 to
    65535 words whenever there is one, and then the one with the fewest blocks;
    it gives up only when there is none. *)
Theorem dcmi_factoring_spec size :
  0 < size < 2 ^ 32 ->
  exists r, find_blocks (blocks_fuel size) size 1 = Ok r /\
    match r with
    | Some (n, words) => valid_split size n words /\
        (forall n' words', valid_split size n' words' -> n <= n')
    | None => forall n' words', ~ valid_split size n' words'
    end.
Proof.
  intros Hs. assert (0 <= size / 1024) by (apply Z.div_pos; lia).
  destruct (find_blocks_spec (blocks_fuel size) size 1 Hs ltac:(lia)) as (r & -> & R).
  { unfold blocks_fuel. rewrite Z2Nat.id by lia. lia. }
  exists r. split; [reflexivity|]. destruct r as [[n words]|].
  - destruct R as (V & _ & R). split; [exact V|]. intros n' w' V'.
    destruct (Z.le_gt_cases n n') as [|G]; [assumption|]. destruct (R n' w'); [|exact V'].
    destruct V'. lia.
  - intros n' w' V. apply (R n' w'); [|exact V]. destruct V. lia.
Qed.

(** The 2048x1536 frame of two bytes per pixel: 32 blocks of 49152 words. *)
Example rgb_frame_blocks :
  find_blocks (blocks_fuel (2048 * 1536 * 2)) (2048 * 1536 * 2) 1 = Ok (Some (32, 49152)).
Proof. vm_compute. reflexivity. Qed.

Lemma dcmi_factoring_spec_witness :
  exists r, find_blocks (blocks_fuel (2048 * 1536 * 2)) (2048 * 1536 * 2) 1 = Ok r /\
    match r with
    | Some (n, words) => valid_split (2048 * 1536 * 2) n words /\
        (forall n' words', valid_split (2048 * 1536 * 2) n' words' -> n <= n')
    | None => forall n' words', ~ valid_split (2048 * 1536 * 2) n' words'
    end.
Proof. apply (dcmi_factoring_spec (2048 * 1536 * 2)). split; reflexivity. Defined.

(** ** The running capture *)

Section Capture.
Context {DS : DmaStream} {DL : DmaLaws}.

(** The address of block [k]. *)
Definition block (d : dcmi) (k : Z) : Z := dcmi_dma_buffer d + k * block_size d.

(** The driver is set up for a capture of at least two blocks, and the buffer
    with one more block lies in the address space. *)
Record ready (d : dcmi) : Prop := {
  ready_blocks : 2 <= num_blocks d < 2 ^ 31;
  ready_size : 0 < block_size d < 2 ^ 31;
  ready_addr : 0 <= dcmi_dma_buffer d /\ block d (num_blocks d + 1) <= 2 ^ 32;
  ready_ct : Z.land (stream_control_register d) CR_CT = 0;
  ready_done : dcmi_dma_done_callback d = Some cb_dma_avail;
  ready_error : dcmi_dma_error_callback d = Some cb_dma_error }.

(** The address the stream fills now, and the one it will fill next. *)
Definition active (h : list call) : Z :=
  if target_of h =? 0 then memory0_of h else memory1_of h.

Definition idle (h : list call) : Z :=
  if target_of h =? 0 then memory1_of h else memory0_of h.

(** The addresses filled since the stream was enabled, in order. *)
Fixpoint filled (h : list call) : list Z :=
  match h with
  | [] => []
  | dma_block_complete :: h' => filled h' ++ [active h']
  | dmaStreamEnable :: _ => []
  | _ :: h' => filled h'
  end.

(** The first [k] blocks of the buffer, in order. *)
Definition blocks (d : dcmi) (k : Z) : list Z :=
  map (fun i => block d (Z.of_nat i)) (seq 0 (Z.to_nat k)).

Lemma blocks_succ d k : 0 <= k -> blocks d (k + 1) = blocks d k ++ [block d k].
Proof.
  intros Hk. unfold blocks. rewrite Z2Nat.inj_add, Nat.add_1_r, seq_S, map_app by lia.
  cbn. rewrite Z2Nat.id by lia. reflexivity.
Qed.

Record capturing (w : world) : Prop := {
  cap_ready : ready (dma w);
  cap_count : 0 <= blocks_done (dma w) < num_blocks (dma w);
  cap_enabled : stream_enabled (calls w) = true;
  cap_target : target_of (calls w) = 0 \/ target_of (calls w) = 1;
  cap_active : active (calls w) = block (dma w) (blocks_done (dma w));
  cap_idle : idle (calls w) = block (dma w) (blocks_done (dma w) + 1);
  cap_filled : filled (calls w) = blocks (dma w) (blocks_done (dma w)) }.

Record finished (w : world) : Prop := {
  fin_ready : ready (dma w);
  fin_count : blocks_done (dma w) = num_blocks (dma w);
  fin_enabled : stream_enabled (calls w) = false;
  fin_filled : filled (calls w) = blocks (dma w) (num_blocks (dma w)) }.

(** Calls that do not concern the stream. *)
Definition stream_call (c : call) : bool :=
  match c with
  | dmaStreamAllocate _ | dmaStreamSetPeripheral _ | dmaStreamSetTransactionSize _
  | dmaStreamSetMode _ | dmaStreamSetFIFO _ | dmaStreamSetMemory0 _
  | dmaStreamSetMemory1 _ | dmaStreamEnable | dmaStreamDisable
  | dmaStreamClearTCIF | dma_block_complete => true
  | _ => false
  end.

(** A capture in progress: interrupts of the stream while it is enabled, and
    whatever other threads do that does not touch the stream. *)
Inductive step (isr : Z -> M unit) (w w' : world) : Prop :=
| step_half flags :
    stream_enabled (calls w) = true ->
    Z.land flags (Z.lnot ISR_HTIF) = 0 -> isr flags w = Ok (tt, w') -> step isr w w'
| step_block flags :
    stream_enabled (calls w) = true ->
    Z.land flags (Z.lnot ISR_HTIF) = ISR_TCIF ->
    (extern dma_block_complete ;; isr flags) w = Ok (tt, w') -> step isr w w'
| step_other cs :
    calls w' = cs ++ calls w -> (forall c, In c cs -> stream_call c = false) ->
    dma w' = dma w -> samplingFinished (cam w') = samplingFinished (cam w) -> step isr w w'.

Inductive reachable (isr : Z -> M unit) (w0 : world) : world -> Prop :=
| reach_start : reachable isr w0 w0
| reach_step w w' : reachable isr w0 w -> step isr w w' -> reachable isr w0 w'.

Lemma block_range d k : ready d -> 0 <= k <= num_blocks d ->
  0 <= block d k /\ block d k + block_size d <= 2 ^ 32 /\ u32 (block d k) = block d k.
Proof.
  intros [? ? [B1 B2] _ _ _] Hk. unfold block in *.
  assert (0 <= k * block_size d /\ (k + 1) * block_size d <= (num_blocks d + 1) * block_size d) by nia.
  repeat split; [lia | lia |]. apply uwrap_small. unfold in_u. lia.
Qed.

(** The call that hands out block [k + 2] while block [k + 1] is being filled. *)
Definition hand_out (h : list call) (a : Z) : call :=
  if 1 - target_of h =? 0 then dmaStreamSetMemory1 a else dmaStreamSetMemory0 a.

(** The state after the interrupt of a complete block that is not the last. *)
Definition after_block (w : world) : world :=
  let d := dma w in
  set_dma (set_blocks_done (blocks_done d + 1) d)
    (set_calls (hand_out (calls w) (block d (blocks_done d + 2)) ::
                dmaStreamClearTCIF :: dma_block_complete :: calls w) w).

Lemma next_addr d : ready d -> 0 <= blocks_done d < num_blocks d - 1 ->
  u32 (dcmi_dma_buffer d + u32 (block_size d) * u32 (blocks_done d + 1 + 1)) =
  block d (blocks_done d + 2).
Proof.
  intros R Hk. pose proof (ready_size d R). pose proof (ready_blocks d R).
  unfold u32 at 2 3. change (2 ^ 31) with 2147483648 in *.
  rewrite !uwrap_small by (unfold in_u; change (2 ^ 32) with 4294967296; lia).
  rewrite <- (proj2 (proj2 (block_range d (blocks_done d + 2) R ltac:(lia)))).
  f_equal. unfold block. lia.
Qed.

(** The part of the routine before the branch on [blocks_done == num_blocks]. *)
Lemma shuffle_counts on_full flags w :
  capturing w -> Z.land flags (Z.lnot ISR_HTIF) = ISR_TCIF ->
  let w1 := set_calls (dmaStreamClearTCIF :: dma_block_complete :: calls w) w in
  let w2 := set_dma (set_blocks_done (blocks_done (dma w) + 1) (dma w)) w1 in
  (extern dma_block_complete ;; shuffle on_full flags) w =
  (if blocks_done (dma w) + 1 =? num_blocks (dma w)
   then on_full ISR_TCIF ;; extern dmaStreamDisable else set_next_block) w2.
Proof.
  intros [R C _ _ _ _ _] Hf. pose proof (ready_blocks _ R) as B.
  change (2 ^ 31) with 2147483648 in B.
  unfold shuffle. rewrite Hf. cbv zeta. unfold bind at 1, extern at 1, modify at 1.
  destruct (Z.eqb_spec ISR_TCIF 0) as [Z0|_]; [now apply tcif_some in Z0|].
  rewrite Z.eqb_refl. cbn [negb when].
  unfold bind, lift, upd_dma, extern, modify, gets, ret. cbn [dma set_calls calls].
  rewrite i32_ok by (unfold in_s; change (2 ^ (32 - 1)) with 2147483648; lia).
  reflexivity.
Qed.

Lemma shuffle_next on_full flags w :
  capturing w -> Z.land flags (Z.lnot ISR_HTIF) = ISR_TCIF ->
  blocks_done (dma w) + 1 < num_blocks (dma w) ->
  (extern dma_block_complete ;; shuffle on_full flags) w = Ok (tt, after_block w).
Proof.
  intros K Hf Hk. rewrite shuffle_counts by assumption.
  destruct (Z.eqb_spec (blocks_done (dma w) + 1) (num_blocks (dma w))); [lia|].
  destruct K as [R C _ _ _ _ _].
  unfold set_next_block, bind, gets, extern, modify. cbv zeta.
  cbn [calls dma set_dma set_calls]. rewrite target_reads.
  cbn [target_of set_blocks_done dcmi_dma_buffer block_size blocks_done].
  rewrite next_addr by (try lia; assumption).
  unfold after_block, hand_out. destruct (1 - target_of (calls w) =? 0); reflexivity.
Qed.

(** Evaluate the target bits of a history whose tail has target [T]. *)
Ltac targets T :=
  rewrite ?T; cbn [Z.sub Z.eqb Z.add Z.opp Z.pos_sub Pos.eqb];
  cbn [target_of memory0_of memory1_of];
  rewrite ?T; cbn [Z.sub Z.eqb Z.add Z.opp Z.pos_sub Pos.eqb].

Lemma after_block_capturing w :
  capturing w -> blocks_done (dma w) + 1 < num_blocks (dma w) -> capturing (after_block w).
Proof.
  intros [R C E T A I F] Hk.
  assert (ready (dma (after_block w))) as R' by (destruct R; split; assumption).
  assert (filled (calls (after_block w)) = filled (calls w) ++ [active (calls w)]) as F'.
  { cbn [calls after_block set_dma set_calls filled]. unfold hand_out.
    destruct (1 - _ =? 0); reflexivity. }
  rewrite F, A, <- blocks_succ in F' by lia.
  split; [exact R' | cbn; lia | | | | | exact F'].
  - cbn. unfold hand_out. destruct (1 - _ =? 0); exact E.
  - cbn. unfold hand_out. destruct T as [T|T]; targets T; auto.
  - cbn [calls dma after_block set_dma set_calls]. unfold active, hand_out in *.
    change (block (set_blocks_done _ _)) with (block (dma w)). cbn [blocks_done set_blocks_done].
    unfold idle in I. destruct T as [T|T]; rewrite T in I; targets T; exact I.
  - cbn [calls dma after_block set_dma set_calls]. unfold idle, hand_out in *.
    change (block (set_blocks_done _ _)) with (block (dma w)). cbn [blocks_done set_blocks_done].
    destruct T as [T|T]; targets T; f_equal; lia.
Qed.

(** The state after the interrupt of the last block. *)
Definition after_last (w : world) : world :=
  set_cam (set_samplingFinished true (cam w))
    (set_dma (set_blocks_done (num_blocks (dma w)) (dma w))
      (set_calls (dmaStreamDisable :: dmaStreamClearTCIF :: dma_block_complete :: calls w) w)).

Lemma shuffle_last flags w :
  capturing w -> Z.land flags (Z.lnot ISR_HTIF) = ISR_TCIF ->
  blocks_done (dma w) + 1 = num_blocks (dma w) ->
  (extern dma_block_complete ;; dcmi_dma_shuffle_isr flags) w = Ok (tt, after_last w).
Proof.
  intros K Hf Hk. unfold dcmi_dma_shuffle_isr. rewrite shuffle_counts by assumption.
  rewrite Hk, Z.eqb_refl. destruct K as [R _ _ _ _ _ _].
  unfold bind, gets, extern, modify. cbn [dma set_dma set_calls].
  cbn [dcmi_dma_done_callback set_blocks_done]. rewrite (ready_done _ R). reflexivity.
Qed.

Lemma after_last_finished w :
  capturing w -> blocks_done (dma w) + 1 = num_blocks (dma w) -> finished (after_last w).
Proof.
  intros [R C E T A I F] Hk. split.
  - destruct R; split; assumption.
  - reflexivity.
  - reflexivity.
  - cbn [calls dma after_last set_cam set_dma set_calls filled num_blocks set_blocks_done].
    change (blocks (set_blocks_done _ _)) with (blocks (dma w)).
    rewrite F, A, <- blocks_succ by lia. f_equal. exact Hk.
Qed.

(** Out of buffer in the open-ended mode: the error callback stops the system. *)
Lemma shuffle_full_open_ended flags w :
  capturing w -> Z.land flags (Z.lnot ISR_HTIF) = ISR_TCIF ->
  blocks_done (dma w) + 1 = num_blocks (dma w) ->
  (extern dma_block_complete ;; dcmi_dma_shuffle_isr_open_ended flags) w = Err Halted.
Proof.
  intros K Hf Hk. unfold dcmi_dma_shuffle_isr_open_ended. rewrite shuffle_counts by assumption.
  rewrite Hk, Z.eqb_refl. destruct K as [R _ _ _ _ _ _].
  unfold bind, gets. cbn [dma set_dma set_calls].
  cbn [dcmi_dma_done_callback dcmi_dma_error_callback set_blocks_done].
  rewrite (ready_done _ R), (ready_error _ R). reflexivity.
Qed.

Lemma shuffle_half on_full flags w :
  Z.land flags (Z.lnot ISR_HTIF) = 0 -> shuffle on_full flags w = Ok (tt, w).
Proof. intros E. unfold shuffle. rewrite E. reflexivity. Qed.

(** Other threads' calls leave the view of the stream alone. *)
Lemma other_calls cs h : (forall c, In c cs -> stream_call c = false) ->
  stream_enabled (cs ++ h) = stream_enabled h /\ target_of (cs ++ h) = target_of h /\
  memory0_of (cs ++ h) = memory0_of h /\ memory1_of (cs ++ h) = memory1_of h /\
  filled (cs ++ h) = filled h.
Proof.
  induction cs as [|c cs IH]; intros Hc; [auto|].
  destruct IH as (E1 & E2 & E3 & E4 & E5); [intros; apply Hc; now right|].
  specialize (Hc c (or_introl eq_refl)).
  destruct c; try discriminate Hc; cbn [app stream_enabled target_of memory0_of memory1_of filled];
    auto.
Qed.

Lemma step_other_inv cs w w' :
  calls w' = cs ++ calls w -> (forall c, In c cs -> stream_call c = false) -> dma w' = dma w ->
  (capturing w -> capturing w') /\ (finished w -> finished w').
Proof.
  intros Ec Hc Ed. destruct (other_calls cs (calls w) Hc) as (E1 & E2 & E3 & E4 & E5).
  assert (active (calls w') = active (calls w) /\ idle (calls w') = idle (calls w)) as [Ea Ei].
  { unfold active, idle. rewrite Ec, E2, E3, E4. auto. }
  rewrite <- Ec in *.
  split; intros []; split; rewrite ?Ed; try congruence; assumption.
Qed.

(** One step of the finite capture. *)
Lemma step_inv w w' : step dcmi_dma_shuffle_isr w w' ->
  capturing w \/ finished w -> capturing w' \/ finished w'.
Proof.
  intros [flags E Hf R | flags E Hf R | cs Ec Hc Ed _] I.
  - unfold dcmi_dma_shuffle_isr in R. rewrite shuffle_half in R by exact Hf. now injection R as <-.
  - destruct I as [K|[_ _ D _]]; [|congruence].
    pose proof (cap_count w K).
    destruct (Z.eq_dec (blocks_done (dma w) + 1) (num_blocks (dma w))) as [L|L].
    + rewrite shuffle_last in R by assumption. injection R as <-.
      right. now apply after_last_finished.
    + unfold dcmi_dma_shuffle_isr in R. rewrite shuffle_next in R by (assumption || lia).
      injection R as <-. left. apply after_block_capturing; [exact K | lia].
  - pose proof (step_other_inv cs w w' Ec Hc Ed). tauto.
Qed.

(** The flag that tells the waiting thread. *)
Definition flagged (w : world) : Prop :=
  capturing w /\ samplingFinished (cam w) = false \/
  finished w /\ samplingFinished (cam w) = true.

Lemma step_flagged w w' : step dcmi_dma_shuffle_isr w w' -> flagged w -> flagged w'.
Proof.
  intros [flags E Hf R | flags E Hf R | cs Ec Hc Ed Es] I.
  - unfold dcmi_dma_shuffle_isr in R. rewrite shuffle_half in R by exact Hf. now injection R as <-.
  - destruct I as [[K S]|[[_ _ D _] _]]; [|congruence].
    pose proof (cap_count w K).
    destruct (Z.eq_dec (blocks_done (dma w) + 1) (num_blocks (dma w))) as [L|L].
    + rewrite shuffle_last in R by assumption. injection R as <-.
      right. split; [now apply after_last_finished | reflexivity].
    + unfold dcmi_dma_shuffle_isr in R. rewrite shuffle_next in R by (assumption || lia).
      injection R as <-. left. split; [apply after_block_capturing; [exact K | lia] | exact S].
  - pose proof (step_other_inv cs w w' Ec Hc Ed) as [Ho1 Ho2]. unfold flagged in *. rewrite Es. tauto.
Qed.

(** One step of the open-ended capture: it never runs past the last block, and
    only the block counter of the driver changes. *)
Lemma step_inv_open w w' : step dcmi_dma_shuffle_isr_open_ended w w' ->
  capturing w -> capturing w' /\ exists k, dma w' = set_blocks_done k (dma w).
Proof.
  intros [flags E Hf R | flags E Hf R | cs Ec Hc Ed _] K.
  - unfold dcmi_dma_shuffle_isr_open_ended in R. rewrite shuffle_half in R by exact Hf.
    injection R as <-. split; [exact K|]. exists (blocks_done (dma w)). now destruct (dma w).
  - pose proof (cap_count w K).
    destruct (Z.eq_dec (blocks_done (dma w) + 1) (num_blocks (dma w))) as [L|L].
    + rewrite shuffle_full_open_ended in R by assumption. discriminate R.
    + unfold dcmi_dma_shuffle_isr_open_ended in R. rewrite shuffle_next in R by (assumption || lia).
      injection R as <-. split; [apply after_block_capturing; [exact K | lia]|].
      eexists. reflexivity.
  - pose proof (step_other_inv cs w w' Ec Hc Ed). split; [tauto|].
    exists (blocks_done (dma w)). rewrite Ed. now destruct (dma w).
Qed.

Lemma reach_open w0 w : capturing w0 -> reachable dcmi_dma_shuffle_isr_open_ended w0 w ->
  capturing w /\ exists k, dma w = set_blocks_done k (dma w0).
Proof.
  intros K. induction 1 as [|w w' _ [IH [k Hd]] S].
  - split; [exact K|]. exists (blocks_done (dma w0)). now destruct (dma w0).
  - destruct (step_inv_open w w' S IH) as [K' [k' Hd']]. split; [exact K'|].
    exists k'. rewrite Hd', Hd. reflexivity.
Qed.

(** Stopping: the larger of the two target addresses is the end of the block that
    is being filled. *)
Lemma open_ended_stop_run w : capturing w ->
  exists w', dcmi_dma_open_ended_stop w = Ok (tt, w') /\
    dcmi_dma_bytes_received (dma w') = (blocks_done (dma w) + 1) * block_size (dma w).
Proof.
  intros [R C E T A I F].
  unfold dcmi_dma_open_ended_stop, bind, extern, modify, gets, upd_dma. cbv zeta.
  cbn [dma calls set_calls]. rewrite memory0_reads, memory1_reads.
  cbn [memory0_of memory1_of]. eexists. split; [reflexivity|].
  cbn [dma set_dma dcmi_dma_bytes_received set_bytes_received].
  pose proof (ready_size _ R). pose proof (ready_addr _ R) as [B0 B1].
  pose proof (ready_blocks _ R). unfold active, idle, block in *.
  set (bs := block_size (dma w)) in *. set (k := blocks_done (dma w)) in *.
  set (b := dcmi_dma_buffer (dma w)) in *.
  assert (b + (k + 1) * bs - b < 2 ^ 32) by nia.
  assert (0 <= (k + 1) * bs) by nia.
  destruct T as [T|T]; rewrite T in A, I; cbn [Z.eqb] in A, I; rewrite A, I;
    match goal with |- context [?x <? ?y] => destruct (Z.ltb_spec x y) end; try nia;
    unfold u32; rewrite uwrap_small by (unfold in_u; lia); lia.
Qed.

Lemma blocks_in d k a : 0 < block_size d -> 0 <= k -> In a (blocks d k) ->
  dcmi_dma_buffer d <= a /\ a + block_size d <= block d k.
Proof.
  intros Hb Hk H. unfold blocks in H. apply in_map_iff in H as (i & <- & Hi).
  apply in_seq in Hi. unfold block.
  assert (Z.of_nat i + 1 <= k) by lia. nia.
Qed.

Lemma wp_arm w : ready (dma w) ->
  wp dcmi_dma_arm (fun r w' => r = 0 /\ capturing w' /\ dma w' = set_blocks_done 0 (dma w) /\
                               w' = set_calls (calls w') (set_dma (dma w') w) /\ within 4 w w') w.
Proof.
  intros R. unfold dcmi_dma_arm, upd_dma, extern. wp_norm.
  pose proof (ready_blocks _ R). destruct (block_range _ 0 R ltac:(lia)) as (_ & _ & B0).
  destruct (block_range _ 1 R ltac:(lia)) as (_ & _ & B1).
  unfold block in B0, B1. rewrite Z.mul_0_l, Z.add_0_r in B0. rewrite Z.mul_1_l in B1.
  split; [reflexivity|]. split; [|split; [reflexivity|split; [reflexivity|]]].
  2:{ eexists [_; _; _; _]. repeat split; cbn; lia. }
  split; cbn [calls dma set_calls set_dma blocks_done set_blocks_done num_blocks
              stream_enabled target_of]; auto.
  - destruct R; split; assumption.
  - lia.
  - destruct (Z.land _ _ =? 0); auto.
  - unfold active, block. cbn [target_of memory0_of memory1_of stream_control_register
      dcmi_dma_buffer block_size set_blocks_done]. rewrite (ready_ct _ R). cbn [Z.eqb]. lia.
  - unfold idle, block. cbn [target_of memory0_of memory1_of stream_control_register
      dcmi_dma_buffer block_size set_blocks_done]. rewrite (ready_ct _ R). cbn [Z.eqb]. lia.
Qed.

(** C8: safety of the capture of a frame.  Once the driver is armed, in every
    state the interrupts and the other threads can lead to: as long as the stream
    runs, it is filling block number blocks_done of the buffer, the next target
    is the block after it, and exactly the blocks before it have been filled, in
    order; when it no longer runs, exactly the num_blocks blocks of the buffer
    have been filled, in order.  Even while the last interrupt is pending the
    stream stays within one block after the buffer. *)
Theorem dcmi_capture_invariant w0 w1 w :
  ready (dma w0) -> dcmi_dma_arm w0 = Ok (0, w1) ->
  reachable dcmi_dma_shuffle_isr w1 w ->
  let d := dma w in
  ready d /\
  if stream_enabled (calls w)
  then 0 <= blocks_done d < num_blocks d /\
       active (calls w) = block d (blocks_done d) /\
       active (dma_block_complete :: calls w) = block d (blocks_done d + 1) /\
       block d (blocks_done d + 1) + block_size d <= block d (num_blocks d) + block_size d /\
       filled (calls w) = blocks d (blocks_done d)
  else filled (calls w) = blocks d (num_blocks d).
Proof.
  intros R A Re. pose proof (wp_run _ _ _ _ _ (wp_arm w0 R) A) as (_ & K & _).
  assert (capturing w \/ finished w) as I.
  { induction Re as [|w w' _ IH S]; [now left | now apply (step_inv w w')]. }
  cbv zeta. destruct I as [[R' C E T Ac Id F]|[R' C E F]]; (split; [exact R'|]); rewrite E.
  - split; [exact C|]. split; [exact Ac|]. split; [|split; [|exact F]].
    + rewrite <- Id. unfold active, idle. cbn [target_of memory0_of memory1_of].
      destruct T as [->| ->]; reflexivity.
    + unfold block. pose proof (ready_size _ R'). nia.
  - exact F.
Qed.

(** [n] complete blocks, one interrupt each. *)
Definition complete_blocks (isr : Z -> M unit) (n : nat) : M unit :=
  repeat_st n (extern dma_block_complete ;; isr ISR_TCIF).

Lemma complete_run n : forall w,
  capturing w -> blocks_done (dma w) + Z.of_nat (S n) = num_blocks (dma w) ->
  wp (complete_blocks dcmi_dma_shuffle_isr (S n))
     (fun _ w' => finished w' /\ samplingFinished (cam w') = true /\
        dma w' = set_blocks_done (num_blocks (dma w)) (dma w)) w.
Proof.
  assert (Z.land ISR_TCIF (Z.lnot ISR_HTIF) = ISR_TCIF) as F by apply tcif_not_htif.
  unfold complete_blocks. induction n as [|n IH]; intros w K Hn; cbn [repeat_st]; rewrite wp_bind.
  - eapply wp_ok. exists tt, (after_last w).
    split; [apply shuffle_last; assumption || lia|]. rewrite wp_ret.
    split; [apply after_last_finished; assumption || lia | split; reflexivity].
  - eapply wp_ok. exists tt, (after_block w).
    split; [apply shuffle_next; assumption || lia|].
    wp_use IH; [apply after_block_capturing; assumption || lia | cbn [dma after_block set_dma
      set_calls blocks_done set_blocks_done num_blocks]; lia |].
    intros [] w' (Fi & S & Ed). rewrite Ed. auto.
Qed.

(** C34: a frame is captured.  After arming, num_blocks complete interrupts run
    without a fault: the done callback has set samplingFinished, the stream is
    disabled and the buffer's blocks have been filled in order. *)
Theorem dcmi_capture_completes w :
  ready (dma w) ->
  exists w', (dcmi_dma_arm ;; complete_blocks dcmi_dma_shuffle_isr (Z.to_nat (num_blocks (dma w)))) w
               = Ok (tt, w') /\
    samplingFinished (cam w') = true /\ stream_enabled (calls w') = false /\
    filled (calls w') = blocks (dma w) (num_blocks (dma w)).
Proof.
  intros R. pose proof (ready_blocks _ R) as B.
  destruct (Z.to_nat (num_blocks (dma w))) as [|n] eqn:En; [lia|].
  pose proof (wp_arm w R) as W.
  apply wp_ok in W as (r & w1 & Ra & _ & K & Ed & _).
  assert (blocks_done (dma w1) + Z.of_nat (S n) = num_blocks (dma w1)) as Hn.
  { rewrite Ed. cbn [blocks_done set_blocks_done num_blocks]. lia. }
  pose proof (complete_run n w1 K Hn) as W.
  apply wp_ok in W as ([] & w' & Rc & [_ _ E F] & S & Ed'). exists w'.
  split; [unfold bind; rewrite Ra; exact Rc|]. rewrite Ed', Ed in F. auto.
Qed.

(** C27: the open-ended capture of a JPEG image.  In every state the interrupts
    and the other threads can lead to, the stream fills a block inside the
    buffer, and so does the block it would fill next; when the capture is
    stopped there, the number of bytes reported covers every filled block and
    the one being filled, and lies inside the buffer.  The interrupt of the next
    complete block is served, unless it is the last block of the buffer: then
    the error callback is called and its assertion halts the system. *)
Theorem open_ended_stays_inside w0 w1 w :
  ready (dma w0) ->
  block (dma w0) (num_blocks (dma w0) + 1) <=
    dcmi_dma_buffer (dma w0) + dcmi_dma_buffer_size (dma w0) ->
  dcmi_dma_arm w0 = Ok (0, w1) -> reachable dcmi_dma_shuffle_isr_open_ended w1 w ->
  let last := dcmi_dma_buffer (dma w) + dcmi_dma_buffer_size (dma w) in
  active (calls w) + block_size (dma w) <= last /\
  idle (calls w) + block_size (dma w) <= last /\
  exists w', dcmi_dma_open_ended_stop w = Ok (tt, w') /\
    let n := dcmi_dma_bytes_received (dma w') in
    n = (blocks_done (dma w) + 1) * block_size (dma w) /\
    0 < n <= dcmi_dma_buffer_size (dma w) - block_size (dma w) /\
    active (calls w) + block_size (dma w) = dcmi_dma_buffer (dma w) + n /\
    (forall a, In a (filled (calls w)) ->
       dcmi_dma_buffer (dma w) <= a /\ a + block_size (dma w) <= dcmi_dma_buffer (dma w) + n) /\
    forall flags, Z.land flags (Z.lnot ISR_HTIF) = ISR_TCIF ->
      let isr := (extern dma_block_complete ;; dcmi_dma_shuffle_isr_open_ended flags) w in
      if blocks_done (dma w) + 1 =? num_blocks (dma w) then isr = Err Halted
      else exists w'', isr = Ok (tt, w'').
Proof.
  intros R Fit A Re. pose proof (wp_run _ _ _ _ _ (wp_arm w0 R) A) as (_ & K0 & Ed & _).
  destruct (reach_open w1 w K0 Re) as [K [k Hd]]. rewrite Ed in Hd.
  destruct (open_ended_stop_run w K) as (w' & Rn & Hn).
  assert (block (dma w) (num_blocks (dma w) + 1) <=
          dcmi_dma_buffer (dma w) + dcmi_dma_buffer_size (dma w)) as Fit'
    by (rewrite Hd; exact Fit).
  pose proof K as K'. destruct K' as [Rd C E T Ac Id F]. pose proof (ready_size _ Rd) as Bs. cbv zeta.
  rewrite Ac, Id. unfold block in *.
  split; [nia|]. split; [nia|]. exists w'. split; [exact Rn|]. rewrite Hn.
  split; [reflexivity|]. split; [nia|]. split; [lia|]. split.
  - intros a Ha. rewrite F in Ha. apply blocks_in in Ha; [|lia|lia].
    unfold block in Ha. lia.
  - intros flags Hf. destruct (Z.eqb_spec (blocks_done (dma w) + 1) (num_blocks (dma w))).
    + now apply shuffle_full_open_ended.
    + eexists. apply shuffle_next; [exact K | exact Hf | lia].
Qed.

(** ** Initialisation makes the driver ready *)

(** Everything but the control register is as the geometry set it. *)
Lemma wp_setup_stream isr size w :
  wp (setup_stream isr size)
     (fun _ w' => exists cr, dma w' = set_control cr (dma w) /\ Z.land cr CR_CT = 0 /\
                             w' = set_calls (calls w') (set_dma (dma w') w) /\ within 7 w w') w.
Proof.
  assert (forall x, Z.land (Z.land x (Z.lnot CR_CT)) CR_CT = 0) as Clear.
  { intros x. rewrite <- Z.land_assoc, (Z.land_comm _ CR_CT), Z.land_lnot_diag. apply Z.land_0_r. }
  unfold setup_stream, extern, upd_dma. wp_norm. apply wp_when; intros _; wp_norm;
    cbn [dma set_dma set_calls]; eexists; (split; [reflexivity|]);
    (split; [|split; [reflexivity|]]).
  - cbn [stream_control_register set_control].
    rewrite Z.land_lor_distr_l, Clear. apply dbm_not_ct.
  - eexists [_; _; _; _; _; _; _]. repeat split. cbn. lia.
  - apply Clear.
  - eexists [_; _; _; _; _; _]. repeat split. cbn. lia.
Qed.

(** The callbacks are set and a buffer of [size] bytes at the buffer's address,
    followed by [spare] more bytes, lies in the address space. *)
Record configured (size spare : Z) (d : dcmi) : Prop := {
  conf_buffer : 0 < dcmi_dma_buffer d;
  conf_fits : dcmi_dma_buffer d + size + spare <= 2 ^ 32;
  conf_done : dcmi_dma_done_callback d = Some cb_dma_avail;
  conf_error : dcmi_dma_error_callback d = Some cb_dma_error }.

Lemma wp_init w :
  let size := dcmi_dma_image_size (dma w) in
  0 < size -> configured size (2 ^ 18) (dma w) ->
  wp dcmi_dma_init (fun r w' =>
    r = 0 /\ (exists words, valid_split size (num_blocks (dma w')) words /\
                            block_size (dma w') = 4 * words) /\
      (1 < num_blocks (dma w') -> ready (dma w')) /\
      dcmi_dma_buffer (dma w') = dcmi_dma_buffer (dma w) /\ cam w' = cam w /\ within 7 w w'
    \/ r = -1 /\ w' = w /\ (forall n words, ~ valid_split size n words)) w.
Proof.
  intros size Hs [Cb Cf Cd Ce]. change (2 ^ 18) with 262144 in Cf.
  assert (size < 2 ^ 32) by lia. unfold dcmi_dma_init. wp_norm.
  fold size. destruct (Z.eqb_spec (dcmi_dma_buffer (dma w)) 0); [lia|].
  destruct (Z.eqb_spec size 0); [lia|]. cbn [orb]. wp_norm.
  assert (0 <= size / 1024) by (apply Z.div_pos; lia).
  destruct (find_blocks_spec (blocks_fuel size) size 1 ltac:(lia) ltac:(lia)) as (r & Er & R).
  { unfold blocks_fuel. rewrite Z2Nat.id by lia. lia. }
  eapply wp_lift; [exact Er|]. destruct r as [[nb words]|].
  - unfold upd_dma. wp_norm. wp_use wp_setup_stream. intros _ w' (cr & Ed & Ect & Fr & Wi). wp_norm.
    left. split; [reflexivity|]. rewrite Ed. cbn [dma set_dma num_blocks block_size set_control
      set_geometry dcmi_dma_buffer]. destruct R as (V & Hn & _). split; [eauto|].
    split; [intros Hm|split; [reflexivity|split; [rewrite Fr; reflexivity | exact Wi]]].
    destruct V as [V1 V2 V3].
    assert (nb < 2 ^ 31) by (change (2 ^ 31) with 2147483648; change (2 ^ 32) with 4294967296 in *; nia).
    split; unfold block; cbn [num_blocks block_size set_control set_geometry dcmi_dma_buffer
      stream_control_register dcmi_dma_done_callback dcmi_dma_error_callback]; auto.
    + lia.
    + change (2 ^ 31) with 2147483648. lia.
    + replace ((nb + 1) * (4 * words)) with (4 * words * nb + 4 * words) by lia. lia.
  - wp_norm. right. repeat split. intros n' w' V. apply (R n' w'); [apply V | exact V].
Qed.

(** dcmi_dma_init.  It returns 0 exactly when the image can be cut into
    equal blocks of 256 to 65535 words; the geometry is then such a cut, and if
    it has more than one block the driver is ready to be armed, given a spare
    256 KiB after the buffer.  Otherwise it returns -1 and changes nothing. *)
Theorem dcmi_init_spec w :
  let size := dcmi_dma_image_size (dma w) in
  0 < size -> configured size (2 ^ 18) (dma w) ->
  exists r w', dcmi_dma_init w = Ok (r, w') /\
    (r = 0 /\ (exists words, valid_split size (num_blocks (dma w')) words /\
                             block_size (dma w') = 4 * words) /\
       (1 < num_blocks (dma w') -> ready (dma w'))
     \/ r = -1 /\ w' = w /\ (forall n words, ~ valid_split size n words)).
Proof.
  intros size Hs C. pose proof (wp_init w Hs C) as W.
  apply wp_ok in W as (r & w' & R & W). exists r, w'. split; [exact R|]. tauto.
Qed.

Lemma wp_init_open_ended w :
  let size := dcmi_dma_buffer_size (dma w) in
  3 * 262136 <= size -> configured size 0 (dma w) ->
  wp dcmi_dma_init_open_ended (fun r w' => r = 0 /\ ready (dma w') /\
    block_size (dma w') = 262136 /\ num_blocks (dma w') = size / 262136 - 1 /\
    block (dma w') (num_blocks (dma w') + 1) <=
      dcmi_dma_buffer (dma w') + dcmi_dma_buffer_size (dma w') /\
    dcmi_dma_buffer (dma w') = dcmi_dma_buffer (dma w) /\
    dcmi_dma_buffer_size (dma w') = size /\
    w' = set_calls (calls w') (set_dma (dma w') w) /\ within 7 w w') w.
Proof.
  intros size Hs [Cb Cf Cd Ce]. change (2 ^ 32) with 4294967296 in Cf.
  unfold dcmi_dma_init_open_ended. wp_norm. fold size.
  destruct (Z.eqb_spec (dcmi_dma_buffer (dma w)) 0); [lia|].
  destruct (Z.eqb_spec size 0); [lia|]. cbn [orb]. cbv zeta.
  change (4 * 65534) with 262136.
  assert (2 <= size / 262136 - 1 <= 16384 /\ (size / 262136) * 262136 <= size) as [Q Q'] by dlia.
  assert (s32 (u32 (size / 262136 - 1)) = size / 262136 - 1) as ->.
  { unfold s32, u32. rewrite uwrap_small, swrap_small by in_range. reflexivity. }
  unfold upd_dma. wp_norm. wp_use wp_setup_stream. intros _ w' (cr & Ed & Ect & Fr & Wi). wp_norm.
  rewrite Ed in *. split; [reflexivity|].
  cbn [dma set_dma num_blocks block_size set_control set_geometry dcmi_dma_buffer
       dcmi_dma_buffer_size]. fold size.
  split; [|split; [reflexivity|split; [reflexivity|split; [unfold block; cbn; lia|]]]].
  - split; unfold block; cbn [num_blocks block_size set_control set_geometry dcmi_dma_buffer
      stream_control_register dcmi_dma_done_callback dcmi_dma_error_callback]; auto;
      change (2 ^ 32) with 4294967296; change (2 ^ 31) with 2147483648; lia.
  - repeat split; [exact Fr | exact Wi].
Qed.

End Capture.

(** ** A stream that behaves as its history says (bit numbers of the STM32F4) *)

Definition dma_constants : DmaStream := {|
  current_target _ := 0; memory0 _ := 0; memory1 _ := 0;
  ISR_HTIF := 0x10; ISR_TCIF := 0x20; CR_base := 0x02825410;
  CR_CT := 0x80000; CR_DBM := 0x40000; FCR_FTH_FULL := 0x3 |}.

Definition stm32_dma : DmaStream := {|
  current_target := @target_of dma_constants; memory0 := memory0_of; memory1 := memory1_of;
  ISR_HTIF := 0x10; ISR_TCIF := 0x20; CR_base := 0x02825410;
  CR_CT := 0x80000; CR_DBM := 0x40000; FCR_FTH_FULL := 0x3 |}.

Lemma stm32_dma_laws : @DmaLaws stm32_dma.
Proof.
  split; try (intros; reflexivity); cbn; try discriminate.
  intros h. induction h as [|[] h IH]; cbn [target_of]; auto. now rewrite IH.
Qed.

(** The RGB frame buffer in SDRAM, before initialisation, and after it. *)
Definition rgb_config : dcmi :=
  {| dcmi_dma_buffer := 0xD0000000; dcmi_dma_image_size := 6291456;
     dcmi_dma_buffer_size := 6291456; dcmi_dma_bytes_received := 0;
     dcmi_dma_done_callback := Some cb_dma_avail;
     dcmi_dma_error_callback := Some cb_dma_error;
     blocks_done := 0; block_size := 0; num_blocks := 0; stream_control_register := 0 |}.

Definition rgb_ready : dcmi := set_control 0x02865410 (set_geometry 32 196608 rgb_config).

Definition jpeg_ready : dcmi := set_control 0x02865410 (set_geometry 23 262136 rgb_config).

Ltac closed := vm_compute; repeat split; discriminate.

Lemma rgb_ready_ok : @ready stm32_dma rgb_ready.
Proof. split; try reflexivity; closed. Qed.

Lemma jpeg_ready_ok : @ready stm32_dma jpeg_ready.
Proof. split; try reflexivity; closed. Qed.

(** The state after arming, and after the first complete block. *)
Definition run_or (r : result (Z * world)) (w : world) : world :=
  match r with Ok (_, w') => w' | Err _ => w end.

Definition armed (d : dcmi) : world :=
  run_or (dcmi_dma_arm (set_dma d reset_world)) reset_world.

Lemma first_block d : @capturing stm32_dma (armed d) -> 2 <= num_blocks d ->
  blocks_done (dma (armed d)) + 1 < num_blocks (dma (armed d)) ->
  @reachable stm32_dma (@dcmi_dma_shuffle_isr stm32_dma) (armed d)
    (@after_block stm32_dma (armed d)) /\
  @reachable stm32_dma (@dcmi_dma_shuffle_isr_open_ended stm32_dma) (armed d)
    (@after_block stm32_dma (armed d)).
Proof.
  intros K H Hk.
  split; (eapply reach_step; [apply reach_start|]; apply step_block with (flags := 0x30);
    [apply K | reflexivity | apply (@shuffle_next stm32_dma stm32_dma_laws); assumption || reflexivity]).
Qed.

Lemma armed_capturing d : @ready stm32_dma d -> @capturing stm32_dma (armed d).
Proof.
  intros R. pose proof (@wp_arm stm32_dma (set_dma d reset_world) R) as W.
  apply wp_ok in W as (r & w' & Ra & _ & K & _). unfold armed. rewrite Ra. exact K.
Qed.

Lemma dcmi_capture_invariant_witness :
  exists w, @reachable stm32_dma (@dcmi_dma_shuffle_isr stm32_dma) (armed rgb_ready) w /\
    blocks_done (dma w) = 1 /\ @ready stm32_dma (dma w) /\
    @active stm32_dma (calls w) = 0xD0030000 /\ @filled stm32_dma (calls w) = [0xD0000000].
Proof.
  pose proof (armed_capturing _ rgb_ready_ok) as K.
  destruct (first_block rgb_ready K ltac:(discriminate) ltac:(reflexivity)) as [Re _].
  exists (@after_block stm32_dma (armed rgb_ready)).
  pose proof (@dcmi_capture_invariant stm32_dma stm32_dma_laws (set_dma rgb_ready reset_world)
                (armed rgb_ready) _ rgb_ready_ok eq_refl Re) as (R & _ & A & _ & _ & F).
  split; [exact Re|]. split; [reflexivity|]. split; [exact R|]. split; [exact A | exact F].
Defined.

Lemma dcmi_capture_completes_witness :
  exists w', bind (dcmi_dma_arm) (fun _ =>
      @complete_blocks stm32_dma (@dcmi_dma_shuffle_isr stm32_dma) 32) (set_dma rgb_ready reset_world)
      = Ok (tt, w') /\
    samplingFinished (cam w') = true /\ stream_enabled (calls w') = false /\
    @filled stm32_dma (calls w') = blocks rgb_ready 32.
Proof.
  exact (@dcmi_capture_completes stm32_dma stm32_dma_laws (set_dma rgb_ready reset_world)
           rgb_ready_ok).
Defined.

Lemma open_ended_stays_inside_witness :
  exists w, @reachable stm32_dma (@dcmi_dma_shuffle_isr_open_ended stm32_dma) (armed jpeg_ready) w /\
    @active stm32_dma (calls w) + 262136 <= 0xD0000000 + 6291456 /\
    exists w', @dcmi_dma_open_ended_stop stm32_dma w = Ok (tt, w') /\
      dcmi_dma_bytes_received (dma w') = 2 * 262136.
Proof.
  pose proof (armed_capturing _ jpeg_ready_ok) as K.
  destruct (first_block jpeg_ready K ltac:(discriminate) ltac:(reflexivity)) as [_ Re].
  exists (@after_block stm32_dma (armed jpeg_ready)).
  pose proof (@open_ended_stays_inside stm32_dma stm32_dma_laws (set_dma jpeg_ready reset_world)
    (armed jpeg_ready) _ jpeg_ready_ok ltac:(discriminate) eq_refl Re)
    as (A & _ & w' & R & N & _).
  split; [exact Re|]. split; [exact A|]. exists w'. split; [exact R | exact N].
Defined.

