(* ===== verification/OvTables.v ===== *)
(** * Constant data of ov5640.c: register tables and the fallback image

    The register tables of the camera and the JPEG image the firmware falls back
    to, entry by entry in the order of the source.  The part of the RGB table
    under [#ifdef mode_...] depends on the mode chosen in ov5640.h, here the
    argument [m]. *)

From Stdlib Require Import ZArith List.
Import ListNotations.
Local Open Scope Z_scope.

Record regval_list : Set := rv { reg : Z; val : Z }.

(** The display modes of ov5640.h (exactly one is defined there). *)
Inductive mode : Set :=
| mode_320x240 | mode_640x480 | mode_1280x960 | mode_1280x960_2x2 | mode_2048x1536.

(** The mode ov5640.h defines. *)
Definition configured_mode : mode := mode_2048x1536.

Definition noCameraFound_1 : list Z :=
  [0xFF; 0xD8; 0xFF; 0xE0; 0x00; 0x10; 0x4A; 0x46; 0x49; 0x46; 0x00; 0x01; 0x01; 0x01; 0x00; 0x48;
   0x00; 0x48; 0x00; 0x00; 0xFF; 0xDB; 0x00; 0x43; 0x00; 0x03; 0x02; 0x02; 0x03; 0x02; 0x02; 0x03;
   0x03; 0x03; 0x03; 0x04; 0x03; 0x03; 0x04; 0x05; 0x08; 0x05; 0x05; 0x04; 0x04; 0x05; 0x0A; 0x07;
   0x07; 0x06; 0x08; 0x0C; 0x0A; 0x0C; 0x0C; 0x0B; 0x0A; 0x0B; 0x0B; 0x0D; 0x0E; 0x12; 0x10; 0x0D;
   0x0E; 0x11; 0x0E; 0x0B; 0x0B; 0x10; 0x16; 0x10; 0x11; 0x13; 0x14; 0x15; 0x15; 0x15; 0x0C; 0x0F;
   0x17; 0x18; 0x16; 0x14; 0x18; 0x12; 0x14; 0x15; 0x14; 0xFF; 0xDB; 0x00; 0x43; 0x01; 0x03; 0x04;
   0x04; 0x05; 0x04; 0x05; 0x09; 0x05; 0x05; 0x09; 0x14; 0x0D; 0x0B; 0x0D; 0x14; 0x14; 0x14; 0x14;
   0x14; 0x14; 0x14; 0x14; 0x14; 0x14; 0x14; 0x14; 0x14; 0x14; 0x14; 0x14; 0x14; 0x14; 0x14; 0x14;
   0x14; 0x14; 0x14; 0x14; 0x14; 0x14; 0x14; 0x14; 0x14; 0x14; 0x14; 0x14; 0x14; 0x14; 0x14; 0x14;
   0x14; 0x14; 0x14; 0x14; 0x14; 0x14; 0x14; 0x14; 0x14; 0x14; 0x14; 0x14; 0x14; 0x14; 0xFF; 0xC0;
   0x00; 0x11; 0x08; 0x00; 0xF0; 0x01; 0x40; 0x03; 0x01; 0x11; 0x00; 0x02; 0x11; 0x01; 0x03; 0x11;
   0x01; 0xFF; 0xC4; 0x00; 0x1D; 0x00; 0x01; 0x00; 0x00; 0x07; 0x01; 0x01; 0x00; 0x00; 0x00; 0x00;
   0x00; 0x00; 0x00; 0x00; 0x00; 0x00; 0x00; 0x01; 0x02; 0x04; 0x06; 0x07; 0x08; 0x09; 0x05; 0x03;
   0xFF; 0xC4; 0x00; 0x4D; 0x10; 0x00; 0x01; 0x02; 0x05; 0x02; 0x03; 0x04; 0x08; 0x03; 0x04; 0x05;
   0x06; 0x0F; 0x00; 0x00; 0x00; 0x01; 0x00; 0x02; 0x03; 0x04; 0x05; 0x06; 0x11; 0x07; 0x12; 0x08;
   0x13; 0x21; 0x14; 0x31; 0x51; 0x91; 0x09; 0x15; 0x16; 0x22; 0x32; 0x41; 0x52; 0x61; 0x17; 0x33;
   0x71; 0x18; 0x81; 0xA1; 0xB1; 0x23; 0x34; 0x42; 0x72; 0xC1; 0x19; 0x24; 0x53; 0x62; 0x92; 0xA3;
   0x25; 0x28; 0x35; 0x38; 0x55; 0x65; 0x82; 0x83; 0x85; 0x86; 0xA2; 0xB2; 0xB5; 0xC2; 0xF0; 0xFF;
   0xC4; 0x00; 0x1C; 0x01; 0x01; 0x00; 0x01; 0x05; 0x01; 0x01; 0x00; 0x00; 0x00; 0x00; 0x00; 0x00;
   0x00; 0x00; 0x00; 0x00; 0x00; 0x06; 0x01; 0x04; 0x05; 0x07; 0x08; 0x02; 0x03; 0xFF; 0xC4; 0x00;
   0x37; 0x11; 0x01; 0x00; 0x01; 0x02; 0x04; 0x02; 0x08; 0x04; 0x04; 0x05; 0x05; 0x00; 0x00; 0x00;
   0x00; 0x00; 0x00; 0x01; 0x02; 0x03; 0x04; 0x05; 0x11; 0x21; 0x12; 0x31; 0x06; 0x13; 0x41; 0x51;
   0x61; 0x71; 0x91; 0xB1; 0x07; 0x32; 0x81; 0xC1; 0x22; 0x23; 0x52; 0xA1; 0x14; 0x15; 0x42; 0xA2;
   0xF0; 0x24; 0x33; 0x62; 0xD1; 0xF1; 0xFF; 0xDA; 0x00; 0x0C; 0x03; 0x01; 0x00; 0x02; 0x11; 0x03;
   0x11; 0x00; 0x3F; 0x00; 0xEA; 0x9A; 0x02; 0x02; 0x02; 0x02; 0x02; 0x02; 0x02; 0x02; 0x02; 0x02;
   0x02; 0x02; 0x02; 0x02; 0x02; 0x02; 0x02; 0x02; 0x02; 0x02; 0x02; 0x02; 0x02; 0x02; 0x02; 0x02;
   0x02; 0x02; 0x02; 0x02; 0x02; 0x02; 0x02; 0x02; 0x02; 0x02; 0x02; 0x02; 0x02; 0x02; 0x02; 0x02;
   0x02; 0x02; 0x02; 0x02; 0x02; 0x02; 0x02; 0x02; 0x02; 0x02; 0x02; 0x02; 0x02; 0x02; 0x02; 0x02;
   0x02; 0x02; 0x02; 0x02; 0x02; 0x02; 0x02; 0x02; 0x02; 0x02; 0x02; 0x02; 0x02; 0x02; 0x02; 0x02;
   0x02; 0x02; 0x02; 0x02; 0x02; 0x02; 0x02; 0x02; 0x02; 0x02; 0x02; 0x02; 0x02; 0x02; 0x02; 0x02;
   0x02; 0x02; 0x0C; 0x29; 0xC5; 0x4F; 0x10; 0x95; 0x4E; 0x1D; 0xAD; 0x5B; 0x46; 0x7E; 0x89; 0x66;
   0xFB; 0x77; 0x5A; 0xB9; 0xAE; 0x69; 0x4B; 0x62; 0x46; 0x91; 0xEB; 0x46; 0xD3; 0xB7; 0x47; 0x98;
   0x64; 0x67; 0x43; 0x3C; 0xE7; 0xC3; 0x7B; 0x46; 0x5D; 0x08; 0x37; 0x0E; 0xDA; 0x3D; 0xFC; 0x97;
   0x00; 0x3A; 0x87; 0x97; 0xA0; 0xFC; 0x50; 0x55; 0xF5; 0x27; 0x52; 0xAB; 0x9A; 0x6F; 0x7D; 0xE9;
   0xCC; 0xF6; 0x97; 0xDF; 0xF4; 0xCA; 0x6B; 0x2B; 0x2D; 0xA5; 0x4C; 0x54; 0xA0; 0xD4; 0x60; 0x4D;
   0x49; 0x3A; 0x27; 0x2F; 0x9D; 0x0A; 0x62; 0x10; 0x0D; 0x76; 0x1E; 0x43; 0x48; 0xC7; 0x79; 0xEF;
   0x24; 0x10; 0x03; 0x27; 0xD1; 0x35; 0x8E; 0xC1; 0xB9; 0x6E; 0x58; 0x96; 0xED; 0x22; 0xF8; 0xB6;
   0xEA; 0xB7; 0x04; 0x22; 0xE0; 0xFA; 0x4C; 0x95; 0x5E; 0x5E; 0x34; 0xD3; 0x36; 0xFC; 0x59; 0x84;
   0xD7; 0x97; 0x0C; 0x60; 0xE7; 0xA7; 0x44; 0x1F; 0x6B; 0xC3; 0x55; 0xEC; 0x8D; 0x3C; 0x9A; 0x95;
   0x96; 0xBA; 0xAF; 0x1A; 0x05; 0xB3; 0x33; 0x37; 0xFD; 0x5E; 0x0D; 0x62; 0xA9; 0x02; 0x51; 0xF1;
   0xBA; 0xE3; 0xDC; 0x11; 0x1C; 0x0B; 0xBA; 0xF4; 0xE8; 0x81; 0x75; 0x6A; 0xC5; 0x91; 0x62; 0x36;
   0x45; 0xD7; 0x2D; 0xE5; 0x6F; 0xDB; 0xCD; 0x9F; 0x00; 0xCA; 0x1A; 0xAD; 0x52; 0x04; 0xB0; 0x98;
   0x07; 0xB8; 0xC3; 0xE6; 0x38; 0x6F; 0xEF; 0xF9; 0x65; 0x07; 0xA3; 0x5A; 0xBC; 0xED; 0xFB; 0x6A;
   0x0D; 0x2E; 0x35; 0x5E; 0xBB; 0x4D; 0xA5; 0x42; 0xAA; 0xCD; 0xC2; 0x90; 0xA7; 0xC4; 0x9D; 0x9C;
   0x87; 0x05; 0xB3; 0x93; 0x31; 0x41; 0x30; 0xA0; 0xC1; 0x2E; 0x23; 0x99; 0x11; 0xF8; 0x3B; 0x58;
   0xDC; 0x97; 0x60; 0xE0; 0x14; 0x1F; 0x0B; 0x4B; 0x50; 0xED; 0x5B; 0xFD; 0xB3; 0xAE; 0xB6; 0x2E;
   0x6A; 0x3D; 0xC6; 0xD9; 0x18; 0xBC; 0x99; 0xA3; 0x48; 0x9F; 0x85; 0x34; 0x25; 0xE2; 0x75; 0xF7;
   0x22; 0x72; 0xDC; 0x76; 0xBB; 0xA1; 0xE8; 0x70; 0x7A; 0x20; 0xB2; 0xB8; 0xA3; 0xD7; 0x4F; 0xD9;
   0xAF; 0x42; 0x6E; 0x6D; 0x47; 0xF5; 0x27; 0xB4; 0x7E; 0xA5; 0xEC; 0xBF; 0xF0; 0x67; 0x6B; 0xEC;
   0xBC; 0xEE; 0x74; 0xD4; 0x28; 0x1F; 0x9B; 0xB1; 0xFB; 0x71; 0xCD; 0xDD; 0xF0; 0x9C; 0xED; 0xC7;
   0x4C; 0xE4; 0x05; 0x81; 0xA6; 0x3C; 0x58; 0xDD; 0x75; 0x4D; 0x62; 0xA2; 0xE9; 0xAE; 0xA9; 0xE9;
   0x0C; 0xF6; 0x95; 0x5C; 0x37; 0x04; 0xA4; 0xC4; 0xDD; 0x0E; 0x27; 0xAE; 0xE5; 0xEA; 0xF2; 0xB3;
   0xFC; 0x86; 0xEF; 0x8D; 0x0F; 0x9B; 0x05; 0xAD; 0x0D; 0x7B; 0x59; 0xEF; 0x63; 0xAF; 0x4E; 0xFC;
   0x64; 0x64; 0x32; 0x7E; 0x95; 0xDE; 0xD5; 0x6A; 0xF4; 0xB5; 0xF5; 0x33; 0x72; 0x57; 0xEC; 0xCA;
   0x8C; 0xBD; 0x1E; 0xE4; 0x9F; 0x91; 0x95; 0x8B; 0x6A; 0xCE; 0x3E; 0x2B; 0x24; 0x64; 0xA1; 0x06;
   0x16; 0x41; 0xA8; 0x17; 0xB8; 0x88; 0x73; 0xAC; 0x05; 0xC6; 0x2B; 0x46; 0x1A; 0xDC; 0xB7; 0x00;
   0x20; 0xF7; 0x2C; 0xED; 0x54; 0xB2; 0xB5; 0x12; 0x2C; 0xDC; 0x2B; 0x52; 0xEF; 0xA0; 0xDC; 0xF1;
   0x24; 0xFF; 0x00; 0xAC; 0xB2; 0x8D; 0x53; 0x81; 0x36; 0x60; 0x7F; 0x7C; 0x43; 0x73; 0xB6; 0xFE;
   0xF4; 0x1F; 0x0B; 0x7F; 0x59; 0x2C; 0x0B; 0xB6; 0xE0; 0x8B; 0x41; 0xA1; 0xDF; 0x16; 0xDD; 0x66;
   0xB9; 0x0B; 0x77; 0x32; 0x99; 0x4F; 0xAB; 0xCB; 0xC7; 0x99; 0x66; 0xDF; 0x8B; 0x30; 0x98; 0xF2;
   0xE1; 0x8F; 0x9E; 0x47; 0x44; 0x17; 0x82; 0x02; 0x02; 0x02; 0x02; 0x02; 0x02; 0x02; 0x02; 0x02;
   0x02; 0x02; 0x02; 0x02; 0x02; 0x02; 0x02; 0x02; 0x02; 0x02; 0x02; 0x02; 0x02; 0x02; 0x02; 0x02;
   0x02; 0x02; 0x0D; 0x3F; 0xF4; 0x93; 0x53; 0xAA; 0x95; 0x8B; 0x57; 0x42; 0xE4; 0x28; 0x95; 0x7F;
   0x67; 0xEB; 0x53; 0x5A; 0xB3; 0x42; 0x81; 0x23; 0x57; 0xEC; 0xCD; 0x99; 0xEC; 0x31; 0xDC; 0xC9;
   0xA6; 0xC3; 0x8F; 0xC9; 0x7E; 0x1B; 0x13; 0x63; 0x88; 0x76; 0xC7; 0x74; 0x76; 0xDC; 0x1E; 0x85;
   0x05; 0x8D; 0xAF; 0x1C; 0x2E; 0xEA; 0x16; 0x9C; 0x68; 0x6E; 0xB5; 0x6A; 0x34; 0xC6; 0xA2; 0xD6;
   0x35; 0x47; 0x57; 0xAA; 0x96; 0xD4; 0x2A; 0x2C; 0x3A; 0xA4; 0x2A; 0x6C; 0x3A; 0x70; 0x96; 0xA5;
   0x36; 0x66; 0x1C; 0x49; 0xA8; 0x30; 0x25; 0xE0; 0x92; 0x1A; 0x4C; 0x31; 0x15; 0xC4; 0x83; 0xF2;
   0xE8; 0x32; 0x49; 0x21; 0xA9; 0xF5; 0x1A; 0x54; 0xB5; 0x47; 0x4C; 0x2D; 0xF9; 0xEA; 0x25; 0xDF;
   0xC2; 0x95; 0x8B; 0x1E; 0x90; 0xF9; 0x5A; 0x8C; 0x85; 0x76; 0xDE; 0x9C; 0xAA; 0x4B; 0x5C; 0x72;
   0xF1; 0x21; 0x39; 0xAF; 0x69; 0x70; 0x73; 0x1F; 0x1E; 0x23; 0xCE; 0xDC; 0x39; 0xB1; 0x18; 0xF3;
   0xD4; 0xE0; 0x03; 0x82; 0x03; 0x64; 0x34; 0xF7; 0xF0; 0x37; 0xF6; 0x89; 0xE2; 0x13; 0xF6; 0x8C;
   0xF6; 0x67; 0xDB; 0xAF; 0x69; 0xE3; 0x7A; 0xB3; 0xDB; 0xBE; 0x57; 0x27; 0xD4; 0x7C; 0xB6; 0xF6;
   0x2E; 0xCB; 0xCF; 0xF7; 0x33; 0xB3; 0x39; 0xD9; 0xEF; 0x7C; 0x28; 0x2D; 0x0D; 0x7F; 0xD4; 0x5B;
   0x1E; 0xF1; 0xD4; 0x88; 0xF6; 0x7D; 0xA1; 0x68; 0xE8; 0xA4; 0x0A; 0x05; 0xBF; 0x66; 0x51; 0xE5;
   0x69; 0x95; 0xDD; 0x55; 0x89; 0x36; 0xE8; 0x93; 0xF4; 0xC8; 0xD2; 0xE6; 0x3C; 0xAC; 0x2A; 0x54;
   0x38; 0x7F; 0xD2; 0xE5; 0x8C; 0x8F; 0x8F; 0x70; 0x18; 0x85; 0xC7; 0xC4; 0x00; 0x03; 0xCE; 0x91;
   0x81; 0xF8; 0x99; 0xE8; 0xFB; 0xE0; 0xDE; 0x99; 0x70; 0x45; 0x8D; 0x39; 0x2D; 0x50; 0xD5; 0x3A;
   0x6D; 0x22; 0x39; 0xE6; 0xB9; 0xAF; 0x32; 0xCD; 0x9B; 0xA9; 0x4B; 0x35; 0x81; 0xC0; 0xE5; 0xB8;
   0x84; 0xD6; 0xB4; 0x10; 0x7A; 0x60; 0x63; 0xB9; 0x06; 0xC7; 0x69; 0xC6; 0x9E; 0xDB; 0x5A; 0x43;
   0xE9; 0x29; 0xAA; 0xDB; 0xD6; 0x55; 0x0E; 0x46; 0xD7; 0xA0; 0xD4; 0xF4; 0xA2; 0x1D; 0x52; 0x6A;
   0x99; 0x4A; 0x80; 0xD8; 0x12; 0xEF; 0x99; 0x65; 0x54; 0x41; 0x6C; 0x5E; 0x5B; 0x40; 0x68; 0x76;
   0xC1; 0x8C; 0x81; 0xD7; 0x24; 0xF7; 0x92; 0x82; 0xE1; 0xF4; 0xA3; 0xFF; 0x00; 0xCC; 0x4F; 0x53;
   0x7F; 0xF0; 0xCF; 0xFE; 0x52; 0x51; 0x07; 0xAD; 0xA6; 0x3C; 0x27; 0x5D; 0x74; 0xBD; 0x62; 0xA2;
   0xEA; 0x56; 0xA9; 0xEA; 0xF4; 0xF6; 0xAA; 0xDC; 0x36; 0xFC; 0xA4; 0xCC; 0xAD; 0x0E; 0x1F; 0xA9;
   0x25; 0xE9; 0x12; 0xB2; 0x1D; 0xA1; 0xBB; 0x23; 0x44; 0xE5; 0x41; 0x73; 0x83; 0xDE; 0xE6; 0x7B;
   0xB9; 0xE9; 0xD3; 0xBF; 0x38; 0x18; 0x0D; 0x36; 0xBD; 0x79; 0xDF; 0x80; 0x1A; 0xE5; 0xDB; 0x3B;
   0x6F; 0xB1; 0x3F; 0xB4; 0x9C; 0xF7; 0xB6; 0x3D; 0x87; 0x7E; 0xFF; 0x00; 0x52; 0xF3; 0x20; 0xF3;
   0xF3; 0xB3; 0xAE; 0x37; 0xF2; 0x7B; 0xBE; 0xC8; 0x32; 0x9E; 0xBF; 0x7E; 0x04; 0x0E; 0x1D; 0xF5;
   0x2B; 0xF6; 0x6E; 0xF6; 0x3F; 0xF1; 0x13; 0xD9; 0x08; 0x9B; 0xFD; 0x89; 0xE5; 0xF6; 0xBF; 0x53;
   0xF6; 0xC9; 0x4E; 0xDD; 0xCE; 0xE4; 0xF5; 0xCF; 0x2F; 0x19; 0xE6; 0x7B; 0xFD; 0xF8; 0xFE; 0xD2;
   0x0C; 0x77; 0xAE; 0xE3; 0x86; 0xB1; 0xA1; 0x16; 0x17; 0xEC; 0xFD; 0xEC; 0xF7; 0xE3; 0x07; 0xAC;
   0xE9; 0x5E; 0xCA; 0xFB; 0x3B; 0xB7; 0xD7; 0x5D; 0xA7; 0x9D; 0x0F; 0x7F; 0x6C; 0xD9; 0xFD; 0x2F;
   0xC1; 0xBF; 0x3C; 0xEF; 0xED; 0x63; 0x08; 0x3A; 0x9C; 0x80; 0x80; 0x80; 0x80; 0x80; 0x80; 0x80;
   0x80; 0x80; 0x80; 0x80; 0x80; 0x80; 0x80; 0x80; 0x80; 0x80; 0x80; 0x80; 0x80; 0x80; 0x80; 0x80;
   0x80; 0x80; 0x80; 0x80; 0x83; 0xC9; 0xAF; 0xDA; 0x74; 0x3B; 0xAF; 0xD5; 0xBE; 0xBB; 0xA3; 0x53;
   0xEB; 0x3E; 0xAD; 0x9D; 0x87; 0x52; 0x91; 0xF5; 0x84; 0xAB; 0x23; 0xF6; 0x59; 0xA8; 0x79; 0xE5;
   0xCC; 0x42; 0xDE; 0x0E; 0xC8; 0xAD; 0xDC; 0x76; 0xBD; 0xB8; 0x70; 0xC9; 0xC1; 0xEA; 0x83; 0xD6;
   0x41; 0x63; 0x42; 0xD0; 0x9D; 0x35; 0x81; 0x72; 0x7B; 0x43; 0x0F; 0x4F; 0x2D; 0x48; 0x75; 0xFE;
   0x67; 0x37; 0xD6; 0xAD; 0xA2; 0x4B; 0x09; 0xAD; 0xF9; 0xCE; 0xEE; 0x6E; 0xCD; 0xD9; 0xFB; 0xE5;
   0x05; 0x7D; 0xE1; 0xA4; 0xF6; 0x46; 0xA1; 0xCD; 0xCA; 0xCD; 0x5D; 0x56; 0x6D; 0xBF; 0x73; 0x4D;
   0x4A; 0x0C; 0x4B; 0xC7; 0xAC; 0x52; 0xE0; 0x4D; 0xBE; 0x0F; 0x5C; 0xFB; 0x8E; 0x88; 0xD2; 0x5B;
   0xD7; 0xAF; 0x44; 0x1F; 0x4A; 0x96; 0x98; 0xD9; 0xD5; 0x9A; 0xED; 0x2E; 0xB7; 0x50; 0xB4; 0xE8;
   0x73; 0xD5; 0x9A; 0x53; 0x5A; 0xCA; 0x7D; 0x46; 0x66; 0x9B; 0x06; 0x24; 0xC4; 0x9B; 0x5A; 0x72;
   0xD1; 0x06; 0x23; 0x9A; 0x5D; 0x0C; 0x0F; 0x96; 0xD2; 0x30; 0x83; 0xE3; 0x2D; 0xA5; 0x16; 0x34;
   0x8D; 0x06; 0x89; 0x44; 0x97; 0xB3; 0xAD; 0xF9; 0x7A; 0x2D; 0x0A; 0x75; 0xB5; 0x2A; 0x55; 0x3A;
   0x1D; 0x2E; 0x03; 0x65; 0xA9; 0xF3; 0x4D; 0x73; 0x9E; 0xD9; 0x88; 0x10; 0xC3; 0x76; 0xC2; 0x8A;
   0x1D; 0x11; 0xEE; 0x0F; 0x60; 0x0E; 0x05; 0xEE; 0x39; 0xC9; 0x28; 0x3D; 0x6F; 0x65; 0x28; 0x5E;
   0xD5; 0x7B; 0x4F; 0xEA; 0x7A; 0x77; 0xB4; 0x9D; 0x8B; 0xD5; 0xBE; 0xB9; 0xEC; 0xB0; 0xFB; 0x67;
   0x65; 0xDF; 0xCC; 0xE4; 0x73; 0xB1; 0xBF; 0x95; 0xBF; 0xDF; 0xD9; 0x9D; 0xBB; 0xBA; 0xE3; 0x28;
   0xA6; 0xB0; 0x5D; 0x36; 0x9D; 0x0E; 0xF9; 0xA1; 0x4C; 0xD1; 0x2E; 0x4A; 0x35; 0x3E; 0xE0; 0xA2;
   0xCD; 0x6D; 0xE7; 0xD3; 0xAA; 0x92; 0xAC; 0x99; 0x97; 0x8D; 0xB5; 0xC1; 0xED; 0xDF; 0x0D; 0xE0;
   0xB5; 0xD8; 0x73; 0x5A; 0xE1; 0x91; 0xD0; 0xB4; 0x1E; 0xF0; 0x8A; 0xBD; 0x64; 0x1E; 0x25; 0x2A;
   0xC8; 0xB7; 0x68; 0x52; 0xB5; 0x79; 0x6A; 0x6D; 0x02; 0x97; 0x4F; 0x97; 0xAC; 0x4D; 0x46; 0x9E;
   0xA9; 0x41; 0x95; 0x93; 0x87; 0x09; 0x93; 0xD3; 0x11; 0x40; 0x11; 0x63; 0x46; 0x0D; 0x68; 0x11;
   0x22; 0x3C; 0x00; 0x1C; 0xE7; 0x64; 0xBB; 0x03; 0x24; 0xA0; 0xA1; 0xB3; 0x74; 0xAA; 0xCA; 0xD3;
   0xA8; 0x93; 0x71; 0x2D; 0x4B; 0x3E; 0x83; 0x6C; 0x44; 0x9B; 0xFE; 0xB0; 0xEA; 0x35; 0x32; 0x04;
   0xA1; 0x8D; 0xFD; 0xF3; 0x0D; 0xAD; 0xDD; 0xFB; 0xD0; 0x7C; 0x2D; 0xFD; 0x1B; 0xB0; 0x2D; 0x2B;
   0x86; 0x2D; 0x7A; 0x87; 0x63; 0x5B; 0x74; 0x6A; 0xE4; 0x5D; 0xDC; 0xCA; 0x9D; 0x3E; 0x91; 0x2F;
   0x02; 0x65; 0xFB; 0xBE; 0x2C; 0xC5; 0x63; 0x03; 0x8E; 0x7E; 0x7D; 0x7A; 0xA0; 0xBC; 0x10; 0x10;
   0x10; 0x10; 0x10; 0x10; 0x10; 0x10; 0x10; 0x10; 0x10; 0x10; 0x10; 0x10; 0x10; 0x10; 0x10; 0x10;
   0x10; 0x10; 0x10; 0x10; 0x10; 0x10; 0x10; 0x10; 0x10; 0x10; 0x10; 0x10; 0x10; 0x10; 0x40; 0x90;
   0x3E; 0x68; 0x3C; 0xBA; 0xF5; 0xC1; 0x4D; 0xB7; 0x29; 0xD1; 0x67; 0xEA; 0x95; 0x09; 0x6A; 0x74;
   0x9C; 0x3C; 0x6F; 0x98; 0x9A; 0x8A; 0x21; 0xB1; 0xB9; 0x3E; 0x24; 0x85; 0xE2; 0xBA; 0xE9; 0xB7;
   0x1A; 0xD7; 0x3A; 0x79; 0xBE; 0xF6; 0x30; 0xD7; 0xB1; 0x77; 0x3A; 0x9B; 0x14; 0x4D; 0x75; 0x77;
   0x47; 0x36; 0x32; 0x98; 0xE2; 0xB3; 0x4A; 0xA1; 0x4D; 0x36; 0x01; 0xBD; 0x29; 0xAF; 0x39; 0xC6;
   0xF8; 0x6E; 0x73; 0x99; 0xFE; 0xD0; 0xE9; 0xFC; 0x55; 0x9C; 0xE3; 0xEC; 0x44; 0xE9; 0xC5; 0x1E;
   0xB0; 0x93; 0x51; 0xD1; 0x5C; 0xF6; 0xBB; 0x7C; 0x74; 0x61; 0x6A; 0x88; 0xF1; 0xE7; 0xE9; 0xCD;
   0x90; 0xAD; 0x4B; 0xE2; 0xDF; 0xBD; 0xE4; 0x5B; 0x3B; 0x41; 0xAB; 0xC9; 0x56; 0x25; 0x81; 0xC1;
   0x8B; 0x27; 0x19; 0xB1; 0x03; 0x4F; 0x81; 0xC1; 0xE8; 0xAE; 0x28; 0xBB; 0x6E; 0xEC; 0xFE; 0x1A;
   0xA2; 0x7E; 0xA8; 0xF6; 0x2F; 0x05; 0x8A; 0xC0; 0x55; 0xC1; 0x8B; 0xB7; 0x34; 0x4F; 0x8C; 0x4C;
   0x3D; 0xF0; 0x41; 0xF9; 0x85; 0xF7; 0x59; 0xA2; 0x80; 0x80; 0x80; 0x80; 0x80; 0x80; 0x80; 0x80;
   0x80; 0x80; 0x80; 0x80; 0x80; 0x80; 0x80; 0x80; 0x80; 0x80; 0x80; 0x80; 0x80; 0x80; 0x80; 0x80;
   0x80; 0x80; 0x80; 0x80; 0x80; 0x80; 0x80; 0x80; 0x80; 0x82; 0x07; 0xB9; 0x05; 0x8D; 0xAC; 0x7A;
   0xA7; 0x4C; 0xD2; 0x0B; 0x06; 0x7E; 0xE3; 0xAA; 0x7B; 0xE2; 0x08; 0xDB; 0x2F; 0x2C; 0xD7; 0x60;
   0xCC; 0x46; 0x3D; 0x59; 0x0D; 0xA7; 0xC4; 0xE0; 0x9E; 0x9F; 0x20; 0x4F; 0x70; 0x2A; 0xDF; 0x11;
   0x7E; 0x9C; 0x3D; 0x13; 0x5D; 0x4C; 0xC6; 0x51; 0x95; 0x5E; 0xCE; 0xF1; 0x74; 0xE0; 0xEC; 0x47;
   0x3D; 0xE6; 0x7B; 0x22; 0x23; 0x9C; 0xCF; 0x77; 0x74; 0x77; 0xCC; 0xC4; 0x73; 0x97; 0x2D; 0xF5;
   0x47; 0x56; 0x6E; 0x4D; 0x61; 0xB9; 0x9D; 0x59; 0xB8; 0xA7; 0x5F; 0x14; 0x81; 0x89; 0x79; 0x16;
   0x3C; 0x89; 0x79; 0x46; 0xF7; 0x81; 0x09; 0x80; 0xE0; 0x1C; 0x1F; 0x79; 0xC7; 0xDE; 0x3F; 0xA2;
   0x82; 0xDD; 0xC4; 0x5E; 0xBD; 0x54; 0xCD; 0x73; 0xB3; 0xAB; 0x72; 0xAC; 0x9F; 0x03; 0x93; 0x58;
   0x8B; 0x18; 0x4A; 0x22; 0x23; 0xB6; 0x67; 0x79; 0xAA; 0x7B; 0xF5; 0xEC; 0xF2; 0x59; 0xEE; 0x3C;
   0xC2; 0xE0; 0x36; 0x9C; 0xE3; 0xE4; 0x36; 0xF9; 0x15; 0xF0; 0x9E; 0x4C; 0xDC; 0x4E; 0x9E; 0x4F;
   0x5E; 0xD6; 0xBB; 0x6B; 0x16; 0x65; 0xC3; 0x2B; 0x59; 0xA1; 0xD4; 0x66; 0x69; 0xB5; 0x18; 0x2F;
   0x0E; 0x6C; 0x78; 0x0F; 0x3D; 0x47; 0xCF; 0x70; 0xFE; 0xDB; 0x31; 0x9F; 0x74; 0x8C; 0xAF; 0x54;
   0x5C; 0xBB; 0x6A; 0x78; 0xA8; 0x9E; 0x4B; 0x3C; 0x5E; 0x17; 0x0F; 0x8E; 0xB5; 0x36; 0x31; 0x51;
   0x15; 0x53; 0x56; 0xDA; 0x70; 0xFD; 0xDD; 0x2E; 0xE1; 0x87; 0x5F; 0xA5; 0xF5; 0xCA; 0xD4; 0x8B;
   0x16; 0x72; 0x1C; 0x29; 0x3B; 0x96; 0x9A; 0xFE; 0x54; 0xFC; 0xAC; 0x27; 0x7B; 0x84; 0x1E; 0xAC;
   0x8A; 0xCC; 0xFF; 0x00; 0x65; 0xC3; 0x1D; 0x3E; 0x47; 0x23; 0xE4; 0xA6; 0xB8; 0x1C; 0x64; 0x62].

Definition noCameraFound_2 : list Z :=
  [0xED; 0xEB; 0xCA; 0x61; 0xCB; 0xDD; 0x29; 0xE8; 0xED; 0x59; 0x06; 0x2B; 0x86; 0x99; 0xD6; 0xD5;
   0x5F; 0x2C; 0xFD; 0xA5; 0x9B; 0x56; 0x49; 0x0C; 0x10; 0x10; 0x10; 0x10; 0x10; 0x10; 0x10; 0x10;
   0x10; 0x10; 0x10; 0x10; 0x10; 0x10; 0x10; 0x10; 0x10; 0x10; 0x10; 0x10; 0x10; 0x10; 0x10; 0x10;
   0x10; 0x10; 0x10; 0x10; 0x10; 0x10; 0x10; 0x10; 0x10; 0x49; 0x1B; 0xF2; 0xDD; 0x8C; 0x8F; 0xB8;
   0xEF; 0x4D; 0x74; 0x35; 0xD3; 0x76; 0x88; 0x7A; 0x46; 0x6E; 0x38; 0xF1; 0xAE; 0x0B; 0x32; 0x81;
   0xB8; 0xB6; 0x56; 0x0C; 0xB4; 0x6A; 0x83; 0x86; 0xEC; 0x6F; 0x88; 0xF7; 0x08; 0x6D; 0xC8; 0xFB;
   0x35; 0xAE; 0xFF; 0x00; 0x6C; 0xA8; 0xC6; 0x71; 0x5D; 0x5C; 0x74; 0xD3; 0xD8; 0xDE; 0xDF; 0x0D;
   0x70; 0x94; 0x45; 0x9C; 0x4E; 0x2A; 0x7E; 0x6D; 0x62; 0x9F; 0xBC; 0xFA; 0xED; 0xE8; 0xD3; 0xBC;
   0xA8; 0xF3; 0x73; 0x99; 0xC2; 0x06; 0xEC; 0xF7; 0x82; 0x47; 0xCF; 0x1D; 0xEA; 0x92; 0x69; 0xAB;
   0x3A; 0x70; 0x57; 0x75; 0x4C; 0x5A; 0xFC; 0x42; 0xD0; 0x65; 0x61; 0xB8; 0xBE; 0x5E; 0xB1; 0x0E;
   0x62; 0x42; 0x3B; 0x77; 0x7B; 0xA4; 0x72; 0x9F; 0x19; 0x8E; 0xC7; 0xCC; 0x87; 0x42; 0x00; 0x7D;
   0x9C; 0x56; 0x53; 0x2B; 0xBB; 0x34; 0xE2; 0x29; 0xB7; 0xD9; 0x3A; 0xFB; 0x4A; 0x05; 0xD3; 0x5C;
   0x1D; 0x18; 0xBC; 0x96; 0xED; 0xD9; 0x8D; 0xED; 0xF0; 0xD5; 0x1E; 0x73; 0x54; 0x44; 0xFE; 0xD2;
   0xE9; 0xF4; 0x32; 0x49; 0xF8; 0xB3; 0x82; 0x54; 0xD5; 0xCB; 0xB1; 0xDA; 0xFA; 0x23; 0xD0; 0x80;
   0x80; 0x80; 0x80; 0x80; 0x80; 0x80; 0x80; 0x80; 0x80; 0x80; 0x80; 0x80; 0x80; 0x80; 0x80; 0x80;
   0x80; 0x80; 0x80; 0x80; 0x80; 0x80; 0x80; 0x80; 0x80; 0x80; 0x80; 0x80; 0x80; 0x80; 0x82; 0x58;
   0x83; 0x73; 0x08; 0x45; 0x27; 0x93; 0x40; 0x7D; 0x23; 0x72; 0x8E; 0x65; 0xF9; 0x66; 0x4E; 0xED;
   0x3B; 0x23; 0xD3; 0x63; 0xC2; 0x0E; 0x23; 0xA6; 0x59; 0x14; 0x1C; 0x7E; 0xB8; 0x78; 0x51; 0x7C;
   0xDE; 0x27; 0x8E; 0x99; 0x6F; 0xFF; 0x00; 0x86; 0xF7; 0x3F; 0xD1; 0xE2; 0x2D; 0xEB; 0xBF; 0x14;
   0x7B; 0x35; 0x1B; 0x2A; 0x3E; 0xDB; 0xE6; 0x50; 0x37; 0x60; 0x13; 0x9E; 0xE5; 0x49; 0xE4; 0xAC;
   0x33; 0x37; 0x07; 0x74; 0x77; 0x55; 0xB8; 0x94; 0xB3; 0x01; 0x27; 0x64; 0xA4; 0x49; 0xA9; 0x97;
   0x63; 0xE6; 0x1B; 0x2B; 0x15; 0xA3; 0xF8; 0xB8; 0x2B; 0xEC; 0xB6; 0x26; 0x71; 0x54; 0xE9; 0xE3;
   0xED; 0x28; 0x57; 0x4C; 0x6E; 0xC5; 0xAC; 0x83; 0x11; 0xBF; 0xCD; 0xC3; 0x1E; 0x7F; 0x8A; 0x9F;
   0xB6; 0xEE; 0xA7; 0x43; 0xCF; 0x42; 0x46; 0x14; 0xEA; 0x39; 0x39; 0x52; 0x39; 0x43; 0xEA; 0xAA;
   0xF4; 0x20; 0x20; 0x20; 0x20; 0x20; 0x20; 0x20; 0x20; 0x20; 0x20; 0x20; 0x20; 0x20; 0x20; 0x20;
   0x20; 0x20; 0x20; 0x20; 0x20; 0x20; 0x20; 0x20; 0x20; 0x20; 0x20; 0x20; 0x20; 0x20; 0x20; 0x20;
   0x20; 0x95; 0xFF; 0x00; 0x09; 0x41; 0xA5; 0x9E; 0x92; 0x2A; 0x69; 0x89; 0x6E; 0x58; 0x75; 0x4D;
   0xA7; 0xDC; 0x9F; 0x98; 0x94; 0x27; 0x1F; 0xE9; 0x20; 0x87; 0x81; 0xFE; 0xE4; 0xA8; 0xF6; 0x73;
   0x1B; 0x50; 0xDC; 0xBF; 0x0C; 0xEE; 0xCC; 0xDE; 0xC4; 0xDA; 0x9E; 0xDA; 0x29; 0x9F; 0xAC; 0x4E;
   0x9F; 0x76; 0x8C; 0x64; 0x78; 0x85; 0x18; 0x6F; 0x84; 0x72; 0x86; 0xB0; 0x75; 0xC8; 0xDB; 0xDE;
   0x4E; 0x15; 0x25; 0x58; 0x98; 0x6C; 0xD7; 0xA3; 0xEE; 0x92; 0x2A; 0x1A; 0xE5; 0x39; 0x50; 0xC1;
   0x2D; 0x91; 0xA3; 0x45; 0x3D; 0x47; 0x73; 0xA2; 0xBD; 0x80; 0x7F; 0x06; 0xBF; 0xCD; 0x66; 0xB2;
   0x9A; 0x3F; 0x3E; 0xAA; 0x9A; 0xBB; 0xE2; 0x05; 0xDE; 0xAF; 0x27; 0xA2; 0xD4; 0xFF; 0x00; 0x55;
   0x54; 0xFE; 0xD1; 0x2E; 0x8F; 0xB7; 0xB9; 0x4B; 0xDC; 0xE4; 0x99; 0x01; 0x01; 0x01; 0x01; 0x01;
   0x01; 0x01; 0x01; 0x01; 0x01; 0x01; 0x01; 0x01; 0x01; 0x01; 0x01; 0x01; 0x01; 0x01; 0x01; 0x01;
   0x01; 0x01; 0x01; 0x01; 0x01; 0x01; 0x01; 0x01; 0x01; 0x01; 0x01; 0x04; 0xAF; 0x38; 0x69; 0x28;
   0x35; 0x8B; 0xD2; 0x0B; 0x48; 0xED; 0xDA; 0x07; 0x0E; 0x70; 0x34; 0xB8; 0xD3; 0x2A; 0xD2; 0xD1;
   0xC1; 0x03; 0x38; 0x0E; 0xCC; 0x12; 0x7F; 0xDE; 0xAC; 0x3E; 0x69; 0x47; 0x16; 0x1F; 0x8F; 0xB9;
   0xB2; 0xFE; 0x1F; 0x5F; 0x9B; 0x79; 0xCF; 0x04; 0x7F; 0x5D; 0x35; 0x47; 0xA6; 0x93; 0xF6; 0x73;
   0x7F; 0x2D; 0xCF; 0x42; 0x08; 0xEA; 0x73; 0x9F; 0xBA; 0x87; 0xF3; 0x74; 0x7C; 0xEF; 0xB8; 0x5E;
   0x07; 0x71; 0x08; 0xF2; 0x87; 0x34; 0x00; 0x4B; 0x89; 0x03; 0x07; 0xAA; 0xA2; 0xB1; 0x1A; 0xEC;
   0xDD; 0x2F; 0x46; 0xE5; 0x20; 0xBE; 0xAF; 0x7C; 0x55; 0x36; 0x12; 0xD1; 0x0A; 0x5A; 0x59; 0xA7;
   0x1F; 0x0F; 0xBD; 0x11; 0xD8; 0xFD; 0x70; 0x42; 0x92; 0x65; 0x14; 0xC6; 0xB5; 0xD4; 0xD3; 0x3F;
   0x12; 0x6F; 0x7E; 0x5E; 0x16; 0xD7; 0x9B; 0x7B; 0x5B; 0xDC; 0xA4; 0xAD; 0x18; 0x8A; 0x02; 0x02;
   0x02; 0x02; 0x02; 0x02; 0x02; 0x02; 0x02; 0x02; 0x02; 0x02; 0x02; 0x02; 0x02; 0x02; 0x02; 0x02;
   0x02; 0x02; 0x02; 0x02; 0x02; 0x02; 0x02; 0x02; 0x02; 0x02; 0x02; 0x02; 0x02; 0x02; 0x08; 0x11;
   0x90; 0x83; 0x0C; 0x71; 0x81; 0x47; 0x15; 0x8E; 0x1C; 0xAF; 0x38; 0x7B; 0x4B; 0x8C; 0x09; 0x41;
   0x32; 0x00; 0x19; 0xEB; 0x0D; 0xED; 0x7F; 0xFF; 0x00; 0x55; 0x63; 0x8E; 0x8E; 0x2C; 0x3D; 0x51;
   0xE5; 0xEE; 0x96; 0x74; 0x52; 0xFC; 0xE1; 0xB3; 0x9C; 0x3D; 0x51; 0xDF; 0x31; 0xEB; 0x13; 0x0E;
   0x51; 0x11; 0xB3; 0xA0; 0xEA; 0x07; 0x4C; 0x8F; 0xFF; 0x00; 0x7D; 0x94; 0x12; 0x36; 0xD7; 0x47;
   0x57; 0x55; 0xA4; 0x4C; 0xD3; 0x1D; 0xFA; 0x80; 0xF5; 0x55; 0x79; 0x4D; 0xD0; 0xF4; 0x3D; 0x41;
   0xE8; 0x53; 0xCD; 0x58; 0xE7; 0x1A; 0x3A; 0x0D; 0xE8; 0xDE; 0xA5; 0x19; 0x6D; 0x37; 0xB9; 0xEA;
   0x24; 0x13; 0xDB; 0x2A; 0xDC; 0xB0; 0xEC; 0x74; 0x22; 0x1C; 0x26; 0xFC; 0xFF; 0x00; 0xED; 0x29;
   0x56; 0x4F; 0x46; 0x96; 0xA6; 0x5C; 0xFF; 0x00; 0xF1; 0x16; 0xEF; 0x1E; 0x3E; 0xCD; 0xAF; 0xD3;
   0x47; 0xBC; 0xB6; 0xF5; 0x67; 0x9A; 0x98; 0x40; 0x40; 0x40; 0x40; 0x40; 0x40; 0x40; 0x40; 0x40;
   0x40; 0x40; 0x40; 0x40; 0x40; 0x40; 0x40; 0x40; 0x40; 0x40; 0x40; 0x40; 0x40; 0x40; 0x40; 0x40;
   0x40; 0x40; 0x40; 0x40; 0x40; 0x40; 0x40; 0x40; 0x41; 0x67; 0xEB; 0x0D; 0x21; 0xB5; 0xFD; 0x2B;
   0xBB; 0x69; 0xEE; 0x19; 0x11; 0xE9; 0x73; 0x2D; 0xC0; 0x1D; 0xE7; 0x96; 0x48; 0xFE; 0x4A; 0xDF;
   0x11; 0x1C; 0x56; 0xAA; 0x86; 0x5B; 0x29; 0xBB; 0xD4; 0xE6; 0x16; 0x2E; 0x77; 0x55; 0x4F; 0xBB;
   0x8C; 0xCD; 0x79; 0x30; 0xA1; 0x9F; 0xA9; 0xA3; 0x3E; 0x4B; 0x5F; 0x69; 0xA6; 0xD0; 0xEB; 0xEE;
   0xDE; 0x29; 0xED; 0xD7; 0xFE; 0xD1; 0x07; 0xAA; 0xAA; 0xA9; 0xC1; 0xEA; 0x07; 0x8F; 0x44; 0x9D;
   0xE1; 0x58; 0xAB; 0x86; 0x75; 0x74; 0xE3; 0x80; 0x5A; 0x58; 0xA7; 0x70; 0xE3; 0x48; 0x98; 0xC6;
   0x1D; 0x50; 0x9E; 0x9D; 0x9A; 0x39; 0xF0; 0xE7; 0xBE; 0x18; 0xFE; 0x10; 0xC2; 0x99; 0xE5; 0x71;
   0xA6; 0x16; 0x25; 0xCD; 0x3D; 0x3A; 0xBB; 0xC7; 0x9D; 0xD7; 0x47; 0xE9; 0xA6; 0x88; 0xFA; 0xCD;
   0x11; 0x54; 0xC7; 0xD2; 0x67; 0x76; 0xC6; 0xAC; 0xAB; 0x5F; 0x88; 0x08; 0x08; 0x08; 0x08; 0x08;
   0x08; 0x08; 0x08; 0x08; 0x08; 0x08; 0x08; 0x08; 0x08; 0x08; 0x08; 0x08; 0x08; 0x08; 0x08; 0x08;
   0x08; 0x08; 0x08; 0x08; 0x08; 0x08; 0x08; 0x08; 0x08; 0x08; 0x08; 0x08; 0x29; 0xAA; 0x32; 0xCC;
   0x9D; 0x92; 0x8F; 0x2F; 0x13; 0xF2; 0xE3; 0x31; 0xD0; 0xDD; 0xFA; 0x11; 0x83; 0xFC; 0xD7; 0x8A;
   0xE9; 0xE2; 0xA6; 0x61; 0xEE; 0x8A; 0xB8; 0x2A; 0x8A; 0xA3; 0xB1; 0xC4; 0x6A; 0x9C; 0xA3; 0xA9;
   0xD5; 0x39; 0xE9; 0x17; 0x82; 0xD7; 0x4A; 0xCC; 0xC4; 0x97; 0x21; 0xC3; 0x07; 0x2C; 0x7B; 0x98;
   0x7F; 0xF6; 0xAD; 0x77; 0x54; 0x70; 0xCC; 0xD3; 0xE2; 0xEC; 0xBB; 0x75; 0xF5; 0x94; 0x51; 0x31;
   0xCA; 0x62; 0x2A; 0xF5; 0x88; 0xD3; 0xD6; 0x14; 0xC3; 0xBD; 0x51; 0xF4; 0x4D; 0xBC; 0x37; 0xAE;
   0x47; 0x4E; 0xAA; 0x93; 0xC9; 0x49; 0xE5; 0xA4; 0x3A; 0xE1; 0xC2; 0xB5; 0x14; 0x5B; 0xFC; 0x3D;
   0xD8; 0x12; 0x9B; 0x4B; 0x1C; 0xEA; 0x54; 0x19; 0x87; 0x02; 0x30; 0x77; 0x45; 0x06; 0x29; 0xFE;
   0x2F; 0x2A; 0x79; 0x82; 0xA7; 0x83; 0x0F; 0x44; 0x39; 0x53; 0xA5; 0x17; 0xA3; 0x11; 0x9D; 0xE2;
   0xAB; 0xFF; 0x00; 0x94; 0xFE; 0xDF; 0x87; 0xDA; 0x19; 0x65; 0x5E; 0xA3; 0x22; 0x02; 0x02; 0x02;
   0x02; 0x02; 0x02; 0x02; 0x02; 0x02; 0x02; 0x02; 0x02; 0x02; 0x02; 0x02; 0x02; 0x02; 0x02; 0x02;
   0x02; 0x02; 0x02; 0x02; 0x02; 0x02; 0x02; 0x02; 0x02; 0x02; 0x02; 0x02; 0x02; 0x02; 0x09; 0x22;
   0x0C; 0x8E; 0xBD; 0xC8; 0x72; 0x71; 0x9F; 0x5B; 0xA9; 0x26; 0xDD; 0xD6; 0x9B; 0xEE; 0x9A; 0x5A;
   0x43; 0x61; 0x57; 0x67; 0x5E; 0xC0; 0x46; 0x30; 0xD7; 0xC5; 0x31; 0x1B; 0xE4; 0xD7; 0x8F; 0x30;
   0xA0; 0x17; 0xA9; 0xE1; 0xBB; 0x5C; 0x3A; 0xD7; 0x25; 0xBF; 0xD7; 0xE5; 0x98; 0x5B; 0x9D; 0xF6;
   0xE8; 0xFE; 0xD8; 0xD1; 0x66; 0x6F; 0xCA; 0xF8; 0xB3; 0x5A; 0xC2; 0x0E; 0x69; 0x7B; 0x4B; 0x58;
   0x0B; 0x9C; 0xE1; 0x80; 0x07; 0x52; 0x4A; 0xA7; 0x3D; 0x15; 0xE2; 0x8A; 0x7F; 0x14; 0xCF; 0x2D;
   0xFD; 0x37; 0x76; 0xBA; 0xC1; 0xA4; 0xB2; 0x87; 0x65; 0xD0; 0x29; 0xCC; 0x1E; 0xE4; 0x9C; 0x84;
   0x08; 0x2D; 0xFD; 0x1A; 0xC0; 0x3F; 0xC1; 0x6C; 0x1B; 0x51; 0xA5; 0xBA; 0x61; 0xC7; 0x58; 0xDB;
   0xBD; 0x76; 0x2E; 0xED; 0xDE; 0xFA; 0xAA; 0xF7; 0x5C; 0x2B; 0xEA; 0xB4; 0x10; 0x10; 0x10; 0x10;
   0x10; 0x10; 0x10; 0x10; 0x10; 0x10; 0x10; 0x10; 0x10; 0x10; 0x10; 0x10; 0x10; 0x10; 0x10; 0x10;
   0x10; 0x10; 0x10; 0x10; 0x10; 0x10; 0x10; 0x10; 0x10; 0x10; 0x10; 0x10; 0x10; 0x10; 0x4A; 0xFF;
   0x00; 0x80; 0xA2; 0x93; 0xBC; 0x68; 0xE4; 0xF7; 0x1A; 0x74; 0x76; 0xD2; 0x38; 0x94; 0xBB; 0x5C;
   0xD0; 0x5A; 0xD9; 0xD3; 0x2F; 0x38; 0x01; 0x1F; 0x54; 0x16; 0xB4; 0x9F; 0xDE; 0x61; 0x95; 0x0A;
   0xC7; 0xD1; 0xC1; 0x89; 0xAB; 0xC5; 0xD3; 0x7D; 0x0F; 0xBD; 0xD7; 0x64; 0x76; 0x67; 0xF4; 0xCC;
   0xD3; 0xFD; 0xD3; 0x2C; 0x23; 0x95; 0x8F; 0x4C; 0x1E; 0xE5; 0x8B; 0x4D; 0xF5; 0xCD; 0xEF; 0x6F;
   0x48; 0x60; 0xB8; 0x4C; 0xD4; 0x65; 0xA1; 0x10; 0x06; 0x7A; 0x3A; 0x2B; 0x41; 0xFE; 0x0B; 0xDD;
   0xBA; 0x78; 0xAB; 0x88; 0xF1; 0x59; 0x63; 0xAE; 0x75; 0x58; 0x4B; 0xD5; 0xF7; 0x53; 0x57; 0xB4;
   0xBB; 0x5B; 0x2A; 0xC6; 0xC2; 0x63; 0x61; 0xB7; 0xA3; 0x1A; 0x03; 0x5A; 0x3C; 0x00; 0xE9; 0xFE;
   0x0B; 0x60; 0xC4; 0x69; 0xB3; 0x90; 0x75; 0xE2; 0x9D; 0x65; 0x50; 0xAA; 0xA8; 0x80; 0x80; 0x80;
   0x80; 0x80; 0x80; 0x80; 0x80; 0x80; 0x80; 0x80; 0x80; 0x80; 0x80; 0x80; 0x80; 0x80; 0x80; 0x80;
   0x80; 0x80; 0x80; 0x80; 0x80; 0x80; 0x80; 0x80; 0x80; 0x80; 0x80; 0x80; 0x80; 0x80; 0x82; 0x57;
   0xF5; 0x69; 0x41; 0xCD; 0x1F; 0x48; 0xC5; 0x23; 0xD5; 0xDA; 0xE1; 0x4E; 0x9F; 0xDA; 0x40; 0xA8;
   0x52; 0x21; 0x01; 0x81; 0xDE; 0x61; 0xBD; 0xC3; 0xF9; 0x15; 0x14; 0xCD; 0x29; 0xFC; 0xFD; 0x5B;
   0xFF; 0x00; 0xA0; 0x57; 0xB8; 0xB2; 0xAA; 0xAD; 0x76; 0x53; 0x57; 0xBB; 0x56; 0x03; 0x89; 0x38;
   0xC1; 0xEA; 0xB0; 0xF2; 0xD9; 0x50; 0xC9; 0xFC; 0x32; 0x53; 0xC5; 0x6B; 0x88; 0x4D; 0x3F; 0x93;
   0xC6; 0xF6; 0xBE; 0xAC; 0xC8; 0x8E; 0x1D; 0xFE; 0xEC; 0x36; 0x3A; 0x2E; 0x7F; 0xF4; 0x15; 0x75;
   0x84; 0xA7; 0x8A; 0xFD; 0x30; 0x8E; 0xF4; 0x86; 0xEF; 0x53; 0x93; 0xE2; 0x6B; 0xD7; 0xFA; 0x7D;
   0xE6; 0x23; 0xDE; 0x74; 0xF3; 0x76; 0x0A; 0x18; 0xEA; 0x09; 0xCE; 0x7A; 0xA9; 0xCC; 0xF3; 0xD9;
   0xCA; 0xD1; 0xCB; 0x5F; 0x27; 0xD9; 0x1E; 0x84; 0x04; 0x04; 0x04; 0x04; 0x04; 0x04; 0x04; 0x04;
   0x04; 0x04; 0x04; 0x04; 0x04; 0x04; 0x04; 0x04; 0x04; 0x04; 0x04; 0x04; 0x04; 0x04; 0x04; 0x04;
   0x04; 0x04; 0x04; 0x04; 0x04; 0x04; 0x04; 0x04; 0x04; 0x12; 0xC4; 0x38; 0x61; 0x29; 0xA6; 0xBB;
   0x29; 0x33; 0xA6; 0xED; 0x03; 0xF4; 0x9B; 0x52; 0x83; 0x2A; 0xD6; 0x0D; 0x54; 0x0E; 0xB1; 0x20;
   0xCD; 0xC9; 0xE7; 0x1F; 0x36; 0x98; 0x6E; 0x1F; 0xCC; 0xA8; 0xE6; 0x6F; 0x4E; 0x95; 0x53; 0x54;
   0xB7; 0x37; 0xC3; 0xEB; 0xD4; 0xD3; 0x67; 0x11; 0x6A; 0x67; 0x94; 0xD3; 0x3F; 0x4D; 0x26; 0x35;
   0xF5; 0x98; 0x8F; 0x39; 0x69; 0x16; 0xFE; 0xA3; 0x07; 0x07; 0xE2; 0xFD; 0x40; 0x51; 0xFE; 0x7C;
   0x9B; 0x82; 0x76; 0x9D; 0x27; 0x9B; 0x61; 0x38; 0x0D; 0xA2; 0x8A; 0xCF; 0x12; 0xF4; 0x08; 0xDC;
   0xA7; 0x3E; 0x1C; 0x84; 0x9C; 0xEC; 0xE6; 0xE0; 0xD2; 0x40; 0xFE; 0x87; 0x94; 0x0F; 0x9C; 0x75;
   0x92; 0xCB; 0xA2; 0x67; 0x11; 0x4C; 0xC7; 0x8F; 0xB4; 0xA1; 0x1D; 0x33; 0xBB; 0x36; 0x72; 0x5A;
   0xE8; 0xAB; 0x69; 0xAA; 0x62; 0x9F; 0xA4; 0x55; 0x15; 0x7B; 0xC3; 0xAA; 0x8D; 0x69; 0x0E; 0xC9;
   0x3F; 0x2E; 0xBF; 0xAA; 0x98; 0xB9; 0xC5; 0x3A; 0x02; 0x02; 0x02; 0x02; 0x02; 0x02; 0x02; 0x02;
   0x02; 0x02; 0x02; 0x02; 0x02; 0x02; 0x02; 0x02; 0x02; 0x02; 0x02; 0x02; 0x02; 0x02; 0x02; 0x02;
   0x02; 0x02; 0x02; 0x02; 0x02; 0x02; 0x02; 0x02; 0x02; 0x02; 0x09; 0x5E; 0x37; 0x34; 0x84; 0x52;
   0x79; 0x6E; 0xC4; 0xDC; 0x46; 0x68; 0x54; 0x86; 0xBE; 0x58; 0x2F; 0xA1; 0x4C; 0xC6; 0xEC; 0x35;
   0x09; 0x68; 0x82; 0x6A; 0x9F; 0x3D; 0xB0; 0x3B; 0x91; 0x1C; 0x07; 0x37; 0xA8; 0x20; 0xE5; 0xAE;
   0x0E; 0x20; 0x8F; 0x0E; 0xBD; 0xE0; 0x2B; 0x5C; 0x4D; 0x8F; 0xE2; 0x68; 0x9A; 0x3B; 0x52; 0x1C;
   0x83; 0x3A; 0xBB; 0x91; 0x62; 0xFF; 0x00; 0x89; 0xA6; 0x35; 0xA6; 0x63; 0x86; 0x63; 0xC3; 0xFC;
   0xDD; 0xCF; 0x69; 0xEE; 0x07; 0x75; 0x9E; 0x4A; 0xA6; 0xE9; 0x13; 0x6B; 0x42; 0xA8; 0x02; 0xE2;
   0xD6; 0xCF; 0x4A; 0xCF; 0xC0; 0xEC; 0xCF; 0x1D; 0xDB; 0x81; 0x7B; 0x83; 0xD8; 0x0F; 0x81; 0x6E;
   0x7C; 0x14; 0x66; 0x72; 0xFC; 0x47; 0x14; 0xD3; 0x31; 0xB3; 0x77; 0xDB; 0xE9; 0x8E; 0x4B; 0x55;
   0x98; 0xAF; 0xAD; 0x9F; 0x29; 0xA6; 0x75; 0xDF; 0xC7; 0xC3; 0x9F; 0xD3; 0x46; 0xE8; 0xF0; 0x83;
   0xC2; 0xE3; 0xF4; 0x16; 0x46; 0x72; 0xAB; 0x5C; 0x98; 0x85; 0x3F; 0x77; 0x55; 0x21; 0xB5; 0x93;
   0x51; 0x20; 0x65; 0xD0; 0xA5; 0xA1; 0x82; 0x48; 0x84; 0xC7; 0x3B; 0xA9; 0xC9; 0x39; 0x3F; 0xA0;
   0xF0; 0x59; 0xDC; 0x1E; 0x0F; 0xF8; 0x7A; 0x75; 0x9E; 0x6D; 0x51; 0xD2; 0x7E; 0x91; 0xFF; 0x00;
   0x3B; 0xAE; 0x8B; 0x58; 0x7D; 0x62; 0xCD; 0x1D; 0xFC; 0xE6; 0x7B; 0xDB; 0x26; 0xB2; 0x68; 0x38;
   0x80; 0x80; 0x80; 0x80; 0x80; 0x80; 0x80; 0x80; 0x80; 0x80; 0x80; 0x80; 0x80; 0x80; 0x80; 0x80;
   0x80; 0x80; 0x80; 0x80; 0x80; 0x80; 0x80; 0x80; 0x80; 0x80; 0x80; 0x80; 0x80; 0x80; 0x80; 0x80;
   0x80; 0x80; 0x82; 0x52; 0xF6; 0x8C; 0xE5; 0xC0; 0x63; 0xC4; 0xA2; 0xBA; 0x2D; 0xDB; 0xD2; 0xFE;
   0xB7; 0x34; 0xFA; 0x92; 0xEA; 0xA5; 0xC9; 0x5C; 0x90; 0xA2; 0x48; 0x03; 0x81; 0x1E; 0x7A; 0x61;
   0xB0; 0x9A; 0xE3; 0x9E; 0xE6; 0xE7; 0xE2; 0x3F; 0x61; 0x92; 0xBE; 0x57; 0x2E; 0x51; 0x6E; 0x3F;
   0x32; 0x74; 0x5D; 0xE1; 0xB0; 0x58; 0xAC; 0x6D; 0x7D; 0x5E; 0x16; 0xDC; 0xD7; 0x57; 0x87; 0xDE;
   0x7B; 0x18; 0x3A; 0x73; 0x8F; 0xED; 0x17; 0x83; 0x33; 0xCB; 0x87; 0x5F; 0x9F; 0x9C; 0x63; 0x09;
   0x06; 0x34; 0xAD; 0x1E; 0x64; 0xC3; 0x1F; 0x7F; 0x7A; 0x18; 0x24; 0x7D; 0xC2; 0xB1; 0x9C; 0xC3;
   0x0F; 0x4C; 0xE9; 0xCD; 0x2D; 0xA3; 0xA1; 0x99; 0xCD; 0x71; 0x15; 0x45; 0x11; 0x1E; 0x13; 0x5D;
   0x2C; 0x8D; 0xA6; 0xBC; 0x46; 0xE9; 0xCE; 0xAC; 0xCD; 0x89; 0x6B; 0x5E; 0xEB; 0x92; 0x9E; 0x9C;
   0x03; 0x2E; 0x92; 0x8A; 0x1F; 0x2D; 0x30; 0x32; 0x3F; 0xD1; 0x45; 0x0D; 0x71; 0xFD; 0xC1; 0x5C;
   0xDB; 0xC5; 0x58; 0xBB; 0xB5; 0x35; 0x6E; 0xC1; 0x63; 0x72; 0x3C; 0xC7; 0x01; 0x13; 0x5D; 0xFB;
   0x35; 0x45; 0x31; 0xCE; 0x79; 0xC7; 0xAC; 0x32; 0x68; 0x7B; 0x5C; 0x70; 0x1C; 0x09; 0xC6; 0x70;
   0x0A; 0xBA; 0x60; 0xB5; 0x8D; 0x74; 0x4C; 0x8A; 0x88; 0x08; 0x08; 0x08; 0x08; 0x08; 0x08; 0x08;
   0x08; 0x08; 0x08; 0x08; 0x08; 0x08; 0x08; 0x08; 0x08; 0x08; 0x08; 0x08; 0x08; 0x08; 0x08; 0x08;
   0x08; 0x08; 0x08; 0x08; 0x08; 0x08; 0x08; 0x08; 0x08; 0x25; 0x89; 0x8D; 0xBD; 0x71; 0xDE; 0x3B;
   0xFF; 0x00; 0x54; 0x36; 0xED; 0x62; 0x4E; 0x23; 0xF5; 0xF2; 0x93; 0xA0; 0x1A; 0x7D; 0x16; 0xBB;
   0x3D; 0xB2; 0x66; 0x7E; 0x3B; 0xBB; 0x3D; 0x36; 0x44; 0x90; 0x0C; 0xC4; 0x72; 0x32; 0x33; 0xE0;
   0xC6; 0x8E; 0xAE; 0x3F; 0x21; 0xF7; 0x21; 0x5B; 0x62; 0x6F; 0xD3; 0x86; 0xB7; 0x35; 0xCF; 0x3E].

Definition noCameraFound_3 : list Z :=
  [0xE6; 0x77; 0x24; 0xCA; 0x6E; 0xE7; 0x18; 0xA8; 0xB3; 0x4C; 0xCC; 0x53; 0x1F; 0x34; 0xC4; 0x6B;
   0xA7; 0x9F; 0x9F; 0x27; 0x25; 0xAF; 0xFD; 0x58; 0xAF; 0x6A; 0xA5; 0xC9; 0x12; 0xBB; 0x74; 0x57;
   0x22; 0x55; 0x67; 0xA2; 0x67; 0x63; 0x5E; 0x71; 0x0A; 0x5D; 0xA4; 0xFC; 0x30; 0xA1; 0xFC; 0x30;
   0xC0; 0xEE; 0xF7; 0x7E; 0x21; 0xD4; 0xE4; 0xF5; 0x50; 0xEB; 0xB7; 0xAE; 0x5C; 0xAB; 0x5A; 0xE7;
   0x5D; 0x5D; 0x25; 0x80; 0xCB; 0xB0; 0xB9; 0x6D; 0xBE; 0xAB; 0x0B; 0x6F; 0x86; 0x3B; 0xF9; 0xCD;
   0x53; 0xE3; 0xDC; 0xB6; 0xCC; 0xF4; 0xB9; 0x3F; 0x9C; 0xC5; 0xF1; 0x5F; 0x4C; 0x4E; 0xAA; 0x89;
   0x7A; 0xB3; 0x25; 0xE6; 0x21; 0x47; 0x96; 0x9C; 0xE4; 0x47; 0x67; 0x58; 0x71; 0x21; 0x45; 0x30;
   0x9C; 0xC2; 0x3E; 0x97; 0x03; 0x91; 0xFA; 0xF9; 0x2A; 0xC5; 0x53; 0x4C; 0xEB; 0x4C; 0xEE; 0xF1;
   0x55; 0xAE; 0xB6; 0x26; 0x8A; 0xA3; 0x58; 0xEE; 0x9E; 0xDF; 0x07; 0x42; 0x78; 0x1D; 0xE2; 0xF2;
   0x62; 0xFD; 0x9F; 0x83; 0xA7; 0xF7; 0x95; 0x4A; 0x1C; 0xED; 0x7C; 0x31; 0xEF; 0xA6; 0x55; 0x22;
   0x10; 0x1F; 0x3B; 0x0D; 0xA0; 0x93; 0x0E; 0x27; 0xCB; 0x98; 0xD0; 0x3A; 0x1E; 0xF7; 0x34; 0x75;
   0x04; 0x87; 0x38; 0xC9; 0x70; 0x58; 0xE8; 0xB9; 0x11; 0x6E; 0xE7; 0x36; 0x96; 0xE9; 0x67; 0x46;
   0xE3; 0x07; 0x4C; 0x63; 0xF0; 0x54; 0x69; 0x6E; 0x7E; 0x6A; 0x7F; 0x4F; 0x67; 0xEF; 0x2D; 0xD8;
   0x0E; 0x07; 0x18; 0x20; 0xE7; 0xEE; 0xB3; 0x4D; 0x5B; 0xAA; 0x28; 0xA8; 0x80; 0x80; 0x80; 0x80;
   0x80; 0x80; 0x80; 0x80; 0x80; 0x80; 0x80; 0x80; 0x80; 0x80; 0x80; 0x80; 0x80; 0x80; 0x82; 0x04;
   0x80; 0x32; 0x4E; 0x02; 0x08; 0x6F; 0x6F; 0xD4; 0x3C; 0xD0; 0x37; 0xB7; 0xEA; 0x1E; 0x68; 0x1B;
   0xDB; 0xF5; 0x0F; 0x34; 0x0D; 0xED; 0xFA; 0x87; 0x9A; 0x06; 0xF6; 0xFD; 0x43; 0xCD; 0x03; 0x7B;
   0x7E; 0xA1; 0xE6; 0x81; 0xBD; 0xBF; 0x50; 0xF3; 0x40; 0xDE; 0xDF; 0xA8; 0x79; 0xA0; 0x6F; 0x6F;
   0xD4; 0x3C; 0xD0; 0x37; 0xB7; 0xEA; 0x1E; 0x68; 0x1B; 0xDB; 0xF5; 0x0F; 0x34; 0x0E; 0x63; 0x7E;
   0xA1; 0xE6; 0x82; 0x48; 0x8F; 0x63; 0xD8; 0x5B; 0xBC; 0x75; 0xF0; 0x2A; 0xB0; 0xA6; 0x9A; 0xB9;
   0x5F; 0xE9; 0x30; 0xBD; 0xA3; 0xD7; 0xB5; 0xCA; 0x9F; 0x6F; 0x87; 0xFF; 0x00; 0x98; 0x50; 0xE9;
   0x90; 0xCB; 0x18; 0xD7; 0xE5; 0xBC; 0xC8; 0xC4; 0xB9; 0xE4; 0x8F; 0x10; 0x1A; 0xC0; 0x0F; 0x86;
   0x54; 0x53; 0x34; 0xB9; 0x55; 0x77; 0x62; 0x99; 0xEC; 0x6F; 0xCE; 0x82; 0x61; 0xA8; 0xB5; 0x97;
   0x55; 0x89; 0xD3; 0x7B; 0x95; 0x7B; 0x35; 0x1B; 0x23; 0xC5; 0x61; 0xDB; 0x28; 0xCA; 0xA0; 0x8B;
   0x70; 0x4F; 0x7A; 0x1A; 0xE8; 0xF6; 0xEC; 0x9B; 0xA6; 0x6E; 0xC5; 0xBC; 0xA8; 0x97; 0x0C; 0x84;
   0x67; 0xC0; 0x9A; 0xA6; 0x4E; 0x42; 0x9A; 0x6B; 0xE1; 0x9E; 0xB8; 0x6B; 0x81; 0x70; 0xFD; 0xED;
   0xC8; 0xFD; 0xEB; 0xEB; 0x6E; 0xAE; 0x0A; 0xE2; 0xA8; 0xEF; 0x5A; 0xE2; 0xEC; 0x51; 0x8B; 0xC3;
   0xDC; 0xB1; 0x72; 0x35; 0x89; 0x89; 0xFD; 0xB7; 0x77; 0x82; 0x8F; 0x3F; 0x0E; 0xA1; 0x4E; 0x93;
   0x9C; 0x6B; 0x80; 0x6C; 0xCC; 0x26; 0xC6; 0x00; 0x9F; 0xA9; 0xA0; 0x85; 0x3B; 0xA6; 0xA9; 0xAA;
   0x75; 0x72; 0x3D; 0xCA; 0x22; 0xD5; 0x75; 0x51; 0xDD; 0x32; 0xAF; 0x31; 0x5B; 0x8E; 0x8E; 0x69;
   0x3F; 0xAA; 0xF6; 0xF0; 0x97; 0x9C; 0x3C; 0x47; 0x9A; 0x07; 0x3D; 0xBF; 0x50; 0xF3; 0x40; 0xE7;
   0x0F; 0xA8; 0x79; 0xA0; 0x73; 0x47; 0x88; 0xF3; 0x40; 0xE6; 0x8F; 0x11; 0xE6; 0x81; 0xCD; 0x1E;
   0x23; 0xCD; 0x03; 0x9A; 0x3C; 0x47; 0x9A; 0x07; 0x34; 0x78; 0x8F; 0x34; 0x0E; 0x70; 0xF1; 0x1E;
   0x68; 0x1C; 0xF6; 0xFD; 0x43; 0xCD; 0x03; 0x9E; 0xDF; 0xA8; 0x79; 0xA0; 0x73; 0xDB; 0xF5; 0x0F;
   0x34; 0x1F; 0x40; 0x72; 0x01; 0x41; 0x14; 0x04; 0x04; 0x04; 0x04; 0x04; 0x1F; 0x38; 0xDF; 0x94;
   0xE4; 0x14; 0xA8; 0x08; 0x08; 0x08; 0x08; 0x08; 0x08; 0x08; 0x08; 0x08; 0x19; 0x1E; 0x21; 0x04;
   0x1C; 0x46; 0xD3; 0xD5; 0x04; 0x8D; 0xC9; 0x70; 0xC2; 0x0E; 0x53; 0xFA; 0x48; 0xED; 0x98; 0xD4;
   0x7E; 0x23; 0x1F; 0x51; 0x2D; 0x78; 0x95; 0xAA; 0xD2; 0xA5; 0xE3; 0x42; 0x25; 0xA4; 0x02; 0x61;
   0xE6; 0x1B; 0xBC; 0xB0; 0xA2; 0xB9; 0x94; 0x4C; 0x5F; 0x99; 0x96; 0xFF; 0x00; 0xE8; 0x35; 0xF8;
   0xAF; 0x2B; 0x9B; 0x51; 0x3F; 0x25; 0x4D; 0x58; 0x0D; 0x3E; 0x07; 0xE6; 0x7F; 0xC1; 0x62; 0x25;
   0xB0; 0xFB; 0x35; 0x45; 0x50; 0xD6; 0x00; 0x40; 0xEF; 0xE8; 0xA9; 0xC9; 0x58; 0xDF; 0x92; 0xBA;
   0x8D; 0x48; 0x8D; 0x70; 0xD6; 0x24; 0x29; 0x52; 0xCD; 0x73; 0xE3; 0xCF; 0xCC; 0xC3; 0x93; 0x86;
   0xD6; 0x0C; 0x92; 0xE7; 0xBC; 0x30; 0x00; 0x07; 0x79; 0xF7; 0x97; 0xAA; 0x63; 0x8A; 0xA8; 0x88;
   0x7C; 0xEE; 0x5E; 0xA6; 0xCD; 0xBA; 0xAE; 0xD5; 0xCA; 0x22; 0x7D; 0x9D; 0xE4; 0xA3; 0x49; 0x7A;
   0xAE; 0x8B; 0x4F; 0x91; 0x3D; 0x5D; 0x2D; 0x2F; 0x0E; 0x06; 0x7F; 0xB8; 0xD0; 0xDC; 0xAD; 0x83;
   0x4C; 0x69; 0x4B; 0x91; 0x2E; 0x57; 0x17; 0x6E; 0x55; 0x5C; 0x72; 0xD6; 0xAF; 0x75; 0x63; 0x3E;
   0x20; 0x8F; 0x9A; 0x77; 0x7C; 0x25; 0x04; 0x98; 0x3E; 0x05; 0x04; 0x5A; 0x0E; 0xE1; 0xD1; 0x04;
   0xE8; 0x08; 0x08; 0x08; 0x08; 0x20; 0xEF; 0x84; 0xA0; 0x93; 0x07; 0xC0; 0xA0; 0x60; 0xF8; 0x14;
   0x0C; 0x1F; 0x02; 0x82; 0xBE; 0x17; 0xE5; 0xB3; 0xF4; 0x08; 0x27; 0x40; 0x40; 0x40; 0x40; 0x40;
   0x41; 0xF3; 0x8D; 0xF9; 0x4E; 0x41; 0x4A; 0x80; 0x81; 0x91; 0xE2; 0x10; 0x32; 0x3C; 0x42; 0x06;
   0x47; 0x88; 0x40; 0xC8; 0xF1; 0x08; 0x19; 0x1E; 0x21; 0x03; 0x23; 0xC4; 0x20; 0x6E; 0x1E; 0x21;
   0x04; 0xAE; 0x70; 0xDA; 0x7A; 0x84; 0x12; 0x65; 0x01; 0x00; 0xE4; 0x02; 0x70; 0x0F; 0x4E; 0xE3;
   0xDC; 0x7E; 0xCA; 0x93; 0xC9; 0x58; 0x6B; 0xDF; 0x19; 0x5C; 0x36; 0x8E; 0x21; 0x6C; 0x08; 0x46;
   0x9B; 0xB1; 0x97; 0x5D; 0x15; 0xEF; 0x99; 0xA6; 0x3E; 0x21; 0xDA; 0xD9; 0x8D; 0xCD; 0x1B; 0xE0;
   0xB8; 0xFC; 0x83; 0xF0; 0xDC; 0x78; 0x16; 0x83; 0xF3; 0x56; 0x18; 0xDC; 0x2C; 0xE2; 0x69; 0xFC;
   0x3C; 0xE1; 0x2C; 0xE8; 0xD6; 0x7B; 0x39; 0x1E; 0x2B; 0xF3; 0x3F; 0xDB; 0xAB; 0x69; 0xFA; 0xED;
   0x1F; 0xBC; 0xB9; 0x1F; 0x52; 0xA4; 0x4E; 0xD0; 0x6A; 0x53; 0x54; 0xDA; 0x84; 0xAC; 0x69; 0x19;
   0xF9; 0x57; 0xF2; 0xA6; 0x25; 0x66; 0x18; 0x59; 0x16; 0x1B; 0x87; 0x4C; 0x3C; 0x1E; 0xBB; 0xBB;
   0xFF; 0x00; 0x51; 0xD5; 0x44; 0xA6; 0x89; 0xB7; 0x33; 0x4D; 0x7C; 0xDD; 0x1B; 0x45; 0xDA; 0x6E;
   0x47; 0x1D; 0x13; 0xAD; 0x33; 0x1A; 0xC2; 0x98; 0x7B; 0xDD; 0xDD; 0x7E; 0x5D; 0x17; 0x87; 0xB4;
   0x0F; 0x71; 0xF9; 0xE0; 0x12; 0x7A; 0xE3; 0xF8; 0xFC; 0x93; 0x6E; 0xD7; 0xB8; 0x89; 0x8D; 0xF4;
   0x9F; 0xF3; 0xFC; 0xDF; 0xC1; 0xBB; 0xDE; 0x8F; 0xBE; 0x17; 0x67; 0xAB; 0x97; 0x04; 0x8E; 0xA8;
   0xDC; 0xB2; 0x0E; 0x97; 0xA3; 0x48; 0x17; 0xBE; 0x8D; 0x2D; 0x19; 0xBB; 0x4C; 0xEC; 0x6C; 0x16;
   0xF3; 0xF6; 0x9E; 0xE8; 0x6D; 0x04; 0xE3; 0xC5; 0xC0; 0x11; 0xD0; 0x2C; 0xDE; 0x03; 0x09; 0x35;
   0x55; 0xD6; 0x55; 0x1A; 0x68; 0xD5; 0x3D; 0x2E; 0xE9; 0x14; 0x59; 0xB3; 0xFC; 0xBB; 0x0F; 0x31;
   0x37; 0x2A; 0xF9; 0xA6; 0x27; 0x68; 0x8E; 0x6E; 0x90; 0x9C; 0x02; 0x40; 0xC9; 0xFB; 0xFF; 0x00;
   0x3F; 0xE6; 0xA4; 0xBD; 0xCD; 0x29; 0xCE; 0x22; 0x23; 0xB0; 0x6F; 0x47; 0x22; 0xAF; 0xA6; 0x47;
   0x88; 0x40; 0xC8; 0xF1; 0x08; 0x19; 0x1E; 0x21; 0x03; 0x23; 0xC4; 0x20; 0x64; 0x78; 0x84; 0x0C;
   0x8F; 0x10; 0x81; 0x91; 0xE2; 0x10; 0x32; 0x3C; 0x42; 0x06; 0x47; 0x88; 0x40; 0xC8; 0xF1; 0x08;
   0x19; 0x1E; 0x28; 0x08; 0x2B; 0x21; 0xFC; 0x0D; 0xFD; 0x02; 0x09; 0x90; 0x10; 0x10; 0x10; 0x10;
   0x10; 0x7C; 0xE3; 0xFE; 0x53; 0x90; 0x52; 0xE4; 0x78; 0x84; 0x10; 0x71; 0x1B; 0x4F; 0x54; 0x1F;
   0x34; 0x04; 0x04; 0x04; 0x04; 0x04; 0x10; 0x3D; 0xC8; 0x21; 0x84; 0x10; 0x39; 0x03; 0xB9; 0x04;
   0xBB; 0xDC; 0x3A; 0xE0; 0xA0; 0x83; 0xA3; 0x3D; 0xA0; 0x96; 0xB7; 0x25; 0x05; 0x3C; 0x59; 0xA9;
   0x8D; 0xA7; 0x10; 0x83; 0xBE; 0xD8; 0x4D; 0x74; 0xDD; 0x58; 0xDB; 0x9B; 0x12; 0x6B; 0x57; 0x0D;
   0xB6; 0x5E; 0xBA; 0xB4; 0x3A; 0xE6; 0xB6; 0x9B; 0x1A; 0xA8; 0xC6; 0xE2; 0x15; 0x5A; 0x4E; 0x30;
   0x81; 0x34; 0xC6; 0xFC; 0x87; 0x30; 0x03; 0xB8; 0x0F; 0xA5; 0xC3; 0x1F; 0x75; 0x67; 0x7B; 0x0B;
   0x6A; 0xF6; 0xF5; 0xC3; 0x3D; 0x96; 0x67; 0x78; 0xDC; 0xA7; 0x6C; 0x35; 0xC9; 0x88; 0xEE; 0x9D;
   0xFF; 0x00; 0xF1; 0xAD; 0x33; 0xDE; 0x8B; 0xBA; 0x64; 0x59; 0xBD; 0xF2; 0x77; 0x95; 0x62; 0x04;
   0xAE; 0xEE; 0xB0; 0xE6; 0x64; 0xA0; 0x46; 0x89; 0xFA; 0x6E; 0x0F; 0x68; 0x3F; 0xA9; 0x0B; 0x19;
   0x56; 0x55; 0x6E; 0xA9; 0xD6; 0x26; 0x61; 0x37; 0x8E; 0x9E; 0xDF; 0x8A; 0x62; 0x2E; 0x59; 0x8A;
   0xA7; 0xBF; 0x59; 0x8F; 0x6D; 0xD9; 0x47; 0x4A; 0x38; 0x07; 0xD3; 0xAD; 0x38; 0xA9; 0x40; 0xA8;
   0xCF; 0x52; 0xE7; 0x2E; 0xDA; 0x8C; 0x07; 0x88; 0x90; 0xA2; 0xD6; 0xA3; 0x34; 0xC0; 0x63; 0x87;
   0xCD; 0xB0; 0x61; 0x80; 0xDF; 0xBF; 0xBD; 0x95; 0x75; 0x6B; 0x2E; 0xB1; 0x44; 0xEB; 0x3B; 0xB0;
   0x59; 0x87; 0x4B; 0xB1; 0xF8; 0xB8; 0x9A; 0x69; 0x98; 0xA2; 0x99; 0xFD; 0x31; 0xBF; 0xAC; 0xEE;
   0xD9; 0xD9; 0x78; 0xD1; 0xA1; 0xC1; 0x64; 0x3E; 0x40; 0x84; 0xC1; 0xD1; 0xAD; 0x60; 0x18; 0x68;
   0x1D; 0xC3; 0x03; 0xA0; 0x1F; 0x60; 0xB2; 0x9E; 0x10; 0x84; 0x4C; 0xCC; 0xCC; 0xD5; 0x54; 0xEB;
   0x32; 0xAA; 0x6C; 0x67; 0xFC; 0xDA; 0x7C; 0x95; 0x5E; 0x53; 0x08; 0xA4; 0x9E; 0xE4; 0x13; 0x6F;
   0x41; 0x10; 0xEC; 0x94; 0x13; 0x65; 0x01; 0x01; 0x01; 0x01; 0x01; 0x01; 0x01; 0x04; 0x5B; 0xF1;
   0x04; 0x1F; 0x4C; 0x8F; 0x10; 0x82; 0xB2; 0x1F; 0xC0; 0xDF; 0xD0; 0x20; 0x99; 0x01; 0x01; 0x01;
   0x01; 0x01; 0x07; 0xCA; 0x67; 0xF2; 0x5D; 0xFB; 0xBF; 0x9A; 0x0A; 0x2C; 0x1F; 0x02; 0x81; 0x83;
   0xE0; 0x50; 0x30; 0x7C; 0x0A; 0x06; 0x0F; 0x81; 0x40; 0xC1; 0xF0; 0x28; 0x18; 0x3E; 0x05; 0x03;
   0x07; 0xC0; 0xA0; 0x60; 0xF8; 0x14; 0x0C; 0x1F; 0x02; 0x81; 0x83; 0xE0; 0x50; 0x40; 0xB4; 0xE3;
   0xB8; 0xA0; 0x86; 0xC2; 0x7E; 0x45; 0x03; 0x97; 0xF6; 0x28; 0x1C; 0xBF; 0xB1; 0x40; 0xE5; 0xFD;
   0x8A; 0x07; 0x2F; 0xEC; 0x50; 0x39; 0x7F; 0x62; 0x81; 0xCB; 0xFB; 0x14; 0x0E; 0x5F; 0xD8; 0xA0;
   0x72; 0xFE; 0xC5; 0x00; 0xB3; 0x1F; 0x22; 0x82; 0x1B; 0x4F; 0x81; 0x41; 0x10; 0xD3; 0x9E; 0xE2;
   0x82; 0x6C; 0x1F; 0x02; 0x81; 0x83; 0xE0; 0x50; 0x30; 0x7C; 0x0A; 0x06; 0x0F; 0x81; 0x40; 0xC1;
   0xF0; 0x28; 0x18; 0x3E; 0x05; 0x03; 0x07; 0xC0; 0xA0; 0x60; 0xF8; 0x14; 0x0C; 0x1F; 0x04; 0x15;
   0xF0; 0xBF; 0x29; 0x9F; 0xA0; 0x41; 0x3A; 0x02; 0x02; 0x02; 0x02; 0x02; 0x0F; 0x9C; 0x7F; 0xCA;
   0x72; 0x0A; 0x5C; 0x8F; 0x10; 0x81; 0x91; 0xE2; 0x10; 0x32; 0x3C; 0x42; 0x06; 0x47; 0x88; 0x40;
   0xC8; 0xF1; 0x08; 0x19; 0x1E; 0x21; 0x03; 0x23; 0xC4; 0x20; 0xE7; 0xB5; 0x7B; 0x5F; 0xEF; 0x6D;
   0x24; 0xE3; 0xD3; 0x56; 0x6B; 0x95; 0x3A; 0xED; 0x42; 0x7F; 0x47; 0x28; 0xB3; 0x76; 0xF5; 0x16;
   0xB5; 0x4C; 0x98; 0x9A; 0x89; 0x12; 0x5A; 0x8E; 0xDA; 0x84; 0x83; 0x0C; 0x29; 0xE8; 0x50; 0xC9;
   0xDB; 0x09; 0xAD; 0x8F; 0x07; 0x11; 0x0B; 0x40; 0xC8; 0x8E; 0x4E; 0x09; 0xEA; 0x03; 0x34; 0x69;
   0x2E; 0xA4; 0xCD; 0xCA; 0x71; 0x5B; 0xC5; 0x68; 0xAF; 0xDC; 0x73; 0x91; 0x2D; 0x2B; 0x6A; 0x5A;
   0xDB; 0x9C; 0x96; 0x81; 0x37; 0x37; 0x12; 0x24; 0xA5; 0x3A; 0x0B; 0xA9; 0x91; 0x62; 0xCC; 0x3E;
   0x0C; 0x32; 0x4B; 0x61; 0x87; 0x16; 0xEF; 0x76; 0xC0; 0x37; 0x11; 0x93; 0x92; 0x82; 0xD4; 0xFF;
   0x00; 0x28; 0x2D; 0xCF; 0xEC; 0xC7; 0xE2; 0x19; 0xD0; 0x2B; 0x9C; 0x68; 0xDE; 0xEE; 0x67; 0xB5;
   0xDE; 0xB2; 0x97; 0xED; 0x5D; 0x9B; 0x76; 0xDE; 0xD3; 0xD8; 0x31; 0xBF; 0x97; 0xF3; 0xDD; 0xBF;
   0x18; 0xEB; 0x94; 0x1B; 0x7D; 0x43; 0xAE; 0x48; 0xDC; 0x94; 0x5A; 0x7D; 0x5E; 0x99; 0x32; 0xC9;
   0xBA; 0x6C; 0xFC; 0xBC; 0x39; 0xA9; 0x69; 0x88; 0x7F; 0x0C; 0x58; 0x4F; 0x68; 0x73; 0x1C; 0x3E;
   0xC5; 0xA4; 0x1F; 0xDE; 0x83; 0x4B; 0x34; 0x92; 0xD5; 0xBF; 0x78; 0xE3; 0xA2; 0xCE; 0xEA; 0x85;
   0x6B; 0x57; 0x6F; 0x1D; 0x3E; 0xB2; 0xAA; 0x15; 0x09; 0xA9; 0x7B; 0x6A; 0xDD; 0xB1; 0x27; 0x5B;
   0x4E; 0x7B; 0x25; 0x20; 0x46; 0x7C; 0x11; 0x16; 0x62; 0x3E; 0xD7; 0x3A; 0x23; 0xDC; 0xE6; 0x3F;
   0x20; 0x8C; 0x0C; 0x74; 0x20; 0x10; 0xD0; 0x19; 0xEA; 0x89; 0x44; 0xBB; 0x78; 0x73; 0xD1; 0xFA;
   0xE0; 0x15; 0x4B; 0xA3; 0x5C; 0xEA; 0xD0; 0x27; 0x5B; 0x12; 0x95; 0x29; 0x3C; 0xF8; 0x2D; 0xA9;
   0x3E; 0x1C; 0x53; 0x06; 0x13; 0x60; 0x3A; 0x39; 0xDA; 0xD7; 0x35; 0x8E; 0x31; 0x22; 0xBA; 0x2B;
   0xC0; 0x21; 0xAE; 0x77; 0x42; 0x1A; 0x32; 0x1E; 0x6E; 0x84; 0x71; 0x35; 0x56; 0xD4; 0xAD; 0x41;
   0xAF; 0xE9; 0xF5; 0xF3; 0xA7; 0x93; 0xBA; 0x63; 0x7E; 0x52; 0xA4; 0x61; 0xD5; 0x9B; 0x4A; 0x99;
   0xA8; 0xC2; 0xA8; 0x42; 0x9A; 0x92; 0x7B; 0xCC; 0x31; 0x1A; 0x14; 0x78; 0x40; 0x35; 0xD8; 0x7E;
   0x1A; 0x40; 0x18; 0x04; 0xE3; 0x24; 0x82; 0x00; 0x61; 0x5B; 0x6B; 0xD2; 0x61; 0x50; 0xAB; 0x69;
   0x9D; 0xBD; 0xA9; 0x55; 0x3D; 0x17; 0xAC; 0xD2; 0xB4; 0xDA; 0x62; 0x6C; 0x49; 0x56; 0xEE; 0x66;
   0x55; 0xA1; 0x46; 0x85; 0x4B; 0x88; 0x66; 0x1D; 0x05; 0xA6; 0x1C; 0x3E; 0x5B; 0x62; 0x4C; 0xB3;
   0x1C; 0xB2; 0xE7; 0x86; 0xB0; 0x07; 0x38; 0xB0; 0x6E; 0x73; 0x7A; 0x86; 0x52; 0xD3; 0x9E; 0x2F;
   0x2A; 0xB7; 0x3E; 0xB4; 0xD1; 0x6C; 0x3B; 0xB3; 0x4B; 0x6B; 0x3A; 0x7F; 0x02; 0xE7; 0x92; 0x98;
   0xA8; 0x5A; 0xF5; 0x3A; 0x9C; 0xEC; 0x18; 0xCE; 0xA9; 0xC3; 0x82; 0xD0; 0xF7; 0x88; 0x90; 0x61;
   0x8C; 0xCB; 0xBC; 0x43; 0x3B; 0xB6; 0x39; 0xCE; 0x70; 0xE8; 0x08; 0x19; 0x19; 0x0B; 0x7E; 0x73;
   0x8D; 0x9B; 0xBE; 0xE5; 0x98; 0xAC; 0xD5; 0x34; 0xC7; 0x42; 0xEB; 0xBA; 0x8B; 0x61; 0x52; 0x26;
   0x63; 0x4A; 0xC7; 0xB9; 0xE1; 0x55; 0xA5; 0xE4; 0x84; 0xCB; 0xA0; 0xB8; 0xB6; 0x2B; 0xA5; 0x25;
   0xDE; 0x0B; 0xE6; 0x1A; 0x08; 0x70; 0x05; 0xB8; 0xC9; 0x18; 0xC0; 0x28; 0x2A; 0x6F; 0x5E; 0x3D;
   0x69; 0x34; 0x99; 0x5D; 0x17; 0x9E; 0xB4; 0x6C; 0xDA; 0x9D; 0xF3; 0x25; 0xAA; 0x12; 0xD5; 0x18;
   0x94; 0xF8; 0x52; 0x51; 0xDB; 0x06; 0x6E; 0x04; 0x79; 0x68; 0x70; 0xF6; 0xC0; 0x30; 0x8B; 0x4B;
   0x5C; 0x5D; 0x16; 0x27; 0x2D; 0xEE; 0x2F; 0x6B; 0x61; 0x86; 0x39; 0xF9; 0x70; 0x08; 0x2E; 0xCB;
   0x8B; 0x5C; 0xF5; 0x72; 0x8D; 0x61; 0x5A; 0xB3; 0xD2; 0x7C; 0x3F; 0xD4; 0x6A; 0xD7; 0xA5; 0x58;
   0x4E; 0x44; 0x9E; 0xB7; 0x20; 0x5C; 0x92; 0x6D; 0x81; 0x4A; 0x87; 0x06; 0x28; 0x6B; 0x0C; 0x59;
   0xE2; 0x39; 0x6E; 0x74; 0x56; 0x39; 0x8F; 0x6B; 0x1A; 0xD2; 0x7E; 0x30; 0x7A; 0xB0; 0xE4; 0x2E;
   0xDE; 0x1D; 0xF5; 0xDA; 0x47; 0x88; 0x2D; 0x3E; 0x7D; 0xC3; 0x2F; 0x49; 0x9B; 0xB7; 0x6A; 0x32;
   0x53; 0xF3; 0x14; 0x8A; 0xB5; 0x12; 0x7C; 0x83; 0x1E; 0x9F; 0x3B; 0x01; 0xC1; 0xB1; 0x60; 0xB8;
   0x8E; 0x87; 0x19; 0x69; 0x07; 0x03; 0xA3; 0x86; 0x40; 0x39; 0x00; 0x35; 0xA7; 0xD2; 0x29; 0x7F;
   0xC9; 0xDA; 0x1A; 0xAF; 0xA0; 0xD2; 0x17; 0x1E; 0xA7; 0x5D; 0xFA; 0x5D; 0x61; 0x54; 0xFD; 0x7D;
   0xEB; 0xCA; 0xA5; 0x9D; 0x50; 0x98; 0x96; 0x98; 0x3C; 0xB8; 0x12; 0xCE; 0x96; 0xC8; 0x82; 0xC8;
   0x85; 0xFF; 0x00; 0xD2; 0xB9; 0xAD; 0xEB; 0x0D; 0xD8; 0x11; 0x1F; 0xDD; 0x92; 0x40; 0x52; 0x69;
   0x87; 0x11; 0x3A; 0x73; 0xA3; 0x36; 0x24; 0x5A; 0xE6; 0x9C; 0x6A; 0x16; 0xA7; 0x71; 0x1F; 0x55;
   0xBB; 0xAB; 0x2C; 0xB7; 0xE9; 0x14; 0x4B; 0x96; 0xA5; 0x1A; 0x3C; 0x61; 0x39; 0x2F; 0x0B; 0x9B;
   0x15; 0xB0; 0x4C; 0xC4; 0x08; 0x46; 0x0C; 0x3E; 0x5C; 0xD4; 0x23; 0x12; 0x26; 0xD7; 0x03; 0xFD;
   0x1F; 0xD2; 0xEC; 0x06; 0x67; 0xD2; 0x2E; 0x2B; 0xEB; 0x17; 0x4E; 0xAA; 0x41; 0xD3; 0x6D; 0x49;
   0xD3; 0x3A; 0x96; 0x94; 0xDE; 0x73; 0xD2; 0x51; 0x2A; 0x14; 0xA9; 0x79; 0x9A; 0x8C; 0x1A; 0x94;
   0xAD; 0x46; 0x14; 0x3F; 0xCC; 0x10; 0xE6; 0x21; 0x00; 0xDE; 0x63; 0x47; 0xBC; 0x5B; 0x83; 0x80;
   0x0E; 0x48; 0xE8; 0x08; 0x78; 0x3F; 0xB7; 0x1F; 0xFC; 0x46; 0x3F; 0x68; 0xBF; 0x62; 0xBF; 0xF2;
   0xD7; 0xAD; 0x7F; 0xEB; 0x3E; 0xC3; 0xFD; 0x67; 0x93; 0xFF; 0x00; 0x79; 0xF9; 0x7F; 0xEA; 0xFF;
   0x00; 0xAC; 0x83; 0xDA; 0xD6; 0x2E; 0x2C; 0xAB; 0x7A; 0x79; 0xAF; 0x50; 0x74; 0xA2; 0xD9; 0xD3].

Definition noCameraFound_4 : list Z :=
  [0x19; 0xEB; 0xFA; 0xE0; 0x9C; 0xB5; 0xDB; 0x71; 0x49; 0x76; 0x1A; 0x9C; 0x39; 0x51; 0x11; 0xE6;
   0x69; 0xF0; 0x0C; 0x18; 0xA6; 0x23; 0x36; 0x41; 0x86; 0x1B; 0x0D; 0xCF; 0xE7; 0x17; 0x9E; 0xBB;
   0x58; 0x18; 0x4B; 0x81; 0x41; 0xE4; 0xC9; 0x71; 0xE9; 0x42; 0x3C; 0x3B; 0x4F; 0xEA; 0x45; 0x46;
   0xD3; 0xAA; 0xC8; 0xD7; 0xE4; 0xAB; 0xAF; 0xB5; 0x22; 0xD9; 0x8C; 0x7B; 0x62; 0xCD; 0xBA; 0xB2;
   0x1E; 0x1A; 0x25; 0x18; 0xF0; 0x00; 0x77; 0x47; 0x07; 0x6E; 0xDA; 0x08; 0x01; 0xDE; 0xE9; 0x23;
   0x04; 0x31; 0x4D; 0x4B; 0x56; 0xAE; 0xAD; 0x49; 0xE3; 0x83; 0x85; 0xF9; 0x5B; 0xD7; 0x4D; 0xAA;
   0x5A; 0x67; 0x70; 0x53; 0xDB; 0x73; 0x46; 0x32; 0x13; 0x73; 0xD0; 0x67; 0xE0; 0x47; 0x81; 0x1A;
   0x98; 0x39; 0x6F; 0x87; 0x31; 0x0B; 0x0D; 0x2E; 0x06; 0x13; 0xC3; 0x98; 0x40; 0x73; 0x7D; 0xDC;
   0xFC; 0x41; 0x06; 0xFC; 0xE4; 0x78; 0x84; 0x0C; 0x8F; 0x10; 0x81; 0x91; 0xE2; 0x10; 0x32; 0x3C;
   0x42; 0x08; 0x38; 0x8D; 0xA7; 0xAA; 0x0A; 0xC8; 0x5F; 0x94; 0xCF; 0xD0; 0x20; 0x9D; 0x01; 0x01;
   0x01; 0x01; 0x01; 0x04; 0x08; 0x0E; 0x18; 0x23; 0x23; 0xEE; 0x82; 0x5E; 0x53; 0x3E; 0x86; 0xF9;
   0x20; 0x72; 0x99; 0xF4; 0x37; 0xC9; 0x03; 0x94; 0xCF; 0xA1; 0xBE; 0x48; 0x1C; 0xA6; 0x7D; 0x0D;
   0xF2; 0x40; 0xE5; 0x33; 0xE8; 0x6F; 0x92; 0x07; 0x29; 0x9F; 0x43; 0x7C; 0x90; 0x39; 0x4C; 0xFA;
   0x1B; 0xE4; 0x83; 0x59; 0xAC; 0xFE; 0x1E; 0x27; 0xEB; 0x1C; 0x40; 0xF1; 0x45; 0x37; 0x79; 0xDB;
   0xF0; 0xE2; 0x58; 0x3A; 0x85; 0x29; 0x41; 0x93; 0x90; 0x8A; 0xF8; 0xF0; 0x9F; 0xDB; 0x61; 0xC0;
   0xA7; 0xC4; 0x81; 0x33; 0x86; 0x35; 0xC5; 0xF0; 0xCB; 0x1E; 0xE0; 0x01; 0x73; 0x5A; 0x73; 0x82;
   0xDC; 0xE3; 0x28; 0x31; 0x67; 0x0A; 0x1C; 0x1F; 0x6A; 0x15; 0x9D; 0x17; 0x89; 0x1B; 0x5F; 0x52;
   0xA2; 0xBE; 0x3D; 0x1A; 0xEF; 0xA5; 0xC8; 0x5B; 0x74; 0x6B; 0x8C; 0x47; 0x83; 0x16; 0x24; 0xF4;
   0x8C; 0x09; 0x49; 0xB9; 0x36; 0x45; 0x30; 0xD8; 0xF2; 0xE6; 0x3D; 0x90; 0x1F; 0x2F; 0x91; 0x10;
   0x34; 0x93; 0x9C; 0x13; 0x82; 0x50; 0x79; 0xDE; 0xC3; 0x71; 0x50; 0x74; 0x07; 0xF6; 0x7B; 0xFC;
   0x37; 0xB5; 0x85; 0x37; 0xD5; 0x5E; 0xCC; 0x7E; 0x22; 0xFA; 0xFE; 0x1F; 0x65; 0xF5; 0x76; 0xCE;
   0x4E; 0xFE; 0xC7; 0x8E; 0x77; 0x33; 0x93; 0xD3; 0x38; 0xEF; 0xEB; 0xB5; 0x06; 0xED; 0xE9; 0xC5;
   0x8F; 0x2B; 0xA7; 0x1A; 0x79; 0x6B; 0xDA; 0x72; 0xB1; 0x0C; 0xCC; 0xB5; 0x06; 0x97; 0x2B; 0x4B;
   0x85; 0x1E; 0x23; 0x40; 0x74; 0x46; 0x40; 0x82; 0xD8; 0x4D; 0x71; 0x1E; 0x24; 0x30; 0x14; 0x1A;
   0xA3; 0x65; 0xD8; 0xFA; 0xF5; 0xC1; 0xFB; 0xAA; 0xF6; 0x8E; 0x9F; 0x69; 0xE5; 0x23; 0x58; 0x74;
   0xCA; 0x2D; 0x42; 0x62; 0x7E; 0x87; 0x07; 0xD7; 0xD0; 0xA9; 0x15; 0x0A; 0x4B; 0x23; 0x44; 0x31;
   0x1F; 0x2F; 0x10; 0xC6; 0x05; 0x91; 0x18; 0xD7; 0xB9; 0xC4; 0x16; 0x8C; 0x9C; 0x92; 0x48; 0xCE;
   0xD6; 0x85; 0x5E; 0xBF; 0x58; 0x9A; 0xFB; 0xAF; 0xFC; 0x34; 0xC4; 0x93; 0x9F; 0xB5; 0x29; 0x76;
   0xED; 0xCC; 0x2E; 0x59; 0x79; 0xC8; 0xF6; 0x7D; 0x1A; 0xE1; 0x2C; 0x75; 0x4A; 0x8A; 0xC6; 0x0E;
   0x64; 0x9C; 0x59; 0xDF; 0x75; 0xAD; 0x8A; 0xF8; 0x8E; 0x71; 0x25; 0xB8; 0x6E; 0xD6; 0x37; 0xE7;
   0x90; 0x42; 0xCF; 0xE0; 0xDB; 0x84; 0xDB; 0x9F; 0x46; 0xF8; 0xA3; 0x9C; 0xBD; 0x5D; 0xA5; 0x52;
   0x3A; 0x63; 0x66; 0x54; 0xAC; 0x88; 0x92; 0x26; 0x9B; 0x27; 0x72; 0x1A; 0xCB; 0xA5; 0xE7; 0xDD;
   0x3F; 0x05; 0xDC; 0xB8; 0xB1; 0x62; 0x44; 0x2F; 0x7C; 0x47; 0x43; 0x83; 0xBF; 0x74; 0x36; 0x88;
   0x40; 0x6D; 0x68; 0x3B; 0xB7; 0x64; 0x29; 0xBF; 0x65; 0x8D; 0x4D; 0xFF; 0x00; 0x25; 0x07; 0xE0;
   0xE7; 0xB2; 0xE3; 0xF1; 0x2B; 0xFE; 0x86; 0xED; 0xF2; 0xB9; 0xFF; 0x00; 0x97; 0x7B; 0x57; 0xE7;
   0xF3; 0x79; 0x3F; 0x91; 0xEF; 0xFC; 0x7F; 0x6E; 0xFE; 0x88; 0x33; 0xFE; 0xB2; 0x69; 0x4D; 0xCB;
   0x75; 0x71; 0x5F; 0xC3; 0xAD; 0xE3; 0x49; 0xA4; 0xB6; 0x66; 0xDA; 0xB4; 0xFD; 0xA2; 0xF5; 0xD4;
   0xE0; 0x8F; 0x09; 0x9D; 0x97; 0xB5; 0x48; 0x32; 0x14; 0xBF; 0xB8; 0xE7; 0x07; 0xBF; 0x73; 0xDA;
   0x47; 0xB8; 0xD7; 0x63; 0x19; 0x38; 0x1D; 0x50; 0x69; 0x5C; 0x4F; 0x47; 0x54; 0xFE; 0x96; 0x54;
   0xEA; 0x54; 0x67; 0xF0; 0xDF; 0x47; 0xD7; 0x2A; 0x73; 0xA6; 0xE2; 0xC4; 0xA7; 0x5C; 0xF0; 0x6F;
   0xE9; 0x8A; 0x14; 0xC3; 0x65; 0xDC; 0xE2; 0x61; 0xB2; 0x6A; 0x5D; 0xD1; 0x43; 0x0B; 0xD8; 0x0E;
   0xDC; 0xC2; 0x00; 0x10; 0x07; 0x79; 0xC9; 0x41; 0xB0; 0x16; 0x2F; 0x0C; 0xB7; 0x75; 0xAD; 0x7E;
   0x70; 0x9F; 0x33; 0x2F; 0x62; 0xD2; 0xAD; 0xBA; 0x0D; 0x8D; 0xED; 0x63; 0xEB; 0x72; 0x14; 0x8A;
   0xB3; 0xA7; 0x25; 0xA9; 0x42; 0x7A; 0x13; 0xBB; 0x2B; 0x44; 0x49; 0x98; 0x86; 0x34; 0x77; 0x39;
   0xCE; 0xF7; 0x8B; 0x43; 0x83; 0x5F; 0xBB; 0x1B; 0x59; 0xB5; 0x07; 0xCB; 0x8D; 0xDE; 0x1C; 0xEF;
   0x9D; 0x5C; 0xD6; 0x1B; 0x46; 0xB1; 0x2D; 0x61; 0xB7; 0x56; 0xB4; 0xEA; 0x5A; 0x91; 0x12; 0x46;
   0x62; 0xD0; 0x7D; 0xD4; 0xEA; 0x14; 0x39; 0x69; 0xF3; 0x18; 0xB8; 0x4E; 0xBD; 0xED; 0x20; 0xBC;
   0x72; 0xCB; 0x5B; 0xB5; 0xB9; 0x3E; 0xE1; 0xE8; 0x3A; 0x64; 0x2F; 0x5F; 0x47; 0xC6; 0x81; 0x5C;
   0xDC; 0x3C; 0x69; 0xBD; 0xFD; 0x6E; 0x5D; 0x14; 0x19; 0x4A; 0x0F; 0x69; 0xBD; 0xAA; 0x15; 0x0A;
   0x5C; 0xB4; 0x94; 0xD8; 0x9A; 0x80; 0xE9; 0x07; 0x41; 0x96; 0x87; 0x05; 0xF0; 0xDC; 0x5E; 0xF8;
   0x81; 0x87; 0x94; 0xE0; 0x04; 0x52; 0x22; 0x60; 0x02; 0xF1; 0x93; 0xD4; 0x2E; 0x4D; 0x65; 0xD2;
   0xAB; 0x96; 0xEB; 0xE2; 0xC3; 0x87; 0x5B; 0xCA; 0x95; 0x4A; 0x13; 0x56; 0xD5; 0xA7; 0xED; 0x1F;
   0xAE; 0xA7; 0x79; 0xF0; 0x99; 0xD9; 0x7B; 0x54; 0x83; 0x21; 0x4B; 0xFB; 0x8E; 0x70; 0x7B; 0xF7;
   0x3D; 0xA4; 0x7B; 0x8D; 0x76; 0x3B; 0xCE; 0x07; 0x54; 0x14; 0x7C; 0x58; 0xE8; 0xED; 0xEF; 0x74;
   0x5C; 0xBA; 0x63; 0xA9; 0x7A; 0x69; 0x2D; 0x4D; 0xAA; 0x5E; 0x7A; 0x7D; 0x3D; 0x37; 0x1E; 0x0D;
   0x0E; 0xA9; 0x1B; 0x91; 0x06; 0xA3; 0x2D; 0x35; 0x05; 0xB0; 0x66; 0x21; 0x88; 0x9D; 0xCC; 0x89;
   0xB5; 0xAD; 0xDA; 0x5D; 0x80; 0x32; 0x4E; 0x7A; 0x00; 0x42; 0xD4; 0xB0; 0x34; 0xF7; 0x58; 0x35;
   0xAB; 0x89; 0x2B; 0x3B; 0x54; 0xB5; 0x4A; 0xCB; 0xA6; 0x69; 0x8D; 0x1A; 0xC6; 0x90; 0x9E; 0x81;
   0x47; 0xA0; 0x4B; 0x55; 0xE1; 0x55; 0x26; 0xA6; 0xE6; 0x66; 0xE1; 0x88; 0x51; 0x62; 0xC4; 0x8B;
   0x08; 0x06; 0x08; 0x61; 0x83; 0xA0; 0xE8; 0x41; 0x03; 0xA1; 0xC9; 0x20; 0x35; 0xEA; 0xE7; 0xE1;
   0xAB; 0x89; 0x29; 0x3E; 0x10; 0x2E; 0x5E; 0x1C; 0xE9; 0x1A; 0x7B; 0x45; 0x9F; 0xA0; 0xD3; 0x27;
   0x5D; 0x16; 0x9D; 0x72; 0x36; 0xBB; 0x2E; 0xD8; 0xD5; 0x89; 0x63; 0x53; 0x6C; 0xD3; 0x61; 0x43;
   0x80; 0xF7; 0x37; 0x94; 0xF0; 0x5C; 0x62; 0x39; 0xF1; 0x5E; 0xD1; 0xB6; 0x19; 0x60; 0x05; 0xC4;
   0x12; 0x1B; 0x79; 0xF8; 0x53; 0x72; 0x9E; 0x3E; 0x7F; 0x11; 0xBD; 0x52; 0xDF; 0x62; 0xFF; 0x00;
   0x0C; 0xFD; 0x9F; 0xF5; 0x97; 0x3E; 0x17; 0xF5; 0xFF; 0x00; 0x5A; 0x73; 0xF9; 0x5C; 0xAD; 0xDC;
   0xCF; 0xCA; 0xF7; 0xB7; 0xED; 0xDB; 0xF2; 0xDD; 0x9E; 0x88; 0x30; 0x3C; 0xFF; 0x00; 0x08; 0xBA;
   0x99; 0x52; 0xD3; 0x2D; 0x4F; 0x74; 0x85; 0x3A; 0x4E; 0x99; 0x79; 0x4A; 0x6B; 0x74; 0xE6; 0xA5;
   0xDA; 0x72; 0xF3; 0xF3; 0x30; 0x9F; 0x2F; 0x52; 0x80; 0xD7; 0x43; 0xE4; 0x6F; 0x74; 0x37; 0xBB;
   0x96; 0x22; 0x34; 0xC4; 0xC3; 0x5F; 0xB4; 0x82; 0xD0; 0x1C; 0x1A; 0x0E; 0x40; 0x5C; 0x74; 0xEB;
   0x37; 0x5E; 0xF5; 0x67; 0x8A; 0xCD; 0x0C; 0xD4; 0x7B; 0xE3; 0x4D; 0xA9; 0x96; 0x4D; 0xB5; 0x6A;
   0xB2; 0xB7; 0x02; 0x6E; 0x42; 0x52; 0xB9; 0x2F; 0x3F; 0x1E; 0x51; 0xD1; 0xE4; 0x4C; 0x36; 0xC6;
   0x8A; 0xF6; 0x96; 0xEF; 0x6C; 0x58; 0x85; 0x8D; 0x6B; 0x21; 0x87; 0x96; 0x72; 0xDC; 0x5E; 0x40;
   0x70; 0x41; 0xBA; 0x9C; 0xA6; 0x7D; 0x0D; 0xF2; 0x40; 0xE5; 0x33; 0xE8; 0x6F; 0x92; 0x07; 0x29;
   0x9F; 0x43; 0x7C; 0x90; 0x39; 0x4C; 0xFA; 0x1B; 0xE4; 0x81; 0xCA; 0x67; 0xD0; 0xDF; 0x24; 0x13;
   0x01; 0x81; 0x81; 0xDC; 0x82; 0x28; 0x08; 0x08; 0x08; 0x08; 0x08; 0x08; 0x08; 0x08; 0x08; 0x08;
   0x08; 0x08; 0x08; 0x08; 0x08; 0x08; 0x08; 0x08; 0x08; 0x08; 0x08; 0x08; 0x08; 0x08; 0x08; 0x08;
   0x08; 0x08; 0x08; 0x08; 0x08; 0x08; 0x08; 0x08; 0x08; 0x08; 0x08; 0x08; 0x08; 0x08; 0x08; 0x08;
   0x08; 0x08; 0x08; 0x08; 0x08; 0x08; 0x08; 0x08; 0x08; 0x08; 0x08; 0x08; 0x08; 0x08; 0x08; 0x08;
   0x08; 0x08; 0x08; 0x08; 0x08; 0x08; 0x08; 0x08; 0x08; 0x08; 0x08; 0x08; 0x08; 0x08; 0x08; 0x08;
   0x08; 0x08; 0x08; 0x08; 0x08; 0x08; 0x08; 0x08; 0x3F; 0xFF; 0xD9].

(** The JPEG image copied into the buffer when no image arrives. *)
Definition noCameraFound : list Z :=
  noCameraFound_1 ++ noCameraFound_2 ++ noCameraFound_3 ++ noCameraFound_4.

Definition OV5640YUV_Sensor_Dvp_Init_1 : list regval_list :=
  [rv 0x3008 0x82; rv 0x3008 0x42; rv 0x3034 0x1A; rv 0x3035 0x31; rv 0x3036 0xB4;
   rv 0x3037 0x13; rv 0x3039 0x00; rv 0x3103 0x02; rv 0x3108 0x01; rv 0x460C 0x22;
   rv 0x3824 0x04; rv 0x3002 0x00; rv 0x3006 0xFF; rv 0x4740 0x24; rv 0x3017 0x7F;
   rv 0x3018 0xFF; rv 0x302C 0x02; rv 0x4713 0x03; rv 0x4404 0x34; rv 0x3821 0x20;
   rv 0x4300 0xF8; rv 0x501F 0x00; rv 0x3A02 0x07; rv 0x3A03 0xB0; rv 0x3A0E 0x06;
   rv 0x3A0D 0x08; rv 0x3A14 0x07; rv 0x3A15 0xB0; rv 0x4001 0x02; rv 0x4004 0x06;
   rv 0x3406 0x01; rv 0x3400 0x06; rv 0x3401 0x80; rv 0x3402 0x04; rv 0x3403 0x00;
   rv 0x3404 0x06; rv 0x3405 0x00; rv 0x5180 0xFF; rv 0x5181 0xF2; rv 0x5182 0x00;
   rv 0x5183 0x14; rv 0x5184 0x25; rv 0x5185 0x24; rv 0x5186 0x16; rv 0x5187 0x16;
   rv 0x5188 0x16; rv 0x5189 0x62; rv 0x518A 0x62; rv 0x518B 0xF0; rv 0x518C 0xB2;
   rv 0x518D 0x50; rv 0x518E 0x30; rv 0x518F 0x30; rv 0x5190 0x50; rv 0x5191 0xF8;
   rv 0x5192 0x04; rv 0x5193 0x70; rv 0x5194 0xF0; rv 0x5195 0xF0; rv 0x5196 0x03;
   rv 0x5197 0x01; rv 0x5198 0x04; rv 0x5199 0x12; rv 0x519A 0x04; rv 0x519B 0x00;
   rv 0x519C 0x06; rv 0x519D 0x82; rv 0x519E 0x38; rv 0x5381 0x1E; rv 0x5382 0x5B;
   rv 0x5383 0x14; rv 0x5384 0x06; rv 0x5385 0x82; rv 0x5386 0x88; rv 0x5387 0x7C;
   rv 0x5388 0x60; rv 0x5389 0x1C; rv 0x538A 0x01; rv 0x538B 0x98; rv 0x5300 0x08;
   rv 0x5301 0x30; rv 0x5302 0x3F; rv 0x5303 0x10; rv 0x5304 0x08; rv 0x5305 0x30;
   rv 0x5306 0x18; rv 0x5307 0x28; rv 0x5309 0x08; rv 0x530A 0x30; rv 0x530B 0x04;
   rv 0x530C 0x06; rv 0x5480 0x01; rv 0x5481 0x06].

Definition OV5640YUV_Sensor_Dvp_Init_2 : list regval_list :=
  [rv 0x5482 0x12; rv 0x5483 0x24; rv 0x5484 0x4A; rv 0x5485 0x58; rv 0x5486 0x65;
   rv 0x5487 0x72; rv 0x5488 0x7D; rv 0x5489 0x88; rv 0x548A 0x92; rv 0x548B 0xA3;
   rv 0x548C 0xB2; rv 0x548D 0xC8; rv 0x548E 0xDD; rv 0x548F 0xF0; rv 0x5490 0x15;
   rv 0x5000 0xA7; rv 0x5800 0x20; rv 0x5801 0x19; rv 0x5802 0x17; rv 0x5803 0x16;
   rv 0x5804 0x18; rv 0x5805 0x21; rv 0x5806 0x0F; rv 0x5807 0x0A; rv 0x5808 0x07;
   rv 0x5809 0x07; rv 0x580A 0x0A; rv 0x580B 0x0C; rv 0x580C 0x0A; rv 0x580D 0x03;
   rv 0x580E 0x01; rv 0x580F 0x01; rv 0x5810 0x03; rv 0x5811 0x09; rv 0x5812 0x0A;
   rv 0x5813 0x03; rv 0x5814 0x01; rv 0x5815 0x01; rv 0x5816 0x03; rv 0x5817 0x08;
   rv 0x5818 0x10; rv 0x5819 0x0A; rv 0x581A 0x06; rv 0x581B 0x06; rv 0x581C 0x08;
   rv 0x581D 0x0E; rv 0x581E 0x22; rv 0x581F 0x18; rv 0x5820 0x13; rv 0x5821 0x12;
   rv 0x5822 0x16; rv 0x5823 0x1E; rv 0x5824 0x64; rv 0x5825 0x2A; rv 0x5826 0x2C;
   rv 0x5827 0x2A; rv 0x5828 0x46; rv 0x5829 0x2A; rv 0x582A 0x26; rv 0x582B 0x24;
   rv 0x582C 0x26; rv 0x582D 0x2A; rv 0x582E 0x28; rv 0x582F 0x42; rv 0x5830 0x40;
   rv 0x5831 0x42; rv 0x5832 0x08; rv 0x5833 0x28; rv 0x5834 0x26; rv 0x5835 0x24;
   rv 0x5836 0x26; rv 0x5837 0x2A; rv 0x5838 0x44; rv 0x5839 0x4A; rv 0x583A 0x2C;
   rv 0x583B 0x2A; rv 0x583C 0x46; rv 0x583D 0xCE; rv 0x5688 0x22; rv 0x5689 0x22;
   rv 0x568A 0x42; rv 0x568B 0x24; rv 0x568C 0x42; rv 0x568D 0x24; rv 0x568E 0x22;
   rv 0x568F 0x22; rv 0x3A0F 0x30; rv 0x3A10 0x28; rv 0x3A1B 0x30; rv 0x3A1E 0x28;
   rv 0x3A11 0x61; rv 0x3A1F 0x10; rv 0x3814 0x11; rv 0x3815 0x11; rv 0x5001 0x83;
   rv 0x3820 0x46; rv 0x3821 0x20; rv 0x3800 0x00; rv 0x3801 0x00; rv 0x3802 0x00;
   rv 0x3803 0x00; rv 0x3804 0x0A; rv 0x3805 0x3F; rv 0x3806 0x07; rv 0x3807 0x9F;
   rv 0x3808 0x0A; rv 0x3809 0x20; rv 0x380A 0x07; rv 0x380B 0x98; rv 0x380C 0x0B;
   rv 0x380D 0x1C; rv 0x380E 0x07; rv 0x380F 0xB0; rv 0x5680 0x00; rv 0x5681 0x00;
   rv 0x5682 0x0A; rv 0x5683 0x20; rv 0x5684 0x00; rv 0x5685 0x00; rv 0x5686 0x07;
   rv 0x5687 0x98; rv 0x4005 0x1A; rv 0x3406 0x00; rv 0x3503 0x00; rv 0x3008 0x02;
   rv 0xFFFF 0xFF].

Definition OV5640YUV_Sensor_Dvp_Init : list regval_list :=
  OV5640YUV_Sensor_Dvp_Init_1 ++ OV5640YUV_Sensor_Dvp_Init_2.

Definition OV5640_JPEG_QSXGA : list regval_list :=
  [rv 0x3814 0x11; rv 0x3815 0x11; rv 0x5001 0x83; rv 0x3800 0x00; rv 0x3801 0x00;
   rv 0x3802 0x00; rv 0x3803 0x00; rv 0x3804 0x0A; rv 0x3805 0x3F; rv 0x3806 0x07;
   rv 0x3807 0x9F; rv 0x3808 0x0A; rv 0x3809 0x20; rv 0x380A 0x07; rv 0x380B 0x98;
   rv 0x380C 0x0B; rv 0x380D 0x1C; rv 0x380E 0x07; rv 0x380F 0xB0; rv 0x5680 0x00;
   rv 0x5681 0x00; rv 0x5682 0x0A; rv 0x5683 0x20; rv 0x5684 0x00; rv 0x5685 0x00;
   rv 0x5686 0x07; rv 0x5687 0x98].

Definition OV5640_5MP_JPEG : list regval_list :=
  [rv 0x3814 0x11; rv 0x3815 0x11; rv 0x5001 0x83; rv 0x3800 0x00; rv 0x3801 0x00;
   rv 0x3802 0x00; rv 0x3803 0x00; rv 0x3804 0x0A; rv 0x3805 0x3F; rv 0x3806 0x07;
   rv 0x3807 0x9F; rv 0x3808 0x0A; rv 0x3809 0x20; rv 0x380A 0x07; rv 0x380B 0x98;
   rv 0x380C 0x0B; rv 0x380D 0x1C; rv 0x380E 0x07; rv 0x380F 0xB0; rv 0x5680 0x00;
   rv 0x5681 0x00; rv 0x5682 0x0A; rv 0x5683 0x20; rv 0x5684 0x00; rv 0x5685 0x00;
   rv 0x5686 0x07; rv 0x5687 0x98; rv 0xFFFF 0xFF].

Definition OV5640_QSXGA2QVGA : list regval_list :=
  [rv 0x3800 0x00; rv 0x3801 0x00; rv 0x3802 0x00; rv 0x3803 0x00; rv 0x3804 0x0A;
   rv 0x3805 0x3F; rv 0x3806 0x07; rv 0x3807 0x9F; rv 0x3808 0x01; rv 0x3809 0x40;
   rv 0x380A 0x00; rv 0x380B 0xF0; rv 0x380C 0x0C; rv 0x380D 0x80; rv 0x380E 0x07;
   rv 0x380F 0xD0; rv 0x5001 0xA3; rv 0x5680 0x00; rv 0x5681 0x00; rv 0x5682 0x0A;
   rv 0x5683 0x20; rv 0x5684 0x00; rv 0x5685 0x00; rv 0x5686 0x07; rv 0x5687 0x98;
   rv 0xFFFF 0xFF].

Definition OV5640_QSXGA2QQVGA : list regval_list :=
  [rv 0x3800 0x00; rv 0x3801 0x00; rv 0x3802 0x00; rv 0x3803 0x00; rv 0x3804 0x0A;
   rv 0x3805 0x3F; rv 0x3806 0x07; rv 0x3807 0x9F; rv 0x3808 0x00; rv 0x3809 0xA0;
   rv 0x380A 0x00; rv 0x380B 0x70; rv 0x380C 0x0C; rv 0x380D 0x80; rv 0x380E 0x07;
   rv 0x380F 0xD0; rv 0x5001 0xA3; rv 0x5680 0x00; rv 0x5681 0x00; rv 0x5682 0x0A;
   rv 0x5683 0x20; rv 0x5684 0x00; rv 0x5685 0x00; rv 0x5686 0x07; rv 0x5687 0x98;
   rv 0xFFFF 0xFF].

Definition OV5640_QSXGA2VGA : list regval_list :=
  [rv 0x3800 0x00; rv 0x3801 0x00; rv 0x3802 0x00; rv 0x3803 0x00; rv 0x3804 0x0A;
   rv 0x3805 0x3F; rv 0x3806 0x07; rv 0x3807 0x9F; rv 0x3808 0x02; rv 0x3809 0x80;
   rv 0x380A 0x01; rv 0x380B 0xE0; rv 0x380C 0x0C; rv 0x380D 0x80; rv 0x380E 0x07;
   rv 0x380F 0xD0; rv 0x5001 0xA3; rv 0x5680 0x00; rv 0x5681 0x00; rv 0x5682 0x0A;
   rv 0x5683 0x20; rv 0x5684 0x00; rv 0x5685 0x00; rv 0x5686 0x07; rv 0x5687 0x98;
   rv 0xFFFF 0xFF].

Definition OV5640_QSXGA2WVGA : list regval_list :=
  [rv 0x3800 0x00; rv 0x3801 0x00; rv 0x3802 0x00; rv 0x3803 0x00; rv 0x3804 0x0A;
   rv 0x3805 0x3F; rv 0x3806 0x07; rv 0x3807 0x9F; rv 0x3808 0x03; rv 0x3809 0x20;
   rv 0x380A 0x01; rv 0x380B 0xE0; rv 0x380C 0x0C; rv 0x380D 0x80; rv 0x380E 0x07;
   rv 0x380F 0xD0; rv 0x3810 0x00; rv 0x3811 0x10; rv 0x3812 0x01; rv 0x3813 0x48;
   rv 0x5001 0xA3; rv 0x5680 0x00; rv 0x5681 0x00; rv 0x5682 0x0A; rv 0x5683 0x20;
   rv 0x5684 0x00; rv 0x5685 0x00; rv 0x5686 0x07; rv 0x5687 0x98; rv 0xFFFF 0xFF].

Definition OV5640_QSXGA2CIF : list regval_list :=
  [rv 0x3800 0x00; rv 0x3801 0x00; rv 0x3802 0x00; rv 0x3803 0x00; rv 0x3804 0x0A;
   rv 0x3805 0x3F; rv 0x3806 0x07; rv 0x3807 0x9F; rv 0x3808 0x01; rv 0x3809 0x60;
   rv 0x380A 0x01; rv 0x380B 0x20; rv 0x380C 0x0C; rv 0x380D 0x80; rv 0x380E 0x07;
   rv 0x380F 0xD0; rv 0x3810 0x00; rv 0x3811 0x10; rv 0x3812 0x00; rv 0x3813 0x70;
   rv 0x5001 0xA3; rv 0x5680 0x00; rv 0x5681 0x00; rv 0x5682 0x0A; rv 0x5683 0x20;
   rv 0x5684 0x00; rv 0x5685 0x00; rv 0x5686 0x07; rv 0x5687 0x98; rv 0xFFFF 0xFF].

Definition OV5640_QSXGA2SXGA : list regval_list :=
  [rv 0x3800 0x00; rv 0x3801 0x00; rv 0x3802 0x00; rv 0x3803 0x00; rv 0x3804 0x0A;
   rv 0x3805 0x3F; rv 0x3806 0x07; rv 0x3807 0x9F; rv 0x3808 0x05; rv 0x3809 0x00;
   rv 0x380A 0x03; rv 0x380B 0xC0; rv 0x380C 0x0C; rv 0x380D 0x80; rv 0x380E 0x07;
   rv 0x380F 0xD0; rv 0x5001 0xA3; rv 0x5680 0x00; rv 0x5681 0x00; rv 0x5682 0x0A;
   rv 0x5683 0x20; rv 0x5684 0x00; rv 0x5685 0x00; rv 0x5686 0x07; rv 0x5687 0x98;
   rv 0xFFFF 0xFF].

Definition OV5640_QSXGA2QXGA : list regval_list :=
  [rv 0x3800 0x00; rv 0x3801 0x00; rv 0x3802 0x00; rv 0x3803 0x00; rv 0x3804 0x0A;
   rv 0x3805 0x3F; rv 0x3806 0x07; rv 0x3807 0x9F; rv 0x3808 0x08; rv 0x3809 0x00;
   rv 0x380A 0x06; rv 0x380B 0x00; rv 0x380C 0x0C; rv 0x380D 0x80; rv 0x380E 0x07;
   rv 0x380F 0xD0; rv 0x5001 0xA3; rv 0x5680 0x00; rv 0x5681 0x00; rv 0x5682 0x0A;
   rv 0x5683 0x20; rv 0x5684 0x00; rv 0x5685 0x00; rv 0x5686 0x07; rv 0x5687 0x98;
   rv 0xFFFF 0xFF].

Definition OV5640_QSXGA2UXGA : list regval_list :=
  [rv 0x3800 0x00; rv 0x3801 0x00; rv 0x3802 0x00; rv 0x3803 0x00; rv 0x3804 0x0A;
   rv 0x3805 0x3F; rv 0x3806 0x07; rv 0x3807 0x9F; rv 0x3808 0x06; rv 0x3809 0x40;
   rv 0x380A 0x04; rv 0x380B 0xB0; rv 0x380C 0x0C; rv 0x380D 0x80; rv 0x380E 0x07;
   rv 0x380F 0xD0; rv 0x5001 0xA3; rv 0x5680 0x00; rv 0x5681 0x00; rv 0x5682 0x0A;
   rv 0x5683 0x20; rv 0x5684 0x00; rv 0x5685 0x00; rv 0x5686 0x07; rv 0x5687 0x98;
   rv 0xFFFF 0xFF].

Definition OV5640_QSXGA2XGA : list regval_list :=
  [rv 0x3800 0x00; rv 0x3801 0x00; rv 0x3802 0x00; rv 0x3803 0x00; rv 0x3804 0x0A;
   rv 0x3805 0x3F; rv 0x3806 0x07; rv 0x3807 0x9F; rv 0x3808 0x04; rv 0x3809 0x00;
   rv 0x380A 0x03; rv 0x380B 0x00; rv 0x380C 0x0C; rv 0x380D 0x80; rv 0x380E 0x07;
   rv 0x380F 0xD0; rv 0x5001 0xA3; rv 0x5680 0x00; rv 0x5681 0x00; rv 0x5682 0x0A;
   rv 0x5683 0x20; rv 0x5684 0x00; rv 0x5685 0x00; rv 0x5686 0x07; rv 0x5687 0x98;
   rv 0xFFFF 0xFF].

Definition Dvp_Init_RGB_head : list regval_list :=
  [rv 0x3103 0x11; rv 0x3008 0x82; rv 0x3008 0x42; rv 0x3103 0x02; rv 0x3031 0x08;
   rv 0x3017 0xFF; rv 0x3018 0xFF; rv 0x4740 0x26; rv 0x460C 0x22; rv 0x3824 0x02;
   rv 0x3630 0x2E; rv 0x3632 0xE2; rv 0x3633 0x23; rv 0x3621 0xE0; rv 0x3704 0xA0;
   rv 0x3703 0x5A; rv 0x3715 0x78; rv 0x3717 0x01; rv 0x370B 0x60; rv 0x3705 0x1A;
   rv 0x3905 0x02; rv 0x3906 0x10; rv 0x3901 0x0A; rv 0x3731 0x12; rv 0x3600 0x08;
   rv 0x3601 0x33; rv 0x3618 0x00; rv 0x3612 0x49; rv 0x371B 0x20; rv 0x471C 0x50;
   rv 0x4713 0x03; rv 0x3635 0x1C; rv 0x3634 0x40; rv 0x3622 0x01].

Definition Dvp_Init_RGB_mode (m : mode) : list regval_list :=
  match m with
  | mode_320x240 =>
  [rv 0x380C 0x07; rv 0x380D 0x68; rv 0x380E 0x01; rv 0x380F 0xF0; rv 0x3814 0x71;
   rv 0x3815 0x35; rv 0x3821 0x01; rv 0x3808 0x01; rv 0x3809 0x40; rv 0x380A 0x00;
   rv 0x380B 0xF0; rv 0x3811 0x08; rv 0x3813 0x02]
  | mode_640x480 =>
  [rv 0x380C 0x07; rv 0x380D 0x68; rv 0x380E 0x01; rv 0x380F 0xF0; rv 0x3814 0x71;
   rv 0x3815 0x35; rv 0x3821 0x01; rv 0x3808 0x02; rv 0x3809 0x80; rv 0x380A 0x01;
   rv 0x380B 0xE0; rv 0x3811 0x08; rv 0x3813 0x02]
  | mode_1280x960 =>
  [rv 0x3800 0x02; rv 0x3801 0x00; rv 0x3802 0x02; rv 0x3803 0x00; rv 0x3804 0x0A;
   rv 0x3805 0x2F; rv 0x3806 0x07; rv 0x3807 0x9B; rv 0x3808 0x05; rv 0x3809 0x00;
   rv 0x380A 0x03; rv 0x380B 0xC0; rv 0x380C 0x0B; rv 0x380D 0x1C; rv 0x380E 0x07;
   rv 0x380F 0xB0; rv 0x3810 0x00; rv 0x3811 0x00; rv 0x3812 0x00; rv 0x3813 0x00;
   rv 0x3814 0x11; rv 0x3815 0x11; rv 0x3821 0x00]
  | mode_1280x960_2x2 =>
  [rv 0x3800 0x00; rv 0x3801 0x10; rv 0x3802 0x00; rv 0x3803 0x04; rv 0x3804 0x0A;
   rv 0x3805 0x2F; rv 0x3806 0x07; rv 0x3807 0x9B; rv 0x3808 0x05; rv 0x3809 0x00;
   rv 0x380A 0x03; rv 0x380B 0xC0; rv 0x380C 0x0B; rv 0x380D 0x1C; rv 0x380E 0x07;
   rv 0x380F 0xB0; rv 0x3810 0x00; rv 0x3811 0x08; rv 0x3812 0x00; rv 0x3813 0x06;
   rv 0x3814 0x31; rv 0x3815 0x31; rv 0x3821 0x01]
  | mode_2048x1536 =>
  [rv 0x3824 0x01; rv 0x3800 0x00; rv 0x3801 0x10; rv 0x3802 0x00; rv 0x3803 0x04;
   rv 0x3804 0x0A; rv 0x3805 0x2F; rv 0x3806 0x07; rv 0x3807 0x9B; rv 0x3808 0x08;
   rv 0x3809 0x00; rv 0x380A 0x06; rv 0x380B 0x00; rv 0x380C 0x0B; rv 0x380D 0x1C;
   rv 0x380E 0x07; rv 0x380F 0xB0; rv 0x3810 0x00; rv 0x3811 0x08; rv 0x3812 0x00;
   rv 0x3813 0x06; rv 0x3814 0x11; rv 0x3815 0x11; rv 0x3821 0x00]
  end.

Definition Dvp_Init_RGB_tail_1 : list regval_list :=
  [rv 0x0000 0x00; rv 0x0000 0x00; rv 0x3708 0x62; rv 0x3709 0x52; rv 0x370C 0x03;
   rv 0x4001 0x02; rv 0x4004 0x02; rv 0x3000 0x30; rv 0x3002 0x1C; rv 0x3004 0xCF;
   rv 0x4300 0x6F; rv 0x501F 0x01; rv 0x5000 0xA7; rv 0x5001 0x83; rv 0x3820 0x46;
   rv 0x3400 0x06; rv 0x3401 0x80; rv 0x3402 0x04; rv 0x3403 0x00; rv 0x3404 0x06;
   rv 0x3405 0x00; rv 0x5180 0xFF; rv 0x5181 0xF2; rv 0x5182 0x00; rv 0x5183 0x14;
   rv 0x5184 0x25; rv 0x5185 0x24; rv 0x5186 0x16; rv 0x5187 0x16; rv 0x5188 0x16;
   rv 0x5189 0x62; rv 0x518A 0x62; rv 0x518B 0xF0; rv 0x518C 0xB2; rv 0x518D 0x50;
   rv 0x518E 0x30; rv 0x518F 0x30; rv 0x5190 0x50; rv 0x5191 0xF8; rv 0x5192 0x04;
   rv 0x5193 0x70; rv 0x5194 0xF0; rv 0x5195 0xF0; rv 0x5196 0x03; rv 0x5197 0x01;
   rv 0x5198 0x04; rv 0x5199 0x12; rv 0x519A 0x04; rv 0x519B 0x00; rv 0x519C 0x06;
   rv 0x519D 0x82; rv 0x519E 0x38; rv 0x5381 0x1E; rv 0x5382 0x5B; rv 0x5383 0x14;
   rv 0x5384 0x06; rv 0x5385 0x82; rv 0x5386 0x88; rv 0x5387 0x7C; rv 0x5388 0x60;
   rv 0x5389 0x1C; rv 0x538A 0x01; rv 0x538B 0x98; rv 0x5300 0x08; rv 0x5301 0x30;
   rv 0x5302 0x3F; rv 0x5303 0x10; rv 0x5304 0x08; rv 0x5305 0x30; rv 0x5306 0x18;
   rv 0x5307 0x28; rv 0x5309 0x08; rv 0x530A 0x30; rv 0x530B 0x04; rv 0x530C 0x06;
   rv 0x5480 0x01; rv 0x5481 0x06; rv 0x5482 0x12].

Definition Dvp_Init_RGB_tail_2 : list regval_list :=
  [rv 0x5483 0x24; rv 0x5484 0x4A; rv 0x5485 0x58; rv 0x5486 0x65; rv 0x5487 0x72;
   rv 0x5488 0x7D; rv 0x5489 0x88; rv 0x548A 0x92; rv 0x548B 0xA3; rv 0x548C 0xB2;
   rv 0x548D 0xC8; rv 0x548E 0xDD; rv 0x548F 0xF0; rv 0x5490 0x15; rv 0x5580 0x06;
   rv 0x5583 0x40; rv 0x5584 0x20; rv 0x5589 0x10; rv 0x558A 0x00; rv 0x558B 0xF8;
   rv 0x5688 0x22; rv 0x5689 0x22; rv 0x568A 0x42; rv 0x568B 0x24; rv 0x568C 0x42;
   rv 0x568D 0x24; rv 0x568E 0x22; rv 0x568F 0x22; rv 0x3A0F 0x30; rv 0x3A10 0x28;
   rv 0x3A1B 0x30; rv 0x3A1E 0x28; rv 0x3A11 0x61; rv 0x3A1F 0x10; rv 0x4005 0x1A;
   rv 0x3406 0x01; rv 0x3503 0x00; rv 0xFFFF 0xFF].

Definition OV5640YUV_Sensor_Dvp_Init_RGB (m : mode) : list regval_list :=
  Dvp_Init_RGB_head ++ Dvp_Init_RGB_mode m ++ Dvp_Init_RGB_tail_1 ++ Dvp_Init_RGB_tail_2.
