(* ===== verification/Ov5640.v ===== *)
(** * ov5640.c: the camera driver

    Power-up, configuration over I2C, set-up of the camera interface and of the
    DMA, and the two captures (RGB frame, JPEG).  The buffer of the image is the
    function [ram_buffer] of the state, of which the first [RAM_SIZE] bytes
    exist. *)

From Stdlib Require Import ZArith Bool String List Lia.
From S2P Require Import Prelude Machine Pi2c DcmiDma OvTables.
Import ListNotations.
Local Open Scope Z_scope.
Local Open Scope fw_scope.

Definition OV5640_I2C_ADR := 0x3C.

(** ov5640.h *)
Definition OV5640_MAXX (m : mode) : Z :=
  match m with
  | mode_320x240 => 320
  | mode_640x480 => 640
  | mode_1280x960 => 1280
  | mode_1280x960_2x2 => 1280
  | mode_2048x1536 => 2048
  end.

Definition OV5640_MAXY (m : mode) : Z :=
  match m with
  | mode_320x240 => 240
  | mode_640x480 => 480
  | mode_1280x960 => 960
  | mode_1280x960_2x2 => 960
  | mode_2048x1536 => 1536
  end.

Definition OV5640_NUM_PIXELS : Z := OV5640_MAXX configured_mode * OV5640_MAXY configured_mode.

(** [sizeof(OV5640_ram_buffer)]. *)
Definition RAM_SIZE : Z := OV5640_NUM_PIXELS * 2.

Definition set_cam_error (x : Z) (c : camera) : camera :=
  {| lightIntensity := lightIntensity c; cam_error := x;
     samplingFinished := samplingFinished c; last_res := last_res c |}.

Definition set_lightIntensity (x : Z) (c : camera) : camera :=
  {| lightIntensity := x; cam_error := cam_error c;
     samplingFinished := samplingFinished c; last_res := last_res c |}.

Definition set_last_res (x : resolution_t) (c : camera) : camera :=
  {| lightIntensity := lightIntensity c; cam_error := cam_error c;
     samplingFinished := samplingFinished c; last_res := x |}.

(** Messages of the driver. *)
Definition say (msg : string) : M unit := extern (chprintf msg []).

Section Config.
Context `{I2cDriver} `{StackMemory}.

(** [for(i=0; (t[i].reg != 0xffff) || (t[i].val != 0xff); i++)
    I2C_write8_16bitreg(OV5640_I2C_ADR, t[i].reg, t[i].val)]; a table without the
    terminator is read out of its bounds. *)
Fixpoint transmit_table (t : list regval_list) : M unit :=
  match t with
  | [] => fail OutOfBounds
  | r :: t' =>
      if negb (reg r =? 0xffff) || negb (val r =? 0xff) then
        I2C_write8_16bitreg OV5640_I2C_ADR (reg r) (val r) ;;
        transmit_table t'
      else ret tt
  end.

Definition OV5640_SetResolution (res : resolution_t) : M unit :=
  say "CAM  > ... Configure Resolution " ;;
  match res with
  | RES_QQVGA => say "QQVGA\r\n" ;; transmit_table OV5640_QSXGA2QQVGA
  | RES_QVGA => say "QVGA\r\n" ;; transmit_table OV5640_QSXGA2QVGA
  | RES_VGA => say "VGA\r\n" ;; transmit_table OV5640_QSXGA2VGA
  | RES_XGA => say "XGA\r\n" ;; transmit_table OV5640_QSXGA2XGA
  | RES_UXGA => say "UXGA\r\n" ;; transmit_table OV5640_QSXGA2UXGA
  | RES_5MP => say "5MP\r\n" ;; transmit_table OV5640_5MP_JPEG
  | RES_NONE => say "none\r\n"
  | _ => say "QVGA\r\n" ;; transmit_table OV5640_QSXGA2QVGA
  end.

Definition OV5640_TransmitConfig_RGB (m : mode) : M unit :=
  say "CAM  > ... Software reset\r\n" ;;
  I2C_write8_16bitreg OV5640_I2C_ADR 0x3103 0x11 ;;
  I2C_write8_16bitreg OV5640_I2C_ADR 0x3008 0x82 ;;
  extern (chThdSleep 100) ;;
  extern (chprintf "CAM  > ... Configure RGB565 %dx%d\r\n" [OV5640_MAXX m; OV5640_MAXY m]) ;;
  transmit_table (OV5640YUV_Sensor_Dvp_Init_RGB m) ;;
  extern (chThdSleep 500).

Definition OV5640_TransmitConfig : M unit :=
  say "CAM  > ... Software reset\r\n" ;;
  I2C_write8_16bitreg OV5640_I2C_ADR 0x3103 0x11 ;;
  I2C_write8_16bitreg OV5640_I2C_ADR 0x3008 0x82 ;;
  extern (chThdSleep 100) ;;
  say "CAM  > ... Initialization\r\n" ;;
  transmit_table OV5640YUV_Sensor_Dvp_Init ;;
  extern (chThdSleep 500).

Definition OV5640_InitGPIO : M unit :=
  say "CAM  > Activate XCLK\r\n" ;;
  extern (palSetLineMode GPIOA_8 (PAL_MODE_ALTERNATE 0)) ;;
  extern (palSetLineMode LINE_CAM_EN PAL_MODE_OUTPUT_PUSHPULL) ;;
  extern (palSetLineMode LINE_CAM_RESET PAL_MODE_OUTPUT_PUSHPULL) ;;
  extern (palClearLine LINE_CAM_RESET) ;;
  extern (chThdSleep 10).

Definition OV5640_powerup : M unit :=
  OV5640_InitGPIO ;;
  extern (palClearLine LINE_CAM_EN) ;;
  extern (chThdSleep 5) ;;
  extern (palSetLine LINE_CAM_RESET) ;;
  extern (chThdSleep 50).

Definition OV5640_init : M unit :=
  say "CAM  > Init pins\r\n" ;;
  OV5640_powerup ;;
  say "CAM  > Transmit config to camera\r\n" ;;
  OV5640_TransmitConfig ;;
  extern (chThdSleep 200).

Definition OV5640_setLightIntensity : M unit :=
  '(_, val1) <- I2C_read8_16bitreg OV5640_I2C_ADR 0x3C1B ;;
  '(_, val2) <- I2C_read8_16bitreg OV5640_I2C_ADR 0x3C1C ;;
  '(_, val3) <- I2C_read8_16bitreg OV5640_I2C_ADR 0x3C1D ;;
  upd_cam (set_lightIntensity
    (u32 (Z.lor (Z.lor (Z.shiftl val1 16) (Z.shiftl val2 8)) val3))).

Definition OV5640_getLastLightIntensity : M Z := gets (fun w => lightIntensity (cam w)).

Definition OV5640_hasError : M Z := gets (fun w => cam_error (cam w)).

End Config.

(** ** Locks around a capture (their bodies are commented out in the source) *)

Definition OV5640_LockResourcesForCapture : M msg_t := ret MSG_OK.

Definition OV5640_UnlockResourcesForCapture : M unit := ret tt.

Definition OV5640_Capture : M Z :=
  r <- OV5640_LockResourcesForCapture ;;
  if negb (msg_eqb r MSG_OK) then ret 0 else
  OV5640_UnlockResourcesForCapture ;;
  say "CAM  > Capture success\r\n" ;;
  upd_cam (set_cam_error 0x0) ;;
  ret 0x0.

(** ** Camera interface (DCMI) and DMA *)

(** stm32f4xx_dcmi.h, stm32f4xx_rcc.h *)
Definition DCMI_CaptureMode_SnapShot := 0x0002.

Definition DCMI_SynchroMode_Hardware := 0x0000.

Definition DCMI_PCKPolarity_Rising := 0x0020.

Definition DCMI_VSPolarity_High := 0x0080.

Definition DCMI_HSPolarity_Low := 0x0000.

Definition DCMI_HSPolarity_High := 0x0040.

Definition DCMI_CaptureRate_All_Frame := 0x0000.

Definition DCMI_ExtendedDataMode_8b := 0x0000.

Definition RCC_AHB2Periph_DCMI := 0x00000001.

Section Interface.
Context `{DcmiPeriph} `{DmaStream} `{Linker}.

(** [DCMI->CR = f(DCMI->CR)], [RCC->AHB2ENR = f(RCC->AHB2ENR)]. *)
Definition rmw_cr (f : Z -> Z) : M unit :=
  w <- gets (fun w => w) ;;
  extern (DCMI_CR_write (u32 (f (dcmi_cr (calls w))))).

Definition rmw_ahb2enr (f : Z -> Z) : M unit :=
  w <- gets (fun w => w) ;;
  extern (RCC_AHB2ENR_write (u32 (f (rcc_ahb2enr (calls w))))).

Definition lor_all (l : list Z) : Z := fold_left Z.lor l 0.

Definition dcmi_mode_RGB : Z :=
  lor_all [DCMI_CaptureMode_SnapShot; DCMI_SynchroMode_Hardware; DCMI_PCKPolarity_Rising;
           DCMI_VSPolarity_High; DCMI_HSPolarity_High; DCMI_CaptureRate_All_Frame;
           DCMI_ExtendedDataMode_8b].

Definition dcmi_mode_JPEG : Z :=
  lor_all [DCMI_CaptureMode_SnapShot; DCMI_CR_JPEG; DCMI_SynchroMode_Hardware;
           DCMI_PCKPolarity_Rising; DCMI_VSPolarity_High; DCMI_HSPolarity_Low;
           DCMI_CaptureRate_All_Frame; DCMI_ExtendedDataMode_8b].

Definition OV5640_InitDCMI_RGB : M unit :=
  rmw_ahb2enr (fun x => Z.lor x RCC_AHB2Periph_DCMI) ;;
  rmw_cr (fun x => Z.land x (Z.lnot (lor_all
    [DCMI_CR_CM; DCMI_CR_ESS; DCMI_CR_PCKPOL; DCMI_CR_HSPOL; DCMI_CR_VSPOL;
     DCMI_CR_FCRC_0; DCMI_CR_FCRC_1; DCMI_CR_EDM_0; DCMI_CR_EDM_1]))) ;;
  extern (DCMI_CR_write dcmi_mode_RGB) ;;
  rmw_cr (fun x => Z.lor x DCMI_CR_ENABLE) ;;
  rmw_cr (fun x => Z.lor x DCMI_CR_CAPTURE).

Definition OV5640_InitDCMI : M unit :=
  rmw_ahb2enr (fun x => Z.lor x RCC_AHB2Periph_DCMI) ;;
  rmw_cr (fun x => Z.land x (Z.lnot (lor_all
    [DCMI_CR_CM; DCMI_CR_JPEG; DCMI_CR_ESS; DCMI_CR_PCKPOL; DCMI_CR_HSPOL; DCMI_CR_VSPOL;
     DCMI_CR_FCRC_0; DCMI_CR_FCRC_1; DCMI_CR_EDM_0; DCMI_CR_EDM_1]))) ;;
  extern (DCMI_CR_write dcmi_mode_JPEG) ;;
  rmw_cr (fun x => Z.lor x DCMI_CR_ENABLE) ;;
  rmw_cr (fun x => Z.lor x DCMI_CR_CAPTURE).

Definition OV5640_DeinitDCMI : M unit :=
  rmw_ahb2enr (fun x => Z.land x (Z.lnot RCC_AHB2Periph_DCMI)).

Definition OV5640_DeinitDMA : M unit := extern dmaStreamDisable.

(** The assignments before the call of the initialisation. *)
Definition set_target (image_size buffer_size : Z) (d : dcmi) : dcmi :=
  {| dcmi_dma_buffer := ram_address; dcmi_dma_image_size := image_size;
     dcmi_dma_buffer_size := buffer_size;
     dcmi_dma_bytes_received := dcmi_dma_bytes_received d;
     dcmi_dma_done_callback := Some cb_dma_avail;
     dcmi_dma_error_callback := Some cb_dma_error;
     blocks_done := blocks_done d; block_size := block_size d; num_blocks := num_blocks d;
     stream_control_register := stream_control_register d |}.

Definition OV5640_InitDMA_RGB : M unit :=
  upd_dma (fun d => set_target (OV5640_NUM_PIXELS * 2) (dcmi_dma_buffer_size d) d) ;;
  dcmi_dma_init ;;
  dcmi_dma_arm ;;
  ret tt.

Definition OV5640_InitDMA : M unit :=
  upd_dma (fun d => set_target (dcmi_dma_image_size d) (OV5640_NUM_PIXELS * 2) d) ;;
  dcmi_dma_init_open_ended ;;
  dcmi_dma_arm ;;
  ret tt.

Definition OV5640_deinit : M unit :=
  say "CAM  > Deinit DMA\r\n" ;;
  OV5640_DeinitDCMI ;;
  say "CAM  > Deinit DCMI\r\n" ;;
  OV5640_DeinitDMA ;;
  say "CAM  > Switch off\r\n" ;;
  extern (palSetLineMode LINE_CAM_EN PAL_MODE_INPUT) ;;
  extern (palSetLineMode LINE_CAM_RESET PAL_MODE_INPUT) ;;
  upd_cam (set_last_res RES_NONE).

Section WithBus.
Context `{I2cDriver} `{StackMemory}.

Definition OV5640_init_RGB : M unit :=
  say "CAM  > Init pins\r\n" ;;
  OV5640_powerup ;;
  say "CAM  > Transmit config to camera\r\n" ;;
  OV5640_TransmitConfig_RGB configured_mode ;;
  extern (chThdSleep 200) ;;
  say "CAM  > Init DMA\r\n" ;;
  OV5640_InitDMA_RGB.

(** [&&] reads the second register only when the first read succeeded. *)
Definition OV5640_isAvailable : M bool :=
  OV5640_powerup ;;
  '(ok, val) <- I2C_read8_16bitreg OV5640_I2C_ADR 0x300A ;;
  r <- (if (ok : bool)
        then '(ok2, val2) <- I2C_read8_16bitreg OV5640_I2C_ADR 0x300B ;;
             if (ok2 : bool) then ret (Some ((val =? 0x56) && (val2 =? 0x40))) else ret None
        else ret None) ;;
  b <- match r with
       | Some b => ret b
       | None => upd_cam (set_cam_error 0x1) ;; ret false
       end ;;
  OV5640_deinit ;;
  ret b.

End WithBus.
End Interface.

(** ** Captures *)

Section Captures.
Context `{DcmiPeriph} `{DmaStream} `{Linker} `{SysTimer} `{Background}.

(** [OV5640_ram_buffer[i]]. *)
Definition ram_read (i : Z) : M Z :=
  w <- gets (fun w => w) ;;
  if (0 <=? i) && (i <? RAM_SIZE) then ret (ram_buffer w i) else fail OutOfBounds.

Definition memset_ram (x : Z) : M unit :=
  modify (fun w => set_ram_buffer
    (fun i => if (0 <=? i) && (i <? RAM_SIZE) then x else ram_buffer w i) w).

(** [memcpy(OV5640_ram_buffer, src, sizeof(src))]. *)
Definition memcpy_ram (src : list Z) : M unit :=
  if RAM_SIZE <? Z.of_nat (length src) then fail OutOfBounds else
  modify (fun w => set_ram_buffer
    (fun i => if (0 <=? i) && (i <? Z.of_nat (length src))
              then nth (Z.to_nat i) src 0 else ram_buffer w i) w).

(** [while(!samplingFinished && chVTGetSystemTimeX() < timeout) sleep]. *)
Definition wait_sampling (timeout : Z) (_ : unit) : M (unit + unit) :=
  done <- gets (fun w => samplingFinished (cam w)) ;;
  if (done : bool) then ret (inr tt) else
  now <- get_system_time ;;
  if now <? timeout then sleep 1 ;; ret (inl tt) else ret (inr tt).

Definition OV5640_Snapshot2RAM_RGB : M bool :=
  extern (palSetLine GPIOD_LED_RED) ;;
  say "CAM  > Start RGB Capture\r\n" ;;
  OV5640_InitDCMI_RGB ;;
  upd_cam (set_samplingFinished false) ;;
  now <- get_system_time ;;
  let timeout := u32 (now + TIME_MS2I 1000) in
  iter (Z.to_nat (TIME_MS2I 1000 + 2)) (wait_sampling timeout) tt ;;
  now <- get_system_time ;;
  if timeout <=? now then
    say "CAM  > No image captured\r\n" ;;
    ret false
  else
    extern (palClearLine GPIOD_LED_RED) ;;
    say "CAM  > Capture Successful\r\n" ;;
    ret true.

(** [!(DCMI->CR & 1)]. *)
Definition capture_bit_clear : M bool :=
  w <- gets (fun w => w) ;;
  extern DCMI_CR_read ;;
  ret (Z.land (dcmi_cr (calls w)) 1 =? 0).

Definition wait_dcmi (timeout : Z) (finished : bool) : M (bool + bool) :=
  if finished then ret (inr finished) else
  now <- get_system_time ;;
  if now <? timeout then
    sleep 1 ;;
    f <- capture_bit_clear ;;
    ret (inl f)
  else ret (inr finished).

(** From the computation of the timeout to the end of the loop. *)
Definition await : M bool :=
  now <- get_system_time ;;
  let timeout := u32 (now + TIME_MS2I 5000) in
  f <- capture_bit_clear ;;
  iter (Z.to_nat (TIME_MS2I 5000 + 3)) (wait_dcmi timeout) f.

(** The loop that drops the zero bytes at the end. *)
Definition trim_step (_ : unit) : M (unit + unit) :=
  n <- gets ram_buffer_length ;;
  if 0 <? n then
    b <- ram_read (n - 1) ;;
    if b =? 0 then modify (set_ram_buffer_length (n - 1)) ;; ret (inl tt)
    else ret (inr tt)
  else ret (inr tt).

Definition trim : M unit :=
  n <- gets ram_buffer_length ;;
  iter (S (Z.to_nat n)) trim_step tt.

Definition OV5640_Snapshot2RAM : M bool :=
  say "CAM  > Start JPEG Capture\r\n" ;;
  say "CAM  > Start DCMI capture...\r\n" ;;
  memset_ram 0x00 ;;
  say "CAM  > Init DMA\r\n" ;;
  OV5640_InitDMA ;;
  say "CAM  > Init DCMI\r\n" ;;
  OV5640_InitDCMI ;;
  finished <- await ;;
  dcmi_dma_open_ended_stop ;;
  d <- gets dma ;;
  modify (set_ram_buffer_length (dcmi_dma_bytes_received d)) ;;
  extern (chprintf "CAM  > DCMI transfer done, %d bytes captured\r\n" [dcmi_dma_bytes_received d]) ;;
  if negb finished then
    extern (palSetLine GPIOD_LED_RED) ;;
    memcpy_ram noCameraFound ;;
    modify (set_ram_buffer_length (Z.of_nat (length noCameraFound))) ;;
    say "CAM  > No image captured\r\n" ;;
    ret false
  else
    trim ;;
    n <- gets ram_buffer_length ;;
    extern (chprintf "CAM  > Capture successful, %d byte image data\r\n" [n]) ;;
    ret true.

End Captures.

(** ** The JPEG capture *)

(** Dropping the zeros at the end of the buffer. *)
Record trimmed (buf : Z -> Z) (n m : Z) : Prop := {
  trim_range : 0 <= m <= n;
  trim_last : m = 0 \/ buf (m - 1) <> 0;
  trim_zeros : forall i, m <= i < n -> buf i = 0 }.

Lemma wp_trim w : 0 <= ram_buffer_length w <= RAM_SIZE ->
  wp trim (fun _ w' => exists m, w' = set_ram_buffer_length m w /\
             trimmed (ram_buffer w) (ram_buffer_length w) m) w.
Proof.
  intros Hn. unfold trim. wp_norm.
  apply (wp_iter trim_step
    (fun _ w' => exists m, w' = set_ram_buffer_length m w /\ 0 <= m <= ram_buffer_length w /\
                           forall i, m <= i < ram_buffer_length w -> ram_buffer w i = 0)
    (fun _ w' => Z.to_nat (ram_buffer_length w'))); [| |lia].
  2:{ exists (ram_buffer_length w). split; [now destruct w|]. split; lia. }
  intros [] w' (m & -> & Hm & Hz). unfold trim_step. wp_norm.
  cbn [ram_buffer_length set_ram_buffer_length].
  destruct (Z.ltb_spec 0 m) as [P|P].
  2:{ wp_norm. exists m. split; [reflexivity|]. split; [lia | left; lia | exact Hz]. }
  unfold ram_read. wp_norm.
  destruct (Z.leb_spec 0 (m - 1)); [|lia]. destruct (Z.ltb_spec (m - 1) RAM_SIZE); [|lia].
  cbn [andb]. wp_norm. cbn [ram_buffer set_ram_buffer_length].
  destruct (Z.eqb_spec (ram_buffer w (m - 1)) 0) as [Z0|NZ]; wp_norm.
  - split; [|cbn; lia]. exists (m - 1). split; [reflexivity|]. split; [lia|].
    intros i Hi. destruct (Z.eq_dec i (m - 1)) as [->|]; [exact Z0 | apply Hz; lia].
  - exists m. split; [reflexivity|]. split; [lia | now right | exact Hz].
Qed.

(** While a thread sleeps the hardware fills blocks and raises interrupts, other
    threads run; a sleep takes less than 2^20 ticks. *)
Class BackgroundLaws `{DmaStream} `{SysTimer} `{Background} (isr : Z -> M unit) : Prop := {
  elapse_steps w : reachable isr w (elapse w);
  elapse_time w : system_time (calls w) <= system_time (calls (elapse w))
                    <= system_time (calls w) + 2 ^ 20 }.

Section Snapshot.
Context {DP : DcmiPeriph} {DS : DmaStream} {LK : Linker} {ST : SysTimer} {BG : Background}.

Context {DL : DmaLaws} {TL : TimerLaws}.
Context {BL : BackgroundLaws dcmi_dma_shuffle_isr_open_ended} {LL : LinkerLaws RAM_SIZE}.

(** A JPEG capture is running. *)
Record running (w : world) : Prop := {
  run_capturing : capturing w;
  run_buffer : dcmi_dma_buffer (dma w) = ram_address;
  run_size : block_size (dma w) = 262136;
  run_blocks : num_blocks (dma w) = 23 }.

Lemma running_call c w : stream_call c = false -> running w ->
  running (set_calls (c :: calls w) w).
Proof.
  intros Hc [K B S N]. split; [|exact B|exact S|exact N].
  apply (step_other_inv [c] w); [reflexivity | intros c' [<-|[]]; exact Hc | reflexivity | exact K].
Qed.

Lemma running_elapse w : running w -> running (elapse w).
Proof.
  intros [K B S N]. destruct (reach_open w (elapse w) K (elapse_steps w)) as [K' [k Hd]].
  split; [exact K' | rewrite Hd; assumption ..].
Qed.

Lemma wp_InitDMA w :
  wp OV5640_InitDMA
     (fun _ w' => running w' /\ w' = set_calls (calls w') (set_dma (dma w') w) /\ within 11 w w') w.
Proof.
  unfold OV5640_InitDMA, upd_dma. wp_norm. set (w1 := set_dma _ w).
  destruct (ram_address_range (n := RAM_SIZE)) as [A0 A1].
  wp_use (wp_init_open_ended w1).
  { subst w1. cbn. discriminate. }
  { subst w1. split; cbn [dma set_dma set_target dcmi_dma_buffer dcmi_dma_buffer_size
      dcmi_dma_done_callback dcmi_dma_error_callback]; auto.
    change (OV5640_NUM_PIXELS * 2) with RAM_SIZE. lia. }
  intros r w2 (_ & R & Bs & Nb & _ & Bu & _ & F2 & W2). wp_norm.
  wp_use (wp_arm w2 R). intros r' w3 (_ & K & Ed & F3 & W3). wp_norm.
  split; [|split].
  - split; [exact K | rewrite Ed; cbn .. ]; [exact Bu | exact Bs | exact Nb].
  - rewrite F3 at 1. rewrite F2. reflexivity.
  - exact (within_trans 7 4 w w2 w3 W2 W3).
Qed.

(** Waiting for the capture bit: it ends, at the latest when the time is up. *)
Lemma wp_wait timeout f w :
  running w -> timeout <= 2 ^ 31 + 2 ^ 30 -> system_time (calls w) <= timeout + 4 * 2 ^ 20 ->
  forall fuel, (Z.to_nat (timeout - system_time (calls w)) < fuel)%nat ->
  wp (iter fuel (wait_dcmi timeout) f)
     (fun b w' => running w' /\ (b = false -> timeout <= system_time (calls w')) /\
                  system_time (calls w) <= system_time (calls w')) w.
Proof.
  intros R Ht Hn fuel Hf. change (2 ^ 20) with 1048576 in *.
  change (2 ^ 31 + 2 ^ 30) with 3221225472 in Ht.
  apply (wp_iter (wait_dcmi timeout)
    (fun _ v => running v /\ system_time (calls w) <= system_time (calls v) <= timeout + 4 * 1048576)
    (fun _ v => Z.to_nat (timeout - system_time (calls v)))); [| |exact Hf].
  2:{ split; [exact R | lia]. }
  clear R Hn Hf. intros g v [R Hn]. unfold wait_dcmi. destruct g.
  { wp_norm. split; [exact R|]. split; [discriminate | lia]. }
  unfold get_system_time, extern. wp_norm. set (v1 := set_calls (chVTGetSystemTime :: calls v) v).
  pose proof (time_start (calls v)).
  assert (u32 (system_time (calls v)) = system_time (calls v)) as ->.
  { apply uwrap_small. unfold in_u. change (2 ^ 32) with 4294967296. lia. }
  pose proof (time_forward chVTGetSystemTime (calls v)) as F1.
  pose proof (time_short chVTGetSystemTime (calls v) eq_refl) as S1.
  assert (running v1) as R1 by (apply running_call; [reflexivity | exact R]).
  change (chVTGetSystemTime :: calls v) with (calls v1) in F1, S1.
  change (2 ^ 20) with 1048576 in *.
  destruct (Z.ltb_spec (system_time (calls v)) timeout) as [L|L].
  - unfold sleep, capture_bit_clear, extern. wp_norm.
    set (v2 := set_calls (chThdSleep 1 :: calls v1) v1).
    pose proof (time_sleeps 1 (calls v1) ltac:(lia)) as F2.
    pose proof (time_short (chThdSleep 1) (calls v1) eq_refl) as S2.
    change (chThdSleep 1 :: calls v1) with (calls v2) in F2, S2.
    pose proof (elapse_time v2) as E3. set (v3 := elapse v2) in *.
    pose proof (time_forward DCMI_CR_read (calls v3)) as F4.
    pose proof (time_short DCMI_CR_read (calls v3) eq_refl) as S4.
    assert (running v3) as R3.
    { apply running_elapse, running_call; [reflexivity | exact R1]. }
    change (2 ^ 20) with 1048576 in *.
    split; [split|].
    + apply running_call; [reflexivity | exact R3].
    + cbn [calls set_calls]. lia.
    + cbn [calls set_calls]. lia.
  - wp_norm. split; [exact R1|]. split; [intros _; lia | lia].
Qed.

(** Accumulating the calls of straight-line code. *)
Lemma within_call c w w' n : short_call c = true -> within n w w' ->
  within (n + 1) w (set_calls (c :: calls w') w').
Proof.
  intros S W. eapply within_trans; [exact W|]. exists [c]. cbn. rewrite S. repeat split. lia.
Qed.

Lemma wp_InitDCMI w : running w ->
  wp OV5640_InitDCMI
     (fun _ w' => running w' /\ within 5 w w' /\ w' = set_calls (calls w') w) w.
Proof.
  intros R. unfold OV5640_InitDCMI, rmw_cr, rmw_ahb2enr, extern. wp_norm.
  split; [|split; [|reflexivity]].
  - repeat (apply running_call; [reflexivity|]). exact R.
  - eexists [_; _; _; _; _]. repeat split; cbn; lia.
Qed.

Lemma wp_await w : running w -> system_time (calls w) < 2 ^ 31 + 2 ^ 29 ->
  wp await (fun b w' => running w' /\
     (b = false -> system_time (calls w) + TIME_MS2I 5000 <= system_time (calls w'))) w.
Proof.
  intros R Ht. change (2 ^ 31 + 2 ^ 29) with 2684354560 in Ht.
  unfold await, get_system_time, capture_bit_clear, extern. wp_norm.
  set (w1 := set_calls (chVTGetSystemTime :: calls w) w).
  set (w2 := set_calls (DCMI_CR_read :: calls w1) w1).
  pose proof (time_start (calls w)). pose proof (time_ms 5000 ltac:(lia)) as M.
  assert (within 2 w w2) as W by (eexists [_; _]; repeat split; cbn; lia).
  pose proof (within_time 2 w w2 W) as T2. change (2 ^ 20) with 1048576 in *.
  assert (u32 (u32 (system_time (calls w)) + TIME_MS2I 5000) =
          system_time (calls w) + TIME_MS2I 5000) as ->.
  { unfold u32. rewrite (uwrap_small 32 (system_time _)), uwrap_small;
      unfold in_u; change (2 ^ 32) with 4294967296; lia. }
  wp_use (wp_wait _ _ w2).
  - apply running_call; [reflexivity|]. apply running_call; [reflexivity | exact R].
  - change (2 ^ 31 + 2 ^ 30) with 3221225472. lia.
  - change (2 ^ 20) with 1048576. lia.
  - lia.
  - intros b w' (R' & Tb & _). auto.
Qed.

(** Stopping the stream: the bytes received lie inside the buffer. *)
Lemma wp_stop w : running w ->
  wp dcmi_dma_open_ended_stop
     (fun _ w' => 0 < dcmi_dma_bytes_received (dma w') <= RAM_SIZE - 262136 /\
                  stream_enabled (calls w') = false /\
                  system_time (calls w) <= system_time (calls w')) w.
Proof.
  intros [K B S N]. destruct (open_ended_stop_run w K) as (w' & Rn & Hn).
  apply wp_ok. exists tt, w'. split; [exact Rn|]. rewrite Hn, S. split.
  - pose proof (cap_count w K) as C. rewrite N in C. change RAM_SIZE with 6291456. lia.
  - unfold dcmi_dma_open_ended_stop, bind, extern, modify, gets, upd_dma in Rn.
    injection Rn as <-. split; [reflexivity | apply time_forward].
Qed.

Lemma image_length : Z.of_nat (length noCameraFound) = 8459.
Proof. vm_compute. reflexivity. Qed.

(** What a capture leaves, [b] being its result. *)
Definition snapshot_result (w : world) (b : bool) (w' : world) : Prop :=
  stream_enabled (calls w') = false /\
  let n := ram_buffer_length w' in
  if b then
    trimmed (ram_buffer w') (dcmi_dma_bytes_received (dma w')) n /\
    dcmi_dma_bytes_received (dma w') <= RAM_SIZE - 262136
  else
    system_time (calls w) + TIME_MS2I 5000 <= system_time (calls w') /\
    n = 8459 /\ forall i, 0 <= i < n -> ram_buffer w' i = nth (Z.to_nat i) noCameraFound 0.

Lemma snapshot_jpeg_runs w : system_time (calls w) < 2 ^ 31 ->
  exists b w', OV5640_Snapshot2RAM w = Ok (b, w') /\ snapshot_result w b w'.
Proof.
  intros Ht. change (2 ^ 31) with 2147483648 in Ht. apply wp_ok.
  unfold OV5640_Snapshot2RAM, say, extern, memset_ram. wp_norm.
  match goal with |- wp _ _ ?s => set (w1 := s) end.
  assert (within 3 w w1) as W1 by (eexists [_; _; _]; repeat split; cbn; lia).
  wp_use wp_InitDMA. intros _ w2 (R2 & _ & W2). wp_norm.
  match goal with |- wp _ _ ?s => set (w3 := s) end.
  assert (running w3) as R3 by (apply running_call; [reflexivity | exact R2]).
  assert (within 1 w2 w3) as W3 by (eexists [_]; repeat split; cbn; lia).
  wp_use (wp_InitDCMI w3 R3). intros _ w4 (R4 & W4 & _). wp_norm.
  pose proof (within_time _ _ _ (within_trans _ _ _ _ _ (within_trans _ _ _ _ _
                (within_trans _ _ _ _ _ W1 W2) W3) W4)) as T4.
  change (2 ^ 20) with 1048576 in T4.
  wp_use (wp_await w4 R4); [change (2 ^ 31 + 2 ^ 29) with 2684354560; lia|].
  intros f w5 (R5 & T5). wp_norm.
  eapply wp_conseq; [exact (wp_stop w5 R5)|]. cbv beta.
  intros _ w6 (N6 & E6 & T6). wp_norm.
  match goal with |- wp _ _ ?s => set (w7 := s) end.
  pose proof (time_forward (chprintf "CAM  > DCMI transfer done, %d bytes captured\r\n"
          [dcmi_dma_bytes_received (dma w6)]) (calls w6)) as T7.
  destruct f; cbn [negb].
  - wp_norm. wp_use (wp_trim w7); [subst w7; cbn [ram_buffer_length set_calls
      set_ram_buffer_length]; change RAM_SIZE with 6291456 in *; lia|].
    intros _ w8 (m & -> & Tr). wp_norm. split; [exact E6|]. split; [exact Tr | apply N6].
  - unfold memcpy_ram. rewrite image_length. wp_norm. change (RAM_SIZE <? 8459) with false.
    wp_norm. split; [exact E6|].
    cbn [calls ram_buffer ram_buffer_length set_calls set_ram_buffer_length set_ram_buffer].
    split; [|split; [reflexivity|]].
    + specialize (T5 eq_refl). subst w7. cbn [calls set_calls set_ram_buffer_length].
      etransitivity; [|apply time_forward]. etransitivity; [|apply time_forward]. lia.
    + intros i Hi. destruct (Z.leb_spec 0 i); [|lia]. destruct (Z.ltb_spec i 8459); [|lia].
      reflexivity.
Qed.

(** C1: OV5640_Snapshot2RAM, the whole JPEG capture with its interrupts.  Started
    while the tick counter is far from its overflow it always terminates without
    a fault (no access outside the image buffer), and the DMA stream is off
    afterwards.  If it reports success, the image length is that of the received
    data without the zero bytes at its end; if not, five seconds have passed and
    the buffer holds the stored fallback image. (A camera that
    sends more than the buffer holds halts the system in the interrupt routine
    instead; the sleeping thread then sees no further state.) *)
Theorem snapshot_jpeg_spec w :
  system_time (calls w) < 2 ^ 31 ->
  exists b w', OV5640_Snapshot2RAM w = Ok (b, w') /\
    stream_enabled (calls w') = false /\
    let n := ram_buffer_length w' in
    if b then
      trimmed (ram_buffer w') (dcmi_dma_bytes_received (dma w')) n /\
      dcmi_dma_bytes_received (dma w') <= RAM_SIZE - 262136
    else
      system_time (calls w) + TIME_MS2I 5000 <= system_time (calls w') /\
      n = 8459 /\ forall i, 0 <= i < n -> ram_buffer w' i = nth (Z.to_nat i) noCameraFound 0.
Proof. exact (snapshot_jpeg_runs w). Qed.

End Snapshot.

(** ** The RGB capture *)

Section SnapshotRGB.
Context {DP : DcmiPeriph} {DS : DmaStream} {LK : Linker} {ST : SysTimer} {BG : Background}.
Context {DL : DmaLaws} {TL : TimerLaws}.
Context {BL : BackgroundLaws dcmi_dma_shuffle_isr} {LL : LinkerLaws (RAM_SIZE + 2 ^ 18)}.

Lemma wp_InitDMA_RGB w :
  wp OV5640_InitDMA_RGB
     (fun _ w' => capturing w' /\ within 11 w w') w.
Proof.
  unfold OV5640_InitDMA_RGB, upd_dma. wp_norm. set (w1 := set_dma _ w).
  destruct (ram_address_range (n := RAM_SIZE + 2 ^ 18)) as [A0 A1].
  wp_use (wp_init w1).
  { reflexivity. }
  { subst w1. split; cbn [dma set_dma set_target dcmi_dma_buffer dcmi_dma_image_size
      dcmi_dma_done_callback dcmi_dma_error_callback]; auto.
    change (OV5640_NUM_PIXELS * 2) with RAM_SIZE. lia. }
  intros r w2 [(_ & (words & V & Eb) & R & Bu & _ & W2) | (_ & _ & No)].
  2:{ exfalso. apply (No 32 49152). split; [lia | lia | reflexivity]. }
  assert (1 < num_blocks (dma w2)) as Hn.
  { destruct V as [V1 V2 V3]. change (dcmi_dma_image_size (dma w1)) with 6291456 in V3. nia. }
  wp_norm. wp_use (wp_arm w2 (R Hn)). intros r' w3 (_ & K & Ed & _ & W3). wp_norm.
  split; [exact K | exact (within_trans 7 4 w w2 w3 W2 W3)].
Qed.

Lemma reach_flagged w w' : flagged w -> reachable dcmi_dma_shuffle_isr w w' -> flagged w'.
Proof. intros F. induction 1 as [|v v' _ IH S]; [exact F | now apply (step_flagged v v')]. Qed.

Lemma flagged_call c w : stream_call c = false -> flagged w ->
  flagged (set_calls (c :: calls w) w).
Proof.
  intros Hc F. apply (step_flagged w); [|exact F].
  apply step_other with (cs := [c]); try reflexivity. intros c' [<-|[]]. exact Hc.
Qed.

Lemma wp_wait_sampling timeout w :
  flagged w -> timeout <= 2 ^ 31 + 2 ^ 30 -> system_time (calls w) <= timeout + 4 * 2 ^ 20 ->
  forall fuel, (Z.to_nat (timeout - system_time (calls w)) < fuel)%nat ->
  wp (iter fuel (wait_sampling timeout) tt)
     (fun _ w' => flagged w' /\ system_time (calls w') <= timeout + 5 * 2 ^ 20 /\
        (samplingFinished (cam w') = false -> timeout <= system_time (calls w'))) w.
Proof.
  intros F Ht Hn fuel Hf. change (2 ^ 20) with 1048576 in *.
  change (2 ^ 31 + 2 ^ 30) with 3221225472 in Ht.
  apply (wp_iter (wait_sampling timeout)
    (fun _ v => flagged v /\ system_time (calls v) <= timeout + 4 * 1048576)
    (fun _ v => Z.to_nat (timeout - system_time (calls v)))); [| |exact Hf].
  2:{ split; [exact F | lia]. }
  clear F Hn Hf. intros [] v [F Hn]. unfold wait_sampling. wp_norm.
  destruct (samplingFinished (cam v)) eqn:Es.
  { wp_norm. split; [exact F|]. split; [lia | congruence]. }
  unfold get_system_time, extern. wp_norm. set (v1 := set_calls (chVTGetSystemTime :: calls v) v).
  pose proof (time_start (calls v)).
  assert (u32 (system_time (calls v)) = system_time (calls v)) as ->.
  { apply uwrap_small. unfold in_u. change (2 ^ 32) with 4294967296. lia. }
  pose proof (time_forward chVTGetSystemTime (calls v)) as F1.
  pose proof (time_short chVTGetSystemTime (calls v) eq_refl) as S1.
  assert (flagged v1) as R1 by (apply flagged_call; [reflexivity | exact F]).
  change (chVTGetSystemTime :: calls v) with (calls v1) in F1, S1.
  change (2 ^ 20) with 1048576 in *.
  destruct (Z.ltb_spec (system_time (calls v)) timeout) as [L|L].
  - unfold sleep, extern. wp_norm. set (v2 := set_calls (chThdSleep 1 :: calls v1) v1).
    pose proof (time_sleeps 1 (calls v1) ltac:(lia)) as F2.
    pose proof (time_short (chThdSleep 1) (calls v1) eq_refl) as S2.
    change (chThdSleep 1 :: calls v1) with (calls v2) in F2, S2.
    pose proof (elapse_time v2) as E3. change (2 ^ 20) with 1048576 in *.
    split; [split|]; [|lia|lia].
    apply (reach_flagged v2); [apply flagged_call; [reflexivity | exact R1] | apply elapse_steps].
  - wp_norm. split; [exact R1|]. split; [lia|]. intros _. lia.
Qed.

Lemma wp_Snapshot2RAM_RGB w : capturing w -> system_time (calls w) < 2 ^ 31 + 2 ^ 29 ->
  wp OV5640_Snapshot2RAM_RGB
     (fun b w' => if b then finished w' /\ samplingFinished (cam w') = true
                  else system_time (calls w) + TIME_MS2I 1000 <= system_time (calls w')) w.
Proof.
  intros K Ht. change (2 ^ 31 + 2 ^ 29) with 2684354560 in Ht.
  unfold OV5640_Snapshot2RAM_RGB, OV5640_InitDCMI_RGB, rmw_cr, rmw_ahb2enr, say, upd_cam,
    get_system_time, extern. wp_norm.
  match goal with |- context [iter _ _ _] =>
    match goal with |- wp _ _ ?s => set (w1 := s) end end.
  pose (w0 := set_calls (tl (calls w1)) w1).
  assert (within 7 w w0) as W0 by (eexists [_; _; _; _; _; _; _]; repeat split; cbn; lia).
  assert (within 1 w0 w1) as W1 by (eexists [_]; repeat split; cbn; lia).
  match goal with |- context [u32 (system_time ?h)] => change h with (calls w0) end.
  pose proof (within_time _ _ _ W0) as T0. pose proof (within_time _ _ _ W1) as T1.
  pose proof (time_ms 1000 ltac:(lia)) as M. pose proof (time_start (calls w)).
  change (2 ^ 20) with 1048576 in *.
  assert (u32 (u32 (system_time (calls w0)) + TIME_MS2I 1000) =
          system_time (calls w0) + TIME_MS2I 1000) as ->.
  { unfold u32. rewrite (uwrap_small 32 (system_time _)), uwrap_small;
      unfold in_u; change (2 ^ 32) with 4294967296; lia. }
  wp_use (wp_wait_sampling _ w1).
  - left. split; [|reflexivity].
    apply (step_other_inv (firstn 8 (calls w1)) w w1); [reflexivity | | reflexivity | exact K].
    intros c Hc. repeat (destruct Hc as [<-|Hc]; [reflexivity|]). destruct Hc.
  - change (2 ^ 31 + 2 ^ 30) with 3221225472. lia.
  - change (2 ^ 20) with 1048576. lia.
  - lia.
  - intros _ w2 (F2 & T2 & B2). change (2 ^ 20) with 1048576 in T2. wp_norm.
    pose proof (time_start (calls w2)).
    assert (u32 (system_time (calls w2)) = system_time (calls w2)) as ->.
    { apply uwrap_small. unfold in_u. change (2 ^ 32) with 4294967296. lia. }
    destruct (Z.leb_spec (system_time (calls w0) + TIME_MS2I 1000) (system_time (calls w2))).
    + wp_norm. cbn [calls set_calls]. do 2 (etransitivity; [|apply time_forward]). lia.
    + wp_norm. destruct F2 as [[_ S]|[Fi S]]; [apply B2 in S; lia|].
      split; [|exact S]. cbn [calls set_calls cam set_cam].
      match goal with |- finished ?v => apply (step_other_inv (firstn 3 (calls v)) w2 v) end;
        [reflexivity | | reflexivity | exact Fi].
      intros c Hc. repeat (destruct Hc as [<-|Hc]; [reflexivity|]). destruct Hc.
Qed.

(** C31: capturing an RGB frame, from the DMA set-up to the end of the wait, with
    its interrupts.  Started while the tick counter is far from its overflow it
    terminates without a fault; if it reports success the done callback has run
    and all blocks of the frame have been filled, in order; otherwise a
    second has passed. *)
Theorem snapshot_rgb_spec w :
  system_time (calls w) < 2 ^ 31 ->
  exists b w', (OV5640_InitDMA_RGB ;; OV5640_Snapshot2RAM_RGB) w = Ok (b, w') /\
    if b then samplingFinished (cam w') = true /\ stream_enabled (calls w') = false /\
              filled (calls w') = blocks (dma w') (num_blocks (dma w'))
    else system_time (calls w) + TIME_MS2I 1000 <= system_time (calls w').
Proof.
  intros Ht. change (2 ^ 31) with 2147483648 in Ht. apply wp_ok. wp_norm.
  wp_use wp_InitDMA_RGB. intros _ w1 [K W]. pose proof (within_time _ _ _ W) as T.
  change (2 ^ 20) with 1048576 in T.
  wp_use (wp_Snapshot2RAM_RGB w1 K); [change (2 ^ 31 + 2 ^ 29) with 2684354560; lia|].
  intros b w2 Hb. destruct b; [|lia]. destruct Hb as [[_ _ E F] S]. auto.
Qed.

End SnapshotRGB.

(** ** Configuration tables *)

Definition is_end (r : regval_list) : bool := (reg r =? 0xffff) && (val r =? 0xff).

(** The entries before the terminator. *)
Fixpoint payload (t : list regval_list) : list regval_list :=
  match t with
  | [] => []
  | r :: t' => if is_end r then [] else r :: payload t'
  end.

Definition wire (r : regval_list) : Z * list Z := wire16 OV5640_I2C_ADR (reg r) (val r).

(** The value a register has after a list of writes. *)
Definition reg_value (l : list regval_list) (r : Z) : option Z :=
  fold_left (fun v e => if reg e =? r then Some (val e) else v) l None.

(** The size of the picture the sensor puts out: registers 0x3808 to 0x380B. *)
Definition output_size (l : list regval_list) : option (Z * Z) :=
  match reg_value l 0x3808, reg_value l 0x3809, reg_value l 0x380A, reg_value l 0x380B with
  | Some xh, Some xl, Some yh, Some yl => Some (xh * 256 + xl, yh * 256 + yl)
  | _, _, _, _ => None
  end.

Section Tables.
Context {ID : I2cDriver} {SM : StackMemory}.

Lemma wp_transmit_table t w : existsb is_end t = true ->
  wp (transmit_table t)
     (fun _ w' => quiet w w' /\ sent (calls w') = sent (calls w) ++ map wire (payload t)) w.
Proof.
  revert w. induction t as [|r t IH]; intros w He; [discriminate|].
  cbn [transmit_table payload existsb] in *. unfold is_end in *.
  rewrite <- negb_andb. destruct ((reg r =? 0xffff) && (val r =? 0xff)); cbn [negb] in *.
  - wp_norm. split; [reflexivity|]. cbn. now rewrite app_nil_r.
  - wp_norm. wp_use wp_write8_16_sent. intros _ w1 [Q1 S1].
    wp_use (IH w1 He). intros _ w2 [Q2 S2]. split; [now transitivity w1|].
    rewrite S2, S1, <- app_assoc. reflexivity.
Qed.

(** The writes SetResolution makes, and the picture sizes they set. *)
Definition resolution_writes (res : resolution_t) : list regval_list :=
  payload match res with
          | RES_NONE => []
          | RES_QQVGA => OV5640_QSXGA2QQVGA
          | RES_VGA => OV5640_QSXGA2VGA
          | RES_XGA => OV5640_QSXGA2XGA
          | RES_UXGA => OV5640_QSXGA2UXGA
          | RES_5MP => OV5640_5MP_JPEG
          | RES_QVGA | RES_VGA_ZOOMED | RES_MAX => OV5640_QSXGA2QVGA
          end.

Definition resolution_size (res : resolution_t) : option (Z * Z) :=
  match res with
  | RES_NONE => None
  | RES_QQVGA => Some (160, 112)
  | RES_QVGA | RES_VGA_ZOOMED | RES_MAX => Some (320, 240)
  | RES_VGA => Some (640, 480)
  | RES_XGA => Some (1024, 768)
  | RES_UXGA => Some (1600, 1200)
  | RES_5MP => Some (2592, 1944)
  end.

Lemma wp_say_table msg t w : existsb is_end t = true ->
  wp (say msg ;; transmit_table t)
     (fun _ w' => quiet w w' /\ sent (calls w') = sent (calls w) ++ map wire (payload t)) w.
Proof.
  intros He. unfold say, extern. wp_norm. wp_use (wp_transmit_table t _ He).
  intros _ w' [Q S]. split; [|exact S]. etransitivity; [|exact Q]. split; reflexivity.
Qed.

(** OV5640_SetResolution.  For every resolution the call ends (each table in
    use has its terminator, so none is read out of bounds) and sends the camera
    exactly the entries of the resolution's table, in order, whatever the bus
    answers; these set the sensor's output to the size in the table below. *)
Theorem set_resolution_spec res w :
  exists w', OV5640_SetResolution res w = Ok (tt, w') /\ quiet w w' /\
    sent (calls w') = sent (calls w) ++ map wire (resolution_writes res) /\
    output_size (resolution_writes res) = resolution_size res.
Proof.
  enough (wp (OV5640_SetResolution res) (fun _ w' => quiet w w' /\
    sent (calls w') = sent (calls w) ++ map wire (resolution_writes res)) w) as W.
  { apply wp_ok in W as ([] & w' & R & Q & S). exists w'. repeat (split; [assumption|]).
    destruct res; vm_compute; reflexivity. }
  unfold OV5640_SetResolution, say at 1, extern at 1. wp_norm. set (w1 := set_calls _ w).
  assert (quiet w w1) as Q1 by (split; reflexivity).
  change (sent (calls w)) with (sent (calls w1)).
  destruct res; cbn [resolution_writes].
  1: { unfold say, extern. wp_norm. cbn [payload map]. rewrite app_nil_r.
       split; [split; reflexivity | reflexivity]. }
  all: wp_use wp_say_table; [vm_compute; reflexivity |]; intros _ w' [Q S];
    (split; [now transitivity w1 | exact S]).
Qed.

(** What the two initialisations write. *)
Definition reset_writes : list regval_list := [rv 0x3103 0x11; rv 0x3008 0x82].

Lemma wp_config msg1 fmt args t w : existsb is_end t = true ->
  wp (say msg1 ;;
      I2C_write8_16bitreg OV5640_I2C_ADR 0x3103 0x11 ;;
      I2C_write8_16bitreg OV5640_I2C_ADR 0x3008 0x82 ;;
      extern (chThdSleep 100) ;;
      extern (chprintf fmt args) ;;
      transmit_table t ;;
      extern (chThdSleep 500))
     (fun _ w' => quiet w w' /\
        sent (calls w') = sent (calls w) ++ map wire (reset_writes ++ payload t)) w.
Proof.
  intros He. unfold say, extern. wp_norm. set (w1 := set_calls _ w).
  wp_use wp_write8_16_sent. intros _ w2 [Q2 S2]. wp_norm.
  wp_use wp_write8_16_sent. intros _ w3 [Q3 S3]. wp_norm. set (w4 := set_calls (chprintf _ _ :: _) _).
  wp_use (wp_transmit_table t w4 He). intros _ w5 [Q5 S5]. wp_norm. split.
  - transitivity w1; [split; reflexivity|]. transitivity w2; [exact Q2|].
    transitivity w3; [exact Q3|]. transitivity w4; [split; reflexivity|].
    transitivity w5; [exact Q5 | split; reflexivity].
  - cbn [calls set_calls sent]. rewrite S5. change (sent (calls w4)) with (sent (calls w3)).
    rewrite S3, S2, <- !app_assoc. reflexivity.
Qed.

Definition rgb_writes (m : mode) : list regval_list :=
  reset_writes ++ payload (OV5640YUV_Sensor_Dvp_Init_RGB m).

Definition jpeg_writes : list regval_list := reset_writes ++ payload OV5640YUV_Sensor_Dvp_Init.

(** C36: the two configurations of the camera.  Both calls end and send exactly a
    software reset followed by their table.  In every mode of ov5640.h the RGB
    configuration sets the sensor's output to OV5640_MAXX x OV5640_MAXY, the
    size the image buffer is declared with; the JPEG configuration sets 2592 x
    1944.  The JPEG configuration ends with the sensor out of software power
    down (register 0x3008 holds 0x02); the RGB configuration never leaves it
    (0x42). *)
Theorem camera_config_spec m w :
  (exists w', OV5640_TransmitConfig_RGB m w = Ok (tt, w') /\ quiet w w' /\
     sent (calls w') = sent (calls w) ++ map wire (rgb_writes m)) /\
  output_size (rgb_writes m) = Some (OV5640_MAXX m, OV5640_MAXY m) /\
  reg_value (rgb_writes m) 0x3008 = Some 0x42 /\
  (exists w', OV5640_TransmitConfig w = Ok (tt, w') /\ quiet w w' /\
     sent (calls w') = sent (calls w) ++ map wire jpeg_writes) /\
  output_size jpeg_writes = Some (2592, 1944) /\
  reg_value jpeg_writes 0x3008 = Some 0x02.
Proof.
  assert (forall (p : M unit) l, wp p (fun _ w' => quiet w w' /\
            sent (calls w') = sent (calls w) ++ map wire l) w ->
          exists w', p w = Ok (tt, w') /\ quiet w w' /\
            sent (calls w') = sent (calls w) ++ map wire l) as Run.
  { intros p l W. apply wp_ok in W as ([] & w' & R & W). eauto. }
  split; [|split; [|split; [|split; [|split]]]].
  - apply Run. apply wp_config. destruct m; vm_compute; reflexivity.
  - destruct m; vm_compute; reflexivity.
  - destruct m; vm_compute; reflexivity.
  - apply Run. apply wp_config. vm_compute; reflexivity.
  - vm_compute; reflexivity.
  - vm_compute; reflexivity.
Qed.

End Tables.

(** ** Detection of the camera *)

Section Available.
Context {ID : I2cDriver} {SM : StackMemory} {DP : DcmiPeriph}.

(** The answer to a read of a camera register at some point of the history. *)
Definition answers (r : Z) (p : bool * Z) : Prop :=
  exists h buf, let t := i2c_transfer h OV5640_I2C_ADR [u8 (Z.shiftr r 8); Z.land r 0xFF] buf in
                p = (msg_eqb (fst t) MSG_OK, rx (snd t) 0).

Lemma wp_read8_16 r w :
  wp (I2C_read8_16bitreg OV5640_I2C_ADR r) (fun p w' => quiet w w' /\ answers r p) w.
Proof.
  unfold I2C_read8_16bitreg. wp_norm. wp_use wp_uninit. intros b w1 [Q1 ->]. wp_norm.
  wp_use wp_transmit. intros p w2 [Q2 (h & ->)]. wp_norm.
  split; [now transitivity w1|]. exists h, (stack_bytes (calls w) 1). reflexivity.
Qed.

(** The lines that feed and release the camera, as last driven. *)
Fixpoint driven (l : line) (h : list call) : option pal_mode :=
  match h with
  | [] => None
  | palSetLineMode l' m :: h' =>
      match l, l' with
      | LINE_CAM_EN, LINE_CAM_EN | LINE_CAM_RESET, LINE_CAM_RESET => Some m
      | _, _ => driven l h'
      end
  | _ :: h' => driven l h'
  end.

Lemma wp_powerup w : wp OV5640_powerup (fun _ w' => quiet w w') w.
Proof. unfold OV5640_powerup, OV5640_InitGPIO, say, extern. wp_norm. split; reflexivity. Qed.

Lemma wp_deinit w :
  wp OV5640_deinit
     (fun _ w' => cam w' = set_last_res RES_NONE (cam w) /\
        quiet (set_cam (cam w') w) w' /\ stream_enabled (calls w') = false /\
        driven LINE_CAM_EN (calls w') = Some PAL_MODE_INPUT /\
        driven LINE_CAM_RESET (calls w') = Some PAL_MODE_INPUT) w.
Proof.
  unfold OV5640_deinit, OV5640_DeinitDCMI, OV5640_DeinitDMA, rmw_ahb2enr, say, upd_cam, extern.
  wp_norm. repeat split; reflexivity.
Qed.

(** The camera is off and nothing is left running. *)
Record switched_off (w w' : world) : Prop := {
  off_res : last_res (cam w') = RES_NONE;
  off_bus : bus_held (calls w') = bus_held (calls w);
  off_stream : stream_enabled (calls w') = false;
  off_en : driven LINE_CAM_EN (calls w') = Some PAL_MODE_INPUT;
  off_reset : driven LINE_CAM_RESET (calls w') = Some PAL_MODE_INPUT }.

Lemma wp_finish w0 w : bus_held (calls w) = bus_held (calls w0) ->
  wp OV5640_deinit (fun _ w' => cam_error (cam w') = cam_error (cam w) /\ switched_off w0 w') w.
Proof.
  intros B. wp_use wp_deinit. intros _ w' (C & Q & S & D1 & D2).
  split; [now rewrite C|].
  split; [now rewrite C | rewrite <- B; apply (quiet_bus _ _ Q) | exact S | exact D1 | exact D2].
Qed.

(** OV5640_isAvailable.  It reports a camera exactly when both reads of the
    chip id succeed and give 0x56 and 0x40; the second register is read only if
    the first answered; the error is recorded exactly when a read failed; in
    every case the camera is switched off again, the stream is disabled and the
    bus is free. *)
Theorem camera_available_spec w :
  exists b w', OV5640_isAvailable w = Ok (b, w') /\ switched_off w w' /\
    exists p1 p2, answers 0x300A p1 /\ (fst p1 = true -> answers 0x300B p2) /\
      let ok := fst p1 && fst p2 in
      b = ok && (snd p1 =? 0x56) && (snd p2 =? 0x40) /\
      cam_error (cam w') = (if ok then cam_error (cam w) else 0x1).
Proof.
  apply wp_ok. unfold OV5640_isAvailable. wp_norm. wp_use wp_powerup. intros _ w1 Q1. wp_norm.
  wp_use wp_read8_16. intros [ok1 v1] w2 [Q2 A1]. wp_norm.
  assert (quiet w w2) as Q02 by now transitivity w1.
  destruct ok1.
  - wp_norm. wp_use wp_read8_16. intros [ok2 v2] w3 [Q3 A2].
    assert (quiet w w3) as Q03 by now transitivity w2.
    destruct ok2; unfold upd_cam; wp_norm.
    + wp_use (wp_finish w); [apply (quiet_bus _ _ Q03)|]. intros _ w' (Ec & Off). wp_norm.
      split; [exact Off|]. exists (true, v1), (true, v2). rewrite Ec, (quiet_cam _ _ Q03). auto.
    + wp_use (wp_finish w); [apply (quiet_bus _ _ Q03)|]. intros _ w' (Ec & Off). wp_norm.
      split; [exact Off|]. exists (true, v1), (false, v2). rewrite Ec. auto.
  - unfold upd_cam. wp_norm. wp_use (wp_finish w); [apply (quiet_bus _ _ Q02)|].
    intros _ w' (Ec & Off). wp_norm. split; [exact Off|]. exists (false, v1), (false, 0).
    rewrite Ec. split; [exact A1|]. split; [discriminate|]. auto.
Qed.

(** ** The camera interface *)

Context {DC : DcmiLaws}.

(** OV5640_InitDCMI and OV5640_InitDCMI_RGB.  Whatever the control register
    held before, the clock is enabled and the register ends as the mode of the
    capture (JPEG or RGB, snapshot, rising clock edge) with the enable and the
    capture bit set, capture last. *)
Lemma dcmi_init_modes w :
  let ends (p : M unit) mode :=
    exists w' old, p w = Ok (tt, w') /\
      calls w' = [DCMI_CR_write (u32 (Z.lor (u32 (Z.lor mode DCMI_CR_ENABLE)) DCMI_CR_CAPTURE));
                  DCMI_CR_write (u32 (Z.lor mode DCMI_CR_ENABLE)); DCMI_CR_write mode;
                  DCMI_CR_write old;
                  RCC_AHB2ENR_write (u32 (Z.lor (rcc_ahb2enr (calls w)) 1))] ++ calls w /\
      dcmi_cr (calls w') = u32 (Z.lor (u32 (Z.lor mode DCMI_CR_ENABLE)) DCMI_CR_CAPTURE) in
  ends OV5640_InitDCMI dcmi_mode_JPEG /\ ends OV5640_InitDCMI_RGB dcmi_mode_RGB.
Proof.
  split; eexists; eexists; (split; [reflexivity|]);
    cbn [calls set_calls app]; rewrite !dcmi_cr_written; split; reflexivity.
Qed.

End Available.

(** ** A machine on which the captures run

    A clock of one tick per call, and a stream that completes a block during
    every sleep. *)

Definition call_clock : SysTimer := {|
  system_time h := Z.of_nat (length h);
  TIME_MS2I n := 10 * n;
  TIME_I2S n := (n + 9999) / 10000 |}.

Lemma call_clock_laws : @TimerLaws call_clock.
Proof.
  split; cbn [system_time TIME_MS2I call_clock]; intros; cbn [length]; lia.
Qed.

Definition sdram : Linker := {| ram_address := 0xD0000000 |}.

Definition busy_stream (isr : Z -> M unit) : Background := {|
  elapse w :=
    if stream_enabled (calls w) then
      match (extern dma_block_complete ;; isr 0x20) w with
      | Ok (_, w') => w'
      | Err _ => w
      end
    else w |}.

Lemma shuffle_length on_full w u w' :
  (forall f v u' v', on_full f v = Ok (u', v') -> calls v' = calls v) ->
  (extern dma_block_complete ;; @shuffle stm32_dma on_full 0x20) w = Ok (u, w') ->
  (length (calls w) <= length (calls w') <= length (calls w) + 3)%nat.
Proof.
  intros Hf. unfold shuffle, set_next_block, bind, extern, modify, gets, lift, ret, upd_dma, when.
  cbn [ISR_HTIF ISR_TCIF stm32_dma].
  change (Z.land 0x20 (Z.lnot 0x10)) with 0x20. cbn [Z.eqb Pos.eqb negb].
  unfold ret, modify. cbn [dma set_calls calls].
  destruct (i32 (blocks_done (dma w) + 1)) as [n|]; [|discriminate]. cbn [dma set_calls].
  destruct (n =? num_blocks (dma w)).
  - destruct (on_full _ _) as [[u' v]|] eqn:E; [|discriminate].
    apply Hf in E. cbn [calls set_dma set_calls] in E. intros [= _ <-].
    cbn [calls set_calls]. rewrite E. cbn. lia.
  - destruct (_ =? 0); intros [= _ <-]; cbn; lia.
Qed.

Lemma busy_stream_laws isr on_full :
  isr = @shuffle stm32_dma on_full ->
  (forall f v u v', on_full f v = Ok (u, v') -> calls v' = calls v) ->
  @BackgroundLaws stm32_dma call_clock (busy_stream isr) isr.
Proof.
  intros Hi Hf. split; intros w; cbn [elapse busy_stream].
  - destruct (stream_enabled (calls w)) eqn:E; [|apply reach_start].
    destruct ((extern dma_block_complete ;; isr 0x20) w) as [[[] w']|] eqn:R; [|apply reach_start].
    eapply reach_step; [apply reach_start|].
    apply step_block with (flags := 0x20); [exact E | reflexivity | exact R].
  - cbn [system_time call_clock]. change (2 ^ 20) with 1048576.
    destruct (stream_enabled (calls w)); [|lia].
    destruct ((extern dma_block_complete ;; isr 0x20) w) as [[u w']|] eqn:R; [|lia].
    rewrite Hi in R. apply shuffle_length in R; [lia | exact Hf].
Qed.

(** The callbacks do not call out. *)
Lemma callbacks_silent (sel : dcmi -> option dma_callback) f v u v' :
  (d <- gets dma ;; when (is_set (dcmi_dma_done_callback d)) (call_pointer (sel d) f)) v
    = Ok (u, v') -> calls v' = calls v.
Proof.
  unfold bind, gets. destruct (dcmi_dma_done_callback (dma v)); cbn [is_set when].
  - destruct (sel (dma v)) as [[]|]; cbn; intros [= _ <-]; reflexivity.
  - intros [= _ <-]. reflexivity.
Qed.

(** A camera interface whose capture bit falls 40 calls after reset. *)
Definition short_capture : DcmiPeriph := {|
  dcmi_cr h := if Nat.ltb 40 (length h) then 0 else 1;
  rcc_ahb2enr _ := 0;
  DCMI_CR_CM := 0x2; DCMI_CR_JPEG := 0x8; DCMI_CR_ESS := 0x10; DCMI_CR_PCKPOL := 0x20;
  DCMI_CR_HSPOL := 0x40; DCMI_CR_VSPOL := 0x80; DCMI_CR_FCRC_0 := 0x100;
  DCMI_CR_FCRC_1 := 0x200; DCMI_CR_EDM_0 := 0x400; DCMI_CR_EDM_1 := 0x800;
  DCMI_CR_ENABLE := 0x4000; DCMI_CR_CAPTURE := 0x1 |}.

Definition jpeg_background : Background :=
  busy_stream (@dcmi_dma_shuffle_isr_open_ended stm32_dma).

Definition rgb_background : Background := busy_stream (@dcmi_dma_shuffle_isr stm32_dma).

Definition snapshot_jpeg_run : result (bool * world) :=
  @OV5640_Snapshot2RAM short_capture stm32_dma sdram call_clock jpeg_background reset_world.

Lemma snapshot_jpeg_spec_witness :
  exists b w', snapshot_jpeg_run = Ok (b, w') /\ stream_enabled (calls w') = false /\
    (b = true -> trimmed (ram_buffer w') (dcmi_dma_bytes_received (dma w')) (ram_buffer_length w')).
Proof.
  pose proof (busy_stream_laws (@dcmi_dma_shuffle_isr_open_ended stm32_dma) _ eq_refl
                (callbacks_silent dcmi_dma_error_callback)) as BL.
  pose proof stm32_dma_laws. pose proof call_clock_laws.
  assert (@LinkerLaws sdram RAM_SIZE) by (split; split; vm_compute; congruence).
  destruct (@snapshot_jpeg_spec short_capture stm32_dma sdram call_clock jpeg_background
              _ _ BL _ reset_world ltac:(reflexivity)) as (b & w' & R & E & S).
  exists b, w'. split; [exact R|]. split; [exact E|]. intros ->. apply S.
Defined.

Definition snapshot_rgb_run : result (bool * world) :=
  bind (@OV5640_InitDMA_RGB stm32_dma sdram) (fun _ =>
    @OV5640_Snapshot2RAM_RGB short_capture call_clock rgb_background) reset_world.

Lemma snapshot_rgb_spec_witness :
  exists b w', snapshot_rgb_run = Ok (b, w') /\
    (b = true -> @filled stm32_dma (calls w') = blocks (dma w') (num_blocks (dma w'))).
Proof.
  pose proof (busy_stream_laws (@dcmi_dma_shuffle_isr stm32_dma) _ eq_refl
                (callbacks_silent dcmi_dma_done_callback)) as BL.
  pose proof stm32_dma_laws. pose proof call_clock_laws.
  assert (@LinkerLaws sdram (RAM_SIZE + 2 ^ 18)) by (split; split; vm_compute; congruence).
  destruct (@snapshot_rgb_spec short_capture stm32_dma sdram call_clock rgb_background
              _ _ BL _ reset_world ltac:(reflexivity)) as (b & w' & R & S).
  exists b, w'. split; [exact R|]. intros ->. apply S.
Defined.

(** The concrete run of the RGB capture succeeds. *)
Example snapshot_rgb_succeeds :
  match snapshot_rgb_run with
  | Ok (b, w') => b = true /\ num_blocks (dma w') = 32 /\ block_size (dma w') = 196608
  | Err _ => False
  end.
Proof. vm_compute. repeat split. Qed.

