(* ===== verification/Collector.v ===== *)
(** * collector.c: one telemetry data point

    The fields of [dataPoint_t] keep the source's names; the three BME280 blocks
    (i1, e1, e2), the GPS fields and the eight TMP100 temperatures are grouped.
    A data point is written by its owner only, so the operations return the new
    value. *)

From Stdlib Require Import ZArith Bool String List Lia.
From Stdlib Require Import Classes.RelationClasses.
From S2P Require Import Prelude Machine Debug Pi2c PTime Sensors Padc Bme280 DcmiDma OvTables Ov5640.
Import ListNotations.
Import Tmp100 Ltr329 Mpu9250.
Local Open Scope Z_scope.
Local Open Scope fw_scope.

(** ** Data *)

Inductive gpsState_t : Set :=
| GPS_LOCKED1 | GPS_LOCKED2 | GPS_LOSS | GPS_LOWBATT1 | GPS_LOWBATT2
| GPS_LOG | GPS_OFF | GPS_ERROR | GPS_FIXED | GPS_TIME.

Definition gpsState_value (s : gpsState_t) : Z :=
  match s with
  | GPS_LOCKED1 => 0 | GPS_LOCKED2 => 1 | GPS_LOSS => 2 | GPS_LOWBATT1 => 3
  | GPS_LOWBATT2 => 4 | GPS_LOG => 5 | GPS_OFF => 6 | GPS_ERROR => 7
  | GPS_FIXED => 8 | GPS_TIME => 9
  end.

Definition GPS_STATE_MAX : Z := gpsState_value GPS_TIME.

Definition GPS_STATE_NAMES : list string :=
  ["LOCKED1"; "LOCKED2"; "LOSS"; "LOWBATT1"; "LOWBATT2"; "LOG"; "OFF";
   "ERROR"; "FIXED"; "TIME"]%string.

Record gps_fields : Set := {
  gps_state : gpsState_t; gps_sats : Z; gps_ttff : Z; gps_pdop : Z;
  gps_alt : Z; gps_lat : Z; gps_lon : Z; gps_time : Z }.

Record bme_fields : Set := { press : Z; temp : Z; hum : Z }.

Record dataPoint_t : Set := {
  adc_vsol : Z; adc_vbat : Z; pac_vsol : Z; pac_vbat : Z; pac_pbat : Z; pac_psol : Z;
  light_intensity : Z; ltr329_intensity_ch0 : Z; ltr329_intensity_ch1 : Z;
  gps : gps_fields;
  sen_i1 : bme_fields; sen_e1 : bme_fields; sen_e2 : bme_fields;
  mpu9250_accel : Z * Z * Z;
  dummy2 : Z;
  stm32_temp : Z; si446x_temp : Z;
  tmp100_temp : list Z;
  dp_reset : Z; id : Z; sys_time : Z; sys_error : Z; gpio : Z }.

Definition BME_ALL_STATUS_MASK := 0x3F.

Definition BME_ALL_STATUS_SHIFT := 8.

Definition hasGPSacquiredLock (dp : gps_fields) : bool :=
  match gps_state dp with
  | GPS_LOCKED1 | GPS_LOCKED2 => true
  | _ => false
  end.

Definition isPositionValid (dp : gps_fields) : bool :=
  match gps_state dp with
  | GPS_LOCKED1 | GPS_LOCKED2 | GPS_FIXED | GPS_LOG => true
  | _ => false
  end.

Definition isPositionFromSV (dp : gps_fields) : bool := hasGPSacquiredLock dp.

Definition isGPSbatteryOperable (dp : gps_fields) : bool :=
  match gps_state dp with
  | GPS_LOCKED1 | GPS_LOCKED2 | GPS_LOSS => true
  | _ => false
  end.

Definition get_gps_state_name (index : Z) : result string :=
  if GPS_STATE_MAX <? index then Ok "INVALID"%string
  else array_get GPS_STATE_NAMES index.

(** ** Position *)

Section Position.
Context `{RtcDriver} `{Formatter} `{SysTimer}.

Definition getPositionFallback (tp ltp : gps_fields) (state : gpsState_t) : M gps_fields :=
  let fix_ := isPositionFromSV ltp in
  let lat := if fix_ then gps_lat ltp else 0 in
  let lon := if fix_ then gps_lon ltp else 0 in
  let alt := if fix_ then gps_alt ltp else 0 in
  let time0 := if fix_ then gps_time ltp else 0 in
  time <- getTime ;;
  t <- (if negb (year time =? RTC_BASE_YEAR)
        then lift (date2UnixTimestamp time) else ret time0) ;;
  ret {| gps_state := state; gps_sats := gps_sats tp; gps_ttff := gps_ttff tp;
         gps_pdop := gps_pdop tp; gps_alt := alt; gps_lat := lat; gps_lon := lon;
         gps_time := t |}.

(** All but the warning is commented out in the source. *)
Definition aquirePosition (tp ltp : gps_fields) (timeout : Z) : M bool :=
  TRACE_WARN "COLL > GPS not enabled, but asking for position" [] ;;
  ret false.

End Position.

(** ** Sensors *)

Section Collect.
Context `{I2cDriver} `{StackMemory} `{AdcDriver}.

(** [bme280_error |= x]. *)
Definition or_bme280_error (x : Z) : M unit :=
  modify (fun w => set_bme280_error (u8 (Z.lor (bme280_error w) x)) w).

Definition collect_bme (sensor : Z) (msg : string) (err : Z) : M bme_fields :=
  ok <- BME280_isAvailable sensor ;;
  if (ok : bool) then
    handle <- BME280_Init sensor ;;
    p <- BME280_getPressure handle 32 ;;
    h <- BME280_getHumidity handle ;;
    '(t, handle) <- BME280_getTemperature handle ;;
    ret {| press := p; temp := t; hum := h |}
  else
    say msg ;;
    or_bme280_error err ;;
    ret {| press := 0; temp := 0; hum := 0 |}.

Definition collect_ltr329 : M (Z * Z) :=
  ok <- ltr329_isAvailable ;;
  if (ok : bool) then
    ltr329_init ;;
    ch0 <- ltr329_get_intensity_ch0 ;;
    ch1 <- ltr329_get_intensity_ch1 ;;
    ret (u16 ch0, u16 ch1)
  else
    say "COLL > LTR329 not operational\r\n" ;;
    ret (0, 0).

(** The block of sensor [n], which reads sensor [src]. *)
Definition collect_tmp100 (n src : Z) : M Z :=
  ok <- tmp100_isAvailable n ;;
  if (ok : bool) then
    tmp100_init n ;;
    tmp100_get_temperature src
  else
    extern (chprintf "COLL > TMP100 %d not operational\r\n" [n]) ;;
    ret 0.

Definition collect_mpu9250 : M (Z * Z * Z) :=
  ok <- mpu9250_isAvailable ;;
  if (ok : bool) then
    mpu9250_init ;;
    x <- mpu9250_get_x ;;
    y <- mpu9250_get_y ;;
    z <- mpu9250_get_z ;;
    ret (x, y, z)
  else
    say "COLL > MPU9250 not operational\r\n" ;;
    ret (0, 0, 0).

Definition getSensors (tp : dataPoint_t) : M dataPoint_t :=
  modify (set_bme280_error 0) ;;
  i1 <- collect_bme BME280_I1 "COLL > Internal BME280 I1 not operational\r\n" 0x1 ;;
  e2 <- collect_bme BME280_E2 "COLL > External BME280 E2 not operational\r\n" 0x10 ;;
  light <- OV5640_getLastLightIntensity ;;
  '(ch0, ch1) <- collect_ltr329 ;;
  t <- stm32_get_temp ;;
  vbat <- stm32_get_vbat ;;
  t0 <- collect_tmp100 0 0 ;;
  t1 <- collect_tmp100 1 1 ;;
  t2 <- collect_tmp100 2 0 ;;
  t3 <- collect_tmp100 3 3 ;;
  t4 <- collect_tmp100 4 4 ;;
  t5 <- collect_tmp100 5 5 ;;
  t6 <- collect_tmp100 6 6 ;;
  t7 <- collect_tmp100 7 7 ;;
  accel <- collect_mpu9250 ;;
  ret {| adc_vsol := adc_vsol tp; adc_vbat := vbat; pac_vsol := pac_vsol tp;
         pac_vbat := pac_vbat tp; pac_pbat := pac_pbat tp; pac_psol := pac_psol tp;
         light_intensity := Z.land light 0xFFFF;
         ltr329_intensity_ch0 := ch0; ltr329_intensity_ch1 := ch1;
         gps := gps tp; sen_i1 := i1; sen_e1 := sen_e1 tp; sen_e2 := e2;
         mpu9250_accel := accel; dummy2 := dummy2 tp;
         stm32_temp := s16 t; si446x_temp := si446x_temp tp;
         tmp100_temp := [t0; t1; t2; t3; t4; t5; t6; t7];
         dp_reset := dp_reset tp; id := id tp; sys_time := sys_time tp;
         sys_error := sys_error tp; gpio := 0 |}.

End Collect.

Definition set_sys (time error : Z) (tp : dataPoint_t) : dataPoint_t :=
  {| adc_vsol := adc_vsol tp; adc_vbat := adc_vbat tp; pac_vsol := pac_vsol tp;
     pac_vbat := pac_vbat tp; pac_pbat := pac_pbat tp; pac_psol := pac_psol tp;
     light_intensity := light_intensity tp;
     ltr329_intensity_ch0 := ltr329_intensity_ch0 tp;
     ltr329_intensity_ch1 := ltr329_intensity_ch1 tp;
     gps := gps tp; sen_i1 := sen_i1 tp; sen_e1 := sen_e1 tp; sen_e2 := sen_e2 tp;
     mpu9250_accel := mpu9250_accel tp; dummy2 := dummy2 tp;
     stm32_temp := stm32_temp tp; si446x_temp := si446x_temp tp;
     tmp100_temp := tmp100_temp tp; dp_reset := dp_reset tp; id := id tp;
     sys_time := time; sys_error := error; gpio := gpio tp |}.

Definition setSystemStatus `{SysTimer} (tp : dataPoint_t) : M dataPoint_t :=
  let e := 0 in
  i2c <- I2C_hasError ;;
  let e := u32 (Z.lor e (Z.shiftl (Z.land i2c 0x1) 0)) in
  let e := u32 (Z.lor e (Z.shiftl
    (if gpsState_value (gps_state (gps tp)) =? gpsState_value GPS_ERROR then 1 else 0) 2)) in
  ov <- OV5640_hasError ;;
  let e := u32 (Z.lor e (Z.shiftl (Z.land ov 0x7) 5)) in
  bme <- gets bme280_error ;;
  let e := u32 (Z.lor e (Z.shiftl (Z.land bme BME_ALL_STATUS_MASK) BME_ALL_STATUS_SHIFT)) in
  now <- get_system_time ;;
  ret (set_sys (u32 (TIME_I2S now)) e tp).

(** ** Specification of a measurement *)

Section Spec.
Context {SL : Slaves}.

(** What the drivers make of a sensor's registers; a sensor that is absent, or is
    not what it should be, reads as zero. *)
Definition bme_value (a : Z) : bme_fields :=
  match slave a with
  | Some f => if f 0xD0 0%nat =? 0x60
              then {| press := bme_press f; temp := bme_temp f; hum := bme_hum f |}
              else {| press := 0; temp := 0; hum := 0 |}
  | None => {| press := 0; temp := 0; hum := 0 |}
  end.

Definition bme_present (a : Z) : bool :=
  match slave a with
  | Some f => f 0xD0 0%nat =? 0x60
  | None => false
  end.

Definition ltr_value : Z * Z :=
  match slave LTR329_ADDR with
  | Some f => if f LTR329_MANUFAC_ID 0%nat =? 5
              then (channel f LTR329_DATA_CH0_LOW, channel f LTR329_DATA_CH1_LOW)
              else (0, 0)
  | None => (0, 0)
  end.

(** The temperature stored for sensor [n], read from sensor [src]. *)
Definition tmp_value (n src : Z) : Z :=
  match slave (tmp100_address n), slave (tmp100_address src) with
  | Some _, Some f => tmp100_reading f
  | _, _ => 0
  end.

Definition mpu_value : Z * Z * Z :=
  match slave MPU9250_ADDR with
  | Some f => if f MPU9250_WHO_AM_I 0%nat =? 0x71
              then (Z.quot (axis f MPU9250_ACCEL_XOUT_H * 1000) 16384,
                    Z.quot (axis f MPU9250_ACCEL_YOUT_H * 1000) 16384,
                    Z.quot (axis f MPU9250_ACCEL_ZOUT_H * 1000) 16384)
              else (0, 0, 0)
  | None => (0, 0, 0)
  end.

(** A data point that holds the state of the sensors, the ADC having delivered
    [s] for the chip temperature and [v] for the battery. *)
Definition snapshot (tp : dataPoint_t) (light s v : Z) : dataPoint_t :=
  {| adc_vsol := adc_vsol tp; adc_vbat := 33000 * v / 4096; pac_vsol := pac_vsol tp;
     pac_vbat := pac_vbat tp; pac_pbat := pac_pbat tp; pac_psol := pac_psol tp;
     light_intensity := light mod 65536;
     ltr329_intensity_ch0 := fst ltr_value; ltr329_intensity_ch1 := snd ltr_value;
     gps := gps tp;
     sen_i1 := bme_value 0x77; sen_e1 := sen_e1 tp; sen_e2 := bme_value 0x76;
     mpu9250_accel := mpu_value; dummy2 := dummy2 tp;
     stm32_temp := swrap 16 (132000 * s / 4096 - 27900); si446x_temp := si446x_temp tp;
     tmp100_temp := [tmp_value 0 0; tmp_value 1 1; tmp_value 2 0; tmp_value 3 3;
                     tmp_value 4 4; tmp_value 5 5; tmp_value 6 6; tmp_value 7 7];
     dp_reset := dp_reset tp; id := id tp; sys_time := sys_time tp;
     sys_error := sys_error tp; gpio := 0 |}.

(** The same point in the units collector.h and the datasheets give: the pressure
    in a tenth of a Pa, the humidity with the calibration of the datasheet, every
    TMP100 temperature from its own sensor and with its sign, the chip temperature
    not reduced to 16 bits. *)
Definition bme_documented (a : Z) : bme_fields :=
  match slave a with
  | Some f => if f 0xD0 0%nat =? 0x60
              then {| press := bme_pa10 f; temp := bme_temp f;
                      hum := humidity_of (datasheet_calib f) (bme_t_fine f) (f 0xFD 0%nat * 256 + f 0xFD 1%nat) |}
              else {| press := 0; temp := 0; hum := 0 |}
  | None => {| press := 0; temp := 0; hum := 0 |}
  end.

Definition tmp_documented (n : Z) : Z :=
  match slave (tmp100_address n) with Some f => tmp100_degrees f | None => 0 end.

Definition documented (tp : dataPoint_t) (light s v : Z) : dataPoint_t :=
  {| adc_vsol := adc_vsol tp; adc_vbat := 33000 * v / 4096; pac_vsol := pac_vsol tp;
     pac_vbat := pac_vbat tp; pac_pbat := pac_pbat tp; pac_psol := pac_psol tp;
     light_intensity := light mod 65536;
     ltr329_intensity_ch0 := fst ltr_value; ltr329_intensity_ch1 := snd ltr_value;
     gps := gps tp;
     sen_i1 := bme_documented 0x77; sen_e1 := sen_e1 tp; sen_e2 := bme_documented 0x76;
     mpu9250_accel := mpu_value; dummy2 := dummy2 tp;
     stm32_temp := 132000 * s / 4096 - 27900; si446x_temp := si446x_temp tp;
     tmp100_temp := map tmp_documented [0; 1; 2; 3; 4; 5; 6; 7];
     dp_reset := dp_reset tp; id := id tp; sys_time := sys_time tp;
     sys_error := sys_error tp; gpio := 0 |}.

(** How the fields of a BME280 at address [a] differ from the documented ones. *)
Record bme_differs (a : Z) (doc dp : bme_fields) : Prop := {
  bd_press : Z.abs (65 * press dp - 64 * press doc) < 65;
  bd_temp : temp dp = temp doc;
  bd_hum : (forall f, slave a = Some f -> f 0xE7 0%nat = f 0xE6 0%nat) -> hum dp = hum doc }.

(** How a point differs from the documented one. *)
Record differs (doc dp : dataPoint_t) : Prop := {
  df_tmp : forall n, (n < 8)%nat -> n <> 2%nat ->
    nth n (tmp100_temp dp) 0 = nth n (tmp100_temp doc) 0 + (if nth n (tmp100_temp doc) 0 <? 0 then 25600 else 0);
  df_tmp2 : nth 2 (tmp100_temp dp) 0 = match slave (tmp100_address 2) with Some _ => nth 0 (tmp100_temp dp) 0 | None => 0 end;
  df_bme : bme_differs 0x77 (sen_i1 doc) (sen_i1 dp) /\ bme_differs 0x76 (sen_e2 doc) (sen_e2 dp);
  df_stm32 : stm32_temp dp = swrap 16 (stm32_temp doc);
  df_rest : adc_vbat dp = adc_vbat doc /\ light_intensity dp = light_intensity doc /\
    ltr329_intensity_ch0 dp = ltr329_intensity_ch0 doc /\ ltr329_intensity_ch1 dp = ltr329_intensity_ch1 doc /\
    mpu9250_accel dp = mpu9250_accel doc;
  df_kept : adc_vsol dp = adc_vsol doc /\ pac_vsol dp = pac_vsol doc /\ pac_vbat dp = pac_vbat doc /\ pac_pbat dp = pac_pbat doc /\
    pac_psol dp = pac_psol doc /\ gps dp = gps doc /\ sen_e1 dp = sen_e1 doc /\ dummy2 dp = dummy2 doc /\
    si446x_temp dp = si446x_temp doc /\ dp_reset dp = dp_reset doc /\ id dp = id doc /\ sys_time dp = sys_time doc /\
    sys_error dp = sys_error doc /\ gpio dp = gpio doc }.

Lemma bme_value_differs a : bme_differs a (bme_documented a) (bme_value a).
Proof.
  unfold bme_documented, bme_value. destruct (slave a) as [f|] eqn:E; [|split; cbn; auto; lia].
  destruct (f 0xD0 0%nat =? 0x60); [|split; cbn; auto; lia]. split; cbn [press temp hum]; [apply press_low | reflexivity|].
  intros H. unfold bme_hum. f_equal. unfold calib_of. now rewrite (H f E).
Qed.

Lemma snapshot_differs tp light s v : differs (documented tp light s v) (snapshot tp light s v).
Proof.
  split; cbn [tmp100_temp sen_i1 sen_e2 stm32_temp adc_vbat light_intensity ltr329_intensity_ch0 ltr329_intensity_ch1 mpu9250_accel snapshot documented map];
    auto using bme_value_differs.
  - assert (forall n, tmp_value n n = tmp_documented n + (if tmp_documented n <? 0 then 25600 else 0)) as T.
    { intros n. unfold tmp_value, tmp_documented. destruct (slave (tmp100_address n)); [apply reading_degrees | reflexivity]. }
    intros n Hn N2. do 8 (destruct n as [|n]; [now cbn [nth]; rewrite ?T|]). lia.
  - cbn [nth]. unfold tmp_value. destruct (slave (tmp100_address 2)), (slave (tmp100_address 0)); reflexivity.
  - repeat split.
Qed.

End Spec.

(** What collecting may change: the history with the bus free again, the error
    flags of the drivers and the ADC's buffer; not the camera. *)
Record sensing (w w' : world) : Prop := {
  sens_bme : bme280_error w' = bme280_error w;
  sens_cam : cam w' = cam w;
  sens_dma : dma w' = dma w;
  sens_ram : ram_buffer w' = ram_buffer w;
  sens_len : ram_buffer_length w' = ram_buffer_length w;
  sens_bus : bus_held (calls w') = bus_held (calls w) }.

#[export] Instance sensing_preorder : PreOrder sensing.
Proof.
  split.
  - intros w. split; reflexivity.
  - intros a b c [] []. split; congruence.
Qed.

Lemma quiet_sensing w w' : quiet w w' -> sensing w w'.
Proof. intros []. split; congruence. Qed.

Lemma ltr_sensing w w' : quiet_ltr329 w w' -> sensing w w'.
Proof. intros []. split; cbn in *; congruence. Qed.

Lemma mpu_sensing w w' : quiet_mpu9250 w w' -> sensing w w'.
Proof. intros []. split; cbn in *; congruence. Qed.

Lemma adc_sensing w w' : adc_frame w w' -> sensing w w'.
Proof. intros (cs & -> & B). split; cbn; auto. Qed.

Create HintDb collect.

#[export] Hint Resolve quiet_sensing ltr_sensing mpu_sensing adc_sensing : collect.

Section Facts.
Context {ID : I2cDriver} {SM : StackMemory} {SL : Slaves} {AD : AdcDriver}.
Context {BUS : RegisterBus} {AL : AdcLaws}.

(** Uninitialised memory does not look like the chip id by accident, and a
    sensor that is there measures within its limits. *)
Hypothesis junk_is_no_id : forall h, rx (stack_bytes h 1) 0 <> 0x60.
Hypothesis sensors_nominal : forall a f, (a = 0x76 \/ a = 0x77) -> slave a = Some f ->
  f 0xD0 0%nat = 0x60 -> bme_ok f.

Lemma wp_collect_bme sensor a msg err w :
  bme280_address sensor = Some a -> (a = 0x76 \/ a = 0x77) ->
  wp (collect_bme sensor msg err)
     (fun v w' => v = bme_value a /\
        let e := if bme_present a then bme280_error w else u8 (Z.lor (bme280_error w) err) in
        sensing (set_bme280_error e w) w') w.
Proof.
  intros A Ha. unfold collect_bme. wp_norm. wp_use (wp_isAvailable sensor a w A).
  intros ok w1 [Q1 V]. unfold bme_value, bme_present.
  assert (forall m e, sensing (set_bme280_error e w)
            (set_bme280_error e (set_calls (chprintf m [] :: calls w1) w1))) as Off.
  { intros m e. destruct Q1. split; cbn; congruence. }
  assert (bme280_error w1 = bme280_error w) as B1 by apply Q1.
  destruct (slave a) as [f|] eqn:E.
  - subst ok. destruct (Z.eqb_spec (f 0xD0 0%nat) 0x60) as [Hid|].
    + specialize (sensors_nominal a f Ha E Hid) as K.
      wp_norm. wp_use (wp_Init sensor a f _ A E (ok_calib f K)). intros h w2 [Q2 ->]. wp_norm.
      wp_use (wp_getPressure a f 32 _ E K); [cbn; lia|]. intros p w3 [Q3 ->]. wp_norm.
      wp_use (wp_getHumidity a f _ E K). intros u w4 [Q4 ->]. wp_norm.
      wp_use (wp_getTemperature _ f _); [exact E | reflexivity | apply (ok_calib f K) |].
      intros [t h] w5 [Q5 [= -> ->]]. wp_norm. split; [reflexivity|].
      assert (quiet w w5) as Q by (transitivity w1; [exact Q1|];
        transitivity w2; [exact Q2|]; transitivity w3; [exact Q3|]; now transitivity w4).
      destruct Q. split; cbn; congruence.
    + unfold say, or_bme280_error, extern. wp_norm. split; [reflexivity|].
      cbn [bme280_error set_calls]. rewrite B1. apply Off.
  - destruct V as [h ->]. destruct (Z.eqb_spec (rx (stack_bytes h 1) 0) 0x60) as [J|].
    + now apply junk_is_no_id in J.
    + unfold say, or_bme280_error, extern. wp_norm. split; [reflexivity|].
      cbn [bme280_error set_calls]. rewrite B1. apply Off.
Qed.

Lemma sensing_say msg args w : sensing w (set_calls (chprintf msg args :: calls w) w).
Proof. split; reflexivity. Qed.

Lemma wp_collect_ltr329 w :
  wp collect_ltr329 (fun v w' => v = ltr_value /\ sensing w w') w.
Proof.
  unfold collect_ltr329, ltr_value. wp_norm. wp_use wp_ltr329_isAvailable.
  intros ok w1 (Q1 & V & _). apply ltr_sensing in Q1.
  assert (ok = false -> wp (say "COLL > LTR329 not operational\r\n" ;; ret (0, 0))
            (fun v w' => v = (0, 0) /\ sensing w w') w1) as Off.
  { intros _. unfold say, extern. wp_norm. split; [reflexivity|].
    transitivity w1; [exact Q1 | apply sensing_say]. }
  destruct (slave LTR329_ADDR) as [f|] eqn:E; [|subst ok; now apply Off].
  subst ok. destruct (f LTR329_MANUFAC_ID 0%nat =? 5); [|now apply Off].
  wp_norm. wp_use wp_ltr329_init. intros _ w2 Q2. apply quiet_sensing in Q2. wp_norm.
  wp_use (wp_channel LTR329_DATA_CH0_LOW). rewrite E. intros c0 w3 (Q3 & C0 & _). wp_norm.
  wp_use (wp_channel LTR329_DATA_CH1_LOW). rewrite E. intros c1 w4 (Q4 & C1 & _). wp_norm.
  apply ltr_sensing in Q3, Q4. rewrite C0, C1. split; [reflexivity|].
  transitivity w1; [exact Q1|]. transitivity w2; [exact Q2|]. now transitivity w3.
Qed.

Lemma wp_collect_tmp100 n src w :
  wp (collect_tmp100 n src) (fun v w' => v = tmp_value n src /\ sensing w w') w.
Proof.
  unfold collect_tmp100, tmp_value. wp_norm. wp_use wp_tmp100_isAvailable.
  intros ok w1 (Q1 & ->). apply quiet_sensing in Q1.
  destruct (slave (tmp100_address n)) as [g|].
  - wp_norm. wp_use wp_tmp100_init. intros _ w2 Q2. apply quiet_sensing in Q2.
    wp_use wp_get_temperature. intros t w3 (Q3 & ->). apply quiet_sensing in Q3.
    split; [reflexivity|]. transitivity w1; [exact Q1|]. now transitivity w2.
  - unfold extern. wp_norm. split; [reflexivity|].
    transitivity w1; [exact Q1 | apply sensing_say].
Qed.

Lemma wp_collect_mpu9250 w :
  wp collect_mpu9250 (fun v w' => v = mpu_value /\ sensing w w') w.
Proof.
  unfold collect_mpu9250, mpu_value, mpu9250_init. wp_norm. wp_use wp_mpu9250_isAvailable.
  intros ok w1 (Q1 & V & _). apply mpu_sensing in Q1.
  assert (ok = false -> wp (say "COLL > MPU9250 not operational\r\n" ;; ret (0, 0, 0))
            (fun v w' => v = (0, 0, 0) /\ sensing w w') w1) as Off.
  { intros _. unfold say, extern. wp_norm. split; [reflexivity|].
    transitivity w1; [exact Q1 | apply sensing_say]. }
  destruct (slave MPU9250_ADDR) as [f|] eqn:E; [|subst ok; now apply Off].
  subst ok. destruct (f MPU9250_WHO_AM_I 0%nat =? 0x71); [|now apply Off].
  wp_norm. wp_use (wp_axis MPU9250_ACCEL_XOUT_H). rewrite E. intros x w2 (Q2 & -> & _). wp_norm.
  wp_use (wp_axis MPU9250_ACCEL_YOUT_H). rewrite E. intros y w3 (Q3 & -> & _). wp_norm.
  wp_use (wp_axis MPU9250_ACCEL_ZOUT_H). rewrite E. intros z w4 (Q4 & -> & _). wp_norm.
  apply mpu_sensing in Q2, Q3, Q4. split; [reflexivity|].
  transitivity w1; [exact Q1|]. transitivity w2; [exact Q2|]. now transitivity w3.
Qed.

(** The status bits of the missing sensors. *)
Definition missing_bme : Z :=
  (if bme_present 0x77 then 0 else 0x1) + (if bme_present 0x76 then 0 else 0x10).

Lemma wp_getSensors tp w :
  wp (getSensors tp) (fun dp w' => sensing (set_bme280_error missing_bme w) w' /\
     exists s v, in_u 12 s /\ in_u 12 v /\ dp = snapshot tp (lightIntensity (cam w)) s v) w.
Proof.
  unfold getSensors. wp_norm. set (w0 := set_bme280_error 0 w).
  wp_use (wp_collect_bme _ 0x77); [reflexivity | now right |]. intros i1 w1 [-> S1].
  set (e1 := if bme_present 0x77 then _ else _) in S1. wp_norm.
  wp_use (wp_collect_bme _ 0x76); [reflexivity | now left |]. intros e2 w2 [-> S2].
  set (e2 := if bme_present 0x76 then _ else _) in S2.
  assert (e2 = missing_bme) as He.
  { subst e2 e1 w0. unfold missing_bme. rewrite (sens_bme _ _ S1). cbn [bme280_error set_bme280_error].
    destruct (bme_present 0x77), (bme_present 0x76); reflexivity. }
  assert (sensing (set_bme280_error missing_bme w) w2) as S02.
  { rewrite <- He. destruct S1, S2. split; cbn in *; congruence. }
  unfold OV5640_getLastLightIntensity. wp_norm.
  rewrite (sens_cam _ _ S02). cbn [cam set_bme280_error].
  wp_use wp_collect_ltr329. intros [c0 c1] w3 [E3 S3]. wp_norm.
  wp_use wp_temp. intros t w4 (F4 & Hs & Et). apply adc_sensing in F4. wp_norm.
  wp_use wp_vbat. intros vb w5 (F5 & -> & Hv). apply adc_sensing in F5. wp_norm.
  assert (sensing (set_bme280_error missing_bme w) w5) as S05.
  { transitivity w2; [exact S02|]. transitivity w3; [exact S3|]. now transitivity w4. }
  clear S02 S3 F4 F5.
  do 8 (wp_use wp_collect_tmp100; intros ? ? [-> ?]; wp_norm).
  wp_use wp_collect_mpu9250. intros a w' [-> S']. wp_norm. split.
  - repeat (first [eassumption | etransitivity; [eassumption|]]).
  - exists (sample w4 3), (sample w5 1). split; [exact Hs|]. split; [exact Hv|].
    unfold snapshot. rewrite <- E3, <- Et. cbn [fst snd].
    change 0xFFFF with (2 ^ 16 - 1). rewrite land_ones_mod by lia. reflexivity.
Qed.


End Facts.

(** A bus with the internal BME280 and the first TMP100. *)
Definition example_slaves : Slaves := {|
  slave a := if a =? 0x77 then Some example_bme
             else if a =? 0x48 then Some (two_bytes 0x19 0x10) else None |}.

Definition blank_point : dataPoint_t :=
  let z := {| press := 0; temp := 0; hum := 0 |} in
  {| adc_vsol := 0; adc_vbat := 0; pac_vsol := 0; pac_vbat := 0; pac_pbat := 0; pac_psol := 0;
     light_intensity := 0; ltr329_intensity_ch0 := 0; ltr329_intensity_ch1 := 0;
     gps := {| gps_state := GPS_OFF; gps_sats := 0; gps_ttff := 0; gps_pdop := 0;
               gps_alt := 0; gps_lat := 0; gps_lon := 0; gps_time := 0 |};
     sen_i1 := z; sen_e1 := z; sen_e2 := z; mpu9250_accel := (0, 0, 0); dummy2 := 0;
     stm32_temp := 0; si446x_temp := 0; tmp100_temp := repeat 0 8; dp_reset := 0; id := 0;
     sys_time := 0; sys_error := 0; gpio := 0 |}.

Lemma example_slaves_bus : @RegisterBus (bus_of example_slaves) (stack_of 0) example_slaves.
Proof.
  apply bus_of_registers; [unfold is_byte, in_u; lia|].
  intros a f reg i. cbn [slave example_slaves].
  destruct (a =? 0x77); [intros [= <-]; apply uwrap_range; lia|].
  destruct (a =? 0x48); intros [= <-]. unfold two_bytes. destruct i; apply uwrap_range; lia.
Qed.

Lemma example_slaves_nominal a f : a = 0x76 \/ a = 0x77 -> @slave example_slaves a = Some f ->
  f 0xD0 0%nat = 0x60 -> bme_ok f.
Proof.
  intros [-> | ->]; [discriminate|]. intros [= <-] _. exact example_bme_ok.
Qed.


(** The fields of the snapshot of that bus. *)
Example example_snapshot :
  let dp := @snapshot example_slaves blank_point 0 950 1000 in
  sen_i1 dp = {| press := 991047; temp := 2508; hum := 30 |} /\
  tmp100_temp dp = [2506; 0; 0; 0; 0; 0; 0; 0] /\ stm32_temp dp = 2715 /\ adc_vbat dp = 8056.
Proof. vm_compute. repeat split. Qed.

(** ** System status *)

Section Status.
Context {ST : SysTimer}.

Lemma lor_digit e x n : 0 <= n <= 14 -> 0 <= e < 2 ^ n -> 0 <= x < 2 ^ 16 ->
  u32 (Z.lor e (Z.shiftl x n)) = e + x * 2 ^ n.
Proof.
  intros Hn He Hx. rewrite Z.lor_comm, lor_shift by lia. rewrite Z.add_comm.
  apply uwrap_small. unfold in_u.
  assert (2 ^ n <= 2 ^ 14) by (apply Z.pow_le_mono_r; lia).
  change (2 ^ 32) with 4294967296. change (2 ^ 14) with 16384 in *.
  change (2 ^ 16) with 65536 in *. nia.
Qed.

(** C35: The bits of sys_error after setSystemStatus.  For every state of the
    drivers: bit 0 is the I2C error, bit 2 the GPS error, bits 5 to 7 the
    camera's error, bits 8 to 13 the six status bits of the BME280 sensors; all
    other bits are zero, so no source disturbs another's bits; sys_time is the
    system time that TIME_I2S has converted to seconds; nothing else of the data
    point and of the drivers' state changes. *)
Theorem sys_error_layout tp w :
  exists w', setSystemStatus tp w =
    Ok (set_sys (u32 (TIME_I2S (u32 (system_time (calls w))))) (pi2c_error w mod 2 +
                   (match gps_state (gps tp) with GPS_ERROR => 4 | _ => 0 end) +
                   32 * (cam_error (cam w) mod 8) + 256 * (bme280_error w mod 64)) tp, w') /\
    quiet w w'.
Proof.
  set (e := _ + 256 * _).
  enough (wp (setSystemStatus tp)
            (fun dp w' => quiet w w' /\
               dp = set_sys (u32 (TIME_I2S (u32 (system_time (calls w))))) e tp) w) as W.
  { apply wp_ok in W as (dp & w' & R & Q & ->). eauto. }
  unfold setSystemStatus, I2C_hasError, OV5640_hasError, get_system_time, extern. wp_norm.
  split; [split; reflexivity|]. f_equal. cbn [cam bme280_error set_calls].
  set (g := if gpsState_value (gps_state (gps tp)) =? gpsState_value GPS_ERROR then 1 else 0).
  assert (0 <= g <= 1 /\ match gps_state (gps tp) with GPS_ERROR => 4 | _ => 0 end = 4 * g)
    as [Bg Eg] by (subst g; destruct (gps_state (gps tp)); cbn; lia).
  subst e. rewrite Eg. clearbody g.
  replace (Z.land (pi2c_error w) 0x1) with (pi2c_error w mod 2)
    by (symmetry; apply (land_ones_mod (pi2c_error w) 1); lia).
  change 0x7 with (2 ^ 3 - 1).
  change BME_ALL_STATUS_MASK with (2 ^ 6 - 1). rewrite !land_ones_mod by lia.
  change (2 ^ 3) with 8. change (2 ^ 6) with 64.
  unfold BME_ALL_STATUS_SHIFT.
  pose proof (Z.mod_pos_bound (pi2c_error w) 2 ltac:(lia)) as B1.
  pose proof (Z.mod_pos_bound (cam_error (cam w)) 8 ltac:(lia)) as B2.
  pose proof (Z.mod_pos_bound (bme280_error w) 64 ltac:(lia)) as B3.
  set (b1 := pi2c_error w mod 2) in *. set (b2 := cam_error (cam w) mod 8) in *.
  set (b3 := bme280_error w mod 64) in *.
  rewrite Z.lor_0_l, Z.shiftl_0_r.
  assert (u32 b1 = b1) as ->
    by (apply uwrap_small; unfold in_u; change (2 ^ 32) with 4294967296; lia).
  rewrite (lor_digit b1 g 2) by (cbn; lia). change (2 ^ 2) with 4.
  rewrite (lor_digit _ b2 5) by (cbn; lia). change (2 ^ 5) with 32.
  rewrite (lor_digit _ b3 8) by (cbn; lia). change (2 ^ 8) with 256. lia.
Qed.

End Status.

(** ** Position fallback *)

Section PositionFacts.
Context {RD : RtcDriver} {FM : Formatter} {TI : SysTimer}.

Lemma bus_held_traced cs h : forallb trace_call cs = true -> bus_held (cs ++ h) = bus_held h.
Proof.
  induction cs as [|c cs IH]; cbn; [reflexivity|]. intros F. apply andb_prop in F as [Fc F].
  destruct c; try discriminate; auto.
Qed.

(** getPositionFallback.  The given state is set; the position is carried
    over from the previous point exactly when that one came from a satellite
    lock, else it is zero; the time is the RTC's when the RTC has been set (its
    date then being a valid one), else the previous point's or zero.  Satellite
    count, time to fix and dilution are kept. *)
Theorem position_fallback_spec tp ltp state w w1 :
  TRACE_INFO "GPS  > Get time from RTC" [] w = Ok (tt, w1) ->
  let now := date_of_rtc (rtc_time (calls w1)) in
  let rtc_set := negb (year now =? RTC_BASE_YEAR) in
  (rtc_set = true -> valid_date now /\ seconds_of now < 2 ^ 32) ->
  exists p w', getPositionFallback tp ltp state w = Ok (p, w') /\ quiet w w' /\
    gps_state p = state /\
    (gps_lat p, gps_lon p, gps_alt p) =
      (if isPositionFromSV ltp then (gps_lat ltp, gps_lon ltp, gps_alt ltp) else (0, 0, 0)) /\
    gps_time p = (if rtc_set then seconds_of now
                  else if isPositionFromSV ltp then gps_time ltp else 0) /\
    (gps_sats p, gps_ttff p, gps_pdop p) = (gps_sats tp, gps_ttff tp, gps_pdop tp).
Proof.
  intros Tr now rtc_set V.
  assert (quiet w (set_calls (rtcGetTime :: calls w1) w1)) as Q.
  { destruct (wp_run _ _ _ _ _ (wp_trace_at 3 "     " "GPS  > Get time from RTC" [] w) Tr)
      as (cs & -> & F & _). split; try reflexivity. now apply bus_held_traced. }
  assert (forall (k : ptime_t -> M gps_fields) R, wp (k now) R (set_calls (rtcGetTime :: calls w1) w1) ->
          wp (bind getTime k) R w) as Gt.
  { intros k R Wk. unfold getTime. wp_norm. apply (proj2 (wp_ok _ _ _)). exists tt, w1.
    split; [exact Tr|]. unfold extern. wp_norm. exact Wk. }
  apply wp_ok. unfold getPositionFallback. apply Gt. fold rtc_set.
  destruct rtc_set eqn:Es; wp_norm.
  - destruct (V eq_refl) as [Vd Sd]. eapply wp_lift; [apply date2Unix_exact; assumption|].
    wp_norm. split; [exact Q|]. repeat split. cbn. destruct (isPositionFromSV ltp); reflexivity.
  - split; [exact Q|]. repeat split. cbn. destruct (isPositionFromSV ltp); reflexivity.
Qed.

End PositionFacts.

(** The function get_gps_state_name never reads outside its table: for every index it
    returns a name, the state's own for the values of the enumeration (which are
    told apart by their names) and INVALID for all others. *)
Lemma gps_state_names index :
  0 <= index < 256 ->
  (exists s, gpsState_value s = index /\ exists n, get_gps_state_name index = Ok n /\
     forall s' n', get_gps_state_name (gpsState_value s') = Ok n' -> n' = n -> s' = s) \/
  (9 < index /\ get_gps_state_name index = Ok "INVALID"%string).
Proof.
  intros Hi. destruct (Z.le_gt_cases index 9) as [L|G].
  - left. assert (exists s, gpsState_value s = index) as [s Hs].
    { assert (index = 0 \/ index = 1 \/ index = 2 \/ index = 3 \/ index = 4 \/ index = 5 \/
              index = 6 \/ index = 7 \/ index = 8 \/ index = 9) as D by lia.
      repeat destruct D as [->|D];
        [exists GPS_LOCKED1 | exists GPS_LOCKED2 | exists GPS_LOSS | exists GPS_LOWBATT1
        | exists GPS_LOWBATT2 | exists GPS_LOG | exists GPS_OFF | exists GPS_ERROR
        | exists GPS_FIXED | subst; exists GPS_TIME]; reflexivity. }
    exists s. split; [exact Hs|]. subst index.
    destruct s; (eexists; split; [reflexivity|]); intros s' n'; destruct s'; cbn;
      intros [= <-]; congruence.
  - right. split; [lia|]. unfold get_gps_state_name.
    destruct (Z.ltb_spec GPS_STATE_MAX index) as [|N]; [reflexivity|].
    change GPS_STATE_MAX with 9 in N. lia.
Qed.
