(* ===== verification/ImageFile.v ===== *)
(** * main.c: write_rgb and write_jpeg

    The image in OV5640_ram_buffer as a file on the SD card.  FatFs is the
    environment ([FileSystem]): the model records the calls and the bytes they
    are given.  Text is a list of character codes. *)

From Stdlib Require Import ZArith Bool String Ascii List Lia.
From S2P Require Import Prelude Machine Pi2c DcmiDma OvTables Ov5640.
Import ListNotations.
Local Open Scope Z_scope.
Local Open Scope fw_scope.

(** ** FatFs calls *)

Section Files.
Context `{FileSystem}.

Definition do_open (name : string) (create_always : bool) : M Z :=
  w <- gets (fun w => w) ;;
  extern (f_open name create_always) ;;
  ret (f_open_result (calls w) name create_always).

(** [fr = f_write(&fil, data, br, &bw)]: [fr || bw < br], and [bw]. *)
Definition do_write (data : list Z) : M (bool * Z) :=
  w <- gets (fun w => w) ;;
  extern (f_write data) ;;
  let (fr, bw) := f_write_result (calls w) data in
  ret (negb (fr =? 0) || (bw <? Z.of_nat (length data)), bw).

Definition do_close : M Z :=
  w <- gets (fun w => w) ;;
  extern f_close ;;
  ret (f_close_result (calls w)).

(** ** PPM *)

(** [n/d%10 + '0'] as a char. *)
Definition digit (n d : Z) : Z := u8 (n / d mod 10 + 48).

(** The header array after its digits have been set. *)
Definition ppm_header (m : mode) : list Z :=
  [80; 51; 10;
   digit (OV5640_MAXX m) 1000; digit (OV5640_MAXX m) 100; digit (OV5640_MAXX m) 10;
   digit (OV5640_MAXX m) 1; 32;
   digit (OV5640_MAXY m) 1000; digit (OV5640_MAXY m) 100; digit (OV5640_MAXY m) 10;
   digit (OV5640_MAXY m) 1; 10;
   50; 53; 53; 10].

(** The 13 bytes of a pixel whose two bytes in the buffer are [lo] and [hi]. *)
Definition ppm_pixel (lo hi : Z) : list Z :=
  let color := u16 (Z.shiftr hi 8 + lo) in
  let b := Z.shiftl (Z.land color 0x001F) 3 in
  let g := Z.shiftr (Z.land color 0x07E0) 3 in
  let r := Z.shiftr (Z.land color 0xF800) 8 in
  [digit r 100; digit r 10; digit r 1; 32;
   digit g 100; digit g 10; digit g 1; 32;
   digit b 100; digit b 10; digit b 1; 32;
   10].

(** The inner loop: [n] pixels are left, the next is pixel [i] of the frame; a
    write error leaves the loop. *)
Fixpoint write_row (n : nat) (i : Z) : M unit :=
  match n with
  | O => ret tt
  | S n' =>
      hi <- ram_read (2 * i + 1) ;;
      lo <- ram_read (2 * i) ;;
      '(err, bw) <- do_write (ppm_pixel lo hi) ;;
      if (err : bool) then say "write error!\r\n" else write_row n' (i + 1)
  end.

(** The outer loop: [n] rows of [maxx] pixels are left, the next is row [y]. *)
Fixpoint write_rows (n : nat) (maxx y : Z) : M unit :=
  match n with
  | O => ret tt
  | S n' =>
      write_row (Z.to_nat maxx) (y * maxx) ;;
      say "." ;;
      write_rows n' maxx (y + 1)
  end.

Definition write_rgb : M unit :=
  let m := configured_mode in
  extern (palSetLine GPIOD_LED_BLUE) ;;
  say "Open file..." ;;
  fr <- do_open "image1.ppm" true ;;
  extern (chprintf "done, return code = %d\r\n" [fr]) ;;
  say "Write header..." ;;
  '(err, bw) <- do_write (ppm_header m) ;;
  if (err : bool) then say "write error!\r\n" else
  extern (chprintf "done, %d bytes written\r\n" [bw]) ;;
  write_rows (Z.to_nat (OV5640_MAXY m)) (OV5640_MAXX m) 0 ;;
  say "Close file..." ;;
  fr <- do_close ;;
  extern (chprintf "done, return code = %d\r\n" [fr]) ;;
  extern (palClearLine GPIOD_LED_BLUE).

(** ** JPEG *)

(** [%06d] of a non-negative int. *)
Definition digit_char (d : Z) : ascii := ascii_of_N (Z.to_N (48 + d)).

Fixpoint decimal (fuel : nat) (n : Z) (acc : string) : string :=
  match fuel with
  | O => acc
  | S f => let acc := String (digit_char (n mod 10)) acc in
           if n / 10 =? 0 then acc else decimal f (n / 10) acc
  end.

Fixpoint zero_pad (k : nat) (s : string) : string :=
  match k with
  | O => s
  | S k' => String "0" (zero_pad k' s)
  end.

Definition format_06d (n : Z) : string :=
  let s := decimal 10 n EmptyString in zero_pad (6 - String.length s) s.

Definition filename (index : Z) : string := ("image" ++ format_06d index ++ ".jpg")%string.

Definition set_image_index (x : Z) (s : main_state) : main_state :=
  {| image_index := x; fs_ready := fs_ready s; shelltp := shelltp s; cnt := cnt s |}.

Definition upd_main (f : main_state -> main_state) : M unit :=
  modify (fun w => set_main (f (main_vars w)) w).

(** The bytes printed: [n] of them from position [i] on, and the position after. *)
Fixpoint preview (n : nat) (i : Z) : M Z :=
  match n with
  | O => ret i
  | S n' =>
      b <- ram_read i ;;
      extern (chprintf "%02X, " [b]) ;;
      preview n' (i + 1)
  end.

Definition print_preview : M unit :=
  len <- gets ram_buffer_length ;;
  if 10 <? len then
    i <- preview 5 0 ;;
    b <- ram_read i ;;
    extern (chprintf "%02X ... " [b]) ;;
    i <- preview 4 (len - 5) ;;
    b <- ram_read i ;;
    extern (chprintf "%02X\r\n" [b])
  else
    i <- preview (Z.to_nat len) 0 ;;
    b <- ram_read i ;;
    extern (chprintf "%02X\r\n" [b]).

(** [while(fr == FR_EXIST && image_index < 1000000)]. *)
Definition search_step (fr : Z) : M (Z + Z) :=
  w <- gets (fun w => w) ;;
  let idx := image_index (main_vars w) in
  if (fr =? FR_EXIST) && (idx <? 1000000) then
    upd_main (set_image_index (idx + 1)) ;;
    fr <- do_open (filename (idx + 1)) false ;;
    ret (inl fr)
  else ret (inr fr).

(** Opening the file under the first unused name. *)
Definition open_jpeg : M Z :=
  w <- gets (fun w => w) ;;
  let idx := image_index (main_vars w) in
  extern (chprintf "SDC  > Open image%06d.jpg ..." [idx]) ;;
  fr <- do_open (filename idx) false ;;
  if fr =? FR_EXIST then
    say "SDC  > file exists, search for first unused index...\r\n" ;;
    fr <- iter (S (Z.to_nat (1000000 - idx))) search_step fr ;;
    w <- gets (fun w => w) ;;
    extern (chprintf "CAM  > Open image%06d.jpg ..." [image_index (main_vars w)]) ;;
    ret fr
  else ret fr.

(** The first [n] bytes of the buffer. *)
Definition ram_bytes (w : world) (n : Z) : list Z :=
  map (fun i => ram_buffer w (Z.of_nat i)) (seq 0 (Z.to_nat n)).

Definition write_jpeg : M unit :=
  extern (palSetLine GPIOD_LED_BLUE) ;;
  say "SDC  > File preview: " ;;
  print_preview ;;
  fr <- open_jpeg ;;
  extern (chprintf " done, return code = %d\r\n" [fr]) ;;
  say "SDC  > Write data..." ;;
  w <- gets (fun w => w) ;;
  '(err, bw) <- do_write (ram_bytes w (ram_buffer_length w)) ;;
  if (err : bool) then say "write error!\r\n" else
  extern (chprintf "done, %.3f MB written, " [bw]) ;;
  say "took, %d us, " ;;
  extern (chprintf "%.2f MB/s\r\n" [bw]) ;;
  idx <- gets (fun w => image_index (main_vars w)) ;;
  n <- lift (i32 (idx + 1)) ;;
  upd_main (set_image_index n) ;;
  say "SDC  > Close file..." ;;
  fr <- do_close ;;
  extern (chprintf "done, return code = %d\r\n" [fr]) ;;
  extern (palClearLine GPIOD_LED_BLUE).

End Files.

(** ** The text of a PPM image *)

(** Three decimal digits read back. *)
Definition read3 (a b c : Z) : Z := (a - 48) * 100 + (b - 48) * 10 + (c - 48).

(** The colour of a line of 13 bytes, if it has the shape of one. *)
Definition read_pixel (l : list Z) : option (Z * Z * Z) :=
  match l with
  | [a; b; c; 32; d; e; f; 32; g; h; i; 32; 10] => Some (read3 a b c, read3 d e f, read3 g h i)
  | _ => None
  end.

Lemma digits_read n : 0 <= n < 1000 -> read3 (digit n 100) (digit n 10) (digit n 1) = n.
Proof.
  intros H. unfold read3, digit, u8. rewrite Z.div_1_r.
  rewrite !uwrap_small by (unfold in_u; change (2 ^ 8) with 256; dlia). dlia.
Qed.

Lemma digit_range n d : 48 <= digit n d <= 57.
Proof.
  unfold digit, u8. pose proof (Z.mod_pos_bound (n / d) 10 ltac:(lia)).
  rewrite uwrap_small; unfold in_u; change (2 ^ 8) with 256; lia.
Qed.

(** The five, six and five bits of a pixel scaled to bytes: what RGB565 means. *)
Definition rgb565 (lo hi : Z) : Z * Z * Z :=
  (8 * (hi / 8), 4 * (8 * (hi mod 8) + lo / 32), 8 * (lo mod 32)).

(** The masks and shifts of the source on a colour below 256. *)
Lemma low_byte_fields x : 0 <= x < 256 ->
  Z.shiftl (Z.land x 0x1F) 3 = 8 * (x mod 32) /\
  Z.shiftr (Z.land x 0x7E0) 3 = 4 * (x / 32) /\ Z.shiftr (Z.land x 0xF800) 8 = 0.
Proof.
  intros Hx.
  pose proof (all_below_spec 256 (fun x =>
    (Z.shiftl (Z.land x 0x1F) 3 =? 8 * (x mod 32)) &&
    ((Z.shiftr (Z.land x 0x7E0) 3 =? 4 * (x / 32)) && (Z.shiftr (Z.land x 0xF800) 8 =? 0)))
    ltac:(vm_compute; reflexivity) x Hx) as B. cbv beta in B.
  apply andb_prop in B as [Ba B]. apply andb_prop in B as [Bb Bc].
  apply Z.eqb_eq in Ba, Bb, Bc. auto.
Qed.

(** The text write_rgb makes of a pixel.  The 13 bytes are always three
    well-formed decimal numbers below 256.  Of the colour only the low byte
    survives (the high byte is shifted the wrong way): blue is the pixel's blue,
    green is the pixel's green without its upper three bits, red is always 0. *)
Theorem ppm_pixel_spec lo hi :
  is_byte lo -> is_byte hi ->
  exists r g b, rgb565 lo hi = (r, g, b) /\
    read_pixel (ppm_pixel lo hi) = Some (0, g mod 32, b) /\
    Forall is_byte (ppm_pixel lo hi).
Proof.
  unfold is_byte, in_u. change (2 ^ 8) with 256. intros Hl Hh.
  do 3 eexists. split; [reflexivity|].
  assert (Z.shiftr hi 8 = 0) as Eh by (rewrite Z.shiftr_div_pow2 by lia; apply Z.div_small; cbn; lia).
  assert (u16 (Z.shiftr hi 8 + lo) = lo) as Ec.
  { rewrite Eh. apply uwrap_small. unfold in_u. change (2 ^ 16) with 65536. lia. }
  unfold ppm_pixel. rewrite Ec. cbv zeta.
  destruct (low_byte_fields lo Hl) as (-> & -> & ->). split.
  - unfold read_pixel. rewrite !digits_read by dlia. do 2 f_equal. f_equal. dlia.
  - repeat constructor; try lia;
      match goal with |- context [digit ?n ?d] => pose proof (digit_range n d); lia end.
Qed.

(** ** File names *)

Fixpoint read_decimal (s : string) (acc : Z) : Z :=
  match s with
  | EmptyString => acc
  | String c s' => read_decimal s' (10 * acc + (Z.of_N (N_of_ascii c) - 48))
  end.

Lemma digit_char_read d : 0 <= d < 10 -> Z.of_N (N_of_ascii (digit_char d)) - 48 = d.
Proof.
  intros H. unfold digit_char. rewrite N_ascii_embedding by lia. lia.
Qed.

Lemma decimal_read fuel : forall n s, 0 <= n < 10 ^ Z.of_nat fuel ->
  (0 < fuel)%nat -> read_decimal (decimal fuel n s) 0 = read_decimal s n.
Proof.
  induction fuel as [|fuel IH]; intros n s Hn Hf; [lia|]. cbn [decimal].
  rewrite Nat2Z.inj_succ, Z.pow_succ_r in Hn by lia.
  destruct (Z.eqb_spec (n / 10) 0) as [E|E].
  - cbn [read_decimal]. rewrite digit_char_read by dlia. f_equal. dlia.
  - destruct fuel as [|fuel]; [cbn in Hn; dlia|].
    rewrite IH by (dlia || lia). cbn [read_decimal]. rewrite digit_char_read by dlia.
    f_equal. dlia.
Qed.

Lemma zero_pad_read k s : read_decimal (zero_pad k s) 0 = read_decimal s 0.
Proof. induction k; cbn [zero_pad read_decimal]; [reflexivity | exact IHk]. Qed.

Lemma decimal_length fuel : forall n s,
  (String.length (decimal fuel n s) <= fuel + String.length s)%nat.
Proof.
  induction fuel as [|fuel IH]; intros n s; cbn [decimal]; [lia|].
  destruct (n / 10 =? 0); cbn [String.length]; [lia|].
  specialize (IH (n / 10) (String (digit_char (n mod 10)) s)). cbn [String.length] in IH. lia.
Qed.

Lemma zero_pad_length k s : String.length (zero_pad k s) = (k + String.length s)%nat.
Proof. induction k; cbn; lia. Qed.

(** The names of image files.  For every int image_index the number printed
    with %06d has at least six digits and reads back as the index, so different
    indices have different names, and the name with its terminating zero fits
    the 20 bytes of the buffer. *)
Lemma filename_spec index :
  0 <= index < 2 ^ 31 ->
  read_decimal (format_06d index) 0 = index /\
  (6 <= String.length (format_06d index))%nat /\
  (String.length (filename index) + 1 <= 20)%nat.
Proof.
  intros H. change (2 ^ 31) with 2147483648 in H. unfold format_06d.
  pose proof (decimal_length 10 index EmptyString) as L. cbn [String.length] in L.
  set (s := decimal 10 index EmptyString) in *.
  assert (String.length (zero_pad (6 - String.length s) s) <= 10 /\
          6 <= String.length (zero_pad (6 - String.length s) s))%nat as [L1 L2]
    by (rewrite zero_pad_length; lia).
  split; [|split; [exact L2|]].
  - rewrite zero_pad_read. subst s. rewrite decimal_read by (cbn; lia). reflexivity.
  - unfold filename, format_06d. fold s. cbn [append].
    assert (forall a b, String.length (a ++ b) = (String.length a + String.length b)%nat) as App.
    { intros a b. induction a; cbn; congruence. }
    cbn [String.length]. rewrite App. cbn [String.length]. lia.
Qed.

Example filename_4711 : filename 4711 = "image004711.jpg"%string.
Proof. reflexivity. Qed.

(** ** Writing the PPM file *)

(** The blocks of data handed to f_write, oldest first. *)
Fixpoint written (h : list call) : list (list Z) :=
  match h with
  | [] => []
  | f_write d :: h' => written h' ++ [d]
  | _ :: h' => written h'
  end.

(** The lines of [n] pixels from pixel [i] on. *)
Fixpoint pixel_lines (buf : Z -> Z) (n : nat) (i : Z) : list (list Z) :=
  match n with
  | O => []
  | S n' => ppm_pixel (buf (2 * i)) (buf (2 * i + 1)) :: pixel_lines buf n' (i + 1)
  end.

Lemma pixel_lines_app buf n m : forall i,
  pixel_lines buf n i ++ pixel_lines buf m (i + Z.of_nat n) = pixel_lines buf (n + m) i.
Proof.
  induction n as [|n IH]; intros i; cbn [pixel_lines Nat.add app].
  - f_equal. lia.
  - rewrite <- IH. do 3 f_equal. lia.
Qed.

Section FileFacts.
Context {FS : FileSystem}.

(** A card that takes every block completely. *)
Definition card_writes : Prop :=
  forall h d, f_write_result h d = (0, Z.of_nat (length d)).

Lemma wp_ram_read i w : 0 <= i < RAM_SIZE ->
  wp (ram_read i) (fun b w' => b = ram_buffer w i /\ w' = w) w.
Proof.
  intros H. unfold ram_read. wp_norm. destruct (Z.leb_spec 0 i); [|lia].
  destruct (Z.ltb_spec i RAM_SIZE); [|lia]. cbn [andb]. wp_norm. auto.
Qed.

Lemma wp_do_write d w :
  wp (do_write d) (fun r w' => w' = set_calls (f_write d :: calls w) w /\
        (card_writes -> fst r = false)) w.
Proof.
  unfold do_write, extern. wp_norm. destruct (f_write_result (calls w) d) as [fr bw] eqn:E.
  wp_norm. split; [reflexivity|]. intros W. rewrite W in E. injection E as <- <-. cbn [fst].
  now rewrite Z.ltb_irrefl.
Qed.

Lemma wp_write_row n : forall i w, 0 <= i -> 2 * (i + Z.of_nat n) <= RAM_SIZE ->
  wp (write_row n i) (fun _ w' => ram_buffer w' = ram_buffer w /\
        (card_writes -> written (calls w') = written (calls w) ++ pixel_lines (ram_buffer w) n i)) w.
Proof.
  induction n as [|n IH]; intros i w Hi Hr; cbn [write_row pixel_lines].
  - wp_norm. rewrite app_nil_r. auto.
  - wp_norm. wp_use wp_ram_read; [lia|]. intros hi ? [-> ->]. wp_norm.
    wp_use wp_ram_read; [lia|]. intros lo ? [-> ->]. wp_norm.
    wp_use wp_do_write. intros [err bw] w1 [-> Hok]. cbn [fst] in Hok. destruct err.
    + unfold say, extern. wp_norm. split; [reflexivity|]. intros C. specialize (Hok C). discriminate.
    + wp_use IH; [lia | lia |]. intros _ w2 [R2 W2]. split; [exact R2|]. intros C.
      rewrite (W2 C). cbn [calls set_calls written ram_buffer]. now rewrite <- app_assoc.
Qed.

Lemma wp_write_rows maxx n : forall y w, 0 <= maxx -> 0 <= y ->
  2 * ((y + Z.of_nat n) * maxx) <= RAM_SIZE ->
  wp (write_rows n maxx y) (fun _ w' => ram_buffer w' = ram_buffer w /\
        (card_writes -> written (calls w') =
           written (calls w) ++ pixel_lines (ram_buffer w) (n * Z.to_nat maxx) (y * maxx))) w.
Proof.
  induction n as [|n IH]; intros y w Hm Hy Hr; cbn [write_rows Nat.mul].
  - wp_norm. cbn [pixel_lines]. rewrite app_nil_r. auto.
  - wp_norm. wp_use wp_write_row; [nia | rewrite Z2Nat.id by lia; nia |].
    intros _ w1 [R1 W1]. unfold say, extern. wp_norm.
    wp_use IH; [lia | lia | nia |]. intros _ w2 [R2 W2]. cbn [ram_buffer set_calls] in R2.
    split; [now rewrite R2|]. intros C. rewrite (W2 C). cbn [calls set_calls written ram_buffer].
    rewrite (W1 C), R1, <- app_assoc, <- pixel_lines_app, Z2Nat.id by lia.
    do 3 f_equal. lia.
Qed.

(** Write_rgb.  Whatever the card answers it terminates without a fault and
    without touching the image.  On a card that takes every write, the file
    image1.ppm receives exactly a header that names the size of the frame,
    followed by one line per pixel, row by row. *)
Theorem write_rgb_spec w :
  exists w', write_rgb w = Ok (tt, w') /\ ram_buffer w' = ram_buffer w /\
    (card_writes ->
       written (calls w') = written (calls w) ++
         ppm_header configured_mode :: pixel_lines (ram_buffer w) (Z.to_nat OV5640_NUM_PIXELS) 0) /\
    ppm_header configured_mode =
      map (fun c => Z.of_N (N_of_ascii c))
        (list_ascii_of_string ("P3" ++ String "010" "2048 1536" ++ String "010" "255" ++
                               String "010" "")).
Proof.
  enough (wp write_rgb (fun _ w' => ram_buffer w' = ram_buffer w /\
    (card_writes -> written (calls w') = written (calls w) ++
       ppm_header configured_mode :: pixel_lines (ram_buffer w) (Z.to_nat OV5640_NUM_PIXELS) 0)) w) as W.
  { apply wp_ok in W as ([] & w' & R & Hr & Hw). exists w'. repeat (split; [assumption|]).
    reflexivity. }
  unfold write_rgb, do_open, say, extern. cbv zeta. wp_norm.
  wp_use wp_do_write. intros [err bw] w1 [-> Hok]. cbn [fst] in Hok. destruct err.
  { wp_norm. split; [reflexivity|]. intros C. specialize (Hok C). discriminate. }
  assert (0 <= OV5640_MAXX configured_mode /\ 0 <= OV5640_MAXY configured_mode /\
          2 * (OV5640_MAXY configured_mode * OV5640_MAXX configured_mode) = RAM_SIZE) as (Hx & Hy & Hr)
    by (cbn; lia).
  wp_norm. wp_use wp_write_rows; [exact Hx | lia | rewrite Z2Nat.id by exact Hy; lia |].
  intros _ w2 [R2 W2]. unfold do_close, extern. wp_norm. split; [exact R2|]. intros C.
  cbn [calls set_calls written]. rewrite (W2 C). cbn [calls set_calls written ram_buffer].
  rewrite <- app_assoc, <- Z2Nat.inj_mul by assumption. rewrite Z.mul_0_l.
  rewrite (Z.mul_comm (OV5640_MAXY _)). reflexivity.
Qed.

(** ** Writing the JPEG file *)

(** A call on the image file with what the file system answered. *)
Inductive file_event : Type :=
| Opened (name : string) (create_always : bool) (fr : Z)
| Wrote (data : list Z) (fr bw : Z)
| Closed (fr : Z).

(** The calls on files in a history, oldest first. *)
Fixpoint file_log (h : list call) : list file_event :=
  match h with
  | [] => []
  | f_open n a :: h' => file_log h' ++ [Opened n a (f_open_result h' n a)]
  | f_write d :: h' => file_log h' ++ [Wrote d (fst (f_write_result h' d)) (snd (f_write_result h' d))]
  | f_close :: h' => file_log h' ++ [Closed (f_close_result h')]
  | _ :: h' => file_log h'
  end.

(** Only messages are added. *)
Definition chatty (w w' : world) : Prop :=
  exists cs, w' = set_calls (cs ++ calls w) w /\
    forall c, In c cs -> exists f a, c = chprintf f a.

Lemma chatty_refl w : chatty w w.
Proof. exists []. split; [now destruct w | intros c []]. Qed.

Lemma chatty_say f a w w' : chatty w w' -> chatty w (set_calls (chprintf f a :: calls w') w').
Proof.
  intros (cs & -> & H). exists (chprintf f a :: cs). split; [reflexivity|].
  intros c [<-|Hc]; eauto.
Qed.

Lemma chatty_files cs h : (forall c, In c cs -> exists f a, c = chprintf f a) -> file_log (cs ++ h) = file_log h.
Proof.
  induction cs as [|c cs IH]; intros H; [auto|].
  destruct (H c (or_introl eq_refl)) as (f & a & ->). cbn. apply IH. intros; apply H. now right.
Qed.

Lemma wp_preview n : forall i w0 w, chatty w0 w -> 0 <= i -> i + Z.of_nat n <= RAM_SIZE ->
  wp (preview n i) (fun j w' => chatty w0 w' /\ j = i + Z.of_nat n) w.
Proof.
  induction n as [|n IH]; intros i w0 w C Hi Hr; cbn [preview].
  - wp_norm. split; [exact C | lia].
  - wp_norm. wp_use wp_ram_read; [lia|]. intros b ? [-> ->]. unfold extern. wp_norm.
    wp_use (IH (i + 1) w0); [now apply chatty_say | lia | lia |].
    intros j w' [C' ->]. split; [exact C' | lia].
Qed.

Lemma wp_print_preview w : 0 <= ram_buffer_length w <= RAM_SIZE ->
  wp print_preview (fun _ w' => chatty w w') w.
Proof.
  intros Hl. unfold print_preview. wp_norm.
  assert (10 < RAM_SIZE) by (cbn; lia).
  destruct (Z.ltb_spec 10 (ram_buffer_length w)).
  - wp_norm. wp_use (wp_preview 5 0 w w); [apply chatty_refl | lia | lia |].
    intros i w1 [C1 ->]. wp_norm. wp_use wp_ram_read; [lia|]. intros b ? [-> ->].
    unfold extern. wp_norm.
    wp_use (wp_preview 4 (ram_buffer_length w - 5) w); [now apply chatty_say | lia | lia |].
    intros j w2 [C2 ->]. wp_norm. wp_use wp_ram_read; [lia|]. intros b' ? [-> ->]. wp_norm.
    now apply chatty_say.
  - wp_norm. wp_use (wp_preview _ 0 w w); [apply chatty_refl | lia | lia |].
    intros i w1 [C1 ->]. wp_norm. wp_use wp_ram_read; [lia|]. intros b ? [-> ->].
    unfold extern. wp_norm. now apply chatty_say.
Qed.

(** The names of [n] indices from [i] on tried with FA_CREATE_NEW, and taken. *)
Definition taken (i : Z) (n : nat) : list file_event :=
  map (fun k => Opened (filename (i + Z.of_nat k)) false FR_EXIST) (seq 0 n).

(** Trying names from index [i] on has led to index [i + n], all earlier names
    being taken, and to the status [fr] for the last. *)
Record searched (i : Z) (n : nat) (fr : Z) (w w' : world) : Prop := {
  se_log : file_log (calls w') = file_log (calls w) ++ taken i n ++ [Opened (filename (i + Z.of_nat n)) false fr];
  se_index : main_vars w' = set_image_index (i + Z.of_nat n) (main_vars w);
  se_ram : ram_buffer w' = ram_buffer w;
  se_len : ram_buffer_length w' = ram_buffer_length w }.

Lemma searched_next i n w w' :
  searched i n FR_EXIST w w' ->
  searched i (S n) (f_open_result (calls w') (filename (i + Z.of_nat n + 1)) false) w
    (set_calls (f_open (filename (i + Z.of_nat n + 1)) false :: calls w')
       (set_main (set_image_index (i + Z.of_nat n + 1) (main_vars w')) w')).
Proof.
  intros [L X Ra Le].
  assert (i + Z.of_nat (Datatypes.S n) = i + Z.of_nat n + 1) as E by lia.
  split; cbn [calls set_calls set_main file_log main_vars ram_buffer ram_buffer_length]; auto.
  - rewrite L, <- app_assoc, E. f_equal. unfold taken. rewrite seq_S, map_app, <- !app_assoc. reflexivity.
  - rewrite X, E. reflexivity.
Qed.

Lemma wp_search i w w1 n1 fr1 :
  0 <= i -> searched i n1 fr1 w w1 ->
  wp (iter (S (Z.to_nat (1000000 - (i + Z.of_nat n1)))) search_step fr1)
     (fun fr w' => exists n, searched i n fr w w' /\
        (fr = FR_EXIST -> 1000000 <= i + Z.of_nat n) /\
        (i + Z.of_nat n <= Z.max (i + Z.of_nat n1) 1000000)) w1.
Proof.
  intros Hi S1.
  apply (wp_iter search_step
    (fun fr v => exists n, searched i n fr w v /\ i + Z.of_nat n <= Z.max (i + Z.of_nat n1) 1000000)
    (fun _ v => Z.to_nat (1000000 - image_index (main_vars v)))).
  - intros fr v (n & S & Hn). unfold search_step. wp_norm. cbv zeta.
    rewrite (se_index _ _ _ _ _ S). cbn [image_index set_image_index].
    destruct (Z.eqb_spec fr FR_EXIST) as [->|Ne]; cbn [andb].
    + destruct (Z.ltb_spec (i + Z.of_nat n) 1000000) as [L|L].
      * unfold upd_main, do_open, extern. wp_norm. cbn [calls set_main].
        split; [exists (Datatypes.S n); split; [exact (searched_next _ _ _ _ S) | lia]|].
        cbn [main_vars set_main set_calls image_index set_image_index]. lia.
      * wp_norm. exists n. split; [exact S|]. split; [auto | exact Hn].
    + wp_norm. exists n. split; [exact S|]. split; [congruence | exact Hn].
  - exists n1. split; [exact S1 | lia].
  - rewrite (se_index _ _ _ _ _ S1). cbn [image_index set_image_index]. lia.
Qed.

Lemma searched_say f a i n fr w w' : searched i n fr w w' ->
  searched i n fr w (set_calls (chprintf f a :: calls w') w').
Proof. intros []. split; auto. Qed.

Lemma wp_open_jpeg w : 0 <= image_index (main_vars w) ->
  wp open_jpeg (fun fr w' => exists n, let i := image_index (main_vars w) in
        searched i n fr w w' /\ (fr = FR_EXIST -> 1000000 <= i + Z.of_nat n) /\
        i + Z.of_nat n <= Z.max i 1000000) w.
Proof.
  intros Hi. unfold open_jpeg, do_open, say, extern. wp_norm. cbv zeta. wp_norm.
  set (i := image_index (main_vars w)) in *. cbn [calls set_calls].
  set (h1 := chprintf _ _ :: calls w). set (w1 := set_calls (f_open (filename i) false :: h1) _).
  assert (searched i 0 (f_open_result h1 (filename i) false) w w1) as S1.
  { split; cbn [calls w1 set_calls file_log]; auto.
    - cbn [taken map seq app]. now rewrite Z.add_0_r.
    - cbn. rewrite Z.add_0_r. subst i. now destruct (main_vars w). }
  destruct (Z.eqb_spec (f_open_result h1 (filename i) false) FR_EXIST) as [E|E].
  - wp_norm. pose proof (wp_search i w _ 0 _ Hi (searched_say
      "SDC  > file exists, search for first unused index...\r\n" [] _ _ _ _ _ S1)) as W.
    rewrite Z.add_0_r in W. wp_use W. intros fr w2 (n & S2 & X & B). wp_norm.
    exists n. split; [now apply searched_say|]. split; [exact X | exact B].
  - wp_norm. exists O. split; [exact S1|]. split; [congruence | lia].
Qed.

(** The search for a file name.  It terminates; the names are tried in order
    from the current index on, each once and always with FA_CREATE_NEW (an
    existing image is never overwritten); every name before the last was
    answered FR_EXIST; the status returned is the answer for the last, and it is
    FR_EXIST only if the index has reached a million. *)
Theorem open_jpeg_spec w :
  0 <= image_index (main_vars w) ->
  exists fr w' n, open_jpeg w = Ok (fr, w') /\
    let i := image_index (main_vars w) in
    file_log (calls w') = file_log (calls w) ++ taken i n ++ [Opened (filename (i + Z.of_nat n)) false fr] /\
    image_index (main_vars w') = i + Z.of_nat n /\
    (fr = FR_EXIST -> 1000000 <= i + Z.of_nat n) /\ i + Z.of_nat n <= Z.max i 1000000.
Proof.
  intros Hi. pose proof (wp_open_jpeg w Hi) as W.
  apply wp_ok in W as (fr & w' & R & n & S & X & B). exists fr, w', n. split; [exact R|].
  destruct S as [L Ix _ _]. rewrite Ix. auto 10.
Qed.

(** Are [len] bytes on the card, by the answer to f_write. *)
Definition accepted (fr bw len : Z) : bool := (fr =? 0) && (len <=? bw).

(** What write_jpeg does to the files: [n] names are taken, the next is opened
    with status [fr], the image is handed to f_write, which answers [r] and [bw],
    and the file is closed if that was accepted. *)
Record image_written (image : list Z) (w w' : world) (n : nat) (fr r bw cl : Z) : Prop := {
  iw_log : file_log (calls w') = file_log (calls w) ++ taken (image_index (main_vars w)) n ++
    [Opened (filename (image_index (main_vars w) + Z.of_nat n)) false fr; Wrote image r bw] ++
    (if accepted r bw (Z.of_nat (length image)) then [Closed cl] else []);
  iw_index : image_index (main_vars w') = image_index (main_vars w) + Z.of_nat n +
    (if accepted r bw (Z.of_nat (length image)) then 1 else 0);
  iw_exist : fr = FR_EXIST -> 1000000 <= image_index (main_vars w) + Z.of_nat n;
  iw_bound : image_index (main_vars w) + Z.of_nat n <= Z.max (image_index (main_vars w)) 1000000 }.

Lemma wp_write_jpeg w :
  0 <= ram_buffer_length w <= RAM_SIZE -> 0 <= image_index (main_vars w) < 2 ^ 31 - 1 ->
  wp write_jpeg (fun _ w' => exists n fr r bw cl, image_written (ram_bytes w (ram_buffer_length w)) w w' n fr r bw cl) w.
Proof.
  intros Hl Hi. change (2 ^ 31 - 1) with 2147483647 in Hi.
  unfold write_jpeg, say. wp_calls. set (w0 := set_calls _ _).
  wp_use (wp_print_preview w0); [exact Hl|]. intros _ w1 (cs & -> & Hc). wp_calls.
  pose proof (chatty_files cs (calls w0) Hc) as F1. change (file_log (calls w0)) with (file_log (calls w)) in F1.
  wp_use wp_open_jpeg; [exact (proj1 Hi)|]. cbn [main_vars set_calls].
  change (main_vars w0) with (main_vars w). intros fr w2 (n & S & X & B). wp_calls.
  destruct S as [L Ix Ra Le]. cbn [calls set_calls] in L. rewrite F1 in L.
  match goal with |- wp (do_write ?d) _ (set_calls ?h _) =>
    assert (d = ram_bytes w (ram_buffer_length w)) as -> by (unfold ram_bytes; cbn; now rewrite Ra, Le); set (h3 := h) end.
  set (image := ram_bytes w (ram_buffer_length w)). unfold do_write. wp_calls. cbn [calls set_calls].
  destruct (f_write_result h3 image) as [r bw] eqn:Ew. wp_calls.
  set (ok := accepted r bw (Z.of_nat (length image))).
  assert (negb (r =? 0) || (bw <? Z.of_nat (length image)) = negb ok) as ->
    by (unfold ok, accepted; rewrite negb_andb, Z.ltb_antisym; reflexivity).
  change (file_log (calls w2)) with (file_log h3) in L.
  destruct ok eqn:Eok; subst ok; cbn [negb].
  - wp_calls. cbn [main_vars set_calls]. rewrite Ix. cbn [image_index set_image_index].
    eapply wp_lift; [apply i32_ok; unfold in_s; change (2 ^ (32 - 1)) with 2147483648; lia|].
    unfold upd_main, do_close. wp_calls. exists n, fr, r, bw. eexists.
    constructor; rewrite ?Eok; auto; cbn [calls set_calls set_main file_log main_vars image_index set_image_index].
    rewrite L, Ew, <- !app_assoc. reflexivity.
  - wp_calls. exists n, fr, r, bw, 0.
    constructor; rewrite ?Eok; auto; cbn [calls set_calls file_log main_vars]; [|rewrite Ix; cbn; lia].
    rewrite L, Ew, <- !app_assoc. reflexivity.
Qed.

(** C17: write_jpeg.  For every image length within the buffer and every index it
    terminates without a fault, whatever the card answers.  The calls on files it
    makes, with their answers, are: names from the index on, each answered
    FR_EXIST; the next name, with an answer that is FR_EXIST only if the index has
    reached a million; f_write with the bytes of the image, all of them and
    once; and f_close exactly if that f_write answered FR_OK and that it took all
    bytes.  In that case, and only then, the index moves past the last name; else
    it stays on it. *)
Theorem write_jpeg_spec w :
  let i := image_index (main_vars w) in
  let image := ram_bytes w (ram_buffer_length w) in
  0 <= ram_buffer_length w <= RAM_SIZE -> 0 <= i < 2 ^ 31 - 1 ->
  exists w' n fr r bw cl, write_jpeg w = Ok (tt, w') /\
    let j := i + Z.of_nat n in
    let ok := accepted r bw (Z.of_nat (length image)) in
    file_log (calls w') = file_log (calls w) ++ taken i n ++ [Opened (filename j) false fr; Wrote image r bw] ++
      (if ok then [Closed cl] else []) /\
    (fr = FR_EXIST -> 1000000 <= j) /\ j <= Z.max i 1000000 /\
    image_index (main_vars w') = (if ok then j + 1 else j).
Proof.
  intros i image Hl Hi. pose proof (wp_write_jpeg w Hl Hi) as W.
  apply wp_ok in W as ([] & w' & R & n & fr & r & bw & cl & [L X E B]). exists w', n, fr, r, bw, cl.
  split; [exact R|]. cbv zeta. split; [exact L|]. split; [exact E|]. split; [exact B|]. fold i image in X. rewrite X.
  destruct (accepted _ _ _); lia.
Qed.

End FileFacts.

(** A card with room for everything on which the first two names are taken. *)
Definition example_card : FileSystem := {|
  f_open_result h n always :=
    if (String.eqb n (filename 0) || String.eqb n (filename 1))%bool then 8 else 0;
  f_write_result h d := (0, Z.of_nat (length d));
  f_close_result _ := 0; f_mount_result _ := 0; sdcConnect_result _ := false; FR_EXIST := 8 |}.

Lemma write_jpeg_spec_witness :
  exists w' n fr r bw cl, @write_jpeg example_card (set_ram_buffer_length 3 reset_world) = Ok (tt, w') /\
    @file_log example_card (calls w') = @taken example_card 0 n ++
      [Opened (filename (Z.of_nat n)) false fr; Wrote [0; 0; 0] r bw] ++ (if accepted r bw 3 then [Closed cl] else []) /\
    image_index (main_vars w') = (if accepted r bw 3 then Z.of_nat n + 1 else Z.of_nat n).
Proof.
  destruct (@write_jpeg_spec example_card (set_ram_buffer_length 3 reset_world)
              ltac:(cbn; lia) ltac:(cbn; lia)) as (w' & n & fr & r & bw & cl & R & L & _ & _ & I).
  exists w', n, fr, r, bw, cl. split; [exact R|]. split; [exact L | exact I].
Defined.
