(* ===== verification/MainLoop.v ===== *)
(** * main.c: card monitor, event handlers and the main loop

    The monitor is a timer interrupt that debounces the card detect switch and
    broadcasts events; the main thread respawns the shell and hands the events
    to the handlers, which mount the card's file system. *)

From Stdlib Require Import ZArith Bool String List Lia.
From S2P Require Import Prelude Machine Pi2c Sensors Padc Bme280 DcmiDma OvTables Ov5640 Collector.
From S2P Require Import ImageFile.
Import ListNotations.
Local Open Scope Z_scope.
Local Open Scope fw_scope.

Definition POLLING_INTERVAL := 10.

Definition POLLING_DELAY := 10.

Definition set_cnt (x : Z) (s : main_state) : main_state :=
  {| image_index := image_index s; fs_ready := fs_ready s; shelltp := shelltp s; cnt := x |}.

Definition set_fs_ready (x : bool) (s : main_state) : main_state :=
  {| image_index := image_index s; fs_ready := x; shelltp := shelltp s; cnt := cnt s |}.

Definition set_shelltp (x : bool) (s : main_state) : main_state :=
  {| image_index := image_index s; fs_ready := fs_ready s; shelltp := x; cnt := cnt s |}.

Section Main.
Context `{FileSystem} `{CardSlot}.

(** ** Card monitor *)

(** [inserted] is what blkIsInserted answers; the counter is unsigned. *)
Definition tmrfunc (inserted : bool) : M unit :=
  c <- gets (fun w => cnt (main_vars w)) ;;
  (if 0 <? c then
     if inserted then
       let c := u32 (c - 1) in
       upd_main (set_cnt c) ;;
       when (c =? 0) (extern (chEvtBroadcastI inserted_event))
     else upd_main (set_cnt POLLING_INTERVAL)
   else
     when (negb inserted)
       (upd_main (set_cnt POLLING_INTERVAL) ;;
        extern (chEvtBroadcastI removed_event))) ;;
  extern (chVTSetI POLLING_DELAY).

(** One expiry of the timer. *)
Definition tmr_expires : M unit :=
  w <- gets (fun w => w) ;;
  tmrfunc (blkIsInserted (calls w)).

Definition tmr_init : M unit :=
  extern (chEvtObjectInit inserted_event) ;;
  extern (chEvtObjectInit removed_event) ;;
  upd_main (set_cnt POLLING_INTERVAL) ;;
  extern (chVTSetI POLLING_DELAY).

(** ** Event handlers *)

Definition do_mount (path : string) : M Z :=
  w <- gets (fun w => w) ;;
  extern (f_mount path) ;;
  ret (f_mount_result (calls w)).

Definition InsertHandler : M unit :=
  w <- gets (fun w => w) ;;
  extern sdcConnect ;;
  if sdcConnect_result (calls w) then ret tt else
  err <- do_mount "/" ;;
  if negb (err =? 0) then extern sdcDisconnect
  else upd_main (set_fs_ready true).

Definition RemoveHandler : M unit :=
  extern sdcDisconnect ;;
  upd_main (set_fs_ready false).

(** [chThdTerminatedX(shelltp)]: a null pointer is dereferenced. *)
Definition shell_terminated_X : M bool :=
  w <- gets (fun w => w) ;;
  if shelltp (main_vars w) then
    extern chThdTerminatedX ;;
    ret (thread_terminated (calls w))
  else fail WildCall.

Definition release_shell : M unit :=
  extern chThdRelease ;;
  upd_main (set_shelltp false).

Definition ShellHandler : M unit :=
  t <- shell_terminated_X ;;
  if (t : bool) then release_shell else ret tt.

(** ** The main loop *)

(** The table [evhndl]; [None] is a timeout. *)
Definition dispatch (ev : option card_event) : M unit :=
  match ev with
  | None => ret tt
  | Some inserted_event => InsertHandler
  | Some removed_event => RemoveHandler
  | Some shell_terminated => ShellHandler
  end.

Definition spawn_shell : M unit :=
  w <- gets (fun w => w) ;;
  extern (chThdCreateFromHeap "shell") ;;
  upd_main (set_shelltp (thread_created (calls w))).

(** One turn, with the event chEvtWaitOneTimeout returns. *)
Definition main_turn (ev : option card_event) : M unit :=
  w <- gets (fun w => w) ;;
  (if negb (shelltp (main_vars w)) then spawn_shell
   else
     t <- shell_terminated_X ;;
     if (t : bool) then release_shell else ret tt) ;;
  dispatch ev.

End Main.

(** A shell command given arguments, [argc > 0], prints its usage and does
    nothing. *)
Definition no_args (argc : Z) (usage : string) (body : M unit) : M unit :=
  if 0 <? argc then say usage else body.


(** ** The debounced card switch *)

(** The card events broadcast, oldest first. *)
Fixpoint broadcasts (h : list call) : list card_event :=
  match h with
  | [] => []
  | chEvtBroadcastI e :: h' => broadcasts h' ++ [e]
  | _ :: h' => broadcasts h'
  end.

(** What the monitor promises: [run] is the number of polls since the card was
    last seen missing; a card counts as inserted at the tenth poll in a row that
    sees it, as removed at the first that does not. *)
Fixpoint card_events (run : Z) (polls : list bool) : list card_event :=
  match polls with
  | [] => []
  | true :: l => (if run + 1 =? 10 then [inserted_event] else []) ++ card_events (run + 1) l
  | false :: l => (if 10 <=? run then [removed_event] else []) ++ card_events 0 l
  end.

Fixpoint run_after (run : Z) (polls : list bool) : Z :=
  match polls with
  | [] => run
  | true :: l => run_after (run + 1) l
  | false :: l => run_after 0 l
  end.

(** Insertions and removals take turns, [e] being the next one due. *)
Fixpoint alternating (e : card_event) (l : list card_event) : Prop :=
  match l with
  | [] => True
  | x :: l' => x = e /\
      alternating (match e with inserted_event => removed_event | _ => inserted_event end) l'
  end.

Lemma card_events_alternate polls : forall run, 0 <= run ->
  alternating (if 10 <=? run then removed_event else inserted_event) (card_events run polls).
Proof.
  induction polls as [|[] polls IH]; intros run Hr; cbn [card_events]; [exact I| |].
  - specialize (IH (run + 1) ltac:(lia)).
    destruct (Z.eqb_spec (run + 1) 10), (Z.leb_spec 10 run), (Z.leb_spec 10 (run + 1));
      cbn [app alternating]; try lia; auto.
  - specialize (IH 0 ltac:(lia)).
    destruct (Z.leb_spec 10 run); cbn [app alternating]; auto.
Qed.

Definition watching (w : world) (run : Z) : Prop :=
  0 <= run /\ cnt (main_vars w) = Z.max 0 (10 - run).

Ltac look := cbn [calls set_calls set_main main_vars cnt set_cnt broadcasts app].

Lemma wp_tmrfunc ins run w : watching w run ->
  wp (tmrfunc ins)
     (fun _ w' => watching w' (if ins then run + 1 else 0) /\
        broadcasts (calls w') = broadcasts (calls w) ++ card_events run [ins]) w.
Proof.
  intros [Hr Hc]. unfold tmrfunc, extern, upd_main, POLLING_INTERVAL. wp_norm. rewrite Hc.
  destruct (Z.ltb_spec 0 (Z.max 0 (10 - run))) as [L|L]; destruct ins; cbn [card_events negb].
  - wp_norm. cbv zeta. unfold u32. rewrite uwrap_small
      by (unfold in_u; change (2 ^ 32) with 4294967296; lia).
    wp_norm. unfold watching. cbn [calls set_calls set_main].
    destruct (Z.eqb_spec (run + 1) 10), (Z.eqb_spec (Z.max 0 (10 - run) - 1) 0); cbn [when]; try lia;
      wp_norm; look; (split; [lia|]); rewrite ?app_nil_r; reflexivity.
  - wp_norm. unfold watching. destruct (Z.leb_spec 10 run); [lia|]. look. rewrite app_nil_r.
    split; [lia | reflexivity].
  - cbn [when]. wp_norm. unfold watching. destruct (Z.eqb_spec (run + 1) 10); [lia|]. look.
    rewrite app_nil_r. split; [lia | reflexivity].
  - cbn [when]. wp_norm. unfold watching. destruct (Z.leb_spec 10 run); [|lia]. look.
    split; [lia | reflexivity].
Qed.

(** C30: the card monitor.  For every sequence of answers of the card detect
    switch, after tmr_init, the events broadcast are exactly an insertion at
    each tenth consecutive poll that sees the card and a removal at each poll
    that misses a card reported inserted; so bouncing contacts raise no event,
    insertions and removals strictly take turns, starting with an insertion, and
    the counter never leaves 0 to 10. *)
Theorem card_monitor_spec polls w :
  exists w', (tmr_init ;; for_each polls tmrfunc) w = Ok (tt, w') /\
    broadcasts (calls w') = broadcasts (calls w) ++ card_events 0 polls /\
    alternating inserted_event (card_events 0 polls) /\
    cnt (main_vars w') = Z.max 0 (10 - run_after 0 polls) /\ 0 <= cnt (main_vars w') <= 10.
Proof.
  assert (forall l run v, watching v run ->
    wp (for_each l tmrfunc) (fun _ v' => watching v' (run_after run l) /\
      broadcasts (calls v') = broadcasts (calls v) ++ card_events run l) v) as Run.
  { induction l as [|ins l IH]; intros run v Wv; cbn [for_each].
    - wp_norm. cbn. rewrite app_nil_r. auto.
    - wp_norm. wp_use (wp_tmrfunc ins run v Wv). intros _ v1 [W1 B1].
      wp_use (IH _ v1 W1). intros _ v2 [W2 B2]. split; [now destruct ins|].
      rewrite B2, B1, <- app_assoc. destruct ins; cbn [card_events]; rewrite app_nil_r; reflexivity. }
  enough (wp (tmr_init ;; for_each polls tmrfunc) (fun _ w' =>
    watching w' (run_after 0 polls) /\
    broadcasts (calls w') = broadcasts (calls w) ++ card_events 0 polls) w) as W.
  { apply wp_ok in W as ([] & w' & R & [Wr Wc] & B). exists w'. split; [exact R|].
    split; [exact B|]. split; [apply (card_events_alternate polls 0); lia|].
    split; [exact Wc | lia]. }
  unfold tmr_init, upd_main, extern. wp_norm. set (v := set_calls _ _).
  apply (Run polls 0 v). split; [lia | reflexivity].
Qed.

(** ** Mounting and the shell *)

Section LoopFacts.
Context {FS : FileSystem} {CS : CardSlot}.

(** Whether the last attempt to connect the card succeeded (sdcConnect answers
    false) and it has not been disconnected since; and whether it was then mounted,
    with the answer FR_OK. *)
Fixpoint connected (h : list call) : bool :=
  match h with
  | [] => false
  | sdcConnect :: h' => negb (sdcConnect_result h')
  | sdcDisconnect :: _ => false
  | _ :: h' => connected h'
  end.

Fixpoint mounted (h : list call) : bool :=
  match h with
  | [] => false
  | f_mount _ :: h' => connected h' && (f_mount_result h' =? 0)
  | sdcConnect :: _ | sdcDisconnect :: _ => false
  | _ :: h' => mounted h'
  end.

Definition mount_inv (w : world) : Prop :=
  fs_ready (main_vars w) = true -> mounted (calls w) = true.

(** Steps that do not concern the card. *)
Definition card_same (w w' : world) : Prop :=
  fs_ready (main_vars w') = fs_ready (main_vars w) /\ mounted (calls w') = mounted (calls w) /\
  cnt (main_vars w') = cnt (main_vars w).

(** What a turn does before it waits: the shell is spawned or its memory
    recovered. *)
Definition shell_after (w : world) : bool :=
  if shelltp (main_vars w) then negb (thread_terminated (calls w)) else thread_created (calls w).

Lemma turn_head w :
  wp (if negb (shelltp (main_vars w)) then spawn_shell
      else t <- shell_terminated_X ;; if (t : bool) then release_shell else ret tt)
     (fun _ w' => card_same w w' /\ shelltp (main_vars w') = shell_after w) w.
Proof.
  unfold shell_after. destruct (shelltp (main_vars w)) eqn:E; cbn [negb].
  - unfold shell_terminated_X, extern. wp_norm. rewrite E. wp_norm.
    destruct (thread_terminated (calls w)); unfold release_shell, upd_main, extern; wp_norm.
    + repeat split.
    + repeat split. exact E.
  - unfold spawn_shell, upd_main, extern. wp_norm. repeat split.
Qed.

(** The handlers run without fault, the shell's unless it has a null pointer. *)
Lemma dispatch_runs ev w :
  match ev, shelltp (main_vars w) with
  | Some shell_terminated, false => dispatch ev w = Err WildCall
  | _, _ => exists w', dispatch ev w = Ok (tt, w')
  end.
Proof.
  destruct ev as [[]|]; cbn [dispatch].
  - unfold InsertHandler, do_mount, upd_main, bind, gets, extern, modify, ret.
    destruct (sdcConnect_result _); cbn [negb]; [eexists; reflexivity|].
    cbv beta iota. match goal with |- context [if ?b then _ else _] => destruct b end;
      eexists; reflexivity.
  - unfold RemoveHandler, upd_main, bind, extern, modify. eexists; reflexivity.
  - unfold ShellHandler, shell_terminated_X. unfold bind, gets.
    destruct (shelltp (main_vars w)); [|reflexivity]. unfold extern, modify, ret, release_shell.
    destruct (thread_terminated _); unfold bind, upd_main, extern, modify; eexists; reflexivity.
  - unfold ret. eexists; reflexivity.
Qed.

(** A turn is the handler, run after the shell has been looked after. *)
Lemma main_turn_head ev w : exists w1, main_turn ev w = dispatch ev w1 /\
  card_same w w1 /\ shelltp (main_vars w1) = shell_after w.
Proof.
  destruct (proj1 (wp_ok _ _ _) (turn_head w)) as ([] & w1 & R & Cs & Sh). exists w1.
  split; [|auto]. unfold main_turn. unfold bind at 1, gets at 1. unfold bind at 1. now rewrite R.
Qed.

(** C38: a turn of the main loop.  It faults exactly when the shell-terminated
    event is delivered while the shell pointer is NULL, which happens when the
    same turn has already released the ended shell (or could not create a new
    one): chThdTerminatedX is then called on a null pointer.  Every other turn
    completes. *)
Theorem main_turn_faults ev w :
  match ev, shell_after w with
  | Some shell_terminated, false => main_turn ev w = Err WildCall
  | _, _ => exists w', main_turn ev w = Ok (tt, w')
  end.
Proof.
  destruct (main_turn_head ev w) as (w1 & -> & _ & <-). apply dispatch_runs.
Qed.

(** Handling an insertion and a removal. *)
Lemma wp_InsertHandler w : fs_ready (main_vars w) = false ->
  wp InsertHandler (fun _ w' => mount_inv w') w.
Proof.
  intros F. unfold InsertHandler, do_mount, upd_main, extern. wp_norm.
  destruct (sdcConnect_result (calls w)) eqn:Ec; [wp_norm; unfold mount_inv; cbn [main_vars set_calls]; congruence|]. wp_norm.
  destruct (Z.eqb_spec (f_mount_result (calls (set_calls (sdcConnect :: calls w) w))) 0) as [Em|Em]; cbn [negb]; wp_norm; unfold mount_inv.
  - intros _. cbn [calls set_calls set_main mounted connected] in *. now rewrite Ec, Em.
  - cbn [main_vars set_calls]. congruence.
Qed.

Lemma wp_RemoveHandler w :
  wp RemoveHandler (fun _ w' => fs_ready (main_vars w') = false /\ mount_inv w') w.
Proof.
  unfold RemoveHandler, upd_main, extern. wp_norm. split; [reflexivity|]. discriminate.
Qed.

(** The file system follows the card.  When the handlers run for a sequence
    of events in which insertions and removals take turns, as the monitor
    broadcasts them, they never fault, the file system is marked ready only
    while the card is connected and mounted, and it is not ready whenever the last event was
    a removal. *)
Lemma mount_follows_card evs w :
  alternating inserted_event evs -> fs_ready (main_vars w) = false ->
  exists w', for_each evs (fun e => dispatch (Some e)) w = Ok (tt, w') /\ mount_inv w' /\
    (last evs removed_event = removed_event -> fs_ready (main_vars w') = false).
Proof.
  intros Al F.
  assert (forall l e v, alternating e l ->
    (e = inserted_event -> fs_ready (main_vars v) = false) -> mount_inv v ->
    e = inserted_event \/ e = removed_event ->
    wp (for_each l (fun e => dispatch (Some e)))
       (fun _ v' => mount_inv v' /\
          (last l (match e with inserted_event => removed_event | _ => inserted_event end)
             = removed_event -> fs_ready (main_vars v') = false)) v) as Run.
  { induction l as [|x l IH]; intros e v A Fe I D; cbn [for_each].
    - wp_norm. split; [exact I|]. destruct D as [-> | ->]; [auto | discriminate].
    - destruct A as [-> A]. wp_norm.
      assert (forall d, last (e :: l) d = last l e) as La
        by (intros d; clear; revert e d; induction l as [|y l IH]; intros e d;
            [reflexivity | exact (eq_trans (IH y d) (eq_sym (IH y e)))]).
      rewrite La. destruct D as [-> | ->]; cbn [dispatch].
      + wp_use (wp_InsertHandler v (Fe eq_refl)). intros _ v1 I1.
        wp_use (IH removed_event v1 A); [discriminate | exact I1 | now right |]. auto.
      + wp_use (wp_RemoveHandler v). intros _ v1 [F1 I1].
        wp_use (IH inserted_event v1 A); [auto | exact I1 | now left |]. auto. }
  assert (mount_inv w) as I by (unfold mount_inv; congruence).
  pose proof (Run evs inserted_event w Al (fun _ => F) I (or_introl eq_refl)) as W.
  apply wp_ok in W as ([] & w' & R & I' & L). eauto.
Qed.

End LoopFacts.

