(* ===== verification/DirScan.v ===== *)
(** * main.c: the command tree, which lists the files of the card

    scan_files walks the directories recursively in one path buffer that all the
    calls share: a call appends the name of a subdirectory and cuts the path back
    when the recursive call has returned. *)

From Stdlib Require Import ZArith Bool Arith String List Lia.
From S2P Require Import Prelude Machine OvTables Ov5640 MainLoop.
Import ListNotations.
Local Open Scope Z_scope.
Local Open Scope fw_scope.

(** An entry as f_readdir fills it in: the name and the AM_DIR attribute. *)
Record filinfo : Set := { fname : string; is_dir : bool }.

(** The directory functions of FatFs: the status of opening a path, what the
    [k]-th read of an opened directory delivers, and the free space (status,
    free clusters, sectors per cluster). *)
Class Directories := {
  f_opendir_result : string -> Z;
  f_readdir_result : string -> nat -> Z * filinfo;
  f_getfree_result : Z * Z * Z }.

(** sizeof(fbuff) *)
Definition fbuff_size := 1024.

Definition strlen (s : string) : Z := Z.of_nat (String.length s).

(** [*(path + i) = '/'; strcpy(path + i + 1, fn);] where [path] is [i] long. *)
Definition append_name (path fn : string) : result string :=
  if strlen path + 1 + strlen fn + 1 <=? fbuff_size
  then Ok (path ++ "/" ++ fn)%string else Err OutOfBounds.

Section Scan.
Context `{Directories}.

(** The while loop over the directory opened as [dir], from its [k]-th read on,
    with [path] in the buffer; the status and the buffer at the end.  The
    recursive call of scan_files is written out in it. *)
Fixpoint scan_loop (fuel : nat) (dir : string) (k : nat) (path : string) : M (Z * string) :=
  match fuel with
  | O => fail OutOfFuel
  | S f =>
      extern f_readdir ;;
      let (res, fno) := f_readdir_result dir k in
      if negb (res =? 0) || (fname fno =? "")%string then ret (res, path)
      else if is_dir fno then
        sub <- lift (append_name (substring 0 (String.length dir) path) (fname fno)) ;;
        extern (f_opendir sub) ;;
        '(res, path) <- (if f_opendir_result sub =? 0 then scan_loop f sub 0 sub
                         else ret (f_opendir_result sub, sub)) ;;
        let path := substring 0 (String.length dir) path in
        if negb (res =? 0) then ret (res, path) else scan_loop f dir (S k) path
      else
        extern (chprintf_path path (fname fno)) ;;
        scan_loop f dir (S k) path
  end.

Definition scan_files (fuel : nat) (path : string) : M (Z * string) :=
  extern (f_opendir path) ;;
  if f_opendir_result path =? 0 then scan_loop fuel path 0 path
  else ret (f_opendir_result path, path).

Definition cmd_tree (fuel : nat) (argc : Z) : M unit :=
  no_args argc "Usage: tree\r\n" (
    w <- gets (fun w => w) ;;
    if negb (fs_ready (main_vars w)) then say "File System not mounted\r\n" else
    extern (f_getfree "/") ;;
    let '(err, fre_clust, csize) := f_getfree_result in
    if negb (err =? 0) then say "FS: f_getfree() failed\r\n" else
    extern (chprintf "FS: %lu free clusters with %lu sectors (%lu bytes) per cluster\r\n"
              [fre_clust; csize; u32 (csize * 512)]) ;;
    scan_files fuel "" ;;
    ret tt).

End Scan.

(** ** Trees *)

#[local] Set Warnings "-register-all".

Inductive node : Set :=
| File (name : string)
| Dir (name : string) (entries : list node).

Definition node_name (n : node) : string :=
  match n with File s | Dir s _ => s end.

Definition filinfo_of (n : node) : filinfo :=
  {| fname := node_name n; is_dir := match n with File _ => false | Dir _ _ => true end |}.

Definition join (p s : string) : string := (p ++ "/" ++ s)%string.

(** The lines a listing should have: directory and name of every file, depth
    first. *)
Fixpoint listing (p : string) (n : node) : list (string * string) :=
  match n with
  | File s => [(p, s)]
  | Dir s l => flat_map (listing (join p s)) l
  end.

(** Every directory's path fits the buffer. *)
Fixpoint fits (p : string) (n : node) : bool :=
  match n with
  | File _ => true
  | Dir s l => (strlen p + 1 + strlen s + 1 <=? fbuff_size) && forallb (fits (join p s)) l
  end.

(** Turns of the loops. *)
Fixpoint turns (n : node) : nat :=
  match n with
  | File _ => 1
  | Dir _ l => S (S (list_sum (map turns l)))
  end.

(** The lines printed, oldest first. *)
Fixpoint printed (h : list call) : list (string * string) :=
  match h with
  | [] => []
  | chprintf_path p s :: h' => printed h' ++ [(p, s)]
  | _ :: h' => printed h'
  end.

(** The file system holds the entries [l] in the directory [p], and so on below. *)
Inductive holds `{Directories} : string -> list node -> Prop :=
| holds_intro p l :
    f_opendir_result p = 0 ->
    (forall k n, nth_error l k = Some n ->
       f_readdir_result p k = (0, filinfo_of n) /\ node_name n <> ""%string) ->
    (exists fno, f_readdir_result p (length l) = (0, fno) /\ fname fno = ""%string) ->
    (forall s l', In (Dir s l') l -> holds (join p s) l') ->
    holds p l.

Lemma substring_prefix p s : substring 0 (String.length p) (p ++ s) = p.
Proof.
  induction p as [|c p IH]; cbn; [now destruct s | now rewrite IH].
Qed.

Lemma substring_whole p : substring 0 (String.length p) p = p.
Proof.
  induction p as [|c p IH]; cbn; [reflexivity | now rewrite IH].
Qed.

Section Facts.
Context {DI : Directories}.

(** The outcome of a loop that has the entries [l] left to list. *)
Definition lists (fuel : nat) (dir : string) (k : nat) (l : list node) : Prop :=
  forall w,
    if forallb (fits dir) l
    then exists w', scan_loop fuel dir k dir w = Ok ((0, dir), w') /\
                    printed (calls w') = printed (calls w) ++ flat_map (listing dir) l
    else scan_loop fuel dir k dir w = Err OutOfBounds.

(** One turn on a file, on a directory, and the end. *)
Lemma lists_end f dir k fno :
  f_readdir_result dir k = (0, fno) -> fname fno = ""%string -> lists (S f) dir k [].
Proof.
  intros R E w. cbn [forallb scan_loop]. unfold bind, extern, modify. rewrite R, E. cbn.
  eexists. split; [reflexivity|]. cbn. now rewrite app_nil_r.
Qed.

Lemma lists_file f dir k s l :
  f_readdir_result dir k = (0, filinfo_of (File s)) -> s <> ""%string ->
  lists f dir (S k) l -> lists (S f) dir k (File s :: l).
Proof.
  intros R N L w. cbn [forallb fits andb scan_loop]. unfold bind at 1, extern at 1, modify at 1.
  rewrite R. cbn [filinfo_of fname node_name is_dir]. apply String.eqb_neq in N. rewrite N.
  cbn [Z.eqb negb orb]. unfold bind, extern, modify.
  specialize (L (set_calls (chprintf_path dir s :: calls (set_calls (f_readdir :: calls w) w))
                   (set_calls (f_readdir :: calls w) w))).
  destruct (forallb (fits dir) l); [|exact L].
  destruct L as (w' & Run & P). exists w'. split; [exact Run|]. rewrite P.
  cbn [calls set_calls printed flat_map listing]. now rewrite <- app_assoc.
Qed.

Lemma lists_dir f dir k s sub l :
  f_readdir_result dir k = (0, filinfo_of (Dir s sub)) -> s <> ""%string ->
  f_opendir_result (join dir s) = 0 ->
  lists f (join dir s) 0 sub -> lists f dir (S k) l -> lists (S f) dir k (Dir s sub :: l).
Proof.
  intros R N O Ls L w. cbn [forallb fits scan_loop]. unfold bind at 1, extern at 1, modify at 1.
  rewrite R. cbn [filinfo_of fname node_name is_dir]. apply String.eqb_neq in N. rewrite N.
  cbn [Z.eqb negb orb]. rewrite substring_whole. unfold append_name. fold (join dir s).
  destruct (strlen dir + 1 + strlen s + 1 <=? fbuff_size); [|reflexivity].
  cbn [andb]. unfold bind, lift, extern, modify. rewrite O. cbn [Z.eqb].
  match goal with |- context [scan_loop f (join dir s) 0 (join dir s) ?v] => specialize (Ls v) end.
  destruct (forallb (fits (join dir s)) sub); cbn [andb]; [|rewrite Ls; reflexivity].
  destruct Ls as (w1 & Run1 & P1). rewrite Run1. cbn [negb Z.eqb andb].
  unfold join. rewrite substring_prefix. specialize (L w1).
  destruct (forallb (fits dir) l); [|exact L].
  destruct L as (w' & Run & P). exists w'. split; [exact Run|]. rewrite P, P1.
  cbn [calls set_calls printed flat_map listing]. now rewrite <- app_assoc.
Qed.

(** The whole walk, by induction on the tree. *)
Lemma holds_lists p l : holds p l -> forall fuel, (list_sum (map turns l) < fuel)%nat ->
  lists fuel p 0 l.
Proof.
  induction 1 as [p l Op Rd En Below IH].
  assert (forall r k f, (forall j n, nth_error r j = Some n -> nth_error l (k + j) = Some n) ->
            (k + length r = length l)%nat -> (list_sum (map turns r) < f)%nat -> lists f p k r) as Go.
  { induction r as [|n r IHr]; intros k f Sub Len Fu; (destruct f as [|f]; [lia|]).
    - destruct En as (fno & E1 & E2). apply (lists_end f p k fno); [|exact E2].
      replace k with (length l) by (cbn in Len; lia). exact E1.
    - assert (nth_error l k = Some n) as Hk by (rewrite <- (Nat.add_0_r k); now apply Sub).
      destruct (Rd _ _ Hk) as [R N].
      change (list_sum (map turns (n :: r))) with (turns n + list_sum (map turns r))%nat in Fu.
      assert (lists f p (S k) r) as L.
      { apply IHr; [|cbn in Len; lia | destruct n; cbn [turns] in Fu; lia].
        intros j m Hj. rewrite Nat.add_succ_comm. now apply Sub. }
      destruct n as [s|s sub]; [now apply lists_file|].
      assert (In (Dir s sub) l) as I by now apply nth_error_In in Hk.
      cbn [turns] in Fu. apply lists_dir; [exact R | exact N | | | exact L].
      + now destruct (Below s sub I).
      + apply (IH s sub I). lia. }
  intros fuel Fu. apply (Go l 0%nat fuel); auto.
Qed.

(** C37: scan_files.  For a card that holds a tree of directories, the walk ends
    (the fuel is the number of loop turns).  If every directory's path fits the
    buffer of 1024 bytes, exactly the tree's files are listed, each once with its
    directory, depth first in the order of the card, the status is FR_OK and the
    path buffer is left as it was.  If a path does not fit, strcpy writes past the
    end of the buffer. *)
Theorem scan_files_spec p l fuel w :
  holds p l -> (list_sum (map turns l) < fuel)%nat ->
  if forallb (fits p) l
  then exists w', scan_files fuel p w = Ok ((0, p), w') /\
                  printed (calls w') = printed (calls w) ++ flat_map (listing p) l
  else scan_files fuel p w = Err OutOfBounds.
Proof.
  intros Ho Fu. pose proof (holds_lists p l Ho fuel Fu) as L. destruct Ho as [p l Op _ _ _].
  unfold scan_files, bind, extern, modify. rewrite Op. cbn [Z.eqb].
  exact (L (set_calls (f_opendir p :: calls w) w)).
Qed.

End Facts.

(** A card with a directory of one image and a file. *)
Definition example_tree : list node := [Dir "dcim" [File "image000001.jpg"]; File "image1.ppm"].

Definition example_directories : Directories :=
  let entries (l : list node) (k : nat) :=
    (0, match nth_error l k with Some n => filinfo_of n | None => {| fname := ""; is_dir := false |} end) in
  {| f_opendir_result _ := 0;
     f_readdir_result p := if (p =? "")%string then entries example_tree
                           else entries [File "image000001.jpg"];
     f_getfree_result := (0, 1000, 64) |}.

Lemma example_holds : @holds example_directories "" example_tree.
Proof.
  assert (@holds example_directories "/dcim" [File "image000001.jpg"]) as D.
  { split; [reflexivity | | now eexists; split |].
    - intros [|[|k]] n [=]; subst n. split; [reflexivity | discriminate].
    - intros s l [[=]|[]]. }
  split; [reflexivity | | now eexists; split |].
  - intros [|[|[|k]]] n [=]; subst n; (split; [reflexivity | discriminate]).
  - intros s l [[= <- <-]|[[=]|[]]]. exact D.
Qed.

Lemma scan_files_spec_witness :
  exists w', @scan_files example_directories 6 "" reset_world = Ok ((0, ""%string), w') /\
    printed (calls w') = [("/dcim", "image000001.jpg"); ("", "image1.ppm")]%string.
Proof.
  exact (@scan_files_spec example_directories "" example_tree 6 reset_world example_holds
           ltac:(cbn; lia)).
Defined.
