(* ===== verification/MemBench.v ===== *)
(** * memcpy_dma.c and membench.c: copying memory by DMA and measuring it

    These two files, and the SDRAM functions of main.c, work on raw memory: the
    state is a byte for every address, together with the history of the calls
    to the DMA and time measurement drivers. *)

From Stdlib Require Import ZArith Bool List Lia.
From S2P Require Import Prelude.
Import ListNotations.
Local Open Scope Z_scope.
Local Open Scope fw_scope.

Definition memory : Type := Z -> Z.

Inductive bench_call : Set :=
| dmaStreamAllocate_mem
| dmaStreamRelease_mem
| dmaStartMemCopy (src dest n : Z)
| chTMStartMeasurementX
| chTMStopMeasurementX.

Record bench : Type := { mem : memory; log : list bench_call }.

Definition set_mem (m : memory) (s : bench) : bench := {| mem := m; log := log s |}.

Definition B : Type -> Type := ST bench.

Definition log_call (c : bench_call) : B unit :=
  modify (fun s => {| mem := mem s; log := c :: log s |}).

(** Is the stream allocated, from the history. *)
Fixpoint allocated (h : list bench_call) : bool :=
  match h with
  | [] => false
  | dmaStreamAllocate_mem :: _ => true
  | dmaStreamRelease_mem :: _ => false
  | _ :: h' => allocated h'
  end.

(** The DMA controller, the cycle counter and the system clock. *)
Class MemDma := {
  allocation_fails : list bench_call -> bool;
  dma_transfer : memory -> Z -> Z -> Z -> memory;
  tm_last : list bench_call -> Z;
  STM32_SYSCLK : Z }.

Definition disjoint (a b n : Z) : Prop := a + n <= b \/ b + n <= a.

(** A stream that is free can be allocated.  A transfer of at most 65535 words
    between separate areas copies them and changes nothing else.  A measurement
    that has been stopped lasted at least a cycle. *)
Class MemDmaLaws `{MemDma} : Prop := {
  allocate_free : forall h, allocated h = false -> allocation_fails h = false;
  transfer_copies : forall m src dest n, 0 <= n <= 0xFFFF -> disjoint src dest (4 * n) ->
    forall a, dma_transfer m src dest n a =
              if (dest <=? a) && (a <? dest + 4 * n) then m (src + (a - dest)) else m a;
  tm_last_range : forall h, 0 < tm_last (chTMStopMeasurementX :: h) < 2 ^ 32;
  sysclk_range : 0 < STM32_SYSCLK < 2 ^ 32 }.

(** ** The C library *)

Definition memset (dest c n : Z) : B unit :=
  modify (fun s => set_mem
    (fun a => if (dest <=? a) && (a <? dest + n) then u8 c else mem s a) s).

Definition memcpy (dest src n : Z) : B unit :=
  modify (fun s => set_mem
    (fun a => if (dest <=? a) && (a <? dest + n) then mem s (src + (a - dest)) else mem s a) s).

(** ** memcpy_dma.c *)

Section Engine.
Context `{MemDma}.

Definition memcpy_dma_start : B unit :=
  s <- gets (fun s => s) ;;
  log_call dmaStreamAllocate_mem ;;
  if allocation_fails (log s) then fail Halted else ret tt.

Definition memcpy_dma_stop : B unit := log_call dmaStreamRelease_mem.

(** dmaStartMemCopy and dmaWaitCompletion. *)
Definition copy_words (dest src n : Z) : B unit :=
  log_call (dmaStartMemCopy src dest n) ;;
  modify (fun s => set_mem (dma_transfer (mem s) src dest n) s).

(** [while (words > max_block)]. *)
Definition copy_blocks (dest src : Z) (words : Z) : B (Z + Z) :=
  if 0xFFFF <? words then
    copy_words dest src 0xFFFF ;;
    ret (inl (words - 0xFFFF))
  else ret (inr words).

Definition memcpy_dma (dest src size : Z) : B unit :=
  let words := size / 4 in
  let remainder := size mod 4 in
  words <- iter (S (Z.to_nat (words / 0xFFFF))) (copy_blocks dest src) words ;;
  copy_words dest src words ;;
  when (0 <? remainder)
    (memcpy (dest + size - remainder) (src + size - remainder) remainder).

(** ** membench.c *)

Record membench_t : Set := { start : Z; size : Z }.

Record membench_result_t : Set := {
  r_memset : Z; r_memcpy : Z; r_memcpy_dma : Z; r_memcmp : Z }.

(** [tmp / tmu->last] in 64 bits, returned as uint32_t. *)
Definition speed_bps (last len : Z) : result Z :=
  let tmp := u64 (len * STM32_SYSCLK) in
  if last =? 0 then Err DivByZero else Ok (u32 (tmp / last)).

(** A measured operation on [len] bytes and its speed. *)
Definition measured (op : B unit) (len : Z) : B Z :=
  log_call chTMStartMeasurementX ;;
  op ;;
  log_call chTMStopMeasurementX ;;
  s <- gets (fun s => s) ;;
  lift (speed_bps (tm_last (log s)) len).

(** memcmp only reads; its result is not used. *)
Definition membench_run (dest src : membench_t) : B membench_result_t :=
  let len := if size src <? size dest then size src else size dest in
  a <- measured (memset (start dest) 0x55 (size dest)) (size dest) ;;
  b <- measured (memcpy (start dest) (start src) len) len ;;
  c <- measured (ret tt) len ;;
  memcpy_dma_start ;;
  d <- measured (memcpy_dma (start dest) (start src) len) len ;;
  memcpy_dma_stop ;;
  ret {| r_memset := a; r_memcpy := b; r_memcpy_dma := d; r_memcmp := c |}.

End Engine.

(** ** main.c: the SDRAM *)

Definition SDRAM_BANK_ADDR := 0xD0000000.

Definition IS42S16400J_SIZE := 8 * 1024 * 1024.

(** [while (p < end) *p++ = 0;], from [p] on. *)
Definition erase_step (p : Z) : B (Z + unit) :=
  if p <? SDRAM_BANK_ADDR + IS42S16400J_SIZE then
    modify (fun s => set_mem (fun a => if a =? p then 0 else mem s a) s) ;;
    ret (inl (p + 1))
  else ret (inr tt).

Definition sdram_bulk_erase : B unit :=
  iter (S (Z.to_nat IS42S16400J_SIZE)) erase_step SDRAM_BANK_ADDR.

(** ** Copies *)

(** [m'] is [m] with the [n] bytes at [src] copied to [dest]. *)
Definition copied (dest src n : Z) (m m' : memory) : Prop :=
  forall a, m' a = if (dest <=? a) && (a <? dest + n) then m (src + (a - dest)) else m a.

(** Membership in a range of addresses, as a proposition. *)
Ltac range_cases :=
  repeat match goal with
         | |- context [?x <=? ?y] => destruct (Z.leb_spec x y)
         | |- context [?x <? ?y] => destruct (Z.ltb_spec x y)
         end; cbn [andb orb].

(** Copying again to the same place changes nothing but the length. *)
Lemma copied_again dest src n k m m1 m2 :
  0 <= n -> 0 <= k -> disjoint src dest (Z.max n k) ->
  copied dest src n m m1 -> copied dest src k m1 m2 ->
  copied dest src (Z.max n k) m m2.
Proof.
  intros Hn Hk D C1 C2 a. unfold disjoint in D. rewrite C2. rewrite !C1.
  range_cases; try lia; try reflexivity; f_equal; lia.
Qed.

Section Facts.
Context `{MemDmaLaws}.

(** A transfer. *)
Lemma wp_copy_words dest src n s : 0 <= n <= 0xFFFF -> disjoint src dest (4 * n) ->
  wp (copy_words dest src n) (fun _ s' => copied dest src (4 * n) (mem s) (mem s') /\
                                          allocated (log s') = allocated (log s)) s.
Proof.
  intros Hn D. unfold copy_words, log_call. wp_norm. cbn [mem log set_mem allocated].
  split; [|reflexivity]. intros a. now apply transfer_copies.
Qed.

(** The loop over blocks: all of them go to the same place, so what is copied is
    the first block, if there is one. *)
Lemma wp_copy_blocks dest src w s : 0 <= w -> disjoint src dest (4 * w) ->
  wp (iter (S (Z.to_nat (w / 0xFFFF))) (copy_blocks dest src) w)
     (fun w' s' => 0 <= w' <= 0xFFFF /\ w' <= w /\ (w' < w <-> 0xFFFF < w) /\
        copied dest src (if 0xFFFF <? w then 4 * 0xFFFF else 0) (mem s) (mem s') /\
        allocated (log s') = allocated (log s)) s.
Proof.
  intros Hw D.
  eapply (wp_iter _ (fun w' s' => 0 <= w' <= w /\ (w' < w -> 0xFFFF < w) /\
            copied dest src (if w' <? w then 4 * 0xFFFF else 0) (mem s) (mem s') /\
            allocated (log s') = allocated (log s))
            (fun w' _ => Z.to_nat (w' / 0xFFFF))).
  - intros x t (Hx & Big & C & A). unfold copy_blocks.
    destruct (Z.ltb_spec 0xFFFF x).
    + wp_norm. wp_use (wp_copy_words dest src 0xFFFF);
        [lia | unfold disjoint in *; lia |].
      intros _ t' [C' A']. wp_norm. split; [|dlia].
      split; [lia|]. split; [lia|]. split; [|congruence].
      destruct (Z.ltb_spec (x - 0xFFFF) w); [|lia].
      pose proof (copied_again dest src (if x <? w then 4 * 0xFFFF else 0) (4 * 0xFFFF) _ _ _ ltac:(destruct (x <? w); lia)
                    ltac:(lia) ltac:(unfold disjoint in *; destruct (x <? w); lia) C C') as C2.
      replace (Z.max _ _) with (4 * 0xFFFF) in C2 by (destruct (x <? w); lia). exact C2.
    + wp_norm. split; [lia|]. split; [lia|].
      assert (x < w <-> 0xFFFF < w) as E by lia. split; [exact E|]. split; [|exact A].
      destruct (Z.ltb_spec x w), (Z.ltb_spec 0xFFFF w); try lia; exact C.
  - split; [lia|]. split; [lia|]. split; [|reflexivity].
    rewrite Z.ltb_irrefl. intros a. range_cases; try lia; reflexivity.
  - lia.
Qed.

(** What memcpy_dma copies. *)
Definition dma_copies (size i : Z) : bool :=
  (0 <=? i) && ((i <? Z.min (4 * (size / 4)) (4 * 0xFFFF)) || (size - size mod 4 <=? i)) && (i <? size).

Lemma wp_memcpy_dma dest src size s : 0 <= size -> disjoint src dest size ->
  wp (memcpy_dma dest src size) (fun _ s' =>
    (forall a, mem s' a = if dma_copies size (a - dest) then mem s (src + (a - dest)) else mem s a) /\
    allocated (log s') = allocated (log s)) s.
Proof.
  intros Hs D. unfold memcpy_dma. wp_norm.
  pose proof (Z.div_mod size 4 ltac:(lia)) as E. pose proof (Z.mod_pos_bound size 4 ltac:(lia)) as R.
  set (w := size / 4) in *. set (r := size mod 4) in *.
  wp_use (wp_copy_blocks dest src w s); [lia | unfold disjoint in *; lia |].
  intros w' s1 (Hw' & Hle & Big & C1 & A1). wp_norm.
  wp_use (wp_copy_words dest src w'); [lia | unfold disjoint in *; lia |].
  intros _ s2 [C2 A2].
  assert (copied dest src (Z.min (4 * w) (4 * 0xFFFF)) (mem s) (mem s2)) as C.
  { pose proof (copied_again dest src (if 0xFFFF <? w then 4 * 0xFFFF else 0) (4 * w') _ _ _ ltac:(destruct (0xFFFF <? w); lia)
      ltac:(lia) ltac:(unfold disjoint in *; destruct (Z.ltb_spec 0xFFFF w); lia) C1 C2) as C.
    replace (Z.max _ _) with (Z.min (4 * w) (4 * 0xFFFF)) in C
      by (destruct (Z.ltb_spec 0xFFFF w); lia). exact C. }
  unfold disjoint in D.
  apply wp_when; intros Hr; unfold memcpy; wp_norm; cbn [mem log set_mem].
  - split; [|congruence]. apply Z.ltb_lt in Hr. intros a. rewrite !C. unfold dma_copies.
    range_cases; try lia; try reflexivity; f_equal; lia.
  - split; [|congruence]. apply Z.ltb_ge in Hr. intros a. rewrite C. unfold dma_copies.
    range_cases; try lia; try reflexivity; f_equal; lia.
Qed.

(** C39: memcpy_dma.  Between separate areas it always terminates.  Up to 262143
    bytes it is memcpy: exactly the [size] bytes are copied.  Beyond that, since
    neither pointer is advanced between the blocks, only the first 262140 bytes
    and the one to three bytes after the last word arrive; everything between
    keeps its old value. *)
Theorem memcpy_dma_spec dest src size s :
  0 <= size -> disjoint src dest size ->
  exists s', memcpy_dma dest src size s = Ok (tt, s') /\
    (forall a, mem s' a = if dma_copies size (a - dest) then mem s (src + (a - dest)) else mem s a) /\
    (size < 262144 -> copied dest src size (mem s) (mem s')).
Proof.
  intros Hs D. pose proof (wp_memcpy_dma dest src size s Hs D) as W.
  apply wp_ok in W as ([] & s' & R & M & _). exists s'. split; [exact R|]. split; [exact M|].
  intros L a. rewrite M. unfold dma_copies.
  pose proof (Z.div_mod size 4 ltac:(lia)). pose proof (Z.mod_pos_bound size 4 ltac:(lia)).
  range_cases; try lia; reflexivity.
Qed.

Lemma speed_bps_ok h len : exists v,
  speed_bps (tm_last (chTMStopMeasurementX :: h)) len = Ok v /\ in_u 32 v.
Proof.
  pose proof (tm_last_range h). unfold speed_bps.
  destruct (Z.eqb_spec (tm_last (chTMStopMeasurementX :: h)) 0); [lia|].
  eexists. split; [reflexivity|]. apply uwrap_range. lia.
Qed.

(** A measurement adds nothing to the effect of the operation. *)
Lemma wp_measured op len (Q : memory -> bool -> Prop) s :
  wp op (fun _ s' => Q (mem s') (allocated (log s')))
     {| mem := mem s; log := chTMStartMeasurementX :: log s |} ->
  wp (measured op len) (fun v s' => in_u 32 v /\ Q (mem s') (allocated (log s'))) s.
Proof.
  intros W. unfold measured, log_call. wp_norm. wp_use W. intros _ s' HQ. wp_norm.
  destruct (speed_bps_ok (log s') len) as (v & E & V).
  eapply wp_lift; [exact E|]. split; [exact V | exact HQ].
Qed.

(** The memory a run leaves. *)
Definition benched (dest src : membench_t) (m : memory) (a : Z) : Z :=
  let len := Z.min (size src) (size dest) in
  if (start dest <=? a) && (a <? start dest + len) then m (start src + (a - start dest))
  else if (start dest <=? a) && (a <? start dest + size dest) then 0x55 else m a.

Definition speeds_fit (r : membench_result_t) : Prop :=
  in_u 32 (r_memset r) /\ in_u 32 (r_memcpy r) /\ in_u 32 (r_memcpy_dma r) /\ in_u 32 (r_memcmp r).

(** A run of membench_run: for separate areas, a length that one DMA transfer can
    copy and a free stream, a run ends without a fault (the stream is allocated,
    no measurement divides by zero) with the destination holding the source's
    bytes followed by 0x55, everything else in memory untouched, the stream
    released and four 32-bit speeds. *)
Lemma wp_membench_run dest src s :
  let len := Z.min (size src) (size dest) in
  0 <= len < 262144 ->
  start src + len <= start dest \/ start dest + size dest <= start src ->
  allocated (log s) = false ->
  wp (membench_run dest src) (fun r s' => (forall a, mem s' a = benched dest src (mem s) a) /\
    allocated (log s') = false /\ speeds_fit r) s.
Proof.
  cbv zeta. intros Hl D Al. unfold membench_run. cbv zeta.
  replace (if size src <? size dest then size src else size dest)
    with (Z.min (size src) (size dest)) by (destruct (Z.ltb_spec (size src) (size dest)); lia).
  set (len := Z.min (size src) (size dest)) in *.
  assert (disjoint (start src) (start dest) len) as D' by (unfold disjoint; lia).
  pose (after := fun a => if (start dest <=? a) && (a <? start dest + len)
       then mem s (start src + (a - start dest))
       else if (start dest <=? a) && (a <? start dest + size dest) then 0x55 else mem s a).
  wp_norm. wp_use (wp_measured _ _ (fun m b => b = false /\
    forall a, m a = if (start dest <=? a) && (a <? start dest + size dest) then 0x55 else mem s a)).
  { unfold memset. wp_norm. split; [exact Al|]. reflexivity. }
  intros v1 s1 (V1 & A1 & M1). wp_norm.
  wp_use (wp_measured _ _ (fun m b => b = false /\ forall a, m a = after a)).
  { unfold memcpy. wp_norm. split; [exact A1|]. intros a. cbn [mem set_mem]. rewrite !M1.
    unfold after. range_cases; try lia; reflexivity. }
  intros v2 s2 (V2 & A2 & M2). wp_norm.
  wp_use (wp_measured _ _ (fun m b => b = false /\ forall a, m a = after a)).
  { wp_norm. now split. }
  intros v3 s3 (V3 & A3 & M3). wp_norm. unfold memcpy_dma_start, log_call. wp_norm.
  rewrite (allocate_free _ A3). wp_norm.
  wp_use (wp_measured _ _ (fun m b => forall a, m a = after a)).
  { wp_use (wp_memcpy_dma (start dest) (start src) len); [lia | exact D' |].
    intros _ s4 [M4 _] a. rewrite M4. cbn [mem]. rewrite !M3. unfold dma_copies, after.
    pose proof (Z.div_mod len 4 ltac:(lia)). pose proof (Z.mod_pos_bound len 4 ltac:(lia)).
    range_cases; try lia; reflexivity. }
  intros v4 s4 [V4 M4]. unfold memcpy_dma_stop, log_call. wp_norm.
  cbn [mem log allocated r_memset r_memcpy r_memcpy_dma r_memcmp]. unfold speeds_fit. auto 8.
Qed.

End Facts.

(** sdram_bulk_erase clears the bank and nothing else. *)
Lemma sdram_erased s : exists s', sdram_bulk_erase s = Ok (tt, s') /\
  forall a, mem s' a = if (SDRAM_BANK_ADDR <=? a) && (a <? SDRAM_BANK_ADDR + IS42S16400J_SIZE)
                       then 0 else mem s a.
Proof.
  enough (wp sdram_bulk_erase (fun _ s' => forall a, mem s' a =
            if (SDRAM_BANK_ADDR <=? a) && (a <? SDRAM_BANK_ADDR + IS42S16400J_SIZE)
            then 0 else mem s a) s) as W
    by (destruct (proj1 (wp_ok _ _ _) W) as ([] & s' & R & M); exists s'; exact (conj R M)).
  unfold sdram_bulk_erase.
  apply (wp_iter _ (fun p s' => SDRAM_BANK_ADDR <= p <= SDRAM_BANK_ADDR + IS42S16400J_SIZE /\
            forall a, mem s' a = if (SDRAM_BANK_ADDR <=? a) && (a <? p) then 0 else mem s a)
            (fun p _ => Z.to_nat (SDRAM_BANK_ADDR + IS42S16400J_SIZE - p))).
  - intros p t [Hp M]. unfold erase_step.
    destruct (Z.ltb_spec p (SDRAM_BANK_ADDR + IS42S16400J_SIZE)); wp_norm.
    + split; [|lia]. split; [lia|]. intros a. cbn [mem set_mem]. rewrite M.
      destruct (Z.eqb_spec a p); range_cases; try lia; reflexivity.
    + replace (SDRAM_BANK_ADDR + IS42S16400J_SIZE) with p by lia. exact M.
  - assert (0 <= IS42S16400J_SIZE) by (unfold IS42S16400J_SIZE; lia). split; [lia|].
    intros a. range_cases; try lia; reflexivity.
  - lia.
Qed.

(** A controller that copies. *)
Definition copying_dma : MemDma := {|
  allocation_fails h := allocated h;
  dma_transfer m src dest n a :=
    if (dest <=? a) && (a <? dest + 4 * n) then m (src + (a - dest)) else m a;
  tm_last _ := 168;
  STM32_SYSCLK := 168000000 |}.

#[export] Instance copying_dma_laws : @MemDmaLaws copying_dma.
Proof. split; cbn; try lia; auto. Qed.

Definition counting_memory : bench := {| mem a := a mod 256; log := [] |}.

Lemma memcpy_dma_spec_witness :
  exists s', @memcpy_dma copying_dma 0x20000000 0xD0000000 1027 counting_memory = Ok (tt, s') /\
    copied 0x20000000 0xD0000000 1027 (mem counting_memory) (mem s').
Proof.
  destruct (@memcpy_dma_spec copying_dma copying_dma_laws 0x20000000 0xD0000000 1027 counting_memory
              ltac:(lia) ltac:(unfold disjoint; lia)) as (s' & R & _ & C).
  exists s'. split; [exact R | apply C; lia].
Defined.

(** A copy of 300000 bytes misses the byte at 270000. *)
Example dma_gap : dma_copies 300000 262139 = true /\ dma_copies 300000 270000 = false.
Proof. split; reflexivity. Qed.
