(* ===== verification/MainRun.v ===== *)
(** * main.c: starting up, and the main thread beside the card monitor

    main brings the drivers up, erases the SDRAM and then serves events for
    ever, while the timer interrupt of the card monitor raises them.  The two
    run interleaved: the state is the firmware's and the set of pending events,
    the steps are one expiry of the timer, one turn of the main loop, and the
    end of the shell.  A timer that expires during a turn is a step after it. *)

From Stdlib Require Import ZArith Bool String List Lia.
From S2P Require Import Prelude Machine Pi2c Sensors Padc Bme280 DcmiDma OvTables Ov5640 Collector.
From S2P Require Import ImageFile MainLoop MemBench.
Import ListNotations.
Local Open Scope Z_scope.
Local Open Scope fw_scope.

(** ** Start-up *)

Section Boot.
Context `{Linker}.

(** An operation on raw memory, [ram_buffer] being the memory seen from the
    address of the image buffer. *)
Definition on_memory {A} (op : B A) : M A := fun w =>
  match op {| mem := fun a => ram_buffer w (a - ram_address); log := [] |} with
  | Ok (x, s) => Ok (x, set_ram_buffer (fun i => mem s (i + ram_address)) w)
  | Err f => Err f
  end.

(** The console is SD1; the three others are all started on SD3, as written. *)
Definition main_init : M unit :=
  extern halInit ;;
  extern chSysInit ;;
  extern (sdStart 1 38400 false) ;;
  say "Hello Earth\r\n" ;;
  extern (sdStart 3 9600 false) ;;
  extern (sdStart 3 115200 false) ;;
  extern (sdStart 3 115200 true) ;;
  extern fsmcSdramInit ;;
  extern fsmcSdramStart ;;
  on_memory sdram_bulk_erase ;;
  extern sdcStart ;;
  tmr_init ;;
  extern (chEvtRegister inserted_event 0) ;;
  extern (chEvtRegister removed_event 1) ;;
  extern (chEvtRegister shell_terminated 2) ;;
  extern shellInit.

End Boot.

(** ** Pending events *)

Record flags : Set := { p_inserted : bool; p_removed : bool; p_shell : bool }.

Definition raise (e : card_event) (p : flags) : flags :=
  match e with
  | inserted_event => {| p_inserted := true; p_removed := p_removed p; p_shell := p_shell p |}
  | removed_event => {| p_inserted := p_inserted p; p_removed := true; p_shell := p_shell p |}
  | shell_terminated => {| p_inserted := p_inserted p; p_removed := p_removed p; p_shell := true |}
  end.

Definition raise_all (es : list card_event) (p : flags) : flags := fold_left (fun p e => raise e p) es p.

(** [chEvtWaitOneTimeout(ALL_EVENTS, ...)]: the event taken, if any before the
    timeout, and the events still pending. *)
Class EventQueue := { wait_one : flags -> option card_event * flags }.

(** The pending event with the lowest identifier, in the order they are
    registered with. *)
Definition lowest (p : flags) : option card_event * flags :=
  if p_inserted p then
    (Some inserted_event, {| p_inserted := false; p_removed := p_removed p; p_shell := p_shell p |})
  else if p_removed p then
    (Some removed_event, {| p_inserted := false; p_removed := false; p_shell := p_shell p |})
  else if p_shell p then
    (Some shell_terminated, {| p_inserted := false; p_removed := false; p_shell := false |})
  else (None, p).

Class EventQueueLaws `{EventQueue} : Prop := { wait_lowest p : wait_one p = lowest p }.

Record system : Type := { sys : world; pending : flags }.

Section System.
Context `{FileSystem} `{CardSlot} `{EventQueue}.

(** The timer expires; what it broadcasts becomes pending. *)
Definition tick (inserted : bool) (st : system) : result system :=
  r <=! tmrfunc inserted (sys st) ;;
  let w' := snd (r : unit * world) in
  Ok {| sys := w';
        pending := raise_all (skipn (length (broadcasts (calls (sys st)))) (broadcasts (calls w')))
                             (pending st) |}.

(** One turn of [while (true)]. *)
Definition turn (st : system) : result system :=
  let (ev, p) := wait_one (pending st) in
  r <=! main_turn ev (sys st) ;;
  Ok {| sys := snd (r : unit * world); pending := p |}.

Definition shell_ends (st : system) : system :=
  {| sys := sys st; pending := raise shell_terminated (pending st) |}.

Inductive step : system -> system -> Prop :=
| step_tick ins st st' : tick ins st = Ok st' -> step st st'
| step_turn st st' : turn st = Ok st' -> step st st'
| step_shell st : step st (shell_ends st).

(** As the loop starts. *)
Definition at_start (st : system) : Prop :=
  cnt (main_vars (sys st)) = 10 /\ fs_ready (main_vars (sys st)) = false /\
  pending st = {| p_inserted := false; p_removed := false; p_shell := false |}.

Inductive reachable : system -> Prop :=
| reach_start st : at_start st -> reachable st
| reach_step st st' : reachable st -> step st st' -> reachable st'.

(** Runs in which the main thread serves every card event before the timer
    expires again. *)
Inductive prompt : system -> Prop :=
| prompt_start st : at_start st -> prompt st
| prompt_tick ins st st' : prompt st ->
    p_inserted (pending st) = false -> p_removed (pending st) = false ->
    tick ins st = Ok st' -> prompt st'
| prompt_turn st st' : prompt st -> turn st = Ok st' -> prompt st'
| prompt_shell st : prompt st -> prompt (shell_ends st).

End System.

(** ** Start-up establishes the initial state *)

(** The listener of an event source, from the history. *)
Definition card_event_eqb (a b : card_event) : bool :=
  match a, b with
  | inserted_event, inserted_event | removed_event, removed_event
  | shell_terminated, shell_terminated => true
  | _, _ => false
  end.

Fixpoint listener (ev : card_event) (h : list call) : option Z :=
  match h with
  | [] => None
  | chEvtRegister e id :: h' => if card_event_eqb e ev then Some id else listener ev h'
  | chEvtObjectInit e :: h' => if card_event_eqb e ev then None else listener ev h'
  | _ :: h' => listener ev h'
  end.

#[local] Opaque sdram_bulk_erase.

Lemma sdram_erased_ram `{Linker} w : exists m,
  on_memory sdram_bulk_erase w = Ok (tt, set_ram_buffer m w) /\
  forall i, SDRAM_BANK_ADDR <= i + ram_address < SDRAM_BANK_ADDR + IS42S16400J_SIZE -> m i = 0.
Proof.
  destruct (sdram_erased {| mem := fun a => ram_buffer w (a - ram_address); log := [] |})
    as (s & R & M).
  exists (fun i => mem s (i + ram_address)). split; [unfold on_memory; now rewrite R|].
  intros i Hi. rewrite M. range_cases; try lia; reflexivity.
Qed.

(** Start-up.  Before its loop, main runs without fault: every byte of the
    image buffer, which lies in the SDRAM bank, has been erased; the card
    monitor counts from 10; both card event sources were initialised before the
    main thread began to listen to them; and with the file system not ready the
    loop starts in its initial state. *)
Theorem main_init_spec `{Linker} w :
  SDRAM_BANK_ADDR <= ram_address ->
  ram_address + RAM_SIZE <= SDRAM_BANK_ADDR + IS42S16400J_SIZE ->
  fs_ready (main_vars w) = false ->
  exists w', main_init w = Ok (tt, w') /\
    (forall i, 0 <= i < RAM_SIZE -> ram_buffer w' i = 0) /\
    listener inserted_event (calls w') = Some 0 /\ listener removed_event (calls w') = Some 1 /\
    at_start {| sys := w'; pending := {| p_inserted := false; p_removed := false; p_shell := false |} |}.
Proof.
  intros Lo Hi F.
  enough (wp main_init (fun _ w' => (forall i, 0 <= i < RAM_SIZE -> ram_buffer w' i = 0) /\
    listener inserted_event (calls w') = Some 0 /\ listener removed_event (calls w') = Some 1 /\
    at_start {| sys := w'; pending := {| p_inserted := false; p_removed := false; p_shell := false |} |}) w)
    as W by (destruct (proj1 (wp_ok _ _ _) W) as ([] & w' & R & Q); exists w'; exact (conj R Q)).
  unfold main_init, tmr_init, say, upd_main. pose proof sdram_erased_ram as Er. revert Er.
  generalize (on_memory sdram_bulk_erase). intros er Er. wp_calls.
  match goal with |- wp _ _ ?v => destruct (Er v) as (m & R & Hm) end.
  apply (proj2 (wp_ok _ _ _)). exists tt. eexists. split; [exact R|].
  wp_calls.
  cbn [ram_buffer set_calls set_main set_ram_buffer calls]. split; [|repeat split; exact F].
  intros i Hi'. apply Hm. lia.
Qed.

(** ** The card through every interleaving *)

Section Interleaving.
Context {FS : FileSystem} {CS : CardSlot} {EQ : EventQueue} {EL : EventQueueLaws}.

(** The timer: the counter, the new events, and nothing else of interest. *)
Record ticked (ins : bool) (st st' : system) : Prop := {
  tick_card : fs_ready (main_vars (sys st')) = fs_ready (main_vars (sys st)) /\
              mounted (calls (sys st')) = mounted (calls (sys st));
  tick_counts :
    if 0 <? cnt (main_vars (sys st)) then
      if ins then cnt (main_vars (sys st')) = cnt (main_vars (sys st)) - 1 /\
                  pending st' = (if cnt (main_vars (sys st)) =? 1 then raise inserted_event (pending st)
                                 else pending st)
      else cnt (main_vars (sys st')) = 10 /\ pending st' = pending st
    else
      if ins then cnt (main_vars (sys st')) = cnt (main_vars (sys st)) /\ pending st' = pending st
      else cnt (main_vars (sys st')) = 10 /\ pending st' = raise removed_event (pending st) }.

Lemma skipn_app_length {A} (l k : list A) : skipn (length l) (l ++ k) = k.
Proof. now rewrite skipn_app, skipn_all, Nat.sub_diag. Qed.

Lemma tick_runs ins st : 0 <= cnt (main_vars (sys st)) <= 10 ->
  exists st', tick ins st = Ok st' /\ ticked ins st st'.
Proof.
  intros Hc. destruct st as [w p]. cbn [sys pending] in *.
  enough (wp (tmrfunc ins) (fun _ w' => forall q,
    q = raise_all (skipn (length (broadcasts (calls w))) (broadcasts (calls w'))) p ->
    ticked ins {| sys := w; pending := p |} {| sys := w'; pending := q |}) w) as W.
  { destruct (proj1 (wp_ok _ _ _) W) as ([] & w' & R & T). unfold tick. cbn [sys pending].
    rewrite R. cbn [rbind snd]. eexists. split; [reflexivity|]. now apply T. }
  unfold tmrfunc, extern, upd_main, POLLING_INTERVAL. wp_norm.
  destruct (Z.ltb_spec 0 (cnt (main_vars w))) as [L|L]; destruct ins; cbn [negb when].
  - wp_norm. cbv zeta. unfold u32.
    rewrite uwrap_small by (unfold in_u; change (2 ^ 32) with 4294967296; lia).
    destruct (Z.eqb_spec (cnt (main_vars w) - 1) 0) as [E|E]; cbn [when]; wp_norm; intros q ->;
      (split; cbn [sys pending]; [split; reflexivity|]); rewrite (proj2 (Z.ltb_lt _ _) L);
      look; rewrite ?skipn_app_length, ?skipn_all;
      destruct (Z.eqb_spec (cnt (main_vars w)) 1); try lia; split; reflexivity.
  - wp_norm. intros q ->. split; cbn [sys pending]; [split; reflexivity|].
    rewrite (proj2 (Z.ltb_lt _ _) L). look. rewrite skipn_all. split; reflexivity.
  - wp_norm. intros q ->. split; cbn [sys pending]; [split; reflexivity|].
    rewrite (proj2 (Z.ltb_ge _ _) L). look. rewrite skipn_all. split; reflexivity.
  - wp_norm. intros q ->. split; cbn [sys pending]; [split; reflexivity|].
    rewrite (proj2 (Z.ltb_ge _ _) L). look. rewrite skipn_app_length. split; reflexivity.
Qed.

(** A turn: the handler of the event taken, on a state that agrees about the card. *)
Lemma turn_inv st st' : turn st = Ok st' ->
  exists ev w1, wait_one (pending st) = (ev, pending st') /\
    card_same (sys st) w1 /\ dispatch ev w1 = Ok (tt, sys st').
Proof.
  unfold turn. destruct (wait_one (pending st)) as [ev p]. intros T.
  destruct (main_turn_head ev (sys st)) as (w1 & E & Cs & _). rewrite E in T.
  destruct (dispatch ev w1) as [[[] w2]|f] eqn:D; [|discriminate]. injection T as <-.
  exists ev, w1. auto.
Qed.

(** What the handlers do to the card. *)
Lemma dispatch_card ev w w' : dispatch ev w = Ok (tt, w') ->
  cnt (main_vars w') = cnt (main_vars w) /\
  match ev with
  | Some inserted_event =>
      mounted (calls w') = true /\ fs_ready (main_vars w') = true \/
      fs_ready (main_vars w') = fs_ready (main_vars w)
  | Some removed_event => fs_ready (main_vars w') = false
  | _ => fs_ready (main_vars w') = fs_ready (main_vars w) /\
         mounted (calls w') = mounted (calls w)
  end.
Proof.
  intros D. refine (wp_run (dispatch ev) (fun _ v => cnt (main_vars v) = cnt (main_vars w) /\
    match ev with
    | Some inserted_event =>
        mounted (calls v) = true /\ fs_ready (main_vars v) = true \/
        fs_ready (main_vars v) = fs_ready (main_vars w)
    | Some removed_event => fs_ready (main_vars v) = false
    | _ => fs_ready (main_vars v) = fs_ready (main_vars w) /\ mounted (calls v) = mounted (calls w)
    end) w tt w' _ D).
  destruct ev as [[]|]; cbn [dispatch].
  - unfold InsertHandler, do_mount, upd_main, extern. wp_norm.
    destruct (sdcConnect_result (calls w)) eqn:Ec; [wp_norm; auto|]. wp_norm.
    destruct (Z.eqb_spec (f_mount_result (calls (set_calls (sdcConnect :: calls w) w))) 0) as [Em|Em]; cbn [negb]; wp_norm; auto.
    cbn [calls set_calls set_main mounted connected] in *. rewrite Ec, Em. auto.
  - unfold RemoveHandler, upd_main, extern. wp_norm. auto.
  - unfold ShellHandler, shell_terminated_X. wp_norm. destruct (shelltp (main_vars w)) eqn:Sh.
    + unfold extern. wp_norm. unfold release_shell, upd_main, extern.
      destruct (thread_terminated (calls w)); wp_norm; auto.
    + unfold dispatch, ShellHandler, shell_terminated_X, bind, gets in D. rewrite Sh in D. discriminate.
  - wp_norm. auto.
Qed.

(** In every interleaving: a card that is gone has a removal on its way or has
    been unmounted, an insertion that meets a mounted card is followed by a
    removal, and a file system that is ready is mounted or about to be unmounted. *)
Record loop_inv (st : system) : Prop := {
  inv_count : 0 <= cnt (main_vars (sys st)) <= 10;
  inv_absent : 0 < cnt (main_vars (sys st)) -> p_removed (pending st) = true \/
    fs_ready (main_vars (sys st)) = false /\ p_inserted (pending st) = false;
  inv_inserted : p_inserted (pending st) = true ->
    p_removed (pending st) = true \/ fs_ready (main_vars (sys st)) = false;
  inv_ready : fs_ready (main_vars (sys st)) = true ->
    p_removed (pending st) = true \/ mounted (calls (sys st)) = true }.

Lemma tick_keeps_inv ins st st' : loop_inv st -> ticked ins st st' -> loop_inv st'.
Proof.
  intros [Co Ab In Re] [[F C] T].
  destruct (Z.ltb_spec 0 (cnt (main_vars (sys st)))) as [L|L]; destruct ins; destruct T as [Tc Tp].
  - destruct (Z.eqb_spec (cnt (main_vars (sys st))) 1) as [E|E];
      split; rewrite ?Tc, ?Tp, ?F, ?C; cbn [raise p_inserted p_removed]; auto; try lia;
      intros _; destruct (Ab L) as [|[]]; auto.
  - split; rewrite ?Tc, ?Tp, ?F, ?C; auto; lia.
  - split; rewrite ?Tc, ?Tp, ?F, ?C; auto; lia.
  - split; rewrite ?Tc, ?Tp, ?F, ?C; cbn [raise p_inserted p_removed]; auto; lia.
Qed.

Lemma turn_keeps_inv st st' : loop_inv st -> turn st = Ok st' -> loop_inv st'.
Proof.
  intros [Co Ab In Re] T. destruct (turn_inv st st' T) as (ev & w1 & Wt & (F & C & N) & D).
  destruct (dispatch_card ev w1 _ D) as [N' K]. rewrite N in N'.
  rewrite wait_lowest in Wt. unfold lowest in Wt. destruct (pending st) as [i r s]; cbn [p_inserted p_removed p_shell] in *.
  destruct i; [|destruct r; [|destruct s]]; injection Wt as <- Ep; rewrite ?F, ?C in K;
    split; rewrite ?N', <- ?Ep; cbn [p_inserted p_removed]; try lia; try discriminate; auto.
  - intros P. destruct (Ab P) as [|[]]; [auto | discriminate].
  - intros R. destruct K as [[Kc _]|Kf]; [auto|]. destruct (In eq_refl); [auto | congruence].
  - congruence.
  - destruct K as [-> _]. intros P. destruct (Ab P) as [|[]]; auto.
  - destruct K as [-> ->]. intros R. destruct (Re R); auto.
  - destruct K as [-> _]. intros P. destruct (Ab P) as [|[]]; auto.
  - destruct K as [-> ->]. intros R. destruct (Re R); auto.
Qed.

Lemma start_inv st : at_start st -> loop_inv st.
Proof. intros (C & F & P). split; rewrite ?C, ?F, ?P; auto; lia || discriminate. Qed.

Lemma shell_keeps_inv st : loop_inv st -> loop_inv (shell_ends st).
Proof. intros [? ? ? ?]. split; assumption. Qed.

Lemma reachable_inv st : reachable st -> loop_inv st.
Proof.
  induction 1 as [st A|st st' R IH S]; [now apply start_inv|].
  destruct S as [ins a b T|a b T|a].
  - destruct (tick_runs ins a (inv_count a IH)) as (b' & E & Tk). rewrite E in T. injection T as <-.
    eapply tick_keeps_inv; eauto.
  - eapply turn_keeps_inv; eauto.
  - now apply shell_keeps_inv.
Qed.

(** C13: the main thread beside the card monitor.  In every interleaving of timer
    expiries (with any answers of the card switch), main turns and ends of the
    shell, from the start of the loop on: the debounce counter stays in 0 to 10
    and the timer routine never faults; whenever no card event is pending, a
    file system marked ready belongs to a card of which the last sdcConnect
    succeeded and, after it, f_mount answered FR_OK, and which has not been
    disconnected since; it is not ready
    while the monitor sees no card; and a turn can be taken, without fault, in
    every state in which the shell's end is not pending. *)
Theorem main_loop_invariant st : reachable st ->
  0 <= cnt (main_vars (sys st)) <= 10 /\
  (p_inserted (pending st) = false -> p_removed (pending st) = false ->
   (fs_ready (main_vars (sys st)) = true -> mounted (calls (sys st)) = true) /\
   (0 < cnt (main_vars (sys st)) -> fs_ready (main_vars (sys st)) = false)) /\
  (forall ins, exists st', tick ins st = Ok st') /\
  (p_shell (pending st) = false -> exists st', turn st = Ok st').
Proof.
  intros R. destruct (reachable_inv st R) as [Co Ab In Re]. split; [exact Co|]. split; [|split].
  - intros Pi Pr. rewrite Pi, Pr in *. split.
    + intros F. destruct (Re F); [discriminate | assumption].
    + intros P. destruct (Ab P) as [|[]]; [discriminate | assumption].
  - intros ins. destruct (tick_runs ins st Co) as (st' & E & _). eauto.
  - intros Ps. unfold turn. destruct (wait_one (pending st)) as [ev p] eqn:W.
    destruct (main_turn_head ev (sys st)) as (w1 & -> & _). pose proof (dispatch_runs ev w1) as D.
    assert (ev <> Some shell_terminated) as N.
    { rewrite wait_lowest in W. unfold lowest in W. rewrite Ps in W.
      destruct (p_inserted (pending st)), (p_removed (pending st)); injection W as <- _; discriminate. }
    destruct ev as [[]|]; try congruence; destruct D as (w2 & ->); cbn [rbind]; eauto.
Qed.

(** ** Prompt runs *)

(** A card that always connects and mounts. *)
Definition card_mounts : Prop :=
  (forall h, sdcConnect_result h = false) /\ (forall h, f_mount_result h = 0).

(** One card event at most is pending; the file system is as the last one served
    has left it. *)
Definition prompt_inv (st : system) : Prop :=
  0 <= cnt (main_vars (sys st)) <= 10 /\
  match p_inserted (pending st), p_removed (pending st) with
  | false, false => fs_ready (main_vars (sys st)) = (cnt (main_vars (sys st)) =? 0)
  | true, false => cnt (main_vars (sys st)) = 0
  | false, true => 0 < cnt (main_vars (sys st))
  | true, true => False
  end.

Lemma mounts_ready w w' : card_mounts -> dispatch (Some inserted_event) w = Ok (tt, w') ->
  fs_ready (main_vars w') = true.
Proof.
  intros [Cn Mo]. cbn [dispatch]. unfold InsertHandler, do_mount, upd_main, bind, gets, extern, modify, ret.
  rewrite Cn, Mo. cbn. now intros [= <-].
Qed.

Lemma prompt_reaches st : card_mounts -> prompt st -> prompt_inv st.
Proof.
  intros Cm. unfold prompt_inv. induction 1 as [st (C & F & P)|ins st st' _ [Co IH] Pi Pr T|st st' _ [Co IH] T|st _ IH].
  - rewrite C, F, P. cbn. split; [lia | reflexivity].
  - rewrite Pi, Pr in IH. destruct (tick_runs ins st Co) as (x & E & [[F _] K]).
    rewrite E in T. injection T as <-.
    destruct (Z.ltb_spec 0 (cnt (main_vars (sys st)))) as [L|L]; destruct ins; destruct K as [Kc Kp];
      rewrite Kp, Kc, ?F.
    + destruct (Z.eqb_spec (cnt (main_vars (sys st))) 1); cbn [raise p_inserted p_removed];
        rewrite ?Pi, ?Pr, ?IH; (split; [lia|]);
        destruct (Z.eqb_spec (cnt (main_vars (sys st))) 0), (Z.eqb_spec (cnt (main_vars (sys st)) - 1) 0); lia || reflexivity.
    + rewrite Pi, Pr, IH. split; [lia|]. destruct (Z.eqb_spec (cnt (main_vars (sys st))) 0); lia || reflexivity.
    + rewrite Pi, Pr. now split.
    + cbn [raise p_inserted p_removed]. rewrite Pi. split; lia.
  - destruct (turn_inv st st' T) as (ev & w1 & Wt & (F & _ & N) & D).
    destruct (dispatch_card ev w1 _ D) as [N' K]. rewrite N' in *. rewrite N in *. split; [exact Co|].
    rewrite wait_lowest in Wt. unfold lowest in Wt. destruct (pending st) as [i r s]; cbn [p_inserted p_removed p_shell] in *.
    destruct i, r; [contradiction | | |destruct s]; injection Wt as <- <-; cbn [p_inserted p_removed].
    + rewrite (mounts_ready _ _ Cm D), IH. reflexivity.
    + rewrite K. destruct (Z.eqb_spec (cnt (main_vars (sys st))) 0); lia || reflexivity.
    + destruct K as [-> _]. congruence.
    + destruct K as [-> _]. congruence.
  - exact IH.
Qed.

(** C29: with a card that connects and mounts, and a main thread that serves each
    card event before the timer expires again, the firmware implements the
    debounced switch: whenever no event is pending, the file system is ready
    exactly if the monitor sees the card. *)
Theorem prompt_loop_mounts st :
  card_mounts -> prompt st -> p_inserted (pending st) = false -> p_removed (pending st) = false ->
  fs_ready (main_vars (sys st)) = (cnt (main_vars (sys st)) =? 0).
Proof. intros Cm P Pi Pr. destruct (prompt_reaches st Cm P) as [_ K]. now rewrite Pi, Pr in K. Qed.

End Interleaving.

(** ** Runs *)

Definition live_shell : CardSlot := {|
  blkIsInserted _ := true; thread_created _ := true; thread_terminated _ := false |}.

Definition lowest_queue : EventQueue := {| wait_one := lowest |}.

Lemma lowest_queue_laws : @EventQueueLaws lowest_queue.
Proof. split. reflexivity. Qed.

Inductive event : Set := Tick (ins : bool) | Turn.

Fixpoint run_events (es : list event) (st : system) : result system :=
  match es with
  | [] => Ok st
  | Tick ins :: es' => x <=! tick ins st ;; run_events es' x
  | Turn :: es' => x <=! @turn example_card live_shell lowest_queue st ;; run_events es' x
  end.

Lemma run_reachable es : forall st st', @reachable example_card live_shell lowest_queue st ->
  run_events es st = Ok st' -> @reachable example_card live_shell lowest_queue st'.
Proof.
  induction es as [|[ins|] es IH]; cbn [run_events]; intros st st' R E.
  - now injection E as <-.
  - destruct (tick ins st) as [x|] eqn:T; [|discriminate]. apply (IH x); [|exact E].
    eapply reach_step; [exact R | eapply step_tick, T].
  - destruct (turn st) as [x|] eqn:T; [|discriminate]. apply (IH x); [|exact E].
    eapply reach_step; [exact R | eapply step_turn, T].
Qed.

Definition start_state : system := {|
  sys := set_main {| image_index := 0; fs_ready := false; shelltp := false; cnt := 10 |} reset_world;
  pending := {| p_inserted := false; p_removed := false; p_shell := false |} |}.

(** The card is taken out and put back while the main thread is busy. *)
Definition swapped_card : list event :=
  repeat (Tick true) 10 ++ [Turn; Tick false] ++ repeat (Tick true) 10 ++ [Turn; Turn].

Definition final (es : list event) : system :=
  match run_events es start_state with Ok st => st | Err _ => start_state end.

(** Without promptness readiness is lost: the events are served in the order of
    their identifiers, not of their arrival.  A card that is taken out and put
    back while the main thread is busy, and always connects and mounts, ends up
    disconnected and not ready, with no event pending to change that. *)
Lemma stale_removal : exists st, @reachable example_card live_shell lowest_queue st /\
  pending st = {| p_inserted := false; p_removed := false; p_shell := false |} /\
  cnt (main_vars (sys st)) = 0 /\ fs_ready (main_vars (sys st)) = false /\
  @connected example_card (calls (sys st)) = false.
Proof.
  exists (final swapped_card). split; [|repeat split; vm_compute; reflexivity].
  apply (run_reachable swapped_card start_state); [apply reach_start; repeat split|].
  vm_compute. reflexivity.
Qed.

Lemma main_loop_invariant_witness :
  let st := final (repeat (Tick true) 10 ++ [Turn]) in
  fs_ready (main_vars (sys st)) = true /\ @mounted example_card (calls (sys st)) = true.
Proof.
  intros st. assert (@reachable example_card live_shell lowest_queue st) as R.
  { apply (run_reachable (repeat (Tick true) 10 ++ [Turn]) start_state);
      [apply reach_start; repeat split | vm_compute; reflexivity]. }
  destruct (@main_loop_invariant example_card live_shell lowest_queue lowest_queue_laws st R) as (_ & Q & _).
  destruct (Q ltac:(vm_compute; reflexivity) ltac:(vm_compute; reflexivity)) as [Re _].
  split; [vm_compute; reflexivity | apply Re; vm_compute; reflexivity].
Defined.

(** The same runs, when every card event is served at once. *)
Fixpoint serves (es : list event) (st : system) : bool :=
  match es with
  | [] => true
  | Tick ins :: es' =>
      negb (p_inserted (pending st)) && negb (p_removed (pending st)) &&
      match tick ins st with Ok x => serves es' x | Err _ => false end
  | Turn :: es' => match @turn example_card live_shell lowest_queue st with Ok x => serves es' x | Err _ => false end
  end.

Lemma run_prompt es : forall st st', @prompt example_card live_shell lowest_queue st -> serves es st = true ->
  run_events es st = Ok st' -> @prompt example_card live_shell lowest_queue st'.
Proof.
  induction es as [|[ins|] es IH]; cbn [run_events serves]; intros st st' P Sv E.
  - now injection E as <-.
  - apply andb_prop in Sv as [G Sv]. apply andb_prop in G as [Gi Gr].
    destruct (tick ins st) as [x|] eqn:T; [|discriminate]. apply (IH x); [|exact Sv | exact E].
    eapply prompt_tick; [exact P | now apply negb_true_iff | now apply negb_true_iff | exact T].
  - destruct (turn st) as [x|] eqn:T; [|discriminate]. apply (IH x); [|exact Sv | exact E].
    eapply prompt_turn; [exact P | exact T].
Qed.

(** The card is put in, taken out and put in again. *)
Definition patient_run : list event :=
  repeat (Tick true) 10 ++ [Turn; Tick false; Turn] ++ repeat (Tick true) 10 ++ [Turn].

Lemma prompt_loop_mounts_witness : fs_ready (main_vars (sys (final patient_run))) = true.
Proof.
  rewrite (@prompt_loop_mounts example_card live_shell lowest_queue lowest_queue_laws (final patient_run));
    [vm_compute; reflexivity | split; reflexivity | | vm_compute; reflexivity | vm_compute; reflexivity].
  apply (run_prompt patient_run start_state); [apply prompt_start; repeat split | |];
    vm_compute; reflexivity.
Defined.
