(* ===== verification/Commands.v ===== *)
(** * main.c: the shell commands and the LED threads

    The commands run in the shell's thread and put the components together: a
    capture and its file, the sensors, the memory benchmark on the SDRAM.  The
    shell itself, which reads a line and looks the name up in the table of
    commands, is ChibiOS code. *)

From Stdlib Require Import ZArith Bool String List Lia.
From Stdlib Require Import Classes.RelationClasses.
From S2P Require Import Prelude Machine Pi2c Sensors Padc Bme280 DcmiDma OvTables Ov5640 Collector.
From S2P Require Import ImageFile MainLoop DirScan MemBench MainRun.
Import ListNotations.
Local Open Scope Z_scope.
Local Open Scope fw_scope.

Section Commands.
Context `{FileSystem} `{I2cDriver} `{StackMemory} `{AdcDriver} `{DcmiPeriph} `{DmaStream} `{Linker} `{SysTimer}
        `{Background}.

Definition cmd_image_rgb (argc : Z) : M unit :=
  no_args argc "Usage: image\r\n" (
    say "Camera Init...\r\n" ;;
    OV5640_init_RGB ;;
    say "Starting RGB Capture...\r\n" ;;
    OV5640_Snapshot2RAM_RGB ;;
    say "capture done\r\n" ;;
    w <- gets (fun w => w) ;;
    if negb (fs_ready (main_vars w)) then say "File System not mounted\r\n" else
    say "Mounting file system..." ;;
    fr <- do_mount "0:" ;;
    extern (chprintf "done, return code = %d\r\n" [fr]) ;;
    write_rgb).

Definition cmd_cam_init (argc : Z) : M unit := no_args argc "Usage: image\r\n" OV5640_init.

(** One turn of [while(1)]: [inr] is the return. *)
Definition cmd_image_turn (_ : unit) : M (unit + unit) :=
  extern (palSetLine GPIOD_LED_RED) ;;
  OV5640_Snapshot2RAM ;;
  extern (palClearLine GPIOD_LED_RED) ;;
  w <- gets (fun w => w) ;;
  if negb (fs_ready (main_vars w)) then say "File System not mounted\r\n" ;; ret (inr tt) else
  say "SDC  > Mounting file system..." ;;
  fr <- do_mount "0:" ;;
  extern (chprintf "done, return code = %d\r\n" [fr]) ;;
  write_jpeg ;;
  extern (palSetLine GPIOD_LED_GREEN) ;;
  sleep 1000 ;;
  extern (palClearLine GPIOD_LED_GREEN) ;;
  ret (inl tt).

(** The loop ends only when the file system is no longer ready; [turns] bounds
    it. *)
Definition cmd_image (turns : nat) (argc : Z) : M unit :=
  no_args argc "Usage: image\r\n" (iter turns cmd_image_turn tt).

(** A double that is printed, [v / d]: the format gets the integer and its scale. *)
Definition print_scaled (fmt : string) (v d : Z) : M unit := extern (chprintf fmt [v; d]).

Definition print_bme (press_fmt : string) (b : bme_fields) : M unit :=
  print_scaled press_fmt (press b) 1000000 ;;
  print_scaled "temp = %06.2fC " (temp b) 100 ;;
  print_scaled "hum = %03.0f%% " (hum b) 1 ;;
  say "\r\n".

(** The lines of the eight TMP100, from sensor [n] on. *)
Fixpoint print_tmp100 (n : Z) (ts : list Z) : M unit :=
  match ts with
  | [] => ret tt
  | t :: ts' =>
      extern (chprintf "TMP100 %d Temp = %06.2fC, " [n; t; 100]) ;;
      say "\r\n" ;;
      print_tmp100 (n + 1) ts'
  end.

(** [sensor_data] before and after. *)
Definition cmd_sensors (argc : Z) (sensor_data : dataPoint_t) : M dataPoint_t :=
  if 0 <? argc then say "Usage: sensors\r\n" ;; ret sensor_data else
  say "Reading from sensors...\r\n" ;;
  dp <- getSensors sensor_data ;;
  print_scaled "Vin = %04.1fV, " (adc_vbat dp) 1000 ;;
  say "\r\n" ;;
  print_scaled "STM32int Temp = %06.2fC, " (stm32_temp dp) 100 ;;
  say "\r\n" ;;
  print_tmp100 0 (tmp100_temp dp) ;;
  print_bme "BME280 0x76: press = %01.6fbar, " (sen_e2 dp) ;;
  print_bme "BME280 0x77: press = %01.6fbar, " (sen_i1 dp) ;;
  say "LTR329 light intensity " ;;
  extern (chprintf "CH0 = %d lux, " [ltr329_intensity_ch0 dp]) ;;
  extern (chprintf "CH1 = %d lux" [ltr329_intensity_ch1 dp]) ;;
  say "\r\n" ;;
  extern (chprintf "OV5640 light intensity = %d " [light_intensity dp]) ;;
  say "\r\n" ;;
  let '(x, y, z) := mpu9250_accel dp in
  print_scaled "MPU-9250 x_accel = %04.3f " x 1000 ;;
  print_scaled "y_accel = %04.3f " y 1000 ;;
  print_scaled "z_accel = %04.3f " z 1000 ;;
  say "\r\n" ;;
  ret dp.

Definition cmd_reset (argc : Z) : M unit :=
  no_args argc "Usage: reset\r\n" (
    say "Will reset in 200ms\r\n" ;;
    sleep 200 ;;
    extern NVIC_SystemReset).

(** ** Memory benchmark *)

(** The two figures are bytes per second; the format gets megabytes. *)
Definition print_speeds (fmt : string) (r : membench_result_t) : M unit :=
  extern (chprintf fmt [r_memset r / 1000000; r_memcpy r / 1000000;
                        r_memcpy_dma r / 1000000; r_memcmp r / 1000000]).

(** SDRAM_START is the base address of the memory controller's bank 6, which is
    also SDRAM_BANK_ADDR. *)
Definition membench_ext : membench_t := {| start := SDRAM_BANK_ADDR; size := IS42S16400J_SIZE |}.

(** The internal buffer, wherever the linker puts it. *)
Definition membench_int (int_buf : Z) : membench_t := {| start := int_buf; size := 64 * 1024 |}.

Context `{MemDma}.

Definition membench (int_buf : Z) : M unit :=
  say "Starting External RAM Benchmark...." ;;
  int2ext <- on_memory (membench_run membench_ext (membench_int int_buf)) ;;
  say "." ;;
  ext2int <- on_memory (membench_run (membench_int int_buf) membench_ext) ;;
  say "." ;;
  say "OK\r\nRAM Performance (MB/s) memset, memcpy, memcpy_dma, memcmp\r\n" ;;
  print_speeds "int2ext:                 %5D %7D %10D %7D \r\n" int2ext ;;
  print_speeds "ext2int:                 %5D %7D %10D %7D \r\n" ext2int.

Definition cmd_mem_external (int_buf argc : Z) : M unit :=
  no_args argc "Usage: membench\r\n" (membench int_buf).

(** ** LED threads *)

(** One turn of each thread's loop. *)
Definition Thread1_turn : M unit :=
  extern (palClearLine GPIOD_LED_RED) ;;
  sleep 100 ;;
  extern (palSetLine GPIOD_LED_RED) ;;
  sleep 1.

Definition Thread2_turn : M unit :=
  extern (palClearLine GPIOD_LED_GREEN) ;;
  ready <- gets (fun w => fs_ready (main_vars w)) ;;
  sleep (if (ready : bool) then 250 else 500) ;;
  extern (palSetLine GPIOD_LED_GREEN) ;;
  sleep 1.

Definition Thread3_turn : M unit :=
  extern (palClearLine GPIOD_LED_BLUE) ;;
  sleep 500 ;;
  extern (palSetLine GPIOD_LED_BLUE) ;;
  sleep 1.

(** The first [n] turns. *)
Definition Thread1 (n : nat) : M unit := extern (chRegSetThreadName "blinker1") ;; repeat_st n Thread1_turn.

Definition Thread2 (n : nat) : M unit := extern (chRegSetThreadName "blinker2") ;; repeat_st n Thread2_turn.

Definition Thread3 (n : nat) : M unit := extern (chRegSetThreadName "blinker3") ;; repeat_st n Thread3_turn.

Definition cmd_blink (argc : Z) : M unit :=
  no_args argc "Usage: blink\r\n" (
    extern (chThdCreateStatic "waThread1") ;;
    extern (chThdCreateStatic "waThread2") ;;
    extern (chThdCreateStatic "waThread3")).

(** ** The table of commands *)

Inductive ShellCommand : Set :=
| Tree | Cam_init | Image | Image_rgb | Mem_external | Blink | Sensors | Reset.

Definition commands : list (string * ShellCommand) :=
  [("tree", Tree); ("cam_init", Cam_init); ("image", Image); ("i", Image);
   ("image_rgb", Image_rgb); ("membench", Mem_external); ("blink", Blink);
   ("sensors", Sensors); ("reset", Reset)]%string.

Context `{Directories}.

(** A command with [argc] arguments; the static data point before and after;
    [fuel] bounds the loops of tree and image. *)
Definition run_command (c : ShellCommand) (argc : Z) (fuel : nat) (int_buf : Z)
    (sensor_data : dataPoint_t) : M dataPoint_t :=
  match c with
  | Tree => cmd_tree fuel argc ;; ret sensor_data
  | Cam_init => cmd_cam_init argc ;; ret sensor_data
  | Image => cmd_image fuel argc ;; ret sensor_data
  | Image_rgb => cmd_image_rgb argc ;; ret sensor_data
  | Mem_external => cmd_mem_external int_buf argc ;; ret sensor_data
  | Blink => cmd_blink argc ;; ret sensor_data
  | Sensors => cmd_sensors argc sensor_data
  | Reset => cmd_reset argc ;; ret sensor_data
  end.

(** Every command of the table, given an argument, prints its usage and does
    nothing else. *)
Lemma usage_only name c argc fuel int_buf dp w : In (name, c) commands -> 0 < argc ->
  exists usage, run_command c argc fuel int_buf dp w =
                Ok (dp, set_calls (chprintf usage [] :: calls w) w).
Proof.
  intros _ Ha. apply Z.ltb_lt in Ha.
  destruct c; cbn [run_command];
    unfold cmd_tree, cmd_cam_init, cmd_image, cmd_image_rgb, cmd_mem_external, cmd_blink, cmd_sensors,
      cmd_reset, no_args; rewrite Ha; eexists; reflexivity.
Qed.

End Commands.

(** ** A capture and its file *)

Section SameFiles.
Context `{FileSystem}.

(** The calls on files and the index, which only the image commands change. *)
Definition same_files (w w' : world) : Prop :=
  image_index (main_vars w') = image_index (main_vars w) /\ file_log (calls w') = file_log (calls w).

#[export] Instance same_files_preorder : PreOrder same_files.
Proof. split; [intros w; now split|]. intros a b c [? ?] [? ?]. split; congruence. Qed.

Definition file_call (c : call) : bool :=
  match c with
  | f_open _ _ | f_write _ | f_close => true
  | _ => false
  end.

(** Other threads do not take images: what happens during a sleep leaves the
    files and the index alone. *)
Class FilesLaws `{Background} : Prop := { elapse_files w : same_files w (elapse w) }.

Lemma keeps_extern c : file_call c = false -> keeps same_files (extern c).
Proof. intros F. apply keeps_modify. intros w. destruct c; try discriminate; repeat split. Qed.

End SameFiles.

Section ImageFacts.
Context {FS : FileSystem} {DP : DcmiPeriph} {DS : DmaStream} {LK : Linker} {TI : SysTimer}
        {BG : Background}.
Context {DL : DmaLaws} {TL : TimerLaws}.
Context {BL : BackgroundLaws dcmi_dma_shuffle_isr_open_ended} {LL : LinkerLaws RAM_SIZE}.
Context {FL : FilesLaws}.

Ltac files :=
  first [ apply keeps_extern; reflexivity
        | apply keeps_modify; intros ?; first [apply elapse_files | repeat split] ].

Lemma snapshot_keeps_files : keeps same_files OV5640_Snapshot2RAM.
Proof.
  unfold OV5640_Snapshot2RAM, say, memset_ram, OV5640_InitDMA, upd_dma, dcmi_dma_init_open_ended,
    setup_stream, dcmi_dma_arm, OV5640_InitDCMI, rmw_ahb2enr, rmw_cr, await, wait_dcmi,
    get_system_time, capture_bit_clear, sleep, dcmi_dma_open_ended_stop, memcpy_ram, trim, trim_step,
    ram_read.
  keeps_with files.
Qed.

Lemma ram_bytes_image w : ram_buffer_length w = 8459 ->
  (forall i, 0 <= i < 8459 -> ram_buffer w i = nth (Z.to_nat i) noCameraFound 0) ->
  ram_bytes w (ram_buffer_length w) = noCameraFound.
Proof.
  intros -> H. unfold ram_bytes. apply nth_ext with (d := 0) (d' := 0).
  - rewrite length_map, length_seq. pose proof image_length. lia.
  - rewrite length_map, length_seq. intros n Hn.
    rewrite (nth_indep _ 0 (ram_buffer w (Z.of_nat 0))) by (rewrite length_map, length_seq; exact Hn).
    rewrite (map_nth (fun i => ram_buffer w (Z.of_nat i))), seq_nth by exact Hn.
    rewrite H by lia. f_equal. lia.
Qed.

(** The image a capture leaves to be stored. *)
Definition image_of (b : bool) (w : world) : list Z :=
  if b then ram_bytes w (ram_buffer_length w) else noCameraFound.

Lemma snapshot_length w b w' : snapshot_result w b w' ->
  0 <= ram_buffer_length w' <= RAM_SIZE /\
  ram_bytes w' (ram_buffer_length w') = image_of b w'.
Proof.
  intros [_ K]. cbv zeta in K. change RAM_SIZE with 6291456 in *. destruct b.
  - destruct K as [[R _ _] B]. split; [lia | reflexivity].
  - destruct K as (_ & N & Im). split; [lia|]. apply ram_bytes_image; [exact N|].
    rewrite N in Im. exact Im.
Qed.


End ImageFacts.

(** ** Memory benchmark *)

Section BenchFacts.
Context {MD : MemDma} {ML : MemDmaLaws} {LK : Linker}.

Lemma wp_on_memory {A} (op : B A) Q w :
  (exists x s, op {| mem := fun a => ram_buffer w (a - ram_address); log := [] |} = Ok (x, s) /\
               Q x (set_ram_buffer (fun i => mem s (i + ram_address)) w)) ->
  wp (on_memory op) Q w.
Proof. intros (x & s & E & K). unfold wp, on_memory. now rewrite E. Qed.

Lemma wp_bench_run dest src Q w :
  0 <= Z.min (size src) (size dest) < 262144 ->
  start src + Z.min (size src) (size dest) <= start dest \/ start dest + size dest <= start src ->
  (forall r m, (forall i, m i = benched dest src (fun a => ram_buffer w (a - ram_address)) (i + ram_address)) ->
               speeds_fit r -> Q r (set_ram_buffer m w)) ->
  wp (on_memory (membench_run dest src)) Q w.
Proof.
  intros Hl D K. apply wp_on_memory.
  destruct (proj1 (wp_ok _ _ _) (wp_membench_run dest src
    {| mem := fun a => ram_buffer w (a - ram_address); log := [] |} Hl D eq_refl))
    as (r & s & R & M & _ & Sp).
  exists r, s. split; [exact R|]. apply K; [|exact Sp]. intros i. apply M.
Qed.

(** The command membench on the whole memory.  With the internal buffer
    outside the SDRAM it completes (no stream is left allocated, no speed
    divides by zero); the internal buffer and everything outside the SDRAM hold
    what they held before; the SDRAM, with any image captured in it, has been
    overwritten: its first 64 kB are a copy of the internal buffer, all other
    bytes are 0x55. *)
Theorem membench_command_spec int_buf w :
  int_buf + 65536 <= SDRAM_BANK_ADDR \/ SDRAM_BANK_ADDR + IS42S16400J_SIZE <= int_buf ->
  exists w', cmd_mem_external int_buf 0 w = Ok (tt, w') /\
    (forall a, ~ SDRAM_BANK_ADDR <= a < SDRAM_BANK_ADDR + IS42S16400J_SIZE ->
       ram_buffer w' (a - ram_address) = ram_buffer w (a - ram_address)) /\
    (forall i, 0 <= i < 65536 ->
       ram_buffer w' (SDRAM_BANK_ADDR + i - ram_address) = ram_buffer w (int_buf + i - ram_address)) /\
    (forall i, 65536 <= i < IS42S16400J_SIZE ->
       ram_buffer w' (SDRAM_BANK_ADDR + i - ram_address) = 0x55).
Proof.
  unfold SDRAM_BANK_ADDR, IS42S16400J_SIZE. intros D.
  enough (wp (cmd_mem_external int_buf 0) (fun _ w' => forall a,
    ram_buffer w' (a - ram_address) =
    benched membench_ext (membench_int int_buf) (fun b => ram_buffer w (b - ram_address)) a) w) as W.
  { destruct (proj1 (wp_ok _ _ _) W) as ([] & w' & R & M). exists w'. split; [exact R|].
    unfold benched, membench_ext, membench_int, SDRAM_BANK_ADDR, IS42S16400J_SIZE in M.
    cbn [start size] in M.
    repeat split; intros; rewrite M; range_cases; try lia; try reflexivity; f_equal; lia. }
  unfold cmd_mem_external, no_args. cbn [Z.ltb Z.compare]. unfold membench, print_speeds, say. wp_calls.
  apply wp_bench_run; [cbn; lia | cbn [start size membench_ext membench_int]; unfold SDRAM_BANK_ADDR, IS42S16400J_SIZE; cbn; lia |].
  intros r1 m1 H1 _. wp_calls.
  apply wp_bench_run; [cbn; lia | cbn [start size membench_ext membench_int]; unfold SDRAM_BANK_ADDR, IS42S16400J_SIZE; cbn; lia |].
  intros r2 m2 H2 _. wp_calls. cbn [ram_buffer set_calls set_ram_buffer] in *.
  intros a. rewrite H2. unfold benched in *. cbn [start size membench_ext membench_int] in *.
  rewrite !H1. unfold SDRAM_BANK_ADDR, IS42S16400J_SIZE. rewrite !Z.sub_add.
  change (Z.min (8 * 1024 * 1024) (64 * 1024)) with 65536.
  change (Z.min (64 * 1024) (8 * 1024 * 1024)) with 65536.
  change (64 * 1024) with 65536. change (8 * 1024 * 1024) with 8388608.
  range_cases; try lia; try reflexivity; f_equal; lia.
Qed.

End BenchFacts.

(** The green LED shows the state of the card: it is dark for a quarter of a
    second per flash while the file system is ready, for half a second else. *)
Lemma thread2_rate `{Background} w : exists w1 w',
  sleep (if fs_ready (main_vars w) then 250 else 500)
    (set_calls (palClearLine GPIOD_LED_GREEN :: calls w) w) = Ok (tt, w1) /\
  Thread2_turn w = Ok (tt, w') /\
  w' = elapse (set_calls (chThdSleep 1 :: palSetLine GPIOD_LED_GREEN :: calls w1) w1).
Proof. eexists. eexists. split; [reflexivity|]. split; reflexivity. Qed.

(** ** Runs *)

Lemma busy_stream_files `{FileSystem} isr : (forall flags, keeps same_files (isr flags)) ->
  @FilesLaws _ (busy_stream isr).
Proof.
  intros K. split. intros w. cbn [elapse busy_stream]. destruct (stream_enabled (calls w)); [|reflexivity].
  destruct ((extern dma_block_complete ;; isr 0x20) w) as [[u w']|] eqn:R; [|reflexivity].
  refine (keeps_bind same_files _ _ (keeps_extern dma_block_complete eq_refl) (fun _ => K 0x20) w u w' R).
Qed.

Lemma jpeg_files `{FileSystem} : @FilesLaws _ jpeg_background.
Proof.
  apply busy_stream_files. intros flags.
  unfold dcmi_dma_shuffle_isr_open_ended, shuffle, set_next_block, call_pointer, run_callback,
    dma_avail, dma_error, upd_cam, upd_dma.
  keeps_with ltac:(first [apply keeps_extern; reflexivity | apply keeps_modify; intros ?; repeat split]).
Qed.

Definition image_run : result ((unit + unit) * world) :=
  @cmd_image_turn example_card short_capture stm32_dma sdram call_clock jpeg_background tt
    (set_main {| image_index := 0; fs_ready := true; shelltp := true; cnt := 0 |} reset_world).


