(* ===== verification/Watchdog.v ===== *)
(** * watchdog.c: the thread that keeps the hardware watchdog quiet *)

From Stdlib Require Import ZArith Bool String List Lia.
From S2P Require Import Prelude Machine Debug.
Import ListNotations.
Local Open Scope Z_scope.
Local Open Scope fw_scope.

Section Driver.
Context `{CardSlot} `{Formatter} `{SysTimer}.

(** The prescaler STM32_IWDG_PR_256 and the reload value of [wdgcfg]. *)
Definition IWDG_PR_256 := 6.

Definition IWDG_RLR := 10000.

Definition flash_led : M unit :=
  extern (palSetLine LINE_LED_GREEN) ;;
  extern (chThdSleep 50) ;;
  extern (palClearLine LINE_LED_GREEN).

(** One turn of [while(true)]: [counter++ % (4*healthy)], the counter a uint8_t. *)
Definition wdg_turn (counter : Z) : M Z :=
  extern (chThdSleep 500) ;;
  let healthy := true in
  when healthy (extern wdgReset) ;;
  let old := counter in
  let counter := u8 (counter + 1) in
  when (old mod (4 * Z.b2z healthy) =? 0) flash_led ;;
  ret counter.

Fixpoint wdg_turns (n : nat) (counter : Z) : M Z :=
  match n with
  | O => ret counter
  | S n' => c <- wdg_turn counter ;; wdg_turns n' c
  end.

(** The first [n] turns of the thread. *)
Definition wdgThread (n : nat) : M unit :=
  extern (palSetLineMode LINE_LED_GREEN PAL_MODE_OUTPUT_PUSHPULL) ;;
  wdg_turns n 0 ;;
  ret tt.

Definition init_watchdog : M unit :=
  TRACE_INFO "WDG  > Initialize Watchdog" [] ;;
  extern (wdgStart IWDG_PR_256 IWDG_RLR) ;;
  extern wdgReset ;;
  flash_led ;;
  TRACE_INFO "WDG  > Startup Watchdog thread" [] ;;
  w <- gets (fun w => w) ;;
  extern (chThdCreateFromHeap "WDG") ;;
  when (negb (thread_created (calls w)))
    (TRACE_ERROR "TRAC > Could not startup thread (not enough memory available)" []).

End Driver.

(** ** What the history says *)

(** The milliseconds slept since the watchdog was last reset. *)
Fixpoint slept (h : list call) : Z :=
  match h with
  | [] | wdgReset :: _ => 0
  | chThdSleep ms :: h' => ms + slept h'
  | _ :: h' => slept h'
  end.

(** The longest such time since the watchdog was started. *)
Fixpoint longest (h : list call) : Z :=
  match h with
  | [] | wdgStart _ _ :: _ => 0
  | c :: h' => Z.max (slept (c :: h')) (longest h')
  end.

Fixpoint resets (h : list call) : Z :=
  match h with
  | [] => 0
  | wdgReset :: h' => resets h' + 1
  | _ :: h' => resets h'
  end.

Fixpoint flashes (h : list call) : Z :=
  match h with
  | [] => 0
  | palSetLine LINE_LED_GREEN :: h' => flashes h' + 1
  | _ :: h' => flashes h'
  end.

Fixpoint led_on (h : list call) : bool :=
  match h with
  | [] | palClearLine LINE_LED_GREEN :: _ => false
  | palSetLine LINE_LED_GREEN :: _ => true
  | _ :: h' => led_on h'
  end.

(** After [k] turns, with [r] resets and [f] flashes before them. *)
Record tended (r f k : Z) (w : world) : Prop := {
  tended_slept : slept (calls w) <= 50;
  tended_longest : longest (calls w) <= 550;
  tended_resets : resets (calls w) = r + k;
  tended_flashes : flashes (calls w) = f + (k + 3) / 4;
  tended_led : led_on (calls w) = false }.

(** Tracing neither sleeps nor touches the watchdog or the LED. *)
Lemma traced_tends cs h : forallb trace_call cs = true ->
  slept (cs ++ h) = slept h /\ resets (cs ++ h) = resets h /\ flashes (cs ++ h) = flashes h /\
  led_on (cs ++ h) = led_on h /\ (slept h <= longest h -> longest (cs ++ h) = longest h).
Proof.
  induction cs as [|c cs IH]; [cbn; auto|]. cbn [forallb]. intros F. apply andb_prop in F as [Fc F].
  destruct (IH F) as (S & R & Fl & L & Lo).
  destruct c; try discriminate; cbn [app slept resets flashes led_on longest] in *;
    repeat split; try assumption; intros Hs; rewrite (Lo Hs); lia.
Qed.

Section Facts.
Context {CS : CardSlot} {FM : Formatter} {FL : FormatterLaws} {TI : SysTimer}.

(** A turn.  The counter wraps at 256, a multiple of 4, so the flashes keep
    their rhythm. *)
Lemma wp_wdg_turn r f k w : 0 <= k -> tended r f k w ->
  wp (wdg_turn (k mod 256)) (fun c w' => c = (k + 1) mod 256 /\ tended r f (k + 1) w') w.
Proof.
  intros Hk [Sl Lo Re Fl Le]. unfold wdg_turn, flash_led, extern. cbn [when Z.b2z Z.mul Pos.mul].
  wp_norm. assert (u8 (k mod 256 + 1) = (k + 1) mod 256) as Eu
    by (unfold u8, uwrap; change (2 ^ 8) with 256; dlia).
  assert (k mod 256 mod 4 = k mod 4) as Em by dlia. rewrite Em.
  destruct (Z.eqb_spec (k mod 4) 0); cbn [when]; wp_norm; (split; [exact Eu|]); split;
    cbn [calls set_calls slept longest resets flashes led_on]; first [exact Le | dlia | reflexivity].
Qed.

Lemma wp_wdg_turns r f n : forall k w, 0 <= k -> tended r f k w ->
  wp (wdg_turns n (k mod 256)) (fun _ w' => tended r f (k + Z.of_nat n) w') w.
Proof.
  induction n as [|n IH]; intros k w Hk T; cbn [wdg_turns].
  - wp_norm. replace (k + Z.of_nat 0) with k by lia. exact T.
  - wp_norm. wp_use (wp_wdg_turn r f k w Hk T). intros c w1 [-> T1].
    wp_use (IH (k + 1) w1); [lia | exact T1 |]. intros _ w2 T2.
    replace (k + Z.of_nat (S n)) with (k + 1 + Z.of_nat n) by lia. exact T2.
Qed.

(** The watchdog has been started and reset, the LED has flashed; [v] ends with
    the attempt to create the thread after the history [h]. *)
Definition started (w v : world) (cs h : list call) : Prop :=
  calls v = cs ++ chThdCreateFromHeap "WDG" :: h /\ forallb trace_call cs = true /\
  tended (resets (calls w) + 1) (flashes (calls w) + 1) 0 v.

Lemma wp_init_watchdog errs w : ring errs (trace w) ->
  wp init_watchdog (fun _ v => exists cs h, started w v cs h /\
    if thread_created h then trace v = trace w
    else exists e, is_entry "TRAC > Could not startup thread (not enough memory available)" [] e /\
         ring (errs ++ [e]) (trace v)) w.
Proof.
  intros Rg. unfold init_watchdog, flash_led, TRACE_INFO, extern. wp_norm. wp_use wp_trace_at.
  intros _ w1 (c1 & -> & T1 & _). wp_norm. cbn [calls set_calls]. wp_use wp_trace_at.
  intros _ w2 (c2 & -> & T2 & _). wp_norm. cbn [calls set_calls].
  destruct (traced_tends c1 (calls w) T1) as (S1 & R1 & F1 & L1 & _).
  set (h1 := palClearLine LINE_LED_GREEN :: _). destruct (traced_tends c2 h1 T2) as (S2 & R2 & F2 & L2 & M2).
  assert (slept h1 = 50 /\ longest h1 = 50 /\ resets h1 = resets (calls w) + 1 /\
          flashes h1 = flashes (calls w) + 1 /\ led_on h1 = false) as (A & B & C & D & E)
    by (unfold h1; cbn [slept longest resets flashes led_on]; rewrite R1, F1; auto).
  specialize (M2 ltac:(lia)).
  assert (forall cs v, forallb trace_call cs = true ->
    calls v = cs ++ chThdCreateFromHeap "WDG" :: c2 ++ h1 -> started w v cs (c2 ++ h1)) as St.
  { intros cs v Tc Ev. split; [exact Ev|]. split; [exact Tc|].
    destruct (traced_tends cs (chThdCreateFromHeap "WDG" :: c2 ++ h1) Tc) as (S3 & R3 & F3 & L3 & M3).
    cbn [slept resets flashes led_on longest] in *. specialize (M3 ltac:(lia)).
    split; rewrite Ev; rewrite ?S3, ?M3, ?R3, ?F3, ?L3; try congruence; try lia. dlia. }
  destruct (thread_created (c2 ++ h1)) eqn:Th; cbn [negb when].
  - wp_norm. exists [], (c2 ++ h1). rewrite Th. split; [now apply St | reflexivity].
  - wp_use (wp_TRACE_ERROR errs); [exact Rg|]. intros _ w3 (e & Is & Rg3 & _ & cs & t & -> & T3).
    exists cs, (c2 ++ h1). rewrite Th. split; [now apply St | eauto].
Qed.

(** The watchdog.  From a consistent error ring, init_watchdog runs without
    fault.  When its thread could be created, nothing is recorded, and after any
    number of turns of the thread the watchdog has been reset once at the start
    and once per turn, since it was started the thread never slept longer than
    550 ms without a reset, and the LED has flashed once at the start and in
    every fourth turn, also after the 8-bit counter has wrapped, and is off.
    When it could not, the error ring has one more entry, the failure. *)
Theorem watchdog_spec errs w : ring errs (trace w) ->
  exists v cs h, init_watchdog w = Ok (tt, v) /\ started w v cs h /\
  if thread_created h then
    trace v = trace w /\ forall n, exists w', wdgThread n v = Ok (tt, w') /\
      longest (calls w') <= 550 /\
      resets (calls w') = resets (calls w) + 1 + Z.of_nat n /\
      flashes (calls w') = flashes (calls w) + 1 + (Z.of_nat n + 3) / 4 /\
      led_on (calls w') = false
  else exists e,
    is_entry "TRAC > Could not startup thread (not enough memory available)" [] e /\
    ring (errs ++ [e]) (trace v).
Proof.
  intros Rg. destruct (proj1 (wp_ok _ _ _) (wp_init_watchdog errs w Rg))
    as ([] & v & E & cs & h & St & K).
  exists v, cs, h. split; [exact E|]. split; [exact St|].
  destruct (thread_created h); [|exact K]. split; [exact K|]. intros n.
  destruct St as (_ & _ & [Sl Lo Re Fl Le]).
  assert (wp (wdgThread n) (fun _ w' => tended (resets (calls w) + 1) (flashes (calls w) + 1) (Z.of_nat n) w') v)
    as W.
  { unfold wdgThread, extern. wp_norm.
    wp_use (wp_wdg_turns (resets (calls w) + 1) (flashes (calls w) + 1) n 0);
      [lia | | intros _ w' T; exact T].
    split; cbn [calls set_calls slept longest resets flashes led_on]; auto. lia. }
  apply wp_ok in W as ([] & w' & R & [? ? ? ? ?]). exists w'. auto.
Qed.

End Facts.

(** A board on which no thread can be created. *)
Definition full_heap : CardSlot := {|
  blkIsInserted _ := false; thread_created _ := false; thread_terminated _ := false |}.

