(* ===== verification/UsbCfg.v ===== *)
(** * usbcfg.c: the descriptors of the virtual serial port

    The macros that lay descriptors out as bytes belong to ChibiOS (hal_usb.h);
    they are parameters, with the layouts of the USB standard as laws.  The
    file is not part of the default build (HAL_USE_SERIAL_USB is FALSE). *)

From Stdlib Require Import ZArith Bool List Lia.
From S2P Require Import Prelude.
Import ListNotations.
Local Open Scope Z_scope.

(** The macros, and the kernel's version numbers. *)
Class UsbMacros := {
  USB_DESC_BYTE : Z -> list Z;
  USB_DESC_WORD : Z -> list Z;
  USB_DESC_BCD : Z -> list Z;
  USB_DESC_DEVICE (bcdUSB bDeviceClass bDeviceSubClass bDeviceProtocol bMaxPacketSize
    idVendor idProduct bcdDevice iManufacturer iProduct iSerialNumber bNumConfigurations : Z) : list Z;
  USB_DESC_CONFIGURATION (wTotalLength bNumInterfaces bConfigurationValue iConfiguration
    bmAttributes bMaxPower : Z) : list Z;
  USB_DESC_INTERFACE (bInterfaceNumber bAlternateSetting bNumEndpoints bInterfaceClass
    bInterfaceSubClass bInterfaceProtocol iInterface : Z) : list Z;
  USB_DESC_ENDPOINT (bEndpointAddress bmAttributes wMaxPacketSize bInterval : Z) : list Z;
  USB_DESCRIPTOR_DEVICE : Z; USB_DESCRIPTOR_CONFIGURATION : Z; USB_DESCRIPTOR_STRING : Z;
  CH_KERNEL_MAJOR : Z; CH_KERNEL_MINOR : Z; CH_KERNEL_PATCH : Z }.

(** Words are little endian; the descriptors begin with their length and type. *)
Class UsbLaws `{UsbMacros} : Prop := {
  byte_layout b : USB_DESC_BYTE b = [b];
  word_layout w : USB_DESC_WORD w = [w mod 256; w / 256];
  bcd_layout w : USB_DESC_BCD w = [w mod 256; w / 256];
  device_layout a b c d e f g h i j k l : USB_DESC_DEVICE a b c d e f g h i j k l =
    [18; 1] ++ USB_DESC_BCD a ++ [b; c; d; e] ++ USB_DESC_WORD f ++ USB_DESC_WORD g ++
    USB_DESC_BCD h ++ [i; j; k; l];
  configuration_layout a b c d e f : USB_DESC_CONFIGURATION a b c d e f =
    [9; 2] ++ USB_DESC_WORD a ++ [b; c; d; e; f];
  interface_layout a b c d e f g : USB_DESC_INTERFACE a b c d e f g = [9; 4; a; b; c; d; e; f; g];
  endpoint_layout a b c d : USB_DESC_ENDPOINT a b c d = [7; 5; a; b] ++ USB_DESC_WORD c ++ [d];
  descriptor_types : (USB_DESCRIPTOR_DEVICE, USB_DESCRIPTOR_CONFIGURATION, USB_DESCRIPTOR_STRING)
    = (1, 2, 3);
  version_digits : Forall (fun v => 0 <= v <= 9) [CH_KERNEL_MAJOR; CH_KERNEL_MINOR; CH_KERNEL_PATCH] }.

Definition USBD2_DATA_REQUEST_EP := 1.

Definition USBD2_DATA_AVAILABLE_EP := 1.

Definition USBD2_INTERRUPT_REQUEST_EP := 2.

(** A descriptor and its size. *)
Record USBDescriptor : Set := { ud_size : Z; ud_string : list Z }.

(** [{sizeof data, data}]. *)
Definition wrapper (data : list Z) : USBDescriptor :=
  {| ud_size := Z.of_nat (length data); ud_string := data |}.

(** A string of characters below 256 in UTF-16. *)
Definition utf16 (s : list Z) : list Z := flat_map (fun c => [c; 0]) s.

Section Descriptors.
Context `{UsbMacros}.

Definition vcom_device_descriptor_data : list Z :=
  USB_DESC_DEVICE 0x0110 0x02 0x00 0x00 0x40 0x0483 0x5740 0x0200 1 2 3 1.

Definition vcom_device_descriptor : USBDescriptor := wrapper vcom_device_descriptor_data.

Definition vcom_configuration_descriptor_data : list Z :=
  USB_DESC_CONFIGURATION 67 0x02 0x01 0 0xC0 50 ++
  USB_DESC_INTERFACE 0x00 0x00 0x01 0x02 0x02 0x01 0 ++
  (* Header Functional Descriptor *)
  USB_DESC_BYTE 5 ++ USB_DESC_BYTE 0x24 ++ USB_DESC_BYTE 0x00 ++ USB_DESC_BCD 0x0110 ++
  (* Call Management Functional Descriptor *)
  USB_DESC_BYTE 5 ++ USB_DESC_BYTE 0x24 ++ USB_DESC_BYTE 0x01 ++ USB_DESC_BYTE 0x00 ++
  USB_DESC_BYTE 0x01 ++
  (* ACM Functional Descriptor *)
  USB_DESC_BYTE 4 ++ USB_DESC_BYTE 0x24 ++ USB_DESC_BYTE 0x02 ++ USB_DESC_BYTE 0x02 ++
  (* Union Functional Descriptor *)
  USB_DESC_BYTE 5 ++ USB_DESC_BYTE 0x24 ++ USB_DESC_BYTE 0x06 ++ USB_DESC_BYTE 0x00 ++
  USB_DESC_BYTE 0x01 ++
  USB_DESC_ENDPOINT (Z.lor USBD2_INTERRUPT_REQUEST_EP 0x80) 0x03 0x0008 0xFF ++
  USB_DESC_INTERFACE 0x01 0x00 0x02 0x0A 0x00 0x00 0x00 ++
  USB_DESC_ENDPOINT USBD2_DATA_AVAILABLE_EP 0x02 0x0040 0x00 ++
  USB_DESC_ENDPOINT (Z.lor USBD2_DATA_REQUEST_EP 0x80) 0x02 0x0040 0x00.

Definition vcom_configuration_descriptor : USBDescriptor :=
  wrapper vcom_configuration_descriptor_data.

Definition vcom_string0 : list Z :=
  USB_DESC_BYTE 4 ++ USB_DESC_BYTE USB_DESCRIPTOR_STRING ++ USB_DESC_WORD 0x0409.

(** STMicroelectronics *)
Definition vcom_string1 : list Z :=
  USB_DESC_BYTE 38 ++ USB_DESC_BYTE USB_DESCRIPTOR_STRING ++
  utf16 [83; 84; 77; 105; 99; 114; 111; 101; 108; 101; 99; 116; 114; 111; 110; 105; 99; 115].

(** ChibiOS/RT Virtual COM Port *)
Definition vcom_string2 : list Z :=
  USB_DESC_BYTE 56 ++ USB_DESC_BYTE USB_DESCRIPTOR_STRING ++
  utf16 [67; 104; 105; 98; 105; 79; 83; 47; 82; 84; 32; 86; 105; 114; 116; 117; 97; 108; 32;
         67; 79; 77; 32; 80; 111; 114; 116].

Definition vcom_string3 : list Z :=
  USB_DESC_BYTE 8 ++ USB_DESC_BYTE USB_DESCRIPTOR_STRING ++
  utf16 [48 + CH_KERNEL_MAJOR; 48 + CH_KERNEL_MINOR; 48 + CH_KERNEL_PATCH].

Definition vcom_strings : list USBDescriptor :=
  [wrapper vcom_string0; wrapper vcom_string1; wrapper vcom_string2; wrapper vcom_string3].

(** [None] is NULL. *)
Definition get_descriptor (dtype dindex lang : Z) : result (option USBDescriptor) :=
  if dtype =? USB_DESCRIPTOR_DEVICE then Ok (Some vcom_device_descriptor)
  else if dtype =? USB_DESCRIPTOR_CONFIGURATION then Ok (Some vcom_configuration_descriptor)
  else if dtype =? USB_DESCRIPTOR_STRING then
    if dindex <? 4 then rbind (array_get vcom_strings dindex) (fun d => Ok (Some d)) else Ok None
  else Ok None.

End Descriptors.

(** ** Endpoints and events *)

Inductive ep_mode : Set := USB_EP_MODE_TYPE_BULK | USB_EP_MODE_TYPE_INTR.

(** The callbacks of the serial driver. *)
Inductive ep_callback : Set := sduDataTransmitted | sduDataReceived | sduInterruptTransmitted.

(** [None] is NULL; of the state and buffer pointers, whether they are set. *)
Record USBEndpointConfig : Set := {
  ep_type : ep_mode; setup_cb : option ep_callback; in_cb : option ep_callback;
  out_cb : option ep_callback; in_maxsize : Z; out_maxsize : Z; in_state : bool; out_state : bool;
  in_multiplier : Z; setup_buf : bool }.

Definition ep1config : USBEndpointConfig := {|
  ep_type := USB_EP_MODE_TYPE_BULK; setup_cb := None; in_cb := Some sduDataTransmitted;
  out_cb := Some sduDataReceived; in_maxsize := 0x0040; out_maxsize := 0x0040;
  in_state := true; out_state := true; in_multiplier := 2; setup_buf := false |}.

Definition ep2config : USBEndpointConfig := {|
  ep_type := USB_EP_MODE_TYPE_INTR; setup_cb := None; in_cb := Some sduInterruptTransmitted;
  out_cb := None; in_maxsize := 0x0010; out_maxsize := 0x0000;
  in_state := true; out_state := false; in_multiplier := 1; setup_buf := false |}.

(** The endpoints of the serial driver (on USBD2). *)
Record SerialUSBConfig : Set := { bulk_in : Z; bulk_out : Z; int_in : Z }.

Definition serusbcfg : SerialUSBConfig := {|
  bulk_in := USBD2_DATA_REQUEST_EP; bulk_out := USBD2_DATA_AVAILABLE_EP;
  int_in := USBD2_INTERRUPT_REQUEST_EP |}.

Inductive usbevent_t : Set :=
| USB_EVENT_RESET | USB_EVENT_ADDRESS | USB_EVENT_CONFIGURED | USB_EVENT_UNCONFIGURED
| USB_EVENT_SUSPEND | USB_EVENT_WAKEUP | USB_EVENT_STALLED.

Inductive usb_call : Set :=
| chSysLockFromISR
| chSysUnlockFromISR
| osalSysLockFromISR
| osalSysUnlockFromISR
| usbInitEndpointI (ep : Z) (cfg : USBEndpointConfig)
| sduConfigureHookI
| sduSuspendHookI
| sduWakeupHookI
| sduSOFHookI.

(** The calls made, in order. *)
Definition usb_event (event : usbevent_t) : list usb_call :=
  match event with
  | USB_EVENT_ADDRESS => []
  | USB_EVENT_CONFIGURED =>
      [chSysLockFromISR; usbInitEndpointI USBD2_DATA_REQUEST_EP ep1config;
       usbInitEndpointI USBD2_INTERRUPT_REQUEST_EP ep2config; sduConfigureHookI; chSysUnlockFromISR]
  | USB_EVENT_RESET | USB_EVENT_UNCONFIGURED | USB_EVENT_SUSPEND =>
      [chSysLockFromISR; sduSuspendHookI; chSysUnlockFromISR]
  | USB_EVENT_WAKEUP => [chSysLockFromISR; sduWakeupHookI; chSysUnlockFromISR]
  | USB_EVENT_STALLED => []
  end.

Definition sof_handler : list usb_call := [osalSysLockFromISR; sduSOFHookI; osalSysUnlockFromISR].

(** ** Reading descriptors back *)

(** The descriptors a block of bytes is made of: each begins with its length. *)
Fixpoint descriptors (fuel : nat) (l : list Z) : option (list (list Z)) :=
  match fuel, l with
  | _, [] => Some []
  | S f, n :: _ =>
      let k := Z.to_nat n in
      if (2 <=? k)%nat && (k <=? length l)%nat then
        option_map (cons (firstn k l)) (descriptors f (skipn k l))
      else None
  | O, _ => None
  end.

Definition descriptor_type (d : list Z) : Z := nth 1 d 0.

Definition word_at (i : nat) (d : list Z) : Z := nth i d 0 + 256 * nth (S i) d 0.

(** The endpoint descriptors that follow an interface, up to the next. *)
Fixpoint endpoints_of (ds : list (list Z)) : list (list Z) :=
  match ds with
  | [] => []
  | d :: ds' =>
      if descriptor_type d =? 4 then []
      else if descriptor_type d =? 5 then d :: endpoints_of ds' else endpoints_of ds'
  end.

(** Every interface and its endpoints. *)
Fixpoint interfaces (ds : list (list Z)) : list (list Z * list (list Z)) :=
  match ds with
  | [] => []
  | d :: ds' =>
      if descriptor_type d =? 4 then (d, endpoints_of ds') :: interfaces ds' else interfaces ds'
  end.

Section Facts.
Context {UM : UsbMacros} {UL : UsbLaws}.

Ltac lay_out :=
  rewrite ?device_layout, ?configuration_layout, ?interface_layout, ?endpoint_layout,
    ?byte_layout, ?word_layout, ?bcd_layout.

(** The configuration descriptor tree is well formed.  Its 67 bytes, the
    announced wTotalLength, divide into descriptors by their length bytes; there
    are as many interfaces as bNumInterfaces says, numbered from 0, each followed
    by as many endpoint descriptors as its bNumEndpoints says; and the endpoint
    addresses are those the serial driver is configured with, the two inputs with
    the direction bit. *)
Theorem configuration_tree :
  let data := vcom_configuration_descriptor_data in
  Z.of_nat (length data) = 67 /\ Forall is_byte data /\
  exists ds, descriptors 67 data = Some ds /\ concat ds = data /\
    word_at 2 (nth 0 ds []) = Z.of_nat (length data) /\
    Z.of_nat (length (interfaces ds)) = nth 4 (nth 0 ds []) 0 /\
    map (fun i => nth 2 (fst i) 0) (interfaces ds) = [0; 1] /\
    Forall (fun i => nth 4 (fst i) 0 = Z.of_nat (length (snd i))) (interfaces ds) /\
    map (fun e => nth 2 e 0) (concat (map snd (interfaces ds))) =
      [Z.lor (int_in serusbcfg) 0x80; bulk_out serusbcfg; Z.lor (bulk_in serusbcfg) 0x80].
Proof.
  cbv zeta. unfold vcom_configuration_descriptor_data. lay_out. split; [reflexivity|].
  split; [repeat (apply Forall_cons; [split; [discriminate | reflexivity]|]); apply Forall_nil|].
  eexists. split; [vm_compute; reflexivity|]. repeat split; try discriminate.
  repeat constructor.
Qed.

(** get_descriptor.  For every type and index it answers without reading
    outside the table of strings: NULL exactly for the types it does not know
    and for strings above 3; else a descriptor whose announced size is the number
    of its bytes, which begins with its own length (9 for the configuration, the
    head of its tree) and the type asked for. *)
Theorem get_descriptor_spec dtype dindex lang : 0 <= dindex ->
  exists r, get_descriptor dtype dindex lang = Ok r /\
    match r with
    | None => ~ 1 <= dtype <= 3 \/ dtype = 3 /\ 4 <= dindex
    | Some d => 1 <= dtype <= 3 /\ (dtype = 3 -> dindex < 4) /\
        ud_size d = Z.of_nat (length (ud_string d)) /\ descriptor_type (ud_string d) = dtype /\
        nth 0 (ud_string d) 0 = (if dtype =? 2 then 9 else ud_size d) /\
        Forall is_byte (ud_string d)
    end.
Proof.
  intros Hi. pose proof descriptor_types as T. injection T as T1 T2 T3.
  assert (forall l, forallb (fun b => (0 <=? b) && (b <? 256)) l = true -> Forall is_byte l) as Bytes.
  { intros l F. apply Forall_forall. intros x Hx. rewrite forallb_forall in F. specialize (F x Hx).
    unfold is_byte, in_u. eval_pow. lia. }
  unfold get_descriptor. rewrite T1, T2, T3.
  destruct (Z.eqb_spec dtype 1) as [->|N1]; [|destruct (Z.eqb_spec dtype 2) as [->|N2];
    [|destruct (Z.eqb_spec dtype 3) as [->|N3]]].
  - eexists. split; [reflexivity|]. unfold vcom_device_descriptor, vcom_device_descriptor_data. lay_out.
    repeat split; try lia. apply Bytes. reflexivity.
  - eexists. split; [reflexivity|].
    unfold vcom_configuration_descriptor, vcom_configuration_descriptor_data. lay_out.
    repeat split; try lia. apply Bytes. reflexivity.
  - destruct (Z.ltb_spec dindex 4) as [L|L]; [|eexists; split; [reflexivity | right; lia]].
    assert (dindex = 0 \/ dindex = 1 \/ dindex = 2 \/ dindex = 3) as D by lia.
    pose proof version_digits as V. inversion V as [|? ? V1 V']; subst.
    inversion V' as [|? ? V2 V'']; subst. inversion V'' as [|? ? V3 _]; subst.
    destruct D as [-> | [-> | [-> | ->]]]; (eexists; split; [reflexivity|]);
      unfold vcom_string0, vcom_string1, vcom_string2, vcom_string3; lay_out; rewrite T3;
      (repeat split; try lia); apply Bytes; try reflexivity.
    cbn [ud_string wrapper app utf16 flat_map forallb]. rewrite !andb_true_iff. repeat split; lia.
  - eexists. split; [reflexivity|]. left. lia.
Qed.

(** The packet sizes of the bulk endpoint agree with its descriptors; for the
    interrupt endpoint the driver is given 16 bytes, the descriptor says 8. *)
Lemma endpoint_sizes : exists ds, descriptors 67 vcom_configuration_descriptor_data = Some ds /\
  map (fun e => (nth 2 e 0, word_at 4 e)) (concat (map snd (interfaces ds))) =
    [(Z.lor USBD2_INTERRUPT_REQUEST_EP 0x80, 8);
     (USBD2_DATA_AVAILABLE_EP, out_maxsize ep1config);
     (Z.lor USBD2_DATA_REQUEST_EP 0x80, in_maxsize ep1config)] /\
  in_maxsize ep2config = 16.
Proof.
  unfold vcom_configuration_descriptor_data. lay_out. eexists. split; [vm_compute; reflexivity|].
  split; reflexivity.
Qed.

End Facts.

(** Every event leaves the kernel unlocked as it found it. *)
Fixpoint locks (cs : list usb_call) : Z :=
  match cs with
  | [] => 0
  | (chSysLockFromISR | osalSysLockFromISR) :: cs' => 1 + locks cs'
  | (chSysUnlockFromISR | osalSysUnlockFromISR) :: cs' => -1 + locks cs'
  | _ :: cs' => locks cs'
  end.

Lemma usb_event_balanced e : locks (usb_event e) = 0 /\ locks sof_handler = 0.
Proof. destruct e; split; reflexivity. Qed.

(** The layouts themselves. *)
Definition standard_layout : UsbMacros := {|
  USB_DESC_BYTE b := [b];
  USB_DESC_WORD w := [w mod 256; w / 256];
  USB_DESC_BCD w := [w mod 256; w / 256];
  USB_DESC_DEVICE a b c d e f g h i j k l :=
    [18; 1; a mod 256; a / 256; b; c; d; e; f mod 256; f / 256; g mod 256; g / 256;
     h mod 256; h / 256; i; j; k; l];
  USB_DESC_CONFIGURATION a b c d e f := [9; 2; a mod 256; a / 256; b; c; d; e; f];
  USB_DESC_INTERFACE a b c d e f g := [9; 4; a; b; c; d; e; f; g];
  USB_DESC_ENDPOINT a b c d := [7; 5; a; b; c mod 256; c / 256; d];
  USB_DESCRIPTOR_DEVICE := 1; USB_DESCRIPTOR_CONFIGURATION := 2; USB_DESCRIPTOR_STRING := 3;
  CH_KERNEL_MAJOR := 5; CH_KERNEL_MINOR := 0; CH_KERNEL_PATCH := 0 |}.

Lemma standard_layout_laws : @UsbLaws standard_layout.
Proof. split; try reflexivity. repeat constructor; discriminate. Qed.

(** So the descriptor has 67 bytes. *)
Lemma standard_configuration :
  Z.of_nat (length (@vcom_configuration_descriptor_data standard_layout)) = 67.
Proof. apply (@configuration_tree standard_layout standard_layout_laws). Qed.
