(* ===== verification/FatVol.v ===== *)
(** * ext/fatfs/src/ff.c: the volume object and its disk access window

    FatFs (R0.13, configured by ffconf.h: 512-byte sectors, exFAT enabled, one
    volume, not re-entrant, no fast seek) is the file system the firmware links.
    This file holds the volume object FATFS, the loads and stores of
    little-endian words, and the one-sector cache [win] through which the
    allocation table and the directories are read and written: sync_window,
    move_window, sync_fs, clst2sect.  The card behind it is a parameter: every
    call of the disk layer may fail, a failed read leaves anything in the
    buffer, a failed write anything in the sectors it was to write. *)

From Stdlib Require Import ZArith Bool List Lia.
From Stdlib Require Import Classes.RelationClasses.
From S2P Require Import Prelude.
Import ListNotations.
Local Open Scope Z_scope.
Local Open Scope fw_scope.

Inductive FRESULT : Set :=
| FR_OK | FR_DISK_ERR | FR_INT_ERR | FR_NOT_READY | FR_NO_FILE | FR_NO_PATH
| FR_INVALID_NAME | FR_DENIED | FR_EXIST | FR_INVALID_OBJECT | FR_WRITE_PROTECTED
| FR_INVALID_DRIVE | FR_NOT_ENABLED | FR_NO_FILESYSTEM | FR_MKFS_ABORTED
| FR_TIMEOUT | FR_LOCKED | FR_NOT_ENOUGH_CORE | FR_TOO_MANY_OPEN_FILES
| FR_INVALID_PARAMETER.

Definition fr_ok (r : FRESULT) : bool := match r with FR_OK => true | _ => false end.

Definition FS_FAT12 : Z := 1.

Definition FS_FAT16 : Z := 2.

Definition FS_FAT32 : Z := 3.

Definition FS_EXFAT : Z := 4.

(** SS(fs): FF_MIN_SS = FF_MAX_SS = 512. *)
Definition SS : Z := 512.

(** ** The volume object

    The members that mounting sets and nothing else changes, and the members
    that the operations change. *)

Record Layout : Type := mkLayout {
  fs_type : Z;
  fsid : Z;
  n_fats : Z;
  n_rootdir : Z;
  csize : Z;
  n_fatent : Z;
  fsize : Z;
  volbase : Z;
  fatbase : Z;
  dirbase : Z;
  database : Z
}.

Record FATFS : Type := mkFATFS {
  layout : Layout;
  wflag : Z;
  fsi_flag : Z;
  last_clst : Z;
  free_clst : Z;
  winsect : Z;
  win : list Z
}.

(** The object, the sectors of the card, and how many calls the disk layer has
    served. *)
Record vol : Type := mkvol { fs : FATFS; card : Z -> list Z; calls : nat }.

Definition F : Type -> Type := ST vol.

Definition set_wflag (x : Z) (f : FATFS) : FATFS :=
  mkFATFS (layout f) x (fsi_flag f) (last_clst f) (free_clst f) (winsect f) (win f).

Definition set_fsi_flag (x : Z) (f : FATFS) : FATFS :=
  mkFATFS (layout f) (wflag f) x (last_clst f) (free_clst f) (winsect f) (win f).

Definition set_last_clst (x : Z) (f : FATFS) : FATFS :=
  mkFATFS (layout f) (wflag f) (fsi_flag f) x (free_clst f) (winsect f) (win f).

Definition set_free_clst (x : Z) (f : FATFS) : FATFS :=
  mkFATFS (layout f) (wflag f) (fsi_flag f) (last_clst f) x (winsect f) (win f).

Definition set_winsect (x : Z) (f : FATFS) : FATFS :=
  mkFATFS (layout f) (wflag f) (fsi_flag f) (last_clst f) (free_clst f) x (win f).

Definition set_win (x : list Z) (f : FATFS) : FATFS :=
  mkFATFS (layout f) (wflag f) (fsi_flag f) (last_clst f) (free_clst f) (winsect f) x.

Definition upd_fs (g : FATFS -> FATFS) : F unit :=
  modify (fun s => mkvol (g (fs s)) (card s) (calls s)).

(** [fs->member] of the layout. *)
Definition geo {A} (g : Layout -> A) : F A := gets (fun s => g (layout (fs s))).

(** ** Words in little-endian order *)

Definition ld_word (p : list Z) (o : Z) : result Z :=
  b1 <=! array_get p (o + 1) ;;
  b0 <=! array_get p o ;;
  Ok (u16 (Z.lor (Z.shiftl b1 8) b0)).

Definition ld_dword (p : list Z) (o : Z) : result Z :=
  b3 <=! array_get p (o + 3) ;;
  b2 <=! array_get p (o + 2) ;;
  b1 <=! array_get p (o + 1) ;;
  b0 <=! array_get p o ;;
  Ok (u32 (Z.lor (Z.shiftl (u32 (Z.lor (Z.shiftl (u32 (Z.lor (Z.shiftl b3 8) b2)) 8) b1)) 8) b0)).

Definition st_word (p : list Z) (o v : Z) : result (list Z) :=
  p0 <=! array_set p o (u8 v) ;;
  array_set p0 (o + 1) (u8 (Z.shiftr v 8)).

Definition st_dword (p : list Z) (o v : Z) : result (list Z) :=
  p0 <=! array_set p o (u8 v) ;;
  p1 <=! array_set p0 (o + 1) (u8 (Z.shiftr v 8)) ;;
  p2 <=! array_set p1 (o + 2) (u8 (Z.shiftr (Z.shiftr v 8) 8)) ;;
  array_set p2 (o + 3) (u8 (Z.shiftr (Z.shiftr (Z.shiftr v 8) 8) 8)).

(** ** The disk layer *)

(** [disk_ok k]: does call number [k] return RES_OK (a drive status: without
    STA_NOINIT); [disk_protect k]: does drive status [k] have STA_PROTECT;
    [spoiled k n]: what a failed call [k] leaves in place of sector [n], in the
    buffer (a read) or on the card (a write). *)
Class DiskIo : Type := {
  disk_ok : nat -> bool;
  disk_protect : nat -> bool;
  spoiled : nat -> Z -> list Z
}.

Definition zseq (a n : Z) : list Z := map (fun i => a + Z.of_nat i) (seq 0 (Z.to_nat n)).

Definition slice (l : list Z) (o n : Z) : list Z := firstn (Z.to_nat n) (skipn (Z.to_nat o) l).

Section Window.
Context `{D : DiskIo}.

(** [disk_read(pdrv, buff, sector, count)]: success, and the new contents of
    the buffer. *)
Definition disk_read (sector count : Z) : F (bool * list Z) :=
  fun s =>
    let ok := disk_ok (calls s) in
    Ok ((ok, flat_map (fun n => if ok then card s n else spoiled (calls s) n) (zseq sector count)),
        mkvol (fs s) (card s) (S (calls s))).

(** [disk_write(pdrv, buff, sector, count)]. *)
Definition disk_write (buff : list Z) (sector count : Z) : F bool :=
  fun s =>
    let ok := disk_ok (calls s) in
    Ok (ok, mkvol (fs s)
              (fun n => if (sector <=? n) && (n <? sector + count) then
                          if ok then slice buff ((n - sector) * SS) SS else spoiled (calls s) n
                        else card s n)
              (S (calls s))).

(** [disk_ioctl(pdrv, CTRL_SYNC, 0)]. *)
Definition disk_sync : F bool :=
  fun s => Ok (disk_ok (calls s), mkvol (fs s) (card s) (S (calls s))).

(** [!(disk_status(pdrv) & STA_NOINIT)]. *)
Definition disk_status : F bool :=
  fun s => Ok (disk_ok (calls s), mkvol (fs s) (card s) (S (calls s))).

(** [disk_status] or [disk_initialize]: no STA_NOINIT, and STA_PROTECT. *)
Definition drive_status : F (bool * bool) :=
  fun s => Ok ((disk_ok (calls s), disk_protect (calls s)), mkvol (fs s) (card s) (S (calls s))).

Definition sync_window : F FRESULT :=
  f <- gets fs ;;
  if wflag f =? 0 then ret FR_OK
  else
    ok <- disk_write (win f) (winsect f) 1 ;;
    if ok then
      upd_fs (set_wflag 0) ;;
      when ((u32 (winsect f - fatbase (layout f)) <? fsize (layout f)) && (n_fats (layout f) =? 2))
        (disk_write (win f) (u32 (winsect f + fsize (layout f))) 1 ;; ret tt) ;;
      ret FR_OK
    else ret FR_DISK_ERR.

Definition move_window (sector : Z) : F FRESULT :=
  f <- gets fs ;;
  if sector =? winsect f then ret FR_OK
  else
    res <- sync_window ;;
    match res with
    | FR_OK =>
        '(ok, b) <- disk_read sector 1 ;;
        upd_fs (set_win b) ;;
        if ok then upd_fs (set_winsect sector) ;; ret FR_OK
        else upd_fs (set_winsect 0xFFFFFFFF) ;; ret FR_DISK_ERR
    | r => ret r
    end.

(** The FSInfo sector that sync_fs composes in the window. *)
Definition fsinfo_sector (free last : Z) : result (list Z) :=
  let w := repeat 0 (Z.to_nat SS) in
  w <=! st_word w 510 0xAA55 ;;
  w <=! st_dword w 0 0x41615252 ;;
  w <=! st_dword w 484 0x61417272 ;;
  w <=! st_dword w 488 free ;;
  st_dword w 492 last.

(** The part of sync_fs that writes FSInfo. *)
Definition write_fsinfo (f : FATFS) : F unit :=
  w <- lift (fsinfo_sector (free_clst f) (last_clst f)) ;;
  upd_fs (set_win w) ;;
  upd_fs (set_winsect (u32 (volbase (layout f) + 1))) ;;
  disk_write w (u32 (volbase (layout f) + 1)) 1 ;;
  upd_fs (set_fsi_flag 0).

Definition sync_fs : F FRESULT :=
  res <- sync_window ;;
  match res with
  | FR_OK =>
      f <- gets fs ;;
      when ((fs_type (layout f) =? FS_FAT32) && (fsi_flag f =? 1))
        (write_fsinfo f) ;;
      ok <- disk_sync ;;
      ret (if ok then FR_OK else FR_DISK_ERR)
  | r => ret r
  end.

Definition clst2sect (clst : Z) : F Z :=
  g <- gets (fun s => layout (fs s)) ;;
  let clst := u32 (clst - 2) in
  if u32 (n_fatent g - 2) <=? clst then ret 0
  else ret (u32 (database g + csize g * clst)).

End Window.

(** ** Bytes, sectors and words *)

Create HintDb fat.

Definition byte_at (l : list Z) (i : Z) : Z := nth (Z.to_nat i) l 0.

Definition bytes (l : list Z) : Prop := Forall is_byte l.

Definition is_sector (l : list Z) : Prop := Z.of_nat (length l) = SS /\ bytes l.

Lemma byte_at_get l i : 0 <= i < Z.of_nat (length l) -> array_get l i = Ok (byte_at l i).
Proof. intros H. apply array_get_ok; [lia|]. apply nth_error_nth'. lia. Qed.

Lemma byte_at_set l i j x : 0 <= i < Z.of_nat (length l) -> 0 <= j ->
  byte_at (list_set (Z.to_nat i) x l) j = if j =? i then x else byte_at l j.
Proof.
  intros Hi Hj. unfold byte_at. rewrite list_set_nth by lia.
  destruct (Nat.eqb_spec (Z.to_nat j) (Z.to_nat i)), (Z.eqb_spec j i); auto; lia.
Qed.

Lemma byte_at_byte l i : bytes l -> is_byte (byte_at l i).
Proof.
  intros H. unfold byte_at. destruct (nth_in_or_default (Z.to_nat i) l 0) as [I|E]; [|rewrite E; in_range].
  now apply (proj1 (Forall_forall _ _) H).
Qed.

Lemma bytes_set l i x : is_byte x -> bytes l -> bytes (list_set i x l).
Proof. apply list_set_forall. Qed.

Definition le2 (l : list Z) (o : Z) : Z := byte_at l o + 256 * byte_at l (o + 1).

Definition le4 (l : list Z) (o : Z) : Z :=
  byte_at l o + 256 * (byte_at l (o + 1) + 256 * (byte_at l (o + 2) + 256 * byte_at l (o + 3))).

Lemma le4_range l o : bytes l -> 0 <= le4 l o < 2 ^ 32.
Proof.
  intros B. unfold le4. pose proof (byte_at_byte l o B). pose proof (byte_at_byte l (o + 1) B).
  pose proof (byte_at_byte l (o + 2) B). pose proof (byte_at_byte l (o + 3) B). in_range.
Qed.

Lemma lor8 hi lo : is_byte lo -> Z.lor (Z.shiftl hi 8) lo = 256 * hi + lo.
Proof. intros H. rewrite lor_shift8 by exact H. lia. Qed.

Lemma ld_word_ok l o : bytes l -> 0 <= o -> o + 2 <= Z.of_nat (length l) ->
  ld_word l o = Ok (le2 l o).
Proof.
  intros B Ho Hl. unfold ld_word. rewrite !byte_at_get by lia. cbn [rbind].
  pose proof (byte_at_byte l o B) as B0. pose proof (byte_at_byte l (o + 1) B) as B1.
  rewrite lor8 by exact B0. f_equal. unfold le2, u16.
  rewrite uwrap_small by in_range. lia.
Qed.

Lemma ld_dword_ok l o : bytes l -> 0 <= o -> o + 4 <= Z.of_nat (length l) ->
  ld_dword l o = Ok (le4 l o).
Proof.
  intros B Ho Hl. unfold ld_dword. rewrite !byte_at_get by lia. cbn [rbind].
  pose proof (byte_at_byte l o B) as B0. pose proof (byte_at_byte l (o + 1) B) as B1.
  pose proof (byte_at_byte l (o + 2) B) as B2. pose proof (byte_at_byte l (o + 3) B) as B3.
  unfold u32. f_equal. unfold le4.
  rewrite (lor8 _ (byte_at l (o + 2))), (uwrap_small 32 (_ * _ + byte_at l (o + 2))) by (assumption || in_range).
  rewrite (lor8 _ (byte_at l (o + 1))), (uwrap_small 32 (_ * _ + byte_at l (o + 1))) by (assumption || in_range).
  rewrite lor8, uwrap_small by (assumption || in_range). lia.
Qed.

(** What a store of [n] bytes of [v] at [o] leaves in the array. *)
Definition stored_le (l : list Z) (o n v : Z) (l' : list Z) : Prop :=
  length l' = length l /\ (bytes l -> bytes l') /\
  forall i, 0 <= i ->
    byte_at l' i = if (o <=? i) && (i <? o + n) then (v / 256 ^ (i - o)) mod 256 else byte_at l i.

Lemma u8_byte x : is_byte (u8 x).
Proof. unfold u8. apply uwrap_range. lia. Qed.

Lemma shiftr8 x : Z.shiftr x 8 = x / 256.
Proof. now rewrite Z.shiftr_div_pow2 by lia. Qed.

#[export] Hint Resolve u8_byte bytes_set byte_at_byte : fat.

Ltac byte_cases i o :=
  repeat match goal with
         | |- context [i =? ?k] => destruct (Z.eqb_spec i k) as [->|]
         end;
  repeat match goal with
         | |- context [?a <=? ?b] => destruct (Z.leb_spec a b); try lia
         | |- context [?a <? ?b] => destruct (Z.ltb_spec a b); try lia
         end; cbn [andb];
  repeat match goal with
         | |- context [256 ^ (?k - ?o')] =>
             let e := constr:(k - o') in
             first [replace e with 0 by lia | replace e with 1 by lia
                   | replace e with 2 by lia | replace e with 3 by lia]
         end; cbn [Z.pow Z.pow_pos Pos.iter]; try reflexivity; try lia.

Lemma st_word_ok l o v : 0 <= o -> o + 2 <= Z.of_nat (length l) ->
  exists l', st_word l o v = Ok l' /\ stored_le l o 2 v l'.
Proof.
  intros Ho Hl. unfold st_word.
  rewrite array_set_ok by lia. cbn [rbind].
  rewrite array_set_ok by (rewrite list_set_length; lia).
  eexists. split; [reflexivity|]. unfold stored_le. rewrite !list_set_length. split; [reflexivity|].
  split; [auto with fat|]. intros i Hi.
  rewrite !byte_at_set by (rewrite ?list_set_length; lia). rewrite shiftr8. unfold u8, uwrap.
  change (2 ^ 8) with 256. byte_cases i o; f_equal; dlia.
Qed.

Lemma st_dword_ok l o v : 0 <= o -> o + 4 <= Z.of_nat (length l) ->
  exists l', st_dword l o v = Ok l' /\ stored_le l o 4 v l'.
Proof.
  intros Ho Hl. unfold st_dword.
  do 4 (rewrite array_set_ok by (rewrite ?list_set_length; lia); cbn [rbind]).
  eexists. split; [reflexivity|]. unfold stored_le. rewrite !list_set_length. split; [reflexivity|].
  split; [auto 8 with fat|]. intros i Hi.
  rewrite !byte_at_set by (rewrite ?list_set_length; lia). rewrite !shiftr8. unfold u8, uwrap.
  change (2 ^ 8) with 256. rewrite !Z.div_div by lia. byte_cases i o; f_equal; dlia.
Qed.

(** Reading back what was stored, and what lies beside it. *)
Lemma stored_le_same l o v l' : 0 <= o -> stored_le l o 4 v l' -> le4 l' o = v mod 2 ^ 32.
Proof.
  intros Ho (_ & _ & B). unfold le4. rewrite !B by lia.
  repeat (rewrite (proj2 (Z.leb_le _ _)) by lia; rewrite (proj2 (Z.ltb_lt _ _)) by lia). cbn [andb].
  replace (o - o) with 0 by lia. replace (o + 1 - o) with 1 by lia.
  replace (o + 2 - o) with 2 by lia. replace (o + 3 - o) with 3 by lia.
  change (256 ^ 0) with 1. change (256 ^ 1) with 256. change (256 ^ 2) with 65536.
  change (256 ^ 3) with 16777216. eval_pow. dlia.
Qed.

Lemma stored_le_other l o n v l' i : 0 <= i -> i < o \/ o + n <= i -> stored_le l o n v l' ->
  byte_at l' i = byte_at l i.
Proof.
  intros Hi H (_ & _ & B). rewrite B by exact Hi.
  destruct (Z.leb_spec o i), (Z.ltb_spec i (o + n)); cbn [andb]; auto; lia.
Qed.

Lemma stored_le_sector l o n v l' : stored_le l o n v l' -> is_sector l -> is_sector l'.
Proof. intros (L & B & _) [Ls Bs]. split; [now rewrite L | auto]. Qed.

(** Stores into a sector. *)
Lemma st_word_sector l o v : is_sector l -> 0 <= o <= SS - 2 ->
  exists l', st_word l o v = Ok l' /\ stored_le l o 2 v l' /\ is_sector l'.
Proof.
  intros HS Ho. destruct (st_word_ok l o v) as (l' & E & W); [lia | rewrite (proj1 HS); lia |].
  exists l'. split; [exact E|]. split; [exact W | exact (stored_le_sector _ _ _ _ _ W HS)].
Qed.

Lemma st_dword_sector l o v : is_sector l -> 0 <= o <= SS - 4 ->
  exists l', st_dword l o v = Ok l' /\ stored_le l o 4 v l' /\ is_sector l'.
Proof.
  intros HS Ho. destruct (st_dword_ok l o v) as (l' & E & W); [lia | rewrite (proj1 HS); lia |].
  exists l'. split; [exact E|]. split; [exact W | exact (stored_le_sector _ _ _ _ _ W HS)].
Qed.

(** ** What the card holds, seen through the window *)

Definition MAX_FAT12 : Z := 0xFF5.

Definition MAX_FAT16 : Z := 0xFFF5.

Definition MAX_FAT32 : Z := 0x0FFFFFF5.

Definition MAX_EXFAT : Z := 0x7FFFFFFD.

Definition max_clst (t : Z) : Z :=
  if t =? FS_FAT12 then MAX_FAT12 else if t =? FS_FAT16 then MAX_FAT16
  else if t =? FS_FAT32 then MAX_FAT32 else MAX_EXFAT.

(** Bytes that the entries of the table take. *)
Definition fat_bytes (t n : Z) : Z :=
  if t =? FS_FAT12 then n * 3 / 2 + n mod 2 else if t =? FS_FAT16 then n * 2 else n * 4.

(** The areas of a mounted volume follow one another and fit 32-bit sector
    numbers: FSInfo, the table with its copy, the clusters. *)
Record layout_ok (g : Layout) : Prop := {
  lo_type : 1 <= fs_type g <= 4;
  lo_fats : n_fats g = 1 \/ n_fats g = 2;
  lo_base : 0 <= volbase g < fatbase g;
  lo_info : fs_type g = FS_FAT32 -> volbase g + 1 < fatbase g;
  lo_table : fatbase g + n_fats g * fsize g <= database g;
  lo_data : database g + csize g * (n_fatent g - 2) <= 0xFFFFFFFF;
  lo_csize : exists k, 0 <= k <= 15 /\ csize g = 2 ^ k;
  lo_ent : 2 < n_fatent g <= max_clst (fs_type g) + 2;
  lo_size : fat_bytes (fs_type g) (n_fatent g) <= fsize g * SS
}.

(** Sectors whose contents matter: not the second copy of the table, not
    FSInfo, which are written without looking at the outcome. *)
Definition visible (g : Layout) (n : Z) : Prop :=
  0 <= n < 0xFFFFFFFF /\
  ~ (fatbase g + fsize g <= n < fatbase g + n_fats g * fsize g) /\
  ~ (fs_type g = FS_FAT32 /\ n = volbase g + 1).

Definition view (s : vol) (n : Z) : list Z :=
  if n =? winsect (fs s) then win (fs s) else card s n.

Abbreviation lay s := (layout (fs s)).

(** The window is clean or holds a sector that matters; a clean window agrees
    with the card. *)
Record vol_ok (s : vol) : Prop := {
  vo_layout : layout_ok (lay s);
  vo_win : is_sector (win (fs s));
  vo_card : forall n, is_sector (card s n);
  vo_sect : in_u 32 (winsect (fs s));
  vo_dirty : wflag (fs s) <> 0 -> visible (lay s) (winsect (fs s));
  vo_clean : wflag (fs s) = 0 -> visible (lay s) (winsect (fs s)) ->
             card s (winsect (fs s)) = win (fs s);
  vo_free : in_u 32 (free_clst (fs s));
  vo_last : in_u 32 (last_clst (fs s))
}.

(** From [s] to [s'] the sectors that matter became [d]; the layout and the
    allocation information stayed. *)
Record evolves (d : Z -> list Z) (s s' : vol) : Prop := {
  ev_layout : lay s' = lay s;
  ev_view : forall n, visible (lay s) n -> view s' n = d n;
  ev_calls : (calls s <= calls s')%nat;
  ev_last : last_clst (fs s') = last_clst (fs s);
  ev_free : free_clst (fs s') = free_clst (fs s);
  ev_fsi : fsi_flag (fs s') = fsi_flag (fs s)
}.

Definition same_disk (s s' : vol) : Prop := evolves (view s) s s'.

#[export] Instance same_disk_preorder : PreOrder same_disk.
Proof.
  split.
  - intros s. constructor; auto.
  - intros a b c [L1 V1 C1 E1 E2 E3] [L2 V2 C2 E4 E5 E6]. constructor; try congruence; try lia.
    intros n Hn. rewrite V2 by (now rewrite L1). now apply V1.
Qed.

Lemma evolves_after d s s1 s2 : same_disk s s1 -> evolves d s1 s2 -> evolves d s s2.
Proof.
  intros [L1 V1 C1 E1 E2 E3] [L2 V2 C2 E4 E5 E6]. constructor; try congruence; try lia.
  intros n Hn. apply V2. now rewrite L1.
Qed.

Section WindowSpec.
Context `{D : DiskIo}.

(** A call of the disk layer failed between two states. *)
Definition failed (s s' : vol) : Prop :=
  exists k, (calls s <= k < calls s')%nat /\ disk_ok k = false.

Lemma failed_l a b c : failed a b -> (calls b <= calls c)%nat -> failed a c.
Proof. intros (k & Hk & E) L. exists k. split; [lia | exact E]. Qed.

Lemma failed_r a b c : failed b c -> (calls a <= calls b)%nat -> failed a c.
Proof. intros (k & Hk & E) L. exists k. split; [lia | exact E]. Qed.

(** The disk layer hands out and stores whole sectors of bytes. *)
Class DiskLaws : Prop := { spoiled_sector : forall k n, is_sector (spoiled k n) }.

End WindowSpec.

Arguments DiskLaws D : clear implicits.

Lemma slice_all l : is_sector l -> slice l 0 SS = l.
Proof.
  intros [L _]. unfold slice. change (Z.to_nat 0) with O. cbn [skipn]. apply firstn_all2. lia.
Qed.

Lemma flat_map_one (f : Z -> list Z) n : flat_map f (zseq n 1) = f n.
Proof. change (zseq n 1) with [n + 0]. cbn [flat_map]. now rewrite app_nil_r, Z.add_0_r. Qed.

Lemma fat_bytes_pos t n : 2 < n -> 0 < fat_bytes t n.
Proof.
  intros H. unfold fat_bytes. destruct (t =? FS_FAT12); [dlia|]. destruct (t =? FS_FAT16); lia.
Qed.

Lemma csize_pos g : layout_ok g -> 1 <= csize g <= 2 ^ 15.
Proof.
  intros LO. destruct (lo_csize g LO) as (k & Hk & ->). split; [|apply Z.pow_le_mono_r; lia].
  pose proof (Z.pow_pos_nonneg 2 k). lia.
Qed.

(** The order of the areas, as numbers. *)
Lemma layout_order g : layout_ok g ->
  0 < fsize g /\ fatbase g + fsize g <= fatbase g + n_fats g * fsize g <= database g /\
  database g < 0xFFFFFFFF.
Proof.
  intros LO. pose proof (csize_pos g LO) as C. destruct LO as [T FA B I TA DA _ E SZ].
  pose proof (fat_bytes_pos (fs_type g) (n_fatent g) ltac:(lia)).
  unfold SS in SZ. assert (0 < csize g * (n_fatent g - 2)) by (apply Z.mul_pos_pos; lia).
  destruct FA as [N|N]; rewrite N in *; lia.
Qed.

(** The sector of an entry of the table is one that matters. *)
Lemma n_fatent_range g : layout_ok g -> 2 < n_fatent g < 2 ^ 32 - 1.
Proof.
  intros [T FA B I TA DA _ E SZ]. unfold max_clst, MAX_FAT12, MAX_FAT16, MAX_FAT32, MAX_EXFAT in E. eval_pow.
  destruct (fs_type g =? FS_FAT12), (fs_type g =? FS_FAT16), (fs_type g =? FS_FAT32); lia.
Qed.

Lemma fat_sector_visible g k : layout_ok g -> 0 <= k < fsize g -> visible g (fatbase g + k).
Proof.
  intros LO Hk. pose proof (layout_order g LO). destruct LO as [T FA B I TA DA C E SZ].
  unfold visible. split; [lia|]. split; [lia|]. intros [H1 H2]. specialize (I H1). lia.
Qed.

Lemma in_fat_test g n : layout_ok g -> in_u 32 n ->
  (u32 (n - fatbase g) <? fsize g) = true -> fatbase g <= n < fatbase g + fsize g.
Proof.
  intros LO Hn Hlt. pose proof (layout_order g LO). destruct LO as [T FA B I TA DA C E SZ].
  apply Z.ltb_lt in Hlt. unfold u32, uwrap, in_u in *. eval_pow. dlia.
Qed.

Section WindowLaws.
Context `{D : DiskIo} {DL : DiskLaws D}.

(** A run of the disk layer that ends well, or one that a failed call explains. *)
Definition fails_only_by_disk (r : FRESULT) (s s' : vol) : Prop :=
  r = FR_OK \/ r = FR_DISK_ERR /\ failed s s'.

Lemma failed_now s s' : disk_ok (calls s) = false -> (calls s < calls s')%nat -> failed s s'.
Proof. intros E L. exists (calls s). split; [lia | exact E]. Qed.

(** Writing a sector of the card. *)
Definition put_sector (n : Z) (l : list Z) (c : Z -> list Z) : Z -> list Z :=
  fun m => if m =? n then l else c m.

Lemma disk_write_one l n s : is_sector l ->
  wp (disk_write l n 1) (fun ok s' => fs s' = fs s /\ calls s' = S (calls s) /\
    ok = disk_ok (calls s) /\ (forall m, m <> n -> card s' m = card s m) /\
    is_sector (card s' n) /\ (ok = true -> card s' n = l)) s.
Proof.
  intros Hl. unfold wp, disk_write. cbn [fs calls card].
  rewrite (proj2 (Z.leb_le n n)), (proj2 (Z.ltb_lt n (n + 1))) by lia. cbn [andb].
  replace ((n - n) * SS) with 0 by (unfold SS; lia). rewrite slice_all by exact Hl.
  repeat split; auto.
  - intros m Hm. destruct (Z.leb_spec n m), (Z.ltb_spec m (n + 1)); cbn [andb]; auto; lia.
  - destruct (disk_ok (calls s)); [apply Hl | apply spoiled_sector].
  - destruct (disk_ok (calls s)); [apply Hl | apply spoiled_sector].
  - intros ->. reflexivity.
Qed.

(** Writing sectors other than the one in the window that do not matter, or the
    one in the window itself, changes nothing that is seen. *)
Lemma card_changed w s s' : vol_ok s ->
  fs s' = set_wflag w (fs s) -> (w <> 0 -> wflag (fs s) <> 0) -> (calls s <= calls s')%nat ->
  (forall n, is_sector (card s' n)) ->
  (forall n, visible (lay s) n -> n <> winsect (fs s) -> card s' n = card s n) ->
  (w = 0 -> visible (lay s) (winsect (fs s)) -> card s' (winsect (fs s)) = win (fs s)) ->
  vol_ok s' /\ same_disk s s'.
Proof.
  intros V E W C S K CL. split; constructor; rewrite ?E; cbn; try apply V; auto.
  - intros H. apply V, W, H.
  - intros n Hn. unfold view. rewrite E. cbn. destruct (Z.eqb_spec n (winsect (fs s))); auto.
Qed.

Lemma set_wflag_same f : set_wflag (wflag f) f = f.
Proof. destruct f. reflexivity. Qed.

Lemma mirror_not_visible g n : n_fats g = 2 -> fatbase g <= n < fatbase g + fsize g ->
  ~ visible g (n + fsize g).
Proof. intros E H (_ & M & _). apply M. rewrite E. lia. Qed.

(** Loading sector [n] into a clean window. *)
Lemma fill_window n l s s' : vol_ok s -> wflag (fs s) = 0 -> in_u 32 n -> is_sector l ->
  (visible (lay s) n -> card s n = l) ->
  fs s' = set_winsect n (set_win l (fs s)) -> card s' = card s -> (calls s <= calls s')%nat ->
  vol_ok s' /\ same_disk s s'.
Proof.
  intros V W Hn Hl L E EC C. split; constructor; rewrite ?E, ?EC; cbn; try apply V; auto; try lia.
  intros m Hm. unfold view. rewrite E, EC. cbn. destruct (Z.eqb_spec m n) as [->|].
  - destruct (Z.eqb_spec n (winsect (fs s))) as [->|]; [|symmetry; auto].
    rewrite <- L by assumption. now apply V.
  - destruct (Z.eqb_spec m (winsect (fs s))) as [->|]; [|auto]. now apply V.
Qed.

(** The write to the second copy of the table. *)
Lemma mirror_write f s : vol_ok s -> wflag (fs s) = 0 -> fs s = set_wflag 0 f ->
  wp (when ((u32 (winsect f - fatbase (layout f)) <? fsize (layout f)) && (n_fats (layout f) =? 2))
        (disk_write (win f) (u32 (winsect f + fsize (layout f))) 1 ;; ret tt))
     (fun _ s' => vol_ok s' /\ same_disk s s' /\ fs s' = fs s) s.
Proof.
  intros V W EF. change (winsect f) with (winsect (set_wflag 0 f)).
  change (layout f) with (layout (set_wflag 0 f)). change (win f) with (win (set_wflag 0 f)).
  rewrite <- EF. apply wp_when; intros E; [|split; [exact V | split; reflexivity]].
  apply andb_true_iff in E as [E1 E2]. apply Z.eqb_eq in E2.
  apply in_fat_test in E1; [|apply V..]. pose proof (layout_order _ (vo_layout s V)) as O.
  pose proof (lo_base _ (vo_layout s V)) as B. rewrite E2 in O.
  unfold u32. rewrite uwrap_small by in_range.
  apply wp_bind. wp_use disk_write_one; [apply V|]. intros ok s' (Ef & Ec & _ & Ek & Es & _).
  pose proof (mirror_not_visible _ _ E2 E1) as NV.
  destruct (card_changed (wflag (fs s)) s s') as [V' S'].
  - exact V.
  - now rewrite set_wflag_same.
  - auto.
  - lia.
  - intros n. destruct (Z.eq_dec n (winsect (fs s) + fsize (lay s))) as [->|]; [exact Es|].
    rewrite Ek by assumption. apply V.
  - intros n Hn _. apply Ek. intros ->. exact (NV Hn).
  - intros _ Hv. rewrite Ek by lia. now apply V.
  - split; [exact V'|]. split; [exact S' | exact Ef].
Qed.

(** sync_window: nothing that is seen changes; a status other than FR_OK is that
    of a failed write, after FR_OK the window is clean. *)
Lemma sync_window_wp s : vol_ok s ->
  wp sync_window (fun r s' => vol_ok s' /\ same_disk s s' /\
    winsect (fs s') = winsect (fs s) /\ win (fs s') = win (fs s) /\
    (r = FR_OK /\ wflag (fs s') = 0 \/ r = FR_DISK_ERR /\ failed s s')) s.
Proof.
  intros V. unfold sync_window. wp_norm.
  destruct (Z.eqb_spec (wflag (fs s)) 0) as [W|W].
  { apply wp_ret. split; [exact V|]. split; [reflexivity | auto]. }
  apply wp_bind. wp_use disk_write_one; [apply V|]. intros ok s1 (Ef & Ec & Eo & Ek & Es & Ew).
  assert (forall n, is_sector (card s1 n)) as S1.
  { intros n. destruct (Z.eq_dec n (winsect (fs s))) as [->|]; [exact Es|].
    rewrite Ek by assumption. apply V. }
  destruct ok.
  - unfold upd_fs. wp_norm. rewrite Ef. set (s2 := mkvol _ _ _).
    destruct (card_changed 0 s s2) as [V2 D2]; subst s2; cbn [fs card calls]; auto; try lia.
    wp_use mirror_write; auto. intros _ s3 (V3 & D3 & E3). apply wp_ret. rewrite E3.
    split; [exact V3|]. split; [etransitivity; eassumption | auto].
  - apply wp_ret. destruct (card_changed (wflag (fs s)) s s1) as [V1 D1]; auto; try lia.
    { now rewrite set_wflag_same. }
    rewrite Ef. repeat (split; [auto|]). right. split; [reflexivity|].
    apply failed_now; [now symmetry | lia].
Qed.

(** move_window: whatever the disk layer does, nothing that is seen changes;
    after FR_OK the window holds the sector asked for, another status is that of
    a failed call. *)
Lemma move_window_wp n s : vol_ok s -> in_u 32 n ->
  wp (move_window n) (fun r s' => vol_ok s' /\ same_disk s s' /\
    (r = FR_OK /\ winsect (fs s') = n /\ (visible (lay s) n -> win (fs s') = view s n) \/
     r = FR_DISK_ERR /\ failed s s' /\ (winsect (fs s') = winsect (fs s) \/ winsect (fs s') = 0xFFFFFFFF))) s.
Proof.
  intros V Hn. unfold move_window. wp_norm. unfold view.
  destruct (Z.eqb_spec n (winsect (fs s))) as [E|E].
  { apply wp_ret. split; [exact V|]. split; [reflexivity | auto]. }
  apply wp_bind. wp_use sync_window_wp; [exact V|]. intros r s1 (V1 & D1 & Ew & Ewin & [[-> W]|[-> FL]]).
  2:{ apply wp_ret. auto 7. }
  apply wp_bind. unfold disk_read, wp at 1. rewrite flat_map_one. unfold upd_fs.
  destruct (disk_ok (calls s1)) eqn:Eo; wp_norm; set (s2 := mkvol _ _ _).
  - destruct (fill_window n (card s1 n) s1 s2) as [V2 D2]; auto; try apply V1; [subst s2; cbn; lia|].
    split; [exact V2|]. split; [etransitivity; eassumption|]. left. subst s2. cbn.
    split; [reflexivity|]. split; [reflexivity|]. intros Hv.
    pose proof (ev_view _ _ _ D1 n Hv) as X. unfold view in X. rewrite Ew in X.
    now rewrite (proj2 (Z.eqb_neq _ _) E) in X.
  - destruct (fill_window 0xFFFFFFFF (spoiled (calls s1) n) s1 s2) as [V2 D2]; auto;
      [in_range | apply spoiled_sector | unfold visible; lia | subst s2; cbn; lia |].
    split; [exact V2|]. split; [etransitivity; eassumption|]. right. split; [reflexivity|].
    split; [|subst s2; now right].
    apply (failed_r _ s1); [|apply D1]. apply failed_now; [exact Eo | subst s2; cbn; lia].
Qed.

(** Storing into the window: the sector it holds changes, nothing else. *)
Lemma store_window l s : vol_ok s -> is_sector l -> visible (lay s) (winsect (fs s)) ->
  let s' := mkvol (set_wflag 1 (set_win l (fs s))) (card s) (calls s) in
  vol_ok s' /\ evolves (put_sector (winsect (fs s)) l (view s)) s s'.
Proof.
  intros V Hl Hv. split; constructor; cbn; try apply V; auto; try lia.
  intros n _. unfold view, put_sector. cbn. now destruct (n =? winsect (fs s)).
Qed.

Lemma zero_sector : is_sector (repeat 0 (Z.to_nat SS)).
Proof.
  split; [now rewrite repeat_length|]. apply Forall_forall. intros x Hx.
  apply repeat_spec in Hx as ->. in_range.
Qed.

Lemma fsinfo_sector_ok free last : in_u 32 free -> in_u 32 last ->
  exists w, fsinfo_sector free last = Ok w /\ is_sector w /\ le4 w 488 = free /\ le4 w 492 = last.
Proof.
  intros Hf Hl. unfold fsinfo_sector. pose proof zero_sector as S0.
  edestruct (st_word_sector _ 510 0xAA55 S0) as (w1 & -> & _ & S1); [unfold SS; lia|]. cbn [rbind].
  edestruct (st_dword_sector _ 0 0x41615252 S1) as (w2 & -> & _ & S2); [unfold SS; lia|]. cbn [rbind].
  edestruct (st_dword_sector _ 484 0x61417272 S2) as (w3 & -> & _ & S3); [unfold SS; lia|]. cbn [rbind].
  edestruct (st_dword_sector _ 488 free S3) as (w4 & -> & W4 & S4); [unfold SS; lia|]. cbn [rbind].
  edestruct (st_dword_sector _ 492 last S4) as (w5 & -> & W5 & S5); [unfold SS; lia|].
  exists w5. split; [reflexivity|]. split; [exact S5|]. split.
  - transitivity (le4 w4 488); [|rewrite (fun H => stored_le_same _ _ _ _ H W4) by lia; now apply uwrap_small].
    unfold le4. now rewrite !(fun i H1 H2 => stored_le_other _ _ _ _ _ i H1 H2 W5) by lia.
  - rewrite (fun H => stored_le_same _ _ _ _ H W5) by lia. now apply uwrap_small.
Qed.

(** A clean window hides nothing. *)
Lemma clean_card s n : vol_ok s -> wflag (fs s) = 0 -> visible (lay s) n -> card s n = view s n.
Proof.
  intros V W Hn. unfold view. destruct (Z.eqb_spec n (winsect (fs s))) as [->|]; [now apply V | reflexivity].
Qed.

Lemma write_fsinfo_wp s : vol_ok s -> wflag (fs s) = 0 -> fs_type (lay s) = FS_FAT32 ->
  wp (write_fsinfo (fs s)) (fun _ s' => vol_ok s' /\ lay s' = lay s /\ wflag (fs s') = 0 /\
    (forall n, visible (lay s) n -> view s' n = view s n) /\
    last_clst (fs s') = last_clst (fs s) /\ free_clst (fs s') = free_clst (fs s) /\
    fsi_flag (fs s') = 0 /\ calls s' = S (calls s) /\ winsect (fs s') = volbase (lay s) + 1 /\
    (le4 (card s' (volbase (lay s) + 1)) 488 = free_clst (fs s) /\
     le4 (card s' (volbase (lay s) + 1)) 492 = last_clst (fs s) \/ disk_ok (calls s) = false)) s.
Proof.
  intros V W T. destruct (fsinfo_sector_ok _ _ (vo_free _ V) (vo_last _ V)) as (w & Ew & Sw & W1 & W2).
  unfold write_fsinfo, upd_fs. apply wp_bind. eapply wp_lift; [exact Ew|]. wp_norm. unfold u32.
  pose proof (layout_order _ (vo_layout s V)) as O. pose proof (lo_base _ (vo_layout s V)) as B.
  rewrite uwrap_small by in_range. set (n := volbase (lay s) + 1).
  assert (~ visible (lay s) n) as NV by (intros (_ & _ & H); apply H; auto).
  wp_use disk_write_one; [exact Sw|]. cbn [fs card calls]. intros ok s1 (Ef & Ec & Eo & Ek & Es & Eok).
  wp_norm. cbn [fs card calls].
  assert (forall m, visible (lay s) m -> card s1 m = view s m) as K.
  { intros m Hm. rewrite Ek by (intros ->; auto). now apply clean_card. }
  assert (forall m, is_sector (card s1 m)) as K2.
  { intros m. destruct (Z.eq_dec m n) as [->|]; [exact Es | rewrite Ek by assumption; apply V]. }
  split; [constructor|]; rewrite ?Ef; cbn; try apply V; auto; try (subst n; in_range); try tauto.
  repeat (split; [reflexivity || exact W|]). split.
  { intros m Hm. unfold view at 1. cbn.
    destruct (Z.eqb_spec m n) as [->|]; [contradiction | auto]. }
  repeat (split; [reflexivity || exact W|]). split; [lia|]. split; [reflexivity|]. destruct ok.
  - left. rewrite (Eok eq_refl). auto.
  - right. now symmetry.
Qed.

(** What sync_fs leaves.  The write of FSInfo is the last call but one, before
    CTRL_SYNC. *)
Record synced (s : vol) (r : FRESULT) (s' : vol) : Prop := {
  sy_ok : vol_ok s';
  sy_layout : lay s' = lay s;
  sy_view : forall n, visible (lay s) n -> view s' n = view s n;
  sy_last : last_clst (fs s') = last_clst (fs s);
  sy_free : free_clst (fs s') = free_clst (fs s);
  sy_calls : (calls s <= calls s')%nat;
  sy_win : winsect (fs s') = winsect (fs s) \/ winsect (fs s') = volbase (lay s) + 1;
  sy_status : r = FR_OK \/ r = FR_DISK_ERR /\ failed s s';
  sy_card : r = FR_OK -> forall n, visible (lay s) n -> card s' n = view s n;
  sy_info : r = FR_OK -> fs_type (lay s) = FS_FAT32 -> fsi_flag (fs s) = 1 ->
    fsi_flag (fs s') = 0 /\
    (le4 (card s' (volbase (lay s) + 1)) 488 = free_clst (fs s) /\
     le4 (card s' (volbase (lay s) + 1)) 492 = last_clst (fs s) \/ disk_ok (calls s' - 2) = false)
}.

Lemma disk_sync_wp s s2 : (calls s <= calls s2)%nat -> synced s FR_OK (mkvol (fs s2) (card s2) (S (calls s2))) ->
  wp (ok <- disk_sync ;; ret (if ok then FR_OK else FR_DISK_ERR)) (synced s) s2.
Proof.
  intros C2 [V L W A B C X _ K I]. unfold disk_sync, bind, ret, wp. specialize (K eq_refl). specialize (I eq_refl).
  constructor; auto. destruct (disk_ok (calls s2)) eqn:E; [now left|]. right. split; [reflexivity|].
  apply (failed_r _ s2); [|exact C2]. apply failed_now; [exact E | cbn; lia].
Qed.

(** sync_fs: nothing that is seen changes; after FR_OK every sector that matters
    is on the card itself, and so is FSInfo unless its write failed. *)
Lemma sync_fs_wp s : vol_ok s -> wp sync_fs (synced s) s.
Proof.
  intros V. unfold sync_fs. apply wp_bind. wp_use sync_window_wp; [exact V|].
  intros r s1 (V1 & D1 & X1 & _ & R). destruct D1 as [L1 VW1 C1 A1 B1 I1].
  destruct R as [[-> W]|[-> FL]]; [|apply wp_ret; constructor; auto; discriminate].
  apply wp_bind, wp_gets, wp_bind. apply wp_when; intros E.
  - apply andb_true_iff in E as [E1 E2]. apply Z.eqb_eq in E1, E2.
    wp_use write_fsinfo_wp; auto. rewrite L1, A1, B1. intros _ s2 (V2 & L2 & W2 & VW2 & A2 & B2 & I2 & C2 & X2 & FI).
    assert (forall n, visible (lay s) n -> view s2 n = view s n) as VW
      by (intros n Hn; rewrite VW2 by exact Hn; now apply VW1).
    apply disk_sync_wp; [lia|]. constructor; cbn; auto; try lia; [now destruct V2 | |].
    + intros _ n Hn. rewrite clean_card by (rewrite ?L2; auto). now apply VW.
    + intros _ _ _. split; [exact I2|]. destruct FI as [FI|FI]; [now left|].
      right. rewrite C2. cbn. now rewrite Nat.sub_0_r.
  - apply disk_sync_wp; [exact C1|]. constructor; cbn; auto; try lia; [now destruct V1 | |].
    + intros _ n Hn. rewrite clean_card by (rewrite ?L1; auto). now apply VW1.
    + intros _ E1 E2. rewrite L1, I1, E1, E2 in E. discriminate E.
Qed.

(** clst2sect of a cluster of the volume is its first sector, of anything else 0. *)
Lemma clst2sect_wp c s : layout_ok (lay s) -> in_u 32 c ->
  wp (clst2sect c) (fun r s' => s' = s /\
    r = if (2 <=? c) && (c <? n_fatent (lay s))
        then database (lay s) + csize (lay s) * (c - 2) else 0) s.
Proof.
  intros LO Hc. unfold clst2sect. wp_norm. pose proof (layout_order _ LO). pose proof (csize_pos _ LO) as CS.
  destruct LO as [T FA B I TA DA _ E SZ]. unfold u32. set (g := lay s) in *.
  assert (n_fatent g < 2 ^ 32) as HN.
  { unfold max_clst, MAX_FAT12, MAX_FAT16, MAX_FAT32, MAX_EXFAT in E. eval_pow.
    destruct (fs_type g =? FS_FAT12), (fs_type g =? FS_FAT16), (fs_type g =? FS_FAT32); lia. }
  rewrite (uwrap_small 32 (n_fatent g - 2)) by in_range.
  destruct (Z.leb_spec 2 c), (Z.ltb_spec c (n_fatent g)); cbn [andb].
  - rewrite (uwrap_small 32 (c - 2)) by in_range. destruct (Z.leb_spec (n_fatent g - 2) (c - 2)); [lia|].
    apply wp_ret. split; [reflexivity|]. apply uwrap_small. unfold in_u. eval_pow. nia.
  - rewrite (uwrap_small 32 (c - 2)) by in_range. destruct (Z.leb_spec (n_fatent g - 2) (c - 2)); [|lia].
    now apply wp_ret.
  - replace (uwrap 32 (c - 2)) with (c - 2 + 2 ^ 32) by (unfold uwrap, in_u in *; eval_pow; dlia).
    destruct (Z.leb_spec (n_fatent g - 2) (c - 2 + 2 ^ 32)); [|unfold in_u in Hc; lia]. now apply wp_ret.
  - lia.
Qed.

End WindowLaws.
