(* ===== verification/FatTable.v ===== *)
(** * ext/fatfs/src/ff.c: reading and writing entries of the allocation table

    get_fat and put_fat on the four table formats: 12-bit entries that share
    bytes and may straddle two sectors, 16-bit, 32-bit (of which 28 count) and
    exFAT.  The table is read and written through the window of [FatVol]. *)

From Stdlib Require Import ZArith Bool List Lia.
From Stdlib Require Import Classes.RelationClasses.
From S2P Require Import Prelude FatVol.
Import ListNotations.
Local Open Scope Z_scope.
Local Open Scope fw_scope.

(** Object ID and allocation information. *)
Record FFOBJID : Type := mkFFOBJID {
  o_fs : bool;      (* obj.fs is not null *)
  o_id : Z;
  attr : Z;
  stat : Z;
  sclust : Z;
  objsize : Z;
  n_cont : Z;
  n_frag : Z
}.

Definition set_stat (x : Z) (o : FFOBJID) : FFOBJID :=
  mkFFOBJID (o_fs o) (o_id o) (attr o) x (sclust o) (objsize o) (n_cont o) (n_frag o).

Definition set_o_fs (x : bool) (o : FFOBJID) : FFOBJID :=
  mkFFOBJID x (o_id o) (attr o) (stat o) (sclust o) (objsize o) (n_cont o) (n_frag o).

Definition set_sclust (x : Z) (o : FFOBJID) : FFOBJID :=
  mkFFOBJID (o_fs o) (o_id o) (attr o) (stat o) x (objsize o) (n_cont o) (n_frag o).

Definition set_objsize (x : Z) (o : FFOBJID) : FFOBJID :=
  mkFFOBJID (o_fs o) (o_id o) (attr o) (stat o) (sclust o) x (n_cont o) (n_frag o).

Definition set_n_cont (x : Z) (o : FFOBJID) : FFOBJID :=
  mkFFOBJID (o_fs o) (o_id o) (attr o) (stat o) (sclust o) (objsize o) x (n_frag o).

Definition set_n_frag (x : Z) (o : FFOBJID) : FFOBJID :=
  mkFFOBJID (o_fs o) (o_id o) (attr o) (stat o) (sclust o) (objsize o) (n_cont o) x.

(** [fs->win[i]] and [fs->win[i] = b], the latter with [fs->wflag = 1]. *)
Definition win_byte (i : Z) : F Z := w <- gets (fun s => win (fs s)) ;; lift (array_get w i).

Definition put_win (w : list Z) : F unit := upd_fs (set_win w) ;; upd_fs (set_wflag 1).

Definition set_win_byte (i b : Z) : F unit :=
  w <- gets (fun s => win (fs s)) ;; w' <- lift (array_set w i b) ;; put_win w'.

Definition odd1 (c : Z) : bool := negb (Z.land c 1 =? 0).

Section Table.
Context `{D : DiskIo}.

Definition get_fat (obj : FFOBJID) (clst : Z) : F Z :=
  g <- gets (fun s => layout (fs s)) ;;
  if (clst <? 2) || (n_fatent g <=? clst) then ret 1
  else if fs_type g =? FS_FAT12 then
    let bc := u32 (clst + clst / 2) in
    r <- move_window (u32 (fatbase g + bc / SS)) ;;
    match r with
    | FR_OK =>
        wc <- win_byte (bc mod SS) ;;
        let bc := u32 (bc + 1) in
        r <- move_window (u32 (fatbase g + bc / SS)) ;;
        match r with
        | FR_OK =>
            b <- win_byte (bc mod SS) ;;
            let wc := Z.lor wc (Z.shiftl b 8) in
            ret (if odd1 clst then Z.shiftr wc 4 else Z.land wc 0xFFF)
        | _ => ret 0xFFFFFFFF
        end
    | _ => ret 0xFFFFFFFF
    end
  else if fs_type g =? FS_FAT16 then
    r <- move_window (u32 (fatbase g + clst / (SS / 2))) ;;
    match r with
    | FR_OK => w <- gets (fun s => win (fs s)) ;; lift (ld_word w (u32 (clst * 2) mod SS))
    | _ => ret 0xFFFFFFFF
    end
  else if fs_type g =? FS_FAT32 then
    r <- move_window (u32 (fatbase g + clst / (SS / 4))) ;;
    match r with
    | FR_OK =>
        w <- gets (fun s => win (fs s)) ;;
        v <- lift (ld_dword w (u32 (clst * 4) mod SS)) ;;
        ret (Z.land v 0x0FFFFFFF)
    | _ => ret 0xFFFFFFFF
    end
  else if (fs_type g =? FS_EXFAT) && negb (objsize obj =? 0) then
    let cofs := u32 (clst - sclust obj) in
    let clen := u32 ((objsize obj - 1) / SS) / csize g in
    if (stat obj =? 2) && (cofs <=? clen) then
      ret (if cofs =? clen then 0x7FFFFFFF else u32 (clst + 1))
    else if (stat obj =? 3) && (cofs <? n_cont obj) then ret (u32 (clst + 1))
    else if negb (stat obj =? 2) then
      if negb (n_frag obj =? 0) then ret 0x7FFFFFFF
      else
        r <- move_window (u32 (fatbase g + clst / (SS / 4))) ;;
        match r with
        | FR_OK =>
            w <- gets (fun s => win (fs s)) ;;
            v <- lift (ld_dword w (u32 (clst * 4) mod SS)) ;;
            ret (Z.land v 0x7FFFFFFF)
        | _ => ret 0xFFFFFFFF
        end
    else ret 1
  else ret 1.

Definition put_fat (clst val : Z) : F FRESULT :=
  g <- gets (fun s => layout (fs s)) ;;
  if (2 <=? clst) && (clst <? n_fatent g) then
    if fs_type g =? FS_FAT12 then
      let bc := u32 (clst + clst / 2) in
      r <- move_window (u32 (fatbase g + bc / SS)) ;;
      match r with
      | FR_OK =>
          p <- win_byte (bc mod SS) ;;
          set_win_byte (bc mod SS)
            (if odd1 clst then u8 (Z.lor (Z.land p 0x0F) (Z.shiftl (u8 val) 4)) else u8 val) ;;
          let bc := u32 (bc + 1) in
          r <- move_window (u32 (fatbase g + bc / SS)) ;;
          match r with
          | FR_OK =>
              p <- win_byte (bc mod SS) ;;
              set_win_byte (bc mod SS)
                (if odd1 clst then u8 (Z.shiftr val 4)
                 else u8 (Z.lor (Z.land p 0xF0) (Z.land (u8 (Z.shiftr val 8)) 0x0F))) ;;
              ret FR_OK
          | r => ret r
          end
      | r => ret r
      end
    else if fs_type g =? FS_FAT16 then
      r <- move_window (u32 (fatbase g + clst / (SS / 2))) ;;
      match r with
      | FR_OK =>
          w <- gets (fun s => win (fs s)) ;;
          w' <- lift (st_word w (u32 (clst * 2) mod SS) (u16 val)) ;;
          put_win w' ;; ret FR_OK
      | r => ret r
      end
    else if (fs_type g =? FS_FAT32) || (fs_type g =? FS_EXFAT) then
      r <- move_window (u32 (fatbase g + clst / (SS / 4))) ;;
      match r with
      | FR_OK =>
          w <- gets (fun s => win (fs s)) ;;
          v <- (if fs_type g =? FS_EXFAT then ret val
                else old <- lift (ld_dword w (u32 (clst * 4) mod SS)) ;;
                     ret (Z.lor (Z.land val 0x0FFFFFFF) (Z.land old 0xF0000000))) ;;
          w' <- lift (st_dword w (u32 (clst * 4) mod SS) v) ;;
          put_win w' ;; ret FR_OK
      | r => ret r
      end
    else ret FR_INT_ERR
  else ret FR_INT_ERR.

End Table.

(** ** The table as a function from cluster numbers to entries *)

(** Byte [k] of the table. *)
Definition fat_byte (s : vol) (k : Z) : Z :=
  byte_at (view s (fatbase (lay s) + k / SS)) (k mod SS).

Definition fat_word (s : vol) (k : Z) : Z := fat_byte s k + 256 * fat_byte s (k + 1).

Definition fat_entry (s : vol) (c : Z) : Z :=
  let t := fs_type (lay s) in
  if t =? FS_FAT12 then
    let w := fat_word s (c + c / 2) in if Z.odd c then w / 16 else w mod 4096
  else if t =? FS_FAT16 then fat_word s (2 * c)
  else (fat_word s (4 * c) + 65536 * fat_word s (4 * c + 2)) mod (if t =? FS_FAT32 then 2 ^ 28 else 2 ^ 31).

(** What an entry becomes when [v] is written to it. *)
Definition entry_of (t v : Z) : Z :=
  v mod (if t =? FS_FAT12 then 2 ^ 12 else if t =? FS_FAT16 then 2 ^ 16
         else if t =? FS_FAT32 then 2 ^ 28 else 2 ^ 31).

(** A cluster number of the volume. *)
Definition cluster (g : Layout) (c : Z) : Prop := 2 <= c < n_fatent g.

(** The sectors of the clusters. *)
Definition in_data (g : Layout) (n : Z) : Prop := database g <= n < database g + csize g * (n_fatent g - 2).

(** The window has not come to stand on a sector of the clusters. *)
Definition stays (s s' : vol) : Prop :=
  in_data (lay s) (winsect (fs s')) -> winsect (fs s') = winsect (fs s).

(** Nothing that is seen changed; the window moved over the table only. *)
Record quiet (s s' : vol) : Prop := { qu_disk : same_disk s s'; qu_stays : stays s s' }.

Lemma quiet_layout {s s'} : quiet s s' -> lay s' = lay s.
Proof. intros H. apply H. Qed.

Lemma stays_trans s s1 s2 : lay s1 = lay s -> stays s s1 -> stays s1 s2 -> stays s s2.
Proof.
  unfold stays. intros L H1 H2 I. rewrite L in H2. rewrite (H2 I). apply H1. rewrite <- (H2 I). exact I.
Qed.

#[export] Instance quiet_preorder : PreOrder quiet.
Proof.
  split.
  - intros s. split; [reflexivity | intros _; reflexivity].
  - intros a b c [D1 S1] [D2 S2]. split; [etransitivity; eassumption|].
    apply (stays_trans a b); auto. apply D1.
Qed.

Definition in_table (g : Layout) (k : Z) : Prop := 0 <= k < fsize g * SS.

(** From [s] to [s'] the bytes of the table became [nb]; the other sectors that
    matter, the layout and the allocation information stayed. *)
Record touches (nb : Z -> Z) (s s' : vol) : Prop := {
  tc_layout : lay s' = lay s;
  tc_bytes : forall k, in_table (lay s) k -> fat_byte s' k = nb k;
  tc_rest : forall n, visible (lay s) n -> ~ (fatbase (lay s) <= n < fatbase (lay s) + fsize (lay s)) ->
            view s' n = view s n;
  tc_calls : (calls s <= calls s')%nat;
  tc_last : last_clst (fs s') = last_clst (fs s);
  tc_free : free_clst (fs s') = free_clst (fs s);
  tc_fsi : fsi_flag (fs s') = fsi_flag (fs s);
  tc_stays : stays s s'
}.

Section TableLaws.
Context `{D : DiskIo} {DL : DiskLaws D}.

Lemma table_sector g k : in_table g k -> 0 <= k / SS < fsize g.
Proof. unfold in_table, SS. intros H. dlia. Qed.

Lemma touches_same s s' : vol_ok s -> quiet s s' -> touches (fat_byte s) s s'.
Proof.
  intros V [[L VW C A B I] ST]. constructor; auto. intros k Hk. unfold fat_byte. rewrite L, VW; [reflexivity|].
  apply fat_sector_visible; [apply V | now apply table_sector].
Qed.

Lemma touches_trans nb1 nb2 s s1 s2 : touches nb1 s s1 -> touches nb2 s1 s2 -> touches nb2 s s2.
Proof.
  intros [L1 B1 R1 C1 A1 F1 I1 W1] [L2 B2 R2 C2 A2 F2 I2 W2]. pose proof (stays_trans _ _ _ L1 W1 W2).
  rewrite L1 in *. constructor; try congruence; try lia; auto. intros n Hn Ht. rewrite R2 by assumption. auto.
Qed.

(** Moving the window to the sector of byte [k] of the table. *)
Lemma table_window k n s : vol_ok s -> in_table (lay s) k -> n = fatbase (lay s) + k / SS ->
  wp (move_window (u32 n)) (fun r s' => vol_ok s' /\ quiet s s' /\
    (r = FR_OK /\ winsect (fs s') = n \/ r = FR_DISK_ERR /\ failed s s')) s.
Proof.
  intros V Hk ->. pose proof (table_sector _ _ Hk) as T.
  pose proof (layout_order _ (vo_layout s V)) as O. pose proof (lo_base _ (vo_layout s V)) as B.
  unfold u32. rewrite uwrap_small by in_range.
  wp_use move_window_wp; [exact V | in_range |]. intros r s' (V' & S' & R).
  split; [exact V'|]. split; [split; [exact S'|] | destruct R as [(-> & W & _)|(-> & FL & _)]; auto].
  unfold stays, in_data. pose proof (lo_data _ (vo_layout s V)).
  destruct R as [(_ & -> & _)|(_ & _ & [E|E])]; [lia | auto | rewrite E; lia].
Qed.

(** A byte of the window is a byte of the table. *)
Lemma win_fat_byte s k : winsect (fs s) = fatbase (lay s) + k / SS ->
  byte_at (win (fs s)) (k mod SS) = fat_byte s k.
Proof. intros E. unfold fat_byte, view. now rewrite <- E, Z.eqb_refl. Qed.

Lemma win_byte_wp i s : vol_ok s -> 0 <= i < SS ->
  wp (win_byte i) (fun b s' => s' = s /\ b = byte_at (win (fs s)) i) s.
Proof.
  intros V Hi. unfold win_byte. wp_norm. eapply wp_lift; [|auto].
  apply byte_at_get. now rewrite (proj1 (vo_win s V)).
Qed.

(** Writing the window back into the table. *)
Lemma put_win_wp k w nb s : vol_ok s -> in_table (lay s) k -> is_sector w ->
  winsect (fs s) = fatbase (lay s) + k / SS ->
  (forall j, in_table (lay s) j ->
     nb j = if j / SS =? k / SS then byte_at w (j mod SS) else fat_byte s j) ->
  wp (put_win w) (fun _ s' => vol_ok s' /\ touches nb s s') s.
Proof.
  intros V Hk Hw E N. unfold put_win, upd_fs. wp_norm.
  pose proof (table_sector _ _ Hk) as T.
  assert (visible (lay s) (winsect (fs s))) as VI by (rewrite E; apply fat_sector_visible; [apply V | exact T]).
  destruct (store_window w s V Hw VI) as [V' [L VW C A B I]]. split; [exact V'|].
  constructor; auto; [| |now intros _].
  - intros j Hj. rewrite N by exact Hj. unfold fat_byte, view at 1. cbn. unfold view.
    rewrite E. pose proof (table_sector _ _ Hj).
    destruct (Z.eqb_spec (fatbase (lay s) + j / SS) (fatbase (lay s) + k / SS)), (Z.eqb_spec (j / SS) (k / SS));
      auto; lia.
  - intros n Hn Ht. rewrite VW by exact Hn. unfold put_sector.
    destruct (Z.eqb_spec n (winsect (fs s))); [lia | reflexivity].
Qed.

Lemma set_win_byte_wp k b s : vol_ok s -> in_table (lay s) k -> is_byte b ->
  winsect (fs s) = fatbase (lay s) + k / SS ->
  wp (set_win_byte (k mod SS) b)
     (fun _ s' => vol_ok s' /\ touches (fun j => if j =? k then b else fat_byte s j) s s') s.
Proof.
  intros V Hk Hb E. unfold set_win_byte. wp_norm. pose proof (vo_win s V) as [LW BW].
  assert (0 <= k mod SS < SS) as M by (apply Z.mod_pos_bound; unfold SS; lia).
  eapply wp_lift; [apply array_set_ok; now rewrite LW|].
  eapply put_win_wp; eauto.
  - split; [now rewrite list_set_length | auto with fat].
  - intros j Hj. assert (0 <= j mod SS) by (apply Z.mod_pos_bound; unfold SS; lia).
    rewrite byte_at_set by (rewrite ?LW; auto).
    destruct (Z.eqb_spec j k) as [->|NE]; [now rewrite !Z.eqb_refl|].
    destruct (Z.eqb_spec (j / SS) (k / SS)) as [E1|]; [|reflexivity].
    destruct (Z.eqb_spec (j mod SS) (k mod SS)) as [E2|]; [exfalso; unfold SS in *; dlia|].
    symmetry. apply win_fat_byte. congruence.
Qed.

(** [n] little-endian bytes of [v] at [k]. *)
Definition spliced (k n v : Z) (nb : Z -> Z) (j : Z) : Z :=
  if (k <=? j) && (j <? k + n) then (v / 256 ^ (j - k)) mod 256 else nb j.

Lemma spliced_in k n v nb i : 0 <= i < n -> spliced k n v nb (k + i) = (v / 256 ^ i) mod 256.
Proof.
  intros H. unfold spliced. rewrite (proj2 (Z.leb_le _ _)), (proj2 (Z.ltb_lt _ _)) by lia. cbn [andb].
  do 3 f_equal. lia.
Qed.

Lemma spliced_at k n v nb : 0 < n -> spliced k n v nb k = v mod 256.
Proof.
  intros H. rewrite <- (Z.add_0_r k) at 2. rewrite spliced_in by lia. now rewrite Z.pow_0_r, Z.div_1_r.
Qed.

Lemma spliced_out k n v nb j : j < k \/ k + n <= j -> spliced k n v nb j = nb j.
Proof.
  intros H. unfold spliced. destruct (Z.leb_spec k j), (Z.ltb_spec j (k + n)); cbn [andb]; auto; lia.
Qed.

(** A stored word or double word that lies in one sector. *)
Lemma put_stored_wp k n v w s : vol_ok s -> in_table (lay s) k -> 0 < n -> k mod SS + n <= SS ->
  winsect (fs s) = fatbase (lay s) + k / SS ->
  is_sector w -> stored_le (win (fs s)) (k mod SS) n v w ->
  wp (put_win w) (fun _ s' => vol_ok s' /\
    touches (spliced k n v (fat_byte s)) s s') s.
Proof.
  intros V Hk Hn Hf E Hw (_ & _ & B). eapply put_win_wp; eauto. intros j Hj. unfold spliced.
  assert (0 <= j mod SS /\ 0 <= k mod SS) as [M1 M2] by (split; apply Z.mod_pos_bound; unfold SS; lia).
  rewrite B by exact M1. pose proof (Z.div_mod j SS ltac:(unfold SS; lia)).
  pose proof (Z.div_mod k SS ltac:(unfold SS; lia)). unfold SS in *.
  destruct (Z.eqb_spec (j / 512) (k / 512)) as [E1|N1].
  - rewrite win_fat_byte by (unfold SS; congruence).
    replace (k <=? j) with (k mod 512 <=? j mod 512)
      by (destruct (Z.leb_spec (k mod 512) (j mod 512)), (Z.leb_spec k j); auto; lia).
    replace (j <? k + n) with (j mod 512 <? k mod 512 + n)
      by (destruct (Z.ltb_spec (j mod 512) (k mod 512 + n)), (Z.ltb_spec j (k + n)); auto; lia).
    replace (j mod 512 - k mod 512) with (j - k) by lia. reflexivity.
  - destruct (Z.leb_spec k j), (Z.ltb_spec j (k + n)); cbn [andb]; auto. exfalso. dlia.
Qed.

(** Where the entry of a cluster lies. *)
Lemma entry12_place g c : layout_ok g -> fs_type g = FS_FAT12 -> cluster g c ->
  c < 0xFF7 /\ in_table g (c + c / 2) /\ in_table g (c + c / 2 + 1).
Proof.
  intros [T FA B I TA DA CS E SZ] Et Hc. unfold cluster, in_table in *. rewrite Et in *.
  change (max_clst FS_FAT12) with 0xFF5 in E.
  change (fat_bytes FS_FAT12 (n_fatent g)) with (n_fatent g * 3 / 2 + n_fatent g mod 2) in SZ.
  unfold SS in *. repeat split; dlia.
Qed.

Lemma entry16_place g c : layout_ok g -> fs_type g = FS_FAT16 -> cluster g c ->
  in_table g (2 * c) /\ in_table g (2 * c + 1).
Proof.
  intros [T FA B I TA DA CS E SZ] Et Hc. unfold cluster, in_table in *. rewrite Et in *.
  change (fat_bytes FS_FAT16 (n_fatent g)) with (n_fatent g * 2) in SZ. unfold SS in *. lia.
Qed.

Lemma entry32_place g c : layout_ok g -> fs_type g = FS_FAT32 \/ fs_type g = FS_EXFAT -> cluster g c ->
  forall i, 0 <= i < 4 -> in_table g (4 * c + i).
Proof.
  intros [T FA B I TA DA CS E SZ] Et Hc i Hi. unfold cluster, in_table in *.
  replace (fat_bytes (fs_type g) (n_fatent g)) with (n_fatent g * 4) in SZ by (destruct Et as [-> | ->]; reflexivity).
  unfold SS in *. lia.
Qed.

(** Unsigned offsets of the code as numbers. *)
Lemma offset2 c : u32 (c * 2) mod SS = (2 * c) mod SS /\ c / (SS / 2) = 2 * c / SS /\ (2 * c) mod SS + 2 <= SS.
Proof. unfold u32, uwrap, SS. eval_pow. change (512 / 2) with 256. repeat split; dlia. Qed.

Lemma offset4 c : u32 (c * 4) mod SS = (4 * c) mod SS /\ c / (SS / 4) = 4 * c / SS /\ (4 * c) mod SS + 4 <= SS.
Proof. unfold u32, uwrap, SS. eval_pow. change (512 / 4) with 128. repeat split; dlia. Qed.

Lemma fat_byte_byte s k : vol_ok s -> is_byte (fat_byte s k).
Proof.
  intros V. unfold fat_byte, view. apply byte_at_byte.
  destruct (_ =? _); [apply (vo_win s V) | apply (vo_card s V)].
Qed.

Lemma odd1_odd c : odd1 c = Z.odd c.
Proof.
  unfold odd1. change 1 with (2 ^ 1 - 1). rewrite land_ones_mod by lia. change (2 ^ 1) with 2.
  rewrite Zmod_odd. now destruct (Z.odd c).
Qed.

Lemma same_byte s s' k : vol_ok s -> quiet s s' -> in_table (lay s) k -> fat_byte s' k = fat_byte s k.
Proof. intros V S H. now apply (tc_bytes _ _ _ (touches_same s s' V S)). Qed.

(** The words of the table in the window. *)
Lemma win_le2 s k : winsect (fs s) = fatbase (lay s) + k / SS -> k mod SS + 2 <= SS ->
  le2 (win (fs s)) (k mod SS) = fat_word s k.
Proof.
  intros E H. unfold le2, fat_word. rewrite <- !win_fat_byte by (unfold SS in *; rewrite E; f_equal; dlia).
  do 3 f_equal. unfold SS in *. dlia.
Qed.

Lemma win_le4 s k : winsect (fs s) = fatbase (lay s) + k / SS -> k mod SS + 4 <= SS ->
  le4 (win (fs s)) (k mod SS) = fat_word s k + 65536 * fat_word s (k + 2).
Proof.
  intros E H. rewrite <- (win_le2 s k E), <- (win_le2 s (k + 2)) by (unfold SS in *; try rewrite E; dlia).
  unfold le4, le2. replace ((k + 2) mod SS) with (k mod SS + 2) by (unfold SS in *; dlia).
  rewrite <- !Z.add_assoc. change (2 + 1) with 3. lia.
Qed.

Definition clusterb (g : Layout) (c : Z) : bool := (2 <=? c) && (c <? n_fatent g).

Lemma clusterb_spec g c : clusterb g c = true <-> cluster g c.
Proof. unfold clusterb, cluster. rewrite andb_true_iff, Z.leb_le, Z.ltb_lt. reflexivity. Qed.

Lemma out_of_range g c : (c <? 2) || (n_fatent g <=? c) = negb (clusterb g c).
Proof.
  unfold clusterb. destruct (Z.ltb_spec c 2), (Z.leb_spec 2 c), (Z.leb_spec (n_fatent g) c), (Z.ltb_spec c (n_fatent g));
    cbn; auto; lia.
Qed.

(** What get_fat leaves: nothing seen has changed, and the value is [e] or that
    of a failed call. *)
Definition reads (e : Z) (s : vol) (v : Z) (s' : vol) : Prop :=
  vol_ok s' /\ quiet s s' /\ (v = e \/ v = 0xFFFFFFFF /\ failed s s').

Lemma get_fat12 obj c s : vol_ok s -> fs_type (lay s) = FS_FAT12 -> cluster (lay s) c ->
  wp (get_fat obj c) (reads (fat_entry s c) s) s.
Proof.
  intros V T Hc. destruct (entry12_place _ _ (vo_layout s V) T Hc) as (Hs & P0 & P1).
  unfold get_fat. wp_norm. rewrite out_of_range, (proj2 (clusterb_spec _ _) Hc), T. cbn [negb Z.eqb FS_FAT12 Pos.eqb].
  unfold cluster in Hc. set (k := c + c / 2) in *.
  assert (u32 k = k) as Ek by (apply uwrap_small; subst k; in_range).
  assert (u32 (k + 1) = k + 1) as Ek1 by (apply uwrap_small; subst k; in_range).
  rewrite Ek, Ek1.
  apply wp_bind. wp_use (table_window k); auto. intros r s1 (V1 & S1 & [[-> W1]|[-> FL]]); [|apply wp_ret; split; auto].
  apply wp_bind. wp_use win_byte_wp; [exact V1 | apply Z.mod_pos_bound; reflexivity |]. intros b0 s1' [-> ->].
  pose proof (quiet_layout S1) as L1.
  rewrite win_fat_byte, (same_byte s s1) by (rewrite ?L1; auto).
  apply wp_bind. wp_use (table_window (k + 1)); rewrite ?L1; auto. intros r s2 (V2 & S2 & [[-> W2]|[-> FL]]).
  2:{ apply wp_ret. split; [exact V2|]. split; [etransitivity; eassumption|].
      right. split; [reflexivity|]. apply (failed_r _ s1); [exact FL | apply S1]. }
  apply wp_bind. wp_use win_byte_wp; [exact V2 | apply Z.mod_pos_bound; reflexivity |]. intros b1 s2' [-> ->].
  pose proof (quiet_layout S2) as L2.
  assert (quiet s s2) as S12 by (etransitivity; eassumption).
  rewrite win_fat_byte, (same_byte s s2) by (rewrite ?L2, ?L1; auto).
  apply wp_ret. split; [exact V2|]. split; [exact S12|]. left.
  pose proof (fat_byte_byte s k V) as B0. pose proof (fat_byte_byte s (k + 1) V) as B1.
  unfold fat_entry. rewrite T. cbn [Z.eqb FS_FAT12 Pos.eqb]. unfold fat_word. fold k.
  rewrite Z.lor_comm, lor8, odd1_odd by exact B0. rewrite (Z.add_comm (256 * _)).
  destruct (Z.odd c); [now rewrite Z.shiftr_div_pow2 by lia | now rewrite (land_ones_mod _ 12) by lia].
Qed.

Lemma get_fat16 obj c s : vol_ok s -> fs_type (lay s) = FS_FAT16 -> cluster (lay s) c ->
  wp (get_fat obj c) (reads (fat_entry s c) s) s.
Proof.
  intros V T Hc. destruct (entry16_place _ _ (vo_layout s V) T Hc) as (P0 & P1).
  unfold get_fat. wp_norm. rewrite out_of_range, (proj2 (clusterb_spec _ _) Hc), T.
  cbn [negb Z.eqb FS_FAT12 FS_FAT16 Pos.eqb]. destruct (offset2 c) as (O1 & O2 & O3). rewrite O1, O2.
  apply wp_bind. wp_use (table_window (2 * c)); auto. intros r s1 (V1 & S1 & [[-> W1]|[-> FL]]); [|apply wp_ret; split; auto].
  pose proof (quiet_layout S1) as L1. wp_norm. pose proof (vo_win s1 V1) as [LW BW].
  eapply wp_lift.
  - apply ld_word_ok; [exact BW | apply Z.mod_pos_bound; reflexivity | now rewrite LW].
  - split; [exact V1|]. split; [exact S1|]. left. rewrite win_le2 by (rewrite ?L1; auto).
    unfold fat_entry, fat_word. rewrite T, !(same_byte s s1) by auto. reflexivity.
Qed.

(** The double word of a cluster, masked to its low [b] bits. *)
Lemma read_dword c b s : vol_ok s -> fs_type (lay s) = FS_FAT32 \/ fs_type (lay s) = FS_EXFAT ->
  cluster (lay s) c -> 0 <= b ->
  wp (r <- move_window (u32 (fatbase (lay s) + c / (SS / 4))) ;;
      match r with
      | FR_OK =>
          w <- gets (fun s => win (fs s)) ;;
          v <- lift (ld_dword w (u32 (c * 4) mod SS)) ;;
          ret (Z.land v (2 ^ b - 1))
      | _ => ret 0xFFFFFFFF
      end)
     (reads ((fat_word s (4 * c) + 65536 * fat_word s (4 * c + 2)) mod 2 ^ b) s) s.
Proof.
  intros V T Hc Hb. pose proof (entry32_place _ _ (vo_layout s V) T Hc) as P.
  destruct (offset4 c) as (O1 & O2 & O3). rewrite O1, O2.
  pose proof (P 0 ltac:(lia)) as P0. rewrite Z.add_0_r in P0.
  apply wp_bind. wp_use (table_window (4 * c)); auto. intros r s1 (V1 & S1 & [[-> W1]|[-> FL]]); [|apply wp_ret; split; auto].
  pose proof (quiet_layout S1) as L1. wp_norm. pose proof (vo_win s1 V1) as [LW BW].
  eapply wp_lift.
  - apply ld_dword_ok; [exact BW | apply Z.mod_pos_bound; reflexivity | now rewrite LW].
  - apply wp_ret. split; [exact V1|]. split; [exact S1|]. left. rewrite win_le4 by (rewrite ?L1; auto).
    rewrite land_ones_mod by exact Hb. unfold fat_word.
    rewrite !(same_byte s s1) by (auto; rewrite <- ?Z.add_assoc; apply P; lia). reflexivity.
Qed.

Lemma get_fat32 obj c s : vol_ok s -> fs_type (lay s) = FS_FAT32 -> cluster (lay s) c ->
  wp (get_fat obj c) (reads (fat_entry s c) s) s.
Proof.
  intros V T Hc. unfold get_fat. wp_norm. rewrite out_of_range, (proj2 (clusterb_spec _ _) Hc), T.
  cbn [negb Z.eqb FS_FAT12 FS_FAT16 FS_FAT32 Pos.eqb]. unfold fat_entry. rewrite T.
  exact (read_dword c 28 s V (or_introl T) Hc ltac:(lia)).
Qed.

(** The entry that get_fat returns on a FAT volume: that of the table, or 1 for
    a number that is no cluster. *)
Definition fat_value (s : vol) (c : Z) : Z := if clusterb (lay s) c then fat_entry s c else 1.

Lemma get_fat_wp obj c s : vol_ok s -> fs_type (lay s) <> FS_EXFAT ->
  wp (get_fat obj c) (reads (fat_value s c) s) s.
Proof.
  intros V T. unfold fat_value. destruct (clusterb (lay s) c) eqn:E.
  - apply clusterb_spec in E. pose proof (lo_type _ (vo_layout s V)) as T1. unfold FS_EXFAT in T.
    assert (fs_type (lay s) = FS_FAT12 \/ fs_type (lay s) = FS_FAT16 \/ fs_type (lay s) = FS_FAT32) as [X|[X|X]]
      by (unfold FS_FAT12, FS_FAT16, FS_FAT32; lia).
    + now apply get_fat12.
    + now apply get_fat16.
    + now apply get_fat32.
  - unfold get_fat. wp_norm. rewrite out_of_range, E. apply wp_ret.
    split; [exact V|]. split; [reflexivity | now left].
Qed.

(** On an exFAT volume the table is read only for an object whose chain is on
    it and has no fragment pending. *)
Lemma get_fat_exfat obj c s : vol_ok s -> fs_type (lay s) = FS_EXFAT -> objsize obj <> 0 ->
  stat obj = 0 -> n_frag obj = 0 ->
  wp (get_fat obj c) (reads (fat_value s c) s) s.
Proof.
  intros V T Ho Hs Hn. unfold fat_value, get_fat. wp_norm. rewrite out_of_range.
  destruct (clusterb (lay s) c) eqn:E; cbn [negb]; [|apply wp_ret; split; [exact V | split; [reflexivity | now left]]].
  apply clusterb_spec in E. rewrite T. cbn [Z.eqb FS_FAT12 FS_FAT16 FS_FAT32 FS_EXFAT Pos.eqb andb].
  rewrite (proj2 (Z.eqb_neq _ _) Ho), Hs, Hn. cbn [negb Z.eqb andb].
  unfold fat_entry. rewrite T. exact (read_dword c 31 s V (or_intror T) E ltac:(lia)).
Qed.

(** *** Writing *)

(** From [s] to [s'] the table became [m]; nothing else that is seen changed. *)
Record updates (m : Z -> Z) (s s' : vol) : Prop := {
  up_layout : lay s' = lay s;
  up_table : forall c, cluster (lay s) c -> fat_entry s' c = m c;
  up_rest : forall n, visible (lay s) n -> ~ (fatbase (lay s) <= n < fatbase (lay s) + fsize (lay s)) ->
            view s' n = view s n;
  up_calls : (calls s <= calls s')%nat;
  up_last : last_clst (fs s') = last_clst (fs s);
  up_free : free_clst (fs s') = free_clst (fs s);
  up_fsi : fsi_flag (fs s') = fsi_flag (fs s);
  up_stays : stays s s'
}.

Definition fat_set (c v : Z) (m : Z -> Z) : Z -> Z := fun c' => if c' =? c then v else m c'.

Lemma touches_updates nb m s s' : touches nb s s' ->
  (forall c, cluster (lay s) c -> fat_entry s' c = m c) -> updates m s s'.
Proof. intros [L B R C A F I W] H. constructor; auto. Qed.

(** *** 12-bit entries *)

Definition e12 (nb : Z -> Z) (c : Z) : Z :=
  let w := nb (c + c / 2) + 256 * nb (c + c / 2 + 1) in
  if Z.odd c then w / 16 else w mod 4096.

Lemma odd_mod2 c : Z.odd c = true /\ c mod 2 = 1 \/ Z.odd c = false /\ c mod 2 = 0.
Proof. rewrite Zmod_odd. destruct (Z.odd c); auto. Qed.

(** Changing the bytes of entry [c] within its nibbles changes no other entry. *)
Lemma e12_frame nb nb' c c' : 0 <= c -> 0 <= c' -> c' <> c ->
  (forall j, is_byte (nb j) /\ is_byte (nb' j)) ->
  (forall j, j <> c + c / 2 -> j <> c + c / 2 + 1 -> nb' j = nb j) ->
  (Z.odd c = true -> nb' (c + c / 2) mod 16 = nb (c + c / 2) mod 16) ->
  (Z.odd c = false -> nb' (c + c / 2 + 1) / 16 = nb (c + c / 2 + 1) / 16) ->
  e12 nb' c' = e12 nb c'.
Proof.
  intros Hc Hc' NE B K O1 O2. unfold e12, is_byte, in_u in *. eval_pow.
  destruct (Z.eq_dec (c' + c' / 2) (c + c / 2 + 1)) as [E|N1].
  - assert (c' = c + 1 /\ c mod 2 = 0) as [-> Ev] by dlia.
    destruct (odd_mod2 c) as [[_ ?]|[Oc _]]; [lia|]. specialize (O2 Oc).
    destruct (odd_mod2 (c + 1)) as [[-> _]|[_ ?]]; [|dlia].
    rewrite E, (K (c + c / 2 + 1 + 1)) by lia.
    pose proof (B (c + c / 2 + 1)). pose proof (B (c + c / 2 + 1 + 1)). dlia.
  - destruct (Z.eq_dec (c' + c' / 2 + 1) (c + c / 2)) as [E|N2].
    + assert (c' = c - 1 /\ c mod 2 = 1) as [-> Ev] by dlia.
      destruct (odd_mod2 c) as [[Oc _]|[_ ?]]; [|lia]. specialize (O1 Oc).
      destruct (odd_mod2 (c - 1)) as [[_ ?]|[-> _]]; [dlia|].
      rewrite E, (K (c - 1 + (c - 1) / 2)) by lia.
      pose proof (B (c + c / 2)). pose proof (B (c - 1 + (c - 1) / 2)). dlia.
    + rewrite !K by dlia. reflexivity.
Qed.

(** The two bytes that put_fat writes for the value [v]. *)
Lemma e12_same nb' c v :
  (forall j, is_byte (nb' j)) ->
  (if Z.odd c then nb' (c + c / 2) / 16 = v mod 16 /\ nb' (c + c / 2 + 1) = (v / 16) mod 256
   else nb' (c + c / 2) = v mod 256 /\ nb' (c + c / 2 + 1) mod 16 = (v / 256) mod 16) ->
  e12 nb' c = v mod 4096.
Proof.
  intros B H. unfold e12, is_byte, in_u in *. eval_pow. pose proof (B (c + c / 2)). pose proof (B (c + c / 2 + 1)).
  destruct (Z.odd c); dlia.
Qed.

Lemma fat_entry12 nb s s' c : vol_ok s -> touches nb s s' -> fs_type (lay s) = FS_FAT12 ->
  cluster (lay s) c -> fat_entry s' c = e12 nb c.
Proof.
  intros V [L B R C A F I W] T Hc. destruct (entry12_place _ _ (vo_layout s V) T Hc) as (_ & P0 & P1).
  unfold fat_entry, fat_word, e12. rewrite L, T, !B by assumption. reflexivity.
Qed.

(** What put_fat leaves: entry [c] became [e], or a disk error left some value
    there; no other entry has changed. *)
Definition writes (c e : Z) (s : vol) (r : FRESULT) (s' : vol) : Prop :=
  vol_ok s' /\
  (r = FR_OK /\ updates (fat_set c e (fat_entry s)) s s' \/
   r = FR_DISK_ERR /\ failed s s' /\ exists x, updates (fat_set c x (fat_entry s)) s s').

(** The entries are determined by the bytes of the table. *)
Lemma same_bytes_entry s s' c : vol_ok s -> lay s' = lay s -> cluster (lay s) c ->
  (forall k, in_table (lay s) k -> fat_byte s' k = fat_byte s k) -> fat_entry s' c = fat_entry s c.
Proof.
  intros V L Hc K.
  unfold fat_entry, fat_word. rewrite L. pose proof (lo_type _ (vo_layout s V)) as T.
  destruct (Z.eqb_spec (fs_type (lay s)) FS_FAT12) as [T1|N1].
  { destruct (entry12_place _ _ (vo_layout s V) T1 Hc) as (_ & P0 & P1). rewrite !K by assumption. reflexivity. }
  destruct (Z.eqb_spec (fs_type (lay s)) FS_FAT16) as [T2|N2].
  { destruct (entry16_place _ _ (vo_layout s V) T2 Hc) as (P0 & P1). rewrite !K by assumption. reflexivity. }
  assert (fs_type (lay s) = FS_FAT32 \/ fs_type (lay s) = FS_EXFAT) as T3
    by (unfold FS_FAT12, FS_FAT16, FS_FAT32, FS_EXFAT in *; lia).
  pose proof (entry32_place _ _ (vo_layout s V) T3 Hc) as P.
  pose proof (P 0 ltac:(lia)) as P0. rewrite Z.add_0_r in P0.
  rewrite !K by (auto; rewrite <- ?Z.add_assoc; apply P; lia). reflexivity.
Qed.

Lemma same_updates s s' : vol_ok s -> quiet s s' -> updates (fat_entry s) s s'.
Proof.
  intros V S. pose proof (touches_same s s' V S) as TC. apply (touches_updates _ _ _ _ TC).
  intros c Hc. apply same_bytes_entry; auto; apply TC.
Qed.

Lemma updates_ext m m' s s' : updates m s s' -> (forall c, cluster (lay s) c -> m c = m' c) -> updates m' s s'.
Proof. intros [L T R C A F I W] E. constructor; auto. intros c Hc. rewrite T by exact Hc. auto. Qed.

Lemma fat_set_same c m c' : fat_set c (m c) m c' = m c'.
Proof. unfold fat_set. destruct (Z.eqb_spec c' c) as [->|]; reflexivity. Qed.

(** The window could not be moved: nothing has changed. *)
Lemma writes_error c e s s' : vol_ok s -> vol_ok s' -> quiet s s' -> failed s s' ->
  writes c e s FR_DISK_ERR s'.
Proof.
  intros V V' S FL. split; [exact V'|]. right. split; [reflexivity|]. split; [exact FL|].
  exists (fat_entry s c). apply (updates_ext _ _ _ _ (same_updates s s' V S)).
  intros c' _. now rewrite fat_set_same.
Qed.

(** A step that only moves the window may precede. *)
Lemma touches_after nb s s1 s2 : vol_ok s -> quiet s s1 -> touches nb s1 s2 -> touches nb s s2.
Proof. intros V S T. exact (touches_trans _ _ _ _ _ (touches_same s s1 V S) T). Qed.

Lemma put_fat16 c v s : vol_ok s -> fs_type (lay s) = FS_FAT16 -> cluster (lay s) c ->
  wp (put_fat c v) (writes c (entry_of FS_FAT16 v) s) s.
Proof.
  intros V T Hc. destruct (entry16_place _ _ (vo_layout s V) T Hc) as (P0 & P1).
  unfold put_fat. wp_norm. fold (clusterb (lay s) c). rewrite (proj2 (clusterb_spec _ _) Hc), T.
  cbn [Z.eqb FS_FAT12 FS_FAT16 Pos.eqb]. destruct (offset2 c) as (O1 & O2 & O3). rewrite O1, O2.
  apply wp_bind. wp_use (table_window (2 * c)); auto.
  intros r s1 (V1 & S1 & [[-> W1]|[-> FL]]); [|apply wp_ret; now apply writes_error].
  pose proof (quiet_layout S1) as L1. wp_norm.
  destruct (st_word_sector (win (fs s1)) ((2 * c) mod SS) (u16 v) (vo_win s1 V1)) as (w & Ew & Sw & Ws).
  { split; [apply Z.mod_pos_bound; reflexivity | lia]. }
  eapply wp_lift; [exact Ew|]. apply wp_bind. wp_use (put_stored_wp (2 * c) 2 (u16 v)); rewrite ?L1; auto; [lia|].
  intros _ s2 (V2 & T2). apply wp_ret. split; [exact V2|]. left. split; [reflexivity|].
  apply (touches_after _ s s1 s2 V S1) in T2. apply (touches_updates _ _ _ _ T2). intros c' Hc'.
  destruct (entry16_place _ _ (vo_layout s V) T Hc') as (P0' & P1').
  unfold fat_entry, fat_word. rewrite (tc_layout _ _ _ T2), T. cbn [Z.eqb FS_FAT12 FS_FAT16 Pos.eqb].
  rewrite !(tc_bytes _ _ _ T2) by assumption. unfold fat_set.
  destruct (Z.eqb_spec c' c) as [->|NE].
  - rewrite spliced_in, spliced_at by lia. unfold entry_of, u16, uwrap.
    cbn [Z.eqb FS_FAT12 FS_FAT16 Pos.eqb]. change (256 ^ 1) with 256. eval_pow. dlia.
  - rewrite !spliced_out, !(same_byte s s1) by (assumption || lia). reflexivity.
Qed.

Lemma put_mask v old : in_u 32 old ->
  Z.lor (Z.land v 0x0FFFFFFF) (Z.land old 0xF0000000) = v mod 2 ^ 28 + old / 2 ^ 28 * 2 ^ 28.
Proof.
  intros Ho. change 0x0FFFFFFF with (2 ^ 28 - 1). rewrite land_ones_mod by lia.
  replace (Z.land old 0xF0000000) with (Z.shiftl (old / 2 ^ 28) 28).
  { rewrite Z.lor_comm, lor_shift by (try apply Z.mod_pos_bound; lia). lia. }
  apply Z.bits_inj'. intros i Hi. rewrite Z.land_spec, Z.shiftl_spec by lia.
  change 0xF0000000 with (Z.shiftl (Z.ones 4) 28). rewrite Z.shiftl_spec by lia.
  destruct (Z.ltb_spec i 28).
  { rewrite !(Z.testbit_neg_r _ (i - 28)) by lia. now rewrite andb_false_r. }
  rewrite Z.div_pow2_bits, Z.testbit_ones by lia. replace (i - 28 + 28) with i by lia.
  rewrite (proj2 (Z.leb_le 0 (i - 28))) by lia. destruct (Z.ltb_spec (i - 28) 4); [now rewrite andb_true_r|].
  rewrite <- (Z.mod_small old (2 ^ 32)) by exact Ho. rewrite Z.mod_pow2_bits_high by lia. reflexivity.
Qed.

(** FAT32 and exFAT: the double word [u] is stored. *)
Lemma put_dword c e u s s1 : vol_ok s -> fs_type (lay s) = FS_FAT32 \/ fs_type (lay s) = FS_EXFAT ->
  cluster (lay s) c -> vol_ok s1 -> quiet s s1 -> winsect (fs s1) = fatbase (lay s) + 4 * c / SS ->
  (u mod 2 ^ 32) mod (if fs_type (lay s) =? FS_FAT32 then 2 ^ 28 else 2 ^ 31) = e ->
  wp (w' <- lift (st_dword (win (fs s1)) ((4 * c) mod SS) u) ;; put_win w' ;; ret FR_OK)
     (writes c e s) s1.
Proof.
  intros V T Hc V1 S1 W1 He. pose proof (quiet_layout S1) as L1.
  destruct (offset4 c) as (_ & _ & O3). pose proof (fun x => entry32_place _ x (vo_layout s V) T) as P.
  pose proof (P _ Hc 0 ltac:(lia)) as P0. rewrite Z.add_0_r in P0.
  destruct (st_dword_sector (win (fs s1)) ((4 * c) mod SS) u (vo_win s1 V1)) as (w & Ew & Sw & Ws).
  { split; [apply Z.mod_pos_bound; reflexivity | lia]. }
  apply wp_bind. eapply wp_lift; [exact Ew|]. apply wp_bind.
  wp_use (put_stored_wp (4 * c) 4 u); rewrite ?L1; auto; [lia|].
  intros _ s2 (V2 & T2). apply wp_ret. split; [exact V2|]. left. split; [reflexivity|].
  apply (touches_after _ s s1 s2 V S1) in T2. apply (touches_updates _ _ _ _ T2). intros c' Hc'.
  unfold fat_entry, fat_word. rewrite (tc_layout _ _ _ T2).
  replace (fs_type (lay s) =? FS_FAT12) with false by (now destruct T as [-> | ->]).
  replace (fs_type (lay s) =? FS_FAT16) with false by (now destruct T as [-> | ->]).
  pose proof (P _ Hc' 0 ltac:(lia)) as P0'. rewrite Z.add_0_r in P0'. rewrite <- !Z.add_assoc.
  rewrite !(tc_bytes _ _ _ T2) by (auto; apply P; auto; lia). unfold fat_set.
  destruct (Z.eqb_spec c' c) as [->|NE].
  - rewrite !spliced_in, spliced_at by lia. rewrite <- He. f_equal. cbn [Z.add Pos.add].
    change (256 ^ 1) with 256. change (256 ^ 2) with 65536. change (256 ^ 3) with 16777216. eval_pow. dlia.
  - rewrite !spliced_out, !(same_byte s s1) by (try lia; auto; apply P; auto; lia).
    unfold fat_entry, fat_word. rewrite <- !Z.add_assoc. now destruct T as [-> | ->].
Qed.

Lemma put_fat32 c v s : vol_ok s -> fs_type (lay s) = FS_FAT32 -> cluster (lay s) c ->
  wp (put_fat c v) (writes c (entry_of FS_FAT32 v) s) s.
Proof.
  intros V T Hc. pose proof (entry32_place _ _ (vo_layout s V) (or_introl T) Hc) as P.
  pose proof (P 0 ltac:(lia)) as P0. rewrite Z.add_0_r in P0.
  unfold put_fat. wp_norm. fold (clusterb (lay s) c). rewrite (proj2 (clusterb_spec _ _) Hc), T.
  cbn [Z.eqb FS_FAT12 FS_FAT16 FS_FAT32 FS_EXFAT Pos.eqb orb].
  destruct (offset4 c) as (O1 & O2 & O3). rewrite O1, O2.
  apply wp_bind. wp_use (table_window (4 * c)); auto.
  intros r s1 (V1 & S1 & [[-> W1]|[-> FL]]); [|apply wp_ret; now apply writes_error].
  wp_norm. pose proof (vo_win s1 V1) as [LW BW].
  eapply wp_lift; [apply ld_dword_ok; [exact BW | apply Z.mod_pos_bound; reflexivity | now rewrite LW]|].
  apply wp_ret. apply put_dword; auto. rewrite T. cbn [Z.eqb FS_FAT32 Pos.eqb].
  unfold entry_of. cbn [Z.eqb FS_FAT12 FS_FAT16 FS_FAT32 Pos.eqb].
  assert (in_u 32 (le4 (win (fs s1)) ((4 * c) mod SS))) as Ho by (apply le4_range, BW).
  rewrite put_mask by exact Ho. unfold in_u in Ho. eval_pow. dlia.
Qed.

Lemma put_fat_ex c v s : vol_ok s -> fs_type (lay s) = FS_EXFAT -> cluster (lay s) c ->
  wp (put_fat c v) (writes c (entry_of FS_EXFAT v) s) s.
Proof.
  intros V T Hc. pose proof (entry32_place _ _ (vo_layout s V) (or_intror T) Hc) as P.
  pose proof (P 0 ltac:(lia)) as P0. rewrite Z.add_0_r in P0.
  unfold put_fat. wp_norm. fold (clusterb (lay s) c). rewrite (proj2 (clusterb_spec _ _) Hc), T.
  cbn [Z.eqb FS_FAT12 FS_FAT16 FS_FAT32 FS_EXFAT Pos.eqb orb].
  destruct (offset4 c) as (O1 & O2 & O3). rewrite O1, O2.
  apply wp_bind. wp_use (table_window (4 * c)); auto.
  intros r s1 (V1 & S1 & [[-> W1]|[-> FL]]); [|apply wp_ret; now apply writes_error].
  apply wp_bind, wp_gets, wp_bind, wp_ret, put_dword; auto. rewrite T. unfold entry_of.
  cbn [Z.eqb FS_FAT12 FS_FAT16 FS_FAT32 FS_EXFAT Pos.eqb]. eval_pow. dlia.
Qed.

Lemma touches_ext nb nb' s s' : touches nb s s' -> (forall k, in_table (lay s) k -> nb k = nb' k) -> touches nb' s s'.
Proof. intros [L B R C A F I W] E. constructor; auto. intros k Hk. rewrite B by exact Hk. auto. Qed.

Definition put_byte (k b : Z) (nb : Z -> Z) (j : Z) : Z := if j =? k then b else nb j.

(** One byte of the table: move the window, compute the byte, store it. *)
Lemma table_byte {A} k n (h : Z -> Z) (K : F A) (E : FRESULT -> F A) Q s : vol_ok s -> in_table (lay s) k ->
  n = fatbase (lay s) + k / SS -> (forall b, is_byte b -> is_byte (h b)) ->
  (forall s', vol_ok s' -> touches (put_byte k (h (fat_byte s k)) (fat_byte s)) s s' -> wp K Q s') ->
  (forall s', vol_ok s' -> quiet s s' -> failed s s' -> wp (E FR_DISK_ERR) Q s') ->
  wp (r <- move_window (u32 n) ;;
      match r with
      | FR_OK => p <- win_byte (k mod SS) ;; set_win_byte (k mod SS) (h p) ;; K
      | r => E r
      end) Q s.
Proof.
  intros V Hk En Hh HK HE. apply wp_bind. wp_use (table_window k); auto.
  intros r s1 (V1 & S1 & [[-> W1]|[-> FL]]); [|now apply HE].
  pose proof (quiet_layout S1) as L1.
  apply wp_bind. wp_use win_byte_wp; [exact V1 | apply Z.mod_pos_bound; reflexivity |]. intros b0 s1' [-> ->].
  rewrite win_fat_byte, (same_byte s s1) by (rewrite ?L1, <- ?En; auto).
  apply wp_bind. wp_use set_win_byte_wp; rewrite ?L1, <- ?En; auto.
  { apply Hh, fat_byte_byte, V. }
  intros _ s2 (V2 & T2). apply HK; [exact V2|]. apply (touches_after _ s s1 s2 V S1).
  apply (touches_ext _ _ _ _ T2). intros j Hj. rewrite L1 in Hj. unfold put_byte. now rewrite (same_byte s s1).
Qed.

(** The bytes put_fat stores for a 12-bit entry. *)
Definition first12 (c v p : Z) : Z :=
  if odd1 c then u8 (Z.lor (Z.land p 0x0F) (Z.shiftl (u8 v) 4)) else u8 v.

Definition second12 (c v p : Z) : Z :=
  if odd1 c then u8 (Z.shiftr v 4) else u8 (Z.lor (Z.land p 0xF0) (Z.land (u8 (Z.shiftr v 8)) 0x0F)).

Lemma nibbles p x : is_byte p -> 0 <= x < 16 -> Z.lor (Z.land p 0xF0) x = p / 16 * 16 + x.
Proof.
  intros Hp Hx. enough (forall q y, 0 <= q < Z.of_nat 256 -> 0 <= y < Z.of_nat 16 ->
    (Z.lor (Z.land q 0xF0) y =? q / 16 * 16 + y) = true) as H.
  { apply Z.eqb_eq, H; unfold is_byte, in_u in *; eval_pow; lia. }
  intros q y Hq Hy. revert q Hq.
  apply (all_below_spec 256 (fun q => Z.lor (Z.land q 0xF0) y =? q / 16 * 16 + y)).
  revert y Hy. apply (all_below_spec 16 (fun y => all_below 256 (fun q => Z.lor (Z.land q 0xF0) y =? q / 16 * 16 + y))).
  now vm_compute.
Qed.

Lemma first12_spec c v p : is_byte p ->
  if Z.odd c then first12 c v p mod 16 = p mod 16 /\ first12 c v p / 16 = v mod 16
  else first12 c v p = v mod 256.
Proof.
  intros Hp. unfold first12. rewrite odd1_odd. destruct (Z.odd c); [|reflexivity].
  change 0x0F with (2 ^ 4 - 1). rewrite land_ones_mod by lia.
  rewrite Z.lor_comm, lor_shift by (try apply Z.mod_pos_bound; lia).
  unfold u8, uwrap. eval_pow. split; dlia.
Qed.

Lemma second12_spec c v p : is_byte p ->
  if Z.odd c then second12 c v p = (v / 16) mod 256
  else second12 c v p / 16 = p / 16 /\ second12 c v p mod 16 = (v / 256) mod 16.
Proof.
  intros Hp. unfold second12. rewrite odd1_odd. destruct (Z.odd c); [now rewrite Z.shiftr_div_pow2 by lia|].
  change 0x0F with (2 ^ 4 - 1). rewrite land_ones_mod, shiftr8 by lia.
  rewrite nibbles by (auto; apply Z.mod_pos_bound; lia).
  unfold is_byte, in_u, u8, uwrap in *. eval_pow. split; dlia.
Qed.

Lemma byte12 c v p : is_byte (first12 c v p) /\ is_byte (second12 c v p).
Proof. unfold first12, second12. destruct (odd1 c); auto with fat. Qed.

(** The two bytes, as a change of the table. *)
Definition put1 (c v : Z) (nb : Z -> Z) : Z -> Z :=
  put_byte (c + c / 2) (first12 c v (nb (c + c / 2))) nb.

Definition put2 (c v : Z) (nb : Z -> Z) : Z -> Z :=
  put_byte (c + c / 2 + 1) (second12 c v (nb (c + c / 2 + 1))) (put1 c v nb).

Lemma put12_bytes c v nb : (forall j, is_byte (nb j)) -> forall j, is_byte (put1 c v nb j) /\ is_byte (put2 c v nb j).
Proof.
  intros B j. unfold put2, put1, put_byte.
  destruct (j =? c + c / 2), (j =? c + c / 2 + 1); split; try apply byte12; apply B.
Qed.

Lemma put1_frame c c' v nb : (forall j, is_byte (nb j)) -> 0 <= c -> 0 <= c' -> c' <> c ->
  e12 (put1 c v nb) c' = e12 nb c'.
Proof.
  intros B Hc Hc' NE. pose proof (put12_bytes c v nb B) as B2. apply (e12_frame _ _ c); auto.
  - intros j. split; [apply B | apply B2].
  - intros j H1 H2. unfold put1, put_byte. now rewrite (proj2 (Z.eqb_neq _ _) H1).
  - intros O. unfold put1, put_byte. rewrite Z.eqb_refl. pose proof (first12_spec c v _ (B (c + c / 2))) as S1.
    rewrite O in S1. apply S1.
  - intros _. unfold put1, put_byte. destruct (Z.eqb_spec (c + c / 2 + 1) (c + c / 2)); [lia | reflexivity].
Qed.

Lemma put2_frame c c' v nb : (forall j, is_byte (nb j)) -> 0 <= c -> 0 <= c' -> c' <> c ->
  e12 (put2 c v nb) c' = e12 nb c'.
Proof.
  intros B Hc Hc' NE. pose proof (put12_bytes c v nb B) as B2. rewrite <- (put1_frame c c' v nb) by assumption.
  apply (e12_frame _ _ c); auto; unfold put2.
  - intros j H1 H2. unfold put_byte at 1. now rewrite (proj2 (Z.eqb_neq _ _) H2).
  - intros _. unfold put_byte at 1. destruct (Z.eqb_spec (c + c / 2) (c + c / 2 + 1)); [lia | reflexivity].
  - intros O. unfold put_byte at 1. rewrite Z.eqb_refl. unfold put1, put_byte.
    destruct (Z.eqb_spec (c + c / 2 + 1) (c + c / 2)); [lia|].
    pose proof (second12_spec c v _ (B (c + c / 2 + 1))) as S2. rewrite O in S2. apply S2.
Qed.

Lemma put2_same c v nb : (forall j, is_byte (nb j)) -> e12 (put2 c v nb) c = v mod 4096.
Proof.
  intros B. apply e12_same; [intros j; apply (put12_bytes c v nb B)|].
  pose proof (first12_spec c v _ (B (c + c / 2))) as S1.
  pose proof (second12_spec c v _ (B (c + c / 2 + 1))) as S2. unfold put2, put1, put_byte.
  rewrite !Z.eqb_refl. destruct (Z.eqb_spec (c + c / 2) (c + c / 2 + 1)); [lia|].
  destruct (Z.odd c); tauto.
Qed.

Lemma put_fat12 c v s : vol_ok s -> fs_type (lay s) = FS_FAT12 -> cluster (lay s) c ->
  wp (put_fat c v) (writes c (entry_of FS_FAT12 v) s) s.
Proof.
  intros V T Hc. destruct (entry12_place _ _ (vo_layout s V) T Hc) as (Hs & P0 & P1).
  unfold put_fat. wp_norm. fold (clusterb (lay s) c). rewrite (proj2 (clusterb_spec _ _) Hc), T.
  cbn [Z.eqb FS_FAT12 Pos.eqb].
  assert (u32 (c + c / 2) = c + c / 2) as Ek by (unfold cluster in Hc; apply uwrap_small; in_range).
  assert (u32 (c + c / 2 + 1) = c + c / 2 + 1) as Ek1 by (unfold cluster in Hc; apply uwrap_small; in_range).
  rewrite Ek, Ek1. pose proof (fun j => fat_byte_byte s j V) as B.
  assert (forall nb s', touches nb s s' -> (forall c', 0 <= c' -> c' <> c -> e12 nb c' = e12 (fat_byte s) c') ->
    updates (fat_set c (e12 nb c) (fat_entry s)) s s') as U.
  { intros nb s' TC K. apply (touches_updates _ _ _ _ TC). intros c' Hc'. rewrite (fat_entry12 nb s s') by assumption.
    unfold fat_set. destruct (Z.eqb_spec c' c) as [->|]; [reflexivity|]. unfold cluster in Hc'.
    rewrite K by lia. unfold fat_entry, fat_word. now rewrite T. }
  apply (table_byte (c + c / 2) _ (first12 c v) _ (fun r => ret r)); auto.
  { intros. apply byte12. }
  2:{ intros. now apply wp_ret, writes_error. }
  intros s1 V1 T1. fold (put1 c v (fat_byte s)) in T1. pose proof (tc_layout _ _ _ T1) as L1.
  apply (table_byte (c + c / 2 + 1) _ (second12 c v) _ (fun r => ret r)); rewrite ?L1; auto.
  { intros. apply byte12. }
  - intros s2 V2 T2. apply wp_ret. split; [exact V2|]. left. split; [reflexivity|].
    change (entry_of FS_FAT12 v) with (v mod 4096). rewrite <- (put2_same c v (fat_byte s)) by exact B.
    apply U; [|intros; unfold cluster in Hc; apply put2_frame; auto; lia].
    apply (touches_ext (put_byte (c + c / 2 + 1) (second12 c v (fat_byte s1 (c + c / 2 + 1))) (fat_byte s1))).
    { now apply (touches_trans _ _ _ _ _ T1). }
    intros j Hj. unfold put_byte at 1. rewrite !(tc_bytes _ _ _ T1) by assumption.
    replace (put1 c v (fat_byte s) (c + c / 2 + 1)) with (fat_byte s (c + c / 2 + 1)); [reflexivity|].
    unfold put1, put_byte. destruct (Z.eqb_spec (c + c / 2 + 1) (c + c / 2)); [lia | reflexivity].
  - intros s2 V2 S2 FL. apply wp_ret. split; [exact V2|]. right. split; [reflexivity|].
    split; [apply (failed_r _ s1); [exact FL | apply T1]|].
    exists (e12 (put1 c v (fat_byte s)) c). apply U; [|intros; unfold cluster in Hc; apply put1_frame; auto; lia].
    apply (touches_ext (fat_byte s1)); [|apply T1]. apply (touches_trans _ _ _ _ _ T1), touches_same; auto.
Qed.

(** put_fat: the entry of a cluster becomes the value it can hold and no other
    entry changes, also when a disk error ends it; any other number is refused. *)
Lemma put_fat_wp c v s : vol_ok s -> cluster (lay s) c ->
  wp (put_fat c v) (writes c (entry_of (fs_type (lay s)) v) s) s.
Proof.
  intros V Hc. pose proof (lo_type _ (vo_layout s V)) as T1.
  assert (fs_type (lay s) = FS_FAT12 \/ fs_type (lay s) = FS_FAT16 \/ fs_type (lay s) = FS_FAT32 \/
          fs_type (lay s) = FS_EXFAT) as [X|[X|[X|X]]]
    by (unfold FS_FAT12, FS_FAT16, FS_FAT32, FS_EXFAT; lia); rewrite X.
  - now apply put_fat12.
  - now apply put_fat16.
  - now apply put_fat32.
  - now apply put_fat_ex.
Qed.

Lemma put_fat_refused c v s : ~ cluster (lay s) c ->
  wp (put_fat c v) (fun r s' => r = FR_INT_ERR /\ s' = s) s.
Proof.
  intros H. unfold put_fat. wp_norm. fold (clusterb (lay s) c).
  destruct (clusterb (lay s) c) eqn:E; [now apply clusterb_spec in E | now apply wp_ret].
Qed.

(** An entry fits its format; the value of a failed read is none of them. *)
Lemma fat_entry_range s c : vol_ok s -> 0 <= fat_entry s c < 2 ^ 31.
Proof.
  intros V. unfold fat_entry, fat_word. pose proof (fun j => fat_byte_byte s j V) as B.
  unfold is_byte, in_u in B. eval_pow.
  destruct (fs_type (lay s) =? FS_FAT12).
  { pose proof (B (c + c / 2)). pose proof (B (c + c / 2 + 1)). destruct (Z.odd c); dlia. }
  destruct (fs_type (lay s) =? FS_FAT16).
  { pose proof (B (2 * c)). pose proof (B (2 * c + 1)). lia. }
  destruct (fs_type (lay s) =? FS_FAT32); match goal with |- 0 <= ?x mod ?m < _ =>
      pose proof (Z.mod_pos_bound x m ltac:(lia)); lia end.
Qed.

Lemma fat_value_same s s' c : vol_ok s -> quiet s s' -> fat_value s' c = fat_value s c.
Proof.
  intros V S. unfold fat_value. rewrite (quiet_layout S). destruct (clusterb (lay s) c) eqn:E; [|reflexivity].
  apply (up_table _ _ _ (same_updates s s' V S)). now apply clusterb_spec.
Qed.

(** Reading after steps that changed nothing. *)
Lemma get_fat_after obj c s s1 : vol_ok s -> fs_type (lay s) <> FS_EXFAT -> vol_ok s1 -> quiet s s1 ->
  wp (get_fat obj c) (reads (fat_value s c) s) s1.
Proof.
  intros V T V1 S1. wp_use get_fat_wp; [exact V1 | now rewrite (quiet_layout S1) |].
  intros v s2 (V2 & S2 & H). rewrite (fat_value_same s s1) in H by assumption.
  split; [exact V2|]. split; [etransitivity; eassumption|]. destruct H as [H|[H FL]]; [now left|].
  right. split; [exact H|]. apply (failed_r _ s1); [exact FL | apply S1].
Qed.

Lemma fat_value_entry s c : cluster (lay s) c -> fat_value s c = fat_entry s c.
Proof. intros H. unfold fat_value. now rewrite (proj2 (clusterb_spec _ _) H). Qed.

Lemma updates_trans m1 m2 s s1 s2 : updates m1 s s1 -> updates m2 s1 s2 -> updates m2 s s2.
Proof.
  intros [L1 T1 R1 C1 A1 F1 I1 W1] [L2 T2 R2 C2 A2 F2 I2 W2]. pose proof (stays_trans _ _ _ L1 W1 W2).
  rewrite L1 in *. constructor; try congruence; try lia; auto. intros n Hn Ht. rewrite R2 by assumption. auto.
Qed.

Lemma fat_set_ext c e m m' c' : m c' = m' c' -> fat_set c e m c' = fat_set c e m' c'.
Proof. intros E. unfold fat_set. now destruct (c' =? c). Qed.

(** The number of a cluster fits an entry, and so does the end mark. *)
Lemma entry_of_cluster g c : layout_ok g -> cluster g c -> entry_of (fs_type g) c = c.
Proof.
  intros LO Hc. pose proof (lo_ent g LO) as E. unfold cluster, entry_of, max_clst in *.
  unfold MAX_FAT12, MAX_FAT16, MAX_FAT32, MAX_EXFAT in E.
  destruct (fs_type g =? FS_FAT12), (fs_type g =? FS_FAT16), (fs_type g =? FS_FAT32);
    apply Z.mod_small; lia.
Qed.

Definition EOC (g : Layout) : Z := entry_of (fs_type g) 0xFFFFFFFF.

Lemma eoc_end g : layout_ok g -> n_fatent g <= EOC g.
Proof.
  intros LO. pose proof (lo_ent g LO) as E. unfold EOC, entry_of, max_clst in *.
  unfold MAX_FAT12, MAX_FAT16, MAX_FAT32, MAX_EXFAT in E.
  destruct (fs_type g =? FS_FAT12), (fs_type g =? FS_FAT16), (fs_type g =? FS_FAT32);
    match goal with |- _ <= ?x => let y := eval vm_compute in x in change x with y end; lia.
Qed.

End TableLaws.
