(* ===== verification/FatMount.v ===== *)
(** * ext/fatfs/src/ff.c: mounting a volume

    f_mount registers the volume object; find_volume, which every call by path
    name starts with, mounts the volume when it is not: it finds the boot sector
    of a FAT or exFAT volume on the card, takes the layout from its parameter
    block and reads FSInfo.  The theorem is that a FAT volume it accepts
    satisfies what the other operations rely on ([vol_ok]), as long as the sizes
    in the parameter block do not wrap around in 32 bits. *)

From Stdlib Require Import ZArith Bool List Lia.
From Stdlib Require Import Classes.RelationClasses.
From S2P Require Import Prelude FatVol FatTable.
Import ListNotations.
Local Open Scope Z_scope.
Local Open Scope fw_scope.

(** The registered volume object ([FatFs[0]] is not null), the mount counter
    [Fsid], and the volume. *)
Record ffs : Type := mkffs { registered : bool; Fsid : Z; vl : vol }.

Definition M : Type -> Type := ST ffs.

Definition on_vol {A} (m : F A) : M A :=
  fun s => match m (vl s) with
           | Ok (a, v) => Ok (a, mkffs (registered s) (Fsid s) v)
           | Err e => Err e
           end.

Definition set_layout (g : Layout) (f : FATFS) : FATFS :=
  mkFATFS g (wflag f) (fsi_flag f) (last_clst f) (free_clst f) (winsect f) (win f).

Definition set_type (t : Z) (g : Layout) : Layout :=
  mkLayout t (fsid g) (n_fats g) (n_rootdir g) (csize g) (n_fatent g) (fsize g) (volbase g) (fatbase g) (dirbase g) (database g).

Definition set_id (x : Z) (g : Layout) : Layout :=
  mkLayout (fs_type g) x (n_fats g) (n_rootdir g) (csize g) (n_fatent g) (fsize g) (volbase g) (fatbase g) (dirbase g) (database g).

(** ** The drive number of a path *)

(** The characters up to a colon or a control character, and the rest. *)
Fixpoint to_colon (p : list Z) : list Z * list Z :=
  match p with
  | [] => ([], [])
  | c :: p' => if (32 <=? c) && negb (c =? 58) then let (a, b) := to_colon p' in (c :: a, b) else ([], p)
  end.

(** The drive number, and the path behind it; -1: no such drive. *)
Definition get_ldnumber (path : option (list Z)) : Z * option (list Z) :=
  match path with
  | None => (-1, None)
  | Some p =>
      match to_colon p with
      | (pre, 58 :: rest) =>
          match pre with
          | [d] => if (48 <=? d) && (d <=? 57) && (d - 48 <? 1) then (d - 48, Some rest) else (-1, path)
          | _ => (-1, path)
          end
      | _ => (0, path)
      end
  end.

(** ** The boot sector *)

Definition ld_qword (p : list Z) (o : Z) : result Z :=
  hi <=! ld_dword p (o + 4) ;;
  lo <=! ld_dword p o ;;
  Ok (u64 (Z.lor (Z.shiftl hi 32) lo)).

(** [!mem_cmp(w + o, pat, cnt)]. *)
Definition mem_eq (w : list Z) (o : Z) (pat : list Z) : bool :=
  if list_eq_dec Z.eq_dec (slice w o (Z.of_nat (length pat))) pat then true else false.

(** [1 << b] of type int. *)
Definition shift1 (b : Z) : result Z := if b <? 31 then Ok (Z.shiftl 1 b) else Err Overflow.

(** What kind of boot sector [w] is: 0, FAT; 1, exFAT; 2, another one; 3, none. *)
Definition boot_kind (w : list Z) : result Z :=
  sig <=! ld_word w 510 ;;
  if negb (sig =? 0xAA55) then Ok 3
  else if mem_eq w 0 [0xEB; 0x76; 0x90; 69; 88; 70; 65; 84; 32; 32; 32] then Ok 1
  else
    j0 <=! array_get w 0 ;;
    j2 <=! array_get w 2 ;;
    if (j0 =? 0xE9) || ((j0 =? 0xEB) && (j2 =? 0x90)) then
      if mem_eq w 54 [70; 65; 84] then Ok 0
      else if mem_eq w 82 [70; 65; 84; 51; 50] then Ok 0 else Ok 2
    else Ok 2.

(** FAT: the sub-type and the layout ([fs_type] stays 0 until the end); [None],
    FR_NO_FILESYSTEM.  The members are assigned in one piece when all checks have
    passed. *)
Definition fat_geometry (old : Layout) (w : list Z) (bsect : Z) : result (option (Z * Layout)) :=
  bps <=! ld_word w 11 ;;
  if negb (bps =? SS) then Ok None
  else
    sz16 <=! ld_word w 22 ;;
    fsz <=! (if sz16 =? 0 then ld_dword w 36 else Ok sz16) ;;
    nf <=! array_get w 16 ;;
    if negb (nf =? 1) && negb (nf =? 2) then Ok None
    else
      let fasize := u32 (fsz * nf) in
      cs <=! array_get w 13 ;;
      if (cs =? 0) || negb (Z.land cs (cs - 1) =? 0) then Ok None
      else
        nroot <=! ld_word w 17 ;;
        if negb (nroot mod (SS / 32) =? 0) then Ok None
        else
          t16 <=! ld_word w 19 ;;
          tsect <=! (if t16 =? 0 then ld_dword w 32 else Ok t16) ;;
          nrsv <=! ld_word w 14 ;;
          if nrsv =? 0 then Ok None
          else
            let sysect := u32 (nrsv + fasize + nroot / (SS / 32)) in
            if tsect <? sysect then Ok None
            else
              let nclst := (tsect - sysect) / cs in
              if nclst =? 0 then Ok None
              else
                let fmt := if nclst <=? MAX_FAT12 then FS_FAT12 else if nclst <=? MAX_FAT16 then FS_FAT16
                           else if nclst <=? MAX_FAT32 then FS_FAT32 else 0 in
                if fmt =? 0 then Ok None
                else
                  let n := u32 (nclst + 2) in
                  let fatb := u32 (bsect + nrsv) in
                  ver <=! ld_word w 42 ;;
                  rootc <=! ld_dword w 44 ;;
                  if (if fmt =? FS_FAT32 then negb (ver =? 0) || negb (nroot =? 0) else nroot =? 0) then Ok None
                  else
                    let dirb := if fmt =? FS_FAT32 then rootc else u32 (fatb + fasize) in
                    let szbfat := if fmt =? FS_FAT32 then u32 (n * 4)
                                  else if fmt =? FS_FAT16 then u32 (n * 2) else u32 (n * 3) / 2 + Z.land n 1 in
                    if fsz <? u32 (szbfat + (SS - 1)) / SS then Ok None
                    else Ok (Some (fmt, mkLayout 0 (fsid old) nf nroot cs n fsz bsect fatb dirb (u32 (bsect + sysect)))).

(** exFAT: the layout, before the bitmap is looked for. *)
Definition exfat_geometry (old : Layout) (w : list Z) (bsect : Z) : result (option Layout) :=
  if negb (forallb (fun b => b =? 0) (slice w 11 53)) then Ok None
  else
    ver <=! ld_word w 104 ;;
    if negb (ver =? 0x100) then Ok None
    else
      bps <=! array_get w 108 ;;
      bytes <=! shift1 bps ;;
      if negb (bytes =? SS) then Ok None
      else
        total <=! ld_qword w 72 ;;
        let maxlba := u64 (total + bsect) in
        if 0x100000000 <=? maxlba then Ok None
        else
          fsz <=! ld_dword w 84 ;;
          nf <=! array_get w 110 ;;
          if negb (nf =? 1) then Ok None
          else
            spc <=! array_get w 109 ;;
            sectors <=! shift1 spc ;;
            let cs := u16 sectors in
            if cs =? 0 then Ok None
            else
              nclst <=! ld_dword w 92 ;;
              if MAX_EXFAT <? nclst then Ok None
              else
                dofs <=! ld_dword w 88 ;;
                fofs <=! ld_dword w 80 ;;
                rootc <=! ld_dword w 96 ;;
                let datab := u32 (bsect + dofs) in
                if maxlba <? u64 (datab + u32 (nclst * cs)) then Ok None
                else Ok (Some (mkLayout 0 (fsid old) nf (n_rootdir old) cs (u32 (nclst + 2)) fsz bsect (u32 (bsect + fofs)) rootc datab)).

(** Entry [i] of the root directory and the following ones: is there a bitmap
    entry with cluster 2? *)
Fixpoint find_81 (w : list Z) (i : Z) (n : nat) : result bool :=
  match n with
  | O => Ok false
  | S n' =>
      t <=! array_get w i ;;
      c <=! ld_dword w (i + 20) ;;
      if (t =? 0x81) && (c =? 2) then Ok true else find_81 w (i + 32) n'
  end.

Section Mount.
Context `{D : DiskIo}.

(** The kind of boot sector [sect], which is left in the window; 4: disk error. *)
Definition check_fs (sect : Z) : F Z :=
  upd_fs (set_wflag 0) ;;
  upd_fs (set_winsect 0xFFFFFFFF) ;;
  r <- move_window sect ;;
  if fr_ok r then w <- gets (fun s => win (fs s)) ;; lift (boot_kind w) else ret 4.

(** The start of partition [i] in the table of the sector in the window. *)
Definition partition (w : list Z) (i : Z) : result Z :=
  sys <=! array_get w (446 + i * 16 + 4) ;;
  if sys =? 0 then Ok 0 else ld_dword w (446 + i * 16 + 8).

(** Where the volume is: the boot sector, and its kind. *)
Definition find_boot : F (Z * Z) :=
  fmt <- check_fs 0 ;;
  if fmt =? 2 then
    w <- gets (fun s => win (fs s)) ;;
    b0 <- lift (partition w 0) ;;
    b1 <- lift (partition w 1) ;;
    b2 <- lift (partition w 2) ;;
    b3 <- lift (partition w 3) ;;
    iter 4 (fun i : Z =>
      bsect <- lift (array_get [b0; b1; b2; b3] i) ;;
      fmt <- (if bsect =? 0 then ret 3 else check_fs bsect) ;;
      if (2 <=? fmt) && (i + 1 <? 4) then ret (inl (i + 1)) else ret (inr (bsect, fmt))) 0
  else ret (0, fmt).

(** Free clusters and last allocated cluster from FSInfo. *)
Definition load_fsinfo (fmt bsect : Z) : F unit :=
  upd_fs (set_free_clst 0xFFFFFFFF) ;;
  upd_fs (set_last_clst 0xFFFFFFFF) ;;
  upd_fs (set_fsi_flag 0x80) ;;
  w <- gets (fun s => win (fs s)) ;;
  info <- lift (ld_word w 48) ;;
  when ((fmt =? FS_FAT32) && (info =? 1))
    (r <- move_window (u32 (bsect + 1)) ;;
     when (fr_ok r)
       (upd_fs (set_fsi_flag 0) ;;
        w <- gets (fun s => win (fs s)) ;;
        sig <- lift (ld_word w 510) ;;
        lead <- lift (ld_dword w 0) ;;
        struc <- lift (ld_dword w 484) ;;
        when ((sig =? 0xAA55) && (lead =? 0x41615252) && (struc =? 0x61417272))
          (free <- lift (ld_dword w 488) ;;
           last <- lift (ld_dword w 492) ;;
           upd_fs (set_free_clst free) ;;
           upd_fs (set_last_clst last)))).

(** The object of the volume that starts at [bsect]: the FAT type, or the status. *)
Definition load_fat (bsect : Z) : F (Z + FRESULT) :=
  f <- gets fs ;;
  r <- lift (fat_geometry (layout f) (win f) bsect) ;;
  match r with
  | None => ret (inr FR_NO_FILESYSTEM)
  | Some (fmt, g) =>
      upd_fs (set_layout g) ;;
      load_fsinfo fmt bsect ;;
      ret (inl fmt)
  end.

Definition load_exfat (bsect : Z) : F (Z + FRESULT) :=
  f <- gets fs ;;
  r <- lift (exfat_geometry (layout f) (win f) bsect) ;;
  match r with
  | None => ret (inr FR_NO_FILESYSTEM)
  | Some g =>
      upd_fs (set_layout g) ;;
      sc <- clst2sect (dirbase g) ;;
      r <- move_window sc ;;
      if fr_ok r then
        w <- gets (fun s => win (fs s)) ;;
        b <- lift (find_81 w 0 16) ;;
        if b then
          upd_fs (set_free_clst 0xFFFFFFFF) ;;
          upd_fs (set_last_clst 0xFFFFFFFF) ;;
          ret (inl FS_EXFAT)
        else ret (inr FR_NO_FILESYSTEM)
      else ret (inr FR_DISK_ERR)
  end.

(** Mounting with mount ID [id]. *)
Definition mount_volume (id : Z) : F FRESULT :=
  '(bsect, fmt) <- find_boot ;;
  if fmt =? 4 then ret FR_DISK_ERR
  else if 2 <=? fmt then ret FR_NO_FILESYSTEM
  else
    r <- (if fmt =? 1 then load_exfat bsect else load_fat bsect) ;;
    match r with
    | inr e => ret e
    | inl t => upd_fs (fun f => set_layout (set_id id (set_type t (layout f))) f) ;; ret FR_OK
    end.

(** find_volume: the status, and the path behind the drive number. *)
Definition find_volume (path : option (list Z)) (mode : Z) : M (FRESULT * option (list Z)) :=
  let (drv, rest) := get_ldnumber path in
  if drv <? 0 then ret (FR_INVALID_DRIVE, rest)
  else
    s <- gets (fun s => s) ;;
    if negb (registered s) then ret (FR_NOT_ENABLED, rest)
    else
      let wr := negb (Z.land mode 0xFE =? 0) in
      st <- (if fs_type (layout (fs (vl s))) =? 0 then ret None
             else st <- on_vol drive_status ;; ret (if fst st then Some (snd st) else None)) ;;
      match st with
      | Some prot => ret (if wr && prot then FR_WRITE_PROTECTED else FR_OK, rest)
      | None =>
          on_vol (upd_fs (fun f => set_layout (set_type 0 (layout f)) f)) ;;
          '(ok, prot) <- on_vol drive_status ;;
          if negb ok then ret (FR_NOT_READY, rest)
          else if wr && prot then ret (FR_WRITE_PROTECTED, rest)
          else
            let id := u16 (Fsid s + 1) in
            r <- on_vol (mount_volume id) ;;
            when (fr_ok r) (modify (fun s => mkffs (registered s) id (vl s))) ;;
            ret (r, rest)
      end.

(** f_mount of the volume object, or of a null pointer. *)
Definition f_mount (fs_given : bool) (path : option (list Z)) (opt : Z) : M FRESULT :=
  let (drv, _) := get_ldnumber path in
  if drv <? 0 then ret FR_INVALID_DRIVE
  else
    s <- gets (fun s => s) ;;
    when (registered s || fs_given) (on_vol (upd_fs (fun f => set_layout (set_type 0 (layout f)) f))) ;;
    modify (fun s => mkffs fs_given (Fsid s) (vl s)) ;;
    if opt =? 0 then ret FR_OK
    else
      '(r, _) <- find_volume path 0 ;;
      ret r.

End Mount.

(** ** The layout of an accepted volume *)

(** The numbers of the parameter block. *)
Definition bpb_fsize (w : list Z) : Z := if le2 w 22 =? 0 then le4 w 36 else le2 w 22.

Definition bpb_total (w : list Z) : Z := if le2 w 19 =? 0 then le4 w 32 else le2 w 19.

(** Sectors before the clusters: reserved, tables, root directory. *)
Definition bpb_system (w : list Z) : Z := le2 w 14 + byte_at w 16 * bpb_fsize w + le2 w 17 / 16.

(** The volume ends below sector 0xFFFFFFFF, its parts do not add up to 2^32
    sectors or more, and a FAT32 volume has room for FSInfo before the table. *)
Definition sane (w : list Z) (bsect : Z) : Prop :=
  bpb_system w < 2 ^ 32 /\ bsect + bpb_total w <= 0xFFFFFFFF /\
  (MAX_FAT16 < (bpb_total w - bpb_system w) / byte_at w 13 -> 2 <= le2 w 14).

(** The number of clusters, and the FAT type that it decides. *)
Definition bpb_clusters (w : list Z) : Z := (bpb_total w - bpb_system w) / byte_at w 13.

Definition bpb_type (w : list Z) : Z :=
  if bpb_clusters w <=? MAX_FAT12 then FS_FAT12 else if bpb_clusters w <=? MAX_FAT16 then FS_FAT16 else FS_FAT32.

Lemma le2_range w o : bytes w -> 0 <= le2 w o < 2 ^ 16.
Proof.
  intros B. unfold le2. pose proof (byte_at_byte w o B). pose proof (byte_at_byte w (o + 1) B). in_range.
Qed.

(** A byte with one bit set. *)
Lemma one_bit x : 0 <= x < 256 -> x <> 0 -> Z.land x (x - 1) = 0 -> exists k, 0 <= k <= 15 /\ x = 2 ^ k.
Proof.
  intros H N E.
  assert (forallb (fun i => (i =? 0) || negb (Z.land i (i - 1) =? 0) || existsb (fun k => i =? 2 ^ k) (map Z.of_nat (seq 0 16)))
            (map Z.of_nat (seq 0 256)) = true) as A by (vm_compute; reflexivity).
  rewrite forallb_forall in A. specialize (A x). rewrite in_map_iff in A.
  assert ((x =? 0) = false) as N' by (now apply Z.eqb_neq). rewrite N', E in A. cbn [orb negb Z.eqb] in A.
  assert (existsb (fun k => x =? 2 ^ k) (map Z.of_nat (seq 0 16)) = true) as X.
  { apply A. exists (Z.to_nat x). split; [lia|]. apply in_seq. lia. }
  apply existsb_exists in X as (k & Hk & Ek). apply in_map_iff in Hk as (j & <- & Hj). apply in_seq in Hj.
  exists (Z.of_nat j). split; [lia | now apply Z.eqb_eq].
Qed.

Lemma land_1 n : Z.land n 1 = n mod 2.
Proof. change 1 with (Z.ones 1). now rewrite Z.land_ones by lia. Qed.

(** The layout that a FAT boot sector describes, its sums taken modulo 2^32. *)
Record fat_found (w : list Z) (bsect fmt : Z) (g : Layout) : Prop := {
  ff_fats : n_fats g = byte_at w 16 /\ (n_fats g = 1 \/ n_fats g = 2);
  ff_csize : csize g = byte_at w 13 /\ csize g <> 0 /\ Z.land (csize g) (csize g - 1) = 0;
  ff_size : fsize g = bpb_fsize w;
  ff_root : n_rootdir g = le2 w 17 /\ (fmt = FS_FAT32 <-> n_rootdir g = 0) /\
            dirbase g = (if fmt =? FS_FAT32 then le4 w 44 else u32 (fatbase g + u32 (bpb_fsize w * byte_at w 16)));
  ff_base : volbase g = bsect /\ fatbase g = u32 (bsect + le2 w 14) /\ le2 w 14 <> 0;
  ff_data : exists sys, sys = u32 (le2 w 14 + u32 (bpb_fsize w * byte_at w 16) + le2 w 17 / 16) /\ sys <= bpb_total w /\
            database g = u32 (bsect + sys) /\ n_fatent g = u32 ((bpb_total w - sys) / byte_at w 13 + 2) /\
            (bpb_total w - sys) / byte_at w 13 <> 0 /\
            fmt = (if (bpb_total w - sys) / byte_at w 13 <=? MAX_FAT12 then FS_FAT12
                   else if (bpb_total w - sys) / byte_at w 13 <=? MAX_FAT16 then FS_FAT16
                   else if (bpb_total w - sys) / byte_at w 13 <=? MAX_FAT32 then FS_FAT32 else 0) /\ fmt <> 0;
  ff_room : u32 ((if fmt =? FS_FAT32 then u32 (n_fatent g * 4) else if fmt =? FS_FAT16 then u32 (n_fatent g * 2)
                  else u32 (n_fatent g * 3) / 2 + Z.land (n_fatent g) 1) + (SS - 1)) / SS <= fsize g
}.

Ltac geometry_step :=
  match goal with
  | H : rbind (ld_word _ _) _ = _ |- _ => rewrite ld_word_ok in H by (auto; lia); cbn [rbind] in H
  | H : rbind (ld_dword _ _) _ = _ |- _ => rewrite ld_dword_ok in H by (auto; lia); cbn [rbind] in H
  | H : rbind (array_get _ _) _ = _ |- _ => rewrite byte_at_get in H by lia; cbn [rbind] in H
  | H : (if ?b then Ok None else _) = Ok (Some _) |- _ => destruct b eqn:?; [discriminate H|]
  end.

Lemma fat_geometry_found old w bsect fmt g : is_sector w ->
  fat_geometry old w bsect = Ok (Some (fmt, g)) -> fat_found w bsect fmt g.
Proof.
  intros [L B] H. unfold SS in L. unfold fat_geometry in H. change (SS / 32) with 16 in H. cbv zeta in H.
  repeat geometry_step.
  replace (if le2 w 22 =? 0 then ld_dword w 36 else Ok (le2 w 22)) with (Ok (bpb_fsize w)) in H
    by (unfold bpb_fsize; destruct (le2 w 22 =? 0); [now rewrite ld_dword_ok by (auto; lia) | reflexivity]).
  cbn [rbind] in H. repeat geometry_step.
  replace (if le2 w 19 =? 0 then ld_dword w 32 else Ok (le2 w 19)) with (Ok (bpb_total w)) in H
    by (unfold bpb_total; destruct (le2 w 19 =? 0); [now rewrite ld_dword_ok by (auto; lia) | reflexivity]).
  cbn [rbind] in H. repeat geometry_step. injection H as <- <-.
  repeat match goal with
         | E : orb _ _ = false |- _ => apply orb_false_iff in E as [? ?]
         | E : negb _ = false |- _ => apply negb_false_iff in E
         | E : (_ =? _) = true |- _ => apply Z.eqb_eq in E
         | E : (_ =? _) = false |- _ => apply Z.eqb_neq in E
         | E : (_ <? _) = false |- _ => apply Z.ltb_ge in E
         | E : andb _ _ = false |- _ => apply andb_false_iff in E
         end.
  match goal with |- fat_found _ _ ?f _ => set (fmt := f) in * end.
  constructor; cbn [n_fats csize fsize n_rootdir dirbase volbase fatbase database n_fatent]; auto.
  - split; [reflexivity|]. destruct Heqb0 as [E|E]; apply negb_false_iff, Z.eqb_eq in E; auto.
  - split; [reflexivity|]. split; [|reflexivity]. destruct (Z.eqb_spec fmt FS_FAT32) as [T|T].
    + match goal with E : _ || _ = false |- _ => apply orb_false_iff in E as [_ E]; apply negb_false_iff, Z.eqb_eq in E end. tauto.
    + match goal with E : (le2 w 17 =? 0) = false |- _ => apply Z.eqb_neq in E end. tauto.
  - eexists. split; [reflexivity|]. auto 8.
Qed.

(** The numbers add up without wrap-around. *)
Lemma sane_sums w bsect fmt g : is_sector w -> 0 <= bsect -> sane w bsect -> fat_found w bsect fmt g ->
  let n := (bpb_total w - bpb_system w) / byte_at w 13 in
  fatbase g = bsect + le2 w 14 /\ database g = bsect + bpb_system w /\ n_fatent g = n + 2 /\ 0 < n /\
  csize g * n <= bpb_total w - bpb_system w /\ bpb_system w <= bpb_total w /\
  fmt = (if n <=? MAX_FAT12 then FS_FAT12 else if n <=? MAX_FAT16 then FS_FAT16
         else if n <=? MAX_FAT32 then FS_FAT32 else 0) /\ fmt <> 0.
Proof.
  intros [L B] Hb (S1 & S2 & _) [[F1 F1'] [C1 [C2 C3]] FS _ [V1 [V2 V3]] (sys & Es & Hs & ED & EN & Hn & Ef & Hf) _].
  pose proof (le2_range w 14 B) as R1. pose proof (le2_range w 17 B) as R2. pose proof (byte_at_byte w 13 B) as R3.
  assert (0 <= bpb_fsize w) as R4.
  { unfold bpb_fsize. pose proof (le4_range w 36 B). pose proof (le2_range w 22 B). destruct (_ =? 0); lia. }
  assert (0 <= bpb_total w < 2 ^ 32) as R5 by (unfold bpb_total; pose proof (le4_range w 32 B); pose proof (le2_range w 19 B); destruct (_ =? 0); eval_pow; lia).
  assert (0 <= le2 w 17 / 16) by (apply Z.div_pos; lia). unfold is_byte, in_u in R3. unfold bpb_system in S1. rewrite F1 in F1'.
  unfold u32 in Es. rewrite (uwrap_small 32 (_ * _)), uwrap_small in Es by (unfold in_u; nia).
  assert (sys = bpb_system w) as -> by (unfold bpb_system; lia). clear Es. unfold bpb_system in *. cbv zeta.
  set (sy := le2 w 14 + _ + _) in *. set (n := (bpb_total w - sy) / byte_at w 13) in *.
  assert (0 <= n) by (apply Z.div_pos; lia).
  assert (byte_at w 13 * n <= bpb_total w - sy) by (apply Z.mul_div_le; lia).
  assert (sy < 2 ^ 32 /\ 0 <= sy) as [? ?] by (split; [exact S1 | unfold sy; nia]).
  assert (n <= bpb_total w) by nia.
  unfold u32 in *. rewrite (uwrap_small 32 (bsect + le2 w 14)) in V2 by (unfold in_u; eval_pow; unfold sy in *; nia).
  rewrite (uwrap_small 32 (bsect + sy)) in ED by (unfold in_u; eval_pow; lia).
  assert (n <= MAX_FAT32) as NM.
  { destruct (Z.leb_spec n MAX_FAT12), (Z.leb_spec n MAX_FAT16), (Z.leb_spec n MAX_FAT32); try lia; unfold MAX_FAT12, MAX_FAT16, MAX_FAT32 in *; lia. }
  rewrite (uwrap_small 32 (n + 2)) in EN by (unfold in_u, MAX_FAT32 in *; eval_pow; lia).
  rewrite C1. repeat (split; [assumption || lia|]). assumption.
Qed.

(** The table is long enough for its entries. *)
Lemma table_room fmt n sz : 2 < n <= MAX_FAT32 + 2 -> n <= max_clst fmt + 2 -> fmt = FS_FAT12 \/ fmt = FS_FAT16 \/ fmt = FS_FAT32 ->
  u32 ((if fmt =? FS_FAT32 then u32 (n * 4) else if fmt =? FS_FAT16 then u32 (n * 2)
        else u32 (n * 3) / 2 + Z.land n 1) + (SS - 1)) / SS <= sz ->
  fat_bytes fmt n <= sz * SS.
Proof.
  intros N1 N2 T H. unfold fat_bytes, max_clst, u32, MAX_FAT12, MAX_FAT16, MAX_FAT32, FS_FAT12, FS_FAT16, FS_FAT32, SS in *.
  assert (n < 2 ^ 28) by (eval_pow; lia). rewrite land_1 in H.
  rewrite (uwrap_small 32 (n * 4)), (uwrap_small 32 (n * 3)), (uwrap_small 32 (n * 2)) in H by (unfold in_u; eval_pow; lia).
  destruct T as [-> |[-> | ->]]; cbn [Z.eqb Pos.eqb] in *; rewrite uwrap_small in H by (unfold in_u; eval_pow; dlia); dlia.
Qed.

(** A volume whose sizes are sane and that find_volume accepts has the layout
    that the operations rely on. *)
Lemma found_layout w bsect fmt g : is_sector w -> 0 <= bsect -> sane w bsect -> fat_found w bsect fmt g ->
  layout_ok (set_type fmt g).
Proof.
  intros Sw Hb SN FF. destruct (sane_sums w bsect fmt g Sw Hb SN FF) as (E1 & E2 & E3 & Hn & Hc & Hs & Ef & Nf).
  destruct FF as [[F1 F2] [C1 [C2 C3]] FS _ [V1 [V2 V3]] _ RM]. destruct SN as (S1 & S2 & S3). pose proof Sw as [L B].
  set (n := (bpb_total w - bpb_system w) / byte_at w 13) in *.
  pose proof (le2_range w 14 B) as R1. pose proof (le2_range w 17 B) as R2. pose proof (byte_at_byte w 13 B) as R3.
  assert (n <= MAX_FAT32) as NM.
  { destruct (Z.leb_spec n MAX_FAT12), (Z.leb_spec n MAX_FAT16), (Z.leb_spec n MAX_FAT32); try lia;
      unfold MAX_FAT12, MAX_FAT16, MAX_FAT32 in *; lia. }
  assert ((fmt = FS_FAT12 /\ n <= MAX_FAT12) \/ (fmt = FS_FAT16 /\ n <= MAX_FAT16) \/ (fmt = FS_FAT32 /\ MAX_FAT16 < n)) as T.
  { destruct (Z.leb_spec n MAX_FAT12); [now left|]. destruct (Z.leb_spec n MAX_FAT16); [right; now left|].
    right. right. now rewrite (proj2 (Z.leb_le _ _)) in Ef by lia. }
  assert (2 < n_fatent g <= max_clst fmt + 2) as ENT.
  { rewrite E3. unfold max_clst, FS_FAT12, FS_FAT16, FS_FAT32 in *.
    destruct T as [[-> ?]|[[-> ?]|[-> ?]]]; cbn [Z.eqb Pos.eqb]; lia. }
  constructor; cbn [set_type fs_type n_fats csize n_fatent fsize volbase fatbase database]; auto.
  - unfold FS_FAT12, FS_FAT16, FS_FAT32 in T. lia.
  - lia.
  - intros EF. rewrite E1, V1. assert (MAX_FAT16 < n) as X.
    { destruct T as [[E _]|[[E _]|[_ X]]]; [now rewrite E in EF | now rewrite E in EF | exact X]. }
    specialize (S3 X). lia.
  - rewrite E1, E2, F1, FS. unfold bpb_system. pose proof (Z.div_pos (le2 w 17) 16). lia.
  - rewrite E2, E3. replace (n + 2 - 2) with n by lia. lia.
  - rewrite C1 in *. apply one_bit; auto.
  - apply table_room; auto; [lia | lia |]. tauto.
Qed.

(** ** Mounting *)

(** The parameter block is read inside the sector. *)
Ltac total_step :=
  match goal with
  | |- exists _, rbind (ld_word _ _) _ = _ => rewrite ld_word_ok by (auto; lia); cbn [rbind]
  | |- exists _, rbind (ld_dword _ _) _ = _ => rewrite ld_dword_ok by (auto; lia); cbn [rbind]
  | |- exists _, rbind (array_get _ _) _ = _ => rewrite byte_at_get by lia; cbn [rbind]
  | |- exists _, rbind (if ?b then _ else _) _ = _ => destruct b
  | |- exists _, (if ?b then _ else _) = _ => destruct b
  | |- exists _, Ok _ = _ => eexists; reflexivity
  | |- exists _, rbind (Ok _) _ = _ => cbn [rbind]
  end.

Lemma fat_geometry_total old w bsect : is_sector w -> exists r, fat_geometry old w bsect = Ok r.
Proof. intros [L B]. unfold SS in L. unfold fat_geometry. cbv zeta. repeat total_step. Qed.

(** The boot sectors that find_volume must accept: the numbers of clusters, of
    tables and of sectors fit each other and the FAT type. *)
Record fat_valid (w : list Z) : Prop := {
  fv_bytes : le2 w 11 = SS;
  fv_fats : byte_at w 16 = 1 \/ byte_at w 16 = 2;
  fv_csize : byte_at w 13 <> 0 /\ Z.land (byte_at w 13) (byte_at w 13 - 1) = 0;
  fv_root : le2 w 17 mod 16 = 0;
  fv_reserved : le2 w 14 <> 0;
  fv_fits : bpb_system w <= bpb_total w;
  fv_count : 0 < bpb_clusters w <= MAX_FAT32;
  fv_type : if MAX_FAT16 <? bpb_clusters w then le2 w 42 = 0 /\ le2 w 17 = 0 else le2 w 17 <> 0;
  fv_table : fat_bytes (bpb_type w) (bpb_clusters w + 2) <= bpb_fsize w * SS
}.

(** A sector that find_volume must accept as the FAT boot sector of the card. *)
Definition sound_boot (w : list Z) : Prop := boot_kind w = Ok 0 /\ sane w 0 /\ fat_valid w.

Lemma bpb_ranges w : bytes w -> 0 <= bpb_fsize w < 2 ^ 32 /\ 0 <= bpb_total w < 2 ^ 32.
Proof.
  intros B. unfold bpb_fsize, bpb_total. pose proof (le4_range w 36 B). pose proof (le2_range w 22 B).
  pose proof (le4_range w 32 B). pose proof (le2_range w 19 B). split; destruct (_ =? 0); eval_pow; lia.
Qed.

(** The test for the length of the table, which table_room reads the other way. *)
Lemma table_fits w : is_sector w -> 0 <= bpb_clusters w <= MAX_FAT32 ->
  fat_bytes (bpb_type w) (bpb_clusters w + 2) <= bpb_fsize w * SS ->
  u32 ((if bpb_type w =? FS_FAT32 then u32 ((bpb_clusters w + 2) * 4) else if bpb_type w =? FS_FAT16 then u32 ((bpb_clusters w + 2) * 2)
        else u32 ((bpb_clusters w + 2) * 3) / 2 + Z.land (bpb_clusters w + 2) 1) + (SS - 1)) / SS <= bpb_fsize w.
Proof.
  intros Sw N H. unfold bpb_type, fat_bytes, u32, MAX_FAT12, MAX_FAT16, MAX_FAT32, FS_FAT12, FS_FAT16, FS_FAT32, SS in *.
  set (n := bpb_clusters w) in *. rewrite land_1.
  rewrite (uwrap_small 32 ((n + 2) * 4)), (uwrap_small 32 ((n + 2) * 3)), (uwrap_small 32 ((n + 2) * 2)) by (unfold in_u; eval_pow; lia).
  destruct (n <=? 0xFF5), (n <=? 0xFFF5); cbn [Z.eqb Pos.eqb] in *; rewrite uwrap_small by (unfold in_u; eval_pow; dlia); dlia.
Qed.

Lemma fat_geometry_complete old w : is_sector w -> sane w 0 -> fat_valid w -> fat_geometry old w 0 <> Ok None.
Proof.
  intros Sw (S1 & _ & _) [V1 V2 [V3 V4] V5 V6 V7 V8 V9 V10] H. pose proof (table_fits w Sw ltac:(lia) V10) as TF.
  pose proof Sw as [L B]. unfold SS in L. destruct (bpb_ranges w B) as [R1 R2]. pose proof (le2_range w 14 B) as R3.
  pose proof (le2_range w 17 B) as R4. assert (0 <= le2 w 17 / 16) by (apply Z.div_pos; lia).
  assert (0 <= bpb_fsize w * byte_at w 16) by nia. unfold bpb_system in S1.
  assert (u32 (le2 w 14 + u32 (bpb_fsize w * byte_at w 16) + le2 w 17 / 16) = bpb_system w) as ES.
  { unfold u32. rewrite (uwrap_small 32 (_ * _)), uwrap_small by (unfold in_u; nia). unfold bpb_system. lia. }
  unfold fat_geometry in H. change (SS / 32) with 16 in H. cbv zeta in H. repeat geometry_step.
  rewrite V1, Z.eqb_refl in H. cbn [negb] in H. repeat geometry_step.
  replace (if le2 w 22 =? 0 then ld_dword w 36 else Ok (le2 w 22)) with (Ok (bpb_fsize w)) in H
    by (unfold bpb_fsize; destruct (le2 w 22 =? 0); [now rewrite ld_dword_ok by (auto; lia) | reflexivity]).
  cbn [rbind] in H. repeat geometry_step.
  replace (negb (byte_at w 16 =? 1) && negb (byte_at w 16 =? 2)) with false in H by (now destruct V2 as [-> | ->]).
  repeat geometry_step. rewrite (proj2 (Z.eqb_neq _ _) V3), V4 in H. cbn [orb negb Z.eqb] in H. repeat geometry_step.
  rewrite V5 in H. cbn [negb Z.eqb] in H. repeat geometry_step.
  replace (if le2 w 19 =? 0 then ld_dword w 32 else Ok (le2 w 19)) with (Ok (bpb_total w)) in H
    by (unfold bpb_total; destruct (le2 w 19 =? 0); [now rewrite ld_dword_ok by (auto; lia) | reflexivity]).
  cbn [rbind] in H. repeat geometry_step. rewrite (proj2 (Z.eqb_neq _ _) V6), ES, (proj2 (Z.ltb_ge _ _) V7) in H.
  fold (bpb_clusters w) in H. rewrite (proj2 (Z.eqb_neq (bpb_clusters w) 0)), (proj2 (Z.leb_le (bpb_clusters w) MAX_FAT32)) in H by lia.
  fold (bpb_type w) in H. rewrite (proj2 (Z.eqb_neq (bpb_type w) 0)) in H by (unfold bpb_type; destruct (bpb_clusters w <=? MAX_FAT12), (bpb_clusters w <=? MAX_FAT16); discriminate).
  repeat geometry_step. assert (u32 (bpb_clusters w + 2) = bpb_clusters w + 2) as EC by (apply uwrap_small; unfold MAX_FAT32 in *; in_range).
  rewrite EC, (proj2 (Z.ltb_ge _ _) TF) in H. revert H.
  replace (if bpb_type w =? FS_FAT32 then negb (le2 w 42 =? 0) || negb (le2 w 17 =? 0) else le2 w 17 =? 0) with false; [discriminate|].
  unfold bpb_type. destruct (Z.ltb_spec MAX_FAT16 (bpb_clusters w)), (Z.leb_spec (bpb_clusters w) MAX_FAT12),
    (Z.leb_spec (bpb_clusters w) MAX_FAT16); unfold MAX_FAT12, MAX_FAT16 in *; try lia; cbn [Z.eqb FS_FAT12 FS_FAT16 FS_FAT32 Pos.eqb].
  - destruct V9 as [-> ->]. reflexivity.
  - symmetry. now apply Z.eqb_neq.
  - symmetry. now apply Z.eqb_neq.
Qed.

(** An exFAT boot sector does not make mounting shift by 31 or more. *)
Definition tame (w : list Z) : Prop := boot_kind w = Ok 1 -> byte_at w 108 < 31 /\ byte_at w 109 < 31.

(** The layout that an exFAT boot sector describes, its sums taken modulo 2^32. *)
Record exfat_found (w : list Z) (bsect : Z) (g : Layout) : Prop := {
  xf_sector : byte_at w 108 = 9 /\ le2 w 104 = 0x100;
  xf_fats : n_fats g = 1 /\ byte_at w 110 = 1 /\ fsize g = le4 w 84;
  xf_csize : byte_at w 109 <= 15 /\ csize g = 2 ^ byte_at w 109;
  xf_count : n_fatent g = le4 w 92 + 2 /\ le4 w 92 <= MAX_EXFAT;
  xf_base : volbase g = bsect /\ fatbase g = u32 (bsect + le4 w 80) /\ database g = u32 (bsect + le4 w 88);
  xf_root : dirbase g = le4 w 96
}.

Lemma shift1_ok b : b < 31 -> shift1 b = Ok (Z.shiftl 1 b).
Proof. intros H. unfold shift1. now rewrite (proj2 (Z.ltb_lt _ _) H). Qed.

Lemma ld_qword_ok w o : bytes w -> 0 <= o -> o + 8 <= Z.of_nat (length w) -> exists v, ld_qword w o = Ok v.
Proof. intros B H1 H2. unfold ld_qword. rewrite !ld_dword_ok by (auto; lia). cbn [rbind]. now eexists. Qed.

Lemma exfat_geometry_total old w bsect : is_sector w -> byte_at w 108 < 31 /\ byte_at w 109 < 31 -> exists r, exfat_geometry old w bsect = Ok r.
Proof.
  intros [L B] [T1 T2]. unfold SS in L. unfold exfat_geometry. cbv zeta.
  destruct (ld_qword_ok w 72 B) as (q & Eq); [lia | lia|]. rewrite !Eq.
  repeat (total_step || (rewrite shift1_ok by assumption; cbn [rbind])).
Qed.

Lemma find_81_total w n : forall i, is_sector w -> 0 <= i -> i + 32 * Z.of_nat n <= SS -> exists b, find_81 w i n = Ok b.
Proof.
  induction n as [|n IH]; intros i Sw Hi Hn; cbn [find_81]; [now eexists|]. pose proof Sw as [L B]. unfold SS in *.
  rewrite byte_at_get by lia. cbn [rbind]. rewrite ld_dword_ok by (auto; lia). cbn [rbind].
  destruct (_ && _); [now eexists|]. apply IH; [exact Sw | lia | unfold SS; lia].
Qed.

Lemma boot_kind_total w : is_sector w -> exists k, boot_kind w = Ok k /\ 0 <= k <= 3.
Proof.
  intros [L B]. unfold SS in L. unfold boot_kind. rewrite ld_word_ok by (auto; lia). cbn [rbind].
  destruct (negb _); [eexists; split; [reflexivity | lia]|].
  match goal with |- exists _, (if ?b then _ else _) = _ /\ _ => destruct b; [eexists; split; [reflexivity | lia]|] end.
  rewrite !byte_at_get by lia. cbn [rbind].
  repeat match goal with |- exists _, (if ?b then _ else _) = _ /\ _ => destruct b end;
    eexists; (split; [reflexivity | lia]).
Qed.

Lemma partition_total w i : is_sector w -> 0 <= i <= 3 -> exists b, partition w i = Ok b /\ in_u 32 b.
Proof.
  intros [L B] Hi. unfold SS in L. unfold partition. rewrite byte_at_get by lia. cbn [rbind].
  destruct (_ =? 0); [exists 0; split; [reflexivity | in_range]|]. rewrite ld_dword_ok by (auto; lia).
  eexists. split; [reflexivity | now apply le4_range].
Qed.

Section MountLaws.
Context `{D : DiskIo} {DL : DiskLaws D}.

(** Sectors are sectors, and an exFAT boot sector that comes into the window does
    not make mounting shift by 31 or more; nothing is asked of other sectors. *)
Record raw (s : vol) : Prop := {
  ra_win : is_sector (win (fs s)) /\ tame (win (fs s));
  ra_card : forall n, is_sector (card s n) /\ tame (card s n);
  ra_spoiled : forall k n, tame (spoiled k n)
}.

(** The window is clean, and shows a sector of the card or none. *)
Definition shows (s : vol) : Prop :=
  wflag (fs s) = 0 /\ in_u 32 (winsect (fs s)) /\ (winsect (fs s) <> 0xFFFFFFFF -> win (fs s) = card s (winsect (fs s))).

(** Nothing but the window moved. *)
Record looked (s s' : vol) : Prop := {
  lk_layout : lay s' = lay s;
  lk_card : card s' = card s;
  lk_calls : (calls s <= calls s')%nat;
  lk_free : free_clst (fs s') = free_clst (fs s);
  lk_last : last_clst (fs s') = last_clst (fs s)
}.

#[export] Instance looked_preorder : PreOrder looked.
Proof. split; [intros s; now constructor|]. intros a b c [] []. constructor; congruence || lia. Qed.

Lemma move_clean n s : raw s -> shows s -> in_u 32 n ->
  wp (move_window n) (fun r s' => raw s' /\ shows s' /\ looked s s' /\
    (r = FR_OK /\ winsect (fs s') = n \/ r = FR_DISK_ERR /\ failed s s')) s.
Proof.
  intros [RW RC RS] (W & Ws & CL) Hn. unfold move_window. wp_norm.
  destruct (Z.eqb_spec n (winsect (fs s))) as [E|E].
  { apply wp_ret. split; [now constructor|]. split; [now split|]. split; [reflexivity | now left]. }
  unfold sync_window. wp_norm. rewrite W. cbn [Z.eqb]. wp_norm.
  apply wp_bind. unfold disk_read, wp at 1. rewrite flat_map_one. unfold upd_fs.
  destruct (disk_ok (calls s)) eqn:Eo; wp_norm; set (s2 := mkvol _ _ _).
  - split; [constructor; cbn; auto|]. split; [split; [exact W|]; split; [exact Hn | reflexivity]|].
    split; [constructor; cbn; auto; lia | now left].
  - split; [constructor; cbn; auto; split; [apply spoiled_sector | apply RS]|].
    split; [split; [exact W|]; split; [cbn; in_range | now intros []]|].
    split; [constructor; cbn; auto; lia|]. right. split; [reflexivity|]. apply failed_now; [exact Eo | cbn; lia].
Qed.

(** A boot sector of kind [k] < 2 at [b] is in the window; or a disk error. *)
Definition booted (s : vol) (x : Z * Z) (s' : vol) : Prop :=
  let (b, k) := x in
  raw s' /\ shows s' /\ looked s s' /\ 0 <= k <= 4 /\ in_u 32 b /\
  (k < 2 -> winsect (fs s') = b /\ boot_kind (win (fs s')) = Ok k) /\ (k = 4 -> failed s s').

Lemma check_fs_wp b s : raw s -> in_u 32 b ->
  wp (check_fs b) (fun k s' => booted s (b, k) s' /\ (b = 0 -> k <> 4 -> boot_kind (card s b) = Ok k)) s.
Proof.
  intros R Hb. unfold check_fs, upd_fs. wp_norm. set (s1 := mkvol _ _ _).
  assert (raw s1) as R1 by (destruct R; constructor; auto).
  assert (shows s1) as S1 by (split; [reflexivity|]; split; [cbn; in_range | now intros []]).
  assert (looked s s1) as L1 by (constructor; reflexivity || (cbn; lia)).
  wp_use move_clean; auto. intros r s2 (R2 & S2 & L2 & [[-> W]|[-> FL]]); cbn [fr_ok].
  - apply wp_bind, wp_gets. destruct (boot_kind_total (win (fs s2)) (proj1 (ra_win _ R2))) as (k & Ek & Hk).
    eapply wp_lift; [exact Ek|]. split.
    { split; [exact R2|]. split; [exact S2|]. split; [etransitivity; eassumption|].
      split; [lia|]. split; [exact Hb|]. split; [auto | lia]. }
    intros -> _. destruct S2 as (_ & _ & S2). rewrite W in S2. now rewrite <- Ek, (S2 ltac:(lia)), (lk_card _ _ L2).
  - apply wp_ret. split; [|now intros _ []]. split; [exact R2|]. split; [exact S2|]. split; [etransitivity; eassumption|].
    split; [lia|]. split; [exact Hb|]. split; [lia|]. intros _. apply (failed_r _ s1); [exact FL | apply L1].
Qed.

Lemma booted_after s s1 x s2 : looked s s1 -> booted s1 x s2 -> booted s x s2.
Proof.
  destruct x as [b k]. intros L (R & S & L2 & Hk & Hb & H1 & H2). repeat (split; [assumption|]).
  split; [etransitivity; eassumption|]. repeat (split; [assumption|]). intros E. apply (failed_r _ s1); [auto | apply L].
Qed.

(** A FAT boot sector in sector 0 is the one that is taken. *)
Lemma find_boot_wp s : raw s -> wp find_boot (fun x s' => booted s x s' /\
  (boot_kind (card s 0) = Ok 0 -> fst x = 0 /\ (snd x = 0 \/ snd x = 4))) s.
Proof.
  intros R. unfold find_boot. apply wp_bind. wp_use check_fs_wp; [exact R | in_range |].
  intros k s1 [B1 K0]. destruct (Z.eqb_spec k 2) as [->|N].
  2:{ apply wp_ret. split; [exact B1|]. cbn [fst snd]. intros E. split; [reflexivity|].
      destruct (Z.eq_dec k 4) as [|N4]; [now right | left]. specialize (K0 eq_refl N4). congruence. }
  specialize (K0 eq_refl ltac:(lia)). rewrite K0.
  destruct B1 as (R1 & S1 & L1 & _). pose proof (proj1 (ra_win _ R1)) as Sw. wp_norm.
  destruct (partition_total (win (fs s1)) 0 Sw) as (b0 & E0 & H0); [lia|].
  destruct (partition_total (win (fs s1)) 1 Sw) as (b1 & E1 & H1); [lia|].
  destruct (partition_total (win (fs s1)) 2 Sw) as (b2 & E2 & H2); [lia|].
  destruct (partition_total (win (fs s1)) 3 Sw) as (b3 & E3 & H3); [lia|].
  eapply wp_lift; [exact E0|]. apply wp_bind. eapply wp_lift; [exact E1|]. apply wp_bind. eapply wp_lift; [exact E2|].
  apply wp_bind. eapply wp_lift; [exact E3|].
  apply (wp_iter _ (fun i s2 => 0 <= i < 4 /\ raw s2 /\ looked s s2 /\ shows s2) (fun i _ => Z.to_nat (3 - i))).
  2:{ split; [lia|]. auto. }
  2:{ cbn. lia. }
  intros i s2 (Hi & R2 & L2 & S2).
  assert (exists b, array_get [b0; b1; b2; b3] i = Ok b /\ in_u 32 b) as (b & Eb & Hb).
  { assert (i = 0 \/ i = 1 \/ i = 2 \/ i = 3) as [-> |[-> |[-> | ->]]] by lia; eexists; (split; [reflexivity | assumption]). }
  apply wp_bind. eapply wp_lift; [exact Eb|]. apply wp_bind.
  apply (wp_conseq _ (fun k s' => booted s2 (b, k) s')).
  - destruct (b =? 0); [|wp_use check_fs_wp; [exact R2 | exact Hb | now intros k s' [? _]]]. apply wp_ret. repeat (split; [assumption || lia || reflexivity|]). lia.
  - intros k s3 B3. pose proof (booted_after s s2 _ s3 L2 B3) as (R3 & S3 & L3 & Q). 
    destruct ((2 <=? k) && (i + 1 <? 4)) eqn:E; apply wp_ret.
    + apply andb_true_iff in E as [_ E]. apply Z.ltb_lt in E. split; [|lia]. split; [lia|]. auto.
    + split; [now repeat (split; [assumption|]) | discriminate].
Qed.

(** The volume object after its members were read; [type] is not set yet. *)
Definition loaded (s s' : vol) : Prop :=
  raw s' /\ shows s' /\ card s' = card s /\ (calls s <= calls s')%nat /\
  in_u 32 (free_clst (fs s')) /\ in_u 32 (last_clst (fs s')).

Lemma load_fsinfo_wp fmt b s : raw s -> shows s ->
  wp (load_fsinfo fmt b) (fun _ s' => loaded s s' /\ lay s' = lay s) s.
Proof.
  intros R S. unfold load_fsinfo, upd_fs. wp_norm. set (s1 := mkvol _ _ _).
  assert (raw s1 /\ shows s1) as [R1 S1] by (destruct R, S; split; [constructor; auto | now split]).
  pose proof (proj1 (ra_win _ R1)) as [Lw Bw]. unfold SS in Lw.
  assert (loaded s s1) as L1 by (do 3 (split; [now auto|]); split; [cbn; lia | split; cbn; in_range]).
  eapply wp_lift; [apply ld_word_ok; auto; lia|]. apply wp_when; intros _; [|now split].
  apply wp_bind. wp_use move_clean; auto; [apply uwrap_range; lia|]. intros r s2 (R2 & S2 & [L2 C2 N2 F2 A2] & _).
  assert (loaded s s2) as LD2.
  { destruct L1 as (_ & _ & C1 & N1 & F1 & A1). do 2 (split; [assumption|]). split; [congruence|]. split; [lia|].
    rewrite F2, A2. auto. }
  apply wp_when; intros _; [|now split]. wp_norm. set (s3 := mkvol _ _ _). change (win (fs s3)) with (win (fs s2)).
  pose proof (proj1 (ra_win _ R2)) as [L3 B3]. unfold SS in L3.
  eapply wp_lift; [apply ld_word_ok; auto; lia|]. apply wp_bind. eapply wp_lift; [apply ld_dword_ok; auto; lia|].
  apply wp_bind. eapply wp_lift; [apply ld_dword_ok; auto; lia|].
  assert (loaded s s3) as LD3.
  { destruct LD2 as ([] & [] & LD). split; [now constructor|]. split; [now split | exact LD]. }
  apply wp_when; intros _; [|now split]. apply wp_bind. eapply wp_lift; [apply ld_dword_ok; auto; lia|].
  apply wp_bind. eapply wp_lift; [apply ld_dword_ok; auto; lia|]. wp_norm. split; [|exact L2].
  destruct LD3 as ([] & [] & C3 & N3 & _). split; [now constructor|]. split; [now split|]. split; [exact C3|]. split; [exact N3|].
  split; now apply le4_range.
Qed.

(** A FAT boot sector [w] at [b] and what it says. *)
Definition fat_boot (s : vol) (w : list Z) (b fmt : Z) (g : Layout) : Prop :=
  (b <> 0xFFFFFFFF -> w = card s b) /\ in_u 32 b /\ is_sector w /\ boot_kind w = Ok 0 /\ fat_found w b fmt g.

Lemma load_fat_wp b s : raw s -> shows s -> winsect (fs s) = b -> boot_kind (win (fs s)) = Ok 0 -> in_u 32 b ->
  wp (load_fat b) (fun r s' =>
    (exists fmt, r = inl fmt /\ loaded s s' /\ fat_boot s (win (fs s)) b fmt (lay s')) \/
    r = inr FR_NO_FILESYSTEM /\ s' = s /\ fat_geometry (lay s) (win (fs s)) b = Ok None) s.
Proof.
  intros R S W K Hb. unfold load_fat. apply wp_bind, wp_gets. pose proof (proj1 (ra_win _ R)) as Sw.
  destruct (fat_geometry_total (lay s) (win (fs s)) b Sw) as (r & Er). apply wp_bind. eapply wp_lift; [exact Er|].
  destruct r as [[fmt g]|]; [|apply wp_ret; now right].
  pose proof (fat_geometry_found _ _ _ _ _ Sw Er) as FF. unfold upd_fs. wp_norm. set (s1 := mkvol _ _ _).
  assert (raw s1 /\ shows s1) as [R1 S1] by (destruct R, S; split; [constructor; auto | now split]).
  wp_use load_fsinfo_wp; auto. intros _ s2 [LD L2]. apply wp_ret. left. exists fmt. split; [reflexivity|].
  split; [exact LD|]. rewrite L2. destruct S as (_ & _ & S). rewrite W in S. now repeat (split; [assumption|]).
Qed.

(** The shifts of a byte that give the sector size and the cluster size. *)
Lemma shift1_512 b : is_byte b -> shift1 b = Ok SS -> b = 9.
Proof.
  intros B H. unfold shift1 in H. destruct (Z.ltb_spec b 31); [|discriminate H]. injection H as H.
  unfold is_byte, in_u in B. rewrite Z.shiftl_1_l in H. change SS with (2 ^ 9) in H. apply Z.pow_inj_r in H; lia.
Qed.

Lemma shift1_u16 b v : is_byte b -> shift1 b = Ok v -> u16 v <> 0 -> b <= 15 /\ u16 v = 2 ^ b.
Proof.
  intros B H N. unfold shift1 in H. destruct (Z.ltb_spec b 31); [|discriminate H]. injection H as <-.
  unfold is_byte, in_u in B. rewrite Z.shiftl_1_l in *. unfold u16, uwrap in *. destruct (Z.le_gt_cases b 15) as [L|L].
  - split; [exact L|]. apply Z.mod_small. split; [apply Z.pow_nonneg; lia | apply Z.pow_lt_mono_r; lia].
  - destruct N. apply Z.mod_divide; [lia|]. exists (2 ^ (b - 16)). rewrite <- Z.pow_add_r by lia. f_equal. lia.
Qed.

Lemma exfat_geometry_found old w b g : is_sector w -> exfat_geometry old w b = Ok (Some g) -> exfat_found w b g.
Proof.
  intros [L B] H. unfold SS in L. unfold exfat_geometry in H. cbv zeta in H. repeat geometry_step.
  destruct (shift1 (byte_at w 108)) as [bytes|] eqn:E1; cbn [rbind] in H; [|discriminate H]. repeat geometry_step.
  destruct (ld_qword_ok w 72 B) as (q & Eq); [lia | lia|]. rewrite Eq in H. cbn [rbind] in H. repeat geometry_step.
  destruct (shift1 (byte_at w 109)) as [spc|] eqn:E2; cbn [rbind] in H; [|discriminate H]. repeat geometry_step.
  injection H as <-.
  repeat match goal with
         | E : negb _ = false |- _ => apply negb_false_iff in E
         | E : (_ =? _) = true |- _ => apply Z.eqb_eq in E
         | E : (_ =? _) = false |- _ => apply Z.eqb_neq in E
         | E : (_ <? _) = false |- _ => apply Z.ltb_ge in E
         end.
  subst bytes. pose proof (le4_range w 92 B). constructor; cbn [n_fats fsize csize n_fatent volbase fatbase database dirbase]; auto.
  - split; [apply shift1_512; auto; apply byte_at_byte, B | assumption].
  - apply shift1_u16; auto. apply byte_at_byte, B.
  - split; [|assumption]. apply uwrap_small. unfold MAX_EXFAT in *. in_range.
Qed.

Lemma exfat_geometry_type old w b g : exfat_geometry old w b = Ok (Some g) -> fs_type g = 0.
Proof.
  unfold exfat_geometry. cbv zeta. intros H.
  repeat match type of H with
         | rbind ?x _ = _ => destruct x; cbn [rbind] in H; [|discriminate H]
         | (if ?c then _ else _) = _ => destruct c; [discriminate H|]
         end.
  now injection H as <-.
Qed.

(** An exFAT boot sector [w] at [b] and what it says. *)
Definition exfat_boot (s : vol) (w : list Z) (b : Z) (g : Layout) : Prop :=
  (b <> 0xFFFFFFFF -> w = card s b) /\ boot_kind w = Ok 1 /\ exfat_found w b g.

Lemma load_exfat_wp b s : raw s -> shows s -> winsect (fs s) = b -> boot_kind (win (fs s)) = Ok 1 -> fs_type (lay s) = 0 ->
  wp (load_exfat b) (fun r s' => card s' = card s /\ (calls s <= calls s')%nat /\ fs_type (lay s') = 0 /\
    (r = inl FS_EXFAT /\ exfat_boot s (win (fs s)) b (lay s') \/ r = inr FR_NO_FILESYSTEM \/ r = inr FR_DISK_ERR /\ failed s s')) s.
Proof.
  intros R S W K T. unfold load_exfat. apply wp_bind, wp_gets. pose proof (ra_win _ R) as [Sw Tw].
  destruct (exfat_geometry_total (lay s) (win (fs s)) b Sw (Tw K)) as (r & Er). apply wp_bind. eapply wp_lift; [exact Er|].
  destruct r as [g|]; [|apply wp_ret; now auto 7]. pose proof (exfat_geometry_found _ _ _ _ Sw Er) as XF.
  apply exfat_geometry_type in Er. unfold upd_fs. wp_norm. set (s1 := mkvol _ _ _).
  assert (raw s1 /\ shows s1) as [R1 S1] by (destruct R, S; split; [constructor; auto | now split]).
  assert (wp (clst2sect (dirbase g)) (fun sc s' => s' = s1 /\ in_u 32 sc) s1) as WC.
  { unfold clst2sect. wp_norm. destruct (_ <=? _); apply wp_ret; (split; [reflexivity|]); [in_range | apply uwrap_range; lia]. }
  eapply wp_conseq; [exact WC|]. intros sc s1' [-> Hsc]. apply wp_bind. wp_use move_clean; auto.
  intros r s2 (R2 & S2 & [L2 C2 N2 _ _] & RR). assert (fs_type (lay s2) = 0) as T2 by now rewrite L2.
  destruct RR as [[-> _]|[-> FL]]; cbn [fr_ok].
  2:{ apply wp_ret. repeat (split; [assumption|]). right. right. split; [reflexivity | exact FL]. }
  apply wp_bind, wp_gets, wp_bind. destruct (find_81_total (win (fs s2)) 16 0 (proj1 (ra_win _ R2))) as (f & Ef); [lia | unfold SS; lia|].
  eapply wp_lift; [exact Ef|]. destruct f; wp_norm; [|now auto 6].
  repeat (split; [assumption|]). left. split; [reflexivity|]. cbn [lay]. change (exfat_boot s (win (fs s)) b (lay s2)). rewrite L2. destruct S as (_ & _ & S). rewrite W in S. now split.
Qed.

(** What mounting leaves: a FAT volume, sound if its sizes are sane; an exFAT one. *)
Definition mounted_fat (id : Z) (s s' : vol) : Prop :=
  exists w b fmt g, fat_boot s w b fmt g /\ lay s' = set_id id (set_type fmt g) /\ (sane w b -> vol_ok s').

Definition mounted_exfat (id : Z) (s s' : vol) : Prop :=
  exists w b g, exfat_boot s w b g /\ lay s' = set_id id (set_type FS_EXFAT g).

Lemma mounted_vol id s s1 w b fmt : loaded s s1 -> fat_boot s w b fmt (lay s1) -> sane w b ->
  vol_ok (mkvol (set_layout (set_id id (set_type fmt (lay s1))) (fs s1)) (card s1) (calls s1)).
Proof.
  intros (R & (W & Ws & CL) & C & _ & F1 & F2) (_ & Hb & Sw & _ & FF) SN. unfold in_u in Hb.
  pose proof (found_layout w b fmt (lay s1) Sw ltac:(lia) SN FF) as LO.
  constructor; cbn [fs card layout set_layout wflag winsect win free_clst last_clst]; auto; try apply R.
  - destruct LO. now constructor.
  - now intros N.
  - intros _ (V & _). symmetry. apply CL. lia.
Qed.

Lemma mount_volume_wp id s : raw s -> fs_type (lay s) = 0 ->
  wp (mount_volume id) (fun r s' => card s' = card s /\ (calls s <= calls s')%nat /\
    (r = FR_OK /\ (mounted_fat id s s' \/ mounted_exfat id s s') \/
     fs_type (lay s') = 0 /\ (r = FR_NO_FILESYSTEM /\ ~ sound_boot (card s 0) \/ r = FR_DISK_ERR /\ failed s s'))) s.
Proof.
  intros R T. unfold mount_volume. apply wp_bind. wp_use find_boot_wp; [exact R|].
  intros [b k] s1 [(R1 & S1 & [L1 C1 N1 _ _] & Hk & Hb & KB & KF) K0]. cbn [fst snd] in K0. rewrite <- L1 in T.
  assert (k <> 0 -> k <> 4 -> ~ sound_boot (card s 0)) as NB by (intros ? ? (E & _); destruct (K0 E) as [_ [?|?]]; auto).
  destruct (Z.eqb_spec k 4); [apply wp_ret; now auto 9|].
  destruct (Z.leb_spec 2 k); [apply wp_ret; split; [exact C1|]; split; [exact N1|]; right; split; [exact T|]; left; split; [reflexivity | apply NB; lia]|].
  destruct (KB ltac:(lia)) as [W K]. apply wp_bind. destruct (Z.eqb_spec k 1) as [->|NK].
  - wp_use load_exfat_wp; auto. intros r s2 (C2 & N2 & T2 & RR). rewrite C1 in C2.
    assert ((calls s <= calls s2)%nat) as N by lia.
    destruct RR as [[-> XB]|[-> |[-> FL]]]; unfold upd_fs; wp_norm; try (apply wp_ret); (split; [exact C2|]); (split; [exact N|]).
    + left. split; [reflexivity|]. right. exists (win (fs s1)), b, (lay s2). split; [|reflexivity].
      unfold exfat_boot in *. now rewrite C1 in XB.
    + right. split; [exact T2|]. left. split; [reflexivity | apply NB; lia].
    + right. split; [exact T2|]. right. split; [reflexivity | now apply (failed_r _ s1)].
  - replace k with 0 in * by lia. wp_use load_fat_wp; auto. intros r s2 [(fmt & -> & LD & FB)|(-> & -> & NG)].
    2:{ apply wp_ret. split; [exact C1|]. split; [exact N1|]. right. split; [exact T|]. left. split; [reflexivity|].
        intros (E & SN & FV). destruct (K0 E) as [-> _]. destruct S1 as (_ & _ & S1). rewrite W in S1.
        rewrite (S1 ltac:(lia)), C1 in NG. revert NG. apply fat_geometry_complete; auto. apply (ra_card _ R). }
    unfold upd_fs. wp_norm. pose proof LD as (_ & _ & C2 & N2 & _). split; [cbn; congruence|]. split; [cbn; lia|]. left.
    split; [reflexivity|]. left. exists (win (fs s1)), b, fmt, (lay s2). split; [|split; [reflexivity|]].
    + unfold fat_boot in *. now rewrite C1 in FB.
    + intros SN. now apply (mounted_vol id s1 s2 (win (fs s1)) b).
Qed.

Lemma on_vol_wp {A} (m : F A) (Q : A -> ffs -> Prop) s :
  wp m (fun a v => Q a (mkffs (registered s) (Fsid s) v)) (vl s) -> wp (on_vol m) Q s.
Proof. unfold wp, on_vol. destruct (m (vl s)) as [[a v]|e]; auto. Qed.

(** What mounting does to the registered object. *)
Definition mounts (s : ffs) (r : FRESULT) (s' : ffs) : Prop :=
  registered s' = registered s /\ card (vl s') = card (vl s) /\ (calls (vl s) <= calls (vl s'))%nat /\
  (r = FR_OK /\ Fsid s' = u16 (Fsid s + 1) /\
     (mounted_fat (Fsid s') (vl s) (vl s') \/ mounted_exfat (Fsid s') (vl s) (vl s')) \/
   Fsid s' = Fsid s /\ fs_type (lay (vl s')) = 0 /\
     (r = FR_NO_FILESYSTEM /\ ~ sound_boot (card (vl s) 0) \/ r = FR_WRITE_PROTECTED \/
      (r = FR_DISK_ERR \/ r = FR_NOT_READY) /\ failed (vl s) (vl s'))).

(** The part of find_volume that mounts. *)
Lemma mount_wp wr (rest : option (list Z)) s0 s : raw (vl s) -> registered s = registered s0 -> Fsid s = Fsid s0 ->
  card (vl s) = card (vl s0) -> (calls (vl s0) <= calls (vl s))%nat ->
  wp (on_vol (upd_fs (fun f => set_layout (set_type 0 (layout f)) f)) ;;
      '(ok, prot) <- on_vol drive_status ;;
      if negb ok then ret (FR_NOT_READY, rest)
      else if wr && prot then ret (FR_WRITE_PROTECTED, rest)
      else
        let id := u16 (Fsid s0 + 1) in
        r <- on_vol (mount_volume id) ;;
        when (fr_ok r) (modify (fun s => mkffs (registered s) id (vl s))) ;;
        ret (r, rest))
     (fun x s' => snd x = rest /\ (wr = false -> fst x <> FR_WRITE_PROTECTED) /\ mounts s0 (fst x) s') s.
Proof.
  intros R E1 E2 E3 E4. apply wp_bind, on_vol_wp. unfold upd_fs. apply wp_modify. set (s1 := mkffs _ _ _).
  apply wp_bind, on_vol_wp. unfold drive_status, wp at 1. set (v := mkvol _ _ _). cbn [fst snd].
  assert (card v = card (vl s0) /\ (calls (vl s0) < calls v)%nat /\ fs_type (lay v) = 0) as (C & N & T)
    by (cbn; repeat split; auto; lia).
  destruct (disk_ok (calls (vl s1))) eqn:Eo; cbn [negb].
  2:{ apply wp_ret. split; [reflexivity|]. split; [discriminate|]. split; [exact E1|]. split; [exact C|]. split; [cbn; lia|].
      right. split; [exact E2|]. split; [exact T|]. right. right. split; [now right|].
      exists (calls (vl s)). split; [cbn; lia | exact Eo]. }
  destruct (wr && disk_protect (calls (vl s1))) eqn:Ep.
  { apply wp_ret. split; [reflexivity|]. split; [intros ->; discriminate Ep|]. split; [exact E1|]. split; [exact C|].
    split; [cbn; lia|]. right. auto. }
  apply wp_bind, on_vol_wp. assert (raw v) as RV by (destruct R; constructor; auto).
  wp_use mount_volume_wp; auto. cbn [vl registered Fsid]. intros r s2 (C2 & N2 & RR). rewrite C in C2.
  apply wp_bind. apply wp_when; intros Er; [apply wp_modify|]; apply wp_ret; cbn [fst snd]; (split; [reflexivity|]).
  - destruct r; try discriminate Er. split; [discriminate|]. split; [exact E1|]. split; [exact C2|]. split; [cbn; lia|]. left.
    split; [reflexivity|]. split; [reflexivity|]. destruct RR as [[_ RR]|[_ [[RR _]|[RR _]]]]; [|discriminate RR ..].
    destruct RR as [(w & b & fmt & g & FB & RR)|(w & b & g & XB & RR)]; [left; exists w, b, fmt, g | right; exists w, b, g];
      (split; [|exact RR]); unfold fat_boot, exfat_boot in *; now rewrite C in *.
  - rewrite C in RR. destruct RR as [[-> _]|[T2 RR]]; [discriminate Er|]. split; [destruct RR as [[-> _]|[-> _]]; discriminate|].
    split; [exact E1|]. split; [exact C2|]. split; [cbn; lia|]. right. split; [exact E2|]. split; [exact T2|].
    destruct RR as [RR|[-> FL]]; [now left | right; right]. split; [now left|]. apply (failed_r _ v); [exact FL | lia].
Qed.

(** find_volume on a registered object: a mounted volume whose drive is still
    there is left as it is; otherwise it is mounted. *)
Lemma find_volume_wp path rest mode s : get_ldnumber path = (0, rest) -> registered s = true -> raw (vl s) ->
  wp (find_volume path mode) (fun x s' => snd x = rest /\
    (Z.land mode 0xFE = 0 -> fst x <> FR_WRITE_PROTECTED) /\
    (fs_type (lay (vl s)) <> 0 /\ fs (vl s') = fs (vl s) /\ card (vl s') = card (vl s) /\ Fsid s' = Fsid s /\
       (fst x = FR_OK \/ fst x = FR_WRITE_PROTECTED) \/
     mounts s (fst x) s')) s.
Proof.
  intros EP RG R. unfold find_volume. rewrite EP. cbn [Z.ltb Z.compare]. apply wp_bind, wp_gets. rewrite RG. cbn [negb].
  assert (Z.land mode 0xFE = 0 -> negb (Z.land mode 0xFE =? 0) = false) as WR by (intros ->; reflexivity).
  set (wr := negb _) in *. apply wp_bind. destruct (Z.eqb_spec (fs_type (lay (vl s))) 0) as [T|T].
  - apply wp_ret. eapply wp_conseq; [apply (mount_wp wr rest s s); auto|]. intros x s' (E & W & MO). auto.
  - apply wp_bind, on_vol_wp. unfold drive_status, wp at 1. set (v := mkvol _ _ _). apply wp_ret. cbn [fst snd].
    destruct (disk_ok (calls (vl s))).
    + apply wp_ret. cbn [fst snd]. split; [reflexivity|]. split.
      * intros E. rewrite (WR E). discriminate.
      * left. repeat (split; [assumption || reflexivity|]). destruct (wr && _); auto.
    + eapply wp_conseq; [apply (mount_wp wr rest s (mkffs (registered s) (Fsid s) v)); auto|].
      * destruct R; constructor; auto.
      * cbn. lia.
      * intros x s' (E & W & MO). auto.
Qed.

Lemma f_mount_wp path rest s : get_ldnumber path = (0, rest) -> raw (vl s) ->
  wp (f_mount true path 1) (fun r s' => registered s' = true /\ r <> FR_WRITE_PROTECTED /\
    mounts (mkffs true (Fsid s) (vl s)) r s') s.
Proof.
  intros EP R. unfold f_mount. rewrite EP. cbn [Z.ltb Z.compare]. apply wp_bind, wp_gets. rewrite orb_true_r. cbn [when].
  apply wp_bind, on_vol_wp. unfold upd_fs. apply wp_modify. apply wp_bind, wp_modify. cbn [registered Fsid vl Z.eqb].
  match goal with |- wp _ _ ?x => set (s1 := x) end. apply wp_bind. wp_use (find_volume_wp path rest 0 s1); auto.
  { destruct R; constructor; auto. }
  intros [r p] s2 (_ & W & [(T & _)|MO]); [now destruct T|]. apply wp_ret. cbn [fst] in *.
  split; [apply MO|]. split; [now apply W | exact MO].
Qed.

End MountLaws.
