(* ===== verification/FatBitmap.v ===== *)
(** * ext/fatfs/src/ff.c: the allocation bitmap of an exFAT volume

    find_bitmap and change_bitmap work on the bitmap at the top of the cluster
    heap (mounting checks that it is there), one bit per cluster from cluster 2
    on; fill_first_frag and fill_last_frag write the chain of an object that has
    become fragmented to the allocation table. *)

From Stdlib Require Import ZArith Bool List Lia.
From S2P Require Import Prelude FatVol FatTable.
Import ListNotations.
Local Open Scope Z_scope.
Local Open Scope fw_scope.

Section Bitmap.
Context `{D : DiskIo}.

(** The loop variables [val], [scl], [ctr], [i], [bm] of find_bitmap. *)
Record scan : Type := mkscan { sc_val : Z; sc_scl : Z; sc_ctr : Z; sc_i : Z; sc_bm : Z }.

(** [do { ... } while (bm)] *)
Definition scan_bits (fuel : nat) (n clst ncl : Z) (x : scan) : F (scan + Z) :=
  iter fuel (fun x : scan =>
    b <- win_byte (sc_i x) ;;
    let bv := Z.land b (sc_bm x) in
    let bm := u8 (Z.shiftl (sc_bm x) 1) in
    let val := u32 (sc_val x + 1) in
    let '(val, bm, i) := if n <=? val then (0, 0, SS) else (val, bm, sc_i x) in
    let ctr := u32 (sc_ctr x + 1) in
    if (bv =? 0) && (ctr =? ncl) then ret (inr (inr (u32 (sc_scl x + 2))))
    else
      let '(scl, ctr) := if bv =? 0 then (sc_scl x, ctr) else (val, 0) in
      if val =? clst then ret (inr (inr 0))
      else if bm =? 0 then ret (inr (inl (mkscan val scl ctr i bm)))
      else ret (inl (mkscan val scl ctr i bm))) x.

(** [do { ...; bm = 1; } while (++i < SS(fs))] *)
Definition scan_bytes (fuel : nat) (n clst ncl : Z) (x : scan) : F (scan + Z) :=
  iter fuel (fun x : scan =>
    r <- scan_bits fuel n clst ncl x ;;
    match r with
    | inr v => ret (inr (inr v))
    | inl y =>
        let i := u32 (sc_i y + 1) in
        let y := mkscan (sc_val y) (sc_scl y) (sc_ctr y) i 1 in
        if i <? SS then ret (inl y) else ret (inr (inl y))
    end) x.

Definition find_bitmap (clst ncl : Z) : F Z :=
  g <- gets (fun s => layout (fs s)) ;;
  let n := u32 (n_fatent g - 2) in
  let clst := u32 (clst - 2) in
  let clst := if n <=? clst then 0 else clst in
  let fuel := S (Z.to_nat n) in
  iter fuel (fun x : scan =>
    r <- move_window (u32 (database g + sc_val x / 8 / SS)) ;;
    match r with
    | FR_OK =>
        r <- scan_bytes fuel n clst ncl
               (mkscan (sc_val x) (sc_scl x) (sc_ctr x) (sc_val x / 8 mod SS) (Z.shiftl 1 (sc_val x mod 8))) ;;
        match r with
        | inr v => ret (inr v)
        | inl y => ret (inl y)
        end
    | _ => ret (inr 0xFFFFFFFF)
    end) (mkscan clst clst 0 0 0).

(** The loop variables [sect], [i], [bm], [ncl] of change_bitmap. *)
Record flip : Type := mkflip { fl_sect : Z; fl_i : Z; fl_bm : Z; fl_ncl : Z }.

(** [do { ... } while (bm <<= 1)] *)
Definition flip_bits (fuel : nat) (bv : Z) (x : flip) : F (flip + FRESULT) :=
  iter fuel (fun x : flip =>
    b <- win_byte (fl_i x) ;;
    let bit := if Z.land b (fl_bm x) =? 0 then 0 else 1 in
    if bv =? bit then ret (inr (inr FR_INT_ERR))
    else
      set_win_byte (fl_i x) (Z.lxor b (fl_bm x)) ;;
      let ncl := u32 (fl_ncl x - 1) in
      if ncl =? 0 then ret (inr (inr FR_OK))
      else
        let bm := u8 (Z.shiftl (fl_bm x) 1) in
        let x := mkflip (fl_sect x) (fl_i x) bm ncl in
        if bm =? 0 then ret (inr (inl x)) else ret (inl x)) x.

(** [do { ...; bm = 1; } while (++i < SS(fs))] *)
Definition flip_bytes (fuel : nat) (bv : Z) (x : flip) : F (flip + FRESULT) :=
  iter fuel (fun x : flip =>
    r <- flip_bits fuel bv x ;;
    match r with
    | inr v => ret (inr (inr v))
    | inl y =>
        let i := u32 (fl_i y + 1) in
        let y := mkflip (fl_sect y) i 1 (fl_ncl y) in
        if i <? SS then ret (inl y) else ret (inr (inl y))
    end) x.

Definition change_bitmap (clst ncl bv : Z) : F FRESULT :=
  g <- gets (fun s => layout (fs s)) ;;
  let clst := u32 (clst - 2) in
  let fuel := S (Z.to_nat ncl) in
  iter fuel (fun x : flip =>
    r <- move_window (fl_sect x) ;;
    match r with
    | FR_OK =>
        r <- flip_bytes fuel bv (mkflip (u32 (fl_sect x + 1)) (fl_i x) (fl_bm x) (fl_ncl x)) ;;
        match r with
        | inr v => ret (inr v)
        | inl y => ret (inl (mkflip (fl_sect y) 0 (fl_bm y) (fl_ncl y)))
        end
    | _ => ret (inr FR_DISK_ERR)
    end)
    (mkflip (u32 (database g + clst / 8 / SS)) (clst / 8 mod SS) (Z.shiftl 1 (clst mod 8)) ncl).

(** The loop of fill_first_frag: [cl] and [n]. *)
Definition fill_first_frag (obj : FFOBJID) : F (FRESULT * FFOBJID) :=
  if stat obj =? 3 then
    r <- iter (S (Z.to_nat (n_cont obj))) (fun x : Z * Z =>
           let (cl, n) := x in
           if n =? 0 then ret (inr FR_OK)
           else
             res <- put_fat cl (u32 (cl + 1)) ;;
             match res with
             | FR_OK => ret (inl (u32 (cl + 1), u32 (n - 1)))
             | r => ret (inr r)
             end) (sclust obj, n_cont obj) ;;
    match r with
    | FR_OK => ret (FR_OK, set_stat 0 obj)
    | r => ret (r, obj)
    end
  else ret (FR_OK, obj).

Definition fill_last_frag (obj : FFOBJID) (lcl term : Z) : F (FRESULT * FFOBJID) :=
  iter (S (Z.to_nat (n_frag obj))) (fun o : FFOBJID =>
    if 0 <? n_frag o then
      res <- put_fat (u32 (u32 (lcl - n_frag o) + 1))
               (if 1 <? n_frag o then u32 (u32 (lcl - n_frag o) + 2) else term) ;;
      match res with
      | FR_OK => ret (inl (set_n_frag (u32 (n_frag o - 1)) o))
      | r => ret (inr (r, o))
      end
    else ret (inr (FR_OK, o))) obj.

End Bitmap.
