(* ===== verification/FatAlloc.v ===== *)
(** * ext/fatfs/src/ff.c: the allocation bitmap as a set of clusters

    The nested loops of change_bitmap and find_bitmap step through the bits of
    the bitmap across bytes and sectors.  Here a bit is a cluster that is in use
    or free, and the two functions are shown to set exactly the bits of a run,
    and to find a free cluster if there is one, wherever the search starts. *)

From Stdlib Require Import ZArith Bool List Lia.
From Stdlib Require Import Classes.RelationClasses.
From S2P Require Import Prelude FatVol FatTable FatBitmap.
Import ListNotations.
Local Open Scope Z_scope.
Local Open Scope fw_scope.

(** ** Bits *)

(** The sector and the byte of bit [p]; cluster [c] has bit [c - 2]. *)
Definition bit_sect (g : Layout) (p : Z) : Z := database g + p / 8 / SS.

Definition bit_byte (s : vol) (p : Z) : Z := byte_at (view s (bit_sect (lay s) p)) (p / 8 mod SS).

Definition used (s : vol) (p : Z) : bool := Z.testbit (bit_byte s p) (p mod 8).

Definition n_bits (g : Layout) : Z := n_fatent g - 2.

(** A sector of the bitmap. *)
Definition in_bitmap (g : Layout) (n : Z) : Prop := database g <= n <= bit_sect g (n_bits g - 1).

Lemma bit_sect_ok g p : layout_ok g -> 0 <= p < n_bits g ->
  visible g (bit_sect g p) /\ in_bitmap g (bit_sect g p) /\ 0 <= bit_sect g p < 0xFFFFFFFF.
Proof.
  intros LO Hp. pose proof (layout_order g LO) as O. pose proof (csize_pos g LO) as CP.
  pose proof (lo_base g LO) as B. pose proof (lo_data g LO) as DA. unfold n_bits, bit_sect, visible, in_bitmap, SS in *.
  assert (0 <= p / 8 / 512 <= p) by dlia. assert (p / 8 / 512 <= (n_fatent g - 3) / 8 / 512) by dlia.
  assert (database g + p / 8 / 512 < 0xFFFFFFFF) by nia.
  unfold bit_sect, n_bits, SS. replace (n_fatent g - 2 - 1) with (n_fatent g - 3) by lia. lia.
Qed.

Lemma mask_testbit b k : 0 <= k -> (Z.land b (2 ^ k) =? 0) = negb (Z.testbit b k).
Proof.
  intros Hk. destruct (Z.testbit b k) eqn:E; cbn [negb].
  - apply Z.eqb_neq. intros X. assert (Z.testbit (Z.land b (2 ^ k)) k = false) as F by (rewrite X; apply Z.testbit_0_l).
    rewrite Z.land_spec, E, Z.pow2_bits_true in F by lia. discriminate F.
  - apply Z.eqb_eq. apply Z.bits_inj'. intros i Hi. rewrite Z.land_spec, Z.testbit_0_l.
    destruct (Z.eq_dec i k) as [->|]; [now rewrite E|]. rewrite Z.pow2_bits_false by lia. apply andb_false_r.
Qed.

Lemma flip_testbit b k j : 0 <= k -> 0 <= j -> Z.testbit (Z.lxor b (2 ^ k)) j = if j =? k then negb (Z.testbit b k) else Z.testbit b j.
Proof.
  intros Hk Hj. rewrite Z.lxor_spec. destruct (Z.eqb_spec j k) as [->|]; [rewrite Z.pow2_bits_true by lia; apply xorb_true_r|].
  rewrite Z.pow2_bits_false by lia. apply xorb_false_r.
Qed.

Lemma flip_byte b k : is_byte b -> 0 <= k < 8 -> is_byte (Z.lxor b (2 ^ k)).
Proof.
  intros Hb Hk. unfold is_byte, in_u in *. assert (0 <= 2 ^ k) by (apply Z.pow_nonneg; lia).
  assert (0 <= Z.lxor b (2 ^ k)) by (apply Z.lxor_nonneg; lia). split; [lia|].
  destruct (Z.eq_dec (Z.lxor b (2 ^ k)) 0) as [-> |N]; [reflexivity|]. apply Z.log2_lt_pow2; [lia|].
  eapply Z.le_lt_trans; [apply Z.log2_lxor; lia|]. apply Z.max_lub_lt.
  - destruct (Z.eq_dec b 0) as [->|]; [reflexivity|]. apply Z.log2_lt_pow2; lia.
  - rewrite Z.log2_pow2 by lia. lia.
Qed.

(** [bm <<= 1] on a byte: the next bit, or 0 after the last. *)
Lemma next_mask p : 0 <= p -> u8 (Z.shiftl (2 ^ (p mod 8)) 1) = if (p + 1) mod 8 =? 0 then 0 else 2 ^ ((p + 1) mod 8).
Proof.
  intros Hp. rewrite Z.shiftl_mul_pow2 by lia. rewrite Z.pow_1_r.
  assert (p mod 8 = 0 \/ p mod 8 = 1 \/ p mod 8 = 2 \/ p mod 8 = 3 \/ p mod 8 = 4 \/ p mod 8 = 5 \/ p mod 8 = 6 \/ p mod 8 = 7) as C by dlia.
  destruct C as [C|[C|[C|[C|[C|[C|[C|C]]]]]]]; rewrite C;
    (replace ((p + 1) mod 8) with ((p mod 8 + 1) mod 8) by dlia); rewrite C; reflexivity.
Qed.

(** [bm] is not 0 before the last. *)
Lemma mask_pos k : 0 <= k -> (2 ^ k =? 0) = false.
Proof. intros H. apply Z.eqb_neq. pose proof (Z.pow_pos_nonneg 2 k). lia. Qed.

Section AllocLaws.
Context `{D : DiskIo} {DL : DiskLaws D}.

(** From [s] to [s'] the bits became [u]; everything outside the bitmap stayed. *)
Record bits_set (u : Z -> bool) (s s' : vol) : Prop := {
  bs_layout : lay s' = lay s;
  bs_bits : forall j, 0 <= j < n_bits (lay s) -> used s' j = u j;
  bs_rest : forall n, visible (lay s) n -> ~ in_bitmap (lay s) n -> view s' n = view s n;
  bs_calls : (calls s <= calls s')%nat
}.

Lemma same_bits s s' : vol_ok s -> same_disk s s' -> bits_set (used s) s s'.
Proof.
  intros V [L VW C _ _ _]. constructor; auto. intros j Hj. unfold used, bit_byte.
  rewrite L, VW; [reflexivity|]. now apply bit_sect_ok; [apply V|].
Qed.

Lemma bits_set_trans u1 u2 s s1 s2 : bits_set u1 s s1 -> bits_set u2 s1 s2 -> bits_set u2 s s2.
Proof.
  intros [L1 B1 R1 C1] [L2 B2 R2 C2]. rewrite L1 in *. constructor; try congruence; try lia; auto.
  intros n Hn Hb. rewrite R2 by assumption. auto.
Qed.

(** The window on the sector of bit [p]. *)
Lemma bit_window p s : vol_ok s -> 0 <= p < n_bits (lay s) ->
  wp (move_window (bit_sect (lay s) p)) (fun r s' => vol_ok s' /\ same_disk s s' /\
    (r = FR_OK /\ winsect (fs s') = bit_sect (lay s) p \/ r = FR_DISK_ERR /\ failed s s')) s.
Proof.
  intros V Hp. destruct (bit_sect_ok _ p (vo_layout s V) Hp) as (_ & _ & HR).
  wp_use move_window_wp; [exact V | in_range |]. intros r s' (V' & S' & R).
  split; [exact V'|]. split; [exact S'|]. destruct R as [(-> & W & _)|(-> & FL & _)]; auto.
Qed.

(** The byte of bit [p] in the window. *)
Lemma bit_read p s : vol_ok s -> winsect (fs s) = bit_sect (lay s) p ->
  wp (win_byte (p / 8 mod SS)) (fun b s' => s' = s /\ b = bit_byte s p) s.
Proof.
  intros V W. wp_use win_byte_wp; [exact V | apply Z.mod_pos_bound; unfold SS; lia |]. intros b s' [-> ->].
  split; [reflexivity|]. unfold bit_byte, view. now rewrite <- W, Z.eqb_refl.
Qed.

Lemma bit_byte_byte s p : vol_ok s -> is_byte (bit_byte s p).
Proof.
  intros V. unfold bit_byte. apply byte_at_byte. unfold view. destruct (_ =? _); [apply V | apply (vo_card s V)].
Qed.

(** Flipping bit [p] in the window. *)
Lemma bit_flip p s : vol_ok s -> 0 <= p < n_bits (lay s) -> winsect (fs s) = bit_sect (lay s) p ->
  wp (set_win_byte (p / 8 mod SS) (Z.lxor (bit_byte s p) (2 ^ (p mod 8)))) (fun _ s' => vol_ok s' /\
    winsect (fs s') = winsect (fs s) /\
    bits_set (fun j => if j =? p then negb (used s p) else used s j) s s') s.
Proof.
  intros V Hp W. unfold set_win_byte. wp_norm. pose proof (vo_win s V) as [LW BW].
  assert (0 <= p / 8 mod SS < SS) as M by (apply Z.mod_pos_bound; unfold SS; lia).
  assert (0 <= p mod 8 < 8) as M8 by (apply Z.mod_pos_bound; lia).
  pose proof (flip_byte _ _ (bit_byte_byte s p V) M8) as HB.
  eapply wp_lift; [apply array_set_ok; now rewrite LW|]. set (b := Z.lxor _ _) in *. set (w := list_set _ _ _).
  assert (is_sector w) as Sw by (split; [unfold w; now rewrite list_set_length | now apply bytes_set]).
  unfold put_win, upd_fs. wp_norm. destruct (bit_sect_ok _ p (vo_layout s V) Hp) as (Vi & IB & _). rewrite <- W in Vi.
  destruct (store_window w s V Sw Vi) as [V' [L VW C _ _ _]]. cbv zeta in *. set (s' := mkvol _ _ _) in *.
  split; [exact V'|]. split; [reflexivity|]. constructor; auto.
  - intros j Hj. unfold used, bit_byte. rewrite L, VW by (now apply bit_sect_ok; [apply V|]). unfold put_sector. rewrite W.
    assert (0 <= j / 8 mod SS < SS) as Mj by (apply Z.mod_pos_bound; unfold SS; lia).
    assert (0 <= j mod 8 < 8) as Mj8 by (apply Z.mod_pos_bound; lia). change (if j =? p then negb (used s p) else used s j)
      with (if j =? p then negb (used s p) else Z.testbit (byte_at (view s (bit_sect (lay s) j)) (j / 8 mod SS)) (j mod 8)).
    destruct (Z.eqb_spec (bit_sect (lay s) j) (bit_sect (lay s) p)) as [E|NE].
    + unfold w. rewrite byte_at_set by (rewrite ?LW; lia). destruct (Z.eqb_spec (j / 8 mod SS) (p / 8 mod SS)) as [E2|NE2].
      * unfold b. rewrite flip_testbit by lia. destruct (Z.eqb_spec (j mod 8) (p mod 8)) as [E3|NE3], (Z.eqb_spec j p) as [->|NJ];
          try reflexivity; [exfalso; unfold bit_sect, SS in *; dlia | lia |].
        unfold bit_byte. now rewrite E, E2.
      * destruct (Z.eqb_spec j p) as [->|NJ]; [lia|]. unfold view. now rewrite E, <- W, Z.eqb_refl.
    + destruct (Z.eqb_spec j p) as [->|NJ]; [contradiction | reflexivity].
  - intros n Hn Hb. rewrite VW by exact Hn. unfold put_sector. destruct (Z.eqb_spec n (winsect (fs s))) as [->|]; [|reflexivity].
    rewrite W in Hb. contradiction.
Qed.

(** ** change_bitmap *)

(** The bits from [v] on, [k] of them, have become [b]; they were not. *)
Definition filled (v k : Z) (b : bool) (s s' : vol) : Prop :=
  vol_ok s' /\ bits_set (fun j => if (v <=? j) && (j <? v + k) then b else used s j) s s' /\
  forall j, v <= j < v + k -> used s j = negb b.

Lemma filled_next v k b s s1 s2 : filled v k b s s1 -> 0 <= v + k < n_bits (lay s) -> 0 <= k -> used s1 (v + k) = negb b -> vol_ok s2 ->
  bits_set (fun j => if j =? v + k then negb (used s1 (v + k)) else used s1 j) s1 s2 -> filled v (k + 1) b s s2.
Proof.
  intros (_ & B1 & K1) Hk Hk0 E V2 B2. split; [exact V2|]. pose proof (bs_layout _ _ _ B1) as L1. split.
  - destruct (bits_set_trans _ _ _ _ _ B1 B2) as [L B R C]. constructor; auto. intros j Hj. rewrite B by exact Hj.
    rewrite E, negb_involutive, (bs_bits _ _ _ B1) by exact Hj.
    destruct (Z.eqb_spec j (v + k)), (Z.leb_spec v j), (Z.ltb_spec j (v + k)), (Z.ltb_spec j (v + (k + 1)));
      cbn [andb]; auto; lia.
  - intros j Hj. destruct (Z.eq_dec j (v + k)) as [->|]; [|apply K1; lia]. rewrite <- E, (bs_bits _ _ _ B1) by exact Hk.
    rewrite (proj2 (Z.ltb_ge (v + k) (v + k))) by lia. now rewrite andb_false_r.
Qed.

(** How change_bitmap ends. *)
Definition flipped (v n : Z) (b : bool) (s : vol) (r : FRESULT) (s' : vol) : Prop :=
  r = FR_OK /\ filled v n b s s' \/
  (r = FR_INT_ERR /\ exists k, 0 <= k < n /\ filled v k b s s' /\ used s (v + k) = b) \/
  r = FR_DISK_ERR /\ failed s s' /\ exists k, 0 <= k < n /\ filled v k b s s'.

Section Change.
Context (s : vol) (v n : Z) (b : bool).
Context (V : vol_ok s) (Hv : 0 <= v) (Hn : v + n <= n_bits (lay s)).

(** The loop stands at bit [v + k]. *)
Record flip_at (k : Z) (x : flip) (s1 : vol) : Prop := {
  fa_k : 0 <= k < n;
  fa_ncl : fl_ncl x = n - k;
  fa_done : filled v k b s s1
}.

(** ... with its byte in the window. *)
Definition flip_in (x : flip) (s1 : vol) : Prop :=
  exists k, flip_at k x s1 /\ winsect (fs s1) = bit_sect (lay s) (v + k) /\ fl_sect x = bit_sect (lay s) (v + k) + 1 /\
  fl_i x = (v + k) / 8 mod SS /\ fl_bm x = 2 ^ ((v + k) mod 8).

(** ... at the end of a byte. *)
Definition flip_byte_end (x : flip) (s1 : vol) : Prop :=
  exists k, flip_at k x s1 /\ 0 < k /\ (v + k) mod 8 = 0 /\ winsect (fs s1) = bit_sect (lay s) (v + k - 1) /\
  fl_sect x = bit_sect (lay s) (v + k - 1) + 1 /\ fl_i x = (v + k - 1) / 8 mod SS.

(** ... at the end of a sector. *)
Definition flip_sect_end (x : flip) (s1 : vol) : Prop :=
  exists k, flip_at k x s1 /\ fl_sect x = bit_sect (lay s) (v + k) /\ (v + k) mod (8 * SS) = 0 /\ fl_bm x = 1.

(** One bit. *)
Lemma flip_bit_wp x s1 : flip_in x s1 ->
  wp (b0 <- win_byte (fl_i x) ;;
      let bit := if Z.land b0 (fl_bm x) =? 0 then 0 else 1 in
      if Z.b2z b =? bit then ret (inr (inr FR_INT_ERR))
      else
        set_win_byte (fl_i x) (Z.lxor b0 (fl_bm x)) ;;
        let ncl := u32 (fl_ncl x - 1) in
        if ncl =? 0 then ret (inr (inr FR_OK))
        else
          let bm := u8 (Z.shiftl (fl_bm x) 1) in
          let x := mkflip (fl_sect x) (fl_i x) bm ncl in
          if bm =? 0 then ret (inr (inl x)) else ret (inl x))
     (fun r s2 => match r with
      | inl y => flip_in y s2 /\ fl_ncl y = fl_ncl x - 1
      | inr (inl y) => flip_byte_end y s2 /\ fl_ncl y = fl_ncl x - 1
      | inr (inr e) => flipped v n b s e s2
      end) s1.
Proof.
  intros (k & [Hk En FD] & W & Es & Ei & Em). pose proof FD as (V1 & B1 & K1). pose proof (bs_layout _ _ _ B1) as L1.
  rewrite <- L1 in W. assert (0 <= (v + k) mod 8 < 8) as M8 by (apply Z.mod_pos_bound; lia).
  assert (0 <= v + k < n_bits (lay s1)) as HB by (rewrite L1; lia). pose proof (n_fatent_range _ (vo_layout s V)) as NR.
  rewrite Ei, Em. apply wp_bind. wp_use bit_read; auto. intros b0 s1' [-> ->]. cbv zeta. rewrite mask_testbit by lia.
  change (Z.testbit (bit_byte s1 (v + k)) ((v + k) mod 8)) with (used s1 (v + k)).
  assert (used s1 (v + k) = used s (v + k)) as EU.
  { rewrite (bs_bits _ _ _ B1) by lia. rewrite (proj2 (Z.ltb_ge (v + k) (v + k))) by lia. now rewrite andb_false_r. }
  destruct (Z.eqb_spec (Z.b2z b) (if negb (used s1 (v + k)) then 0 else 1)) as [E|E].
  { apply wp_ret. right. left. split; [reflexivity|]. exists k. split; [exact Hk|]. split; [exact FD|]. rewrite <- EU.
    destruct b, (used s1 (v + k)); cbn in E |- *; congruence. }
  assert (used s1 (v + k) = negb b) as EB by (destruct b, (used s1 (v + k)); cbn in E |- *; congruence).
  apply wp_bind. wp_use bit_flip; auto. intros _ s2 (V2 & W2 & B2).
  pose proof (filled_next v k b s s1 s2 FD ltac:(lia) ltac:(lia) EB V2 B2) as FN. rewrite En.
  assert (u32 (n - k - 1) = n - (k + 1)) as -> by (unfold u32; rewrite uwrap_small; [lia | unfold in_u, n_bits in *; lia]).
  destruct (Z.eqb_spec (n - (k + 1)) 0) as [E0|N0].
  { apply wp_ret. left. split; [reflexivity|]. now replace n with (k + 1) by lia. }
  rewrite next_mask by lia. replace (v + k + 1) with (v + (k + 1)) by lia.
  assert (forall m, flip_at (k + 1) (mkflip (fl_sect x) ((v + k) / 8 mod SS) m (n - (k + 1))) s2) as FA
    by (intros m; constructor; auto; lia).
  destruct (Z.eqb_spec ((v + (k + 1)) mod 8) 0) as [M|M].
  - cbn [Z.eqb]. apply wp_ret. split; [|cbn; lia]. exists (k + 1). split; [apply FA|]. split; [lia|]. split; [exact M|].
    replace (v + (k + 1) - 1) with (v + k) by lia. rewrite W2, W, L1. auto.
  - assert (0 <= (v + (k + 1)) mod 8) by (apply Z.mod_pos_bound; lia). rewrite mask_pos by lia. apply wp_ret. split; [|cbn; lia].
    exists (k + 1). split; [apply FA|]. cbn [fl_sect fl_i fl_bm].
    assert ((v + (k + 1)) / 8 = (v + k) / 8) as E8 by dlia. unfold bit_sect in *. rewrite E8, W2, W, L1. auto.
Qed.

Lemma flip_bits_wp fuel x s1 : flip_in x s1 -> (Z.to_nat (fl_ncl x) < fuel)%nat ->
  wp (flip_bits fuel (Z.b2z b) x) (fun r s2 => match r with
    | inl y => flip_byte_end y s2 /\ fl_ncl y < fl_ncl x
    | inr e => flipped v n b s e s2
    end) s1.
Proof.
  intros FI HF. unfold flip_bits.
  apply (wp_iter _ (fun y s2 => flip_in y s2 /\ fl_ncl y <= fl_ncl x) (fun y _ => Z.to_nat (fl_ncl y))); [|split; [exact FI | lia] | exact HF].
  intros y s2 [FY LE]. pose proof FY as (k & [Hk En _] & _). eapply wp_conseq; [now apply flip_bit_wp|].
  intros [z|[z|e]] s3 R; [|destruct R; split; [assumption | lia] | exact R]. destruct R as [R E]. split; [split; [exact R | lia] | lia].
Qed.

Lemma flip_bytes_wp fuel x s1 : flip_in x s1 -> (Z.to_nat (fl_ncl x) < fuel)%nat ->
  wp (flip_bytes fuel (Z.b2z b) x) (fun r s2 => match r with
    | inl y => flip_sect_end y s2 /\ fl_ncl y < fl_ncl x
    | inr e => flipped v n b s e s2
    end) s1.
Proof.
  intros FI HF. unfold flip_bytes.
  apply (wp_iter _ (fun y s2 => flip_in y s2 /\ fl_ncl y <= fl_ncl x) (fun y _ => Z.to_nat (fl_ncl y))); [|split; [exact FI | lia] | exact HF].
  intros y s2 [FY LE]. pose proof FY as (k0 & [Hk0 En0 _] & _). apply wp_bind. wp_use flip_bits_wp; [exact FY | lia |].
  intros [z|e] s3 R; [|now apply wp_ret]. destruct R as [(k & [Hk En FD] & K0 & M & W & Es & Ei) LT].
  assert (0 <= fl_i z < SS) as RI by (rewrite Ei; apply Z.mod_pos_bound; unfold SS; lia). unfold SS in RI. cbv zeta.
  assert (u32 (fl_i z + 1) = fl_i z + 1) as -> by (apply uwrap_small; unfold in_u; eval_pow; lia).
  assert (forall i m, flip_at k (mkflip (fl_sect z) i m (fl_ncl z)) s3) as FA by (intros i m; now constructor).
  assert ((v + k - 1) / 8 = (v + k) / 8 - 1) as E8 by dlia. unfold bit_sect in *. rewrite E8 in *. set (q := (v + k) / 8) in *.
  assert (0 < q) as Q by (subst q; dlia). destruct (Z.ltb_spec (fl_i z + 1) SS) as [L|L]; apply wp_ret; cbn [fl_ncl].
  - assert (q / SS = (q - 1) / SS /\ q mod SS = fl_i z + 1) as [Q1 Q2] by (unfold SS in *; dlia).
    split; [|lia]. split; [|lia]. exists k. split; [apply FA|]. unfold bit_sect. fold q. rewrite Q1, M. cbn [fl_sect fl_i fl_bm]. auto.
  - assert (q / SS = (q - 1) / SS + 1 /\ q mod SS = 0) as [Q1 Q2] by (unfold SS in *; dlia).
    split; [|lia]. exists k. split; [apply FA|]. cbn [fl_sect fl_bm]. unfold bit_sect. fold q. split; [lia|].
    split; [|reflexivity]. assert (v + k = 8 * q) as -> by (subst q; dlia). rewrite Z.mul_mod_distr_l, Q2 by (unfold SS; lia). lia.
Qed.

(** The outer loop, between two sectors. *)
Definition flip_between (x : flip) (s1 : vol) : Prop :=
  exists k, flip_at k x s1 /\ fl_sect x = bit_sect (lay s) (v + k) /\
  fl_i x = (v + k) / 8 mod SS /\ fl_bm x = 2 ^ ((v + k) mod 8).

Lemma flip_sector_wp fuel x s1 : flip_between x s1 -> (Z.to_nat (fl_ncl x) < fuel)%nat ->
  wp (r <- move_window (fl_sect x) ;;
      match r with
      | FR_OK =>
          r <- flip_bytes fuel (Z.b2z b) (mkflip (u32 (fl_sect x + 1)) (fl_i x) (fl_bm x) (fl_ncl x)) ;;
          match r with
          | inr v => ret (inr v)
          | inl y => ret (inl (mkflip (fl_sect y) 0 (fl_bm y) (fl_ncl y)))
          end
      | _ => ret (inr FR_DISK_ERR)
      end) (fun r s2 => match r with
      | inl y => flip_between y s2 /\ fl_ncl y < fl_ncl x
      | inr e => flipped v n b s e s2
      end) s1.
Proof.
  intros (k & [Hk En FD] & Es & Ei & Em) HF. pose proof FD as (V1 & B1 & K1). pose proof (bs_layout _ _ _ B1) as L1.
  assert (0 <= v + k < n_bits (lay s1)) as HB by (rewrite L1; lia).
  destruct (bit_sect_ok _ (v + k) (vo_layout s1 V1) HB) as (_ & _ & HS). rewrite Es, <- L1. apply wp_bind.
  wp_use (bit_window (v + k) s1); auto. intros r s2 (V2 & D2 & R). pose proof (same_bits s1 s2 V1 D2) as SB.
  assert (filled v k b s s2) as FD2.
  { split; [exact V2|]. split; [|exact K1]. destruct (bits_set_trans _ _ _ _ _ B1 SB) as [L B R' C]. constructor; auto.
    intros j Hj. rewrite B by exact Hj. now apply (bs_bits _ _ _ B1). }
  destruct R as [[-> W]|[-> FL]].
  2:{ apply wp_ret. right. right. split; [reflexivity|].
      split; [apply (failed_r _ s1); [exact FL | apply (bs_calls _ _ _ B1)] | eauto]. }
  apply wp_bind. assert (u32 (bit_sect (lay s1) (v + k) + 1) = bit_sect (lay s1) (v + k) + 1) as ->
    by (apply uwrap_small; in_range).
  wp_use flip_bytes_wp; [| exact HF |].
  - exists k. split; [now constructor|]. cbn [fl_sect fl_i fl_bm]. rewrite W, L1. auto.
  - intros [y|e] s3 R; apply wp_ret; [|exact R]. destruct R as [(k' & FA & E1 & E2 & E3) LT]. split; [|exact LT].
    destruct FA as [H1 H2 H3]. exists k'. split; [now constructor|]. cbn [fl_sect fl_i fl_bm]. split; [exact E1|].
    unfold SS in *. assert ((v + k') mod 8 = 0 /\ (v + k') / 8 mod 512 = 0) as [-> ->] by dlia. auto.
Qed.

End Change.

(** change_bitmap sets the bits of a run of clusters that are all free (or all
    in use): FR_OK means exactly that; FR_INT_ERR that one of them was not, the
    ones before it changed; a disk error leaves a part of the run changed.  No
    other bit and nothing outside the bitmap changes. *)
Lemma change_bitmap_wp clst ncl b s : vol_ok s -> 2 <= clst -> 0 < ncl -> clst + ncl <= n_fatent (lay s) ->
  wp (change_bitmap clst ncl (Z.b2z b)) (flipped (clst - 2) ncl b s) s.
Proof.
  intros V Hc Hn HN. pose proof (n_fatent_range _ (vo_layout s V)) as NR. unfold change_bitmap. apply wp_bind, wp_gets. cbv zeta.
  assert (u32 (clst - 2) = clst - 2) as -> by (apply uwrap_small; unfold in_u; lia).
  assert (0 <= clst - 2 < n_bits (lay s)) as HB by (unfold n_bits; lia).
  destruct (bit_sect_ok _ (clst - 2) (vo_layout s V) HB) as (_ & _ & HS). fold (bit_sect (lay s) (clst - 2)).
  assert (u32 (bit_sect (lay s) (clst - 2)) = bit_sect (lay s) (clst - 2)) as -> by (apply uwrap_small; in_range).
  rewrite Z.shiftl_1_l.
  apply (wp_iter _ (fun x s1 => flip_between s (clst - 2) ncl b x s1 /\ fl_ncl x <= ncl) (fun x _ => Z.to_nat (fl_ncl x))).
  - intros x s1 [FB LE]. pose proof FB as (k & [Hk En _] & _).
    eapply wp_conseq; [apply (flip_sector_wp s (clst - 2) ncl b V); auto; [lia | unfold n_bits; lia | lia]|].
    intros [y|e] s2 R; [|exact R]. destruct R as [FB2 LT]. split; [split; [exact FB2 | lia] | lia].
  - split; [|cbn; lia]. exists 0. rewrite Z.add_0_r. split; [|auto]. constructor; [lia | cbn; lia|].
    split; [exact V|]. split; [|lia]. destruct (same_bits s s V) as [L B R C]; [reflexivity|]. constructor; auto.
    intros j Hj. destruct (Z.leb_spec (clst - 2) j), (Z.ltb_spec j (clst - 2 + 0)); cbn [andb]; auto; lia.
  - cbn. lia.
Qed.

(** ** find_bitmap for one cluster *)

Section Find.
Context (s : vol) (v0 : Z).
Context (V : vol_ok s) (Hv0 : 0 <= v0 < n_bits (lay s)).

(** Bit number [d] of the search, which wraps around. *)
Definition pos (d : Z) : Z := if v0 + d <? n_bits (lay s) then v0 + d else v0 + d - n_bits (lay s).

(** The bits left to look at when the next is [val]. *)
Definition left_over (val : Z) : Z := if v0 <=? val then n_bits (lay s) - (val - v0) else v0 - val.

Lemma pos_range d : 0 <= d <= n_bits (lay s) -> 0 <= pos d < n_bits (lay s).
Proof. intros H. unfold pos. destruct (Z.ltb_spec (v0 + d) (n_bits (lay s))); lia. Qed.

Lemma pos_left d : 0 <= d < n_bits (lay s) -> left_over (pos d) = n_bits (lay s) - d.
Proof.
  intros H. unfold pos, left_over. destruct (Z.ltb_spec (v0 + d) (n_bits (lay s)));
    match goal with |- context [v0 <=? ?x] => destruct (Z.leb_spec v0 x) end; lia.
Qed.

Lemma pos_next d : 0 <= d < n_bits (lay s) ->
  pos (d + 1) = (if n_bits (lay s) <=? pos d + 1 then 0 else pos d + 1) /\ (pos (d + 1) = v0 -> d + 1 = n_bits (lay s)).
Proof.
  intros H. unfold pos. destruct (Z.ltb_spec (v0 + d) (n_bits (lay s))), (Z.ltb_spec (v0 + (d + 1)) (n_bits (lay s)));
    match goal with |- context [?a <=? ?b] => destruct (Z.leb_spec a b) end; lia.
Qed.

Lemma pos_onto j : 0 <= j < n_bits (lay s) -> exists d, 0 <= d < n_bits (lay s) /\ pos d = j.
Proof.
  intros H. exists (if v0 <=? j then j - v0 else j - v0 + n_bits (lay s)). unfold pos.
  destruct (Z.leb_spec v0 j); match goal with |- context [?a <? ?b] => destruct (Z.ltb_spec a b) end; lia.
Qed.

(** [d] bits have been looked at, all of them set. *)
Record scan_at (d : Z) (x : scan) (s1 : vol) : Prop := {
  sa_d : 0 <= d < n_bits (lay s);
  sa_val : sc_val x = pos d;
  sa_scl : sc_scl x = pos d;
  sa_ctr : sc_ctr x = 0;
  sa_vol : vol_ok s1 /\ same_disk s s1;
  sa_seen : forall e, 0 <= e < d -> used s (pos e) = true
}.

Definition scan_in (x : scan) (s1 : vol) : Prop :=
  exists d, scan_at d x s1 /\ winsect (fs s1) = bit_sect (lay s) (pos d) /\
  sc_i x = pos d / 8 mod SS /\ sc_bm x = 2 ^ (pos d mod 8).

(** At the end of a byte, or of the bitmap. *)
Definition scan_byte_end (x : scan) (s1 : vol) : Prop :=
  exists d, scan_at d x s1 /\
  (sc_i x = SS \/ 0 < pos d /\ pos d mod 8 = 0 /\ winsect (fs s1) = bit_sect (lay s) (pos d - 1) /\
     sc_i x = (pos d - 1) / 8 mod SS).

(** The answers. *)
Definition found (r : Z) (s' : vol) : Prop :=
  vol_ok s' /\ same_disk s s' /\
  (cluster (lay s) r /\ used s (r - 2) = false \/
   r = 0 /\ (forall c, cluster (lay s) c -> used s (c - 2) = true) \/
   r = 0xFFFFFFFF /\ failed s s').

Lemma scan_bit_wp x s1 : scan_in x s1 ->
  wp (b <- win_byte (sc_i x) ;;
      let bv := Z.land b (sc_bm x) in
      let bm := u8 (Z.shiftl (sc_bm x) 1) in
      let val := u32 (sc_val x + 1) in
      let '(val, bm, i) := if n_bits (lay s) <=? val then (0, 0, SS) else (val, bm, sc_i x) in
      let ctr := u32 (sc_ctr x + 1) in
      if (bv =? 0) && (ctr =? 1) then ret (inr (inr (u32 (sc_scl x + 2))))
      else
        let '(scl, ctr) := if bv =? 0 then (sc_scl x, ctr) else (val, 0) in
        if val =? v0 then ret (inr (inr 0))
        else if bm =? 0 then ret (inr (inl (mkscan val scl ctr i bm)))
        else ret (inl (mkscan val scl ctr i bm)))
     (fun r s2 => match r with
      | inl y => scan_in y s2 /\ left_over (sc_val y) < left_over (sc_val x)
      | inr (inl y) => scan_byte_end y s2 /\ left_over (sc_val y) < left_over (sc_val x)
      | inr (inr c) => found c s2
      end) s1.
Proof.
  intros (d & [Hd Ev Es Ec [V1 D1] SE] & W & Ei & Em). pose proof (ev_layout _ _ _ D1) as L1.
  pose proof (pos_range d ltac:(lia)) as HP. pose proof (n_fatent_range _ (vo_layout s V)) as NR.
  assert (0 <= pos d mod 8 < 8) as M8 by (apply Z.mod_pos_bound; lia).
  rewrite Ei, Em, Ev, Es, Ec. rewrite <- L1 in W. apply wp_bind. wp_use bit_read; auto. intros b0 s1' [-> ->]. cbv zeta.
  assert (u32 (pos d + 1) = pos d + 1) as -> by (apply uwrap_small; unfold in_u, n_bits in *; lia).
  rewrite mask_testbit by lia. change (Z.testbit (bit_byte s1 (pos d)) (pos d mod 8)) with (used s1 (pos d)).
  rewrite (bs_bits _ _ _ (same_bits s s1 V D1)) by exact HP. rewrite (next_mask (pos d)) by lia.
  set (P := pos d) in *. set (N := n_bits (lay s)) in *.
  destruct (used s P) eqn:EU; cbn [negb andb].
  2:{ destruct (N <=? P + 1); cbn [andb Z.eqb Pos.eqb]; change (u32 (0 + 1)) with 1; cbn [Z.eqb Pos.eqb]; apply wp_ret;
        (assert (u32 (P + 2) = P + 2) as -> by (apply uwrap_small; unfold in_u, N, n_bits in *; lia));
        (split; [exact V1|]; split; [exact D1|]; left; split; [unfold cluster, N, n_bits in *; lia|]; now replace (P + 2 - 2) with P by lia). }
  destruct (pos_next d Hd) as [PN PD]. fold N P in PN, PD.
  assert (forall e, 0 <= e < d + 1 -> used s (pos e) = true) as SE'.
  { intros e He. destruct (Z.eq_dec e d) as [->|]; [exact EU | apply SE; lia]. }
  assert (pos (d + 1) = v0 -> found 0 s1) as DONE.
  { intros E. specialize (PD E). split; [exact V1|]. split; [exact D1|]. right. left. split; [reflexivity|]. intros c Hc.
    destruct (pos_onto (c - 2)) as (e & He & <-); [unfold cluster, n_bits in *; lia|]. apply SE'. fold N in He. lia. }
  assert (pos (d + 1) <> v0 -> 0 <= d + 1 < N /\ left_over (pos (d + 1)) < left_over P) as MORE.
  { intros E. assert (d + 1 <> N) by (intros X; apply E; unfold pos; fold N; destruct (Z.ltb_spec (v0 + (d + 1)) N); lia).
    split; [lia|]. unfold P. rewrite !pos_left by (fold N; lia). lia. }
  assert (pos (d + 1) <> v0 -> forall i m, scan_at (d + 1) (mkscan (pos (d + 1)) (pos (d + 1)) 0 i m) s1) as SA
    by (intros E i m; destruct (MORE E); constructor; auto).
  destruct (Z.leb_spec N (P + 1)) as [LW|LW].
  - destruct (Z.eqb_spec 0 v0) as [E|E]; [apply wp_ret, DONE; congruence|]. rewrite <- PN in E. destruct (MORE E) as [HD LO].
    cbn [Z.eqb]. apply wp_ret. cbn [sc_val]. rewrite PN in LO. split; [|exact LO]. exists (d + 1).
    specialize (SA E SS 0). rewrite PN in SA. split; [exact SA | now left].
  - rewrite <- PN. destruct (Z.eqb_spec (pos (d + 1)) v0) as [E|E]; [apply wp_ret; now apply DONE|]. destruct (MORE E) as [HD LO].
    destruct (Z.eqb_spec (pos (d + 1) mod 8) 0) as [M|M].
    + cbn [Z.eqb]. apply wp_ret. split; [|exact LO]. exists (d + 1). split; [now apply SA|]. right. rewrite <- L1 at 1.
      replace (pos (d + 1) - 1) with P by lia. rewrite L1 in *. repeat split; auto. lia.
    + assert (0 <= pos (d + 1) mod 8) by (apply Z.mod_pos_bound; lia). rewrite mask_pos by lia. apply wp_ret.
      split; [|exact LO]. exists (d + 1). split; [now apply SA|]. cbn [sc_i sc_bm].
      assert (pos (d + 1) / 8 = P / 8) as E8 by (rewrite PN in *; dlia). rewrite L1 in W. unfold bit_sect in *.
      rewrite E8, W. auto.
Qed.

Lemma scan_in_left x s1 : scan_in x s1 -> 0 < left_over (sc_val x).
Proof. intros (d & [Hd Ev _ _ _ _] & _). rewrite Ev, pos_left by exact Hd. lia. Qed.

Lemma scan_bits_wp fuel x s1 : scan_in x s1 -> (Z.to_nat (left_over (sc_val x)) < fuel)%nat ->
  wp (scan_bits fuel (n_bits (lay s)) v0 1 x) (fun r s2 => match r with
    | inl y => scan_byte_end y s2 /\ left_over (sc_val y) < left_over (sc_val x)
    | inr c => found c s2
    end) s1.
Proof.
  intros SI HF. unfold scan_bits.
  apply (wp_iter _ (fun y s2 => scan_in y s2 /\ left_over (sc_val y) <= left_over (sc_val x)) (fun y _ => Z.to_nat (left_over (sc_val y))));
    [|split; [exact SI | lia] | exact HF].
  intros y s2 [SY LE]. pose proof (scan_in_left y s2 SY). eapply wp_conseq; [now apply scan_bit_wp|].
  intros [z|[z|c]] s3 R; [|destruct R; split; [assumption | lia] | exact R]. destruct R as [R E]. split; [split; [exact R | lia] | lia].
Qed.

Lemma scan_bytes_wp fuel x s1 : scan_in x s1 -> (Z.to_nat (left_over (sc_val x)) < fuel)%nat ->
  wp (scan_bytes fuel (n_bits (lay s)) v0 1 x) (fun r s2 => match r with
    | inl y => (exists d, scan_at d y s2) /\ left_over (sc_val y) < left_over (sc_val x)
    | inr c => found c s2
    end) s1.
Proof.
  intros SI HF. unfold scan_bytes.
  apply (wp_iter _ (fun y s2 => scan_in y s2 /\ left_over (sc_val y) <= left_over (sc_val x)) (fun y _ => Z.to_nat (left_over (sc_val y))));
    [|split; [exact SI | lia] | exact HF].
  intros y s2 [SY LE]. pose proof (scan_in_left y s2 SY). apply wp_bind. wp_use scan_bits_wp; [exact SY | lia |].
  intros [z|c] s3 R; [|now apply wp_ret]. destruct R as [(d & [Hd Ev Es Ec D1 SE] & BE) LT]. cbv zeta.
  assert (forall i m, scan_at d (mkscan (sc_val z) (sc_scl z) (sc_ctr z) i m) s3) as SA by (intros i m; now constructor).
  destruct BE as [Ei|(P0 & M & W & Ei)].
  { rewrite Ei. change (u32 (SS + 1)) with 513. cbn [Z.ltb SS Z.compare Pos.compare Pos.compare_cont]. apply wp_ret. cbn [sc_val]. split; [eauto | lia]. }
  assert (0 <= sc_i z < SS) as RI by (rewrite Ei; apply Z.mod_pos_bound; unfold SS; lia). unfold SS in RI.
  assert (u32 (sc_i z + 1) = sc_i z + 1) as -> by (apply uwrap_small; unfold in_u; eval_pow; lia).
  destruct (Z.ltb_spec (sc_i z + 1) SS) as [L|L]; apply wp_ret; cbn [sc_val]; [|split; [eauto | lia]].
  split; [|lia]. split; [|lia]. exists d. split; [apply SA|]. cbn [sc_i sc_bm]. rewrite W, M.
  assert ((pos d - 1) / 8 = pos d / 8 - 1) as E8 by dlia. unfold bit_sect. rewrite E8 in *. set (q := pos d / 8) in *.
  assert (0 < q) by (subst q; dlia).
  assert (q / SS = (q - 1) / SS /\ q mod SS = sc_i z + 1) as [-> ->] by (unfold SS in *; dlia). auto.
Qed.

Lemma find_loop_wp fuel x s1 : (exists d, scan_at d x s1) -> (Z.to_nat (left_over (sc_val x)) < fuel)%nat ->
  wp (r <- move_window (u32 (database (lay s) + sc_val x / 8 / SS)) ;;
      match r with
      | FR_OK =>
          r <- scan_bytes fuel (n_bits (lay s)) v0 1
                 (mkscan (sc_val x) (sc_scl x) (sc_ctr x) (sc_val x / 8 mod SS) (Z.shiftl 1 (sc_val x mod 8))) ;;
          match r with
          | inr v => ret (inr v)
          | inl y => ret (inl y)
          end
      | _ => ret (inr 0xFFFFFFFF)
      end) (fun r s2 => match r with
      | inl y => (exists d, scan_at d y s2) /\ left_over (sc_val y) < left_over (sc_val x)
      | inr c => found c s2
      end) s1.
Proof.
  intros (d & [Hd Ev Es Ec [V1 D1] SE]) HF. pose proof (ev_layout _ _ _ D1) as L1. pose proof (pos_range d ltac:(lia)) as HP.
  rewrite <- L1 in HP. destruct (bit_sect_ok _ (pos d) (vo_layout s1 V1) HP) as (_ & _ & HS). rewrite Ev in *.
  change (database (lay s) + pos d / 8 / SS) with (bit_sect (lay s) (pos d)). rewrite <- L1.
  assert (u32 (bit_sect (lay s1) (pos d)) = bit_sect (lay s1) (pos d)) as -> by (apply uwrap_small; in_range).
  apply wp_bind. wp_use (bit_window (pos d) s1); auto. intros r s2 (V2 & D2 & R).
  assert (same_disk s s2) as D12 by (etransitivity; eassumption). rewrite L1 in *.
  destruct R as [[-> W]|[-> FL]].
  2:{ apply wp_ret. split; [exact V2|]. split; [exact D12|]. right. right. split; [reflexivity|].
      apply (failed_r _ s1); [exact FL | apply D1]. }
  apply wp_bind. wp_use scan_bytes_wp; [| exact HF |].
  - exists d. split; [now constructor|]. cbn [sc_i sc_bm]. rewrite Z.shiftl_1_l. auto.
  - intros [y|c] s3 R; apply wp_ret; exact R.
Qed.

End Find.

(** find_bitmap for one cluster: a free one if there is one, wherever the search
    starts; 0 only if all are in use. *)
Lemma find_bitmap_wp clst s : vol_ok s -> wp (find_bitmap clst 1) (found s) s.
Proof.
  intros V. pose proof (n_fatent_range _ (vo_layout s V)) as NR. unfold find_bitmap. apply wp_bind, wp_gets. cbv zeta.
  assert (u32 (n_fatent (lay s) - 2) = n_bits (lay s)) as -> by (unfold n_bits; apply uwrap_small; unfold in_u; lia).
  set (v0 := if n_bits (lay s) <=? u32 (clst - 2) then 0 else u32 (clst - 2)).
  assert (0 <= v0 < n_bits (lay s)) as H0.
  { unfold v0. pose proof (uwrap_range 32 (clst - 2) ltac:(lia)) as U. unfold in_u in U. change (uwrap 32 (clst - 2)) with (u32 (clst - 2)) in U.
    destruct (Z.leb_spec (n_bits (lay s)) (u32 (clst - 2))); unfold n_bits in *; lia. }
  assert (pos s v0 0 = v0) as P0 by (unfold pos; rewrite Z.add_0_r, (proj2 (Z.ltb_lt _ _)) by lia; reflexivity).
  assert (left_over s v0 v0 = n_bits (lay s)) as L0 by (unfold left_over; rewrite Z.leb_refl; lia).
  apply (wp_iter _ (fun x s1 => (exists d, scan_at s v0 d x s1) /\ left_over s v0 (sc_val x) <= n_bits (lay s))
           (fun x _ => Z.to_nat (left_over s v0 (sc_val x)))).
  - intros x s1 [(d & SA) LE]. pose proof SA as [Hd Ev _ _ _ _].
    eapply wp_conseq; [apply (find_loop_wp s v0 V H0); [eauto | lia]|]. rewrite Ev, pos_left by auto.
    intros [y|c] s2 R; [|exact R]. destruct R as [(d' & SA') LT].
    split; [split; [eauto | lia] | lia].
  - split; [|cbn; lia]. exists 0. constructor; cbn [sc_val sc_scl sc_ctr]; auto; try lia. split; [exact V | reflexivity].
  - cbn [sc_val]. lia.
Qed.

End AllocLaws.
