(* ===== verification/FatChain.v ===== *)
(** * ext/fatfs/src/ff.c: cluster chains

    remove_chain gives the clusters of a chain (or of its tail) back,
    create_chain finds a free cluster and starts or stretches a chain with it;
    both keep the count of free clusters that FSInfo records. *)

From Stdlib Require Import ZArith Bool List Lia.
From S2P Require Import Prelude FatVol FatTable FatBitmap.
Import ListNotations.
Local Open Scope Z_scope.
Local Open Scope fw_scope.

Section Chain.
Context `{D : DiskIo}.

(** [fs->fsi_flag |= 1]. *)
Definition mark_fsinfo : F unit := upd_fs (fun f => set_fsi_flag (Z.lor (fsi_flag f) 1) f).

(** One turn of the loop of remove_chain on [clst], [scl], [ecl]: the next turn,
    [Some] status returned, or [None]: the chain is removed. *)
Definition remove_step (obj : FFOBJID) (g : Layout) (x : Z * Z * Z)
  : F ((Z * Z * Z) + option FRESULT) :=
  let '(clst, scl, ecl) := x in
  nxt <- get_fat obj clst ;;
  if nxt =? 0 then ret (inr None)
  else if nxt =? 1 then ret (inr (Some FR_INT_ERR))
  else if nxt =? 0xFFFFFFFF then ret (inr (Some FR_DISK_ERR))
  else
    res <- (if negb (fs_type g =? FS_EXFAT) then put_fat clst 0 else ret FR_OK) ;;
    match res with
    | FR_OK =>
        f <- gets fs ;;
        when (free_clst f <? u32 (n_fatent g - 2))
          (upd_fs (set_free_clst (u32 (free_clst f + 1))) ;; mark_fsinfo) ;;
        r <- (if u32 (ecl + 1) =? nxt then ret (FR_OK, (scl, nxt))
              else
                res <- (if fs_type g =? FS_EXFAT then change_bitmap scl (u32 (u32 (ecl - scl) + 1)) 0
                        else ret FR_OK) ;;
                ret (res, (nxt, nxt))) ;;
        match r with
        | (FR_OK, (scl, ecl)) =>
            if nxt <? n_fatent g then ret (inl (nxt, scl, ecl)) else ret (inr None)
        | (e, _) => ret (inr (Some e))
        end
    | e => ret (inr (Some e))
    end.

(** Follow the chain from [clst] while it is contiguous, up to [pclst]. *)
Definition follow_contiguous (obj : FFOBJID) (g : Layout) (pclst : Z) : F (FRESULT + Z) :=
  iter (S (Z.to_nat (n_fatent g))) (fun clst : Z =>
    if clst =? pclst then ret (inr (inr clst))
    else
      nxt <- get_fat obj clst ;;
      if nxt <? 2 then ret (inr (inl FR_INT_ERR))
      else if nxt =? 0xFFFFFFFF then ret (inr (inl FR_DISK_ERR))
      else if negb (nxt =? u32 (clst + 1)) then ret (inr (inr clst))
      else ret (inl (u32 (clst + 1)))) (sclust obj).

(** The chain status of an exFAT object after the removal. *)
Definition removed_status (obj : FFOBJID) (g : Layout) (pclst : Z) : F (FRESULT * FFOBJID) :=
  if negb (fs_type g =? FS_EXFAT) then ret (FR_OK, obj)
  else if pclst =? 0 then ret (FR_OK, set_stat 0 obj)
  else if stat obj =? 0 then
    r <- follow_contiguous obj g pclst ;;
    match r with
    | inl e => ret (e, obj)
    | inr clst => ret (FR_OK, if clst =? pclst then set_stat 2 obj else obj)
    end
  else if (stat obj =? 3) && (sclust obj <=? pclst) && (pclst <=? u32 (sclust obj + n_cont obj))
  then ret (FR_OK, set_stat 2 obj)
  else ret (FR_OK, obj).

Definition remove_chain (obj : FFOBJID) (clst pclst : Z) : F (FRESULT * FFOBJID) :=
  g <- gets (fun s => layout (fs s)) ;;
  if (clst <? 2) || (n_fatent g <=? clst) then ret (FR_INT_ERR, obj)
  else
    res <- (if negb (pclst =? 0) && (negb (fs_type g =? FS_EXFAT) || negb (stat obj =? 2))
            then put_fat pclst 0xFFFFFFFF else ret FR_OK) ;;
    match res with
    | FR_OK =>
        r <- iter (S (Z.to_nat (2 * n_fatent g))) (remove_step obj g) (clst, clst, clst) ;;
        match r with
        | Some e => ret (e, obj)
        | None => removed_status obj g pclst
        end
    | e => ret (e, obj)
    end.

(** The search of create_chain on a FAT volume: [inl v], return [v]; [inr ncl],
    cluster [ncl] is free. *)
Definition search_free (obj : FFOBJID) (g : Layout) (scl : Z) : F (Z + Z) :=
  iter (S (Z.to_nat (n_fatent g))) (fun ncl : Z =>
    let ncl := u32 (ncl + 1) in
    let wrapped := n_fatent g <=? ncl in
    let ncl := if wrapped then 2 else ncl in
    if wrapped && (scl <? ncl) then ret (inr (inl 0))
    else
      cs <- get_fat obj ncl ;;
      if cs =? 0 then ret (inr (inr ncl))
      else if (cs =? 1) || (cs =? 0xFFFFFFFF) then ret (inr (inl cs))
      else if ncl =? scl then ret (inr (inl 0))
      else ret (inl ncl)) scl.

(** The exFAT branch of create_chain: [inl v], return [v]; otherwise the status,
    the new cluster and the object. *)
Definition extend_exfat (obj : FFOBJID) (clst scl : Z) : F (Z + (FRESULT * Z * FFOBJID)) :=
  ncl <- find_bitmap scl 1 ;;
  if (ncl =? 0) || (ncl =? 0xFFFFFFFF) then ret (inl ncl)
  else
    res <- change_bitmap ncl 1 1 ;;
    match res with
    | FR_INT_ERR => ret (inl 1)
    | FR_DISK_ERR => ret (inl 0xFFFFFFFF)
    | _ =>
        let obj := if clst =? 0 then set_stat 2 obj
                   else if (stat obj =? 2) && negb (ncl =? u32 (scl + 1))
                   then set_stat 3 (set_n_cont (u32 (scl - sclust obj)) obj)
                   else obj in
        if stat obj =? 2 then ret (inr (res, ncl, obj))
        else if ncl =? u32 (clst + 1) then
          ret (inr (res, ncl, set_n_frag (if n_frag obj =? 0 then 2 else u32 (n_frag obj + 1)) obj))
        else
          let obj := if n_frag obj =? 0 then set_n_frag 1 obj else obj in
          '(res, obj) <- fill_last_frag obj clst ncl ;;
          ret (inr (res, ncl, match res with FR_OK => set_n_frag 1 obj | _ => obj end))
    end.

(** The new cluster on a FAT volume: the one after [clst] if a chain is stretched
    and it is free, else one that a search finds. *)
Definition choose_free (obj : FFOBJID) (g : Layout) (clst scl : Z) : F (Z + Z) :=
  if scl =? clst then
    let ncl := u32 (scl + 1) in
    let ncl := if n_fatent g <=? ncl then 2 else ncl in
    cs <- get_fat obj ncl ;;
    if (cs =? 1) || (cs =? 0xFFFFFFFF) then ret (inl cs)
    else if negb (cs =? 0) then
      last <- gets (fun s => last_clst (fs s)) ;;
      search_free obj g (if (2 <=? last) && (last <? n_fatent g) then last else scl)
    else ret (inr ncl)
  else search_free obj g scl.

(** Mark the new cluster as the end of a chain and link it from [clst]. *)
Definition link_cluster (clst ncl : Z) : F FRESULT :=
  res <- put_fat ncl 0xFFFFFFFF ;;
  if fr_ok res && negb (clst =? 0) then put_fat clst ncl else ret res.

(** The FAT branch of create_chain. *)
Definition extend_fat (obj : FFOBJID) (g : Layout) (clst scl : Z) : F (Z + (FRESULT * Z * FFOBJID)) :=
  r <- choose_free obj g clst scl ;;
  match r with
  | inl v => ret (inl v)
  | inr ncl =>
      res <- link_cluster clst ncl ;;
      ret (inr (res, ncl, obj))
  end.

(** Where create_chain starts to look: [inl v], return [v]. *)
Definition chain_start (obj : FFOBJID) (g : Layout) (clst : Z) : F (Z + Z) :=
  if clst =? 0 then
    scl <- gets (fun s => last_clst (fs s)) ;;
    ret (inr (if (scl =? 0) || (n_fatent g <=? scl) then 1 else scl))
  else
    cs <- get_fat obj clst ;;
    if cs <? 2 then ret (inl 1)
    else if cs =? 0xFFFFFFFF then ret (inl cs)
    else if cs <? n_fatent g then ret (inl cs)
    else ret (inr clst).

Definition create_chain (obj : FFOBJID) (clst : Z) : F (Z * FFOBJID) :=
  g <- gets (fun s => layout (fs s)) ;;
  st <- chain_start obj g clst ;;
  match st with
  | inl v => ret (v, obj)
  | inr scl =>
      free <- gets (fun s => free_clst (fs s)) ;;
      if free =? 0 then ret (0, obj)
      else
        r <- (if fs_type g =? FS_EXFAT then extend_exfat obj clst scl else extend_fat obj g clst scl) ;;
        match r with
        | inl v => ret (v, obj)
        | inr (FR_OK, ncl, obj) =>
            upd_fs (set_last_clst ncl) ;;
            f <- gets fs ;;
            when (free_clst f <=? u32 (n_fatent g - 2)) (upd_fs (set_free_clst (u32 (free_clst f - 1)))) ;;
            mark_fsinfo ;;
            ret (ncl, obj)
        | inr (FR_DISK_ERR, _, obj) => ret (0xFFFFFFFF, obj)
        | inr (_, _, obj) => ret (1, obj)
        end
  end.

End Chain.

(** ** The search for a free cluster *)

Section ChainLaws.
Context `{D : DiskIo} {DL : DiskLaws D}.

(** What a search on the table of [s] may answer. *)
Definition searched (s : vol) (r : Z + Z) (s' : vol) : Prop :=
  vol_ok s' /\ quiet s s' /\
  match r with
  | inr ncl => cluster (lay s) ncl /\ fat_entry s ncl = 0
  | inl v => v = 0 /\ (forall c, cluster (lay s) c -> fat_entry s c <> 0) \/
             v = 1 /\ (exists c, cluster (lay s) c /\ fat_entry s c = 1) \/
             v = 0xFFFFFFFF /\ failed s s'
  end.

(** The clusters that the search from [scl] has seen when it stands at [ncl]. *)
Definition seen (g : Layout) (scl ncl c : Z) : Prop :=
  scl < c <= ncl \/ ncl < scl /\ (scl < c < n_fatent g \/ 2 <= c <= ncl).

Definition search_inv (s : vol) (scl ncl : Z) (s1 : vol) : Prop :=
  vol_ok s1 /\ quiet s s1 /\ (scl <= ncl < n_fatent (lay s) \/ 2 <= ncl < scl) /\
  forall c, seen (lay s) scl ncl c -> fat_entry s c <> 0.

(** The next cluster the search looks at, what it has seen then, and that it
    comes nearer to its end. *)
Lemma search_next g scl ncl : let n := n_fatent g in
  1 <= scl < n -> scl <= ncl < n \/ 2 <= ncl < scl ->
  exists x, (if n <=? ncl + 1 then 2 else ncl + 1) = x /\
    if (n <=? ncl + 1) && (scl <? x) then forall c, cluster g c -> seen g scl ncl c
    else cluster g x /\ (forall c, seen g scl x c -> seen g scl ncl c \/ c = x) /\
         (x = scl -> forall c, cluster g c -> seen g scl ncl c \/ c = x) /\
         (x <> scl -> (scl <= x < n \/ 2 <= x < scl) /\
           (Z.to_nat (if (scl <=? x)%Z then (n - x + scl)%Z else (scl - x)%Z) <
            Z.to_nat (if (scl <=? ncl)%Z then (n - ncl + scl)%Z else (scl - ncl)%Z))%nat).
Proof.
  intros n Hs R. eexists. split; [reflexivity|]. unfold seen, cluster. fold n.
  destruct (Z.leb_spec n (ncl + 1)); cbn [andb].
  - destruct (Z.ltb_spec scl 2).
    + intros c Hc. lia.
    + repeat split; try lia. destruct (Z.leb_spec scl 2), (Z.leb_spec scl ncl); lia.
  - repeat split; try lia.
    destruct (Z.leb_spec scl (ncl + 1)), (Z.leb_spec scl ncl); lia.
Qed.

Lemma search_free_wp obj scl s : vol_ok s -> fs_type (lay s) <> FS_EXFAT -> 1 <= scl < n_fatent (lay s) ->
  wp (search_free obj (lay s) scl) (searched s) s.
Proof.
  intros V T Hs. pose proof (n_fatent_range _ (vo_layout s V)) as N. set (n := n_fatent (lay s)) in *.
  apply (wp_iter _ (search_inv s scl)
    (fun ncl _ => Z.to_nat (if scl <=? ncl then n - ncl + scl else scl - ncl))).
  2:{ split; [exact V|]. split; [reflexivity|]. split; [lia|]. unfold seen. intros c Hc. lia. }
  2:{ rewrite (proj2 (Z.leb_le scl scl)) by lia. fold n. lia. }
  intros ncl s1 (V1 & S1 & R & Z1). fold n in R. cbv beta zeta. fold n.
  assert (u32 (ncl + 1) = ncl + 1) as -> by (apply uwrap_small; in_range).
  destruct (search_next (lay s) scl ncl Hs R) as (x & Ex & H). fold n in Ex, H. rewrite Ex.
  destruct ((n <=? ncl + 1) && (scl <? x)).
  { apply wp_ret. split; [exact V1|]. split; [exact S1|]. left. auto. }
  destruct H as (Hx & Sx & Full & Mx).
  apply wp_bind. wp_use (get_fat_after obj x s s1); auto. intros v s2 (V2 & S2 & Ev).
  rewrite fat_value_entry in Ev by exact Hx. pose proof (fat_entry_range s x V) as RG.
  destruct Ev as [->|[-> FL]].
  2:{ apply wp_ret. split; [exact V2|]. split; [exact S2|]. auto. }
  destruct (Z.eqb_spec (fat_entry s x) 0) as [E0|N0].
  { apply wp_ret. split; [exact V2|]. split; [exact S2|]. auto. }
  assert (forall c, seen (lay s) scl x c -> fat_entry s c <> 0) as Z2.
  { intros c Hc. destruct (Sx c Hc) as [Hc'| ->]; [now apply Z1 | exact N0]. }
  destruct (Z.eqb_spec (fat_entry s x) 1) as [E1|N1]; cbn [orb].
  { apply wp_ret. split; [exact V2|]. split; [exact S2|]. right. left. eauto. }
  destruct (Z.eqb_spec (fat_entry s x) 0xFFFFFFFF); [lia|].
  destruct (Z.eqb_spec x scl) as [->|NE]; apply wp_ret.
  - split; [exact V2|]. split; [exact S2|]. left. split; [reflexivity|].
    intros c Hc. destruct (Full eq_refl c Hc) as [Hc'| ->]; [now apply Z1 | exact N0].
  - destruct (Mx NE) as [Rx Mx']. split; [|exact Mx']. split; [exact V2|]. auto.
Qed.

(** The table after cluster [ncl] has been put at the end of the chain that ended
    in [clst] (0: a new chain). *)
Definition linked (g : Layout) (clst ncl : Z) (m : Z -> Z) : Z -> Z :=
  let m1 := fat_set ncl (EOC g) m in if clst =? 0 then m1 else fat_set clst ncl m1.

Lemma searched_after s s1 r s2 : quiet s s1 -> vol_ok s -> searched s1 r s2 -> searched s r s2.
Proof.
  intros S1 V (V2 & S2 & H). pose proof (same_updates s s1 V S1) as [L T _ _ _ _ _ _].
  split; [exact V2|]. split; [etransitivity; eassumption|]. rewrite L in H. destruct r as [v|ncl].
  - destruct H as [[H1 H2]|[[H1 (c & Hc & H2)]|[H1 H2]]].
    + left. split; [exact H1|]. intros c Hc. rewrite <- T by exact Hc. auto.
    + right. left. split; [exact H1|]. exists c. split; [exact Hc|]. now rewrite <- T.
    + right. right. split; [exact H1|]. apply (failed_r _ s1); [exact H2 | apply S1].
  - destruct H as [Hc H]. split; [exact Hc|]. now rewrite <- T.
Qed.

Lemma choose_free_wp obj clst scl s : vol_ok s -> fs_type (lay s) <> FS_EXFAT ->
  1 <= scl < n_fatent (lay s) -> wp (choose_free obj (lay s) clst scl) (searched s) s.
Proof.
  intros V T Hs. pose proof (n_fatent_range _ (vo_layout s V)) as N. unfold choose_free.
  destruct (Z.eqb_spec scl clst) as [<-|_]; [|now apply search_free_wp].
  assert (u32 (scl + 1) = scl + 1) as -> by (apply uwrap_small; in_range). cbv zeta.
  set (x := if _ <=? _ then 2 else _).
  assert (cluster (lay s) x) as Hx
    by (unfold cluster; subst x; destruct (Z.leb_spec (n_fatent (lay s)) (scl + 1)); lia).
  apply wp_bind. wp_use get_fat_wp; auto. intros v s1 (V1 & S1 & Ev). rewrite fat_value_entry in Ev by exact Hx.
  pose proof (fat_entry_range s x V) as RG. destruct Ev as [->|[-> FL]].
  2:{ apply wp_ret. split; [exact V1|]. split; [exact S1|]. auto. }
  destruct (Z.eqb_spec (fat_entry s x) 1) as [E1|N1]; cbn [orb].
  { apply wp_ret. split; [exact V1|]. split; [exact S1|]. right. left. eauto. }
  destruct (Z.eqb_spec (fat_entry s x) 0xFFFFFFFF); [lia|].
  destruct (Z.eqb_spec (fat_entry s x) 0) as [E0|N0]; cbn [negb].
  { apply wp_ret. split; [exact V1|]. split; [exact S1|]. auto. }
  wp_norm. pose proof (quiet_layout S1) as L1. rewrite <- L1.
  eapply wp_conseq; [apply search_free_wp; rewrite ?L1; auto|].
  - destruct (Z.leb_spec 2 (last_clst (fs s1))), (Z.ltb_spec (last_clst (fs s1)) (n_fatent (lay s))); cbn [andb]; lia.
  - intros r s2 H. now apply (searched_after s s1).
Qed.

(** What the allocation of [ncl] may leave when a disk error ends it: only the
    entries of the two clusters concerned may have changed. *)
Definition disturbed (clst ncl : Z) (s s' : vol) : Prop :=
  failed s s' /\ exists m, updates m s s' /\
    forall c, cluster (lay s) c -> c <> ncl -> c <> clst -> m c = fat_entry s c.

Lemma link_wp clst ncl s s1 : vol_ok s -> vol_ok s1 -> quiet s s1 ->
  clst = 0 \/ cluster (lay s) clst -> cluster (lay s) ncl ->
  wp (link_cluster clst ncl)
     (fun res s' => vol_ok s' /\
        (res = FR_OK /\ updates (linked (lay s) clst ncl (fat_entry s)) s s' \/
         res = FR_DISK_ERR /\ disturbed clst ncl s s')) s1.
Proof.
  intros V V1 S1 Hc Hn. pose proof (same_updates s s1 V S1) as U1. pose proof (up_layout _ _ _ U1) as L1.
  unfold link_cluster. apply wp_bind. wp_use put_fat_wp; [exact V1 | now rewrite L1 |]. rewrite L1.
  intros r s2 (V2 & [[-> U2]|(-> & FL & x & U2)]); apply (updates_trans _ _ _ _ _ U1) in U2; cbn [fr_ok andb].
  2:{ wp_norm. split; [exact V2|]. right. split; [reflexivity|].
      split; [apply (failed_r _ s1); [exact FL | apply S1]|]. eexists. split; [exact U2|].
      intros c Hcc N1 _. unfold fat_set. destruct (Z.eqb_spec c ncl); [contradiction | now apply U1]. }
  assert (updates (fat_set ncl (EOC (lay s)) (fat_entry s)) s s2) as U3.
  { apply (updates_ext _ _ _ _ U2). intros c Hcc. now apply fat_set_ext, U1. }
  unfold linked. destruct (Z.eqb_spec clst 0) as [->|NZ]; cbn [negb].
  { wp_norm. auto. }
  destruct Hc as [->|Hc]; [lia|]. pose proof (up_layout _ _ _ U2) as L2.
  wp_use put_fat_wp; [exact V2 | now rewrite L2 |]. rewrite L2.
  intros r s3 (V3 & [[-> U4]|(-> & FL & x & U4)]); apply (updates_trans _ _ _ _ _ U3) in U4;
    (split; [exact V3|]).
  - left. split; [reflexivity|]. rewrite entry_of_cluster in U4 by (auto; apply V).
    apply (updates_ext _ _ _ _ U4). intros c Hcc. now apply fat_set_ext, U3.
  - right. split; [reflexivity|]. split; [apply (failed_r _ s2); [exact FL | apply U3]|].
    eexists. split; [exact U4|]. intros c Hcc N1 N2. unfold fat_set.
    destruct (Z.eqb_spec c clst); [contradiction|]. rewrite (up_table _ _ _ U3) by exact Hcc.
    unfold fat_set. destruct (Z.eqb_spec c ncl); [contradiction | reflexivity].
Qed.

(** Cluster [ncl] was free and is now the end of the chain that ended in [clst];
    the rest of the volume is as before and the books are kept. *)
Record allocated (clst ncl : Z) (s s' : vol) : Prop := {
  al_cluster : cluster (lay s) ncl;
  al_free : fat_entry s ncl = 0;
  al_layout : lay s' = lay s;
  al_table : forall c, cluster (lay s) c -> fat_entry s' c = linked (lay s) clst ncl (fat_entry s) c;
  al_rest : forall n, visible (lay s) n -> ~ (fatbase (lay s) <= n < fatbase (lay s) + fsize (lay s)) ->
            view s' n = view s n;
  al_calls : (calls s <= calls s')%nat;
  al_last : last_clst (fs s') = ncl;
  al_stays : stays s s';
  al_count : free_clst (fs s') =
    if free_clst (fs s) <=? n_fatent (lay s) - 2 then free_clst (fs s) - 1 else free_clst (fs s)
}.

(** The outcomes of an attempt to stretch a chain that ends in [clst]. *)
Definition stretched (obj : FFOBJID) (clst : Z) (s : vol) (r : Z * FFOBJID) (s' : vol) : Prop :=
  let v := fst r in
  snd r = obj /\ vol_ok s' /\
  (allocated clst v s s' \/
   v = 0 /\ quiet s s' /\
     (free_clst (fs s) = 0 \/ forall c, cluster (lay s) c -> fat_entry s c <> 0) \/
   v = 1 /\ quiet s s' /\ (exists c, cluster (lay s) c /\ fat_entry s c = 1) \/
   v = 0xFFFFFFFF /\ exists ncl, (cluster (lay s) ncl -> fat_entry s ncl = 0) /\ disturbed clst ncl s s').

Lemma same_disturbed clst s s' : vol_ok s -> quiet s s' -> failed s s' ->
  exists ncl, (cluster (lay s) ncl -> fat_entry s ncl = 0) /\ disturbed clst ncl s s'.
Proof.
  intros V S FL. exists 0. split; [unfold cluster; lia|]. split; [exact FL|].
  exists (fat_entry s). split; [now apply same_updates | auto].
Qed.

(** The books of create_chain. *)
Lemma record_alloc obj clst ncl s s' : vol_ok s -> vol_ok s' -> cluster (lay s) ncl -> fat_entry s ncl = 0 ->
  free_clst (fs s) <> 0 -> updates (linked (lay s) clst ncl (fat_entry s)) s s' ->
  wp (upd_fs (set_last_clst ncl) ;;
      f <- gets fs ;;
      when (free_clst f <=? u32 (n_fatent (lay s) - 2)) (upd_fs (set_free_clst (u32 (free_clst f - 1)))) ;;
      mark_fsinfo ;;
      ret (ncl, obj)) (stretched obj clst s) s'.
Proof.
  intros V V' Hn E0 NF [L T R C A FR I W]. pose proof (n_fatent_range _ (vo_layout s V)) as N.
  pose proof (vo_free s V) as HF. unfold in_u in HF. unfold mark_fsinfo, upd_fs. wp_norm. cbn [fs set_last_clst free_clst].
  assert (u32 (n_fatent (lay s) - 2) = n_fatent (lay s) - 2) as -> by (apply uwrap_small; in_range).
  assert (u32 (free_clst (fs s') - 1) = free_clst (fs s) - 1) as Eu by (rewrite FR; apply uwrap_small; in_range).
  assert (in_u 32 ncl) as Un by (unfold cluster in Hn; in_range).
  apply wp_when; intros E; wp_norm; (split; [reflexivity|]);
    (split; [destruct V'; constructor; auto; cbn; rewrite ?Eu; in_range|]); left;
    constructor; auto; cbn; rewrite FR in E; rewrite E; [exact Eu | exact FR].
Qed.

(** A chain that ends in [clst], or none. *)
Definition stretchable (s : vol) (clst : Z) : Prop :=
  clst = 0 \/ cluster (lay s) clst /\ n_fatent (lay s) <= fat_entry s clst.

Lemma chain_start_wp obj clst s : vol_ok s -> fs_type (lay s) <> FS_EXFAT -> stretchable s clst ->
  wp (chain_start obj (lay s) clst) (fun r s1 => vol_ok s1 /\ quiet s s1 /\
    (r = inl 0xFFFFFFFF /\ failed s s1 \/ exists scl, r = inr scl /\ 1 <= scl < n_fatent (lay s))) s.
Proof.
  intros V T Hc. pose proof (n_fatent_range _ (vo_layout s V)) as N.
  unfold chain_start. destruct (Z.eqb_spec clst 0) as [->|NZ].
  - wp_norm. split; [exact V|]. split; [reflexivity|]. right. eexists. split; [reflexivity|].
    pose proof (vo_last s V) as HL. unfold in_u in HL.
    destruct (Z.eqb_spec (last_clst (fs s)) 0), (Z.leb_spec (n_fatent (lay s)) (last_clst (fs s))); cbn [orb]; lia.
  - destruct Hc as [->|[Hc He]]; [lia|]. apply wp_bind. wp_use get_fat_wp; auto.
    intros v s1 (V1 & S1 & Ev). rewrite fat_value_entry in Ev by exact Hc. pose proof (fat_entry_range s clst V) as RG.
    destruct Ev as [->|[-> FL]]; [|apply wp_ret; auto].
    destruct (Z.ltb_spec (fat_entry s clst) 2); [lia|].
    destruct (Z.eqb_spec (fat_entry s clst) 0xFFFFFFFF); [lia|].
    destruct (Z.ltb_spec (fat_entry s clst) (n_fatent (lay s))); [lia|].
    apply wp_ret. split; [exact V1|]. split; [exact S1|]. right. exists clst. unfold cluster in Hc.
    split; [reflexivity | lia].
Qed.

Lemma create_chain_wp obj clst s : vol_ok s -> fs_type (lay s) <> FS_EXFAT -> stretchable s clst ->
  wp (create_chain obj clst) (stretched obj clst s) s.
Proof.
  intros V T Hc. unfold create_chain. apply wp_bind, wp_gets, wp_bind.
  wp_use chain_start_wp; auto. intros st s1 (V1 & S1 & [[-> FL]|(scl & -> & Hs)]).
  { apply wp_ret. split; [reflexivity|]. split; [exact V1|]. right. right. right.
    split; [reflexivity|]. now apply same_disturbed. }
  apply wp_bind, wp_gets. pose proof (quiet_layout S1) as L1. rewrite (ev_free _ _ _ (qu_disk _ _ S1)).
  destruct (Z.eqb_spec (free_clst (fs s)) 0) as [E0|NF].
  { apply wp_ret. split; [reflexivity|]. split; [exact V1|]. right. left. auto. }
  rewrite (proj2 (Z.eqb_neq _ _) T). apply wp_bind. unfold extend_fat. apply wp_bind. rewrite <- L1.
  eapply wp_conseq; [apply choose_free_wp; rewrite ?L1; auto|].
  intros r s2 H. apply (searched_after s s1) in H; auto. rewrite L1. destruct H as (V2 & S2 & H).
  destruct r as [v|ncl].
  { apply wp_ret, wp_ret. split; [reflexivity|]. split; [exact V2|]. cbn [fst].
    destruct H as [[-> H]|[[-> H]|[-> H]]]; [right; left; auto | right; right; left; auto |]. right. right. right.
    split; [reflexivity|]. now apply same_disturbed. }
  destruct H as [Hn En]. apply wp_bind. wp_use (link_wp clst ncl s s2); auto.
  { destruct Hc as [->|[Hc _]]; auto. }
  intros res s3 (V3 & [[-> U]|[-> FL]]); apply wp_ret; [now apply record_alloc|].
  apply wp_ret. split; [reflexivity|]. split; [exact V3|]. right. right. right.
  split; [reflexivity|]. exists ncl. auto.
Qed.

(** Called on a cluster that is followed by another one, create_chain returns
    that one; on a free or reserved entry it reports an internal error. *)
Lemma create_chain_follow obj clst s : vol_ok s -> fs_type (lay s) <> FS_EXFAT ->
  clst <> 0 -> fat_value s clst < n_fatent (lay s) ->
  wp (create_chain obj clst) (fun r s' => vol_ok s' /\ quiet s s' /\ snd r = obj /\
    (fst r = (if fat_value s clst <? 2 then 1 else fat_value s clst) \/ fst r = 0xFFFFFFFF /\ failed s s')) s.
Proof.
  intros V T NZ Hv. unfold create_chain, chain_start. apply wp_bind, wp_gets, wp_bind.
  rewrite (proj2 (Z.eqb_neq _ _) NZ). apply wp_bind. wp_use get_fat_wp; auto.
  intros v s1 (V1 & S1 & [->|[-> FL]]).
  2:{ change (0xFFFFFFFF <? 2) with false. rewrite Z.eqb_refl. wp_norm. cbn [fst snd]. auto 8. }
  pose proof (n_fatent_range _ (vo_layout s V)) as N.
  destruct (Z.ltb_spec (fat_value s clst) 2); [wp_norm; cbn [fst snd]; auto 8|].
  destruct (Z.eqb_spec (fat_value s clst) 0xFFFFFFFF); [lia|].
  destruct (Z.ltb_spec (fat_value s clst) (n_fatent (lay s))); [|lia]. wp_norm. cbn [fst snd]. auto 8.
Qed.

(** ** Removing a chain *)

(** [l] is the chain of the table [m] that starts with its first cluster. *)
Fixpoint chain (g : Layout) (m : Z -> Z) (l : list Z) : Prop :=
  match l with
  | [] => False
  | c :: l' => cluster g c /\ match l' with
                              | [] => n_fatent g <= m c
                              | c' :: _ => m c = c' /\ chain g m l'
                              end
  end.

Lemma chain_next g m c l : chain g m (c :: l) ->
  cluster g c /\ (l = [] /\ n_fatent g <= m c \/ exists c' l', l = c' :: l' /\ m c = c' /\ cluster g c' /\ chain g m l).
Proof.
  destruct l as [|c' l']; cbn [chain]; intros [H1 H2]; split; auto.
  right. exists c', l'. destruct H2 as [H2 H3]. split; [reflexivity|]. split; [exact H2|]. split; [apply H3 | exact H3].
Qed.

Lemma chain_clusters g m l : chain g m l -> forall c, In c l -> cluster g c.
Proof.
  induction l as [|c l IH]; [contradiction|]. intros H x [<-|Hx]; [apply H|].
  destruct (chain_next _ _ _ _ H) as [_ [[-> _]|(c' & l' & E & _ & _ & H')]]; [contradiction|]. auto.
Qed.

Lemma chain_ext g m m' l : (forall c, In c l -> m c = m' c) -> chain g m l -> chain g m' l.
Proof.
  induction l as [|c l IH]; [auto|]. intros E H.
  pose proof (E c (or_introl eq_refl)) as Ec.
  destruct l as [|c' l']; cbn [chain] in *; rewrite <- Ec; [exact H|].
  destruct H as (H1 & H2 & H3). split; [exact H1|]. split; [exact H2|].
  apply IH; [|exact H3]. intros x Hx. apply E. now right.
Qed.

(** A table has one chain from a cluster, so a chain never meets itself. *)
Lemma chain_det g m l1 : forall c l2, chain g m (c :: l1) -> chain g m (c :: l2) -> l1 = l2.
Proof.
  induction l1 as [|a l1 IH]; intros c l2 H1 H2;
    destruct (chain_next _ _ _ _ H1) as [_ [[E1 G1]|(x & l' & E1 & M1 & X1 & C1)]];
    destruct (chain_next _ _ _ _ H2) as [_ [[E2 G2]|(y & l'' & E2 & M2 & X2 & C2)]];
    try discriminate; subst; try reflexivity; unfold cluster in *; try lia.
  injection E1 as -> ->. f_equal. eauto.
Qed.

Lemma chain_suffix g m l1 c l2 : chain g m (l1 ++ c :: l2) -> chain g m (c :: l2).
Proof.
  induction l1 as [|a l1 IH]; [auto|]. intros H. apply IH.
  destruct (chain_next _ _ _ _ H) as [_ [[E _]|(x & l' & _ & _ & _ & C)]]; [now destruct l1 | exact C].
Qed.

Lemma chain_nodup g m l : chain g m l -> NoDup l.
Proof.
  induction l as [|c l IH]; [contradiction|]. intros H. constructor.
  - intros I. apply in_split in I as (l1 & l2 & E). subst l.
    pose proof (chain_suffix g m (c :: l1) c l2 H) as C2.
    pose proof (f_equal (@length Z) (chain_det _ _ _ _ _ H C2)) as E2.
    rewrite length_app in E2. cbn in E2. lia.
  - destruct (chain_next _ _ _ _ H) as [_ [[-> _]|(x & l' & _ & _ & _ & C)]]; [constructor | auto].
Qed.

(** The entry of the cluster number [i] of a chain. *)
Lemma chain_nth g m l : chain g m l -> forall i, (i < length l)%nat ->
  if Nat.eqb (S i) (length l) then n_fatent g <= m (nth i l 0) else m (nth i l 0) = nth (S i) l 0.
Proof.
  induction l as [|c l IH]; [contradiction|]. intros H i Hi.
  destruct (chain_next _ _ _ _ H) as [_ [[-> En]|(c' & l' & -> & En & _ & C)]].
  - cbn [length] in *. replace i with O by lia. exact En.
  - destruct i as [|i]; [exact En|]. apply (IH C i). cbn [length] in *. lia.
Qed.

(** A chain grows at its end. *)
Lemma chain_snoc g m m' l c : chain g m l -> cluster g c -> ~ In c l ->
  (forall x, In x l -> x <> last l 0 -> m' x = m x) -> m' (last l 0) = c -> n_fatent g <= m' c ->
  chain g m' (l ++ [c]).
Proof.
  induction l as [|a l IH]; [contradiction|]. intros H Hc NI K E1 E2.
  pose proof (chain_nodup _ _ _ H) as ND. inversion ND as [|? ? NA ND']; subst.
  destruct (chain_next _ _ _ _ H) as [Ha [[-> En]|(b & l' & -> & En & Hb & C)]].
  - cbn in *. auto.
  - change ((a :: b :: l') ++ [m' (last (a :: b :: l') 0)]) with (a :: (b :: l') ++ [m' (last (b :: l') 0)]).
    change (last (a :: b :: l') 0) with (last (b :: l') 0) in *. cbn [app chain]. split; [exact Ha|].
    split.
    + rewrite <- En. apply K; [now left|]. intros ->. apply NA. destruct (exists_last (l := b :: l')) as (x & y & ->); [discriminate|].
      rewrite last_last. apply in_or_app. right. now left.
    + apply IH; auto.
      * intros I. apply NI. now right.
      * intros x I Nx. apply K; [now right | exact Nx].
Qed.

Lemma zseq_in a n x : In x (zseq a n) <-> a <= x < a + Z.max 0 n.
Proof.
  unfold zseq. rewrite in_map_iff. split.
  - intros (k & <- & Hk). apply in_seq in Hk. lia.
  - intros H. exists (Z.to_nat (x - a)). split; [lia|]. apply in_seq. lia.
Qed.

Lemma zseq_length a n : length (zseq a n) = Z.to_nat n.
Proof. unfold zseq. now rewrite length_map, length_seq. Qed.

Lemma chain_length g m l : chain g m l -> Z.of_nat (length l) <= n_fatent g - 2.
Proof.
  intros H. pose proof (chain_nodup g m l H) as ND.
  assert (incl l (zseq 2 (n_fatent g - 2))) as I.
  { intros c Hc. apply (chain_clusters g m l H) in Hc. unfold cluster in Hc. apply zseq_in. lia. }
  pose proof (NoDup_incl_length ND I) as L. rewrite zseq_length in L.
  destruct l; [contradiction|]. cbn in L. destruct H as [H _]. unfold cluster in H. cbn [length] in *. lia.
Qed.

(** From [s] to [s'] the table became [m]; the other sectors that matter and the
    hint for the next search stayed. *)
Record reaches (m : Z -> Z) (s s' : vol) : Prop := {
  re_layout : lay s' = lay s;
  re_table : forall c, cluster (lay s) c -> fat_entry s' c = m c;
  re_rest : forall n, visible (lay s) n -> ~ (fatbase (lay s) <= n < fatbase (lay s) + fsize (lay s)) ->
            view s' n = view s n;
  re_calls : (calls s <= calls s')%nat;
  re_last : last_clst (fs s') = last_clst (fs s);
  re_stays : stays s s'
}.

Lemma updates_reaches m s s' : updates m s s' -> reaches m s s'.
Proof. intros [L T R C A F I W]. constructor; auto. Qed.

Lemma reaches_trans m1 m2 s s1 s2 : reaches m1 s s1 -> reaches m2 s1 s2 -> reaches m2 s s2.
Proof.
  intros [L1 T1 R1 C1 A1 W1] [L2 T2 R2 C2 A2 W2]. pose proof (stays_trans _ _ _ L1 W1 W2). rewrite L1 in *. constructor; try congruence; try lia; auto.
  intros n Hn Ht. rewrite R2 by assumption. auto.
Qed.

Lemma reaches_ext m m' s s' : reaches m s s' -> (forall c, cluster (lay s) c -> m c = m' c) -> reaches m' s s'.
Proof. intros [L T R C A W] E. constructor; auto. intros c Hc. rewrite T by exact Hc. auto. Qed.

(** The count of free clusters after one more is given back. *)
Definition bump (g : Layout) (n : Z) : Z := if n <? n_fatent g - 2 then n + 1 else n.

Lemma count_freed m s s1 : vol_ok s1 -> updates m s s1 ->
  wp (f <- gets fs ;;
      when (free_clst f <? u32 (n_fatent (lay s) - 2))
        (upd_fs (set_free_clst (u32 (free_clst f + 1))) ;; mark_fsinfo))
     (fun _ s2 => vol_ok s2 /\ reaches m s s2 /\ free_clst (fs s2) = bump (lay s) (free_clst (fs s))) s1.
Proof.
  intros V1 U. pose proof (n_fatent_range _ (vo_layout s1 V1)) as N. destruct (updates_reaches _ _ _ U) as [L T R C A W].
  rewrite L in N. pose proof (vo_free s1 V1) as HF. unfold in_u in HF. unfold mark_fsinfo, upd_fs, bump.
  wp_norm. rewrite (up_free _ _ _ U) in *.
  assert (u32 (n_fatent (lay s) - 2) = n_fatent (lay s) - 2) as -> by (apply uwrap_small; in_range).
  apply wp_when; intros E; rewrite E; wp_norm; cbn [fs].
  - apply Z.ltb_lt in E. assert (u32 (free_clst (fs s) + 1) = free_clst (fs s) + 1) as Eu by (apply uwrap_small; in_range).
    split; [destruct V1; constructor; auto; cbn; rewrite Eu; in_range|]. split; [|cbn; exact Eu]. constructor; auto.
  - split; [exact V1|]. split; [constructor; auto | now apply U].
Qed.

Lemma entry_of_0 t : entry_of t 0 = 0.
Proof. apply Zmod_0_l. Qed.

(** One turn of the loop on a cluster in use. *)
Lemma remove_step_wp obj c scl ecl s : vol_ok s -> fs_type (lay s) <> FS_EXFAT -> cluster (lay s) c ->
  2 <= fat_entry s c ->
  wp (remove_step obj (lay s) (c, scl, ecl)) (fun r s2 => vol_ok s2 /\
    ((exists scl' ecl', r = if fat_entry s c <? n_fatent (lay s) then inl (fat_entry s c, scl', ecl') else inr None) /\
       reaches (fat_set c 0 (fat_entry s)) s s2 /\ free_clst (fs s2) = bump (lay s) (free_clst (fs s)) \/
     r = inr (Some FR_DISK_ERR) /\ failed s s2 /\ exists x, reaches (fat_set c x (fat_entry s)) s s2)) s.
Proof.
  intros V T Hc He. unfold remove_step. apply wp_bind. wp_use get_fat_wp; auto.
  intros v s1 (V1 & S1 & Ev). rewrite fat_value_entry in Ev by exact Hc. pose proof (fat_entry_range s c V) as RG.
  pose proof (same_updates s s1 V S1) as U1. pose proof (up_layout _ _ _ U1) as L1.
  destruct Ev as [->|[-> FL]].
  2:{ apply wp_ret. split; [exact V1|]. right. split; [reflexivity|]. split; [exact FL|]. exists (fat_entry s c).
      apply (reaches_ext _ _ _ _ (updates_reaches _ _ _ U1)). intros x _. now rewrite fat_set_same. }
  destruct (Z.eqb_spec (fat_entry s c) 0), (Z.eqb_spec (fat_entry s c) 1); try lia.
  destruct (Z.eqb_spec (fat_entry s c) 0xFFFFFFFF); [lia|].
  rewrite (proj2 (Z.eqb_neq _ _) T). cbn [negb]. apply wp_bind. wp_use put_fat_wp; [exact V1 | now rewrite L1 |].
  rewrite L1. intros r s2 (V2 & [[-> U2]|(-> & FL & x & U2)]); apply (updates_trans _ _ _ _ _ U1) in U2.
  2:{ apply wp_ret. split; [exact V2|]. right. split; [reflexivity|].
      split; [apply (failed_r _ s1); [exact FL | apply U1]|]. exists x. apply updates_reaches.
      apply (updates_ext _ _ _ _ U2). intros y Hy. now apply fat_set_ext, U1. }
  apply wp_assoc, wp_bind. wp_use (count_freed _ s s2 V2 U2). intros _ s3 (V3 & R3 & F3).
  apply wp_bind. destruct (u32 (ecl + 1) =? fat_entry s c); wp_norm.
  all: destruct (Z.ltb_spec (fat_entry s c) (n_fatent (lay s))); apply wp_ret; (split; [exact V3|]); left.
  all: split; [first [exists scl, (fat_entry s c); reflexivity | exists (fat_entry s c), (fat_entry s c); reflexivity]|].
  all: split; [|exact F3]; apply (reaches_ext _ _ _ _ R3); intros y Hy.
  all: rewrite entry_of_0; now apply fat_set_ext, U1.
Qed.

(** The table without the clusters of [l]. *)
Definition freed (l : list Z) (m : Z -> Z) (c : Z) : Z := if in_dec Z.eq_dec c l then 0 else m c.

Lemma freed_cons c l m x : fat_set c 0 (freed l m) x = freed (c :: l) m x.
Proof.
  unfold fat_set, freed. destruct (Z.eqb_spec x c) as [->|N].
  - destruct (in_dec Z.eq_dec c (c :: l)) as [_|X]; [reflexivity|]. destruct X. now left.
  - destruct (in_dec Z.eq_dec x l) as [I|I], (in_dec Z.eq_dec x (c :: l)) as [J|J]; auto.
    + destruct J. now right.
    + destruct J; [now subst | contradiction].
Qed.

Lemma freed_set_cons c l m x : freed l (fat_set c 0 m) x = freed (c :: l) m x.
Proof.
  rewrite <- freed_cons. unfold fat_set, freed. destruct (in_dec Z.eq_dec x l), (x =? c); reflexivity.
Qed.

Fixpoint bumps (g : Layout) (k : nat) (n : Z) : Z :=
  match k with
  | O => n
  | S k' => bumps g k' (bump g n)
  end.

(** What the loop of remove_chain leaves of a chain [l]. *)
Definition removes (l : list Z) (s : vol) (r : option FRESULT) (s' : vol) : Prop :=
  vol_ok s' /\
  (r = None /\ reaches (freed l (fat_entry s)) s s' /\
     free_clst (fs s') = bumps (lay s) (length l) (free_clst (fs s)) \/
   r = Some FR_DISK_ERR /\ failed s s' /\ exists m, reaches m s s' /\
     forall c, cluster (lay s) c -> ~ In c l -> m c = fat_entry s c).

Lemma removes_cons c l s s1 r s2 : reaches (fat_set c 0 (fat_entry s)) s s1 ->
  free_clst (fs s1) = bump (lay s) (free_clst (fs s)) -> removes l s1 r s2 -> removes (c :: l) s r s2.
Proof.
  intros R F (V2 & H). pose proof (re_layout _ _ _ R) as L. rewrite L in H. split; [exact V2|].
  destruct H as [(-> & R2 & F2)|(-> & FL & m & R2 & K)].
  - left. split; [reflexivity|]. split.
    + apply (reaches_trans _ _ _ _ _ R) in R2. apply (reaches_ext _ _ _ _ R2). intros x Hx.
      rewrite <- freed_set_cons. unfold freed. destruct (in_dec Z.eq_dec x l); [reflexivity | now apply R].
    + now rewrite F2, F.
  - right. split; [reflexivity|]. split; [apply (failed_r _ s1); [exact FL | apply R]|].
    exists m. split; [exact (reaches_trans _ _ _ _ _ R R2)|]. intros x Hx NI.
    rewrite K; [|exact Hx | intros X; apply NI; now right]. rewrite (re_table _ _ _ R) by exact Hx.
    unfold fat_set. destruct (Z.eqb_spec x c) as [->|]; [|reflexivity]. destruct NI. now left.
Qed.

Lemma remove_loop obj l : forall fuel c scl ecl s, vol_ok s -> fs_type (lay s) <> FS_EXFAT ->
  chain (lay s) (fat_entry s) (c :: l) -> (length l < fuel)%nat ->
  wp (iter fuel (remove_step obj (lay s)) (c, scl, ecl)) (removes (c :: l) s) s.
Proof.
  induction l as [|c' l IH]; intros fuel c scl ecl s V T H Hf; (destruct fuel as [|fuel]; [cbn in Hf; lia|]);
    pose proof (chain_next _ _ _ _ H) as [Hc Hn]; cbn [iter]; apply wp_bind;
    (wp_use remove_step_wp; [exact V | exact T | exact Hc | destruct Hn as [[_ Hn]|(x & y & _ & -> & X & _)];
      [pose proof (n_fatent_range _ (vo_layout s V)); lia | apply X] |]).
  - intros r s1 (V1 & [((scl' & ecl' & ->) & R & E)|(-> & FL & x & R)]).
    + destruct Hn as [[_ Hn]|(x & y & ? & _)]; [|discriminate].
      rewrite (proj2 (Z.ltb_ge _ _)) by exact Hn. apply wp_ret. split; [exact V1|]. left. split; [reflexivity|].
      split; [|exact E]. apply (reaches_ext _ _ _ _ R). intros y _. apply (freed_cons c []).
    + apply wp_ret. split; [exact V1|]. right. split; [reflexivity|]. split; [exact FL|]. eexists. split; [exact R|].
      intros y Hy NI. unfold fat_set. destruct (Z.eqb_spec y c) as [->|]; [|reflexivity]. destruct NI. now left.
  - intros r s1 (V1 & [((scl' & ecl' & ->) & R & E)|(-> & FL & x & R)]).
    + destruct Hn as [[? _]|(x & y & [= <- <-] & En & Hx & Ch)]; [discriminate|].
      rewrite En, (proj2 (Z.ltb_lt _ _)) by apply Hx. pose proof (re_layout _ _ _ R) as L1. rewrite <- L1.
      eapply wp_conseq; [apply IH; rewrite ?L1; auto; [|cbn in Hf; lia]|].
      * apply (chain_ext _ (fat_entry s)); [|exact Ch]. intros z Hz.
        assert (cluster (lay s) z) as Cz by (now apply (chain_clusters _ _ _ Ch)).
        rewrite (re_table _ _ _ R) by exact Cz. unfold fat_set. destruct (Z.eqb_spec z c) as [->|]; [|reflexivity].
        pose proof (chain_nodup _ _ _ H) as ND. inversion ND; contradiction.
      * intros r s2 H2. now apply (removes_cons c (c' :: l) s s1).
    + apply wp_ret. split; [exact V1|]. right. split; [reflexivity|]. split; [exact FL|]. eexists. split; [exact R|].
      intros y Hy NI. unfold fat_set. destruct (Z.eqb_spec y c) as [->|]; [|reflexivity]. destruct NI. now left.
Qed.

Lemma bumps_value g k n :
  bumps g k n = if n <=? n_fatent g - 2 then Z.min (n_fatent g - 2) (n + Z.of_nat k) else n.
Proof.
  revert n. induction k as [|k IH]; intros n; cbn [bumps]; [|rewrite IH; unfold bump];
    repeat match goal with
           | |- context [?a <? ?b] => destruct (Z.ltb_spec a b)
           | |- context [?a <=? ?b] => destruct (Z.leb_spec a b)
           end; lia.
Qed.

(** The table after the chain has been cut behind [pclst] (0: nothing to cut). *)
Definition cut (g : Layout) (pclst : Z) (m : Z -> Z) : Z -> Z :=
  if pclst =? 0 then m else fat_set pclst (EOC g) m.

Lemma remove_chain_wp obj clst l pclst s : vol_ok s -> fs_type (lay s) <> FS_EXFAT ->
  chain (lay s) (fat_entry s) (clst :: l) ->
  pclst = 0 \/ cluster (lay s) pclst /\ ~ In pclst (clst :: l) ->
  wp (remove_chain obj clst pclst) (fun r s' => snd r = obj /\ vol_ok s' /\
    (fst r = FR_OK /\ reaches (freed (clst :: l) (cut (lay s) pclst (fat_entry s))) s s' /\
       free_clst (fs s') = bumps (lay s) (length (clst :: l)) (free_clst (fs s)) \/
     fst r = FR_DISK_ERR /\ failed s s' /\ exists m, reaches m s s' /\
       forall c, cluster (lay s) c -> ~ In c (clst :: l) -> c <> pclst -> m c = fat_entry s c)) s.
Proof.
  intros V T H Hp. pose proof (chain_next _ _ _ _ H) as [Hc _]. pose proof (chain_length _ _ _ H) as HL.
  unfold remove_chain. apply wp_bind, wp_gets. rewrite out_of_range, (proj2 (clusterb_spec _ _) Hc). cbn [negb].
  rewrite (proj2 (Z.eqb_neq _ _) T). cbn [negb orb andb]. rewrite andb_true_r. apply wp_bind.
  apply (wp_conseq _ (fun r s1 => vol_ok s1 /\
    (r = FR_OK /\ updates (cut (lay s) pclst (fat_entry s)) s s1 \/
     r = FR_DISK_ERR /\ failed s s1 /\ exists x, updates (fat_set pclst x (fat_entry s)) s s1))).
  { unfold cut. destruct (Z.eqb_spec pclst 0) as [->|NZ]; cbn [negb].
    - apply wp_ret. split; [exact V|]. left. split; [reflexivity|]. apply same_updates; [exact V | reflexivity].
    - destruct Hp as [->|[Hp _]]; [lia|]. now apply put_fat_wp. }
  intros r s1 (V1 & [[-> U]|(-> & FL & x & U)]).
  2:{ apply wp_ret. split; [reflexivity|]. split; [exact V1|]. right. split; [reflexivity|]. split; [exact FL|].
      eexists. split; [apply updates_reaches, U|]. intros c _ _ NE. unfold fat_set.
      destruct (Z.eqb_spec c pclst); [contradiction | reflexivity]. }
  pose proof (up_layout _ _ _ U) as L1. apply wp_bind. rewrite <- L1.
  eapply wp_conseq; [apply (remove_loop obj l); rewrite ?L1; auto|].
  - apply (chain_ext _ (fat_entry s)); [|exact H]. intros c Ic.
    rewrite (up_table _ _ _ U) by (now apply (chain_clusters _ _ _ H)). unfold cut, fat_set.
    destruct (Z.eqb_spec pclst 0); [reflexivity|]. destruct (Z.eqb_spec c pclst) as [->|]; [|reflexivity].
    destruct Hp as [?|[_ Hp]]; [lia | contradiction].
  - cbn [length] in HL. lia.
  - intros r s2 (V2 & [(-> & R & E)|(-> & FL & m & R & K)]); [unfold removed_status; rewrite L1, (proj2 (Z.eqb_neq _ _) T)|];
      apply wp_ret; (split; [reflexivity|]); (split; [exact V2|]); cbn [fst]; rewrite L1 in *.
    + left. split; [reflexivity|]. rewrite (up_free _ _ _ U) in E. split; [|exact E].
      apply (reaches_trans _ _ _ _ _ (updates_reaches _ _ _ U)) in R. apply (reaches_ext _ _ _ _ R).
      intros c Cc. unfold freed. destruct (in_dec Z.eq_dec c (clst :: l)); [reflexivity | now apply U].
    + right. split; [reflexivity|]. split; [apply (failed_r _ s1); [exact FL | apply U]|]. exists m.
      split; [exact (reaches_trans _ _ _ _ _ (updates_reaches _ _ _ U) R)|]. intros c Cc NI NE.
      rewrite K, (up_table _ _ _ U) by assumption. unfold cut, fat_set.
      destruct (Z.eqb_spec pclst 0); [reflexivity|]. destruct (Z.eqb_spec c pclst); [contradiction | reflexivity].
Qed.

End ChainLaws.
