(* ===== verification/FatFree.v ===== *)
(** * ext/fatfs/src/ff.c: the number of free clusters

    f_getfree, which the tree command asks for the size of the card: the count
    that FSInfo or the allocations keep, or one taken over the whole table or,
    on an exFAT volume, over the bitmap. *)

From Stdlib Require Import ZArith Bool List Lia.
From Stdlib Require Import Classes.RelationClasses.
From S2P Require Import Prelude FatVol FatTable FatMount FatBitmap FatAlloc FatChain.
Import ListNotations.
Local Open Scope Z_scope.
Local Open Scope fw_scope.

Section Free.
Context `{D : DiskIo}.

(** FAT12: the entries one by one; [ob] is the object on the stack. *)
Definition free_entries (ob : FFOBJID) (g : Layout) : F (FRESULT * Z) :=
  iter (Z.to_nat (n_fatent g)) (fun x : Z * Z =>
    let (clst, nfree) := x in
    stat <- get_fat ob clst ;;
    if stat =? 0xFFFFFFFF then ret (inr (FR_DISK_ERR, nfree))
    else if stat =? 1 then ret (inr (FR_INT_ERR, nfree))
    else
      let nfree := if stat =? 0 then u32 (nfree + 1) else nfree in
      let clst := u32 (clst + 1) in
      ret (if clst <? n_fatent g then inl (clst, nfree) else inr (FR_OK, nfree))) (2, 0).

(** [if (i == 0) { res = move_window(fs, sect++); if (res != FR_OK) break; }] *)
Definition open_sector (i sect : Z) : F (FRESULT * Z) :=
  if i =? 0 then r <- move_window sect ;; ret (r, u32 (sect + 1)) else ret (FR_OK, sect).

(** FAT16 and FAT32: the words of the table, sector by sector; [clst] entries
    are left. *)
Definition free_words (g : Layout) : F (FRESULT * Z) :=
  iter (Z.to_nat (n_fatent g)) (fun x : Z * Z * Z * Z =>
    let '(clst, sect, i, nfree) := x in
    '(res, sect) <- open_sector i sect ;;
    if negb (fr_ok res) then ret (inr (res, nfree))
    else
      w <- gets (fun s => win (fs s)) ;;
      v <- lift (if fs_type g =? FS_FAT16 then ld_word w i else v <=! ld_dword w i ;; Ok (Z.land v 0x0FFFFFFF)) ;;
      let nfree := if v =? 0 then u32 (nfree + 1) else nfree in
      let i := (i + (if fs_type g =? FS_FAT16 then 2 else 4)) mod SS in
      let clst := u32 (clst - 1) in
      ret (if clst =? 0 then inr (FR_OK, nfree) else inl (clst, sect, i, nfree))) (n_fatent g, fatbase g, 0, 0).

(** exFAT: the bits of one byte that are zero, of at most [clst]. *)
Fixpoint zero_bits (b : nat) (bm clst nfree : Z) : Z * Z :=
  match b with
  | O => (clst, nfree)
  | S b =>
      if clst =? 0 then (clst, nfree)
      else zero_bits b (Z.shiftr bm 1) (u32 (clst - 1)) (if Z.land bm 1 =? 0 then u32 (nfree + 1) else nfree)
  end.

Definition free_bits (g : Layout) : F (FRESULT * Z) :=
  iter (Z.to_nat (n_fatent g)) (fun x : Z * Z * Z * Z =>
    let '(clst, sect, i, nfree) := x in
    '(res, sect) <- open_sector i sect ;;
    if negb (fr_ok res) then ret (inr (res, nfree))
    else
      bm <- win_byte i ;;
      let (clst, nfree) := zero_bits 8 bm clst nfree in
      let i := (i + 1) mod SS in
      ret (if clst =? 0 then inr (FR_OK, nfree) else inl (clst, sect, i, nfree))) (u32 (n_fatent g - 2), database g, 0, 0).

(** f_getfree on a mounted volume: the status and [*nclst]. *)
Definition getfree_vol (ob : FFOBJID) : F (FRESULT * Z) :=
  f <- gets fs ;;
  let g := layout f in
  if free_clst f <=? u32 (n_fatent g - 2) then ret (FR_OK, free_clst f)
  else
    '(res, nfree) <- (if fs_type g =? FS_FAT12 then free_entries ob g
                      else if fs_type g =? FS_EXFAT then free_bits g else free_words g) ;;
    upd_fs (set_free_clst nfree) ;;
    upd_fs (fun f => set_fsi_flag (Z.lor (fsi_flag f) 1) f) ;;
    ret (res, nfree).

(** f_getfree; the number is given when the volume was found. *)
Definition f_getfree (ob : FFOBJID) (path : option (list Z)) : M (FRESULT * option Z) :=
  '(res, _) <- find_volume path 0 ;;
  if fr_ok res then
    '(res, n) <- on_vol (getfree_vol ob) ;;
    ret (res, Some n)
  else ret (res, None).

End Free.

(** ** Counting *)

(** How many of the [n] numbers from [a] on satisfy [p]. *)
Definition count (p : Z -> bool) (a n : Z) : Z := Z.of_nat (length (filter p (zseq a n))).

Lemma count_0 p a : count p a 0 = 0.
Proof. reflexivity. Qed.

Lemma count_next p a n : 0 <= n -> count p a (n + 1) = count p a n + (if p (a + n) then 1 else 0).
Proof.
  intros Hn. unfold count, zseq. replace (Z.to_nat (n + 1)) with (S (Z.to_nat n)) by lia.
  rewrite seq_S, map_app, filter_app, length_app. cbn [map filter]. rewrite Nat.add_0_l, Z2Nat.id by lia.
  destruct (p (a + n)); cbn [length]; lia.
Qed.

Lemma count_range p a n : 0 <= n -> 0 <= count p a n <= n.
Proof.
  intros Hn. unfold count. pose proof (filter_length_le p (zseq a n)) as H. rewrite zseq_length in H. lia.
Qed.

Lemma count_front p a n : 0 < n -> count p a n = (if p a then 1 else 0) + count p (a + 1) (n - 1).
Proof.
  intros Hn. unfold count, zseq. replace (Z.to_nat n) with (S (Z.to_nat (n - 1))) by lia.
  cbn [seq map]. rewrite <- seq_shift, map_map. cbn [filter]. rewrite Z.add_0_r.
  rewrite (map_ext (fun x => a + Z.of_nat (S x)) (fun i => a + 1 + Z.of_nat i)) by (intros; lia).
  destruct (p a); cbn [length]; lia.
Qed.

Lemma count_app p a m n : 0 <= m -> 0 <= n -> count p a (m + n) = count p a m + count p (a + m) n.
Proof.
  intros Hm Hn. revert n Hn. apply natlike_ind; [rewrite Z.add_0_r, count_0; lia|]. intros n Hn IH.
  replace (m + Z.succ n) with (m + n + 1) by lia. change (Z.succ n) with (n + 1).
  rewrite !count_next, IH by lia. replace (a + (m + n)) with (a + m + n) by lia. lia.
Qed.

Lemma count_shift p a d n : count (fun x => p (x + d)) a n = count p (a + d) n.
Proof.
  unfold count, zseq. f_equal. induction (seq 0 (Z.to_nat n)) as [|k l IH]; [reflexivity|]. cbn [map filter].
  replace (a + d + Z.of_nat k) with (a + Z.of_nat k + d) by lia. destruct (p _); cbn [length]; now rewrite IH.
Qed.

Lemma count_ext p q a n : (forall x, a <= x < a + n -> p x = q x) -> count p a n = count q a n.
Proof.
  intros H. unfold count. f_equal. f_equal. apply filter_ext_in. intros x Hx. apply zseq_in in Hx. apply H. lia.
Qed.

Definition is_free (s : vol) (c : Z) : bool :=
  if fs_type (lay s) =? FS_EXFAT then negb (used s (c - 2)) else fat_entry s c =? 0.

(** The clusters that are free. *)
Definition free_clusters (s : vol) : Z := count (is_free s) 2 (n_fatent (lay s) - 2).

(** The first two entries of the table, which are no clusters' entries, are not
    zero: on FAT16 and FAT32 f_getfree counts them too. *)
Definition reserved_set (s : vol) : Prop :=
  fs_type (lay s) = FS_FAT16 \/ fs_type (lay s) = FS_FAT32 -> fat_entry s 0 <> 0 /\ fat_entry s 1 <> 0.

Section FreeLaws.
Context `{D : DiskIo} {DL : DiskLaws D}.

(** What a count over the volume leaves: nothing that is seen changes. *)
Definition counts (s : vol) (total : Z) (x : FRESULT * Z) (s' : vol) : Prop :=
  vol_ok s' /\ same_disk s s' /\ in_u 32 (snd x) /\
  (fst x = FR_OK /\ snd x = total \/ fst x = FR_DISK_ERR /\ failed s s' \/
   fst x = FR_INT_ERR /\ fs_type (lay s) = FS_FAT12 /\ exists c, cluster (lay s) c /\ fat_entry s c = 1).

Lemma free_entries_wp ob s : vol_ok s -> fs_type (lay s) = FS_FAT12 ->
  wp (free_entries ob (lay s)) (counts s (count (fun c => fat_entry s c =? 0) 2 (n_fatent (lay s) - 2))) s.
Proof.
  intros V T. pose proof (n_fatent_range _ (vo_layout s V)) as N. unfold free_entries.
  set (p := fun c => fat_entry s c =? 0). set (n := n_fatent (lay s)) in *.
  apply (wp_iter _ (fun x s1 => vol_ok s1 /\ quiet s s1 /\ cluster (lay s) (fst x) /\ snd x = count p 2 (fst x - 2))
    (fun x _ => Z.to_nat (n - fst x))).
  2:{ split; [exact V|]. split; [reflexivity|]. split; [unfold cluster; cbn; fold n; lia | reflexivity]. }
  2:{ cbn [fst]. lia. }
  intros [c nf] s1 (V1 & S1 & Hc & En). cbn [fst snd] in *. subst nf. pose proof Hc as Hc'. unfold cluster in Hc'. fold n in Hc'.
  pose proof (count_range p 2 (c - 2) ltac:(lia)) as CR.
  apply wp_bind. wp_use (get_fat_after ob c s s1); auto; [rewrite T; discriminate|]. intros v s2 (V2 & S2 & Ev).
  rewrite fat_value_entry in Ev by exact Hc. pose proof (fat_entry_range s c V) as RG.
  destruct Ev as [->|[-> FL]].
  2:{ apply wp_ret. split; [exact V2|]. split; [apply S2|]. split; [cbn; in_range|]. auto. }
  destruct (Z.eqb_spec (fat_entry s c) 0xFFFFFFFF); [lia|].
  destruct (Z.eqb_spec (fat_entry s c) 1) as [E1|N1].
  { apply wp_ret. split; [exact V2|]. split; [apply S2|]. split; [cbn; in_range|]. right. right. eauto. }
  pose proof (count_next p 2 (c - 2) ltac:(lia)) as CN. replace (2 + (c - 2)) with c in CN by lia. unfold p at 3 in CN.
  assert ((if fat_entry s c =? 0 then u32 (count p 2 (c - 2) + 1) else count p 2 (c - 2)) = count p 2 (c - 1)) as ->.
  { replace (c - 1) with (c - 2 + 1) by lia. rewrite CN. destruct (fat_entry s c =? 0); [apply uwrap_small; in_range | lia]. }
  unfold u32. rewrite uwrap_small by in_range. apply wp_ret. fold n. destruct (Z.ltb_spec (c + 1) n) as [L|L].
  - cbn [fst snd]. split; [|lia]. split; [exact V2|]. split; [exact S2|]. split; [unfold cluster; fold n; lia | f_equal; lia].
  - split; [exact V2|]. split; [apply S2|]. cbn [fst snd]. pose proof (count_range p 2 (c - 1) ltac:(lia)). split; [in_range|].
    left. split; [reflexivity | f_equal; lia].
Qed.

(** Coming to byte [k] of an area that starts at sector [base]. *)
Lemma open_sector_wp base k sect s s1 : vol_ok s1 -> same_disk s s1 -> 0 <= k -> 0 <= base -> base + k / SS < 0xFFFFFFFF ->
  sect = base + (k + SS - 1) / SS -> (k mod SS <> 0 -> winsect (fs s1) = base + k / SS) ->
  wp (open_sector (k mod SS) sect) (fun x s2 => vol_ok s2 /\ same_disk s s2 /\
    (fst x = FR_DISK_ERR /\ failed s s2 \/ fst x = FR_OK /\ snd x = base + k / SS + 1 /\ winsect (fs s2) = base + k / SS)) s1.
Proof.
  intros V1 S1 Hk Hb Hs -> W. unfold open_sector, SS in *. pose proof (ev_calls _ _ _ S1) as C1.
  destruct (Z.eqb_spec (k mod 512) 0) as [E|E].
  - replace ((k + 512 - 1) / 512) with (k / 512) by dlia. wp_norm. wp_use move_window_wp; [exact V1 | in_range |].
    intros r s2 (V2 & S2 & R). wp_norm. cbn [fst snd]. split; [exact V2|]. split; [etransitivity; eassumption|].
    destruct R as [(-> & W2 & _)|(-> & FL & _)]; [right | left].
    + unfold u32. rewrite uwrap_small by in_range. auto.
    + split; [reflexivity | now apply (failed_r s s1 s2)].
  - wp_norm. cbn [fst snd]. split; [exact V1|]. split; [exact S1|]. right. split; [reflexivity|]. split; [dlia | auto].
Qed.

Lemma disk_fat_byte s s' k : vol_ok s -> same_disk s s' -> in_table (lay s) k -> fat_byte s' k = fat_byte s k.
Proof.
  intros V S Hk. unfold fat_byte. rewrite (ev_layout _ _ _ S). f_equal. apply (ev_view _ _ _ S), fat_sector_visible; [apply V|].
  now apply table_sector.
Qed.

(** The width of an entry on FAT16 and FAT32, and its value in the window. *)
Definition width (t : Z) : Z := if t =? FS_FAT16 then 2 else 4.

Lemma window_entry s s2 c : vol_ok s -> fs_type (lay s) = FS_FAT16 \/ fs_type (lay s) = FS_FAT32 -> 0 <= c < n_fatent (lay s) ->
  vol_ok s2 -> same_disk s s2 -> let k := width (fs_type (lay s)) * c in winsect (fs s2) = fatbase (lay s) + k / SS ->
  (if fs_type (lay s) =? FS_FAT16 then ld_word (win (fs s2)) (k mod SS)
   else v <=! ld_dword (win (fs s2)) (k mod SS) ;; Ok (Z.land v 0x0FFFFFFF)) = Ok (fat_entry s c).
Proof.
  intros V T Hc V2 S2 k W. pose proof (lo_size _ (vo_layout s V)) as SZ. pose proof (vo_win s2 V2) as [LW BW].
  rewrite <- (ev_layout _ _ _ S2) in W. assert (k = width (fs_type (lay s)) * c) as Ek by reflexivity. clearbody k.
  unfold fat_entry, width in *. destruct T as [T|T]; rewrite T in *; cbn [Z.eqb FS_FAT12 FS_FAT16 FS_FAT32 Pos.eqb fat_bytes] in *;
    cbv delta [fat_bytes] beta in SZ; cbn in SZ.
  - assert (k mod SS + 2 <= SS) as M by (subst k; unfold SS; dlia). rewrite ld_word_ok; [|exact BW | apply Z.mod_pos_bound; reflexivity | now rewrite LW].
    f_equal. rewrite win_le2 by assumption. unfold fat_word. rewrite !(disk_fat_byte s s2) by (auto; unfold in_table, SS in *; subst k; lia). now rewrite Ek.
  - assert (k mod SS + 4 <= SS) as M by (subst k; unfold SS; dlia). rewrite ld_dword_ok; [|exact BW | apply Z.mod_pos_bound; reflexivity | now rewrite LW].
    cbn [rbind]. f_equal. rewrite win_le4 by assumption. change 0x0FFFFFFF with (2 ^ 28 - 1). rewrite land_ones_mod by lia.
    unfold fat_word. rewrite !(disk_fat_byte s s2) by (auto; unfold in_table, SS in *; subst k; lia). now rewrite Ek.
Qed.

Lemma table_sector_small s k : vol_ok s -> in_table (lay s) k -> fatbase (lay s) + k / SS < 0xFFFFFFFF.
Proof. intros V Hk. apply (fat_sector_visible _ _ (vo_layout s V) (table_sector _ _ Hk)). Qed.

Lemma free_words_wp s : vol_ok s -> fs_type (lay s) = FS_FAT16 \/ fs_type (lay s) = FS_FAT32 ->
  wp (free_words (lay s)) (counts s (count (fun c => fat_entry s c =? 0) 0 (n_fatent (lay s)))) s.
Proof.
  intros V T. pose proof (n_fatent_range _ (vo_layout s V)) as N. unfold free_words. fold (width (fs_type (lay s))).
  set (p := fun c => fat_entry s c =? 0). set (n := n_fatent (lay s)) in *. set (w := width (fs_type (lay s))).
  assert (w = 2 \/ w = 4) as Hw by (unfold w, width; destruct T as [-> | ->]; auto).
  assert (n * w <= fsize (lay s) * SS) as SZ.
  { unfold n, w, width. pose proof (lo_size _ (vo_layout s V)) as X. destruct T as [T|T]; rewrite T in *; exact X. }
  pose proof (lo_base _ (vo_layout s V)) as LB.
  apply (wp_iter _ (fun x s1 => let '(cl, sect, i, nf) := x in vol_ok s1 /\ same_disk s s1 /\ exists c, 0 <= c < n /\ cl = n - c /\
      sect = fatbase (lay s) + (w * c + SS - 1) / SS /\ i = (w * c) mod SS /\ nf = count p 0 c /\
      (i <> 0 -> winsect (fs s1) = fatbase (lay s) + w * c / SS))
    (fun x _ => let '(cl, _, _, _) := x in Z.to_nat (cl - 1))).
  2:{ split; [exact V|]. split; [reflexivity|]. exists 0. rewrite Z.mul_0_r. change ((0 + SS - 1) / SS) with 0. repeat split; lia || auto. }
  2:{ lia. }
  intros [[[cl sect] i] nf] s1 (V1 & S1 & c & Hc & -> & Es & -> & -> & W). pose proof (count_range p 0 c ltac:(lia)) as CR.
  assert (in_table (lay s) (w * c)) as IT by (unfold in_table; nia).
  apply wp_bind. wp_use (open_sector_wp (fatbase (lay s)) (w * c) sect s); auto; [nia | lia | now apply table_sector_small |].
  intros [res sc] s2 (V2 & S2 & R). cbn [fst snd] in R. destruct R as [[-> FL]|(-> & -> & W2)]; cbn [fr_ok negb].
  { apply wp_ret. split; [exact V2|]. split; [exact S2|]. split; [cbn; in_range|]. auto. }
  wp_norm. eapply wp_lift; [exact (window_entry s s2 c V T Hc V2 S2 W2)|].
  pose proof (count_next p 0 c ltac:(lia)) as CN. rewrite Z.add_0_l in CN. unfold p at 3 in CN.
  assert ((if fat_entry s c =? 0 then u32 (count p 0 c + 1) else count p 0 c) = count p 0 (c + 1)) as ->.
  { rewrite CN. destruct (fat_entry s c =? 0); [apply uwrap_small; in_range | lia]. }
  unfold u32. rewrite uwrap_small by in_range. apply wp_ret. destruct (Z.eqb_spec (n - c - 1) 0) as [E|E].
  - split; [exact V2|]. split; [exact S2|]. pose proof (count_range p 0 (c + 1) ltac:(lia)). cbn [fst snd]. split; [in_range|].
    left. split; [reflexivity | f_equal; lia].
  - split; [|lia]. split; [exact V2|]. split; [exact S2|]. exists (c + 1). unfold SS in *.
    assert (((w * c) mod 512 + w) mod 512 = (w * (c + 1)) mod 512) as Em by (rewrite Z.add_mod_idemp_l by lia; f_equal; lia).
    split; [lia|]. split; [lia|]. split; [destruct Hw as [-> | ->]; dlia|]. split; [exact Em|]. split; [reflexivity|].
    rewrite Em. intros NZ. rewrite W2. destruct Hw as [-> | ->]; dlia.
Qed.

(** The zero bits of a byte. *)
Lemma zero_bits_ok b : forall bm clst nf, 0 <= clst < 2 ^ 32 -> 0 <= nf -> nf + Z.of_nat b < 2 ^ 32 ->
  let m := Z.min (Z.of_nat b) clst in
  zero_bits b bm clst nf = (clst - m, nf + count (fun j => negb (Z.testbit bm j)) 0 m).
Proof.
  induction b as [|b IH]; intros bm clst nf Hc Hn Hb m; cbn [zero_bits].
  - replace m with 0 by lia. rewrite count_0. f_equal; lia.
  - destruct (Z.eqb_spec clst 0) as [E|E]; [replace m with 0 by lia; rewrite count_0; f_equal; lia|].
    unfold u32 at 1. rewrite uwrap_small by in_range. rewrite land_1, <- Z.bit0_mod.
    assert (0 < m) as Hm by lia. rewrite (count_front _ 0 m Hm), <- (count_shift _ 0 1).
    rewrite (count_ext _ (fun j => negb (Z.testbit (Z.shiftr bm 1) j))) by (intros j Hj; rewrite Z.shiftr_spec by lia; reflexivity).
    assert ((if Z.b2z (Z.testbit bm 0) =? 0 then u32 (nf + 1) else nf) = nf + (if negb (Z.testbit bm 0) then 1 else 0)) as ->
      by (destruct (Z.testbit bm 0); cbn [Z.b2z Z.eqb negb]; [lia | apply uwrap_small; in_range]).
    rewrite IH by (destruct (Z.testbit bm 0); cbn [negb]; lia). replace (Z.min (Z.of_nat b) (clst - 1)) with (m - 1) by lia. f_equal; lia.
Qed.

Lemma free_bits_wp s : vol_ok s -> fs_type (lay s) = FS_EXFAT ->
  wp (free_bits (lay s)) (counts s (count (fun j => negb (used s j)) 0 (n_fatent (lay s) - 2))) s.
Proof.
  intros V T. pose proof (n_fatent_range _ (vo_layout s V)) as N. unfold free_bits.
  set (p := fun j => negb (used s j)). set (n := n_fatent (lay s) - 2) in *. assert (0 < n < 2 ^ 31) as Hn.
  { pose proof (lo_ent _ (vo_layout s V)) as X. rewrite T in X. cbn in X. unfold MAX_EXFAT in X. unfold n. lia. }
  assert (u32 n = n) as -> by (apply uwrap_small; unfold n; in_range). pose proof (layout_order _ (vo_layout s V)) as LB. pose proof (lo_base _ (vo_layout s V)) as LB0.
  apply (wp_iter _ (fun x s1 => let '(cl, sect, i, nf) := x in vol_ok s1 /\ same_disk s s1 /\ exists k, 0 <= 8 * k < n /\ cl = n - 8 * k /\
      sect = database (lay s) + (k + SS - 1) / SS /\ i = k mod SS /\ nf = count p 0 (8 * k) /\
      (i <> 0 -> winsect (fs s1) = database (lay s) + k / SS))
    (fun x _ => let '(cl, _, _, _) := x in Z.to_nat cl)).
  2:{ split; [exact V|]. split; [reflexivity|]. exists 0. change ((0 + SS - 1) / SS) with 0. rewrite count_0. repeat split; lia || auto. }
  2:{ lia. }
  intros [[[cl sect] i] nf] s1 (V1 & S1 & k & Hk & -> & Es & -> & -> & W). pose proof (count_range p 0 (8 * k) ltac:(lia)) as CR.
  assert (bit_sect (lay s) (8 * k) = database (lay s) + k / SS) as EB by (unfold bit_sect; do 2 f_equal; dlia).
  destruct (bit_sect_ok (lay s) (8 * k) (vo_layout s V) ltac:(unfold n_bits; fold n; lia)) as (Vi & _ & Hs). rewrite EB in Vi, Hs.
  apply wp_bind. wp_use (open_sector_wp (database (lay s)) k sect s); auto; [lia | lia | lia |].
  intros [res sc] s2 (V2 & S2 & R). cbn [fst snd] in R. destruct R as [[-> FL]|(-> & -> & W2)]; cbn [fr_ok negb].
  { apply wp_ret. split; [exact V2|]. split; [exact S2|]. split; [cbn [snd]; in_range|]. auto. }
  apply wp_bind. wp_use win_byte_wp; [exact V2 | apply Z.mod_pos_bound; reflexivity |]. intros bm s2' [-> ->].
  rewrite zero_bits_ok by (eval_pow; lia). set (m := Z.min (Z.of_nat 8) (n - 8 * k)).
  assert (count (fun j => negb (Z.testbit (byte_at (win (fs s2)) (k mod SS)) j)) 0 m = count p (0 + 8 * k) m) as ->.
  { rewrite <- count_shift. apply count_ext. intros j Hj. unfold p, used, bit_byte.
    assert ((j + 8 * k) / 8 = k /\ (j + 8 * k) mod 8 = j) as [E1 E2] by dlia. rewrite E2. unfold bit_sect. rewrite E1.
    rewrite <- (ev_view _ _ _ S2) by exact Vi. unfold view. now rewrite <- W2, Z.eqb_refl. }
  rewrite <- count_app by lia. pose proof (count_range p 0 (8 * k + m) ltac:(lia)) as CR2. apply wp_ret.
  destruct (Z.eqb_spec (n - 8 * k - m) 0) as [E|E].
  - split; [exact V2|]. split; [exact S2|]. cbn [fst snd]. split; [in_range|]. left. split; [reflexivity | f_equal; lia].
  - split; [|lia]. split; [exact V2|]. split; [exact S2|]. exists (k + 1). unfold SS in *.
    assert ((k mod 512 + 1) mod 512 = (k + 1) mod 512) as Em by (rewrite Z.add_mod_idemp_l by lia; reflexivity).
    split; [lia|]. split; [lia|]. split; [dlia|]. split; [exact Em|]. split; [f_equal; lia|].
    rewrite Em. intros NZ. rewrite W2. dlia.
Qed.

(** f_getfree on a mounted volume: a valid count is returned as it is; otherwise
    the free clusters are counted and the count is kept, whatever the outcome. *)
Lemma getfree_wp ob s : vol_ok s -> reserved_set s ->
  wp (getfree_vol ob) (fun x s' => vol_ok s' /\ lay s' = lay s /\ (forall n, visible (lay s) n -> view s' n = view s n) /\
    free_clst (fs s') = snd x /\
    (fst x = FR_OK /\ snd x = (if free_clst (fs s) <=? n_fatent (lay s) - 2 then free_clst (fs s) else free_clusters s) \/
     fst x = FR_DISK_ERR /\ failed s s' \/
     fst x = FR_INT_ERR /\ fs_type (lay s) = FS_FAT12 /\ exists c, cluster (lay s) c /\ fat_entry s c = 1)) s.
Proof.
  intros V RS. pose proof (n_fatent_range _ (vo_layout s V)) as N. unfold getfree_vol. wp_norm.
  unfold u32. rewrite uwrap_small by in_range. destruct (Z.leb_spec (free_clst (fs s)) (n_fatent (lay s) - 2)) as [L|L].
  { wp_norm. cbn [fst snd]. auto 10. }
  wp_norm. apply (wp_conseq _ (counts s (free_clusters s))).
  - unfold free_clusters, is_free. destruct (Z.eqb_spec (fs_type (lay s)) FS_FAT12) as [T|T].
    + rewrite (proj2 (Z.eqb_neq (fs_type (lay s)) FS_EXFAT)) by (rewrite T; discriminate). now apply free_entries_wp.
    + destruct (Z.eqb_spec (fs_type (lay s)) FS_EXFAT) as [T4|T4].
      * rewrite (count_shift (fun j => negb (used s j)) 2 (-2)). now apply free_bits_wp.
      * assert (fs_type (lay s) = FS_FAT16 \/ fs_type (lay s) = FS_FAT32) as T23
          by (pose proof (lo_type _ (vo_layout s V)); unfold FS_FAT12, FS_FAT16, FS_FAT32, FS_EXFAT in *; lia).
        destruct (RS T23) as [R0 R1]. set (p := fun c => fat_entry s c =? 0).
        replace (count p 2 (n_fatent (lay s) - 2)) with (count p 0 (n_fatent (lay s))); [now apply free_words_wp|].
        replace (n_fatent (lay s)) with (2 + (n_fatent (lay s) - 2)) at 1 by lia. rewrite count_app by lia.
        change (count p 0 2) with (count p 0 (0 + 1 + 1)). rewrite !count_next, count_0 by lia. unfold p at 1 2. cbn [Z.add].
        now rewrite (proj2 (Z.eqb_neq _ _) R0), (proj2 (Z.eqb_neq _ _) R1).
  - intros [res nf] s1 (V1 & S1 & Rn & R). cbn [fst snd] in *. unfold upd_fs. wp_norm. cbn [fst snd].
    split; [destruct V1; constructor; auto|]. split; [apply S1|]. split; [apply S1|]. split; [reflexivity|]. exact R.
Qed.

End FreeLaws.
