(* ===== verification/FatFile.v ===== *)
(** * ext/fatfs/src/ff.c: reading and writing an open file

    f_write, f_read, f_sync (on a FAT volume) and f_close on the file object FIL
    with its private one-sector buffer.  Whole sectors are transferred directly
    between the card and the caller's memory, parts of a sector through the
    buffer, which is written back when it is left or synchronised. *)

From Stdlib Require Import ZArith Bool List Lia.
From S2P Require Import Prelude FatVol FatTable FatBitmap FatChain.
Import ListNotations.
Local Open Scope Z_scope.
Local Open Scope fw_scope.

Definition FA_READ : Z := 0x01.

Definition FA_WRITE : Z := 0x02.

Definition FA_MODIFIED : Z := 0x40.

Definition FA_DIRTY : Z := 0x80.

(** The file object; [dir_ofs] is the offset of [dir_ptr] in the window. *)
Record FIL : Type := mkFIL {
  obj : FFOBJID;
  flag : Z;
  err : FRESULT;
  fptr : Z;
  clust : Z;
  sect : Z;
  dir_sect : Z;
  dir_ofs : Z;
  buf : list Z
}.

Definition set_obj (x : FFOBJID) (f : FIL) : FIL :=
  mkFIL x (flag f) (err f) (fptr f) (clust f) (sect f) (dir_sect f) (dir_ofs f) (buf f).

Definition set_flag (x : Z) (f : FIL) : FIL :=
  mkFIL (obj f) x (err f) (fptr f) (clust f) (sect f) (dir_sect f) (dir_ofs f) (buf f).

Definition set_err (x : FRESULT) (f : FIL) : FIL :=
  mkFIL (obj f) (flag f) x (fptr f) (clust f) (sect f) (dir_sect f) (dir_ofs f) (buf f).

Definition set_fptr (x : Z) (f : FIL) : FIL :=
  mkFIL (obj f) (flag f) (err f) x (clust f) (sect f) (dir_sect f) (dir_ofs f) (buf f).

Definition set_clust (x : Z) (f : FIL) : FIL :=
  mkFIL (obj f) (flag f) (err f) (fptr f) x (sect f) (dir_sect f) (dir_ofs f) (buf f).

Definition set_sect (x : Z) (f : FIL) : FIL :=
  mkFIL (obj f) (flag f) (err f) (fptr f) (clust f) x (dir_sect f) (dir_ofs f) (buf f).

Definition set_buf (x : list Z) (f : FIL) : FIL :=
  mkFIL (obj f) (flag f) (err f) (fptr f) (clust f) (sect f) (dir_sect f) (dir_ofs f) x.

(** [fp->flag & b], [fp->flag |= b], [fp->flag &= (BYTE)~b]. *)
Definition has (b : Z) (f : FIL) : bool := negb (Z.land (flag f) b =? 0).

Definition raise (b : Z) (f : FIL) : FIL := set_flag (Z.lor (flag f) b) f.

Definition clear (b : Z) (f : FIL) : FIL := set_flag (Z.land (flag f) (255 - b)) f.

(** [mem_cpy(dst + o, src, cnt)]. *)
Definition mem_cpy (dst : list Z) (o : Z) (src : list Z) (cnt : Z) : result (list Z) :=
  if (0 <=? o) && (0 <=? cnt) && (o + cnt <=? Z.of_nat (length dst)) && (cnt <=? Z.of_nat (length src))
  then Ok (slice dst 0 o ++ slice src 0 cnt ++ skipn (Z.to_nat (o + cnt)) dst)
  else Err OutOfBounds.

(** How a turn of the transfer loops leaves the loop: [None], [break]; [Some r],
    return [r]. *)
Definition leaves : Type := option FRESULT * FIL.

Section File.
Context `{D : DiskIo}.

Definition validate (o : FFOBJID) : F FRESULT :=
  g <- gets (fun s => layout (fs s)) ;;
  if o_fs o && negb (fs_type g =? 0) && (o_id o =? fsid g) then
    ok <- disk_status ;;
    ret (if ok then FR_OK else FR_INVALID_OBJECT)
  else ret FR_INVALID_OBJECT.

(** [ABORT(fs, res)]. *)
Definition abort {A} (r : FRESULT) (fp : FIL) : F (A + leaves) := ret (inr (Some r, set_err r fp)).

(** Write the buffer back if it is dirty; [None], the write failed. *)
Definition write_back (fp : FIL) : F (option FIL) :=
  if has FA_DIRTY fp then
    ok <- disk_write (buf fp) (sect fp) 1 ;;
    ret (if ok then Some (clear FA_DIRTY fp) else None)
  else ret (Some fp).

(** The same in f_read and f_write, where a failure is an [ABORT]. *)
Definition flush_buf (fp : FIL) : F (FIL + leaves) :=
  r <- write_back fp ;;
  match r with
  | Some fp => ret (inl fp)
  | None => abort FR_DISK_ERR fp
  end.

(** The cluster [clst] for the next byte: 0, the volume is full; 1 or 0xFFFFFFFF,
    an error; otherwise it becomes the current cluster. *)
Definition take_cluster (fp : FIL) (clst : Z) : F (FIL + leaves) :=
  if clst =? 0 then ret (inr (None, fp))
  else if clst =? 1 then abort FR_INT_ERR fp
  else if clst =? 0xFFFFFFFF then abort FR_DISK_ERR fp
  else
    let fp := set_clust clst fp in
    ret (inl (if sclust (obj fp) =? 0 then set_obj (set_sclust clst (obj fp)) fp else fp)).

(** f_write on a cluster boundary: the cluster of the next byte. *)
Definition write_cluster (fp : FIL) : F (FIL + leaves) :=
  if (fptr fp =? 0) && negb (sclust (obj fp) =? 0) then take_cluster fp (sclust (obj fp))
  else
    '(c, o) <- create_chain (obj fp) (if fptr fp =? 0 then 0 else clust fp) ;;
    take_cluster (set_obj o fp) c.

(** The transfer of f_write at sector [sc], number [csect] of its cluster.
    [inl (fp, n)]: [n] bytes were transferred directly; 0, the buffer holds the
    sector. *)
Definition write_transfer (g : Layout) (fp : FIL) (wbuff : list Z) (btw csect sc : Z) : F (FIL * Z + leaves) :=
  let cc := btw / SS in
  if 0 <? cc then
    let cc := if csize g <? u32 (csect + cc) then csize g - csect else cc in
    ok <- disk_write wbuff sc cc ;;
    if negb ok then abort FR_DISK_ERR fp
    else
      fp <- (if u32 (sect fp - sc) <? cc then
               b <- lift (mem_cpy (buf fp) 0 (skipn (Z.to_nat (u32 (sect fp - sc) * SS)) wbuff) SS) ;;
               ret (clear FA_DIRTY (set_buf b fp))
             else ret fp) ;;
      ret (inl (fp, SS * cc))
  else
    r <- (if negb (sect fp =? sc) && (fptr fp <? objsize (obj fp)) then
            '(ok, b) <- disk_read sc 1 ;;
            let fp := set_buf b fp in
            if ok then ret (inl fp) else abort FR_DISK_ERR fp
          else ret (inl fp)) ;;
    match r with
    | inr l => ret (inr l)
    | inl fp => ret (inl (set_sect sc fp, 0))
    end.

(** f_write on a sector boundary. *)
Definition write_sector (fp : FIL) (wbuff : list Z) (btw : Z) : F (FIL * Z + leaves) :=
  g <- gets (fun s => layout (fs s)) ;;
  let csect := Z.land (u32 (fptr fp / SS)) (csize g - 1) in
  r <- (if csect =? 0 then write_cluster fp else ret (inl fp)) ;;
  match r with
  | inr l => ret (inr l)
  | inl fp =>
      r <- flush_buf fp ;;
      match r with
      | inr l => ret (inr l)
      | inl fp =>
          sc <- clst2sect (clust fp) ;;
          if sc =? 0 then abort FR_INT_ERR fp
          else write_transfer g fp wbuff btw csect (u32 (sc + csect))
      end
  end.

(** [fp->fptr += wcnt] with the size that goes with it. *)
Definition advance (wcnt : Z) (fp : FIL) : FIL :=
  let fp := set_fptr (u64 (fptr fp + wcnt)) fp in
  if objsize (obj fp) <? fptr fp then set_obj (set_objsize (fptr fp) (obj fp)) fp else fp.

(** One turn of the loop of f_write on [fp], [wbuff], [btw], [bw]. *)
Definition write_turn (x : FIL * list Z * Z * Z) : F (FIL * list Z * Z * Z + (leaves * Z)) :=
  let '(fp, wbuff, btw, bw) := x in
  if btw =? 0 then ret (inr ((None, fp), bw))
  else
    r <- (if fptr fp mod SS =? 0 then write_sector fp wbuff btw else ret (inl (fp, 0))) ;;
    match r with
    | inr l => ret (inr (l, bw))
    | inl (fp, direct) =>
        '(fp, wcnt) <-
          (if direct =? 0 then
             let wcnt := SS - u32 (fptr fp) mod SS in
             let wcnt := if btw <? wcnt then btw else wcnt in
             b <- lift (mem_cpy (buf fp) (fptr fp mod SS) wbuff wcnt) ;;
             ret (raise FA_DIRTY (set_buf b fp), wcnt)
           else ret (fp, direct)) ;;
        ret (inl (advance wcnt fp, skipn (Z.to_nat wcnt) wbuff, btw - wcnt, bw + wcnt))
    end.

(** f_write: the status, [*bw] and the file object. *)
Definition f_write (fp : FIL) (buff : list Z) (btw : Z) : F (FRESULT * Z * FIL) :=
  g <- gets (fun s => layout (fs s)) ;;
  res <- validate (obj fp) ;;
  match res with
  | FR_OK =>
      match err fp with
      | FR_OK =>
          if negb (has FA_WRITE fp) then ret (FR_DENIED, 0, fp)
          else
            let btw := if negb (fs_type g =? FS_EXFAT) && (u32 (fptr fp + btw) <? u32 (fptr fp))
                       then 0xFFFFFFFF - u32 (fptr fp) else btw in
            r <- iter (S (Z.to_nat btw)) write_turn (fp, buff, btw, 0) ;;
            match r with
            | ((Some e, fp), bw) => ret (e, bw, fp)
            | ((None, fp), bw) => ret (FR_OK, bw, raise FA_MODIFIED fp)
            end
      | e => ret (e, 0, fp)
      end
  | e => ret (e, 0, fp)
  end.

(** f_read on a cluster boundary. *)
Definition read_cluster (fp : FIL) : F (FIL + leaves) :=
  clst <- (if fptr fp =? 0 then ret (sclust (obj fp)) else get_fat (obj fp) (clust fp)) ;;
  if clst <? 2 then abort FR_INT_ERR fp
  else if clst =? 0xFFFFFFFF then abort FR_DISK_ERR fp
  else ret (inl (set_clust clst fp)).

(** The transfer of f_read at sector [sc], number [csect] of its cluster.
    [inl (fp, d)]: the bytes [d] were transferred directly; none, the buffer
    holds the sector. *)
Definition read_transfer (g : Layout) (fp : FIL) (btr csect sc : Z) : F (FIL * list Z + leaves) :=
  let cc := btr / SS in
  if 0 <? cc then
    let cc := if csize g <? u32 (csect + cc) then csize g - csect else cc in
    '(ok, d) <- disk_read sc cc ;;
    if negb ok then abort FR_DISK_ERR fp
    else
      d <- (if has FA_DIRTY fp && (u32 (sect fp - sc) <? cc)
            then lift (mem_cpy d (u32 (sect fp - sc) * SS) (buf fp) SS) else ret d) ;;
      ret (inl (fp, d))
  else
    r <- (if sect fp =? sc then ret (inl fp)
          else
            r <- flush_buf fp ;;
            match r with
            | inr l => ret (inr l)
            | inl fp =>
                '(ok, b) <- disk_read sc 1 ;;
                let fp := set_buf b fp in
                if ok then ret (inl fp) else abort FR_DISK_ERR fp
            end) ;;
    match r with
    | inr l => ret (inr l)
    | inl fp => ret (inl (set_sect sc fp, []))
    end.

(** f_read on a sector boundary. *)
Definition read_sector (fp : FIL) (btr : Z) : F (FIL * list Z + leaves) :=
  g <- gets (fun s => layout (fs s)) ;;
  let csect := u32 (Z.land (fptr fp / SS) (csize g - 1)) in
  r <- (if csect =? 0 then read_cluster fp else ret (inl fp)) ;;
  match r with
  | inr l => ret (inr l)
  | inl fp =>
      sc <- clst2sect (clust fp) ;;
      if sc =? 0 then abort FR_INT_ERR fp
      else read_transfer g fp btr csect (u32 (sc + csect))
  end.

(** One turn of the loop of f_read on [fp], the bytes read so far and [btr]. *)
Definition read_turn (x : FIL * list Z * Z) : F (FIL * list Z * Z + (leaves * list Z)) :=
  let '(fp, acc, btr) := x in
  if btr =? 0 then ret (inr ((None, fp), acc))
  else
    r <- (if fptr fp mod SS =? 0 then read_sector fp btr else ret (inl (fp, []))) ;;
    match r with
    | inr l => ret (inr (l, acc))
    | inl (fp, direct) =>
        d <- (match direct with
              | [] =>
                  let rcnt := SS - u32 (fptr fp) mod SS in
                  let rcnt := if btr <? rcnt then btr else rcnt in
                  lift (mem_cpy (repeat 0 (Z.to_nat rcnt)) 0
                          (skipn (Z.to_nat (fptr fp mod SS)) (buf fp)) rcnt)
              | d => ret d
              end) ;;
        let rcnt := Z.of_nat (length d) in
        ret (inl (set_fptr (u64 (fptr fp + rcnt)) fp, acc ++ d, btr - rcnt))
    end.

(** f_read: the status, the bytes put into the buffer ([*br] is their number)
    and the file object. *)
Definition f_read (fp : FIL) (btr : Z) : F (FRESULT * list Z * FIL) :=
  res <- validate (obj fp) ;;
  match res with
  | FR_OK =>
      match err fp with
      | FR_OK =>
          if negb (has FA_READ fp) then ret (FR_DENIED, [], fp)
          else
            let remain := u64 (objsize (obj fp) - fptr fp) in
            let btr := if remain <? btr then u32 remain else btr in
            r <- iter (S (Z.to_nat btr)) read_turn (fp, [], btr) ;;
            match r with
            | ((Some e, fp), d) => ret (e, d, fp)
            | ((None, fp), d) => ret (FR_OK, d, fp)
            end
      | e => ret (e, [], fp)
      end
  | e => ret (e, [], fp)
  end.

(** GET_FATTIME() with FF_FS_NORTC = 1. *)
Definition GET_FATTIME : Z :=
  Z.lor (Z.lor (Z.shiftl (2017 - 1980) 25) (Z.shiftl 5 21)) (Z.shiftl 1 16).

Definition st_clust (t : Z) (w : list Z) (o cl : Z) : result (list Z) :=
  w <=! st_word w (o + 26) (u16 cl) ;;
  if t =? FS_FAT32 then st_word w (o + 20) (u16 (Z.shiftr cl 16)) else Ok w.

Definition ld_clust (t : Z) (w : list Z) (o : Z) : result Z :=
  lo <=! ld_word w (o + 26) ;;
  if t =? FS_FAT32 then hi <=! ld_word w (o + 20) ;; Ok (Z.lor lo (u32 (Z.shiftl hi 16)))
  else Ok lo.

(** The directory entry at offset [o] of sector [w] after f_sync. *)
Definition sync_entry (t : Z) (w : list Z) (o scl size : Z) : result (list Z) :=
  a <=! array_get w (o + 11) ;;
  w <=! array_set w (o + 11) (Z.lor a 0x20) ;;
  w <=! st_clust t w o scl ;;
  w <=! st_dword w (o + 28) (u32 size) ;;
  w <=! st_dword w (o + 22) GET_FATTIME ;;
  st_word w (o + 18) 0.

(** f_sync on a FAT volume. *)
Definition f_sync_fat (fp : FIL) : F (FRESULT * FIL) :=
  g <- gets (fun s => layout (fs s)) ;;
  res <- validate (obj fp) ;;
  match res with
  | FR_OK =>
      if has FA_MODIFIED fp then
        r <- write_back fp ;;
        match r with
        | None => ret (FR_DISK_ERR, fp)
        | Some fp =>
            res <- move_window (dir_sect fp) ;;
            match res with
            | FR_OK =>
                w <- gets (fun s => win (fs s)) ;;
                w' <- lift (sync_entry (fs_type g) w (dir_ofs fp) (sclust (obj fp)) (objsize (obj fp))) ;;
                put_win w' ;;
                res <- sync_fs ;;
                ret (res, clear FA_MODIFIED fp)
            | e => ret (e, fp)
            end
        end
      else ret (FR_OK, fp)
  | e => ret (e, fp)
  end.

(** f_close on a FAT volume. *)
Definition f_close_fat (fp : FIL) : F (FRESULT * FIL) :=
  '(res, fp) <- f_sync_fat fp ;;
  match res with
  | FR_OK =>
      res <- validate (obj fp) ;;
      match res with
      | FR_OK => ret (FR_OK, set_obj (set_o_fs false (obj fp)) fp)
      | e => ret (e, fp)
      end
  | e => ret (e, fp)
  end.

End File.
