(* ===== verification/FatWrite.v ===== *)
(** * ext/fatfs/src/ff.c: what f_write stores

    The contents of a file are the bytes of the sectors of its cluster chain,
    with the file object's buffer in place of the sector it holds.  This file
    relates the operations of [FatFile] to these contents: f_write replaces
    exactly the bytes from the file pointer on, stretching the chain where it
    has to, and touches no cluster of another file. *)

From Stdlib Require Import ZArith Bool List Lia.
From Stdlib Require Import Classes.RelationClasses.
From S2P Require Import Prelude FatVol FatTable FatBitmap FatChain FatFile.
Import ListNotations.
Local Open Scope Z_scope.
Local Open Scope fw_scope.

(** ** Where the bytes of a file are *)

Definition clust_sect (g : Layout) (c : Z) : Z := database g + csize g * (c - 2).

Definition in_cluster (g : Layout) (c n : Z) : Prop := clust_sect g c <= n < clust_sect g c + csize g.

(** Number of sectors of the chain [l], and its sector number [k]. *)
Definition room (g : Layout) (l : list Z) : Z := Z.of_nat (length l) * csize g.

Definition nth_clust (l : list Z) (q : Z) : Z := nth (Z.to_nat q) l 0.

Definition file_sect (g : Layout) (l : list Z) (k : Z) : Z :=
  clust_sect g (nth_clust l (k / csize g)) + k mod csize g.

Definition file_data (s : vol) (fp : FIL) (l : list Z) (i : Z) : Z :=
  let n := file_sect (lay s) l (i / SS) in
  byte_at (if n =? sect fp then buf fp else card s n) (i mod SS).

(** The contents [f] of a file. *)
Definition holds (s : vol) (fp : FIL) (l : list Z) (f : Z -> Z) : Prop :=
  forall i, 0 <= i < objsize (obj fp) -> file_data s fp l i = f i.

(** The bytes [d] in place of those from [o] on. *)
Definition patch (f : Z -> Z) (o : Z) (d : list Z) (i : Z) : Z :=
  if (o <=? i) && (i <? o + Z.of_nat (length d)) then byte_at d (i - o) else f i.

(** ** The file object *)

(** The window shows no sector of the file's clusters or of a free one. *)
Definition win_safe (s : vol) (l : list Z) : Prop :=
  forall c, cluster (lay s) c -> In c l \/ fat_entry s c = 0 -> ~ in_cluster (lay s) c (winsect (fs s)).

(** The chain [l] of the file. *)
Definition file_chain (s : vol) (o : FFOBJID) (l : list Z) : Prop :=
  l = [] /\ sclust o = 0 \/ chain (lay s) (fat_entry s) l /\ nth_clust l 0 = sclust o.

Record file_core (s : vol) (fp : FIL) (l : list Z) : Prop := {
  fc_vol : vol_ok s;
  fc_type : fs_type (lay s) <> FS_EXFAT;
  fc_chain : file_chain s (obj fp) l;
  fc_fptr : 0 <= fptr fp <= objsize (obj fp);
  fc_size : objsize (obj fp) <= room (lay s) l * SS /\ objsize (obj fp) < 2 ^ 32;
  fc_buf : is_sector (buf fp);
  fc_sect : sect fp = 0 /\ has FA_DIRTY fp = false \/
            exists k, 0 <= k < room (lay s) l /\ sect fp = file_sect (lay s) l k;
  fc_win : win_safe s l
}.

(** The buffer agrees with the card unless it is marked dirty. *)
Definition clean (s : vol) (fp : FIL) : Prop :=
  has FA_DIRTY fp = false -> sect fp <> 0 -> buf fp = card s (sect fp).

(** Between two calls: the buffer holds the sector of the file pointer when that
    is inside a sector, [clust] is the cluster of the byte before it. *)
Record file_ok (s : vol) (fp : FIL) (l : list Z) : Prop := {
  fo_core : file_core s fp l;
  fo_clean : clean s fp;
  fo_cur : fptr fp mod SS <> 0 -> sect fp = file_sect (lay s) l (fptr fp / SS);
  fo_clust : 0 < fptr fp -> clust fp = nth_clust l ((fptr fp - 1) / SS / csize (lay s));
  fo_err : err fp = FR_OK
}.

Section Frame.
Context `{D : DiskIo}.

(** What an operation on the file with chain [l] leaves alone: the entries of
    other clusters (that of a free one may be lost to a failed call of the disk
    layer), and every sector outside the table and the file. *)
Record frame (l : list Z) (s s' : vol) : Prop := {
  fr_layout : lay s' = lay s;
  fr_table : forall c, cluster (lay s) c -> ~ In c l ->
             fat_entry s' c = fat_entry s c \/ fat_entry s c = 0 /\ failed s s';
  fr_rest : forall n, visible (lay s) n -> ~ (fatbase (lay s) <= n < fatbase (lay s) + fsize (lay s)) ->
            (forall c, In c l -> ~ in_cluster (lay s) c n) -> view s' n = view s n;
  fr_calls : (calls s <= calls s')%nat
}.

Lemma frame_refl l s : frame l s s.
Proof. constructor; auto. Qed.

Lemma frame_trans l l' s s1 s2 : incl l l' -> frame l s s1 -> frame l' s1 s2 -> frame l' s s2.
Proof.
  intros I [L1 T1 R1 C1] [L2 T2 R2 C2]. rewrite L1 in *. constructor; try congruence; try lia.
  - intros c Hc NI. assert (~ In c l) as NI1 by auto.
    destruct (T1 c Hc NI1) as [E1|[E1 F1]]; [|right; split; [exact E1 | now apply (failed_l _ s1)]].
    destruct (T2 c Hc NI) as [E2|[E2 F2]]; [left; congruence | right; split; [congruence | now apply (failed_r _ s1)]].
  - intros n Hn Ht Ho. rewrite R2 by assumption. auto.
Qed.

Lemma quiet_frame {DL : DiskLaws D} l s s' : vol_ok s -> quiet s s' -> frame l s s'.
Proof.
  intros V Q. pose proof (same_updates s s' V Q) as [L T R C _ _ _ _]. constructor; auto.
Qed.

End Frame.

(** ** The geometry of the clusters *)

Section Geometry.
Context (g : Layout) (LO : layout_ok g).

Lemma cluster_visible c n : cluster g c -> in_cluster g c n ->
  visible g n /\ ~ (fatbase g <= n < fatbase g + fsize g) /\ in_data g n.
Proof.
  intros Hc Hn. pose proof (layout_order g LO) as O. pose proof (csize_pos g LO) as CP.
  pose proof (lo_base g LO) as B. pose proof (lo_data g LO) as DA.
  unfold in_cluster, clust_sect, cluster, visible, in_data in *.
  assert (database g <= n < database g + csize g * (n_fatent g - 2)) by nia.
  repeat split; lia.
Qed.

Lemma clusters_apart c c' n : in_cluster g c n -> in_cluster g c' n -> c = c'.
Proof. unfold in_cluster, clust_sect. pose proof (csize_pos g LO). nia. Qed.

Lemma file_sect_in m l k : chain g m l -> 0 <= k < room g l ->
  cluster g (nth_clust l (k / csize g)) /\ In (nth_clust l (k / csize g)) l /\
  in_cluster g (nth_clust l (k / csize g)) (file_sect g l k).
Proof.
  intros C Hk. pose proof (csize_pos g LO) as CP. unfold room in Hk.
  assert (0 <= k / csize g < Z.of_nat (length l)) as Q.
  { split; [apply Z.div_pos; lia|]. apply Z.div_lt_upper_bound; lia. }
  assert (In (nth_clust l (k / csize g)) l) as I by (apply nth_In; lia).
  split; [now apply (chain_clusters g m l C)|]. split; [exact I|].
  unfold in_cluster, file_sect. pose proof (Z.mod_pos_bound k (csize g)). lia.
Qed.

Lemma file_sect_inj m l k k' : chain g m l -> 0 <= k < room g l -> 0 <= k' < room g l ->
  file_sect g l k = file_sect g l k' -> k = k'.
Proof.
  intros C H1 H2 E. pose proof (csize_pos g LO) as CP.
  destruct (file_sect_in m l k C H1) as (_ & _ & I1). destruct (file_sect_in m l k' C H2) as (_ & _ & I2).
  rewrite E in I1. pose proof (clusters_apart _ _ _ I1 I2) as Ec. unfold file_sect in E. rewrite Ec in E.
  assert (k / csize g = k' / csize g) as Eq.
  { unfold room in *. unfold nth_clust in Ec.
    assert (0 <= k / csize g /\ k / csize g < Z.of_nat (length l)) by (split; [apply Z.div_pos | apply Z.div_lt_upper_bound]; lia).
    assert (0 <= k' / csize g /\ k' / csize g < Z.of_nat (length l)) by (split; [apply Z.div_pos | apply Z.div_lt_upper_bound]; lia).
    apply (proj1 (NoDup_nth l 0) (chain_nodup g m l C)) in Ec; lia. }
  rewrite (Z.div_mod k (csize g)), (Z.div_mod k' (csize g)) by lia. lia.
Qed.

Lemma file_sect_pos m l k : chain g m l -> 0 <= k < room g l -> 0 < file_sect g l k < 0xFFFFFFFF.
Proof.
  intros C Hk. destruct (file_sect_in m l k C Hk) as (Hc & _ & I).
  destruct (cluster_visible _ _ Hc I) as ((V & _) & _ & D). unfold in_data in D.
  pose proof (layout_order g LO). pose proof (lo_base g LO). lia.
Qed.

(** Sectors of one cluster are neighbours. *)
Lemma file_sect_next l k i : 0 <= k -> 0 <= i -> k mod csize g + i < csize g ->
  file_sect g l (k + i) = file_sect g l k + i.
Proof.
  intros Hk Hi H. pose proof (csize_pos g LO). pose proof (Z.mod_pos_bound k (csize g)).
  unfold file_sect. replace ((k + i) / csize g) with (k / csize g).
  - replace ((k + i) mod csize g) with (k mod csize g + i); [lia|].
    apply (Z.mod_unique_pos _ _ (k / csize g)); [lia|]. rewrite (Z.div_mod k (csize g)) at 1 by lia. lia.
  - apply (Z.div_unique_pos _ _ _ (k mod csize g + i)); [lia|]. rewrite (Z.div_mod k (csize g)) at 1 by lia. lia.
Qed.

(** The sectors [k] to [k + cc - 1] of the file, all of one cluster, on the card. *)
Lemma sect_range m l k cc j : chain g m l -> 0 <= k -> k mod csize g + cc <= csize g -> k + cc <= room g l ->
  0 <= j < room g l ->
  (file_sect g l k <=? file_sect g l j) && (file_sect g l j <? file_sect g l k + cc) = (k <=? j) && (j <? k + cc).
Proof.
  intros Ch Hk Hm HR Hj.
  assert (forall x, 0 <= x < cc -> file_sect g l (k + x) = file_sect g l k + x) as NX
    by (intros x Hx; apply file_sect_next; auto; lia).
  destruct (Z.leb_spec (file_sect g l k) (file_sect g l j)), (Z.ltb_spec (file_sect g l j) (file_sect g l k + cc)); cbn [andb].
  1:{ assert (k + (file_sect g l j - file_sect g l k) = j).
      { apply (file_sect_inj m l); auto; [lia|]. rewrite NX by lia. lia. }
      symmetry. apply andb_true_iff. rewrite Z.leb_le, Z.ltb_lt. lia. }
  all: destruct (Z.leb_spec k j), (Z.ltb_spec j (k + cc)); cbn [andb]; auto; exfalso.
  all: pose proof (NX (j - k) ltac:(lia)) as E; replace (k + (j - k)) with j in E by lia; lia.
Qed.

Lemma cluster_room l k cc : 0 <= k < room g l -> k mod csize g + cc <= csize g -> k + cc <= room g l.
Proof.
  intros Hk Hc. pose proof (csize_pos g LO). unfold room in *.
  assert (k / csize g < Z.of_nat (length l)) by (apply Z.div_lt_upper_bound; lia).
  rewrite (Z.div_mod k (csize g)) at 1 by lia. nia.
Qed.

(** Stretching the chain moves no sector of the file. *)
Lemma file_sect_app l l' k : 0 <= k < room g l -> file_sect g (l ++ l') k = file_sect g l k.
Proof.
  intros H. pose proof (csize_pos g LO). unfold file_sect, nth_clust, room in *. rewrite app_nth1; [reflexivity|].
  assert (0 <= k / csize g) by (apply Z.div_pos; lia).
  assert (k / csize g < Z.of_nat (length l)) by (apply Z.div_lt_upper_bound; lia). lia.
Qed.

Lemma land_csize x : 0 <= x -> Z.land x (csize g - 1) = x mod csize g.
Proof. intros H. destruct (lo_csize g LO) as (k & Hk & ->). apply land_ones_mod. lia. Qed.

End Geometry.

Section FileLaws.
Context `{D : DiskIo} {DL : DiskLaws D}.

(** ** Writing sectors of the file *)

Lemma bytes_firstn n l : bytes l -> bytes (firstn n l).
Proof. intros H. rewrite <- (firstn_skipn n l) in H. now apply Forall_app in H. Qed.

Lemma bytes_skipn n l : bytes l -> bytes (skipn n l).
Proof. intros H. rewrite <- (firstn_skipn n l) in H. now apply Forall_app in H. Qed.

Lemma slice_sector b o : bytes b -> 0 <= o -> o + SS <= Z.of_nat (length b) -> is_sector (slice b o SS).
Proof.
  intros B Ho H. unfold slice, is_sector, SS in *. split.
  - rewrite length_firstn, length_skipn. lia.
  - now apply bytes_firstn, bytes_skipn.
Qed.

Lemma slice_length b n : 0 <= n <= Z.of_nat (length b) -> Z.of_nat (length (slice b 0 n)) = n.
Proof. intros H. unfold slice. change (Z.to_nat 0) with O. cbn [skipn]. rewrite length_firstn. lia. Qed.

Lemma slice_byte b o n i : 0 <= o -> 0 <= i < n -> o + n <= Z.of_nat (length b) ->
  byte_at (slice b o n) i = byte_at b (o + i).
Proof.
  intros Ho Hi H. unfold byte_at, slice. rewrite nth_firstn.
  destruct (Nat.ltb_spec (Z.to_nat i) (Z.to_nat n)); [|lia]. rewrite nth_skipn. f_equal. lia.
Qed.

(** The table lies outside the clusters. *)
Lemma table_not_data g c k : layout_ok g -> cluster g c -> in_table g k -> ~ in_cluster g c (fatbase g + k / SS).
Proof.
  intros LO Hc Hk I. destruct (cluster_visible g LO c _ Hc I) as (_ & N & _).
  pose proof (table_sector g k Hk). lia.
Qed.

(** Nothing changed but sectors of the clusters [l]: not the table, nor any
    other sector that matters. *)
Record data_only (l : list Z) (s s' : vol) : Prop := {
  do_layout : lay s' = lay s;
  do_view : forall m, visible (lay s) m -> (forall c, In c l -> ~ in_cluster (lay s) c m) -> view s' m = view s m;
  do_table : forall c, cluster (lay s) c -> fat_entry s' c = fat_entry s c;
  do_calls : (calls s <= calls s')%nat
}.

#[export] Instance data_only_preorder l : PreOrder (data_only l).
Proof.
  split; [now constructor|]. intros s s1 s2 [L1 K1 T1 C1] [L2 K2 T2 C2]. rewrite L1 in *.
  constructor; [congruence | intros m Hm Ho; now rewrite K2, K1 | intros c Hc; now rewrite T2, T1 | lia].
Qed.

Lemma data_only_frame l s s' : data_only l s s' -> frame l s s'.
Proof. intros [L K T C]. constructor; auto. Qed.

Lemma quiet_data l s s' : vol_ok s -> quiet s s' -> data_only l s s'.
Proof.
  intros V Q. pose proof (same_updates s s' V Q) as U. constructor; [apply Q | intros m Hm _; now apply Q | apply U | apply Q].
Qed.

(** Sectors of clusters of the file, none of them in the window, are replaced. *)
Lemma data_write_wp b n cc c l s : vol_ok s -> win_safe s l -> cluster (lay s) c -> In c l ->
  clust_sect (lay s) c <= n -> n + cc <= clust_sect (lay s) c + csize (lay s) ->
  0 < cc -> bytes b -> cc * SS <= Z.of_nat (length b) ->
  wp (disk_write b n cc) (fun ok s' => vol_ok s' /\ fs s' = fs s /\ data_only l s s' /\
    (ok = false -> failed s s') /\
    (ok = true -> forall m, card s' m =
       if (n <=? m) && (m <? n + cc) then slice b ((m - n) * SS) SS else card s m)) s.
Proof.
  intros V W Hc HI H1 H2 Hcc B Hb. pose proof (vo_layout s V) as LO.
  unfold disk_write, wp. cbn [fs card calls]. set (s' := mkvol _ _ _).
  assert (forall m, ~ in_cluster (lay s) c m -> view s' m = view s m) as K.
  { intros m Hm. unfold view, s'. cbn [fs card]. destruct (m =? winsect (fs s)); [reflexivity|].
    destruct (Z.leb_spec n m), (Z.ltb_spec m (n + cc)); cbn [andb]; auto.
    destruct Hm. unfold in_cluster. lia. }
  assert (forall m, is_sector (card s' m)) as KS.
  { intros m. unfold s'. cbn [card]. destruct (Z.leb_spec n m), (Z.ltb_spec m (n + cc)); cbn [andb]; try apply V.
    destruct (disk_ok (calls s)); [|apply spoiled_sector]. apply slice_sector; auto; unfold SS in *; nia. }
  assert (~ in_cluster (lay s) c (winsect (fs s))) as NW by (apply W; auto).
  assert (forall c', cluster (lay s) c' -> fat_entry s' c' = fat_entry s c') as KT.
  { intros c' Hc'. apply same_bytes_entry; auto. intros k Hk. unfold fat_byte. change (lay s') with (lay s).
    f_equal. apply K. now apply table_not_data. }
  split; [|split; [reflexivity|split; [|split]]].
  - destruct V. constructor; auto. intros Wf Vi. unfold s'. cbn [card fs winsect].
    destruct (Z.leb_spec n (winsect (fs s))), (Z.ltb_spec (winsect (fs s)) (n + cc)); cbn [andb]; auto.
    destruct NW. unfold in_cluster. lia.
  - constructor; auto. unfold s'. cbn [calls]. lia.
  - intros E. apply failed_now; [exact E | unfold s'; cbn; lia].
  - intros E m. now rewrite E.
Qed.

(** The parts of the file object that do not mention the sectors. *)
Lemma core_transfer s s' fp l : file_core s fp l -> vol_ok s' -> lay s' = lay s ->
  (forall c, cluster (lay s) c -> fat_entry s' c = fat_entry s c) -> stays s s' -> file_core s' fp l.
Proof.
  intros [V T C P Z B S W] V' L K ST. constructor; rewrite ?L; auto.
  - destruct C as [C|[C H]]; [now left|]. right. rewrite L. split; [|exact H].
    apply (chain_ext _ (fat_entry s)); [|exact C]. intros c I. symmetry. apply K. now apply (chain_clusters _ _ _ C).
  - intros c Hc H I. rewrite L in Hc, I. rewrite K in H by exact Hc. pose proof (vo_layout s V) as LO.
    destruct (cluster_visible (lay s) LO c _ Hc I) as (_ & _ & DA). rewrite (ST DA) in I. exact (W c Hc H I).
Qed.

Lemma stays_same s s' : fs s' = fs s -> stays s s'.
Proof. intros E _. now rewrite E. Qed.

(** The chain of a file that has room. *)
Lemma core_chain s fp l k : file_core s fp l -> 0 <= k < room (lay s) l -> chain (lay s) (fat_entry s) l.
Proof.
  intros H Hk. destruct (fc_chain s fp l H) as [[-> _]|[C _]]; [|exact C]. unfold room in Hk. cbn in Hk. lia.
Qed.

(** A dirty buffer belongs to a sector of the file. *)
Lemma dirty_sector s fp l : file_core s fp l -> has FA_DIRTY fp = true ->
  exists k, 0 <= k < room (lay s) l /\ sect fp = file_sect (lay s) l k.
Proof. intros C E. destruct (fc_sect s fp l C) as [[_ X]|H]; [congruence | exact H]. Qed.

(** *** Flags *)

Lemma has_raise b fp : 0 < b -> has b (raise b fp) = true.
Proof.
  intros H. unfold has, raise. cbn [flag set_flag]. apply negb_true_iff, Z.eqb_neq. intros E.
  rewrite Z.land_lor_distr_l, Z.land_diag in E. apply Z.lor_eq_0_iff in E as [_ E]. lia.
Qed.

Lemma has_raise_other b b' fp : Z.land b' b = 0 -> has b (raise b' fp) = has b fp.
Proof. intros E. unfold has, raise. cbn [flag set_flag]. now rewrite Z.land_lor_distr_l, E, Z.lor_0_r. Qed.

Lemma has_clear b fp : Z.land (255 - b) b = 0 -> has b (clear b fp) = false.
Proof. intros E. unfold has, clear. cbn [flag set_flag]. now rewrite <- Z.land_assoc, E, Z.land_0_r. Qed.

Lemma has_clear_other b b' fp : Z.land (255 - b') b = b -> has b (clear b' fp) = has b fp.
Proof. intros E. unfold has, clear. cbn [flag set_flag]. now rewrite <- Z.land_assoc, E. Qed.

(** What the steps of a transfer leave of the file object. *)
Record alike (fp fp' : FIL) : Prop := {
  ak_fptr : fptr fp' = fptr fp;
  ak_size : objsize (obj fp') = objsize (obj fp);
  ak_err : err fp' = err fp;
  ak_fs : o_fs (obj fp') = o_fs (obj fp);
  ak_id : o_id (obj fp') = o_id (obj fp);
  ak_dir : dir_sect fp' = dir_sect fp /\ dir_ofs fp' = dir_ofs fp;
  ak_read : has FA_READ fp' = has FA_READ fp;
  ak_write : has FA_WRITE fp' = has FA_WRITE fp
}.

#[export] Instance alike_preorder : PreOrder alike.
Proof.
  split; [intros x; constructor; auto|]. intros a b c [] []. constructor; try congruence. split; intuition congruence.
Qed.

Lemma alike_flags fp n : Z.land n 3 = Z.land (flag fp) 3 -> alike fp (set_flag n fp).
Proof.
  intros E. assert (forall b, Z.land 3 b = b -> has b (set_flag n fp) = has b fp) as K.
  { intros b Eb. unfold has. cbn [flag set_flag]. rewrite <- Eb, !Z.land_assoc, E. reflexivity. }
  constructor; auto.
Qed.

Lemma alike_raise b fp : Z.land b 3 = 0 -> alike fp (raise b fp).
Proof. intros E. apply alike_flags. now rewrite Z.land_lor_distr_l, E, Z.lor_0_r. Qed.

Lemma alike_clear b fp : Z.land (255 - b) 3 = 3 -> alike fp (clear b fp).
Proof. intros E. apply alike_flags. now rewrite <- Z.land_assoc, E. Qed.

(** ** Writing the buffer back *)

(** The file object after the buffer was written back. *)
Definition flushed (fp : FIL) : FIL := if has FA_DIRTY fp then clear FA_DIRTY fp else fp.

Lemma flushed_clean fp : has FA_DIRTY (flushed fp) = false.
Proof. unfold flushed. destruct (has FA_DIRTY fp) eqn:E; [now apply has_clear | exact E]. Qed.

Lemma flushed_fields fp : obj (flushed fp) = obj fp /\ fptr (flushed fp) = fptr fp /\ clust (flushed fp) = clust fp /\
  sect (flushed fp) = sect fp /\ buf (flushed fp) = buf fp /\ err (flushed fp) = err fp.
Proof. unfold flushed. destruct (has FA_DIRTY fp); auto 8. Qed.

Lemma core_fields s fp fp' l : file_core s fp l -> obj fp' = obj fp -> fptr fp' = fptr fp -> sect fp' = sect fp ->
  is_sector (buf fp') -> (has FA_DIRTY fp' = true -> has FA_DIRTY fp = true) -> file_core s fp' l.
Proof.
  intros [V T C P Z B S W] E1 E2 E3 E4 E5. constructor; rewrite ?E1, ?E2, ?E3; auto.
  destruct S as [[S1 S2]|S]; [left; split; [exact S1|] | now right].
  destruct (has FA_DIRTY fp'); [symmetry; rewrite <- S2; auto | reflexivity].
Qed.

(** What holds of the buffer and of the card after it was written back. *)
Lemma write_back_wp fp l f s : file_core s fp l -> clean s fp -> holds s fp l f ->
  wp (write_back fp) (fun r s' => data_only l s s' /\ fs s' = fs s /\
    (r = Some (flushed fp) /\ file_core s' (flushed fp) l /\ clean s' (flushed fp) /\
       holds s' (flushed fp) l f \/
     r = None /\ failed s s')) s.
Proof.
  intros C CL H. unfold write_back, flushed. destruct (has FA_DIRTY fp) eqn:E.
  2:{ apply wp_ret. split; [reflexivity | auto 7]. }
  destruct (fc_sect s fp l C) as [[_ X]|(k & Hk & Ek)]; [congruence|].
  pose proof (fc_vol s fp l C) as V. pose proof (core_chain s fp l k C Hk) as Ch. pose proof (vo_layout s V) as LO.
  destruct (file_sect_in _ LO _ l k Ch Hk) as (Hc & HI & Hs). rewrite <- Ek in Hs. unfold in_cluster in Hs.
  pose proof (fc_buf s fp l C) as [LB BB].
  apply wp_bind. wp_use (data_write_wp (buf fp) (sect fp) 1 _ l s V (fc_win s fp l C) Hc HI); auto; try lia.
  intros ok s' (V' & Ef & DO & FL & KW). destruct ok; apply wp_ret; (split; [exact DO|]; split; [exact Ef|]); [left | right; auto].
  specialize (KW eq_refl). split; [reflexivity|].
  assert (card s' (sect fp) = buf fp) as KB.
  { rewrite KW, (proj2 (Z.leb_le _ _)), (proj2 (Z.ltb_lt _ _)) by lia. cbn [andb]. rewrite Z.sub_diag.
    apply slice_all. now split. }
  split; [|split; [intros _ _; symmetry; exact KB|]].
  - apply (core_fields s' fp); auto; [|split; assumption].
    apply (core_transfer s); auto; [now rewrite Ef | apply DO | now apply stays_same].
  - intros i Hi. rewrite <- (H i Hi). unfold file_data. rewrite Ef. cbn [sect buf clear set_flag].
    destruct (Z.eqb_spec (file_sect (lay s) l (i / SS)) (sect fp)) as [|NE]; [reflexivity|].
    rewrite KW. destruct (Z.leb_spec (sect fp) (file_sect (lay s) l (i / SS))), (Z.ltb_spec (file_sect (lay s) l (i / SS)) (sect fp + 1));
      cbn [andb]; auto; lia.
Qed.

Lemma flush_buf_wp fp l f s : file_core s fp l -> clean s fp -> holds s fp l f ->
  wp (flush_buf fp) (fun r s' => frame l s s' /\
    (r = inl (flushed fp) /\ file_core s' (flushed fp) l /\ clean s' (flushed fp) /\
       holds s' (flushed fp) l f \/
     r = inr (Some FR_DISK_ERR, set_err FR_DISK_ERR fp) /\ failed s s')) s.
Proof.
  intros C CL H. unfold flush_buf. apply wp_bind. wp_use (write_back_wp fp l f); auto.
  intros r s' (DO & _ & [[-> R]|[-> R]]); apply wp_ret; (split; [now apply data_only_frame|]); auto.
Qed.

(** ** The next cluster *)

(** Sectors of the file are not in the window. *)
Lemma file_card s l c n : win_safe s l -> cluster (lay s) c -> In c l -> in_cluster (lay s) c n ->
  view s n = card s n.
Proof.
  intros W Hc HI Hn. unfold view. destruct (Z.eqb_spec n (winsect (fs s))) as [->|]; [|reflexivity].
  destruct (W c Hc (or_introl HI) Hn).
Qed.

(** Steps that change the table only leave the clusters alone. *)
Lemma rest_clusters s s' : layout_ok (lay s) ->
  (forall x, visible (lay s) x -> ~ (fatbase (lay s) <= x < fatbase (lay s) + fsize (lay s)) -> view s' x = view s x) ->
  forall c x, cluster (lay s) c -> in_cluster (lay s) c x -> view s' x = view s x.
Proof.
  intros LO K c x Hc Hx. destruct (cluster_visible _ LO c x Hc Hx) as (V & NF & _). now apply K.
Qed.

(** Steps that leave the sectors of the file alone keep its contents. *)
Lemma kept_sectors s s' l l' m n : layout_ok (lay s) -> lay s' = lay s -> win_safe s l -> win_safe s' l' -> incl l l' ->
  chain (lay s) m l -> (forall c x, cluster (lay s) c -> In c l -> in_cluster (lay s) c x -> view s' x = view s x) ->
  (exists k, 0 <= k < room (lay s) l /\ n = file_sect (lay s) l k) -> card s' n = card s n.
Proof.
  intros LO L W W' I C K (k & Hk & ->). destruct (file_sect_in _ LO m l k C Hk) as (Hc & HI & Hs).
  rewrite <- (file_card s l _ _ W Hc HI Hs), <- (K _ _ Hc HI Hs). symmetry.
  apply (file_card s' l' (nth_clust l (k / csize (lay s)))); rewrite ?L; auto.
Qed.

(** The end of the chain where a cluster is added. *)
Definition chain_end (l : list Z) (clst : Z) : Prop := l = [] /\ clst = 0 \/ l <> [] /\ clst = last l 0.

Lemma last_in (l : list Z) : l <> [] -> In (last l 0) l.
Proof.
  intros N. destruct (exists_last N) as (x & y & ->). rewrite last_last. apply in_or_app. right. now left.
Qed.

Lemma grown_chain s fp l clst ncl s' : file_core s fp l -> chain_end l clst -> allocated clst ncl s s' ->
  ~ In ncl l /\ chain (lay s) (fat_entry s') (l ++ [ncl]).
Proof.
  intros [V T C P Z B S W] CE [AC AF AL AT AR _ _ _ _]. pose proof (vo_layout s V) as LO.
  pose proof (eoc_end (lay s) LO) as HE.
  assert (fat_entry s' ncl = EOC (lay s) \/ ncl = clst) as EN.
  { rewrite AT by exact AC. unfold linked. destruct (clst =? 0); unfold fat_set; rewrite Z.eqb_refl; [now left|].
    destruct (Z.eqb_spec ncl clst); auto. }
  destruct CE as [[-> ->]|[NE ->]].
  - split; [auto|]. destruct EN as [EN| ->]; [|unfold cluster in AC; lia].
    cbn [app chain]. rewrite EN. auto.
  - destruct C as [[-> _]|[C _]]; [contradiction|].
    assert (~ In ncl l) as NI.
    { intros I. apply (In_nth l ncl 0) in I as (i & Hi & <-). pose proof (chain_nth _ _ _ C i Hi) as E.
      rewrite AF in E. pose proof (lo_ent _ LO). destruct (Nat.eqb_spec (Datatypes.S i) (length l)); [lia|].
      assert (cluster (lay s) (nth (Datatypes.S i) l 0)) as X by (apply (chain_clusters _ _ _ C), nth_In; lia).
      unfold cluster in X. lia. }
    assert (cluster (lay s) (last l 0)) as HL by (apply (chain_clusters _ _ _ C), last_in, NE).
    assert (last l 0 <> 0) as NZ by (unfold cluster in HL; lia). unfold linked in AT.
    rewrite (proj2 (Z.eqb_neq _ _) NZ) in AT. pose proof (last_in l NE) as LI.
    split; [exact NI|]. apply (chain_snoc _ (fat_entry s)); auto.
    + intros x I Nx. rewrite AT by (now apply (chain_clusters _ _ _ C)). unfold fat_set.
      destruct (Z.eqb_spec x (last l 0)); [contradiction|]. destruct (Z.eqb_spec x ncl) as [->|]; [contradiction | reflexivity].
    + rewrite AT by exact HL. unfold fat_set. now rewrite Z.eqb_refl.
    + destruct EN as [-> | ->]; [exact HE | contradiction].
Qed.

Lemma grown_frame s fp l clst ncl s' : file_core s fp l -> chain_end l clst -> allocated clst ncl s s' ->
  frame (l ++ [ncl]) s s' /\ win_safe s' (l ++ [ncl]).
Proof.
  intros [V T C P Z B S W] CE [AC AF AL AT AR AQ _ ST _]. pose proof (vo_layout s V) as LO. split.
  - constructor; auto. intros c Hc NI. left. rewrite AT by exact Hc. unfold linked, fat_set.
    assert (c <> ncl) as N1 by (intros ->; apply NI, in_or_app; right; now left).
    destruct (Z.eqb_spec clst 0) as [->|N0]; [now rewrite (proj2 (Z.eqb_neq _ _) N1)|].
    destruct (Z.eqb_spec c clst) as [->|]; [|now rewrite (proj2 (Z.eqb_neq _ _) N1)].
    destruct CE as [[_ ?]|[NE ->]]; [contradiction|]. destruct NI. apply in_or_app. left. now apply last_in.
  - intros c Hc H I. rewrite AL in Hc, I. destruct (cluster_visible (lay s) LO c _ Hc I) as (_ & _ & DA).
    rewrite (ST DA) in I. apply (W c Hc); [|exact I]. rewrite AT in H by exact Hc.
    destruct H as [H|H]; [apply in_app_or in H as [H|[<-|[]]]; auto|]. right.
    pose proof (eoc_end (lay s) LO). pose proof (lo_ent _ LO). unfold linked, fat_set, cluster in *.
    destruct (clst =? 0), (c =? ncl), (c =? clst); auto; lia.
Qed.

(** Contents and cleanness survive when the sectors of the file stay. *)
Lemma kept_contents s s' fp l l' f : file_core s fp l -> lay s' = lay s -> win_safe s' l' ->
  (exists t, l' = l ++ t) ->
  (forall c x, cluster (lay s) c -> In c l -> in_cluster (lay s) c x -> view s' x = view s x) ->
  (clean s fp -> clean s' fp) /\ (holds s fp l f -> holds s' fp l' f).
Proof.
  intros C L W' (t & ->) K. pose proof (fc_vol s fp l C) as V. pose proof (vo_layout s V) as LO.
  assert (forall k, 0 <= k < room (lay s) l -> card s' (file_sect (lay s) l k) = card s (file_sect (lay s) l k)) as KC.
  { intros k Hk. pose proof (core_chain s fp l k C Hk) as Ch.
    apply (kept_sectors s s' l (l ++ t) (fat_entry s)); auto; [apply C | now apply incl_appl, incl_refl | eauto]. }
  split.
  - intros CL E NZ. rewrite (CL E NZ). destruct (fc_sect s fp l C) as [[? _]|(k & Hk & ->)]; [contradiction|].
    symmetry. now apply KC.
  - intros H i Hi. rewrite <- (H i Hi). unfold file_data. rewrite L.
    pose proof (fc_size s fp l C) as [SZ _].
    assert (0 <= i / SS < room (lay s) l) as Hk by (unfold SS in *; dlia).
    rewrite file_sect_app, KC by assumption. reflexivity.
Qed.

Lemma quiet_file s s' fp l f : file_ok s fp l -> vol_ok s' -> quiet s s' -> holds s fp l f ->
  file_ok s' fp l /\ holds s' fp l f.
Proof.
  intros [C CL CU CC E] V' Q H. pose proof (fc_vol s fp l C) as V.
  pose proof (same_updates s s' V Q) as [L T R _ _ _ _ ST].
  assert (file_core s' fp l) as C' by (now apply (core_transfer s)).
  destruct (kept_contents s s' fp l l f C L (fc_win s' fp l C')) as [K1 K2].
  { exists []. now rewrite app_nil_r. }
  { intros c x Hc _. now apply (rest_clusters s s' (vo_layout s V)). }
  split; [|auto]. constructor; rewrite ?L; auto.
Qed.

(** The file object with another current and first cluster. *)
Definition moved (c scl : Z) (fp : FIL) : FIL := set_clust c (set_obj (set_sclust scl (obj fp)) fp).

Lemma moved_same c fp : set_clust c fp = moved c (sclust (obj fp)) fp.
Proof. destruct fp as [o]. now destruct o. Qed.

(** [clust] is the cluster of the byte at the file pointer. *)
Definition positioned (s : vol) (fp : FIL) (l : list Z) : Prop :=
  0 <= fptr fp / SS < room (lay s) l /\ clust fp = nth_clust l (fptr fp / SS / csize (lay s)).

(** The file object, its contents [f] and the position, in one. *)
Definition at_byte (s : vol) (fp : FIL) (l : list Z) (f : Z -> Z) : Prop :=
  file_core s fp l /\ clean s fp /\ holds s fp l f /\ positioned s fp l.

Lemma quiet_at s s' fp l f : vol_ok s' -> quiet s s' -> at_byte s fp l f -> at_byte s' fp l f.
Proof.
  intros V' Q (C & CL & H & PO). pose proof (fc_vol s fp l C) as V.
  pose proof (same_updates s s' V Q) as [L T R _ _ _ _ ST].
  assert (file_core s' fp l) as C' by (now apply (core_transfer s)).
  destruct (kept_contents s s' fp l l f C L (fc_win s' fp l C')) as [K1 K2].
  { exists []. now rewrite app_nil_r. }
  { intros c x Hc _. now apply (rest_clusters s s' (vo_layout s V)). }
  split; [exact C'|]. split; [auto|]. split; [auto|]. unfold positioned in *. now rewrite L.
Qed.

(** No cluster is free, or so the count says. *)
Definition full (s : vol) : Prop :=
  free_clst (fs s) = 0 \/ forall c, cluster (lay s) c -> fat_entry s c <> 0.

(** A status other than FR_OK comes from a failed call of the disk layer or from
    a table with a reserved entry. *)
Definition explained (e : FRESULT) (s s' : vol) : Prop :=
  e = FR_DISK_ERR /\ failed s s' \/
  e = FR_INT_ERR /\ ((exists c, cluster (lay s) c /\ fat_entry s c = 1) \/ failed s s').

(** From [s] on the chain [l] grows to [l'], by clusters that were free. *)
Definition grows (s : vol) (l l' : list Z) : Prop :=
  (exists t, l' = l ++ t) /\ forall c, In c l' -> In c l \/ cluster (lay s) c /\ fat_entry s c = 0.

Lemma grows_refl s l : grows s l l.
Proof. split; [exists []; now rewrite app_nil_r | auto]. Qed.

Lemma grows_incl s l l' : grows s l l' -> incl l l'.
Proof. intros [[t ->] _]. apply incl_appl, incl_refl. Qed.

Lemma grows_trans s s1 l l1 l2 : grows s l l1 -> frame l1 s s1 -> grows s1 l1 l2 -> grows s l l2.
Proof.
  intros [[t ->] G1] FR [[u ->] G2]. split; [exists (t ++ u); now rewrite app_assoc|]. intros c HI.
  destruct (G2 c HI) as [H|[Hc H0]]; [auto|]. destruct (in_dec Z.eq_dec c (l ++ t)) as [H|NI]; [auto|].
  rewrite (fr_layout _ _ _ FR) in Hc. right. split; [exact Hc|].
  destruct (fr_table _ _ _ FR c Hc NI) as [<- |[E _]]; assumption.
Qed.

Lemma grows_snoc s l c : cluster (lay s) c -> fat_entry s c = 0 -> grows s l (l ++ [c]).
Proof. intros Hc E. split; [eauto|]. intros x HI. apply in_app_or in HI as [HI|[<-|[]]]; auto. Qed.

Definition cluster_found (fp : FIL) (l : list Z) (f : Z -> Z) (s : vol) (r : FIL + leaves) (s' : vol) : Prop :=
  match r with
  | inl fp' => exists l' c scl, fp' = moved c scl fp /\ grows s l l' /\ frame l' s s' /\ at_byte s' fp' l' f
  | inr (None, fp') => fp' = fp /\ frame l s s' /\ file_ok s' fp l /\ holds s' fp l f /\ full s'
  | inr (Some e, _) => frame l s s' /\ explained e s s'
  end.

(** A cluster that follows on the chain already. *)
Lemma follow_wp fp l f c s s' : file_ok s fp l -> holds s fp l f -> vol_ok s' -> quiet s s' ->
  fptr fp mod SS = 0 -> 0 <= fptr fp / SS < room (lay s) l -> c = nth_clust l (fptr fp / SS / csize (lay s)) ->
  cluster_found fp l f s (inl (set_clust c fp)) s'.
Proof.
  intros FO H V' Q HM Hk ->. pose proof (fc_vol _ _ _ (fo_core s fp l FO)) as V.
  destruct (quiet_file s s' fp l f FO V' Q H) as [[C CL CU CC E] H'].
  exists l. eexists. eexists. rewrite moved_same. split; [reflexivity|]. split; [apply grows_refl|].
  split; [now apply quiet_frame|]. rewrite <- moved_same. split; [|split; [exact CL | split; [exact H' |]]].
  - now apply (core_fields s' fp); auto; apply C.
  - split; rewrite (quiet_layout Q); [exact Hk | reflexivity].
Qed.

Lemma set_obj_same fp : set_obj (obj fp) fp = fp.
Proof. now destruct fp. Qed.

Lemma take_cluster_ok c fp s : layout_ok (lay s) -> cluster (lay s) c ->
  wp (take_cluster fp c) (fun r s' => s' = s /\
    r = inl (moved c (if sclust (obj fp) =? 0 then c else sclust (obj fp)) fp)) s.
Proof.
  intros LO Hc. pose proof (n_fatent_range _ LO) as N. unfold cluster in Hc. unfold take_cluster.
  destruct (Z.eqb_spec c 0), (Z.eqb_spec c 1), (Z.eqb_spec c 0xFFFFFFFF); try (exfalso; eval_pow; lia).
  apply wp_ret. split; [reflexivity|]. cbn [obj set_clust].
  destruct (sclust (obj fp) =? 0); [reflexivity | now rewrite moved_same].
Qed.

(** create_chain at the end of the file's chain. *)
Lemma take_stretched fp l f clst r s s1 : file_ok s fp l -> holds s fp l f ->
  chain_end l clst -> fptr fp mod SS = 0 -> fptr fp / SS = room (lay s) l ->
  stretched (obj fp) clst s r s1 ->
  wp (take_cluster (set_obj (snd r) fp) (fst r)) (cluster_found fp l f s) s1.
Proof.
  intros FO H CE HM HR (Eo & V1 & ST). rewrite Eo, set_obj_same. pose proof (fo_core s fp l FO) as C.
  pose proof (fc_vol s fp l C) as V. pose proof (vo_layout s V) as LO. pose proof (csize_pos _ LO) as CP.
  destruct ST as [A|[(E & Q & FU)|[(E & Q & X)|(E & ncl & FN & FL & m & U & K)]]]; rewrite ?E.
  - pose proof (al_layout _ _ _ _ A) as L. pose proof (al_cluster _ _ _ _ A) as AC.
    eapply wp_conseq; [apply take_cluster_ok; rewrite L; auto|]. intros r' s2 [-> ->]. cbn [cluster_found].
    destruct (grown_chain s fp l clst (fst r) s1 C CE A) as [NI Ch].
    destruct (grown_frame s fp l clst (fst r) s1 C CE A) as [FR W1].
    destruct (kept_contents s s1 fp l (l ++ [fst r]) f C L W1) as [K1 K2];
      [eauto | intros c x Hc _; apply (rest_clusters s s1 LO); [apply A | exact Hc] |].
    exists (l ++ [fst r]). eexists. eexists. split; [reflexivity|]. split; [now apply grows_snoc; apply A|]. split; [exact FR|].
    split; [|split; [apply K1, FO | split; [exact (K2 H) |]]].
    + destruct C as [_ T CH P [Z1 Z2] B S _]. constructor; rewrite ?L; auto.
      * right. rewrite L. split; [exact Ch|]. cbn.
        destruct CE as [[-> ->]|[NE ->]]; [destruct CH as [[_ ->]|[[] _]]; reflexivity|].
        destruct CH as [[-> _]|[CH <-]]; [contradiction|]. destruct l as [|a l]; [contradiction|].
        destruct CH as [Ha _]. unfold cluster in Ha. change (nth_clust (a :: l) 0) with a.
        destruct (Z.eqb_spec a 0); [lia | reflexivity].
      * cbn. split; [|exact Z2]. unfold room in *. rewrite length_app. cbn. unfold SS in *. nia.
      * destruct S as [S|(k & Hk & Ek)]; [now left|]. right. exists k.
        unfold room in *. rewrite length_app. split; [cbn; nia|]. cbn. rewrite file_sect_app by (unfold room; auto). exact Ek.
    + split; rewrite L; cbn [fptr clust moved set_clust set_obj].
      * rewrite HR. unfold room in *. rewrite length_app. cbn. nia.
      * rewrite HR. unfold room, nth_clust. rewrite Z.div_mul, Nat2Z.id by lia.
        now rewrite app_nth2, Nat.sub_diag by lia.
  - apply wp_ret. destruct (quiet_file s s1 fp l f FO V1 Q H) as [FO1 H1].
    split; [reflexivity|]. split; [now apply quiet_frame|]. split; [exact FO1|]. split; [exact H1|].
    unfold full. rewrite (quiet_layout Q), (ev_free _ _ _ (qu_disk _ _ Q)). destruct FU as [FU|FU]; [now left|].
    right. intros c Hc. rewrite (up_table _ _ _ (same_updates s s1 V Q)) by exact Hc. auto.
  - apply wp_ret. split; [now apply quiet_frame|]. right. auto.
  - apply wp_ret. split; [|left; auto]. destruct U as [UL UT UR UC _ _ _ _]. constructor; auto.
    intros c Hc NI. destruct (Z.eq_dec c ncl) as [->|NN]; [right; auto|]. left. rewrite UT by exact Hc.
    apply K; auto. intros ->.
    destruct CE as [[_ ->]|[NE ->]]; [unfold cluster in Hc; lia | apply NI, last_in, NE].
Qed.

Lemma chain_last (l : list Z) : l <> [] -> nth (length l - 1) l 0 = last l 0.
Proof.
  intros N. destruct (exists_last N) as (x & y & ->). rewrite last_last, length_app. cbn.
  replace (length x + 1 - 1)%nat with (length x) by lia. now rewrite nth_middle.
Qed.

(** On a cluster boundary: where the file pointer stands in the chain. *)
Lemma boundary s fp l : file_ok s fp l -> fptr fp mod SS = 0 -> (fptr fp / SS) mod csize (lay s) = 0 -> 0 < fptr fp ->
  let j := fptr fp / SS / csize (lay s) in
  fptr fp / SS = j * csize (lay s) /\ 1 <= j <= Z.of_nat (length l) /\ clust fp = nth_clust l (j - 1).
Proof.
  intros FO H1 H2 HP. pose proof (fo_core s fp l FO) as C. pose proof (fc_vol s fp l C) as V.
  pose proof (csize_pos _ (vo_layout s V)) as CP. destruct (fc_size s fp l C) as [SZ _].
  pose proof (fc_fptr s fp l C) as PF. set (j := fptr fp / SS / csize (lay s)). cbv zeta.
  set (q := fptr fp / SS) in *. assert (fptr fp = q * SS) as Eq by (subst q; unfold SS in *; dlia).
  assert (q = j * csize (lay s)) as Ej.
  { subst j. rewrite (Z.div_mod q (csize (lay s))) at 1 by lia. lia. }
  assert (1 <= j) as J1 by (unfold SS in *; nia).
  split; [exact Ej|]. split.
  - split; [exact J1|]. unfold room in SZ. unfold SS in *. nia.
  - rewrite (fo_clust s fp l FO HP). f_equal.
    replace ((fptr fp - 1) / SS) with (q - 1) by (unfold SS in *; dlia).
    symmetry. apply (Z.div_unique_pos _ _ _ (csize (lay s) - 1)); nia.
Qed.

(** The first cluster of a file that has one. *)
Lemma first_cluster s fp l : layout_ok (lay s) -> chain (lay s) (fat_entry s) l -> nth_clust l 0 = sclust (obj fp) ->
  cluster (lay s) (sclust (obj fp)) /\ sclust (obj fp) <> 0 /\ 0 < room (lay s) l.
Proof.
  intros LO Ch E. pose proof (csize_pos _ LO). destruct l as [|a l]; [contradiction|]. cbn in E. subst a.
  destruct Ch as [Ha _]. split; [exact Ha|]. unfold cluster, room in *. cbn [length]. split; [lia | nia].
Qed.

Lemma write_first fp l f s : file_ok s fp l -> holds s fp l f -> fptr fp = 0 ->
  wp (write_cluster fp) (cluster_found fp l f s) s.
Proof.
  intros FO H E0. pose proof (fo_core s fp l FO) as C. pose proof (fc_vol s fp l C) as V.
  pose proof (vo_layout s V) as LO. unfold write_cluster. rewrite E0. cbn [Z.eqb andb].
  assert (fptr fp mod SS = 0 /\ fptr fp / SS = 0) as [HM HD] by (rewrite E0; now split).
  destruct (fc_chain s fp l C) as [[-> E]|[Ch E]].
  - rewrite E. cbn [Z.eqb negb]. apply wp_bind. wp_use create_chain_wp; [exact V | apply C | now left |].
    intros [c o] s1 ST. now apply (take_stretched fp [] f 0 (c, o) s s1); auto; left.
  - destruct (first_cluster s fp l LO Ch E) as (Hs & X & HR). rewrite (proj2 (Z.eqb_neq _ _) X). cbn [negb].
    eapply wp_conseq; [now apply take_cluster_ok|]. intros r s1 [-> ->].
    rewrite (proj2 (Z.eqb_neq _ _) X), <- moved_same. pose proof (csize_pos _ LO).
    apply follow_wp; auto; [reflexivity | lia | now rewrite HD, Z.div_0_l by lia].
Qed.

(** A cluster boundary inside the chain: create_chain only follows it. *)
Lemma write_follow fp l f j s : file_ok s fp l -> holds s fp l f -> fptr fp mod SS = 0 ->
  j = fptr fp / SS / csize (lay s) -> fptr fp / SS = j * csize (lay s) -> 1 <= j < Z.of_nat (length l) ->
  clust fp = nth_clust l (j - 1) ->
  wp ('(c, o) <- create_chain (obj fp) (clust fp) ;; take_cluster (set_obj o fp) c) (cluster_found fp l f s) s.
Proof.
  intros FO H HM Dj Ej Hj Ec. pose proof (fo_core s fp l FO) as C. pose proof (fc_vol s fp l C) as V.
  pose proof (vo_layout s V) as LO. pose proof (csize_pos _ LO) as CP.
  assert (chain (lay s) (fat_entry s) l /\ nth_clust l 0 = sclust (obj fp)) as [Ch Es].
  { destruct (fc_chain s fp l C) as [[-> _]|Ch]; [cbn in Hj; lia | exact Ch]. }
  destruct (first_cluster s fp l LO Ch Es) as (_ & X & _).
  pose proof (chain_nth _ _ _ Ch (Z.to_nat (j - 1)) ltac:(lia)) as CN. unfold nth_clust in Ec. rewrite <- Ec in CN.
  assert (cluster (lay s) (clust fp)) as Hc by (rewrite Ec; apply (chain_clusters _ _ _ Ch), nth_In; lia).
  destruct (Nat.eqb_spec (S (Z.to_nat (j - 1))) (length l)) as [EL|NL]; [lia|].
  pose proof (chain_clusters _ _ _ Ch (nth (Z.to_nat j) l 0) ltac:(apply nth_In; lia)) as Hn.
  replace (S (Z.to_nat (j - 1))) with (Z.to_nat j) in CN by lia. apply wp_bind.
  wp_use create_chain_follow; auto; [apply C | unfold cluster in Hc; lia | rewrite fat_value_entry, CN by exact Hc; apply Hn |].
  rewrite fat_value_entry, CN by exact Hc. pose proof Hn as [Hn1 _].
  rewrite (proj2 (Z.ltb_ge _ _)) by exact Hn1. intros [c o] s1 (V1 & Q & Eo & [Er|[Er FL]]); cbn [fst snd] in *; subst o c.
  - rewrite set_obj_same. pose proof (quiet_layout Q) as L.
    eapply wp_conseq; [apply take_cluster_ok; rewrite L; auto|]. intros r s2 [-> ->].
    rewrite (proj2 (Z.eqb_neq _ _) X), <- moved_same. apply follow_wp; auto; [|now rewrite <- Dj]. rewrite Ej. unfold room. nia.
  - rewrite set_obj_same. apply wp_ret. split; [now apply quiet_frame | now left].
Qed.

Lemma write_cluster_wp fp l f s : file_ok s fp l -> holds s fp l f ->
  fptr fp mod SS = 0 -> (fptr fp / SS) mod csize (lay s) = 0 ->
  wp (write_cluster fp) (cluster_found fp l f s) s.
Proof.
  intros FO H H1 H2. pose proof (fo_core s fp l FO) as C. pose proof (fc_vol s fp l C) as V.
  destruct (Z.eq_dec (fptr fp) 0) as [E0|N0]; [now apply write_first|].
  unfold write_cluster. pose proof (fc_fptr s fp l C) as PF. rewrite (proj2 (Z.eqb_neq _ _) N0). cbn [andb].
  destruct (boundary s fp l FO H1 H2 ltac:(lia)) as (Ej & Hj & Ec). set (j := fptr fp / SS / csize (lay s)) in *.
  destruct (Z.eq_dec j (Z.of_nat (length l))) as [EL|NL]; [|apply (write_follow fp l f j); auto; lia].
  assert (l <> []) as NE by (intros ->; cbn in Hj; lia).
  assert (In (clust fp) l) as HI by (rewrite Ec; apply nth_In; lia).
  assert (chain (lay s) (fat_entry s) l) as Ch by (destruct (fc_chain s fp l C) as [[-> _]|[Ch _]]; [contradiction | exact Ch]).
  pose proof (chain_nth _ _ _ Ch (Z.to_nat (j - 1)) ltac:(lia)) as CN. unfold nth_clust in Ec. rewrite <- Ec in CN.
  destruct (Nat.eqb_spec (S (Z.to_nat (j - 1))) (length l)) as [_|]; [|lia].
  apply wp_bind. wp_use create_chain_wp; [exact V | apply C | right; split; [now apply (chain_clusters _ _ _ Ch) | exact CN] |].
  intros [c o] s1 ST. apply (take_stretched fp l f (clust fp) (c, o) s s1); auto.
  - right. split; [exact NE|]. rewrite Ec, <- chain_last by exact NE. f_equal. lia.
  - rewrite Ej. unfold room. now f_equal.
Qed.

(** ** Transferring bytes *)

Lemma mem_cpy_ok dst o src cnt : 0 <= o -> 0 <= cnt -> o + cnt <= Z.of_nat (length dst) -> cnt <= Z.of_nat (length src) ->
  exists d, mem_cpy dst o src cnt = Ok d /\ length d = length dst /\ (bytes dst -> bytes src -> bytes d) /\
    forall i, 0 <= i -> byte_at d i = if (o <=? i) && (i <? o + cnt) then byte_at src (i - o) else byte_at dst i.
Proof.
  intros Ho Hc H1 H2. unfold mem_cpy. rewrite !(proj2 (Z.leb_le _ _)) by lia. cbn [andb].
  eexists. split; [reflexivity|]. unfold slice. change (Z.to_nat 0) with O. cbn [skipn]. split; [|split].
  - rewrite !length_app, !length_firstn, length_skipn. lia.
  - intros B1 B2. apply Forall_app; split; [now apply bytes_firstn|]. apply Forall_app.
    split; [now apply bytes_firstn | now apply bytes_skipn].
  - intros i Hi. unfold byte_at.
    destruct (Z.leb_spec o i); cbn [andb].
    2:{ rewrite app_nth1 by (rewrite length_firstn; lia). rewrite nth_firstn.
        destruct (Nat.ltb_spec (Z.to_nat i) (Z.to_nat o)); [reflexivity | lia]. }
    rewrite app_nth2 by (rewrite length_firstn; lia). rewrite length_firstn, Nat.min_l by lia.
    destruct (Z.ltb_spec i (o + cnt)).
    + rewrite app_nth1 by (rewrite length_firstn; lia). rewrite nth_firstn.
      destruct (Nat.ltb_spec (Z.to_nat i - Z.to_nat o) (Z.to_nat cnt)); [f_equal; lia | lia].
    + rewrite app_nth2 by (rewrite length_firstn; lia). rewrite length_firstn, Nat.min_l, nth_skipn by lia. f_equal. lia.
Qed.

(** The file pointer moves over bytes that are in place. *)
Lemma advance_ok s fp l f w : file_core s fp l -> clean s fp -> err fp = FR_OK -> 0 < w ->
  fptr fp + w <= room (lay s) l * SS -> fptr fp + w < 2 ^ 32 ->
  clust fp = nth_clust l ((fptr fp + w - 1) / SS / csize (lay s)) ->
  ((fptr fp + w) mod SS <> 0 -> sect fp = file_sect (lay s) l ((fptr fp + w) / SS)) ->
  (forall i, 0 <= i < Z.max (objsize (obj fp)) (fptr fp + w) -> file_data s fp l i = f i) ->
  let fp' := advance w fp in
  file_ok s fp' l /\ holds s fp' l f /\ fptr fp' = fptr fp + w /\
  objsize (obj fp') = Z.max (objsize (obj fp)) (fptr fp + w) /\ flag fp' = flag fp /\
  o_fs (obj fp') = o_fs (obj fp) /\ o_id (obj fp') = o_id (obj fp).
Proof.
  intros C CL E Hw HR HB HC HS HD. pose proof (fc_fptr s fp l C) as PF.
  assert (u64 (fptr fp + w) = fptr fp + w) as Eu by (apply uwrap_small; in_range).
  unfold advance. rewrite Eu. cbn [fptr set_fptr obj].
  assert (forall o, file_data s (set_obj o (set_fptr (fptr fp + w) fp)) l = file_data s fp l) as ED by reflexivity.
  destruct C as [V T CH _ [Z1 Z2] B S W].
  destruct (Z.ltb_spec (objsize (obj fp)) (fptr fp + w)); cbv zeta.
  - rewrite Z.max_r in * by lia. split; [|split; [exact HD | auto 6]].
    constructor; auto; [constructor; cbn; auto; try lia|..].
  - rewrite Z.max_l in * by lia. split; [|split; [exact HD | auto 6]].
    constructor; auto; [constructor; cbn; auto; try lia|..].
Qed.

(** Bytes put into the buffer, which holds the sector of the file pointer. *)
Lemma store_buf_ok s fp l f wbuff w : file_core s fp l -> holds s fp l f -> positioned s fp l ->
  sect fp = file_sect (lay s) l (fptr fp / SS) -> bytes wbuff ->
  0 < w <= Z.of_nat (length wbuff) -> fptr fp mod SS + w <= SS ->
  exists b, mem_cpy (buf fp) (fptr fp mod SS) wbuff w = Ok b /\
    let fp' := raise FA_DIRTY (set_buf b fp) in
    file_core s fp' l /\ clean s fp' /\
    forall i, 0 <= i < Z.max (objsize (obj fp)) (fptr fp + w) ->
      file_data s fp' l i = patch f (fptr fp) (slice wbuff 0 w) i.
Proof.
  intros C H [Hk _] HS B Hw HF. pose proof (fc_buf s fp l C) as [LB BB].
  assert (0 <= fptr fp mod SS) as M0 by (apply Z.mod_pos_bound; reflexivity).
  destruct (mem_cpy_ok (buf fp) (fptr fp mod SS) wbuff w) as (b & Eb & Lb & Bb & KB); try lia.
  exists b. split; [exact Eb|]. pose proof (fc_fptr s fp l C) as PF. pose proof (fc_size s fp l C) as [SZ _].
  pose proof (core_chain s fp l _ C Hk) as Ch. pose proof (vo_layout s (fc_vol s fp l C)) as LO. cbv zeta.
  assert (has FA_DIRTY (raise FA_DIRTY (set_buf b fp)) = true) as HD by (now apply has_raise).
  split; [|split].
  - destruct C as [V T CH P Z B' S W]. constructor; auto; cbn [obj fptr sect raise set_flag set_buf buf]; eauto.
    split; [now rewrite Lb | auto].
  - intros X. congruence.
  - intros i Hi. unfold patch. rewrite slice_length by lia.
    assert (0 <= i mod SS) as Mi by (apply Z.mod_pos_bound; reflexivity).
    destruct (Z.leb_spec (fptr fp) i), (Z.ltb_spec i (fptr fp + w)); cbn [andb].
    1:{ unfold file_data. cbn [sect buf raise set_flag set_buf].
        replace (i / SS) with (fptr fp / SS) by (unfold SS in *; dlia). rewrite HS, Z.eqb_refl, KB by exact Mi.
        rewrite (proj2 (Z.leb_le _ _)), (proj2 (Z.ltb_lt _ _)) by (unfold SS in *; dlia). cbn [andb].
        rewrite slice_byte by lia. f_equal. unfold SS in *; dlia. }
    all: rewrite <- (H i) by lia; unfold file_data; cbn [sect buf raise set_flag set_buf].
    all: destruct (Z.eqb_spec (file_sect (lay s) l (i / SS)) (sect fp)) as [E|]; [|reflexivity].
    all: rewrite HS in E; apply (file_sect_inj _ LO _ l _ _ Ch) in E; [|unfold SS in *; dlia | exact Hk].
    all: rewrite KB by exact Mi.
    all: destruct (Z.leb_spec (fptr fp mod SS) (i mod SS)), (Z.ltb_spec (i mod SS) (fptr fp mod SS + w)); cbn [andb]; auto.
    all: exfalso; unfold SS in *; dlia.
Qed.

Lemma alike_flushed fp : alike fp (flushed fp).
Proof. unfold flushed. destruct (has FA_DIRTY fp); [now apply alike_clear | reflexivity]. Qed.

(** Whole sectors written directly: the card holds them, and so does the buffer
    if it shows one of them. *)
Lemma direct_card fp l f k cc wbuff s s' fp' : file_core s fp l -> holds s fp l f ->
  fptr fp = k * SS -> 0 <= k -> 0 < cc -> k mod csize (lay s) + cc <= csize (lay s) -> k + cc <= room (lay s) l ->
  cc * SS <= Z.of_nat (length wbuff) -> lay s' = lay s ->
  (forall m, card s' m = if (file_sect (lay s) l k <=? m) && (m <? file_sect (lay s) l k + cc)
                         then slice wbuff ((m - file_sect (lay s) l k) * SS) SS else card s m) ->
  sect fp' = sect fp ->
  (forall j, 0 <= j < room (lay s) l -> file_sect (lay s) l j = sect fp ->
     buf fp' = if (k <=? j) && (j <? k + cc) then card s' (sect fp) else buf fp) ->
  forall i, 0 <= i < Z.max (objsize (obj fp)) (fptr fp + SS * cc) ->
    file_data s' fp' l i = patch f (fptr fp) (slice wbuff 0 (SS * cc)) i.
Proof.
  intros C H EP Hk Hcc Hm HR HL L KW ES KB i Hi. pose proof (fc_size s fp l C) as [SZ _].
  assert (0 <= i / SS < room (lay s) l) as Hi' by (unfold SS in *; dlia).
  pose proof (core_chain s fp l _ C Hi') as Ch. pose proof (vo_layout s (fc_vol s fp l C)) as LO.
  pose proof (sect_range _ LO _ l k cc (i / SS) Ch Hk Hm HR Hi') as EB.
  set (n := file_sect (lay s) l (i / SS)) in *. set (sc := file_sect (lay s) l k) in *.
  assert (0 <= i mod SS < SS) as Mi by (apply Z.mod_pos_bound; reflexivity).
  assert (file_data s' fp' l i = byte_at (if (k <=? i / SS) && (i / SS <? k + cc) then card s' n
                                          else if n =? sect fp then buf fp else card s n) (i mod SS)) as ->.
  { unfold file_data. rewrite L, ES. fold n. rewrite <- EB. destruct (Z.eqb_spec n (sect fp)) as [E|NE].
    - rewrite (KB (i / SS)) by assumption. rewrite E, <- EB, E. now destruct (_ && _).
    - rewrite KW. now destruct (_ && _). }
  unfold patch. rewrite slice_length by (unfold SS in *; lia). rewrite EP.
  replace ((k * SS <=? i) && (i <? k * SS + SS * cc)) with ((k <=? i / SS) && (i / SS <? k + cc)).
  2:{ destruct (Z.leb_spec k (i / SS)), (Z.leb_spec (k * SS) i), (Z.ltb_spec (i / SS) (k + cc)), (Z.ltb_spec i (k * SS + SS * cc));
        cbn [andb]; auto; exfalso; unfold SS in *; dlia. }
  rewrite KW, EB. destruct ((k <=? i / SS) && (i / SS <? k + cc)) eqn:EK; [|rewrite <- H; [reflexivity|]].
  - apply andb_true_iff in EK as [K1 K2]. apply Z.leb_le in K1. apply Z.ltb_lt in K2.
    assert (n - sc = i / SS - k) as ->.
    { subst n sc. replace (i / SS) with (k + (i / SS - k)) at 1 by lia. rewrite file_sect_next by (auto; lia). lia. }
    rewrite !slice_byte by (unfold SS in *; dlia). f_equal. unfold SS in *. dlia.
  - assert (~ (k * SS <= i < k * SS + SS * cc)); [|pose proof (fc_fptr s fp l C); unfold SS in *; lia]. intros X. revert EK.
    rewrite (proj2 (Z.leb_le _ _)), (proj2 (Z.ltb_lt _ _)) by (unfold SS in *; dlia). discriminate.
Qed.

(** The buffer after a direct transfer. *)
Definition refreshed (fp : FIL) (b : list Z) : FIL := clear FA_DIRTY (set_buf b fp).

(** Outcome of a transfer at the file pointer. *)
Definition transferred (fp : FIL) (wbuff : list Z) (btw : Z) (l : list Z) (f : Z -> Z) (s : vol)
    (r : FIL * Z + leaves) (s' : vol) : Prop :=
  match r with
  | inl (fp', n) => frame l s s' /\ alike fp fp' /\ clust fp' = clust fp /\ file_core s' fp' l /\
      (n = 0 /\ holds s' fp' l f /\ sect fp' = file_sect (lay s) l (fptr fp / SS) /\ btw < SS \/
       exists cc, 0 < cc /\ n = SS * cc /\ n <= btw /\ (fptr fp / SS) mod csize (lay s) + cc <= csize (lay s) /\
         fptr fp / SS + cc <= room (lay s) l /\ clean s' fp' /\
         forall i, 0 <= i < Z.max (objsize (obj fp)) (fptr fp + n) ->
           file_data s' fp' l i = patch f (fptr fp) (slice wbuff 0 n) i)
  | inr (Some e, _) => frame l s s' /\ e = FR_DISK_ERR /\ failed s s'
  | inr (None, _) => False
  end.

(** The unsigned test whether sector [x] is one of [cc] sectors from [sc] on. *)
Lemma sector_test x sc cc : 0 <= x < 2 ^ 32 -> 0 <= sc -> 0 < cc -> sc + cc < 2 ^ 32 ->
  (u32 (x - sc) <? cc) = (sc <=? x) && (x <? sc + cc).
Proof.
  intros Hx Hs Hc H. unfold u32, uwrap. eval_pow.
  destruct (Z.leb_spec sc x).
  - rewrite Z.mod_small by lia. cbn [andb]. destruct (Z.ltb_spec (x - sc) cc), (Z.ltb_spec x (sc + cc)); auto; lia.
  - replace ((x - sc) mod 4294967296) with (x - sc + 4294967296) by dlia. apply Z.ltb_ge. lia.
Qed.

Lemma mem_cpy_sector dst src : is_sector dst -> SS <= Z.of_nat (length src) ->
  mem_cpy dst 0 src SS = Ok (slice src 0 SS).
Proof.
  intros [L _] H. unfold mem_cpy. rewrite !(proj2 (Z.leb_le _ _)) by (unfold SS in *; lia). cbn [andb]. f_equal.
  rewrite skipn_all2 by (unfold SS in *; lia). unfold slice at 1. change (Z.to_nat 0) with O. cbn [firstn app].
  apply app_nil_r.
Qed.

Lemma slice_skipn b o n : 0 <= o -> slice (skipn (Z.to_nat o) b) 0 n = slice b o n.
Proof. reflexivity. Qed.

(** The part of a direct transfer after the write. *)
Lemma refresh_wp fp l f k wbuff cc s s' : file_core s fp l -> clean s fp -> has FA_DIRTY fp = false -> holds s fp l f ->
  0 <= k < room (lay s) l -> fptr fp = k * SS -> 0 < cc -> k mod csize (lay s) + cc <= csize (lay s) ->
  k + cc <= room (lay s) l -> bytes wbuff -> cc * SS <= Z.of_nat (length wbuff) ->
  file_core s' fp l -> fs s' = fs s ->
  let sc := file_sect (lay s) l k in
  (forall m, card s' m = if (sc <=? m) && (m <? sc + cc) then slice wbuff ((m - sc) * SS) SS else card s m) ->
  wp (if u32 (sect fp - sc) <? cc then
        b <- lift (mem_cpy (buf fp) 0 (skipn (Z.to_nat (u32 (sect fp - sc) * SS)) wbuff) SS) ;;
        ret (clear FA_DIRTY (set_buf b fp))
      else ret fp)
     (fun fp' s2 => s2 = s' /\ alike fp fp' /\ clust fp' = clust fp /\ file_core s' fp' l /\ clean s' fp' /\
        forall i, 0 <= i < Z.max (objsize (obj fp)) (fptr fp + SS * cc) ->
          file_data s' fp' l i = patch f (fptr fp) (slice wbuff 0 (SS * cc)) i) s'.
Proof.
  intros C CL HD H Hk EP Hcc Hm HR B HB C' Ef sc KW. pose proof (vo_layout s (fc_vol s fp l C)) as LO.
  pose proof (core_chain s fp l k C Hk) as Ch.
  pose proof (file_sect_pos _ LO _ l k Ch Hk) as P1. fold sc in P1.
  assert (sc + cc <= 0xFFFFFFFF) as P2.
  { pose proof (file_sect_pos _ LO _ l (k + (cc - 1)) Ch ltac:(lia)) as P. rewrite file_sect_next in P by (auto; lia). fold sc in P. lia. }
  assert (0 <= sect fp < 2 ^ 32) as P3.
  { destruct (fc_sect s fp l C) as [[-> _]|(j & Hj & ->)]; [lia|]. pose proof (file_sect_pos _ LO _ l j Ch Hj). lia. }
  pose proof (sector_test (sect fp) sc cc P3 ltac:(lia) Hcc ltac:(lia)) as ET. rewrite ET.
  assert (forall j, 0 <= j < room (lay s) l -> file_sect (lay s) l j = sect fp ->
            (sc <=? sect fp) && (sect fp <? sc + cc) = (k <=? j) && (j <? k + cc)) as EJ.
  { intros j Hj <-. apply (sect_range _ LO _ l k cc j Ch); auto; lia. }
  destruct ((sc <=? sect fp) && (sect fp <? sc + cc)) eqn:EB.
  - pose proof EB as EB'. apply andb_true_iff in EB' as [E1 E2]. apply Z.leb_le in E1. apply Z.ltb_lt in E2.
    assert (u32 (sect fp - sc) = sect fp - sc) as Eu by (apply uwrap_small; in_range). rewrite Eu.
    assert (card s' (sect fp) = slice wbuff ((sect fp - sc) * SS) SS) as KC by (rewrite KW, EB; reflexivity).
    apply wp_bind. eapply wp_lift; [apply mem_cpy_sector; [apply C | rewrite length_skipn; unfold SS in *; lia]|].
    rewrite slice_skipn, <- KC by (unfold SS; lia). apply wp_ret. split; [reflexivity|].
    split; [transitivity (set_buf (card s' (sect fp)) fp); [constructor; auto | now apply alike_clear]|].
    split; [reflexivity|]. split; [|split].
    + apply (core_fields s' fp); auto; [apply C'|]. intros X. rewrite has_clear in X by reflexivity. discriminate X.
    + intros _ _. reflexivity.
    + apply (direct_card fp l f k cc wbuff s s'); auto; try lia; [now rewrite Ef|].
      intros j Hj Ej. now rewrite <- (EJ j Hj Ej).
  - apply wp_ret. split; [reflexivity|]. split; [reflexivity|]. split; [reflexivity|]. split; [exact C'|]. split.
    + intros X NZ. rewrite (CL X NZ), KW, EB. reflexivity.
    + apply (direct_card fp l f k cc wbuff s s'); auto; try lia; [now rewrite Ef|].
      intros j Hj Ej. now rewrite <- (EJ j Hj Ej).
Qed.

Lemma direct_wp fp l f wbuff btw cc s : at_byte s fp l f -> has FA_DIRTY fp = false -> fptr fp mod SS = 0 ->
  bytes wbuff -> btw <= Z.of_nat (length wbuff) -> 0 < cc -> cc * SS <= btw ->
  (fptr fp / SS) mod csize (lay s) + cc <= csize (lay s) ->
  let sc := file_sect (lay s) l (fptr fp / SS) in
  wp (ok <- disk_write wbuff sc cc ;;
      if negb ok then abort FR_DISK_ERR fp
      else
        fp <- (if u32 (sect fp - sc) <? cc then
                 b <- lift (mem_cpy (buf fp) 0 (skipn (Z.to_nat (u32 (sect fp - sc) * SS)) wbuff) SS) ;;
                 ret (clear FA_DIRTY (set_buf b fp))
               else ret fp) ;;
        ret (inl (fp, SS * cc))) (transferred fp wbuff btw l f s) s.
Proof.
  intros (C & CL & H & [Hk Ec]) HD HM B Hb Hcc Hcb Hc sc. pose proof (fc_vol s fp l C) as V. pose proof (vo_layout s V) as LO.
  set (k := fptr fp / SS) in *. pose proof (core_chain s fp l k C Hk) as Ch.
  destruct (file_sect_in _ LO _ l k Ch Hk) as (Hcl & HI & Hs). fold sc in Hs.
  assert (k + cc <= room (lay s) l) as HR.
  { apply (cluster_room _ LO); [exact Hk | exact Hc]. }
  assert (sc + cc <= clust_sect (lay s) (nth_clust l (k / csize (lay s))) + csize (lay s)) as HE
    by (subst sc; unfold file_sect; lia).
  assert (fptr fp = k * SS) as EP by (subst k; unfold SS in *; dlia).
  apply wp_bind. wp_use (data_write_wp wbuff sc cc _ l s V (fc_win s fp l C) Hcl HI); auto; try (unfold in_cluster in Hs; lia).
  intros ok s' (V' & Ef & DO & FL & KW). pose proof (data_only_frame _ _ _ DO) as FR. pose proof (do_table _ _ _ DO) as KT.
  destruct ok; cbn [negb]; [|apply wp_ret; split; [exact FR | auto]]. specialize (KW eq_refl).
  assert (file_core s' fp l) as C' by (apply (core_transfer s); auto; [now rewrite Ef | now apply stays_same]).
  apply wp_bind. wp_use (refresh_wp fp l f k wbuff cc s s'); auto; try lia.
  intros fp' s2 (-> & AL & EC & C2 & CL2 & KD). apply wp_ret.
  split; [exact FR|]. split; [exact AL|]. split; [exact EC|]. split; [exact C2|]. right. exists cc.
  repeat (split; [auto; unfold SS in *; lia|]). auto.
Qed.

(** A buffer that is written back hides nothing. *)
Lemma clean_data s fp l i : file_core s fp l -> clean s fp -> has FA_DIRTY fp = false -> 0 <= i < room (lay s) l * SS ->
  file_data s fp l i = byte_at (card s (file_sect (lay s) l (i / SS))) (i mod SS).
Proof.
  intros C CL HD Hi. unfold file_data. assert (0 <= i / SS < room (lay s) l) as Hk by (unfold SS in *; dlia).
  pose proof (file_sect_pos _ (vo_layout s (fc_vol s fp l C)) _ l _ (core_chain s fp l _ C Hk) Hk) as P.
  destruct (Z.eqb_spec (file_sect (lay s) l (i / SS)) (sect fp)) as [E|]; [|reflexivity].
  rewrite E in *. rewrite (CL HD) by lia. reflexivity.
Qed.

Lemma disk_read_one n s : vol_ok s ->
  wp (disk_read n 1) (fun r s' => vol_ok s' /\ quiet s s' /\ fs s' = fs s /\ card s' = card s /\ is_sector (snd r) /\
    (fst r = true -> snd r = card s n) /\ (fst r = false -> failed s s')) s.
Proof.
  intros V. unfold disk_read, wp. rewrite flat_map_one. cbn [fst snd fs card].
  split; [destruct V; constructor; auto|].
  split; [split; [constructor; cbn; auto | now intros _]|]. split; [reflexivity|]. split; [reflexivity|].
  split; [destruct (disk_ok (calls s)); [apply V | apply spoiled_sector]|].
  split; [intros ->; reflexivity|]. intros E. apply failed_now; [exact E | cbn; lia].
Qed.

(** Less than a sector is left to write: the buffer takes the sector. *)
Lemma buffered_wp fp l f wbuff btw s : at_byte s fp l f -> has FA_DIRTY fp = false -> fptr fp mod SS = 0 -> btw < SS ->
  let sc := file_sect (lay s) l (fptr fp / SS) in
  wp (r <- (if negb (sect fp =? sc) && (fptr fp <? objsize (obj fp)) then
              '(ok, b) <- disk_read sc 1 ;;
              let fp := set_buf b fp in
              if ok then ret (inl fp) else abort FR_DISK_ERR fp
            else ret (inl fp)) ;;
      match r with
      | inr l => ret (inr l)
      | inl fp => ret (inl (set_sect sc fp, 0))
      end) (transferred fp wbuff btw l f s) s.
Proof.
  intros (C & CL & H & [Hk Ec]) HD HM Hb sc. pose proof (fc_vol s fp l C) as V. pose proof (vo_layout s V) as LO.
  pose proof (core_chain s fp l _ C Hk) as Ch. pose proof (fc_size s fp l C) as [SZ _].
  assert (forall b s', vol_ok s' -> quiet s s' -> fs s' = fs s -> card s' = card s -> is_sector b ->
    (fptr fp < objsize (obj fp) -> b = card s sc) ->
    transferred fp wbuff btw l f s (inl (set_sect sc (set_buf b fp), 0)) s') as K.
  { intros b s' V' Q Ef Ek Sb Kb. pose proof (same_updates s s' V Q) as [L T _ _ _ _ _ ST].
    split; [now apply quiet_frame|]. split; [constructor; auto|]. split; [reflexivity|]. split.
    - assert (file_core s' fp l) as [V2 T2 CH P Z B S W] by (now apply (core_transfer s)). constructor; auto.
      right. exists (fptr fp / SS). rewrite L. auto.
    - left. split; [reflexivity|]. split; [|split; [reflexivity | exact Hb]].
      intros i Hi. cbn in Hi. rewrite <- (H i Hi), (clean_data s fp l i C CL HD) by lia.
      unfold file_data. rewrite L, Ek. cbn [sect buf set_sect set_buf].
      destruct (Z.eqb_spec (file_sect (lay s) l (i / SS)) sc) as [E|]; [|reflexivity]. rewrite E.
      rewrite Kb; [reflexivity|]. apply (file_sect_inj _ LO _ l _ _ Ch) in E; [|unfold SS in *; dlia | exact Hk].
      unfold SS in *. dlia. }
  apply wp_bind. destruct (Z.eqb_spec (sect fp) sc) as [E|NE]; cbn [negb andb].
  - apply wp_ret, wp_ret. replace fp with (set_buf (buf fp) fp) at 2 by (now destruct fp).
    apply K; auto; [reflexivity | apply C |]. intros _. rewrite <- E. apply CL; [exact HD|].
    rewrite E. pose proof (file_sect_pos _ LO _ l _ Ch Hk). fold sc in H0. lia.
  - destruct (Z.ltb_spec (fptr fp) (objsize (obj fp))).
    + apply wp_bind. wp_use disk_read_one; [exact V|]. intros [ok b] s' (V' & Q & Ef & Ek & Sb & K1 & K2). cbn [fst snd] in *.
      destruct ok; cbv zeta; apply wp_ret, wp_ret; [apply K; auto|]. split; [now apply quiet_frame | auto].
    + apply wp_ret, wp_ret. replace fp with (set_buf (buf fp) fp) at 2 by (now destruct fp).
      apply K; auto; [reflexivity | apply C | lia].
Qed.

Lemma write_transfer_wp fp l f wbuff btw s : at_byte s fp l f -> has FA_DIRTY fp = false -> fptr fp mod SS = 0 ->
  bytes wbuff -> 0 < btw <= Z.of_nat (length wbuff) -> btw < 2 ^ 32 ->
  wp (write_transfer (lay s) fp wbuff btw ((fptr fp / SS) mod csize (lay s)) (file_sect (lay s) l (fptr fp / SS)))
     (transferred fp wbuff btw l f s) s.
Proof.
  intros A HD HM B Hb Hb2. pose proof A as (C & _ & _ & [Hk _]). pose proof (vo_layout s (fc_vol s fp l C)) as LO.
  pose proof (csize_pos _ LO) as CP. unfold write_transfer. cbv zeta.
  assert (0 <= (fptr fp / SS) mod csize (lay s) < csize (lay s)) as HC by (apply Z.mod_pos_bound; lia).
  assert (u32 ((fptr fp / SS) mod csize (lay s) + btw / SS) = (fptr fp / SS) mod csize (lay s) + btw / SS) as ->
    by (apply uwrap_small; unfold SS; unfold in_u; eval_pow; dlia).
  destruct (Z.ltb_spec 0 (btw / SS)) as [P|P].
  - apply direct_wp; auto; try lia.
    + destruct (Z.ltb_spec (csize (lay s)) ((fptr fp / SS) mod csize (lay s) + btw / SS)); lia.
    + destruct (Z.ltb_spec (csize (lay s)) ((fptr fp / SS) mod csize (lay s) + btw / SS)); unfold SS in *; dlia.
    + destruct (Z.ltb_spec (csize (lay s)) ((fptr fp / SS) mod csize (lay s) + btw / SS)); lia.
  - apply buffered_wp; auto. unfold SS in *; dlia.
Qed.

(** ** f_write *)

Lemma explained_after e s s1 s2 : (calls s <= calls s1)%nat -> e = FR_DISK_ERR /\ failed s1 s2 -> explained e s s2.
Proof. intros L [-> FL]. left. split; [reflexivity|]. now apply (failed_r _ s1). Qed.

Definition sector_done (fp : FIL) (wbuff : list Z) (btw : Z) (l : list Z) (f : Z -> Z) (s : vol)
    (r : FIL * Z + leaves) (s' : vol) : Prop :=
  match r with
  | inl (fp', n) => exists l' s1, grows s l l' /\ frame l' s s1 /\ lay s1 = lay s /\ positioned s1 fp' l' /\
      alike fp fp' /\ exists fp1, alike fp fp1 /\ clust fp1 = clust fp' /\ transferred fp1 wbuff btw l' f s1 r s'
  | inr (None, fp') => fp' = fp /\ frame l s s' /\ file_ok s' fp l /\ holds s' fp l f /\ full s'
  | inr (Some e, _) => exists l', grows s l l' /\ frame l' s s' /\ explained e s s'
  end.

(** The cluster of a byte that is not the first of its cluster. *)
Lemma inside_cluster s fp l f : file_ok s fp l -> holds s fp l f ->
  fptr fp mod SS <> 0 \/ (fptr fp / SS) mod csize (lay s) <> 0 -> at_byte s fp l f.
Proof.
  intros [C CL CU CC E] H HN. split; [exact C|]. split; [exact CL|]. split; [exact H|].
  pose proof (fc_vol s fp l C) as V. pose proof (csize_pos _ (vo_layout s V)) as CP.
  pose proof (fc_fptr s fp l C) as PF. pose proof (fc_size s fp l C) as [SZ _].
  assert (0 < fptr fp) as HP by (destruct (Z.eq_dec (fptr fp) 0) as [Z0|]; [rewrite Z0 in HN; destruct HN; cbn in *; rewrite ?Z.mod_0_l in *; lia | lia]).
  set (c := csize (lay s)) in *. set (q := fptr fp / SS) in *.
  assert (0 <= q) by (subst q; unfold SS; dlia).
  assert ((fptr fp - 1) / SS / c = q / c /\ q < room (lay s) l) as [E1 E2].
  { destruct (Z.eq_dec (fptr fp mod SS) 0) as [M|M].
    - destruct HN as [HN|HN]; [lia|]. replace ((fptr fp - 1) / SS) with (q - 1) by (subst q; unfold SS in *; dlia).
      pose proof (Z.mod_pos_bound q c ltac:(lia)). pose proof (Z.div_mod q c ltac:(lia)) as DM. split.
      + symmetry. apply (Z.div_unique_pos _ _ _ (q mod c - 1)); lia.
      + assert (q * SS <= room (lay s) l * SS) by (subst q; unfold SS in *; dlia).
        assert (q <> room (lay s) l); [|unfold SS in *; lia]. intros X. apply HN. rewrite X. unfold room. fold c. apply Z.mod_mul. lia.
    - replace ((fptr fp - 1) / SS) with q by (subst q; unfold SS in *; dlia). split; [reflexivity|].
      subst q. unfold SS in *. dlia. }
  split; [unfold q in *; auto|]. fold q. fold c. now rewrite (CC HP), E1.
Qed.

(** The cluster step of f_write. *)
Lemma cluster_step fp l f s : file_ok s fp l -> holds s fp l f -> fptr fp mod SS = 0 ->
  wp (if (fptr fp / SS) mod csize (lay s) =? 0 then write_cluster fp else ret (inl fp))
     (cluster_found fp l f s) s.
Proof.
  intros FO H HM. destruct (Z.eqb_spec ((fptr fp / SS) mod csize (lay s)) 0) as [E|N]; [now apply write_cluster_wp|].
  apply wp_ret. exists l, (clust fp), (sclust (obj fp)). split; [now rewrite <- moved_same; destruct fp|].
  split; [apply grows_refl|]. split; [apply frame_refl|]. apply inside_cluster; auto.
Qed.

(** The sector of the file pointer, as the code computes it. *)
Lemma clst_wp fp l s : file_core s fp l -> positioned s fp l ->
  wp (clst2sect (clust fp)) (fun sc s' => s' = s /\ sc <> 0 /\
    u32 (sc + (fptr fp / SS) mod csize (lay s)) = file_sect (lay s) l (fptr fp / SS)) s.
Proof.
  intros C [Hk Ec]. pose proof (vo_layout s (fc_vol s fp l C)) as LO. pose proof (core_chain s fp l _ C Hk) as Ch.
  destruct (file_sect_in _ LO _ l _ Ch Hk) as (Hc & _ & I). rewrite <- Ec in *.
  pose proof (n_fatent_range _ LO) as N. pose proof (layout_order _ LO) as O. pose proof (lo_base _ LO) as BA.
  pose proof (csize_pos _ LO) as CP. unfold cluster in Hc. wp_use clst2sect_wp; [exact LO | in_range |].
  intros sc s' [-> ->]. split; [reflexivity|].
  rewrite (proj2 (Z.leb_le _ _)), (proj2 (Z.ltb_lt _ _)) by lia. cbn [andb]. split; [nia|].
  pose proof (file_sect_pos _ LO _ l _ Ch Hk) as P. unfold file_sect in *. rewrite <- Ec in *. unfold clust_sect in *.
  apply uwrap_small. unfold in_u. eval_pow. lia.
Qed.

Lemma write_sector_wp fp l f wbuff btw s : file_ok s fp l -> holds s fp l f -> fptr fp mod SS = 0 ->
  bytes wbuff -> 0 < btw <= Z.of_nat (length wbuff) -> btw < 2 ^ 32 ->
  wp (write_sector fp wbuff btw) (sector_done fp wbuff btw l f s) s.
Proof.
  intros FO H HM B Hb Hb2. pose proof (fo_core s fp l FO) as C. pose proof (vo_layout s (fc_vol s fp l C)) as LO.
  pose proof (fc_fptr s fp l C) as PF. pose proof (fc_size s fp l C) as [_ SZ].
  unfold write_sector. apply wp_bind, wp_gets. cbv zeta.
  assert (u32 (fptr fp / SS) = fptr fp / SS) as -> by (apply uwrap_small; unfold in_u; eval_pow; unfold SS; dlia).
  rewrite land_csize by (auto; unfold SS; dlia). apply wp_bind. wp_use (cluster_step fp l f); auto.
  intros [fp1|[[e|] fp1]] s1 R; cbn [cluster_found] in R.
  2:{ apply wp_ret. destruct R as [FR X]. exists l. split; [apply grows_refl | auto]. }
  2:{ apply wp_ret. exact R. }
  destruct R as (l' & c & scl & -> & G & FR & A). pose proof (fr_layout _ _ _ FR) as L.
  assert (alike fp (moved c scl fp)) as AK by (constructor; auto).
  destruct A as (C1 & CL1 & H1 & PO1). apply wp_bind. wp_use flush_buf_wp; eauto.
  intros r s2 (FR2 & [(-> & C2 & CL2 & H2)|(-> & FL)]).
  2:{ apply wp_ret. exists l'. split; [exact G|]. split; [apply (frame_trans l' l' s s1); auto; apply incl_refl|].
      apply (explained_after _ s s1); [apply FR | auto]. }
  set (fp2 := flushed (moved c scl fp)) in *.
  assert (alike fp fp2) as AK2 by (transitivity (moved c scl fp); [exact AK | apply alike_flushed]).
  pose proof (fr_layout _ _ _ FR2) as L2. assert (lay s2 = lay s) as L3 by congruence.
  assert (positioned s2 fp2 l') as PO2.
  { destruct (flushed_fields (moved c scl fp)) as (_ & EF & EC & _). fold fp2 in EF, EC.
    unfold positioned in *. now rewrite EF, EC, L2. }
  pose proof (ak_fptr _ _ AK2) as EF. rewrite <- EF, <- L3.
  apply wp_bind. wp_use clst_wp; eauto. intros sc s2' [-> [NZ ->]]. rewrite (proj2 (Z.eqb_neq _ _) NZ).
  eapply wp_conseq; [apply (write_transfer_wp _ _ f); rewrite ?EF; auto; [now split; auto | apply flushed_clean]|].
  intros r s3 TR. destruct r as [[fp3 n]|[[e|] fp3]]; cbn [sector_done].
  - pose proof TR as (FR3 & AK3 & EC3 & _). exists l', s2. split; [exact G|].
    split; [apply (frame_trans l' l' s s1); auto; apply incl_refl|]. split; [exact L3|].
    split; [unfold positioned in *; now rewrite EC3, (ak_fptr _ _ AK3)|].
    split; [etransitivity; eassumption|]. exists fp2. auto.
  - destruct TR as (FR3 & E & FL). exists l'. split; [exact G|]. pose proof (incl_refl l') as IR.
    split; [apply (frame_trans l' l' s s1), (frame_trans l' l' s1 s2); auto|].
    apply (explained_after _ s s2); [pose proof (fr_calls _ _ _ FR); pose proof (fr_calls _ _ _ FR2); lia | auto].
  - destruct TR.
Qed.

(** What a call leaves of the file object besides position and size. *)
Record same_file (fp fp' : FIL) : Prop := {
  sf_fs : o_fs (obj fp') = o_fs (obj fp);
  sf_id : o_id (obj fp') = o_id (obj fp);
  sf_dir : dir_sect fp' = dir_sect fp /\ dir_ofs fp' = dir_ofs fp;
  sf_read : has FA_READ fp' = has FA_READ fp;
  sf_write : has FA_WRITE fp' = has FA_WRITE fp
}.

#[export] Instance same_file_preorder : PreOrder same_file.
Proof.
  split; [intros x; constructor; auto|]. intros a b c [] []. constructor; try congruence. split; intuition congruence.
Qed.

Lemma alike_same_file fp fp' : alike fp fp' -> same_file fp fp'.
Proof. intros []. constructor; auto. Qed.

Lemma same_file_advance w fp : same_file fp (advance w fp).
Proof. unfold advance. cbv zeta. destruct (_ <? _); constructor; auto. Qed.

(** [w] bytes of [wbuff] are in the file and the file pointer stands behind them. *)
Definition moved_to (l' : list Z) (fp : FIL) (wbuff : list Z) (w : Z) (l : list Z) (f : Z -> Z) (s : vol)
    (fp' : FIL) (s' : vol) : Prop :=
  grows s l l' /\ frame l' s s' /\ file_ok s' fp' l' /\
  holds s' fp' l' (patch f (fptr fp) (slice wbuff 0 w)) /\ fptr fp' = fptr fp + w /\
  objsize (obj fp') = Z.max (objsize (obj fp)) (fptr fp + w) /\ same_file fp fp'.

Definition moved_on (fp : FIL) (wbuff : list Z) (w : Z) (l : list Z) (f : Z -> Z) (s : vol) (fp' : FIL) (s' : vol) : Prop :=
  exists l', moved_to l' fp wbuff w l f s fp' s'.

(** The last part of a turn when the buffer takes the bytes. *)
Lemma finish_buffered fp fp1 l f wbuff btw s s1 : alike fp fp1 -> frame l s s1 ->
  file_core s1 fp1 l -> holds s1 fp1 l f -> positioned s1 fp1 l -> sect fp1 = file_sect (lay s1) l (fptr fp1 / SS) ->
  err fp1 = FR_OK -> bytes wbuff -> 0 < btw <= Z.of_nat (length wbuff) -> fptr fp1 + btw < 2 ^ 32 ->
  let w := Z.min btw (SS - fptr fp1 mod SS) in
  exists b, mem_cpy (buf fp1) (fptr fp1 mod SS) wbuff w = Ok b /\ 0 < w <= btw /\
    forall l0, grows s l0 l -> moved_on fp wbuff w l0 f s (advance w (raise FA_DIRTY (set_buf b fp1))) s1.
Proof.
  intros AK FR C H PO HS HE B Hb HP w. pose proof (fc_fptr s1 fp1 l C) as PF.
  assert (0 <= fptr fp1 mod SS < SS) as M by (apply Z.mod_pos_bound; reflexivity).
  destruct (store_buf_ok s1 fp1 l f wbuff w C H PO HS B) as (b & Eb & C' & CL' & KD); [lia | lia |].
  exists b. split; [exact Eb|]. split; [lia|]. intros l0 G. set (fp2 := raise FA_DIRTY (set_buf b fp1)) in *.
  assert (alike fp fp2) as AK2.
  { transitivity fp1; [exact AK|]. transitivity (set_buf b fp1); [constructor; auto | now apply alike_raise]. }
  destruct PO as [Hk Ec].
  destruct (advance_ok s1 fp2 l (patch f (fptr fp1) (slice wbuff 0 w)) w) as (F1 & F2 & F3 & F4 & _); auto; try lia.
  - cbn [fptr fp2 raise set_flag set_buf]. unfold SS in *. dlia.
  - cbn [fptr fp2 raise set_flag set_buf]. lia.
  - cbn [fptr clust fp2 raise set_flag set_buf]. rewrite Ec. do 2 f_equal. unfold SS in *. dlia.
  - cbn [fptr sect fp2 raise set_flag set_buf]. intros NZ. rewrite HS. f_equal. unfold SS in *. dlia.
  - exists l. split; [exact G|]. split; [exact FR|]. split; [exact F1|].
    rewrite <- (ak_fptr _ _ AK). split; [exact F2|]. split; [exact F3|]. rewrite <- (ak_size _ _ AK). split; [exact F4|].
    transitivity fp2; [now apply alike_same_file | apply same_file_advance].
Qed.

(** The last part of a turn after a direct transfer. *)
Lemma finish_direct fp fp1 fp2 l f wbuff cc s s1 s2 : alike fp fp1 -> alike fp1 fp2 -> clust fp2 = clust fp1 ->
  frame l s s1 -> frame l s1 s2 -> positioned s1 fp1 l -> err fp1 = FR_OK -> file_core s2 fp2 l -> clean s2 fp2 ->
  fptr fp1 mod SS = 0 -> 0 < cc -> (fptr fp1 / SS) mod csize (lay s1) + cc <= csize (lay s1) ->
  fptr fp1 / SS + cc <= room (lay s1) l -> fptr fp1 + SS * cc < 2 ^ 32 ->
  (forall i, 0 <= i < Z.max (objsize (obj fp1)) (fptr fp1 + SS * cc) ->
     file_data s2 fp2 l i = patch f (fptr fp1) (slice wbuff 0 (SS * cc)) i) ->
  forall l0, grows s l0 l -> moved_on fp wbuff (SS * cc) l0 f s (advance (SS * cc) fp2) s2.
Proof.
  intros AK AK2 EC FR1 FR2 [Hk Ec] HE C CL HM Hcc Hc HR HP KD l0 G. pose proof (fr_layout _ _ _ FR2) as L.
  pose proof (ak_fptr _ _ AK2) as E1. pose proof (ak_size _ _ AK2) as E2.
  pose proof (csize_pos _ (vo_layout s2 (fc_vol s2 fp2 l C))) as CP. rewrite L in CP.
  destruct (advance_ok s2 fp2 l (patch f (fptr fp1) (slice wbuff 0 (SS * cc))) (SS * cc)) as (F1 & F2 & F3 & F4 & _);
    rewrite ?E1, ?E2, ?L; auto.
  - rewrite (ak_err _ _ AK2). exact HE.
  - unfold SS. lia.
  - unfold SS in *. dlia.
  - rewrite EC, Ec. f_equal. replace ((fptr fp1 + SS * cc - 1) / SS) with (fptr fp1 / SS + (cc - 1)) by (unfold SS in *; dlia).
    pose proof (Z.mod_pos_bound (fptr fp1 / SS) (csize (lay s1)) ltac:(lia)).
    apply (Z.div_unique_pos _ _ _ ((fptr fp1 / SS) mod csize (lay s1) + (cc - 1))); [lia|].
    rewrite (Z.div_mod (fptr fp1 / SS) (csize (lay s1))) at 1 by lia. lia.
  - intros NZ. exfalso. apply NZ. unfold SS in *. dlia.
  - exists l. split; [exact G|]. split; [apply (frame_trans l l s s1); auto; apply incl_refl|]. split; [exact F1|].
    rewrite <- (ak_fptr _ _ AK), <- (ak_size _ _ AK). rewrite E1 in F3, F4. rewrite E2 in F4.
    split; [exact F2|]. split; [exact F3|]. split; [exact F4|].
    transitivity fp2; [apply alike_same_file; etransitivity; eassumption | apply same_file_advance].
Qed.

(** A turn of the loop. *)
Definition turn_done (fp : FIL) (wbuff : list Z) (btw bw : Z) (l : list Z) (f : Z -> Z) (s : vol)
    (r : FIL * list Z * Z * Z + leaves * Z) (s' : vol) : Prop :=
  match r with
  | inl (fp', wbuff', btw', bw') => exists w, 0 < w <= btw /\ wbuff' = skipn (Z.to_nat w) wbuff /\
      btw' = btw - w /\ bw' = bw + w /\ moved_on fp wbuff w l f s fp' s'
  | inr (None, fp', bw') => bw' = bw /\ fp' = fp /\ frame l s s' /\ file_ok s' fp l /\ holds s' fp l f /\
      (btw = 0 \/ full s')
  | inr (Some e, _, bw') => bw' = bw /\ exists l', grows s l l' /\ frame l' s s' /\ explained e s s'
  end.

Lemma min_if a b : (if a <? b then a else b) = Z.min a b.
Proof. destruct (Z.ltb_spec a b); lia. Qed.

Lemma write_turn_wp fp l f wbuff btw bw s : file_ok s fp l -> holds s fp l f -> bytes wbuff ->
  0 <= btw <= Z.of_nat (length wbuff) -> fptr fp + btw < 2 ^ 32 ->
  wp (write_turn (fp, wbuff, btw, bw)) (turn_done fp wbuff btw bw l f s) s.
Proof.
  intros FO H B Hb HP. pose proof (fo_core s fp l FO) as C. pose proof (fc_fptr s fp l C) as PF.
  unfold write_turn. destruct (Z.eqb_spec btw 0) as [E0|N0].
  { apply wp_ret. repeat (split; [auto using frame_refl|]). auto. }
  assert (forall x, 0 <= x < 2 ^ 32 -> u32 x mod SS = x mod SS) as EU by (intros x Hx; unfold u32; now rewrite uwrap_small).
  apply wp_bind. destruct (Z.eqb_spec (fptr fp mod SS) 0) as [M|M].
  - wp_use (write_sector_wp fp l f); auto; try lia.
    intros [[fp2 n]|[[e|] fp2]] s2 R; cbn [sector_done] in R; try (apply wp_ret; cbn [turn_done]).
    2:{ split; [reflexivity | exact R]. }
    2:{ destruct R as (-> & R). repeat (split; [now auto|]). intuition. }
    destruct R as (l' & s1 & G & FR & L & PO & AK2 & fp1 & AK & EC & FR2 & AK3 & _ & C2 & TR).
    assert (fptr fp1 = fptr fp) as E1 by apply AK. pose proof (ak_fptr _ _ AK2) as E2.
    assert (err fp2 = FR_OK) as HE by (rewrite (ak_err _ _ AK2); apply FO).
    pose proof (fr_layout _ _ _ FR2) as L2. pose proof (frame_trans l' l' s s1 s2 (incl_refl l') FR FR2) as FR3.
    destruct TR as [(-> & H2 & HS & _)|(cc & Hcc & -> & Hn & Hc & HR & CL & KD)].
    + cbn [Z.eqb]. rewrite EU, min_if by lia.
      destruct (finish_buffered fp fp2 l' f wbuff btw s s2) as (b & Eb & Hw & MO); auto; try lia.
      { unfold positioned in *. now rewrite L2. }
      { rewrite HS, L2. f_equal. congruence. }
      apply wp_bind, wp_bind. eapply wp_lift; [exact Eb|]. apply wp_ret, wp_ret. eexists. split; [exact Hw|]. auto 6.
    + destruct (Z.eqb_spec (SS * cc) 0); [unfold SS in *; lia|]. apply wp_bind, wp_ret, wp_ret.
      exists (SS * cc). split; [unfold SS in *; lia|]. repeat (split; [reflexivity|]).
      apply (finish_direct fp fp1 fp2 l' f wbuff cc s s1 s2); auto; try congruence; try lia.
      * unfold positioned in *. rewrite E1, EC, <- E2. exact PO.
      * rewrite (ak_err _ _ AK). apply FO.
  - apply wp_ret. cbn [Z.eqb]. rewrite EU, min_if by lia.
    pose proof (inside_cluster s fp l f FO H (or_introl M)) as (_ & _ & _ & PO).
    destruct (finish_buffered fp fp l f wbuff btw s s) as (b & Eb & Hw & MO); auto; try lia; try apply FO; auto.
    { reflexivity. }
    { apply frame_refl. }
    apply wp_bind, wp_bind. eapply wp_lift; [exact Eb|]. apply wp_ret, wp_ret. eexists. split; [exact Hw|].
    repeat (split; [reflexivity|]). apply MO, grows_refl.
Qed.

Lemma patch_patch f o d1 d2 i : patch (patch f o d1) (o + Z.of_nat (length d1)) d2 i = patch f o (d1 ++ d2) i.
Proof.
  unfold patch, byte_at. rewrite length_app, Nat2Z.inj_add.
  destruct (Z.leb_spec o i), (Z.ltb_spec i (o + Z.of_nat (length d1))), (Z.leb_spec (o + Z.of_nat (length d1)) i),
    (Z.ltb_spec i (o + Z.of_nat (length d1) + Z.of_nat (length d2))),
    (Z.ltb_spec i (o + (Z.of_nat (length d1) + Z.of_nat (length d2)))); cbn [andb]; auto; try lia.
  - now rewrite app_nth1 by lia.
  - rewrite app_nth2 by lia. f_equal. lia.
Qed.

Lemma slice_app b n w : 0 <= n -> 0 <= w -> slice b 0 n ++ slice (skipn (Z.to_nat n) b) 0 w = slice b 0 (n + w).
Proof.
  intros Hn Hw. unfold slice. change (Z.to_nat 0) with O. cbn [skipn].
  rewrite Z2Nat.inj_add by lia. rewrite <- (firstn_skipn (Z.to_nat n) b) at 3.
  destruct (Nat.le_gt_cases (length b) (Z.to_nat n)) as [L|L].
  - rewrite (firstn_all2 b) by exact L. rewrite (skipn_all2 b) by exact L. rewrite firstn_nil, !app_nil_r.
    symmetry. apply firstn_all2. lia.
  - rewrite firstn_app, length_firstn, Nat.min_l, firstn_firstn, Nat.min_r by lia. do 2 f_equal. lia.
Qed.

Lemma moved_on_trans fp fp1 fp2 wbuff n w l l1 f s s1 s2 : 0 <= n <= Z.of_nat (length wbuff) -> 0 <= w ->
  moved_to l1 fp wbuff n l f s fp1 s1 ->
  moved_on fp1 (skipn (Z.to_nat n) wbuff) w l1 (patch f (fptr fp) (slice wbuff 0 n)) s1 fp2 s2 ->
  moved_on fp wbuff (n + w) l f s fp2 s2.
Proof.
  intros Hn Hw (G1 & FR1 & FO1 & H1 & P1 & Z1 & SF1) (l2 & G2 & FR2 & FO2 & H2 & P2 & Z2 & SF2).
  exists l2. split; [now apply (grows_trans s s1 l l1 l2)|].
  split; [apply (frame_trans l1 l2 s s1); auto; now apply (grows_incl s1)|].
  split; [exact FO2|]. split; [|split; [lia | split; [lia | etransitivity; eassumption]]].
  intros i Hi. rewrite (H2 i Hi), P1.
  replace (fptr fp + n) with (fptr fp + Z.of_nat (length (slice wbuff 0 n))) by (rewrite slice_length; lia).
  now rewrite patch_patch, slice_app by lia.
Qed.

Lemma moved_on_0 fp wbuff l f s : file_ok s fp l -> holds s fp l f -> moved_on fp wbuff 0 l f s fp s.
Proof.
  intros FO H. exists l. split; [apply grows_refl|]. split; [apply frame_refl|]. split; [exact FO|].
  split; [|split; [lia | split; [pose proof (fc_fptr _ _ _ (fo_core s fp l FO)); lia | reflexivity]]].
  intros i Hi. rewrite (H i Hi). unfold patch. cbn [slice firstn Z.to_nat length]. change (Z.of_nat 0) with 0.
  destruct (Z.leb_spec (fptr fp) i), (Z.ltb_spec i (fptr fp + 0)); cbn [andb]; auto; lia.
Qed.

(** No entry of a chain is reserved. *)
Lemma chain_entry g m l c : layout_ok g -> chain g m l -> In c l -> 2 <= m c.
Proof.
  intros LO C I. apply (In_nth l c 0) in I as (i & Hi & <-). pose proof (chain_nth _ _ _ C i Hi) as E.
  pose proof (lo_ent _ LO). destruct (Nat.eqb_spec (S i) (length l)); [lia|]. rewrite E.
  assert (cluster g (nth (S i) l 0)) as X by (apply (chain_clusters _ _ _ C), nth_In; lia). unfold cluster in X. lia.
Qed.

Lemma explained_before e fp l s s1 s2 : file_core s1 fp l -> frame l s s1 -> (calls s1 <= calls s2)%nat ->
  explained e s1 s2 -> explained e s s2.
Proof.
  intros C FR LE [[-> FL]|[-> [(c & Hc & E1)|FL]]].
  - left. split; [reflexivity|]. apply (failed_r _ s1); [exact FL | apply FR].
  - right. split; [reflexivity|]. pose proof (fr_layout _ _ _ FR) as L. rewrite L in Hc.
    assert (~ In c l) as NI.
    { intros I. destruct (fc_chain s1 fp l C) as [[-> _]|[Ch _]]; [contradiction|].
      pose proof (chain_entry _ _ _ _ (vo_layout s1 (fc_vol s1 fp l C)) Ch I). lia. }
    destruct (fr_table _ _ _ FR c Hc NI) as [E|[_ FL]]; [left; exists c; split; [exact Hc | congruence] |].
    right. now apply (failed_l _ s1).
  - right. split; [reflexivity|]. right. apply (failed_r _ s1); [exact FL | apply FR].
Qed.

(** What the loop of f_write leaves. *)
Definition wrote (fp : FIL) (wbuff : list Z) (btw : Z) (l : list Z) (f : Z -> Z) (s : vol) (r : leaves * Z) (s' : vol) : Prop :=
  let '(o, fp', bw) := r in
  0 <= bw <= btw /\
  match o with
  | None => moved_on fp wbuff bw l f s fp' s' /\ (bw = btw \/ full s')
  | Some e => exists l', grows s l l' /\ frame l' s s' /\ explained e s s'
  end.

Lemma write_loop fp l f buff btw s : file_ok s fp l -> holds s fp l f -> bytes buff ->
  0 <= btw <= Z.of_nat (length buff) -> fptr fp + btw < 2 ^ 32 ->
  wp (iter (S (Z.to_nat btw)) write_turn (fp, buff, btw, 0)) (wrote fp buff btw l f s) s.
Proof.
  intros FO H B Hb HP.
  apply (wp_iter _ (fun x s1 => let '(fp1, wb, n, bw) := x in
           wb = skipn (Z.to_nat bw) buff /\ n = btw - bw /\ 0 <= bw <= btw /\ moved_on fp buff bw l f s fp1 s1)
         (fun x _ => let '(_, _, n, _) := x in Z.to_nat n)).
  2:{ split; [reflexivity|]. split; [lia|]. split; [lia|]. now apply moved_on_0. }
  2:{ lia. }
  intros [[[fp1 wb] n] bw] s1 (-> & -> & Hw & l1 & MT). pose proof MT as (G1 & FR1 & FO1 & H1 & P1 & Z1 & SF1).
  wp_use (write_turn_wp fp1 l1 (patch f (fptr fp) (slice buff 0 bw))); auto.
  - now apply bytes_skipn.
  - rewrite length_skipn. lia.
  - lia.
  - intros [[[[fp2 wb2] n2] bw2]|[[[e|] fp2] bw2]] s2 R; cbn [turn_done] in R.
    + destruct R as (w & Hw2 & -> & -> & -> & MO2). split; [|lia]. split; [rewrite skipn_skipn; f_equal; lia|].
      split; [lia|]. split; [lia|]. apply (moved_on_trans fp fp1 fp2 buff bw w l l1 f s s1 s2); auto; lia.
    + destruct R as (-> & l2 & G2 & FR2 & X). split; [exact Hw|]. exists l2. split; [now apply (grows_trans s s1 l l1 l2)|].
      split; [apply (frame_trans l1 l2 s s1); auto; now apply (grows_incl s1)|].
      apply (explained_before e fp1 l1 s s1 s2); auto; [apply FO1 | apply FR2].
    + destruct R as (-> & -> & FR2 & FO2 & H2 & X). split; [exact Hw|]. split; [|destruct X; [left; lia | now right]].
      exists l1. split; [exact G1|]. split; [apply (frame_trans l1 l1 s s1); auto; apply incl_refl|]. auto.
Qed.

(** The file is open on the volume as it is mounted. *)
Definition opened (s : vol) (fp : FIL) : Prop := o_fs (obj fp) = true /\ o_id (obj fp) = fsid (lay s).

Lemma disk_status_wp s : vol_ok s ->
  wp disk_status (fun ok s' => vol_ok s' /\ quiet s s' /\ (ok = false -> failed s s')) s.
Proof.
  intros V. unfold disk_status, wp. split; [destruct V; constructor; auto|].
  split; [split; [constructor; cbn; auto | now intros _]|]. intros E. apply failed_now; [exact E | cbn; lia].
Qed.

Lemma validate_wp fp s : vol_ok s -> opened s fp ->
  wp (validate (obj fp)) (fun r s' => vol_ok s' /\ quiet s s' /\
    (r = FR_OK \/ r = FR_INVALID_OBJECT /\ failed s s')) s.
Proof.
  intros V [O1 O2]. unfold validate. apply wp_bind, wp_gets. pose proof (lo_type _ (vo_layout s V)) as T.
  rewrite O1, O2, Z.eqb_refl, (proj2 (Z.eqb_neq _ _)) by lia. cbn [negb andb].
  apply wp_bind. wp_use disk_status_wp; [exact V|]. intros ok s' (V' & Q & FL). apply wp_ret.
  split; [exact V'|]. split; [exact Q|]. destruct ok; auto.
Qed.

Lemma file_ok_flag s fp l f b : Z.land b 0xC3 = 0x40 -> file_ok s fp l -> holds s fp l f ->
  file_ok s (raise b fp) l /\ holds s (raise b fp) l f.
Proof.
  intros Eb [[V T CH P Z B S W] CL CU CC E] H.
  assert (has FA_DIRTY (raise b fp) = has FA_DIRTY fp) as ED.
  { apply has_raise_other. change FA_DIRTY with (Z.land 0xC3 FA_DIRTY). now rewrite Z.land_assoc, Eb. }
  split; [|exact H]. constructor; auto.
  - constructor; auto. rewrite ED. exact S.
  - unfold clean. rewrite ED. exact CL.
Qed.

(** The bytes f_write is prepared to write: a file on a FAT volume stays below
    4 GiB. *)
Definition clipped (fp : FIL) (btw : Z) : Z := Z.min btw (0xFFFFFFFF - fptr fp).

Lemma clip_test fp btw : 0 <= fptr fp < 2 ^ 32 -> 0 <= btw < 2 ^ 32 ->
  (if u32 (fptr fp + btw) <? u32 (fptr fp) then 0xFFFFFFFF - u32 (fptr fp) else btw) = clipped fp btw.
Proof.
  intros H1 H2. unfold clipped, u32, uwrap. rewrite (Z.mod_small (fptr fp)) by exact H1. eval_pow.
  destruct (Z.ltb_spec ((fptr fp + btw) mod 4294967296) (fptr fp)); dlia.
Qed.

Lemma f_write_wp fp l f buff btw s : file_ok s fp l -> holds s fp l f -> opened s fp -> has FA_WRITE fp = true ->
  bytes buff -> 0 <= btw <= Z.of_nat (length buff) -> btw < 2 ^ 32 ->
  wp (f_write fp buff btw) (fun x s' => let '(r, bw, fp') := x in
    0 <= bw <= clipped fp btw /\
    (r = FR_OK /\ moved_on fp buff bw l f s fp' s' /\ has FA_MODIFIED fp' = true /\
       (bw = clipped fp btw \/ full s') \/
     r = FR_INVALID_OBJECT /\ failed s s' /\ fp' = fp /\ quiet s s' \/
     exists l', grows s l l' /\ frame l' s s' /\ explained r s s')) s.
Proof.
  intros FO H OP HW B Hb Hb2. pose proof (fo_core s fp l FO) as C. pose proof (fc_vol s fp l C) as V.
  pose proof (fc_fptr s fp l C) as PF. pose proof (fc_size s fp l C) as [_ SZ].
  unfold f_write. apply wp_bind, wp_gets. apply wp_bind. wp_use validate_wp; auto.
  assert (0 <= clipped fp btw <= btw /\ fptr fp + clipped fp btw < 2 ^ 32) as [CB CB2] by (unfold clipped; lia).
  intros r s1 (V1 & Q & [->|[-> FL]]).
  2:{ apply wp_ret. split; [lia|]. right. left. auto. }
  rewrite (fo_err s fp l FO), HW. cbn [negb]. rewrite (proj2 (Z.eqb_neq _ _) (fc_type s fp l C)). cbn [negb andb].
  rewrite clip_test by lia. destruct (quiet_file s s1 fp l f FO V1 Q H) as [FO1 H1].
  pose proof (quiet_frame l s s1 V Q) as FR0.
  assert (forall l', grows s1 l l' -> grows s l l') as GT by (intros l'; now apply grows_trans; [apply grows_refl|]).
  apply wp_bind. wp_use (write_loop fp l f); eauto; [lia|]. intros [[[e|] fp2] bw] s2 [Hbw R].
  - apply wp_ret. split; [exact Hbw|]. right. right. destruct R as (l' & G & FR & X). exists l'. split; [auto|].
    split; [apply (frame_trans l l' s s1); auto; now apply (grows_incl s1)|].
    apply (explained_before e fp l s s1 s2); auto; [apply FO1 | apply FR].
  - destruct R as [(l' & G & FR & FO2 & H2 & P2 & Z2 & SF) X]. apply wp_ret. split; [exact Hbw|]. left.
    split; [reflexivity|]. destruct (file_ok_flag s2 fp2 l' _ FA_MODIFIED eq_refl FO2 H2) as [FO3 H3].
    split; [|split; [now apply has_raise | exact X]].
    exists l'. split; [auto|]. split; [apply (frame_trans l l' s s1); auto; now apply (grows_incl s1)|].
    split; [exact FO3|]. split; [exact H3|]. split; [exact P2|]. split; [exact Z2|].
    transitivity fp2; [exact SF | now apply alike_same_file, alike_raise].
Qed.
End FileLaws.
