(* ===== verification/FatRead.v ===== *)
(** * ext/fatfs/src/ff.c: what f_read returns

    f_read returns the contents of the file from the file pointer on, as many
    bytes as asked for or as there are; bytes that f_write has left in the
    buffer of the file object are among them. *)

From Stdlib Require Import ZArith Bool List Lia.
From Stdlib Require Import Classes.RelationClasses.
From S2P Require Import Prelude FatVol FatTable FatBitmap FatChain FatFile FatWrite.
Import ListNotations.
Local Open Scope Z_scope.
Local Open Scope fw_scope.

Section ReadLaws.
Context `{D : DiskIo} {DL : DiskLaws D}.

(** ** The next cluster *)

Definition cluster_read (fp : FIL) (l : list Z) (f : Z -> Z) (s : vol) (r : FIL + leaves) (s' : vol) : Prop :=
  match r with
  | inl fp' => frame l s s' /\ alike fp fp' /\ at_byte s' fp' l f
  | inr (Some e, _) => frame l s s' /\ e = FR_DISK_ERR /\ failed s s'
  | inr (None, _) => False
  end.

(** The cluster [c] of the file pointer is there. *)
Lemma cluster_read_ok fp l f c s s' : file_ok s fp l -> holds s fp l f -> vol_ok s' -> quiet s s' ->
  0 <= fptr fp / SS < room (lay s) l -> c = nth_clust l (fptr fp / SS / csize (lay s)) ->
  cluster_read fp l f s (inl (set_clust c fp)) s'.
Proof.
  intros FO H V' Q Hk ->. pose proof (fc_vol _ _ _ (fo_core s fp l FO)) as V.
  destruct (quiet_file s s' fp l f FO V' Q H) as [[C CL CU CC E] H'].
  split; [now apply quiet_frame|]. split; [constructor; auto|]. split; [|split; [exact CL | split; [exact H' |]]].
  - now apply (core_fields s' fp); auto; apply C.
  - split; rewrite (quiet_layout Q); [exact Hk | reflexivity].
Qed.

Lemma read_cluster_wp fp l f s : file_ok s fp l -> holds s fp l f -> fptr fp mod SS = 0 ->
  (fptr fp / SS) mod csize (lay s) = 0 -> 0 <= fptr fp / SS < room (lay s) l ->
  wp (read_cluster fp) (cluster_read fp l f s) s.
Proof.
  intros FO H H1 H2 Hk. pose proof (fo_core s fp l FO) as C. pose proof (fc_vol s fp l C) as V.
  pose proof (vo_layout s V) as LO. pose proof (csize_pos _ LO) as CP. pose proof (core_chain s fp l _ C Hk) as Ch.
  pose proof (n_fatent_range _ LO) as N. pose proof (fc_fptr s fp l C) as PF.
  assert (0 <= fptr fp / SS / csize (lay s) < Z.of_nat (length l)) as HJ.
  { unfold room in Hk. split; [apply Z.div_pos; lia | apply Z.div_lt_upper_bound; lia]. }
  assert (cluster (lay s) (nth_clust l (fptr fp / SS / csize (lay s)))) as Hc
    by (apply (chain_clusters _ _ _ Ch), nth_In; lia).
  unfold read_cluster. apply wp_bind.
  apply (wp_conseq _ (fun v s' => vol_ok s' /\ quiet s s' /\
    (v = nth_clust l (fptr fp / SS / csize (lay s)) \/ v = 0xFFFFFFFF /\ failed s s'))).
  - destruct (Z.eqb_spec (fptr fp) 0) as [E0|N0].
    + apply wp_ret. split; [exact V|]. split; [reflexivity|]. left. rewrite E0.
      change (0 / SS) with 0. rewrite Z.div_0_l by lia. destruct (fc_chain s fp l C) as [[-> _]|[_ E]]; [contradiction | now symmetry].
    + destruct (boundary s fp l FO H1 H2 ltac:(lia)) as (Ej & Hj & Ec). set (j := fptr fp / SS / csize (lay s)) in *.
      unfold nth_clust in Ec. pose proof (chain_nth _ _ _ Ch (Z.to_nat (j - 1)) ltac:(lia)) as CN.
      destruct (Nat.eqb_spec (S (Z.to_nat (j - 1))) (length l)) as [EL|_]; [lia|].
      replace (S (Z.to_nat (j - 1))) with (Z.to_nat j) in CN by lia. rewrite <- Ec in CN.
      wp_use get_fat_wp; [exact V | apply C |]. intros v s' (V' & Q & Ev). rewrite fat_value_entry in Ev.
      2:{ rewrite Ec. apply (chain_clusters _ _ _ Ch), nth_In. lia. }
      rewrite CN in Ev. auto.
  - intros v s' (V' & Q & [->|[-> FL]]); [|apply wp_ret; split; [now apply quiet_frame | auto]].
    unfold cluster in Hc. destruct (Z.ltb_spec (nth_clust l (fptr fp / SS / csize (lay s))) 2); [lia|].
    destruct (Z.eqb_spec (nth_clust l (fptr fp / SS / csize (lay s))) 0xFFFFFFFF); [exfalso; eval_pow; lia|].
    apply wp_ret. now apply cluster_read_ok.
Qed.

(** ** Direct transfers *)

Lemma flat_byte_at (h : Z -> list Z) a k : (forall m, is_sector (h m)) -> forall st i, 0 <= i < Z.of_nat k * SS ->
  byte_at (flat_map h (map (fun j => a + Z.of_nat j) (seq st k))) i = byte_at (h (a + Z.of_nat st + i / SS)) (i mod SS).
Proof.
  intros HS. induction k as [|k IH]; intros st i Hi; [unfold SS in *; lia|]. cbn [seq map flat_map].
  pose proof (proj1 (HS (a + Z.of_nat st))) as L. unfold byte_at at 1. destruct (Z.ltb_spec i SS) as [LT|GE].
  - rewrite app_nth1 by lia. rewrite Z.div_small, Z.mod_small by lia. now rewrite Z.add_0_r.
  - rewrite app_nth2 by lia. replace (Z.to_nat i - length (h (a + Z.of_nat st)%Z))%nat with (Z.to_nat (i - SS)) by lia.
    unfold byte_at in IH at 1. rewrite IH by (unfold SS in *; lia).
    f_equal; [f_equal|]; unfold SS in *; dlia.
Qed.

Lemma flat_byte (h : Z -> list Z) a n i : (forall m, is_sector (h m)) -> 0 <= i < n * SS ->
  byte_at (flat_map h (zseq a n)) i = byte_at (h (a + i / SS)) (i mod SS).
Proof.
  intros HS Hi. unfold zseq. rewrite flat_byte_at by (auto; unfold SS in *; lia). now rewrite Z.add_0_r.
Qed.

Lemma flat_sectors (h : Z -> list Z) (l : list Z) : (forall m, is_sector (h m)) ->
  Z.of_nat (length (flat_map h l)) = Z.of_nat (length l) * SS /\ bytes (flat_map h l).
Proof.
  intros HS. induction l as [|x l [IH1 IH2]]; [split; [reflexivity | constructor]|]. cbn [flat_map]. destruct (HS x) as [L B].
  split; [rewrite length_app; cbn [length]; unfold SS in *; lia | now apply Forall_app].
Qed.

(** Outcome of a transfer at the file pointer. *)
Definition fetched (fp : FIL) (btr : Z) (l : list Z) (f : Z -> Z) (s : vol) (r : FIL * list Z + leaves) (s' : vol) : Prop :=
  match r with
  | inl (fp', d) => frame l s s' /\ alike fp fp' /\ at_byte s' fp' l f /\
      (d = [] /\ sect fp' = file_sect (lay s) l (fptr fp / SS) \/
       exists cc, 0 < cc /\ Z.of_nat (length d) = SS * cc /\ SS * cc <= btr /\
         (fptr fp / SS) mod csize (lay s) + cc <= csize (lay s) /\
         bytes d /\ forall i, 0 <= i < SS * cc -> byte_at d i = f (fptr fp + i))
  | inr (Some e, _) => frame l s s' /\ e = FR_DISK_ERR /\ failed s s'
  | inr (None, _) => False
  end.

Lemma disk_read_wp n cc s : vol_ok s ->
  wp (disk_read n cc) (fun r s' => vol_ok s' /\ quiet s s' /\ fs s' = fs s /\ card s' = card s /\
    (fst r = true -> snd r = flat_map (card s) (zseq n cc)) /\ (fst r = false -> failed s s')) s.
Proof.
  intros V. unfold disk_read, wp. cbn [fst snd fs card].
  split; [destruct V; constructor; auto|]. split; [split; [constructor; cbn; auto | now intros _]|].
  split; [reflexivity|]. split; [reflexivity|]. split; [intros ->; reflexivity|].
  intros E. apply failed_now; [exact E | cbn; lia].
Qed.

(** The bytes of whole sectors from the file pointer on, the buffer included. *)
Lemma direct_read fp l f k cc s d : file_core s fp l -> clean s fp -> holds s fp l f -> fptr fp = k * SS -> 0 <= k ->
  0 < cc -> k mod csize (lay s) + cc <= csize (lay s) -> k + cc <= room (lay s) l -> fptr fp + SS * cc <= objsize (obj fp) ->
  let sc := file_sect (lay s) l k in
  (forall i, 0 <= i < SS * cc ->
     byte_at d i = byte_at (if (sc + i / SS =? sect fp) && has FA_DIRTY fp then buf fp else card s (sc + i / SS)) (i mod SS)) ->
  forall i, 0 <= i < SS * cc -> byte_at d i = f (fptr fp + i).
Proof.
  intros C CL H EP Hk Hcc Hm HR HO sc HD i Hi. rewrite HD, <- H by (unfold SS in *; lia). unfold file_data.
  assert (0 <= i / SS < cc) as Hq by (unfold SS in *; dlia).
  replace ((fptr fp + i) / SS) with (k + i / SS) by (rewrite EP; unfold SS; dlia).
  replace ((fptr fp + i) mod SS) with (i mod SS) by (rewrite EP; unfold SS; dlia).
  pose proof (vo_layout s (fc_vol s fp l C)) as LO. pose proof (core_chain s fp l (k + i / SS) C ltac:(lia)) as Ch.
  pose proof (file_sect_pos _ LO _ l (k + i / SS) Ch ltac:(lia)) as P.
  rewrite file_sect_next in P |- * by (auto; lia). fold sc in P |- *.
  destruct (Z.eqb_spec (sc + i / SS) (sect fp)) as [E|]; cbn [andb]; [|reflexivity].
  destruct (has FA_DIRTY fp) eqn:ED; [reflexivity|]. rewrite E in *. rewrite (CL ED) by lia. reflexivity.
Qed.

Lemma fetch_direct fp l f btr cc s : at_byte s fp l f -> fptr fp mod SS = 0 -> 0 < cc -> SS * cc <= btr ->
  fptr fp + btr <= objsize (obj fp) -> (fptr fp / SS) mod csize (lay s) + cc <= csize (lay s) ->
  let sc := file_sect (lay s) l (fptr fp / SS) in
  wp ('(ok, d) <- disk_read sc cc ;;
      if negb ok then abort FR_DISK_ERR fp
      else
        d <- (if has FA_DIRTY fp && (u32 (sect fp - sc) <? cc)
              then lift (mem_cpy d (u32 (sect fp - sc) * SS) (buf fp) SS) else ret d) ;;
        ret (inl (fp, d))) (fetched fp btr l f s) s.
Proof.
  intros (C & CL & H & PO) HM Hcc Hb HO Hc sc. pose proof PO as [Hk _]. pose proof (fc_vol s fp l C) as V.
  pose proof (vo_layout s V) as LO. pose proof (core_chain s fp l _ C Hk) as Ch. set (k := fptr fp / SS) in *.
  assert (fptr fp = k * SS) as EP by (subst k; unfold SS in *; dlia).
  pose proof (cluster_room _ LO l k cc Hk Hc) as HR. pose proof (file_sect_pos _ LO _ l k Ch Hk) as P1. fold sc in P1.
  apply wp_bind. wp_use disk_read_wp; [exact V|]. intros [ok d] s' (V' & Q & Ef & Ek & K1 & K2). cbn [fst snd] in *.
  destruct ok; cbn [negb]; [|apply wp_ret; split; [now apply quiet_frame | auto]].
  rewrite K1 by reflexivity. pose proof (vo_card s V) as SC.
  destruct (flat_sectors (card s) (zseq sc cc) SC) as [DL' DB]. rewrite zseq_length in DL'.
  assert (forall d', Z.of_nat (length d') = SS * cc -> bytes d' ->
    (forall i, 0 <= i < SS * cc ->
       byte_at d' i = byte_at (if (sc + i / SS =? sect fp) && has FA_DIRTY fp then buf fp else card s (sc + i / SS)) (i mod SS)) ->
    fetched fp btr l f s (inl (fp, d')) s') as K.
  { intros d' L' B' KD. split; [now apply quiet_frame|]. split; [reflexivity|]. split; [now apply (quiet_at s)|].
    right. exists cc. repeat (split; [auto; lia|]). apply (direct_read fp l f k cc s d'); auto; try lia. }
  destruct (has FA_DIRTY fp && (u32 (sect fp - sc) <? cc)) eqn:ET.
  - apply andb_true_iff in ET as [ED ET]. destruct (dirty_sector s fp l C ED) as (j & Hj & Ej).
    pose proof (file_sect_pos _ LO _ l j Ch Hj) as P2. rewrite <- Ej in P2.
    assert (sc + cc <= 0xFFFFFFFF) as P3.
    { pose proof (file_sect_pos _ LO _ l (k + (cc - 1)) Ch ltac:(lia)) as P. rewrite file_sect_next in P by (auto; lia). fold sc in P. lia. }
    rewrite sector_test in ET by lia. apply andb_true_iff in ET as [E1 E2]. apply Z.leb_le in E1. apply Z.ltb_lt in E2.
    unfold u32. rewrite uwrap_small by in_range. pose proof (fc_buf s fp l C) as [LB BB].
    destruct (mem_cpy_ok (flat_map (card s) (zseq sc cc)) ((sect fp - sc) * SS) (buf fp) SS) as (d' & Ed & Ld & Bd & KD);
      [unfold SS in *; lia .. |].
    apply wp_bind. eapply wp_lift; [exact Ed|]. apply wp_ret. apply K; auto; [unfold SS in *; lia|].
    intros i Hi. rewrite ED, andb_true_r, KD by lia.
    destruct (Z.eqb_spec (sc + i / SS) (sect fp)) as [E|NE].
    + rewrite (proj2 (Z.leb_le _ _)), (proj2 (Z.ltb_lt _ _)) by (unfold SS in *; dlia). cbn [andb]. f_equal.
      unfold SS in *. dlia.
    + rewrite flat_byte by (auto; unfold SS in *; lia).
      destruct (Z.leb_spec ((sect fp - sc) * SS) i), (Z.ltb_spec i ((sect fp - sc) * SS + SS)); cbn [andb]; auto.
      exfalso. apply NE. unfold SS in *. dlia.
  - apply wp_bind, wp_ret, wp_ret. apply K; auto; [unfold SS in *; lia|].
    intros i Hi. rewrite flat_byte by (auto; unfold SS in *; lia).
    destruct (Z.eqb_spec (sc + i / SS) (sect fp)) as [E|NE]; [|reflexivity].
    destruct (has FA_DIRTY fp) eqn:ED; [|reflexivity]. exfalso. cbn [andb] in ET. revert ET.
    rewrite <- E. replace (sc + i / SS - sc) with (i / SS) by lia. unfold u32.
    rewrite uwrap_small by (unfold in_u, SS in *; eval_pow; pose proof (csize_pos _ LO); dlia).
    rewrite Z.ltb_ge. unfold SS in *. dlia.
Qed.

(** The sector of the file pointer in the buffer. *)
Lemma fetch_buffered fp l f btr s : at_byte s fp l f -> fptr fp mod SS = 0 ->
  let sc := file_sect (lay s) l (fptr fp / SS) in
  wp (r <- (if sect fp =? sc then ret (inl fp)
            else
              r <- flush_buf fp ;;
              match r with
              | inr l => ret (inr l)
              | inl fp =>
                  '(ok, b) <- disk_read sc 1 ;;
                  let fp := set_buf b fp in
                  if ok then ret (inl fp) else abort FR_DISK_ERR fp
              end) ;;
      match r with
      | inr l => ret (inr l)
      | inl fp => ret (inl (set_sect sc fp, []))
      end) (fetched fp btr l f s) s.
Proof.
  intros A HM sc. pose proof A as (C & CL & H & PO). pose proof PO as [Hk _]. apply wp_bind.
  destruct (Z.eqb_spec (sect fp) sc) as [E|NE].
  { apply wp_ret, wp_ret. replace (set_sect sc fp) with fp by (rewrite <- E; now destruct fp).
    split; [apply frame_refl|]. split; [reflexivity|]. split; [exact A|]. left. auto. }
  apply wp_bind. wp_use (flush_buf_wp fp l f); auto. intros r s1 (FR & [(-> & C1 & CL1 & H1)|(-> & FL)]).
  2:{ apply wp_ret, wp_ret. split; [exact FR | auto]. }
  set (fp1 := flushed fp) in *. destruct (flushed_fields fp) as (EO & EP & EC & ES & EB & EE). fold fp1 in EO, EP, EC, ES, EB, EE.
  pose proof (fr_layout _ _ _ FR) as L. pose proof (fc_vol s1 fp1 l C1) as V1.
  apply wp_bind. wp_use disk_read_one; [exact V1|]. intros [ok b] s2 (V2 & Q & Ef & Ek & Sb & K1 & K2). cbn [fst snd] in *.
  pose proof (frame_trans l l s s1 s2 (incl_refl l) FR (quiet_frame l s1 s2 V1 Q)) as FR2.
  destruct ok; cbv zeta; apply wp_ret, wp_ret.
  2:{ split; [exact FR2|]. split; [reflexivity|]. apply (failed_r _ s1); [auto | apply FR]. }
  split; [exact FR2|]. split; [transitivity fp1; [apply alike_flushed | constructor; auto]|].
  pose proof (same_updates s1 s2 V1 Q) as [L2 T2 _ _ _ _ _ ST]. specialize (K1 eq_refl). subst b.
  split; [|left; auto]. assert (file_core s2 fp1 l) as [V3 T3 CH P Z B S W] by (now apply (core_transfer s1)).
  split; [|split; [|split]].
  - constructor; auto. right. exists (fptr fp / SS). rewrite L2, L. auto.
  - intros _ _. cbn [sect buf set_sect set_buf]. now rewrite Ek.
  - intros i Hi. cbn in Hi. rewrite <- (H1 i Hi), (clean_data s1 fp1 l i C1 CL1 (flushed_clean fp)).
    + unfold file_data. rewrite L2, Ek. cbn [sect buf set_sect set_buf].
      destruct (Z.eqb_spec (file_sect (lay s1) l (i / SS)) sc) as [->|]; reflexivity.
    + pose proof (fc_size s1 fp1 l C1). lia.
  - unfold positioned. rewrite L2, L. cbn [fptr clust set_sect set_buf]. rewrite EP, EC. exact PO.
Qed.

(** ** f_read *)

Lemma read_transfer_wp fp l f btr s : at_byte s fp l f -> fptr fp mod SS = 0 -> 0 < btr < 2 ^ 32 ->
  fptr fp + btr <= objsize (obj fp) ->
  wp (read_transfer (lay s) fp btr ((fptr fp / SS) mod csize (lay s)) (file_sect (lay s) l (fptr fp / SS)))
     (fetched fp btr l f s) s.
Proof.
  intros A HM Hb HO. pose proof A as (C & _ & _ & [Hk _]). pose proof (vo_layout s (fc_vol s fp l C)) as LO.
  pose proof (csize_pos _ LO) as CP. unfold read_transfer. cbv zeta.
  assert (0 <= (fptr fp / SS) mod csize (lay s) < csize (lay s)) as HC by (apply Z.mod_pos_bound; lia).
  assert (u32 ((fptr fp / SS) mod csize (lay s) + btr / SS) = (fptr fp / SS) mod csize (lay s) + btr / SS) as ->
    by (apply uwrap_small; unfold SS; unfold in_u; eval_pow; dlia).
  destruct (Z.ltb_spec 0 (btr / SS)) as [P|P]; [|now apply fetch_buffered].
  destruct (Z.ltb_spec (csize (lay s)) ((fptr fp / SS) mod csize (lay s) + btr / SS)); apply fetch_direct; auto; try lia;
    unfold SS in *; dlia.
Qed.

Lemma fetched_after fp fp1 btr l f s s1 r s2 : alike fp fp1 -> frame l s s1 -> fetched fp1 btr l f s1 r s2 ->
  fetched fp btr l f s r s2.
Proof.
  intros AK FR H. pose proof (fr_layout _ _ _ FR) as L. pose proof (ak_fptr _ _ AK) as EP. pose proof (incl_refl l) as IR.
  destruct r as [[fp2 d]|[[e|] fp2]]; [|destruct H as (FR2 & E & FL) | destruct H].
  - destruct H as (FR2 & AK2 & A & X). split; [now apply (frame_trans l l s s1)|]. split; [etransitivity; eassumption|].
    split; [exact A|]. rewrite EP, L in X. exact X.
  - split; [now apply (frame_trans l l s s1)|]. split; [exact E|]. apply (failed_r _ s1); [exact FL | apply FR].
Qed.

Lemma read_sector_wp fp l f btr s : file_ok s fp l -> holds s fp l f -> fptr fp mod SS = 0 -> 0 < btr < 2 ^ 32 ->
  fptr fp + btr <= objsize (obj fp) -> wp (read_sector fp btr) (fetched fp btr l f s) s.
Proof.
  intros FO H HM Hb HO. pose proof (fo_core s fp l FO) as C. pose proof (vo_layout s (fc_vol s fp l C)) as LO.
  pose proof (csize_pos _ LO) as CP. pose proof (fc_fptr s fp l C) as PF. pose proof (fc_size s fp l C) as [SZ _].
  assert (0 <= fptr fp / SS < room (lay s) l) as Hk by (unfold SS in *; dlia).
  unfold read_sector. apply wp_bind, wp_gets. cbv zeta. rewrite land_csize by (auto; lia).
  assert (u32 ((fptr fp / SS) mod csize (lay s)) = (fptr fp / SS) mod csize (lay s)) as ->.
  { apply uwrap_small. pose proof (Z.mod_pos_bound (fptr fp / SS) (csize (lay s)) ltac:(lia)). unfold in_u. eval_pow. lia. }
  apply wp_bind. apply (wp_conseq _ (cluster_read fp l f s)).
  { destruct (Z.eqb_spec ((fptr fp / SS) mod csize (lay s)) 0) as [E|N]; [now apply read_cluster_wp|].
    apply wp_ret. split; [apply frame_refl|]. split; [reflexivity|]. now apply inside_cluster; auto. }
  intros [fp1|[[e|] fp1]] s1 R; cbn [cluster_read] in R; [|apply wp_ret; exact R | destruct R].
  destruct R as (FR & AK & A). pose proof A as (C1 & _ & _ & PO1). pose proof (fr_layout _ _ _ FR) as L.
  pose proof (ak_fptr _ _ AK) as EP. rewrite <- EP, <- L.
  apply wp_bind. wp_use clst_wp; eauto. intros sc s1' [-> [NZ ->]]. rewrite (proj2 (Z.eqb_neq _ _) NZ).
  eapply wp_conseq; [apply (read_transfer_wp fp1 l f); rewrite ?EP, ?(ak_size _ _ AK); auto|].
  intros r s2 X. now apply (fetched_after fp fp1 btr l f s s1).
Qed.

(** The file pointer moves over bytes that were read. *)
Lemma read_advance s fp l f w : file_core s fp l -> clean s fp -> holds s fp l f -> err fp = FR_OK -> 0 < w ->
  fptr fp + w <= objsize (obj fp) -> clust fp = nth_clust l ((fptr fp + w - 1) / SS / csize (lay s)) ->
  ((fptr fp + w) mod SS <> 0 -> sect fp = file_sect (lay s) l ((fptr fp + w) / SS)) ->
  let fp' := set_fptr (u64 (fptr fp + w)) fp in
  file_ok s fp' l /\ holds s fp' l f /\ fptr fp' = fptr fp + w.
Proof.
  intros C CL H E Hw HO HC HS. pose proof (fc_fptr s fp l C) as PF. pose proof (fc_size s fp l C) as [_ SZ].
  cbv zeta. assert (u64 (fptr fp + w) = fptr fp + w) as -> by (apply uwrap_small; in_range).
  split; [|split; [exact H | reflexivity]]. destruct C as [V T CH P Z B S W].
  constructor; auto. constructor; auto. cbn. lia.
Qed.

(** [w] bytes were read. *)
Definition read_on (fp : FIL) (d : list Z) (l : list Z) (f : Z -> Z) (s : vol) (fp' : FIL) (s' : vol) : Prop :=
  frame l s s' /\ file_ok s' fp' l /\ holds s' fp' l f /\ fptr fp' = fptr fp + Z.of_nat (length d) /\
  objsize (obj fp') = objsize (obj fp) /\ same_file fp fp' /\
  forall i, 0 <= i < Z.of_nat (length d) -> byte_at d i = f (fptr fp + i).

Definition read_step (fp : FIL) (acc : list Z) (btr : Z) (l : list Z) (f : Z -> Z) (s : vol)
    (r : FIL * list Z * Z + leaves * list Z) (s' : vol) : Prop :=
  match r with
  | inl (fp', acc', btr') => exists d, 0 < Z.of_nat (length d) <= btr /\ acc' = acc ++ d /\
      btr' = btr - Z.of_nat (length d) /\ read_on fp d l f s fp' s'
  | inr (None, fp', acc') => acc' = acc /\ fp' = fp /\ s' = s /\ btr = 0
  | inr (Some e, _, acc') => acc' = acc /\ frame l s s' /\ e = FR_DISK_ERR /\ failed s s'
  end.

(** The last part of a turn when the bytes come from the buffer. *)
Lemma read_buffered fp fp1 l f btr s s1 : alike fp fp1 -> frame l s s1 -> at_byte s1 fp1 l f -> err fp1 = FR_OK ->
  sect fp1 = file_sect (lay s1) l (fptr fp1 / SS) -> 0 < btr -> fptr fp1 + btr <= objsize (obj fp1) ->
  let w := Z.min btr (SS - fptr fp1 mod SS) in
  exists d, mem_cpy (repeat 0 (Z.to_nat w)) 0 (skipn (Z.to_nat (fptr fp1 mod SS)) (buf fp1)) w = Ok d /\
    Z.of_nat (length d) = w /\ 0 < w <= btr /\ read_on fp d l f s (set_fptr (u64 (fptr fp1 + w)) fp1) s1.
Proof.
  intros AK FR (C & CL & H & [Hk Ec]) HE HS Hb HO w. pose proof (fc_buf s1 fp1 l C) as [LB BB].
  assert (0 <= fptr fp1 mod SS < SS) as M by (apply Z.mod_pos_bound; reflexivity).
  pose proof (fc_fptr s1 fp1 l C) as PF.
  destruct (mem_cpy_ok (repeat 0 (Z.to_nat w)) 0 (skipn (Z.to_nat (fptr fp1 mod SS)) (buf fp1)) w) as (d & Ed & Ld & _ & KD);
    [lia | lia | rewrite repeat_length; lia | rewrite length_skipn; lia |].
  rewrite repeat_length in Ld. exists d. split; [exact Ed|]. split; [lia|]. split; [lia|].
  destruct (read_advance s1 fp1 l f w) as (F1 & F2 & F3); auto; try lia.
  - rewrite Ec. do 2 f_equal. unfold SS in *. dlia.
  - intros NZ. rewrite HS. f_equal. unfold SS in *. dlia.
  - split; [exact FR|]. split; [exact F1|]. split; [exact F2|]. rewrite Ld, Z2Nat.id by lia.
    rewrite <- (ak_fptr _ _ AK), <- (ak_size _ _ AK). split; [exact F3|]. split; [reflexivity|].
    split; [transitivity fp1; [now apply alike_same_file | constructor; auto]|].
    intros i Hi. rewrite KD by lia. rewrite (proj2 (Z.leb_le _ _)), (proj2 (Z.ltb_lt _ _)) by lia. cbn [andb].
    rewrite <- H by lia. unfold file_data.
    replace ((fptr fp1 + i) / SS) with (fptr fp1 / SS) by (unfold SS in *; dlia). rewrite HS, Z.eqb_refl.
    unfold byte_at. rewrite nth_skipn. f_equal. unfold SS in *. dlia.
Qed.

Lemma read_direct fp fp1 l f d cc s s1 : alike fp fp1 -> frame l s s1 -> at_byte s1 fp1 l f -> err fp1 = FR_OK ->
  fptr fp mod SS = 0 -> 0 < cc -> Z.of_nat (length d) = SS * cc -> fptr fp + SS * cc <= objsize (obj fp) ->
  (fptr fp / SS) mod csize (lay s) + cc <= csize (lay s) ->
  (forall i, 0 <= i < SS * cc -> byte_at d i = f (fptr fp + i)) ->
  read_on fp d l f s (set_fptr (u64 (fptr fp1 + Z.of_nat (length d))) fp1) s1.
Proof.
  intros AK FR (C & CL & H & [Hk Ec]) HE HM Hcc Hd HO Hc KD. pose proof (fr_layout _ _ _ FR) as L.
  pose proof (csize_pos _ (vo_layout s1 (fc_vol s1 fp1 l C))) as CP. rewrite L in *. pose proof (ak_fptr _ _ AK) as EP.
  destruct (read_advance s1 fp1 l f (SS * cc)) as (F1 & F2 & F3); rewrite ?EP, ?(ak_size _ _ AK); auto.
  - unfold SS. lia.
  - rewrite Ec, EP, L. f_equal. replace ((fptr fp + SS * cc - 1) / SS) with (fptr fp / SS + (cc - 1)) by (unfold SS in *; dlia).
    pose proof (Z.mod_pos_bound (fptr fp / SS) (csize (lay s)) ltac:(lia)).
    apply (Z.div_unique_pos _ _ _ ((fptr fp / SS) mod csize (lay s) + (cc - 1))); [lia|].
    rewrite (Z.div_mod (fptr fp / SS) (csize (lay s))) at 1 by lia. lia.
  - intros NZ. exfalso. apply NZ. unfold SS in *. dlia.
  - rewrite EP in F1, F2, F3. split; [exact FR|]. rewrite Hd. split; [exact F1|]. split; [exact F2|]. split; [exact F3|].
    split; [exact (ak_size _ _ AK)|]. split; [|exact KD].
    transitivity fp1; [now apply alike_same_file | constructor; auto].
Qed.

Lemma read_turn_wp fp l f acc btr s : file_ok s fp l -> holds s fp l f -> 0 <= btr < 2 ^ 32 ->
  fptr fp + btr <= objsize (obj fp) -> wp (read_turn (fp, acc, btr)) (read_step fp acc btr l f s) s.
Proof.
  intros FO H Hb HO. pose proof (fo_core s fp l FO) as C. pose proof (fc_fptr s fp l C) as PF.
  pose proof (fc_size s fp l C) as [_ SZ]. unfold read_turn. destruct (Z.eqb_spec btr 0) as [E0|N0]; [now apply wp_ret|].
  assert (forall x, 0 <= x < 2 ^ 32 -> u32 x mod SS = x mod SS) as EU by (intros x Hx; unfold u32; now rewrite uwrap_small).
  apply wp_bind. destruct (Z.eqb_spec (fptr fp mod SS) 0) as [M|M].
  - wp_use (read_sector_wp fp l f); auto; try lia.
    intros [[fp1 d]|[[e|] fp1]] s1 R; cbn [fetched] in R; [|apply wp_ret; now split | destruct R].
    destruct R as (FR & AK & A & R). pose proof (fr_layout _ _ _ FR) as L. pose proof (ak_fptr _ _ AK) as EP.
    assert (err fp1 = FR_OK) as HE by (rewrite (ak_err _ _ AK); apply FO).
    destruct R as [(-> & HS)|(cc & Hcc & Hd & Hn & Hc & _ & KD)].
    + rewrite EU, min_if by lia.
      destruct (read_buffered fp fp1 l f btr s s1) as (d & Ed & Ld & Hw & RO); auto; try lia.
      { now rewrite L, EP. }
      { now rewrite EP, (ak_size _ _ AK). }
      apply wp_bind. eapply wp_lift; [exact Ed|]. apply wp_ret. exists d. rewrite Ld. auto 6.
    + destruct d as [|b d]; [unfold SS in Hd; cbn [length] in Hd; lia|]. apply wp_bind, wp_ret, wp_ret.
      exists (b :: d). split; [unfold SS in *; lia|]. split; [reflexivity|]. split; [reflexivity|].
      apply (read_direct fp fp1 l f (b :: d) cc); auto. lia.
  - apply wp_ret. rewrite EU, min_if by lia. pose proof (inside_cluster s fp l f FO H (or_introl M)) as A.
    destruct (read_buffered fp fp l f btr s s) as (d & Ed & Ld & Hw & RO); auto; try lia; try apply FO; auto using frame_refl.
    { reflexivity. }
    apply wp_bind. eapply wp_lift; [exact Ed|]. apply wp_ret. exists d. rewrite Ld. auto 6.
Qed.

Lemma read_on_trans fp fp1 fp2 d1 d2 l f s s1 s2 : read_on fp d1 l f s fp1 s1 -> read_on fp1 d2 l f s1 fp2 s2 ->
  read_on fp (d1 ++ d2) l f s fp2 s2.
Proof.
  intros (FR1 & FO1 & H1 & P1 & Z1 & SF1 & K1) (FR2 & FO2 & H2 & P2 & Z2 & SF2 & K2). rewrite P1 in *.
  split; [apply (frame_trans l l s s1); auto; apply incl_refl|]. split; [exact FO2|]. split; [exact H2|].
  rewrite length_app, Nat2Z.inj_add. split; [lia|]. split; [congruence|]. split; [etransitivity; eassumption|].
  intros i Hi. unfold byte_at. destruct (Z.ltb_spec i (Z.of_nat (length d1))).
  - rewrite app_nth1 by lia. apply K1. lia.
  - rewrite app_nth2 by lia.
    replace (fptr fp + i) with (fptr fp + Z.of_nat (length d1) + (i - Z.of_nat (length d1))) by lia.
    rewrite <- K2 by lia. unfold byte_at. f_equal. lia.
Qed.

Lemma read_on_nil fp l f s : file_ok s fp l -> holds s fp l f -> read_on fp [] l f s fp s.
Proof.
  intros FO H. split; [apply frame_refl|]. split; [exact FO|]. split; [exact H|]. cbn. split; [lia|].
  split; [reflexivity|]. split; [reflexivity|]. lia.
Qed.

Lemma read_loop fp l f btr s : file_ok s fp l -> holds s fp l f -> 0 <= btr < 2 ^ 32 ->
  fptr fp + btr <= objsize (obj fp) ->
  wp (iter (S (Z.to_nat btr)) read_turn (fp, [], btr)) (fun r s' => let '(o, fp', d) := r in
    match o with
    | None => read_on fp d l f s fp' s' /\ Z.of_nat (length d) = btr
    | Some e => frame l s s' /\ e = FR_DISK_ERR /\ failed s s'
    end) s.
Proof.
  intros FO H Hb HO.
  apply (wp_iter _ (fun x s1 => let '(fp1, acc, n) := x in
           n = btr - Z.of_nat (length acc) /\ 0 <= n /\ read_on fp acc l f s fp1 s1)
         (fun x _ => let '(_, _, n) := x in Z.to_nat n)).
  2:{ split; [cbn; lia|]. split; [lia|]. now apply read_on_nil. }
  2:{ lia. }
  intros [[fp1 acc] n] s1 (En & Hn & RO). pose proof RO as (FR1 & FO1 & H1 & P1 & Z1 & SF1 & K1).
  wp_use (read_turn_wp fp1 l f); auto; try lia.
  intros [[[fp2 acc2] n2]|[[[e|] fp2] acc2]] s2 R; cbn [read_step] in R.
  - destruct R as (d & Hd & -> & -> & RO2). split; [|lia]. rewrite length_app. split; [lia|]. split; [lia|].
    now apply (read_on_trans fp fp1 fp2 acc d l f s s1 s2).
  - destruct R as (-> & FR2 & E & FL). split; [apply (frame_trans l l s s1); auto; apply incl_refl|]. split; [exact E|].
    apply (failed_r _ s1); [exact FL | apply FR1].
  - destruct R as (-> & -> & -> & E). split; [exact RO | lia].
Qed.

Lemma f_read_wp fp l f btr s : file_ok s fp l -> holds s fp l f -> opened s fp -> has FA_READ fp = true ->
  0 <= btr < 2 ^ 32 ->
  wp (f_read fp btr) (fun x s' => let '(r, d, fp') := x in
    r = FR_OK /\ read_on fp d l f s fp' s' /\ Z.of_nat (length d) = Z.min btr (objsize (obj fp) - fptr fp) \/
    r = FR_INVALID_OBJECT /\ failed s s' /\ d = [] /\ fp' = fp /\ quiet s s' \/
    r = FR_DISK_ERR /\ failed s s' /\ frame l s s') s.
Proof.
  intros FO H OP HR Hb. pose proof (fo_core s fp l FO) as C. pose proof (fc_vol s fp l C) as V.
  pose proof (fc_fptr s fp l C) as PF. pose proof (fc_size s fp l C) as [_ SZ].
  unfold f_read. apply wp_bind. wp_use validate_wp; auto. intros r s1 (V1 & Q & [->|[-> FL]]).
  2:{ apply wp_ret. right. left. auto. }
  rewrite (fo_err s fp l FO), HR. cbn [negb]. destruct (quiet_file s s1 fp l f FO V1 Q H) as [FO1 H1].
  assert (u64 (objsize (obj fp) - fptr fp) = objsize (obj fp) - fptr fp) as -> by (apply uwrap_small; in_range).
  assert (u32 (objsize (obj fp) - fptr fp) = objsize (obj fp) - fptr fp) as -> by (apply uwrap_small; in_range).
  rewrite min_if, Z.min_comm.
  apply wp_bind. wp_use (read_loop fp l f); eauto; try lia.
  intros [[[e|] fp2] d] s2 R; apply wp_ret.
  - destruct R as (FR & -> & FL). right. right. split; [reflexivity|]. split; [apply (failed_r _ s1); [exact FL | apply Q]|].
    apply (frame_trans l l s s1); [apply incl_refl | now apply quiet_frame | exact FR].
  - destruct R as [(FR & R) Ld]. left. split; [reflexivity|]. split; [|exact Ld]. split; [|exact R].
    apply (frame_trans l l s s1); [apply incl_refl | now apply quiet_frame | exact FR].
Qed.
End ReadLaws.
