(* ===== verification/FatSync.v ===== *)
(** * ext/fatfs/src/ff.c: what f_sync and f_close leave on the card

    On a FAT volume f_sync writes the buffer back, brings the directory entry of
    the file up to date and flushes the window; f_close does the same and
    invalidates the file object.  After FR_OK the card alone, without the
    window and without the buffer, holds the file: its bytes, its chain, and in
    the directory entry its first cluster and its size. *)

From Stdlib Require Import ZArith Bool List Lia.
From Stdlib Require Import Classes.RelationClasses.
From S2P Require Import Prelude FatVol FatTable FatBitmap FatChain FatFile FatWrite FatRead.
Import ListNotations.
Local Open Scope Z_scope.
Local Open Scope fw_scope.

(** ** The directory entry *)

Lemma stored_le_word l o v l' : 0 <= o -> stored_le l o 2 v l' -> le2 l' o = v mod 2 ^ 16.
Proof.
  intros Ho (_ & _ & B). unfold le2. rewrite !B by lia.
  repeat (rewrite (proj2 (Z.leb_le _ _)) by lia; rewrite (proj2 (Z.ltb_lt _ _)) by lia). cbn [andb].
  replace (o - o) with 0 by lia. replace (o + 1 - o) with 1 by lia.
  change (256 ^ 0) with 1. change (256 ^ 1) with 256. eval_pow. dlia.
Qed.

(** [l'] differs from [l] only in [n] bytes from [o] on. *)
Definition only_at (o n : Z) (l l' : list Z) : Prop :=
  forall i, 0 <= i -> i < o \/ o + n <= i -> byte_at l' i = byte_at l i.

(** The entry at [o] is rewritten, but for its name, and no attribute but that of
    an archive is added. *)
Definition entry_edit (o : Z) (l l' : list Z) : Prop :=
  only_at (o + 11) 21 l l' /\
  forall b, b <> 5 -> Z.testbit (byte_at l (o + 11)) b = false -> Z.testbit (byte_at l' (o + 11)) b = false.

#[export] Instance entry_edit_preorder o : PreOrder (entry_edit o).
Proof.
  split; [now split|]. intros a b c [K1 T1] [K2 T2]. split; [|auto]. intros i Hi Ho. rewrite K2, K1 by assumption. reflexivity.
Qed.

Lemma stored_only l o n v l' : stored_le l o n v l' -> only_at o n l l'.
Proof. intros H i Hi Ho. now apply (stored_le_other l o n v). Qed.

Lemma le2_kept o n l l' k : 0 <= k -> k + 2 <= o \/ o + n <= k -> only_at o n l l' -> le2 l' k = le2 l k.
Proof. intros Hk H K. unfold le2. rewrite !K by lia. reflexivity. Qed.

Lemma le4_kept o n l l' k : 0 <= k -> k + 4 <= o \/ o + n <= k -> only_at o n l l' -> le4 l' k = le4 l k.
Proof. intros Hk H K. unfold le4. rewrite !K by lia. reflexivity. Qed.

Lemma st_clust_ok t w o scl : is_sector w -> 0 <= o <= SS - 32 -> in_u 32 scl ->
  (t <> FS_FAT32 -> scl < 2 ^ 16) ->
  exists w', st_clust t w o scl = Ok w' /\ is_sector w' /\
    (if t =? FS_FAT32 then le2 w' (o + 26) + 65536 * le2 w' (o + 20) = scl else le2 w' (o + 26) = scl) /\
    (forall i, 0 <= i -> i < o + 20 \/ o + 28 <= i -> byte_at w' i = byte_at w i).
Proof.
  intros Sw Ho Hs Hl. unfold st_clust. unfold SS in Ho.
  destruct (st_word_sector w (o + 26) (u16 scl) Sw) as (w1 & -> & W1 & S1); [unfold SS; lia|]. cbn [rbind].
  pose proof (fun H => stored_le_word _ _ _ _ H W1) as E1. specialize (E1 ltac:(lia)). apply stored_only in W1.
  unfold u16, uwrap, in_u in *. destruct (Z.eqb_spec t FS_FAT32) as [T|T].
  - destruct (st_word_sector w1 (o + 20) ((Z.shiftr scl 16) mod 2 ^ 16) S1) as (w2 & -> & W2 & S2); [unfold SS; lia|].
    pose proof (fun H => stored_le_word _ _ _ _ H W2) as E2. specialize (E2 ltac:(lia)). apply stored_only in W2.
    exists w2. split; [reflexivity|]. split; [exact S2|]. split.
    + rewrite E2, (fun H1 H2 => le2_kept _ _ _ _ (o + 26) H1 H2 W2), E1 by lia. rewrite Z.shiftr_div_pow2 by lia. eval_pow. dlia.
    + intros i Hi HO. rewrite W2, W1 by lia. reflexivity.
  - exists w1. split; [reflexivity|]. split; [exact S1|]. split.
    + rewrite E1, Zmod_mod. apply Z.mod_small. specialize (Hl T). lia.
    + intros i Hi HO. rewrite W1 by lia. reflexivity.
Qed.

Lemma ld_clust_ok t w o : is_sector w -> 0 <= o <= SS - 32 ->
  ld_clust t w o = Ok (if t =? FS_FAT32 then le2 w (o + 26) + 65536 * le2 w (o + 20) else le2 w (o + 26)).
Proof.
  intros [L B] Ho. unfold ld_clust, SS in *. rewrite ld_word_ok by (auto; lia). cbn [rbind].
  destruct (t =? FS_FAT32); [|reflexivity]. rewrite ld_word_ok by (auto; lia). cbn [rbind]. f_equal.
  assert (forall k, 0 <= le2 w k < 2 ^ 16) as R.
  { intros k. unfold le2. pose proof (byte_at_byte w k B). pose proof (byte_at_byte w (k + 1) B). in_range. }
  pose proof (R (o + 20)). pose proof (R (o + 26)). unfold u32. rewrite Z.shiftl_mul_pow2 by lia.
  rewrite uwrap_small by (unfold in_u; eval_pow; lia). rewrite Z.lor_comm, <- Z.shiftl_mul_pow2 by lia.
  rewrite lor_shift by lia. eval_pow. lia.
Qed.

Definition entry_holds (t : Z) (w : list Z) (o scl size : Z) : Prop :=
  ld_clust t w o = Ok scl /\ ld_dword w (o + 28) = Ok size.

Lemma sync_entry_ok t w o scl size : is_sector w -> 0 <= o <= SS - 32 -> in_u 32 scl ->
  (t <> FS_FAT32 -> scl < 2 ^ 16) -> in_u 32 size ->
  exists w', sync_entry t w o scl size = Ok w' /\ is_sector w' /\ entry_holds t w' o scl size /\ entry_edit o w w'.
Proof.
  intros Sw Ho Hs Hl Hz. unfold sync_entry. pose proof Ho as Ho'. unfold SS in Ho'. pose proof Sw as [Lw Bw].
  rewrite byte_at_get by (rewrite Lw; unfold SS; lia). cbn [rbind].
  rewrite array_set_ok by (rewrite Lw; unfold SS; lia). cbn [rbind].
  set (w1 := list_set _ _ w). assert (is_sector w1) as S1.
  { split; [unfold w1; now rewrite list_set_length|]. apply bytes_set; [|exact Bw].
    pose proof (byte_at_byte w (o + 11) Bw) as X. unfold is_byte, in_u in *.
    assert (0 <= Z.lor (byte_at w (o + 11)) 0x20) by (apply Z.lor_nonneg; lia).
    split; [lia|]. apply Z.log2_lt_cancel. rewrite Z.log2_lor by lia.
    apply Z.max_lub_lt; [|reflexivity]. destruct (Z.eq_dec (byte_at w (o + 11)) 0) as [-> |]; [reflexivity|].
    apply Z.log2_lt_pow2; [lia|]. change (Z.log2 (2 ^ 8)) with 8. lia. }
  assert (only_at (o + 11) 1 w w1) as K1.
  { intros i Hi HO. unfold w1. rewrite byte_at_set by (rewrite ?Lw; unfold SS; lia).
    destruct (Z.eqb_spec i (o + 11)); [lia | reflexivity]. }
  destruct (st_clust_ok t w1 o scl S1 Ho Hs Hl) as (w2 & -> & S2 & C2 & K2). cbn [rbind].
  destruct (st_dword_sector w2 (o + 28) (u32 size) S2) as (w3 & -> & W3 & S3); [unfold SS; lia|]. cbn [rbind].
  pose proof (fun H => stored_le_same _ _ _ _ H W3) as E3. specialize (E3 ltac:(lia)). apply stored_only in W3.
  destruct (st_dword_sector w3 (o + 22) GET_FATTIME S3) as (w4 & -> & W4 & S4); [unfold SS; lia|]. cbn [rbind].
  apply stored_only in W4.
  destruct (st_word_sector w4 (o + 18) 0 S4) as (w5 & -> & W5 & S5); [unfold SS; lia|]. apply stored_only in W5.
  exists w5. split; [reflexivity|]. split; [exact S5|]. pose proof S5 as [L5 B5]. split; [split|].
  - rewrite ld_clust_ok by assumption. f_equal.
    assert (forall k, k = o + 26 \/ k = o + 20 -> le2 w5 k = le2 w2 k) as E.
    { intros k Hk. rewrite (fun H1 H2 => le2_kept _ _ _ _ k H1 H2 W5), (fun H1 H2 => le2_kept _ _ _ _ k H1 H2 W4) by lia.
      apply (fun H1 H2 => le2_kept _ _ _ _ k H1 H2 W3); lia. }
    rewrite !E by auto. now destruct (t =? FS_FAT32).
  - rewrite ld_dword_ok by (auto; rewrite ?L5; unfold SS; lia). f_equal.
    rewrite (fun H1 H2 => le4_kept _ _ _ _ (o + 28) H1 H2 W5), (fun H1 H2 => le4_kept _ _ _ _ (o + 28) H1 H2 W4), E3 by lia.
    unfold u32, uwrap. rewrite Zmod_mod. now apply Z.mod_small.
  - split; [intros i Hi HO; rewrite W5, W4, W3, K2, K1 by lia; reflexivity|]. intros b Nb B. rewrite W5, W4, W3, K2 by lia.
    unfold w1. rewrite byte_at_set, Z.eqb_refl by (rewrite ?Lw; unfold SS; lia). rewrite Z.lor_spec, B. now apply (Z.pow2_bits_false 5).
Qed.

(** ** f_sync *)

Section SyncLaws.
Context `{D : DiskIo} {DL : DiskLaws D}.

(** A sector that belongs to nobody but the directory: it matters, and it lies
    neither in the table nor in a cluster that the file has or may be given. *)
Record own_place (s : vol) (l : list Z) (d : Z) : Prop := {
  op_seen : visible (lay s) d;
  op_table : ~ (fatbase (lay s) <= d < fatbase (lay s) + fsize (lay s));
  op_data : forall c, cluster (lay s) c -> In c l \/ fat_entry s c = 0 -> ~ in_cluster (lay s) c d
}.

(** The file's directory entry is in such a sector. *)
Definition entry_place (s : vol) (fp : FIL) (l : list Z) : Prop :=
  0 <= dir_ofs fp <= SS - 32 /\ own_place s l (dir_sect fp).

Lemma own_place_frame l s s' d : frame l s s' -> own_place s l d -> own_place s' l d.
Proof.
  intros FR [P1 P2 P3]. pose proof (fr_layout _ _ _ FR) as L. constructor; rewrite L; auto.
  intros c Hc [HI|H0]; [auto|]. destruct (in_dec Z.eq_dec c l) as [HI|NI]; [auto|]. apply (P3 c Hc). right.
  destruct (fr_table _ _ _ FR c Hc NI) as [E|[E _]]; [now rewrite <- E | exact E].
Qed.

(** Only the sector [d] of the sectors that matter changed. *)
Definition all_but (d : Z) (s s' : vol) : Prop :=
  lay s' = lay s /\ forall n, visible (lay s) n -> n <> d -> view s' n = view s n.

Lemma all_but_entry s s' l d c : vol_ok s -> own_place s l d -> all_but d s s' -> cluster (lay s) c ->
  fat_entry s' c = fat_entry s c.
Proof.
  intros V [_ PT _] [L K] Hc. apply same_bytes_entry; auto. intros k Hk. unfold fat_byte. rewrite L.
  pose proof (table_sector _ _ Hk) as T. f_equal. apply K; [|lia]. apply fat_sector_visible; [apply V | exact T].
Qed.

Lemma all_but_frame s s' l d : vol_ok s -> own_place s l d -> all_but d s s' ->
  forall c n, cluster (lay s) c -> In c l -> in_cluster (lay s) c n -> view s' n = view s n.
Proof.
  intros V P [L K] c n Hc HI Hn. destruct (cluster_visible _ (vo_layout s V) c n Hc Hn) as (Vi & _).
  apply K; [exact Vi|]. intros ->. exact (op_data _ _ _ P c Hc (or_introl HI) Hn).
Qed.

(** The file stays what it is when the window comes to stand on [d], or on a
    sector up to the first of the table. *)
Lemma all_but_file s s' fp l f d : file_ok s fp l -> holds s fp l f -> own_place s l d -> all_but d s s' ->
  vol_ok s' -> winsect (fs s') = d \/ winsect (fs s') <= fatbase (lay s) ->
  file_ok s' fp l /\ holds s' fp l f.
Proof.
  intros [C CL CU CC E] H P A V' W. pose proof (fc_vol s fp l C) as V. pose proof (proj1 A) as L.
  assert (win_safe s' l) as WS.
  { intros c Hc HI I. rewrite L in Hc, I. rewrite (all_but_entry s s' l d c V P A Hc) in HI.
    destruct W as [W|W]; [rewrite W in I; exact (op_data _ _ _ P c Hc HI I)|].
    destruct (cluster_visible _ (vo_layout s V) c _ Hc I) as (_ & _ & DA). unfold in_data in DA.
    pose proof (layout_order _ (vo_layout s V)). lia. }
  destruct (kept_contents s s' fp l l f C L WS) as [K1 K2].
  { exists []. now rewrite app_nil_r. }
  { apply (all_but_frame s s' l d); auto. }
  split; [|auto]. constructor; rewrite ?L; auto. destruct C as [_ T CH P' Z B S _]. constructor; rewrite ?L; auto.
  destruct CH as [CH|[CH X]]; [now left|]. right. rewrite L. split; [|exact X].
  apply (chain_ext _ (fat_entry s)); [|exact CH]. intros c I. symmetry.
  apply (all_but_entry s s' l d); auto. now apply (chain_clusters _ _ _ CH).
Qed.

(** What f_sync leaves alone; the entry of the file is the one at offset [o] of
    sector [d].  No entry of the table changes, neither of the file's own chain
    nor of another cluster; no sector changes but those of the file's clusters
    and [d], and of [d] only the entry, but for its name. *)
Record only_entry (d o : Z) (l : list Z) (s s' : vol) : Prop := {
  oe_layout : lay s' = lay s;
  oe_calls : (calls s <= calls s')%nat;
  oe_table : forall c, cluster (lay s) c -> fat_entry s' c = fat_entry s c;
  oe_rest : forall n, visible (lay s) n -> (forall c, In c l -> ~ in_cluster (lay s) c n) -> n <> d -> view s' n = view s n;
  oe_entry : entry_edit o (view s d) (view s' d);
  oe_free : free_clst (fs s') = free_clst (fs s)
}.

Lemma frame_place l s s' d : frame l s s' -> vol_ok s -> own_place s l d -> (forall c, In c l -> cluster (lay s) c) ->
  view s' d = view s d.
Proof. intros [_ _ R _] V [P1 P2 P3] CL. apply R; auto. Qed.

Lemma only_entry_frame d o l s s' : data_only l s s' -> vol_ok s -> own_place s l d -> (forall c, In c l -> cluster (lay s) c) ->
  free_clst (fs s') = free_clst (fs s) -> only_entry d o l s s'.
Proof.
  intros DO V P CL F. pose proof (frame_place l s s' d (data_only_frame _ _ _ DO) V P CL) as E.
  destruct DO as [L R T C]. constructor; auto. now rewrite E.
Qed.

Lemma only_entry_after d o l s s1 s2 : data_only l s s1 -> vol_ok s -> own_place s l d -> (forall c, In c l -> cluster (lay s) c) ->
  vol_ok s1 -> all_but d s1 s2 -> entry_edit o (view s1 d) (view s2 d) ->
  free_clst (fs s2) = free_clst (fs s) -> (calls s1 <= calls s2)%nat -> only_entry d o l s s2.
Proof.
  intros DO V0 P0 CL V A EE F C2. pose proof (data_only_frame _ _ _ DO) as FR.
  pose proof (frame_place l s s1 d FR V0 P0 CL) as E. pose proof (own_place_frame l s s1 d FR P0) as P.
  destruct DO as [L1 R1 T1 C1]. pose proof A as [L2 K2]. constructor; [congruence | lia | | | now rewrite <- E | exact F].
  - intros c Hc. rewrite (all_but_entry s1 s2 l d c V P A) by (now rewrite L1). auto.
  - intros n Hn Ho Nd. rewrite K2 by (rewrite ?L1; auto). auto.
Qed.

(** The file on the card itself: nothing is left in the window or in the buffer. *)
Record on_card (s : vol) (fp : FIL) (l : list Z) (f : Z -> Z) : Prop := {
  oc_card : forall n, visible (lay s) n -> card s n = view s n;
  oc_data : forall i, 0 <= i < objsize (obj fp) -> byte_at (card s (file_sect (lay s) l (i / SS))) (i mod SS) = f i;
  oc_entry : entry_holds (fs_type (lay s)) (card s (dir_sect fp)) (dir_ofs fp) (sclust (obj fp)) (objsize (obj fp))
}.

Lemma first_cluster_range s fp l : file_core s fp l ->
  in_u 32 (sclust (obj fp)) /\ (fs_type (lay s) <> FS_FAT32 -> sclust (obj fp) < 2 ^ 16).
Proof.
  intros C. pose proof (vo_layout s (fc_vol s fp l C)) as LO. pose proof (n_fatent_range _ LO) as N.
  destruct (fc_chain s fp l C) as [[_ ->]|[Ch E]]; [split; [in_range | intros _; reflexivity]|].
  destruct (first_cluster s fp l LO Ch E) as ([H1 H2] & _). split; [in_range|]. intros T.
  pose proof (fc_type s fp l C) as T'. pose proof (lo_type _ LO) as T4. pose proof (lo_ent _ LO) as M. unfold max_clst in M.
  unfold FS_FAT12, FS_FAT16, FS_FAT32, FS_EXFAT, MAX_FAT12, MAX_FAT16 in *. eval_pow.
  destruct (Z.eqb_spec (fs_type (lay s)) 1), (Z.eqb_spec (fs_type (lay s)) 2), (Z.eqb_spec (fs_type (lay s)) 3); lia.
Qed.

(** The directory entry is brought up to date in the window and written. *)
Lemma entry_wp fp l f s : file_ok s fp l -> holds s fp l f -> has FA_DIRTY fp = false -> entry_place s fp l ->
  winsect (fs s) = dir_sect fp -> win (fs s) = view s (dir_sect fp) ->
  exists w', sync_entry (fs_type (lay s)) (win (fs s)) (dir_ofs fp) (sclust (obj fp)) (objsize (obj fp)) = Ok w' /\
    wp (put_win w' ;; sync_fs) (fun r s' => all_but (dir_sect fp) s s' /\ (calls s <= calls s')%nat /\ free_clst (fs s') = free_clst (fs s) /\
      entry_edit (dir_ofs fp) (view s (dir_sect fp)) (view s' (dir_sect fp)) /\
      file_ok s' fp l /\ holds s' fp l f /\
      (r = FR_OK /\ on_card s' fp l f \/ r = FR_DISK_ERR /\ failed s s')) s.
Proof.
  intros FO H ND [HO P] W1 W2. pose proof (fo_core s fp l FO) as C. pose proof (fc_vol s fp l C) as V.
  destruct (first_cluster_range s fp l C) as [R1 R2]. pose proof (fc_fptr s fp l C). pose proof (fc_size s fp l C) as [_ SZ].
  destruct (sync_entry_ok (fs_type (lay s)) (win (fs s)) (dir_ofs fp) (sclust (obj fp)) (objsize (obj fp)))
    as (w' & Ew & Sw & EH & K); auto; [apply V | in_range |].
  exists w'. split; [exact Ew|]. unfold put_win, upd_fs. wp_norm. pose proof (op_seen _ _ _ P) as Vi. rewrite <- W1 in Vi.
  destruct (store_window w' s V Sw Vi) as [V1 [L1 VW1 C1 _ _ _]]. cbv zeta in *. set (s1 := mkvol _ _ _) in *.
  assert (view s1 (dir_sect fp) = w') as E1.
  { rewrite VW1 by (now rewrite <- W1). unfold put_sector. now rewrite W1, Z.eqb_refl. }
  wp_use sync_fs_wp; [exact V1|]. intros r s2 SY. pose proof (sy_layout _ _ _ SY) as L2. pose proof (sy_view _ _ _ SY) as VW2.
  rewrite L1 in *. assert (all_but (dir_sect fp) s s2) as A.
  { split; [exact L2|]. intros n Hn Nd. rewrite VW2, VW1 by assumption. unfold put_sector. now rewrite W1, (proj2 (Z.eqb_neq _ _) Nd). }
  assert (view s2 (dir_sect fp) = w') as E2 by (rewrite VW2; [exact E1 | apply P]).
  split; [exact A|]. split; [pose proof (sy_calls _ _ _ SY); lia|]. split; [apply (sy_free _ _ _ SY)|]. split; [rewrite E2, <- W2; exact K|].
  destruct (all_but_file s s2 fp l f (dir_sect fp)) as [FO2 H2]; auto; [apply SY | |].
  { destruct (sy_win _ _ _ SY) as [E|E]; rewrite E; [left; exact W1 | right].
    pose proof (lo_base _ (vo_layout s V)). rewrite L1. lia. }
  split; [exact FO2|]. split; [exact H2|]. destruct (sy_status _ _ _ SY) as [-> |[-> FL]].
  - left. split; [reflexivity|]. pose proof (sy_card _ _ _ SY eq_refl) as KC. rewrite L1 in KC.
    constructor; rewrite ?L2.
    + intros n Hn. rewrite KC, VW2 by exact Hn. reflexivity.
    + intros i Hi. rewrite <- (H2 i Hi). rewrite <- L2. symmetry. apply (clean_data s2 fp l); auto; [apply FO2 .. |].
      pose proof (fc_size _ _ _ (fo_core _ _ _ FO2)). lia.
    + rewrite KC by apply P. rewrite E1. exact EH.
  - right. split; [reflexivity|]. apply (failed_r _ s1); [exact FL | exact C1].
Qed.

Lemma flushed_ok fp l s s' : file_ok s fp l -> lay s' = lay s -> file_core s' (flushed fp) l -> clean s' (flushed fp) ->
  file_ok s' (flushed fp) l.
Proof.
  intros [C CL CU CC E] L C' CL'. destruct (flushed_fields fp) as (E1 & E2 & E3 & E4 & E5 & E6).
  constructor; rewrite ?E2, ?E3, ?E4, ?E6, ?L; auto.
Qed.

(** The last step of f_sync, FA_MODIFIED cleared. *)
Lemma unmodified s fp l f : file_ok s fp l -> holds s fp l f ->
  file_ok s (clear FA_MODIFIED fp) l /\ holds s (clear FA_MODIFIED fp) l f.
Proof.
  intros [[V T CH P Z B S W] CL CU CC E] H.
  assert (has FA_DIRTY (clear FA_MODIFIED fp) = has FA_DIRTY fp) as ED by (now apply has_clear_other).
  split; [|exact H]. constructor; auto; [constructor; auto; now rewrite ED | unfold clean; now rewrite ED].
Qed.

Definition synced_file (fp : FIL) (l : list Z) (f : Z -> Z) (s : vol) (x : FRESULT * FIL) (s' : vol) : Prop :=
  only_entry (dir_sect fp) (dir_ofs fp) l s s' /\
  (fst x = FR_OK /\ snd x = clear FA_MODIFIED (flushed fp) /\ file_ok s' (snd x) l /\ holds s' (snd x) l f /\
     on_card s' (snd x) l f \/
   (fst x = FR_DISK_ERR \/ fst x = FR_INVALID_OBJECT) /\ failed s s').

(** After the buffer was written back: the directory entry. *)
Lemma sync_dir_wp fp l f s s1 : data_only l s s1 -> vol_ok s -> own_place s l (dir_sect fp) -> (forall c, In c l -> cluster (lay s) c) -> free_clst (fs s1) = free_clst (fs s) -> file_ok s1 (flushed fp) l -> holds s1 (flushed fp) l f ->
  entry_place s1 (flushed fp) l -> dir_sect (flushed fp) = dir_sect fp -> dir_ofs (flushed fp) = dir_ofs fp ->
  wp (res <- move_window (dir_sect (flushed fp)) ;;
      match res with
      | FR_OK =>
          w <- gets (fun s => win (fs s)) ;;
          w' <- lift (sync_entry (fs_type (lay s)) w (dir_ofs (flushed fp)) (sclust (obj (flushed fp)))
                        (objsize (obj (flushed fp)))) ;;
          put_win w' ;;
          res <- sync_fs ;;
          ret (res, clear FA_MODIFIED (flushed fp))
      | e => ret (e, flushed fp)
      end) (synced_file fp l f s) s1.
Proof.
  intros DO V0 P0 CL F1 FO H [HO P] ED EO. pose proof (data_only_frame _ _ _ DO) as FR. pose proof (fc_vol _ _ _ (fo_core _ _ _ FO)) as V. pose proof (fr_layout _ _ _ FR) as L.
  pose proof (op_seen _ _ _ P) as [Vi _]. unfold synced_file. rewrite <- ED, <- EO in *.
  apply wp_bind. wp_use move_window_wp; [exact V | in_range |]. intros r s2 (V2 & D2 & R).
  pose proof (ev_layout _ _ _ D2) as L2. pose proof (ev_free _ _ _ D2) as F2.
  assert (all_but (dir_sect (flushed fp)) s1 s2) as A2 by (split; [exact L2 | intros n Hn _; now apply D2]).
  destruct R as [(-> & W1 & W2)|(-> & FL & _)].
  2:{ apply wp_ret. split; [apply (only_entry_after _ _ l s s1 s2); auto; [now rewrite <- (ev_view _ _ _ D2) by apply P | congruence | apply D2]|]. right.
      split; [now left | apply (failed_r _ s1); [exact FL | apply FR]]. }
  destruct (all_but_file s1 s2 (flushed fp) l f (dir_sect (flushed fp))) as [FO2 H2]; auto.
  assert (entry_place s2 (flushed fp) l) as P2.
  { split; [exact HO|]. destruct P as [P1 P2' P3]. constructor; rewrite L2; auto. intros c Hc HI.
    rewrite (all_but_entry s1 s2 l (dir_sect (flushed fp)) c V) in HI; auto. now constructor. }
  assert (view s2 (dir_sect (flushed fp)) = win (fs s2)) as W3 by (unfold view; now rewrite W1, Z.eqb_refl).
  destruct (entry_wp (flushed fp) l f s2) as (w' & Ew & WP); auto using flushed_clean.
  apply wp_bind, wp_gets, wp_bind. rewrite <- L, <- L2. eapply wp_lift; [exact Ew|].
  apply wp_assoc, wp_bind. eapply wp_conseq; [exact WP|].
  intros r s3 (A3 & C3 & F3 & EE & FO3 & H3 & R). apply wp_ret. cbn [fst snd].
  assert (all_but (dir_sect (flushed fp)) s1 s3) as A13.
  { destruct A3 as [L3 K3]. split; [congruence|]. intros n Hn Nd. rewrite K3 by (rewrite ?L2; auto). now apply A2. }
  assert ((calls s1 <= calls s2)%nat) as C2 by apply D2.
  assert (view s2 (dir_sect (flushed fp)) = view s1 (dir_sect (flushed fp))) as E2 by (apply (ev_view _ _ _ D2), P). rewrite E2 in EE.
  split; [apply (only_entry_after _ _ l s s1 s3); auto; [congruence | lia]|]. destruct R as [[-> OC]|[-> FL]].
  - left. split; [reflexivity|]. split; [reflexivity|]. destruct (unmodified s3 (flushed fp) l f FO3 H3) as [F4 H4].
    split; [exact F4|]. split; [exact H4|]. destruct OC as [O1 O2 O3]. now constructor.
  - right. split; [now left|]. apply (failed_r _ s2); [exact FL|]. pose proof (fr_calls _ _ _ FR). lia.
Qed.

(** f_sync of a modified file: whatever happens only its directory entry and its
    own sectors change; after FR_OK the file is on the card, another status is
    that of a failed call of the disk layer. *)
Lemma f_sync_fat_wp fp l f s : file_ok s fp l -> holds s fp l f -> opened s fp -> entry_place s fp l ->
  has FA_MODIFIED fp = true -> wp (f_sync_fat fp) (synced_file fp l f s) s.
Proof.
  intros FO H OP [HO P] HM. pose proof (fc_vol _ _ _ (fo_core s fp l FO)) as V.
  assert (forall c, In c l -> cluster (lay s) c) as CL.
  { intros c HI. destruct (fc_chain s fp l (fo_core s fp l FO)) as [[-> _]|[Ch _]]; [contradiction | now apply (chain_clusters _ _ _ Ch)]. }
  unfold f_sync_fat. apply wp_bind, wp_gets, wp_bind. wp_use validate_wp; auto.
  intros r s1 (V1 & Q & [->|[-> FL]]).
  2:{ apply wp_ret. split; [now apply only_entry_frame; auto; [apply quiet_data | apply Q]|]. right. auto. }
  rewrite HM. destruct (quiet_file s s1 fp l f FO V1 Q H) as [FO1 H1]. pose proof (quiet_data l s s1 V Q) as DO1.
  apply wp_bind. wp_use (write_back_wp fp l f); auto; try apply FO1. intros r s2 (DO2 & EF2 & R).
  assert (data_only l s s2) as DO by (etransitivity; [exact DO1 | exact DO2]). pose proof (data_only_frame _ _ _ DO) as FR.
  assert (free_clst (fs s2) = free_clst (fs s)) as F2 by (rewrite EF2; apply Q).
  destruct R as [(-> & C2 & CL2 & H2)|[-> FL]].
  - assert (dir_sect (flushed fp) = dir_sect fp /\ dir_ofs (flushed fp) = dir_ofs fp) as [E1 E2]
      by (unfold flushed; now destruct (has FA_DIRTY fp)).
    apply (sync_dir_wp fp l f s s2); auto; [apply (flushed_ok fp l s1); auto; apply DO2|].
    split; [now rewrite E2|]. rewrite E1. now apply (own_place_frame l s s2).
  - apply wp_ret. split; [now apply only_entry_frame|]. right. split; [now left|].
    apply (failed_r _ s1); [exact FL | apply DO1].
Qed.

(** validate only looks. *)
Lemma validate_looks o s : wp (validate o) (fun _ s' => fs s' = fs s /\ card s' = card s) s.
Proof.
  unfold validate. apply wp_bind, wp_gets. destruct (_ && _); [|now apply wp_ret].
  unfold disk_status. apply wp_bind. unfold wp at 1. cbn [fs card]. now destruct (disk_ok (calls s)).
Qed.

(** f_close: the same, and the file object is invalid. *)
Lemma f_close_fat_wp fp l f s : file_ok s fp l -> holds s fp l f -> opened s fp -> entry_place s fp l ->
  has FA_MODIFIED fp = true ->
  wp (f_close_fat fp) (fun x s' => only_entry (dir_sect fp) (dir_ofs fp) l s s' /\
    (fst x = FR_OK /\ snd x = set_obj (set_o_fs false (obj fp)) (clear FA_MODIFIED (flushed fp)) /\
       vol_ok s' /\ file_ok s' (clear FA_MODIFIED (flushed fp)) l /\ on_card s' fp l f \/
     (fst x = FR_DISK_ERR \/ fst x = FR_INVALID_OBJECT) /\ failed s s')) s.
Proof.
  intros FO H OP P HM. unfold f_close_fat. apply wp_bind. wp_use (f_sync_fat_wp fp l f); auto.
  intros [r fp'] s1 [OE R]. cbn [fst snd] in R.
  destruct R as [(-> & -> & FO1 & H1 & OC)|[[-> | ->] FL]]; [|apply wp_ret; auto ..].
  assert (obj (clear FA_MODIFIED (flushed fp)) = obj fp /\ dir_sect (clear FA_MODIFIED (flushed fp)) = dir_sect fp /\
    dir_ofs (clear FA_MODIFIED (flushed fp)) = dir_ofs fp) as (Eo & E1 & E2) by (unfold flushed; now destruct (has FA_DIRTY fp)).
  set (fp1 := clear FA_MODIFIED (flushed fp)) in *. destruct OE as [L1 C1 T1 R1 N1 F1].
  assert (opened s1 fp1) as OP1 by (unfold opened; now rewrite Eo, L1).
  pose proof (fc_vol _ _ _ (fo_core s1 fp1 l FO1)) as V1. apply wp_bind.
  eapply wp_conseq; [apply wp_and; [apply (validate_wp fp1 s1 V1 OP1) | apply validate_looks]|].
  intros r s2 ((V2 & Q2 & R) & EF & EC). pose proof (quiet_file s1 s2 fp1 l f FO1 V2 Q2 H1) as [FO2 H2].
  assert (forall n, view s2 n = view s1 n) as EV by (intros n; unfold view; now rewrite EF, EC).
  pose proof (ev_calls _ _ _ (qu_disk _ _ Q2)) as C2.
  assert (only_entry (dir_sect fp) (dir_ofs fp) l s s2) as OE.
  { constructor; [now rewrite EF | lia | | | now rewrite EV | now rewrite EF]; [|intros n Hn Ho Nd; rewrite EV; auto].
    intros c Hc. rewrite (up_table _ _ _ (same_updates s1 s2 V1 Q2)) by (now rewrite L1). auto. }
  destruct R as [->|[-> FL]]; apply wp_ret; (split; [exact OE|]); cbn [fst snd].
  - left. rewrite Eo. split; [reflexivity|]. split; [reflexivity|]. split; [exact V2|]. split; [exact FO2|].
    destruct OC as [O1 O2 O3]. rewrite Eo, E1, E2 in *. constructor; rewrite ?EF, ?EC; auto.
    intros n Hn. now rewrite EV, O1.
  - right. split; [now right|]. apply (failed_r _ s1); [exact FL | lia].
Qed.

End SyncLaws.
