(* ===== verification/FatOpen.v ===== *)
(** * ext/fatfs/src/ff.c: opening the file of a directory entry

    What f_open does on a FAT volume once follow_path or dir_register has left
    the entry in the window: overwriting an existing file (FA_CREATE_ALWAYS),
    which frees its chain, filling in the file object, and seeking to the end
    (FA_OPEN_APPEND).  [o] is the offset of the entry, [dj.dir], in the window. *)

From Stdlib Require Import ZArith Bool List Lia.
From Stdlib Require Import Classes.RelationClasses.
From S2P Require Import Prelude FatVol FatTable FatBitmap FatChain FatFile FatWrite FatRead FatSync.
Import ListNotations.
Local Open Scope Z_scope.
Local Open Scope fw_scope.

Definition FA_CREATE_ALWAYS : Z := 0x08.

Definition FA_SEEKEND : Z := 0x20.

Definition AM_ARC : Z := 0x20.

Section Open.
Context `{D : DiskIo}.

(** The entry of a file that is overwritten. *)
Definition reset_entry (t : Z) (w : list Z) (o : Z) : result (list Z) :=
  w <=! st_dword w (o + 14) GET_FATTIME ;;
  w <=! array_set w (o + 11) AM_ARC ;;
  w <=! st_clust t w o 0 ;;
  st_dword w (o + 28) 0.

(** Truncation of the file in overwrite mode; [ob] is [dj.obj]. *)
Definition overwrite_fat (ob : FFOBJID) (o : Z) : F FRESULT :=
  g <- gets (fun s => layout (fs s)) ;;
  w <- gets (fun s => win (fs s)) ;;
  cl <- lift (ld_clust (fs_type g) w o) ;;
  w' <- lift (reset_entry (fs_type g) w o) ;;
  put_win w' ;;
  if cl =? 0 then ret FR_OK
  else
    dw <- gets (fun s => winsect (fs s)) ;;
    '(res, _) <- remove_chain ob cl 0 ;;
    match res with
    | FR_OK =>
        res <- move_window dw ;;
        upd_fs (set_last_clst (u32 (cl - 1))) ;;
        ret res
    | e => ret e
    end.

(** The cluster [clst] of the last byte of the file: the loop over [clst] and
    [ofs] of the seek to the end. *)
Definition last_cluster (ob : FFOBJID) (bcs : Z) : F (FRESULT * Z * Z) :=
  iter (S (Z.to_nat (objsize ob / bcs))) (fun x : Z * Z =>
    let (clst, ofs) := x in
    if bcs <? ofs then
      clst <- get_fat ob clst ;;
      if clst =? 0xFFFFFFFF then ret (inr (FR_DISK_ERR, clst, ofs - bcs))
      else if clst <=? 1 then ret (inr (FR_INT_ERR, clst, ofs - bcs))
      else ret (inl (clst, ofs - bcs))
    else ret (inr (FR_OK, clst, ofs))) (sclust ob, objsize ob).

Definition seek_end (fp : FIL) : F (FRESULT * FIL) :=
  g <- gets (fun s => layout (fs s)) ;;
  let fp := set_fptr (objsize (obj fp)) fp in
  '(res, clst, ofs) <- last_cluster (obj fp) (u32 (csize g * SS)) ;;
  let fp := set_clust clst fp in
  if fr_ok res && negb (ofs mod SS =? 0) then
    sc <- clst2sect clst ;;
    if sc =? 0 then ret (FR_INT_ERR, fp)
    else
      let fp := set_sect (u32 (sc + ofs / SS)) fp in
      '(ok, b) <- disk_read (sect fp) 1 ;;
      ret (if ok then FR_OK else FR_DISK_ERR, set_buf b fp)
  else ret (res, fp).

(** The file object of the entry, from [fp->dir_sect = fs->winsect] on. *)
Definition open_fat (fp : FIL) (mode o : Z) : F (FRESULT * FIL) :=
  f <- gets fs ;;
  let mode := if Z.land mode FA_CREATE_ALWAYS =? 0 then mode else Z.lor mode FA_MODIFIED in
  scl <- lift (ld_clust (fs_type (layout f)) (win f) o) ;;
  size <- lift (ld_dword (win f) (o + 28)) ;;
  let ob := mkFFOBJID true (fsid (layout f)) (attr (obj fp)) (stat (obj fp)) scl size (n_cont (obj fp)) (n_frag (obj fp)) in
  let fp := mkFIL ob mode FR_OK 0 (clust fp) 0 (winsect f) o (repeat 0 (Z.to_nat SS)) in
  '(res, fp) <- (if negb (Z.land mode FA_SEEKEND =? 0) && (0 <? size) then seek_end fp else ret (FR_OK, fp)) ;;
  ret (res, if fr_ok res then fp else set_obj (set_o_fs false (obj fp)) fp).

End Open.

(** ** The file of a directory entry *)

(** At offset [o] of the window is the entry of a file of [size] bytes on the
    chain [l]; [ob] has the entry's first cluster and size. *)
Record entry_at (s : vol) (o : Z) (ob : FFOBJID) (l : list Z) : Prop := {
  ea_vol : vol_ok s;
  ea_type : fs_type (lay s) <> FS_EXFAT;
  ea_place : 0 <= o <= SS - 32 /\ own_place s l (winsect (fs s));
  ea_entry : entry_holds (fs_type (lay s)) (win (fs s)) o (sclust ob) (objsize ob);
  ea_chain : file_chain s ob l;
  ea_size : 0 <= objsize ob <= room (lay s) l * SS /\ objsize ob < 2 ^ 32
}.

(** The contents of the file as the card has them. *)
Definition stored (s : vol) (l : list Z) (i : Z) : Z := byte_at (card s (file_sect (lay s) l (i / SS))) (i mod SS).

Section OpenLaws.
Context `{D : DiskIo} {DL : DiskLaws D}.

(** The file object that open_fat composes. *)
Definition fresh (fp : FIL) (ob : FFOBJID) (g : Layout) (mode ws o : Z) : FIL :=
  mkFIL (mkFFOBJID true (fsid g) (attr (obj fp)) (stat (obj fp)) (sclust ob) (objsize ob) (n_cont (obj fp)) (n_frag (obj fp)))
    (if Z.land mode FA_CREATE_ALWAYS =? 0 then mode else Z.lor mode FA_MODIFIED) FR_OK 0 (clust fp) 0 ws o
    (repeat 0 (Z.to_nat SS)).

Lemma fresh_flag fp ob g mode ws o b : Z.land FA_MODIFIED b = 0 ->
  has b (fresh fp ob g mode ws o) = negb (Z.land mode b =? 0).
Proof.
  intros E. unfold has, fresh. cbn [flag]. destruct (Z.land mode FA_CREATE_ALWAYS =? 0); [reflexivity|]. now rewrite Z.land_lor_distr_l, E, Z.lor_0_r.
Qed.

Lemma fresh_ok s o ob l mode fp : entry_at s o ob l -> Z.land mode FA_DIRTY = 0 ->
  let fp' := fresh fp ob (lay s) mode (winsect (fs s)) o in
  file_ok s fp' l /\ holds s fp' l (stored s l) /\ opened s fp' /\ entry_place s fp' l /\ has FA_DIRTY fp' = false.
Proof.
  intros [V T [HO P] EH CH [SZ SZ2]] HM fp'.
  assert (has FA_DIRTY fp' = false) as HD by (unfold fp'; now rewrite fresh_flag, HM).
  split; [|split; [|split; [now split | split; [now split | exact HD]]]].
  - constructor; auto; try (cbn; lia); [|intros _ N; now destruct N].
    constructor; cbn [fp' fresh obj fptr objsize buf sect]; auto; try lia; [apply zero_sector | intros c; apply (op_data _ _ _ P)].
  - intros i Hi. unfold file_data, stored. cbn [fp' fresh sect].
    assert (0 <= i / SS < room (lay s) l) as Hk by (cbn in Hi; unfold SS in *; dlia).
    assert (chain (lay s) (fat_entry s) l) as Ch.
    { destruct CH as [[-> _]|[Ch _]]; [unfold room in Hk; cbn in Hk; lia | exact Ch]. }
    pose proof (file_sect_pos _ (vo_layout s V) _ l _ Ch Hk). now rewrite (proj2 (Z.eqb_neq _ _)) by lia.
Qed.

(** get_fat at cluster number [j] of a chain that goes on. *)
Lemma next_cluster ob l j s s1 : vol_ok s -> fs_type (lay s) <> FS_EXFAT -> chain (lay s) (fat_entry s) l ->
  0 <= j -> j + 1 < Z.of_nat (length l) -> vol_ok s1 -> quiet s s1 ->
  wp (get_fat ob (nth_clust l j)) (reads (nth_clust l (j + 1)) s) s1.
Proof.
  intros V T Ch Hj Hl V1 Q. pose proof (chain_nth _ _ _ Ch (Z.to_nat j) ltac:(lia)) as E.
  destruct (Nat.eqb_spec (S (Z.to_nat j)) (length l)) as [X|_]; [lia|].
  assert (cluster (lay s) (nth_clust l j)) as Hc by (apply (chain_clusters _ _ _ Ch), nth_In; lia).
  wp_use (get_fat_after ob (nth_clust l j) s s1); auto. rewrite fat_value_entry by exact Hc.
  unfold nth_clust. rewrite E. replace (S (Z.to_nat j)) with (Z.to_nat (j + 1)) by lia. auto.
Qed.

(** The seek to the end follows the chain to the cluster of the last byte. *)
Lemma last_cluster_wp ob l s : vol_ok s -> fs_type (lay s) <> FS_EXFAT -> chain (lay s) (fat_entry s) l ->
  nth_clust l 0 = sclust ob -> 0 < objsize ob <= room (lay s) l * SS -> 
  let bcs := csize (lay s) * SS in
  wp (last_cluster ob bcs) (fun x s' => let '(r, clst, ofs) := x in vol_ok s' /\ quiet s s' /\
    (r = FR_OK /\ clst = nth_clust l ((objsize ob - 1) / bcs) /\ ofs = objsize ob - (objsize ob - 1) / bcs * bcs \/
     r = FR_DISK_ERR /\ failed s s')) s.
Proof.
  intros V T Ch E0 SZ bcs. pose proof (vo_layout s V) as LO. pose proof (csize_pos _ LO) as CP.
  pose proof (n_fatent_range _ LO) as N. assert (0 < bcs) as BP by (unfold bcs, SS; lia).
  assert (objsize ob <= Z.of_nat (length l) * bcs) as SB by (unfold room, bcs in *; lia).
  unfold last_cluster.
  apply (wp_iter _ (fun x s1 => let '(clst, ofs) := x in vol_ok s1 /\ quiet s s1 /\
           exists j, 0 <= j /\ clst = nth_clust l j /\ ofs = objsize ob - j * bcs /\ 0 < ofs)
         (fun x _ => let '(_, ofs) := x in Z.to_nat (ofs / bcs))).
  2:{ split; [exact V|]. split; [reflexivity|]. exists 0. rewrite E0. repeat split; lia. }
  2:{ cbn. lia. }
  intros [clst ofs] s1 (V1 & Q1 & j & Hj & -> & -> & Ho). destruct (Z.ltb_spec bcs (objsize ob - j * bcs)) as [L|L].
  - assert (j + 1 < Z.of_nat (length l)) as HJ by nia. apply wp_bind. wp_use (next_cluster ob l j s s1); auto.
    assert (cluster (lay s) (nth_clust l (j + 1))) as Hn by (apply (chain_clusters _ _ _ Ch), nth_In; lia).
    unfold cluster in Hn. intros v s2 (V2 & Q2 & [->|[-> FL]]).
    + destruct (Z.eqb_spec (nth_clust l (j + 1)) 0xFFFFFFFF); [exfalso; eval_pow; lia|].
      destruct (Z.leb_spec (nth_clust l (j + 1)) 1); [lia|]. apply wp_ret. split.
      * split; [exact V2|]. split; [exact Q2|]. exists (j + 1). repeat split; lia.
      * replace (objsize ob - j * bcs - bcs) with (objsize ob - j * bcs + (-1) * bcs) by lia.
        rewrite Z.div_add by lia. assert (1 <= (objsize ob - j * bcs) / bcs) by (apply Z.div_le_lower_bound; lia). lia.
    + cbn [Z.eqb Pos.eqb]. apply wp_ret. split; [exact V2|]. split; [exact Q2|]. now right.
  - apply wp_ret. split; [exact V1|]. split; [exact Q1|]. left. split; [reflexivity|].
    replace ((objsize ob - 1) / bcs) with j; [now split|]. apply (Z.div_unique_pos _ _ _ (objsize ob - 1 - j * bcs)); lia.
Qed.

(** The object at the end of the file, not in a sector yet. *)
Lemma end_core s fp l c : file_ok s fp l -> file_core s (set_clust c (set_fptr (objsize (obj fp)) fp)) l.
Proof.
  intros [[V T CH P Z B S W] _ _ _ _]. constructor; auto. cbn. lia.
Qed.

(** The buffer filled with the sector of the end. *)
Lemma end_filled s fp l f c n : file_ok s fp l -> holds s fp l f -> has FA_DIRTY fp = false ->
  let z := objsize (obj fp) in
  0 <= z / SS < room (lay s) l -> c = nth_clust l ((z - 1) / SS / csize (lay s)) -> n = file_sect (lay s) l (z / SS) ->
  let fp' := set_buf (card s n) (set_sect n (set_clust c (set_fptr z fp))) in
  file_ok s fp' l /\ holds s fp' l f.
Proof.
  intros FO H HD z Hk Ec En fp'. pose proof FO as [C CL CU CC E]. pose proof (fc_vol s fp l C) as V.
  assert (file_core s fp' l) as C'.
  { destruct C as [_ T CH P Z B S W]. constructor; auto; [cbn; lia | apply V | right; exists (z / SS); auto]. }
  assert (clean s fp') as CL' by (intros _ _; reflexivity).
  split; [constructor; auto|]. intros i Hi. rewrite <- (H i Hi).
  pose proof (fc_size s fp l C) as [SZ _]. cbn in Hi.
  rewrite (clean_data s fp' l i C' CL'), (clean_data s fp l i C CL) by (auto; lia). reflexivity.
Qed.

Lemma end_offsets z c b : 1 <= c <= 2 ^ 15 -> 0 < z -> b = c * SS ->
  let ofs := z - (z - 1) / b * b in
  (z - 1) / b = (z - 1) / SS / c /\ ofs mod SS = z mod SS /\ (z mod SS <> 0 -> ofs / SS = (z / SS) mod c).
Proof.
  intros Hc Hz -> ofs. assert ((z - 1) / (c * SS) = (z - 1) / SS / c) as E by (rewrite Z.mul_comm, Z.div_div by (unfold SS; lia); reflexivity).
  split; [exact E|]. set (q := (z - 1) / (c * SS)) in *. assert (ofs = z + (- (q * c)) * SS) as EO by (subst ofs; lia).
  split; [rewrite EO; apply Z.mod_add; unfold SS; lia|]. intros NZ. rewrite EO, Z.div_add by (unfold SS; lia).
  assert ((z - 1) / SS = z / SS) as E1 by (unfold SS in *; dlia). rewrite E1 in E.
  rewrite Z.mod_eq by lia. rewrite <- E. lia.
Qed.

Definition sought (fp : FIL) (l : list Z) (f : Z -> Z) (s : vol) (x : FRESULT * FIL) (s' : vol) : Prop :=
  vol_ok s' /\ quiet s s' /\
  (fst x = FR_OK /\ file_ok s' (snd x) l /\ holds s' (snd x) l f /\ fptr (snd x) = objsize (obj fp) /\
     obj (snd x) = obj fp /\ flag (snd x) = flag fp /\ dir_sect (snd x) = dir_sect fp /\ dir_ofs (snd x) = dir_ofs fp \/
   fst x = FR_DISK_ERR /\ failed s s').

Lemma sought_after fp l f s s1 x s2 : quiet s s1 -> sought fp l f s1 x s2 -> sought fp l f s x s2.
Proof.
  intros Q (V & Q2 & R). split; [exact V|]. split; [etransitivity; eassumption|].
  destruct R as [R|[R FL]]; [now left|]. right. split; [exact R|]. apply (failed_r _ s1); [exact FL | apply Q].
Qed.

(** The end of the file inside a sector: the buffer takes that sector. *)
Lemma seek_sector fp l f ofs s : file_ok s fp l -> holds s fp l f -> has FA_DIRTY fp = false ->
  let z := objsize (obj fp) in let c := nth_clust l ((z - 1) / SS / csize (lay s)) in
  0 < z -> z mod SS <> 0 -> ofs / SS = (z / SS) mod csize (lay s) ->
  let fp1 := set_clust c (set_fptr z fp) in
  wp (sc <- clst2sect c ;;
      if sc =? 0 then ret (FR_INT_ERR, fp1)
      else
        let fp := set_sect (u32 (sc + ofs / SS)) fp1 in
        '(ok, b) <- disk_read (sect fp) 1 ;;
        ret (if ok then FR_OK else FR_DISK_ERR, set_buf b fp)) (sought fp l f s) s.
Proof.
  intros FO H HD z c HZ M E3 fp1. pose proof (fo_core s fp l FO) as C. pose proof (fc_vol s fp l C) as V.
  pose proof (fc_size s fp l C) as [SZ _]. fold z in SZ.
  assert (0 <= z / SS < room (lay s) l) as Hz by (unfold SS in *; dlia).
  assert ((z - 1) / SS = z / SS) as E4 by (unfold SS in *; dlia).
  apply wp_bind. change c with (clust fp1). wp_use (clst_wp fp1 l s); [now apply end_core | |].
  { split; cbn [fp1 fptr set_clust set_fptr clust]; [exact Hz | unfold c; now rewrite E4]. }
  intros sc s2 (-> & NZ & Esc). cbn [fp1 fptr set_clust set_fptr] in Esc. rewrite (proj2 (Z.eqb_neq _ _) NZ).
  rewrite E3, Esc. cbn [sect set_sect]. apply wp_bind. wp_use disk_read_one; [exact V|].
  intros [ok b] s3 (V3 & Q3 & EF & EC & _ & Eb & FL). cbn [fst snd] in *. apply wp_ret.
  split; [exact V3|]. split; [exact Q3|]. destruct ok; cbn [fst snd]; [left | right; auto].
  split; [reflexivity|]. rewrite (Eb eq_refl), <- EC. destruct (quiet_file s s3 fp l f FO V3 Q3 H) as [FO3 H3].
  destruct (end_filled s3 fp l f c (file_sect (lay s) l (z / SS))) as [FO4 H4]; rewrite ?EF; auto 9.
Qed.

Lemma seek_end_wp fp l f s : file_ok s fp l -> holds s fp l f -> has FA_DIRTY fp = false -> 0 < objsize (obj fp) ->
  wp (seek_end fp) (sought fp l f s) s.
Proof.
  intros FO H HD HZ. pose proof (fo_core s fp l FO) as C. pose proof (fc_vol s fp l C) as V. pose proof (vo_layout s V) as LO.
  pose proof (csize_pos _ LO) as CP. pose proof (fc_size s fp l C) as [SZ _].
  assert (exists k, 0 <= k < room (lay s) l) as [k Hk] by (exists 0; unfold SS in SZ; lia).
  assert (chain (lay s) (fat_entry s) l /\ nth_clust l 0 = sclust (obj fp)) as [Ch E0].
  { destruct (fc_chain s fp l C) as [[-> _]|X]; [unfold room in Hk; cbn in Hk; lia | exact X]. }
  unfold seek_end. apply wp_bind, wp_gets. cbn [obj set_fptr].
  assert (u32 (csize (lay s) * SS) = csize (lay s) * SS) as -> by (apply uwrap_small; unfold in_u, SS; eval_pow; lia).
  apply wp_bind. wp_use (last_cluster_wp (obj fp) l s); auto; [apply C|]. intros [[r clst] ofs] s1 (V1 & Q1 & R).
  destruct R as [(-> & -> & ->)|[-> FL]]; [|apply wp_ret; split; [exact V1|]; auto]. cbn [fr_ok andb].
  destruct (end_offsets (objsize (obj fp)) (csize (lay s)) (csize (lay s) * SS) CP HZ eq_refl) as (E1 & E2 & E3).
  rewrite E1 in *. rewrite E2. destruct (quiet_file s s1 fp l f FO V1 Q1 H) as [FO1 H1].
  pose proof (quiet_layout Q1) as L. rewrite <- L in *.
  destruct (Z.eqb_spec (objsize (obj fp) mod SS) 0) as [M|M]; cbn [negb].
  - apply wp_ret. split; [exact V1|]. split; [exact Q1|]. left. cbn [fst snd]. split; [reflexivity|].
    split; [|repeat split; auto]. constructor; try apply FO1; [now apply end_core | contradiction |]. now intros _.
  - eapply wp_conseq; [apply (seek_sector fp l f); auto | intros x s2; now apply sought_after].
Qed.

(** open_fat: FR_OK gives the file object of the entry, at its beginning or, with
    FA_SEEKEND, at its end; another status is that of a failed call, and the
    object is not valid. *)
Lemma open_fat_wp fp mode o ob l s : entry_at s o ob l -> Z.land mode FA_DIRTY = 0 ->
  wp (open_fat fp mode o) (fun x s' => vol_ok s' /\ quiet s s' /\
    (fst x = FR_OK /\ file_ok s' (snd x) l /\ holds s' (snd x) l (stored s l) /\ opened s' (snd x) /\
       obj (snd x) = obj (fresh fp ob (lay s) mode (winsect (fs s)) o) /\
       flag (snd x) = flag (fresh fp ob (lay s) mode (winsect (fs s)) o) /\
       fptr (snd x) = (if Z.land mode FA_SEEKEND =? 0 then 0 else objsize ob) /\
       dir_sect (snd x) = winsect (fs s) /\ dir_ofs (snd x) = o \/
     fst x = FR_DISK_ERR /\ failed s s' /\ o_fs (obj (snd x)) = false)) s.
Proof.
  intros EA HM. pose proof (ea_entry _ _ _ _ EA) as [E1 E2]. pose proof (ea_vol _ _ _ _ EA) as V.
  destruct (fresh_ok s o ob l mode fp EA HM) as (FO & H & OP & EP & HD).
  set (fp' := fresh fp ob (lay s) mode (winsect (fs s)) o) in *. unfold open_fat. apply wp_bind, wp_gets, wp_bind.
  eapply wp_lift; [exact E1|]. apply wp_bind. eapply wp_lift; [exact E2|]. apply wp_bind.
  replace (Z.land (if Z.land mode FA_CREATE_ALWAYS =? 0 then mode else Z.lor mode FA_MODIFIED) FA_SEEKEND)
    with (Z.land mode FA_SEEKEND)
    by (destruct (Z.land mode FA_CREATE_ALWAYS =? 0); [reflexivity | now rewrite Z.land_lor_distr_l, Z.lor_0_r]).
  fold (fresh fp ob (lay s) mode (winsect (fs s)) o). fold fp'. pose proof (ea_size _ _ _ _ EA) as [[SZ _] _].
  destruct (negb (Z.land mode FA_SEEKEND =? 0) && (0 <? objsize ob)) eqn:E.
  - apply andb_true_iff in E as [E3 E4]. apply negb_true_iff in E3. apply Z.ltb_lt in E4.
    wp_use (seek_end_wp fp' l (stored s l)); auto. intros [r fp2] s2 (V2 & Q2 & R). apply wp_ret. cbn [fst snd] in *.
    split; [exact V2|]. split; [exact Q2|]. rewrite E3.
    destruct R as [(-> & FO2 & H2 & F1 & F2 & F3 & F4 & F5)|[-> FL]]; [left | right; now repeat split].
    cbn [fr_ok]. unfold opened. rewrite F2, (quiet_layout Q2). now repeat (split; [assumption || reflexivity|]).
  - apply wp_ret, wp_ret. cbn [fst snd fr_ok]. split; [exact V|]. split; [reflexivity|]. left.
    repeat (split; [assumption || reflexivity|]). split; [|now split].
    apply andb_false_iff in E as [E|E]; [apply negb_false_iff in E; now rewrite E|]. apply Z.ltb_ge in E.
    replace (objsize ob) with 0 by lia. now destruct (_ =? 0).
Qed.

(** ** Overwriting *)

Lemma reset_entry_ok t w o : is_sector w -> 0 <= o <= SS - 32 ->
  exists w', reset_entry t w o = Ok w' /\ is_sector w' /\ entry_holds t w' o 0 0 /\ entry_edit o w w'.
Proof.
  intros Sw Ho. unfold reset_entry. pose proof Ho as Ho'. unfold SS in Ho'.
  destruct (st_dword_sector w (o + 14) GET_FATTIME Sw) as (w1 & -> & W1 & S1); [unfold SS; lia|]. cbn [rbind].
  apply stored_only in W1. pose proof S1 as [L1 B1]. rewrite array_set_ok by (rewrite L1; unfold SS; lia). cbn [rbind].
  set (w2 := list_set _ _ w1). assert (is_sector w2) as S2.
  { split; [unfold w2; now rewrite list_set_length|]. apply bytes_set; [unfold AM_ARC; in_range | exact B1]. }
  assert (only_at (o + 11) 1 w1 w2) as K2.
  { intros i Hi HO. unfold w2. rewrite byte_at_set by (rewrite ?L1; unfold SS; lia).
    destruct (Z.eqb_spec i (o + 11)); [lia | reflexivity]. }
  destruct (st_clust_ok t w2 o 0 S2 Ho ltac:(in_range) ltac:(intros _; reflexivity)) as (w3 & -> & S3 & C3 & K3). cbn [rbind].
  destruct (st_dword_sector w3 (o + 28) 0 S3) as (w4 & -> & W4 & S4); [unfold SS; lia|].
  pose proof (fun H => stored_le_same _ _ _ _ H W4) as E4. specialize (E4 ltac:(lia)). apply stored_only in W4.
  exists w4. split; [reflexivity|]. split; [exact S4|]. pose proof S4 as [L4 B4]. split; [split|].
  - rewrite ld_clust_ok by assumption. f_equal.
    rewrite !(fun k H1 H2 => le2_kept _ _ _ _ k H1 H2 W4) by lia. now destruct (t =? FS_FAT32).
  - rewrite ld_dword_ok by (auto; rewrite ?L4; unfold SS; lia). now rewrite E4.
  - split; [intros i Hi HO; rewrite W4, K3, K2, W1 by lia; reflexivity|]. intros b Nb _. rewrite W4, K3 by lia.
    unfold w2. rewrite byte_at_set, Z.eqb_refl by (rewrite ?L1; unfold SS; lia). now apply (Z.pow2_bits_false 5).
Qed.

(** What overwriting the file leaves: an empty file in the same entry, the chain
    free, everything else as it was. *)
Definition blank (ob : FFOBJID) : FFOBJID := set_objsize 0 (set_sclust 0 ob).

Record overwritten (o : Z) (ob : FFOBJID) (l : list Z) (s s' : vol) : Prop := {
  ow_entry : entry_at s' o (blank ob) [];
  ow_layout : lay s' = lay s;
  ow_calls : (calls s <= calls s')%nat;
  ow_win : winsect (fs s') = winsect (fs s);
  ow_table : forall c, cluster (lay s) c -> fat_entry s' c = freed l (fat_entry s) c;
  ow_dir : entry_edit o (view s (winsect (fs s))) (view s' (winsect (fs s)));
  ow_rest : forall n, visible (lay s) n -> ~ (fatbase (lay s) <= n < fatbase (lay s) + fsize (lay s)) ->
            n <> winsect (fs s) -> view s' n = view s n
}.

Lemma blank_entry o ob l s s' w : entry_at s o ob l -> vol_ok s' -> lay s' = lay s -> winsect (fs s') = winsect (fs s) ->
  (forall c, cluster (lay s) c -> fat_entry s' c = freed l (fat_entry s) c) ->
  win (fs s') = w -> entry_holds (fs_type (lay s)) w o 0 0 -> entry_at s' o (blank ob) [].
Proof.
  intros [V T [HO [P1 P2 P3]] EH CH SZ] V' L EW KT <- EH'. constructor; rewrite ?L; auto.
  - split; [exact HO|]. rewrite EW. constructor; rewrite L; auto. intros c Hc [[]|E0]. rewrite KT in E0 by exact Hc.
    unfold freed in E0. apply (P3 c Hc). destruct (in_dec Z.eq_dec c l); auto.
  - now left.
  - cbn. unfold room. cbn. lia.
Qed.

(** The entry is reset in the window. *)
Lemma reset_window o ob l s w' : entry_at s o ob l -> is_sector w' -> entry_holds (fs_type (lay s)) w' o 0 0 ->
  entry_edit o (win (fs s)) w' ->
  let s' := mkvol (set_wflag 1 (set_win w' (fs s))) (card s) (calls s) in
  vol_ok s' /\ all_but (winsect (fs s)) s s' /\ view s' (winsect (fs s)) = w' /\ 
  (forall c, cluster (lay s) c -> fat_entry s' c = fat_entry s c).
Proof.
  intros [V T [HO P] EH CH SZ] Sw EH' K. destruct (store_window w' s V Sw (op_seen _ _ _ P)) as [V' [L VW _ _ _ _]].
  cbv zeta in *. set (s' := mkvol _ _ _) in *.
  assert (all_but (winsect (fs s)) s s') as A.
  { split; [exact L|]. intros n Hn Nd. rewrite VW by exact Hn. unfold put_sector. now rewrite (proj2 (Z.eqb_neq _ _) Nd). }
  split; [exact V'|]. split; [exact A|]. split; [unfold view; cbn; now rewrite Z.eqb_refl|].
  intros c Hc. now apply (all_but_entry s s' l (winsect (fs s))).
Qed.

Lemma last_clst_ok x s : vol_ok s -> in_u 32 x -> vol_ok (mkvol (set_last_clst x (fs s)) (card s) (calls s)).
Proof. intros V Hx. destruct V. constructor; auto. Qed.

(** Back to the entry after the chain was freed. *)
Lemma back_to_entry o ob l x s s1 s2 w' : entry_at s o ob l -> entry_holds (fs_type (lay s)) w' o 0 0 ->
  entry_edit o (win (fs s)) w' -> vol_ok s1 -> all_but (winsect (fs s)) s s1 -> calls s1 = calls s ->
  view s1 (winsect (fs s)) = w' -> (forall c, cluster (lay s) c -> fat_entry s1 c = fat_entry s c) ->
  vol_ok s2 -> reaches (freed l (fat_entry s1)) s1 s2 -> in_u 32 x ->
  wp (res <- move_window (winsect (fs s)) ;; upd_fs (set_last_clst x) ;; ret res)
    (fun r s' => r = FR_OK /\ overwritten o ob l s s' \/ r = FR_DISK_ERR /\ failed s s') s2.
Proof.
  intros EA EH K V1 [L1 A1] C1 W1 KT V2 [L2 RT RR RC _ _] Hx. pose proof (ea_place _ _ _ _ EA) as [HO [P1 P2 P3]].
  pose proof P1 as [Pr _]. rewrite L1 in *. apply wp_bind. wp_use move_window_wp; [exact V2 | in_range |].
  intros r s3 (V3 & [L3 VW3 C3 _ _ _] & R). rewrite L2 in *. unfold upd_fs. wp_norm. set (s4 := mkvol _ _ _).
  pose proof (last_clst_ok x s3 V3 Hx) as V4. fold s4 in V4.
  assert (forall n, view s4 n = view s3 n) as E4 by reflexivity.
  destruct R as [(-> & Ew & Wn)|(-> & FL & _)].
  2:{ right. split; [reflexivity|]. apply (failed_r _ s2); [|lia]. apply (failed_l _ s3); [exact FL | cbn; lia]. }
  left. split; [reflexivity|].
  assert (forall c, cluster (lay s) c -> fat_entry s4 c = freed l (fat_entry s) c) as KT4.
  { intros c Hc. transitivity (fat_entry s2 c); [|rewrite RT by exact Hc; unfold freed; destruct (in_dec Z.eq_dec c l); auto].
    apply same_bytes_entry; [exact V2 | cbn; congruence | now rewrite L2|]. rewrite L2. intros k Hk. unfold fat_byte.
    rewrite E4. change (lay s4) with (lay s3). rewrite L3, L2, VW3; [reflexivity|].
    rewrite <- L2. apply fat_sector_visible; [apply V2 | rewrite L2]. now apply table_sector. }
  assert (view s3 (winsect (fs s)) = w') as E3 by (rewrite VW3, RR by assumption; exact W1).
  assert (win (fs s3) = w') as E5 by (rewrite <- E3; unfold view; now rewrite Ew, Z.eqb_refl).
  constructor; try (cbn; congruence || lia); auto.
  - apply (blank_entry o ob l s s4 w'); auto; cbn; congruence.
  - rewrite E4, E3. unfold view. now rewrite Z.eqb_refl.
  - intros n Hn Ht Nd. rewrite E4, VW3, RR by assumption. auto.
Qed.

(** Overwriting a file: FR_OK leaves its entry empty and its clusters free; any
    other status is that of a failed call. *)
Lemma overwrite_fat_wp oj o ob l s : entry_at s o ob l ->
  wp (overwrite_fat oj o) (fun r s' => r = FR_OK /\ overwritten o ob l s s' \/ r = FR_DISK_ERR /\ failed s s') s.
Proof.
  intros EA. pose proof EA as [V T [HO P] [EH EZ] CH SZ]. unfold overwrite_fat. apply wp_bind, wp_gets, wp_bind, wp_gets, wp_bind.
  eapply wp_lift; [exact EH|]. apply wp_bind.
  destruct (reset_entry_ok (fs_type (lay s)) (win (fs s)) o (vo_win s V) HO) as (w' & Ew & Sw & EH' & K).
  eapply wp_lift; [exact Ew|]. unfold put_win, upd_fs. wp_norm.
  destruct (reset_window o ob l s w' EA Sw EH' K) as (V1 & A1 & W1 & KT). set (s1 := mkvol _ _ _) in *.
  destruct CH as [[-> E0]|[Ch E0]].
  - rewrite E0. cbn [Z.eqb]. apply wp_ret. left. split; [reflexivity|]. constructor; try reflexivity; auto.
    + now apply (blank_entry o ob [] s s1 w').
    + rewrite W1. unfold view. now rewrite Z.eqb_refl.
    + intros n Hn _ Nd. now apply A1.
  - destruct l as [|a l]; [contradiction|]. cbn in E0. subst a. pose proof Ch as [Hc _].
    rewrite (proj2 (Z.eqb_neq _ _)) by (unfold cluster in Hc; lia). wp_norm. change (winsect (fs s1)) with (winsect (fs s)).
    wp_use (remove_chain_wp oj (sclust ob) l 0 s1); auto.
    { apply (chain_ext _ (fat_entry s)); [|exact Ch]. intros c I. symmetry. apply KT. now apply (chain_clusters _ _ _ Ch). }
    intros [r o2] s2 (_ & V2 & [(Er & RE & _)|(Er & FL & _)]); cbn [fst] in Er; subst r.
    + apply (back_to_entry o ob _ _ s s1 s2 w'); auto.
      pose proof (n_fatent_range _ (vo_layout s V)). unfold cluster in Hc. unfold u32. apply uwrap_range. lia.
    + apply wp_ret. right. split; [reflexivity|]. exact FL.
Qed.

End OpenLaws.
