(* ===== verification/FatStore.v ===== *)
(** * ext/fatfs/src/ff.c: a file written, closed and read again

    The operations of an application on one file, put together: f_write and
    f_close, then the file opened again from its directory entry and read.
    What is read is what was written. *)

From Stdlib Require Import ZArith Bool List Lia.
From Stdlib Require Import Classes.RelationClasses.
From S2P Require Import Prelude FatVol FatTable FatBitmap FatChain FatFile FatWrite FatRead FatSync FatOpen.
Import ListNotations.
Local Open Scope Z_scope.
Local Open Scope fw_scope.

Section Store.
Context `{D : DiskIo}.

(** [f_write(fp, buff, btw, &bw)] and [f_close(fp)]: [bw] when both succeed. *)
Definition save (fp : FIL) (buff : list Z) : F (option (Z * FIL)) :=
  '(r, bw, fp) <- f_write fp buff (Z.of_nat (length buff)) ;;
  if fr_ok r then
    '(r, fp) <- f_close_fat fp ;;
    ret (if fr_ok r then Some (bw, fp) else None)
  else ret None.

(** The file of the entry at offset [o] of the window, or of sector [d], opened
    for reading, and its first [n] bytes read. *)
Definition load_here (fp : FIL) (o n : Z) : F (option (list Z)) :=
  '(r, fp) <- open_fat fp FA_READ o ;;
  if fr_ok r then
    '(r, data, _) <- f_read fp n ;;
    ret (if fr_ok r then Some data else None)
  else ret None.

Definition load (fp : FIL) (d o n : Z) : F (option (list Z)) :=
  r <- move_window d ;;
  if fr_ok r then load_here fp o n else ret None.

Definition save_load (fp : FIL) (buff : list Z) (n : Z) : F (option (Z * list Z)) :=
  r <- save fp buff ;;
  match r with
  | Some (bw, fp') =>
      r <- load fp' (dir_sect fp) (dir_ofs fp) n ;;
      ret (match r with Some data => Some (bw, data) | None => None end)
  | None => ret None
  end.

End Store.

Section StoreLaws.
Context `{D : DiskIo} {DL : DiskLaws D}.

Lemma own_place_wider l l1 s d : grows s l l1 -> own_place s l d -> own_place s l1 d.
Proof.
  intros [_ G] [P1 P2 P3]. constructor; auto. intros c Hc [HI|H0]; [|auto]. destruct (G c HI) as [H|[_ H]]; auto.
Qed.

Lemma own_place_grows l l1 s s1 d : grows s l l1 -> frame l1 s s1 -> own_place s l d -> own_place s1 l1 d.
Proof. intros G FR P. apply (own_place_frame l1 s s1); [exact FR | now apply (own_place_wider l)]. Qed.

(** What writing and closing a file with the chain [l] leaves alone; its entry
    is the one at offset [o] of sector [d]. *)
Record around (d o : Z) (l : list Z) (s s' : vol) : Prop := {
  by_layout : lay s' = lay s;
  by_table : forall c, cluster (lay s) c -> ~ In c l ->
             fat_entry s' c = fat_entry s c \/ fat_entry s c = 0 /\ failed s s';
  by_rest : forall n, visible (lay s) n -> ~ (fatbase (lay s) <= n < fatbase (lay s) + fsize (lay s)) ->
            (forall c, In c l -> ~ in_cluster (lay s) c n) -> n <> d -> view s' n = view s n;
  by_entry : entry_edit o (view s d) (view s' d)
}.

Lemma around_after d o l s s1 s2 : frame l s s1 -> vol_ok s -> own_place s l d -> (forall c, In c l -> cluster (lay s) c) ->
  only_entry d o l s1 s2 -> around d o l s s2.
Proof.
  intros FR V P CL [L2 C2 T2 R2 N2 _]. pose proof (frame_place l s s1 d FR V P CL) as E. destruct FR as [L1 T1 R1 C1]. rewrite L1 in *.
  constructor; [congruence | | | now rewrite <- E].
  - intros c Hc NI. destruct (T1 c Hc NI) as [E1|[E1 F1]]; [|right; split; [exact E1 | now apply (failed_l _ s1)]].
    left. now rewrite T2.
  - intros n Hn Ht Hc Nd. rewrite R2, R1; auto.
Qed.

(** The file is on the card with the contents [f] and can be opened from its
    directory entry. *)
Record saved (s : vol) (fp : FIL) (l : list Z) (f : Z -> Z) : Prop := {
  sv_vol : vol_ok s;
  sv_type : fs_type (lay s) <> FS_EXFAT;
  sv_chain : file_chain s (obj fp) l;
  sv_size : 0 <= objsize (obj fp) <= room (lay s) l * SS /\ objsize (obj fp) < 2 ^ 32;
  sv_place : entry_place s fp l;
  sv_card : on_card s fp l f
}.

(** What may stop an application: a failed call of the disk layer, or a reserved
    entry in the table. *)
Definition troubled (s s' : vol) : Prop :=
  failed s s' \/ exists c, cluster (lay s) c /\ fat_entry s c = 1.

Lemma explained_troubled e s s1 s2 : (calls s1 <= calls s2)%nat -> explained e s s1 -> troubled s s2.
Proof.
  intros L [[_ FL]|[_ [X|FL]]]; [left | now right | left]; now apply (failed_l _ s1).
Qed.

(** f_close takes no cluster. *)
Lemma full_after d o l s s' : only_entry d o l s s' -> full s -> full s'.
Proof.
  intros OE [F|F]; [left; now rewrite (oe_free _ _ _ _ _ OE)|]. right. intros c Hc.
  rewrite (oe_layout _ _ _ _ _ OE) in Hc. rewrite (oe_table _ _ _ _ _ OE) by exact Hc. now apply F.
Qed.

(** f_write and f_close: the file is on the card with the new contents, or
    something stopped them; less is written only to a full volume. *)
Lemma save_wp fp l f buff s : file_ok s fp l -> holds s fp l f -> opened s fp -> entry_place s fp l ->
  has FA_WRITE fp = true -> bytes buff -> Z.of_nat (length buff) < 2 ^ 32 ->
  wp (save fp buff) (fun r s' => match r with
    | Some (bw, fp') => exists l' fp1, 0 <= bw <= clipped fp (Z.of_nat (length buff)) /\ grows s l l' /\
        saved s' fp1 l' (patch f (fptr fp) (slice buff 0 bw)) /\
        objsize (obj fp1) = Z.max (objsize (obj fp)) (fptr fp + bw) /\
        dir_sect fp1 = dir_sect fp /\ dir_ofs fp1 = dir_ofs fp /\ lay s' = lay s /\ (calls s <= calls s')%nat /\
        around (dir_sect fp) (dir_ofs fp) l' s s' /\
        (bw = clipped fp (Z.of_nat (length buff)) \/ full s')
    | None => troubled s s'
    end) s.
Proof.
  intros FO H OP [HO P] HW B HB. unfold save. apply wp_bind. wp_use (f_write_wp fp l f); auto; [lia|].
  intros [[r bw] fp1] s1 [Hbw R].
  destruct R as [(-> & (l1 & G & FR & FO1 & H1 & P1 & Z1 & SF) & HM & FU)|[(-> & FL & _)|(l1 & _ & FR & X)]].
  2:{ apply wp_ret. now left. }
  2:{ destruct (fr_ok r) eqn:E; [destruct X as [[-> _]|[-> _]]; discriminate E|]. apply wp_ret.
      now apply (explained_troubled r s s1). }
  destruct SF as [S1 S2 [S3 S4] _ _]. pose proof (fr_layout _ _ _ FR) as L1. cbn [fr_ok].
  assert (own_place s1 l1 (dir_sect fp1)) as P2 by (rewrite S3; now apply (own_place_grows l l1 s s1)).
  apply wp_bind. wp_use (f_close_fat_wp fp1 l1 (patch f (fptr fp) (slice buff 0 bw))); auto.
  { unfold opened in *. now rewrite S1, S2, L1. }
  { split; [now rewrite S4 | exact P2]. }
  intros [r fp2] s2 (OE & R). cbn [fst snd] in R. apply wp_ret.
  assert ((calls s <= calls s1)%nat) as C1 by apply FR. pose proof (oe_calls _ _ _ _ _ OE) as C2.
  destruct R as [(-> & -> & V2 & FO2 & OC)|[[-> | ->] FL]]; cbn [fr_ok]; [|left; now apply (failed_r _ s1) ..].
  assert (obj (clear FA_MODIFIED (flushed fp1)) = obj fp1) as Eo by (unfold flushed; now destruct (has FA_DIRTY fp1)).
  pose proof (fo_core _ _ _ FO2) as [_ T2 CH2 PF2 SZ2 _ _ _]. rewrite Eo in *. pose proof (oe_layout _ _ _ _ _ OE) as L2.
  assert (around (dir_sect fp) (dir_ofs fp) l1 s s2) as BY.
  { apply (around_after _ _ l1 s s1); auto; [apply FO | now apply (own_place_wider l) | | now rewrite <- S3, <- S4].
    intros c HI. destruct (fc_chain _ _ _ (fo_core _ _ _ FO1)) as [[-> _]|[Ch _]]; [contradiction|]. rewrite <- L1. now apply (chain_clusters _ _ _ Ch). }
  exists l1, fp1. repeat (split; [assumption || lia || congruence|]). split; [|repeat (split; [assumption || lia || congruence|])].
  - constructor; auto; [lia|]. split; [now rewrite S4|]. destruct P2 as [Q1 Q2 Q3]. constructor; rewrite L2; auto.
    intros c Hc HI. rewrite (oe_table _ _ _ _ _ OE) in HI by exact Hc. auto.
  - destruct FU as [FU|FU]; [now left | right]. now apply (full_after (dir_sect fp1) (dir_ofs fp1) l1 s1).
Qed.

(** A saved file after the window has come to its directory entry. *)
Lemma saved_entry s fp l f s1 : saved s fp l f -> vol_ok s1 -> same_disk s s1 -> winsect (fs s1) = dir_sect fp ->
  entry_at s1 (dir_ofs fp) (obj fp) l /\ forall i, 0 <= i < objsize (obj fp) -> stored s1 l i = f i.
Proof.
  intros [V T CH [SZ1 SZ2] [HO P] [O1 O2 O3]] V1 D1 W. pose proof (ev_layout _ _ _ D1) as L.
  assert (all_but (dir_sect fp) s s1) as A by (split; [exact L | intros n Hn _; now apply D1]).
  assert (forall c, cluster (lay s) c -> fat_entry s1 c = fat_entry s c) as KT
    by (intros c; now apply (all_but_entry s s1 l (dir_sect fp))).
  assert (own_place s1 l (winsect (fs s1))) as P1.
  { rewrite W. destruct P as [P1 P2 P3]. constructor; rewrite L; auto. intros c Hc HI. rewrite KT in HI by exact Hc. auto. }
  split.
  - constructor; rewrite ?L; auto.
    + replace (win (fs s1)) with (view s1 (dir_sect fp)) by (unfold view; now rewrite W, Z.eqb_refl).
      rewrite (ev_view _ _ _ D1), <- O1 by apply P. exact O3.
    + destruct CH as [CH|[CH E]]; [now left|]. right. rewrite L. split; [|exact E].
      apply (chain_ext _ (fat_entry s)); [|exact CH]. intros c HI. symmetry. apply KT. now apply (chain_clusters _ _ _ CH).
  - intros i Hi. rewrite <- (O2 i Hi). unfold stored. rewrite L.
    assert (0 <= i / SS < room (lay s) l) as Hk by (unfold SS in *; dlia).
    destruct CH as [[-> _]|[CH _]]; [unfold room in Hk; cbn in Hk; lia|].
    destruct (file_sect_in _ (vo_layout s V) _ l _ CH Hk) as (Hc & HI & Hs).
    destruct (cluster_visible _ (vo_layout s V) _ _ Hc Hs) as (Vi & _). f_equal.
    rewrite O1, <- (ev_view _ _ _ D1) by exact Vi. symmetry.
    apply (file_card s1 l (nth_clust l (i / SS / csize (lay s)))); rewrite ?L; auto. intros c. apply (op_data _ _ _ P1).
Qed.

(** The file opened and read once the window has come to its entry. *)
Lemma load_here_wp fp0 s fp l f n s1 : saved s fp l f -> 0 <= n < 2 ^ 32 -> vol_ok s1 -> same_disk s s1 -> winsect (fs s1) = dir_sect fp ->
  wp (load_here fp0 (dir_ofs fp) n) (fun r s' => match r with
    | Some d => Z.of_nat (length d) = Z.min n (objsize (obj fp)) /\
        forall i, 0 <= i < Z.of_nat (length d) -> byte_at d i = f i
    | None => failed s s'
    end) s1.
Proof.
  intros SV Hn V1 D1 W. unfold load_here.
  destruct (saved_entry s fp l f s1 SV V1 D1 W) as [EA KD]. apply wp_bind.
  wp_use (open_fat_wp fp0 FA_READ (dir_ofs fp) (obj fp) l s1); auto. intros [r fp2] s2 (V2 & Q2 & R). cbn [fst snd] in R.
  pose proof (ev_calls _ _ _ D1) as C1. pose proof (ev_calls _ _ _ (qu_disk _ _ Q2)) as C2.
  destruct R as [(-> & FO2 & H2 & OP2 & Eo & Ef & Ep & _)|(-> & FL & _)]; cbn [fr_ok].
  2:{ apply wp_ret. now apply (failed_r _ s1). }
  apply wp_bind. wp_use (f_read_wp fp2 l (stored s1 l)); auto; [unfold has; now rewrite Ef|].
  cbn in Ep. rewrite Ep. intros [[r d] fp3] s3 R. apply wp_ret.
  assert (objsize (obj fp2) = objsize (obj fp)) as Es by now rewrite Eo.
  destruct R as [(-> & (_ & _ & _ & _ & _ & _ & K) & Ld)|[(-> & FL & _)|(-> & FL & _)]]; cbn [fr_ok].
  - rewrite Ep in K. split; [rewrite Ld, Es; f_equal; lia|]. intros i Hi. rewrite K by exact Hi. cbn. apply KD. lia.
  - apply (failed_r _ s2); [exact FL | lia].
  - apply (failed_r _ s2); [exact FL | lia].
Qed.

(** A saved file, opened again: what is read is its contents. *)
Lemma load_wp fp0 s fp l f n : saved s fp l f -> 0 <= n < 2 ^ 32 ->
  wp (load fp0 (dir_sect fp) (dir_ofs fp) n) (fun r s' => match r with
    | Some d => Z.of_nat (length d) = Z.min n (objsize (obj fp)) /\
        forall i, 0 <= i < Z.of_nat (length d) -> byte_at d i = f i
    | None => failed s s'
    end) s.
Proof.
  intros SV Hn. unfold load. pose proof (op_seen _ _ _ (proj2 (sv_place _ _ _ _ SV))) as [Vi _]. pose proof (sv_vol _ _ _ _ SV) as V.
  apply wp_bind. wp_use move_window_wp; [exact V | in_range |].
  intros r s1 (V1 & D1 & [(-> & W & _)|(-> & FL & _)]); cbn [fr_ok]; [|now apply wp_ret].
  eapply wp_conseq; [exact (load_here_wp fp0 s fp l f n s1 SV Hn V1 D1 W)|]. now intros [d|] s2 R.
Qed.

(** Written, closed, opened again and read: the bytes are those that were there
    with those written in their place. *)
Lemma save_load_wp fp l f buff n s : file_ok s fp l -> holds s fp l f -> opened s fp -> entry_place s fp l ->
  has FA_WRITE fp = true -> bytes buff -> Z.of_nat (length buff) < 2 ^ 32 -> 0 <= n < 2 ^ 32 ->
  wp (save_load fp buff n) (fun r s' => match r with
    | Some (bw, d) => 0 <= bw <= clipped fp (Z.of_nat (length buff)) /\
        Z.of_nat (length d) = Z.min n (Z.max (objsize (obj fp)) (fptr fp + bw)) /\
        forall i, 0 <= i < Z.of_nat (length d) -> byte_at d i = patch f (fptr fp) (slice buff 0 bw) i
    | None => troubled s s'
    end) s.
Proof.
  intros FO H OP P HW B HB Hn. unfold save_load. apply wp_bind. wp_use (save_wp fp l f); auto.
  intros [[bw fp']|] s1 R; [|now apply wp_ret].
  destruct R as (l' & fp1 & Hbw & G & SV & Z1 & E1 & E2 & L1 & C1 & _ & FU). rewrite <- E1, <- E2.
  apply wp_bind. wp_use (load_wp fp' s1 fp1 l'); eauto. intros [d|] s2 R; apply wp_ret.
  - destruct R as [R1 R2]. rewrite <- Z1. split; [exact Hbw|]. auto.
  - left. apply (failed_r _ s1); [exact R | lia].
Qed.

End StoreLaws.
