(* ===== verification/FatUnicode.v ===== *)
(** * ext/fatfs/src/ffunicode.c: characters

    The code page of the configuration is 850, so a character of the API is one
    byte.  This file holds the conversions between that code page and Unicode
    (ff_oem2uni, ff_uni2oem), the upper case of a Unicode character
    (ff_wtoupper, with its compressed tables), and the upper case of the upper
    half of the code page (ExCvt of ff.c). *)

From Stdlib Require Import ZArith Bool List Lia.
From S2P Require Import Prelude.
Import ListNotations.
Local Open Scope Z_scope.
Local Open Scope fw_scope.

Definition uc850 : list Z :=
  [0x00C7; 0x00FC; 0x00E9; 0x00E2; 0x00E4; 0x00E0; 0x00E5; 0x00E7; 0x00EA; 0x00EB; 0x00E8; 0x00EF;
   0x00EE; 0x00EC; 0x00C4; 0x00C5; 0x00C9; 0x00E6; 0x00C6; 0x00F4; 0x00F6; 0x00F2; 0x00FB; 0x00F9;
   0x00FF; 0x00D6; 0x00DC; 0x00F8; 0x00A3; 0x00D8; 0x00D7; 0x0192; 0x00E1; 0x00ED; 0x00F3; 0x00FA;
   0x00F1; 0x00D1; 0x00AA; 0x00BA; 0x00BF; 0x00AE; 0x00AC; 0x00BD; 0x00BC; 0x00A1; 0x00AB; 0x00BB;
   0x2591; 0x2592; 0x2593; 0x2502; 0x2524; 0x00C1; 0x00C2; 0x00C0; 0x00A9; 0x2563; 0x2551; 0x2557;
   0x255D; 0x00A2; 0x00A5; 0x2510; 0x2514; 0x2534; 0x252C; 0x251C; 0x2500; 0x253C; 0x00E3; 0x00C3;
   0x255A; 0x2554; 0x2569; 0x2566; 0x2560; 0x2550; 0x256C; 0x00A4; 0x00F0; 0x00D0; 0x00CA; 0x00CB;
   0x00C8; 0x0131; 0x00CD; 0x00CE; 0x00CF; 0x2518; 0x250C; 0x2588; 0x2584; 0x00A6; 0x00CC; 0x2580;
   0x00D3; 0x00DF; 0x00D4; 0x00D2; 0x00F5; 0x00D5; 0x00B5; 0x00FE; 0x00DE; 0x00DA; 0x00DB; 0x00D9;
   0x00FD; 0x00DD; 0x00AF; 0x00B4; 0x00AD; 0x00B1; 0x2017; 0x00BE; 0x00B6; 0x00A7; 0x00F7; 0x00B8;
   0x00B0; 0x00A8; 0x00B7; 0x00B9; 0x00B3; 0x00B2; 0x25A0; 0x00A0].

Definition ExCvt : list Z :=
  [0x43; 0x55; 0x45; 0x41; 0x41; 0x41; 0x41; 0x43; 0x45; 0x45; 0x45; 0x49; 0x49; 0x49; 0x41; 0x41;
   0x45; 0x92; 0x92; 0x4F; 0x4F; 0x4F; 0x55; 0x55; 0x59; 0x4F; 0x55; 0x4F; 0x9C; 0x4F; 0x9E; 0x9F;
   0x41; 0x49; 0x4F; 0x55; 0xA5; 0xA5; 0xA6; 0xA7; 0xA8; 0xA9; 0xAA; 0xAB; 0xAC; 0xAD; 0xAE; 0xAF;
   0xB0; 0xB1; 0xB2; 0xB3; 0xB4; 0x41; 0x41; 0x41; 0xB8; 0xB9; 0xBA; 0xBB; 0xBC; 0xBD; 0xBE; 0xBF;
   0xC0; 0xC1; 0xC2; 0xC3; 0xC4; 0xC5; 0x41; 0x41; 0xC8; 0xC9; 0xCA; 0xCB; 0xCC; 0xCD; 0xCE; 0xCF;
   0xD1; 0xD1; 0x45; 0x45; 0x45; 0x49; 0x49; 0x49; 0x49; 0xD9; 0xDA; 0xDB; 0xDC; 0xDD; 0x49; 0xDF;
   0x4F; 0xE1; 0x4F; 0x4F; 0x4F; 0x4F; 0xE6; 0xE8; 0xE8; 0x55; 0x55; 0x55; 0x59; 0x59; 0xEE; 0xEF;
   0xF0; 0xF1; 0xF2; 0xF3; 0xF4; 0xF5; 0xF6; 0xF7; 0xF8; 0xF9; 0xFA; 0xFB; 0xFC; 0xFD; 0xFE; 0xFF].

Definition cvt1 : list Z :=
  [0x0061; 0x031A; 0x00E0; 0x0317; 0x00F8; 0x0307; 0x00FF; 0x0001; 0x0178; 0x0100; 0x0130; 0x0132;
   0x0106; 0x0139; 0x0110; 0x014A; 0x012E; 0x0179; 0x0106; 0x0180; 0x004D; 0x0243; 0x0181; 0x0182;
   0x0182; 0x0184; 0x0184; 0x0186; 0x0187; 0x0187; 0x0189; 0x018A; 0x018B; 0x018B; 0x018D; 0x018E;
   0x018F; 0x0190; 0x0191; 0x0191; 0x0193; 0x0194; 0x01F6; 0x0196; 0x0197; 0x0198; 0x0198; 0x023D;
   0x019B; 0x019C; 0x019D; 0x0220; 0x019F; 0x01A0; 0x01A0; 0x01A2; 0x01A2; 0x01A4; 0x01A4; 0x01A6;
   0x01A7; 0x01A7; 0x01A9; 0x01AA; 0x01AB; 0x01AC; 0x01AC; 0x01AE; 0x01AF; 0x01AF; 0x01B1; 0x01B2;
   0x01B3; 0x01B3; 0x01B5; 0x01B5; 0x01B7; 0x01B8; 0x01B8; 0x01BA; 0x01BB; 0x01BC; 0x01BC; 0x01BE;
   0x01F7; 0x01C0; 0x01C1; 0x01C2; 0x01C3; 0x01C4; 0x01C5; 0x01C4; 0x01C7; 0x01C8; 0x01C7; 0x01CA;
   0x01CB; 0x01CA; 0x01CD; 0x0110; 0x01DD; 0x0001; 0x018E; 0x01DE; 0x0112; 0x01F3; 0x0003; 0x01F1;
   0x01F4; 0x01F4; 0x01F8; 0x0128; 0x0222; 0x0112; 0x023A; 0x0009; 0x2C65; 0x023B; 0x023B; 0x023D;
   0x2C66; 0x023F; 0x0240; 0x0241; 0x0241; 0x0246; 0x010A; 0x0253; 0x0040; 0x0181; 0x0186; 0x0255;
   0x0189; 0x018A; 0x0258; 0x018F; 0x025A; 0x0190; 0x025C; 0x025D; 0x025E; 0x025F; 0x0193; 0x0261;
   0x0262; 0x0194; 0x0264; 0x0265; 0x0266; 0x0267; 0x0197; 0x0196; 0x026A; 0x2C62; 0x026C; 0x026D;
   0x026E; 0x019C; 0x0270; 0x0271; 0x019D; 0x0273; 0x0274; 0x019F; 0x0276; 0x0277; 0x0278; 0x0279;
   0x027A; 0x027B; 0x027C; 0x2C64; 0x027E; 0x027F; 0x01A6; 0x0281; 0x0282; 0x01A9; 0x0284; 0x0285;
   0x0286; 0x0287; 0x01AE; 0x0244; 0x01B1; 0x01B2; 0x0245; 0x028D; 0x028E; 0x028F; 0x0290; 0x0291;
   0x01B7; 0x037B; 0x0003; 0x03FD; 0x03FE; 0x03FF; 0x03AC; 0x0004; 0x0386; 0x0388; 0x0389; 0x038A;
   0x03B1; 0x0311; 0x03C2; 0x0002; 0x03A3; 0x03A3; 0x03C4; 0x0308; 0x03CC; 0x0003; 0x038C; 0x038E;
   0x038F; 0x03D8; 0x0118; 0x03F2; 0x000A; 0x03F9; 0x03F3; 0x03F4; 0x03F5; 0x03F6; 0x03F7; 0x03F7;
   0x03F9; 0x03FA; 0x03FA; 0x0430; 0x0320; 0x0450; 0x0710; 0x0460; 0x0122; 0x048A; 0x0136; 0x04C1;
   0x010E; 0x04CF; 0x0001; 0x04C0; 0x04D0; 0x0144; 0x0561; 0x0426; 0x0000].

Definition cvt2 : list Z :=
  [0x1D7D; 0x0001; 0x2C63; 0x1E00; 0x0196; 0x1EA0; 0x015A; 0x1F00; 0x0608; 0x1F10; 0x0606; 0x1F20;
   0x0608; 0x1F30; 0x0608; 0x1F40; 0x0606; 0x1F51; 0x0007; 0x1F59; 0x1F52; 0x1F5B; 0x1F54; 0x1F5D;
   0x1F56; 0x1F5F; 0x1F60; 0x0608; 0x1F70; 0x000E; 0x1FBA; 0x1FBB; 0x1FC8; 0x1FC9; 0x1FCA; 0x1FCB;
   0x1FDA; 0x1FDB; 0x1FF8; 0x1FF9; 0x1FEA; 0x1FEB; 0x1FFA; 0x1FFB; 0x1F80; 0x0608; 0x1F90; 0x0608;
   0x1FA0; 0x0608; 0x1FB0; 0x0004; 0x1FB8; 0x1FB9; 0x1FB2; 0x1FBC; 0x1FCC; 0x0001; 0x1FC3; 0x1FD0;
   0x0602; 0x1FE0; 0x0602; 0x1FE5; 0x0001; 0x1FEC; 0x1FF3; 0x0001; 0x1FFC; 0x214E; 0x0001; 0x2132;
   0x2170; 0x0210; 0x2184; 0x0001; 0x2183; 0x24D0; 0x051A; 0x2C30; 0x042F; 0x2C60; 0x0102; 0x2C67;
   0x0106; 0x2C75; 0x0102; 0x2C80; 0x0164; 0x2D00; 0x0826; 0xFF41; 0x031A; 0x0000].

(** [for (c = 0; c < 0x80 && uni != p[c]; c++) ;] *)
Fixpoint uni2oem_scan (n : nat) (uni c : Z) : result Z :=
  match n with
  | O => Ok c
  | S n => v <=! array_get uc850 c ;; if uni =? v then Ok c else uni2oem_scan n uni (c + 1)
  end.

Definition ff_uni2oem (uni : Z) : result Z :=
  if uni <? 0x80 then Ok uni
  else c <=! uni2oem_scan 128 uni 0 ;; Ok (Z.land (c + 0x80) 0xFF).

Definition ff_oem2uni (oem : Z) : result Z :=
  if oem <? 0x80 then Ok oem
  else if oem <? 0x100 then array_get uc850 (oem - 0x80) else Ok 0.

(** The switch on the command of a block that begins at [bc]; [p] points behind
    its head. *)
Definition upcase (cmd uni bc : Z) (p : list Z) : result Z :=
  match cmd with
  | 0 => array_get p (uni - bc)
  | 1 => Ok (u16 (uni - Z.land (uni - bc) 1))
  | 2 => Ok (u16 (uni - 16))
  | 3 => Ok (u16 (uni - 32))
  | 4 => Ok (u16 (uni - 48))
  | 5 => Ok (u16 (uni - 26))
  | 6 => Ok (u16 (uni + 8))
  | 7 => Ok (u16 (uni - 80))
  | 8 => Ok (u16 (uni - 0x1C60))
  | _ => Ok uni
  end.

Fixpoint wtoupper_scan (fuel : nat) (uni : Z) (p : list Z) : result Z :=
  match fuel with
  | O => Err OutOfFuel
  | S n =>
      bc <=! array_get p 0 ;;
      if (bc =? 0) || (uni <? bc) then Ok uni
      else
        nc <=! array_get p 1 ;;
        let p := skipn 2 p in
        let cmd := Z.shiftr nc 8 in
        let nc := Z.land nc 0xFF in
        if uni <? bc + nc then upcase cmd uni bc p
        else wtoupper_scan n uni (if cmd =? 0 then skipn (Z.to_nat nc) p else p)
  end.

Definition ff_wtoupper (uni : Z) : result Z :=
  let p := if uni <? 0x1000 then cvt1 else cvt2 in wtoupper_scan (length p) uni p.

(** ** Facts on every character *)

(** A test of the numbers from [i] on. *)
Fixpoint all_from (n : nat) (i : Z) (p : Z -> bool) : bool :=
  match n with
  | O => true
  | S n => p i && all_from n (i + 1) p
  end.

Lemma all_from_spec n p : forall i, all_from n i p = true -> forall j, i <= j < i + Z.of_nat n -> p j = true.
Proof.
  induction n as [|n IH]; intros i H j Hj; [lia|]. cbn in H. apply andb_prop in H as [H1 H2].
  destruct (Z.eq_dec j i) as [->|]; [exact H1|]. apply (IH (i + 1)); [exact H2 | lia].
Qed.

(** The upper case of a character, where ff_wtoupper is defined. *)
Definition upper (c : Z) : Z := match ff_wtoupper c with Ok v => v | Err _ => 0 end.

Definition upper_test (c : Z) : bool :=
  match ff_wtoupper c with
  | Ok v => (0 <=? v) && (v <? 65536) && Bool.eqb (v =? 0) (c =? 0) &&
            match ff_wtoupper v with Ok v' => v' =? v | Err _ => false end
  | Err _ => false
  end.

(** A test that the table has no block that meets the characters from [lo] up
    to [hi]. *)
Fixpoint gap (fuel : nat) (lo hi : Z) (p : list Z) : bool :=
  match fuel with
  | O => false
  | S n =>
      match array_get p 0, array_get p 1 with
      | Ok bc, r =>
          if (bc =? 0) || (hi <=? bc) then true
          else match r with
               | Ok nc => (bc + Z.land nc 0xFF <=? lo) &&
                   gap n lo hi (if Z.shiftr nc 8 =? 0 then skipn (Z.to_nat (Z.land nc 0xFF)) (skipn 2 p) else skipn 2 p)
               | Err _ => false
               end
      | Err _, _ => false
      end
  end.

Lemma gap_spec lo hi uni : lo <= uni < hi -> forall fuel p,
  gap fuel lo hi p = true -> wtoupper_scan fuel uni p = Ok uni.
Proof.
  intros H. induction fuel as [|n IH]; intros p; cbn [gap wtoupper_scan]; [discriminate|].
  destruct (array_get p 0) as [bc|]; [|discriminate]. cbn [rbind].
  destruct (Z.eqb_spec bc 0); cbn [orb]; [reflexivity|].
  destruct (Z.ltb_spec uni bc); [reflexivity|]. destruct (Z.leb_spec hi bc); [lia|].
  destruct (array_get p 1) as [nc|]; [|discriminate]. cbn [rbind].
  intros E. apply andb_prop in E as [E1 E2]. apply Z.leb_le in E1.
  destruct (Z.ltb_spec uni (bc + Z.land nc 0xFF)); [lia|]. now apply IH.
Qed.

Lemma no_case c : 0x600 <= c < 0x1D00 \/ 0x2E00 <= c < 0xFF00 -> ff_wtoupper c = Ok c.
Proof.
  intros H. unfold ff_wtoupper. destruct (Z.ltb_spec c 0x1000).
  - apply (gap_spec 0x600 0x1D00); [lia | vm_compute; reflexivity].
  - destruct (Z.ltb_spec c 0x2000).
    + apply (gap_spec 0x600 0x1D00); [lia | vm_compute; reflexivity].
    + apply (gap_spec 0x2E00 0xFF00); [lia | vm_compute; reflexivity].
Qed.

Lemma upper_tested c : in_u 16 c -> upper_test c = true.
Proof.
  intros H.
  assert (all_from 1536 0 upper_test && all_from 4352 0x1D00 upper_test && all_from 256 0xFF00 upper_test = true) as T
    by (vm_compute; reflexivity).
  apply andb_prop in T as [T T3]. apply andb_prop in T as [T1 T2]. unfold in_u in H. eval_pow.
  destruct (Z_lt_dec c 1536); [now apply (all_from_spec _ _ _ T1); lia|].
  destruct (Z_lt_dec c 0x1D00).
  2: destruct (Z_lt_dec c 0x2E00); [now apply (all_from_spec _ _ _ T2); lia|].
  2: destruct (Z_lt_dec c 0xFF00); [|now apply (all_from_spec _ _ _ T3); lia].
  all: unfold upper_test; rewrite no_case by lia; rewrite no_case by lia; rewrite Z.eqb_refl;
    rewrite (proj2 (Z.eqb_neq c 0)) by lia; cbn; lia.
Qed.

(** ff_wtoupper never reads outside its tables; it ends in a 16-bit character,
    which is its own upper case, and only 0 becomes 0. *)
Lemma upper_ok c : in_u 16 c ->
  ff_wtoupper c = Ok (upper c) /\ in_u 16 (upper c) /\ (upper c = 0 <-> c = 0) /\ upper (upper c) = upper c.
Proof.
  intros H. pose proof (upper_tested c H) as T.
  unfold upper_test in T. unfold upper at 1 2 3 5 6. destruct (ff_wtoupper c) as [v|]; [|discriminate].
  apply andb_prop in T as [T T4]. apply andb_prop in T as [T T3]. apply andb_prop in T as [T1 T2].
  apply eqb_prop in T3. split; [reflexivity|]. split; [unfold in_u; eval_pow; lia|].
  split; [destruct (Z.eqb_spec v 0), (Z.eqb_spec c 0); try discriminate; tauto|].
  unfold upper. destruct (ff_wtoupper v); [lia | discriminate].
Qed.

Definition code_page_test (c : Z) : bool :=
  match ff_oem2uni c with
  | Ok u => (0 <? u) && (u <? 0xFFFF) && match ff_uni2oem u with Ok c' => c' =? c | Err _ => false end
  | Err _ => false
  end.

Lemma code_page_tested : all_from 255 1 code_page_test = true.
Proof. vm_compute. reflexivity. Qed.

(** Every character of the code page has its own Unicode character, neither 0
    nor the filler 0xFFFF, from which it is found again. *)
Lemma code_page_ok c : 1 <= c < 256 ->
  exists u, ff_oem2uni c = Ok u /\ 0 < u < 0xFFFF /\ ff_uni2oem u = Ok c.
Proof.
  intros H. pose proof (all_from_spec _ _ _ code_page_tested c ltac:(lia)) as T.
  unfold code_page_test in T. destruct (ff_oem2uni c) as [u|]; [|discriminate].
  exists u. split; [reflexivity|]. apply andb_prop in T as [T1 T2].
  split; [lia|]. destruct (ff_uni2oem u); [f_equal; lia | discriminate].
Qed.
