(* ===== verification/FatName.v ===== *)
(** * ext/fatfs/src/ff.c: names of files

    A name is kept in two forms.  The long name is in the working buffer lfnbuf
    as Unicode characters, ended by 0, and is stored on the card in pieces of 13
    characters, one per directory entry: put_lfn, cmp_lfn, pick_lfn.  The short
    name has 11 bytes and a byte of flags: create_name makes both from a path,
    gen_numname numbers a short name that is taken, and sum_sfn ties the pieces
    of the long name to it.  An entry is 32 bytes of the window, from an offset
    [o] on. *)

From Stdlib Require Import ZArith Bool String Ascii List Lia.
From S2P Require Import Prelude.
From S2P Require Import FatVol.
From S2P Require Import FatFile.
From S2P Require Import FatWrite.
From S2P Require Import FatUnicode.
Import ListNotations.
Local Open Scope Z_scope.
Local Open Scope fw_scope.

Definition FF_MAX_LFN : Z := 255.

Definition AM_VOL : Z := 0x08.

Definition AM_LFN : Z := 0x0F.

Definition AM_MASK : Z := 0x3F.

Definition DDEM : Z := 0xE5.

Definition RDDEM : Z := 0x05.

Definition LLEF : Z := 0x40.

(** The flags in fn[NSFLAG]. *)
Definition NS_LOSS : Z := 0x01.

Definition NS_LFN : Z := 0x02.

Definition NS_LAST : Z := 0x04.

Definition NS_BODY : Z := 0x08.

Definition NS_EXT : Z := 0x10.

Definition NS_DOT : Z := 0x20.

Definition NS_NOLFN : Z := 0x40.

Definition NS_NONAME : Z := 0x80.

Definition LfnOfs : list Z := [1; 3; 5; 7; 9; 14; 16; 18; 20; 22; 24; 28; 30].

(** ** Pieces of a long name *)

(** The loop of cmp_lfn over the offsets that are left: None is its return 0. *)
Fixpoint cmp_chars (lfnbuf w : list Z) (o : Z) (ofs : list Z) (i wc : Z) : result (option (Z * Z)) :=
  match ofs with
  | [] => Ok (Some (i, wc))
  | k :: ofs =>
      uc <=! ld_word w (o + k) ;;
      if negb (wc =? 0) then
        if FF_MAX_LFN <=? i then Ok None
        else
          a <=! ff_wtoupper uc ;;
          c <=! array_get lfnbuf i ;;
          b <=! ff_wtoupper c ;;
          if a =? b then cmp_chars lfnbuf w o ofs (u32 (i + 1)) uc else Ok None
      else if uc =? 0xFFFF then cmp_chars lfnbuf w o ofs i wc else Ok None
  end.

Definition cmp_lfn (lfnbuf w : list Z) (o : Z) : result bool :=
  z <=! ld_word w (o + 26) ;;
  if negb (z =? 0) then Ok false
  else
    ord <=! array_get w o ;;
    r <=! cmp_chars lfnbuf w o LfnOfs (u32 ((Z.land ord 0x3F - 1) * 13)) 1 ;;
    match r with
    | None => Ok false
    | Some (i, wc) =>
        if negb (Z.land ord LLEF =? 0) && negb (wc =? 0)
        then c <=! array_get lfnbuf i ;; Ok (c =? 0) else Ok true
    end.

(** The loop of pick_lfn; the buffer keeps what was stored before a return 0. *)
Fixpoint pick_chars (lfnbuf w : list Z) (o : Z) (ofs : list Z) (i wc : Z) : result (option Z * list Z) :=
  match ofs with
  | [] => Ok (Some i, lfnbuf)
  | k :: ofs =>
      uc <=! ld_word w (o + k) ;;
      if negb (wc =? 0) then
        if FF_MAX_LFN <=? i then Ok (None, lfnbuf)
        else lfnbuf <=! array_set lfnbuf i uc ;; pick_chars lfnbuf w o ofs (u32 (i + 1)) uc
      else if uc =? 0xFFFF then pick_chars lfnbuf w o ofs i wc else Ok (None, lfnbuf)
  end.

Definition pick_lfn (lfnbuf w : list Z) (o : Z) : result (bool * list Z) :=
  z <=! ld_word w (o + 26) ;;
  if negb (z =? 0) then Ok (false, lfnbuf)
  else
    ord <=! array_get w o ;;
    '(r, lfnbuf) <=! pick_chars lfnbuf w o LfnOfs (u32 ((Z.land ord 0xBF - 1) * 13)) 1 ;;
    match r with
    | None => Ok (false, lfnbuf)
    | Some i =>
        if negb (Z.land ord LLEF =? 0) then
          if FF_MAX_LFN <=? i then Ok (false, lfnbuf)
          else lfnbuf <=! array_set lfnbuf i 0 ;; Ok (true, lfnbuf)
        else Ok (true, lfnbuf)
    end.

(** The do loop of put_lfn: the entry, and i and wc at its end. *)
Fixpoint put_chars (lfn w : list Z) (o : Z) (ofs : list Z) (i wc : Z) : result (list Z * Z * Z) :=
  match ofs with
  | [] => Ok (w, i, wc)
  | k :: ofs =>
      '(i, wc) <=! (if negb (wc =? 0xFFFF) then c <=! array_get lfn i ;; Ok (u32 (i + 1), c) else Ok (i, wc)) ;;
      w <=! st_word w (o + k) wc ;;
      put_chars lfn w o ofs i (if wc =? 0 then 0xFFFF else wc)
  end.

(** The fields of an entry of a long name beside its characters. *)
Definition lfn_fields (w : list Z) (o sum : Z) : result (list Z) :=
  w <=! array_set w (o + 13) sum ;;
  w <=! array_set w (o + 11) AM_LFN ;;
  w <=! array_set w (o + 12) 0 ;;
  st_word w (o + 26) 0.

Definition put_lfn (lfn w : list Z) (o ord sum : Z) : result (list Z) :=
  w <=! lfn_fields w o sum ;;
  '(w, i, wc) <=! put_chars lfn w o LfnOfs (u32 ((ord - 1) * 13)) 0 ;;
  last <=! (if wc =? 0xFFFF then Ok true else c <=! array_get lfn i ;; Ok (c =? 0)) ;;
  array_set w o (if last : bool then Z.lor ord LLEF else ord).

(** ** The short name *)

(** BYTE sum = (sum >> 1) + (sum << 7) + *dir++, for the bytes from [o] on. *)
Fixpoint sum_bytes (n : nat) (w : list Z) (o sum : Z) : result Z :=
  match n with
  | O => Ok sum
  | S n => c <=! array_get w o ;; sum_bytes n w (o + 1) (u8 (Z.shiftr sum 1 + Z.shiftl sum 7 + c))
  end.

Definition sum_sfn (w : list Z) (o : Z) : result Z := sum_bytes 11 w o 0.

(** The CRC that gen_numname makes of the long name from character [k] on. *)
Fixpoint crc_bits (n : nat) (sr wc : Z) : Z :=
  match n with
  | O => sr
  | S n =>
      let sr := u32 (Z.shiftl sr 1 + Z.land wc 1) in
      crc_bits n (if Z.land sr 0x10000 =? 0 then sr else Z.lxor sr 0x11021) (Z.shiftr wc 1)
  end.

Fixpoint crc_lfn (fuel : nat) (lfn : list Z) (k sr : Z) : result Z :=
  match fuel with
  | O => Err OutOfFuel
  | S n => wc <=! array_get lfn k ;; if wc =? 0 then Ok sr else crc_lfn n lfn (k + 1) (crc_bits 16 sr wc)
  end.

(** The hexadecimal digits, from the end of [ns] on. *)
Fixpoint itoa_hex (fuel : nat) (ns : list Z) (i seq : Z) : result (list Z * Z) :=
  match fuel with
  | O => Err OutOfFuel
  | S n =>
      let c := u8 (seq mod 16 + 48) in
      let c := if 57 <? c then u8 (c + 7) else c in
      ns <=! array_set ns i c ;;
      let i := u32 (i - 1) in
      let seq := seq / 16 in
      if seq =? 0 then Ok (ns, i) else itoa_hex n ns i seq
  end.

(** Where the number goes: behind the body, or on its end. *)
Fixpoint body_end (fuel : nat) (dst : list Z) (i j : Z) : result Z :=
  match fuel with
  | O => Err OutOfFuel
  | S n =>
      if j <? i then c <=! array_get dst j ;; if c =? 32 then Ok j else body_end n dst i (j + 1)
      else Ok j
  end.

Fixpoint put_number (fuel : nat) (dst ns : list Z) (i j : Z) : result (list Z) :=
  match fuel with
  | O => Err OutOfFuel
  | S n =>
      c <=! (if i <? 8 then array_get ns i else Ok 32) ;;
      dst <=! array_set dst j c ;;
      let i := if i <? 8 then i + 1 else i in
      if j + 1 <? 8 then put_number n dst ns i (j + 1) else Ok dst
  end.

Definition gen_numname (dst src lfn : list Z) (seq : Z) : result (list Z) :=
  dst <=! mem_cpy dst 0 src 11 ;;
  seq <=! (if 5 <? seq then crc_lfn (S (length lfn)) lfn 0 seq else Ok seq) ;;
  '(ns, i) <=! itoa_hex 9 (repeat 0 8) 7 seq ;;
  ns <=! array_set ns i 126 ;;
  j <=! body_end 9 dst i 0 ;;
  put_number 9 dst ns i j.

(** *** create_name *)

(** chk_chr: is the character in the string. *)
Definition chk_chr (str : list Z) (chr : Z) : bool := existsb (Z.eqb chr) str.

Definition is_sep (c : Z) : bool := (c =? 47) || (c =? 92).

(** [while (p[si] == '/' || p[si] == '\\') si++;] *)
Fixpoint skip_seps (fuel : nat) (p : list Z) (si : Z) : result Z :=
  match fuel with
  | O => Err OutOfFuel
  | S n => c <=! array_get p si ;; if is_sep c then skip_seps n p (si + 1) else Ok si
  end.

(** The loop that makes the long name: the buffer, si, di and the character it
    ended at; None is FR_INVALID_NAME. *)
Fixpoint lfn_loop (fuel : nat) (p lfn : list Z) (si di : Z) : result (option (list Z * Z * Z * Z)) :=
  match fuel with
  | O => Err OutOfFuel
  | S n =>
      w <=! array_get p si ;;
      let si := si + 1 in
      if w <? 32 then Ok (Some (lfn, si, di, w))
      else if is_sep w then si <=! skip_seps (S (length p)) p si ;; Ok (Some (lfn, si, di, w))
      else if FF_MAX_LFN <=? di then Ok None
      else
        w <=! ff_oem2uni (Z.land w 0xFF) ;;
        if w =? 0 then Ok None
        else if (w <? 0x80) && chk_chr [34; 42; 58; 60; 62; 63; 124; 127] w then Ok None
        else lfn <=! array_set lfn di w ;; lfn_loop n p lfn si (di + 1)
  end.

(** Trailing spaces and dots are cut off. *)
Fixpoint snip (fuel : nat) (lfn : list Z) (di : Z) : result Z :=
  match fuel with
  | O => Err OutOfFuel
  | S n =>
      if di =? 0 then Ok di
      else w <=! array_get lfn (di - 1) ;; if negb (w =? 32) && negb (w =? 46) then Ok di else snip n lfn (di - 1)
  end.

(** Leading spaces and dots are passed over. *)
Fixpoint strip (fuel : nat) (lfn : list Z) (si : Z) : result Z :=
  match fuel with
  | O => Err OutOfFuel
  | S n => w <=! array_get lfn si ;; if (w =? 32) || (w =? 46) then strip n lfn (si + 1) else Ok si
  end.

(** [while (di > 0 && lfn[di - 1] != '.') di--;] *)
Fixpoint find_ext (fuel : nat) (lfn : list Z) (di : Z) : result Z :=
  match fuel with
  | O => Err OutOfFuel
  | S n =>
      if 0 <? di then w <=! array_get lfn (di - 1) ;; if w =? 46 then Ok di else find_ext n lfn (di - 1)
      else Ok di
  end.

(** The variables of the loop that makes the short name. *)
Record sfn_state : Type := mksfn { s_fn : list Z; s_si : Z; s_i : Z; s_ni : Z; s_b : Z; s_cf : Z }.

Definition LOSSY : Z := 0x03.

(** The end of a turn, for a character other than a space or a dot that is in
    its field: it is converted and put. *)
Definition put_sfn (x : sfn_state) (w : Z) : result sfn_state :=
  let '(mksfn fn si i ni b cf) := x in
  '(w, cf) <=! (if 0x80 <=? w then
                  w <=! ff_uni2oem w ;;
                  w <=! (if Z.land w 0x80 =? 0 then Ok w else array_get ExCvt (Z.land w 0x7F)) ;;
                  Ok (w, Z.lor cf NS_LFN)
                else Ok (w, cf)) ;;
  if 0x100 <=? w then
    if ni - 1 <=? i then Ok (mksfn fn si ni ni b (Z.lor cf LOSSY))
    else
      fn <=! array_set fn i (u8 (Z.shiftr w 8)) ;;
      fn <=! array_set fn (i + 1) (u8 w) ;;
      Ok (mksfn fn si (i + 2) ni b cf)
  else
    let '(w, b, cf) :=
      if (w =? 0) || chk_chr [43; 44; 59; 61; 91; 93] w then (95, b, Z.lor cf LOSSY)
      else if (65 <=? w) && (w <=? 90) then (w, Z.lor b 2, cf)
      else if (97 <=? w) && (w <=? 122) then (w - 0x20, Z.lor b 1, cf)
      else (w, b, cf) in
    fn <=! array_set fn i (u8 w) ;;
    Ok (mksfn fn si (i + 1) ni b cf).

(** One turn; inr when the loop is left. *)
Definition sfn_turn (lfn : list Z) (di : Z) (x : sfn_state) : result (sfn_state + sfn_state) :=
  let '(mksfn fn si i ni b cf) := x in
  w <=! array_get lfn si ;;
  let si := si + 1 in
  if w =? 0 then Ok (inr (mksfn fn si i ni b cf))
  else if (w =? 32) || ((w =? 46) && negb (si =? di)) then Ok (inl (mksfn fn si i ni b (Z.lor cf LOSSY)))
  else if (ni <=? i) || (si =? di) then
    if ni =? 11 then Ok (inr (mksfn fn si i ni b (Z.lor cf LOSSY)))
    else
      let cf := if negb (si =? di) then Z.lor cf LOSSY else cf in
      if di <? si then Ok (inr (mksfn fn si i ni b cf))
      else Ok (inl (mksfn fn di 8 11 (u8 (Z.shiftl b 2)) cf))
  else
    x <=! put_sfn (mksfn fn si i ni b cf) w ;; Ok (inl x).

Fixpoint sfn_loop (fuel : nat) (lfn : list Z) (di : Z) (x : sfn_state) : result sfn_state :=
  match fuel with
  | O => Err OutOfFuel
  | S n =>
      r <=! sfn_turn lfn di x ;;
      match r with
      | inl x => sfn_loop n lfn di x
      | inr x => Ok x
      end
  end.

(** The flags that follow from the cases of the letters. *)
Definition case_flags (b cf : Z) : Z :=
  let cf := if (Z.land b 0x0C =? 0x0C) || (Z.land b 0x03 =? 0x03) then Z.lor cf NS_LFN else cf in
  if Z.land cf NS_LFN =? 0 then
    let cf := if Z.land b 0x03 =? 0x01 then Z.lor cf NS_EXT else cf in
    if Z.land b 0x0C =? 0x04 then Z.lor cf NS_BODY else cf
  else cf.

(** The second half of create_name: the short name of the long name, of [di]
    characters, in the buffer. *)
Definition short_name (lfn : list Z) (di cf : Z) : result (list Z) :=
  si <=! strip 257 lfn 0 ;;
  let cf := if 0 <? si then Z.lor cf LOSSY else cf in
  di <=! find_ext 257 lfn di ;;
  x <=! sfn_loop 258 lfn di (mksfn (repeat 32 11 ++ [0]) si 0 8 0 cf) ;;
  let '(mksfn fn _ _ ni b cf) := x in
  c <=! array_get fn 0 ;;
  fn <=! (if c =? DDEM then array_set fn 0 RDDEM else Ok fn) ;;
  let b := if ni =? 8 then u8 (Z.shiftl b 2) else b in
  array_set fn 11 (case_flags b cf).

(** create_name: None is FR_INVALID_NAME, else the buffer, fn with its flags and
    the place in the path where the next segment begins. *)
Definition create_name (p lfn : list Z) : result (option (list Z * list Z * Z)) :=
  r <=! lfn_loop (S (length p)) p lfn 0 0 ;;
  match r with
  | None => Ok None
  | Some (lfn, next, di, w) =>
      let cf := if w <? 32 then NS_LAST else 0 in
      di <=! snip 257 lfn di ;;
      lfn <=! array_set lfn di 0 ;;
      if di =? 0 then Ok None
      else fn <=! short_name lfn di cf ;; Ok (Some (lfn, fn, next))
  end.

(** *** What an entry holds *)

(** The characters that can be stored: neither the end mark nor the filler. *)
Definition wname (a : list Z) : Prop := Forall (fun c => 0 < c < 0xFFFF) a.

Definition zlen {A} (l : list A) : Z := Z.of_nat (length l).

(** Character [k] of the stored form of a name: the name, a 0, and fillers. *)
Definition pad (a : list Z) (k : Z) : Z :=
  if k <? zlen a then byte_at a k else if k =? zlen a then 0 else 0xFFFF.

(** A working buffer, and the name in it. *)
Definition lfn_buf (b : list Z) : Prop := zlen b = 256 /\ Forall (in_u 16) b.

Definition in_buf (a b : list Z) : Prop :=
  lfn_buf b /\ wname a /\ zlen a <= FF_MAX_LFN /\ firstn (S (length a)) b = a ++ [0].

(** An entry at [o] with piece [ord] of the name [a]. *)
Record piece (a : list Z) (ord sum : Z) (w : list Z) (o : Z) : Prop := {
  pc_chars : forall k, 0 <= k < 13 -> le2 w (o + nth (Z.to_nat k) LfnOfs 0) = pad a (13 * (ord - 1) + k);
  pc_ord : byte_at w o = if zlen a <=? 13 * ord then ord + 64 else ord;
  pc_attr : byte_at w (o + 11) = AM_LFN;
  pc_type : byte_at w (o + 12) = 0;
  pc_sum : byte_at w (o + 13) = sum;
  pc_clust : le2 w (o + 26) = 0
}.

Lemma wname_at a k : wname a -> 0 <= k < zlen a -> 0 < byte_at a k < 0xFFFF.
Proof.
  intros W H. unfold wname in W. rewrite Forall_forall in W. apply W. unfold byte_at, zlen in *. apply nth_In. lia.
Qed.

Lemma buf_at b k : lfn_buf b -> 0 <= k < 256 -> array_get b k = Ok (byte_at b k) /\ in_u 16 (byte_at b k).
Proof.
  intros [L B] H. unfold zlen in L. split; [apply byte_at_get; lia|].
  rewrite Forall_forall in B. apply B. unfold byte_at. apply nth_In. lia.
Qed.

Lemma in_buf_at a b k : in_buf a b -> 0 <= k <= zlen a -> byte_at b k = if k <? zlen a then byte_at a k else 0.
Proof.
  intros (_ & _ & _ & E) H. unfold byte_at, zlen in *.
  assert (nth (Z.to_nat k) b 0 = nth (Z.to_nat k) (firstn (S (length a)) b) 0) as ->.
  { rewrite nth_firstn. destruct (Nat.ltb_spec (Z.to_nat k) (S (length a))); [reflexivity | lia]. }
  rewrite E. destruct (Z.ltb_spec k (Z.of_nat (length a))).
  - apply app_nth1. lia.
  - rewrite app_nth2 by lia. replace (Z.to_nat k - length a)%nat with O by lia. reflexivity.
Qed.

Lemma pad_range a k : wname a -> 0 <= k -> in_u 16 (pad a k).
Proof.
  intros W H. unfold pad. destruct (Z.ltb_spec k (zlen a)); [pose proof (wname_at a k W ltac:(lia)); in_range|].
  destruct (_ =? _); in_range.
Qed.

Lemma pad_in_buf a b k : in_buf a b -> 0 <= k <= zlen a -> pad a k = byte_at b k.
Proof.
  intros H Hk. rewrite (in_buf_at a b k H Hk). unfold pad. destruct (Z.ltb_spec k (zlen a)); [reflexivity|].
  destruct (Z.eqb_spec k (zlen a)); [reflexivity | lia].
Qed.

(** *** Storing *)

(** The state of the loop of put_lfn before character [j]. *)
Definition putting (a : list Z) (j i wc : Z) : Prop :=
  if j <=? zlen a then i = j /\ wc <> 0xFFFF else wc = 0xFFFF.

(** Offsets that grow by two at least. *)
Fixpoint spaced (ofs : list Z) : Prop :=
  match ofs with
  | [] => True
  | k :: ofs => 0 <= k <= 30 /\ Forall (fun k' => k + 2 <= k') ofs /\ spaced ofs
  end.

Lemma lfn_spaced : spaced LfnOfs.
Proof. repeat split; repeat constructor; lia. Qed.

Lemma le2_of w w' x : (forall i, x <= i < x + 2 -> byte_at w' i = byte_at w i) -> le2 w' x = le2 w x.
Proof. intros H. unfold le2. now rewrite !H by lia. Qed.

Lemma stored_word w o v w' : 0 <= o -> in_u 16 v -> stored_le w o 2 v w' -> le2 w' o = v.
Proof.
  intros Ho Hv (_ & _ & B). unfold le2. rewrite !B by lia.
  repeat (rewrite (proj2 (Z.leb_le _ _)) by lia; rewrite (proj2 (Z.ltb_lt _ _)) by lia). cbn [andb].
  replace (o - o) with 0 by lia. replace (o + 1 - o) with 1 by lia.
  change (256 ^ 0) with 1. change (256 ^ 1) with 256. in_range.
Qed.

(** One turn of the loop: the character put, and the state after it. *)
Lemma put_char a b j i wc : in_buf a b -> 0 <= j -> putting a j i wc ->
  exists i', (if negb (wc =? 0xFFFF) then c <=! array_get b i ;; Ok (u32 (i + 1), c) else Ok (i, wc)) = Ok (i', pad a j) /\
    putting a (j + 1) i' (if pad a j =? 0 then 0xFFFF else pad a j).
Proof.
  intros B Hj. pose proof B as (LB & W & L & _). unfold putting, FF_MAX_LFN in *.
  destruct (Z.leb_spec j (zlen a)) as [H|H].
  - intros [-> Hw]. rewrite (proj2 (Z.eqb_neq _ _) Hw). cbn [negb].
    rewrite (proj1 (buf_at b j LB ltac:(lia))). cbn [rbind].
    rewrite <- (pad_in_buf a b j B) by lia. eexists. split; [reflexivity|].
    unfold u32. rewrite uwrap_small by in_range. unfold pad. destruct (Z.ltb_spec j (zlen a)).
    + pose proof (wname_at a j W ltac:(lia)). rewrite (proj2 (Z.eqb_neq (byte_at a j) 0)) by lia.
      destruct (Z.leb_spec (j + 1) (zlen a)); lia.
    + rewrite (proj2 (Z.eqb_eq j (zlen a))) by lia. cbn. destruct (Z.leb_spec (j + 1) (zlen a)); lia.
  - intros ->. cbn. eexists. unfold pad. destruct (Z.ltb_spec j (zlen a)); [lia|].
    destruct (Z.eqb_spec j (zlen a)); [lia|]. split; [reflexivity|]. cbn.
    destruct (Z.leb_spec (j + 1) (zlen a)); [lia | reflexivity].
Qed.

(** The bytes that no offset names. *)
Definition beside (o : Z) (ofs : list Z) (w w' : list Z) : Prop :=
  forall x, 0 <= x -> Forall (fun k => x < o + k \/ o + k + 2 <= x) ofs -> byte_at w' x = byte_at w x.

Lemma put_chars_ok a b o : in_buf a b -> 0 <= o <= 480 -> forall ofs j i wc w,
  spaced ofs -> is_sector w -> 0 <= j -> putting a j i wc ->
  exists w' i' wc', put_chars b w o ofs i wc = Ok (w', i', wc') /\ is_sector w' /\
    putting a (j + zlen ofs) i' wc' /\
    (forall k, (k < length ofs)%nat -> le2 w' (o + nth k ofs 0) = pad a (j + Z.of_nat k)) /\ beside o ofs w w'.
Proof.
  intros B Ho. induction ofs as [|d ofs IH]; intros j i wc w Sp S Hj P; cbn [put_chars].
  - exists w, i, wc. unfold zlen. cbn [length]. rewrite Z.add_0_r. repeat split; try assumption; try apply S.
    cbn. lia.
  - destruct Sp as (Hd & Hs & Sp). destruct (put_char a b j i wc B Hj P) as (i1 & -> & P1). cbn [rbind].
    destruct (st_word_sector w (o + d) (pad a j) S) as (w1 & -> & W1 & S1); [unfold SS; lia|]. cbn [rbind].
    destruct (IH (j + 1) _ _ w1 Sp S1 ltac:(lia) P1) as (w' & i' & wc' & E & S' & P' & C & O).
    exists w', i', wc'. split; [exact E|]. split; [exact S'|].
    split; [unfold zlen in *; cbn [length]; now replace (j + Z.of_nat (Datatypes.S (length ofs))) with (j + 1 + Z.of_nat (length ofs)) by lia|].
    assert (beside o (d :: ofs) w w') as O2.
    { intros x Hx F. apply Forall_cons_iff in F as [F1 F2]. rewrite (O x Hx F2).
      apply (stored_le_other w (o + d) 2 (pad a j)); [exact Hx | lia | exact W1]. }
    split; [|exact O2]. intros [|k] Hk; cbn [nth length] in *.
    + rewrite Z.add_0_r. rewrite (le2_of w1 w').
      * apply (stored_word w (o + d)); [lia | now apply pad_range, Hj; destruct B as (_ & W & _) | exact W1].
      * intros x Hx. apply O; [lia|]. apply Forall_forall. intros k Hk'.
        rewrite Forall_forall in Hs. specialize (Hs k Hk'). lia.
    + rewrite C by lia. f_equal. lia.
Qed.

Lemma lor_64 x : 0 <= x < 64 -> Z.lor x LLEF = x + 64.
Proof.
  intros H. unfold LLEF. rewrite Z.lor_comm. change (Z.lor 0x40 x) with (Z.lor (Z.shiftl 1 6) x).
  rewrite lor_shift by (eval_pow; lia). eval_pow. lia.
Qed.

(** The last turn knows whether the name ends in this piece. *)
Lemma ends_here a b i wc ord : in_buf a b -> 0 < 13 * ord -> putting a (13 * ord) i wc ->
  (if wc =? 0xFFFF then Ok true else c <=! array_get b i ;; Ok (c =? 0)) = Ok (zlen a <=? 13 * ord).
Proof.
  intros B H P. pose proof B as (LB & W & L & _). unfold putting, FF_MAX_LFN in *.
  destruct (Z.leb_spec (13 * ord) (zlen a)) as [N|N].
  - destruct P as [-> P]. rewrite (proj2 (Z.eqb_neq _ _) P). rewrite (proj1 (buf_at b (13 * ord) LB ltac:(lia))).
    cbn [rbind]. rewrite (in_buf_at a b) by (auto; lia). f_equal.
    destruct (Z.ltb_spec (13 * ord) (zlen a)), (Z.leb_spec (zlen a) (13 * ord)); try lia; try reflexivity.
    pose proof (wname_at a (13 * ord) W ltac:(lia)). lia.
  - rewrite P, Z.eqb_refl. f_equal. symmetry. apply Z.leb_le. lia.
Qed.

(** The places of the fields, and those of the characters. *)
Definition off_chars (o x : Z) : Prop := Forall (fun k => x < o + k \/ o + k + 2 <= x) LfnOfs.

Lemma off_chars_field o x :
  x <= o \/ o + 32 <= x \/ o + 11 <= x < o + 14 \/ o + 26 <= x < o + 28 -> off_chars o x.
Proof. intros H. unfold off_chars, LfnOfs. repeat (apply Forall_cons; [lia|]). apply Forall_nil. Qed.

Lemma sector_set l i x : is_sector l -> 0 <= i < SS -> is_byte x ->
  array_set l i x = Ok (list_set (Z.to_nat i) x l) /\ is_sector (list_set (Z.to_nat i) x l) /\
  forall j, 0 <= j -> byte_at (list_set (Z.to_nat i) x l) j = if j =? i then x else byte_at l j.
Proof.
  intros [L B] Hi Hx. split; [apply array_set_ok; lia|].
  split; [split; [now rewrite list_set_length | now apply bytes_set]|]. intros j Hj. apply byte_at_set; lia.
Qed.

Lemma lfn_fields_ok w o sum : is_sector w -> 0 <= o <= 480 -> is_byte sum ->
  exists w', lfn_fields w o sum = Ok w' /\ is_sector w' /\
    byte_at w' (o + 11) = AM_LFN /\ byte_at w' (o + 12) = 0 /\ byte_at w' (o + 13) = sum /\ le2 w' (o + 26) = 0 /\
    forall x, 0 <= x -> x < o \/ o + 32 <= x -> byte_at w' x = byte_at w x.
Proof.
  intros HS Ho Hs. unfold lfn_fields, AM_LFN. assert (SS = 512) as E by reflexivity.
  destruct (sector_set w (o + 13) sum HS ltac:(lia) Hs) as (-> & S1 & B1). cbn [rbind].
  destruct (sector_set _ (o + 11) 0x0F S1 ltac:(lia) ltac:(in_range)) as (-> & S2 & B2). cbn [rbind].
  destruct (sector_set _ (o + 12) 0 S2 ltac:(lia) ltac:(in_range)) as (-> & S3 & B3). cbn [rbind].
  destruct (st_word_sector _ (o + 26) 0 S3) as (w4 & -> & W4 & S4); [lia|].
  exists w4. split; [reflexivity|]. split; [exact S4|].
  assert (forall x, 0 <= x -> x < o + 26 \/ o + 28 <= x -> byte_at w4 x =
    if x =? o + 12 then 0 else if x =? o + 11 then 0x0F else if x =? o + 13 then sum else byte_at w x) as A.
  { intros x Hx N. rewrite (stored_le_other _ (o + 26) 2 0 w4 x Hx ltac:(lia) W4). now rewrite B3, B2, B1 by lia. }
  rewrite !A by lia. rewrite (stored_word _ (o + 26) 0 w4) by (exact W4 || in_range). rewrite !Z.eqb_refl.
  repeat rewrite (proj2 (Z.eqb_neq (o + _) (o + _))) by lia. do 4 (split; [reflexivity|]).
  intros x Hx N. rewrite A by lia. repeat rewrite (proj2 (Z.eqb_neq x (o + _))) by lia. reflexivity.
Qed.

(** put_lfn stores a piece of the name and touches no other entry. *)
Lemma put_lfn_ok a b w o ord sum : in_buf a b -> is_sector w -> 0 <= o <= 480 -> 1 <= ord -> 13 * (ord - 1) < zlen a ->
  is_byte sum ->
  exists w', put_lfn b w o ord sum = Ok w' /\ is_sector w' /\ piece a ord sum w' o /\
    forall x, 0 <= x -> x < o \/ o + 32 <= x -> byte_at w' x = byte_at w x.
Proof.
  intros B HS Ho H1 Hn Hs. pose proof B as (LB & W & L & _). unfold FF_MAX_LFN in L. unfold put_lfn.
  destruct (lfn_fields_ok w o sum HS Ho Hs) as (w4 & -> & S4 & F1 & F2 & F3 & F4 & Out). cbn [rbind].
  unfold u32. rewrite uwrap_small by in_range.
  destruct (put_chars_ok a b o B Ho LfnOfs ((ord - 1) * 13) ((ord - 1) * 13) 0 w4 lfn_spaced S4)
    as (w5 & i & wc & -> & S5 & P5 & C5 & O5); [lia | unfold putting; rewrite (proj2 (Z.leb_le _ _)) by lia; lia|].
  cbn [rbind]. change (zlen LfnOfs) with 13 in P5. replace ((ord - 1) * 13 + 13) with (13 * ord) in P5 by lia.
  rewrite (ends_here a b i wc ord B ltac:(lia) P5). cbn [rbind]. rewrite lor_64 by lia.
  set (m := if zlen a <=? 13 * ord then ord + 64 else ord).
  destruct (sector_set w5 o m S5) as (-> & S6 & B6); [unfold SS; lia | subst m; destruct (_ <=? _); in_range|].
  eexists. split; [reflexivity|]. split; [exact S6|].
  assert (forall x, 0 <= x -> x <> o -> byte_at (list_set (Z.to_nat o) m w5) x = byte_at w5 x) as Q.
  { intros x Hx N. rewrite B6 by exact Hx. now rewrite (proj2 (Z.eqb_neq _ _) N). }
  split; [split|].
  - intros k Hk. assert (1 <= nth (Z.to_nat k) LfnOfs 0).
    { apply (proj1 (Forall_forall (fun d => 1 <= d) LfnOfs)); [repeat constructor; lia|]. apply nth_In. cbn. lia. }
    rewrite (le2_of w5) by (intros x Hx; apply Q; lia). rewrite C5 by (cbn; lia). f_equal. lia.
  - rewrite B6 by lia. now rewrite Z.eqb_refl.
  - rewrite Q, O5 by (lia || apply off_chars_field; lia). exact F1.
  - rewrite Q, O5 by (lia || apply off_chars_field; lia). exact F2.
  - rewrite Q, O5 by (lia || apply off_chars_field; lia). exact F3.
  - rewrite <- F4. apply le2_of. intros x Hx. now rewrite Q, O5 by (lia || apply off_chars_field; lia).
  - intros x Hx N. rewrite Q, O5 by (lia || apply off_chars_field; lia). now apply Out.
Qed.

(** *** Comparing *)

Definition ord_test (ord : Z) : bool :=
  forallb (fun last : bool => let m := if last then ord + 64 else ord in
    (Z.land m 0x3F =? ord) && (Z.land m 0xBF =? ord) && Bool.eqb (Z.land m LLEF =? 0) (negb last)) [true; false].

(** The order of a piece and its end flag are read back. *)
Lemma ord_bits ord (last : bool) : 1 <= ord <= 20 -> let m := if last then ord + 64 else ord in
  Z.land m 0x3F = ord /\ Z.land m 0xBF = ord /\ (Z.land m LLEF =? 0) = negb last.
Proof.
  intros H m. assert (all_from 20 1 ord_test = true) as T by reflexivity.
  pose proof (all_from_spec _ _ _ T ord ltac:(lia)) as O. unfold ord_test in O.
  rewrite forallb_forall in O. specialize (O last ltac:(destruct last; cbn; auto)). cbv zeta in O. fold m in O.
  apply andb_prop in O as [O O3]. apply andb_prop in O as [O1 O2]. apply eqb_prop in O3.
  split; [lia|]. split; [lia | exact O3].
Qed.

Definition comparing (a : list Z) (j i wc : Z) : Prop :=
  if j <=? zlen a then i = j /\ wc <> 0 else wc = 0.

(** What cmp_lfn asks of character [k]. *)
Definition agrees (a b : list Z) (k : Z) : Prop := k < FF_MAX_LFN /\ upper (pad a k) = upper (byte_at b k).

Lemma pad_next a j : wname a -> 0 <= j <= zlen a -> comparing a (j + 1) (j + 1) (pad a j).
Proof.
  intros W H. unfold comparing, pad. destruct (Z.ltb_spec j (zlen a)).
  - pose proof (wname_at a j W ltac:(lia)). rewrite (proj2 (Z.leb_le _ _)) by lia. lia.
  - destruct (Z.leb_spec (j + 1) (zlen a)); [lia|]. now rewrite (proj2 (Z.eqb_eq j (zlen a))) by lia.
Qed.

Lemma cmp_chars_ok a b w o : wname a -> zlen a <= FF_MAX_LFN -> lfn_buf b -> is_sector w -> 0 <= o <= 480 ->
  forall ofs j i wc, Forall (fun d => 0 <= d <= 30) ofs -> 0 <= j -> comparing a j i wc ->
  (forall k, (k < length ofs)%nat -> le2 w (o + nth k ofs 0) = pad a (j + Z.of_nat k)) ->
  exists r, cmp_chars b w o ofs i wc = Ok r /\
    match r with
    | Some (i', wc') => comparing a (j + zlen ofs) i' wc' /\
        forall k, j <= k < j + zlen ofs -> k <= zlen a -> agrees a b k
    | None => exists k, j <= k < j + zlen ofs /\ k <= zlen a /\ ~ agrees a b k
    end.
Proof.
  intros W L LB HS Ho. unfold FF_MAX_LFN in *.
  induction ofs as [|d ofs IH]; intros j i wc Hd Hj C Hc; cbn [cmp_chars].
  { eexists. split; [reflexivity|]. unfold zlen at 1. cbn. rewrite Z.add_0_r. split; [exact C | intros; unfold zlen in *; cbn in *; lia]. }
  apply Forall_cons_iff in Hd as [Hd Hds]. pose proof (Hc O ltac:(cbn; lia)) as H0. cbn [nth] in H0. rewrite Z.add_0_r in H0.
  rewrite ld_word_ok by (apply HS || rewrite ?(proj1 HS); unfold SS; lia). cbn [rbind]. rewrite H0.
  assert (zlen (d :: ofs) = zlen ofs + 1) as Z1 by (unfold zlen; cbn [length]; lia).
  assert (forall k, (k < length ofs)%nat -> le2 w (o + nth k ofs 0) = pad a (j + 1 + Z.of_nat k)) as Hc'.
  { intros k Hk. specialize (Hc (S k) ltac:(cbn; lia)). cbn [nth] in Hc. rewrite Hc. f_equal. lia. }
  unfold comparing in C. destruct (Z.leb_spec j (zlen a)) as [J|J].
  - destruct C as [-> C]. rewrite (proj2 (Z.eqb_neq _ _) C). cbn [negb].
    destruct (Z.leb_spec FF_MAX_LFN j) as [X|X].
    { exists None. split; [reflexivity|]. exists j. unfold agrees, zlen in *. lia. }
    unfold FF_MAX_LFN in X. destruct (buf_at b j LB ltac:(lia)) as [-> Bj]. pose proof (pad_range a j W Hj) as Pj.
    rewrite (proj1 (upper_ok _ Pj)). cbn [rbind].
    rewrite (proj1 (upper_ok _ Bj)). cbn [rbind]. unfold u32. rewrite uwrap_small by in_range.
    destruct (Z.eqb_spec (upper (pad a j)) (upper (byte_at b j))) as [E|E].
    + destruct (IH (j + 1) _ _ Hds ltac:(lia) (pad_next a j W ltac:(lia)) Hc') as (r & -> & R).
      exists r. split; [reflexivity|]. destruct r as [[i' wc']|].
      * destruct R as [R1 R2]. rewrite Z1. replace (j + (zlen ofs + 1)) with (j + 1 + zlen ofs) by lia. split; [exact R1|].
        intros k Hk Hk'. destruct (Z.eq_dec k j) as [->|]; [now split|]. apply R2; lia.
      * destruct R as (k & Hk & R). exists k. split; [lia | exact R].
    + exists None. split; [reflexivity|]. exists j. unfold agrees, zlen in *. split; [lia|]. split; [lia|]. intros [_ A]. auto.
  - subst wc. cbn [negb Z.eqb]. unfold pad. destruct (Z.ltb_spec j (zlen a)); [lia|].
    destruct (Z.eqb_spec j (zlen a)); [lia|]. cbn [Z.eqb Pos.eqb].
    destruct (IH (j + 1) i 0 Hds ltac:(lia)) as (r & -> & R); [unfold comparing; now rewrite (proj2 (Z.leb_gt _ _)) by lia | exact Hc'|].
    exists r. split; [reflexivity|]. destruct r as [[i' wc']|].
    + destruct R as [R1 R2]. rewrite Z1. replace (j + (zlen ofs + 1)) with (j + 1 + zlen ofs) by lia. split; [exact R1|].
      intros k Hk Hk'. lia.
    + destruct R as (k & Hk & R). lia.
Qed.

Lemma lfn_ofs_range : Forall (fun d => 0 <= d <= 30) LfnOfs.
Proof. repeat (apply Forall_cons; [lia|]). apply Forall_nil. Qed.

(** How many entries a name takes: (nlen + 12) / 13. *)
Definition pieces (a : list Z) : Z := (zlen a + 12) / 13.

Lemma pieces_range a ord : 1 <= ord <= pieces a <-> 1 <= ord /\ 13 * (ord - 1) < zlen a.
Proof. unfold pieces. dlia. Qed.

Lemma piece_chars a ord sum w o : piece a ord sum w o ->
  forall k, (k < length LfnOfs)%nat -> le2 w (o + nth k LfnOfs 0) = pad a (13 * (ord - 1) + Z.of_nat k).
Proof.
  intros P k Hk. cbn in Hk. rewrite <- (pc_chars _ _ _ _ _ P (Z.of_nat k)) by lia. now rewrite Nat2Z.id.
Qed.

(** cmp_lfn on a stored piece: each of its characters agrees with the buffer up
    to case, and a name that fills its last piece has its end there too. *)
Lemma cmp_lfn_ok a b ord sum w o : wname a -> zlen a <= FF_MAX_LFN -> lfn_buf b -> is_sector w -> 0 <= o <= 480 ->
  1 <= ord <= pieces a -> piece a ord sum w o ->
  exists r, cmp_lfn b w o = Ok r /\
    (r = true <-> (forall k, 13 * (ord - 1) <= k < 13 * ord -> k <= zlen a -> agrees a b k) /\
                  (zlen a = 13 * ord -> byte_at b (zlen a) = 0)).
Proof.
  intros W L LB HS Ho Hr P. pose proof (proj1 (pieces_range _ _) Hr) as [H1 H2]. unfold FF_MAX_LFN in L.
  unfold cmp_lfn. rewrite ld_word_ok by (apply HS || rewrite ?(proj1 HS); unfold SS; lia). cbn [rbind].
  rewrite (pc_clust _ _ _ _ _ P). cbn [negb Z.eqb].
  rewrite byte_at_get by (rewrite (proj1 HS); unfold SS; lia). cbn [rbind]. rewrite (pc_ord _ _ _ _ _ P).
  destruct (ord_bits ord (zlen a <=? 13 * ord) ltac:(lia)) as (-> & _ & ->).
  unfold u32. rewrite uwrap_small by in_range.
  destruct (cmp_chars_ok a b w o W L LB HS Ho LfnOfs (13 * (ord - 1)) ((ord - 1) * 13) 1 lfn_ofs_range)
    as (r & -> & R); [lia | unfold comparing; rewrite (proj2 (Z.leb_le _ _)) by lia; lia | exact (piece_chars _ _ _ _ _ P) |].
  change (zlen LfnOfs) with 13 in R. replace (13 * (ord - 1) + 13) with (13 * ord) in R by lia. cbn [rbind].
  destruct r as [[i wc]|].
  - destruct R as [C R]. rewrite negb_involutive. unfold comparing in C.
    destruct (Z.leb_spec (zlen a) (13 * ord)) as [E1|E1]; cbn [andb].
    2: { exists true. split; [reflexivity|]. split; [|auto]. split; [exact R | lia]. }
    destruct (Z.leb_spec (13 * ord) (zlen a)) as [E2|E2].
    + destruct C as [-> C]. rewrite (proj2 (Z.eqb_neq _ _) C). cbn [negb].
      rewrite (proj1 (buf_at b (13 * ord) LB ltac:(lia))). cbn [rbind]. eexists. split; [reflexivity|].
      replace (13 * ord) with (zlen a) in * by lia. rewrite Z.eqb_eq. split; [auto | intros [_ E]; auto].
    + subst wc. cbn [negb Z.eqb]. exists true. split; [reflexivity|]. split; [|auto]. split; [exact R | lia].
  - exists false. split; [reflexivity|]. split; [discriminate|]. intros [A _].
    destruct R as (k & Hk & Hk' & N). destruct (N (A k ltac:(lia) Hk')).
Qed.

(** The same name up to case. *)
Definition same_name (a b : list Z) : Prop := map upper a = map upper b.

Lemma same_name_at a b : same_name a b <-> zlen a = zlen b /\ forall k, 0 <= k < zlen a -> upper (byte_at a k) = upper (byte_at b k).
Proof.
  unfold same_name, zlen, byte_at. split.
  - intros E. assert (length a = length b) as L by (rewrite <- (length_map upper a), E; apply length_map).
    split; [lia|]. intros k Hk. rewrite <- !(map_nth upper).
    rewrite (nth_indep (map upper a) (upper 0) 0), (nth_indep (map upper b) (upper 0) 0) by (rewrite length_map; lia). now rewrite E.
  - intros [L E]. apply (nth_ext _ _ (upper 0) (upper 0)); [rewrite !length_map; lia|]. rewrite length_map. intros k Hk.
    rewrite !(map_nth upper). specialize (E (Z.of_nat k) ltac:(lia)). now rewrite Nat2Z.id in E.
Qed.

Lemma upper_zero c : in_u 16 c -> upper c = upper 0 -> c = 0.
Proof. intros H E. apply (upper_ok c H). rewrite E. reflexivity. Qed.

(** All pieces agree exactly when the names are the same up to case. *)
Lemma agrees_all a x b : wname a -> 1 <= zlen a < FF_MAX_LFN -> in_buf x b ->
  ((forall k, 0 <= k <= zlen a -> agrees a b k) <-> same_name a x).
Proof.
  intros W L B. pose proof B as (LB & Wx & Lx & _). unfold agrees, FF_MAX_LFN in *. rewrite same_name_at. split.
  - intros A.
    assert (byte_at b (zlen a) = 0) as En.
    { apply upper_zero; [apply (buf_at b _ LB); lia|]. rewrite <- (proj2 (A (zlen a) ltac:(lia))).
      unfold pad. rewrite Z.ltb_irrefl, Z.eqb_refl. reflexivity. }
    assert (zlen a = zlen x) as E.
    { destruct (Z_lt_dec (zlen a) (zlen x)) as [H|H].
      { rewrite (in_buf_at x b) in En by (auto; unfold zlen in *; lia). rewrite (proj2 (Z.ltb_lt _ _) H) in En.
        pose proof (wname_at x (zlen a) Wx ltac:(lia)). lia. }
      destruct (Z_lt_dec (zlen x) (zlen a)) as [H'|]; [|lia].
      destruct (A (zlen x) ltac:(unfold zlen in *; lia)) as [_ E]. rewrite (in_buf_at x b) in E by (auto; unfold zlen; lia).
      rewrite Z.ltb_irrefl in E. unfold pad in E. rewrite (proj2 (Z.ltb_lt _ _) H') in E.
      pose proof (wname_at a (zlen x) W ltac:(unfold zlen in *; lia)). apply upper_zero in E; [lia | in_range]. }
    split; [exact E|]. intros k Hk. destruct (A k ltac:(lia)) as [_ K]. rewrite (in_buf_at x b) in K by (auto; lia).
    unfold pad in K. rewrite (proj2 (Z.ltb_lt k _)) in K by lia. now rewrite (proj2 (Z.ltb_lt k _)) in K by lia.
  - intros [E K] k Hk. split; [lia|]. rewrite (in_buf_at x b) by (auto; lia). unfold pad. rewrite <- E.
    destruct (Z.ltb_spec k (zlen a)); [apply K; lia|]. now rewrite (proj2 (Z.eqb_eq k _)) by lia.
Qed.

(** *** Reading back *)

Lemma buf_set b i x : lfn_buf b -> 0 <= i < 256 -> in_u 16 x ->
  array_set b i x = Ok (list_set (Z.to_nat i) x b) /\ lfn_buf (list_set (Z.to_nat i) x b) /\
  forall j, 0 <= j -> byte_at (list_set (Z.to_nat i) x b) j = if j =? i then x else byte_at b j.
Proof.
  intros [L B] Hi Hx. unfold zlen in L. split; [apply array_set_ok; lia|]. split.
  - split; [unfold zlen; now rewrite list_set_length | now apply list_set_forall].
  - intros j Hj. apply byte_at_set; lia.
Qed.

Lemma pick_chars_ok a w o : wname a -> zlen a < FF_MAX_LFN -> is_sector w -> 0 <= o <= 480 ->
  forall ofs j wc b, lfn_buf b -> Forall (fun d => 0 <= d <= 30) ofs -> 0 <= j -> comparing a j (Z.min j (zlen a + 1)) wc ->
  (forall k, (k < length ofs)%nat -> le2 w (o + nth k ofs 0) = pad a (j + Z.of_nat k)) ->
  exists b', pick_chars b w o ofs (Z.min j (zlen a + 1)) wc = Ok (Some (Z.min (j + zlen ofs) (zlen a + 1)), b') /\ lfn_buf b' /\
    forall k, 0 <= k -> byte_at b' k = if (j <=? k) && (k <? j + zlen ofs) && (k <=? zlen a) then pad a k else byte_at b k.
Proof.
  intros W L HS Ho. unfold FF_MAX_LFN in *.
  induction ofs as [|d ofs IH]; intros j wc b LB Hd Hj C Hc; cbn [pick_chars].
  { unfold zlen at 2. cbn [length Z.of_nat]. rewrite Z.add_0_r. eexists. split; [reflexivity|]. split; [exact LB|]. intros k Hk.
    unfold zlen at 1. cbn [length Z.of_nat]. destruct (Z.leb_spec j k), (Z.ltb_spec k (j + 0)); try lia; reflexivity. }
  apply Forall_cons_iff in Hd as [Hd Hds]. pose proof (Hc O ltac:(cbn; lia)) as H0. cbn [nth] in H0. rewrite Z.add_0_r in H0.
  rewrite ld_word_ok by (apply HS || rewrite ?(proj1 HS); unfold SS; lia). cbn [rbind]. rewrite H0.
  assert (zlen (d :: ofs) = zlen ofs + 1) as Z1 by (unfold zlen; cbn [length]; lia).
  assert (forall k, (k < length ofs)%nat -> le2 w (o + nth k ofs 0) = pad a (j + 1 + Z.of_nat k)) as Hc'.
  { intros k Hk. specialize (Hc (S k) ltac:(cbn; lia)). cbn [nth] in Hc. rewrite Hc. f_equal. lia. }
  rewrite Z1. replace (j + (zlen ofs + 1)) with (j + 1 + zlen ofs) by lia.
  unfold comparing in C. destruct (Z.leb_spec j (zlen a)) as [J|J].
  - destruct C as [E C]. rewrite (proj2 (Z.eqb_neq _ _) C). cbn [negb]. rewrite E.
    destruct (Z.leb_spec FF_MAX_LFN j) as [X|_]; [unfold FF_MAX_LFN in X; lia|].
    destruct (buf_set b j (pad a j) LB ltac:(lia) (pad_range a j W Hj)) as (-> & LB1 & B1). cbn [rbind].
    unfold u32. rewrite uwrap_small by in_range.
    destruct (IH (j + 1) (pad a j) _ LB1 Hds ltac:(lia)) as (b' & E' & LB' & B').
    + rewrite Z.min_l by lia. apply pad_next; [exact W | lia].
    + exact Hc'.
    + rewrite (Z.min_l (j + 1)) in E' by lia. exists b'. split; [exact E'|]. split; [exact LB'|]. intros k Hk. rewrite B', B1 by exact Hk.
      destruct (Z.leb_spec (j + 1) k), (Z.leb_spec j k), (Z.ltb_spec k (j + 1 + zlen ofs)), (Z.leb_spec k (zlen a)),
        (Z.eqb_spec k j); cbn [andb]; try lia; try reflexivity; subst; try reflexivity; unfold zlen in *; lia.
  - subst wc. cbn [negb Z.eqb]. unfold pad at 1. destruct (Z.ltb_spec j (zlen a)); [lia|].
    destruct (Z.eqb_spec j (zlen a)); [lia|]. cbn [Z.eqb Pos.eqb].
    replace (Z.min j (zlen a + 1)) with (Z.min (j + 1) (zlen a + 1)) by lia.
    destruct (IH (j + 1) 0 b LB Hds ltac:(lia)) as (b' & -> & LB' & B');
      [unfold comparing; now rewrite (proj2 (Z.leb_gt _ _)) by lia | exact Hc'|].
    exists b'. split; [reflexivity|]. split; [exact LB'|]. intros k Hk. rewrite B' by exact Hk.
    destruct (Z.leb_spec (j + 1) k), (Z.leb_spec j k), (Z.ltb_spec k (j + 1 + zlen ofs)), (Z.leb_spec k (zlen a));
      cbn [andb]; try lia; reflexivity.
Qed.

(** pick_lfn brings a piece back to its place, and the end of the name with the
    last piece; a name of 254 characters is too long for it. *)
Lemma pick_lfn_ok a ord sum w o b : wname a -> zlen a < FF_MAX_LFN - 1 -> is_sector w -> 0 <= o <= 480 ->
  1 <= ord <= pieces a -> piece a ord sum w o -> lfn_buf b ->
  exists b', pick_lfn b w o = Ok (true, b') /\ lfn_buf b' /\
    forall k, 0 <= k <= zlen a -> byte_at b' k =
      if (13 * (ord - 1) <=? k) && ((k <? 13 * ord) || (zlen a <=? 13 * ord)) then pad a k else byte_at b k.
Proof.
  intros W L HS Ho Hr P LB. pose proof (proj1 (pieces_range _ _) Hr) as [H1 H2]. unfold FF_MAX_LFN in L.
  unfold pick_lfn. rewrite ld_word_ok by (apply HS || rewrite ?(proj1 HS); unfold SS; lia). cbn [rbind].
  rewrite (pc_clust _ _ _ _ _ P). cbn [negb Z.eqb].
  rewrite byte_at_get by (rewrite (proj1 HS); unfold SS; lia). cbn [rbind]. rewrite (pc_ord _ _ _ _ _ P).
  destruct (ord_bits ord (zlen a <=? 13 * ord) ltac:(lia)) as (_ & -> & ->).
  unfold u32. rewrite uwrap_small by in_range.
  replace ((ord - 1) * 13) with (Z.min (13 * (ord - 1)) (zlen a + 1)) by lia.
  destruct (pick_chars_ok a w o W ltac:(unfold FF_MAX_LFN; lia) HS Ho LfnOfs (13 * (ord - 1)) 1 b LB lfn_ofs_range)
    as (b1 & -> & LB1 & B1);
    [lia | unfold comparing; rewrite (proj2 (Z.leb_le _ _)) by lia; lia | exact (piece_chars _ _ _ _ _ P) |].
  change (zlen LfnOfs) with 13 in *. replace (13 * (ord - 1) + 13) with (13 * ord) in * by lia. cbn [rbind].
  rewrite negb_involutive. destruct (Z.leb_spec (zlen a) (13 * ord)) as [E|E].
  2: { exists b1. split; [reflexivity|]. split; [exact LB1|]. intros k Hk. rewrite B1 by lia.
       rewrite orb_false_r, (proj2 (Z.leb_le k _)) by lia. now rewrite andb_true_r. }
  unfold FF_MAX_LFN. destruct (Z.leb_spec 255 (Z.min (13 * ord) (zlen a + 1))) as [X|_]; [lia|].
  destruct (buf_set b1 (Z.min (13 * ord) (zlen a + 1)) 0 LB1 ltac:(lia) ltac:(in_range)) as (-> & LB2 & B2). cbn [rbind].
  eexists. split; [reflexivity|]. split; [exact LB2|]. intros k Hk. rewrite B2, B1 by lia. rewrite orb_true_r, andb_true_r.
  rewrite (proj2 (Z.leb_le k _)) by lia. rewrite andb_true_r.
  destruct (Z.eqb_spec k (Z.min (13 * ord) (zlen a + 1))) as [K|K].
  - rewrite (proj2 (Z.leb_le _ k)) by lia. unfold pad. rewrite (proj2 (Z.ltb_ge k _)) by lia.
    now rewrite (proj2 (Z.eqb_eq k _)) by lia.
  - destruct (Z.leb_spec (13 * (ord - 1)) k), (Z.ltb_spec k (13 * ord)); cbn [andb]; reflexivity || lia.
Qed.

(** The pieces [n], ..., 1 of the name in [ba] stored and picked up again. *)
Fixpoint put_pick (ba w : list Z) (o sum : Z) (n : nat) (b : list Z) : result (bool * list Z) :=
  match n with
  | O => Ok (true, b)
  | S m =>
      w' <=! put_lfn ba w o (Z.of_nat n) sum ;;
      '(ok, b) <=! pick_lfn b w' o ;;
      if ok : bool then put_pick ba w o sum m b else Ok (false, b)
  end.

Lemma put_pick_ok a ba w o sum : in_buf a ba -> 1 <= zlen a < FF_MAX_LFN - 1 -> is_sector w -> 0 <= o <= 480 -> is_byte sum ->
  forall n b, Z.of_nat n <= pieces a -> lfn_buf b ->
  (Z.of_nat n < pieces a -> forall k, 13 * Z.of_nat n <= k <= zlen a -> byte_at b k = pad a k) ->
  exists b', put_pick ba w o sum n b = Ok (true, b') /\ lfn_buf b' /\ forall k, 0 <= k <= zlen a -> byte_at b' k = pad a k.
Proof.
  intros Ba L HS Ho Hs. pose proof Ba as (_ & W & _). unfold FF_MAX_LFN in L.
  induction n as [|n IH]; intros b Hn LB I; cbn [put_pick].
  - exists b. split; [reflexivity|]. split; [exact LB|]. intros k Hk. apply I; [unfold pieces; dlia | lia].
  - destruct (proj1 (pieces_range a (Z.of_nat (S n))) ltac:(lia)) as [_ H2].
    destruct (put_lfn_ok a ba w o (Z.of_nat (S n)) sum Ba HS Ho ltac:(lia) H2 Hs) as (w' & -> & S' & P & _). cbn [rbind].
    destruct (pick_lfn_ok a (Z.of_nat (S n)) sum w' o b W ltac:(unfold FF_MAX_LFN; lia) S' Ho ltac:(lia) P LB)
      as (b1 & -> & LB1 & B1). cbn [rbind].
    apply IH; [lia | exact LB1 |]. intros _ k Hk. rewrite B1 by lia. rewrite (proj2 (Z.leb_le _ k)) by lia. cbn [andb].
    destruct (Z.ltb_spec k (13 * Z.of_nat (S n))); [reflexivity|].
    destruct (Z.leb_spec (zlen a) (13 * Z.of_nat (S n))) as [E|E]; [reflexivity|].
    apply I; [unfold pieces; dlia | lia].
Qed.

Lemma buf_holds a b : lfn_buf b -> wname a -> zlen a <= FF_MAX_LFN -> (forall k, 0 <= k <= zlen a -> byte_at b k = pad a k) ->
  in_buf a b.
Proof.
  intros LB W L H. split; [exact LB|]. split; [exact W|]. split; [exact L|]. destruct LB as [Lb _].
  unfold zlen, FF_MAX_LFN in *. apply (nth_ext _ _ 0 0).
  - rewrite length_firstn, length_app. cbn [length]. lia.
  - rewrite length_firstn. intros k Hk. rewrite nth_firstn. destruct (Nat.ltb_spec k (S (length a))); [|lia].
    specialize (H (Z.of_nat k) ltac:(lia)). unfold byte_at, pad, zlen, byte_at in H. rewrite Nat2Z.id in H. rewrite H.
    destruct (Z.ltb_spec (Z.of_nat k) (Z.of_nat (length a))); [now rewrite app_nth1 by lia|].
    rewrite app_nth2 by lia. replace (k - length a)%nat with O by lia.
    now rewrite (proj2 (Z.eqb_eq (Z.of_nat k) _)) by lia.
Qed.

(** ** Making a name *)

(** The first segment of a path, and the Unicode character of a byte of it. *)
Fixpoint segment (p : list Z) : list Z :=
  match p with
  | [] => []
  | c :: p => if (c <? 32) || is_sep c then [] else c :: segment p
  end.

Definition uni (c : Z) : Z := match ff_oem2uni c with Ok u => u | Err _ => 0 end.

Definition legal (c : Z) : bool := negb ((uni c <? 0x80) && chk_chr [34; 42; 58; 60; 62; 63; 124; 127] (uni c)).

Definition blank (c : Z) : bool := (c =? 32) || (c =? 46).

(** A name without the spaces and dots at its end. *)
Fixpoint rtrim (l : list Z) : list Z :=
  match l with
  | [] => []
  | c :: l => match rtrim l with
              | [] => if blank c then [] else [c]
              | l => c :: l
              end
  end.

(** A path: bytes with an end mark (a control character). *)
Definition is_path (p : list Z) : Prop := bytes p /\ Exists (fun c => c < 32) p.

Lemma uni_ok c : 32 <= c < 256 -> ff_oem2uni c = Ok (uni c) /\ 0 < uni c < 0xFFFF.
Proof. intros H. destruct (code_page_ok c ltac:(lia)) as (u & E & R & _). unfold uni. now rewrite E. Qed.

Lemma nth_app_head {A} (l : list A) x q d : nth (length l) (l ++ x :: q) d = x.
Proof. rewrite app_nth2 by lia. now rewrite Nat.sub_diag. Qed.

Lemma get_head (pre : list Z) c q : array_get (pre ++ c :: q) (zlen pre) = Ok c.
Proof.
  rewrite byte_at_get by (rewrite length_app; unfold zlen; cbn [length]; lia).
  unfold byte_at, zlen. rewrite Nat2Z.id. now rewrite nth_app_head.
Qed.

Lemma skip_seps_ok q : forall pre fuel, Exists (fun c => c < 32) q -> (length q <= fuel)%nat ->
  exists si, skip_seps fuel (pre ++ q) (zlen pre) = Ok si /\ zlen pre <= si < zlen (pre ++ q).
Proof.
  induction q as [|c q IH]; intros pre fuel E F; [inversion E|]. destruct fuel as [|fuel]; [cbn in F; lia|].
  cbn [skip_seps]. rewrite get_head. cbn [rbind]. destruct (is_sep c) eqn:Sc.
  - assert (Exists (fun c => c < 32) q) as E' by (inversion E; subst; [unfold is_sep in Sc; lia | assumption]).
    destruct (IH (pre ++ [c]) fuel E') as (si & R & B); [cbn in F; lia|].
    rewrite <- app_assoc in R, B. cbn [app] in R, B. replace (zlen (pre ++ [c])) with (zlen pre + 1) in *
      by (unfold zlen; rewrite length_app; cbn; lia). exists si. split; [exact R | lia].
  - exists (zlen pre). split; [reflexivity|]. unfold zlen. rewrite length_app. cbn [length]. lia.
Qed.

(** The loop keeps the characters done so far at the start of the buffer. *)
Definition starts (b a : list Z) : Prop := firstn (length a) b = a.

Lemma starts_at b a k : starts b a -> 0 <= k < zlen a -> byte_at b k = byte_at a k.
Proof.
  intros H Hk. unfold byte_at, zlen in *. transitivity (nth (Z.to_nat k) (firstn (length a) b) 0); [|now rewrite H].
  rewrite nth_firstn. destruct (Nat.ltb_spec (Z.to_nat k) (length a)); [reflexivity | lia].
Qed.

Lemma starts_set b a c : lfn_buf b -> starts b a -> zlen a < 256 -> in_u 16 c ->
  exists b', array_set b (zlen a) c = Ok b' /\ lfn_buf b' /\ starts b' (a ++ [c]).
Proof.
  intros LB H L Hc. destruct (buf_set b (zlen a) c LB) as (E & LB' & B); [unfold zlen in *; lia | exact Hc|].
  eexists. split; [exact E|]. split; [exact LB'|]. unfold starts in *. destruct LB as [Lb _]. unfold zlen in *.
  rewrite Nat2Z.id in *. apply (nth_ext _ _ 0 0); [rewrite length_firstn, list_set_length, length_app; cbn [length]; lia|].
  rewrite length_firstn, list_set_length, length_app. cbn [length]. intros k Hk. rewrite nth_firstn.
  destruct (Nat.ltb_spec k (length a + 1)); [|lia]. specialize (B (Z.of_nat k) ltac:(lia)). unfold byte_at in B.
  rewrite Nat2Z.id in B. rewrite B. destruct (Z.eqb_spec (Z.of_nat k) (Z.of_nat (length a))) as [K|K].
  - replace k with (length a) by lia. now rewrite nth_app_head.
  - rewrite app_nth1 by lia. apply (starts_at b a (Z.of_nat k)) in H; [|unfold zlen; lia].
    unfold byte_at in H. now rewrite Nat2Z.id in H.
Qed.

Lemma byte_at_cons c q k : 0 <= k -> byte_at (c :: q) (k + 1) = byte_at q k.
Proof. intros H. unfold byte_at. now rewrite Z2Nat.inj_add, Nat.add_comm by lia. Qed.

(** The whole loop, for the rest [q] of the path. *)
Lemma lfn_loop_ok q : forall pre a b fuel, bytes q -> Exists (fun c => c < 32) q -> (length q <= fuel)%nat ->
  lfn_buf b -> starts b a -> zlen a <= FF_MAX_LFN ->
  exists r, lfn_loop fuel (pre ++ q) b (zlen pre) (zlen a) = Ok r /\
    if (zlen a + zlen (segment q) <=? FF_MAX_LFN) && forallb legal (segment q) then
      exists b' next w, r = Some (b', next, zlen a + zlen (segment q), w) /\ lfn_buf b' /\
        starts b' (a ++ map uni (segment q)) /\ w = byte_at q (zlen (segment q)) /\ zlen pre < next <= zlen (pre ++ q)
    else r = None.
Proof.
  unfold FF_MAX_LFN. induction q as [|c q IH]; intros pre a b fuel Bq E F LB Sa La; [inversion E|].
  destruct fuel as [|fuel]; [cbn in F; lia|]. apply Forall_cons_iff in Bq as [Bc Bq].
  cbn [lfn_loop segment]. rewrite get_head. cbn [rbind].
  assert (zlen (pre ++ c :: q) = zlen pre + 1 + zlen q) as Zp by (unfold zlen; rewrite length_app; cbn [length]; lia).
  assert (zlen (pre ++ [c]) = zlen pre + 1) as Zc by (unfold zlen; rewrite length_app; cbn [length]; lia).
  assert ((pre ++ [c]) ++ q = pre ++ c :: q) as App by (now rewrite <- app_assoc).
  assert (0 <= zlen q) by (unfold zlen; lia).
  destruct (Z.ltb_spec c 32) as [C|C]; cbn [orb].
  { eexists. split; [reflexivity|]. change (zlen []) with 0. rewrite Z.add_0_r, (proj2 (Z.leb_le _ _)) by lia. cbn [andb forallb map].
    rewrite app_nil_r. do 3 eexists. split; [reflexivity|]. repeat (split; [now auto|]). lia. }
  assert (Exists (fun c => c < 32) q) as E' by (inversion E; subst; [lia | assumption]).
  destruct (is_sep c) eqn:Sc.
  { destruct (skip_seps_ok q (pre ++ [c]) (S (length (pre ++ c :: q))) E') as (si & R & B); [rewrite length_app; cbn; lia|].
    rewrite App, Zc in R. rewrite App, Zc in B. rewrite R. cbn [rbind]. eexists. split; [reflexivity|].
    change (zlen []) with 0. rewrite Z.add_0_r, (proj2 (Z.leb_le _ _)) by lia. cbn [andb forallb map].
    rewrite app_nil_r. do 3 eexists. split; [reflexivity|]. repeat (split; [now auto|]). lia. }
  assert (zlen (c :: segment q) = zlen (segment q) + 1) as Zs by (unfold zlen; cbn [length]; lia). rewrite Zs.
  assert (0 <= zlen (segment q)) by (unfold zlen; lia).
  unfold FF_MAX_LFN. destruct (Z.leb_spec 255 (zlen a)) as [X|X].
  { eexists. split; [reflexivity|]. rewrite (proj2 (Z.leb_gt _ _)) by lia. reflexivity. }
  rewrite land_255, Z.mod_small by in_range. destruct (uni_ok c) as [-> U]; [in_range|]. cbn [rbind forallb].
  rewrite (proj2 (Z.eqb_neq (uni c) 0)) by lia. unfold legal at 1.
  destruct ((uni c <? 0x80) && chk_chr _ _); cbn [negb andb].
  { eexists. split; [reflexivity|]. now rewrite andb_false_r. }
  destruct (starts_set b a (uni c) LB Sa ltac:(lia) ltac:(in_range)) as (b1 & -> & LB1 & S1). cbn [rbind].
  assert (zlen (a ++ [uni c]) = zlen a + 1) as Za by (unfold zlen; rewrite length_app; cbn [length]; lia).
  destruct (IH (pre ++ [c]) (a ++ [uni c]) b1 fuel Bq E') as (r & R & K); [cbn in F; lia | exact LB1 | exact S1 | lia|].
  rewrite App, Zc, Za in R. exists r. split; [exact R|]. rewrite App, Zc, Za in K.
  replace (zlen a + (zlen (segment q) + 1)) with (zlen a + 1 + zlen (segment q)) by lia.
  destruct (_ && _); [|exact K]. destruct K as (b' & next & w & -> & LB' & S' & Hw & N).
  exists b', next, w. cbn [map]. rewrite <- app_assoc in S'. rewrite (byte_at_cons c q) by lia. repeat (split; [now auto|]). lia.
Qed.

Lemma rtrim_snoc a c : rtrim (a ++ [c]) = if blank c then rtrim a else a ++ [c].
Proof.
  induction a as [|x a IH]; cbn [app rtrim]; [reflexivity|]. rewrite IH. destruct (blank c); [reflexivity|].
  destruct (a ++ [c]) eqn:E; [now apply app_eq_nil in E | reflexivity].
Qed.

Lemma starts_app b a c : starts b (a ++ c) -> starts b a.
Proof.
  unfold starts. rewrite length_app. intros H. transitivity (firstn (length a) (a ++ c)).
  - rewrite <- H, firstn_firstn. f_equal. lia.
  - rewrite firstn_app, Nat.sub_diag, firstn_all. cbn. apply app_nil_r.
Qed.

Lemma zlen_snoc (a : list Z) c : zlen (a ++ [c]) = zlen a + 1.
Proof. unfold zlen. rewrite length_app. cbn [length]. lia. Qed.

Lemma snip_ok b a : lfn_buf b -> starts b a -> zlen a <= FF_MAX_LFN -> forall fuel, (length a < fuel)%nat ->
  snip fuel b (zlen a) = Ok (zlen (rtrim a)) /\ starts b (rtrim a).
Proof.
  intros LB. unfold FF_MAX_LFN. induction a as [|c a IH] using rev_ind; intros Sa L fuel F; (destruct fuel as [|fuel]; [lia|]).
  - now split.
  - cbn [snip]. rewrite zlen_snoc in *. assert (0 <= zlen a) by (unfold zlen; lia).
    rewrite (proj2 (Z.eqb_neq (zlen a + 1) 0)) by lia. replace (zlen a + 1 - 1) with (zlen a) by lia.
    rewrite (proj1 (buf_at b (zlen a) LB ltac:(lia))). cbn [rbind].
    rewrite (starts_at b (a ++ [c])) by (auto; rewrite zlen_snoc; lia).
    unfold byte_at at 1 2, zlen at 1 2. rewrite Nat2Z.id, nth_app_head, rtrim_snoc. unfold blank.
    destruct (c =? 32), (c =? 46); cbn [negb andb orb]; try (rewrite zlen_snoc; now split).
    all: rewrite length_app in F; cbn in F; apply IH; [now apply starts_app in Sa | lia | lia].
Qed.

Lemma rtrim_forall (P : Z -> Prop) a : Forall P a -> Forall P (rtrim a).
Proof.
  intros H. induction a as [|c a IH] using rev_ind; [constructor|]. rewrite rtrim_snoc.
  apply Forall_app in H as [H1 H2]. destruct (blank c); [now apply IH | now apply Forall_app].
Qed.

Lemma rtrim_length a : zlen (rtrim a) <= zlen a.
Proof.
  induction a as [|c a IH] using rev_ind; [reflexivity|]. rewrite rtrim_snoc, zlen_snoc.
  destruct (blank c); [lia | rewrite zlen_snoc; lia].
Qed.

(** Passing over blanks stops at the end of the name at the latest. *)
Lemma strip_ok a b : in_buf a b -> forall n si, 0 <= si -> zlen a < si + Z.of_nat n ->
  si <= zlen a -> exists r, strip n b si = Ok r /\ si <= r <= zlen a.
Proof.
  intros B. pose proof B as (LB & _ & L & _). unfold FF_MAX_LFN in L.
  induction n as [|n IH]; intros si H0 Hn Hs; [lia|]. cbn [strip].
  rewrite (proj1 (buf_at b si LB ltac:(lia))). cbn [rbind]. rewrite (in_buf_at a b si B) by lia.
  destruct (Z.ltb_spec si (zlen a)).
  - destruct (_ || _); [|exists si; split; [reflexivity | lia]].
    destruct (IH (si + 1) ltac:(lia) ltac:(lia) ltac:(lia)) as (r & -> & R). exists r. split; [reflexivity | lia].
  - cbn. exists si. split; [reflexivity | lia].
Qed.

Lemma find_ext_ok b : lfn_buf b -> forall n di, 0 <= di <= 256 -> di < Z.of_nat n ->
  exists r, find_ext n b di = Ok r /\ 0 <= r <= di.
Proof.
  intros LB. induction n as [|n IH]; intros di Hd Hn; [lia|]. cbn [find_ext]. destruct (Z.ltb_spec 0 di).
  - rewrite (proj1 (buf_at b (di - 1) LB ltac:(lia))). cbn [rbind]. destruct (_ =? 46).
    + exists di. split; [reflexivity | lia].
    + destruct (IH (di - 1) ltac:(lia) ltac:(lia)) as (r & -> & R). exists r. split; [reflexivity | lia].
  - exists di. split; [reflexivity | lia].
Qed.

(** The flags tell whether the segment is the last; a short name that loses
    something goes with a long one; the upper three are for others to set. *)
Definition flag_ok (last : bool) (cf : Z) : Prop :=
  0 <= cf < 32 /\ Z.testbit cf 2 = last /\ (Z.testbit cf 0 = true -> Z.testbit cf 1 = true).

(** The short name and its flags stay inside their 12 bytes. *)
Definition fn_ok (fn : list Z) : Prop := (zlen fn = 12 /\ bytes fn) /\ forall k, 0 <= k < 11 -> 0 < byte_at fn k.

Record sfn_ok (last : bool) (x : sfn_state) : Prop := {
  so_fn : fn_ok (s_fn x);
  so_i : s_ni x = 8 /\ 0 <= s_i x <= 8 \/ s_ni x = 11 /\ 8 <= s_i x <= 11;
  so_b : is_byte (s_b x);
  so_cf : flag_ok last (s_cf x)
}.

Lemma fn_set fn i x : zlen fn = 12 /\ bytes fn -> 0 <= i < 12 ->
  exists fn', array_set fn i (u8 x) = Ok fn' /\ zlen fn' = 12 /\ bytes fn'.
Proof.
  intros [L B] Hi. unfold zlen in *. rewrite array_set_ok by lia. eexists. split; [reflexivity|].
  split; [now rewrite list_set_length | apply bytes_set; [apply u8_byte | exact B]].
Qed.

Lemma put_fn fn i x : fn_ok fn -> 0 <= i < 12 -> array_set fn i x = Ok (list_set (Z.to_nat i) x fn).
Proof. intros [[L _] _] Hi. unfold zlen in L. now apply array_set_ok; lia. Qed.

Lemma set_fn fn i x : fn_ok fn -> 0 <= i < 12 -> is_byte x -> (i < 11 -> 0 < x) -> fn_ok (list_set (Z.to_nat i) x fn).
Proof.
  intros [[L B] P] Hi Hx H0. unfold fn_ok, zlen in *. split; [split; [now rewrite list_set_length | now apply bytes_set]|].
  intros k Hk. rewrite byte_at_set by lia. destruct (Z.eqb_spec k i); [apply H0; lia | now apply P].
Qed.

Lemma lor_byte a b : is_byte a -> is_byte b -> is_byte (Z.lor a b).
Proof.
  unfold is_byte, in_u. intros Ha Hb. split; [apply Z.lor_nonneg; lia|].
  destruct (Z.eq_dec (Z.lor a b) 0) as [->|N]; [eval_pow; lia|].
  assert (0 <= Z.lor a b) by (apply Z.lor_nonneg; lia). apply Z.log2_lt_pow2; [lia|].
  rewrite Z.log2_lor by lia. apply Z.max_lub_lt.
  - destruct (Z.eq_dec a 0) as [->|]; [cbn; lia | apply Z.log2_lt_pow2; lia].
  - destruct (Z.eq_dec b 0) as [->|]; [cbn; lia | apply Z.log2_lt_pow2; lia].
Qed.

Lemma flag_lor last cf m : flag_ok last cf -> In m [NS_LFN; LOSSY; NS_BODY; NS_EXT] -> flag_ok last (Z.lor cf m).
Proof.
  intros (H1 & H2 & H3) Hm.
  assert (0 <= m < 32 /\ Z.testbit m 2 = false /\ (Z.testbit m 0 = true -> Z.testbit m 1 = true)) as (M1 & M2 & M3)
    by (destruct Hm as [<-|[<-|[<-|[<-|[]]]]]; vm_compute; intuition congruence).
  split; [|split].
  - rewrite <- (Z.mod_small cf 32), <- (Z.mod_small m 32) by lia. change 32 with (2 ^ 5).
    rewrite <- !Z.land_ones, <- Z.land_lor_distr_l, Z.land_ones by lia. apply Z.mod_pos_bound. reflexivity.
  - rewrite Z.lor_spec, M2, H2. apply orb_false_r.
  - rewrite !Z.lor_spec. rewrite !orb_true_iff. tauto.
Qed.

Lemma uni2oem_scan_ok u n : forall c, 0 <= c -> c + Z.of_nat n <= 128 ->
  exists r, uni2oem_scan n u c = Ok r /\ c <= r <= c + Z.of_nat n.
Proof.
  induction n as [|n IH]; intros c Hc Hn; cbn [uni2oem_scan]; [exists c; split; [reflexivity | lia]|].
  rewrite byte_at_get by (change (Z.of_nat (length uc850)) with 128; lia). cbn [rbind].
  destruct (_ =? _); [exists c; split; [reflexivity | lia]|].
  destruct (IH (c + 1) ltac:(lia) ltac:(lia)) as (r & -> & R). exists r. split; [reflexivity | lia].
Qed.

(** Upper case in the code page: one byte, whatever the character. *)
Lemma oem_upper last u cf : 0 < u -> flag_ok last cf ->
  exists w cf', (if 0x80 <=? u then
                   w <=! ff_uni2oem u ;;
                   w <=! (if Z.land w 0x80 =? 0 then Ok w else array_get ExCvt (Z.land w 0x7F)) ;;
                   Ok (w, Z.lor cf NS_LFN)
                 else Ok (u, cf)) = Ok (w, cf') /\ is_byte w /\ flag_ok last cf'.
Proof.
  intros Hu Hc. destruct (Z.leb_spec 0x80 u) as [H|H]; [|exists u, cf; split; [reflexivity | split; [in_range | exact Hc]]].
  unfold ff_uni2oem. rewrite (proj2 (Z.ltb_ge _ _)) by lia.
  destruct (uni2oem_scan_ok u 128 0 ltac:(lia) ltac:(lia)) as (c & -> & C). cbn [rbind]. rewrite land_255.
  set (w := (c + 0x80) mod 256). assert (is_byte w) as Hw by (subst w; in_range).
  destruct (Z.land w 0x80 =? 0); cbn [rbind].
  - exists w, (Z.lor cf NS_LFN). split; [reflexivity|]. split; [exact Hw | apply flag_lor; [exact Hc | cbn; auto]].
  - assert (0 <= Z.land w 0x7F < 128) by (change 0x7F with (Z.ones 7); rewrite Z.land_ones by lia; in_range).
    rewrite byte_at_get by (change (Z.of_nat (length ExCvt)) with 128; lia). cbn [rbind].
    eexists _, (Z.lor cf NS_LFN). split; [reflexivity|]. split; [|apply flag_lor; [exact Hc | cbn; auto]].
    apply byte_at_byte. unfold bytes. rewrite Forall_forall. intros x.
    apply (proj1 (Forall_forall is_byte ExCvt)). repeat (apply Forall_cons; [in_range|]). apply Forall_nil.
Qed.

Lemma put_sfn_ok last x w : sfn_ok last x -> s_i x < s_ni x -> 0 < w ->
  exists x', put_sfn x w = Ok x' /\ sfn_ok last x' /\ s_si x' = s_si x.
Proof.
  intros [F I B C] Hi Hw. destruct x as [fn si i ni b cf]. cbn in F, I, B, C, Hi. unfold put_sfn.
  destruct (oem_upper last w cf Hw C) as (v & cf' & -> & Hv & C'). cbn [rbind].
  rewrite (proj2 (Z.leb_gt 0x100 v)) by in_range.
  assert (forall v' b' cf2, 0 < v' < 256 -> is_byte b' -> flag_ok last cf2 -> exists x',
    (fn <=! array_set fn i (u8 v') ;; Ok (mksfn fn si (i + 1) ni b' cf2)) = Ok x' /\ sfn_ok last x' /\ s_si x' = si) as Put.
  { intros v' b' cf2 Hv' Hb Hc. unfold u8. rewrite uwrap_small by in_range. rewrite (put_fn fn i v' F) by lia. cbn [rbind].
    eexists. split; [reflexivity|]. split; [|reflexivity]. split; cbn [s_fn s_i s_ni s_b s_cf]; auto; [apply set_fn; auto; [lia | in_range | lia] | lia]. }
  unfold is_byte, in_u in Hv. change (2 ^ 8) with 256 in Hv.
  destruct (Z.eqb_spec v 0) as [V0|V0]; cbn [orb]; [apply Put; [lia | exact B | apply flag_lor; [exact C' | cbn; auto]]|].
  destruct (chk_chr _ _); [apply Put; [lia | exact B | apply flag_lor; [exact C' | cbn; auto]]|].
  destruct (_ && _); [apply Put; [lia | apply lor_byte; [exact B | in_range] | exact C']|].
  destruct (Z.leb_spec 97 v); cbn [andb]; [|apply Put; [lia | exact B | exact C']].
  destruct (v <=? 122); apply Put; auto; try lia. apply lor_byte; [exact B | in_range].
Qed.

Lemma sfn_turn_ok last a b di x : in_buf a b -> 0 <= di <= zlen a -> sfn_ok last x -> 0 <= s_si x <= zlen a ->
  exists r, sfn_turn b di x = Ok r /\
    match r with inl x' => sfn_ok last x' /\ s_si x < s_si x' <= zlen a | inr x' => sfn_ok last x' end.
Proof.
  intros B Hd X Hs. pose proof B as (LB & W & L & _). unfold FF_MAX_LFN in L. pose proof X as [F I Bb C].
  destruct x as [fn si i ni b0 cf]. cbn in F, I, Bb, C, Hs. unfold sfn_turn. cbn [s_si].
  rewrite (proj1 (buf_at b si LB ltac:(lia))). cbn [rbind]. rewrite (in_buf_at a b si B Hs).
  assert (flag_ok last (Z.lor cf LOSSY)) as C2 by (apply flag_lor; [exact C | cbn; auto]).
  destruct (Z.ltb_spec si (zlen a)) as [S1|S1].
  2: { cbn. eexists. split; [reflexivity|]. split; auto. }
  pose proof (wname_at a si W ltac:(lia)) as Hc. rewrite (proj2 (Z.eqb_neq (byte_at a si) 0)) by lia.
  destruct (_ || _); [eexists; split; [reflexivity|]; split; [split; auto | cbn; lia]|].
  destruct (Z.leb_spec ni i) as [Ni|Ni]; cbn [orb].
  2: destruct (Z.eqb_spec (si + 1) di) as [Ed|Ed].
  1,2: destruct (ni =? 11); [eexists; split; [reflexivity|]; split; auto|].
  1,2: destruct (Z.ltb_spec di (si + 1)); (eexists; split; [reflexivity|]).
  - split; auto. cbn. destruct (negb _); auto.
  - split; [|cbn; lia]. split; cbn; auto; [lia | apply u8_byte | destruct (negb _); auto].
  - lia.
  - split; [|cbn; lia]. split; cbn; auto; [lia | apply u8_byte].
  - destruct (put_sfn_ok last (mksfn fn (si + 1) i ni b0 cf) (byte_at a si)) as (x' & -> & X' & E); [split; auto | exact Ni | lia|].
    cbn [rbind]. eexists. split; [reflexivity|]. split; [exact X' | rewrite E; cbn; lia].
Qed.

Lemma sfn_loop_ok last a b di : in_buf a b -> 0 <= di <= zlen a -> forall n x, sfn_ok last x -> 0 <= s_si x <= zlen a ->
  zlen a - s_si x < Z.of_nat n -> exists x', sfn_loop n b di x = Ok x' /\ sfn_ok last x'.
Proof.
  intros B Hd. induction n as [|n IH]; intros x X Hs Hn; [lia|]. cbn [sfn_loop].
  destruct (sfn_turn_ok last a b di x B Hd X Hs) as (r & -> & R). cbn [rbind]. destruct r as [x'|x'].
  - destruct R as [X' H]. apply IH; [exact X' | lia | lia].
  - now exists x'.
Qed.

Lemma case_flags_ok last b cf : flag_ok last cf -> flag_ok last (case_flags b cf).
Proof.
  intros H. unfold case_flags.
  assert (forall m, m = NS_LFN \/ m = NS_EXT \/ m = NS_BODY -> forall cf, flag_ok last cf -> flag_ok last (Z.lor cf m)) as L.
  { intros m Hm cf0 H0. apply flag_lor; [exact H0|]. destruct Hm as [-> | [-> | ->]]; cbn; auto. }
  destruct (_ || _); destruct (Z.land _ NS_LFN =? 0); try destruct (_ =? 1); try destruct (_ =? 4); auto 6.
Qed.

(** What create_name makes of a path. *)
Definition made_of (p : list Z) : list Z := rtrim (map uni (segment p)).

Definition nameable (p : list Z) : bool :=
  (zlen (segment p) <=? FF_MAX_LFN) && forallb legal (segment p) && negb (zlen (made_of p) =? 0).

Lemma segment_wname p : bytes p -> wname (map uni (segment p)).
Proof.
  intros B. unfold wname. rewrite Forall_map. induction p as [|c p IH]; [constructor|]. apply Forall_cons_iff in B as [Bc B].
  cbn [segment]. destruct (Z.ltb_spec c 32); [constructor|]. destruct (is_sep c); [constructor|]. cbn [orb].
  constructor; [apply uni_ok; in_range | now apply IH].
Qed.

Lemma blank_fn : zlen (repeat 32 11 ++ [0]) = 12 /\ bytes (repeat 32 11 ++ [0]).
Proof. split; [reflexivity|]. repeat (apply Forall_cons; [in_range|]). apply Forall_nil. Qed.

Lemma blank_fn_ok : fn_ok (repeat 32 11 ++ [0]).
Proof.
  split; [exact blank_fn|]. intros k Hk. unfold byte_at. rewrite app_nth1 by (rewrite repeat_length; lia).
  rewrite nth_repeat_lt by lia. lia.
Qed.

(** The short name that create_name makes: what may stand in an entry. *)
Definition short_ok (last : bool) (fn : list Z) : Prop := fn_ok fn /\ byte_at fn 0 <> DDEM /\ flag_ok last (byte_at fn 11).

Lemma short_name_ok last a b cf : in_buf a b -> 0 < zlen a -> flag_ok last cf ->
  exists fn, short_name b (zlen a) cf = Ok fn /\ short_ok last fn.
Proof.
  intros B La C. pose proof B as (LB & _ & L & _). unfold FF_MAX_LFN in L. unfold short_name.
  destruct (strip_ok a b B 257 0) as (si & -> & Hsi); [lia | lia | lia|]. cbn [rbind].
  destruct (find_ext_ok b LB 257 (zlen a)) as (di & -> & Hdi); [lia | lia|]. cbn [rbind].
  assert (flag_ok last (if 0 <? si then Z.lor cf LOSSY else cf)) as C1
    by (destruct (0 <? si); [apply flag_lor; [exact C | cbn; auto] | exact C]).
  set (cf1 := if 0 <? si then _ else _) in *.
  destruct (sfn_loop_ok last a b di B Hdi 258 (mksfn (repeat 32 11 ++ [0]) si 0 8 0 cf1)) as (x & -> & X);
    [split; cbn [s_fn s_i s_ni s_b s_cf]; [exact blank_fn_ok | lia | in_range | exact C1] | cbn [s_si]; lia | cbn [s_si]; lia|].
  cbn [rbind]. destruct x as [fn si' i ni b0 cf']. destruct X as [F _ _ Cf]. cbn [s_fn s_cf] in *.
  rewrite byte_at_get by (pose proof (proj1 (proj1 F)) as X; unfold zlen in X; lia). cbn [rbind].
  assert (exists fn', (if byte_at fn 0 =? DDEM then array_set fn 0 RDDEM else Ok fn) = Ok fn' /\ fn_ok fn' /\ byte_at fn' 0 <> DDEM)
    as (fn' & -> & F' & N').
  { destruct (Z.eqb_spec (byte_at fn 0) DDEM) as [E|E]; [|exists fn; auto]. rewrite (put_fn fn 0 RDDEM F) by lia.
    eexists. split; [reflexivity|]. split; [apply set_fn; [exact F | lia | unfold RDDEM; in_range | reflexivity]|].
    destruct F as [[Lf _] _]. unfold zlen in Lf. rewrite byte_at_set by lia. discriminate. }
  cbn [rbind]. set (b1 := if ni =? 8 then _ else _). pose proof (case_flags_ok last b1 cf' Cf) as FL.
  rewrite (put_fn fn' 11 _ F') by lia. eexists. split; [reflexivity|].
  assert (is_byte (case_flags b1 cf')) as Cb by (destruct FL; in_range).
  split; [apply set_fn; auto; lia|]. destruct F' as [[Lf _] _]. unfold zlen in Lf. rewrite !byte_at_set by lia.
  split; [exact N' | exact FL].
Qed.

(** The short name depends on the name alone, not on the rest of the buffer. *)
Lemma buf_same a b b2 k : in_buf a b -> in_buf a b2 -> 0 <= k <= zlen a -> array_get b2 k = array_get b k.
Proof.
  intros B B2 Hk. pose proof B as (LB & _ & L & _). pose proof B2 as (LB2 & _). unfold FF_MAX_LFN in L.
  rewrite (proj1 (buf_at b k LB ltac:(lia))), (proj1 (buf_at b2 k LB2 ltac:(lia))). now rewrite (in_buf_at a b k B Hk), (in_buf_at a b2 k B2 Hk).
Qed.

Lemma strip_same a b b2 : in_buf a b -> in_buf a b2 -> forall n si, 0 <= si <= zlen a -> strip n b2 si = strip n b si.
Proof.
  intros B B2. induction n as [|n IH]; intros si Hs; [reflexivity|]. cbn [strip]. rewrite (buf_same a b b2 si B B2 Hs).
  destruct (Z.eq_dec si (zlen a)) as [->|N]; [|destruct (array_get b si); [|reflexivity]; cbn [rbind]; destruct (_ || _); [apply IH; lia | reflexivity]].
  pose proof B as (LB & _ & L & _). unfold FF_MAX_LFN in L. rewrite (proj1 (buf_at b (zlen a) LB ltac:(lia))). cbn [rbind].
  rewrite (in_buf_at a b (zlen a) B) by lia. now rewrite Z.ltb_irrefl.
Qed.

Lemma find_ext_same a b b2 : in_buf a b -> in_buf a b2 -> forall n di, 0 <= di <= zlen a -> find_ext n b2 di = find_ext n b di.
Proof.
  intros B B2. induction n as [|n IH]; intros di Hd; [reflexivity|]. cbn [find_ext]. destruct (Z.ltb_spec 0 di); [|reflexivity].
  rewrite (buf_same a b b2 (di - 1) B B2) by lia. destruct (array_get b (di - 1)); [|reflexivity]. cbn [rbind].
  destruct (_ =? 46); [reflexivity | apply IH; lia].
Qed.

Lemma sfn_loop_same last a b b2 di : in_buf a b -> in_buf a b2 -> 0 <= di <= zlen a -> forall n x, sfn_ok last x -> 0 <= s_si x <= zlen a ->
  sfn_loop n b2 di x = sfn_loop n b di x.
Proof.
  intros B B2 Hd. induction n as [|n IH]; intros x X Hs; [reflexivity|]. cbn [sfn_loop].
  assert (sfn_turn b2 di x = sfn_turn b di x) as -> by (destruct x; unfold sfn_turn; cbn in Hs; now rewrite (buf_same a b b2 s_si0 B B2 Hs)).
  destruct (sfn_turn_ok last a b di x B Hd X Hs) as (r & -> & R). cbn [rbind]. destruct r as [x'|x']; [|reflexivity].
  apply IH; [apply R | lia].
Qed.

Lemma short_name_same last a b b2 cf : in_buf a b -> in_buf a b2 -> flag_ok last cf -> short_name b2 (zlen a) cf = short_name b (zlen a) cf.
Proof.
  intros B B2 C. pose proof B as (LB & _ & L & _). unfold FF_MAX_LFN in L. unfold short_name. assert (0 <= zlen a) by (unfold zlen; lia).
  rewrite (strip_same a b b2 B B2) by lia. destruct (strip_ok a b B 257 0) as (si & -> & Hsi); [lia | lia | lia|]. cbn [rbind].
  rewrite (find_ext_same a b b2 B B2) by lia. destruct (find_ext_ok b LB 257 (zlen a)) as (di & -> & Hdi); [lia | lia|]. cbn [rbind].
  rewrite (sfn_loop_same last a b b2 di B B2 Hdi); [reflexivity | | cbn [s_si]; lia].
  split; cbn [s_fn s_i s_ni s_b s_cf]; [exact blank_fn_ok | lia | in_range |].
  destruct (0 <? si); [apply flag_lor; [exact C | cbn; auto] | exact C].
Qed.

Lemma first_flags (last : bool) : flag_ok last (if last then NS_LAST else 0).
Proof. destruct last; (split; [unfold NS_LAST; lia | split; [reflexivity | discriminate]]). Qed.

(** create_name ends without a fault, whatever the path; when it makes a name,
    the buffer holds the segment's characters in Unicode without the spaces and
    dots at its end. *)
Lemma create_name_ok p b : is_path p -> lfn_buf b ->
  exists r, create_name p b = Ok r /\
    if nameable p then
      exists b' fn next, r = Some (b', fn, next) /\ in_buf (made_of p) b' /\
        short_ok (byte_at p (zlen (segment p)) <? 32) fn /\ 0 < next <= zlen p /\
        let last := byte_at p (zlen (segment p)) <? 32 in short_name b' (zlen (made_of p)) (if last then NS_LAST else 0) = Ok fn
    else r = None.
Proof.
  intros [Bp Ep] LB. unfold create_name, nameable.
  destruct (lfn_loop_ok p [] [] b (S (length p)) Bp Ep ltac:(lia) LB eq_refl ltac:(discriminate)) as (r & R0 & R).
  change (zlen []) with 0 in *. cbn [app] in R0, R. rewrite R0. cbn [rbind]. rewrite Z.add_0_l in R.
  destruct (_ && forallb _ _) eqn:N; [|subst r; cbn [andb]; now exists None]. cbn [andb].
  destruct R as (b1 & next & w & -> & LB1 & S1 & Hw & Hn). rewrite <- Hw. cbn [app] in *.
  apply andb_prop in N as [N _]. apply Z.leb_le in N.
  assert (zlen (map uni (segment p)) = zlen (segment p)) as Zm by (unfold zlen; now rewrite length_map).
  rewrite <- Zm in *. destruct (snip_ok b1 _ LB1 S1 N 257) as [-> S2]; [unfold zlen, FF_MAX_LFN in *; lia|]. cbn [rbind].
  fold (made_of p) in *. pose proof (rtrim_length (map uni (segment p))) as Lm. fold (made_of p) in Lm.
  pose proof (rtrim_forall _ _ (segment_wname p Bp) : wname (made_of p)) as Wm. unfold FF_MAX_LFN in N.
  destruct (starts_set b1 (made_of p) 0 LB1 S2 ltac:(lia) ltac:(in_range)) as (b2 & -> & LB2 & S3). cbn [rbind].
  destruct (Z.eqb_spec (zlen (made_of p)) 0) as [E0|E0]; cbn [negb]; [now exists None|].
  assert (in_buf (made_of p) b2) as IB.
  { split; [exact LB2|]. split; [exact Wm|]. split; [unfold FF_MAX_LFN; lia|]. unfold starts in S3.
    rewrite length_app in S3. cbn [length] in S3. now rewrite Nat.add_1_r in S3. }
  destruct (short_name_ok (w <? 32) (made_of p) b2 (if w <? 32 then NS_LAST else 0) IB) as (fn & Esn & SO).
  { unfold zlen in *; lia. }
  { apply first_flags. }
  rewrite Esn. cbn [rbind]. eexists. split; [reflexivity|]. exists b2, fn, next. auto 10.
Qed.

(** The same path gives the same short name. *)
Lemma create_name_same p b b2 r r2 : is_path p -> lfn_buf b -> lfn_buf b2 -> create_name p b = Ok (Some r) -> create_name p b2 = Ok (Some r2) ->
  snd (fst r2) = snd (fst r).
Proof.
  intros P LB LB2 E E2. destruct (create_name_ok p b P LB) as (q & Eq & R). destruct (create_name_ok p b2 P LB2) as (q2 & Eq2 & R2).
  rewrite E in Eq. rewrite E2 in Eq2. injection Eq as <-. injection Eq2 as <-. destruct (nameable p); [|discriminate].
  destruct R as (b' & fn & n & Ha & B & _ & _ & S1). destruct R2 as (b2' & fn2 & n2 & Ha2 & B2 & _ & _ & S2). injection Ha as ->. injection Ha2 as ->.
  cbn [fst snd]. cbv zeta in S1, S2. rewrite (short_name_same _ _ _ _ _ B B2 (first_flags _)) in S2. congruence.
Qed.

(** ** Numbered names *)

Lemma lxor_16 a b : 0 <= a < 65536 -> 0 <= b < 65536 -> 0 <= Z.lxor a b < 65536.
Proof.
  intros Ha Hb. assert (0 <= Z.lxor a b) by (apply Z.lxor_nonneg; lia). split; [lia|].
  destruct (Z.eq_dec (Z.lxor a b) 0) as [->|]; [lia|]. change 65536 with (2 ^ 16). apply Z.log2_lt_pow2; [lia|].
  apply Z.le_lt_trans with (Z.max (Z.log2 a) (Z.log2 b)); [apply Z.log2_lxor; lia|]. apply Z.max_lub_lt.
  - destruct (Z.eq_dec a 0) as [->|]; [cbn; lia | apply Z.log2_lt_pow2; lia].
  - destruct (Z.eq_dec b 0) as [->|]; [cbn; lia | apply Z.log2_lt_pow2; lia].
Qed.

Lemma bit_16 x : 0 <= x < 65536 -> Z.testbit x 16 = false.
Proof.
  intros H. rewrite Z.testbit_false by lia. change (2 ^ 16) with 65536. now rewrite Z.div_small.
Qed.

Lemma land_bit_16 x : 0 <= x < 65536 -> Z.land (2 ^ 16) x = 0.
Proof.
  intros H. apply Z.bits_inj'. intros n Hn. rewrite Z.land_spec, Z.bits_0, Z.pow2_bits_eqb by lia.
  destruct (Z.eqb_spec 16 n) as [<-|]; [exact (bit_16 x H) | reflexivity].
Qed.

(** The CRC has 16 bits. *)
Lemma crc_step sr bit : 0 <= sr < 65536 -> 0 <= bit <= 1 -> let v := u32 (Z.shiftl sr 1 + bit) in
  0 <= (if Z.land v 0x10000 =? 0 then v else Z.lxor v 0x11021) < 65536.
Proof.
  intros Hs Hb v. assert (v = 2 * sr + bit) as Ev.
  { subst v. rewrite Z.shiftl_mul_pow2 by lia. unfold u32. rewrite uwrap_small by in_range. lia. }
  assert (0 <= v < 131072) as Rv by lia. clear Ev. destruct (Z_lt_dec v 65536) as [H|H].
  - change 0x10000 with (2 ^ 16). now rewrite Z.land_comm, land_bit_16 by lia.
  - assert (v = Z.lxor (2 ^ 16) (v - 65536)) as E
      by (rewrite <- Z.add_nocarry_lxor; [eval_pow; lia | apply land_bit_16; lia]).
    assert (Z.lxor v 0x11021 = Z.lxor (v - 65536) 0x1021) as ->.
    { rewrite E at 1. change 0x11021 with (Z.lxor (2 ^ 16) 0x1021). rewrite (Z.lxor_comm (2 ^ 16) (v - 65536)), Z.lxor_assoc.
      reflexivity. }
    assert (Z.land v 0x10000 <> 0) as N.
    { intros N. apply (f_equal (fun x => Z.testbit x 16)) in N. rewrite Z.land_spec, E, Z.lxor_spec in N.
      rewrite (bit_16 (v - 65536)) in N by lia. discriminate. }
    rewrite (proj2 (Z.eqb_neq _ _) N). apply lxor_16; lia.
Qed.

Lemma crc_bits_range n : forall sr wc, 0 <= sr < 65536 -> 0 <= crc_bits n sr wc < 65536.
Proof.
  induction n as [|n IH]; intros sr wc H; cbn [crc_bits]; [exact H|]. apply IH. apply crc_step; [exact H|].
  change (Z.land wc 1) with (Z.land wc (Z.ones 1)). rewrite Z.land_ones by lia. change (2 ^ 1) with 2. pose proof (Z.mod_pos_bound wc 2). lia.
Qed.

Lemma crc_lfn_ok a b : in_buf a b -> forall n k sr, 0 <= k <= zlen a -> zlen a < k + Z.of_nat n -> 0 <= sr < 65536 ->
  exists r, crc_lfn n b k sr = Ok r /\ 0 <= r < 65536.
Proof.
  intros B. pose proof B as (LB & _ & L & _). unfold FF_MAX_LFN in L.
  induction n as [|n IH]; intros k sr Hk Hn Hs; [lia|]. cbn [crc_lfn].
  rewrite (proj1 (buf_at b k LB ltac:(lia))). cbn [rbind]. destruct (Z.eqb_spec (byte_at b k) 0) as [E|E].
  - exists sr. auto.
  - apply IH; [|lia | now apply crc_bits_range]. rewrite (in_buf_at a b k B Hk) in E. destruct (Z.ltb_spec k (zlen a)); lia.
Qed.

(** The digits of a 16-bit number take four places at most. *)
Lemma itoa_hex_ok m : forall fuel ns i seq, (m < fuel)%nat -> zlen ns = 8 /\ bytes ns -> 0 <= seq < 16 ^ (Z.of_nat m + 1) ->
  Z.of_nat m < i < 8 -> exists ns' i', itoa_hex fuel ns i seq = Ok (ns', i') /\ zlen ns' = 8 /\ bytes ns' /\
    i - 1 - Z.of_nat m <= i' < i.
Proof.
  induction m as [|m IH]; intros fuel ns i seq Hf [L B] Hs Hi; (destruct fuel as [|fuel]; [lia|]); cbn [itoa_hex].
  all: set (c := if 57 <? _ then _ else _); assert (is_byte c) as Hc by (subst c; destruct (57 <? _); apply u8_byte).
  all: rewrite array_set_ok by (unfold zlen in L; lia); cbn [rbind]; unfold u32; rewrite uwrap_small by in_range.
  all: assert (zlen (list_set (Z.to_nat i) c ns) = 8) as L1 by (unfold zlen in *; now rewrite list_set_length).
  all: pose proof (bytes_set ns (Z.to_nat i) c Hc B) as B1.
  - rewrite Z.add_0_l, Z.pow_1_r in Hs. rewrite Z.div_small by lia. cbn [Z.eqb]. do 2 eexists. split; [reflexivity|]. repeat split; auto; lia.
  - destruct (seq / 16 =? 0); [do 2 eexists; split; [reflexivity|]; repeat split; auto; lia|].
    assert (16 ^ (Z.of_nat (S m) + 1) = 16 * 16 ^ (Z.of_nat m + 1)) as P
      by (rewrite <- Z.pow_succ_r by lia; f_equal; lia).
    destruct (IH fuel (list_set (Z.to_nat i) c ns) (i - 1) (seq / 16)) as (ns' & i' & E & L' & B' & Hi');
      [lia | now split | rewrite P in Hs; split; [apply Z.div_pos; lia | apply Z.div_lt_upper_bound; lia] | lia|].
    exists ns', i'. repeat split; auto; lia.
Qed.

Lemma body_end_ok dst i : zlen dst = 12 -> i <= 8 -> forall n j, 0 <= j <= i -> i < j + Z.of_nat n ->
  exists r, body_end n dst i j = Ok r /\ j <= r <= i.
Proof.
  intros L Hi. induction n as [|n IH]; intros j Hj Hn; [lia|]. cbn [body_end]. destruct (Z.ltb_spec j i) as [H|H].
  - rewrite byte_at_get by (unfold zlen in L; lia). cbn [rbind]. destruct (_ =? 32); [exists j; split; [reflexivity | lia]|].
    destruct (IH (j + 1) ltac:(lia) ltac:(lia)) as (r & -> & R). exists r. split; [reflexivity | lia].
  - exists j. split; [reflexivity | lia].
Qed.

Lemma put_number_ok ns : zlen ns = 8 /\ bytes ns -> forall n dst i j, zlen dst = 12 /\ bytes dst -> 0 <= i -> 0 <= j < 8 ->
  8 <= j + Z.of_nat n -> exists d, put_number n dst ns i j = Ok d /\ zlen d = 12 /\ bytes d /\
    (forall k, 0 <= k < j \/ 8 <= k -> byte_at d k = byte_at dst k) /\
    byte_at d j = (if i <? 8 then byte_at ns i else 32).
Proof.
  intros [Ln Bn]. induction n as [|n IH]; intros dst i j [L B] Hi Hj Hn; [lia|]. cbn [put_number].
  assert (exists c, (if i <? 8 then array_get ns i else Ok 32) = Ok c /\ is_byte c /\ c = if i <? 8 then byte_at ns i else 32)
    as (c & -> & Hc & Ec).
  { destruct (Z.ltb_spec i 8); [|exists 32; repeat split; in_range].
    exists (byte_at ns i). split; [apply byte_at_get; unfold zlen in Ln; lia|]. split; [now apply byte_at_byte | reflexivity]. }
  cbn [rbind]. unfold zlen in *. rewrite array_set_ok by lia. cbn [rbind].
  set (d1 := list_set (Z.to_nat j) c dst).
  assert (Z.of_nat (length d1) = 12 /\ bytes d1) as D1 by (subst d1; rewrite list_set_length; split; [exact L | now apply bytes_set]).
  assert (forall k, 0 <= k -> byte_at d1 k = if k =? j then c else byte_at dst k) as G1 by (intros k Hk; apply byte_at_set; lia).
  destruct (Z.ltb_spec (j + 1) 8) as [H|H].
  - destruct (IH d1 (if i <? 8 then i + 1 else i) (j + 1) D1) as (d & E & Ld & Bd & K & _); [destruct (i <? 8); lia | lia | lia|].
    exists d. split; [exact E|]. split; [exact Ld|]. split; [exact Bd|]. split.
    + intros k Hk. rewrite K by lia. rewrite G1 by lia. now rewrite (proj2 (Z.eqb_neq k j)) by lia.
    + rewrite K, G1, Z.eqb_refl by lia. exact Ec.
  - exists d1. split; [reflexivity|]. destruct D1 as [L1 B1]. split; [exact L1|]. split; [exact B1|]. split.
    + intros k Hk. rewrite G1 by lia. now rewrite (proj2 (Z.eqb_neq k j)) by lia.
    + rewrite G1, Z.eqb_refl by lia. exact Ec.
Qed.

(** A numbered name is the start of the body, a tilde and the number; the
    extension and the flags stay.  The number never leaves its 8 bytes. *)
Lemma gen_numname_ok a b dst src seq : in_buf a b -> zlen dst = 12 /\ bytes dst -> zlen src = 12 /\ bytes src -> 0 < seq < 100 ->
  exists d, gen_numname dst src b seq = Ok d /\ zlen d = 12 /\ bytes d /\
    (forall k, 8 <= k < 11 -> byte_at d k = byte_at src k) /\ byte_at d 11 = byte_at dst 11 /\
    exists j, 0 <= j <= 6 /\ byte_at d j = 126 /\ forall k, 0 <= k < j -> byte_at d k = byte_at src k.
Proof.
  intros B F0 F1 Hs. pose proof B as ([Lb _] & _ & L & _). unfold FF_MAX_LFN in L. unfold gen_numname.
  destruct (mem_cpy_ok dst 0 src 11) as (d0 & -> & L0 & B0 & K0); [lia | lia | unfold zlen in F0; lia | unfold zlen in F1; lia |].
  assert (zlen d0 = 12 /\ bytes d0) as F by (unfold zlen in *; rewrite L0; split; [apply F0 | apply B0; [apply F0 | apply F1]]).
  cbn [rbind].
  assert (exists v, (if 5 <? seq then crc_lfn (S (length b)) b 0 seq else Ok seq) = Ok v /\ 0 <= v < 65536) as (v & -> & Hv).
  { destruct (5 <? seq); [apply (crc_lfn_ok a b B); unfold zlen in *; lia | exists seq; split; [reflexivity | lia]]. }
  cbn [rbind]. assert (zlen (repeat 0 8) = 8 /\ bytes (repeat 0 8)) as N0
    by (split; [reflexivity | repeat (apply Forall_cons; [in_range|]); apply Forall_nil]).
  destruct (itoa_hex_ok 3 9 (repeat 0 8) 7 v ltac:(lia) N0) as (ns & i & -> & Ln & Bn & Hi); [exact Hv | lia|]. cbn [rbind].
  change (Z.of_nat 3) with 3 in Hi. unfold zlen in Ln. rewrite array_set_ok by lia. cbn [rbind].
  destruct (body_end_ok d0 i (proj1 F) ltac:(lia) 9 0) as (j & -> & Hj); [lia | lia|]. cbn [rbind].
  destruct (put_number_ok (list_set (Z.to_nat i) 126 ns)) with (n := 9%nat) (dst := d0) (i := i) (j := j)
    as (d & -> & Ld & Bd & K & T); try lia.
  { unfold zlen. rewrite list_set_length. split; [exact Ln | apply bytes_set; [in_range | exact Bn]]. }
  { exact F. }
  exists d. split; [reflexivity|]. split; [exact Ld|]. split; [exact Bd|].
  split; [intros k Hk; rewrite K, K0, Z.sub_0_r by lia; now rewrite (proj2 (Z.leb_le 0 k)), (proj2 (Z.ltb_lt k _)) by lia|].
  split; [rewrite K, K0 by lia; reflexivity|]. exists j. split; [lia|].
  split; [|intros k Hk; rewrite K, K0, Z.sub_0_r by lia; now rewrite (proj2 (Z.leb_le 0 k)), (proj2 (Z.ltb_lt k _)) by lia].
  rewrite T, (proj2 (Z.ltb_lt i 8)) by lia. rewrite byte_at_set by lia. now rewrite Z.eqb_refl.
Qed.
