(* ===== verification/FatDir.v ===== *)
(** * ext/fatfs/src/ff.c: directories

    A directory is a table of entries of 32 bytes, in the fixed area of a FAT12
    or FAT16 root or in a chain of clusters.  This file models the walk over it
    (dir_sdi, dir_next), its growth (dir_clear, dir_alloc), the search for a name
    and the registration of one on a FAT volume (dir_find, dir_register), and
    proves what the walk and the search do: the search finds the first object
    whose long name is the name sought up to case, or whose short name is. *)

From Stdlib Require Import ZArith Bool String List Lia.
From Stdlib Require Import Classes.RelationClasses.
From S2P Require Import Prelude FatVol FatTable FatBitmap FatChain FatFile FatWrite FatUnicode FatName.
Import ListNotations.
Local Open Scope Z_scope.
Local Open Scope fw_scope.

(** Does ff_memalloc, a function of the operating system, find room for a
    buffer, after so many calls of the disk layer. *)
Class FfHeap : Type := { ff_memalloc : nat -> Z -> bool }.

Record DIR : Type := mkDIR {
  d_obj : FFOBJID;
  dptr : Z;
  d_clust : Z;
  d_sect : Z;
  d_dir : Z;          (* dir - fs->win *)
  d_fn : list Z;
  blk_ofs : Z
}.

Definition set_d_obj (x : FFOBJID) (d : DIR) : DIR :=
  mkDIR x (dptr d) (d_clust d) (d_sect d) (d_dir d) (d_fn d) (blk_ofs d).

Definition set_dptr (x : Z) (d : DIR) : DIR :=
  mkDIR (d_obj d) x (d_clust d) (d_sect d) (d_dir d) (d_fn d) (blk_ofs d).

Definition set_d_clust (x : Z) (d : DIR) : DIR :=
  mkDIR (d_obj d) (dptr d) x (d_sect d) (d_dir d) (d_fn d) (blk_ofs d).

Definition set_d_sect (x : Z) (d : DIR) : DIR :=
  mkDIR (d_obj d) (dptr d) (d_clust d) x (d_dir d) (d_fn d) (blk_ofs d).

Definition set_d_dir (x : Z) (d : DIR) : DIR :=
  mkDIR (d_obj d) (dptr d) (d_clust d) (d_sect d) x (d_fn d) (blk_ofs d).

Definition set_d_fn (x : list Z) (d : DIR) : DIR :=
  mkDIR (d_obj d) (dptr d) (d_clust d) (d_sect d) (d_dir d) x (blk_ofs d).

Definition set_blk_ofs (x : Z) (d : DIR) : DIR :=
  mkDIR (d_obj d) (dptr d) (d_clust d) (d_sect d) (d_dir d) (d_fn d) x.

Definition set_attr (x : Z) (o : FFOBJID) : FFOBJID :=
  mkFFOBJID (o_fs o) (o_id o) x (stat o) (sclust o) (objsize o) (n_cont o) (n_frag o).

Definition SZDIRE : Z := 32.

Definition MAX_DIR : Z := 0x200000.

Definition MAX_DIR_EX : Z := 0x10000000.

Definition max_dir (g : Layout) : Z := if fs_type g =? FS_EXFAT then MAX_DIR_EX else MAX_DIR.

Section Dir.
Context `{D : DiskIo} {HP : FfHeap}.

(** ** Walking *)

(** The loop of dir_sdi: the cluster of the offset and what is left of it. *)
Definition sdi_follow (ob : FFOBJID) (g : Layout) (clst ofs : Z) : F (FRESULT + Z * Z) :=
  let csz := u32 (csize g * SS) in
  iter (S (Z.to_nat (ofs / csz))) (fun x : Z * Z =>
    let (clst, ofs) := x in
    if csz <=? ofs then
      clst <- get_fat ob clst ;;
      if clst =? 0xFFFFFFFF then ret (inr (inl FR_DISK_ERR))
      else if (clst <? 2) || (n_fatent g <=? clst) then ret (inr (inl FR_INT_ERR))
      else ret (inl (clst, ofs - csz))
    else ret (inr (inr (clst, ofs)))) (clst, ofs).

Definition dir_sdi (dp : DIR) (ofs : Z) : F (FRESULT * DIR) :=
  g <- gets (fun s => layout (fs s)) ;;
  if (max_dir g <=? ofs) || negb (ofs mod SZDIRE =? 0) then ret (FR_INT_ERR, dp)
  else
    let dp := set_dptr ofs dp in
    let clst := sclust (d_obj dp) in
    let '(clst, dp) :=
      if (clst =? 0) && (FS_FAT32 <=? fs_type g) then (dirbase g, set_d_obj (set_stat 0 (d_obj dp)) dp) else (clst, dp) in
    r <- (if clst =? 0 then
            ret (if n_rootdir g <=? ofs / SZDIRE then inl FR_INT_ERR else inr (clst, ofs, dirbase g))
          else
            r <- sdi_follow (d_obj dp) g clst ofs ;;
            match r with
            | inl e => ret (inl e)
            | inr (clst, ofs) => sc <- clst2sect clst ;; ret (inr (clst, ofs, sc))
            end) ;;
    match r with
    | inl e => ret (e, dp)
    | inr (clst, ofs, sc) =>
        let dp := set_d_clust clst (set_d_sect sc dp) in
        if sc =? 0 then ret (FR_INT_ERR, dp)
        else ret (FR_OK, set_d_dir (ofs mod SS) (set_d_sect (u32 (sc + ofs / SS)) dp))
    end.

(** The size of the buffer dir_clear gets: the largest power of two it can. *)
Fixpoint clear_size (fuel : nat) (calls : nat) (szb : Z) : result Z :=
  match fuel with
  | O => Err OutOfFuel
  | S n => if (SS <? szb) && negb (ff_memalloc calls szb) then clear_size n calls (szb / 2) else Ok szb
  end.

(** The loop over the sectors of the cluster: how far it came. *)
Definition clear_loop (g : Layout) (ibuf : list Z) (sc szb : Z) : F Z :=
  iter (S (Z.to_nat (csize g))) (fun n =>
    if n <? csize g then
      ok <- disk_write ibuf (u32 (sc + n)) szb ;;
      ret (if ok : bool then inl (n + szb) else inr n)
    else ret (inr n)) 0.

Definition dir_clear (clst : Z) : F FRESULT :=
  res <- sync_window ;;
  match res with
  | FR_OK =>
      g <- gets (fun s => layout (fs s)) ;;
      sc <- clst2sect clst ;;
      upd_fs (set_winsect sc) ;;
      upd_fs (set_win (repeat 0 (Z.to_nat SS))) ;;
      k <- gets calls ;;
      szb <- lift (clear_size 8 k (if 0x8000 <=? u32 (csize g * SS) then 0x8000 else csize g * SS)) ;;
      n <- (if SS <? szb then clear_loop g (repeat 0 (Z.to_nat szb)) sc (szb / SS)
            else w <- gets (fun s => win (fs s)) ;; clear_loop g w sc 1) ;;
      ret (if n =? csize g then FR_OK else FR_DISK_ERR)
  | _ => ret FR_DISK_ERR
  end.

(** dir_next at the end of a cluster. *)
Definition next_cluster (g : Layout) (dp : DIR) (stretch : bool) : F (FRESULT * DIR) :=
  clst <- get_fat (d_obj dp) (d_clust dp) ;;
  if clst <=? 1 then ret (FR_INT_ERR, dp)
  else if clst =? 0xFFFFFFFF then ret (FR_DISK_ERR, dp)
  else
    r <- (if n_fatent g <=? clst then
            if negb stretch then ret (inl (FR_NO_FILE, set_d_sect 0 dp))
            else
              '(clst, ob) <- create_chain (d_obj dp) (d_clust dp) ;;
              let dp := set_d_obj ob dp in
              if clst =? 0 then ret (inl (FR_DENIED, dp))
              else if clst =? 1 then ret (inl (FR_INT_ERR, dp))
              else if clst =? 0xFFFFFFFF then ret (inl (FR_DISK_ERR, dp))
              else
                res <- dir_clear clst ;;
                ret (if fr_ok res then inr (clst, set_d_obj (set_stat (Z.lor (stat (d_obj dp)) 4) (d_obj dp)) dp)
                     else inl (FR_DISK_ERR, dp))
          else ret (inr (clst, dp))) ;;
    match r with
    | inl e => ret e
    | inr (clst, dp) => sc <- clst2sect clst ;; ret (FR_OK, set_d_sect sc (set_d_clust clst dp))
    end.

(** dir_next at the end of a sector. *)
Definition next_sector (g : Layout) (dp : DIR) (ofs : Z) (stretch : bool) : F (FRESULT * DIR) :=
  let dp := set_d_sect (u32 (d_sect dp + 1)) dp in
  if d_clust dp =? 0 then
    if n_rootdir g <=? ofs / SZDIRE then ret (FR_NO_FILE, set_d_sect 0 dp) else ret (FR_OK, dp)
  else if Z.land (ofs / SS) (csize g - 1) =? 0 then next_cluster g dp stretch
  else ret (FR_OK, dp).

Definition dir_next (dp : DIR) (stretch : bool) : F (FRESULT * DIR) :=
  g <- gets (fun s => layout (fs s)) ;;
  let ofs := u32 (dptr dp + SZDIRE) in
  if (d_sect dp =? 0) || (max_dir g <=? ofs) then ret (FR_NO_FILE, dp)
  else
    '(res, dp) <- (if ofs mod SS =? 0 then next_sector g dp ofs stretch else ret (FR_OK, dp)) ;;
    ret (res, if fr_ok res then set_d_dir (ofs mod SS) (set_dptr ofs dp) else dp).

(** The most entries a table has: the turns of a loop over it. *)
Definition walk_fuel (g : Layout) : nat := S (Z.to_nat (max_dir g / SZDIRE)).

(** One turn of dir_alloc; [n] free entries end before the current one. *)
Definition alloc_turn (nent : Z) (x : DIR * Z) : F (DIR * Z + FRESULT * DIR) :=
  let (dp, n) := x in
  res <- move_window (d_sect dp) ;;
  if negb (fr_ok res) then ret (inr (res, dp))
  else
    f <- gets fs ;;
    c <- lift (array_get (win f) (d_dir dp)) ;;
    let free := if fs_type (layout f) =? FS_EXFAT then Z.land c 0x80 =? 0 else (c =? DDEM) || (c =? 0) in
    let n := if free then n + 1 else 0 in
    if free && (n =? nent) then ret (inr (FR_OK, dp))
    else
      '(res, dp) <- dir_next dp true ;;
      ret (if fr_ok res then inl (dp, n) else inr (res, dp)).

Definition dir_alloc (dp : DIR) (nent : Z) : F (FRESULT * DIR) :=
  g <- gets (fun s => layout (fs s)) ;;
  '(res, dp) <- dir_sdi dp 0 ;;
  '(res, dp) <- (if fr_ok res then iter (walk_fuel g) (alloc_turn nent) (dp, 0) else ret (res, dp)) ;;
  ret (match res with FR_NO_FILE => FR_DENIED | r => r end, dp).

(** ** Searching *)

(** What dir_find does with the entry in the window: inr when it is the one
    sought. *)
Definition find_entry (lfnbuf : list Z) (w : list Z) (dp : DIR) (ord sum : Z) : result (DIR * Z * Z + DIR) :=
  let o := d_dir dp in
  let reset dp := inl (set_blk_ofs 0xFFFFFFFF dp, 0xFF, sum) in
  c <=! array_get w o ;;
  a <=! array_get w (o + 11) ;;
  let a := Z.land a AM_MASK in
  let dp := set_d_obj (set_attr a (d_obj dp)) dp in
  if (c =? DDEM) || (negb (Z.land a AM_VOL =? 0) && negb (a =? AM_LFN)) then Ok (reset dp)
  else if a =? AM_LFN then
    fl <=! array_get (d_fn dp) 11 ;;
    if Z.land fl NS_NOLFN =? 0 then
      ck <=! array_get w (o + 13) ;;
      let '(c, ord, sum, dp) :=
        if negb (Z.land c LLEF =? 0) then (Z.land c 0xBF, Z.land c 0xBF, ck, set_blk_ofs (dptr dp) dp)
        else (c, ord, sum, dp) in
      ok <=! (if (c =? ord) && (sum =? ck) then cmp_lfn lfnbuf w o else Ok false) ;;
      Ok (inl (dp, if ok : bool then u8 (ord - 1) else 0xFF, sum))
    else Ok (inl (dp, ord, sum))
  else
    hit <=! (if ord =? 0 then k <=! sum_sfn w o ;; Ok (sum =? k) else Ok false) ;;
    if hit : bool then Ok (inr dp)
    else
      fl <=! array_get (d_fn dp) 11 ;;
      if (Z.land fl NS_LOSS =? 0) && forallb (fun k => byte_at w (o + k) =? byte_at (d_fn dp) k) (zseq 0 11)
      then Ok (inr dp)
      else Ok (reset dp).

(** One turn of the loop of dir_find on a FAT volume. *)
Definition find_turn (lfnbuf : list Z) (x : DIR * Z * Z) : F (DIR * Z * Z + FRESULT * DIR) :=
  let '(dp, ord, sum) := x in
  res <- move_window (d_sect dp) ;;
  if negb (fr_ok res) then ret (inr (res, dp))
  else
    w <- gets (fun s => win (fs s)) ;;
    c <- lift (array_get w (d_dir dp)) ;;
    if c =? 0 then ret (inr (FR_NO_FILE, dp))
    else
      r <- lift (find_entry lfnbuf w dp ord sum) ;;
      match r with
      | inr dp => ret (inr (FR_OK, dp))
      | inl (dp, ord, sum) =>
          '(res, dp) <- dir_next dp false ;;
          ret (if fr_ok res then inl (dp, ord, sum) else inr (res, dp))
      end.

(** dir_find on a FAT volume. *)
Definition dir_find_fat (lfnbuf : list Z) (dp : DIR) : F (FRESULT * DIR) :=
  g <- gets (fun s => layout (fs s)) ;;
  '(res, dp) <- dir_sdi dp 0 ;;
  if fr_ok res then iter (walk_fuel g) (find_turn lfnbuf) (set_blk_ofs 0xFFFFFFFF dp, 0xFF, 0xFF)
  else ret (res, dp).

(** ** Registering *)

(** [for (nlen = 0; fs->lfnbuf[nlen]; nlen++) ;] *)
Fixpoint lfn_length (fuel : nat) (lfnbuf : list Z) (n : Z) : result Z :=
  match fuel with
  | O => Err OutOfFuel
  | S k => c <=! array_get lfnbuf n ;; if c =? 0 then Ok n else lfn_length k lfnbuf (n + 1)
  end.

(** The search for a numbered name that is free: [n] is the next number. *)
Definition number_turn (lfnbuf sn : list Z) (x : DIR * Z) : F (DIR * Z + FRESULT * DIR) :=
  let (dp, n) := x in
  if n <? 100 then
    fn <- lift (gen_numname (d_fn dp) sn lfnbuf n) ;;
    '(res, dp) <- dir_find_fat lfnbuf (set_d_fn fn dp) ;;
    ret (if fr_ok res then inl (dp, n + 1) else inr (res, dp))
  else ret (inr (FR_OK, dp)).

(** The long name: pieces [nent], ..., 1 in the entries that follow. *)
Definition put_pieces_turn (lfnbuf : list Z) (sum : Z) (x : DIR * Z) : F (DIR * Z + FRESULT * DIR) :=
  let (dp, nent) := x in
  res <- move_window (d_sect dp) ;;
  if negb (fr_ok res) then ret (inr (res, dp))
  else
    w <- gets (fun s => win (fs s)) ;;
    w <- lift (put_lfn lfnbuf w (d_dir dp) (u8 nent) sum) ;;
    put_win w ;;
    '(res, dp) <- dir_next dp false ;;
    ret (if fr_ok res && negb (nent - 1 =? 0) then inl (dp, nent - 1) else inr (res, dp)).

(** The entry with the short name: zeros, the name and the case flags. *)
Definition sfn_entry (w : list Z) (o : Z) (fn : list Z) : result (list Z) :=
  f <=! array_get fn 11 ;;
  w <=! mem_cpy w o (repeat 0 32) 32 ;;
  w <=! mem_cpy w o fn 11 ;;
  array_set w (o + 12) (Z.land f (Z.lor NS_BODY NS_EXT)).

(** The choice of a short name when the long one does not fit; inr is a return. *)
Definition choose_sfn (lfnbuf : list Z) (dp : DIR) (flags : Z) : F (DIR + FRESULT * DIR) :=
  let sn := d_fn dp in
  fn <- lift (array_set (d_fn dp) 11 NS_NOLFN) ;;
  '(res, dp) <- iter 100 (number_turn lfnbuf sn) (set_d_fn fn dp, 1) ;;
  match res with
  | FR_OK => ret (inr (FR_DENIED, dp))
  | FR_NO_FILE => fn <- lift (array_set (d_fn dp) 11 flags) ;; ret (inl (set_d_fn fn dp))
  | e => ret (inr (e, dp))
  end.

(** The entries of the long name, before those of the short one. *)
Definition put_pieces (lfnbuf : list Z) (dp : DIR) (nent : Z) : F (FRESULT * DIR) :=
  '(res, dp) <- dir_sdi dp (u32 (dptr dp - nent * SZDIRE)) ;;
  if fr_ok res then
    sum <- lift (sum_sfn (d_fn dp) 0) ;;
    iter 21 (put_pieces_turn lfnbuf sum) (dp, nent)
  else ret (res, dp).

(** dir_register on a FAT volume. *)
Definition dir_register_fat (lfnbuf : list Z) (dp : DIR) : F (FRESULT * DIR) :=
  flags <- lift (array_get (d_fn dp) 11) ;;
  if negb (Z.land flags (Z.lor NS_DOT NS_NONAME) =? 0) then ret (FR_INVALID_NAME, dp)
  else
    nlen <- lift (lfn_length 257 lfnbuf 0) ;;
    r <- (if Z.land flags NS_LOSS =? 0 then ret (inl dp) else choose_sfn lfnbuf dp flags) ;;
    match r with
    | inr l => ret l
    | inl dp =>
        let nent := if Z.land flags NS_LFN =? 0 then 1 else (nlen + 12) / 13 + 1 in
        '(res, dp) <- dir_alloc dp nent ;;
        '(res, dp) <- (if fr_ok res && negb (nent - 1 =? 0) then put_pieces lfnbuf dp (nent - 1) else ret (res, dp)) ;;
        if fr_ok res then
          res <- move_window (d_sect dp) ;;
          if negb (fr_ok res) then ret (res, dp)
          else
            w <- gets (fun s => win (fs s)) ;;
            w <- lift (sfn_entry w (d_dir dp) (d_fn dp)) ;;
            put_win w ;;
            ret (FR_OK, dp)
        else ret (res, dp)
    end.

End Dir.

(** ** The entries of a directory *)

(** Sector [k] of the table: of the root of a FAT12 or FAT16 volume, or of the
    chain [l]. *)
Definition tab_sect (g : Layout) (l : list Z) (k : Z) : Z :=
  match l with
  | [] => dirbase g + k
  | _ => file_sect g l k
  end.

Definition tab_sects (g : Layout) (l : list Z) : Z :=
  match l with
  | [] => n_rootdir g / 16
  | _ => room g l
  end.

(** The number of entries the walk comes to. *)
Definition entries (g : Layout) (l : list Z) : Z := Z.min (16 * tab_sects g l) 65536.

Record table (s : vol) (ob : FFOBJID) (l : list Z) : Prop := {
  tb_vol : vol_ok s;
  tb_type : fs_type (lay s) <> FS_EXFAT;
  tb_place : match l with
    | [] => sclust ob = 0 /\ fs_type (lay s) <> FS_FAT32 /\ 0 < n_rootdir (lay s) /\ n_rootdir (lay s) mod 16 = 0 /\
            fatbase (lay s) + n_fats (lay s) * fsize (lay s) <= dirbase (lay s) /\
            dirbase (lay s) + n_rootdir (lay s) / 16 <= database (lay s)
    | c :: _ => chain (lay s) (fat_entry s) l /\ c = (if sclust ob =? 0 then dirbase (lay s) else sclust ob) /\
                (sclust ob = 0 -> fs_type (lay s) = FS_FAT32)
    end
}.

(** The object stands on entry [i]. *)
Record stands (g : Layout) (l : list Z) (i : Z) (dp : DIR) : Prop := {
  st_range : 0 <= i < entries g l;
  st_dptr : dptr dp = SZDIRE * i;
  st_clust : d_clust dp = match l with [] => 0 | _ => nth_clust l (i / 16 / csize g) end;
  st_sect : d_sect dp = tab_sect g l (i / 16);
  st_dir : d_dir dp = SZDIRE * (i mod 16)
}.

Lemma disk_entry s s' c : vol_ok s -> same_disk s s' -> cluster (lay s) c -> fat_entry s' c = fat_entry s c.
Proof.
  intros V S Hc. apply same_bytes_entry; [exact V | apply S | exact Hc |]. intros k Hk. unfold fat_byte.
  rewrite (ev_layout _ _ _ S). f_equal. apply (ev_view _ _ _ S). apply fat_sector_visible; [apply V|].
  unfold in_table, SS in *. dlia.
Qed.

Lemma table_same s s' ob l : table s ob l -> vol_ok s' -> same_disk s s' -> table s' ob l.
Proof.
  intros [V T P] V' S. pose proof (ev_layout _ _ _ S) as L. constructor; [exact V' | now rewrite L |]. rewrite L.
  destruct l as [|c l]; [exact P|]. destruct P as (C & P). split; [|exact P]. apply (chain_ext _ (fat_entry s)); [|exact C].
  intros x Hx. symmetry. apply disk_entry; [exact V | exact S | now apply (chain_clusters _ _ _ C)].
Qed.

Lemma table_obj s ob ob' l : sclust ob' = sclust ob -> table s ob l -> table s ob' l.
Proof. intros E [V T P]. constructor; [exact V | exact T | now rewrite E]. Qed.

(** The sectors of a table are sectors that matter. *)
Lemma tab_sect_ok s ob l k : table s ob l -> 0 <= k < tab_sects (lay s) l ->
  visible (lay s) (tab_sect (lay s) l k) /\ 0 < tab_sect (lay s) l k < 0xFFFFFFFF.
Proof.
  intros [V T P] Hk. pose proof (vo_layout s V) as LO. destruct l as [|c l]; cbn [tab_sect tab_sects] in *.
  - destruct P as (_ & N & H0 & _ & H1 & H2). pose proof (layout_order _ LO). pose proof (lo_base _ LO).
    unfold visible. repeat split; lia || tauto.
  - destruct P as (C & _). split; [|exact (file_sect_pos _ LO _ _ _ C Hk)].
    destruct (file_sect_in _ LO _ _ _ C Hk) as (Hc & _ & I). now apply (cluster_visible _ LO _ _ Hc I).
Qed.

Lemma stands_sect s ob l i dp : table s ob l -> stands (lay s) l i dp ->
  0 <= i / 16 < tab_sects (lay s) l /\ visible (lay s) (d_sect dp) /\ 0 < d_sect dp < 0xFFFFFFFF.
Proof.
  intros T S. pose proof (st_range _ _ _ _ S) as R. unfold entries in R. assert (0 <= i / 16 < tab_sects (lay s) l) as K by dlia.
  split; [exact K|]. rewrite (st_sect _ _ _ _ S). exact (tab_sect_ok s ob l _ T K).
Qed.

(** What the walk leaves alone. *)
Definition same_handle (ob ob' : FFOBJID) : Prop := o_fs ob' = o_fs ob /\ o_id ob' = o_id ob.

Definition same_dir (dp dp' : DIR) : Prop :=
  d_fn dp' = d_fn dp /\ blk_ofs dp' = blk_ofs dp /\ sclust (d_obj dp') = sclust (d_obj dp) /\ same_handle (d_obj dp) (d_obj dp').

Section DirLaws.
Context `{D : DiskIo} {DL : DiskLaws D} {HP : FfHeap}.

(** The step from cluster to cluster along the chain. *)
Lemma chain_step ob s l q : table s ob l -> l <> [] -> 0 <= q < Z.of_nat (length l) ->
  wp (get_fat ob (nth_clust l q)) (fun v s' => vol_ok s' /\ same_disk s s' /\
    (v = 0xFFFFFFFF /\ failed s s' \/
     v = (if q + 1 =? Z.of_nat (length l) then fat_entry s (nth_clust l q) else nth_clust l (q + 1)) /\
     (if q + 1 =? Z.of_nat (length l) then n_fatent (lay s) <= v < 0xFFFFFFFF else cluster (lay s) v))) s.
Proof.
  intros [V T P] N Hq. destruct l as [|c l]; [easy|]. destruct P as (C & _).
  wp_use get_fat_wp; auto. intros v s' (V' & Q & R). split; [exact V'|]. split; [apply Q|].
  assert (cluster (lay s) (nth_clust (c :: l) q)) as Hc by (apply (chain_clusters _ _ _ C); apply nth_In; lia).
  unfold fat_value in R. rewrite (proj2 (clusterb_spec _ _) Hc) in R. destruct R as [->|R]; [|now left]. right.
  pose proof (chain_nth _ _ _ C (Z.to_nat q) ltac:(lia)) as X. pose proof (fat_entry_range s (nth_clust (c :: l) q) V) as Rg.
  change (nth (Z.to_nat q) (c :: l) 0) with (nth_clust (c :: l) q) in X. eval_pow.
  destruct (Z.eqb_spec (q + 1) (Z.of_nat (length (c :: l)))) as [E|E].
  - rewrite (proj2 (Nat.eqb_eq _ _)) in X by lia. split; [reflexivity | lia].
  - rewrite (proj2 (Nat.eqb_neq _ _)) in X by lia. unfold nth_clust at 2. replace (Z.to_nat (q + 1)) with (S (Z.to_nat q)) by lia.
    split; [exact X|]. rewrite X. apply (chain_clusters _ _ _ C), nth_In. lia.
Qed.

(** How dir_next leaves the object and the volume. *)
Definition next_of (l : list Z) (i : Z) (dp : DIR) (s : vol) (x : FRESULT * DIR) (s' : vol) : Prop :=
  vol_ok s' /\ same_disk s s' /\ same_dir dp (snd x) /\
  (fst x = FR_OK /\ i + 1 < entries (lay s) l /\ stands (lay s) l (i + 1) (snd x) \/
   fst x = FR_NO_FILE /\ i + 1 = entries (lay s) l /\ (16 * tab_sects (lay s) l < 65536 -> d_sect (snd x) = 0) \/
   fst x = FR_DISK_ERR /\ failed s s').

(** At the end of a cluster. *)
Lemma next_cluster_wp l q dp st s : table s (d_obj dp) l -> l <> [] -> 0 <= q < Z.of_nat (length l) -> d_clust dp = nth_clust l q ->
  st = false \/ q + 1 < Z.of_nat (length l) ->
  wp (next_cluster (lay s) dp st) (fun x s' => vol_ok s' /\ same_disk s s' /\ same_dir dp (snd x) /\
    (fst x = FR_OK /\ q + 1 < Z.of_nat (length l) /\ d_clust (snd x) = nth_clust l (q + 1) /\
       d_sect (snd x) = clust_sect (lay s) (nth_clust l (q + 1)) \/
     fst x = FR_NO_FILE /\ q + 1 = Z.of_nat (length l) /\ d_sect (snd x) = 0 \/
     fst x = FR_DISK_ERR /\ failed s s')) s.
Proof.
  intros T N Hq Ec Hst. unfold next_cluster. apply wp_bind. rewrite Ec. wp_use chain_step; eauto.
  intros v s1 (V1 & S1 & R). pose proof (ev_layout _ _ _ S1) as L1. pose proof (n_fatent_range _ (vo_layout s (tb_vol _ _ _ T))) as NR.
  destruct R as [[-> FL]|[Ev Rv]].
  { cbn [Z.leb Z.eqb Z.compare Pos.compare Pos.compare_cont Pos.eqb]. apply wp_ret. cbn [fst snd]. unfold same_dir, same_handle. auto 10. }
  destruct (Z.eqb_spec (q + 1) (Z.of_nat (length l))) as [E|E].
  - assert (st = false) as -> by (destruct Hst; [assumption | lia]).
    rewrite (proj2 (Z.leb_gt v 1)), (proj2 (Z.eqb_neq v 0xFFFFFFFF)), (proj2 (Z.leb_le _ v)) by lia. cbn [negb].
    wp_norm. cbn [fst snd]. unfold same_dir, same_handle. cbn. auto 10.
  - unfold cluster in Rv. rewrite (proj2 (Z.leb_gt v 1)), (proj2 (Z.eqb_neq v 0xFFFFFFFF)), (proj2 (Z.leb_gt _ v)) by lia.
    wp_norm. wp_use clst2sect_wp; [apply V1 | in_range |]. intros sc s2 [-> ->]. rewrite L1. wp_norm. cbn [fst snd].
    rewrite (proj2 (Z.leb_le 2 v)), (proj2 (Z.ltb_lt v _)) by lia. cbn [andb].
    split; [exact V1|]. split; [exact S1|]. split; [now unfold same_dir, same_handle|]. left. split; [reflexivity|].
    split; [lia|]. cbn. rewrite <- Ev. now split.
Qed.

Lemma mod_next k c : 0 < c ->
  if (k + 1) mod c =? 0 then (k + 1) / c = k / c + 1 /\ k + 1 = c * (k / c + 1)
  else (k + 1) / c = k / c /\ k mod c + 1 < c.
Proof.
  intros Hc. pose proof (Z.mod_pos_bound k c Hc) as B. pose proof (Z.div_mod k c ltac:(lia)) as E.
  destruct (Z.eq_dec (k mod c + 1) c) as [X|X].
  - assert (k + 1 = (k / c + 1) * c) as Y by lia. rewrite Y, Z.mod_mul, Z.div_mul by lia. cbn [Z.eqb]. lia.
  - assert ((k + 1) / c = k / c) as Q by (symmetry; apply (Z.div_unique_pos _ _ _ (k mod c + 1)); lia).
    assert ((k + 1) mod c = k mod c + 1) as M by (symmetry; apply (Z.mod_unique_pos _ _ (k / c)); lia).
    rewrite M, (proj2 (Z.eqb_neq _ 0)) by lia. split; [exact Q | lia].
Qed.

(** The place of sector [k] in the object. *)
Definition placed (g : Layout) (l : list Z) (k : Z) (dp : DIR) : Prop :=
  d_sect dp = tab_sect g l k /\ d_clust dp = match l with [] => 0 | _ => nth_clust l (k / csize g) end.

(** At the end of a sector. *)
Lemma next_sector_wp l k dp st s : table s (d_obj dp) l -> placed (lay s) l k dp -> 0 <= k < tab_sects (lay s) l ->
  st = false \/ k + 1 < tab_sects (lay s) l ->
  wp (next_sector (lay s) dp (512 * (k + 1)) st) (fun x s' => vol_ok s' /\ same_disk s s' /\ same_dir dp (snd x) /\
    (fst x = FR_OK /\ k + 1 < tab_sects (lay s) l /\ placed (lay s) l (k + 1) (snd x) \/
     fst x = FR_NO_FILE /\ k + 1 = tab_sects (lay s) l /\ d_sect (snd x) = 0 \/
     fst x = FR_DISK_ERR /\ failed s s')) s.
Proof.
  intros T [Es Ec] K Hst. pose proof (vo_layout s (tb_vol _ _ _ T)) as LO. pose proof (csize_pos _ LO) as CP.
  destruct (tab_sect_ok _ _ _ _ T K) as [_ Ps]. rewrite <- Es in Ps.
  unfold next_sector. cbn [d_clust set_d_sect]. rewrite Ec. unfold u32. rewrite uwrap_small by in_range.
  destruct l as [|c l].
  - cbn [Z.eqb]. destruct (tb_place _ _ _ T) as (_ & _ & H0 & Hm & _). cbn [tab_sects tab_sect] in *. unfold SZDIRE.
    destruct (Z.leb_spec (n_rootdir (lay s)) (512 * (k + 1) / 32)); wp_norm; cbn [fst snd]; (split; [apply T|]); (split; [reflexivity|]);
      (split; [now unfold same_dir, same_handle|]).
    + right. left. split; [reflexivity|]. split; [dlia | reflexivity].
    + left. split; [reflexivity|]. split; [dlia|]. split; [cbn; rewrite Es; lia | exact Ec].
  - set (L := c :: l) in *. assert (L <> []) as NL by easy. destruct (tb_place _ _ _ T) as (C & _).
    change (tab_sects (lay s) L) with (room (lay s) L) in *. change (tab_sect (lay s) L k) with (file_sect (lay s) L k) in *.
    destruct (file_sect_in _ LO _ _ _ C K) as (Hc & _ & _). unfold cluster in Hc.
    rewrite (proj2 (Z.eqb_neq (nth_clust L _) 0)) by lia. unfold SS. replace (512 * (k + 1) / 512) with (k + 1) by dlia.
    rewrite (land_csize _ LO) by lia. unfold room in K.
    assert (0 <= k / csize (lay s) < Z.of_nat (length L)) as Q by (split; [apply Z.div_pos; lia | apply Z.div_lt_upper_bound; lia]).
    pose proof (mod_next k (csize (lay s)) ltac:(lia)) as MN.
    destruct (Z.eqb_spec ((k + 1) mod csize (lay s)) 0) as [E|E].
    + destruct MN as [Eq Ek].
      wp_use (next_cluster_wp L (k / csize (lay s)) (set_d_sect (d_sect dp + 1) dp) st); auto;
        [destruct Hst as [Hst|Hst]; [now left | right; unfold room in Hst; nia]|].
      intros x s' (V' & S' & Sd & R). split; [exact V'|]. split; [exact S'|]. split; [exact Sd|]. unfold room.
      destruct R as [(-> & Hq & Ecl & Esc)|[(-> & Hq & E0)|R]]; [left | right; left | right; right; exact R].
      * split; [reflexivity|]. split; [nia|]. split; [|unfold L; cbv iota beta; fold L; now rewrite Eq].
        change (tab_sect (lay s) L (k + 1)) with (file_sect (lay s) L (k + 1)). unfold file_sect. rewrite Eq, E. lia.
      * split; [reflexivity|]. split; [nia | exact E0].
    + wp_norm. cbn [fst snd]. split; [apply T|]. split; [reflexivity|]. split; [now unfold same_dir, same_handle|]. left. split; [reflexivity|].
      destruct MN as [Eq Hm]. pose proof (Z.div_mod k (csize (lay s)) ltac:(lia)) as DM.
      split; [unfold room; nia|]. split; cbn [d_sect d_clust set_d_sect].
      * change (tab_sect (lay s) L (k + 1)) with (file_sect (lay s) L (k + 1)). rewrite (file_sect_next _ LO) by lia. lia.
      * unfold L. cbv iota beta. fold L. now rewrite Eq.
Qed.

(** dir_next goes to the next entry, and when it must not stretch the table it
    says when there is none. *)
Lemma dir_next_wp l i dp st s : table s (d_obj dp) l -> stands (lay s) l i dp -> st = false \/ i + 1 < entries (lay s) l ->
  wp (dir_next dp st) (next_of l i dp s) s.
Proof.
  intros T S Hst. destruct (stands_sect _ _ _ _ _ T S) as (K & Vs & Ps). pose proof (vo_layout s (tb_vol _ _ _ T)) as LO.
  pose proof (csize_pos _ LO) as CP. pose proof (st_range _ _ _ _ S) as R. pose proof (tb_type _ _ _ T) as Ty.
  unfold dir_next. wp_norm. unfold max_dir. rewrite (proj2 (Z.eqb_neq _ _) Ty). rewrite (st_dptr _ _ _ _ S).
  unfold SZDIRE, entries, MAX_DIR in *. unfold u32. rewrite uwrap_small by in_range.
  rewrite (proj2 (Z.eqb_neq (d_sect dp) 0)) by lia. cbn [orb].
  destruct (Z.leb_spec 0x200000 (32 * i + 32)) as [M|M].
  { wp_norm. unfold next_of, same_dir, same_handle, entries. cbn [fst snd]. split; [apply T|]. split; [reflexivity|]. split; [auto|].
    right. left. split; [reflexivity|]. split; lia. }
  assert (forall dp', same_dir dp dp' -> d_sect dp' = tab_sect (lay s) l ((i + 1) / 16) ->
    d_clust dp' = match l with [] => 0 | _ => nth_clust l ((i + 1) / 16 / csize (lay s)) end -> i + 1 < 16 * tab_sects (lay s) l ->
    forall s', vol_ok s' -> same_disk s s' ->
    next_of l i dp s (FR_OK, set_d_dir ((32 * i + 32) mod SS) (set_dptr (32 * i + 32) dp')) s') as Done.
  { intros dp' Sd Es Ec Hi s' V' D'. split; [exact V'|]. split; [exact D'|]. split; [exact Sd|]. left. cbn [fst snd].
    unfold entries. split; [reflexivity|]. split; [lia|].
    constructor; cbn [dptr d_clust d_sect d_dir set_d_dir set_dptr]; [unfold entries; lia | unfold SZDIRE; lia | exact Ec | exact Es |].
    unfold SZDIRE, SS. dlia. }
  apply wp_bind. destruct (Z.eqb_spec ((32 * i + 32) mod SS) 0) as [Em|Em]; unfold SS in Em.
  2:{ wp_norm. apply Done; auto; [now unfold same_dir, same_handle | | | dlia | apply T | reflexivity];
      replace ((i + 1) / 16) with (i / 16) by dlia; apply S. }
  assert (i / 16 + 1 = (i + 1) / 16 /\ i + 1 = 16 * ((i + 1) / 16)) as [Ei Ei'] by dlia.
  assert (32 * i + 32 = 512 * (i / 16 + 1)) as Eo by lia. rewrite Eo in *.
  wp_use (next_sector_wp l (i / 16)); [exact T | split; apply S | exact K | destruct Hst; [now left | right; lia] |].
  intros [res dp'] s' (V' & S' & Sd & R1). cbn [fst snd] in *. apply wp_ret. rewrite Ei in *.
  destruct R1 as [(-> & Hk & Es & Ec)|[(-> & Hk & E0)|(-> & FL)]]; cbn [fr_ok].
  - apply Done; auto. lia.
  - split; [exact V'|]. split; [exact S'|]. split; [exact Sd|]. right. left. split; [reflexivity|]. unfold entries. split; [lia | auto].
  - split; [exact V'|]. split; [exact S'|]. split; [exact Sd|]. right. right. auto.
Qed.

(** Following the chain to the cluster of an offset. *)
Lemma sdi_follow_wp l ob ofs s : table s ob l -> l <> [] -> 0 <= ofs < room (lay s) l * SS ->
  let csz := csize (lay s) * SS in
  wp (sdi_follow ob (lay s) (nth_clust l 0) ofs) (fun r s' => vol_ok s' /\ same_disk s s' /\
    (r = inl FR_DISK_ERR /\ failed s s' \/ r = inr (nth_clust l (ofs / csz), ofs mod csz))) s.
Proof.
  intros T NL Ho csz. pose proof (vo_layout s (tb_vol _ _ _ T)) as LO. pose proof (csize_pos _ LO) as CP.
  pose proof (n_fatent_range _ LO) as NR. unfold sdi_follow.
  assert (u32 (csize (lay s) * SS) = csz) as -> by (apply uwrap_small; unfold SS in *; in_range).
  assert (0 < csz) as C0 by (subst csz; unfold SS; lia). assert (room (lay s) l * SS = Z.of_nat (length l) * csz) as RL by (unfold room; lia).
  apply (wp_iter _ (fun x s1 => vol_ok s1 /\ same_disk s s1 /\
      exists q, 0 <= q /\ fst x = nth_clust l q /\ snd x = ofs - q * csz /\ 0 <= snd x)
    (fun x _ => Z.to_nat (snd x / csz))).
  - intros [clst o] s1 (V1 & S1 & q & Hq & Ec & Eo & Ho'). cbn [fst snd] in *.
    pose proof (ev_layout _ _ _ S1) as L1. pose proof (table_same _ _ _ _ T V1 S1) as T1.
    destruct (Z.leb_spec csz o) as [H|H].
    + assert (q + 1 < Z.of_nat (length l)) as Hl by nia. apply wp_bind. rewrite Ec. wp_use chain_step; [exact T1 | exact NL | lia |].
      intros v s2 (V2 & S2 & R). pose proof (PreOrder_Transitive _ _ _ S1 S2) as S12.
      rewrite (proj2 (Z.eqb_neq (q + 1) _)), L1 in R by lia. destruct R as [[-> FL]|[Ev Hv]].
      { rewrite Z.eqb_refl. apply wp_ret. split; [exact V2|]. split; [exact S12|]. left. split; [reflexivity|].
        apply (failed_r s s1 s2 FL), S1. }
      unfold cluster in Hv. rewrite (proj2 (Z.eqb_neq v 0xFFFFFFFF)) by lia.
      rewrite (proj2 (Z.ltb_ge v 2)), (proj2 (Z.leb_gt _ v)) by lia. cbn [orb]. apply wp_ret.
      split; [split; [exact V2|]; split; [exact S12|]; exists (q + 1); cbn [fst snd]; repeat split; lia || auto; lia|].
      cbn [snd]. replace (o / csz) with ((o - csz) / csz + 1).
      * pose proof (Z.div_pos (o - csz) csz ltac:(lia) C0). lia.
      * rewrite <- Z.div_add by lia. f_equal. lia.
    + apply wp_ret. split; [exact V1|]. split; [exact S1|]. right.
      assert (ofs / csz = q /\ ofs mod csz = o) as [-> ->].
      { split; symmetry; [apply (Z.div_unique_pos _ _ _ o); lia | apply (Z.mod_unique_pos _ _ q); lia]. }
      now rewrite Ec.
  - split; [apply T|]. split; [reflexivity|]. exists 0. cbn [fst snd]. repeat split; lia.
  - cbn [snd]. lia.
Qed.

Lemma entry_offset i c : 0 < c -> 0 <= i -> let r := (32 * i) mod (c * SS) in
  32 * i / (c * SS) = i / 16 / c /\ r / SS = (i / 16) mod c /\ r mod SS = 32 * (i mod 16).
Proof.
  intros Hc Hi r. unfold SS in *. pose proof (Z.div_mod i 16 ltac:(lia)) as E1. pose proof (Z.mod_pos_bound i 16 ltac:(lia)) as B1.
  pose proof (Z.div_mod (i / 16) c ltac:(lia)) as E2. pose proof (Z.mod_pos_bound (i / 16) c Hc) as B2.
  assert (r = 512 * ((i / 16) mod c) + 32 * (i mod 16)) as Er
    by (subst r; symmetry; apply (Z.mod_unique_pos _ _ (i / 16 / c)); nia).
  split; [symmetry; apply (Z.div_unique_pos _ _ _ (512 * ((i / 16) mod c) + 32 * (i mod 16))); nia|].
  rewrite Er. split; [symmetry; apply (Z.div_unique_pos _ _ _ (32 * (i mod 16))); lia|].
  symmetry. apply (Z.mod_unique_pos _ _ ((i / 16) mod c)); lia.
Qed.

(** dir_sdi goes to an entry of the table. *)
Lemma dir_sdi_wp l i dp s : table s (d_obj dp) l -> 0 <= i < entries (lay s) l ->
  wp (dir_sdi dp (SZDIRE * i)) (fun x s' => vol_ok s' /\ same_disk s s' /\ same_dir dp (snd x) /\
    (fst x = FR_OK /\ stands (lay s) l i (snd x) \/ fst x = FR_DISK_ERR /\ failed s s')) s.
Proof.
  intros T R. pose proof (vo_layout s (tb_vol _ _ _ T)) as LO. pose proof (csize_pos _ LO) as CP. pose proof (tb_type _ _ _ T) as Ty.
  assert (0 <= i / 16 < tab_sects (lay s) l) as K by (unfold entries in R; dlia).
  destruct (tab_sect_ok _ _ _ _ T K) as [_ Ps].
  unfold dir_sdi. wp_norm. unfold max_dir. rewrite (proj2 (Z.eqb_neq _ _) Ty). unfold SZDIRE, MAX_DIR.
  rewrite (proj2 (Z.leb_gt _ _)) by (unfold entries in R; lia). replace ((32 * i) mod 32) with 0 by dlia. cbn [Z.eqb negb orb].
  pose proof (tb_place _ _ _ T) as P. cbn [d_obj set_dptr].
  destruct l as [|c l].
  - destruct P as (-> & N32 & H0 & Hm & HB & HD). cbn [Z.eqb andb].
    assert (fs_type (lay s) < 3) as F3 by (pose proof (lo_type _ LO); unfold FS_EXFAT, FS_FAT32 in *; lia).
    unfold FS_FAT32. rewrite (proj2 (Z.leb_gt 3 _)) by lia. rewrite (proj2 (Z.leb_gt (n_rootdir _) _)) by (cbn [tab_sects] in K; dlia).
    cbn [tab_sect tab_sects] in *. wp_norm. cbn [Z.eqb]. wp_norm.
    pose proof (layout_order _ LO). pose proof (lo_base _ LO). rewrite (proj2 (Z.eqb_neq (dirbase _) 0)) by lia. wp_norm. cbn [fst snd].
    split; [apply T|]. split; [reflexivity|]. split; [now unfold same_dir, same_handle|]. left. split; [reflexivity|].
    unfold SS, u32. rewrite uwrap_small by in_range.
    constructor; cbn [dptr d_clust d_sect d_dir set_d_dir set_d_clust set_d_sect set_dptr tab_sect]; auto; [dlia | unfold SZDIRE; dlia].
  - set (L := c :: l) in *. assert (L <> []) as NL by easy. destruct P as (C & Ec & E32).
    assert (cluster (lay s) c) as Hc by apply C. unfold cluster in Hc.
    assert (exists dp1, (if (sclust (d_obj dp) =? 0) && (FS_FAT32 <=? fs_type (lay s))
        then (dirbase (lay s), set_d_obj (set_stat 0 (d_obj dp)) (set_dptr (32 * i) dp))
        else (sclust (d_obj dp), set_dptr (32 * i) dp)) = (c, dp1) /\ same_dir dp dp1 /\ dptr dp1 = 32 * i) as (dp1 & -> & Sd & Ep).
    { unfold same_dir, same_handle. destruct (Z.eqb_spec (sclust (d_obj dp)) 0) as [E0|E0]; cbn [andb]; [|eexists; split; [now rewrite Ec | auto 8]].
      rewrite (E32 E0). cbn [Z.leb]. eexists. split; [now rewrite Ec | auto 8]. }
    rewrite (proj2 (Z.eqb_neq c 0)) by lia. pose proof (table_obj _ _ (d_obj dp1) _ (proj1 (proj2 (proj2 Sd))) T) as T1.
    change (tab_sects (lay s) L) with (room (lay s) L) in K. change (tab_sect (lay s) L) with (file_sect (lay s) L) in Ps.
    apply wp_bind, wp_bind. wp_use (sdi_follow_wp L); [exact T1 | exact NL | unfold SS; dlia |].
    intros r s1 (V1 & S1 & R1). pose proof (ev_layout _ _ _ S1) as L1.
    destruct R1 as [[-> FL]| ->]; [wp_norm; cbn [fst snd]; auto 8|].
    destruct (entry_offset i (csize (lay s))) as (-> & E2 & E3); [lia | lia|].
    destruct (file_sect_in _ LO _ _ _ C K) as (Hq & _ & _). pose proof (n_fatent_range _ LO) as NR. unfold cluster in Hq.
    apply wp_bind. wp_use clst2sect_wp; [apply V1 | in_range |]. intros sc s2 [-> ->]. rewrite L1.
    rewrite (proj2 (Z.leb_le 2 _)), (proj2 (Z.ltb_lt _ (n_fatent _))) by lia. cbn [andb].
    fold (clust_sect (lay s) (nth_clust L (i / 16 / csize (lay s)))). wp_norm. unfold file_sect in Ps.
    pose proof (layout_order _ LO). pose proof (lo_base _ LO).
    rewrite (proj2 (Z.eqb_neq (clust_sect _ _) 0)) by (unfold clust_sect; nia). wp_norm. cbn [fst snd].
    split; [exact V1|]. split; [exact S1|]. split; [exact Sd|]. left. split; [reflexivity|].
    constructor; cbn [dptr d_clust d_sect d_dir set_d_dir set_d_clust set_d_sect]; auto.
    + unfold u32. rewrite E2, uwrap_small by in_range. reflexivity.
Qed.
End DirLaws.

(** ** The objects of a directory *)

(** The sector and the place in it of entry [i], and its byte [k]. *)
Definition esec (s : vol) (l : list Z) (i : Z) : list Z := view s (tab_sect (lay s) l (i / 16)).

Definition eofs (i : Z) : Z := SZDIRE * (i mod 16).

Definition ebyte (s : vol) (l : list Z) (i k : Z) : Z := byte_at (esec s l i) (eofs i + k).

Definition eattr (s : vol) (l : list Z) (i : Z) : Z := Z.land (ebyte s l i 11) AM_MASK.

(** An entry that is deleted or a volume label, and one with a short name. *)
Definition skipped (s : vol) (l : list Z) (i : Z) : Prop :=
  ebyte s l i 0 <> 0 /\
  (ebyte s l i 0 = DDEM \/ Z.land (eattr s l i) AM_VOL <> 0 /\ eattr s l i <> AM_LFN).

Definition short_at (s : vol) (l : list Z) (i : Z) : Prop :=
  ebyte s l i 0 <> 0 /\ ebyte s l i 0 <> DDEM /\ Z.land (eattr s l i) AM_VOL = 0.

(** An object: its long name, if it has one, its first entry and the one with
    its short name. *)
Record dobj : Type := mkdobj { do_name : option (list Z); do_first : Z; do_at : Z }.

(** The objects of the table from entry [i] on: before an entry that begins with
    0, or to the end of the table. *)
Inductive listed (s : vol) (l : list Z) : Z -> list dobj -> Prop :=
| listed_full : listed s l (entries (lay s) l) []
| listed_end i : 0 <= i < entries (lay s) l -> ebyte s l i 0 = 0 -> listed s l i []
| listed_skip i os : 0 <= i < entries (lay s) l -> skipped s l i -> listed s l (i + 1) os -> listed s l i os
| listed_short i os : 0 <= i < entries (lay s) l -> short_at s l i -> listed s l (i + 1) os ->
    listed s l i (mkdobj None i i :: os)
| listed_long i a sum os : 0 <= i -> i + pieces a < entries (lay s) l -> wname a -> 1 <= zlen a <= FF_MAX_LFN ->
    (forall j, 0 <= j < pieces a -> piece a (pieces a - j) sum (esec s l (i + j)) (eofs (i + j))) ->
    short_at s l (i + pieces a) -> sum_sfn (esec s l (i + pieces a)) (eofs (i + pieces a)) = Ok sum ->
    listed s l (i + pieces a + 1) os ->
    listed s l i (mkdobj (Some a) i (i + pieces a) :: os).

(** *** The objects computed *)

Definition pieceb (a : list Z) (ord sum : Z) (w : list Z) (o : Z) : bool :=
  forallb (fun k => le2 w (o + nth (Z.to_nat k) LfnOfs 0) =? pad a (13 * (ord - 1) + k)) (zseq 0 13) &&
  (byte_at w o =? (if zlen a <=? 13 * ord then ord + 64 else ord)) && (byte_at w (o + 11) =? AM_LFN) && (byte_at w (o + 12) =? 0) &&
  (byte_at w (o + 13) =? sum) && (le2 w (o + 26) =? 0).

Lemma pieceb_ok a ord sum w o : pieceb a ord sum w o = true -> piece a ord sum w o.
Proof.
  unfold pieceb. intros H. do 5 (apply andb_prop in H as [H ?]). constructor; try (now apply Z.eqb_eq).
  intros k Hk. rewrite forallb_forall in H. apply Z.eqb_eq, H, zseq_in. lia.
Qed.

Definition skippedb (s : vol) (l : list Z) (i : Z) : bool :=
  negb (ebyte s l i 0 =? 0) && ((ebyte s l i 0 =? DDEM) || negb (Z.land (eattr s l i) AM_VOL =? 0) && negb (eattr s l i =? AM_LFN)).

Lemma skippedb_ok s l i : skippedb s l i = true <-> skipped s l i.
Proof. unfold skippedb, skipped. rewrite andb_true_iff, orb_true_iff, andb_true_iff, !negb_true_iff, !Z.eqb_neq, Z.eqb_eq. reflexivity. Qed.

Definition shortb (s : vol) (l : list Z) (i : Z) : bool :=
  negb (ebyte s l i 0 =? 0) && negb (ebyte s l i 0 =? DDEM) && (Z.land (eattr s l i) AM_VOL =? 0).

Lemma shortb_ok s l i : shortb s l i = true <-> short_at s l i.
Proof. unfold shortb, short_at. rewrite !andb_true_iff, !negb_true_iff, !Z.eqb_neq, Z.eqb_eq. tauto. Qed.

(** The text up to its end mark. *)
Fixpoint c_string (b : list Z) : list Z :=
  match b with
  | [] => []
  | c :: b => if c =? 0 then [] else c :: c_string b
  end.

(** The long name whose [n] pieces begin at entry [i]. *)
Definition name_at (s : vol) (l : list Z) (i n : Z) : list Z :=
  c_string (flat_map (fun j => map (fun k => le2 (esec s l (i + n - j)) (eofs (i + n - j) + k)) LfnOfs) (zseq 1 n)).

Definition long_at (s : vol) (l : list Z) (i : Z) : option (list Z) :=
  let n := ebyte s l i 0 - 64 in
  let a := name_at s l i n in
  if (pieces a =? n) && (1 <=? zlen a) && (zlen a <=? FF_MAX_LFN) && (i + n <? entries (lay s) l) &&
     forallb (fun c => (0 <? c) && (c <? 0xFFFF)) a && shortb s l (i + n) &&
     match sum_sfn (esec s l (i + n)) (eofs (i + n)) with
     | Ok sum => forallb (fun j => pieceb a (n - j) sum (esec s l (i + j)) (eofs (i + j))) (zseq 0 n)
     | Err _ => false
     end
  then Some a else None.

(** The objects from entry [i] on, when the entries are in order. *)
Fixpoint objects (fuel : nat) (s : vol) (l : list Z) (i : Z) : option (list dobj) :=
  match fuel with
  | O => None
  | S n =>
      if i =? entries (lay s) l then Some []
      else if negb ((0 <=? i) && (i <? entries (lay s) l)) then None
      else if ebyte s l i 0 =? 0 then Some []
      else if skippedb s l i then objects n s l (i + 1)
      else if shortb s l i then option_map (cons (mkdobj None i i)) (objects n s l (i + 1))
      else match long_at s l i with
           | Some a => option_map (cons (mkdobj (Some a) i (i + pieces a))) (objects n s l (i + pieces a + 1))
           | None => None
           end
  end.

Lemma objects_listed s l fuel : forall i os, objects fuel s l i = Some os -> listed s l i os.
Proof.
  induction fuel as [|n IH]; intros i os; cbn [objects]; [discriminate|].
  destruct (Z.eqb_spec i (entries (lay s) l)) as [->|_]; [intros [= <-]; constructor|].
  destruct (Z.leb_spec 0 i), (Z.ltb_spec i (entries (lay s) l)); cbn [andb negb]; try discriminate.
  destruct (Z.eqb_spec (ebyte s l i 0) 0); [intros [= <-]; now constructor|].
  destruct (skippedb s l i) eqn:Sk; [intros E; apply listed_skip; [auto | now apply skippedb_ok | auto]|].
  destruct (shortb s l i) eqn:Sh.
  { destruct (objects n s l (i + 1)) eqn:E; [|discriminate]. intros [= <-]. apply listed_short; [auto | now apply shortb_ok | auto]. }
  unfold long_at. set (a := name_at s l i _). set (m := ebyte s l i 0 - 64). destruct (_ && _) eqn:C; [|discriminate].
  destruct (objects n s l (i + pieces a + 1)) eqn:E; [|discriminate]. intros [= <-].
  destruct (sum_sfn (esec s l (i + m)) (eofs (i + m))) as [sum|] eqn:Es; [|now rewrite andb_false_r in C].
  do 6 (apply andb_prop in C as [C ?]). apply Z.eqb_eq in C. rewrite <- C in *.
  apply (listed_long s l i a sum); auto; try lia; try (now apply shortb_ok).
  - apply Forall_forall. intros c Hc. match goal with H : forallb _ a = true |- _ => rewrite forallb_forall in H; specialize (H c Hc) end. lia.
  - intros j Hj. apply pieceb_ok. match goal with H : forallb _ (zseq 0 _) = true |- _ => rewrite forallb_forall in H; apply H end. apply zseq_in. lia.
Qed.

(** Is long-name matching switched off by the flags of the name sought. *)
Definition no_lfn (fn : list Z) : bool := negb (Z.land (byte_at fn 11) NS_NOLFN =? 0).

(** The object with the name sought: [x], or the short name [fn]. *)
Definition sought (s : vol) (l : list Z) (x fn : list Z) (o : dobj) : Prop :=
  no_lfn fn = false /\ (exists a, do_name o = Some a /\ zlen a < FF_MAX_LFN /\ same_name a x) \/
  Z.land (byte_at fn 11) NS_LOSS = 0 /\ forall k, 0 <= k < 11 -> ebyte s l (do_at o) k = byte_at fn k.

(** *** One entry *)

Definition with_attr (s : vol) (l : list Z) (i : Z) (dp : DIR) : DIR := set_d_obj (set_attr (eattr s l i) (d_obj dp)) dp.

Section Entry.
Variables (s : vol) (l : list Z) (i : Z) (b : list Z) (dp : DIR).
Hypothesis ES : is_sector (esec s l i).
Hypothesis ED : d_dir dp = eofs i.
Hypothesis EF : zlen (d_fn dp) = 12.

Lemma eofs_range j : 0 <= eofs j <= 480.
Proof. unfold eofs, SZDIRE. dlia. Qed.

Lemma entry_byte k : 0 <= k < 32 -> array_get (esec s l i) (d_dir dp + k) = Ok (ebyte s l i k).
Proof.
  intros Hk. rewrite ED. pose proof (eofs_range i). apply byte_at_get. rewrite (proj1 ES). unfold SS. lia.
Qed.

Lemma entry_first : array_get (esec s l i) (d_dir dp) = Ok (ebyte s l i 0).
Proof. rewrite <- (entry_byte 0) by lia. f_equal. lia. Qed.

Lemma fn_flags : array_get (d_fn dp) 11 = Ok (byte_at (d_fn dp) 11).
Proof. apply byte_at_get. unfold zlen in EF. lia. Qed.

(** A deleted entry or a label resets the search. *)
Lemma find_skipped ord sum : skipped s l i ->
  find_entry b (esec s l i) dp ord sum = Ok (inl (set_blk_ofs 0xFFFFFFFF (with_attr s l i dp), 0xFF, sum)).
Proof.
  intros (N0 & H). unfold find_entry. rewrite entry_first. cbn [rbind]. rewrite entry_byte by lia. cbn [rbind].
  fold (eattr s l i). fold (with_attr s l i dp).
  replace ((ebyte s l i 0 =? DDEM) || (negb (Z.land (eattr s l i) AM_VOL =? 0) && negb (eattr s l i =? AM_LFN))) with true; [reflexivity|].
  symmetry. destruct H as [->|[H1 H2]]; [now rewrite Z.eqb_refl|].
  rewrite (proj2 (Z.eqb_neq _ _) H1), (proj2 (Z.eqb_neq _ _) H2). apply orb_true_r.
Qed.

(** The comparison of the short names. *)
Definition same_short (fn : list Z) : Prop := forall k, 0 <= k < 11 -> ebyte s l i k = byte_at fn k.

Lemma same_short_test fn : reflect (same_short fn) (forallb (fun k => byte_at (esec s l i) (eofs i + k) =? byte_at fn k) (zseq 0 11)).
Proof.
  apply iff_reflect. rewrite forallb_forall. unfold same_short, ebyte. split; intros H.
  - intros k Hk. apply zseq_in in Hk. apply Z.eqb_eq, H. lia.
  - intros k Hk. apply Z.eqb_eq, H, zseq_in. lia.
Qed.

(** The entry with a short name ends the search or resets it; [lfn] says that
    the long name before it was the one sought. *)
Definition short_end (lfn : Prop) (sum : Z) (r : DIR * Z * Z + DIR) : Prop :=
  let sfn := Z.land (byte_at (d_fn dp) 11) NS_LOSS = 0 /\ same_short (d_fn dp) in
  r = inr (with_attr s l i dp) /\ (lfn \/ sfn) \/
  r = inl (set_blk_ofs 0xFFFFFFFF (with_attr s l i dp), 0xFF, sum) /\ ~ lfn /\ ~ sfn.

Lemma find_short ord sum k : short_at s l i -> sum_sfn (esec s l i) (eofs i) = Ok k ->
  exists r, find_entry b (esec s l i) dp ord sum = Ok r /\ short_end (ord = 0 /\ sum = k) sum r.
Proof.
  intros (N0 & N1 & NV) Sk. unfold find_entry. rewrite entry_first. cbn [rbind]. rewrite entry_byte by lia. cbn [rbind].
  fold (eattr s l i). fold (with_attr s l i dp). rewrite (proj2 (Z.eqb_neq _ _) N1), NV. cbn [Z.eqb negb andb orb].
  destruct (Z.eqb_spec (eattr s l i) AM_LFN) as [E|_]; [rewrite E in NV; discriminate|]. rewrite ED, Sk. cbn [rbind].
  change (d_fn (with_attr s l i dp)) with (d_fn dp).
  assert (exists r : bool, (if ord =? 0 then Ok (sum =? k) else Ok false) = Ok r /\ (r = true <-> ord = 0 /\ sum = k)) as (r & -> & Hr).
  { destruct (Z.eqb_spec ord 0); (eexists; split; [reflexivity|]); [rewrite Z.eqb_eq; tauto | split; [discriminate | tauto]]. }
  cbn [rbind]. destruct r.
  { eexists. split; [reflexivity|]. left. split; [reflexivity|]. left. now apply Hr. }
  assert (~ (ord = 0 /\ sum = k)) as NL by (intros X; apply Hr in X; discriminate).
  rewrite fn_flags. cbn [rbind]. destruct (Z.eqb_spec (Z.land (byte_at (d_fn dp) 11) NS_LOSS) 0) as [F|F]; cbn [andb];
    [destruct (same_short_test (d_fn dp)) as [Y|Y]|]; (eexists; split; [reflexivity|]); unfold short_end; tauto.
Qed.

(** An entry with a piece of a long name. *)
Lemma find_piece a p ck ord sum : wname a -> zlen a <= FF_MAX_LFN -> lfn_buf b -> 1 <= p <= pieces a ->
  piece a p ck (esec s l i) (eofs i) ->
  let dp' := with_attr s l i dp in
  exists r, find_entry b (esec s l i) dp ord sum = Ok (inl r) /\
    if no_lfn (d_fn dp) then r = (dp', ord, sum)
    else exists c : bool, cmp_lfn b (esec s l i) (eofs i) = Ok c /\
      if zlen a <=? 13 * p then r = (set_blk_ofs (dptr dp) dp', if c then p - 1 else 0xFF, ck)
      else r = (dp', if (p =? ord) && (sum =? ck) && c then p - 1 else 0xFF, sum).
Proof.
  intros W L LB Hp P dp'. pose proof (proj1 (pieces_range _ _) Hp) as [H1 H2]. unfold FF_MAX_LFN in L.
  assert (ebyte s l i 0 = if zlen a <=? 13 * p then p + 64 else p) as E0 by (unfold ebyte; rewrite Z.add_0_r; apply P).
  assert (eattr s l i = AM_LFN) as EA by (unfold eattr, ebyte; now rewrite (pc_attr _ _ _ _ _ P)).
  unfold find_entry. rewrite entry_first. cbn [rbind]. rewrite entry_byte by lia. cbn [rbind].
  fold (eattr s l i). fold (with_attr s l i dp). fold dp'. rewrite EA.
  assert (ebyte s l i 0 <> DDEM) as ND by (rewrite E0; unfold DDEM; destruct (_ <=? _); lia).
  rewrite (proj2 (Z.eqb_neq _ _) ND), Z.eqb_refl. cbn [negb andb orb]. rewrite andb_false_r.
  change (d_fn dp') with (d_fn dp). rewrite fn_flags. cbn [rbind]. unfold no_lfn.
  destruct (Z.land (byte_at (d_fn dp) 11) NS_NOLFN =? 0); cbn [negb]; [|eexists; split; reflexivity].
  rewrite entry_byte by lia. cbn [rbind]. rewrite (pc_sum _ _ _ _ _ P : ebyte s l i 13 = ck).
  destruct (cmp_lfn_ok a b p ck (esec s l i) (eofs i) W L LB ES (eofs_range i) Hp P) as (c & Ec & _).
  destruct (ord_bits p (zlen a <=? 13 * p) ltac:(lia)) as (_ & O1 & O2). rewrite E0, O1, O2, ED.
  assert (u8 (p - 1) = p - 1) as Eu by (apply uwrap_small; in_range).
  destruct (zlen a <=? 13 * p); cbn [negb].
  - rewrite !Z.eqb_refl. cbn [andb]. rewrite Ec. cbn [rbind]. rewrite Eu. eexists. split; [reflexivity|]. exists c. auto.
  - destruct (Z.eqb_spec p ord) as [<-|N]; cbn [andb]; [destruct (sum =? ck); cbn [andb]|].
    + rewrite Ec. cbn [rbind]. rewrite Eu. eexists. split; [reflexivity|]. exists c. auto.
    + eexists. split; [reflexivity|]. exists c. auto.
    + eexists. split; [reflexivity|]. exists c. auto.
Qed.

End Entry.

(** *** The search *)

(** The fields that looking at an entry leaves alone. *)
Definition kept (dp dp' : DIR) : Prop :=
  dptr dp' = dptr dp /\ d_clust dp' = d_clust dp /\ d_sect dp' = d_sect dp /\ d_dir dp' = d_dir dp /\
  d_fn dp' = d_fn dp /\ sclust (d_obj dp') = sclust (d_obj dp).

Lemma kept_attr s l i dp : kept dp (with_attr s l i dp).
Proof. repeat split. Qed.

Lemma kept_blk s l i dp n : kept dp (set_blk_ofs n (with_attr s l i dp)).
Proof. repeat split. Qed.

Lemma kept_stands g l i dp dp' : kept dp dp' -> stands g l i dp -> stands g l i dp'.
Proof. intros (E1 & E2 & E3 & E4 & _) [R P C S O]. constructor; congruence. Qed.

#[export] Hint Resolve kept_attr kept_blk : fat.

Section Search.
Context `{D : DiskIo} {DL : DiskLaws D} {HP : FfHeap}.
Variables (s : vol) (ob : FFOBJID) (l x b fn : list Z).
Hypothesis HT : table s ob l.
Hypothesis HB : in_buf x b.
Hypothesis HF : zlen fn = 12.

(** The search stands on entry [i], nothing having changed on the volume. *)
Record on (i : Z) (dp : DIR) (s1 : vol) : Prop := {
  on_vol : vol_ok s1;
  on_disk : same_disk s s1;
  on_stands : stands (lay s) l i dp;
  on_fn : d_fn dp = fn;
  on_start : sclust (d_obj dp) = sclust ob
}.

(** The object after the search. *)
Definition still (dp : DIR) : Prop := d_fn dp = fn /\ sclust (d_obj dp) = sclust ob.

(** What one turn does with entry [i], of which find_entry makes [r]. *)
Definition turned (i : Z) (dp : DIR) (r : DIR * Z * Z + DIR) (y : DIR * Z * Z + FRESULT * DIR) (s2 : vol) : Prop :=
  vol_ok s2 /\ same_disk s s2 /\
  match y with
  | inl (dp2, o2, m2) => ebyte s l i 0 <> 0 /\ i + 1 < entries (lay s) l /\ on (i + 1) dp2 s2 /\
      exists dp1, r = inl (dp1, o2, m2) /\ blk_ofs dp2 = blk_ofs dp1
  | inr (e, dp2) => still dp2 /\
      (e = FR_DISK_ERR /\ failed s s2 \/
       e = FR_NO_FILE /\ (ebyte s l i 0 = 0 \/ i + 1 = entries (lay s) l /\ exists z, r = inl z) \/
       e = FR_OK /\ ebyte s l i 0 <> 0 /\ r = inr dp2 /\ win (fs s2) = esec s l i /\ winsect (fs s2) = d_sect dp)
  end.

Lemma esec_sector i : 0 <= i < entries (lay s) l -> is_sector (esec s l i).
Proof.
  intros H. unfold esec, view. destruct (_ =? _); apply (tb_vol _ _ _ HT).
Qed.

Lemma find_turn_wp i dp ord sum r s1 : on i dp s1 ->
  (ebyte s l i 0 <> 0 -> find_entry b (esec s l i) dp ord sum = Ok r) ->
  match r with inl (dp1, _, _) => kept dp dp1 | inr dp1 => kept dp dp1 end ->
  wp (find_turn b (dp, ord, sum)) (turned i dp r) s1.
Proof.
  intros [V1 S1 St Fn Sc] Hr Kr. unfold find_turn. pose proof (ev_layout _ _ _ S1) as L1.
  destruct (stands_sect _ _ _ _ _ HT St) as (K & Vs & Ps). pose proof (st_range _ _ _ _ St) as Ri.
  apply wp_bind. wp_use move_window_wp; [exact V1 | in_range |]. intros res s2 (V2 & S2 & R).
  pose proof (PreOrder_Transitive _ _ _ S1 S2) as S12. pose proof (ev_calls _ _ _ S1) as C1.
  destruct R as [(-> & Ew & Wn)|(-> & FL & _)]; cbn [fr_ok negb].
  2:{ apply wp_ret. split; [exact V2|]. split; [exact S12|]. split; [now split|]. left. split; [reflexivity | now apply (failed_r s s1 s2)]. }
  assert (win (fs s2) = esec s l i) as Ewin.
  { rewrite (Wn ltac:(now rewrite L1)). rewrite (ev_view _ _ _ S1) by exact Vs. unfold esec. now rewrite (st_sect _ _ _ _ St). }
  wp_norm. rewrite Ewin. eapply wp_lift; [exact (entry_first s l i dp (esec_sector i Ri) (st_dir _ _ _ _ St))|].
  destruct (Z.eqb_spec (ebyte s l i 0) 0) as [E0|E0].
  { apply wp_ret. split; [exact V2|]. split; [exact S12|]. split; [now split|]. right. left. auto. }
  apply wp_bind. eapply wp_lift; [exact (Hr E0)|]. destruct r as [[[dp1 o1] m1]|dp1].
  2:{ apply wp_ret. split; [exact V2|]. split; [exact S12|]. destruct Kr as (_ & _ & _ & _ & F1 & F2).
      split; [split; congruence|]. right. right. auto. }
  pose proof Kr as (_ & _ & _ & _ & F1 & F2). pose proof (ev_layout _ _ _ S12) as L2.
  apply wp_bind. wp_use (dir_next_wp l i dp1).
  - apply (table_obj _ ob); [congruence|]. exact (table_same _ _ _ _ HT V2 S12).
  - rewrite L2. exact (kept_stands _ _ _ _ _ Kr St).
  - now left.
  - intros [e dp2] s3 (V3 & S3 & (G1 & G2 & G3 & _) & R). cbn [fst snd] in *. rewrite L2 in R.
    pose proof (PreOrder_Transitive _ _ _ S12 S3) as S13. apply wp_ret. split; [exact V3|]. split; [exact S13|].
    destruct R as [(-> & H & St2)|[(-> & H & _)|(-> & FL)]]; cbn [fr_ok].
    + split; [exact E0|]. split; [exact H|]. split; [constructor; auto; congruence|]. exists dp1. auto.
    + split; [split; congruence|]. right. left. split; [reflexivity|]. right. split; [exact H | eauto].
    + split; [split; congruence|]. left. split; [reflexivity|]. apply (failed_r s s2 s3 FL), S12.
Qed.

(** What dir_find promises about the objects [os] that are left. *)
Definition blk_of (o : dobj) : Z :=
  match do_name o with
  | Some _ => if no_lfn fn then 0xFFFFFFFF else SZDIRE * do_first o
  | None => 0xFFFFFFFF
  end.

Definition found (os : list dobj) (y : FRESULT * DIR) (s' : vol) : Prop :=
  vol_ok s' /\ same_disk s s' /\ still (snd y) /\
  (fst y = FR_DISK_ERR /\ failed s s' \/
   fst y = FR_NO_FILE /\ Forall (fun o => ~ sought s l x fn o) os \/
   fst y = FR_OK /\ exists os1 o os2, os = os1 ++ o :: os2 /\ Forall (fun o => ~ sought s l x fn o) os1 /\
     sought s l x fn o /\ stands (lay s) l (do_at o) (snd y) /\ blk_ofs (snd y) = blk_of o /\
     attr (d_obj (snd y)) = eattr s l (do_at o) /\ win (fs s') = esec s l (do_at o) /\ winsect (fs s') = d_sect (snd y)).

Lemma found_cons o os y s' : ~ sought s l x fn o -> found os y s' -> found (o :: os) y s'.
Proof.
  intros N (V & S & T & R). split; [exact V|]. split; [exact S|]. split; [exact T|].
  destruct R as [R|[[E F]|(E & os1 & o' & os2 & -> & F & R)]]; [now left | right; left; auto |].
  right. right. split; [exact E|]. exists (o :: os1), o', os2. auto 10.
Qed.

(** The loop, when the current turn is known. *)
Lemma find_step i dp ord sum r s1 n os : on i dp s1 ->
  (ebyte s l i 0 <> 0 -> find_entry b (esec s l i) dp ord sum = Ok r) ->
  match r with inl (dp1, _, _) => kept dp dp1 | inr dp1 => kept dp dp1 end ->
  (ebyte s l i 0 = 0 -> Forall (fun o => ~ sought s l x fn o) os) ->
  (forall z, r = inl z -> i + 1 = entries (lay s) l -> Forall (fun o => ~ sought s l x fn o) os) ->
  (forall dp1 s2, vol_ok s2 -> same_disk s s2 -> still dp1 -> ebyte s l i 0 <> 0 -> r = inr dp1 -> win (fs s2) = esec s l i -> winsect (fs s2) = d_sect dp ->
     found os (FR_OK, dp1) s2) ->
  (forall dp1 o1 m1 dp2 s2, ebyte s l i 0 <> 0 -> r = inl (dp1, o1, m1) -> i + 1 < entries (lay s) l -> on (i + 1) dp2 s2 -> blk_ofs dp2 = blk_ofs dp1 ->
     wp (iter n (find_turn b) (dp2, o1, m1)) (found os) s2) ->
  wp (iter (S n) (find_turn b) (dp, ord, sum)) (found os) s1.
Proof.
  intros O Hr Kr E0 Ee Hf Hn. cbn [iter]. apply wp_bind. wp_use find_turn_wp; [exact O | exact Hr | exact Kr |].
  intros [[[dp2 o2] m2]|[e dp2]] s2 (V2 & S2 & R).
  - destruct R as (N0 & H & O2 & dp1 & -> & Eb). eapply Hn; eauto.
  - apply wp_ret. destruct R as (St & [(-> & FL)|[(-> & [H|(H & z & Hz)])|(-> & H & -> & H1 & H2)]]).
    + split; [exact V2|]. split; [exact S2|]. split; [exact St|]. now left.
    + split; [exact V2|]. split; [exact S2|]. split; [exact St|]. right. left. auto.
    + split; [exact V2|]. split; [exact S2|]. split; [exact St|]. right. left. split; [reflexivity | eauto].
    + auto.
Qed.

(** *** A long name on the way *)

(** What the piece [p] of the name [a] must meet in the buffer. *)
Definition piece_agrees (a : list Z) (p : Z) : Prop :=
  (forall k, 13 * (p - 1) <= k < 13 * p -> k <= zlen a -> agrees a b k) /\ (zlen a = 13 * p -> byte_at b (zlen a) = 0).

Lemma all_pieces a : wname a -> 1 <= zlen a <= FF_MAX_LFN ->
  ((forall p, 1 <= p <= pieces a -> piece_agrees a p) <-> zlen a < FF_MAX_LFN /\ same_name a x).
Proof.
  intros W L. unfold pieces, FF_MAX_LFN in *. split.
  - intros H.
    assert (forall k, 0 <= k <= zlen a -> agrees a b k) as A.
    { intros k Hk. destruct (Z_lt_dec k (13 * ((zlen a + 12) / 13))) as [B|B].
      - apply (proj1 (H (k / 13 + 1) ltac:(dlia))); dlia.
      - assert (k = zlen a /\ zlen a = 13 * ((zlen a + 12) / 13)) as [-> E] by dlia. split; [unfold FF_MAX_LFN; dlia|].
        rewrite (proj2 (H ((zlen a + 12) / 13) ltac:(dlia)) E). unfold pad. now rewrite Z.ltb_irrefl, Z.eqb_refl. }
    assert (zlen a < 255) as L' by (destruct (A (zlen a) ltac:(lia)); assumption).
    split; [exact L'|]. apply (agrees_all a x b W); [unfold FF_MAX_LFN; lia | exact HB | exact A].
  - intros [L' E] p Hp. pose proof (proj2 (agrees_all a x b W ltac:(unfold FF_MAX_LFN; lia) HB) E) as A. split.
    + intros k Hk Hk'. apply A. lia.
    + intros Ez. apply upper_zero; [apply (buf_at b); [apply HB | lia]|].
      destruct (A (zlen a) ltac:(lia)) as [_ <-]. unfold pad. now rewrite Z.ltb_irrefl, Z.eqb_refl.
Qed.

(** The variables of the search when [j] pieces of a name with first entry [i0]
    and checksum [ck] are behind it. *)
Definition lfn_state (a : list Z) (ck i0 j ord sum blk : Z) : Prop :=
  if no_lfn fn then ord = 0xFF /\ blk = 0xFFFFFFFF
  else 0 < j -> blk = SZDIRE * i0 /\ sum = ck /\
    (ord = pieces a - j /\ (forall p, pieces a - j < p <= pieces a -> piece_agrees a p) \/
     ord = 0xFF /\ ~ (forall p, 1 <= p <= pieces a -> piece_agrees a p)).

(** One piece. *)
Lemma find_piece_state a ck i0 j dp ord sum : wname a -> 1 <= zlen a <= FF_MAX_LFN -> 0 <= i0 -> 0 <= j < pieces a ->
  i0 + pieces a < entries (lay s) l -> piece a (pieces a - j) ck (esec s l (i0 + j)) (eofs (i0 + j)) ->
  stands (lay s) l (i0 + j) dp -> d_fn dp = fn -> lfn_state a ck i0 j ord sum (blk_ofs dp) ->
  exists dp1 o1 m1, find_entry b (esec s l (i0 + j)) dp ord sum = Ok (inl (dp1, o1, m1)) /\ kept dp dp1 /\
    lfn_state a ck i0 (j + 1) o1 m1 (blk_ofs dp1).
Proof.
  intros W L Hi Hj He P St Fn LS. set (p := pieces a - j) in *.
  assert (1 <= p <= pieces a) as Hp by lia. pose proof (esec_sector (i0 + j) ltac:(lia)) as ES.
  destruct (find_piece s l (i0 + j) b dp ES (st_dir _ _ _ _ St) ltac:(now rewrite Fn) a p ck ord sum W (proj2 L) (proj1 HB) Hp P)
    as (r & -> & R). rewrite Fn in R. unfold lfn_state in *. destruct (no_lfn fn).
  { subst r. exists (with_attr s l (i0 + j) dp), ord, sum. split; [reflexivity|]. split; [apply kept_attr | exact LS]. }
  destruct R as (c & Ec & R).
  destruct (cmp_lfn_ok a b p ck _ _ W (proj2 L) (proj1 HB) ES (eofs_range _) Hp P) as (c' & Ec' & Hc).
  rewrite Ec in Ec'. injection Ec' as <-. fold (piece_agrees a p) in Hc. unfold FF_MAX_LFN in L.
  assert (forall m1, m1 = ck -> (p = pieces a \/ ord = p /\ (forall q, p < q <= pieces a -> piece_agrees a q)) ->
    m1 = ck /\ ((if c then p - 1 else 0xFF) = pieces a - (j + 1) /\
       (forall q, pieces a - (j + 1) < q <= pieces a -> piece_agrees a q) \/
     (if c then p - 1 else 0xFF) = 0xFF /\ ~ (forall q, 1 <= q <= pieces a -> piece_agrees a q))) as Go.
  { intros m1 Em Hg. split; [exact Em|]. destruct c.
    - left. split; [lia|]. intros q Hq. destruct (Z.eq_dec q p) as [->|]; [now apply Hc|]. destruct Hg as [|[_ G]]; [lia | apply G; lia].
    - right. split; [reflexivity|]. intros G. specialize (proj2 Hc (G p Hp)). discriminate. }
  destruct (Z.leb_spec (zlen a) (13 * p)) as [E|E]; subst r; do 3 eexists; (split; [reflexivity|]).
  - split; [apply kept_blk|]. intros _. cbn [blk_ofs set_blk_ofs]. assert (j = 0) as -> by (unfold pieces in *; dlia).
    split; [now rewrite (st_dptr _ _ _ _ St), Z.add_0_r|]. apply Go; [reflexivity | left; lia].
  - split; [apply kept_attr|]. intros _. assert (0 < j) as J by (unfold pieces in *; dlia).
    destruct (LS J) as (Eb & -> & G). split; [exact Eb|]. rewrite Z.eqb_refl, andb_true_r.
    destruct G as [[-> G]|[-> G]].
    + rewrite Z.eqb_refl. cbn [andb]. apply Go; [reflexivity | right; auto].
    + rewrite (proj2 (Z.eqb_neq p 0xFF)) by (unfold pieces in *; dlia). cbn [andb]. auto.
Qed.

Lemma find_pieces_wp a ck i0 os n' : wname a -> 1 <= zlen a <= FF_MAX_LFN -> 0 <= i0 -> i0 + pieces a < entries (lay s) l ->
  (forall j, 0 <= j < pieces a -> piece a (pieces a - j) ck (esec s l (i0 + j)) (eofs (i0 + j))) ->
  (forall dp2 ord2 sm2 s2, on (i0 + pieces a) dp2 s2 -> lfn_state a ck i0 (pieces a) ord2 sm2 (blk_ofs dp2) ->
     wp (iter n' (find_turn b) (dp2, ord2, sm2)) (found os) s2) ->
  forall m j dp ord sm s1, Z.of_nat m = pieces a - j -> 0 <= j -> on (i0 + j) dp s1 -> lfn_state a ck i0 j ord sm (blk_ofs dp) ->
  wp (iter (m + n') (find_turn b) (dp, ord, sm)) (found os) s1.
Proof.
  intros W L Hi He P Hn. induction m as [|m IH]; intros j dp ord sm s1 Hm Hj O LS; cbn [Nat.add].
  - assert (j = pieces a) as -> by lia. now apply Hn.
  - pose proof (P j ltac:(lia)) as Pj.
    destruct (find_piece_state a ck i0 j dp ord sm W L Hi ltac:(lia) He Pj (on_stands _ _ _ O) (on_fn _ _ _ O) LS)
      as (dp1 & o1 & m1 & E & K & LS1).
    assert (ebyte s l (i0 + j) 0 <> 0) as N0.
    { unfold ebyte. rewrite Z.add_0_r, (pc_ord _ _ _ _ _ Pj). destruct (_ <=? _); lia. }
    apply (find_step (i0 + j) dp ord sm (inl (dp1, o1, m1))); [exact O | auto | exact K | easy | lia | discriminate |].
    intros dp1' o1' m1' dp2 s2 _ [= <- <- <-] _ O2 Eb. rewrite <- Z.add_assoc in O2.
    apply (IH (j + 1)); [lia | lia | exact O2 | now rewrite Eb].
Qed.

(** *** The whole table *)

Lemma listed_at_end os : listed s l (entries (lay s) l) os -> os = [].
Proof.
  intros H. remember (entries (lay s) l) as e eqn:E. destruct H; auto; try lia. pose proof (Z.div_pos (zlen a + 12) 13). unfold pieces in *. lia.
Qed.

Lemma sum_bytes_ok w n : forall o sum, is_sector w -> 0 <= o -> o + Z.of_nat n <= SS -> exists k, sum_bytes n w o sum = Ok k.
Proof.
  induction n as [|n IH]; intros o sum HS Ho Hn; cbn [sum_bytes]; [eauto|].
  rewrite byte_at_get by (rewrite (proj1 HS); lia). cbn [rbind]. apply IH; [exact HS | lia | lia].
Qed.

(** The object of a short entry: it is the one sought, or the search goes on
    behind it as at its start. *)
Lemma find_object i dp ord sum k o os s1 n lfn : on i dp s1 -> short_at s l i -> sum_sfn (esec s l i) (eofs i) = Ok k ->
  do_at o = i -> blk_ofs dp = blk_of o -> (ord = 0 /\ sum = k <-> lfn) ->
  (sought s l x fn o <-> lfn \/ Z.land (byte_at fn 11) NS_LOSS = 0 /\ forall k, 0 <= k < 11 -> ebyte s l i k = byte_at fn k) ->
  (i + 1 = entries (lay s) l -> os = []) ->
  (forall dp2 s2, i + 1 < entries (lay s) l -> on (i + 1) dp2 s2 -> blk_ofs dp2 = 0xFFFFFFFF ->
     wp (iter n (find_turn b) (dp2, 0xFF, sum)) (found os) s2) ->
  wp (iter (S n) (find_turn b) (dp, ord, sum)) (found (o :: os)) s1.
Proof.
  intros O Sh Sk Ea Eb Hl Hs He Hn. pose proof (on_stands _ _ _ O) as St.
  destruct (find_short s l i b dp (esec_sector i (st_range _ _ _ _ St)) (st_dir _ _ _ _ St) ltac:(now rewrite (on_fn _ _ _ O)) ord sum k Sh Sk)
    as (r & Er & R). unfold short_end, same_short in R. rewrite (on_fn _ _ _ O) in R.
  destruct R as [[-> H]|(-> & N1 & N2)].
  - apply (find_step i dp ord sum (inr (with_attr s l i dp))); [exact O | auto | apply kept_attr | now intros E; destruct Sh | discriminate | | discriminate].
    intros dp1 s2 V2 S2 T2 _ [= <-] Ew Es. split; [exact V2|]. split; [exact S2|]. split; [exact T2|]. right. right. split; [reflexivity|].
    exists [], o, os. split; [reflexivity|]. split; [constructor|]. split; [apply Hs; tauto|]. rewrite Ea. cbn [snd].
    split; [exact (kept_stands _ _ _ _ _ (kept_attr s l i dp) St)|]. auto.
  - assert (~ sought s l x fn o) as NS by (rewrite Hs; tauto).
    apply (find_step i dp ord sum (inl (set_blk_ofs 0xFFFFFFFF (with_attr s l i dp), 0xFF, sum)));
      [exact O | auto | apply kept_blk | now intros E; destruct Sh | | discriminate |].
    + intros _ _ E. rewrite (He E). auto.
    + intros dp1 o1 m1 dp2 s2 _ [= <- <- <-] H O2 E2. eapply wp_conseq; [apply Hn; auto|].
      intros y s3. now apply found_cons.
Qed.

Lemma find_listed i os : listed s l i os -> i < entries (lay s) l -> forall n dp sum s1, on i dp s1 -> blk_ofs dp = 0xFFFFFFFF ->
  entries (lay s) l - i <= Z.of_nat n -> wp (iter n (find_turn b) (dp, 0xFF, sum)) (found os) s1.
Proof.
  induction 1 as [|i Hi E0|i os Hi Sk HL IH|i os Hi Sh HL IH|i a ck os Hi He W L P Sh Sk HL IH]; intros Lt n dp sum s1 O Eb Hn; [lia|..].
  - destruct n as [|n]; [lia|].
    apply (find_step i dp 0xFF sum (inr dp)); [exact O | easy | repeat split | auto | discriminate | easy | easy].
  - destruct n as [|n]; [lia|]. pose proof (on_stands _ _ _ O) as St.
    apply (find_step i dp 0xFF sum (inl (set_blk_ofs 0xFFFFFFFF (with_attr s l i dp), 0xFF, sum))); [exact O | | apply kept_blk | | | discriminate |].
    + intros _. apply find_skipped; [now apply esec_sector | exact (st_dir _ _ _ _ St) | exact Sk].
    + intros E. now destruct Sk.
    + intros _ _ E. rewrite E in HL. now rewrite (listed_at_end _ HL).
    + intros dp1 o1 m1 dp2 s2 _ [= <- <- <-] H O2 E2. apply IH; auto; lia.
  - destruct n as [|n]; [lia|].
    destruct (sum_bytes_ok (esec s l i) 11 (eofs i) 0 (esec_sector i Hi)) as (k & Ek); [apply eofs_range | pose proof (eofs_range i); unfold SS; lia|].
    apply (find_object i dp 0xFF sum k (mkdobj None i i) os s1 n False); auto.
    + split; [intros [E _]; discriminate | tauto].
    + unfold sought. cbn [do_name do_at]. split; [intros [(_ & a & E & _)|H]; [discriminate | now right] | intros [[]|H]; now right].
    + intros E. rewrite E in HL. now apply listed_at_end.
    + intros dp2 s2 H O2 E2. apply IH; auto; lia.
  - assert (1 <= pieces a) by (unfold pieces; dlia). set (m := Z.to_nat (pieces a)).
    replace n with (m + S (n - m - 1))%nat by lia.
    apply (find_pieces_wp a ck i (mkdobj (Some a) i (i + pieces a) :: os) _ W L Hi He P) with (j := 0); [|lia | lia | now rewrite Z.add_0_r |].
    2:{ unfold lfn_state. destruct (no_lfn fn); [auto | lia]. }
    intros dp2 ord2 sm2 s2 O2 LS. unfold lfn_state in LS.
    apply (find_object (i + pieces a) dp2 ord2 sm2 ck (mkdobj (Some a) i (i + pieces a)) os s2 _
             (no_lfn fn = false /\ zlen a < FF_MAX_LFN /\ same_name a x)); auto.
    + unfold blk_of. cbn [do_name do_first]. destruct (no_lfn fn); [apply LS | now destruct (LS ltac:(lia))].
    + rewrite <- (all_pieces a W L). destruct (no_lfn fn); [split; [intros [E _]; rewrite (proj1 LS) in E; discriminate | now intros [E _]]|].
      destruct (LS ltac:(lia)) as (_ & -> & [[-> G]|[-> G]]).
      * split; [|intros; split; [lia | reflexivity]]. intros _. split; [reflexivity|]. intros p Hp. apply G. lia.
      * split; [intros [E _]; discriminate | intros [_ X]; tauto].
    + unfold sought. cbn [do_name do_at]. split.
      * intros [(N & a' & [= <-] & H1 & H2)|H1]; [left; auto | right; exact H1].
      * intros [(N & H1 & H2)|H1]; [left; split; [exact N | eauto] | right; exact H1].
    + intros E. rewrite E in HL. now apply listed_at_end.
    + intros dp3 s3 H1 O3 E3. apply IH; auto; lia.
Qed.

Lemma entries_pos : 0 < entries (lay s) l.
Proof.
  unfold entries, tab_sects. pose proof (tb_place _ _ _ HT) as P. destruct l as [|c l'].
  - destruct P as (_ & _ & H0 & Hm & _). dlia.
  - pose proof (csize_pos _ (vo_layout s (tb_vol _ _ _ HT))). unfold room. cbn [length]. nia.
Qed.

(** dir_find. *)
Lemma dir_find_wp dp os : d_obj dp = ob -> d_fn dp = fn -> listed s l 0 os -> wp (dir_find_fat b dp) (found os) s.
Proof.
  intros Eo Ef HL. unfold dir_find_fat. wp_norm. pose proof entries_pos as EP.
  replace 0 with (SZDIRE * 0) at 1 by reflexivity.
  wp_use (dir_sdi_wp l 0); [rewrite Eo; exact HT | lia |]. intros [res dp1] s1 (V1 & S1 & (F1 & F2 & F3 & _) & R). cbn [fst snd] in *.
  destruct R as [[-> St]|[-> FL]]; cbn [fr_ok].
  - apply (find_listed 0 os HL EP); [constructor; cbn; auto; try congruence | reflexivity |].
    + destruct St. constructor; auto.
    + unfold walk_fuel, max_dir. rewrite (proj2 (Z.eqb_neq _ _) (tb_type _ _ _ HT)). change (MAX_DIR / SZDIRE) with 65536. unfold entries. lia.
  - apply wp_ret. split; [exact V1|]. split; [exact S1|]. split; [split; cbn; congruence|]. now left.
Qed.

End Search.
