(* ===== verification/FatReg.v ===== *)
(** * ext/fatfs/src/ff.c: a name entered into a directory

    What dir_alloc and dir_register of [FatDir] do: the first run of free entries
    that is long enough is taken, the pieces of the long name and the entry with
    the short one are written to it, no other byte of the volume changes, and the
    directory then lists the object among those that it listed before. *)

From Stdlib Require Import ZArith Bool String List Lia.
From Stdlib Require Import Classes.RelationClasses.
From S2P Require Import Prelude FatVol FatTable FatBitmap FatChain FatFile FatWrite FatUnicode FatName FatDir.
Import ListNotations.
Local Open Scope Z_scope.
Local Open Scope fw_scope.

(** ** Runs of free entries *)

Definition efree (s : vol) (l : list Z) (i : Z) : bool := (ebyte s l i 0 =? DDEM) || (ebyte s l i 0 =? 0).

(** The first run of [n] free entries of the table starts at [p]. *)
Record first_run (s : vol) (l : list Z) (n p : Z) : Prop := {
  run_range : 0 <= p /\ p + n <= entries (lay s) l;
  run_free : forall j, p <= j < p + n -> efree s l j = true;
  run_first : forall q, 0 <= q < p -> exists j, q <= j < q + n /\ efree s l j = false
}.

Section Alloc.
Context `{D : DiskIo} {DL : DiskLaws D} {HP : FfHeap}.
Variables (s : vol) (ob : FFOBJID) (l : list Z) (n p : Z).
Hypothesis HT : table s ob l.
Hypothesis HN : 1 <= n.
Hypothesis HR : first_run s l n p.

(** The search stands on entry [i], the [k] entries before it are free. *)
Record alloc_at (fn : list Z) (i k : Z) (dp : DIR) (s1 : vol) : Prop := {
  aa_on : on s ob l fn i dp s1;
  aa_run : 0 <= k < n /\ 0 <= i - k <= p;
  aa_free : forall j, i - k <= j < i -> efree s l j = true
}.

Definition allocated (fn : list Z) (x : FRESULT * DIR) (s' : vol) : Prop :=
  vol_ok s' /\ same_disk s s' /\ still ob fn (snd x) /\
  (fst x = FR_OK /\ stands (lay s) l (p + n - 1) (snd x) \/ fst x = FR_DISK_ERR /\ failed s s').

Lemma alloc_turn_wp fn i k dp s1 : alloc_at fn i k dp s1 ->
  wp (alloc_turn n (dp, k)) (fun r s2 => match r with
    | inl (dp2, k2) => alloc_at fn (i + 1) k2 dp2 s2
    | inr y => allocated fn y s2
    end) s1.
Proof.
  intros [[V1 S1 St Fn Sc] [Hk Hi] HF]. unfold alloc_turn. pose proof (ev_layout _ _ _ S1) as L1. pose proof (ev_calls _ _ _ S1) as C1.
  destruct (stands_sect _ _ _ _ _ HT St) as (K & Vs & Ps). pose proof (st_range _ _ _ _ St) as Ri.
  apply wp_bind. wp_use move_window_wp; [exact V1 | in_range |]. intros res s2 (V2 & S2 & R).
  pose proof (PreOrder_Transitive _ _ _ S1 S2) as S12.
  destruct R as [(-> & Ew & Wn)|(-> & FL & _)]; cbn [fr_ok negb].
  2:{ apply wp_ret. split; [exact V2|]. split; [exact S12|]. split; [now split|]. right. split; [reflexivity | now apply (failed_r s s1 s2)]. }
  pose proof (ev_layout _ _ _ S12) as L2.
  assert (win (fs s2) = esec s l i) as Ewin.
  { rewrite (Wn ltac:(now rewrite L1)). rewrite (ev_view _ _ _ S1) by exact Vs. unfold esec. now rewrite (st_sect _ _ _ _ St). }
  wp_norm. rewrite Ewin, L2. eapply wp_lift; [exact (entry_first s l i dp (esec_sector s ob l HT i Ri) (st_dir _ _ _ _ St))|].
  rewrite (proj2 (Z.eqb_neq _ _) (tb_type _ _ _ HT)). fold (efree s l i). destruct HR as [[R0 R1] R2 R3].
  assert (forall k', 0 <= k' < n -> 0 <= i + 1 - k' <= p -> (forall j, i + 1 - k' <= j < i + 1 -> efree s l j = true) ->
    wp ('(res, dp) <- dir_next dp true ;; ret (if fr_ok res then inl (dp, k') else inr (res, dp)))
      (fun r s3 => match r with inl (dp2, k2) => alloc_at fn (i + 1) k2 dp2 s3 | inr y => allocated fn y s3 end) s2) as Go.
  { intros k' Hk' Hi' HF'. apply wp_bind. wp_use (dir_next_wp l i dp true).
    - apply (table_obj _ ob); [congruence|]. exact (table_same _ _ _ _ HT V2 S12).
    - now rewrite L2.
    - right. rewrite L2. lia.
    - intros [e dp2] s3 (V3 & S3 & (G1 & G2 & G3 & _) & R). cbn [fst snd] in *. rewrite L2 in R.
      pose proof (PreOrder_Transitive _ _ _ S12 S3) as S13. apply wp_ret.
      destruct R as [(-> & H & St2)|[(-> & H & _)|(-> & FL)]]; cbn [fr_ok]; [|lia|].
      + constructor; [constructor; auto; congruence | auto | exact HF'].
      + split; [exact V3|]. split; [exact S13|]. split; [split; cbn; congruence|]. right. split; [reflexivity|].
        apply (failed_r s s2 s3 FL), S12. }
  destruct (efree s l i) eqn:E; cbn [andb].
  - assert (forall j, i - k <= j < i + 1 -> efree s l j = true) as HF1
      by (intros j Hj; destruct (Z.eq_dec j i) as [->|]; [exact E | apply HF; lia]).
    destruct (Z.eqb_spec (k + 1) n) as [Ek|Ek].
    + apply wp_ret. split; [exact V2|]. split; [exact S12|]. split; [now split|]. left. split; [reflexivity|].
      assert (i - k = p) as Ep.
      { destruct (Z.eq_dec (i - k) p) as [|N]; [assumption|]. destruct (R3 (i - k) ltac:(lia)) as (j & Hj & Fj).
        rewrite HF1 in Fj by lia. discriminate. }
      cbn [snd]. replace (p + n - 1) with i by lia. exact St.
    + apply Go; [lia | lia |]. intros j Hj. apply HF1. lia.
  - assert (i < p) by (destruct (Z_lt_dec i p); [assumption|]; rewrite R2 in E by lia; discriminate).
    apply Go; [lia | lia | lia].
Qed.

(** dir_alloc finds the run. *)
Lemma dir_alloc_wp dp fn : sclust (d_obj dp) = sclust ob -> d_fn dp = fn -> wp (dir_alloc dp n) (allocated fn) s.
Proof.
  intros Eo Ef. unfold dir_alloc. wp_norm. pose proof (entries_pos s ob l HT) as EP. destruct HR as [[R0 R1] R2 R3].
  replace 0 with (SZDIRE * 0) at 1 by reflexivity.
  wp_use (dir_sdi_wp l 0); [apply (table_obj _ ob); assumption | lia |].
  intros [res dp1] s1 (V1 & S1 & (F1 & F2 & F3 & _) & R). cbn [fst snd] in *.
  apply wp_bind. apply (wp_conseq _ (allocated fn)).
  - destruct R as [[-> St]|[-> FL]]; cbn [fr_ok].
    + apply (wp_iter _ (fun x s2 => exists i, alloc_at fn i (snd x) (fst x) s2) (fun x _ => Z.to_nat (entries (lay s) l - 1 - dptr (fst x) / SZDIRE))).
      * intros [dp2 k] s2 (i & A). cbn [fst snd] in *. eapply wp_conseq; [exact (alloc_turn_wp fn i k dp2 s2 A)|].
        intros [[dp3 k3]|y] s3 H; [|exact H]. split; [now exists (i + 1)|]. cbn [fst].
        pose proof (aa_on _ _ _ _ _ A) as O2. pose proof (aa_on _ _ _ _ _ H) as O3. pose proof (on_stands _ _ _ _ _ _ _ O2) as T2.
        pose proof (on_stands _ _ _ _ _ _ _ O3) as T3. rewrite (st_dptr _ _ _ _ T2), (st_dptr _ _ _ _ T3).
        pose proof (st_range _ _ _ _ T3) as X. unfold SZDIRE. replace (32 * (i + 1) / 32) with (i + 1) by dlia. replace (32 * i / 32) with i by dlia. lia.
      * exists 0. cbn [fst snd]. constructor; [constructor; auto; congruence | lia | lia].
      * cbn [fst]. unfold walk_fuel, max_dir. rewrite (proj2 (Z.eqb_neq _ _) (tb_type _ _ _ HT)). change (MAX_DIR / SZDIRE) with 65536.
        rewrite (st_dptr _ _ _ _ St). change (SZDIRE * 0 / SZDIRE) with 0. unfold entries. lia.
    + apply wp_ret. split; [exact V1|]. split; [exact S1|]. split; [split; cbn; congruence|]. now right.
  - intros [r dp2] s2 (V2 & S2 & T2 & R2'). apply wp_ret. split; [exact V2|]. split; [exact S2|]. split; [exact T2|].
    cbn [fst snd] in *. destruct R2' as [[-> H]|[-> H]]; auto.
Qed.

End Alloc.

(** ** Entries rewritten *)

Lemma view_sector s n : vol_ok s -> is_sector (view s n).
Proof. intros V. unfold view. destruct (_ =? _); apply V. Qed.

Lemma sector_ext w w' : is_sector w -> is_sector w' -> (forall x, 0 <= x < SS -> byte_at w x = byte_at w' x) -> w = w'.
Proof.
  intros [L _] [L' _] H. apply (nth_ext _ _ 0 0); [lia|]. intros k Hk. specialize (H (Z.of_nat k) ltac:(lia)).
  unfold byte_at in H. now rewrite Nat2Z.id in H.
Qed.

(** Byte [x] of sector [n] is in none of the entries from [p] to [e]. *)
Definition off_entries (g : Layout) (l : list Z) (p e n x : Z) : Prop :=
  forall i, p <= i < e -> n = tab_sect g l (i / 16) -> ~ (eofs i <= x < eofs i + 32).

(** Only those entries have changed. *)
Record edits (l : list Z) (p e : Z) (s s' : vol) : Prop := {
  ed_layout : lay s' = lay s;
  ed_calls : (calls s <= calls s')%nat;
  ed_free : free_clst (fs s') = free_clst (fs s);
  ed_last : last_clst (fs s') = last_clst (fs s);
  ed_byte : forall n x, visible (lay s) n -> 0 <= x < SS -> off_entries (lay s) l p e n x ->
    byte_at (view s' n) x = byte_at (view s n) x
}.

Definition same_entry (s s' : vol) (l : list Z) (i : Z) : Prop := forall k, 0 <= k < 32 -> ebyte s' l i k = ebyte s l i k.

Lemma edits_same l p e s s' : same_disk s s' -> edits l p e s s'.
Proof. intros [L V C A F I]. constructor; auto. intros n x Hn _ _. now rewrite V. Qed.

Lemma edits_weaken l p e p' e' s s' : p' <= p -> e <= e' -> edits l p e s s' -> edits l p' e' s s'.
Proof. intros Hp He [L C F A B]. constructor; auto. intros n x Hn Hx H. apply B; auto. intros i Hi. apply H. lia. Qed.

Lemma edits_trans l p e s s1 s2 : edits l p e s s1 -> edits l p e s1 s2 -> edits l p e s s2.
Proof.
  intros [L1 C1 F1 A1 B1] [L2 C2 F2 A2 B2]. rewrite L1 in *. constructor; try congruence; try lia.
  intros n x Hn Hx H. rewrite B2, B1; auto.
Qed.

Lemma edits_sect l p e s s' n : vol_ok s -> vol_ok s' -> edits l p e s s' -> visible (lay s) n ->
  (forall i, p <= i < e -> n <> tab_sect (lay s) l (i / 16)) -> view s' n = view s n.
Proof.
  intros V V' [_ _ _ _ B] Hn H. apply sector_ext; [now apply view_sector .. |]. intros x Hx. apply B; auto.
  intros i Hi E. now destruct (H i Hi).
Qed.

Section Edits.
Variables (s : vol) (ob : FFOBJID) (l : list Z).
Hypothesis HT : table s ob l.

Lemma entry_sect i : 0 <= i < entries (lay s) l -> 0 <= i / 16 < tab_sects (lay s) l.
Proof. unfold entries. intros H. dlia. Qed.

Lemma tab_sect_inj i j : 0 <= i < entries (lay s) l -> 0 <= j < entries (lay s) l ->
  tab_sect (lay s) l (i / 16) = tab_sect (lay s) l (j / 16) -> i / 16 = j / 16.
Proof.
  intros Hi Hj E. apply entry_sect in Hi, Hj. pose proof (tb_place _ _ _ HT) as P. unfold tab_sect, tab_sects in *.
  destruct l as [|c l']; [lia|]. destruct P as (C & _). exact (file_sect_inj _ (vo_layout s (tb_vol _ _ _ HT)) _ _ _ _ C Hi Hj E).
Qed.

(** A sector of the directory is none of the table of clusters. *)
Lemma tab_sect_apart i k : 0 <= i < entries (lay s) l -> in_table (lay s) k -> fatbase (lay s) + k / SS <> tab_sect (lay s) l (i / 16).
Proof.
  intros Hi Hk E. apply entry_sect in Hi. apply table_sector in Hk. pose proof (vo_layout s (tb_vol _ _ _ HT)) as LO.
  pose proof (tb_place _ _ _ HT) as P. unfold tab_sect, tab_sects in *. destruct l as [|c l'].
  - destruct P as (_ & _ & _ & _ & H & _). pose proof (lo_fats _ LO). nia.
  - destruct P as (C & _). destruct (file_sect_in _ LO _ _ _ C Hi) as (Hc & _ & I).
    destruct (cluster_visible _ LO _ _ Hc I) as (_ & N & _). lia.
Qed.

Lemma edits_fat p e s' c : 0 <= p -> e <= entries (lay s) l -> vol_ok s' -> edits l p e s s' -> cluster (lay s) c ->
  fat_entry s' c = fat_entry s c.
Proof.
  intros Hp He V' ED Hc. pose proof (tb_vol _ _ _ HT) as V. apply same_bytes_entry; [exact V | apply ED | exact Hc |].
  intros k Hk. unfold fat_byte. rewrite (ed_layout _ _ _ _ _ ED). f_equal. apply (edits_sect l p e); auto.
  - apply fat_sector_visible; [apply V | now apply table_sector].
  - intros i Hi. apply tab_sect_apart; [lia | exact Hk].
Qed.

Lemma edits_table p e s' : 0 <= p -> e <= entries (lay s) l -> vol_ok s' -> edits l p e s s' -> table s' ob l.
Proof.
  intros Hp He V' ED. pose proof (ed_layout _ _ _ _ _ ED) as L. pose proof (tb_place _ _ _ HT) as P.
  assert (forall c, cluster (lay s) c -> fat_entry s' c = fat_entry s c) as K by (intros c Hc; now apply (edits_fat p e)).
  constructor; [exact V' | rewrite L; apply (tb_type _ _ _ HT) | rewrite L]. destruct l as [|c l']; [exact P|].
  destruct P as (C & P). split; [|exact P]. apply (chain_ext _ (fat_entry s)); [|exact C]. intros x Hx. symmetry.
  apply K. now apply (chain_clusters _ _ _ C).
Qed.

Lemma edits_entry p e s' j : 0 <= p -> e <= entries (lay s) l -> edits l p e s s' -> 0 <= j < entries (lay s) l ->
  j < p \/ e <= j -> same_entry s s' l j.
Proof.
  intros Hp He ED Hj Ho k Hk. unfold ebyte, esec. rewrite (ed_layout _ _ _ _ _ ED). pose proof (eofs_range j).
  apply (ed_byte _ _ _ _ _ ED); [apply (tab_sect_ok s ob l _ HT), entry_sect, Hj | unfold SS; lia |].
  intros i Hi E. apply tab_sect_inj in E; [|lia | lia]. unfold eofs, SZDIRE in *. dlia.
Qed.

(** One entry written in the window. *)
Lemma put_entry i w s1 : 0 <= i < entries (lay s) l -> vol_ok s1 -> same_disk s s1 -> winsect (fs s1) = tab_sect (lay s) l (i / 16) ->
  is_sector w -> (forall x, 0 <= x -> x < eofs i \/ eofs i + 32 <= x -> byte_at w x = byte_at (esec s l i) x) ->
  let s2 := mkvol (set_wflag 1 (set_win w (fs s1))) (card s1) (calls s1) in
  vol_ok s2 /\ edits l i (i + 1) s s2 /\ esec s2 l i = w.
Proof.
  intros Hi V1 S1 W Sw K s2. pose proof (ev_layout _ _ _ S1) as L1.
  destruct (tab_sect_ok s ob l (i / 16) HT (entry_sect i Hi)) as [Vi _].
  destruct (store_window w s1 V1 Sw) as [V2 [L2 E2 C2 A2 F2 I2]]; [now rewrite W, L1|]. cbv zeta in *. fold s2 in V2, L2, E2, C2, A2, F2, I2.
  assert (esec s2 l i = w) as Es.
  { unfold esec. rewrite L2, L1, E2 by (now rewrite L1). unfold put_sector. now rewrite W, Z.eqb_refl. }
  split; [exact V2|]. split; [|exact Es]. destruct S1 as [_ V C A F I]. constructor; try congruence; [lia|].
  intros n x Hn Hx H. rewrite E2 by (now rewrite L1). unfold put_sector. rewrite W. destruct (Z.eqb_spec n (tab_sect (lay s) l (i / 16))) as [->|N].
  - apply K; [lia|]. specialize (H i ltac:(lia) eq_refl). lia.
  - now rewrite V.
Qed.

End Edits.

(** *** What an entry holds, by its bytes *)

Section SameEntry.
Variables (s s' : vol) (l : list Z) (i : Z).
Hypothesis HE : same_entry s s' l i.

Lemma same_esec k : 0 <= k < 32 -> byte_at (esec s' l i) (eofs i + k) = byte_at (esec s l i) (eofs i + k).
Proof. exact (HE k). Qed.

Lemma same_le2 k : 0 <= k < 31 -> le2 (esec s' l i) (eofs i + k) = le2 (esec s l i) (eofs i + k).
Proof. intros Hk. unfold le2. rewrite <- Z.add_assoc. now rewrite !same_esec by lia. Qed.

Lemma same_piece a ord sum : piece a ord sum (esec s l i) (eofs i) -> piece a ord sum (esec s' l i) (eofs i).
Proof.
  intros [P1 P2 P3 P4 P5 P6]. constructor; rewrite ?same_esec, ?same_le2 by lia; auto.
  - intros k Hk. rewrite same_le2; [now apply P1|].
    assert (In (nth (Z.to_nat k) LfnOfs 0) LfnOfs) as X by (apply nth_In; cbn; lia).
    pose proof lfn_ofs_range as R. rewrite Forall_forall in R. specialize (R _ X). lia.
  - pose proof (same_esec 0 ltac:(lia)) as E. rewrite !Z.add_0_r in E. now rewrite E.
Qed.

Lemma same_eattr : eattr s' l i = eattr s l i.
Proof. unfold eattr. now rewrite HE by lia. Qed.

Lemma same_short_at : short_at s l i -> short_at s' l i.
Proof. unfold short_at. now rewrite same_eattr, HE by lia. Qed.

Lemma same_skipped : skipped s l i -> skipped s' l i.
Proof. unfold skipped. now rewrite same_eattr, HE by lia. Qed.

End SameEntry.

(** The checksum of a name. *)
Lemma sum_bytes_ext w w' n : forall o o' sum, (forall k, 0 <= k < Z.of_nat n -> byte_at w (o + k) = byte_at w' (o' + k)) ->
  0 <= o -> 0 <= o' -> o + Z.of_nat n <= Z.of_nat (length w) -> o' + Z.of_nat n <= Z.of_nat (length w') ->
  sum_bytes n w o sum = sum_bytes n w' o' sum.
Proof.
  induction n as [|n IH]; intros o o' sum H H1 H2 H3 H4; [reflexivity|]. cbn [sum_bytes]. rewrite !byte_at_get by lia. cbn [rbind].
  pose proof (H 0 ltac:(lia)) as E. rewrite !Z.add_0_r in E. rewrite E. apply IH; try lia. intros k Hk.
  rewrite <- !Z.add_assoc. apply H. lia.
Qed.

(** An entry that is the same, or whose object changed without changing its name. *)
Definition like_entry (s s' : vol) (l : list Z) (i : Z) : Prop :=
  same_entry s s' l i \/ short_at s l i /\ short_at s' l i /\ forall k, 0 <= k < 11 -> ebyte s' l i k = ebyte s l i k.

Section LikeEntry.
Variables (s s' : vol) (l : list Z) (i : Z).
Hypothesis HE : like_entry s s' l i.

Lemma like_byte k : 0 <= k < 11 -> ebyte s' l i k = ebyte s l i k.
Proof. intros Hk. destruct HE as [H|(_ & _ & H)]; apply H; lia. Qed.

Lemma like_short_at : short_at s l i -> short_at s' l i.
Proof. intros H. destruct HE as [E|(_ & E & _)]; [now apply (same_short_at s) | exact E]. Qed.

Lemma like_skipped : skipped s l i -> skipped s' l i.
Proof.
  intros H. destruct HE as [E|((N0 & N1 & NV) & _)]; [now apply (same_skipped s)|]. destruct H as (_ & [X|[X _]]); contradiction.
Qed.

Lemma like_piece a ord sum : piece a ord sum (esec s l i) (eofs i) -> piece a ord sum (esec s' l i) (eofs i).
Proof.
  intros H. destruct HE as [E|((N0 & N1 & NV) & _)]; [now apply (same_piece s)|]. exfalso. revert NV. unfold eattr, ebyte.
  rewrite (pc_attr _ _ _ _ _ H). discriminate.
Qed.

Lemma like_sum : is_sector (esec s l i) -> is_sector (esec s' l i) -> sum_sfn (esec s' l i) (eofs i) = sum_sfn (esec s l i) (eofs i).
Proof.
  intros [S1 _] [S2 _]. pose proof (eofs_range i). apply sum_bytes_ext; rewrite ?S1, ?S2; unfold SS; try lia.
  intros k Hk. apply like_byte. lia.
Qed.

End LikeEntry.

(** ** The entries of a name *)

Section Put.
Context `{D : DiskIo} {DL : DiskLaws D} {HP : FfHeap}.
Variables (s : vol) (ob : FFOBJID) (l x b fn : list Z) (p : Z).
Hypothesis HT : table s ob l.
Hypothesis HB : in_buf x b.
Hypothesis HX : 1 <= zlen x.

(** Moving the window to an entry and replacing it. *)
Lemma edit_entry_wp {A} i dp s1 (f : list Z -> result (list Z)) (K : F A) (E : FRESULT -> F A) Q :
  table s1 ob l -> stands (lay s1) l i dp ->
  (exists w, f (esec s1 l i) = Ok w /\ is_sector w /\
     (forall k, 0 <= k -> k < eofs i \/ eofs i + 32 <= k -> byte_at w k = byte_at (esec s1 l i) k) /\
     forall s2, vol_ok s2 -> edits l i (i + 1) s1 s2 -> esec s2 l i = w -> winsect (fs s2) = d_sect dp -> wp K Q s2) ->
  (forall s2, vol_ok s2 -> same_disk s1 s2 -> failed s1 s2 -> wp (E FR_DISK_ERR) Q s2) ->
  wp (res <- move_window (d_sect dp) ;;
      if negb (fr_ok res) then E res
      else w <- gets (fun s => win (fs s)) ;; w <- lift (f w) ;; put_win w ;; K) Q s1.
Proof.
  intros T1 St (w & Ef & Sw & Kw & HK) HE. pose proof (tb_vol _ _ _ T1) as V1. pose proof (st_range _ _ _ _ St) as Ri.
  destruct (stands_sect _ _ _ _ _ T1 St) as (_ & Vs & Ps).
  apply wp_bind. wp_use move_window_wp; [exact V1 | in_range |]. intros res s2 (V2 & S2 & R).
  destruct R as [(-> & Ew & Wn)|(-> & FL & _)]; cbn [fr_ok negb]; [|now apply HE].
  pose proof (st_sect _ _ _ _ St) as Ed. rewrite Ed in *. specialize (Wn Vs). fold (esec s1 l i) in Wn.
  wp_norm. rewrite Wn. eapply wp_lift; [exact Ef|]. unfold put_win, upd_fs. wp_norm. cbn [fs card calls].
  destruct (put_entry s1 ob l T1 i w s2 Ri V2 S2 Ew Sw Kw) as (V3 & ED & Es). apply HK; auto.
Qed.

(** [j] pieces have been written. *)
Record piecing (sum j : Z) (dp : DIR) (s1 : vol) : Prop := {
  pg_vol : vol_ok s1;
  pg_edits : edits l p (p + pieces x) s s1;
  pg_pieces : forall i, 0 <= i < j -> piece x (pieces x - i) sum (esec s1 l (p + i)) (eofs (p + i));
  pg_stands : stands (lay s) l (p + j) dp;
  pg_still : still ob fn dp
}.

Definition pieced (sum : Z) (y : FRESULT * DIR) (s' : vol) : Prop :=
  fst y = FR_OK /\ piecing sum (pieces x) (snd y) s' \/
  fst y = FR_DISK_ERR /\ vol_ok s' /\ edits l p (p + pieces x) s s' /\ failed s s'.

Hypothesis HP0 : 0 <= p /\ p + pieces x < entries (lay s) l.

Lemma put_turn_wp sum j dp s1 : is_byte sum -> 0 <= j < pieces x -> piecing sum j dp s1 ->
  wp (put_pieces_turn b sum (dp, pieces x - j)) (fun r s2 => match r with
    | inl (dp2, k) => k = pieces x - (j + 1) /\ piecing sum (j + 1) dp2 s2 /\ j + 1 < pieces x
    | inr y => pieced sum y s2
    end) s1.
Proof.
  intros Hs Hj [V1 ED PC St [Fn Sc]]. pose proof (ed_layout _ _ _ _ _ ED) as L1.
  pose proof (edits_table s ob l HT p (p + pieces x) s1 ltac:(lia) ltac:(lia) V1 ED) as T1.
  assert (pieces x <= 20) as P20 by (destruct HB as (_ & _ & L & _); unfold pieces, FF_MAX_LFN in *; dlia).
  unfold put_pieces_turn. apply (edit_entry_wp (p + j)); [exact T1 | now rewrite L1 | |].
  2:{ intros s2 V2 S2 FL. apply wp_ret. right. split; [reflexivity|]. split; [exact V2|].
      split; [exact (edits_trans _ _ _ _ _ _ ED (edits_same _ _ _ _ _ S2)) | apply (failed_r _ s1 _ FL), ED]. }
  assert (u8 (pieces x - j) = pieces x - j) as Eu by (apply uwrap_small; in_range). rewrite Eu.
  rewrite (st_dir _ _ _ _ St). change (SZDIRE * ((p + j) mod 16)) with (eofs (p + j)).
  destruct (put_lfn_ok x b (esec s1 l (p + j)) (eofs (p + j)) (pieces x - j) sum HB) as (w & Ew & Sw & Pw & Kw);
    [now apply view_sector | apply eofs_range | lia | apply pieces_range; lia | exact Hs |].
  exists w. split; [exact Ew|]. split; [exact Sw|]. split; [exact Kw|]. intros s2 V2 E2 Es _.
  assert (edits l p (p + pieces x) s s2) as ED2
    by (apply (edits_trans _ _ _ _ s1); [exact ED | apply (edits_weaken _ (p + j) (p + j + 1)); [lia | lia | exact E2]]).
  pose proof (ed_layout _ _ _ _ _ ED2) as L2.
  pose proof (edits_table s ob l HT p (p + pieces x) s2 ltac:(lia) ltac:(lia) V2 ED2) as T2.
  assert (forall i, 0 <= i < j + 1 -> piece x (pieces x - i) sum (esec s2 l (p + i)) (eofs (p + i))) as PC2.
  { intros i Hi. destruct (Z.eq_dec i j) as [->|N]; [now rewrite Es|].
    apply (same_piece s1); [|apply PC; lia]. apply (edits_entry s1 ob l T1 (p + j) (p + j + 1)); rewrite ?L1; auto; lia. }
  apply wp_bind. wp_use (dir_next_wp l (p + j) dp false); [apply (table_obj _ ob); assumption | now rewrite L2 | now left |].
  intros [e dp2] s3 (V3 & S3 & (G1 & G2 & G3 & _) & R). cbn [fst snd] in *. rewrite L2 in R.
  pose proof (edits_trans _ _ _ _ _ _ ED2 (edits_same l p (p + pieces x) _ _ S3)) as ED3.
  assert (forall i, 0 <= i < j + 1 -> piece x (pieces x - i) sum (esec s3 l (p + i)) (eofs (p + i))) as PC3.
  { intros i Hi. apply (same_piece s2); [|now apply PC2]. apply (edits_entry s2 ob l T2 p p); rewrite ?L2; auto; try lia.
    now apply edits_same. }
  apply wp_ret. destruct R as [(-> & H & St2)|[(-> & H & _)|(-> & FL)]]; cbn [fr_ok andb]; [|lia|].
  - assert (piecing sum (j + 1) dp2 s3) as PG by (constructor; auto; [now rewrite Z.add_assoc | split; congruence]).
    destruct (Z.eqb_spec (pieces x - j - 1) 0) as [E|E]; cbn [negb].
    + left. replace (pieces x) with (j + 1) at 1 by lia. auto.
    + split; [lia|]. split; [exact PG | lia].
  - right. split; [reflexivity|]. split; [exact V3|]. split; [exact ED3|]. apply (failed_r _ s2); [exact FL | apply ED2].
Qed.

(** The entries of the long name; [dp] stands on the last entry of the run. *)
Lemma put_pieces_wp sum dp s1 : vol_ok s1 -> same_disk s s1 -> stands (lay s) l (p + pieces x) dp -> still ob fn dp ->
  sum_sfn fn 0 = Ok sum -> is_byte sum ->
  wp (put_pieces b dp (pieces x)) (pieced sum) s1.
Proof.
  intros V1 S1 St [Fn Sc] Es Bs. unfold put_pieces. pose proof (ev_layout _ _ _ S1) as L1.
  assert (1 <= pieces x <= 20) as P20 by (destruct HB as (_ & _ & L & _); unfold pieces, FF_MAX_LFN in *; dlia).
  assert (u32 (dptr dp - pieces x * SZDIRE) = SZDIRE * p) as ->.
  { rewrite (st_dptr _ _ _ _ St). unfold u32, SZDIRE. rewrite uwrap_small; [lia|]. unfold entries in HP0. in_range. }
  apply wp_bind. wp_use (dir_sdi_wp l p); [apply (table_obj _ ob); [exact Sc | exact (table_same _ _ _ _ HT V1 S1)] | rewrite L1; lia |].
  intros [res dp2] s2 (V2 & S2 & (F1 & F2 & F3 & _) & R). cbn [fst snd] in *. rewrite L1 in R.
  pose proof (PreOrder_Transitive _ _ _ S1 S2) as S12. destruct R as [[-> St2]|[-> FL]]; cbn [fr_ok].
  2:{ apply wp_ret. right. split; [reflexivity|]. split; [exact V2|]. split; [now apply edits_same|]. apply (failed_r _ s1); [exact FL | apply S1]. }
  wp_norm. rewrite F1, Fn. eapply wp_lift; [exact Es|].
  apply (wp_iter _ (fun y s3 => exists j, 0 <= j < pieces x /\ snd y = pieces x - j /\ piecing sum j (fst y) s3) (fun y _ => Z.to_nat (snd y))).
  - intros [dp3 k] s3 (j & Hj & Ek & PG). cbn [fst snd] in *. subst k. eapply wp_conseq; [now apply put_turn_wp|].
    intros [[dp4 k]|y] s4 H; [|exact H]. destruct H as (-> & PG4 & H). cbn [fst snd]. split; [|lia]. exists (j + 1). auto with zarith.
  - exists 0. cbn [fst snd]. split; [lia|]. split; [lia|]. constructor; [exact V2 | now apply edits_same | lia | now rewrite Z.add_0_r | split; congruence].
  - cbn [snd]. lia.
Qed.

End Put.

(** ** The directory with the new object *)

(** Behind an entry that begins with 0 there is nothing. *)
Definition tidy (s : vol) (l : list Z) : Prop :=
  forall i j, 0 <= i <= j -> j < entries (lay s) l -> ebyte s l i 0 = 0 -> ebyte s l j 0 = 0.

Lemma efree_spec s l i : efree s l i = true <-> ebyte s l i 0 = 0 \/ ebyte s l i 0 = DDEM.
Proof. unfold efree. rewrite orb_true_iff, !Z.eqb_eq. tauto. Qed.

Lemma short_not_free s l i : short_at s l i -> efree s l i = false.
Proof. intros (H1 & H2 & _). unfold efree. now rewrite (proj2 (Z.eqb_neq _ _) H1), (proj2 (Z.eqb_neq _ _) H2). Qed.

Lemma piece_not_free s l i a ord sum : 1 <= ord <= 20 -> piece a ord sum (esec s l i) (eofs i) -> efree s l i = false.
Proof.
  intros Ho P. pose proof (pc_ord _ _ _ _ _ P) as E. unfold efree, ebyte, DDEM. rewrite Z.add_0_r, E.
  destruct (_ <=? _); rewrite (proj2 (Z.eqb_neq _ _)), (proj2 (Z.eqb_neq _ 0)) by lia; reflexivity.
Qed.

Lemma pieces_20 a : 1 <= zlen a <= FF_MAX_LFN -> 1 <= pieces a <= 20.
Proof. unfold pieces, FF_MAX_LFN. intros H. dlia. Qed.

Section Listing.
Variables (s s' : vol) (l : list Z).
Hypothesis HV : vol_ok s.
Hypothesis HV' : vol_ok s'.
Hypothesis HL : lay s' = lay s.

Lemma listed_from i os : listed s l i os -> (forall j, i <= j < entries (lay s) l -> like_entry s s' l j) -> listed s' l i os.
Proof.
  induction 1 as [|i Hi E0|i os Hi Sk HL' IH|i os Hi Sh HL' IH|i a ck os Hi He W L P Sh Sk HL' IH]; intros HE.
  - rewrite <- HL. constructor.
  - apply listed_end; [now rewrite HL | now rewrite (like_byte s s' l i (HE i ltac:(lia)) 0) by lia].
  - apply listed_skip; [now rewrite HL | now apply (like_skipped s); [apply HE; lia|] | apply IH; intros; apply HE; lia].
  - apply listed_short; [now rewrite HL | now apply (like_short_at s); [apply HE; lia|] | apply IH; intros; apply HE; lia].
  - pose proof (pieces_20 a L) as PR. apply (listed_long _ _ _ _ ck); [exact Hi | now rewrite HL | exact W | exact L | | | | try exact H].
    + intros j Hj. apply (like_piece s); [apply HE; lia | now apply P].
    + apply (like_short_at s); [apply HE; lia | exact Sh].
    + rewrite (like_sum s); [exact Sk | apply HE; lia | now apply view_sector ..].
    + apply IH. intros j Hj. apply HE. lia.
Qed.

(** Passing over free entries. *)
Lemma listed_past i os : tidy s l -> listed s l i os -> 0 <= i -> forall e, i <= e <= entries (lay s) l -> (forall j, i <= j < e -> efree s l j = true) ->
  listed s l e os.
Proof.
  intros TD. induction 1 as [|i Hi E0|i os Hi Sk HL' IH|i os Hi Sh HL' IH|i a ck os Hi He W L P Sh Sk HL' IH]; intros H0 e He' HF.
  - replace e with (entries (lay s) l) by lia. constructor.
  - destruct (Z.eq_dec e (entries (lay s) l)) as [->|]; [constructor|]. apply listed_end; [lia|]. apply (TD i e); auto; lia.
  - destruct (Z.eq_dec e i) as [->|]; [now apply listed_skip|]. apply IH; [lia | lia |]. intros j Hj. apply HF. lia.
  - destruct (Z.eq_dec e i) as [->|]; [now apply listed_short|]. specialize (HF i ltac:(lia)). rewrite (short_not_free _ _ _ Sh) in HF. discriminate.
  - destruct (Z.eq_dec e i) as [->|]; [now apply (listed_long _ _ _ _ ck)|]. specialize (HF i ltac:(lia)).
    pose proof (pieces_20 a L) as PR. specialize (P 0 ltac:(lia)). rewrite Z.add_0_r in P.
    rewrite (piece_not_free s l i a (pieces a - 0) ck ltac:(lia) P) in HF. discriminate.
Qed.

(** An object entered where the first run of free entries is. *)
Lemma listed_insert n p o : 1 <= n -> tidy s l -> first_run s l n p ->
  (forall j, 0 <= j < entries (lay s) l -> j < p \/ p + n <= j -> same_entry s s' l j) ->
  (forall os, listed s' l (p + n) os -> listed s' l p (o :: os)) ->
  forall i os, listed s l i os -> 0 <= i <= p -> exists os1 os2, os = os1 ++ os2 /\ listed s' l i (os1 ++ o :: os2).
Proof.
  intros Hn TD [[R0 R1] RF RM] HE New. 
  assert (forall os, listed s l p os -> listed s' l p (o :: os)) as Here.
  { intros os H. apply New, listed_from; [|intros j Hj; left; apply HE; lia]. apply (listed_past p); auto; lia. }
  assert (forall i, 0 <= i <= p -> efree s l i = true -> i < p -> ebyte s l i 0 <> 0) as NZ.
  { intros i Hi Fi Lt E0. destruct (RM i ltac:(lia)) as (j & Hj & Fj). assert (ebyte s l j 0 = 0) as Ej by (apply (TD i j); auto; lia).
    rewrite (proj2 (efree_spec s l j) (or_introl Ej)) in Fj. discriminate. }
  induction 1 as [|i Hi E0|i os Hi Sk HL' IH|i os Hi Sh HL' IH|i a ck os Hi He W L P Sh Sk HL' IH]; intros H0.
  - lia.
  - destruct (Z.eq_dec i p) as [->|]; [exists [], []; split; [reflexivity | apply Here; now apply listed_end]|].
    destruct (NZ i H0 (proj2 (efree_spec s l i) (or_introl E0)) ltac:(lia) E0).
  - destruct (Z.eq_dec i p) as [->|]; [exists [], os; split; [reflexivity | apply Here; now apply listed_skip]|].
    destruct (IH ltac:(lia)) as (os1 & os2 & -> & H). exists os1, os2. split; [reflexivity|].
    apply listed_skip; [now rewrite HL | apply (same_skipped s); [apply HE; lia | exact Sk] | exact H].
  - destruct (Z.eq_dec i p) as [->|]; [exists [], (mkdobj None p p :: os); split; [reflexivity | apply Here; now apply listed_short]|].
    destruct (IH ltac:(lia)) as (os1 & os2 & -> & H). exists (mkdobj None i i :: os1), os2. split; [reflexivity|].
    apply listed_short; [now rewrite HL | apply (same_short_at s); [apply HE; lia | exact Sh] | exact H].
  - pose proof (pieces_20 a L) as PR.
    destruct (Z.eq_dec i p) as [->|Ni]; [exists [], (mkdobj (Some a) p (p + pieces a) :: os); split; [reflexivity | apply Here; now apply (listed_long _ _ _ _ ck)]|].
    assert (i + pieces a < p) as Lt.
    { destruct (Z_lt_dec (i + pieces a) p) as [|N]; [assumption|]. pose proof (RF p ltac:(lia)) as Fp.
      destruct (Z.eq_dec p (i + pieces a)) as [->|N2]; [rewrite (short_not_free _ _ _ Sh) in Fp; discriminate|].
      specialize (P (p - i) ltac:(lia)). replace (i + (p - i)) with p in P by lia.
      rewrite (piece_not_free s l p a (pieces a - (p - i)) ck ltac:(lia) P) in Fp. discriminate. }
    destruct (IH ltac:(lia)) as (os1 & os2 & -> & H). exists (mkdobj (Some a) i (i + pieces a) :: os1), os2. split; [reflexivity|].
    apply (listed_long _ _ _ _ ck); [exact Hi | now rewrite HL | exact W | exact L | | | | try exact H].
    + intros j Hj. apply (same_piece s); [apply HE; lia | now apply P].
    + apply (same_short_at s); [apply HE; lia | exact Sh].
    + rewrite (like_sum s); [exact Sk | left; apply HE; lia | now apply view_sector ..].
Qed.

End Listing.

(** ** dir_register *)

(** Each of the 99 numbered names that gen_numname makes of the short name [fn]
    for the long name [x] is the short name of an object. *)
Definition number_taken (s : vol) (l x fn : list Z) (os : list dobj) (n : Z) : Prop :=
  exists b dst d, in_buf x b /\ gen_numname dst fn b n = Ok d /\
    Exists (fun o => forall k, 0 <= k < 11 -> ebyte s l (do_at o) k = byte_at d k) os.

Definition numbers_taken (s : vol) (l x fn : list Z) (os : list dobj) : Prop :=
  forall n, 1 <= n < 100 -> number_taken s l x fn os n.

(** The object of a directory that is found again after the window moved. *)
Section FindAgain.
Context `{D : DiskIo} {DL : DiskLaws D} {HP : FfHeap}.
Variables (s : vol) (ob : FFOBJID) (l x b : list Z).
Hypothesis HT : table s ob l.
Hypothesis HB : in_buf x b.

Lemma disk_same_entry s1 i : same_disk s s1 -> 0 <= i < entries (lay s) l -> same_entry s s1 l i.
Proof. intros S1 Hi. apply (edits_entry s ob l HT 0 0); [lia | lia | now apply edits_same | exact Hi | lia]. Qed.

Lemma sought_disk s1 fn o : same_disk s s1 -> 0 <= do_at o < entries (lay s) l -> sought s1 l x fn o <-> sought s l x fn o.
Proof.
  intros S1 Ho. unfold sought. pose proof (disk_same_entry s1 (do_at o) S1 Ho) as E.
  assert ((forall k, 0 <= k < 11 -> ebyte s1 l (do_at o) k = byte_at fn k) <-> (forall k, 0 <= k < 11 -> ebyte s l (do_at o) k = byte_at fn k)) as ->; [|reflexivity].
  split; intros H k Hk; [rewrite <- E by lia | rewrite E by lia]; auto.
Qed.

Lemma listed_range s1 i os : listed s1 l i os -> 0 <= i -> Forall (fun o => 0 <= do_at o < entries (lay s1) l) os.
Proof.
  induction 1 as [|i Hi E0|i os Hi Sk HL' IH|i os Hi Sh HL' IH|i a ck os Hi He W L P Sh Sk HL' IH]; intros H0; auto.
  - apply IH. lia.
  - constructor; [exact Hi | apply IH; lia].
  - pose proof (pieces_20 a L). constructor; [cbn; lia | apply IH; lia].
Qed.

Lemma numbers_taken_disk s1 fn os : same_disk s s1 -> listed s l 0 os -> numbers_taken s1 l x fn os -> numbers_taken s l x fn os.
Proof.
  intros S1 HL TK n Hn. destruct (TK n Hn) as (b' & dst & d & B' & E & H). exists b', dst, d. split; [exact B'|]. split; [exact E|].
  pose proof (listed_range s 0 os HL ltac:(lia)) as RG. rewrite Forall_forall in RG. rewrite Exists_exists in *. destruct H as (o & Ho & H).
  exists o. split; [exact Ho|]. intros k Hk. rewrite <- H by exact Hk. symmetry. apply (disk_same_entry s1 (do_at o) S1 (RG o Ho)). lia.
Qed.

Lemma dir_find_after dp fn os s1 : vol_ok s1 -> same_disk s s1 -> sclust (d_obj dp) = sclust ob -> d_fn dp = fn -> zlen fn = 12 ->
  listed s l 0 os -> wp (dir_find_fat b dp) (found s ob l x fn os) s1.
Proof.
  intros V1 S1 Eo Ef LF HL. pose proof (tb_vol _ _ _ HT) as V. pose proof (ev_layout _ _ _ S1) as L1.
  assert (listed s1 l 0 os) as HL1 by (apply (listed_from s); auto; intros j Hj; left; now apply disk_same_entry).
  pose proof (listed_range s 0 os HL ltac:(lia)) as RG.
  assert (table s1 (d_obj dp) l) as T1 by (apply (table_obj _ ob); [exact Eo | exact (table_same _ _ _ _ HT V1 S1)]).
  eapply wp_conseq; [exact (dir_find_wp s1 (d_obj dp) l x b fn T1 HB LF dp os eq_refl Ef HL1)|].
  intros y s2 (V2 & S2 & [St1 St2] & R). split; [exact V2|]. split; [etransitivity; eassumption|]. split; [split; congruence|].
  assert (forall os', (forall o, In o os' -> In o os) -> Forall (fun o => ~ sought s1 l x fn o) os' -> Forall (fun o => ~ sought s l x fn o) os') as FN.
  { intros os' Hi F. rewrite Forall_forall in *. intros o Ho. rewrite <- (sought_disk s1) by (auto; apply RG; auto). now apply F. }
  rewrite L1 in R. destruct R as [(E & FL)|[(E & F)|(E & os1 & o & os2 & -> & F & So & Sd & Bo & Ea & Ew & Es)]].
  - left. split; [exact E|]. apply (failed_r _ s1); [exact FL | apply S1].
  - right. left. split; [exact E | now apply FN].
  - right. right. split; [exact E|]. exists os1, o, os2. split; [reflexivity|].
    assert (0 <= do_at o < entries (lay s) l) as Ro by (rewrite Forall_forall in RG; apply RG, in_elt).
    split; [apply FN; [intros z Hz; apply in_or_app; now left | exact F]|]. split; [now apply (sought_disk s1)|].
    split; [exact Sd|]. split; [exact Bo|].
    split; [rewrite Ea; unfold eattr; now rewrite (disk_same_entry s1 (do_at o) S1 Ro) by lia|]. split; [|exact Es]. rewrite Ew. unfold esec. rewrite L1. apply (ev_view _ _ _ S1).
    now apply (tab_sect_ok s ob l _ HT), entry_sect.
Qed.

(** The numbered short names: an object of the directory has each of them, or
    one is free. *)
Definition numbered (sn : list Z) (os : list dobj) (fl : Z) (r : DIR + FRESULT * DIR) (s' : vol) : Prop :=
  vol_ok s' /\ same_disk s s' /\
  match r with
  | inl dp' => sclust (d_obj dp') = sclust ob /\ zlen (d_fn dp') = 12 /\ bytes (d_fn dp') /\ byte_at (d_fn dp') 11 = fl /\
      byte_at (d_fn dp') 0 <> 0 /\ byte_at (d_fn dp') 0 <> DDEM /\
      Forall (fun o => ~ forall k, 0 <= k < 11 -> ebyte s l (do_at o) k = byte_at (d_fn dp') k) os
  | inr (e, _) => e = FR_DENIED /\ numbers_taken s l x sn os \/ e = FR_DISK_ERR /\ failed s s'
  end.

Lemma not_short fn os : byte_at fn 11 = NS_NOLFN -> Forall (fun o => ~ sought s l x fn o) os ->
  Forall (fun o => ~ forall k, 0 <= k < 11 -> ebyte s l (do_at o) k = byte_at fn k) os.
Proof.
  intros E F. eapply Forall_impl; [|exact F]. intros o N H. apply N. right. rewrite E. auto.
Qed.

Lemma set_last fn fl : zlen fn = 12 /\ bytes fn -> is_byte fl ->
  exists fn', array_set fn 11 fl = Ok fn' /\ (zlen fn' = 12 /\ bytes fn') /\ byte_at fn' 11 = fl /\
    forall k, 0 <= k < 11 -> byte_at fn' k = byte_at fn k.
Proof.
  intros [L B] Hf. unfold zlen in *. rewrite array_set_ok by lia. eexists. split; [reflexivity|].
  split; [split; [now rewrite list_set_length | now apply bytes_set]|]. split; [now rewrite byte_at_set by lia|].
  intros k Hk. rewrite byte_at_set by lia. now destruct (Z.eqb_spec k 11); [lia|].
Qed.

Lemma choose_sfn_wp dp last os : short_ok last (d_fn dp) -> sclust (d_obj dp) = sclust ob -> listed s l 0 os ->
  wp (choose_sfn b dp (byte_at (d_fn dp) 11)) (numbered (d_fn dp) os (byte_at (d_fn dp) 11)) s.
Proof.
  intros ([F Pos] & N0 & (FL & _)) Eo HL. pose proof (tb_vol _ _ _ HT) as V. unfold choose_sfn.
  set (sn := d_fn dp) in *. set (fl := byte_at sn 11) in *. pose proof (Pos 0 ltac:(lia)) as P0.
  destruct (set_last sn NS_NOLFN F ltac:(unfold NS_NOLFN; in_range)) as (f1 & E1 & F1 & L1 & _). apply wp_bind. eapply wp_lift; [exact E1|].
  set (good := fun d => (zlen d = 12 /\ bytes d) /\ byte_at d 11 = NS_NOLFN).
  apply wp_bind. apply (wp_conseq _ (fun r s' => vol_ok s' /\ same_disk s s' /\ sclust (d_obj (snd r)) = sclust ob /\ good (d_fn (snd r)) /\
    (fst r = FR_OK /\ numbers_taken s l x sn os \/ fst r = FR_DISK_ERR /\ failed s s' \/ fst r = FR_NO_FILE /\ byte_at (d_fn (snd r)) 0 <> 0 /\ byte_at (d_fn (snd r)) 0 <> DDEM /\
       Forall (fun o => ~ forall k, 0 <= k < 11 -> ebyte s l (do_at o) k = byte_at (d_fn (snd r)) k) os))).
  - apply (wp_iter _ (fun y s1 => vol_ok s1 /\ same_disk s s1 /\ sclust (d_obj (fst y)) = sclust ob /\ good (d_fn (fst y)) /\ 1 <= snd y <= 100 /\
        forall m, 1 <= m < snd y -> number_taken s l x sn os m)
      (fun y _ => Z.to_nat (100 - snd y))).
    2:{ cbn [fst snd d_obj d_fn set_d_fn]. unfold good. split; [exact V|]. split; [reflexivity|]. repeat split; auto; try lia; apply F1. }
    2:{ cbn [snd]. lia. }
    intros [dp1 n] s1 (V1 & S1 & Eo1 & [G1 G2] & Hn & TK). cbn [fst snd] in *. unfold number_turn.
    destruct (Z.ltb_spec n 100) as [Ln|Ln].
    2:{ apply wp_ret. cbn [fst snd]. unfold good. do 4 (split; [auto|]). left. split; [reflexivity|]. intros m Hm. apply TK. lia. }
    destruct (gen_numname_ok x b (d_fn dp1) sn n HB G1 F ltac:(lia)) as (d & Ed & Ld & Bd & _ & D11 & j & Hj & Dj & Dk).
    assert (byte_at d 0 <> 0 /\ byte_at d 0 <> DDEM) as [D0 D1].
    { destruct (Z.eq_dec j 0) as [->|]; [rewrite Dj; split; discriminate|]. rewrite Dk by lia. split; [lia | exact N0]. }
    apply wp_bind. eapply wp_lift; [exact Ed|]. rewrite G2 in D11.
    apply wp_bind. eapply wp_conseq; [apply (dir_find_after (set_d_fn d dp1) d os s1); auto|].
    intros [e dp2] s2 (V2 & S2 & [T1 T2] & R). cbn [fst snd] in *. apply wp_ret.
    assert (good (d_fn dp2)) as G by (rewrite T1; split; auto).
    destruct R as [(-> & FA)|[(-> & NF)|(-> & os1 & o & os2 & Eos & _ & So & _)]]; cbn [fr_ok fst snd].
    + auto 10.
    + do 4 (split; [assumption|]). right. right. rewrite T1. do 3 (split; [auto|]). now apply not_short.
    + split; [|lia]. do 4 (split; [assumption|]). split; [lia|]. intros m Hm. destruct (Z.eq_dec m n) as [->|]; [|apply TK; lia].
      exists b, (d_fn dp1), d. split; [exact HB|]. split; [exact Ed|]. rewrite Eos. apply Exists_exists. exists o. split; [apply in_elt|].
      destruct So as [[E _]|[_ So]]; [|exact So]. unfold no_lfn in E. rewrite D11 in E. discriminate.
  - intros [e dp1] s1 (V1 & S1 & Eo1 & [G1 G2] & R). cbn [fst snd] in *. destruct R as [(-> & TK)|[(-> & FA)|(-> & N1 & N2 & NF)]].
    + apply wp_ret. split; [exact V1|]. split; [exact S1 | now left].
    + apply wp_ret. split; [exact V1|]. split; [exact S1|]. now right.
    + destruct (set_last (d_fn dp1) fl G1 ltac:(in_range)) as (f2 & E2 & F2 & L2 & K2). apply wp_bind. eapply wp_lift; [exact E2|].
      apply wp_ret. split; [exact V1|]. split; [exact S1|]. cbn [d_obj d_fn set_d_fn]. split; [exact Eo1|]. split; [apply F2|]. split; [apply F2|].
      split; [exact L2|]. rewrite !K2 by lia. split; [exact N1|]. split; [exact N2|]. eapply Forall_impl; [|exact NF].
      intros o N H. apply N. intros k Hk. rewrite H by exact Hk. now apply K2.
Qed.

End FindAgain.

(** *** The entry with the short name *)

Lemma sfn_entry_ok w o fn : is_sector w -> 0 <= o <= 480 -> zlen fn = 12 /\ bytes fn ->
  exists w', sfn_entry w o fn = Ok w' /\ is_sector w' /\
    (forall k, 0 <= k -> k < o \/ o + 32 <= k -> byte_at w' k = byte_at w k) /\
    (forall k, 0 <= k < 11 -> byte_at w' (o + k) = byte_at fn k) /\
    byte_at w' (o + 12) = Z.land (byte_at fn 11) (Z.lor NS_BODY NS_EXT) /\
    forall k, k = 11 \/ 13 <= k < 32 -> byte_at w' (o + k) = 0.
Proof.
  intros [LW BW] Ho [LF BF]. unfold sfn_entry, SS, zlen in *. rewrite byte_at_get by lia. cbn [rbind].
  destruct (mem_cpy_ok w o (repeat 0 32) 32) as (w1 & -> & L1 & B1 & K1); [lia | lia | lia | rewrite repeat_length; lia |]. cbn [rbind].
  destruct (mem_cpy_ok w1 o fn 11) as (w2 & -> & L2 & B2 & K2); [lia | lia | lia | lia |]. cbn [rbind].
  rewrite array_set_ok by lia. eexists. split; [reflexivity|]. set (f := Z.land _ _).
  assert (is_byte f) as Hf.
  { assert (f = f mod 256) as ->; [|in_range]. rewrite <- land_255. subst f. now rewrite <- Z.land_assoc. }
  assert (bytes (repeat 0 32)) as BZ by (apply Forall_forall; intros z Hz; apply repeat_spec in Hz as ->; in_range).
  assert (forall k, byte_at (repeat 0 32) k = 0) as ZZ by (intros k; unfold byte_at; apply nth_repeat).
  assert (forall k, 0 <= k -> byte_at (list_set (Z.to_nat (o + 12)) f w2) k =
    if k =? o + 12 then f else if (o <=? k) && (k <? o + 11) then byte_at fn (k - o) else if (o <=? k) && (k <? o + 32) then 0 else byte_at w k) as K.
  { intros k Hk. rewrite byte_at_set by lia. rewrite K2, K1, ZZ by lia. reflexivity. }
  split; [split; [rewrite list_set_length; unfold SS; lia | apply bytes_set; auto]|].
  split; [|split; [|split]].
  - intros k Hk H. rewrite K by lia. destruct (Z.eqb_spec k (o + 12)), (Z.leb_spec o k), (Z.ltb_spec k (o + 11)), (Z.ltb_spec k (o + 32)); cbn [andb]; auto; lia.
  - intros k Hk. rewrite K by lia. destruct (Z.eqb_spec (o + k) (o + 12)), (Z.leb_spec o (o + k)), (Z.ltb_spec (o + k) (o + 11)); cbn [andb]; try lia. f_equal. lia.
  - rewrite K by lia. now rewrite Z.eqb_refl.
  - intros k Hk. rewrite K by lia. destruct (Z.eqb_spec (o + k) (o + 12)), (Z.leb_spec o (o + k)), (Z.ltb_spec (o + k) (o + 11)), (Z.ltb_spec (o + k) (o + 32)); cbn [andb]; auto; lia.
Qed.

Lemma lfn_length_ok x b : in_buf x b -> forall n k, 0 <= k <= zlen x -> zlen x - k < Z.of_nat n -> lfn_length n b k = Ok (zlen x).
Proof.
  intros B. pose proof B as (LB & W & L & _). unfold FF_MAX_LFN in L. induction n as [|n IH]; intros k Hk Hn; [lia|]. cbn [lfn_length].
  rewrite (proj1 (buf_at b k LB ltac:(lia))). cbn [rbind]. rewrite (in_buf_at x b k B Hk). destruct (Z.ltb_spec k (zlen x)).
  - pose proof (wname_at x k W ltac:(lia)). rewrite (proj2 (Z.eqb_neq _ 0)) by lia. apply IH; lia.
  - cbn. f_equal. lia.
Qed.

Lemma sum_bytes_byte w n : forall o sum r, is_byte sum -> sum_bytes n w o sum = Ok r -> is_byte r.
Proof.
  induction n as [|n IH]; intros o sum r Hs E; cbn [sum_bytes] in E; [now injection E as <-|].
  destruct (array_get w o) as [c|]; [|discriminate]. cbn [rbind] in E. eapply IH; [|exact E]. apply u8_byte.
Qed.

Lemma fn_sum fn : zlen fn = 12 -> exists sum, sum_sfn fn 0 = Ok sum /\ is_byte sum.
Proof.
  intros L. assert (exists sum, sum_sfn fn 0 = Ok sum) as [sum E].
  { unfold sum_sfn, zlen in *. assert (forall n o sum, 0 <= o -> o + Z.of_nat n <= 12 -> exists r, sum_bytes n fn o sum = Ok r) as H.
    { induction n as [|n IH]; intros o sum H0 H1; cbn [sum_bytes]; [eauto|]. rewrite byte_at_get by lia. cbn [rbind]. apply IH; lia. }
    apply H; lia. }
  exists sum. split; [exact E|]. apply (sum_bytes_byte fn 11 0 0); [in_range | exact E].
Qed.

Section Register.
Context `{D : DiskIo} {DL : DiskLaws D} {HP : FfHeap}.
Variables (s : vol) (ob : FFOBJID) (l x b fn : list Z) (last : bool) (os : list dobj) (p : Z).
Hypothesis HT : table s ob l.
Hypothesis HB : in_buf x b.
Hypothesis HX : 1 <= zlen x.
Hypothesis HF : short_ok last fn.
Hypothesis HL : listed s l 0 os.
Hypothesis HTD : tidy s l.

(** Does the name need a long one, and how many entries it takes. *)
Definition long : bool := negb (Z.land (byte_at fn 11) NS_LFN =? 0).

Definition n_entries : Z := if long then pieces x + 1 else 1.

Definition lossy : bool := negb (Z.land (byte_at fn 11) NS_LOSS =? 0).

(** The object and the run that it is entered in. *)
Definition new_obj : dobj := mkdobj (if long then Some x else None) p (p + n_entries - 1).

Hypothesis HR : first_run s l n_entries p.

(** The short name that is entered: the one made of the name, or a numbered one
    that no other object has. *)
Record chosen (fn' : list Z) : Prop := {
  ch_len : zlen fn' = 12 /\ bytes fn';
  ch_first : byte_at fn' 0 <> 0 /\ byte_at fn' 0 <> DDEM;
  ch_flags : byte_at fn' 11 = byte_at fn 11;
  ch_plain : lossy = false -> fn' = fn;
  ch_new : lossy = true -> Forall (fun o => ~ forall k, 0 <= k < 11 -> ebyte s l (do_at o) k = byte_at fn' k) os
}.

(** What is in the entry of the short name: a file of no bytes and no attribute. *)
Record fresh_entry (fn' : list Z) (s' : vol) (i : Z) : Prop := {
  fe_name : forall k, 0 <= k < 11 -> ebyte s' l i k = byte_at fn' k;
  fe_case : ebyte s' l i 12 = Z.land (byte_at fn' 11) (Z.lor NS_BODY NS_EXT);
  fe_zero : forall k, k = 11 \/ 13 <= k < 32 -> ebyte s' l i k = 0
}.

(** The directory after the registration. *)
Record entered (dp : DIR) (s' : vol) : Prop := {
  en_vol : vol_ok s';
  en_edits : edits l p (p + n_entries) s s';
  en_stands : stands (lay s) l (do_at new_obj) dp;
  en_win : winsect (fs s') = d_sect dp;
  en_start : sclust (d_obj dp) = sclust ob;
  en_name : chosen (d_fn dp) /\ fresh_entry (d_fn dp) s' (do_at new_obj);
  en_tidy : tidy s' l;
  en_listed : exists os1 os2, os = os1 ++ os2 /\ listed s' l 0 (os1 ++ new_obj :: os2)
}.

Definition registers (y : FRESULT * DIR) (s' : vol) : Prop :=
  fst y = FR_OK /\ entered (snd y) s' \/
  fst y = FR_DENIED /\ lossy = true /\ numbers_taken s l x fn os /\ vol_ok s' /\ same_disk s s' \/
  fst y = FR_DISK_ERR /\ failed s s' /\ vol_ok s' /\ edits l p (p + n_entries) s s'.

Lemma n_entries_pos : 1 <= n_entries <= 21.
Proof.
  unfold n_entries. destruct HB as (_ & _ & L & _). pose proof (pieces_20 x ltac:(lia)). destruct long; lia.
Qed.

Lemma first_run_disk s1 : same_disk s s1 -> first_run s1 l n_entries p.
Proof.
  intros S1. pose proof (ev_layout _ _ _ S1) as L1. destruct HR as [R0 RF RM].
  assert (forall j, 0 <= j < entries (lay s) l -> efree s1 l j = efree s l j) as E
    by (intros j Hj; unfold efree; now rewrite (disk_same_entry s ob l HT s1 j S1 Hj) by lia).
  pose proof n_entries_pos. constructor; rewrite ?L1; auto.
  - intros j Hj. rewrite E by lia. now apply RF.
  - intros q Hq. destruct (RM q Hq) as (j & Hj & F). exists j. split; [exact Hj|]. rewrite E by lia. exact F.
Qed.

(** The flags of a name leave those that forbid it alone. *)
Lemma flags_legal : Z.land (byte_at fn 11) (Z.lor NS_DOT NS_NONAME) = 0.
Proof.
  destruct HF as (_ & _ & (R & _)). rewrite <- (Z.mod_small (byte_at fn 11) (2 ^ 5)) by (eval_pow; lia).
  rewrite <- Z.land_ones by lia. rewrite <- Z.land_assoc. now rewrite Z.land_0_r.
Qed.

Lemma tidy_after s' : vol_ok s' -> edits l p (p + n_entries) s s' -> (forall j, p <= j < p + n_entries -> efree s' l j = false) -> tidy s' l.
Proof.
  intros V' ED NF i j Hi Hj E0. pose proof (ed_layout _ _ _ _ _ ED) as L'. rewrite L' in Hj. destruct HR as [R0 RF RM]. pose proof n_entries_pos.
  assert (forall k, 0 <= k < entries (lay s) l -> ~ (p <= k < p + n_entries) -> ebyte s' l k 0 = ebyte s l k 0) as K
    by (intros k Hk No; apply (edits_entry s ob l HT p (p + n_entries)); auto; lia).
  assert (~ (p <= i < p + n_entries)) as Ni
    by (intros Hp; specialize (NF i Hp); rewrite (proj2 (efree_spec s' l i) (or_introl E0)) in NF; discriminate).
  rewrite K in E0 by lia.
  assert (p <= i) as Hpi.
  { destruct (Z_le_dec p i) as [|N]; [assumption|]. destruct (RM i ltac:(lia)) as (k & Hk & F).
    rewrite (proj2 (efree_spec s l k) (or_introl (HTD i k ltac:(lia) ltac:(lia) E0))) in F. discriminate. }
  rewrite K by lia. apply (HTD i j); auto; lia.
Qed.

(** The pieces, if any, and the short entry make an object. *)
Lemma new_listed fn' sum s' : vol_ok s' -> lay s' = lay s -> chosen fn' -> fresh_entry fn' s' (do_at new_obj) -> sum_sfn fn' 0 = Ok sum ->
  (long = true -> forall i, 0 <= i < pieces x -> piece x (pieces x - i) sum (esec s' l (p + i)) (eofs (p + i))) ->
  (forall os', listed s' l (p + n_entries) os' -> listed s' l p (new_obj :: os')) /\
  forall j, p <= j < p + n_entries -> efree s' l j = false.
Proof.
  intros V' L' [[LF BF] [N0 N1] _ _ _] [FE1 _ FE2] Es PC. destruct HR as [R0 _ _]. pose proof HB as (_ & W & LX & _).
  assert (short_at s' l (do_at new_obj)) as Sh.
  { unfold short_at, eattr. rewrite FE1, (FE2 11) by (lia || now left). rewrite Z.land_0_l. auto. }
  assert (sum_sfn (esec s' l (do_at new_obj)) (eofs (do_at new_obj)) = Ok sum) as Es'.
  { rewrite <- Es. apply sum_bytes_ext; unfold zlen in LF; pose proof (eofs_range (do_at new_obj)); try lia.
    - intros k Hk. cbn [Z.add]. apply FE1. lia.
    - pose proof (view_sector s' (tab_sect (lay s') l (do_at new_obj / 16)) V') as [X _]. unfold esec. rewrite X. unfold SS. lia. }
  unfold new_obj, n_entries in *. destruct long; cbn [do_at] in *.
  - pose proof (pieces_20 x ltac:(lia)) as P20. replace (p + (pieces x + 1) - 1) with (p + pieces x) in * by lia. split.
    + intros os' H. rewrite Z.add_assoc in H. apply (listed_long _ _ _ _ sum); auto; try lia. rewrite L'. lia.
    + intros j Hj. destruct (Z.eq_dec j (p + pieces x)) as [->|N]; [now apply short_not_free|].
      specialize (PC eq_refl (j - p) ltac:(lia)). replace (p + (j - p)) with j in PC by lia.
      apply (piece_not_free s' l j x (pieces x - (j - p)) sum); [lia | exact PC].
  - replace (p + 1 - 1) with p in * by lia. split.
    + intros os' H. apply listed_short; auto. rewrite L'. lia.
    + intros j Hj. replace j with p by lia. now apply short_not_free.
Qed.

(** The last step: the entry with the short name. *)
Lemma enter_wp dp sum s1 : vol_ok s1 -> edits l p (p + n_entries) s s1 -> chosen (d_fn dp) -> sum_sfn (d_fn dp) 0 = Ok sum ->
  stands (lay s) l (do_at new_obj) dp -> sclust (d_obj dp) = sclust ob ->
  (long = true -> forall i, 0 <= i < pieces x -> piece x (pieces x - i) sum (esec s1 l (p + i)) (eofs (p + i))) ->
  wp (res <- move_window (d_sect dp) ;;
      if negb (fr_ok res) then ret (res, dp)
      else
        w <- gets (fun s => win (fs s)) ;;
        w <- lift (sfn_entry w (d_dir dp) (d_fn dp)) ;;
        put_win w ;;
        ret (FR_OK, dp)) registers s1.
Proof.
  intros V1 ED CH Es St Sc PC. pose proof (ed_layout _ _ _ _ _ ED) as L1. pose proof n_entries_pos as NP. destruct (run_range _ _ _ _ HR) as [R0 R1].
  pose proof (edits_table s ob l HT p (p + n_entries) s1 R0 R1 V1 ED) as T1.
  apply (edit_entry_wp ob l (do_at new_obj)); [exact T1 | now rewrite L1 | |].
  2:{ intros s2 V2 S2 FL. apply wp_ret. right. right. split; [reflexivity|]. split; [apply (failed_r _ s1); [exact FL | apply ED]|].
      split; [exact V2 | exact (edits_trans _ _ _ _ _ _ ED (edits_same _ _ _ _ _ S2))]. }
  rewrite (st_dir _ _ _ _ St). change (SZDIRE * (do_at new_obj mod 16)) with (eofs (do_at new_obj)).
  destruct (sfn_entry_ok (esec s1 l (do_at new_obj)) (eofs (do_at new_obj)) (d_fn dp)) as (w & Ew & Sw & K1 & K2 & K3 & K4);
    [now apply view_sector | apply eofs_range | apply CH |].
  exists w. split; [exact Ew|]. split; [exact Sw|]. split; [exact K1|]. intros s2 V2 E2 Ew2 Wi. apply wp_ret. left. split; [reflexivity|].
  assert (do_at new_obj = p + n_entries - 1) as En by reflexivity.
  assert (edits l p (p + n_entries) s s2) as ED2
    by (apply (edits_trans _ _ _ _ s1); [exact ED | apply (edits_weaken _ _ _ p (p + n_entries)) in E2; [exact E2 | lia | lia]]).
  assert (fresh_entry (d_fn dp) s2 (do_at new_obj)) as FE by (constructor; unfold ebyte; rewrite Ew2; auto).
  destruct (new_listed (d_fn dp) sum s2 V2 (ed_layout _ _ _ _ _ ED2) CH FE Es) as [NL NF].
  { intros HG i Hi. apply (same_piece s1); [|now apply PC].
    apply (edits_entry s1 ob l T1 (do_at new_obj) (do_at new_obj + 1)); rewrite ?L1; auto; try lia.
    all: unfold n_entries in En, R1; rewrite HG in En, R1; lia. }
  cbn [snd]. constructor; auto.
  - now apply tidy_after.
  - apply (listed_insert s s2 l (tb_vol _ _ _ HT) V2 (ed_layout _ _ _ _ _ ED2) n_entries p new_obj); auto; try lia.
    intros j Hj Ho. apply (edits_entry s ob l HT p (p + n_entries)); auto; lia.
Qed.

(** The choice of the short name. *)
Lemma choose_wp dp : d_fn dp = fn -> sclust (d_obj dp) = sclust ob ->
  wp (if Z.land (byte_at fn 11) NS_LOSS =? 0 then ret (inl dp) else choose_sfn b dp (byte_at fn 11))
    (fun r s1 => vol_ok s1 /\ same_disk s s1 /\ match r with
     | inl dp1 => sclust (d_obj dp1) = sclust ob /\ chosen (d_fn dp1)
     | inr (e, _) => e = FR_DENIED /\ lossy = true /\ numbers_taken s l x fn os \/ e = FR_DISK_ERR /\ failed s s1
     end) s.
Proof.
  intros Ef Sc. pose proof (tb_vol _ _ _ HT) as V. pose proof HF as ([[LF BF] Pos] & N0 & _). pose proof (Pos 0 ltac:(lia)) as P0.
  unfold lossy. destruct (Z.eqb_spec (Z.land (byte_at fn 11) NS_LOSS) 0) as [E|E].
  - apply wp_ret. split; [exact V|]. split; [reflexivity|]. split; [exact Sc|]. rewrite Ef.
    constructor; auto; [lia | unfold lossy; rewrite E; discriminate].
  - rewrite <- Ef. eapply wp_conseq; [apply (choose_sfn_wp s ob l x b HT HB dp last os); auto; now rewrite Ef|].
    intros [dp1|[e dp1]] s1 (V1 & S1 & R); (split; [exact V1|]); (split; [exact S1|]).
    + destruct R as (Sc1 & L1 & B1 & F1 & N1 & N2 & NF). split; [exact Sc1|]. rewrite Ef in F1.
      constructor; auto. unfold lossy. now rewrite (proj2 (Z.eqb_neq _ _) E).
    + destruct R as [[-> TK]|R]; [left | now right]. split; [reflexivity|]. split; [reflexivity|]. exact TK.
Qed.

(** dir_register when there is room for the name. *)
Lemma dir_register_wp dp : d_fn dp = fn -> sclust (d_obj dp) = sclust ob -> wp (dir_register_fat b dp) registers s.
Proof.
  intros Ef Sc. pose proof (tb_vol _ _ _ HT) as V. pose proof n_entries_pos as NP. destruct (run_range _ _ _ _ HR) as [R0 R1].
  pose proof HF as ([[LF BF] Pos] & N0 & _). pose proof (Pos 0 ltac:(lia)) as P0. pose proof HB as (_ & _ & LX & _).
  unfold dir_register_fat. wp_norm. rewrite Ef. eapply wp_lift; [apply byte_at_get; unfold zlen in LF; lia|].
  rewrite flags_legal. cbn [Z.eqb negb]. apply wp_bind. eapply wp_lift; [apply (lfn_length_ok x b HB 257 0); unfold FF_MAX_LFN in LX; lia|].
  apply wp_bind. eapply wp_conseq; [exact (choose_wp dp Ef Sc)|].
  intros [dp1|[e dp1]] s1 (V1 & S1 & R).
  2:{ apply wp_ret. destruct R as [(-> & Y & TK)|[-> FL]]; [right; left; auto|]. right. right.
      split; [reflexivity|]. split; [exact FL|]. split; [exact V1 | now apply edits_same]. }
  destruct R as [Sc1 CH]. pose proof (ev_layout _ _ _ S1) as L1.
  destruct (fn_sum (d_fn dp1) (proj1 (ch_len _ CH))) as (sum & Es & Bs).
  assert ((if Z.land (byte_at fn 11) NS_LFN =? 0 then 1 else (zlen x + 12) / 13 + 1) = n_entries) as ->
    by (unfold n_entries, long, pieces; now destruct (_ =? 0)).
  apply wp_bind. wp_use (dir_alloc_wp s1 ob l n_entries p (table_same _ _ _ _ HT V1 S1)); [lia | now apply first_run_disk | exact Sc1 | reflexivity |].
  intros [res dp2] s2 (V2 & S2 & [Fn2 Sc2] & R). cbn [fst snd] in *. rewrite L1 in R. pose proof (PreOrder_Transitive _ _ _ S1 S2) as S12.
  assert (edits l p (p + n_entries) s s2) as ED2 by now apply edits_same.
  destruct R as [[-> St2]|[-> FL]]; cbn [fr_ok andb].
  2:{ wp_norm. cbn [fr_ok]. wp_norm. right. right. split; [reflexivity|]. split; [apply (failed_r _ s1); [exact FL | apply S1]|]. auto. }
  destruct long eqn:EL.
  - pose proof (pieces_20 x ltac:(lia)) as P20. assert (n_entries = pieces x + 1) as En by (unfold n_entries; now rewrite EL).
    replace (n_entries - 1) with (pieces x) by lia. rewrite (proj2 (Z.eqb_neq (pieces x) 0)) by lia. cbn [negb].
    replace (p + n_entries - 1) with (p + pieces x) in St2 by lia. apply wp_bind.
    assert (0 <= p /\ p + pieces x < entries (lay s) l) as PX by lia.
    wp_use (put_pieces_wp s ob l x b (d_fn dp1) p HT HB HX PX sum dp2 s2); [exact V2 | exact S12 | exact St2 | now split | exact Es | exact Bs |].
    intros [r dp3] s3 [[Er PG]|(Er & V3 & ED3 & FL)]; cbn [fst snd] in *; subst r; cbn [fr_ok].
    2:{ wp_norm. right. right. split; [reflexivity|]. split; [exact FL|]. split; [exact V3|]. apply (edits_weaken _ p (p + pieces x)); auto; lia. }
    destruct PG as [V3 ED3 PC St3 [Fn3 Sc3]].
    apply (enter_wp dp3 sum s3); auto; rewrite ?Fn3; auto.
    + apply (edits_weaken _ p (p + pieces x)); auto; lia.
    + cbn [new_obj do_at]. now replace (p + n_entries - 1) with (p + pieces x) by lia.
  - assert (n_entries - 1 = 0) as -> by (unfold n_entries; now rewrite EL). cbn [Z.eqb negb]. wp_norm. cbn [fr_ok]. apply (enter_wp dp2 sum s2); rewrite ?Fn2; auto. rewrite EL. discriminate.
Qed.

End Register.
