(* ===== verification/FatPath.v ===== *)
(** * ext/fatfs/src/ff.c: paths and f_open

    follow_path goes along the segments of a path, from the root directory; and
    f_open, on a FAT volume, finds or registers the object it names and opens it
    with the functions of [FatOpen].  The volume is mounted: find_volume, which
    f_open calls first, is in [FatMount]. *)

From Stdlib Require Import ZArith Bool String Ascii List Lia.
From Stdlib Require Import Classes.RelationClasses.
From S2P Require Import Prelude FatVol FatTable FatBitmap FatChain FatFile FatWrite FatRead FatSync FatOpen.
From S2P Require Import FatUnicode FatName FatDir.
Import ListNotations.
Local Open Scope Z_scope.
Local Open Scope fw_scope.

Definition AM_RDO : Z := 0x01.

Definition AM_DIR : Z := 0x10.

Definition FA_CREATE_NEW : Z := 0x04.

Definition FA_OPEN_ALWAYS : Z := 0x10.

(** FA_READ | FA_WRITE | FA_CREATE_ALWAYS | ... | FA_SEEKEND *)
Definition MODES : Z := 0x3F.

(** Bytes of (FF_MAX_LFN + 1) * 2 + MAXDIRB(FF_MAX_LFN), the buffer of INIT_NAMBUF. *)
Definition NAMBUF : Z := 512 + (255 + 44) / 15 * SZDIRE.

Section Path.
Context `{D : DiskIo} {HP : FfHeap}.

(** [while ( *path == '/' || *path == '\\') path++;] *)
Fixpoint strip_seps (path : list Z) : list Z :=
  match path with
  | c :: path' => if is_sep c then strip_seps path' else path
  | [] => []
  end.

(** One segment on a FAT volume. *)
Definition follow_turn (x : list Z * list Z * DIR) : F (list Z * list Z * DIR + FRESULT * list Z * DIR) :=
  let '(b, path, dp) := x in
  r <- lift (create_name path b) ;;
  match r with
  | None => ret (inr (FR_INVALID_NAME, b, dp))
  | Some (b, fn, next) =>
      '(res, dp) <- dir_find_fat b (set_d_fn fn dp) ;;
      ns <- lift (array_get (d_fn dp) 11) ;;
      if negb (fr_ok res) then
        ret (inr (match res with
                  | FR_NO_FILE => if Z.land ns NS_LAST =? 0 then FR_NO_PATH else FR_NO_FILE
                  | r => r
                  end, b, dp))
      else if negb (Z.land ns NS_LAST =? 0) then ret (inr (FR_OK, b, dp))
      else if Z.land (attr (d_obj dp)) AM_DIR =? 0 then ret (inr (FR_NO_PATH, b, dp))
      else
        f <- gets fs ;;
        cl <- lift (ld_clust (fs_type (layout f)) (win f) (dptr dp mod SS)) ;;
        ret (inl (b, skipn (Z.to_nat next) path, set_d_obj (set_sclust cl (d_obj dp)) dp))
  end.

Definition follow_path (b path : list Z) (dp : DIR) : F (FRESULT * list Z * DIR) :=
  let path := strip_seps path in
  let dp := set_d_obj (set_n_frag 0 (set_sclust 0 (d_obj dp))) dp in
  c <- lift (array_get path 0) ;;
  if c <? 32 then
    fn <- lift (array_set (d_fn dp) 11 NS_NONAME) ;;
    '(res, dp) <- dir_sdi (set_d_fn fn dp) 0 ;;
    ret (res, b, dp)
  else iter (S (length path)) follow_turn (b, path, dp).

(** The object a file is opened on: found, or registered; with the mode. *)
Definition open_object (b : list Z) (res : FRESULT) (dj : DIR) (mode : Z) : F (FRESULT * DIR * Z) :=
  if negb (Z.land mode (Z.lor FA_CREATE_ALWAYS (Z.lor FA_OPEN_ALWAYS FA_CREATE_NEW)) =? 0) then
    '(res, dj, mode) <-
      (if fr_ok res then
         ret (if negb (Z.land (attr (d_obj dj)) (Z.lor AM_RDO AM_DIR) =? 0) then FR_DENIED
              else if negb (Z.land mode FA_CREATE_NEW =? 0) then FR_EXIST else FR_OK, dj, mode)
       else
         '(res, dj) <- match res with FR_NO_FILE => dir_register_fat b dj | r => ret (r, dj) end ;;
         ret (res, dj, Z.lor mode FA_CREATE_ALWAYS)) ;;
    res <- (if fr_ok res && negb (Z.land mode FA_CREATE_ALWAYS =? 0) then overwrite_fat (d_obj dj) (d_dir dj) else ret res) ;;
    ret (res, dj, mode)
  else
    ret (if fr_ok res then
           if negb (Z.land (attr (d_obj dj)) AM_DIR =? 0) then FR_NO_FILE
           else if negb (Z.land mode FA_WRITE =? 0) && negb (Z.land (attr (d_obj dj)) AM_RDO =? 0) then FR_DENIED else FR_OK
         else res, dj, mode).

(** f_open on a mounted FAT volume: what it does when find_volume has answered
    FR_OK (the other answers are in [FatMount.find_volume]).  [b] and [dj] are what
    the name buffer and the directory object hold when they are created. *)
Definition f_open_fat (b : list Z) (dj : DIR) (fp : FIL) (path : list Z) (mode : Z) : F (FRESULT * FIL) :=
  let mode := Z.land mode MODES in
  let dj := set_d_obj (set_o_fs true (d_obj dj)) dj in
  k <- gets calls ;;
  if negb (ff_memalloc k NAMBUF) then ret (FR_NOT_ENOUGH_CORE, fp)
  else
    '(res, b, dj) <- follow_path b path dj ;;
    ns <- lift (array_get (d_fn dj) 11) ;;
    let res := if fr_ok res && negb (Z.land ns NS_NONAME =? 0) then FR_INVALID_NAME else res in
    '(res, dj, mode) <- open_object b res dj mode ;;
    if fr_ok res then open_fat fp mode (d_dir dj)
    else ret (res, set_obj (set_o_fs false (obj fp)) fp).

End Path.

Definition path_of (s : string) : list Z := map (fun c => Z.of_N (N_of_ascii c)) (list_ascii_of_string s) ++ [0].
