(* ===== verification/FatNamed.v ===== *)
(** * ext/fatfs/src/ff.c: files by name

    f_open with a path in the root directory, and the operations of an
    application put together: a file created under a name, written and closed,
    then opened again by the same name and read. *)

From Stdlib Require Import ZArith Bool String List Lia.
From Stdlib Require Import Classes.RelationClasses.
From S2P Require Import Prelude FatVol FatTable FatBitmap FatChain FatFile FatWrite FatRead FatSync FatOpen FatStore.
From S2P Require Import FatUnicode FatName FatDir FatReg FatPath.
Import ListNotations.
Local Open Scope Z_scope.
Local Open Scope fw_scope.

(** ** The entry of a file changes *)

Lemma land_bit a n : 0 <= n -> (Z.land a (2 ^ n) = 0 <-> Z.testbit a n = false).
Proof.
  intros Hn. split; intros H.
  - assert (Z.testbit (Z.land a (2 ^ n)) n = false) as E by (rewrite H; apply Z.bits_0).
    rewrite Z.land_spec, Z.pow2_bits_true, andb_true_r in E by exact Hn. exact E.
  - apply Z.bits_inj'. intros k Hk. rewrite Z.land_spec, Z.bits_0, Z.pow2_bits_eqb by exact Hn.
    destruct (Z.eqb_spec n k) as [->|]; [now rewrite H | apply andb_false_r].
Qed.

Lemma attr_bit s l i n : 0 <= n < 6 -> (Z.land (eattr s l i) (2 ^ n) = 0 <-> Z.testbit (ebyte s l i 11) n = false).
Proof.
  intros Hn. rewrite land_bit by lia. unfold eattr. rewrite Z.land_spec. change AM_MASK with (Z.ones 6).
  rewrite Z.ones_spec_low by lia. now rewrite andb_true_r.
Qed.

(** Only the sector of entry [i] of the directory changed, and there only that
    entry; its name stayed. *)
Record dir_edit (l : list Z) (i : Z) (s s' : vol) : Prop := {
  de_vol : vol_ok s';
  de_layout : lay s' = lay s;
  de_chain : forall c, In c l -> fat_entry s' c = fat_entry s c;
  de_rest : forall k, 0 <= k < tab_sects (lay s) l -> tab_sect (lay s) l k <> tab_sect (lay s) l (i / 16) ->
            view s' (tab_sect (lay s) l k) = view s (tab_sect (lay s) l k);
  de_entry : entry_edit (eofs i) (esec s l i) (esec s' l i)
}.

Lemma dir_edit_trans l i s s1 s2 : dir_edit l i s s1 -> dir_edit l i s1 s2 -> dir_edit l i s s2.
Proof.
  intros [V1 L1 C1 R1 E1] [V2 L2 C2 R2 E2]. rewrite L1 in *. constructor; [exact V2 | congruence | | | etransitivity; eassumption].
  - intros c Hc. rewrite C2, C1; auto.
  - intros k Hk N. rewrite R2, R1; auto.
Qed.

Section DirEdit.
Variables (s s' : vol) (ob : FFOBJID) (l : list Z) (i : Z).
Hypothesis HT : table s ob l.
Hypothesis HI : 0 <= i < entries (lay s) l.
Hypothesis HD : dir_edit l i s s'.

Lemma dir_edit_table : table s' ob l.
Proof.
  destruct HD as [V' L C _ _]. pose proof (tb_place _ _ _ HT) as P. constructor; [exact V' | rewrite L; apply (tb_type _ _ _ HT) | rewrite L].
  destruct l as [|c l']; [exact P|]. destruct P as (Ch & P). split; [|exact P]. apply (chain_ext _ (fat_entry s)); [|exact Ch].
  intros x Hx. symmetry. now apply C.
Qed.

(** No attribute but that of an archive is added. *)
Lemma dir_edit_attr b : b <> 5 -> Z.testbit (ebyte s l i 11) b = false -> Z.testbit (ebyte s' l i 11) b = false.
Proof. apply HD. Qed.

Lemma dir_edit_like j : short_at s l i -> 0 <= j < entries (lay s) l -> like_entry s s' l j.
Proof.
  intros Sh Hj. destruct HD as [V' L _ R [K _]]. pose proof (eofs_range i). pose proof (eofs_range j).
  destruct (Z.eq_dec (tab_sect (lay s) l (j / 16)) (tab_sect (lay s) l (i / 16))) as [E|E].
  2:{ left. intros k Hk. unfold ebyte, esec. rewrite L, (R (j / 16)) by (auto; now apply entry_sect). reflexivity. }
  pose proof (tab_sect_inj s ob l HT j i Hj HI E) as Ej. destruct (Z.eq_dec j i) as [->|N].
  - assert (forall k, 0 <= k < 11 -> ebyte s' l i k = ebyte s l i k) as NM by (intros k Hk; apply K; lia).
    right. split; [exact Sh|]. split; [|exact NM]. destruct Sh as (N0 & N1 & NV). unfold short_at. rewrite NM by lia.
    split; [exact N0|]. split; [exact N1|]. change AM_VOL with (2 ^ 3) in *. apply attr_bit; [lia|]. apply attr_bit in NV; [|lia].
    apply dir_edit_attr; [lia | exact NV].
  - left. intros k Hk. unfold ebyte. assert (esec s l j = esec s l i /\ esec s' l j = esec s' l i) as [-> ->] by (unfold esec; now rewrite Ej).
    apply K; [lia|]. unfold eofs, SZDIRE in *. dlia.
Qed.

End DirEdit.

(** The sectors of a directory belong to it. *)
Lemma dir_place s ob l k : table s ob l -> 0 <= k < tab_sects (lay s) l -> own_place s [] (tab_sect (lay s) l k).
Proof.
  intros T Hk. pose proof (tb_vol _ _ _ T) as V. pose proof (vo_layout s V) as LO. destruct (tab_sect_ok s ob l k T Hk) as [Vi _].
  pose proof (tb_place _ _ _ T) as P. destruct l as [|c0 l].
  - destruct P as (_ & _ & _ & _ & H1 & H2). cbn [tab_sect tab_sects] in *. constructor; [exact Vi | |].
    + pose proof (lo_fats _ LO). nia.
    + intros c Hc _ I. destruct (cluster_visible _ LO c _ Hc I) as (_ & _ & DA). unfold in_data in DA. lia.
  - destruct P as (C & _). destruct (file_sect_in _ LO _ _ _ C Hk) as (Hc' & HI & I). destruct (cluster_visible _ LO _ _ Hc' I) as (_ & NF & _).
    constructor; [exact Vi | exact NF|]. intros c Hc [[]|E0] I2. cbn [tab_sect] in I2.
    assert (c = nth_clust (c0 :: l) (k / csize (lay s))) as Ec by (exact (clusters_apart _ LO _ _ _ I2 I)).
    rewrite <- Ec in HI. pose proof (chain_entry _ _ _ _ LO C HI). lia.
Qed.

Section Kept.
Context `{D : DiskIo} {DL : DiskLaws D}.
Variables (s s' : vol) (ob : FFOBJID) (l : list Z) (i : Z).
Hypothesis HT : table s ob l.
Hypothesis HI : 0 <= i < entries (lay s) l.

Lemma chain_in c : In c l -> cluster (lay s) c /\ fat_entry s c <> 0.
Proof.
  intros Hc. pose proof (tb_place _ _ _ HT) as P. destruct l as [|c0 l']; [contradiction|]. destruct P as (C & _).
  split; [now apply (chain_clusters _ _ _ C)|]. pose proof (chain_entry _ _ _ _ (vo_layout s (tb_vol _ _ _ HT)) C Hc). lia.
Qed.

Lemma same_dir_edit : vol_ok s' -> same_disk s s' -> dir_edit l i s s'.
Proof.
  intros V' S. pose proof (ev_layout _ _ _ S) as L. constructor; [exact V' | exact L | | |].
  - intros c Hc. apply disk_entry; [apply HT | exact S | now apply chain_in].
  - intros k Hk _. apply (ev_view _ _ _ S). now apply (tab_sect_ok s ob l).
  - unfold esec. rewrite L, (ev_view _ _ _ S); [reflexivity|]. apply (tab_sect_ok s ob l); [exact HT | now apply entry_sect].
Qed.

Lemma overwritten_dir o : winsect (fs s) = tab_sect (lay s) l (i / 16) -> overwritten (eofs i) o [] s s' -> dir_edit l i s s'.
Proof.
  intros W [EA L C EW KT KD KR]. rewrite W in *. constructor; [apply EA | exact L | | |].
  - intros c Hc. rewrite KT by (now apply chain_in). reflexivity.
  - intros k Hk N. destruct (dir_place s ob l k HT Hk) as [P1 P2 _]. now apply KR.
  - unfold esec. now rewrite L.
Qed.

Lemma around_dir l' : vol_ok s' -> grows s [] l' -> around (tab_sect (lay s) l (i / 16)) (eofs i) l' s s' -> dir_edit l i s s'.
Proof.
  intros V' [_ G] [L KT KR KE]. assert (forall c, In c l' -> cluster (lay s) c /\ fat_entry s c = 0) as F by (intros c Hc; destruct (G c Hc) as [[]|H]; exact H).
  constructor; [exact V' | exact L | | |].
  - intros c Hc. destruct (chain_in c Hc) as [Hcl N0].
    destruct (KT c Hcl) as [E|[E _]]; [intros Hin; destruct (F c Hin); contradiction | exact E | contradiction].
  - intros k Hk N. destruct (dir_place s ob l k HT Hk) as [P1 P2 P3]. apply KR; auto. intros c Hc. destruct (F c Hc). apply P3; auto.
  - unfold esec. now rewrite L.
Qed.

End Kept.

(** ** The name of a path *)

(** The short name that create_name makes of a path. *)
Definition alias (p : list Z) : list Z :=
  match create_name p (repeat 0 256) with Ok (Some (_, fn, _)) => fn | _ => [] end.

Lemma zero_buf : lfn_buf (repeat 0 256).
Proof. split; [reflexivity|]. apply Forall_forall. intros x Hx. apply repeat_spec in Hx as ->. in_range. Qed.

(** A path of one segment, which can be a name. *)
Record simple_path (path : list Z) : Prop := {
  sp_path : is_path (strip_seps path);
  sp_name : nameable (strip_seps path) = true;
  sp_last : byte_at (strip_seps path) (zlen (segment (strip_seps path))) < 32
}.

Lemma create_name_alias p b : is_path p -> nameable p = true -> byte_at p (zlen (segment p)) < 32 -> lfn_buf b ->
  exists b' next, create_name p b = Ok (Some (b', alias p, next)) /\ in_buf (made_of p) b' /\ short_ok true (alias p).
Proof.
  intros P N La LB. destruct (create_name_ok p b P LB) as (r & E & R). rewrite N in R. destruct R as (b' & fn & next & -> & IB & SO & _).
  destruct (create_name_ok p (repeat 0 256) P zero_buf) as (r2 & E2 & R2). rewrite N in R2. destruct R2 as (b2 & fn2 & next2 & -> & _ & _ & _).
  pose proof (create_name_same p _ _ _ _ P zero_buf LB E2 E) as X. cbn [fst snd] in X.
  assert (alias p = fn) as -> by (unfold alias; rewrite E2; congruence). exists b', next. split; [exact E|]. split; [exact IB|].
  now rewrite (proj2 (Z.ltb_lt _ _) La) in SO.
Qed.

Lemma first_char p : nameable p = true -> exists c q, p = c :: q /\ 32 <= c.
Proof.
  unfold nameable, made_of. intros N. apply andb_prop in N as [_ N]. destruct p as [|c q]; [discriminate|]. exists c, q. split; [reflexivity|].
  cbn [segment] in N. destruct (Z.ltb_spec c 32); [discriminate | lia].
Qed.

Section Follow.
Context `{D : DiskIo} {DL : DiskLaws D} {HP : FfHeap}.
Variables (s : vol) (ob : FFOBJID) (l path : list Z) (os : list dobj).
Hypothesis HT : table s ob l.
Hypothesis HO : sclust ob = 0.
Hypothesis HL : listed s l 0 os.
Hypothesis HP0 : simple_path path.

Let p := strip_seps path.

(** follow_path in the root directory looks the name up. *)
Lemma follow_root_wp b dp s1 : lfn_buf b -> vol_ok s1 -> same_disk s s1 ->
  wp (follow_path b path dp) (fun y s' => let '(res, b', dp') := y in
    in_buf (made_of p) b' /\ short_ok true (alias p) /\ found s ob l (made_of p) (alias p) os (res, dp') s') s1.
Proof.
  intros LB V1 S1. destruct HP0 as [P N La]. fold p in P, N, La. unfold follow_path. fold p.
  destruct (first_char p N) as (c & q & Ep & Hc). apply wp_bind. eapply wp_lift; [rewrite Ep; reflexivity|].
  rewrite (proj2 (Z.ltb_ge c 32)) by lia. cbn [iter]. unfold follow_turn at 1. set (dp0 := set_d_obj _ dp).
  destruct (create_name_alias p b P N La LB) as (b' & next & Ec & IB & SO). pose proof SO as ([[Lf Bf] _] & _ & (_ & TL & _)).
  apply wp_bind, wp_bind. eapply wp_lift; [exact Ec|]. apply wp_bind.
  eapply wp_conseq; [apply (dir_find_after s ob l (made_of p) b' HT IB (set_d_fn (alias p) dp0) (alias p) os s1); auto|].
  intros [res dp1] s2 FD. pose proof FD as (_ & _ & [Fn _] & _). cbn [snd] in Fn. rewrite Fn.
  apply wp_bind. eapply wp_lift; [apply byte_at_get; unfold zlen in Lf; lia|].
  assert ((Z.land (byte_at (alias p) 11) NS_LAST =? 0) = false) as ->.
  { apply Z.eqb_neq. change NS_LAST with (2 ^ 2). rewrite land_bit by lia. now rewrite TL. }
  cbn [negb]. destruct (fr_ok res) eqn:Er; cbn [negb].
  - destruct res; try discriminate. wp_norm. auto.
  - assert (match res with FR_NO_FILE => FR_NO_FILE | r => r end = res) as -> by (now destruct res). wp_norm. auto.
Qed.

End Follow.

(** A segment is not the origin directory. *)
Lemma named_segment f : 0 <= f < 2 ^ 5 -> Z.land f NS_NONAME = 0.
Proof.
  intros R. change NS_NONAME with (2 ^ 7). apply land_bit; [lia|]. rewrite <- (Z.mod_small f (2 ^ 5)) by exact R. now apply Z.mod_pow2_bits_high; lia.
Qed.

(** ** A file created *)

Lemma first_unique {A} (P : A -> Prop) l1 a l2 m1 c m2 : l1 ++ a :: l2 = m1 ++ c :: m2 ->
  Forall (fun o => ~ P o) l1 -> P a -> Forall (fun o => ~ P o) m1 -> P c -> a = c.
Proof.
  revert m1. induction l1 as [|z l1 IH]; intros [|w m1] E F1 Pa F2 Pc; cbn in E; injection E as E1 E2; subst; auto.
  - now inversion F2.
  - now inversion F1.
  - inversion F1; inversion F2; subst. now apply (IH m1).
Qed.

Lemma listed_shorts s l i os : listed s l i os -> 0 <= i -> Forall (fun o => short_at s l (do_at o)) os.
Proof.
  induction 1 as [|i Hi E0|i os Hi Sk HL' IH|i os Hi Sh HL' IH|i a ck os Hi He W L P Sh Sk HL' IH]; intros H0; auto.
  - apply IH. lia.
  - constructor; [exact Sh | apply IH; lia].
  - pose proof (pieces_20 a L). constructor; [exact Sh | apply IH; lia].
Qed.

Lemma sought_names s s' l x fn o : (forall k, 0 <= k < 11 -> ebyte s' l (do_at o) k = ebyte s l (do_at o) k) ->
  sought s' l x fn o <-> sought s l x fn o.
Proof.
  intros E. unfold sought.
  assert ((forall k, 0 <= k < 11 -> ebyte s' l (do_at o) k = byte_at fn k) <-> (forall k, 0 <= k < 11 -> ebyte s l (do_at o) k = byte_at fn k)) as ->; [|reflexivity].
  split; intros H k Hk; [rewrite <- E by exact Hk | rewrite E by exact Hk]; auto.
Qed.

(** An entry of zeros is that of a file of no bytes. *)
Lemma zero_entry t w o : is_sector w -> 0 <= o <= SS - 32 -> (forall k, 13 <= k < 32 -> byte_at w (o + k) = 0) -> entry_holds t w o 0 0.
Proof.
  intros Sw Ho Z. pose proof Sw as [L B]. split.
  - rewrite ld_clust_ok by assumption. unfold le2. rewrite <- !Z.add_assoc. rewrite !Z by lia. now destruct (t =? FS_FAT32).
  - rewrite ld_dword_ok by (auto; rewrite ?L; unfold SS in *; lia). unfold le4. rewrite <- !Z.add_assoc. now rewrite !Z by lia.
Qed.

(** A directory whose volume looks the same is the same directory. *)
Lemma dir_same s s1 ob l os : table s ob l -> listed s l 0 os -> tidy s l -> vol_ok s1 -> same_disk s s1 ->
  table s1 ob l /\ listed s1 l 0 os /\ tidy s1 l.
Proof.
  intros HT HL TD V1 S1. pose proof (ev_layout _ _ _ S1) as L1.
  assert (forall j, 0 <= j < entries (lay s) l -> same_entry s s1 l j) as SE by (intros j Hj; now apply (disk_same_entry s ob l HT)).
  split; [exact (table_same _ _ _ _ HT V1 S1)|]. split.
  - apply (listed_from s); auto; [apply HT | intros j Hj; left; now apply SE].
  - intros i j Hi Hj E. rewrite L1 in Hj. rewrite SE in E |- * by lia. apply (TD i j); auto.
Qed.

Lemma absent_same s s1 ob l path os : table s ob l -> listed s l 0 os -> same_disk s s1 ->
  Forall (fun o => ~ sought s1 l (made_of (strip_seps path)) (alias (strip_seps path)) o) os ->
  Forall (fun o => ~ sought s l (made_of (strip_seps path)) (alias (strip_seps path)) o) os.
Proof.
  intros HT HL S1 H. pose proof (listed_range l s 0 os HL ltac:(lia)) as RG. rewrite Forall_forall in *.
  intros o Ho So. apply (H o Ho). now apply (sought_disk s ob l _ HT s1 _ o S1 (RG o Ho)).
Qed.

Section Create.
Context `{D : DiskIo} {DL : DiskLaws D} {HP : FfHeap}.
Variables (s : vol) (ob : FFOBJID) (l path : list Z) (os : list dobj) (q : Z).
Hypothesis HT : table s ob l.
Hypothesis HO : sclust ob = 0.
Hypothesis HL : listed s l 0 os.
Hypothesis HTD : tidy s l.
Hypothesis HP0 : simple_path path.

Let p := strip_seps path.
Let x := made_of p.
Let fn := alias p.

(** No object has the name yet. *)
Definition absent : Prop := Forall (fun o => ~ sought s l x fn o) os.

(** [o] is the first object that has it. *)
Definition holds_name (o : dobj) : Prop :=
  exists os1 os2, os = os1 ++ o :: os2 /\ Forall (fun o => ~ sought s l x fn o) os1 /\ sought s l x fn o.

Lemma held_not_absent o : holds_name o -> ~ absent.
Proof. intros (os1 & os2 & E & _ & So). unfold absent. rewrite E, Forall_app, Forall_cons_iff. tauto. Qed.

(** What f_open answers then. *)
Definition exist_answer (o : dobj) : FRESULT :=
  if Z.land (eattr s l (do_at o)) (Z.lor AM_RDO AM_DIR) =? 0 then FR_EXIST else FR_DENIED.

(** The file is there, open for writing, and empty; the directory lists it. *)
Record created (fp : FIL) (s' : vol) : Prop := {
  cr_file : file_ok s' fp [] /\ opened s' fp /\ entry_place s' fp [];
  cr_new : has FA_WRITE fp = true /\ fptr fp = 0 /\ objsize (obj fp) = 0;
  cr_place : dir_sect fp = tab_sect (lay s) l (do_at (new_obj x fn q) / 16) /\ dir_ofs fp = eofs (do_at (new_obj x fn q));
  cr_layout : lay s' = lay s /\ (calls s <= calls s')%nat;
  cr_fat : forall c, cluster (lay s) c -> fat_entry s' c = fat_entry s c;
  cr_table : table s' ob l /\ 0 <= do_at (new_obj x fn q) < entries (lay s) l;
  cr_entry : short_at s' l (do_at (new_obj x fn q)) /\ forall b, b <> 5 -> Z.testbit (ebyte s' l (do_at (new_obj x fn q)) 11) b = false;
  cr_listed : exists os1 os2, os = os1 ++ os2 /\ listed s' l 0 (os1 ++ new_obj x fn q :: os2) /\
    Forall (fun o => ~ sought s' l x fn o) os1 /\ (zlen x < FF_MAX_LFN -> sought s' l x fn (new_obj x fn q))
}.

Lemma name_ok : 1 <= zlen x /\ short_ok true fn.
Proof.
  destruct HP0 as [P N La]. fold p in P, N, La. destruct (create_name_alias p (repeat 0 256) P N La zero_buf) as (b' & n & _ & (_ & _ & _ & _) & SO).
  split; [|exact SO]. unfold nameable in N. apply andb_prop in N as [_ N]. fold x in N. unfold zlen in *. destruct (Z.eqb_spec (Z.of_nat (length x)) 0); [discriminate | lia].
Qed.

(** The new object has the name. *)
Lemma new_sought s' fn' : chosen s l fn os fn' -> (forall k, 0 <= k < 11 -> ebyte s' l (do_at (new_obj x fn q)) k = byte_at fn' k) -> zlen x < FF_MAX_LFN ->
  sought s' l x fn (new_obj x fn q).
Proof.
  intros CH FE Lx. destruct name_ok as [_ (_ & _ & (R & _ & LS))]. unfold sought, new_obj, long, lossy in *. cbn [do_name].
  change NS_LFN with (2 ^ 1) in *. change NS_LOSS with (2 ^ 0) in *. destruct (Z.eqb_spec (Z.land (byte_at fn 11) (2 ^ 1)) 0) as [E|E]; cbn [negb].
  - right. assert (Z.land (byte_at fn 11) (2 ^ 0) = 0) as E0.
    { apply land_bit; [lia|]. apply land_bit in E; [|lia]. destruct (Z.testbit (byte_at fn 11) 0); [rewrite LS in E; auto | reflexivity]. }
    assert (fn' = fn) as Efn by (apply (ch_plain _ _ _ _ _ CH); unfold lossy; change NS_LOSS with (2 ^ 0); now rewrite E0).
    split; [exact E0|]. intros k Hk. pose proof (FE k Hk) as X. rewrite Efn in X. exact X.
  - left. split; [|exists x; split; [reflexivity | split; [exact Lx | reflexivity]]].
    unfold no_lfn. change NS_NOLFN with (2 ^ 6). assert (Z.land (byte_at fn 11) (2 ^ 6) = 0) as ->; [|reflexivity].
    apply land_bit; [lia|]. rewrite <- (Z.mod_small (byte_at fn 11) (2 ^ 5)) by (eval_pow; lia). now apply Z.mod_pow2_bits_high; lia.
Qed.

(** The objects that were there keep their names. *)
Lemma old_names s1 s2 s4 dj o : same_disk s s1 -> vol_ok s1 -> entered s1 ob l x fn os q dj s2 -> first_run s1 l (n_entries x fn) q ->
  (forall j, 0 <= j < entries (lay s) l -> like_entry s2 s4 l j) -> In o os ->
  forall k, 0 <= k < 11 -> ebyte s4 l (do_at o) k = ebyte s l (do_at o) k.
Proof.
  intros S1 V1 EN [R0 RF _] LK Ho k Hk. pose proof (ev_layout _ _ _ S1) as L1. destruct EN as [V2 ED _ _ _ _ _ _].
  pose proof (table_same _ _ _ _ HT V1 S1) as T1.
  assert (0 <= do_at o < entries (lay s) l) as Ro by (pose proof (listed_range l s 0 os HL ltac:(lia)) as F; rewrite Forall_forall in F; now apply F).
  assert (short_at s1 l (do_at o)) as Sh.
  { apply (same_short_at s); [now apply (disk_same_entry s ob l HT)|]. pose proof (listed_shorts s l 0 os HL ltac:(lia)) as F.
    rewrite Forall_forall in F. now apply F. }
  rewrite (like_byte s2 s4 l (do_at o) (LK _ Ro) k Hk). rewrite L1 in R0.
  rewrite (edits_entry s1 ob l T1 q (q + n_entries x fn) s2 (do_at o)); rewrite ?L1; auto; try lia.
  - apply (disk_same_entry s ob l HT s1 (do_at o) S1 Ro). lia.
  - destruct (Z_lt_dec (do_at o) q) as [|N1]; [now left|]. destruct (Z_le_dec (q + n_entries x fn) (do_at o)) as [|N2]; [now right|].
    pose proof (short_not_free _ _ _ Sh) as E. rewrite RF in E by lia. discriminate.
Qed.

(** The new entry, ready to be opened. *)
Lemma new_entry_at s1 s2 dj : lay s1 = lay s -> entered s1 ob l x fn os q dj s2 -> table s2 ob l -> 0 <= do_at (new_obj x fn q) < entries (lay s) l ->
  d_dir dj = eofs (do_at (new_obj x fn q)) /\ winsect (fs s2) = tab_sect (lay s) l (do_at (new_obj x fn q) / 16) /\
  entry_at s2 (d_dir dj) (FatOpen.blank (d_obj dj)) [].
Proof.
  intros L1 [V2 ED St W Sc [_ [FE1 _ FE2]] TD _] T2 Hi. pose proof (ed_layout _ _ _ _ _ ED) as L2. rewrite L1 in *. pose proof (eofs_range (do_at (new_obj x fn q))).
  assert (d_dir dj = eofs (do_at (new_obj x fn q))) as Ed by apply St. pose proof (st_sect _ _ _ _ St) as Es. rewrite Es in W.
  split; [exact Ed|]. split; [exact W|]. constructor; auto; [apply T2 | | | now left | cbn; unfold room; cbn; lia].
  - split; [rewrite Ed; unfold SS; lia|]. rewrite W, <- L2. apply (dir_place s2 ob l); [exact T2|]. rewrite L2. now apply entry_sect.
  - rewrite Ed. apply zero_entry; [apply V2 | unfold SS; lia|]. intros k Hk. rewrite <- (FE2 k) by lia. unfold ebyte, esec, view.
    now rewrite L2, <- W, Z.eqb_refl.
Qed.

(** The directory lists the new object, the first one of its name. *)
Lemma listed_after s1 s2 s4 dj : same_disk s s1 -> vol_ok s1 -> absent -> first_run s1 l (n_entries x fn) q -> entered s1 ob l x fn os q dj s2 ->
  vol_ok s4 -> lay s4 = lay s2 -> (forall j, 0 <= j < entries (lay s) l -> like_entry s2 s4 l j) ->
  exists os1 os2, os = os1 ++ os2 /\ listed s4 l 0 (os1 ++ new_obj x fn q :: os2) /\
    Forall (fun o => ~ sought s4 l x fn o) os1 /\ (zlen x < FF_MAX_LFN -> sought s4 l x fn (new_obj x fn q)).
Proof.
  intros S1 V1 AB FRn EN V4 L4 LK. pose proof (ev_layout _ _ _ S1) as L1. pose proof EN as [V2 ED St _ _ [CH [FE1 _ _]] _ (os1 & os2 & Eos & LS)].
  pose proof (ed_layout _ _ _ _ _ ED) as L2. rewrite L1 in *. pose proof (st_range _ _ _ _ St) as Hi.
  exists os1, os2. split; [exact Eos|]. split; [apply (listed_from s2); auto; intros j Hj; apply LK; now rewrite <- L2|]. split.
  - unfold absent in AB. rewrite Eos in AB. apply Forall_app in AB as [AB _]. rewrite Forall_forall in AB |- *. intros o Ho.
    rewrite (sought_names s s4); [now apply AB|]. apply (old_names s1 s2 s4 dj); auto. rewrite Eos. apply in_or_app. now left.
  - intros Lx. apply (new_sought s4 (d_fn dj)); auto.
    + destruct CH as [H1 H2 H3 H4 H5]. constructor; auto. intros E. specialize (H5 E). rewrite Forall_forall in *. intros o Ho N.
      apply (H5 o Ho). intros k Hk. rewrite <- N by exact Hk. apply (disk_same_entry s ob l HT); [exact S1 | | lia].
      pose proof (listed_range l s 0 os HL ltac:(lia)) as F. rewrite Forall_forall in F. now apply F.
    + intros k Hk. rewrite (like_byte s2 s4 l _ (LK _ Hi) k Hk). now apply FE1.
Qed.

(** The rest of f_open once the name is in the directory. *)
Lemma entered_wp fp dj s1 s2 : same_disk s s1 -> vol_ok s1 -> absent -> first_run s1 l (n_entries x fn) q -> entered s1 ob l x fn os q dj s2 ->
  wp (res <- overwrite_fat (d_obj dj) (d_dir dj) ;;
      if fr_ok res then open_fat fp (Z.lor 6 FA_CREATE_ALWAYS) (d_dir dj) else ret (res, set_obj (set_o_fs false (obj fp)) fp))
    (fun y s' => fst y = FR_OK /\ created (snd y) s' \/ fst y = FR_DISK_ERR /\ failed s s') s2.
Proof.
  intros S1 V1 AB FRn EN. pose proof (ev_layout _ _ _ S1) as L1. pose proof EN as [V2 ED _ _ _ [CH [FE1 _ FE2]] _ _].
  pose proof (ed_layout _ _ _ _ _ ED) as L2. pose proof (ed_calls _ _ _ _ _ ED) as C2. pose proof (ev_calls _ _ _ S1) as C1.
  destruct name_ok as [HX SO]. destruct (run_range _ _ _ _ FRn) as [R0 R1]. rewrite L1 in R1.
  pose proof (edits_table s1 ob l (table_same _ _ _ _ HT V1 S1) q (q + n_entries x fn) s2 R0 ltac:(rewrite L1; exact R1) V2 ED) as T2.
  set (i := do_at (new_obj x fn q)) in *.
  assert (0 <= i < entries (lay s) l) as Hi.
  { pose proof (st_range _ _ _ _ (en_stands _ _ _ _ _ _ _ _ _ EN)) as X. now rewrite L1 in X. }
  destruct (new_entry_at s1 s2 dj L1 EN T2 Hi) as (Ed & W & EA). fold i in Ed, W. rewrite Ed in *. rewrite L1 in L2.
  assert (0 <= i < entries (lay s2) l) as Hi2 by now rewrite L2.
  apply wp_bind. wp_use (overwrite_fat_wp (d_obj dj) (eofs i) (FatOpen.blank (d_obj dj)) [] s2 EA).
  intros r s3 [[-> OW]|[-> FL]]; cbn [fr_ok]; [|apply wp_ret; right; split; [reflexivity | apply (failed_r _ s2); [exact FL | lia]]].
  pose proof (ow_layout _ _ _ _ _ OW) as L3. pose proof (ow_calls _ _ _ _ _ OW) as C3.
  assert (dir_edit l i s2 s3) as DE3 by (eapply (overwritten_dir s2 s3 ob l i T2); [exact Hi2 | rewrite L2; exact W | exact OW]).
  wp_use (open_fat_wp fp (Z.lor 6 FA_CREATE_ALWAYS) (eofs i) _ [] s3 (ow_entry _ _ _ _ _ OW) eq_refl).
  intros [r fp4] s4 (V4 & Q4 & R). cbn [fst snd] in R. pose proof (qu_disk _ _ Q4) as D4. pose proof (ev_calls _ _ _ D4) as C4.
  destruct R as [(-> & FO & _ & OP & Eo & Ef & Ep & Es & Eofs)|(-> & FL & _)]; [|right; split; [reflexivity | apply (failed_r _ s3); [exact FL | lia]]].
  left. split; [reflexivity|]. cbn [snd].
  pose proof (dir_edit_table s2 s3 ob l i T2 Hi2 DE3) as T3.
  assert (dir_edit l i s2 s4) as DE.
  { apply (dir_edit_trans _ _ _ s3); [exact DE3|]. apply (same_dir_edit s3 s4 ob l i T3); auto. now rewrite L3, L2. }
  pose proof (dir_edit_table s2 s4 ob l i T2 Hi2 DE) as T4. pose proof (de_layout _ _ _ _ DE) as L4. rewrite L2 in L4.
  assert (short_at s2 l i) as Sh by (unfold short_at, eattr; rewrite FE1, (FE2 11) by (lia || now left); destruct (ch_first _ _ _ _ _ CH); auto).
  assert (forall j, 0 <= j < entries (lay s) l -> like_entry s2 s4 l j) as LK.
  { intros j Hj. apply (dir_edit_like s2 s4 ob l i T2 Hi2 DE); [exact Sh | now rewrite L2]. }
  constructor.
  - split; [exact FO|]. split; [exact OP|]. split; [rewrite Eofs; pose proof (eofs_range i); unfold SS; lia|].
    rewrite Es, (ow_win _ _ _ _ _ OW), W, <- L4. apply (dir_place s4 ob l); [exact T4|]. rewrite L4. now apply entry_sect.
  - split; [unfold has; now rewrite Ef|]. split; [exact Ep | now rewrite Eo].
  - now rewrite Es, (ow_win _ _ _ _ _ OW).
  - split; [exact L4 | lia].
  - intros c Hc. rewrite (disk_entry s3 s4 c (ea_vol _ _ _ _ (ow_entry _ _ _ _ _ OW)) D4) by (now rewrite L3, L2).
    rewrite (ow_table _ _ _ _ _ OW) by (now rewrite L2). unfold freed. cbn [in_dec]. 
    rewrite (edits_fat s1 ob l (table_same _ _ _ _ HT V1 S1) q (q + n_entries x fn) s2 c R0 ltac:(rewrite L1; exact R1) V2 ED) by (now rewrite L1).
    now apply disk_entry; [apply HT | exact S1 |].
  - now split.
  - split; [exact (like_short_at s2 s4 l i (LK i Hi) Sh)|]. intros b Nb. apply (dir_edit_attr s2 s4 l i DE b Nb). rewrite (FE2 11) by now left. apply Z.bits_0.
  - apply (listed_after s1 s2 s4 dj); auto. congruence.
Qed.

(** f_open with FA_WRITE and FA_CREATE_NEW. *)
Lemma f_open_new_wp b dj fp : lfn_buf b -> (absent -> first_run s l (n_entries x fn) q) ->
  wp (f_open_fat b dj fp path 6) (fun y s' =>
    fst y = FR_OK /\ absent /\ created (snd y) s' \/
    (exists o, holds_name o /\ fst y = exist_answer o) /\ vol_ok s' /\ same_disk s s' \/
    fst y = FR_DENIED /\ absent /\ lossy fn = true /\ numbers_taken s l x fn os /\ vol_ok s' /\ same_disk s s' \/
    fst y = FR_NOT_ENOUGH_CORE /\ ff_memalloc (calls s) NAMBUF = false /\ s' = s \/
    fst y = FR_DISK_ERR /\ failed s s') s.
Proof.
  intros LB HR. pose proof (tb_vol _ _ _ HT) as V. unfold f_open_fat. change (Z.land 6 MODES) with 6. apply wp_bind, wp_gets.
  destruct (ff_memalloc (calls s) NAMBUF) eqn:EM; cbn [negb]; [|apply wp_ret; auto 10].
  apply wp_bind. wp_use (follow_root_wp s ob l path os HT HO HL HP0 b (set_d_obj (set_o_fs true (d_obj dj)) dj) s LB V); [reflexivity|]. fold p x fn.
  intros [[res b'] dj1] s1 (IB & SO & V1 & S1 & [Fn Sc] & R). cbn [fst snd] in *. pose proof SO as ([[Lf Bf] _] & _ & (Rf & _)).
  apply wp_bind. rewrite Fn. eapply wp_lift; [apply byte_at_get; unfold zlen in Lf; lia|].
  rewrite (named_segment _ Rf). change (negb (0 =? 0)) with false. rewrite andb_false_r. unfold open_object.
  change (negb (Z.land 6 (Z.lor FA_CREATE_ALWAYS (Z.lor FA_OPEN_ALWAYS FA_CREATE_NEW)) =? 0)) with true. cbv iota.
  destruct R as [(-> & FL)|[(-> & AB)|(-> & os1 & o & os2 & Eos & NS & So & _ & _ & Ea & _)]]; cbn [fr_ok andb].
  - wp_norm. cbn [fr_ok andb]. wp_norm. cbn [fr_ok fst snd]. wp_norm. cbn [fst]. auto 10.
  - fold absent in AB. destruct name_ok as [HX _]. pose proof (table_same _ _ _ _ HT V1 S1) as T1. pose proof (ev_calls _ _ _ S1) as C1.
    destruct (dir_same s s1 ob l os HT HL HTD V1 S1) as (_ & HL1 & TD1).
    pose proof (first_run_disk s ob l x b' fn q HT IB HX (HR AB) s1 S1) as FR1.
    wp_norm. wp_use (dir_register_wp s1 ob l x b' fn true os q T1 IB HX SO HL1 TD1 FR1 dj1 Fn Sc).
    intros [r dj2] s2 RG. cbn [fst snd] in RG. unfold registers in RG. cbn [fst snd] in RG. wp_norm.
    destruct RG as [(-> & EN)|[(-> & LY & TK & V2 & S2)|(-> & FL & _)]]; cbn [fr_ok].
    + change (true && negb (Z.land (Z.lor 6 FA_CREATE_ALWAYS) FA_CREATE_ALWAYS =? 0)) with true. cbv iota.
      pose proof (entered_wp fp dj2 s1 s2 S1 V1 AB FR1 EN) as H. apply wp_bind in H. eapply wp_conseq; [exact H|]. intros r s3 H3. wp_norm.
      eapply wp_conseq; [exact H3|]. intros y s4 [[E C]|E]; auto 10.
    + cbn [andb]. wp_norm. cbn [fr_ok]. wp_norm. cbn [fst]. right. right. left. split; [reflexivity|].
      split; [exact AB|]. split; [exact LY|]. split; [exact (numbers_taken_disk s ob l x HT s1 fn os S1 HL TK)|]. split; [exact V2 | etransitivity; eassumption].
    + cbn [andb]. wp_norm. cbn [fr_ok]. wp_norm. cbn [fst]. do 4 right. split; [reflexivity|]. apply (failed_r _ s1); [exact FL | exact C1].
  - assert (holds_name o) as HN by (exists os1, os2; auto).
    wp_norm. change (negb (Z.land 6 FA_CREATE_NEW =? 0)) with true. cbv iota. rewrite Ea.
    assert (forall (y : FRESULT * FIL) s', fst y = exist_answer o -> vol_ok s' /\ same_disk s s' -> (exists o, holds_name o /\ fst y = exist_answer o) /\ vol_ok s' /\ same_disk s s') as K by eauto.
    unfold exist_answer in K. destruct (Z.land (eattr s l (do_at o)) (Z.lor AM_RDO AM_DIR) =? 0); cbn [negb fr_ok andb]; wp_norm; cbn [fr_ok]; wp_norm; right; left; auto.
Qed.

End Create.

(** ** A file overwritten *)

(** Entry [i] of the directory is that of a file on the chain [fl], which has no
    cluster of the directory; [fo] has its first cluster and its size. *)
Record file_entry (s : vol) (l : list Z) (i : Z) (fo : FFOBJID) (fl : list Z) : Prop := {
  fe_entry : entry_holds (fs_type (lay s)) (esec s l i) (eofs i) (sclust fo) (objsize fo);
  fe_chain : file_chain s fo fl;
  fe_size : 0 <= objsize fo <= room (lay s) fl * SS /\ objsize fo < 2 ^ 32;
  fe_apart : forall c, In c l -> ~ In c fl
}.

Lemma dir_place_apart s ob l fl k : table s ob l -> (forall c, In c l -> ~ In c fl) -> 0 <= k < tab_sects (lay s) l ->
  own_place s fl (tab_sect (lay s) l k).
Proof.
  intros T A Hk. destruct (dir_place s ob l k T Hk) as [P1 P2 P3]. constructor; auto. intros c Hc [HI|H0]; [|apply P3; auto].
  pose proof (vo_layout s (tb_vol _ _ _ T)) as LO. pose proof (tb_place _ _ _ T) as P. intros I. destruct l as [|c0 l].
  - destruct P as (_ & _ & _ & _ & H1 & H2). cbn [tab_sect tab_sects] in *.
    destruct (cluster_visible _ LO c _ Hc I) as (_ & _ & DA). unfold in_data in DA. lia.
  - destruct P as (C & _). destruct (file_sect_in _ LO _ _ _ C Hk) as (_ & HI2 & I2). cbn [tab_sect] in I.
    rewrite <- (clusters_apart _ LO _ _ _ I I2) in HI2. exact (A c HI2 HI).
Qed.

Section Overwrite.
Context `{D : DiskIo} {DL : DiskLaws D} {HP : FfHeap}.
Variables (s : vol) (ob : FFOBJID) (l path : list Z) (os : list dobj) (o : dobj) (fo : FFOBJID) (fl : list Z).
Hypothesis HT : table s ob l.
Hypothesis HO : sclust ob = 0.
Hypothesis HL : listed s l 0 os.
Hypothesis HP0 : simple_path path.
Hypothesis HN : holds_name s l path os o.

Let i := do_at o.

(** The object may be overwritten: it is neither read-only nor a directory. *)
Definition writable : Prop := Z.land (eattr s l i) (Z.lor AM_RDO AM_DIR) = 0.

Hypothesis HF : writable -> file_entry s l i fo fl.

(** The file is open and empty, its old chain is free; nothing else has changed
    but its entry, which keeps its name. *)
Record emptied (fp : FIL) (s' : vol) : Prop := {
  em_file : file_ok s' fp [] /\ opened s' fp /\ has FA_WRITE fp = true /\ objsize (obj fp) = 0 /\ fptr fp = 0;
  em_place : dir_sect fp = tab_sect (lay s) l (i / 16) /\ dir_ofs fp = eofs i;
  em_layout : lay s' = lay s;
  em_fat : forall c, cluster (lay s) c -> fat_entry s' c = freed fl (fat_entry s) c;
  em_rest : forall n, visible (lay s) n -> ~ (fatbase (lay s) <= n < fatbase (lay s) + fsize (lay s)) ->
            n <> tab_sect (lay s) l (i / 16) -> view s' n = view s n;
  em_entry : entry_edit (eofs i) (esec s l i) (esec s' l i);
  em_listed : listed s' l 0 os
}.

Lemma named_range : 0 <= i < entries (lay s) l /\ short_at s l i.
Proof.
  destruct HN as (os1 & os2 & E & _). assert (In o os) as Ho by (rewrite E; apply in_elt).
  pose proof (listed_range l s 0 os HL ltac:(lia)) as F1. pose proof (listed_shorts s l 0 os HL ltac:(lia)) as F2.
  rewrite Forall_forall in F1, F2. split; [now apply F1 | now apply F2].
Qed.

(** The entry in the window, as the rest of f_open finds it. *)
Lemma named_entry_at s1 : writable -> vol_ok s1 -> same_disk s s1 -> win (fs s1) = esec s l i ->
  winsect (fs s1) = tab_sect (lay s) l (i / 16) -> entry_at s1 (eofs i) fo fl.
Proof.
  intros W V1 S1 Ew Es. destruct (HF W) as [FE FC FS FA]. destruct named_range as [Hi _]. pose proof (ev_layout _ _ _ S1) as L1.
  pose proof (table_same _ _ _ _ HT V1 S1) as T1. pose proof (eofs_range i). constructor; rewrite ?L1; auto.
  - apply (tb_type _ _ _ HT).
  - split; [unfold SS; lia|]. rewrite Es, <- L1. apply (dir_place_apart s1 ob); auto. rewrite L1. now apply entry_sect.
  - now rewrite Ew.
  - destruct FC as [FC|[FC E]]; [now left|]. right. rewrite L1. split; [|exact E]. apply (chain_ext _ (fat_entry s)); [|exact FC].
    intros c Hc. symmetry. apply disk_entry; [apply HT | exact S1 | now apply (chain_clusters _ _ _ FC)].
Qed.

(** The rest of f_open once the name is found. *)
Lemma emptied_wp fp oj s1 : writable -> vol_ok s1 -> same_disk s s1 -> win (fs s1) = esec s l i ->
  winsect (fs s1) = tab_sect (lay s) l (i / 16) ->
  wp (res <- overwrite_fat oj (eofs i) ;;
      if fr_ok res then open_fat fp 10 (eofs i) else ret (res, set_obj (set_o_fs false (obj fp)) fp))
    (fun y s' => fst y = FR_OK /\ emptied (snd y) s' \/ fst y = FR_DISK_ERR /\ failed s s') s1.
Proof.
  intros W V1 S1 Ew Es. pose proof (named_entry_at s1 W V1 S1 Ew Es) as EA. destruct named_range as [Hi Sh].
  pose proof (ev_layout _ _ _ S1) as L1. pose proof (ev_calls _ _ _ S1) as C1.
  apply wp_bind. wp_use (overwrite_fat_wp oj (eofs i) fo fl s1 EA).
  intros r s2 [[-> [E2 L2 C2 W2 T2 D2 R2]]|[-> FL]]; cbn [fr_ok]; [|apply wp_ret; right; split; [reflexivity | now apply (failed_r _ s1)]].
  wp_use (open_fat_wp fp 10 (eofs i) (FatOpen.blank fo) [] s2 E2 eq_refl). intros [r fp'] s3 (V3 & Q3 & R). cbn [fst snd] in *.
  destruct R as [(-> & FO & _ & OP & Eo & Ef & Ep & Ed & Eof)|(-> & FL & _)]; [|right; split; [reflexivity | apply (failed_r _ s2); [exact FL | lia]]].
  left. split; [reflexivity|]. pose proof (ea_vol _ _ _ _ E2) as V2. pose proof (qu_disk _ _ Q3) as D3. rewrite Es, L1 in *.
  assert (dir_edit l i s s3) as DE.
  { destruct (same_updates s2 s3 V2 Q3) as [L3 T3 R3 _ _ _ _ _]. rewrite L2 in *. constructor; [exact V3 | congruence | | |].
    - intros c Hc. destruct (chain_in s ob l i HT Hi c Hc) as [Hc' _]. rewrite T3, T2 by exact Hc'. unfold freed.
      destruct (in_dec Z.eq_dec c fl) as [X|]; [destruct (fe_apart _ _ _ _ _ (HF W) c Hc X)|]. now apply disk_entry; [apply HT|..].
    - intros k Hk N. destruct (dir_place s ob l k HT Hk) as [P1 P2 _]. rewrite R3, R2 by assumption. now apply (ev_view _ _ _ S1).
    - unfold esec. rewrite L3. destruct (dir_place s ob l (i / 16) HT ltac:(now apply entry_sect)) as [P1 P2 _].
      rewrite R3 by assumption. rewrite <- (ev_view _ _ _ S1) by exact P1. exact D2. }
  pose proof (de_layout _ _ _ _ DE) as L3. constructor; auto.
  - split; [exact FO|]. split; [exact OP|]. split; [unfold has; now rewrite Ef|]. split; [now rewrite Eo | exact Ep].
  - split; [congruence | exact Eof].
  - intros c Hc. rewrite (disk_entry s2 s3 c V2 D3), T2 by (rewrite ?L2; exact Hc). unfold freed.
    destruct (in_dec Z.eq_dec c fl); [reflexivity|]. now apply disk_entry; [apply HT|..].
  - intros n Hn Ht Nd. rewrite (ev_view _ _ _ D3), R2 by (rewrite ?L2; assumption). now apply (ev_view _ _ _ S1).
  - apply DE.
  - apply (listed_from s); auto; [apply HT|]. intros j Hj. apply (dir_edit_like s s3 ob l i HT Hi DE); [exact Sh | lia].
Qed.

(** f_open with FA_WRITE and FA_CREATE_ALWAYS. *)
Lemma f_open_always_wp b dj fp : lfn_buf b ->
  wp (f_open_fat b dj fp path 10) (fun y s' =>
    fst y = FR_OK /\ writable /\ emptied (snd y) s' \/
    fst y = FR_DENIED /\ ~ writable /\ o_fs (obj (snd y)) = false /\ vol_ok s' /\ same_disk s s' \/
    fst y = FR_NOT_ENOUGH_CORE /\ ff_memalloc (calls s) NAMBUF = false /\ s' = s \/
    fst y = FR_DISK_ERR /\ failed s s') s.
Proof.
  intros LB. pose proof (tb_vol _ _ _ HT) as V. unfold f_open_fat. change (Z.land 10 MODES) with 10. apply wp_bind, wp_gets.
  destruct (ff_memalloc (calls s) NAMBUF) eqn:EM; cbn [negb]; [|apply wp_ret; auto 10].
  apply wp_bind. wp_use (follow_root_wp s ob l path os HT HO HL HP0 b (set_d_obj (set_o_fs true (d_obj dj)) dj) s LB V); [reflexivity|].
  intros [[res b'] dj1] s1 (IB & SO & V1 & S1 & [Fn Sc] & R). cbn [fst snd] in *. pose proof SO as ([[Lf Bf] _] & _ & (Rf & _)).
  apply wp_bind. rewrite Fn. eapply wp_lift; [apply byte_at_get; unfold zlen in Lf; lia|].
  rewrite (named_segment _ Rf). change (negb (0 =? 0)) with false. rewrite andb_false_r. unfold open_object.
  change (negb (Z.land 10 (Z.lor FA_CREATE_ALWAYS (Z.lor FA_OPEN_ALWAYS FA_CREATE_NEW)) =? 0)) with true. cbv iota.
  destruct HN as (os1 & os2 & Eos & NS & So).
  destruct R as [(-> & FL)|[(-> & AB)|(-> & m1 & o' & m2 & Eos' & NS' & So' & St & _ & Ea & Ew & Es)]]; cbn [fr_ok andb].
  - wp_norm. cbn [fr_ok andb]. wp_norm. cbn [fr_ok fst snd]. wp_norm. cbn [fst]. auto 10.
  - rewrite Eos in AB. apply Forall_app in AB as [_ AB]. inversion AB; contradiction.
  - rewrite Eos in Eos'. pose proof (first_unique _ _ _ _ _ _ _ Eos' NS So NS' So') as <-. fold i in St, Ea, Ew. rewrite Ea.
    rewrite (st_sect _ _ _ _ St) in Es. pose proof (st_dir _ _ _ _ St) as Ed. fold (eofs i) in Ed. wp_norm. unfold writable in *.
    destruct (Z.eqb_spec (Z.land (eattr s l i) (Z.lor AM_RDO AM_DIR)) 0) as [W|W]; cbn [negb].
    + change (negb (Z.land 10 FA_CREATE_NEW =? 0)) with false. cbn [fr_ok andb]. change (negb (Z.land 10 FA_CREATE_ALWAYS =? 0)) with true.
      cbv iota. rewrite Ed. pose proof (emptied_wp fp (d_obj dj1) s1 W V1 S1 Ew Es) as H. apply wp_bind in H.
      eapply wp_conseq; [exact H|]. intros r s2 H2. wp_norm. rewrite Ed. eapply wp_conseq; [exact H2|]. intros y s3 [[E K]|E]; auto 10.
    + cbn [fr_ok andb]. wp_norm. cbn [fr_ok]. wp_norm. right. left. auto 6.
Qed.

End Overwrite.

(** ** Stored and fetched by name *)

Section Files.
Context `{D : DiskIo} {HP : FfHeap}.

(** [f_open(fp, path, FA_WRITE | FA_CREATE_NEW)], f_write and f_close: the bytes
    written, when all succeed.  [b] and [dj] are what the name buffer and the
    directory object on the stack hold. *)
Definition store (b : list Z) (dj : DIR) (fp : FIL) (path buff : list Z) : F (option (Z * FIL)) :=
  '(r, fp) <- f_open_fat b dj fp path (Z.lor FA_WRITE FA_CREATE_NEW) ;;
  if fr_ok r then save fp buff else ret None.

(** [f_open(fp, path, FA_READ)] and f_read of [n] bytes. *)
Definition fetch (b : list Z) (dj : DIR) (fp : FIL) (path : list Z) (n : Z) : F (option (list Z)) :=
  '(r, fp) <- f_open_fat b dj fp path FA_READ ;;
  if fr_ok r then
    '(r, data, _) <- f_read fp n ;;
    ret (if fr_ok r then Some data else None)
  else ret None.

End Files.

Section FilesLaws.
Context `{D : DiskIo} {DL : DiskLaws D} {HP : FfHeap}.
Variables (ob : FFOBJID) (l path : list Z).
Hypothesis HO : sclust ob = 0.
Hypothesis HP0 : simple_path path.

Let x := made_of (strip_seps path).
Let fn := alias (strip_seps path).

(** The directory lists the saved file [fp] as the first object of that name. *)
Record filed (s : vol) (fp : FIL) (l' : list Z) (f : Z -> Z) (o : dobj) : Prop := {
  fl_saved : saved s fp l' f;
  fl_table : table s ob l;
  fl_place : dir_sect fp = tab_sect (lay s) l (do_at o / 16) /\ dir_ofs fp = eofs (do_at o);
  fl_file : Z.testbit (ebyte s l (do_at o) 11) 4 = false;
  fl_listed : exists os1 os2, listed s l 0 (os1 ++ o :: os2) /\ Forall (fun o => ~ sought s l x fn o) os1 /\ sought s l x fn o
}.

Lemma fetch_wp b dj fp0 n s fp l' f o : filed s fp l' f o -> lfn_buf b -> 0 <= n < 2 ^ 32 ->
  wp (fetch b dj fp0 path n) (fun r s' => match r with
    | Some d => Z.of_nat (length d) = Z.min n (objsize (obj fp)) /\ forall i, 0 <= i < Z.of_nat (length d) -> byte_at d i = f i
    | None => failed s s' \/ ff_memalloc (calls s) NAMBUF = false
    end) s.
Proof.
  intros [SV HT [P1 P2] AT (os1 & os2 & HL & NS & So)] LB Hn. pose proof (tb_vol _ _ _ HT) as V. unfold fetch, f_open_fat.
  change (Z.land FA_READ MODES) with 1. apply wp_bind, wp_bind, wp_gets.
  destruct (ff_memalloc (calls s) NAMBUF) eqn:EM; cbn [negb]; [|wp_norm; cbn [fr_ok]; wp_norm; auto].
  apply wp_bind. wp_use (follow_root_wp s ob l path (os1 ++ o :: os2) HT HO HL HP0 b (set_d_obj (set_o_fs true (d_obj dj)) dj) s LB V); [reflexivity|]. fold x fn.
  intros [[res b'] dj1] s1 (IB & SO & V1 & S1 & [Fn Sc] & R). cbn [fst snd] in *. pose proof SO as ([[Lf Bf] _] & _ & (Rf & _)).
  apply wp_bind. rewrite Fn. eapply wp_lift; [apply byte_at_get; unfold zlen in Lf; lia|].
  rewrite (named_segment _ Rf). change (negb (0 =? 0)) with false. rewrite andb_false_r. unfold open_object.
  change (negb (Z.land 1 (Z.lor FA_CREATE_ALWAYS (Z.lor FA_OPEN_ALWAYS FA_CREATE_NEW)) =? 0)) with false. cbv iota.
  destruct R as [(-> & FL)|[(-> & AB)|(-> & m1 & o' & m2 & Eos & NS' & So' & St & _ & Ea & _ & Es)]]; cbn [fr_ok].
  - wp_norm. cbn [fr_ok]. wp_norm. cbn [fr_ok]. wp_norm. auto.
  - apply Forall_app in AB as [_ AB]. inversion AB; contradiction.
  - pose proof (first_unique _ _ _ _ _ _ _ Eos NS So NS' So') as <-.
    assert (Z.land (attr (d_obj dj1)) AM_DIR = 0) as -> by (rewrite Ea; change AM_DIR with (2 ^ 4); apply attr_bit; [lia | exact AT]).
    change (negb (0 =? 0)) with false. change (negb (Z.land 1 FA_WRITE =? 0)) with false. cbn [andb]. wp_norm. cbn [fr_ok].
    rewrite (st_sect _ _ _ _ St), <- P1 in Es. pose proof (st_dir _ _ _ _ St) as Ed. fold (eofs (do_at o)) in Ed. rewrite Ed, <- P2.
    pose proof (load_here_wp fp0 s fp l' f n s1 SV Hn V1 S1 Es) as H. unfold load_here in H. apply wp_bind in H. eapply wp_conseq; [exact H|].
    intros [r fp2] s2 H2. eapply wp_conseq; [exact H2|]. intros [d|] s3 H3; auto.
Qed.

(** The saved file stays filed under its name. *)
Lemma filed_after s os q fp4 s4 l' fp5 s5 f : created s ob l path os q fp4 s4 -> zlen x < FF_MAX_LFN ->
  grows s4 [] l' -> saved s5 fp5 l' f -> dir_sect fp5 = dir_sect fp4 -> dir_ofs fp5 = dir_ofs fp4 ->
  around (dir_sect fp4) (dir_ofs fp4) l' s4 s5 -> filed s5 fp5 l' f (new_obj x fn q).
Proof.
  intros [_ _ [P1 P2] [L4 _] _ [T4 Hi] [Sh AT] (os1 & os2 & Eos & LS & NS & So)] Lx G SV E1 E2 AR. fold x fn in P1, P2, Hi, Sh, AT, LS, NS, So.
  set (i := do_at (new_obj x fn q)) in *. rewrite <- L4 in Hi, P1. rewrite P1, P2 in AR.
  pose proof (around_dir s4 s5 ob l i T4 Hi l' (sv_vol _ _ _ _ SV) G AR) as DE. pose proof (de_layout _ _ _ _ DE) as L5.
  pose proof (dir_edit_table s4 s5 ob l i T4 Hi DE) as T5.
  assert (forall j, 0 <= j < entries (lay s4) l -> like_entry s4 s5 l j) as LK by (intros j Hj; now apply (dir_edit_like s4 s5 ob l i T4 Hi DE)).
  assert (forall o, In o (os1 ++ new_obj x fn q :: os2) -> sought s5 l x fn o <-> sought s4 l x fn o) as SQ.
  { intros o Ho. apply sought_names. intros k Hk. apply (like_byte s4 s5 l (do_at o)); [|exact Hk]. apply LK.
    pose proof (listed_range l s4 0 _ LS ltac:(lia)) as F. rewrite Forall_forall in F. now apply F. }
  constructor; auto.
  - fold i. rewrite L5, E1, E2. auto.
  - fold i. apply (dir_edit_attr s4 s5 l i DE); [lia | apply AT; lia].
  - exists os1, os2. split; [|split].
    + apply (listed_from s4); auto; apply T4 || apply SV.
    + rewrite Forall_forall in NS |- *. intros o Ho. rewrite SQ by (apply in_or_app; now left). now apply NS.
    + apply SQ; [apply in_elt | now apply So].
Qed.

(** What was created, then written and closed, is filed: it holds the bytes
    written, all of them unless the volume is full. *)
Definition kept_bytes (q : Z) (buff : list Z) (bw : Z) (s' : vol) : Prop :=
  0 <= bw <= Z.of_nat (length buff) /\ (bw = Z.of_nat (length buff) \/ full s') /\
  exists fp1 l' f, filed s' fp1 l' f (new_obj x fn q) /\ objsize (obj fp1) = bw /\ forall i, 0 <= i < bw -> f i = byte_at buff i.

Lemma created_clipped s os q fp4 s4 (buff : list Z) : created s ob l path os q fp4 s4 -> Z.of_nat (length buff) < 2 ^ 32 ->
  clipped fp4 (Z.of_nat (length buff)) = Z.of_nat (length buff).
Proof. intros [_ (_ & F0 & _) _ _ _ _ _ _] HB. unfold clipped. rewrite F0. revert HB. eval_pow. lia. Qed.

Lemma save_created_wp s os q fp4 s4 buff : created s ob l path os q fp4 s4 -> zlen x < FF_MAX_LFN -> bytes buff -> Z.of_nat (length buff) < 2 ^ 32 ->
  wp (save fp4 buff) (fun r s' => match r with Some (bw, _) => kept_bytes q buff bw s' | None => troubled s s' end) s4.
Proof.
  intros CR Lx BB HB. pose proof (created_clipped _ _ _ _ _ buff CR HB) as CL. pose proof CR as [(FO & OP & EP) (HW & F0 & Z0) _ [L4 C4] KF _ _ _].
  eapply wp_conseq; [apply (save_wp fp4 [] (file_data s4 fp4 []) buff s4 FO); auto; now intros i Hi|].
  intros [[bw fp5]|] s5 R.
  - destruct R as (l' & fp6 & Hbw & G & SV & Z1 & E1 & E2 & L5 & C5 & AR & FU). rewrite CL, ?Z0, ?F0 in *.
    split; [exact Hbw|]. split; [exact FU|]. exists fp6, l', (patch (file_data s4 fp4 []) 0 (slice buff 0 bw)).
    split; [exact (filed_after s os q fp4 s4 l' fp6 s5 _ CR Lx G SV E1 E2 AR)|]. split; [lia|].
    intros i Hi. unfold patch. rewrite slice_length by lia.
    rewrite (proj2 (Z.leb_le 0 i)), (proj2 (Z.ltb_lt i _)) by lia. cbn [andb]. rewrite slice_byte by lia. f_equal. lia.
  - destruct R as [FL|(c & Hc & E)]; [left; apply (failed_r _ s4); [exact FL | exact C4]|].
    right. exists c. rewrite L4 in Hc. split; [exact Hc | now rewrite <- KF].
Qed.

(** A file stored under a name that was free. *)
Lemma store_wp s os q b dj fp buff : table s ob l -> listed s l 0 os -> tidy s l -> absent s l path os -> first_run s l (n_entries x fn) q ->
  zlen x < FF_MAX_LFN -> lfn_buf b -> bytes buff -> Z.of_nat (length buff) < 2 ^ 32 ->
  wp (store b dj fp path buff) (fun r s' => match r with
    | Some (bw, _) => kept_bytes q buff bw s'
    | None => troubled s s' \/ lossy fn = true /\ numbers_taken s l x fn os \/ ff_memalloc (calls s) NAMBUF = false
    end) s.
Proof.
  intros HT HL TD AB FR Lx LB BB HB. unfold store. change (Z.lor FA_WRITE FA_CREATE_NEW) with 6.
  apply wp_bind. wp_use (f_open_new_wp s ob l path os q HT HO HL TD HP0 b dj fp LB); [now intros _|]. fold x fn.
  intros [r fp4] s4 R. cbn [fst snd] in R.
  destruct R as [(-> & _ & CR)|[((o & HN & E) & _)|[(-> & _ & LY & TK & _)|[(-> & HM & _)|(-> & FL)]]]]; cbn [fr_ok];
    [|destruct (held_not_absent s l path os o HN AB) | wp_norm; auto | wp_norm; auto | wp_norm; left; now left].
  eapply wp_conseq; [exact (save_created_wp s os q fp4 s4 buff CR Lx BB HB)|]. intros [[bw fp5]|] s5 R; auto.
Qed.

(** Reading the file of that name gives the bytes [data]. *)
Definition reads_back (s : vol) (data : list Z) : Prop :=
  forall b dj fp n, lfn_buf b -> 0 <= n < 2 ^ 32 ->
  wp (fetch b dj fp path n) (fun r s' => match r with
    | Some d => d = firstn (Z.to_nat n) data
    | None => failed s s' \/ ff_memalloc (calls s) NAMBUF = false
    end) s.

Lemma kept_readable q buff bw s : kept_bytes q buff bw s -> reads_back s (firstn (Z.to_nat bw) buff).
Proof.
  intros (Hb & _ & fp1 & l' & f & FI & Z2 & Ef) b dj fp n LB Hn.
  wp_use (fetch_wp b dj fp n s fp1 l' f); eauto.
  intros [d|] s2 R; [|exact R]. destruct R as [Ld Ed]. rewrite Z2 in Ld.
  apply (nth_ext _ _ 0 0); [rewrite !length_firstn; lia|]. intros k Hk. rewrite nth_firstn.
  destruct (Nat.ltb_spec k (Z.to_nat n)); [|lia]. rewrite nth_firstn. destruct (Nat.ltb_spec k (Z.to_nat bw)); [|lia].
  specialize (Ed (Z.of_nat k) ltac:(lia)). rewrite Ef in Ed by lia. unfold byte_at in Ed. now rewrite Nat2Z.id in Ed.
Qed.

End FilesLaws.
