(* ===== verification/FatInfo.v ===== *)
(** * ext/fatfs/src/ff.c: reading a directory

    f_opendir, f_readdir and f_closedir on a FAT volume, with dir_read, which goes
    to the next object and collects its long name, and get_fileinfo, which makes
    the information of its entry: the directory scan of the firmware calls them.
    f_readdir gives the objects of a directory one after the other, each with its
    long name in the code page, or its short one. *)

From Stdlib Require Import ZArith Bool String List Lia.
From Stdlib Require Import Classes.RelationClasses.
From S2P Require Import Prelude FatVol FatTable FatBitmap FatChain FatFile FatWrite FatSync FatOpen FatUnicode FatName FatDir FatReg FatPath.
Import ListNotations.
Local Open Scope Z_scope.
Local Open Scope fw_scope.

Record FILINFO : Type := mkFILINFO {
  fsize_ : Z;
  fdate : Z;
  ftime : Z;
  fattrib : Z;
  altname : list Z;
  fname : list Z
}.

Definition set_fname (x : list Z) (f : FILINFO) : FILINFO :=
  mkFILINFO (fsize_ f) (fdate f) (ftime f) (fattrib f) (altname f) x.

(** The long name in the code page, from [lfnbuf[j]] on; [i] bytes are in
    [name].  The number of bytes, 0 when there is no such name. *)
Fixpoint lfn_out (fuel : nat) (lfnbuf name : list Z) (i j : Z) : result (list Z * Z) :=
  match fuel with
  | O => Err OutOfFuel
  | S n =>
      w <=! array_get lfnbuf j ;;
      if w =? 0 then Ok (name, i)
      else
        w <=! ff_uni2oem w ;;
        if w =? 0 then Ok (name, 0)
        else
          '(name, i) <=! (if 0x100 <=? w then name <=! array_set name i (u8 (Z.shiftr w 8)) ;; Ok (name, i + 1) else Ok (name, i)) ;;
          if FF_MAX_LFN <=? i then Ok (name, 0)
          else name <=! array_set name i (u8 w) ;; lfn_out n lfnbuf name (i + 1) (j + 1)
  end.

(** The loop over the short name at [o]: the byte [i], of which [n] are left. *)
Fixpoint sfn_out (n : nat) (w : list Z) (o : Z) (lfv : bool) (i j : Z) (name alt : list Z) : result (list Z * list Z * Z) :=
  match n with
  | O => Ok (name, alt, j)
  | S n =>
      c <=! array_get w (o + i) ;;
      let i := i + 1 in
      if c =? 32 then sfn_out n w o lfv i j name alt
      else
        let c := if c =? RDDEM then DDEM else c in
        '(name, alt, j) <=! (if i =? 9 then
                               name <=! (if lfv then Ok name else array_set name j 46) ;;
                               alt <=! array_set alt j 46 ;;
                               Ok (name, alt, j + 1)
                             else Ok (name, alt, j)) ;;
        alt <=! array_set alt j c ;;
        nt <=! array_get w (o + 12) ;;
        let c := if ((65 <=? c) && (c <=? 90)) && negb (Z.land nt (if 9 <=? i then NS_EXT else NS_BODY) =? 0) then c + 0x20 else c in
        name <=! (if lfv then Ok name else array_set name j c) ;;
        sfn_out n w o lfv i (j + 1) name alt
  end.

(** get_fileinfo on a FAT volume. *)
Definition get_fileinfo_fat (lfnbuf w : list Z) (dp : DIR) (fno : FILINFO) : result FILINFO :=
  name <=! array_set (fname fno) 0 0 ;;
  if d_sect dp =? 0 then Ok (set_fname name fno)
  else
    let o := d_dir dp in
    name <=! (if blk_ofs dp =? 0xFFFFFFFF then Ok name
              else '(name, i) <=! lfn_out 257 lfnbuf name 0 0 ;; array_set name i 0) ;;
    c <=! array_get name 0 ;;
    let lfv := negb (c =? 0) in
    '(name, alt, j) <=! sfn_out 11 w o lfv 0 0 name (altname fno) ;;
    '(name, j) <=! (if lfv then Ok (name, j)
                    else
                      name <=! array_set name j 0 ;;
                      nt <=! array_get w (o + 12) ;;
                      Ok (name, if nt =? 0 then 0 else j)) ;;
    alt <=! array_set alt j 0 ;;
    a <=! array_get w (o + 11) ;;
    size <=! ld_dword w (o + 28) ;;
    tm <=! ld_dword w (o + 22) ;;
    Ok (mkFILINFO size (u16 (Z.shiftr tm 16)) (u16 tm) a alt name).

(** What dir_read does with the entry in the window; inr when it is an object. *)
Definition read_entry (lfnbuf w : list Z) (dp : DIR) (ord sum : Z) (vol : bool) : result (DIR * list Z * Z * Z + DIR * list Z) :=
  let o := d_dir dp in
  c <=! array_get w o ;;
  a <=! array_get w (o + 11) ;;
  let a := Z.land a AM_MASK in
  let dp := set_d_obj (set_attr a (d_obj dp)) dp in
  if (c =? DDEM) || (c =? 46) || negb (Bool.eqb (Z.land a (Z.lnot AM_ARC) =? AM_VOL) vol) then Ok (inl (dp, lfnbuf, 0xFF, sum))
  else if a =? AM_LFN then
    ck <=! array_get w (o + 13) ;;
    let '(c, ord, sum, dp) :=
      if negb (Z.land c LLEF =? 0) then (Z.land c 0xBF, Z.land c 0xBF, ck, set_blk_ofs (dptr dp) dp)
      else (c, ord, sum, dp) in
    '(ok, lfnbuf) <=! (if (c =? ord) && (sum =? ck) then pick_lfn lfnbuf w o else Ok (false, lfnbuf)) ;;
    Ok (inl (dp, lfnbuf, if ok : bool then u8 (ord - 1) else 0xFF, sum))
  else
    lfn <=! (if ord =? 0 then k <=! sum_sfn w o ;; Ok (sum =? k) else Ok false) ;;
    Ok (inr (if lfn : bool then dp else set_blk_ofs 0xFFFFFFFF dp, lfnbuf)).

Section Info.
Context `{D : DiskIo} {HP : FfHeap}.

(** One turn of the loop of dir_read on a FAT volume. *)
Definition dir_turn (vol : bool) (x : FRESULT * DIR * list Z * Z * Z) : F (FRESULT * DIR * list Z * Z * Z + FRESULT * DIR * list Z) :=
  let '(res, dp, lfnbuf, ord, sum) := x in
  if d_sect dp =? 0 then ret (inr (res, dp, lfnbuf))
  else
    res <- move_window (d_sect dp) ;;
    if negb (fr_ok res) then ret (inr (res, dp, lfnbuf))
    else
      w <- gets (fun s => win (fs s)) ;;
      c <- lift (array_get w (d_dir dp)) ;;
      if c =? 0 then ret (inr (FR_NO_FILE, dp, lfnbuf))
      else
        r <- lift (read_entry lfnbuf w dp ord sum vol) ;;
        match r with
        | inr (dp, lfnbuf) => ret (inr (FR_OK, dp, lfnbuf))
        | inl (dp, lfnbuf, ord, sum) =>
            '(res, dp) <- dir_next dp false ;;
            ret (if fr_ok res then inl (res, dp, lfnbuf, ord, sum) else inr (res, dp, lfnbuf))
        end.

Definition dir_read_fat (lfnbuf : list Z) (dp : DIR) (vol : bool) : F (FRESULT * DIR * list Z) :=
  g <- gets (fun s => layout (fs s)) ;;
  '(res, dp, lfnbuf) <- iter (S (walk_fuel g)) (dir_turn vol) (FR_NO_FILE, dp, lfnbuf, 0xFF, 0xFF) ;;
  ret (res, if fr_ok res then dp else set_d_sect 0 dp, lfnbuf).

(** f_opendir on a mounted FAT volume. *)
Definition f_opendir_fat (b : list Z) (dp : DIR) (path : list Z) : F (FRESULT * DIR) :=
  let dp := set_d_obj (set_o_fs true (d_obj dp)) dp in
  let invalid dp := set_d_obj (set_o_fs false (d_obj dp)) dp in
  k <- gets calls ;;
  if negb (ff_memalloc k NAMBUF) then ret (FR_NOT_ENOUGH_CORE, dp)
  else
    '(res, b, dp) <- follow_path b path dp ;;
    '(res, dp) <-
      (if fr_ok res then
         ns <- lift (array_get (d_fn dp) 11) ;;
         '(res, dp) <-
           (if Z.land ns NS_NONAME =? 0 then
              if Z.land (attr (d_obj dp)) AM_DIR =? 0 then ret (FR_NO_PATH, dp)
              else
                f <- gets fs ;;
                cl <- lift (ld_clust (fs_type (layout f)) (win f) (d_dir dp)) ;;
                ret (FR_OK, set_d_obj (set_sclust cl (d_obj dp)) dp)
            else ret (FR_OK, dp)) ;;
         if fr_ok res then
           g <- gets (fun s => layout (fs s)) ;;
           let o := d_obj dp in
           dir_sdi (set_d_obj (mkFFOBJID (o_fs o) (fsid g) (attr o) (stat o) (sclust o) (objsize o) (n_cont o) (n_frag o)) dp) 0
         else ret (res, dp)
       else ret (res, dp)) ;;
    let res := match res with FR_NO_FILE => FR_NO_PATH | r => r end in
    ret (res, if fr_ok res then dp else invalid dp).

Definition f_closedir (dp : DIR) : F (FRESULT * DIR) :=
  res <- validate (d_obj dp) ;;
  ret (res, if fr_ok res then set_d_obj (set_o_fs false (d_obj dp)) dp else dp).

(** f_readdir with a place for the information. *)
Definition f_readdir_fat (b : list Z) (dp : DIR) (fno : FILINFO) : F (FRESULT * DIR * FILINFO) :=
  res <- validate (d_obj dp) ;;
  if negb (fr_ok res) then ret (res, dp, fno)
  else
    k <- gets calls ;;
    if negb (ff_memalloc k NAMBUF) then ret (FR_NOT_ENOUGH_CORE, dp, fno)
    else
      '(res, dp, b) <- dir_read_fat b dp false ;;
      let res := match res with FR_NO_FILE => FR_OK | r => r end in
      if negb (fr_ok res) then ret (res, dp, fno)
      else
        w <- gets (fun s => win (fs s)) ;;
        fno <- lift (get_fileinfo_fat b w dp fno) ;;
        '(res, dp) <- dir_next dp false ;;
        ret (match res with FR_NO_FILE => FR_OK | r => r end, dp, fno).

(** f_readdir without one: the directory is read from its start again. *)
Definition f_rewinddir (dp : DIR) : F (FRESULT * DIR) :=
  res <- validate (d_obj dp) ;;
  if negb (fr_ok res) then ret (res, dp) else dir_sdi dp 0.

End Info.

(** ** Reading the objects *)

(** An object whose short name begins with a dot is not shown. *)
Definition hidden (s : vol) (l : list Z) (o : dobj) : Prop := ebyte s l (do_at o) 0 = 46.

(** What is skipped is deleted or a volume label and nothing else. *)
Definition only_labels (s : vol) (l : list Z) : Prop :=
  forall i, 0 <= i < entries (lay s) l -> skipped s l i -> ebyte s l i 0 = DDEM \/ Z.land (eattr s l i) (Z.lnot AM_ARC) = AM_VOL.

(** Names that pick_lfn can bring back. *)
Definition readable (o : dobj) : Prop := match do_name o with Some a => zlen a < FF_MAX_LFN - 1 | None => True end.

Lemma label_bit a : Z.land a AM_VOL = 0 -> Z.land a (Z.lnot AM_ARC) <> AM_VOL.
Proof.
  intros H E. assert (Z.testbit (Z.land a (Z.lnot AM_ARC)) 3 = true) as T by now rewrite E.
  assert (Z.testbit (Z.land a AM_VOL) 3 = false) as F by now rewrite H.
  rewrite Z.land_spec in T, F. apply andb_prop in T as [T _]. rewrite T in F. discriminate.
Qed.

Section ReadEntry.
Variables (s : vol) (l : list Z) (i : Z) (b : list Z) (dp : DIR).
Hypothesis ES : is_sector (esec s l i).
Hypothesis ED : d_dir dp = eofs i.

Let dp' := with_attr s l i dp.

Ltac entry := unfold read_entry; rewrite (entry_first s l i dp ES ED); cbn [rbind]; rewrite (entry_byte s l i dp ES ED) by lia; cbn [rbind];
  fold (eattr s l i); fold (with_attr s l i dp); fold dp'.

(** A deleted entry, a label and one that begins with a dot. *)
Lemma read_skipped ord sum : ebyte s l i 0 = DDEM \/ ebyte s l i 0 = 46 \/ Z.land (eattr s l i) (Z.lnot AM_ARC) = AM_VOL ->
  read_entry b (esec s l i) dp ord sum false = Ok (inl (dp', b, 0xFF, sum)).
Proof.
  intros H. entry. replace (_ || _ || _) with true; [reflexivity|]. symmetry.
  destruct H as [->|[->| ->]]; [reflexivity | reflexivity | apply orb_true_r].
Qed.

(** The entry with the short name of an object. *)
Lemma read_short ord sum k : short_at s l i -> ebyte s l i 0 <> 46 -> sum_sfn (esec s l i) (eofs i) = Ok k ->
  read_entry b (esec s l i) dp ord sum false =
    Ok (inr (if (ord =? 0) && (sum =? k) then dp' else set_blk_ofs 0xFFFFFFFF dp', b)).
Proof.
  intros (N0 & N1 & NV) N2 Sk. entry. rewrite (proj2 (Z.eqb_neq _ _) N1), (proj2 (Z.eqb_neq _ _) N2).
  rewrite (proj2 (Z.eqb_neq _ _) (label_bit _ NV)). cbn [orb Bool.eqb negb].
  destruct (Z.eqb_spec (eattr s l i) AM_LFN) as [E|_]; [rewrite E in NV; discriminate|]. rewrite ED, Sk. cbn [rbind].
  now destruct (ord =? 0).
Qed.

(** An entry with a piece of a long name, when the ones before it were picked up. *)
Lemma read_piece a p ck ord sum : wname a -> zlen a < FF_MAX_LFN - 1 -> lfn_buf b -> 1 <= p <= pieces a ->
  piece a p ck (esec s l i) (eofs i) -> p = pieces a \/ ord = p /\ sum = ck ->
  exists b', read_entry b (esec s l i) dp ord sum false =
      Ok (inl (if p =? pieces a then set_blk_ofs (dptr dp) dp' else dp', b', p - 1, ck)) /\ lfn_buf b' /\
    forall k, 0 <= k <= zlen a -> byte_at b' k =
      if (13 * (p - 1) <=? k) && ((k <? 13 * p) || (zlen a <=? 13 * p)) then pad a k else byte_at b k.
Proof.
  intros W L LB Hp P Hg. pose proof (proj1 (pieces_range _ _) Hp) as [H1 H2]. pose proof (pick_lfn_ok a p ck _ _ b W L ES (eofs_range i) Hp P LB) as (b' & Eb & LB' & B').
  unfold FF_MAX_LFN in L. exists b'. split; [|now split].
  assert (ebyte s l i 0 = if zlen a <=? 13 * p then p + 64 else p) as E0 by (unfold ebyte; rewrite Z.add_0_r; apply P).
  assert (eattr s l i = AM_LFN) as EA by (unfold eattr, ebyte; now rewrite (pc_attr _ _ _ _ _ P)). entry. rewrite EA.
  assert (ebyte s l i 0 <> DDEM /\ ebyte s l i 0 <> 46) as [ND NP] by (rewrite E0; unfold DDEM; destruct (_ <=? _); lia).
  rewrite (proj2 (Z.eqb_neq _ _) ND), (proj2 (Z.eqb_neq _ _) NP). change (Z.land AM_LFN (Z.lnot AM_ARC) =? AM_VOL) with false.
  cbn [Bool.eqb negb orb]. rewrite Z.eqb_refl, (entry_byte s l i dp ES ED) by lia. cbn [rbind]. rewrite (pc_sum _ _ _ _ _ P : ebyte s l i 13 = ck).
  destruct (ord_bits p (zlen a <=? 13 * p) ltac:(lia)) as (_ & O1 & O2). rewrite E0, O1, O2, ED.
  assert (u8 (p - 1) = p - 1) as Eu by (apply uwrap_small; in_range). assert ((p =? pieces a) = (zlen a <=? 13 * p)) as ->.
  { unfold pieces. destruct (Z.eqb_spec p ((zlen a + 12) / 13)), (Z.leb_spec (zlen a) (13 * p)); try reflexivity; dlia. }
  destruct (Z.leb_spec (zlen a) (13 * p)) as [E|E]; cbn [negb].
  - rewrite !Z.eqb_refl. cbn [andb]. rewrite Eb. cbn [rbind]. now rewrite Eu.
  - assert (ord = p /\ sum = ck) as [-> ->] by (destruct Hg as [G|G]; [unfold pieces in G; dlia | exact G]).
    rewrite !Z.eqb_refl. cbn [andb]. rewrite Eb. cbn [rbind]. now rewrite Eu.
Qed.

End ReadEntry.

(** The object keeps what it belongs to. *)
Definition same_obj (ob : FFOBJID) (dp : DIR) : Prop := sclust (d_obj dp) = sclust ob /\ same_handle ob (d_obj dp).

Lemma same_obj_kept ob dp dp' : same_obj ob dp -> sclust (d_obj dp') = sclust (d_obj dp) -> same_handle (d_obj dp) (d_obj dp') -> same_obj ob dp'.
Proof. intros [E [H1 H2]] E' [H3 H4]. split; [congruence | split; congruence]. Qed.

Section Read.
Context `{D : DiskIo} {DL : DiskLaws D} {HP : FfHeap}.
Variables (s : vol) (ob : FFOBJID) (l : list Z).
Hypothesis HT : table s ob l.
Hypothesis HV : only_labels s l.

(** The reading stands on entry [i], nothing having changed on the volume. *)
Record at_entry (i : Z) (dp : DIR) (s1 : vol) : Prop := {
  ra_vol : vol_ok s1;
  ra_disk : same_disk s s1;
  ra_stands : stands (lay s) l i dp;
  ra_obj : same_obj ob dp
}.

Definition turned_to (i : Z) (dp : DIR) (r : DIR * list Z * Z * Z + DIR * list Z) (y : FRESULT * DIR * list Z * Z * Z + FRESULT * DIR * list Z) (s2 : vol) : Prop :=
  vol_ok s2 /\ same_disk s s2 /\
  match y with
  | inl (e, dp2, b2, o2, m2) => ebyte s l i 0 <> 0 /\ i + 1 < entries (lay s) l /\ at_entry (i + 1) dp2 s2 /\
      exists dp1, r = inl (dp1, b2, o2, m2) /\ blk_ofs dp2 = blk_ofs dp1
  | inr (e, dp2, b2) => same_obj ob dp2 /\
      (e = FR_DISK_ERR /\ failed s s2 \/
       e = FR_NO_FILE /\ (ebyte s l i 0 = 0 \/ i + 1 = entries (lay s) l /\ exists z, r = inl z) \/
       e = FR_OK /\ ebyte s l i 0 <> 0 /\ r = inr (dp2, b2) /\ win (fs s2) = esec s l i)
  end.

Definition kept_by (dp : DIR) (r : DIR * list Z * Z * Z + DIR * list Z) : Prop :=
  let dp1 := match r with inl (dp1, _, _, _) => dp1 | inr (dp1, _) => dp1 end in kept dp dp1 /\ same_handle (d_obj dp) (d_obj dp1).

Lemma dir_turn_wp b i dp e0 ord sum r s1 : at_entry i dp s1 ->
  (ebyte s l i 0 <> 0 -> read_entry b (esec s l i) dp ord sum false = Ok r) -> kept_by dp r ->
  wp (dir_turn false (e0, dp, b, ord, sum)) (turned_to i dp r) s1.
Proof.
  intros [V1 S1 St SO] Hr [Kr Kh]. unfold dir_turn. pose proof (ev_layout _ _ _ S1) as L1.
  destruct (stands_sect _ _ _ _ _ HT St) as (K & Vs & Ps). pose proof (st_range _ _ _ _ St) as Ri.
  rewrite (proj2 (Z.eqb_neq (d_sect dp) 0)) by lia. apply wp_bind. wp_use move_window_wp; [exact V1 | in_range |]. intros res s2 (V2 & S2 & R).
  pose proof (PreOrder_Transitive _ _ _ S1 S2) as S12. pose proof (ev_calls _ _ _ S1) as C1.
  destruct R as [(-> & Ew & Wn)|(-> & FL & _)]; cbn [fr_ok negb].
  2:{ apply wp_ret. split; [exact V2|]. split; [exact S12|]. split; [exact SO|]. left. split; [reflexivity | now apply (failed_r s s1 s2)]. }
  assert (win (fs s2) = esec s l i) as Ewin.
  { rewrite (Wn ltac:(now rewrite L1)). rewrite (ev_view _ _ _ S1) by exact Vs. unfold esec. now rewrite (st_sect _ _ _ _ St). }
  pose proof (esec_sector s ob l HT i Ri) as ES.
  wp_norm. rewrite Ewin. eapply wp_lift; [exact (entry_first s l i dp ES (st_dir _ _ _ _ St))|].
  destruct (Z.eqb_spec (ebyte s l i 0) 0) as [E0|E0].
  { apply wp_ret. split; [exact V2|]. split; [exact S12|]. split; [exact SO|]. right. left. auto. }
  apply wp_bind. eapply wp_lift; [exact (Hr E0)|]. destruct Kr as (K1 & K2 & K3 & K4 & F1 & F2).
  destruct r as [[[[dp1 b1] o1] m1]|[dp1 b1]]; pose proof (same_obj_kept _ _ _ SO F2 Kh) as SO1.
  2:{ apply wp_ret. split; [exact V2|]. split; [exact S12|]. split; [exact SO1|]. right. right. auto. }
  pose proof (ev_layout _ _ _ S12) as L2. apply wp_bind. wp_use (dir_next_wp l i dp1).
  - apply (table_obj _ ob); [apply SO1|]. exact (table_same _ _ _ _ HT V2 S12).
  - rewrite L2. apply (kept_stands _ _ _ dp); [now repeat split | exact St].
  - now left.
  - intros [e dp2] s3 (V3 & S3 & (G1 & G2 & G3 & G4) & R). cbn [fst snd] in *. rewrite L2 in R. pose proof (same_obj_kept _ _ _ SO1 G3 G4) as SO2.
    pose proof (PreOrder_Transitive _ _ _ S12 S3) as S13. apply wp_ret. split; [exact V3|]. split; [exact S13|].
    destruct R as [(-> & H & St2)|[(-> & H & _)|(-> & FL)]]; cbn [fr_ok].
    + split; [exact E0|]. split; [exact H|]. split; [constructor; auto|]. exists dp1. auto.
    + split; [exact SO2|]. right. left. split; [reflexivity|]. right. split; [exact H | eauto].
    + split; [exact SO2|]. left. split; [reflexivity|]. apply (failed_r s s2 s3 FL), S12.
Qed.

(** The long name that comes with an object. *)
Definition named (o : dobj) (dp : DIR) (b : list Z) : Prop :=
  match do_name o with
  | Some a => blk_ofs dp <> 0xFFFFFFFF /\ in_buf a b /\ 1 <= zlen a < FF_MAX_LFN
  | None => blk_ofs dp = 0xFFFFFFFF
  end.

(** What dir_read promises about the objects that are left. *)
Definition read_out (os : list dobj) (y : FRESULT * DIR * list Z) (s' : vol) : Prop :=
  let '(e, dp, b) := y in
  vol_ok s' /\ same_disk s s' /\ same_obj ob dp /\
  (e = FR_DISK_ERR /\ failed s s' \/
   e = FR_NO_FILE /\ Forall (hidden s l) os \/
   e = FR_OK /\ exists os1 o os2, os = os1 ++ o :: os2 /\ Forall (hidden s l) os1 /\ ~ hidden s l o /\
     stands (lay s) l (do_at o) dp /\ win (fs s') = esec s l (do_at o) /\ named o dp b /\ listed s l (do_at o + 1) os2).

Lemma read_out_cons o os y s' : hidden s l o -> read_out os y s' -> read_out (o :: os) y s'.
Proof.
  destruct y as [[e dp] b]. intros N (V & S & T & R). split; [exact V|]. split; [exact S|]. split; [exact T|].
  destruct R as [R|[[E F]|(E & os1 & o' & os2 & -> & F & R)]]; [now left | right; left; auto |].
  right. right. split; [exact E|]. exists (o :: os1), o', os2. auto 10.
Qed.

(** The loop, when the current turn is known. *)
Lemma read_step i dp b e0 ord sum r s1 n os : at_entry i dp s1 ->
  (ebyte s l i 0 <> 0 -> read_entry b (esec s l i) dp ord sum false = Ok r) -> kept_by dp r ->
  (ebyte s l i 0 = 0 -> Forall (hidden s l) os) ->
  (forall z, r = inl z -> i + 1 = entries (lay s) l -> Forall (hidden s l) os) ->
  (forall dp1 b1 s2, vol_ok s2 -> same_disk s s2 -> same_obj ob dp1 -> ebyte s l i 0 <> 0 -> r = inr (dp1, b1) -> win (fs s2) = esec s l i ->
     read_out os (FR_OK, dp1, b1) s2) ->
  (forall e dp1 b1 o1 m1 dp2 s2, r = inl (dp1, b1, o1, m1) -> i + 1 < entries (lay s) l -> at_entry (i + 1) dp2 s2 -> blk_ofs dp2 = blk_ofs dp1 ->
     wp (iter n (dir_turn false) (e, dp2, b1, o1, m1)) (read_out os) s2) ->
  wp (iter (S n) (dir_turn false) (e0, dp, b, ord, sum)) (read_out os) s1.
Proof.
  intros O Hr Kr E0 Ee Hf Hn. cbn [iter]. apply wp_bind. wp_use dir_turn_wp; [exact O | exact Hr | exact Kr |].
  intros [[[[[e dp2] b2] o2] m2]|[[e dp2] b2]] s2 (V2 & S2 & R).
  - destruct R as (N0 & H & O2 & dp1 & -> & Eb). eapply Hn; eauto.
  - apply wp_ret. destruct R as (St & [(-> & FL)|[(-> & [H|(H & z & Hz)])|(-> & H & -> & H1)]]).
    + split; [exact V2|]. split; [exact S2|]. split; [exact St|]. now left.
    + split; [exact V2|]. split; [exact S2|]. split; [exact St|]. right. left. auto.
    + split; [exact V2|]. split; [exact S2|]. split; [exact St|]. right. left. split; [reflexivity | eauto].
    + now apply Hf.
Qed.

(** The variables of the loop when [j] pieces of a name with first entry [i0] and
    checksum [ck] are behind it. *)
Definition picked (a : list Z) (ck i0 j : Z) (b : list Z) (ord sum blk : Z) : Prop :=
  lfn_buf b /\ (0 < j -> ord = pieces a - j /\ sum = ck /\ blk = SZDIRE * i0 /\
    forall k, 13 * (pieces a - j) <= k <= zlen a -> byte_at b k = pad a k).

Lemma read_pieces_wp a ck i0 os n' : wname a -> 1 <= zlen a < FF_MAX_LFN - 1 -> 0 <= i0 -> i0 + pieces a < entries (lay s) l ->
  (forall j, 0 <= j < pieces a -> piece a (pieces a - j) ck (esec s l (i0 + j)) (eofs (i0 + j))) ->
  (forall e dp2 b2 ord2 sm2 s2, at_entry (i0 + pieces a) dp2 s2 -> picked a ck i0 (pieces a) b2 ord2 sm2 (blk_ofs dp2) ->
     wp (iter n' (dir_turn false) (e, dp2, b2, ord2, sm2)) (read_out os) s2) ->
  forall m j e dp b ord sm s1, Z.of_nat m = pieces a - j -> 0 <= j -> at_entry (i0 + j) dp s1 -> picked a ck i0 j b ord sm (blk_ofs dp) ->
  wp (iter (m + n') (dir_turn false) (e, dp, b, ord, sm)) (read_out os) s1.
Proof.
  intros W L Hi He P Hn. induction m as [|m IH]; intros j e dp b ord sm s1 Hm Hj O [LB PK]; cbn [Nat.add].
  { assert (j = pieces a) as -> by lia. now apply Hn. }
  pose proof (P j ltac:(lia)) as Pj. pose proof (ra_stands _ _ _ O) as St. set (p := pieces a - j) in *.
  destruct (read_piece s l (i0 + j) b dp (esec_sector s ob l HT _ (st_range _ _ _ _ St)) (st_dir _ _ _ _ St) a p ck ord sm W ltac:(lia) LB ltac:(lia) Pj)
    as (b' & Eb & LB' & B').
  { destruct (Z.eq_dec j 0) as [->|N]; [left; lia | right]. destruct (PK ltac:(lia)) as (-> & -> & _). auto. }
  assert (ebyte s l (i0 + j) 0 <> 0) as N0 by (unfold ebyte; rewrite Z.add_0_r, (pc_ord _ _ _ _ _ Pj); destruct (_ <=? _); lia).
  eapply read_step; [exact O | intros _; exact Eb | destruct (p =? _); split; repeat split | easy | lia | discriminate |].
  intros e' dp1 b1 o1 m1 dp2 s2 [= <- <- <- <-] _ O2 Ek. rewrite <- Z.add_assoc in O2.
  apply (IH (j + 1)); [lia | lia | exact O2 |]. split; [exact LB'|]. intros _. split; [lia|]. split; [reflexivity|].
  split.
  - rewrite Ek. destruct (Z.eqb_spec p (pieces a)) as [Ep|Ep]; cbn [blk_ofs set_blk_ofs with_attr set_d_obj].
    + rewrite (st_dptr _ _ _ _ St). f_equal. lia.
    + now destruct (PK ltac:(lia)) as (_ & _ & -> & _).
  - intros k Hk. rewrite B' by (unfold pieces in *; lia). rewrite (proj2 (Z.leb_le _ k)) by lia. cbn [andb].
    destruct (Z.ltb_spec k (13 * p)) as [|K1]; [reflexivity|]. destruct (Z.leb_spec (zlen a) (13 * p)) as [|K2]; [reflexivity|].
    destruct (Z.eq_dec j 0) as [->|N]; [unfold p, pieces in K2; dlia|]. destruct (PK ltac:(lia)) as (_ & _ & _ & PB). apply PB. lia.
Qed.

(** The short entry of an object: it is hidden, or the reading ends there. *)
Lemma read_object i dp b e ord sum k o os s1 n : at_entry i dp s1 -> short_at s l i -> sum_sfn (esec s l i) (eofs i) = Ok k ->
  do_at o = i -> listed s l (i + 1) os ->
  named o (if (ord =? 0) && (sum =? k) then dp else set_blk_ofs 0xFFFFFFFF dp) b ->
  (forall e dp2 s2, i + 1 < entries (lay s) l -> at_entry (i + 1) dp2 s2 -> wp (iter n (dir_turn false) (e, dp2, b, 0xFF, sum)) (read_out os) s2) ->
  wp (iter (S n) (dir_turn false) (e, dp, b, ord, sum)) (read_out (o :: os)) s1.
Proof.
  intros O Sh Sk Ea HL Nm Hn. pose proof (ra_stands _ _ _ O) as St. pose proof (st_dir _ _ _ _ St) as Ed.
  pose proof (esec_sector s ob l HT i (st_range _ _ _ _ St)) as ES. pose proof Sh as (N0 & _).
  destruct (Z.eq_dec (ebyte s l i 0) 46) as [H|H].
  - assert (hidden s l o) as Hd by (unfold hidden; now rewrite Ea).
    eapply read_step; [exact O | intros _; apply read_skipped; auto | split; repeat split | easy | | discriminate |].
    + intros _ _ E. constructor; [exact Hd|]. rewrite E in HL. now rewrite (listed_at_end s l _ HL).
    + intros e' dp1 b1 o1 m1 dp2 s2 [= <- <- <- <-] Hl O2 _. eapply wp_conseq; [now apply Hn|]. intros y s3. now apply read_out_cons.
  - eapply read_step; [exact O | intros _; apply (read_short s l i b dp ES Ed ord sum k Sh H Sk) | | easy | discriminate | | discriminate].
    { destruct (_ && _); split; repeat split. }
    intros dp1 b1 s2 V2 S2 SO _ [= E <-] Ew. split; [exact V2|]. split; [exact S2|]. split; [exact SO|]. right. right. split; [reflexivity|].
    exists [], o, os. split; [reflexivity|]. split; [constructor|]. unfold hidden. rewrite Ea. split; [exact H|].
    split; [apply (kept_stands _ _ _ dp); [|exact St]; subst dp1; destruct (_ && _); repeat split|].
    split; [exact Ew|]. split; [|exact HL]. subst dp1. destruct (_ && _); exact Nm.
Qed.

Lemma read_listed i os : listed s l i os -> i < entries (lay s) l -> Forall readable os -> forall n e dp b sum s1, at_entry i dp s1 -> lfn_buf b ->
  entries (lay s) l - i <= Z.of_nat n -> wp (iter n (dir_turn false) (e, dp, b, 0xFF, sum)) (read_out os) s1.
Proof.
  induction 1 as [|i Hi E0|i os Hi Sk HL IH|i os Hi Sh HL IH|i a ck os Hi He W L P Sh Sk HL IH]; intros Lt RD n e dp b sum s1 O LB Hn; [lia|..];
    pose proof (ra_stands _ _ _ O) as St; (destruct n as [|n]; [lia|]).
  - eapply (read_step i dp b e 0xFF sum (inr (dp, b))); [exact O | easy | split; repeat split | auto | discriminate | | discriminate].
    now intros.
  - eapply read_step; [exact O | intros _; apply read_skipped; [now apply (esec_sector s ob l) | exact (st_dir _ _ _ _ St) |] | split; repeat split | | | discriminate |].
    + destruct (HV i Hi Sk); auto.
    + intros E. now destruct Sk.
    + intros _ _ E. rewrite E in HL. now rewrite (listed_at_end s l _ HL).
    + intros e' dp1 b1 o1 m1 dp2 s2 [= <- <- <- <-] H O2 _. apply IH; auto; lia.
  - destruct (sum_bytes_ok (esec s l i) 11 (eofs i) 0 (esec_sector s ob l HT i Hi)) as (k & Ek); [apply eofs_range | pose proof (eofs_range i); unfold SS; lia|].
    inversion RD; subst. eapply read_object; [exact O | exact Sh | exact Ek | reflexivity | exact HL | reflexivity |].
    intros e' dp2 s2 H O2. apply IH; auto; lia.
  - inversion RD as [|? ? RO RD']; subst. unfold readable in RO. cbn [do_name] in RO. assert (1 <= pieces a) by (unfold pieces; dlia). set (m := Z.to_nat (pieces a)).
    replace (S n) with (m + S (n - m))%nat by lia.
    apply (read_pieces_wp a ck i (mkdobj (Some a) i (i + pieces a) :: os) _ W ltac:(lia) Hi He P) with (j := 0); [|lia | lia | now rewrite Z.add_0_r | split; [exact LB | lia]].
    intros e2 dp2 b2 ord2 sm2 s2 O2 [LB2 PK]. destruct (PK ltac:(lia)) as (-> & -> & Ek & PB). rewrite Z.sub_diag in *.
    eapply read_object; [exact O2 | exact Sh | exact Sk | reflexivity | exact HL | | intros; apply IH; auto; lia].
    rewrite !Z.eqb_refl. cbn [andb]. split; [|split; [apply buf_holds; [exact LB2 | exact W | lia | intros k Hk; apply PB; lia] | lia]].
    rewrite Ek. unfold SZDIRE. pose proof (st_range _ _ _ _ St). unfold entries in *. lia.
Qed.

End Read.

(** ** The information of an entry *)

(** The byte of a character, 0 when the code page has none. *)
Definition oem (c : Z) : Z := match ff_uni2oem c with Ok v => v | Err _ => 0 end.

Lemma oem_ok c : 0 <= c -> ff_uni2oem c = Ok (oem c) /\ 0 <= oem c < 256.
Proof.
  intros H. unfold oem, ff_uni2oem. destruct (Z.ltb_spec c 0x80); [split; [reflexivity | lia]|].
  destruct (uni2oem_scan_ok c 128 0) as (r & -> & Hr); [lia | lia|]. cbn [rbind]. split; [reflexivity|].
  change 0xFF with (Z.ones 8). rewrite Z.land_ones by lia. apply Z.mod_pos_bound. reflexivity.
Qed.

Definition in_page (a : list Z) : bool := forallb (fun c => negb (oem c =? 0)) a.

(** The character that byte [i] of a short name is shown as, under the case flags
    [nt], with the dot before an extension. *)
Definition glyph (w : list Z) (o nt i : Z) : list Z :=
  let c := byte_at w (o + i) in
  if c =? 32 then []
  else
    let c := if c =? RDDEM then DDEM else c in
    (if i =? 8 then [46] else []) ++
    [if ((65 <=? c) && (c <=? 90)) && negb (Z.land nt (if 8 <=? i then NS_EXT else NS_BODY) =? 0) then c + 0x20 else c].

Definition short_text (w : list Z) (o nt : Z) : list Z := flat_map (glyph w o nt) (zseq 0 11).

(** The name that is shown: the long one if the code page has its characters. *)
Definition text_of (a : option (list Z)) (w : list Z) (o : Z) : list Z :=
  match a with
  | Some a => if in_page a then map oem a else short_text w o (byte_at w (o + 12))
  | None => short_text w o (byte_at w (o + 12))
  end.

Lemma starts_put b a c : starts b a -> zlen a < zlen b -> exists b', array_set b (zlen a) c = Ok b' /\ zlen b' = zlen b /\ starts b' (a ++ [c]).
Proof.
  intros H L. unfold zlen, starts in *. rewrite array_set_ok by lia. eexists. split; [reflexivity|]. rewrite list_set_length. split; [reflexivity|].
  rewrite Nat2Z.id. apply (nth_ext _ _ 0 0); [rewrite length_firstn, list_set_length, length_app; cbn [length]; lia|].
  rewrite length_firstn, list_set_length, length_app. cbn [length]. intros k Hk. rewrite nth_firstn.
  destruct (Nat.ltb_spec k (length a + 1)); [|lia]. rewrite list_set_nth by lia. destruct (Nat.eqb_spec k (length a)) as [->|K].
  - now rewrite nth_app_head.
  - rewrite app_nth1 by lia. transitivity (nth k (firstn (length a) b) 0); [|now rewrite H]. rewrite nth_firstn.
    destruct (Nat.ltb_spec k (length a)); [reflexivity | lia].
Qed.

Lemma starts_nil b : starts b [].
Proof. reflexivity. Qed.

Lemma zlen_app {A} (a b : list A) : zlen (a ++ b) = zlen a + zlen b.
Proof. unfold zlen. rewrite length_app. lia. Qed.

(** The loop over the long name: all of it, or no name. *)
Lemma lfn_out_ok a b : in_buf a b -> zlen a < FF_MAX_LFN -> forall q p name fuel, a = p ++ q -> zlen name = 256 -> starts name (map oem p) ->
  (length q < fuel)%nat -> in_page p = true ->
  exists name' i, lfn_out fuel b name (zlen p) (zlen p) = Ok (name', i) /\ zlen name' = 256 /\
    (in_page a = true /\ i = zlen a /\ starts name' (map oem a) \/ in_page a = false /\ i = 0).
Proof.
  intros B L. unfold FF_MAX_LFN in *. pose proof B as (LB & W & _). induction q as [|c q IH]; intros p name fuel Ea Ln Sn Hf PG; (destruct fuel as [|fuel]; [cbn in Hf; lia|]); cbn [lfn_out].
  - rewrite app_nil_r in Ea. subst p. rewrite (proj1 (buf_at b (zlen a) LB ltac:(unfold zlen in *; lia))). cbn [rbind].
    rewrite (in_buf_at a b) by (auto; unfold zlen; lia). rewrite Z.ltb_irrefl, Z.eqb_refl. exists name, (zlen a). split; [reflexivity|]. split; [exact Ln | now left].
  - assert (zlen a = zlen p + zlen q + 1) as La by (rewrite Ea, zlen_app; unfold zlen; cbn [length]; lia). assert (0 <= zlen q) by (unfold zlen; lia). assert (0 <= zlen p) by (unfold zlen; lia).
    assert (byte_at a (zlen p) = c) as Ec by (rewrite Ea; unfold byte_at, zlen; rewrite Nat2Z.id; apply nth_app_head).
    pose proof (wname_at a (zlen p) W ltac:(lia)) as Hc. rewrite Ec in Hc. rewrite (proj1 (buf_at b (zlen p) LB ltac:(lia))). cbn [rbind].
    rewrite (in_buf_at a b) by (auto; lia). rewrite (proj2 (Z.ltb_lt (zlen p) (zlen a))) by lia. rewrite Ec, (proj2 (Z.eqb_neq c 0)) by lia.
    destruct (oem_ok c ltac:(lia)) as [-> Ro]. cbn [rbind]. destruct (Z.eqb_spec (oem c) 0) as [E0|E0].
    { exists name, 0. split; [reflexivity|]. split; [exact Ln|]. right. split; [|reflexivity]. rewrite Ea. unfold in_page. rewrite forallb_app. cbn [forallb].
      rewrite E0. cbn [Z.eqb negb andb]. apply andb_false_r. }
    rewrite (proj2 (Z.leb_gt 0x100 _)) by lia. cbn [rbind]. unfold FF_MAX_LFN. rewrite (proj2 (Z.leb_gt 255 _)) by lia.
    assert (u8 (oem c) = oem c) as -> by (apply uwrap_small; in_range).
    destruct (starts_put name (map oem p) (oem c) Sn) as (n2 & En & Ln2 & Sn2); [unfold zlen in *; rewrite length_map; lia|].
    unfold zlen at 1 in En. rewrite length_map in En. fold (zlen p) in En. rewrite En. cbn [rbind].
    replace (zlen p + 1) with (zlen (p ++ [c])) by (rewrite zlen_app; reflexivity). apply IH.
    + now rewrite <- app_assoc.
    + lia.
    + now rewrite map_app.
    + cbn in Hf. lia.
    + unfold in_page in *. rewrite forallb_app, PG. cbn [forallb andb]. now rewrite (proj2 (Z.eqb_neq _ _) E0).
Qed.

(** The place of the name: as it was when there is a long name. *)
Definition shows (lfv : bool) (old name d : list Z) : Prop := zlen name = 256 /\ if lfv then name = old else starts name d.

Lemma shows_put lfv old name d c : shows lfv old name d -> zlen d < 256 ->
  exists name', (if lfv then Ok name else array_set name (zlen d) c) = Ok name' /\ shows lfv old name' (d ++ [c]).
Proof.
  intros [L H] Ld. destruct lfv; [exists name; split; [reflexivity | now split]|].
  destruct (starts_put name d c H ltac:(lia)) as (b & E & Lb & Sb). exists b. split; [exact E|]. split; [lia | exact Sb].
Qed.

Lemma zseq_S i n : zseq i (Z.of_nat (S n)) = i :: zseq (i + 1) (Z.of_nat n).
Proof.
  unfold zseq. rewrite !Nat2Z.id. cbn [seq map]. f_equal; [lia|]. rewrite <- seq_shift, map_map. apply map_ext. intros. lia.
Qed.

Lemma letter_raw c i : (if ((65 <=? c) && (c <=? 90)) && negb (Z.land 0 (if 8 <=? i then NS_EXT else NS_BODY) =? 0) then c + 0x20 else c) = c.
Proof. rewrite Z.land_0_l. cbn [Z.eqb negb]. now rewrite andb_false_r. Qed.

(** The dots before byte [i]. *)
Definition dots (i : Z) : Z := if 8 <? i then 1 else 0.

Lemma dots_range i : 0 <= dots i <= 1.
Proof. unfold dots. destruct (8 <? i); lia. Qed.

(** The loop over the short name. *)
Lemma sfn_out_ok w o lfv old : is_sector w -> 0 <= o <= 480 -> let nt := byte_at w (o + 12) in
  forall n i d da name alt, 0 <= i -> i + Z.of_nat n = 11 -> zlen da = zlen d -> zlen d <= i + dots i ->
  shows lfv old name d -> zlen alt = 13 -> starts alt da ->
  exists name' alt', sfn_out n w o lfv i (zlen d) name alt = Ok (name', alt', zlen d + zlen (flat_map (glyph w o nt) (zseq i (Z.of_nat n)))) /\
    shows lfv old name' (d ++ flat_map (glyph w o nt) (zseq i (Z.of_nat n))) /\
    zlen alt' = 13 /\ starts alt' (da ++ flat_map (glyph w o 0) (zseq i (Z.of_nat n))).
Proof.
  intros HS Ho nt. induction n as [|n IH]; intros i d da name alt Hi Hn Ed Hd SH La Sa; cbn [sfn_out].
  { cbn [zseq Z.of_nat Z.to_nat seq map flat_map]. rewrite !app_nil_r. exists name, alt. split; [unfold zlen at 3; cbn; now rewrite Z.add_0_r|]. auto. }
  rewrite byte_at_get by (rewrite (proj1 HS); unfold SS; lia). cbn [rbind]. rewrite zseq_S. cbn [flat_map]. unfold glyph at 1 3 5.
  destruct (byte_at w (o + i) =? 32) eqn:E32.
  { apply IH; auto; try lia. unfold dots in *. destruct (Z.ltb_spec 8 i), (Z.ltb_spec 8 (i + 1)); lia. }
  set (c := if byte_at w (o + i) =? RDDEM then DDEM else byte_at w (o + i)).
  replace (i + 1 =? 9) with (i =? 8) by (destruct (Z.eqb_spec i 8), (Z.eqb_spec (i + 1) 9); reflexivity || lia).
  replace (9 <=? i + 1) with (8 <=? i) by (destruct (Z.leb_spec 8 i), (Z.leb_spec 9 (i + 1)); reflexivity || lia).
  set (dot := if i =? 8 then [46] else []).
  assert (zlen dot <= dots (i + 1) - dots i) as Ldot.
  { unfold dot, dots. destruct (Z.eqb_spec i 8), (Z.ltb_spec 8 i), (Z.ltb_spec 8 (i + 1)); unfold zlen; cbn [length]; lia. }
  assert (0 <= zlen d /\ 0 <= zlen dot) as [D0 D1] by (unfold zlen; lia). pose proof (dots_range i). pose proof (dots_range (i + 1)). assert (i <= 10) by lia.
  assert (exists name1 alt1, (if i =? 8 then name <=! (if lfv then Ok name else array_set name (zlen d) 46) ;; alt <=! array_set alt (zlen d) 46 ;; Ok (name, alt, zlen d + 1) else Ok (name, alt, zlen d)) =
      Ok (name1, alt1, zlen (d ++ dot)) /\ shows lfv old name1 (d ++ dot) /\ zlen alt1 = 13 /\ starts alt1 (da ++ dot)) as (name1 & alt1 & -> & SH1 & La1 & Sa1).
  { unfold dot. destruct (i =? 8); [|rewrite !app_nil_r; exists name, alt; auto].
    destruct (shows_put lfv old name d 46 SH) as (n1 & -> & SH1); [lia|]. cbn [rbind].
    destruct (starts_put alt da 46 Sa) as (a1 & Ea & La1 & Sa1); [lia|]. rewrite <- Ed, Ea. cbn [rbind]. exists n1, a1.
    rewrite zlen_app, <- Ed. repeat split; auto; try apply SH1; lia. }
  cbn [rbind]. rewrite zlen_app. assert (zlen (da ++ dot) = zlen d + zlen dot) as Eda by (rewrite zlen_app; lia).
  destruct (starts_put alt1 (da ++ dot) c Sa1) as (a2 & Ea & La2 & Sa2); [lia|]. rewrite <- Eda, Ea. cbn [rbind].
  rewrite byte_at_get by (rewrite (proj1 HS); unfold SS; lia). cbn [rbind]. fold nt. set (c' := if _ && _ then c + 0x20 else c).
  destruct (shows_put lfv old name1 (d ++ dot) c' SH1) as (n2 & En & SH2); [rewrite zlen_app; lia|].
  rewrite zlen_app, <- Eda in En. rewrite En. cbn [rbind].
  replace (zlen (da ++ dot) + 1) with (zlen ((d ++ dot) ++ [c'])) by (rewrite zlen_snoc, zlen_app; lia).
  destruct (IH (i + 1) ((d ++ dot) ++ [c']) ((da ++ dot) ++ [c]) n2 a2) as (n3 & a3 & -> & SH3 & La3 & Sa3); auto; try lia.
  { rewrite !zlen_snoc, Eda, zlen_app. lia. }
  { rewrite zlen_snoc, zlen_app. lia. }
  exists n3, a3. rewrite letter_raw, <- !app_assoc. rewrite <- !app_assoc in SH3, Sa3. split; [|auto].
  do 2 f_equal. rewrite !zlen_app. lia.
Qed.

(** A place for the information of an entry. *)
Definition info_buf (fno : FILINFO) : Prop := zlen (fname fno) = 256 /\ zlen (altname fno) = 13.

(** Is the long name shown. *)
Definition long_shown (a : option (list Z)) : bool := match a with Some a => in_page a | None => false end.

(** The information of the entry at [o] of an object with the long name [a]. *)
Record described (a : option (list Z)) (w : list Z) (o : Z) (fno : FILINFO) : Prop := {
  di_buf : info_buf fno;
  di_name : starts (fname fno) (text_of a w o ++ [0]);
  di_alt : starts (altname fno) ((if long_shown a || negb (byte_at w (o + 12) =? 0) then short_text w o 0 else []) ++ [0]);
  di_attr : fattrib fno = byte_at w (o + 11);
  di_size : fsize_ fno = le4 w (o + 28);
  di_stamp : ftime fno = le2 w (o + 22) /\ fdate fno = le2 w (o + 24)
}.

Lemma stamp_words w o : bytes w -> u16 (le4 w o) = le2 w o /\ u16 (Z.shiftr (le4 w o) 16) = le2 w (o + 2).
Proof.
  intros B. pose proof (byte_at_byte w o B). pose proof (byte_at_byte w (o + 1) B). pose proof (byte_at_byte w (o + 2) B).
  pose proof (byte_at_byte w (o + 3) B). assert (le4 w o = le2 w o + 65536 * le2 w (o + 2)) as ->
    by (unfold le4, le2; replace (o + 2 + 1) with (o + 3) by lia; lia).
  assert (0 <= le2 w o < 65536 /\ 0 <= le2 w (o + 2) < 65536) as [R1 R2]
    by (unfold le2; replace (o + 2 + 1) with (o + 3) by lia; unfold is_byte, in_u in *; eval_pow; lia).
  rewrite Z.shiftr_div_pow2 by lia. unfold u16, uwrap. eval_pow. split; dlia.
Qed.

Lemma zlen_glyph w o nt nt' i : zlen (glyph w o nt i) = zlen (glyph w o nt' i).
Proof. unfold glyph, zlen. destruct (_ =? 32); [reflexivity|]. now rewrite !length_app. Qed.

Lemma short_text_length w o nt nt' : zlen (short_text w o nt) = zlen (short_text w o nt').
Proof.
  unfold short_text. induction (zseq 0 11) as [|i q IH]; [reflexivity|]. cbn [flat_map]. rewrite !zlen_app, IH. f_equal. apply zlen_glyph.
Qed.

Lemma short_text_max w o nt : zlen (short_text w o nt) <= 12.
Proof.
  assert (forall i, zlen (glyph w o nt i) <= 1 + (if i =? 8 then 1 else 0)) as G.
  { intros i. unfold glyph. destruct (_ =? 32); [destruct (i =? 8); cbn; lia|]. rewrite zlen_app. destruct (i =? 8); cbn; lia. }
  unfold short_text. change (zseq 0 11) with [0; 1; 2; 3; 4; 5; 6; 7; 8; 9; 10]. cbn [flat_map]. rewrite !zlen_app.
  pose proof (G 0). pose proof (G 1). pose proof (G 2). pose proof (G 3). pose proof (G 4). pose proof (G 5). pose proof (G 6). pose proof (G 7).
  pose proof (G 8). pose proof (G 9). pose proof (G 10). cbn [Z.eqb Pos.eqb] in *. change (zlen (@nil Z)) with 0. lia.
Qed.

(** The first step: the long name in its place, or none. *)
Lemma long_part_ok a b dp name : zlen name = 256 -> byte_at name 0 = 0 ->
  match a with Some a => blk_ofs dp <> 0xFFFFFFFF /\ in_buf a b /\ 1 <= zlen a < FF_MAX_LFN | None => blk_ofs dp = 0xFFFFFFFF end ->
  exists name', (if blk_ofs dp =? 0xFFFFFFFF then Ok name else '(name, i) <=! lfn_out 257 b name 0 0 ;; array_set name i 0) = Ok name' /\
    zlen name' = 256 /\ negb (byte_at name' 0 =? 0) = long_shown a /\
    (long_shown a = true -> match a with Some a => starts name' (map oem a ++ [0]) | None => False end).
Proof.
  intros Ln N0 H. destruct a as [a|]; cbn [long_shown].
  2:{ rewrite H, Z.eqb_refl. exists name. rewrite N0. split; [reflexivity|]. split; [exact Ln|]. split; [reflexivity | discriminate]. }
  destruct H as (Hb & IB & La). rewrite (proj2 (Z.eqb_neq _ _) Hb). pose proof IB as (_ & W & LM & _). unfold FF_MAX_LFN in *.
  destruct (lfn_out_ok a b IB) with (q := a) (p := @nil Z) (name := name) (fuel := 257%nat) as (n1 & i & E & L1 & R);
    [unfold FF_MAX_LFN; lia | reflexivity | exact Ln | apply starts_nil | unfold zlen in *; lia | reflexivity |].
  change (zlen []) with 0 in E. rewrite E. cbn [rbind]. destruct R as [(PG & -> & Sn)|(PG & ->)]; rewrite PG.
  - destruct (starts_put n1 (map oem a) 0 Sn) as (n2 & E2 & L2 & S2); [unfold zlen in *; rewrite length_map; lia|].
    unfold zlen in E2 at 1. rewrite length_map in E2. fold (zlen a) in E2. rewrite E2. exists n2. split; [reflexivity|]. split; [lia|].
    split; [|auto]. rewrite (starts_at n2 _ 0 S2) by (rewrite zlen_app; unfold zlen in *; rewrite length_map; cbn [length]; lia).
    destruct a as [|c a]; [cbn in La; lia|]. cbn [in_page forallb map app byte_at nth] in *. unfold byte_at. cbn. cbn in PG.
    now apply andb_prop in PG as [-> _].
  - assert (array_set n1 0 0 = Ok (list_set 0 0 n1)) as -> by (apply array_set_ok; unfold zlen in L1; lia). eexists. split; [reflexivity|].
    unfold zlen in *. rewrite list_set_length. split; [exact L1|]. split; [|discriminate]. unfold byte_at. rewrite list_set_nth by lia. reflexivity.
Qed.

Lemma get_fileinfo_ok a b w dp fno o : is_sector w -> d_dir dp = o -> 0 <= o <= 480 -> d_sect dp <> 0 -> info_buf fno ->
  match a with Some a => blk_ofs dp <> 0xFFFFFFFF /\ in_buf a b /\ 1 <= zlen a < FF_MAX_LFN | None => blk_ofs dp = 0xFFFFFFFF end ->
  exists fno', get_fileinfo_fat b w dp fno = Ok fno' /\ described a w o fno'.
Proof.
  intros HS Ed Ho Hs [Ln La] HA. unfold get_fileinfo_fat. rewrite array_set_ok by (unfold zlen in Ln; lia). cbn [rbind].
  rewrite (proj2 (Z.eqb_neq _ _) Hs), Ed. pose proof HS as [LS BS].
  destruct (long_part_ok a b dp (list_set (Z.to_nat 0) 0 (fname fno))) as (n1 & -> & L1 & E1 & S1);
    [unfold zlen in *; now rewrite list_set_length | unfold byte_at; rewrite list_set_nth by (unfold zlen in Ln; lia); reflexivity | exact HA |].
  cbn [rbind]. rewrite byte_at_get by (unfold zlen in L1; lia). cbn [rbind]. rewrite E1.
  assert (shows (long_shown a) n1 n1 []) as SH0 by (split; [exact L1 | destruct (long_shown a); [reflexivity | apply starts_nil]]).
  set (nt := byte_at w (o + 12)) in *.
  destruct (sfn_out_ok w o (long_shown a) n1 HS Ho 11 0 [] [] n1 (altname fno)) as (n2 & a2 & E2 & [L2 SH2] & La2 & Sa2);
    [lia | reflexivity | reflexivity | apply dots_range | exact SH0 | exact La | apply starts_nil |]. fold nt in E2, SH2. change (zlen []) with 0 in E2. change (Z.of_nat 11) with 11 in *.
  fold (short_text w o nt) in E2, SH2. fold (short_text w o 0) in Sa2. rewrite E2. cbn [rbind app] in *. rewrite Z.add_0_l.
  pose proof (short_text_max w o nt) as MX. pose proof (short_text_length w o nt 0) as EL.
  assert (exists n3 j, (if long_shown a then Ok (n2, zlen (short_text w o nt))
      else name <=! array_set n2 (zlen (short_text w o nt)) 0 ;; n <=! array_get w (o + 12) ;; Ok (name, if n =? 0 then 0 else zlen (short_text w o nt))) = Ok (n3, j) /\
      zlen n3 = 256 /\ starts n3 (text_of a w o ++ [0]) /\
      j = zlen (if long_shown a || negb (nt =? 0) then short_text w o 0 else [])) as (n3 & j & -> & L3 & S3 & ->).
  { destruct (long_shown a) eqn:EL'.
    - subst n2. exists n1, (zlen (short_text w o nt)). split; [reflexivity|]. split; [exact L1|]. split; [|exact EL].
      specialize (S1 eq_refl). destruct a as [a|]; [|contradiction]. cbn [long_shown text_of] in *. now rewrite EL'.
    - destruct (starts_put n2 _ 0 SH2 ltac:(lia)) as (n3 & -> & L3 & S3). cbn [rbind]. rewrite byte_at_get by (rewrite LS; unfold SS; lia). cbn [rbind]. fold nt.
      eexists _, _. split; [reflexivity|]. split; [lia|]. split; [destruct a as [a|]; cbn [long_shown text_of] in *; [rewrite EL'|]; exact S3|].
      cbn [orb]. destruct (nt =? 0); [reflexivity | exact EL]. }
  cbn [rbind]. set (at_ := if long_shown a || negb (nt =? 0) then short_text w o 0 else []).
  assert (starts a2 at_ /\ zlen at_ < zlen a2) as [S4 L4].
  { unfold at_. destruct (_ || _); [split; [exact Sa2 | lia] | split; [apply starts_nil | rewrite La2; reflexivity]]. }
  destruct (starts_put a2 at_ 0 S4 L4) as (a3 & -> & L5 & S5). cbn [rbind]. rewrite byte_at_get by (rewrite LS; unfold SS; lia). cbn [rbind].
  rewrite !ld_dword_ok by (auto; rewrite ?LS; unfold SS; lia). cbn [rbind]. destruct (stamp_words w (o + 22) BS) as [W1 W2].
  eexists. split; [reflexivity|]. constructor; cbn [fname altname fattrib fsize_ ftime fdate]; auto; [split; cbn [fname altname]; lia|].
  split; [exact W1|]. rewrite W2. f_equal. lia.
Qed.

(** ** The directory listed *)

Lemma c_string_of t : forall b, starts b (t ++ [0]) -> ~ In 0 t -> c_string b = t.
Proof.
  induction t as [|c t IH]; intros [|d b] S N; unfold starts in S; cbn in S; try discriminate.
  - injection S as ->. reflexivity.
  - injection S as -> S. cbn. destruct (Z.eqb_spec c 0) as [->|_]; [destruct N; now left|]. f_equal. apply IH; [exact S|]. intros H. apply N. now right.
Qed.

(** The name an object is shown under, and whether it is shown. *)
Definition shown (s : vol) (l : list Z) (o : dobj) : list Z := text_of (do_name o) (esec s l (do_at o)) (eofs (do_at o)).

Definition visibleb (s : vol) (l : list Z) (o : dobj) : bool := negb (ebyte s l (do_at o) 0 =? 46).

Lemma hidden_filter s l os1 : Forall (hidden s l) os1 -> filter (visibleb s l) os1 = [].
Proof. induction 1 as [|o q H _ IH]; cbn; [reflexivity|]. unfold visibleb. rewrite H. exact IH. Qed.

Section ListLoop.
Context `{D : DiskIo} {HP : FfHeap}.

(** f_readdir until the name is empty; [b] is what the name buffer holds when it
    is created. *)
Definition list_turn (b : list Z) (x : DIR * FILINFO * list (list Z)) : F (DIR * FILINFO * list (list Z) + option (list (list Z))) :=
  let '(dp, fno, acc) := x in
  '(r, dp, fno) <- f_readdir_fat b dp fno ;;
  if negb (fr_ok r) then ret (inr None)
  else
    c <- lift (array_get (fname fno) 0) ;;
    ret (if c =? 0 then inr (Some acc) else inl (dp, fno, acc ++ [c_string (fname fno)])).

Definition list_dir (fuel : nat) (b : list Z) (dp : DIR) (fno : FILINFO) (path : list Z) : F (option (list (list Z))) :=
  '(r, dp) <- f_opendir_fat b dp path ;;
  if fr_ok r then iter fuel (list_turn b) (dp, fno, []) else ret None.

End ListLoop.

Section ReadDir.
Context `{D : DiskIo} {DL : DiskLaws D} {HP : FfHeap}.
Variables (s : vol) (ob : FFOBJID) (l : list Z).
Hypothesis HT : table s ob l.
Hypothesis HV : only_labels s l.
Hypothesis HO : o_fs ob = true /\ o_id ob = fsid (lay s).
Hypothesis HS : 16 * tab_sects (lay s) l < 65536.

(** The objects [os] are still to be read. *)
Record reading (os : list dobj) (dp : DIR) (s1 : vol) : Prop := {
  rd_vol : vol_ok s1;
  rd_disk : same_disk s s1;
  rd_obj : same_obj ob dp;
  rd_place : (exists i, stands (lay s) l i dp /\ listed s l i os) \/ d_sect dp = 0 /\ os = []
}.

Lemma dir_read_wp os dp b s1 : reading os dp s1 -> lfn_buf b -> Forall readable os ->
  wp (dir_read_fat b dp false) (fun y s2 => let '(e, dp2, b2) := y in read_out s ob l os y s2 /\ (e <> FR_OK -> d_sect dp2 = 0)) s1.
Proof.
  intros [V1 S1 SO P] LB RD. unfold dir_read_fat. apply wp_bind, wp_gets, wp_bind. pose proof (ev_layout _ _ _ S1) as L1. rewrite L1.
  eapply wp_conseq with (P := read_out s ob l os).
  - destruct P as [(i & St & HL)|[E ->]].
    + pose proof (st_range _ _ _ _ St) as R. apply (read_listed s ob l HT HV i os HL); auto; [lia | constructor; auto|].
      unfold walk_fuel, max_dir. rewrite (proj2 (Z.eqb_neq _ _) (tb_type _ _ _ HT)). change (MAX_DIR / SZDIRE) with 65536. unfold entries. lia.
    + cbn [iter]. unfold dir_turn at 1. rewrite E. cbn [Z.eqb]. wp_norm. split; [exact V1|]. split; [exact S1|]. split; [exact SO|]. right. left. auto.
  - intros [[e dp2] b2] s2 R. apply wp_ret. destruct (fr_ok e) eqn:Ee; [split; [exact R | destruct e; easy]|].
    split; [|now intros _]. destruct R as (V2 & S2 & SO2 & R). split; [exact V2|]. split; [exact S2|]. split; [exact SO2|].
    destruct R as [R|[R|(-> & _)]]; [now left | right; now left | discriminate].
Qed.

(** The next object that is shown. *)
Definition next_info (os : list dobj) (dp2 : DIR) (fno2 : FILINFO) (s2 : vol) : Prop :=
  Forall (hidden s l) os /\ reading [] dp2 s2 /\ info_buf fno2 /\ byte_at (fname fno2) 0 = 0 \/
  exists os1 o os2, os = os1 ++ o :: os2 /\ Forall (hidden s l) os1 /\ ~ hidden s l o /\
    described (do_name o) (esec s l (do_at o)) (eofs (do_at o)) fno2 /\ reading os2 dp2 s2.

(** f_readdir. *)
Lemma f_readdir_wp os dp b fno s1 : reading os dp s1 -> lfn_buf b -> info_buf fno -> Forall readable os ->
  wp (f_readdir_fat b dp fno) (fun y s2 => let '(r, dp2, fno2) := y in
    r = FR_OK /\ next_info os dp2 fno2 s2 \/
    (r = FR_DISK_ERR \/ r = FR_INVALID_OBJECT) /\ failed s s2 \/
    r = FR_NOT_ENOUGH_CORE /\ ff_memalloc (calls s2) NAMBUF = false) s1.
Proof.
  intros [V1 S1 SO P] LB IB RD. pose proof (ev_layout _ _ _ S1) as L1. pose proof (ev_calls _ _ _ S1) as C1. unfold f_readdir_fat.
  change (d_obj dp) with (obj (mkFIL (d_obj dp) 0 FR_OK 0 0 0 0 0 [])). apply wp_bind. wp_use validate_wp; [exact V1 | |].
  { destruct HO, SO as [_ [H1 H2]]. split; cbn [obj]; rewrite ?L1; congruence. }
  intros r s2 (V2 & Q2 & R). pose proof (PreOrder_Transitive _ _ _ S1 (qu_disk _ _ Q2)) as S12. pose proof (ev_calls _ _ _ S12) as C2.
  destruct R as [->|[-> FL]]; cbn [fr_ok negb]; [|apply wp_ret; right; left; split; [now right | now apply (failed_r _ s1)]].
  wp_norm. destruct (ff_memalloc (calls s2) NAMBUF) eqn:EM; cbn [negb]; [|wp_norm; right; right; eauto].
  wp_norm. wp_use (dir_read_wp os dp b); [constructor; auto | exact LB | exact RD |]. intros [[e dp2] b2] s3 [(V3 & S3 & SO3 & R) E0].
  pose proof (ev_layout _ _ _ S3) as L3. destruct R as [(-> & FL)|[(-> & HF)|(-> & os1 & o & os2 & Eos & HF & NH & St & Ew & NM & HL)]]; cbn [fr_ok negb].
  - wp_norm. right. left. auto.
  - specialize (E0 ltac:(discriminate)). wp_norm. unfold get_fileinfo_fat. rewrite E0. cbn [Z.eqb]. destruct IB as [I1 I2].
    rewrite array_set_ok by (unfold zlen in I1; lia). cbn [rbind]. eapply wp_lift; [reflexivity|]. apply wp_bind. unfold dir_next. wp_norm.
    rewrite E0. cbn [Z.eqb orb]. wp_norm. left. split; [reflexivity|]. left. split; [exact HF|].
    split; [constructor; auto|]. unfold info_buf, set_fname. cbn [fname altname]. unfold zlen. rewrite list_set_length. split; [now split|].
    unfold byte_at. rewrite list_set_nth by (unfold zlen in I1; lia). reflexivity.
  - pose proof (st_range _ _ _ _ St) as Ro. pose proof (esec_sector s ob l HT _ Ro) as ES. destruct (stands_sect _ _ _ _ _ HT St) as (_ & _ & Ps).
    destruct (get_fileinfo_ok (do_name o) b2 (esec s l (do_at o)) dp2 fno (eofs (do_at o)) ES (st_dir _ _ _ _ St) (eofs_range _) ltac:(lia) IB NM)
      as (fno2 & Ef & DE).
    wp_norm. rewrite Ew. eapply wp_lift; [exact Ef|]. apply wp_bind. wp_use (dir_next_wp l (do_at o) dp2 false).
    { apply (table_obj _ ob); [apply SO3 | exact (table_same _ _ _ _ HT V3 S3)]. }
    { now rewrite L3. }
    { now left. }
    intros [e dp3] s4 (V4 & S4 & (_ & _ & G3 & G4) & R). cbn [fst snd] in *. rewrite L3 in R.
    pose proof (PreOrder_Transitive _ _ _ S3 S4) as S34. pose proof (same_obj_kept _ _ _ SO3 G3 G4) as SO4. apply wp_ret.
    destruct R as [(-> & H & St4)|[(-> & H & E4)|(-> & FL)]].
    + left. split; [reflexivity|]. right. exists os1, o, os2. repeat (split; [assumption|]). constructor; auto. left. eauto.
    + left. split; [reflexivity|]. right. exists os1, o, os2. repeat (split; [assumption|]). constructor; auto. right. split; [auto|].
      rewrite H in HL. now apply (listed_at_end s l).
    + right. left. split; [now left | apply (failed_r _ s3); [exact FL | apply S3]].
Qed.

(** Names that can be told from the end of the directory. *)
Definition legible (o : dobj) : Prop := shown s l o <> [] /\ ~ In 0 (shown s l o).

Lemma shown_first o fno : described (do_name o) (esec s l (do_at o)) (eofs (do_at o)) fno -> legible o ->
  array_get (fname fno) 0 = Ok (byte_at (fname fno) 0) /\ byte_at (fname fno) 0 <> 0 /\ c_string (fname fno) = shown s l o.
Proof.
  intros DE [NE NZ]. destruct (di_buf _ _ _ _ DE) as [IL _]. pose proof (di_name _ _ _ _ DE) as SN. fold (shown s l o) in SN.
  split; [apply byte_at_get; unfold zlen in IL; lia|]. split; [|now apply c_string_of].
  destruct (shown s l o) as [|c t] eqn:E; [easy|]. rewrite (starts_at _ _ 0 SN) by (rewrite zlen_app; unfold zlen; cbn [length]; lia).
  cbn. intros ->. apply NZ. now left.
Qed.

(** The loop gives the names of the objects shown, in their order. *)
Lemma list_loop_wp b : lfn_buf b -> forall n os dp fno acc s1, reading os dp s1 -> info_buf fno -> Forall readable os -> Forall legible os ->
  (length os < n)%nat ->
  wp (iter n (list_turn b) (dp, fno, acc)) (fun r s2 => match r with
    | Some names => names = acc ++ map (shown s l) (filter (visibleb s l) os) /\ vol_ok s2 /\ same_disk s s2
    | None => failed s s2 \/ ff_memalloc (calls s2) NAMBUF = false
    end) s1.
Proof.
  intros LB. induction n as [|n IH]; intros os dp fno acc s1 RD IB RA LG Hn; [lia|]. cbn [iter]. unfold list_turn at 1. apply wp_bind, wp_bind.
  wp_use (f_readdir_wp os dp b fno s1 RD LB IB RA). intros [[r dp2] fno2] s2 [(-> & NI)|[([-> | ->] & FL)|(-> & EM)]]; cbn [fr_ok negb];
    [|wp_norm; auto | wp_norm; auto | wp_norm; auto].
  destruct NI as [(HF & RD2 & [IL _] & E0)|(os1 & o & os2 & -> & HF & NH & DE & RD2)].
  - apply wp_bind. eapply wp_lift; [apply byte_at_get; unfold zlen in IL; lia|]. rewrite E0. cbn [Z.eqb]. wp_norm.
    rewrite (hidden_filter _ _ _ HF), app_nil_r. split; [reflexivity|]. split; apply RD2.
  - apply Forall_app in RA as [_ RA]. apply Forall_app in LG as [_ LG]. inversion RA; inversion LG; subst.
    destruct (shown_first o fno2 DE ltac:(assumption)) as (Eg & N0 & ES). apply wp_bind. eapply wp_lift; [exact Eg|].
    rewrite (proj2 (Z.eqb_neq _ _) N0). wp_norm. rewrite length_app in Hn. cbn [length] in Hn.
    eapply wp_conseq; [apply (IH os2); auto; [apply DE | lia]|].
    intros [names|] s3 R; [|exact R]. destruct R as [-> R]. split; [|exact R]. rewrite filter_app, (hidden_filter _ _ _ HF). cbn [app filter].
    unfold visibleb at 2. rewrite (proj2 (Z.eqb_neq _ _) NH). cbn [negb map]. now rewrite <- app_assoc, ES.
Qed.

End ReadDir.

(** The root directory opened and listed. *)
Section ListRoot.
Context `{D : DiskIo} {DL : DiskLaws D} {HP : FfHeap}.
Variables (s : vol) (l path : list Z).
Let root := mkFFOBJID true (fsid (lay s)) 0 0 0 0 0 0.
Hypothesis HT : table s root l.
Hypothesis HP0 : exists c q, strip_seps path = c :: q /\ c < 32.

Lemma f_opendir_root_wp b dp os s1 : zlen (d_fn dp) = 12 -> listed s l 0 os -> vol_ok s1 -> same_disk s s1 ->
  wp (f_opendir_fat b dp path) (fun y s2 =>
    fst y = FR_OK /\ reading s root l os (snd y) s2 \/
    fst y = FR_DISK_ERR /\ failed s s2 \/
    fst y = FR_NOT_ENOUGH_CORE /\ ff_memalloc (calls s2) NAMBUF = false) s1.
Proof.
  intros Fn HL V1 S1. destruct HP0 as (c & q & Ep & Hc). pose proof (entries_pos s root l HT) as EP. unfold f_opendir_fat. wp_norm.
  destruct (ff_memalloc (calls s1) NAMBUF) eqn:EM; cbn [negb]; [|wp_norm; right; right; eauto].
  unfold follow_path. rewrite Ep. wp_norm. eapply wp_lift; [reflexivity|]. rewrite (proj2 (Z.ltb_lt c 32) Hc). wp_norm. cbn [d_fn set_d_obj].
  eapply wp_lift; [apply array_set_ok; unfold zlen in Fn; lia|]. apply wp_bind.
  set (dp1 := set_d_fn _ _). assert (sclust (d_obj dp1) = 0) as Sc by reflexivity. assert (o_fs (d_obj dp1) = true) as Of by reflexivity.
  pose proof (ev_layout _ _ _ S1) as L1. change 0 with (SZDIRE * 0) at 1.
  wp_use (dir_sdi_wp l 0 dp1); [apply (table_obj _ root); [exact Sc | exact (table_same _ _ _ _ HT V1 S1)] | rewrite L1; lia |].
  intros [r dp2] s2 (V2 & S2 & (F1 & _ & F3 & F4 & F5) & R). cbn [fst snd] in *. rewrite L1 in R. pose proof (PreOrder_Transitive _ _ _ S1 S2) as S12.
  pose proof (ev_layout _ _ _ S12) as L2. wp_norm. destruct R as [[-> St]|[-> FL]]; cbn [fr_ok]; wp_norm.
  2:{ cbn [fr_ok fst]. right. left. split; [reflexivity | apply (failed_r _ s1); [exact FL | apply S1]]. }
  rewrite F1. unfold dp1 at 1. cbn [d_fn set_d_fn]. eapply wp_lift; [apply byte_at_get; rewrite list_set_length; unfold zlen in Fn; lia|].
  rewrite byte_at_set by (unfold zlen in Fn; lia). rewrite Z.eqb_refl. change (Z.land NS_NONAME NS_NONAME =? 0) with false. cbv iota. wp_norm. cbn [fr_ok]. wp_norm.
  change 0 with (SZDIRE * 0) at 1. set (dp3 := set_d_obj _ dp2).
  wp_use (dir_sdi_wp l 0 dp3); [apply (table_obj _ root); [cbn; congruence | exact (table_same _ _ _ _ HT V2 S12)] | rewrite L2; lia |].
  intros [r dp4] s3 (V3 & S3 & (_ & _ & G3 & G4 & G5) & R). cbn [fst snd] in *. rewrite L2 in *. pose proof (PreOrder_Transitive _ _ _ S12 S3) as S13. wp_norm.
  destruct R as [[-> St4]|[-> FL]]; cbn [fr_ok fst snd].
  - left. split; [reflexivity|]. constructor; auto; [|left; eauto]. split; [rewrite G3; cbn; congruence|]. split; [rewrite G4; cbn; congruence | rewrite G5; exact (f_equal fsid L2)].
  - right. left. split; [reflexivity | apply (failed_r _ s2); [exact FL | apply S12]].
Qed.

Lemma list_dir_wp b dp fno os fuel : zlen (d_fn dp) = 12 -> listed s l 0 os -> only_labels s l -> 16 * tab_sects (lay s) l < 65536 ->
  Forall readable os -> Forall (legible s l) os -> lfn_buf b -> info_buf fno -> (length os < fuel)%nat ->
  wp (list_dir fuel b dp fno path) (fun r s2 => match r with
    | Some names => names = map (shown s l) (filter (visibleb s l) os) /\ vol_ok s2 /\ same_disk s s2
    | None => failed s s2 \/ ff_memalloc (calls s2) NAMBUF = false
    end) s.
Proof.
  intros Fn HL HV HS RA LG LB IB Hf. unfold list_dir. apply wp_bind. wp_use (f_opendir_root_wp b dp os s Fn HL); [apply HT | reflexivity |].
  intros [r dp2] s2 R. cbn [fst snd] in R. destruct R as [(-> & RD)|[(-> & FL)|(-> & EM)]]; cbn [fr_ok]; [|wp_norm; auto | wp_norm; auto].
  exact (list_loop_wp s root l HT HV (conj eq_refl eq_refl) HS b LB fuel os dp2 fno [] s2 RD IB RA LG Hf).
Qed.

End ListRoot.
