(* ===== verification/FatSpec.v ===== *)
(** * ext/fatfs: what the file system promises

    The properties of the FatFs operations modelled in the Fat* files, each with
    an instance on a small FAT16 card: two clusters of a file of 1500 bytes, its
    directory entry, eight free clusters. *)

From Stdlib Require Import ZArith Bool List Lia.
From Stdlib Require Import Classes.RelationClasses.
From S2P Require Import Prelude FatVol FatTable FatMount FatBitmap FatAlloc FatChain FatFile FatWrite FatRead FatSync FatOpen FatStore.
Import ListNotations.
Local Open Scope Z_scope.
Local Open Scope fw_scope.

(** ** The sample card *)

(** A disk layer that never fails. *)
Definition steady : DiskIo := {| disk_ok _ := true; disk_protect _ := false; spoiled _ _ := repeat 0 (Z.to_nat SS) |}.

#[export] Instance steady_laws : DiskLaws steady.
Proof. constructor. intros k n. apply zero_sector. Qed.

Module Sample.

Definition g : Layout :=
  {| fs_type := FS_FAT16; fsid := 1; n_fats := 2; n_rootdir := 16; csize := 2; n_fatent := 12; fsize := 1;
     volbase := 0; fatbase := 1; dirbase := 3; database := 4 |}.

(** Entries 2 and 3 of the table: the chain 2, 3. *)
Definition table : list Z := [248; 255; 255; 255; 3; 0; 255; 255] ++ repeat 0 504.

(** The entry at offset 32: first cluster 2, 1500 bytes. *)
Definition dir : list Z := repeat 0 58 ++ [2; 0; 220; 5; 0; 0] ++ repeat 0 448.

Definition sectors (n : Z) : list Z :=
  if n =? 1 then table else if n =? 2 then table else if n =? 3 then dir else repeat (n mod 256) (Z.to_nat SS).

(** The volume with the directory sector in the window. *)
Definition s : vol := mkvol (mkFATFS g 0 0 3 8 3 dir) sectors 0.

Definition ob : FFOBJID := mkFFOBJID true 1 0x20 0 2 1500 0 0.

Definition l : list Z := [2; 3].

(** The file opened for reading and writing. *)
Definition fp : FIL := fresh (mkFIL ob 0 FR_OK 0 0 0 0 0 []) ob g 3 3 32.

End Sample.

Lemma bytes_dec l : forallb (fun b => (0 <=? b) && (b <? 256)) l = true -> bytes l.
Proof.
  intros H. apply Forall_forall. intros x Hx. rewrite forallb_forall in H. specialize (H x Hx).
  apply andb_true_iff in H as [H1 H2]. apply Z.leb_le in H1. apply Z.ltb_lt in H2. in_range.
Qed.

Lemma sample_layout : layout_ok Sample.g.
Proof.
  constructor; cbn; unfold FS_FAT16, FS_FAT32; try lia. exists 1. split; [lia | reflexivity].
Qed.

Lemma sample_sectors n : is_sector (Sample.sectors n).
Proof.
  unfold Sample.sectors.
  repeat match goal with |- context [?a =? ?b] => destruct (Z.eqb_spec a b) end;
    try (split; [reflexivity | now apply bytes_dec]).
  split; [now rewrite repeat_length|]. apply Forall_forall. intros x Hx. apply repeat_spec in Hx as ->.
  pose proof (Z.mod_pos_bound n 256). in_range.
Qed.

Lemma sample_vol : vol_ok Sample.s.
Proof.
  constructor; cbn [Sample.s fs card layout win wflag winsect free_clst last_clst]; try (in_range || congruence).
  - apply sample_layout.
  - exact (sample_sectors 3).
  - apply sample_sectors.
  - reflexivity.
Qed.

Lemma sample_entry : entry_at Sample.s 32 Sample.ob Sample.l.
Proof.
  constructor.
  - apply sample_vol.
  - discriminate.
  - split; [unfold SS; lia|]. constructor; cbn [Sample.s fs layout winsect].
    + unfold visible, FS_FAT32. cbn. unfold FS_FAT16. lia.
    + cbn. lia.
    + intros c Hc _. unfold in_cluster, clust_sect, cluster in *. cbn [Sample.g csize database n_fatent] in *. lia.
  - split; reflexivity.
  - right. split; [|reflexivity]. unfold Sample.l. cbn [chain]. unfold cluster. vm_compute. intuition discriminate.
  - vm_compute. intuition discriminate.
Qed.

Lemma sample_file : file_ok Sample.s Sample.fp Sample.l /\ holds Sample.s Sample.fp Sample.l (stored Sample.s Sample.l) /\
  opened Sample.s Sample.fp /\ entry_place Sample.s Sample.fp Sample.l.
Proof.
  destruct (fresh_ok Sample.s 32 Sample.ob Sample.l 3 (mkFIL Sample.ob 0 FR_OK 0 0 0 0 0 []) sample_entry eq_refl)
    as (FO & H & OP & EP & _). auto.
Qed.

(** ** Files *)

Section Files.
Context `{D : DiskIo} {DL : DiskLaws D}.

(** C4: f_write on a FAT volume, whatever the disk layer does: FR_OK means that the
    contents of the file are the old ones with the first [bw] bytes of the
    buffer in place of those from the file pointer on, the pointer and the size
    advanced accordingly, the chain stretched by clusters that were free only,
    and no other file's cluster, table entry or sector touched; [bw] is less
    than asked for only if the volume is full (or 4 GiB are reached).  Any other
    status comes from a failed call of the disk layer or a reserved table entry,
    and leaves the rest of the volume alone too. *)
Theorem f_write_spec fp l f buff btw s :
  file_ok s fp l -> holds s fp l f -> opened s fp -> has FA_WRITE fp = true ->
  bytes buff -> 0 <= btw <= Z.of_nat (length buff) -> btw < 2 ^ 32 ->
  wp (f_write fp buff btw) (fun x s' => let '(r, bw, fp') := x in
    0 <= bw <= clipped fp btw /\
    (r = FR_OK /\
       (exists l', grows s l l' /\ frame l' s s' /\ file_ok s' fp' l' /\
          holds s' fp' l' (patch f (fptr fp) (slice buff 0 bw)) /\
          fptr fp' = fptr fp + bw /\ objsize (obj fp') = Z.max (objsize (obj fp)) (fptr fp + bw)) /\
       (bw = clipped fp btw \/ full s') \/
     r = FR_INVALID_OBJECT /\ failed s s' /\ fp' = fp /\ quiet s s' \/
     exists l', grows s l l' /\ frame l' s s' /\ explained r s s')) s.
Proof.
  intros FO H OP HW B H1 H2. wp_use (f_write_wp fp l f); auto. intros [[r bw] fp'] s' [Hbw R]. split; [exact Hbw|].
  destruct R as [(-> & (l' & G & FR & FO' & H' & P & Z' & _) & _ & FU)|R]; [left | now right].
  split; [reflexivity|]. split; [exists l'; auto 8 | exact FU].
Qed.

(** C12: f_read on a FAT volume: FR_OK returns as many bytes as were asked for, up
    to the end of the file, and they are the bytes of the contents from the file
    pointer on, whether they come from the card or from the dirty buffer; the
    contents stay.  Any other status is that of a failed call. *)
Theorem f_read_spec fp l f btr s :
  file_ok s fp l -> holds s fp l f -> opened s fp -> has FA_READ fp = true -> 0 <= btr < 2 ^ 32 ->
  wp (f_read fp btr) (fun x s' => let '(r, d, fp') := x in
    r = FR_OK /\ Z.of_nat (length d) = Z.min btr (objsize (obj fp) - fptr fp) /\
      (forall i, 0 <= i < Z.of_nat (length d) -> byte_at d i = f (fptr fp + i)) /\
      fptr fp' = fptr fp + Z.of_nat (length d) /\ file_ok s' fp' l /\ holds s' fp' l f /\ frame l s s' \/
    (r = FR_INVALID_OBJECT \/ r = FR_DISK_ERR) /\ failed s s' /\ frame l s s') s.
Proof.
  intros FO H OP HR Hb. wp_use (f_read_wp fp l f); auto. intros [[r d] fp'] s' R.
  destruct R as [(-> & (FR & FO' & H' & P & _ & _ & K) & Ld)|[(-> & FL & _ & _ & Q)|(-> & FL & FR)]].
  - left. auto 8.
  - right. split; [now left|]. split; [exact FL|]. apply quiet_frame; [apply FO | exact Q].
  - right. auto.
Qed.


(** What is written is read back: f_write, f_close, then the file opened again
    from its directory entry and read from the start.  The bytes read are the
    former contents with the [bw] bytes written in their place, up to the end of
    the file; only a failed call or a reserved table entry gets in the way. *)
Theorem save_load_roundtrip fp l f buff n s :
  file_ok s fp l -> holds s fp l f -> opened s fp -> entry_place s fp l -> has FA_WRITE fp = true ->
  bytes buff -> Z.of_nat (length buff) < 2 ^ 32 -> 0 <= n < 2 ^ 32 ->
  wp (save_load fp buff n) (fun r s' => match r with
    | Some (bw, d) => 0 <= bw <= clipped fp (Z.of_nat (length buff)) /\
        Z.of_nat (length d) = Z.min n (Z.max (objsize (obj fp)) (fptr fp + bw)) /\
        forall i, 0 <= i < Z.of_nat (length d) -> byte_at d i = patch f (fptr fp) (slice buff 0 bw) i
    | None => troubled s s'
    end) s.
Proof. apply save_load_wp. Qed.

End Files.

(** ** The table and its chains *)

Section Tables.
Context `{D : DiskIo} {DL : DiskLaws D}.


(** C20: create_chain on a FAT volume: it takes a cluster that is free, marks it as
    the end of a chain and links it behind [clst] (or starts a chain), changes no
    other entry and nothing outside the table, and keeps the count of free
    clusters; 0 is returned only when no cluster is free or the count says so, 1
    only when the table has a reserved entry, 0xFFFFFFFF after a failed call,
    which leaves all entries but the two in question alone. *)
Theorem create_chain_spec ob clst s :
  vol_ok s -> fs_type (lay s) <> FS_EXFAT -> stretchable s clst ->
  wp (create_chain ob clst) (fun r s' => vol_ok s' /\
    (allocated clst (fst r) s s' \/
     fst r = 0 /\ quiet s s' /\ (free_clst (fs s) = 0 \/ forall c, cluster (lay s) c -> fat_entry s c <> 0) \/
     fst r = 1 /\ quiet s s' /\ (exists c, cluster (lay s) c /\ fat_entry s c = 1) \/
     fst r = 0xFFFFFFFF /\ exists ncl, (cluster (lay s) ncl -> fat_entry s ncl = 0) /\ disturbed clst ncl s s')) s.
Proof. intros V T H. wp_use create_chain_wp; auto. intros r s' (_ & R). exact R. Qed.

(** C21: remove_chain on a FAT volume: it terminates (on a chain of the volume's
    length too), frees exactly the clusters of the chain, ends the remaining
    chain at [pclst], leaves every other entry and everything outside the table
    alone, and adds the freed clusters to the count of free ones; a failed call
    leaves the entries of other chains alone. *)
Theorem remove_chain_spec ob clst l pclst s :
  vol_ok s -> fs_type (lay s) <> FS_EXFAT -> chain (lay s) (fat_entry s) (clst :: l) ->
  pclst = 0 \/ cluster (lay s) pclst /\ ~ In pclst (clst :: l) ->
  wp (remove_chain ob clst pclst) (fun r s' => vol_ok s' /\
    (fst r = FR_OK /\ reaches (freed (clst :: l) (cut (lay s) pclst (fat_entry s))) s s' /\
       free_clst (fs s') = (if free_clst (fs s) <=? n_fatent (lay s) - 2
         then Z.min (n_fatent (lay s) - 2) (free_clst (fs s) + Z.of_nat (length (clst :: l))) else free_clst (fs s)) \/
     fst r = FR_DISK_ERR /\ failed s s' /\ exists m, reaches m s s' /\
       forall c, cluster (lay s) c -> ~ In c (clst :: l) -> c <> pclst -> m c = fat_entry s c)) s.
Proof.
  intros V T H HP. wp_use (remove_chain_wp ob clst l pclst); auto. intros r s' (_ & V' & R). split; [exact V'|].
  destruct R as [(E1 & E2 & E3)|R]; [left | now right]. rewrite bumps_value in E3. auto.
Qed.

(** C23: sync_fs, and the window cache behind it: whatever calls fail, no sector that
    matters changes its contents as seen through the window; after FR_OK every
    one of them is on the card itself, and on a FAT32 volume with a changed
    count FSInfo holds the count of free clusters and the last one allocated,
    unless just that write failed, which is the last call of the disk layer but
    one, before CTRL_SYNC; a failed write to the second table is no excuse. *)
Theorem sync_fs_spec s : vol_ok s -> wp sync_fs (fun r s' =>
  vol_ok s' /\ (forall n, visible (lay s) n -> view s' n = view s n) /\
  (r = FR_OK \/ r = FR_DISK_ERR /\ failed s s') /\
  (r = FR_OK -> forall n, visible (lay s) n -> card s' n = view s n) /\
  (r = FR_OK -> fs_type (lay s) = FS_FAT32 -> fsi_flag (fs s) = 1 ->
     le4 (card s' (volbase (lay s) + 1)) 488 = free_clst (fs s) /\
     le4 (card s' (volbase (lay s) + 1)) 492 = last_clst (fs s) \/ disk_ok (calls s' - 2) = false)) s.
Proof.
  intros V. wp_use sync_fs_wp; [exact V|]. intros r s' [V' L W A B C X S K I].
  repeat (split; [assumption|]). intros E1 E2 E3. now destruct (I E1 E2 E3).
Qed.

End Tables.

(** ** The exFAT bitmap *)

Section Bitmaps.
Context `{D : DiskIo} {DL : DiskLaws D}.

(** Change_bitmap, whose loops run over bits, bytes and sectors of the exFAT
    allocation bitmap: FR_OK means that the bits of the [ncl] clusters from [clst]
    on were all the opposite and are all [b] now; FR_INT_ERR that one of them was
    [b] already, the ones before it changed; after a failed call a part of the
    run is changed.  No other bit and nothing outside the bitmap changes, and the
    loops end. *)
Theorem change_bitmap_spec clst ncl b s : vol_ok s -> 2 <= clst -> 0 < ncl -> clst + ncl <= n_fatent (lay s) ->
  wp (change_bitmap clst ncl (Z.b2z b)) (fun r s' => vol_ok s' /\ exists k, 0 <= k <= ncl /\
    bits_set (fun j => if (clst - 2 <=? j) && (j <? clst - 2 + k) then b else used s j) s s' /\
    (forall j, clst - 2 <= j < clst - 2 + k -> used s j = negb b) /\
    (r = FR_OK /\ k = ncl \/ k < ncl /\ (r = FR_INT_ERR /\ used s (clst - 2 + k) = b \/ r = FR_DISK_ERR /\ failed s s'))) s.
Proof.
  intros V H1 H2 H3. wp_use (change_bitmap_wp clst ncl b); auto. intros r s' R.
  destruct R as [(-> & V' & B & K)|[(-> & k & Hk & (V' & B & K) & E)|(-> & FL & k & Hk & V' & B & K)]].
  - split; [exact V'|]. exists ncl. split; [lia|]. auto.
  - split; [exact V'|]. exists k. split; [lia|]. repeat (split; [assumption|]). right. split; [lia | auto].
  - split; [exact V'|]. exists k. split; [lia|]. repeat (split; [assumption|]). right. split; [lia | auto].
Qed.

(** The books of create_chain leave the sectors alone. *)
Lemma books_wp (ob : FFOBJID) ncl n s : vol_ok s -> in_u 32 ncl ->
  wp (upd_fs (set_last_clst ncl) ;;
      f <- gets fs ;;
      when (free_clst f <=? n) (upd_fs (set_free_clst (u32 (free_clst f - 1)))) ;;
      mark_fsinfo ;;
      ret (ncl, ob)) (fun r s' => r = (ncl, ob) /\ vol_ok s' /\ lay s' = lay s /\ view s' = view s /\
    last_clst (fs s') = ncl /\ calls s' = calls s) s.
Proof.
  intros V Hn. unfold mark_fsinfo, upd_fs. wp_norm. cbn [fs set_last_clst free_clst].
  assert (in_u 32 (u32 (free_clst (fs s) - 1))) by (apply uwrap_range; lia).
  apply wp_when; intros _; wp_norm; (split; [reflexivity|]); (split; [destruct V; constructor; auto|]); repeat split.
Qed.

(** C32: The first cluster of a file on an exFAT volume (create_chain with no chain
    yet): the search goes through the whole bitmap from wherever it starts; the
    cluster returned was free, its bit and no other is set, and the chain counts
    as contiguous; 0 comes back only when every cluster is in use or the count of
    free ones says so, 0xFFFFFFFF after a failed call. *)
Theorem exfat_first_cluster_spec ob s : vol_ok s -> fs_type (lay s) = FS_EXFAT ->
  wp (create_chain ob 0) (fun r s' => vol_ok s' /\
    (cluster (lay s) (fst r) /\ used s (fst r - 2) = false /\ stat (snd r) = 2 /\ last_clst (fs s') = fst r /\
       bits_set (fun j => if j =? fst r - 2 then true else used s j) s s' \/
     fst r = 0 /\ same_disk s s' /\ (free_clst (fs s) = 0 \/ forall c, cluster (lay s) c -> used s (c - 2) = true) \/
     fst r = 0xFFFFFFFF /\ failed s s' /\ bits_set (used s) s s')) s.
Proof.
  intros V T. pose proof (n_fatent_range _ (vo_layout s V)) as NR. unfold create_chain, chain_start. apply wp_bind, wp_gets.
  cbn [Z.eqb]. apply wp_bind, wp_bind, wp_gets, wp_ret, wp_bind, wp_gets. 
  match goal with |- context [extend_exfat _ _ ?x] => set (scl := x) end.
  destruct (Z.eqb_spec (free_clst (fs s)) 0) as [F0|F0]; 
    [apply wp_ret; split; [exact V|]; right; left; split; [reflexivity|]; split; [reflexivity | now left]|].
  rewrite T, Z.eqb_refl. unfold extend_exfat. apply wp_bind, wp_bind. wp_use (find_bitmap_wp scl s V).
  intros c s1 (V1 & D1 & R). destruct R as [[Hc E]|[[-> FU]|[-> FL]]].
  2:{ cbn [Z.eqb orb]. apply wp_ret, wp_ret. split; [exact V1|]. right. left. auto. }
  2:{ cbn [Z.eqb orb Pos.eqb]. apply wp_ret, wp_ret. split; [exact V1|]. right. right. auto using same_bits. }
  unfold cluster in Hc. destruct (Z.eqb_spec c 0); [lia|]. destruct (Z.eqb_spec c 0xFFFFFFFF); [exfalso; eval_pow; lia|]. cbn [orb].
  pose proof (ev_layout _ _ _ D1) as L1. apply wp_bind. change 1 with (Z.b2z true) at 2.
  wp_use (change_bitmap_wp c 1 true s1); auto; [lia | lia | rewrite L1; lia |]. intros r s2 R.
  assert (used s1 (c - 2) = false) as E1.
  { rewrite (bs_bits _ _ _ (same_bits s s1 V D1)); [exact E | unfold n_bits; lia]. }
  pose proof (same_bits s s1 V D1) as SB. destruct R as [(-> & V2 & B2 & _)|[(-> & k & Hk & _ & X)|(-> & FL & k & Hk & V2 & B2 & _)]].
  2:{ replace k with 0 in X by lia. rewrite Z.add_0_r, E1 in X. discriminate X. }
  2:{ apply wp_ret, wp_ret. split; [exact V2|]. right. right. split; [reflexivity|].
      split; [apply (failed_r _ s1); [exact FL | apply D1]|]. destruct (bits_set_trans _ _ _ _ _ SB B2) as [L B R C].
      constructor; auto. intros j Hj. rewrite B, (bs_bits _ _ _ SB) by exact Hj.
      destruct (Z.leb_spec (c - 2) j), (Z.ltb_spec j (c - 2 + k)); cbn [andb]; auto; lia. }
  cbn [Z.eqb stat set_stat Pos.eqb]. apply wp_ret. wp_use books_wp; [exact V2 | in_range |].
  intros r s3 (-> & V3 & L3 & E3 & LC & C3). cbn [fst snd]. split; [exact V3|]. left. split; [exact Hc|]. split; [exact E|].
  split; [reflexivity|]. split; [exact LC|]. destruct (bits_set_trans _ _ _ _ _ SB B2) as [L B R C]. constructor.
  - congruence.
  - intros j Hj. assert (used s3 j = used s2 j) as -> by (unfold used, bit_byte; now rewrite E3, L3).
    rewrite B, (bs_bits _ _ _ SB) by exact Hj.
    destruct (Z.leb_spec (c - 2) j), (Z.ltb_spec j (c - 2 + 1)), (Z.eqb_spec j (c - 2)); cbn [andb]; auto; lia.
  - intros n' Hn Hb. rewrite E3. auto.
  - lia.
Qed.

End Bitmaps.

(** ** Mounting *)

Section Mounting.
Context `{D : DiskIo} {DL : DiskLaws D}.

(** C24: f_mount(&fs, path, 1) with the one drive there is: the card is not written.
    FR_OK gives the object a new mount ID and the layout that a boot sector of
    the card describes: type, sizes, places of the tables, of the root directory
    and of the clusters, for FAT12, FAT16, FAT32 and exFAT alike (a partition
    entry that names sector 0xFFFFFFFF has the buffer's old contents examined).
    If the sizes in a FAT boot sector add up without wrapping around in 32 bits,
    and a FAT32 volume has a sector for FSInfo before its table, the volume is then
    in the state that the file operations rely on.  Any other status leaves the
    object unmounted; it is that of a failed call, or FR_NO_FILESYSTEM, which is
    not returned when sector 0 is a sound FAT boot sector.  Assumed is that in an
    exFAT boot sector the logarithms of the sector and cluster sizes (bytes 108
    and 109) are below 31: the code shifts by them. *)
Theorem f_mount_spec path rest s : get_ldnumber path = (0, rest) -> raw (vl s) ->
  wp (f_mount true path 1) (fun r s' => registered s' = true /\ card (vl s') = card (vl s) /\
    (r = FR_OK /\ Fsid s' = u16 (Fsid s + 1) /\
       ((exists w b fmt g, (b <> 0xFFFFFFFF -> w = card (vl s) b) /\ boot_kind w = Ok 0 /\ fat_found w b fmt g /\
           lay (vl s') = set_id (Fsid s') (set_type fmt g) /\ (sane w b -> vol_ok (vl s'))) \/
        (exists w b g, (b <> 0xFFFFFFFF -> w = card (vl s) b) /\ boot_kind w = Ok 1 /\ exfat_found w b g /\
           lay (vl s') = set_id (Fsid s') (set_type FS_EXFAT g))) \/
     fs_type (lay (vl s')) = 0 /\ Fsid s' = Fsid s /\
       (r = FR_NO_FILESYSTEM /\ ~ sound_boot (card (vl s) 0) \/
        (r = FR_DISK_ERR \/ r = FR_NOT_READY) /\ failed (vl s) (vl s')))) s.
Proof.
  intros EP R. wp_use (f_mount_wp path rest); auto. intros r s' (RG & NW & _ & C & _ & RR). split; [exact RG|]. split; [exact C|].
  destruct RR as [(-> & I & [(w & b & fmt & g & (F1 & _ & _ & F4 & F5) & L & V)|(w & b & g & (X1 & X2 & X3) & L)])|(I & T & RR)].
  - left. split; [reflexivity|]. split; [exact I|]. left. exists w, b, fmt, g. auto.
  - left. split; [reflexivity|]. split; [exact I|]. right. exists w, b, g. auto.
  - right. split; [exact T|]. split; [exact I|]. destruct RR as [RR|[-> |RR]]; [now left | now destruct NW | now right].
Qed.

End Mounting.

(** A boot sector of a FAT32 volume with two tables of 2^31 sectors each. *)
Definition wrapping_boot : list Z :=
  [0xEB; 0; 0x90] ++ repeat 0 8 ++ [0; 2; 1; 2; 0; 2] ++ repeat 0 15 ++ [0; 0; 2; 0] ++ [0; 0; 0; 0x80] ++ repeat 0 42 ++
  [70; 65; 84; 51; 50] ++ repeat 0 423 ++ [0x55; 0xAA].

(** Find_volume does not reject a volume whose tables are longer than the volume:
    the number of sectors for the tables is taken modulo 2^32, so that with two
    tables of 2^31 sectors it is 0, and the clusters start where the first table
    does. *)
Theorem table_size_wraps old : exists g, boot_kind wrapping_boot = Ok 0 /\
  fat_geometry old wrapping_boot 0 = Ok (Some (FS_FAT32, g)) /\
  n_fats g = 2 /\ fsize g = 2 ^ 31 /\ database g = fatbase g.
Proof. eexists. split; [vm_compute; reflexivity|]. split; [vm_compute; reflexivity|]. now split. Qed.

(** ** Instances on the sample card *)

Ltac on_sample := destruct sample_file as (FO & H & OP & EP).

Lemma repeat_bytes b n : is_byte b -> bytes (repeat b n).
Proof. intros H. apply Forall_forall. intros x Hx. now apply repeat_spec in Hx as ->. Qed.

Lemma f_write_spec_witness :
  wp (@f_write steady Sample.fp (repeat 7 2500) 2500) (fun x s' => 0 <= snd (fst x) <= 2500) Sample.s.
Proof.
  on_sample. eapply wp_conseq.
  - apply (f_write_spec Sample.fp Sample.l (stored Sample.s Sample.l)); auto; [apply repeat_bytes; in_range | rewrite repeat_length; lia | lia].
  - intros [[r bw] fp'] s' [Hb _]. cbn [fst snd]. unfold clipped in Hb. lia.
Defined.

Lemma f_read_spec_witness :
  wp (@f_read steady Sample.fp 4000) (fun x s' => fst (fst x) = FR_OK -> Z.of_nat (length (snd (fst x))) = 1500) Sample.s.
Proof.
  on_sample. eapply wp_conseq.
  - apply (f_read_spec Sample.fp Sample.l (stored Sample.s Sample.l)); auto; lia.
  - intros [[r d] fp'] s' R. cbn [fst snd]. intros ->. destruct R as [(_ & Ld & _)|([?|?] & _)]; [exact Ld | discriminate ..].
Defined.

(** The file opened with FA_CREATE_ALWAYS, so modified from the start. *)
Definition modified_fp : FIL := raise FA_MODIFIED Sample.fp.

Lemma modified_file : file_ok Sample.s modified_fp Sample.l /\ holds Sample.s modified_fp Sample.l (stored Sample.s Sample.l).
Proof. on_sample. now apply file_ok_flag. Qed.



Lemma create_chain_spec_witness :
  wp (@create_chain steady Sample.ob 3) (fun r s' => vol_ok s') Sample.s.
Proof.
  eapply wp_conseq.
  - apply (create_chain_spec Sample.ob 3 Sample.s); [apply sample_vol | discriminate |].
    right. split; [split; vm_compute; congruence | vm_compute; congruence].
  - intros r s' [V _]. exact V.
Defined.

Lemma remove_chain_spec_witness :
  wp (@remove_chain steady Sample.ob 3 2) (fun r s' => fst r = FR_OK -> free_clst (fs s') = 9) Sample.s.
Proof.
  eapply wp_conseq.
  - apply (remove_chain_spec Sample.ob 3 [] 2 Sample.s); [apply sample_vol | discriminate | |].
    + split; [split; vm_compute; congruence | vm_compute; congruence].
    + right. split; [split; vm_compute; congruence | intros [?|[]]; discriminate].
  - intros [r o] s' (_ & R). cbn [fst snd] in *. intros ->. destruct R as [(_ & _ & E)|[? _]]; [exact E | discriminate].
Defined.

Lemma sync_fs_spec_witness :
  wp (@sync_fs steady) (fun r s' => r = FR_OK -> card s' 3 = Sample.dir) Sample.s.
Proof.
  eapply wp_conseq.
  - apply (sync_fs_spec Sample.s sample_vol).
  - intros r s' (_ & _ & _ & K & _) E. rewrite (K E); [reflexivity|]. unfold visible, FS_FAT32. cbn. unfold FS_FAT16. lia.
Defined.

(** The whole round trip, evaluated. *)
Example save_load_runs :
  match @save_load steady Sample.fp (repeat 7 2500) 3000 Sample.s with
  | Ok (Some (bw, d), _) => bw = 2500 /\ d = repeat 7 2500
  | _ => False
  end.
Proof. vm_compute. split; reflexivity. Qed.

(** A card of 24 sectors: a FAT12 boot sector, everything else empty. *)
Definition boot12 : list Z :=
  [0xEB; 0; 0x90] ++ repeat 0 8 ++ [0; 2; 2; 1; 0; 2; 16; 0; 24; 0; 0; 1; 0] ++ repeat 0 30 ++ [70; 65; 84] ++
  repeat 0 453 ++ [0x55; 0xAA].

Definition card12 : ffs :=
  mkffs false 0 (mkvol (mkFATFS Sample.g 0 0 0 0 0 (repeat 0 (Z.to_nat SS)))
    (fun n => if n =? 0 then boot12 else repeat 0 (Z.to_nat SS)) 0).

Lemma card12_sectors n : is_sector (card (vl card12) n) /\ boot_kind (card (vl card12) n) <> Ok 1.
Proof.
  cbn [card12 vl card]. destruct (n =? 0); (split; [|vm_compute; discriminate]); [|apply zero_sector].
  split; [reflexivity | now apply bytes_dec].
Qed.

Lemma card12_raw : @raw steady (vl card12).
Proof.
  constructor; cbn [steady spoiled].
  - split; [apply zero_sector | intros E; vm_compute in E; discriminate E].
  - intros n. destruct (card12_sectors n) as [S N]. split; [exact S | now intros E].
  - intros k n E. vm_compute in E. discriminate E.
Qed.

(** Its boot sector is one that must be accepted: of 20 sectors behind the system
    area, 10 clusters are made. *)
Lemma boot12_sound : sound_boot boot12.
Proof.
  split; [reflexivity|]. split; [split; [reflexivity|]; split; vm_compute; congruence|].
  constructor; try (vm_compute; congruence); [vm_compute; now right | vm_compute; split; congruence ..].
Qed.

Lemma f_mount_spec_witness :
  wp (@f_mount steady true (Some [47]) 1) (fun r s' => registered s' = true /\ card (vl s') = card (vl card12) /\
    r <> FR_NO_FILESYSTEM) card12.
Proof.
  eapply wp_conseq; [apply (f_mount_spec (Some [47]) (Some [47]) card12); [reflexivity | apply card12_raw]|].
  intros r s' (RG & C & R). split; [exact RG|]. split; [exact C|].
  intros ->. destruct R as [[? _]|(_ & _ & [[_ N]|[[?|?] _]])]; try discriminate. exact (N boot12_sound).
Defined.

(** Mounting it, evaluated. *)
Example f_mount_runs :
  match @f_mount steady true (Some [47]) 1 card12 with
  | Ok (FR_OK, s) => let g := lay (vl s) in
      fs_type g = FS_FAT12 /\ n_fatent g = 12 /\ fatbase g = 1 /\ dirbase g = 3 /\ database g = 4 /\ Fsid s = 1
  | _ => False
  end.
Proof. vm_compute. repeat split. Qed.

(** An exFAT volume with an empty bitmap. *)
Definition ex_vol : vol :=
  mkvol (mkFATFS (mkLayout FS_EXFAT 1 1 0 2 12 1 0 1 2 4) 0 0 0xFFFFFFFF 0xFFFFFFFF 0 (repeat 0 (Z.to_nat SS)))
    (fun _ => repeat 0 (Z.to_nat SS)) 0.

Lemma ex_vol_ok : vol_ok ex_vol.
Proof.
  constructor; cbn [ex_vol fs card layout win wflag winsect free_clst last_clst]; try (in_range || congruence).
  - constructor; cbn; unfold FS_EXFAT, FS_FAT32, max_clst, MAX_EXFAT; cbn; try lia. exists 1. split; [lia | reflexivity].
  - apply zero_sector.
  - intros n. apply zero_sector.
Qed.

Lemma exfat_first_cluster_spec_witness :
  wp (@create_chain steady Sample.ob 0) (fun r s' => vol_ok s') ex_vol.
Proof.
  eapply wp_conseq; [apply (exfat_first_cluster_spec Sample.ob ex_vol); [apply ex_vol_ok | reflexivity]|].
  intros r s' [V _]. exact V.
Defined.
