(* ===== verification/FatDirSpec.v ===== *)
(** * ext/fatfs: what the directories promise

    The properties of names, directories and the count of free clusters, each
    with an instance on a card whose root directory holds a label, a deleted
    entry, a file with a long name and one with a short name. *)

From Stdlib Require Import ZArith Bool String List Lia.
From Stdlib Require Import Classes.RelationClasses.
From S2P Require Import Prelude FatVol FatTable FatBitmap FatChain FatFree FatFile FatWrite FatRead FatSync FatOpen FatStore.
From S2P Require Import FatUnicode FatName FatDir FatReg FatPath FatNamed FatInfo FatSpec.
Import ListNotations.
Local Open Scope Z_scope.
Local Open Scope fw_scope.

(** ** The sample card *)

(** A heap that always has room. *)
Definition roomy : FfHeap := {| ff_memalloc _ _ := true |}.

Module Root.

(** An entry: the name, the attribute, the case flags, zeros. *)
Definition entry (name : string) (a nt : Z) : list Z := firstn 11 (path_of name) ++ [a; nt] ++ repeat 0 19.

Definition long_name : list Z := made_of (path_of "image004711.jpg").

Definition buf : list Z := long_name ++ repeat 0 241.

Definition alias : list Z := entry "IMAGE0~1JPG" 0x20 0.

Definition blank : list Z :=
  entry "WAFERSAT   " 0x08 0 ++ entry "XLD     TXT" 0x20 0 ++ repeat 0 64 ++ alias ++ entry "DATA    CSV" 0x20 0x18 ++ repeat 0 320.

(** Entries 0: the label, 1: deleted, 2 and 3: the long name, 4 and 5: files. *)
Definition made : result (list Z) :=
  sum <=! sum_sfn alias 0 ;;
  w <=! array_set blank 32 DDEM ;;
  w <=! put_lfn buf w 64 2 sum ;;
  put_lfn buf w 96 1 sum.

Definition dir : list Z := Eval vm_compute in match made with Ok w => w | Err _ => [] end.

Definition sectors (n : Z) : list Z := if n =? 3 then dir else Sample.sectors n.

Definition s : vol := mkvol (mkFATFS Sample.g 0 0 3 8 3 dir) sectors 0.

(** The root directory, as an object. *)
Definition ob : FFOBJID := mkFFOBJID true 1 0 0 0 0 0 0.

Definition os : list dobj := [mkdobj (Some long_name) 2 4; mkdobj None 5 5].

Definition dp : DIR := mkDIR ob 0 0 0 0 (repeat 0 12) 0.

Definition fp : FIL := mkFIL ob 0 FR_OK 0 0 0 0 0 [].

Definition fno : FILINFO := mkFILINFO 0 0 0 0 (repeat 0 13) (repeat 0 256).

End Root.

(** The directory listed, evaluated. *)
Example list_dir_runs :
  match @list_dir steady roomy 20 (repeat 0 256) Root.dp Root.fno (path_of "/") Root.s with
  | Ok (Some names, _) => names = map (fun t => firstn (String.length t) (path_of t)) ["image004711.jpg"; "data.csv"]%string
  | _ => False
  end.
Proof. vm_compute. reflexivity. Qed.

(** A file stored and fetched, evaluated: under another spelling of its name,
    and stored a second time. *)
Example store_fetch_runs :
  let buff := repeat 7 2500 in
  match @store steady roomy (repeat 0 256) Root.dp Root.fp (path_of "/Picture of the day.jpg") buff Root.s with
  | Ok (Some (bw, fp), s) => bw = 2500 /\
      match @fetch steady roomy (repeat 0 256) Root.dp fp (path_of "PICTURE OF THE DAY.JPG") 3000 s with
      | Ok (Some d, _) => d = buff
      | _ => False
      end /\
      match @f_open_fat steady roomy (repeat 0 256) Root.dp fp (path_of "picture of the day.jpg") 6 s with
      | Ok ((r, _), _) => r = FR_EXIST
      | _ => False
      end
  | _ => False
  end.
Proof. vm_compute. repeat split. Qed.

(** ** Files by name *)

Section Named.
Context `{D : DiskIo} {DL : DiskLaws D} {HP : FfHeap}.

(** C5: What is stored under a name is found under it again.  In the root directory
    of a FAT volume, where no object has the name yet and enough entries are
    free, f_open(FA_WRITE | FA_CREATE_NEW), f_write and f_close store all bytes
    unless the volume is full; then f_open(FA_READ) of the same path and f_read of
    [n] bytes give back the first [n] of them, whatever the buffers and objects
    of the calls held before.  A call of the disk layer or of the heap that
    failed, a reserved table entry, or a short name of which all numbers are
    taken are all that gets in the way. *)
Theorem store_fetch_roundtrip ob l path os q b dj fp buff s :
  let x := made_of (strip_seps path) in let fn := alias (strip_seps path) in
  sclust ob = 0 -> table s ob l -> listed s l 0 os -> tidy s l ->
  simple_path path -> zlen x < FF_MAX_LFN -> absent s l path os -> first_run s l (n_entries x fn) q ->
  lfn_buf b -> bytes buff -> Z.of_nat (length buff) < 2 ^ 32 ->
  wp (store b dj fp path buff) (fun r s1 => match r with
    | Some (bw, _) => 0 <= bw <= Z.of_nat (length buff) /\ (bw = Z.of_nat (length buff) \/ full s1) /\
        reads_back path s1 (firstn (Z.to_nat bw) buff)
    | None => troubled s s1 \/ lossy fn = true /\ numbers_taken s l x fn os \/ ff_memalloc (calls s) NAMBUF = false
    end) s.
Proof.
  intros x fn HO HT HL TD SP Lx AB FR LB BB HB. wp_use (store_wp ob l path HO SP s os q b dj fp buff); auto.
  intros [[bw fp1]|] s1 R; [|exact R]. pose proof R as (Hb & FU & _). split; [exact Hb|]. split; [exact FU|].
  exact (kept_readable ob l path HO SP q buff bw s1 R).
Qed.

(** C14: f_open with FA_WRITE and FA_CREATE_NEW of a name in the root directory of a
    FAT volume that is mounted and may be written (find_volume, which f_open calls
    first, has answered FR_OK), and whose directory, if no object has the name
    yet, has a run of free entries that is long enough for it.  FR_OK: no
    object had the name; the file is open and empty, the directory lists it among
    the objects that were there, as the first one that the name is found under,
    and no entry of the allocation table has changed.  FR_EXIST: an object has the
    name, and the first that has it is a file that may be written.  FR_DENIED: the
    first that has it is read-only or a directory, or no object has it but all
    99 numbered short names are taken (a directory without a run of free entries,
    which is excluded here, is answered by FR_DENIED too).  Both, and
    FR_NOT_ENOUGH_CORE, leave the volume as it was; FR_DISK_ERR comes from a
    failed call. *)
Theorem f_open_new_spec ob l path os q b dj fp s :
  let x := made_of (strip_seps path) in let fn := alias (strip_seps path) in
  sclust ob = 0 -> table s ob l -> listed s l 0 os -> tidy s l -> simple_path path -> lfn_buf b ->
  (absent s l path os -> first_run s l (n_entries x fn) q) ->
  wp (f_open_fat b dj fp path (Z.lor FA_WRITE FA_CREATE_NEW)) (fun y s' => let (r, fp') := y in
    r = FR_OK /\ absent s l path os /\ file_ok s' fp' [] /\ opened s' fp' /\ objsize (obj fp') = 0 /\
      (forall c, cluster (lay s) c -> fat_entry s' c = fat_entry s c) /\
      (exists os1 os2, os = os1 ++ os2 /\ listed s' l 0 (os1 ++ new_obj x fn q :: os2) /\
         Forall (fun o => ~ sought s' l x fn o) os1 /\ (zlen x < FF_MAX_LFN -> sought s' l x fn (new_obj x fn q))) \/
    (exists o, holds_name s l path os o /\ r = exist_answer s l o) /\ vol_ok s' /\ same_disk s s' \/
    r = FR_DENIED /\ absent s l path os /\ lossy fn = true /\ numbers_taken s l x fn os /\ vol_ok s' /\ same_disk s s' \/
    r = FR_NOT_ENOUGH_CORE /\ ff_memalloc (calls s) NAMBUF = false /\ s' = s \/
    r = FR_DISK_ERR /\ failed s s') s.
Proof.
  intros x fn HO HT HL TD SP LB FR. change (Z.lor FA_WRITE FA_CREATE_NEW) with 6.
  wp_use (f_open_new_wp s ob l path os q HT HO HL TD SP b dj fp LB FR). intros [r fp'] s' R. cbn [fst snd] in R.
  destruct R as [(-> & AB & CR)|R]; [left | right; exact R]. destruct CR as [(FO & OP & _) (_ & _ & Z0) _ _ KF _ _ LS]. auto 10.
Qed.

(** C25: f_open with FA_WRITE and FA_CREATE_ALWAYS of a name that an object of the
    root directory has, on a FAT volume that is mounted and may be written.  [o] is
    the first object that has the name; if it is neither read-only nor a
    directory, its entry is that of a file on a chain of clusters that the
    directory does not have.  FR_OK: the object may be overwritten; the file is
    open for writing, empty, in the same entry; every cluster of its old chain is
    free, no other entry of the allocation table and no other sector has changed,
    and of the sector with the entry only the bytes of the entry behind the name;
    the directory lists the same objects as before.  FR_DENIED: the object is
    read-only or a directory; this, and FR_NOT_ENOUGH_CORE, leave the volume as
    it was.  FR_DISK_ERR comes from a failed call. *)
Theorem overwrite_open_spec ob l path os o fo fl b dj fp s :
  sclust ob = 0 -> table s ob l -> listed s l 0 os -> simple_path path -> lfn_buf b -> holds_name s l path os o ->
  (writable s l o -> file_entry s l (do_at o) fo fl) ->
  wp (f_open_fat b dj fp path (Z.lor FA_WRITE FA_CREATE_ALWAYS)) (fun y s' => let (r, fp') := y in
    r = FR_OK /\ writable s l o /\ file_ok s' fp' [] /\ opened s' fp' /\ has FA_WRITE fp' = true /\
      objsize (obj fp') = 0 /\ fptr fp' = 0 /\
      dir_sect fp' = tab_sect (lay s) l (do_at o / 16) /\ dir_ofs fp' = eofs (do_at o) /\ lay s' = lay s /\
      (forall c, cluster (lay s) c -> fat_entry s' c = freed fl (fat_entry s) c) /\
      (forall n, visible (lay s) n -> ~ (fatbase (lay s) <= n < fatbase (lay s) + fsize (lay s)) ->
         n <> tab_sect (lay s) l (do_at o / 16) -> view s' n = view s n) /\
      entry_edit (eofs (do_at o)) (esec s l (do_at o)) (esec s' l (do_at o)) /\ listed s' l 0 os \/
    r = FR_DENIED /\ ~ writable s l o /\ o_fs (obj fp') = false /\ vol_ok s' /\ same_disk s s' \/
    r = FR_NOT_ENOUGH_CORE /\ ff_memalloc (calls s) NAMBUF = false /\ s' = s \/
    r = FR_DISK_ERR /\ failed s s') s.
Proof.
  intros HO HT HL SP LB HN HF. change (Z.lor FA_WRITE FA_CREATE_ALWAYS) with 10.
  wp_use (f_open_always_wp s ob l path os o fo fl HT HO HL SP HN HF b dj fp LB). intros [r fp'] s' R. cbn [fst snd] in R.
  destruct R as [(-> & W & [(FO & OP & FW & Z0 & P0) [P1 P2] L KF KR KE LS])|R]; [left | right; exact R]. auto 20.
Qed.

End Named.

(** ** Directories *)

Section Dirs.
Context `{D : DiskIo} {DL : DiskLaws D} {HP : FfHeap}.

(** C6: dir_find on a FAT directory whose entries are the objects [os]: it ends on
    the short entry of the first object whose long name is the one in the buffer
    up to case (and shorter than 255 characters), or whose short name is the one
    in dp->fn, with dp->blk_ofs at the first entry of its long name and the entry
    in the window; FR_NO_FILE when there is no such object, FR_DISK_ERR after a
    failed call.  Nothing on the volume changes. *)
Theorem dir_find_spec s ob l x b fn dp os :
  table s ob l -> in_buf x b -> zlen fn = 12 -> d_obj dp = ob -> d_fn dp = fn -> listed s l 0 os ->
  wp (dir_find_fat b dp) (fun y s' => let (r, dp') := y in
    vol_ok s' /\ same_disk s s' /\
    (r = FR_OK /\ (exists os1 o os2, os = os1 ++ o :: os2 /\ Forall (fun o => ~ sought s l x fn o) os1 /\ sought s l x fn o /\
       stands (lay s) l (do_at o) dp' /\ blk_ofs dp' = blk_of fn o /\ attr (d_obj dp') = eattr s l (do_at o) /\
       win (fs s') = esec s l (do_at o) /\ winsect (fs s') = d_sect dp') \/
     r = FR_NO_FILE /\ Forall (fun o => ~ sought s l x fn o) os \/
     r = FR_DISK_ERR /\ failed s s')) s.
Proof.
  intros HT HB HF Eo Ef HL. wp_use (dir_find_wp s ob l x b fn HT HB HF dp os); auto.
  intros [r dp'] s' (V & S & _ & R). cbn [fst snd] in R. split; [exact V|]. split; [exact S|]. tauto.
Qed.

(** C7: dir_register on a FAT directory keeps the directory in order.  FR_OK: the
    object is entered in the first run of free entries that is long enough, its
    short name is the one made of the name or a numbered one that no object has,
    the directory lists the former objects and the new one, its unused entries
    are still at its end, and no byte of another entry or sector has changed.
    FR_DENIED, when all numbers are taken, changes nothing; FR_DISK_ERR, after a
    failed call, changes at most the free entries. *)
Theorem dir_register_spec s ob l x b fn last os p dp :
  table s ob l -> in_buf x b -> 1 <= zlen x -> short_ok last fn -> listed s l 0 os -> tidy s l ->
  first_run s l (n_entries x fn) p -> d_fn dp = fn -> sclust (d_obj dp) = sclust ob ->
  wp (dir_register_fat b dp) (fun y s' => let (r, dp') := y in
    vol_ok s' /\
    (r = FR_OK /\ chosen s l fn os (d_fn dp') /\ stands (lay s) l (do_at (new_obj x fn p)) dp' /\
       fresh_entry l (d_fn dp') s' (do_at (new_obj x fn p)) /\ tidy s' l /\
       (exists os1 os2, os = os1 ++ os2 /\ listed s' l 0 (os1 ++ new_obj x fn p :: os2)) /\
       edits l p (p + n_entries x fn) s s' \/
     r = FR_DENIED /\ lossy fn = true /\ numbers_taken s l x fn os /\ same_disk s s' \/
     r = FR_DISK_ERR /\ failed s s' /\ edits l p (p + n_entries x fn) s s')) s.
Proof.
  intros HT HB HX SO HL TD FR Ef Sc. wp_use (dir_register_wp s ob l x b fn last os p HT HB HX SO HL TD FR dp Ef Sc).
  intros [r dp'] s' R. unfold registers in R. cbn [fst snd] in R.
  destruct R as [(-> & [V ED St _ _ [CH FE] TD' LS])|[(-> & LY & TK & V & S)|(-> & FL & V & ED)]]; (split; [exact V|]); auto 10.
Qed.

(** C10: A directory read to its end: f_opendir of the root directory, then f_readdir
    until the name it gives is empty.  The directory has fewer than 65536 entries,
    which are those of the objects [os], deleted ones and labels; a label has the
    volume attribute and no other but the archive one; the long names have fewer
    than 254 characters; and the name shown for an object is not empty and has no
    zero byte.  Then the names are those of the objects of the directory in
    their order, without those whose short name begins with a dot: the long name
    where there is one that the code page has, else the short name in the case
    its flags say; labels and deleted entries are passed over, and nothing on the
    volume has changed.  Only a failed call of the disk layer, or of the heap at
    the point where the listing ends, gets in the way. *)
Theorem list_dir_spec s l path os b dp fno fuel :
  let root := mkFFOBJID true (fsid (lay s)) 0 0 0 0 0 0 in
  table s root l -> listed s l 0 os -> only_labels s l -> 16 * tab_sects (lay s) l < 65536 ->
  Forall readable os -> Forall (legible s l) os -> (exists c q, strip_seps path = c :: q /\ c < 32) ->
  zlen (d_fn dp) = 12 -> lfn_buf b -> info_buf fno -> (length os < fuel)%nat ->
  wp (list_dir fuel b dp fno path) (fun r s' => match r with
    | Some names => names = map (shown s l) (filter (visibleb s l) os) /\ vol_ok s' /\ same_disk s s'
    | None => failed s s' \/ ff_memalloc (calls s') NAMBUF = false
    end) s.
Proof. intros root HT HL HV HS RA LG HP0 Fn LB IB Hf. now apply list_dir_wp. Qed.

End Dirs.

(** ** Names *)

(** The pieces [n], ..., 1 of the name in [ba] stored, and each compared with the
    name in [bx]. *)
Fixpoint put_cmp (ba bx w : list Z) (o sum : Z) (n : nat) : result bool :=
  match n with
  | O => Ok true
  | S m =>
      w' <=! put_lfn ba w o (Z.of_nat n) sum ;;
      ok <=! cmp_lfn bx w' o ;;
      if ok : bool then put_cmp ba bx w o sum m else Ok false
  end.

Lemma put_cmp_ok a ba bx w o sum : in_buf a ba -> lfn_buf bx -> is_sector w -> 0 <= o <= 480 -> is_byte sum ->
  forall n, Z.of_nat n <= pieces a ->
  exists r, put_cmp ba bx w o sum n = Ok r /\ (r = true <-> forall p, 1 <= p <= Z.of_nat n -> piece_agrees bx a p).
Proof.
  intros Ba Bx HS Ho Hs. pose proof Ba as (_ & W & L & _). induction n as [|n IH]; intros Hn; cbn [put_cmp].
  { exists true. split; [reflexivity|]. split; [intros _ p Hp; lia | reflexivity]. }
  destruct (proj1 (pieces_range a (Z.of_nat (S n))) ltac:(lia)) as [_ H2].
  destruct (put_lfn_ok a ba w o (Z.of_nat (S n)) sum Ba HS Ho ltac:(lia) H2 Hs) as (w' & -> & S' & P & _). cbn [rbind].
  destruct (cmp_lfn_ok a bx (Z.of_nat (S n)) sum w' o W L Bx S' Ho ltac:(lia) P) as (c & -> & Hc). cbn [rbind].
  fold (piece_agrees bx a (Z.of_nat (S n))) in Hc. destruct c.
  - destruct (IH ltac:(lia)) as (r & -> & Hr). exists r. split; [reflexivity|]. rewrite Hr. split; intros H p Hp; [|apply H; lia].
    destruct (Z.eq_dec p (Z.of_nat (S n))) as [->|]; [now apply Hc | apply H; lia].
  - exists false. split; [reflexivity|]. split; [discriminate|]. intros H. apply Hc, H. lia.
Qed.

(** C18: The entries of a long name keep it.  A name of up to 253 characters, stored
    by put_lfn in pieces of 13 characters and picked up again by pick_lfn in the
    order of the entries, is the name that was stored; and cmp_lfn takes all the
    pieces for those of the name sought exactly when the two names are the same
    up to case. *)
Theorem long_name_spec a ba b x bx w o sum :
  in_buf a ba -> 1 <= zlen a < FF_MAX_LFN - 1 -> lfn_buf b -> in_buf x bx -> is_sector w -> 0 <= o <= 480 -> is_byte sum ->
  let n := Z.to_nat (pieces a) in
  (exists b', put_pick ba w o sum n b = Ok (true, b') /\ in_buf a b') /\
  (exists r, put_cmp ba bx w o sum n = Ok r /\ (r = true <-> same_name a x)).
Proof.
  intros Ba La LB Bx HS Ho Hs n. pose proof Ba as (_ & W & LA & _). assert (Z.of_nat n = pieces a) as En by (unfold n, pieces; dlia). split.
  - destruct (put_pick_ok a ba w o sum Ba La HS Ho Hs n b ltac:(lia) LB) as (b' & E & LB' & H); [lia|].
    exists b'. split; [exact E|]. now apply buf_holds.
  - destruct (put_cmp_ok a ba bx w o sum Ba (proj1 Bx) HS Ho Hs n ltac:(lia)) as (r & E & Hr). exists r. split; [exact E|].
    rewrite Hr, En, (all_pieces x bx Bx a W) by lia. split; [tauto|]. intros H. split; [lia | exact H].
Qed.

(** C19: create_name on any path that has an end stays inside its buffers of 256
    characters and 12 bytes and always comes to a result.  It rejects exactly the
    segments that have more than 255 characters, a forbidden one, or nothing but
    spaces and dots; of any other it makes the long name, with spaces and dots at
    its end cut off, and a short name without zero bytes, not beginning with the
    mark of a deleted entry, whose flags say whether it was the last segment; a
    short name that is lossy always comes with a long one. *)
Theorem create_name_spec p b : is_path p -> lfn_buf b ->
  match create_name p b with
  | Ok (Some (b', fn, next)) => nameable p = true /\ in_buf (made_of p) b' /\ zlen fn = 12 /\ bytes fn /\
      (forall k, 0 <= k < 11 -> 0 < byte_at fn k) /\ byte_at fn 0 <> DDEM /\
      Z.testbit (byte_at fn 11) 2 = (byte_at p (zlen (segment p)) <? 32) /\
      (Z.testbit (byte_at fn 11) 0 = true -> Z.testbit (byte_at fn 11) 1 = true) /\ 0 < next <= zlen p
  | Ok None => nameable p = false
  | Err _ => False
  end.
Proof.
  intros P LB. destruct (create_name_ok p b P LB) as (r & -> & R). destruct (nameable p); [|now subst r].
  destruct R as (b' & fn & next & -> & IB & ([[Lf Bf] Pf] & N0 & (_ & TL & TB)) & Hn & _). auto 10.
Qed.

(** ** The count of free clusters *)

Section Free.
Context `{D : DiskIo} {DL : DiskLaws D}.

(** C26: f_getfree on a mounted volume of any type: a count of free clusters that is
    known is returned as it is; else the clusters that are free are counted, in
    the 12-bit table, in the 16- or 32-bit one (where the two entries before the
    first cluster's are taken to be set) or in the bitmap, and the count is kept.
    A status other than FR_OK comes from a failed call, or from a reserved entry
    of a 12-bit table; the count that was reached is kept then too. *)
Theorem getfree_spec ob s : vol_ok s -> reserved_set s ->
  wp (getfree_vol ob) (fun x s' => let (r, n) := x in
    vol_ok s' /\ lay s' = lay s /\ (forall k, visible (lay s) k -> view s' k = view s k) /\ free_clst (fs s') = n /\
    (r = FR_OK /\ n = (if free_clst (fs s) <=? n_fatent (lay s) - 2 then free_clst (fs s) else free_clusters s) \/
     r = FR_DISK_ERR /\ failed s s' \/
     r = FR_INT_ERR /\ fs_type (lay s) = FS_FAT12 /\ exists c, cluster (lay s) c /\ fat_entry s c = 1)) s.
Proof. intros V RS. wp_use (getfree_wp ob s V RS). intros [r n] s' R. exact R. Qed.

End Free.

(** ** Instances on the sample card *)

Lemma root_vol : vol_ok Root.s.
Proof.
  constructor; cbn [Root.s fs card layout win wflag winsect free_clst last_clst]; try (in_range || congruence).
  - apply sample_layout.
  - split; [reflexivity | now apply bytes_dec].
  - intros n. unfold Root.sectors. destruct (n =? 3); [split; [reflexivity | now apply bytes_dec] | apply sample_sectors].
  - reflexivity.
Qed.

Lemma root_table : table Root.s Root.ob [].
Proof.
  constructor; [apply root_vol | discriminate|]. cbn. unfold FS_FAT16, FS_FAT32. repeat split; lia.
Qed.

Lemma root_listed : listed Root.s [] 0 Root.os.
Proof. apply (objects_listed _ _ 17). vm_compute. reflexivity. Qed.

(** The entries from 6 on are unused, entry 1 is deleted. *)
Lemma root_entries i : 0 <= i < 16 -> (ebyte Root.s [] i 0 =? 0) = (6 <=? i) /\ efree Root.s [] i = ((6 <=? i) || (i =? 1)).
Proof.
  intros H.
  assert (all_from 16 0 (fun i => Bool.eqb (ebyte Root.s [] i 0 =? 0) (6 <=? i) && Bool.eqb (efree Root.s [] i) ((6 <=? i) || (i =? 1))) = true) as T
    by (vm_compute; reflexivity).
  apply (all_from_spec _ _ _ T) in H. apply andb_prop in H as [H1 H2]. split; now apply eqb_prop.
Qed.

Lemma root_tidy : tidy Root.s [].
Proof.
  intros i j Hi Hj E. change (entries (lay Root.s) []) with 16 in Hj. apply Z.eqb_eq. rewrite (proj1 (root_entries j ltac:(lia))).
  apply Z.eqb_eq in E. rewrite (proj1 (root_entries i ltac:(lia))) in E. lia.
Qed.

(** Three free entries. *)
Lemma root_run : first_run Root.s [] 3 6.
Proof.
  constructor; change (entries (lay Root.s) []) with 16; [lia | |].
  - intros j Hj. rewrite (proj2 (root_entries j ltac:(lia))). lia.
  - intros q Hq. exists (if q =? 1 then 2 else q). destruct (Z.eqb_spec q 1) as [->|N]; (split; [lia|]);
      [rewrite (proj2 (root_entries 2 ltac:(lia))) | rewrite (proj2 (root_entries q ltac:(lia)))]; lia.
Qed.

Lemma root_labels : only_labels Root.s [].
Proof.
  intros i Hi Sk. change (entries (lay Root.s) []) with 16 in Hi.
  assert (all_from 16 0 (fun i => implb (skippedb Root.s [] i) ((ebyte Root.s [] i 0 =? DDEM) || (Z.land (eattr Root.s [] i) (Z.lnot AM_ARC) =? AM_VOL))) = true) as T
    by (vm_compute; reflexivity).
  apply (all_from_spec _ _ _ T) in Hi. apply skippedb_ok in Sk. rewrite Sk in Hi. apply orb_prop in Hi as [E|E]; apply Z.eqb_eq in E; auto.
Qed.

Definition sample_path : list Z := path_of "/Picture of the day.jpg".

Lemma sample_simple : simple_path sample_path.
Proof.
  constructor; [split; [now apply bytes_dec|] | vm_compute; reflexivity | vm_compute; reflexivity].
  apply Exists_exists. exists 0. split; [|lia]. cbn. auto 30.
Qed.

Lemma sample_absent : absent Root.s [] sample_path Root.os.
Proof.
  repeat (constructor; [intros [(_ & a & E & _ & E')|[E _]]; [|vm_compute in E; discriminate] |]); [| |constructor].
  - injection E as <-. vm_compute in E'. discriminate.
  - discriminate.
Qed.

Lemma store_fetch_roundtrip_witness :
  wp (@store steady roomy (repeat 0 256) Root.dp Root.fp sample_path (repeat 7 2500)) (fun r s1 => match r with
    | Some (bw, _) => wp (@fetch steady roomy (repeat 9 256) Root.dp Root.fp sample_path 3000) (fun r2 _ => match r2 with
        | Some d => d = firstn 3000 (firstn (Z.to_nat bw) (repeat 7 2500))
        | None => True
        end) s1
    | None => True
    end) Root.s.
Proof.
  eapply wp_conseq.
  - apply (store_fetch_roundtrip (HP := roomy) Root.ob [] sample_path Root.os 6 (repeat 0 256) Root.dp Root.fp (repeat 7 2500) Root.s);
      [reflexivity | apply root_table | apply root_listed | apply root_tidy | apply sample_simple | vm_compute; reflexivity | apply sample_absent
      | exact root_run | apply zero_buf | apply repeat_bytes; in_range | rewrite repeat_length; lia].
  - intros [[bw fp1]|] s1 R; [|exact I]. destruct R as (_ & _ & F). eapply wp_conseq; [apply (F (repeat 9 256) Root.dp Root.fp 3000); [|lia]|].
    + split; [reflexivity|]. apply Forall_forall. intros c Hc. apply repeat_spec in Hc as ->. in_range.
    + intros [d|] s2 R; [exact R | exact I].
Defined.

Lemma f_open_new_spec_witness :
  wp (@f_open_fat steady roomy (repeat 0 256) Root.dp Root.fp sample_path 6) (fun y s' => fst y = FR_OK ->
    file_ok s' (snd y) [] /\ objsize (obj (snd y)) = 0) Root.s.
Proof.
  eapply wp_conseq.
  - apply (f_open_new_spec (HP := roomy) Root.ob [] sample_path Root.os 6 (repeat 0 256) Root.dp Root.fp Root.s);
      [reflexivity | apply root_table | apply root_listed | apply root_tidy | apply sample_simple | apply zero_buf | intros _; exact root_run].
  - intros [r fp'] s' R. cbn [fst snd]. intros ->.
    destruct R as [(_ & _ & FO & _ & Z0 & _)|[((o & _ & E) & _)|[(E & _)|[(E & _)|(E & _)]]]]; [now split | | discriminate ..].
    unfold exist_answer in E. destruct (_ =? 0) in E; discriminate.
Defined.

(** The same directory with the second file on the clusters 2 and 3. *)
Definition owned_dir : list Z :=
  Eval vm_compute in list_set (Z.to_nat 189) 5 (list_set (Z.to_nat 188) 220 (list_set (Z.to_nat 186) 2 Root.dir)).

Definition owned : vol := mkvol (mkFATFS Sample.g 0 0 3 8 3 owned_dir) (fun n => if n =? 3 then owned_dir else Sample.sectors n) 0.

Lemma owned_vol : vol_ok owned.
Proof.
  constructor; cbn [owned fs card layout win wflag winsect free_clst last_clst]; try (in_range || congruence).
  - apply sample_layout.
  - split; [reflexivity | now apply bytes_dec].
  - intros n. destruct (n =? 3); [split; [reflexivity | now apply bytes_dec] | apply sample_sectors].
  - reflexivity.
Qed.

Lemma owned_table : table owned Root.ob [].
Proof. constructor; [apply owned_vol | discriminate|]. cbn. unfold FS_FAT16, FS_FAT32. repeat split; lia. Qed.

Lemma owned_listed : listed owned [] 0 Root.os.
Proof. apply (objects_listed _ _ 17). vm_compute. reflexivity. Qed.

Definition data_path : list Z := path_of "/data.csv".

Lemma data_simple : simple_path data_path.
Proof.
  constructor; [split; [now apply bytes_dec|] | vm_compute; reflexivity | vm_compute; reflexivity].
  apply Exists_exists. exists 0. split; [|lia]. cbn. auto 30.
Qed.

Lemma data_named : holds_name owned [] data_path Root.os (mkdobj None 5 5).
Proof.
  exists [mkdobj (Some Root.long_name) 2 4], []. split; [reflexivity|]. split.
  - constructor; [|constructor]. intros [(_ & a & E & _ & E')|[_ E]].
    + injection E as <-. vm_compute in E'. discriminate.
    + specialize (E 0 ltac:(lia)). vm_compute in E. discriminate.
  - right. split; [vm_compute; reflexivity|]. intros k Hk.
    assert (all_from 11 0 (fun k => ebyte owned [] 5 k =? byte_at (alias (strip_seps data_path)) k) = true) as T by (vm_compute; reflexivity).
    apply (all_from_spec _ _ _ T) in Hk. now apply Z.eqb_eq.
Qed.

Lemma data_entry : file_entry owned [] 5 Sample.ob Sample.l.
Proof.
  constructor; [split; reflexivity | | vm_compute; intuition discriminate | intros c []].
  right. split; [|reflexivity]. unfold Sample.l. cbn [chain]. unfold cluster. vm_compute. intuition discriminate.
Qed.

Lemma overwrite_open_spec_witness :
  wp (@f_open_fat steady roomy (repeat 0 256) Root.dp Root.fp data_path 10) (fun y s' => fst y = FR_OK ->
    fat_entry s' 2 = 0 /\ fat_entry s' 3 = 0) owned.
Proof.
  eapply wp_conseq.
  - apply (overwrite_open_spec (HP := roomy) Root.ob [] data_path Root.os (mkdobj None 5 5) Sample.ob Sample.l (repeat 0 256) Root.dp Root.fp owned);
      [reflexivity | apply owned_table | apply owned_listed | apply data_simple | apply zero_buf | apply data_named | intros _; apply data_entry].
  - intros [r fp'] s' R. cbn [fst snd]. intros ->. destruct R as [R|[[E _]|[[E _]|[E _]]]]; [|discriminate ..].
    destruct R as (_ & _ & _ & _ & _ & _ & _ & _ & _ & _ & K & _). split; rewrite K by (split; vm_compute; congruence); reflexivity.
Defined.

(** The call evaluated: of the same name in another spelling. *)
Example overwrite_open_runs :
  match @f_open_fat steady roomy (repeat 0 256) Root.dp Root.fp (path_of "DATA.CSV") 10 owned with
  | Ok ((r, fp), s) => r = FR_OK /\ dir_ofs fp = 160 /\ fat_entry s 2 = 0 /\ fat_entry s 3 = 0
  | _ => False
  end.
Proof. vm_compute. repeat split. Qed.

(** The name of the first file in capitals, and what the search is given for it. *)
Definition capitals : list Z := made_of (path_of "IMAGE004711.JPG").

Lemma in_buf_dec a b : forallb (fun c => (0 <? c) && (c <? 0xFFFF)) a && forallb (fun c => (0 <=? c) && (c <? 0x10000)) b = true ->
  zlen b = 256 -> zlen a <= FF_MAX_LFN -> firstn (S (length a)) b = a ++ [0] -> in_buf a b.
Proof.
  intros H Lb La E. apply andb_prop in H as [H1 H2]. rewrite forallb_forall in H1, H2. split; [split; [exact Lb|]|split; [|now split]].
  - apply Forall_forall. intros c Hc. specialize (H2 c Hc). in_range.
  - apply Forall_forall. intros c Hc. specialize (H1 c Hc). lia.
Qed.

Lemma capitals_buf : in_buf capitals (capitals ++ repeat 0 241).
Proof. apply in_buf_dec; vm_compute; reflexivity || discriminate. Qed.

Definition find_dp : DIR := set_d_fn (alias (path_of "IMAGE004711.JPG")) Root.dp.

Lemma dir_find_spec_witness :
  wp (@dir_find_fat steady roomy (capitals ++ repeat 0 241) find_dp) (fun y s' => fst y = FR_OK -> dptr (snd y) = 32 * 4 \/ dptr (snd y) = 32 * 5) Root.s.
Proof.
  eapply wp_conseq.
  - apply (dir_find_spec (HP := roomy) Root.s Root.ob [] capitals (capitals ++ repeat 0 241) (d_fn find_dp) find_dp Root.os);
      [apply root_table | apply capitals_buf | vm_compute; reflexivity | reflexivity | reflexivity | apply root_listed].
  - intros [r dp'] s' (_ & _ & R). cbn [fst snd]. intros ->.
    destruct R as [(_ & os1 & o & os2 & Eos & _ & _ & St & _)|[(E & _)|(E & _)]]; [|discriminate ..].
    assert (In o Root.os) as [<- |[<- |[]]] by (rewrite Eos; apply in_elt); rewrite (st_dptr _ _ _ _ St); [now left | now right].
Defined.

Definition new_dp : DIR := set_d_fn (alias (path_of "Picture of the day.jpg")) Root.dp.

Definition new_buf : list Z := made_of (path_of "Picture of the day.jpg") ++ repeat 0 234.

Lemma new_named : in_buf (made_of (path_of "Picture of the day.jpg")) new_buf /\ short_ok true (d_fn new_dp).
Proof.
  destruct sample_simple as [P N La]. destruct (create_name_alias (path_of "Picture of the day.jpg") (repeat 0 256)) as (b & n & E & IB & SO); auto using zero_buf.
  split; [|exact SO]. vm_compute in E. injection E as <- _. exact IB.
Qed.

Lemma dir_register_spec_witness :
  wp (@dir_register_fat steady roomy new_buf new_dp) (fun y s' => fst y = FR_OK -> tidy s' []) Root.s.
Proof.
  destruct new_named as [IB SO]. eapply wp_conseq.
  - apply (dir_register_spec (HP := roomy) Root.s Root.ob [] (made_of (path_of "Picture of the day.jpg")) new_buf (d_fn new_dp) true Root.os 6 new_dp);
      [apply root_table | exact IB | vm_compute; discriminate | exact SO | apply root_listed | apply root_tidy | exact root_run | reflexivity | reflexivity].
  - intros [r dp'] s' (_ & R). cbn [fst snd]. intros ->.
    destruct R as [(_ & _ & _ & _ & TD & _)|[(E & _)|(E & _)]]; [exact TD | discriminate ..].
Defined.

Lemma list_dir_spec_witness :
  wp (@list_dir steady roomy 3 (repeat 0 256) Root.dp Root.fno (path_of "/")) (fun r s' => match r with
    | Some names => map (fun t => firstn (String.length t) (path_of t)) ["image004711.jpg"; "data.csv"]%string = names
    | None => @failed steady Root.s s' \/ @ff_memalloc roomy (calls s') NAMBUF = false
    end) Root.s.
Proof.
  eapply wp_conseq.
  - apply (list_dir_spec (HP := roomy) Root.s [] (path_of "/") Root.os (repeat 0 256) Root.dp Root.fno 3);
      [apply root_table | apply root_listed | | vm_compute; reflexivity | repeat constructor | | | reflexivity | apply zero_buf | split; reflexivity | cbn; lia].
    + apply root_labels.
    + repeat constructor; vm_compute; intuition discriminate.
    + exists 0, []. split; [reflexivity | lia].
  - intros [names|] s' R; [|exact R]. destruct R as [-> _]. vm_compute. reflexivity.
Defined.

Lemma long_name_spec_witness :
  (exists b', put_pick Root.buf (repeat 0 512) 64 17 2 (repeat 0 256) = Ok (true, b') /\ in_buf Root.long_name b') /\
  (exists r, put_cmp Root.buf (capitals ++ repeat 0 241) (repeat 0 512) 64 17 2 = Ok r /\ (r = true <-> same_name Root.long_name capitals)).
Proof.
  apply (long_name_spec Root.long_name Root.buf (repeat 0 256) capitals (capitals ++ repeat 0 241) (repeat 0 512) 64 17);
    [apply in_buf_dec; vm_compute; reflexivity || discriminate | vm_compute; split; [discriminate | reflexivity] | apply zero_buf | apply capitals_buf
    | apply zero_sector | lia | in_range].
Defined.

Lemma create_name_spec_witness :
  match create_name (path_of "Picture of the day.jpg") (repeat 0 256) with
  | Ok (Some (b', fn, next)) => in_buf (made_of (path_of "Picture of the day.jpg")) b' /\ zlen fn = 12
  | _ => False
  end.
Proof.
  pose proof (create_name_spec (path_of "Picture of the day.jpg") (repeat 0 256) (sp_path _ sample_simple) zero_buf) as H.
  destruct (create_name _ _) as [[[[b' fn] next]|]|]; [destruct H as (_ & H1 & H2 & _); now split | discriminate H | exact H].
Defined.

(** The card with a count of free clusters that is not known. *)
Definition uncounted : vol := mkvol (set_free_clst 0xFFFFFFFF (fs Sample.s)) Sample.sectors 0.

Lemma getfree_spec_witness :
  wp (@getfree_vol steady Sample.ob) (fun x s' => fst x = FR_OK -> snd x = 8) uncounted.
Proof.
  eapply wp_conseq.
  - apply (getfree_spec Sample.ob uncounted); [|intros _; split; vm_compute; discriminate].
    destruct sample_vol. constructor; cbn in *; auto; in_range.
  - intros [r n] s' (_ & _ & _ & _ & R) E. cbn [fst snd] in *. subst r.
    destruct R as [[_ ->]|[[E _]|[E _]]]; [vm_compute; reflexivity | discriminate ..].
Defined.

(** A disk layer whose first call fails, and no other. *)
Definition once : DiskIo := {| disk_ok k := negb (Nat.eqb k 0); disk_protect _ := false; spoiled _ _ := repeat 0 (Z.to_nat SS) |}.

(** A count that fails leaves 0 behind as the number of free clusters: the volume
    with eight free clusters is then taken for full. *)
Example failed_count_sticks :
  match @getfree_vol once Sample.ob uncounted with
  | Ok ((r, _), s) => r = FR_DISK_ERR /\ free_clst (fs s) = 0 /\
      match @create_chain once Sample.ob 0 s with
      | Ok ((c, _), _) => c = 0
      | Err _ => False
      end
  | Err _ => False
  end.
Proof. vm_compute. repeat split. Qed.

(** Names of 254 characters are stored but not picked up again, and those of 255
    are not found. *)
Example longest_names :
  let at_length n := repeat 65 n ++ repeat 0 (256 - n) in
  put_pick (at_length 254%nat) (repeat 0 512) 0 0 20 (repeat 0 256) = Ok (false, list_set 254 0 (repeat 0 247 ++ repeat 65 7 ++ [0; 0])) /\
  put_cmp (at_length 254%nat) (at_length 254%nat) (repeat 0 512) 0 0 20 = Ok true /\
  put_cmp (at_length 255%nat) (at_length 255%nat) (repeat 0 512) 0 0 20 = Ok false.
Proof. vm_compute. repeat split. Qed.

(** ff_wtoupper takes two capital letters for small ones. *)
Example upper_of_capitals : ff_wtoupper 0x1FCC = Ok 0x1FC3 /\ ff_wtoupper 0x023A = Ok 0x2C65.
Proof. vm_compute. split; reflexivity. Qed.
