(* ===== verification/ImageStore.v ===== *)
(** * main.c on ext/fatfs: the image files of a card

    write_jpeg of [ImageFile] takes the answers of the file system as a class.
    Here the class is filled by the model of FatFs: the calls on the image file
    are replayed on a mounted volume, and the bytes of an image can be read back
    under the name that was free. *)

From Stdlib Require Import ZArith Bool String Ascii List Lia.
From Stdlib Require Import Classes.RelationClasses.
From S2P Require Import Prelude Machine DcmiDma Ov5640 ImageFile.
From S2P Require Import FatVol FatTable FatBitmap FatChain FatFree FatFile FatWrite FatRead FatSync FatOpen FatStore.
From S2P Require Import FatUnicode FatName FatDir FatReg FatPath FatNamed FatSpec FatDirSpec.
Import ListNotations.
Local Open Scope Z_scope.
Local Open Scope fw_scope.

(** ** The file system *)

(** The number of a status in ff.h. *)
Definition fr_num (r : FRESULT) : Z :=
  match r with
  | FR_OK => 0 | FR_DISK_ERR => 1 | FR_INT_ERR => 2 | FR_NOT_READY => 3 | FR_NO_FILE => 4 | FR_NO_PATH => 5
  | FR_INVALID_NAME => 6 | FR_DENIED => 7 | FR_EXIST => 8 | FR_INVALID_OBJECT => 9 | FR_WRITE_PROTECTED => 10
  | FR_INVALID_DRIVE => 11 | FR_NOT_ENABLED => 12 | FR_NO_FILESYSTEM => 13 | FR_MKFS_ABORTED => 14
  | FR_TIMEOUT => 15 | FR_LOCKED => 16 | FR_NOT_ENOUGH_CORE => 17 | FR_TOO_MANY_OPEN_FILES => 18
  | FR_INVALID_PARAMETER => 19
  end.

Section Replay.
Context `{D : DiskIo} {HP : FfHeap} {other : FileSystem}.

(** The volume and the file object when [n0] calls had been made; what the name
    buffer and the directory object of f_open hold when they are created. *)
Variables (start : vol * FIL) (n0 : nat) (nambuf : list call -> list Z) (stack_dir : list call -> DIR).

(** A call on the image file, after the calls [h]. *)
Definition file_call (h : list call) (c : call) (fp : FIL) : option (F (FRESULT * Z * FIL)) :=
  match c with
  | Machine.f_open name always =>
      Some ('(r, fp) <- f_open_fat (nambuf h) (stack_dir h) fp (path_of name)
              (Z.lor FA_WRITE (if always then FA_CREATE_ALWAYS else FA_CREATE_NEW)) ;;
            ret (r, 0, fp))
  | Machine.f_write data => Some (f_write fp data (Z.of_nat (length data)))
  | Machine.f_close => Some ('(r, fp) <- f_close_fat fp ;; ret (r, 0, fp))
  | _ => None
  end.

(** The other calls that use or change the volume; they are not replayed. *)
Definition on_volume (c : call) : bool :=
  match c with
  | Machine.f_mount _ | Machine.f_opendir _ | Machine.f_readdir | Machine.f_getfree _ | sdcConnect | sdcDisconnect => true
  | _ => false
  end.

Definition answer (h : list call) (c : call) (x : vol * FIL) : option (FRESULT * Z * (vol * FIL)) :=
  match file_call h c (snd x) with
  | Some m => match m (fst x) with Ok (r, bw, fp, s) => Some (r, bw, (s, fp)) | Err _ => None end
  | None => if on_volume c then None else Some (FR_OK, 0, x)
  end.

Fixpoint replay (h : list call) : option (vol * FIL) :=
  match h with
  | [] => Some start
  | c :: h => match replay h with
              | Some x => match answer h c x with Some (_, y) => Some y | None => None end
              | None => None
              end
  end.

(** The calls since the beginning. *)
Definition since (h : list call) : list call := firstn (length h - n0) h.

Definition says (h : list call) (c : call) : option (FRESULT * Z) :=
  match replay (since h) with
  | Some x => match answer (since h) c x with Some (ry, _) => Some ry | None => None end
  | None => None
  end.

(** FatFs answers the calls on the image file. *)
Definition fat_files : FileSystem := {|
  f_open_result h name always :=
    match says h (Machine.f_open name always) with Some (r, _) => fr_num r | None => @f_open_result other h name always end;
  f_write_result h data :=
    match says h (Machine.f_write data) with Some (r, bw) => (fr_num r, bw) | None => @f_write_result other h data end;
  f_close_result h :=
    match says h Machine.f_close with Some (r, _) => fr_num r | None => @f_close_result other h end;
  f_mount_result := @f_mount_result other;
  sdcConnect_result := @sdcConnect_result other;
  Machine.FR_EXIST := fr_num FR_EXIST |}.

(** In [w] the volume is [s] and the file object [fp]. *)
Definition on_card (w : world) (s : vol) (fp : FIL) : Prop :=
  (n0 <= length (Machine.calls w))%nat /\ replay (since (Machine.calls w)) = Some (s, fp).

End Replay.

(** ** The names of the images *)

Definition image_path (j : Z) : list Z := path_of (filename j).

(** The characters of such a name. *)
Definition image_char (c : Z) : bool := ((48 <=? c) && (c <=? 57)) || existsb (Z.eqb c) [105; 109; 97; 103; 101; 46; 106; 112].

Lemma image_char_ok c : image_char c = true -> 32 <= c < 128 /\ is_sep c = false /\ legal c = true /\ uni c = c.
Proof.
  intros H. assert (0 <= c < 128) as R.
  { unfold image_char in H. apply orb_prop in H as [H|H]; [lia|]. apply existsb_exists in H as (y & Hy & E). apply Z.eqb_eq in E as ->.
    cbn in Hy. intuition lia. }
  pose proof (all_below_spec 128 (fun c => implb (image_char c) ((32 <=? c) && negb (is_sep c) && (legal c && (uni c =? c))))
    ltac:(vm_compute; reflexivity) c R) as B. cbv beta in B. rewrite H in B. cbn [implb] in B.
  apply andb_prop in B as [B1 B2]. apply andb_prop in B1 as [B0 B1], B2 as [B2 B3]. apply negb_true_iff in B1. apply Z.eqb_eq in B3. repeat split; auto; lia.
Qed.

Definition codes (t : string) : list Z := map (fun c => Z.of_N (N_of_ascii c)) (list_ascii_of_string t).

Lemma codes_app a b : codes (a ++ b) = codes a ++ codes b.
Proof. unfold codes. rewrite <- map_app. f_equal. induction a as [|c a IH]; cbn; [reflexivity | now rewrite IH]. Qed.

Lemma codes_length t : length (codes t) = String.length t.
Proof. unfold codes. rewrite length_map. induction t; cbn; congruence. Qed.

Lemma digit_code d : 0 <= d < 10 -> image_char (Z.of_N (N_of_ascii (digit_char d))) = true.
Proof. intros H. unfold digit_char, image_char. rewrite N_ascii_embedding by lia. apply orb_true_intro. left. rewrite Z2N.id by lia. apply andb_true_intro. split; apply Z.leb_le; lia. Qed.

Lemma decimal_codes fuel : forall n t, 0 <= n -> forallb image_char (codes t) = true -> forallb image_char (codes (decimal fuel n t)) = true.
Proof.
  induction fuel as [|fuel IH]; intros n t Hn Ht; cbn [decimal]; [exact Ht|].
  assert (forallb image_char (codes (String (digit_char (n mod 10)) t)) = true) as H.
  { change (codes (String ?c t)) with (Z.of_N (N_of_ascii c) :: codes t). cbn [forallb]. rewrite digit_code by dlia. exact Ht. }
  destruct (n / 10 =? 0); [exact H | apply IH; [dlia | exact H]].
Qed.

Lemma pad_codes k t : forallb image_char (codes t) = true -> forallb image_char (codes (zero_pad k t)) = true.
Proof. intros H. induction k; cbn; auto. Qed.

(** The path of an image: its characters, of which the last is a letter. *)
Lemma image_codes j : 0 <= j < 2 ^ 31 ->
  exists a, image_path j = a ++ [103; 0] /\ forallb image_char (a ++ [103]) = true /\ 14 <= zlen a <= 18.
Proof.
  intros H. destruct (filename_spec j H) as (_ & L1 & L2).
  exists (codes ("image" ++ format_06d j ++ ".jp")). unfold image_path, path_of. fold (codes (filename j)). unfold filename.
  assert (codes ("image" ++ format_06d j ++ ".jpg") = codes ("image" ++ format_06d j ++ ".jp") ++ [103]) as E
    by (rewrite !codes_app, <- !app_assoc; reflexivity).
  unfold filename in L2. rewrite <- codes_length, E, length_app in L2. rewrite E, <- app_assoc. split; [reflexivity|].
  rewrite <- E, !codes_app, !forallb_app. unfold format_06d at 1. rewrite pad_codes by (apply decimal_codes; [lia | reflexivity]).
  split; [reflexivity|]. unfold zlen. rewrite !codes_app in L2. rewrite !length_app, (codes_length (format_06d j)) in L2 |- *.
  change (length (codes "image")) with 5%nat in *. change (length (codes ".jp")) with 3%nat in *. cbn [length] in L2. lia.
Qed.

Lemma segment_name a : forallb image_char a = true -> segment (a ++ [0]) = a.
Proof.
  induction a as [|c a IH]; cbn [app segment forallb]; [reflexivity|]. intros H. apply andb_prop in H as [Hc H].
  destruct (image_char_ok c Hc) as (R & -> & _). rewrite (proj2 (Z.ltb_ge c 32)) by lia. cbn [orb]. f_equal. now apply IH.
Qed.

Lemma map_uni a : forallb image_char a = true -> map uni a = a.
Proof.
  induction a as [|c a IH]; cbn [map forallb]; [reflexivity|]. intros H. apply andb_prop in H as [Hc H].
  destruct (image_char_ok c Hc) as (_ & _ & _ & ->). f_equal. now apply IH.
Qed.

(** It names a file in the root directory, whose long name has two pieces. *)
Lemma image_path_ok j : 0 <= j < 2 ^ 31 -> simple_path (image_path j) /\
  zlen (made_of (strip_seps (image_path j))) < FF_MAX_LFN /\ pieces (made_of (strip_seps (image_path j))) = 2.
Proof.
  intros H. destruct (image_codes j H) as (a & Ep & C & La). replace (a ++ [103; 0]) with ((a ++ [103]) ++ [0]) in Ep by (now rewrite <- app_assoc).
  set (n := a ++ [103]) in *. assert (zlen n = zlen a + 1) as Ln by (unfold n; apply zlen_snoc).
  assert (strip_seps (image_path j) = n ++ [0]) as Est.
  { rewrite Ep. destruct n as [|c n']; [unfold zlen in Ln; cbn in Ln; unfold zlen in La; lia|]. cbn [forallb app strip_seps] in C |- *. apply andb_prop in C as [Hc _].
    now destruct (image_char_ok c Hc) as (_ & -> & _). }
  pose proof (segment_name n C) as Es.
  assert (made_of (n ++ [0]) = n) as Em by (unfold made_of; rewrite Es, (map_uni n C); unfold n; now rewrite rtrim_snoc).
  pose proof (proj1 (forallb_forall _ _) C) as CF.
  split; [constructor; rewrite Est | rewrite Est].
  - split; [|apply Exists_app; right; constructor; lia]. apply Forall_app. split; [|constructor; [in_range | constructor]].
    apply Forall_forall. intros c Hc. destruct (image_char_ok c (CF c Hc)) as (R & _). in_range.
  - unfold nameable. rewrite Em, Es. unfold FF_MAX_LFN. rewrite (proj2 (Z.leb_le _ _)), (proj2 (Z.eqb_neq _ _)) by lia. cbn [andb negb].
    rewrite andb_true_r. apply forallb_forall. intros c Hc. now destruct (image_char_ok c (CF c Hc)) as (_ & _ & -> & _).
  - rewrite Es. unfold byte_at, zlen. rewrite Nat2Z.id, nth_app_head. lia.
  - rewrite Em. unfold pieces, FF_MAX_LFN. split; [lia | dlia].
Qed.

(** ** Room in the directory *)

Lemma first_true (f : Z -> bool) n : forall i, 0 <= i <= Z.of_nat n -> f i = true ->
  exists m, 0 <= m <= i /\ f m = true /\ forall k, 0 <= k < m -> f k = false.
Proof.
  induction n as [|n IH]; intros i Hi E; [exists i; split; [lia | split; [exact E | lia]]|].
  destruct (existsb f (zseq 0 i)) eqn:X.
  - apply existsb_exists in X as (k & Hk & Ek). apply zseq_in in Hk. destruct (IH k ltac:(lia) Ek) as (m & Hm & R). exists m. split; [lia | exact R].
  - exists i. split; [lia|]. split; [exact E|]. intros k Hk. destruct (f k) eqn:Ek; [|reflexivity].
    rewrite <- X. symmetry. apply existsb_exists. exists k. split; [apply zseq_in; lia | exact Ek].
Qed.

Definition free_run (s : vol) (l : list Z) (n i : Z) : bool := forallb (efree s l) (zseq i n).

Lemma free_run_spec s l n i : free_run s l n i = true <-> forall j, i <= j < i + n -> efree s l j = true.
Proof.
  unfold free_run. rewrite forallb_forall. split; intros H j Hj; apply H; [apply zseq_in; lia | apply zseq_in in Hj; lia].
Qed.

(** Three free entries in a row are somewhere. *)
Definition has_room (s : vol) (l : list Z) : Prop := exists i, 0 <= i /\ i + 3 <= entries (lay s) l /\ free_run s l 3 i = true.

Lemma room_first s l n : has_room s l -> 1 <= n <= 3 -> exists q, first_run s l n q.
Proof.
  intros (i & H0 & H1 & F) Hn. assert (free_run s l n i = true) as F' by (rewrite free_run_spec in *; intros j Hj; apply F; lia).
  destruct (first_true (free_run s l n) (Z.to_nat i) i ltac:(lia) F') as (q & Hq & Fq & M). exists q. constructor; [lia | now apply free_run_spec|].
  intros k Hk. specialize (M k ltac:(lia)). unfold free_run in M.
  assert (existsb (fun j => negb (efree s l j)) (zseq k n) = true) as X.
  { destruct (existsb _ _) eqn:E; [reflexivity|]. rewrite <- M. apply forallb_forall. intros j Hj.
    destruct (efree s l j) eqn:Ej; [reflexivity|]. rewrite <- E. apply existsb_exists. exists j. now rewrite Ej. }
  apply existsb_exists in X as (j & Hj & E). apply zseq_in in Hj. exists j. split; [lia | now apply negb_true_iff].
Qed.

Lemma room_same s s1 ob l : table s ob l -> same_disk s s1 -> has_room s l -> has_room s1 l.
Proof.
  intros HT S1 (i & H0 & H1 & F). exists i. rewrite (ev_layout _ _ _ S1). split; [exact H0|]. split; [exact H1|].
  rewrite free_run_spec in *. intros j Hj. unfold efree. rewrite (disk_same_entry s ob l HT s1 j S1) by lia. now apply F.
Qed.

Lemma image_room s l j : 0 <= j < 2 ^ 31 -> has_room s l ->
  exists q, first_run s l (n_entries (made_of (strip_seps (image_path j))) (alias (strip_seps (image_path j)))) q.
Proof.
  intros Hj HR. apply room_first; [exact HR|]. destruct (image_path_ok j Hj) as (_ & _ & P2). unfold n_entries. rewrite P2. destruct (long _); lia.
Qed.

(** ** The calls of FatFs *)

Section Calls.
Context `{D : DiskIo} {DL : DiskLaws D} {HP : FfHeap}.

(** f_open that fails leaves an object that belongs to no volume, unless there
    was no memory for the name. *)
Lemma f_open_closed b dj fp path mode :
  returns (fun y => fr_ok (fst y) = true \/ fst y = FR_NOT_ENOUGH_CORE \/ o_fs (obj (snd y)) = false) (f_open_fat b dj fp path mode).
Proof.
  unfold f_open_fat. apply returns_then. intros k. destruct (negb _); [apply returns_ret; auto|].
  apply returns_then. intros [[res b'] dj']. apply returns_then. intros ns. apply returns_then. intros [[res' dj2] mode'].
  destruct (fr_ok res'); [|apply returns_ret; auto]. unfold open_fat. do 3 (apply returns_then; intros ?). apply returns_then. intros [r fp2].
  apply returns_ret. cbn [fst snd]. destruct (fr_ok r); auto.
Qed.

(** f_write on such an object. *)
Lemma f_write_closed fp d n s : o_fs (obj fp) = false -> f_write fp d n s = Ok (FR_INVALID_OBJECT, 0, fp, s).
Proof. intros E. unfold f_write, validate, bind, gets. now rewrite E. Qed.

Variables (s : vol) (ob : FFOBJID) (l : list Z) (os : list dobj).
Hypothesis HO : sclust ob = 0.
Hypothesis HT : table s ob l.
Hypothesis HL : listed s l 0 os.
Hypothesis HTD : tidy s l.
Hypothesis HR : has_room s l.
Hypothesis HM : forall k, ff_memalloc k NAMBUF = true.

(** No number is left for the short name of [path]. *)
Definition no_number (path : list Z) : Prop :=
  lossy (alias (strip_seps path)) = true /\ numbers_taken s l (made_of (strip_seps path)) (alias (strip_seps path)) os.

(** What comes of the attempt to create [path] on the volume. *)
Inductive tried (path : list Z) : FRESULT -> FIL -> vol -> Prop :=
| tried_new s0 q fp s' : absent s l path os -> same_disk s s0 -> vol_ok s0 -> created s0 ob l path os q fp s' -> tried path FR_OK fp s'
| tried_held o fp s' : holds_name s l path os o -> same_disk s s' -> vol_ok s' -> o_fs (obj fp) = false -> tried path (exist_answer s l o) fp s'
| tried_numbers fp s' : absent s l path os -> no_number path -> o_fs (obj fp) = false -> tried path FR_DENIED fp s'
| tried_failed fp s' : failed s s' -> o_fs (obj fp) = false -> tried path FR_DISK_ERR fp s'.

Lemma held_same s0 path o : same_disk s s0 -> holds_name s0 l path os o -> holds_name s l path os o /\ exist_answer s0 l o = exist_answer s l o.
Proof.
  intros S0 (os1 & os2 & E & F & So). pose proof (listed_range l s 0 os HL ltac:(lia)) as RG. rewrite Forall_forall in RG.
  assert (In o os) as Io by (rewrite E; apply in_elt). split.
  - exists os1, os2. split; [exact E|]. split; [|now apply (sought_disk s ob l _ HT s0 _ o S0 (RG o Io))].
    rewrite Forall_forall in *. intros o' Ho' So'. apply (F o' Ho').
    apply (sought_disk s ob l _ HT s0 _ o' S0); [|exact So']. apply RG. rewrite E. apply in_or_app. now left.
  - unfold exist_answer, eattr. now rewrite (disk_same_entry s ob l HT s0 (do_at o) S0 (RG o Io)) by lia.
Qed.

Lemma try_image_wp b dj fp j s0 : 0 <= j < 2 ^ 31 -> lfn_buf b -> same_disk s s0 -> vol_ok s0 ->
  wp (f_open_fat b dj fp (image_path j) 6) (fun y s' => tried (image_path j) (fst y) (snd y) s') s0.
Proof.
  intros Hj LB S0 V0. destruct (image_path_ok j Hj) as (SP & _ & _). destruct (dir_same s s0 ob l os HT HL HTD V0 S0) as (T0 & L0 & TD0).
  destruct (image_room s0 l j Hj (room_same s s0 ob l HT S0 HR)) as (q & FR).
  pose proof (f_open_new_wp s0 ob l (image_path j) os q T0 HO L0 TD0 SP b dj fp LB (fun _ => FR)) as W.
  apply wp_ok in W as ([r fp'] & s' & R & W). pose proof (f_open_closed b dj fp (image_path j) 6 _ _ _ R) as CL. cbn [fst snd] in *.
  unfold wp. rewrite R. cbn [fst snd].
  assert (failed s0 s' -> failed s s') as FF by (intros F; apply (failed_r _ s0); [exact F | apply S0]).
  destruct W as [(-> & AB & CR)|[((o & HN & ->) & V' & S')|[(-> & AB & LY & TK & _)|[(_ & M & _)|(-> & FL)]]]].
  - apply (tried_new _ s0 q); auto. now apply (absent_same s s0 ob).
  - destruct (held_same s0 (image_path j) o S0 HN) as [HN' ->]. apply (tried_held _ o); auto; [etransitivity; eassumption|].
    unfold exist_answer in CL. destruct (_ =? 0) in CL; destruct CL as [C|[C|C]]; try discriminate; exact C.
  - destruct CL as [C|[C|C]]; try discriminate. apply tried_numbers; auto; [now apply (absent_same s s0 ob)|].
    split; [exact LY | now apply (numbers_taken_disk s ob l _ HT s0)].
  - rewrite HM in M. discriminate.
  - destruct CL as [C|[C|C]]; try discriminate. apply tried_failed; auto.
Qed.

Lemma troubled_same s0 s1 : same_disk s s0 -> troubled s0 s1 -> troubled s s1.
Proof.
  intros S0 [F|(c & Hc & E)]; [left; apply (failed_r _ s0); [exact F | apply S0]|]. right. exists c. rewrite (ev_layout _ _ _ S0) in Hc.
  split; [exact Hc|]. now rewrite <- (disk_entry s s0 c (tb_vol _ _ _ HT) S0 Hc).
Qed.

(** Does do_write report an error. *)
Definition short_write (r : FRESULT) (bw n : Z) : bool := negb (fr_num r =? 0) || (bw <? n).

Lemma fr_num_ok r : (fr_num r =? 0) = fr_ok r.
Proof. now destruct r. Qed.

(** The new file written, and closed when all bytes were taken. *)
Lemma write_image_wp path s0 q fp s1 buff : simple_path path -> zlen (made_of (strip_seps path)) < FF_MAX_LFN -> same_disk s s0 ->
  created s0 ob l path os q fp s1 -> bytes buff -> Z.of_nat (length buff) < 2 ^ 32 ->
  wp (f_write fp buff (Z.of_nat (length buff))) (fun y s2 => let '(r, bw, fp2) := y in
    if short_write r bw (Z.of_nat (length buff)) then troubled s s2 \/ full s2
    else wp (f_close_fat fp2) (fun z s3 => if fr_ok (fst z) then reads_back path s3 buff else troubled s s3) s2) s1.
Proof.
  intros SP Lx S0 CR BB HB. pose proof (created_clipped ob l path s0 os q fp s1 buff CR HB) as CL.
  pose proof CR as [(FO & OP & _) (HW & _) _ [L1 C1] KF _ _ _].
  assert (forall s2, troubled s1 s2 -> troubled s s2) as TT.
  { intros s2 T. apply (troubled_same s0 s2 S0). destruct T as [F|(c & Hc & E)]; [left; now apply (failed_r _ s1)|].
    right. exists c. rewrite L1 in Hc. split; [exact Hc | now rewrite <- KF]. }
  pose proof (save_created_wp ob l path s0 os q fp s1 buff CR Lx BB HB) as W2. unfold save in W2. apply wp_bind in W2.
  assert (0 <= Z.of_nat (length buff) <= Z.of_nat (length buff)) as Hn by lia.
  pose proof (f_write_wp fp [] (file_data s1 fp []) buff (Z.of_nat (length buff)) s1 FO ltac:(now intros i Hi) OP HW BB Hn HB) as W1.
  eapply wp_conseq; [apply (wp_and _ _ _ _ W1 W2)|]. intros [[r bw] fp2] s2 [[Hbw R] C]. rewrite CL in *. unfold short_write. rewrite fr_num_ok.
  destruct R as [(-> & _ & _ & FU)|[(-> & FL & _)|(l' & _ & FR & X)]]; cbn [fr_ok negb orb] in *.
  - destruct (Z.ltb_spec bw (Z.of_nat (length buff))); [destruct FU; [lia | now right]|]. assert (bw = Z.of_nat (length buff)) as -> by lia.
    apply wp_bind in C. eapply wp_conseq; [exact C|]. intros [r fp3] s3 C3. apply wp_ret in C3. cbn [fst].
    destruct (fr_ok r); [|exact (troubled_same s0 s3 S0 C3)].
    pose proof (kept_readable ob l path HO SP q buff _ s3 C3) as K. now rewrite Nat2Z.id, firstn_all in K.
  - left. apply TT. now left.
  - assert (fr_ok r = false) as -> by (now destruct X as [[-> _]|[-> _]]). left. apply TT.
    apply (explained_troubled r s1 s2); [lia | exact X].
Qed.

End Calls.

(** ** The firmware *)

Section Firmware.
Context `{D : DiskIo} {DL : DiskLaws D} {HP : FfHeap} {other : FileSystem}.
Variables (start : vol * FIL) (n0 : nat) (nambuf : list call -> list Z) (stack_dir : list call -> DIR).

Let FF : FileSystem := fat_files start n0 nambuf stack_dir.
Let on := on_card start n0 nambuf stack_dir.

Lemma since_cons c h : (n0 <= length h)%nat -> since n0 (c :: h) = c :: since n0 h.
Proof. intros H. unfold since. cbn [length]. now rewrite Nat.sub_succ_l by exact H. Qed.

(** Calls that have nothing to do with the volume. *)
Definition unrelated (c : call) : bool :=
  match c with
  | Machine.f_open _ _ | Machine.f_write _ | Machine.f_close => false
  | c => negb (on_volume c)
  end.

Lemma on_unrelated cs w s fp : on w s fp -> forallb unrelated cs = true -> on (set_calls (cs ++ Machine.calls w) w) s fp.
Proof.
  intros [L E] H. induction cs as [|c cs IH]; [now split|]. cbn [forallb] in H. apply andb_prop in H as [Hc H].
  destruct (IH H) as [L1 E1]. cbn [Machine.calls set_calls app] in *. split; cbn [Machine.calls set_calls length]; [lia|].
  rewrite since_cons by exact L1. cbn [replay]. rewrite E1. unfold answer. cbn [fst snd].
  assert (forall h, file_call nambuf stack_dir h c fp = None /\ on_volume c = false) as A by (destruct c; try discriminate Hc; now split).
  destruct (A (since n0 (cs ++ Machine.calls w))) as [-> ->]. reflexivity.
Qed.

Lemma on_calls w w' s fp : on w s fp -> Machine.calls w' = Machine.calls w -> on w' s fp.
Proof. unfold on, on_card. now intros H ->. Qed.

(** A call on the file goes as FatFs goes. *)
Lemma says_ok w s fp c m Q : on w s fp -> file_call nambuf stack_dir (since n0 (Machine.calls w)) c fp = Some m -> wp m Q s ->
  exists r bw fp' s', says start n0 nambuf stack_dir (Machine.calls w) c = Some (r, bw) /\ Q (r, bw, fp') s' /\
    on (set_calls (c :: Machine.calls w) w) s' fp'.
Proof.
  intros [L E] Em W. apply wp_ok in W as ([[r bw] fp'] & s' & R & HQ). exists r, bw, fp', s'.
  assert (answer nambuf stack_dir (since n0 (Machine.calls w)) c (s, fp) = Some (r, bw, (s', fp'))) as A
    by (unfold answer; cbn [fst snd]; now rewrite Em, R).
  split; [unfold says; now rewrite E, A|]. split; [exact HQ|]. split; cbn [Machine.calls set_calls length]; [lia|].
  rewrite since_cons by exact L. cbn [replay]. now rewrite E, A.
Qed.

Lemma wp_do_open w s fp name Q : on w s fp ->
  (forall h, wp (f_open_fat (nambuf h) (stack_dir h) fp (path_of name) 6) (fun y s' => Q (fst y) (snd y) s') s) ->
  wp (@do_open FF name false) (fun fr w' => w' = set_calls (Machine.f_open name false :: Machine.calls w) w /\
    exists r fp' s', fr = fr_num r /\ Q r fp' s' /\ on w' s' fp') w.
Proof.
  intros O W. destruct (says_ok w s fp (Machine.f_open name false) _ (fun y s' => Q (fst (fst y)) (snd y) s') O eq_refl) as (r & bw & fp' & s' & E & HQ & O').
  { apply wp_bind. eapply wp_conseq; [apply W|]. intros [r fp'] s' H. now apply wp_ret. }
  unfold do_open, extern. wp_norm. split; [reflexivity|]. exists r, fp', s'. cbn [f_open_result FF fat_files]. rewrite E. auto.
Qed.

Lemma wp_do_file_write w s fp d Q : on w s fp -> wp (f_write fp d (Z.of_nat (length d))) Q s ->
  wp (@do_write FF d) (fun y w' => w' = set_calls (Machine.f_write d :: Machine.calls w) w /\
    exists r fp' s', fst y = short_write r (snd y) (Z.of_nat (length d)) /\ Q (r, snd y, fp') s' /\ on w' s' fp') w.
Proof.
  intros O W. destruct (says_ok w s fp (Machine.f_write d) _ Q O eq_refl W) as (r & bw & fp' & s' & E & HQ & O').
  unfold do_write, extern. wp_norm. cbn [f_write_result FF fat_files]. rewrite E. wp_norm. split; [reflexivity|]. exists r, fp', s'. auto.
Qed.

Lemma wp_do_close w s fp Q : on w s fp -> wp (f_close_fat fp) Q s ->
  wp (@do_close FF) (fun _ w' => w' = set_calls (Machine.f_close :: Machine.calls w) w /\ exists r fp' s', Q (r, fp') s' /\ on w' s' fp') w.
Proof.
  intros O W. destruct (says_ok w s fp Machine.f_close _ (fun y s' => Q (fst (fst y), snd y) s') O eq_refl) as (r & bw & fp' & s' & E & HQ & O').
  { apply wp_bind. eapply wp_conseq; [exact W|]. intros [r fp'] s' H. now apply wp_ret. }
  unfold do_close, extern. wp_norm. split; [reflexivity|]. exists r, fp', s'. auto.
Qed.

(** *** The search for a name *)

Variables (s : vol) (ob : FFOBJID) (l : list Z) (os : list dobj) (w : world).
Hypothesis HO : sclust ob = 0.
Hypothesis HT : table s ob l.
Hypothesis HL : listed s l 0 os.
Hypothesis HTD : tidy s l.
Hypothesis HR : has_room s l.
Hypothesis HM : forall k, ff_memalloc k NAMBUF = true.
Hypothesis HN : forall h, lfn_buf (nambuf h).
Hypothesis HI : 0 <= image_index (main_vars w) < 2 ^ 31 - 1.

Let idx := image_index (main_vars w).

(** The names from the index of [w] up to [j] have been tried, with status [fr]
    for the last; the ones before it are taken. *)
Record seeking (w' : world) (j fr : Z) : Prop := {
  sk_index : main_vars w' = set_image_index j (main_vars w);
  sk_ram : ram_buffer w' = ram_buffer w /\ ram_buffer_length w' = ram_buffer_length w;
  sk_range : idx <= j <= Z.max idx 1000000;
  sk_held : forall i, idx <= i < j -> exists o, holds_name s l (image_path i) os o;
  sk_last : exists r fp s', fr = fr_num r /\ tried s ob l os (image_path j) r fp s' /\ on w' s' fp
}.

Lemma seeking_say w' j fr f a : seeking w' j fr -> seeking (set_calls (chprintf f a :: Machine.calls w') w') j fr.
Proof.
  intros [I R B H (r & fp & s' & E & T & O)]. constructor; auto. exists r, fp, s'. split; [exact E|]. split; [exact T|].
  now apply (on_unrelated [chprintf f a]).
Qed.

(** The next name, on a volume that looks as it did. *)
Lemma seek_wp w1 j s1 fp1 : main_vars w1 = set_image_index j (main_vars w) -> ram_buffer w1 = ram_buffer w /\ ram_buffer_length w1 = ram_buffer_length w ->
  idx <= j <= Z.max idx 1000000 -> (forall i, idx <= i < j -> exists o, holds_name s l (image_path i) os o) ->
  on w1 s1 fp1 -> same_disk s s1 -> vol_ok s1 ->
  wp (@do_open FF (filename j) false) (fun fr w' => seeking w' j fr) w1.
Proof.
  intros I R B H O S1 V1. eapply wp_conseq.
  - apply (wp_do_open w1 s1 fp1 (filename j) (tried s ob l os (image_path j)) O). intros h.
    apply (try_image_wp s ob l os HO HT HL HTD HR HM); auto. unfold idx in B. lia.
  - intros fr w' (-> & r & fp' & s' & E & T & O'). constructor; auto. exists r, fp', s'. auto.
Qed.

Lemma exist_tried path r fp s' : fr_num r = 8 -> tried s ob l os path r fp s' ->
  same_disk s s' /\ vol_ok s' /\ exists o, holds_name s l path os o.
Proof. intros E T. destruct T; try discriminate. eauto. Qed.

Lemma search_wp j fr w1 : seeking w1 j fr ->
  wp (iter (S (Z.to_nat (1000000 - j))) (@search_step FF) fr)
     (fun fr w' => exists j, seeking w' j fr /\ (fr = 8 -> 1000000 <= j)) w1.
Proof.
  intros S1. apply (wp_iter (@search_step FF) (fun fr v => exists j, seeking v j fr) (fun _ v => Z.to_nat (1000000 - image_index (main_vars v)))).
  - intros fr' v (k & SK). unfold search_step. wp_norm. cbv zeta. rewrite (sk_index _ _ _ SK). cbn [image_index set_image_index].
    change (@Machine.FR_EXIST FF) with 8. destruct (Z.eqb_spec fr' 8) as [->|Ne]; cbn [andb]; [|wp_norm; exists k; split; [exact SK | lia]].
    destruct (Z.ltb_spec k 1000000) as [Lt|Ge]; [|wp_norm; exists k; split; [exact SK | lia]].
    destruct SK as [I R B H (r & fp & s' & E & T & O)]. destruct (exist_tried _ r fp s' (eq_sym E) T) as (S' & V' & Hk).
    unfold upd_main. wp_norm.
    eapply wp_conseq; [apply (seek_wp _ (k + 1) s' fp); cbn [main_vars set_main ram_buffer ram_buffer_length]; auto|].
    + now rewrite I.
    + lia.
    + intros i Hi. destruct (Z.eq_dec i k) as [->|]; [exact Hk | apply H; lia].
    + intros fr2 w2 SK2. cbv beta in SK2. wp_norm. split; [eauto|]. rewrite (sk_index _ _ _ SK2). cbn [image_index set_image_index]. lia.
  - eauto.
  - rewrite (sk_index _ _ _ S1). cbn [image_index set_image_index]. lia.
Qed.

(** open_jpeg ends on the first name that is not that of a file, if there is
    one below a million. *)
Lemma open_image_wp fp w1 : main_vars w1 = main_vars w -> ram_buffer w1 = ram_buffer w /\ ram_buffer_length w1 = ram_buffer_length w -> on w1 s fp ->
  wp (@open_jpeg FF) (fun fr w' => exists j, seeking w' j fr /\ (fr = 8 -> 1000000 <= j)) w1.
Proof.
  intros I R O. unfold open_jpeg, say, extern. wp_norm. cbv zeta. rewrite I. fold idx. wp_norm.
  wp_use (seek_wp (set_calls (chprintf "SDC  > Open image%06d.jpg ..." [idx] :: Machine.calls w1) w1) idx s fp); auto.
  - cbn [main_vars set_calls]. rewrite I. unfold idx. now destruct (main_vars w).
  - lia.
  - lia.
  - now apply (on_unrelated [chprintf _ _]).
  - reflexivity.
  - apply HT.
  - intros fr w2 SK. change (@Machine.FR_EXIST FF) with 8. destruct (Z.eqb_spec fr 8) as [->|Ne]; [|wp_norm; exists idx; split; [exact SK | lia]].
    wp_norm. wp_use (search_wp idx 8); [now apply (seeking_say w2)|]. intros fr w3 (j & SK3 & X). wp_norm. exists j. split; [now apply seeking_say | exact X].
Qed.

(** *** The image written *)

(** What keeps the image from the card when [j] is the last name tried. *)
Definition hindered (s' : vol) (j : Z) : Prop :=
  troubled s s' \/ full s' \/
  (exists o, holds_name s l (image_path j) os o /\ (1000000 <= j \/ exist_answer s l o = FR_DENIED)) \/
  absent s l (image_path j) os /\ no_number s l os (image_path j).

Lemma closed_hindered path r fp s' : tried s ob l os path r fp s' -> r = FR_OK \/ o_fs (obj fp) = false.
Proof. intros []; auto. Qed.

Lemma tried_hindered j r fp s' : tried s ob l os (image_path j) r fp s' -> r <> FR_OK -> (fr_num r = 8 -> 1000000 <= j) -> hindered s' j.
Proof.
  intros T Ne X. unfold hindered. destruct T as [|o fp s' Hh S' V' _|fp s' AB NN _|fp s' F _]; [contradiction | | now auto | left; now left].
  right. right. left. exists o. split; [exact Hh|]. unfold exist_answer in *. destruct (_ =? 0); [left; now apply X | now right].
Qed.

Definition image : list Z := ram_bytes w (ram_buffer_length w).

(** The image is in a file, or the last name tried could not be used. *)
Definition image_stored (w' : world) : Prop :=
  exists j s' fp', on w' s' fp' /\ idx <= j <= Z.max idx 1000000 /\
    (forall i, idx <= i < j -> exists o, holds_name s l (image_path i) os o) /\
    (image_index (main_vars w') = j + 1 /\ absent s l (image_path j) os /\ (reads_back (image_path j) s' image \/ troubled s s') \/
     image_index (main_vars w') = j /\ hindered s' j).

Hypothesis HB : forall i, is_byte (ram_buffer w i).
Hypothesis HS : 0 <= ram_buffer_length w <= RAM_SIZE.

Lemma image_ok : bytes image /\ Z.of_nat (length image) = ram_buffer_length w /\ ram_buffer_length w < 2 ^ 32.
Proof.
  unfold image, ram_bytes. split; [apply Forall_map, Forall_forall; intros i _; apply HB|]. rewrite length_map, length_seq, Z2Nat.id by lia.
  split; [reflexivity|]. change RAM_SIZE with 6291456 in HS. lia.
Qed.

(** f_write and f_close, whatever f_open answered. *)
Lemma finish_wp j fr w1 : seeking w1 j fr -> (fr = 8 -> 1000000 <= j) ->
  wp (@do_write FF image) (fun y w2 => exists s2 fp2, on w2 s2 fp2 /\ main_vars w2 = main_vars w1 /\
    if fst y then hindered s2 j
    else absent s l (image_path j) os /\
      wp (f_close_fat fp2) (fun z s3 => if fr_ok (fst z) then reads_back (image_path j) s3 image else troubled s s3) s2) w1.
Proof.
  intros [I R B H (r & fp & s' & E & T & O)] X. destruct image_ok as (BB & Ln & L32). rewrite E in X.
  assert (r = FR_OK \/ r <> FR_OK) as [Er|Nr] by (destruct r; auto; right; discriminate).
  - destruct T as [s0 q fp s' AB S0 V0 CR|o| |]; [|unfold exist_answer in Er; destruct (_ =? 0) in Er; discriminate | discriminate | discriminate].
    destruct (image_path_ok j ltac:(unfold idx in B; lia)) as (SP & Lx & _).
    eapply wp_conseq; [apply (wp_do_file_write w1 s' fp image); [exact O | apply (write_image_wp s ob l os HO HT (image_path j) s0 q fp s'); auto; lia]|].
    intros [err bw] w2 (-> & r2 & fp2 & s2 & E2 & Q & O2). cbn [fst snd] in *. exists s2, fp2. split; [exact O2|]. split; [reflexivity|].
    rewrite <- E2 in Q. destruct err; [destruct Q; [now left | right; now left]|]. auto.
  - destruct (closed_hindered _ _ _ _ T) as [|CL]; [contradiction|].
    eapply wp_conseq; [apply (wp_do_file_write w1 s' fp image (fun y s2 => fst (fst y) = FR_INVALID_OBJECT /\ s2 = s') O)|].
    + unfold wp. now rewrite f_write_closed.
    + intros [err bw] w2 (-> & r2 & fp2 & s2 & E2 & [Q ->] & O2). cbn [fst snd] in *. exists s', fp2. split; [exact O2|]. split; [reflexivity|].
      subst r2. cbn in E2. subst err. exact (tried_hindered j r fp s' T Nr X).
Qed.

Lemma write_image_file_wp fp : on w s fp -> wp (@write_jpeg FF) (fun _ w' => image_stored w') w.
Proof.
  intros O. unfold write_jpeg, say. wp_calls. set (w0 := set_calls _ _).
  wp_use (wp_print_preview w0); [exact HS|]. intros _ w1 (cs & -> & Hc). wp_calls.
  assert (on (set_calls (cs ++ Machine.calls w0) w0) s fp) as O1.
  { apply on_unrelated; [now apply (on_unrelated [_; _])|]. apply forallb_forall. intros c Hi. destruct (Hc c Hi) as (f & a & ->). reflexivity. }
  wp_use (open_image_wp fp (set_calls (cs ++ Machine.calls w0) w0)); auto. intros fr w2 (j & SK & X). wp_calls.
  apply (seeking_say _ _ _ " done, return code = %d\r\n" [fr]) in SK. apply (seeking_say _ _ _ "SDC  > Write data..." []) in SK.
  match goal with |- wp _ _ ?v => set (w3 := v) end. change (seeking w3 j fr) in SK. destruct (sk_ram _ _ _ SK) as [Er El].
  assert (ram_bytes w3 (ram_buffer_length w3) = image) as -> by (unfold ram_bytes, image; now rewrite Er, El).
  pose proof SK as [I _ B Hh _].
  wp_use (finish_wp j fr w3); auto. intros [err bw] w4 (s4 & fp4 & O4 & M4 & C). cbn [fst] in C. rewrite I in M4. destruct err.
  - wp_calls. exists j, s4, fp4. split; [now apply (on_unrelated [_])|]. split; [exact B|]. split; [exact Hh|]. right.
    cbn [main_vars set_calls]. now rewrite M4.
  - destruct C as [AB C]. wp_calls. cbn [main_vars set_calls]. rewrite M4. cbn [image_index set_image_index].
    eapply wp_lift; [apply i32_ok; unfold in_s, idx in *; change (2 ^ (32 - 1)) with 2147483648; lia|]. unfold upd_main. wp_calls.
    match goal with |- wp do_close _ (set_calls ?h ?v) =>
      assert (on (set_calls h w4) s4 fp4) as O5 by (now apply (on_unrelated [_; _; _; _] w4));
      wp_use (wp_do_close (set_calls h v) s4 fp4 _ (on_calls _ _ _ _ O5 eq_refl) C)
    end.
    intros fr5 w5 (-> & r5 & fp5 & s5 & Q & O6). wp_calls. exists j, s5, fp5.
    split; [exact (on_calls _ _ _ _ (on_unrelated [palClearLine GPIOD_LED_BLUE; chprintf "done, return code = %d\r\n" [fr5]] _ _ _ O6 eq_refl) eq_refl)|].
    split; [exact B|]. split; [exact Hh|]. left. split; [reflexivity|]. split; [exact AB|]. cbn [fst] in Q. destruct (fr_ok r5); auto.
Qed.

End Firmware.

(** ** A card it is run on *)

(** 2000 bytes of image, after image004711.jpg has been stored. *)
Definition shot : world :=
  set_main (set_image_index 4711 (main_vars reset_world))
    (set_ram_buffer_length 2000 (set_ram_buffer (fun i => (7 * i + 3) mod 256) reset_world)).

Definition plain_buf (h : list call) : list Z := repeat 0 256.

Definition plain_dir (h : list call) : DIR := Root.dp.

Definition sample_files : FileSystem :=
  @fat_files steady roomy example_card (Root.s, Root.fp) 0 plain_buf plain_dir.

(** The name of the index is taken, the next one is free; the file is read back
    under another spelling of it. *)
Example write_jpeg_runs :
  match @write_jpeg sample_files shot with
  | Ok (_, w) => image_index (main_vars w) = 4713 /\
      match @replay steady roomy (Root.s, Root.fp) plain_buf plain_dir (Machine.calls w) with
      | Some (s, fp) => match @fetch steady roomy (repeat 0 256) Root.dp fp (path_of "/IMAGE004712.JPG") 5000 s with
                        | Ok (Some d, _) => d = ram_bytes shot 2000
                        | _ => False
                        end
      | None => False
      end
  | Err _ => False
  end.
Proof. vm_compute. repeat split. Qed.

Section Claim.
Context `{D : DiskIo} {DL : DiskLaws D} {HP : FfHeap} {other : FileSystem}.

(** C3: write_jpeg on the model of FatFs.  The root directory of the mounted volume
    lists [os] and has three free entries in a row.  Then write_jpeg ends without a
    fault; the names from the index on are tried in order and those before the last,
    [j], are names of objects.  If the index is advanced past [j], no object had
    that name, and opening and reading the file of that name gives back the image,
    byte for byte, unless a call of the disk layer failed or the table has a
    reserved entry.  If it is not advanced, one of these is the reason, or the volume
    is full, or [j] has reached a million, or the object of that name is read-only
    or a directory, or all numbers of its short name are taken. *)
Theorem write_jpeg_stores start n0 nambuf stack_dir s fp ob l os w :
  let idx := image_index (main_vars w) in
  let image := ram_bytes w (ram_buffer_length w) in
  sclust ob = 0 -> table s ob l -> listed s l 0 os -> tidy s l -> has_room s l ->
  (forall k, ff_memalloc k NAMBUF = true) -> (forall h, lfn_buf (nambuf h)) ->
  0 <= idx < 2 ^ 31 - 1 -> (forall i, is_byte (ram_buffer w i)) -> 0 <= ram_buffer_length w <= RAM_SIZE ->
  on_card start n0 nambuf stack_dir w s fp ->
  exists w' j s' fp', @write_jpeg (fat_files start n0 nambuf stack_dir) w = Ok (tt, w') /\
    on_card start n0 nambuf stack_dir w' s' fp' /\ idx <= j <= Z.max idx 1000000 /\
    (forall i, idx <= i < j -> exists o, holds_name s l (image_path i) os o) /\
    (image_index (main_vars w') = j + 1 /\ absent s l (image_path j) os /\
       (reads_back (image_path j) s' image \/ troubled s s') \/
     image_index (main_vars w') = j /\
       (troubled s s' \/ full s' \/
        (exists o, holds_name s l (image_path j) os o /\ (1000000 <= j \/ exist_answer s l o = FR_DENIED)) \/
        absent s l (image_path j) os /\ no_number s l os (image_path j))).
Proof.
  intros idx image HO HT HL TD HR HM HN HI HB HS O.
  pose proof (write_image_file_wp start n0 nambuf stack_dir s ob l os w HO HT HL TD HR HM HN HI HB HS fp O) as W.
  apply wp_ok in W as ([] & w' & R & j & s' & fp' & W). exists w', j, s', fp'. auto.
Qed.

End Claim.

Lemma write_jpeg_stores_witness :
  exists w' j s' fp', @write_jpeg sample_files shot = Ok (tt, w') /\
    @on_card steady roomy (Root.s, Root.fp) 0 plain_buf plain_dir w' s' fp' /\ 4711 <= j <= 1000000 /\
    (forall i, 4711 <= i < j -> exists o, holds_name Root.s [] (image_path i) Root.os o).
Proof.
  destruct (@write_jpeg_stores steady steady_laws roomy example_card (Root.s, Root.fp) 0 plain_buf plain_dir Root.s Root.fp Root.ob [] Root.os shot)
    as (w' & j & s' & fp' & R & O & B & H & _).
  - reflexivity.
  - apply root_table.
  - apply root_listed.
  - apply root_tidy.
  - exists 6. change (entries (lay Root.s) []) with 16. split; [lia|]. split; [lia | vm_compute; reflexivity].
  - reflexivity.
  - intros h. apply zero_buf.
  - cbn. lia.
  - intros i. cbn [ram_buffer shot set_main set_ram_buffer_length set_ram_buffer]. in_range.
  - cbn. lia.
  - now split; [apply Nat.le_0_l|].
  - exists w', j, s', fp'. change (image_index (main_vars shot)) with 4711 in *. auto.
Defined.
